(* ===== verification/_CoqProject ===== *)
-Q . S2P
Prelude.v
PyText.v
Program.v
RequestIds.v
Sha256.v
IsoTime.v
PyStrings.v
JsonText.v
Json.v
JsonStandIn.v
Base64.v
Protocol.v
Journal.v
JournalFacts.v
Screen.v
ScreenFacts.v
Supervisor.v
SupervisorSpec.v
SupervisorFacts.v
SupervisorRuns.v
SupervisorWitnesses.v
SupervisorFindings.v
HeadVitality.v
HeadVitalityFacts.v
HeadVitalityEpisode.v
HeadVitalityReduce.v
HeadVitalityReduceFacts.v
HeadVitalityVerdicts.v
HeadVitalitySpec.v
HeadVitalityRefine.v
HeadVitalityProperties.v
HeadVitalityIndependence.v
HeadVitalityTraces.v
HeadVitalityPolicy.v
HeadVitalityGuard.v
WaitVitality.v
WaitVitalityFacts.v
WaitVitalitySafety.v
RecoveryLadder.v
Board.v
BoardFacts.v
TerminalTaxonomy.v
WaitCard.v
WaitCardFacts.v
GateBackend.v
WaitCards.v
WaitCardsFacts.v
WaitCardsRuns.v
WaitCardsWitnesses.v
E2eBudget.v
E2eBudgetFacts.v
E2eLedger.v
E2eLedgerFacts.v
E2eWitnesses.v
Admission.v
AdmissionFacts.v
AdmissionRules.v
AdmissionWitnesses.v
BudgetCandidates.v
BudgetCandidatesFacts.v
BudgetLedger.v
BudgetLedgerFacts.v
BudgetRuns.v
BudgetDrain.v
BudgetWitnesses.v
WorkerLifecycle.v
WorkerLifecycleFacts.v
ContinuationLadder.v
ContinuationLadderFacts.v
ContinuationRecord.v
ContinuationRuns.v
Pause.v
PauseOps.v
PauseRuns.v
PauseFacts.v
PauseWitnesses.v
Scenarios.v
Witnesses.v
ContinuationWitnesses.v
Findings.v
