(* ===== verification/Prelude.v ===== *)
(** * Verification of the ummanu dispatcher, board and head supervisor

    ummanu runs coding agents ("heads") on cards of a board.  Each head is owned
    by a supervisor process, which holds its terminal, delivers input to it,
    answers callers on a socket and keeps a journal.  The dispatcher waits for a
    worker or a reviewer head, judges from several evidence channels whether the
    head is alive, quiet, stalled, suspended or dead, and only then may prompt,
    resume, replace or give up on it; it hands a red verdict back to the worker
    it retained; and it keeps wait cards, which wait for an outside fact with no
    head at all.  The board is the record of which card is where, who may move
    it, and what a terminal move means.  This library models that logic, from
    the bytes of the journal and the raw readings up to whole ticks and whole
    runs with their effects, and proves the properties the code promises about
    them.

    ** The program's parts and the files that model them

    All sources are under src/src/ummanu/.

    - [Prelude], [PyText]: the language.  Exceptions and the error monad [res],
      JSON and [Any] values [pyval], dicts, string enumerations ([StrEnum]),
      [str], [int()], [float()], slices, [strip], [split] and formatting, and
      record update for [dataclasses.replace].  [PyStrings] adds [replace],
      [lower], [repr] and comma lists; [Sha256] is the hash of [hashlib];
      [IsoTime] is what clients use of [datetime], a class with its laws and the
      Gregorian calendar as its instance.  [JsonText] is what clients use of the
      [json] module, two classes with their laws, and [Json] the grammar that
      discharges them ([JsonStandIn]: the float texts of the witnesses);
      [Base64] is the [base64] module.
    - [Program]: the state, error and log monad of the stateful programs, and
      the logic of postconditions and monitors over their logs.  [RequestIds]
      (dispatch/state.py): the request ids that make a repeat recognisable.
    - [Protocol] (runtime/head/local_pty/protocol.py): limits, frames, payloads
      and refusals of the socket.  [Journal] (journal.py): the writer, the
      tolerant reader and the bounded reader of the end.  [Screen] (screen.py):
      the text grid whose changes count as progress.
    - [Supervisor] (supervisor.py): the process that owns one head, as a program
      in a state monad over the state it keeps and the log of what it did, from
      [main] through the event loop to [_shutdown].
    - [HeadVitality] (dispatch/head_vitality.py): a [VitalitySnapshot] is one
      channel's reading of one run; one operation per channel
      ([from_pid_heartbeat], [from_provider_cursor], [from_child_activity],
      [from_supervisor_journal], [from_pane_readiness]), the fan-out
      [snapshots_from_status] and the JSON codec.  [HeadVitalityFacts]: what a
      reading may say, and the cursors between two readings.
    - [HeadVitalityEpisode], [HeadVitalityReduce]
      (dispatch/head_vitality_episode.py): the persisted [VitalityEpisode] with
      its validation and codec, and [reduce_vitality], which fuses one batch of
      snapshots into it.  The one long function of the source is cut at its own
      arms: [absorb] is its observation stages, [conclude] its verdict arms in
      the order the code tries them, [raise_answer_owed] and [finish] its end.
      [recovery_outlook] and [interrupted_command_note] are here too.
    - [HeadVitalityPolicy] (dispatch/head_vitality_policy.py): one recovery
      intent per tick.  [HeadVitalityGuard] (dispatch/head_vitality_guard.py):
      the gate before a destructive step.
    - [WaitVitality] (dispatch/wait_vitality.py, with the report prompt of
      dispatch/worker_report.py and dispatch/worker_lifecycle.py and the
      ceilings of dispatch/watchdog.py and infra/env.py): one wait tick of a
      role, as a program in a state monad [M] over the card's record, with the
      log of its effects.  A raised exception keeps the record and the log.
      What the host, the clock and the environment answered is a [Host].
    - [WorkerLifecycle] (dispatch/worker_lifecycle.py,
      runtime/head_run_binding.py): the durable records of a worker handed
      across validation.  [ContinuationLadder] (dispatch/worker_continuation.py):
      the dispatcher's step over such a card.  [ContinuationRecord]: which records
      a step saves and what reading one back makes of it.
    - [Pause] (dispatch/pause.py): the flag of a drain or a freeze, its expiry
      and its legacy mirror.  [PauseOps] (dispatch/pause_ops.py, with the launch
      intents of dispatch/launch.py): pause, resume and the lifting of an expired
      freeze, as programs over the dispatcher's records that log every save, stop
      and bring-up.
    - [WaitCard] (board/wait_card.py): the spec, the state, the cancel and the
      view of a wait card, as they are parsed, written and read back.
      [GateBackend] (dispatch/gate.py): one read through the gh tool.
      [WaitCards] (dispatch/wait_cards.py, dispatch/po_delivery.py): the
      dispatcher's tick over such a card, from the claim to the terminal move.
    - [E2eBudget] (board/e2e_budget.py): the budget of e2e runs, and what the
      owner's recorded answer authorizes.  [E2eLedger] (board/sql_sprints.py,
      board/sql_audit.py, board/e2e_record.py, tasks.py, sprints.py): the rows that
      carry it, with the charge, the dispatch intent before and after the merge,
      the raises and a sprint's restore as transactions over them.
    - [Admission] (board/sprint_admission.py, sprints.py, tasks.py): the index of
      reserved projects, the file that carries it, the guard's question who
      reserves a project, and the refusals of a second open sprint.
    - [BudgetCandidates] (board/budget_candidates.py and the classifier of
      dispatch/production.py): which committed events may spend a sprint's
      restart budget, in SQL and in Python, and what they spend.
      [BudgetLedger] (board/sql_sprints.py, board/sprint_read.py, sprints.py,
      restore.py, board/sql_host.py, board/sql_audit.py, dispatch/production.py):
      the rows a budget is counted from, the normalized budget, the charge with the
      stop it may force, a sprint's restore, and the dispatcher's pass.
    - [Board] (board/models.py, roles.py, transitions.py, card_transitions.py):
      the entities, the transition registry and card authority.
    - [TerminalTaxonomy] (board/terminal_taxonomy.py): the typed description of
      a terminal move, its record, its reader and its budget class.

    The layers meet where the code's do: the supervisor appends to the journal
    and feeds the screen; the wait tick calls the fan-out, the reducer, the
    policy and the guard, and persists the episode between ticks; the
    continuation step persists its two records; a pause and a resume work on
    the records the ticks keep; a wait card's tick reads its
    fields and GitHub through the backend, and its terminal move carries a
    taxonomy record.

    ** What the theorems show

    - The journal ([JournalFacts]): what complete appends wrote is read back; a
      torn last write leaves the records before it in place whatever is appended
      later, and takes with it the line that is appended to it; and the bounded
      read of the end is a suffix of the full one.  The screen ([ScreenFacts]) never fails and never
      grows.
    - The supervisor: [SupervisorSpec] is its contract, an automaton over its
      log, and [SupervisorFacts] a simulation kept by every operation, also when
      one raises.  [SupervisorRuns] concludes for whole runs: the program only
      has accepted logs; an [input.accepted] record counts exactly the bytes on
      the terminal; answers follow questions; the output a caller reads is the
      end of the head's stream; callers are bounded.
    - The reducer: [HeadVitalityReduceFacts] and [HeadVitalityVerdicts] follow
      the well-formedness of the episode through every stage;
      [HeadVitalitySpec] states the verdict as a decision table over what was
      heard, and [HeadVitalityRefine] proves that the reducer returns and
      implements it.  [HeadVitalityProperties] reads off the table when a head
      is dead, suspended, advancing, confirmed or unverifiable, what ends a
      confirmation, and that the deadline shown to operators is exact.  [HeadVitalityIndependence]: the
      verdict does not depend on batch order, on the pane or on foreign runs.
    - Runs of ticks ([HeadVitalityTraces]): a stall is earned by silence,
      suspended time is not charged, and a working child excuses a quiet head
      for a bounded time only.
    - Recovery ([RecoveryLadder]): the intents, the counting of deterministic
      refusals, and the ladder of one suspension span: one SIGCONT, a response
      window, one escalation.
    - The wait tick ([WaitVitalityFacts], [WaitVitalitySafety]): a tick is
      confined to its role; a report round sends at most one prompt, also when
      the dispatcher dies after any of its effects and restarts from disk; and
      nothing is respawned or given up without the guard's authority.
    - The continuation ([WorkerLifecycleFacts], [ContinuationLadderFacts],
      [ContinuationRecord], [ContinuationRuns]): monitors over the step's log,
      lifted to runs with crashes: one safe recovery per episode, no prompt without
      evidence the same tick admitted of the very run it prompts, a transition that
      replays to the same round, and saved records that read back as they are,
      but for an episode the reader shuts.
    - Pauses ([PauseRuns], [PauseFacts]): over any run of pauses, resumes and
      expiries cut anywhere, no worker head is brought up beside another and at
      every moment each live one is named on disk, provided that a refused launch
      whose head runs leaves a heartbeat ([heartbeat_tells]); a freeze lifts itself
      exactly when its actor and its age say so, and the flag with it.
    - Wait cards ([WaitCardFacts], [WaitCardsFacts], [WaitCardsRuns]): what
      creation wrote is what the dispatcher reads; over any run of ticks with
      crashes a wait has one result, frozen on the card before it is delivered,
      delivered to each address while the card owes it, and followed by the
      terminal move; no wait outlives its deadline, and no fact later than the
      deadline ends it otherwise.
    - The e2e budget ([E2eBudgetFacts], [E2eLedgerFacts]): exactly which comment
      authorizes a raise, down to the grammar of its answer line; that a decision
      card decides one budget; and, over any interleaving of transactions, the
      after-merge intents and restores of accounts in order among them, that a
      sprint is charged at most what it was created or last restored with plus what
      the raises recorded since granted, each authorized by a comment of the owner
      of its own.
    - Admission ([AdmissionFacts], [AdmissionRules]): the index updated sprint by
      sprint is the one built from the board; the guard names exactly the open
      sprints that reserve a project; whatever sequence of creations, changes and
      closings, two open sprints share no project, no product and no tree; an
      import admits what creating one by one would.
    - The restart budget ([BudgetCandidatesFacts], [BudgetLedgerFacts],
      [BudgetRuns], [BudgetDrain]): the two forms of the candidate predicate
      agree and miss no event that spends; over any interleaving of passes cut
      anywhere, charges, restores, other records and state changes, the rows a
      sprint's budget is counted from are one for each charge record since its last
      restore, on top of what that wrote, and an event has one charge; the charge
      that reaches the hard threshold stops the sprint and no other does; a
      backlog is gone after as many passes as it has pages.
    - The board ([BoardFacts], [TerminalTaxonomy]): exact authority, transitions that change the state only, and a
      reader that accepts only what the writer would have written.
    - [Scenarios], [Witnesses], [SupervisorWitnesses], [WaitCardsWitnesses],
      [E2eWitnesses], [AdmissionWitnesses], [BudgetWitnesses], [PauseWitnesses]
      and [ContinuationWitnesses] evaluate every property with hypotheses at a
      concrete input; [Findings], [SupervisorFindings] and the ends of the other
      witness files are closed runs in which the code departs from its own
      documentation.

    ** Modelling choices

    Times are exact: an integer number of ticks of 2^-22 s, on which every float
    operation the code performs on epoch seconds of our era is exact (see the
    section on time below); the aware [datetime]s of wait cards are
    microseconds, in the range Python gives them.  Strings are lists of code
    points below 256; [Json] refuses a text that names a larger one.  Python's
    rendering of floats, lists and dicts is a parameter, the class [PyRepr];
    reading and writing the text of a float is [FloatText], and the Unicode
    tables are [Unicode].  Every theorem holds for any instance of these that
    keeps the laws of its class.

    The kernel, the clock, the callers, the host and the dispatcher's other services
    answer through a [World] or a [Host] ([WaitCards] has a [World] of its own):
    a function of the number of the call, over which the theorems quantify.  A
    crash keeps any prefix of the effects of a step and restarts from what was
    durably saved.  The board's store appears as a [World] to the dispatcher,
    and as rows to [E2eLedger] and [BudgetLedger], where a transaction returns the
    store it leaves and one that raises leaves the one it was given.

    Fuel is used in three places and is enough in each: the recursive descent of
    [Json] (a value needs no more than the length of its text; the round trip is
    proved at that fuel), the loop over the lines of a client's buffer (at most
    one line per byte; [line_loop_reads] shows that no complete line is left) and
    the year of a day of the calendar ([year_from_spec]).  The supervisor's own loop runs over the list of what the selector
    reported, and the tick of a wait card through the claims it makes itself has
    a [depth], the interpreter's stack, with the exception it raises when a card
    still reads as Ready after each of them; every theorem holds at any depth.
    Every other loop runs over a list.

    ** Not modelled

    The host's work behind a permitted respawn or escalation (stopping panes,
    launching heads, the Blocked transition), the provider-failure verdict,
    which a tick takes as given, and of the wait tick and the continuation the
    comment bodies and the telemetry keys of an outcome.  Of the supervisor: the
    claim on a run directory and the socket's binding, the scoped variant with
    its memory limits, and the client library.  The interpreter's recursion
    limit elsewhere.  The git side of the gate's backend call, and the gate
    itself.  Of a pause: the start of a reviewer but for what it leaves on the
    record, head runs and routing snapshots, the observers' own records and the
    document that shows the state.  Of the board: events and their validation, and
    storage and SQL but for the rows of the two ledgers; the replay of an exported
    history into a new board; the rest of the sprint and card writers; routing, the
    import's order and production rights; attempt outcomes, and the e2e run records
    but for their count.  The web front end, installation, backup and
    memory services are I/O or glue.

    ** Plan

    What would come next: the e2e run records (board/e2e_record.py) and the
    driver of the after-merge runs, the board's events and attempt accounting
    (board/models.py from line 287, attempt_outcome.py), task routing, and the
    other state machines of the dispatcher record (the gate, the release). *)

From stdpp Require Export base list sets strings numbers pretty sorting.

#[global] Open Scope Z_scope.

Declare Scope py_scope.
Delimit Scope py_scope with py.
#[global] Open Scope py_scope.

(** Bounds and shapes that the constructors' slices and dict updates give. *)
Create HintDb py.

(** ** Python exceptions and the error monad

    A raised exception is a value: its class name and its message.  [res] is
    the result of a Python call, [Ok] for a returned value and [Raise] for an
    exception that leaves the call.  The monad instances give stdpp's
    [x ← m; k] notation the meaning of sequencing with early exit. *)

Inductive exn := Exn (cls : string) (msg : string).

Inductive res (A : Type) : Type :=
| Ok (a : A)
| Raise (e : exn).
Arguments Ok {A} a.
Arguments Raise {A} e.

#[global] Instance exn_eq_dec : EqDecision exn.
Proof. solve_decision. Defined.

#[global] Instance res_ret : MRet res := @Ok.
#[global] Instance res_bind : MBind res :=
  λ A B f m, match m with Ok a => f a | Raise e => Raise e end.
#[global] Instance res_fmap : FMap res :=
  λ A B f m, match m with Ok a => Ok (f a) | Raise e => Raise e end.

(** [require b e]: the source's [if not b: raise e]. *)
Definition require (b : bool) (e : exn) : res unit :=
  if b then Ok tt else Raise e.

Definition is_ok {A} (m : res A) : bool :=
  match m with Ok _ => true | Raise _ => false end.

Lemma bind_Ok {A B} (f : A → res B) (m : res A) (b : B) :
  (m ≫= f) = Ok b ↔ ∃ a, m = Ok a ∧ f a = Ok b.
Proof. destruct m; simpl; naive_solver. Qed.

Lemma fmap_Ok {A B} (f : A → B) (m : res A) (b : B) :
  (f <$> m) = Ok b ↔ ∃ a, m = Ok a ∧ f a = b.
Proof. destruct m; simpl; naive_solver. Qed.

Lemma require_Ok (b : bool) (e : exn) (u : unit) :
  require b e = Ok u ↔ b = true.
Proof. destruct b, u; simpl; naive_solver. Qed.

(** A [for] loop whose body may raise. *)
Fixpoint foldM {S A} (f : S → A → res S) (s : S) (l : list A) : res S :=
  match l with
  | [] => Ok s
  | a :: l' => s' ← f s a; foldM f s' l'
  end.

(** Repeatedly invert the successful monadic steps in the context. *)
Ltac inv_ok :=
  repeat match goal with
  | H : Ok _ = Ok _ |- _ => injection H as H; try subst
  | H : Raise _ = Ok _ |- _ => discriminate H
  | H : Ok _ = Raise _ |- _ => discriminate H
  | H : mret _ = Ok _ |- _ => injection H as H; try subst
  | H : mbind _ _ = Ok _ |- _ =>
      let x := fresh "x" in let E := fresh "E" in
      apply bind_Ok in H as (x & E & H)
  | H : fmap _ _ = Ok _ |- _ =>
      let x := fresh "x" in let E := fresh "E" in
      apply fmap_Ok in H as (x & E & H)
  | H : require _ _ = Ok _ |- _ => apply require_Ok in H
  end.

(** Split every [if] and [match] of the goal, then every one of the context. *)
Ltac split_goal :=
  repeat match goal with
  | |- context [ if ?b then _ else _ ] => let E := fresh "B" in destruct b eqn:E
  | |- context [ match ?x with _ => _ end ] => let E := fresh "B" in destruct x eqn:E
  end.

(** Turn boolean tests of the context into propositions [lia] understands. *)
Ltac boolify :=
  repeat match goal with
  | H : andb _ _ = true |- _ => apply andb_true_iff in H as [? ?]
  | H : orb _ _ = false |- _ => apply orb_false_iff in H as [? ?]
  | H : negb _ = true |- _ => apply negb_true_iff in H
  | H : negb _ = false |- _ => apply negb_false_iff in H
  | H : (_ <=? _) = true |- _ => apply Z.leb_le in H
  | H : (_ <=? _) = false |- _ => apply Z.leb_gt in H
  | H : (_ <? _) = true |- _ => apply Z.ltb_lt in H
  | H : (_ <? _) = false |- _ => apply Z.ltb_ge in H
  | H : (_ =? _) = true |- _ => apply Z.eqb_eq in H
  | H : (_ =? _) = false |- _ => apply Z.eqb_neq in H
  | H : bool_decide _ = true |- _ => apply bool_decide_eq_true in H
  | H : bool_decide _ = false |- _ => apply bool_decide_eq_false in H
  end.

(** ** Time

    The dispatcher's clocks are Python floats of epoch seconds.  A timestamp is
    modelled as an integer number of ticks of [2^-22] seconds.  Between 2004
    and 2038 a binary64 epoch value is a multiple of [2^-22] below [2^31], the
    thresholds are whole seconds, and sums, differences and maxima of such
    values are again multiples of [2^-22] below [2^31]: every float operation
    the modelled code performs on them is exact and equals the operation on
    ticks.  The non-finite floats are separate constructors of [pyfloat]. *)

Definition SECOND : Z := 4194304.

(** [int(x)] of a finite float: truncation toward zero to whole seconds. *)
Definition whole_seconds (t : Z) : Z := Z.quot t SECOND.

Definition seconds (n : Z) : Z := n * SECOND.

(** [f"{int(t)}"] of a duration. *)
Definition show_seconds (t : Z) : string := pretty (whole_seconds t).

(** [a or b] of two timestamps: [0.0] is falsy. *)
Definition or_time (a b : Z) : Z := if a =? 0 then b else a.

Inductive pyfloat := FFin (ticks : Z) | FInf | FNegInf | FNan.

(** ** Python values

    What [json.loads] can produce, and what the code receives where its
    signature says [Any].  Object keys are strings, as in JSON; an object is
    an insertion-ordered association list, as a Python dict is.  A character
    is one of the code points 0..255. *)

Inductive pyval :=
| VNone
| VBool (b : bool)
| VInt (z : Z)
| VFloat (f : pyfloat)
| VStr (s : string)
| VList (l : list pyval)
| VDict (d : list (string * pyval)).

(** [str(v)] of a float, a list or a dict: Python's own rendering, an interface
    the model is parametric in.  Every theorem holds for any rendering. *)
Class PyRepr := repr_compound : pyval → string.

Definition py_str `{PyRepr} (v : pyval) : string :=
  match v with
  | VNone => "None"
  | VBool true => "True"
  | VBool false => "False"
  | VInt z => pretty z
  | VStr s => s
  | VFloat _ | VList _ | VDict _ => repr_compound v
  end.

Definition py_truthy (v : pyval) : bool :=
  match v with
  | VNone => false
  | VBool b => b
  | VInt z => negb (z =? 0)
  | VFloat (FFin t) => negb (t =? 0)
  | VFloat _ => true
  | VStr s => negb (String.eqb s "")
  | VList l => match l with [] => false | _ => true end
  | VDict d => match d with [] => false | _ => true end
  end.

(** [str(v or "")]. *)
Definition py_str_or `{PyRepr} (v : pyval) : string :=
  if py_truthy v then py_str v else "".

Lemma py_str_or_str `{PyRepr} s : py_str_or (VStr s) = s.
Proof. unfold py_str_or. simpl. destruct (String.eqb_spec s ""); by subst. Qed.

(** [isinstance(v, (int, float)) and not isinstance(v, bool)]. *)
Definition is_number (v : pyval) : bool :=
  match v with VInt _ | VFloat _ => true | _ => false end.

(** The least integer magnitude [float()] refuses with OverflowError. *)
Definition FLOAT_OVERFLOW : Z := 2 ^ 1024 - 2 ^ 970.

Definition OverflowError : exn := Exn "OverflowError" "int too large to convert to float".

(** [float(v)] of a number. *)
Definition py_float (v : pyval) : res pyfloat :=
  match v with
  | VInt z => if Z.abs z <? FLOAT_OVERFLOW then Ok (FFin (seconds z)) else Raise OverflowError
  | VFloat f => Ok f
  | _ => Raise (Exn "TypeError" "float() argument must be a string or a real number")
  end.

(** The ticks of a finite float; [None] is [not math.isfinite]. *)
Definition finite (f : pyfloat) : option Z :=
  match f with FFin t => Some t | _ => None end.

(** The guard [isinstance(v, bool) or not isinstance(v, (int, float)) or not
    math.isfinite(float(v))], negated: the ticks when it lets the value pass. *)
Definition finite_number (v : pyval) : res (option Z) :=
  if is_number v then finite <$> py_float v else Ok None.

(** ** Dictionaries *)

Section dict.
Context {A : Type}.
Implicit Types (d : list (string * A)) (k : string) (v : A).

Fixpoint dict_get d k : option A :=
  match d with
  | [] => None
  | (k', v) :: d' => if String.eqb k' k then Some v else dict_get d' k
  end.

(** [k in d]. *)
Definition dict_has d k : bool :=
  match dict_get d k with Some _ => true | None => false end.

(** [{**d, k: v}]: an existing key keeps its place, a new one is appended. *)
Fixpoint dict_set d k v : list (string * A) :=
  match d with
  | [] => [(k, v)]
  | (k', v') :: d' => if String.eqb k' k then (k', v) :: d' else (k', v') :: dict_set d' k v
  end.

(** [{n: x for n, x in d.items() if n != k}]. *)
Definition dict_del d k : list (string * A) :=
  List.filter (λ p, negb (String.eqb p.1 k)) d.

Definition dict_wf d : Prop := NoDup d.*1.

Lemma dict_get_set_eq d k v : dict_get (dict_set d k v) k = Some v.
Proof.
  induction d as [|[k' v'] d IH]; simpl; [by rewrite String.eqb_refl|].
  destruct (String.eqb_spec k' k); simpl.
  - by rewrite (proj2 (String.eqb_eq _ _)).
  - by rewrite (proj2 (String.eqb_neq _ _)).
Qed.

Lemma dict_get_set_ne d k k' v : k ≠ k' → dict_get (dict_set d k v) k' = dict_get d k'.
Proof.
  intros Hne. induction d as [|[k1 v1] d IH]; simpl.
  - by rewrite (proj2 (String.eqb_neq _ _)).
  - destruct (String.eqb_spec k1 k) as [->|]; simpl.
    + by rewrite (proj2 (String.eqb_neq _ _)).
    + by destruct (String.eqb k1 k').
Qed.

Lemma dict_get_del_eq d k : dict_get (dict_del d k) k = None.
Proof.
  induction d as [|[k' v'] d IH]; simpl; [done|].
  destruct (String.eqb k' k) eqn:E; simpl; [done|]. by rewrite E.
Qed.

Lemma dict_get_del_ne d k k' : k ≠ k' → dict_get (dict_del d k) k' = dict_get d k'.
Proof.
  intros Hne. induction d as [|[k1 v1] d IH]; simpl; [done|].
  destruct (String.eqb_spec k1 k) as [->|]; simpl.
  - by rewrite (proj2 (String.eqb_neq _ _)).
  - by destruct (String.eqb k1 k').
Qed.

Lemma dict_get_Some_elem d k v : dict_get d k = Some v → (k, v) ∈ d.
Proof.
  induction d as [|[k' v'] d IH]; simpl; [done|].
  destruct (String.eqb_spec k' k) as [->|]; intros; simplify_eq; [left|right; auto].
Qed.

Lemma dict_get_None_keys d k : dict_get d k = None ↔ k ∉ d.*1.
Proof.
  induction d as [|[k' v'] d IH]; simpl; [set_solver|].
  destruct (String.eqb_spec k' k) as [->|]; set_solver.
Qed.

Lemma dict_set_fresh d k v : dict_get d k = None → dict_set d k v = d ++ [(k, v)].
Proof.
  induction d as [|[k' v'] d IH]; simpl; [done|].
  destruct (String.eqb k' k); [done|]. intros. by rewrite IH.
Qed.

Lemma dict_set_keys d k v : (dict_set d k v).*1 = if dict_has d k then d.*1 else d.*1 ++ [k].
Proof.
  unfold dict_has. induction d as [|[k' v'] d IH]; csimpl; [done|].
  destruct (String.eqb_spec k' k) as [->|]; csimpl; [done|].
  rewrite IH. by destruct (dict_get d k).
Qed.

Lemma dict_set_wf d k v : dict_wf d → dict_wf (dict_set d k v).
Proof.
  unfold dict_wf. rewrite dict_set_keys. unfold dict_has.
  destruct (dict_get d k) eqn:E; [done|]. intros.
  apply NoDup_app; repeat split; [done| |apply NoDup_singleton].
  apply dict_get_None_keys in E. set_solver.
Qed.

Lemma dict_del_wf d k : dict_wf d → dict_wf (dict_del d k).
Proof.
  unfold dict_wf, dict_del. induction d as [|[k' v'] d IH]; csimpl; [done|].
  rewrite NoDup_cons. intros [Hn Hd]. destruct (String.eqb k' k); csimpl; [auto|].
  apply NoDup_cons. split; [|auto]. intros Hin. apply Hn.
  apply list_elem_of_fmap in Hin as ([k2 v2] & -> & Hin).
  apply list_elem_of_In, filter_In, proj1, list_elem_of_In in Hin.
  apply list_elem_of_fmap. by exists (k2, v2).
Qed.

(** Every stored value satisfies [P]. *)
Definition dict_all (P : A → Prop) d : Prop := Forall (λ p, P p.2) d.

Lemma dict_all_set (P : A → Prop) d k v : dict_all P d → P v → dict_all P (dict_set d k v).
Proof.
  unfold dict_all. induction 1 as [|[k' v'] d Hp Hd IH]; simpl; intros.
  - by constructor.
  - destruct (String.eqb k' k); constructor; auto.
Qed.

Lemma dict_all_del (P : A → Prop) d k : dict_all P d → dict_all P (dict_del d k).
Proof.
  unfold dict_all, dict_del. induction 1 as [|[k' v'] d Hp Hd IH]; simpl; [done|].
  destruct (String.eqb k' k); simpl; auto.
Qed.

(** A comprehension [{f(k): g(v) for k, v in d.items()}]: later keys win. *)
Definition dict_of_list (l : list (string * A)) : list (string * A) :=
  fold_left (λ acc p, dict_set acc p.1 p.2) l [].

Lemma dict_of_list_wf d : dict_wf d → dict_of_list d = d.
Proof.
  unfold dict_of_list, dict_wf.
  enough (∀ acc, NoDup (acc.*1 ++ d.*1) →
    fold_left (λ acc p, dict_set acc p.1 p.2) d acc = acc ++ d) as H by (by intros; apply (H [])).
  induction d as [|[k v] d IH]; intros acc Hnd; simpl; [by rewrite app_nil_r|].
  rewrite dict_set_fresh; [rewrite IH|].
  - by rewrite <-(assoc_L (++)).
  - rewrite fmap_app, <-(assoc_L (++)). done.
  - apply dict_get_None_keys. apply NoDup_app in Hnd as (_ & Hd & _).
    intros Hk. apply (Hd _ Hk). simpl. set_solver.
Qed.

Lemma dict_set_Forall (P : string * A → Prop) d k v :
  Forall P d → P (k, v) → Forall P (dict_set d k v).
Proof.
  induction 1 as [|[k' v'] d Hp Hd IH]; simpl; intros.
  - by constructor.
  - destruct (String.eqb_spec k' k) as [->|]; constructor; auto.
Qed.

Lemma dict_of_list_Forall (P : string * A → Prop) l : Forall P l → Forall P (dict_of_list l).
Proof.
  unfold dict_of_list. intros Hl. assert (Forall P ([] : list (string * A))) as Hacc by done.
  revert Hacc. generalize ([] : list (string * A)). induction Hl as [|[k v] l Hp Hl IH]; intros acc Hacc;
    simpl; [done|]. apply IH. by apply dict_set_Forall.
Qed.

Lemma dict_of_list_is_wf l : dict_wf (dict_of_list l).
Proof.
  unfold dict_of_list. assert (dict_wf ([] : list (string * A))) as Hacc by apply NoDup_nil_2.
  revert Hacc. generalize ([] : list (string * A)). induction l as [|[k v] l IH]; intros acc Hacc;
    simpl; [done|]. apply IH. by apply dict_set_wf.
Qed.

Lemma dict_del_Forall (P : string * A → Prop) d k : Forall P d → Forall P (dict_del d k).
Proof.
  unfold dict_del. induction 1 as [|[k' v'] d Hp Hd IH]; simpl; [done|].
  destruct (String.eqb k' k); simpl; auto.
Qed.
End dict.

(** [payload.get(k)] of a JSON object: an absent key reads as [None]. *)
Definition get (d : list (string * pyval)) (k : string) : pyval :=
  default VNone (dict_get d k).

(** ** Enumerations

    A [StrEnum] of the source: its members in declaration order, each with
    its wire value; [enum_of_value] is the constructor call [E(text)], whose
    [ValueError] is [None] here. *)

Class StrEnum (A : Type) `{EqDecision A} := {
  enum_value : A → string;
  enum_members : list A;
  enum_complete : ∀ a, a ∈ enum_members;
  enum_value_inj : ∀ a b, enum_value a = enum_value b → a = b;
}.

Definition enum_of_value {A} `{StrEnum A} (s : string) : option A :=
  List.find (λ a, String.eqb (enum_value a) s) enum_members.

Lemma enum_of_value_value {A} `{StrEnum A} (a : A) : enum_of_value (enum_value a) = Some a.
Proof.
  unfold enum_of_value. destruct (List.find _ _) as [b|] eqn:E.
  - apply List.find_some in E as [_ E]. apply String.eqb_eq in E.
    by apply enum_value_inj in E as ->.
  - pose proof (List.find_none _ _ E a) as Hn. simpl in Hn.
    rewrite String.eqb_refl in Hn. specialize (Hn (proj1 (list_elem_of_In _ _) (enum_complete a))).
    done.
Qed.

Lemma enum_of_value_Some {A} `{StrEnum A} (s : string) (a : A) :
  enum_of_value s = Some a ↔ s = enum_value a.
Proof.
  split; [|intros ->; apply enum_of_value_value].
  intros E. apply List.find_some in E as [_ E]. by apply String.eqb_eq in E.
Qed.

(** Close an enumeration's completeness and injectivity obligations. *)
Ltac solve_enum :=
  first [ intros []; repeat (first [left | right]); done
        | intros [] []; simpl; intros; (done || discriminate) ].

(** ** Strings *)

(** [s[:n]]. *)
Fixpoint str_take (n : nat) (s : string) : string :=
  match n, s with
  | S n', String c s' => String c (str_take n' s')
  | _, _ => EmptyString
  end.

Lemma str_take_length n s : (String.length (str_take n s) ≤ n)%nat.
Proof. revert s. induction n; intros [|c s]; simpl; auto with lia. specialize (IHn s). lia. Qed.

Lemma str_take_id n s : (String.length s ≤ n)%nat → str_take n s = s.
Proof.
  revert s. induction n; intros [|c s]; simpl; intros; try done; try lia.
  f_equal. apply IHn. lia.
Qed.

Lemma str_take_take n s : str_take n (str_take n s) = str_take n s.
Proof. apply str_take_id, str_take_length. Qed.

#[global] Arguments str_take : simpl never.
#[export] Hint Resolve str_take_length dict_set_wf dict_set_Forall dict_of_list_is_wf dict_of_list_Forall : py.

(** Python's [str.isspace] on code points below 256. *)
Definition is_space (c : Ascii.ascii) : bool :=
  let n := Ascii.nat_of_ascii c in
  ((9 <=? n) && (n <=? 13) || (28 <=? n) && (n <=? 32) || (n =? 133) || (n =? 160))%nat.

Fixpoint lstrip_by (p : Ascii.ascii → bool) (s : string) : string :=
  match s with
  | EmptyString => EmptyString
  | String c s' => if p c then lstrip_by p s' else s
  end.

Fixpoint rstrip_by (p : Ascii.ascii → bool) (s : string) : string :=
  match s with
  | EmptyString => EmptyString
  | String c s' =>
      let r := rstrip_by p s' in
      match r with EmptyString => if p c then EmptyString else String c r | _ => String c r end
  end.

(** [s.strip()] and [s.strip(chars)]. *)
Definition str_strip (s : string) : string := rstrip_by is_space (lstrip_by is_space s).

Fixpoint char_in (c : Ascii.ascii) (s : string) : bool :=
  match s with EmptyString => false | String c' s' => Ascii.eqb c' c || char_in c s' end.

Definition str_strip_chars (chars s : string) : string :=
  rstrip_by (λ c, char_in c chars) (lstrip_by (λ c, char_in c chars) s).

(** [needle in s]. *)
Definition str_contains (needle s : string) : bool :=
  match String.index 0 needle s with Some _ => true | None => false end.

Definition nonempty (s : string) : bool := negb (String.eqb s "").

(** [sorted(words)]: by code points. *)
Definition sort_strings (l : list string) : list string := merge_sort String.le l.

Lemma sort_strings_perm (l k : list string) : l ≡ₚ k → sort_strings l = sort_strings k.
Proof.
  intros Hp. apply (Sorted_unique String.le); try apply (Sorted_merge_sort _).
  unfold sort_strings. by rewrite !merge_sort_Permutation.
Qed.

(** ** Record update

    [dataclasses.replace] with one changed field is [e <| field := v |>]; a
    record declares its eta-expansion once with [Settable]. *)

Class Settable (R : Type) := eta_expand : R → R.
Class Setter {R T : Type} (proj : R → T) := update : (T → T) → R → R.

Ltac build_setter R proj :=
  let e := eval unfold eta_expand in (@eta_expand R _) in
  let e := eval hnf in e in
  lazymatch eval pattern proj in e with
  | ?g _ => let s := eval cbv beta in (λ h r, g (λ r', h (proj r')) r) in exact s
  end.

#[global] Hint Extern 0 (@Setter ?R _ ?proj) => build_setter R proj : typeclass_instances.

Notation "e <| f := v |>" := (update (proj := f) (λ _, v) e)
  (at level 12, left associativity, format "e  <|  f  :=  v  |>") : py_scope.
