(* ===== verification/PyText.v ===== *)
(** * Python text: integer rendering and parsing, splitting

    What the modelled code uses of Python's [format(n, "x")], [str(n)],
    [int(text, base)], [str.partition] and [str.split], with the round trips
    between rendering and parsing. *)

From Stdlib Require Import Ascii.
From S2P Require Import Prelude.

(** ** Digits *)

(** The value of a digit character in the largest base, or [None]. *)
Definition digit_value (c : Ascii.ascii) : option Z :=
  let n := Z.of_nat (Ascii.nat_of_ascii c) in
  if (48 <=? n) && (n <=? 57) then Some (n - 48)
  else if (97 <=? n) && (n <=? 122) then Some (n - 87)
  else if (65 <=? n) && (n <=? 90) then Some (n - 55)
  else None.

Definition hex_digit (d : Z) : Ascii.ascii :=
  Ascii.ascii_of_nat (Z.to_nat (if d <? 10 then d + 48 else d + 87)).

Fixpoint hex_go (fuel : nat) (n : Z) (acc : string) : string :=
  match fuel with
  | O => acc
  | S f => if n <? 16 then String (hex_digit n) acc
           else hex_go f (n / 16) (String (hex_digit (n mod 16)) acc)
  end.

(** [f"{z:x}"].  The fuel bounds the number of hexadecimal digits. *)
Definition fmt_hex (z : Z) : string :=
  let digits n := hex_go (S (Z.to_nat (Z.log2 n))) n "" in
  if z <? 0 then String "-"%char (digits (- z)) else digits z.

(** ** Parsing *)

(** [s[n:]]. *)
Fixpoint str_drop (n : nat) (s : string) : string :=
  match n, s with
  | S n', String _ s' => str_drop n' s'
  | _, _ => s
  end.

(** The digits of [int(text, base)]: single underscores only between digits. *)
Fixpoint parse_digits (base : Z) (after_digit : bool) (acc : Z) (s : string) : option Z :=
  match s with
  | EmptyString => if after_digit then Some acc else None
  | String c s' =>
      if Ascii.eqb c "_"%char then
        if after_digit then parse_digits base false acc s' else None
      else match digit_value c with
           | Some d => if d <? base then parse_digits base true (acc * base + d) s' else None
           | None => None
           end
  end.

Fixpoint count_digits (s : string) : nat :=
  match s with
  | EmptyString => O
  | String c s' => ((if Ascii.eqb c "_"%char then 0 else 1) + count_digits s')%nat
  end.

(** The unsigned part: for base 16 an optional [0x] prefix, after which one
    underscore is allowed; for base 10 the interpreter's 4300-digit limit. *)
Definition parse_unsigned (base : Z) (s : string) : option Z :=
  if base =? 16 then
    if String.prefix "0x" s || String.prefix "0X" s then
      let t := str_drop 2 s in
      parse_digits base false 0 (if String.prefix "_" t then str_drop 1 t else t)
    else parse_digits base false 0 s
  else if Z.of_nat (count_digits s) <=? 4300 then parse_digits base false 0 s else None.

(** [int(text, base)]; [None] is its [ValueError]. *)
Definition parse_int (base : Z) (text : string) : option Z :=
  let s := str_strip text in
  if String.prefix "-" s then Z.opp <$> parse_unsigned base (str_drop 1 s)
  else if String.prefix "+" s then parse_unsigned base (str_drop 1 s)
  else parse_unsigned base s.

(** [int(v)]. *)
Definition py_int (v : pyval) : res Z :=
  match v with
  | VInt z => Ok z
  | VBool b => Ok (if b then 1 else 0)
  | VFloat (FFin t) => Ok (whole_seconds t)
  | VFloat FNan => Raise (Exn "ValueError" "cannot convert float NaN to integer")
  | VFloat _ => Raise (Exn "OverflowError" "cannot convert float infinity to integer")
  | VStr s => match parse_int 10 s with
              | Some z => Ok z
              | None => Raise (Exn "ValueError" "invalid literal for int() with base 10")
              end
  | VNone | VList _ | VDict _ =>
      Raise (Exn "TypeError" "int() argument must be a string or a real number")
  end.

(** [s.endswith(t)]. *)
Fixpoint str_ends_with (s t : string) : bool :=
  String.eqb s t || match s with String _ s' => str_ends_with s' t | EmptyString => false end.

(** ** Splitting *)

(** [s.split(sep)] for a one-character separator. *)
Fixpoint str_split (sep : Ascii.ascii) (s : string) : list string :=
  match s with
  | EmptyString => [""]
  | String c s' =>
      if Ascii.eqb c sep then "" :: str_split sep s'
      else match str_split sep s' with
           | w :: ws => String c w :: ws
           | [] => [String c ""]
           end
  end.

(** [head, _, tail = s.partition(sep)]. *)
Fixpoint str_partition (sep : Ascii.ascii) (s : string) : string * string :=
  match s with
  | EmptyString => ("", "")
  | String c s' =>
      if Ascii.eqb c sep then ("", s')
      else let '(h, t) := str_partition sep s' in (String c h, t)
  end.

(** [s.isascii() and s.isdigit()]. *)
Fixpoint all_ascii_digits (s : string) : bool :=
  match s with
  | EmptyString => true
  | String c s' =>
      let n := Ascii.nat_of_ascii c in ((48 <=? n) && (n <=? 57))%nat && all_ascii_digits s'
  end.

Definition is_ascii_digits (s : string) : bool := nonempty s && all_ascii_digits s.

(** ** Lemmas on characters *)

(** Every character of [s] satisfies [p]. *)
Fixpoint str_all (p : Ascii.ascii → bool) (s : string) : bool :=
  match s with EmptyString => true | String c s' => p c && str_all p s' end.

Lemma str_all_app p s t : str_all p (s +:+ t) = str_all p s && str_all p t.
Proof. induction s as [|c s IH]; simpl; [done|]. by rewrite <-andb_assoc, <-IH. Qed.

Lemma str_all_impl (p q : Ascii.ascii → bool) s :
  (∀ c, p c = true → q c = true) → str_all p s = true → str_all q s = true.
Proof.
  intros Hpq. induction s as [|c s IH]; simpl; [done|].
  intros [H1 H2]%andb_true_iff. by rewrite (Hpq c H1), IH.
Qed.

Lemma str_split_all sep s :
  str_all (λ c, negb (Ascii.eqb c sep)) s = true → str_split sep s = [s].
Proof.
  induction s as [|c s IH]; simpl; [done|].
  intros [H1%negb_true_iff H2]%andb_true_iff. by rewrite H1, IH.
Qed.

Lemma str_split_app sep s t :
  str_all (λ c, negb (Ascii.eqb c sep)) s = true →
  str_split sep (s +:+ String sep t) = s :: str_split sep t.
Proof.
  induction s as [|c s IH]; simpl.
  - intros _. change ("" +:+ String sep t) with (String sep t). simpl. by rewrite Ascii.eqb_refl.
  - intros [H1%negb_true_iff H2]%andb_true_iff.
    change (String c s +:+ String sep t) with (String c (s +:+ String sep t)). simpl.
    by rewrite H1, IH.
Qed.

Lemma str_partition_app sep s t :
  str_all (λ c, negb (Ascii.eqb c sep)) s = true →
  str_partition sep (s +:+ String sep t) = (s, t).
Proof.
  induction s as [|c s IH]; simpl.
  - intros _. change ("" +:+ String sep t) with (String sep t). simpl. by rewrite Ascii.eqb_refl.
  - intros [H1%negb_true_iff H2]%andb_true_iff.
    change (String c s +:+ String sep t) with (String c (s +:+ String sep t)). simpl.
    by rewrite H1, IH.
Qed.

(** Splitting undoes joining with a separator no piece contains. *)
Lemma str_split_concat sep (l : list string) :
  Forall (λ s, str_all (λ c, negb (Ascii.eqb c sep)) s = true) l → l ≠ [] →
  str_split sep (String.concat (String sep "") l) = l.
Proof.
  induction 1 as [|s l Hs Hl IH]; [done|]. intros _.
  destruct l as [|t l]; [by apply str_split_all|].
  change (String.concat (String sep "") (s :: t :: l))
    with (s +:+ String sep (String.concat (String sep "") (t :: l))).
  rewrite str_split_app by done. by rewrite IH.
Qed.

Lemma str_app_assoc a b c : (a +:+ b) +:+ c = a +:+ b +:+ c.
Proof. induction a as [|x a IH]; [done|]. change (String x ((a +:+ b) +:+ c) = String x (a +:+ b +:+ c)). by rewrite IH. Qed.

Lemma str_cons_app c s t : String c s +:+ t = String c (s +:+ t).
Proof. done. Qed.

Lemma str_nil_app t : "" +:+ t = t.
Proof. done. Qed.

Lemma str_app_nil s : s +:+ "" = s.
Proof. induction s as [|c s IH]; [done|]. by rewrite str_cons_app, IH. Qed.

Lemma str_length_app a b : String.length (a +:+ b) = (String.length a + String.length b)%nat.
Proof. induction a as [|c a IH]; [done|]. rewrite str_cons_app. cbn. by rewrite IH. Qed.

Lemma str_take_drop n s : str_take n s +:+ str_drop n s = s.
Proof.
  revert s. induction n as [|n IH]; intros [|c s]; try done.
  change (String c (str_take n s +:+ str_drop n s) = String c s). by rewrite IH.
Qed.

Lemma str_take_app_le n s t : (n ≤ String.length s)%nat → str_take n (s +:+ t) = str_take n s.
Proof.
  revert s. induction n as [|n IH]; intros [|c s]; cbn [String.length]; intros; try lia; try by destruct t.
  rewrite str_cons_app. change (String c (str_take n (s +:+ t)) = String c (str_take n s)). rewrite IH; [done|lia].
Qed.

Lemma str_take_cons n c s : str_take (S n) (String c s) = String c (str_take n s).
Proof. done. Qed.

Lemma str_take_take_min n k s : str_take n (str_take k s) = str_take (Nat.min n k) s.
Proof.
  revert k s. induction n as [|n IH]; intros [|k] [|c s]; try done. rewrite str_take_cons.
  change (Nat.min (S n) (S k)) with (S (Nat.min n k)). by rewrite !str_take_cons, IH.
Qed.

Lemma str_take_own_length n s : str_take (String.length (str_take n s)) s = str_take n s.
Proof.
  revert s. induction n as [|n IH]; intros [|c s]; try done. rewrite str_take_cons. cbn [String.length].
  by rewrite str_take_cons, IH.
Qed.

Lemma str_take_length_le n s : (String.length (str_take n s) ≤ String.length s)%nat.
Proof.
  revert s. induction n as [|n IH]; intros [|c s]; [apply Nat.le_0_l..|]. rewrite str_take_cons. cbn. specialize (IH s). lia.
Qed.

Lemma str_drop_app_le n s t : (n ≤ String.length s)%nat → str_drop n (s +:+ t) = str_drop n s +:+ t.
Proof.
  revert s. induction n as [|n IH]; intros [|c s]; cbn [String.length]; intros; try lia; try by destruct t.
  rewrite str_cons_app. cbn [str_drop]. apply IH. lia.
Qed.

Lemma str_drop_length n s : String.length (str_drop n s) = (String.length s - n)%nat.
Proof. revert s. induction n as [|n IH]; intros [|c s]; cbn; [done..|apply IH]. Qed.

Lemma str_drop_drop n k s : str_drop n (str_drop k s) = str_drop (k + n) s.
Proof.
  revert s. induction k as [|k IH]; intros s; [by destruct s|]. destruct s as [|c s]; [by destruct n|]. apply IH.
Qed.

Lemma prefix_app p s : String.prefix p (p +:+ s) = true.
Proof.
  induction p as [|c p IH]; [by destruct s|].
  change (String c p +:+ s) with (String c (p +:+ s)). simpl. by destruct (ascii_dec c c).
Qed.

Lemma drop_prefix_app p s n : n = String.length p → str_drop n (p +:+ s) = s.
Proof. intros ->. induction p as [|c p IH]; [by destruct s|]. apply IH. Qed.

(** ** Round trips of integers *)

Lemma rstrip_by_id p s : str_all (λ c, negb (p c)) s = true → rstrip_by p s = s.
Proof.
  induction s as [|c s IH]; simpl; [done|].
  intros [H1%negb_true_iff H2]%andb_true_iff. rewrite (IH H2).
  destruct s; [by rewrite H1|done].
Qed.

Lemma lstrip_by_id p s : str_all (λ c, negb (p c)) s = true → lstrip_by p s = s.
Proof. destruct s as [|c s]; simpl; [done|]. by intros [->%negb_true_iff _]%andb_true_iff. Qed.

Lemma str_strip_id s : str_all (λ c, negb (is_space c)) s = true → str_strip s = s.
Proof. intros H. unfold str_strip. by rewrite lstrip_by_id, rstrip_by_id. Qed.

(** The characters [fmt_hex] writes. *)
Definition is_hex_digit (c : Ascii.ascii) : bool :=
  match digit_value c with Some d => d <? 16 | None => false end.

Lemma hex_digit_value d : 0 ≤ d < 16 → digit_value (hex_digit d) = Some d.
Proof.
  intros Hd.
  assert (forallb (λ n, bool_decide (digit_value (hex_digit (Z.of_nat n)) = Some (Z.of_nat n)))
            (seq 0 16) = true) as H by reflexivity.
  rewrite forallb_forall in H. specialize (H (Z.to_nat d)).
  rewrite Z2Nat.id, bool_decide_eq_true in H by lia. apply H, in_seq. lia.
Qed.

Lemma is_hex_digit_hex d : 0 ≤ d < 16 → is_hex_digit (hex_digit d) = true.
Proof. intros Hd. unfold is_hex_digit. rewrite hex_digit_value by done. apply Z.ltb_lt. lia. Qed.

Lemma hex_go_digits fuel n acc :
  0 ≤ n → str_all is_hex_digit acc = true → str_all is_hex_digit (hex_go fuel n acc) = true.
Proof.
  revert n acc. induction fuel as [|f IH]; intros n acc Hn Hacc; simpl; [done|].
  destruct (Z.ltb_spec n 16); simpl.
  - rewrite is_hex_digit_hex, Hacc by lia. done.
  - pose proof (Z.mod_pos_bound n 16). apply IH; [apply Z.div_pos; lia|].
    simpl. rewrite is_hex_digit_hex, Hacc by lia. done.
Qed.

Lemma digit_value_not_underscore d c : digit_value c = Some d → Ascii.eqb c "_" = false.
Proof. intros H. destruct (Ascii.eqb_spec c "_") as [->|]; done. Qed.

Lemma parse_digits_step base b acc c s d :
  digit_value c = Some d → d < base →
  parse_digits base b acc (String c s) = parse_digits base true (acc * base + d) s.
Proof.
  intros Hc Hd. simpl. rewrite (digit_value_not_underscore d), Hc by done.
  by rewrite (proj2 (Z.ltb_lt _ _)).
Qed.

Lemma parse_digits_hex_go fuel n acc b :
  0 ≤ n < 16 ^ Z.of_nat fuel → (0 < fuel)%nat →
  parse_digits 16 b 0 (hex_go fuel n acc) = parse_digits 16 true n acc.
Proof.
  revert n acc. induction fuel as [|f IH]; intros n acc Hn Hf; [lia|]. cbn [hex_go].
  destruct (Z.ltb_spec n 16) as [Hlt|Hge].
  - rewrite (parse_digits_step _ _ _ _ _ n) by (try apply hex_digit_value; lia).
    f_equal.
  - assert (0 ≤ n mod 16 < 16) by (apply Z.mod_pos_bound; lia).
    assert (0 < f)%nat by (destruct f; [change (16 ^ Z.of_nat 1) with 16 in Hn|]; lia).
    rewrite Nat2Z.inj_succ, Z.pow_succ_r in Hn by lia.
    rewrite IH by (first [done | split; [apply Z.div_pos | apply Z.div_lt_upper_bound]; lia]).
    rewrite (parse_digits_step _ _ _ _ _ (n mod 16)) by (try apply hex_digit_value; lia).
    f_equal. pose proof (Z.div_mod n 16). lia.
Qed.

Lemma prefix_hex_false (p : string) s :
  str_all is_hex_digit s = true → str_all is_hex_digit p = false → String.prefix p s = false.
Proof.
  revert s. induction p as [|c p IH]; intros s Hs Hp; [done|].
  destruct s as [|c' s]; [done|]. simpl in *.
  destruct (ascii_dec c c') as [->|]; [|done].
  apply andb_true_iff in Hs as [H1 H2]. rewrite H1 in Hp. by apply IH.
Qed.

Lemma parse_unsigned_hex s :
  str_all is_hex_digit s = true → parse_unsigned 16 s = parse_digits 16 false 0 s.
Proof.
  intros Hs. unfold parse_unsigned. change (16 =? 16) with true. cbn iota.
  by rewrite (prefix_hex_false "0x"), (prefix_hex_false "0X") by done.
Qed.

Definition hex_nonneg (n : Z) : string := hex_go (S (Z.to_nat (Z.log2 n))) n "".

Lemma parse_hex_nonneg n : 0 ≤ n → parse_unsigned 16 (hex_nonneg n) = Some n.
Proof.
  intros Hn. unfold hex_nonneg. rewrite parse_unsigned_hex by (by apply hex_go_digits).
  rewrite parse_digits_hex_go; [done| |lia]. split; [done|].
  pose proof (Z.log2_nonneg n). rewrite Nat2Z.inj_succ, Z2Nat.id by done.
  destruct (decide (n = 0)) as [->|]; [done|].
  apply Z.lt_le_trans with (2 ^ Z.succ (Z.log2 n)); [apply Z.log2_spec; lia|].
  apply Z.pow_le_mono_l. lia.
Qed.

Lemma is_hex_digit_not c d : is_hex_digit c = true → is_hex_digit d = false → Ascii.eqb c d = false.
Proof. intros Hc Hd. destruct (Ascii.eqb_spec c d) as [->|]; congruence. Qed.

Lemma is_hex_digit_not_space c : is_hex_digit c = true → is_space c = false.
Proof. destruct c as [[] [] [] [] [] [] [] []]; vm_compute; congruence. Qed.

(** The characters of a signed hexadecimal literal. *)
Definition is_hex_char (c : Ascii.ascii) : bool := is_hex_digit c || Ascii.eqb c "-".

Lemma hex_nonneg_digits n : 0 ≤ n → str_all is_hex_digit (hex_nonneg n) = true.
Proof. intros. by apply hex_go_digits. Qed.

Lemma fmt_hex_chars z : str_all is_hex_char (fmt_hex z) = true.
Proof.
  assert (∀ n, 0 ≤ n → str_all is_hex_char (hex_nonneg n) = true) as Hpos.
  { intros n Hn. apply (str_all_impl is_hex_digit); [|by apply hex_nonneg_digits].
    intros c Hc. unfold is_hex_char. by rewrite Hc. }
  unfold fmt_hex. fold (hex_nonneg (- z)) (hex_nonneg z).
  destruct (Z.ltb_spec z 0); [|by apply Hpos]. cbn [str_all]. by rewrite Hpos by lia.
Qed.

Lemma fmt_hex_no_space z : str_all (λ c, negb (is_space c)) (fmt_hex z) = true.
Proof.
  apply (str_all_impl is_hex_char); [|apply fmt_hex_chars].
  intros c [Hc|Hc]%orb_true_iff; [by rewrite is_hex_digit_not_space|].
  by apply Ascii.eqb_eq in Hc as ->.
Qed.

(** A separator that is neither a hexadecimal digit nor a minus sign does not
    occur in a rendered number. *)
Lemma fmt_hex_no_sep sep z :
  is_hex_char sep = false → str_all (λ c, negb (Ascii.eqb c sep)) (fmt_hex z) = true.
Proof.
  intros Hsep. apply (str_all_impl is_hex_char); [|apply fmt_hex_chars].
  intros c Hc. destruct (Ascii.eqb_spec c sep) as [->|]; [congruence|done].
Qed.

Lemma prefix_minus_hex s : str_all is_hex_digit s = true → String.prefix "-" s = false.
Proof. intros. by apply prefix_hex_false. Qed.

(** [int(f"{z:x}", 16) == z]. *)
Lemma parse_fmt_hex z : parse_int 16 (fmt_hex z) = Some z.
Proof.
  unfold parse_int. rewrite str_strip_id by apply fmt_hex_no_space.
  unfold fmt_hex. fold (hex_nonneg (- z)) (hex_nonneg z). destruct (Z.ltb_spec z 0).
  - assert (∀ s, String.prefix "-" (String "-" s) = true) as -> by (by intros []).
    simpl str_drop. rewrite parse_hex_nonneg by lia. simpl. f_equal. lia.
  - pose proof (hex_nonneg_digits z ltac:(done)).
    rewrite (prefix_hex_false "-"), (prefix_hex_false "+") by done. by apply parse_hex_nonneg.
Qed.

(** ** Decimal round trip *)

Definition is_dec_digit (c : Ascii.ascii) : bool :=
  let n := Ascii.nat_of_ascii c in ((48 <=? n) && (n <=? 57))%nat.

Lemma all_ascii_digits_str_all s : all_ascii_digits s = str_all is_dec_digit s.
Proof. induction s as [|c s IH]; simpl; [done|]. by rewrite IH. Qed.

Lemma pretty_N_char_digit x :
  (x < 10)%N → digit_value (pretty_N_char x) = Some (Z.of_N x) ∧ is_dec_digit (pretty_N_char x) = true.
Proof.
  intros. assert (x = 0 ∨ x = 1 ∨ x = 2 ∨ x = 3 ∨ x = 4 ∨ x = 5 ∨ x = 6 ∨ x = 7 ∨ x = 8 ∨ x = 9)%N
    as Hx by lia. destruct_or! Hx; subst; done.
Qed.

(** Parsing the rendered digits of [x] from the accumulator [0] reaches [x],
    every character is a digit, and at most [k] are written when [x < 10^k]. *)
Lemma pretty_N_go_spec x acc b :
  (0 < x)%N →
  parse_digits 10 b 0 (pretty_N_go x acc) = parse_digits 10 true (Z.of_N x) acc ∧
  str_all is_dec_digit (pretty_N_go x acc) = str_all is_dec_digit acc ∧
  ∀ k, (x < 10 ^ N.of_nat k)%N → (String.length (pretty_N_go x acc) ≤ k + String.length acc)%nat.
Proof.
  revert acc b. induction (N.lt_wf_0 x) as [x _ IH]; intros acc b Hx.
  rewrite pretty_N_go_step by done.
  assert (x mod 10 < 10)%N as Hm by (apply N.mod_lt; lia).
  destruct (pretty_N_char_digit _ Hm) as [Hv Hd].
  assert (x = 10 * (x / 10) + x mod 10)%N as Hdm by (apply N.div_mod; lia).
  destruct (decide (x / 10 = 0)%N) as [E|E].
  - rewrite E, pretty_N_go_0. split_and!.
    + rewrite (parse_digits_step _ _ _ _ _ _ Hv) by lia. f_equal. lia.
    + cbn [str_all]. by rewrite Hd.
    + intros k Hk. destruct k; simpl in *; [change (10 ^ N.of_nat 0)%N with 1%N in Hk|]; lia.
  - destruct (IH (x / 10)%N) with (acc := String (pretty_N_char (x mod 10)) acc) (b := b)
      as (H1 & H2 & H3); [by apply N.div_lt|lia|]. split_and!.
    + rewrite H1, (parse_digits_step _ _ _ _ _ _ Hv) by lia. f_equal. lia.
    + rewrite H2. cbn [str_all]. by rewrite Hd.
    + intros k Hk. destruct k as [|k]; [change (10 ^ N.of_nat 0)%N with 1%N in Hk; lia|].
      rewrite Nat2N.inj_succ, N.pow_succ_r' in Hk.
      etrans; [apply (H3 k)|cbn [String.length]; lia].
      apply N.Div0.div_lt_upper_bound; lia.
Qed.

Lemma pretty_nonneg n : 0 ≤ n → pretty n = pretty (Z.to_N n).
Proof. by destruct n. Qed.

Lemma pretty_digits n : 0 ≤ n → str_all is_dec_digit (pretty n) = true.
Proof.
  intros Hn. rewrite pretty_nonneg by done. unfold pretty, pretty_N. case_decide; [done|].
  by rewrite (proj1 (proj2 (pretty_N_go_spec (Z.to_N n) "" true ltac:(lia)))).
Qed.

Lemma pretty_length n k :
  0 ≤ n < 10 ^ Z.of_nat k → (0 < k)%nat → (String.length (pretty n) ≤ k)%nat.
Proof.
  intros Hn Hk. rewrite pretty_nonneg by lia. unfold pretty, pretty_N.
  case_decide; [simpl; lia|].
  destruct (pretty_N_go_spec (Z.to_N n) "" true ltac:(lia)) as (_ & _ & H3).
  specialize (H3 k). simpl in H3. rewrite Nat.add_0_r in H3. apply H3.
  apply N2Z.inj_lt. rewrite N2Z.inj_pow, nat_N_Z, Z2N.id; simpl; lia.
Qed.

Lemma pretty_nonempty n : 0 ≤ n → pretty n ≠ "".
Proof.
  intros Hn E. rewrite pretty_nonneg in E by done. unfold pretty, pretty_N in E. case_decide; [done|].
  pose proof (pretty_N_go_spec (Z.to_N n) "" false ltac:(lia)) as [H1 _].
  rewrite E in H1. done.
Qed.

Lemma is_dec_digit_not_space c : is_dec_digit c = true → is_space c = false.
Proof. destruct c as [[] [] [] [] [] [] [] []]; vm_compute; congruence. Qed.

Lemma prefix_dec_false (p : string) s :
  str_all is_dec_digit s = true → str_all is_dec_digit p = false → String.prefix p s = false.
Proof.
  revert s. induction p as [|c p IH]; intros s Hs Hp; [done|].
  destruct s as [|c' s]; [done|]. simpl in *.
  destruct (ascii_dec c c') as [->|]; [|done].
  apply andb_true_iff in Hs as [H1 H2]. rewrite H1 in Hp. by apply IH.
Qed.

Lemma count_digits_le s : (count_digits s ≤ String.length s)%nat.
Proof. induction s as [|c s IH]; simpl; [done|]. destruct (Ascii.eqb c "_"); lia. Qed.

(** [int(str(n)) == n] for a count of at most 4300 digits. *)
Lemma parse_pretty n k :
  0 ≤ n < 10 ^ Z.of_nat k → (0 < k)%nat → Z.of_nat k ≤ 4300 → parse_int 10 (pretty n) = Some n.
Proof.
  intros Hn Hk0 Hk. pose proof (pretty_digits n ltac:(lia)) as Hd. unfold parse_int.
  rewrite str_strip_id by
    (eapply str_all_impl; [|exact Hd]; intros c Hc; by rewrite is_dec_digit_not_space).
  rewrite (prefix_dec_false "-"), (prefix_dec_false "+") by done.
  unfold parse_unsigned. change (10 =? 16) with false. cbn iota.
  pose proof (count_digits_le (pretty n)). pose proof (pretty_length n k Hn Hk0).
  rewrite (proj2 (Z.leb_le (Z.of_nat (count_digits (pretty n))) 4300)), pretty_nonneg by lia.
  unfold pretty, pretty_N. case_decide; [by assert (n = 0) as -> by lia|].
  destruct (pretty_N_go_spec (Z.to_N n) "" false ltac:(lia)) as [-> _]. simpl. f_equal. lia.
Qed.
