(* ===== verification/Program.v ===== *)
(** * Programs with a state, exceptions and a log

    The monad of the dispatcher's steps: a program changes a state, leaves a log
    of what it did to the world, and returns or raises; a raised exception keeps
    both.  The second part reasons about the log with monitors. *)

From S2P Require Import Prelude.

Definition Prog (S E A : Type) : Type := S → res A * S * list E.

#[global] Instance Prog_ret {S E} : MRet (Prog S E) := λ A a s, (Ok a, s, []).
#[global] Instance Prog_bind {S E} : MBind (Prog S E) := λ A B f m s,
  match m s with
  | (Ok a, s1, l1) => let '(b, s2, l2) := f a s1 in (b, s2, l1 ++ l2)
  | (Raise e, s1, l1) => (Raise e, s1, l1)
  end.

#[global] Instance Prog_fmap {S E} : FMap (Prog S E) := λ A B f m, a ← m; mret (f a).

Definition emit {S E} (e : E) : Prog S E unit := λ s, (Ok tt, s, [e]).
Definition lift {S E A} (x : res A) : Prog S E A := λ s, (x, s, []).

(** ** Monitors

    A monitor is an automaton that reads the log; an operation keeps a monitor
    when, from a state the monitor agrees with, its whole log is accepted and
    the monitor agrees with the state it leaves, also when it raises. *)

Section monitor.
Context {S E K : Type} (next : K → E → K) (ok : K → E → Prop).

Fixpoint checks (k : K) (log : list E) : Prop :=
  match log with [] => True | e :: log' => ok k e ∧ checks (next k e) log' end.

Definition nexts (k : K) (log : list E) : K := foldl next k log.

Lemma nexts_app k l1 l2 : nexts k (l1 ++ l2) = nexts (nexts k l1) l2.
Proof. apply foldl_app. Qed.

Lemma checks_app k l1 l2 : checks k (l1 ++ l2) ↔ checks k l1 ∧ checks (nexts k l1) l2.
Proof. revert k. induction l1 as [|e l1 IH]; intros k; cbn; [tauto|]. rewrite IH. tauto. Qed.

Context (J : K → S → Prop).

(** From this state and this monitor state. *)
Definition accepted {A} (m : Prog S E A) (s : S) (k : K) : Prop :=
  let '(_, s', log) := m s in checks k log ∧ J (nexts k log) s'.

Definition keeps {A} (m : Prog S E A) : Prop := ∀ s k, J k s → accepted m s k.

Lemma accepted_ret {A} (a : A) s k : J k s → accepted (mret a) s k.
Proof. done. Qed.

Lemma accepted_ret_bind {A B} (b : B) (f : B → Prog S E A) s k : accepted (f b) s k → accepted (mret b ≫= f) s k.
Proof. unfold accepted, mbind, Prog_bind, mret, Prog_ret. by destruct (f b s) as [[a s'] log]. Qed.

Lemma accepted_emit {A} e (f : unit → Prog S E A) s k :
  ok k e → accepted (f tt) s (next k e) → accepted (emit e ≫= f) s k.
Proof.
  unfold accepted, mbind, Prog_bind, emit. intros He. destruct (f tt s) as [[a s'] log]. cbn. tauto.
Qed.

Lemma accepted_lift {A B} (x : res B) (f : B → Prog S E A) s k :
  J k s → (∀ b, x = Ok b → accepted (f b) s k) → accepted (lift x ≫= f) s k.
Proof.
  unfold accepted, mbind, Prog_bind, lift. intros HJ Hf. destruct x as [b|e]; [|done].
  specialize (Hf b eq_refl). by destruct (f b s) as [[a s'] log].
Qed.

Lemma accepted_bind {A B} (m : Prog S E B) (f : B → Prog S E A) s k :
  accepted m s k → (∀ b, keeps (f b)) → accepted (m ≫= f) s k.
Proof.
  intros Hm Hf. unfold accepted, mbind, Prog_bind in *. destruct (m s) as [[[b|e] s1] l1]; [|done].
  destruct Hm as [H1 HJ1]. specialize (Hf b s1 _ HJ1). unfold accepted in Hf.
  destruct (f b s1) as [[a s2] l2]. rewrite checks_app, nexts_app. tauto.
Qed.

Lemma accepted_map {A B} (g : B → A) (m : Prog S E B) s k : accepted m s k → accepted (g <$> m) s k.
Proof.
  unfold accepted, fmap, Prog_fmap, mbind, Prog_bind, mret, Prog_ret. destruct (m s) as [[[b|e] s1] l1]; [|done].
  by rewrite app_nil_r.
Qed.

Lemma accepted_weaken {A} (J' : K → S → Prop) (m : Prog S E A) s k :
  (∀ k s, J k s → J' k s) → accepted m s k →
  let '(_, s', log) := m s in checks k log ∧ J' (nexts k log) s'.
Proof. unfold accepted. intros Hw. destruct (m s) as [[a s'] log]. naive_solver. Qed.

(** The first operation of a nested sequence can be exposed. *)
Lemma accepted_assoc {A B C} (m : Prog S E C) (g : C → Prog S E B) (f : B → Prog S E A) s k :
  accepted (m ≫= λ c, g c ≫= f) s k → accepted ((m ≫= g) ≫= f) s k.
Proof.
  unfold accepted, mbind, Prog_bind. destruct (m s) as [[[c|e] s1] l1]; [|done].
  destruct (g c s1) as [[[b|e] s2] l2]; [|done]. destruct (f b s2) as [[a s3] l3]. by rewrite app_assoc.
Qed.

End monitor.

Lemma accepted_into {S E K A B} next ok (J1 J2 : K → S → Prop) (m : Prog S E B) (f : B → Prog S E A) s k :
  accepted next ok J1 m s k → (∀ k s, J1 k s → J2 k s) → (∀ b s k, J1 k s → accepted next ok J2 (f b) s k) →
  accepted next ok J2 (m ≫= f) s k.
Proof.
  intros Hm Hw Hf. unfold accepted, mbind, Prog_bind in *.
  destruct (m s) as [[[b|e] s1] l1]; destruct Hm as [H1 HJ1]; [|by auto]. specialize (Hf b s1 _ HJ1).
  destruct (f b s1) as [[a s2] l2]. rewrite checks_app, nexts_app. tauto.
Qed.

(** ** Postconditions

    [sees next ok m s k Q]: from the state [s] and the monitor state [k], the
    whole log of [m] is accepted, and if [m] returns then [Q] holds of what it
    returned, of the state and of the monitor.  Nothing is said of the state an
    exception leaves. *)

Section sees.
Context {S E K : Type} (next : K → E → K) (ok : K → E → Prop).
Notation checks := (checks next ok).
Notation nexts := (nexts next).

Definition sees {A} (m : Prog S E A) (s : S) (k : K) (Q : A → S → K → Prop) : Prop :=
  let '(r, s', log) := m s in checks k log ∧ match r with Ok a => Q a s' (nexts k log) | Raise _ => True end.

Lemma sees_ret {A} (a : A) s k (Q : A → S → K → Prop) : Q a s k → sees (mret a) s k Q.
Proof. done. Qed.

Lemma sees_lift {A} (x : res A) s k (Q : A → S → K → Prop) : (∀ a, x = Ok a → Q a s k) → sees (lift x) s k Q.
Proof. intros HQ. unfold sees, lift. destruct x; [|done]. split; [done|]. by apply HQ. Qed.

Lemma sees_emit e s k (Q : () → S → K → Prop) : ok k e → Q tt s (next k e) → sees (emit e) s k Q.
Proof. intros. unfold sees, emit. cbn. done. Qed.

Lemma sees_bind {A B} (m : Prog S E A) (f : A → Prog S E B) s k (Q : B → S → K → Prop) :
  sees m s k (λ a s' k', sees (f a) s' k' Q) → sees (m ≫= f) s k Q.
Proof.
  unfold sees, mbind, Prog_bind. destruct (m s) as [[[a|e] s1] l1]; [|done]. intros [H1 H2].
  destruct (f a s1) as [[r s2] l2]. rewrite checks_app, nexts_app. tauto.
Qed.

Lemma sees_mono {A} (m : Prog S E A) s k (P Q : A → S → K → Prop) :
  sees m s k P → (∀ a s' k', P a s' k' → Q a s' k') → sees m s k Q.
Proof. unfold sees. destruct (m s) as [[[a|e] s1] l1]; naive_solver. Qed.

(** A step that changes the state only. *)
Lemma sees_step {A} (g : S → res A) (h : S → S) s k (Q : A → S → K → Prop) :
  (∀ a, g s = Ok a → Q a (h s) k) → sees (λ s, (g s, h s, [])) s k Q.
Proof. intros HQ. unfold sees. cbn. destruct (g s) eqn:Eg; [|done]. split; [done|]. by apply HQ. Qed.
End sees.
