(* ===== verification/RequestIds.v ===== *)
(** * Request ids (dispatch/state.py)

    The identifiers under which the dispatcher asks the board and the services
    for something: a receiver that sees an id again makes the repeat a no-op. *)

From S2P Require Import Prelude PyText.

Definition token_char (c : Ascii.ascii) : bool :=
  let n := Ascii.nat_of_ascii c in
  ((48 <=? n) && (n <=? 57) || (65 <=? n) && (n <=? 90) || (97 <=? n) && (n <=? 122)
   || (n =? 95) || (n =? 46) || (n =? 45))%nat.

Definition dash : Ascii.ascii := Ascii.ascii_of_nat 45.

(** [re.sub("[^A-Za-z0-9_.-]+", "-", s)]; [gap] says that the run of refused
    characters before [s] has already given its dash. *)
Fixpoint dash_runs (gap : bool) (s : string) : string :=
  match s with
  | EmptyString => ""
  | String c s' =>
      if token_char c then String c (dash_runs false s')
      else if gap then dash_runs true s' else String dash (dash_runs true s')
  end.

Definition is_dash (c : Ascii.ascii) : bool := Ascii.eqb c dash.

(** [s.lstrip("-")] and [s.rstrip("-")]. *)
Fixpoint lstrip_dash (s : string) : string :=
  match s with String c s' => if is_dash c then lstrip_dash s' else s | EmptyString => "" end.

Fixpoint rstrip_dash (s : string) : string :=
  match s with
  | EmptyString => ""
  | String c s' => match rstrip_dash s' with
                   | EmptyString => if is_dash c then "" else String c ""
                   | t => String c t
                   end
  end.

Definition request_token (value : string) : string :=
  let token := rstrip_dash (lstrip_dash (dash_runs false value)) in
  if nonempty token then token else "empty".

Definition attempt_request_id (attempt action reference suffix : string) : string :=
  let parts := ["dispatcher"; request_token (if nonempty attempt then attempt else "attempt-missing"); action;
                reference] ++ (if nonempty suffix then [suffix] else []) in
  String.concat "-" (request_token <$> parts).
