(* ===== verification/Sha256.v ===== *)
(** * SHA-256 (Python's [hashlib])

    [hashlib.sha256(data).hexdigest()], the digest under which a frozen result is
    known, as FIPS 180-4 states it: words are integers modulo 2^32. *)

From S2P Require Import Prelude PyText.

Definition WORD : Z := 2 ^ 32.

Definition add32 (a b : Z) : Z := (a + b) mod WORD.
Definition rotr (n a : Z) : Z := Z.lor (Z.shiftr a n) (Z.shiftl a (32 - n) mod WORD).

Definition sigma (i j k a : Z) : Z := Z.lxor (Z.lxor (rotr i a) (rotr j a)) (Z.shiftr a k).
Definition Sigma (i j k a : Z) : Z := Z.lxor (Z.lxor (rotr i a) (rotr j a)) (rotr k a).
Definition ch (x y z : Z) : Z := Z.lxor (Z.land x y) (Z.land (WORD - 1 - x) z).
Definition maj (x y z : Z) : Z := Z.lxor (Z.lxor (Z.land x y) (Z.land x z)) (Z.land y z).

(** ** The constants: fractional parts of roots of the first primes *)

Definition is_prime (n : Z) : bool := forallb (λ d, negb (n mod d =? 0)) (seqZ 2 (n - 2)).
Definition PRIMES : list Z := Eval vm_compute in filter (λ n, is_prime n = true) (seqZ 2 310).

(** The greatest [r] below [2^bits + r0] with [r^3 <= n]. *)
Fixpoint cube_root (bits : nat) (n r0 : Z) : Z :=
  match bits with
  | O => r0
  | S bits' => let r := r0 + 2 ^ Z.of_nat bits' in cube_root bits' n (if r ^ 3 <=? n then r else r0)
  end.

Definition ROUND_CONSTANTS : list Z := Eval vm_compute in (λ p, cube_root 36 (p * WORD ^ 3) 0 mod WORD) <$> PRIMES.
Definition INITIAL : list Z := Eval vm_compute in (λ p, Z.sqrt (p * WORD ^ 2) mod WORD) <$> take 8 PRIMES.

Example sixty_four_primes : length PRIMES = 64%nat ∧ last PRIMES = Some 311.
Proof. by vm_compute. Qed.

(** ** Padding *)

Definition bytes (s : string) : list Z := (λ c, Z.of_nat (Ascii.nat_of_ascii c)) <$> String.list_ascii_of_string s.

(** [n] bytes of [v], most significant first. *)
Fixpoint big_endian (n : nat) (v : Z) : list Z :=
  match n with O => [] | S n' => Z.shiftr v (8 * Z.of_nat n') mod 256 :: big_endian n' v end.

Definition pad (data : list Z) : list Z :=
  let n := length data in
  let zeros := Z.to_nat ((55 - Z.of_nat n) mod 64) in
  data ++ [128] ++ replicate zeros 0 ++ big_endian 8 (8 * Z.of_nat n).

Fixpoint words (data : list Z) : list Z :=
  match data with
  | a :: b :: c :: d :: rest => ((a * 256 + b) * 256 + c) * 256 + d :: words rest
  | _ => []
  end.

(** ** One block *)

(** The message schedule, newest word first. *)
Fixpoint schedule (n : nat) (w : list Z) : list Z :=
  match n with
  | O => w
  | S n' =>
      let at_ i := nth i w 0 in
      schedule n' (add32 (add32 (sigma 17 19 10 (at_ 1%nat)) (at_ 6%nat))
                         (add32 (sigma 7 18 3 (at_ 14%nat)) (at_ 15%nat)) :: w)
  end.

Definition round (st : list Z) (kw : Z * Z) : list Z :=
  match st with
  | [a; b; c; d; e; f; g; h] =>
      let t1 := add32 (add32 (add32 h (Sigma 6 11 25 e)) (add32 (ch e f g) kw.1)) kw.2 in
      let t2 := add32 (Sigma 2 13 22 a) (maj a b c) in
      [add32 t1 t2; a; b; c; add32 d t1; e; f; g]
  | _ => st
  end.

Definition compress (h block : list Z) : list Z :=
  let w := rev (schedule 48 (rev block)) in
  zip_with add32 h (foldl round h (zip ROUND_CONSTANTS w)).

(** [n] blocks of sixteen words. *)
Fixpoint blocks (n : nat) (h ws : list Z) : list Z :=
  match n with O => h | S n' => blocks n' (compress h (take 16 ws)) (drop 16 ws) end.

Definition hex8 (w : Z) : string :=
  String.string_of_list_ascii ((λ i, hex_digit (Z.shiftr w (4 * i) mod 16)) <$> [7; 6; 5; 4; 3; 2; 1; 0]).

Definition sha256_hex (data : string) : string :=
  let ws := words (pad (bytes data)) in
  String.concat "" (hex8 <$> blocks (length ws / 16) INITIAL ws).

(** The digests of the empty message and of the standard's one- and two-block
    examples. *)
Example sha256_empty : sha256_hex "" = "e3b0c44298fc1c149afbf4c8996fb92427ae41e4649b934ca495991b7852b855".
Proof. vm_compute. reflexivity. Qed.

Example sha256_abc : sha256_hex "abc" = "ba7816bf8f01cfea414140de5dae2223b00361a396177a9cb410ff61f20015ad".
Proof. vm_compute. reflexivity. Qed.

Example sha256_two_blocks :
  sha256_hex "abcdbcdecdefdefgefghfghighijhijkijkljklmklmnlmnomnopnopq"
  = "248d6a61d20638b8e5c026930c3e6039a33ce45964ff2167f6ecedd419db06c1".
Proof. vm_compute. reflexivity. Qed.

(** ** A digest has 64 characters *)

Lemma round_length st kw : length (round st kw) = length st.
Proof. unfold round. by repeat case_match. Qed.

Lemma compress_length h block : length (compress h block) = length h.
Proof.
  unfold compress. set (l := zip _ _). rewrite length_zip_with.
  assert (∀ st, length (foldl round st l) = length st) as E; [|rewrite E; lia].
  induction l as [|kw l IH]; intros st; [done|]. cbn. by rewrite IH, round_length.
Qed.

Lemma blocks_length n h ws : length (blocks n h ws) = length h.
Proof. revert h ws. induction n as [|n IH]; intros h ws; [done|]. cbn. by rewrite IH, compress_length. Qed.

Lemma concat_hex8_length ws : String.length (String.concat "" (hex8 <$> ws)) = (8 * length ws)%nat.
Proof.
  induction ws as [|w ws IH]; [done|]. destruct ws as [|w' ws]; [done|].
  cbn [fmap list_fmap String.concat] in *. rewrite !str_length_app, IH. cbn. lia.
Qed.

Lemma sha256_hex_length data : String.length (sha256_hex data) = 64%nat.
Proof. unfold sha256_hex. by rewrite concat_hex8_length, blocks_length. Qed.
