(* ===== verification/IsoTime.v ===== *)
(** * Moments and their text (Python's [datetime])

    An aware [datetime] is its instant: an integer number of microseconds from
    the epoch, between the years 1 and 9999.  [timedelta] is an integer number
    of microseconds too.  The text of a moment is an interface with its laws,
    the class [IsoTime]; the proleptic Gregorian calendar discharges it. *)

From Stdlib Require Import Ascii.
From S2P Require Import Prelude PyText.

(** Linear arithmetic with division by constants. *)
Ltac zdiv := Z.to_euclidean_division_equations; lia.

(** ** Instants and durations *)

Definition MICRO : Z := 1000000.
Definition DAY : Z := 86400.

(** The first and the last whole second of a [datetime]. *)
Definition MIN_SECOND : Z := - 62135596800.
Definition MAX_SECOND : Z := 253402300799.

(** The instants a [datetime] can hold. *)
Definition in_range (t : Z) : bool := (MIN_SECOND <=? t / MICRO) && (t / MICRO <=? MAX_SECOND).

Definition date_overflow : exn := Exn "OverflowError" "date value out of range".

(** [moment + duration]. *)
Definition add_duration (t d : Z) : res Z := if in_range (t + d) then Ok (t + d) else Raise date_overflow.

Definition MAX_DELTA_DAYS : Z := 999999999.

(** [timedelta(days=, hours=, minutes=, seconds=)] of integers. *)
Definition timedelta (days hours minutes seconds : Z) : res Z :=
  let total := days * DAY + hours * 3600 + minutes * 60 + seconds in
  let d := total / DAY in
  if Z.abs d <=? MAX_DELTA_DAYS then Ok (total * MICRO)
  else if Z.abs d <? 2 ^ 31 then
    Raise (Exn "OverflowError" ("days=" +:+ pretty d +:+ "; must have magnitude <= 999999999"))
  else Raise (Exn "OverflowError" "Python int too large to convert to C int").

Lemma add_duration_Ok t d u : add_duration t d = Ok u ↔ u = t + d ∧ in_range (t + d) = true.
Proof. unfold add_duration. destruct (in_range (t + d)); naive_solver. Qed.

Lemma timedelta_Ok days hours minutes secs d :
  timedelta days hours minutes secs = Ok d →
  d = (days * DAY + hours * 3600 + minutes * 60 + secs) * MICRO ∧ Z.abs (d / MICRO) < 10 ^ 15.
Proof.
  unfold timedelta. set (total := _ + secs). clearbody total. destruct (Z.leb_spec (Z.abs (total / DAY)) MAX_DELTA_DAYS) as [Hd|]; [|by case_match].
  intros [= <-]. split; [done|]. rewrite Z.div_mul by done. unfold MAX_DELTA_DAYS, DAY in *. zdiv.
Qed.

(** ** The interface *)

(** What [datetime.fromisoformat] and [astimezone(UTC)] make of a text: no time,
    a time without a zone, an instant, or one outside the range in UTC. *)
Inductive IsoAnswer := IsoBad | IsoNaive | IsoAware (t : Z) | IsoFar.

(** The characters before the zone. *)
Definition iso_char (c : Ascii.ascii) : bool :=
  is_dec_digit c || Ascii.eqb c "-"%char || Ascii.eqb c ":"%char || Ascii.eqb c "T"%char.

Class IsoTime := {
  (** [moment.isoformat()] of a whole second in UTC. *)
  isoformat : Z → string;
  fromisoformat : string → IsoAnswer;
  fromisoformat_range s t : fromisoformat s = IsoAware t → in_range t = true;
  isoformat_shape t : MIN_SECOND ≤ t ≤ MAX_SECOND →
    ∃ d, isoformat t = d +:+ "+00:00" ∧ str_all iso_char d = true ∧ nonempty d = true;
  fromisoformat_isoformat t : MIN_SECOND ≤ t ≤ MAX_SECOND → fromisoformat (isoformat t) = IsoAware (t * MICRO);
}.

(** ** The calendar *)

Definition is_leap (y : Z) : bool := (y mod 4 =? 0) && (negb (y mod 100 =? 0) || (y mod 400 =? 0)).

(** Days before the first of January of [y], and before the first of a month. *)
Definition days_before_year (y : Z) : Z := (y - 1) * 365 + (y - 1) / 4 - (y - 1) / 100 + (y - 1) / 400.

Definition month_lengths (y : Z) : list Z :=
  [31; if is_leap y then 29 else 28; 31; 30; 31; 30; 31; 31; 30; 31; 30; 31].

Definition days_before_month (y : Z) (m : nat) : Z := foldr Z.add 0 (take (m - 1) (month_lengths y)).
Definition days_in_month (y : Z) (m : nat) : Z := nth (m - 1) (month_lengths y) 0.

(** Days since the epoch of a date: 1970-01-01 is day 719163 of the calendar. *)
Definition date_days (y : Z) (m : nat) (d : Z) : Z := days_before_year y + days_before_month y m + d - 719163.

(** The year of a day, searched from a lower estimate. *)
Fixpoint year_from (fuel : nat) (y n : Z) : Z :=
  match fuel with
  | O => y
  | S f => if days_before_year (y + 1) <? n then year_from f (y + 1) n else y
  end.

(** The month and the day of the month of the [n]-th day of a year. *)
Fixpoint month_from (m : nat) (lengths : list Z) (n : Z) : nat * Z :=
  match lengths with
  | l :: rest => if (n <=? l) || bool_decide (rest = []) then (m, n) else month_from (S m) rest (n - l)
  | [] => (m, n)
  end.

Definition date_of (days : Z) : Z * (nat * Z) :=
  let n := days + 719163 in
  let y := year_from 40 ((n - 1) / 366 + 1) n in
  (y, month_from 1 (month_lengths y) (n - days_before_year y)).

(** ** The calendar is read back *)

Lemma year_from_spec fuel y n :
  days_before_year y < n → n ≤ days_before_year (y + Z.of_nat fuel) →
  let y' := year_from fuel y n in y ≤ y' ∧ days_before_year y' < n ≤ days_before_year (y' + 1).
Proof.
  revert y. induction fuel as [|f IH]; intros y Hlo Hhi; cbn.
  - rewrite Z.add_0_r in Hhi. lia.
  - destruct (Z.ltb_spec (days_before_year (y + 1)) n) as [Hn|Hn]; [|lia].
    assert (n ≤ days_before_year (y + 1 + Z.of_nat f)) as Hhi' by (etransitivity; [exact Hhi|]; apply Z.eq_le_incl; f_equal; lia).
    specialize (IH (y + 1) Hn Hhi'). cbn in IH. lia.
Qed.

Definition MAX_ORDINAL : Z := 3652059.

Lemma year_of_ordinal n : 1 ≤ n ≤ MAX_ORDINAL →
  let y := year_from 40 ((n - 1) / 366 + 1) n in 1 ≤ y ≤ 9999 ∧ days_before_year y < n ≤ days_before_year (y + 1).
Proof.
  intros Hn. unfold MAX_ORDINAL in Hn.
  assert (days_before_year ((n - 1) / 366 + 1) < n) as Hlo by (unfold days_before_year; zdiv).
  assert (n ≤ days_before_year ((n - 1) / 366 + 1 + Z.of_nat 40)) as Hhi by (unfold days_before_year; zdiv).
  pose proof (year_from_spec 40 _ _ Hlo Hhi) as [H1 H2]. cbv zeta. set (y := year_from _ _ _) in *. split; [|done].
  assert (0 ≤ (n - 1) / 366) by (apply Z.div_pos; lia). split; [lia|].
  destruct (Z.le_gt_cases y 9999) as [|Hy]; [done|]. exfalso. clear -Hn H2 Hy. clearbody y. unfold days_before_year in H2. zdiv.
Qed.

(** A year is as long as its months. *)
Lemma year_length y : days_before_year (y + 1) - days_before_year y = foldr Z.add 0 (month_lengths y).
Proof.
  unfold days_before_year, month_lengths, is_leap.
  destruct (Z.eqb_spec (y mod 4) 0), (Z.eqb_spec (y mod 100) 0), (Z.eqb_spec (y mod 400) 0); cbn; zdiv.
Qed.

Lemma month_from_spec m lengths n :
  lengths ≠ [] → 0 < n → n ≤ foldr Z.add 0 lengths →
  let '(m', d) := month_from m lengths n in
  ∃ i, m' = (m + i)%nat ∧ (i < length lengths)%nat ∧ 0 < d ≤ nth i lengths 0 ∧ n = foldr Z.add 0 (take i lengths) + d.
Proof.
  revert m n. induction lengths as [|l rest IH]; intros m n Hne Hn Hsum; [done|]. cbn [month_from].
  destruct (Z.leb_spec n l) as [Hl|Hl]; cbn [orb].
  - exists 0%nat. cbn. lia.
  - case_bool_decide as Hr; [subst; cbn in *; lia|]. cbn [foldr] in Hsum. specialize (IH (S m) (n - l) Hr).
    destruct (month_from (S m) rest (n - l)) as [m' d]. destruct IH as (i & -> & Hi & Hd & E); [lia..|].
    exists (S i). cbn. split_and!; lia.
Qed.

Lemma date_of_days days : 1 ≤ days + 719163 ≤ MAX_ORDINAL →
  let '(y, (m, d)) := date_of days in
  1 ≤ y ≤ 9999 ∧ (1 ≤ m ≤ 12)%nat ∧ 1 ≤ d ≤ days_in_month y m ∧ date_days y m d = days.
Proof.
  intros Hn. unfold date_of. cbv zeta. pose proof (year_of_ordinal _ Hn) as [Hy Hd]. set (y := year_from _ _ _) in *.
  pose proof (month_from_spec 1 (month_lengths y) (days + 719163 - days_before_year y)) as Hm.
  destruct (month_from _ _ _) as [m d]. pose proof (year_length y).
  destruct Hm as (i & -> & Hi & Hd' & E); [done|lia..|]. change (length (month_lengths y)) with 12%nat in Hi.
  unfold days_in_month, date_days, days_before_month. replace (1 + i - 1)%nat with i by lia. lia.
Qed.

(** ** The text *)

(** [n] decimal digits, with leading zeros. *)
Fixpoint padded (n : nat) (v : Z) : string :=
  match n with
  | O => ""
  | S n' => String (hex_digit (v / 10 ^ Z.of_nat n')) (padded n' (v mod 10 ^ Z.of_nat n'))
  end.

Fixpoint read_digits (n : nat) (acc : Z) (s : string) : option (Z * string) :=
  match n with
  | O => Some (acc, s)
  | S n' => match s with
            | String c s' => if is_dec_digit c then d ← digit_value c; read_digits n' (acc * 10 + d) s' else None
            | "" => None
            end
  end.

Lemma dec_digit_shown d : 0 ≤ d < 10 → is_dec_digit (hex_digit d) = true.
Proof.
  intros Hd. assert (d = 0 ∨ d = 1 ∨ d = 2 ∨ d = 3 ∨ d = 4 ∨ d = 5 ∨ d = 6 ∨ d = 7 ∨ d = 8 ∨ d = 9) as H by lia.
  by destruct_or! H; subst.
Qed.

Lemma padded_head n v : 0 ≤ v < 10 ^ Z.of_nat (S n) → 0 ≤ v / 10 ^ Z.of_nat n < 10.
Proof.
  rewrite Nat2Z.inj_succ, Z.pow_succ_r by lia. intros Hv. assert (0 < 10 ^ Z.of_nat n) by (apply Z.pow_pos_nonneg; lia).
  split; [apply Z.div_pos; lia|apply Z.div_lt_upper_bound; lia].
Qed.

Lemma read_digits_padded n acc v r : 0 ≤ v < 10 ^ Z.of_nat n →
  read_digits n acc (padded n v +:+ r) = Some (acc * 10 ^ Z.of_nat n + v, r).
Proof.
  revert acc v. induction n as [|n IH]; intros acc v Hv.
  - change (10 ^ Z.of_nat 0) with 1 in *. cbn. rewrite str_nil_app. do 2 f_equal. lia.
  - cbn [padded read_digits]. rewrite str_cons_app. pose proof (padded_head n v Hv) as Hd.
    rewrite dec_digit_shown, hex_digit_value by lia. cbn [mbind option_bind].
    assert (0 < 10 ^ Z.of_nat n) by (apply Z.pow_pos_nonneg; lia).
    rewrite IH by (apply Z.mod_pos_bound; lia). do 2 f_equal. rewrite Nat2Z.inj_succ, Z.pow_succ_r by lia.
    pose proof (Z.div_mod v (10 ^ Z.of_nat n)). lia.
Qed.

Lemma padded_chars n v : 0 ≤ v < 10 ^ Z.of_nat n → str_all iso_char (padded n v) = true.
Proof.
  revert v. induction n as [|n IH]; intros v Hv; [done|]. cbn [padded str_all]. pose proof (padded_head n v Hv) as Hd.
  unfold iso_char at 1. rewrite dec_digit_shown by lia. cbn. apply IH, Z.mod_pos_bound, Z.pow_pos_nonneg; lia.
Qed.

Definition iso_text (t : Z) : string :=
  let '(y, (m, d)) := date_of (t / DAY) in
  let s := t mod DAY in
  padded 4 y +:+ "-" +:+ padded 2 (Z.of_nat m) +:+ "-" +:+ padded 2 d +:+ "T" +:+ padded 2 (s / 3600) +:+ ":"
    +:+ padded 2 (s / 60 mod 60) +:+ ":" +:+ padded 2 (s mod 60).

(** One expected character. *)
Definition expect (c : Ascii.ascii) (s : string) : option string :=
  match s with String c' s' => if Ascii.eqb c' c then Some s' else None | "" => None end.

(** The offset of a zone, in seconds: none, [Z] or [±HH:MM]. *)
Definition read_zone (s : string) : option (option Z) :=
  match s with
  | "" => Some None
  | String c s1 =>
      if String.eqb s "Z" then Some (Some 0)
      else if Ascii.eqb c "+" || Ascii.eqb c "-" then
        '(h, s2) ← read_digits 2 0 s1; s3 ← expect ":" s2; '(m, s4) ← read_digits 2 0 s3;
        if String.eqb s4 "" && (h <? 24) && (m <? 60)
        then Some (Some ((if Ascii.eqb c "-" then -1 else 1) * (h * 3600 + m * 60))) else None
      else None
  end.

(** The second a text names and its zone. *)
Definition read_moment (s : string) : option (Z * option Z) :=
  '(y, s) ← read_digits 4 0 s; s ← expect "-" s; '(m, s) ← read_digits 2 0 s; s ← expect "-" s;
  '(d, s) ← read_digits 2 0 s; s ← expect "T" s; '(h, s) ← read_digits 2 0 s; s ← expect ":" s;
  '(mi, s) ← read_digits 2 0 s; s ← expect ":" s; '(sec, s) ← read_digits 2 0 s; zone ← read_zone s;
  if (1 <=? y) && (1 <=? m) && (m <=? 12) && (1 <=? d) && (d <=? days_in_month y (Z.to_nat m))
     && (h <? 24) && (mi <? 60) && (sec <? 60)
  then Some (date_days y (Z.to_nat m) d * DAY + h * 3600 + mi * 60 + sec, zone) else None.

(** [fromisoformat] of the form above; Python reads more forms. *)
Definition read_iso (s : string) : IsoAnswer :=
  match read_moment s with
  | None => IsoBad
  | Some (_, None) => IsoNaive
  | Some (t, Some zone) => if in_range ((t - zone) * MICRO) then IsoAware ((t - zone) * MICRO) else IsoFar
  end.

Example iso_epoch : iso_text 0 = "1970-01-01T00:00:00".
Proof. vm_compute. reflexivity. Qed.

Example iso_leap_day : iso_text 1709251199 = "2024-02-29T23:59:59".
Proof. vm_compute. reflexivity. Qed.

Example iso_last : iso_text MAX_SECOND = "9999-12-31T23:59:59".
Proof. vm_compute. reflexivity. Qed.

Example iso_zone : read_iso "2026-09-28T12:00:00+02:00" = IsoAware (1790589600 * MICRO).
Proof. vm_compute. reflexivity. Qed.

Lemma expect_here c s : expect c (String c s) = Some s.
Proof. cbn. by rewrite Ascii.eqb_refl. Qed.

Lemma clock_fields t : let s := t mod DAY in
  0 ≤ s / 3600 < 24 ∧ 0 ≤ s / 60 mod 60 < 60 ∧ 0 ≤ s mod 60 < 60 ∧ s = s / 3600 * 3600 + s / 60 mod 60 * 60 + s mod 60.
Proof. cbv zeta. unfold DAY. pose proof (Z.mod_pos_bound t 86400). zdiv. Qed.

Lemma date_range t : MIN_SECOND ≤ t ≤ MAX_SECOND → 1 ≤ t / DAY + 719163 ≤ MAX_ORDINAL.
Proof. unfold MIN_SECOND, MAX_SECOND, DAY, MAX_ORDINAL. intros. zdiv. Qed.

Lemma days_in_month_le y m : (1 ≤ m ≤ 12)%nat → days_in_month y m ≤ 31.
Proof.
  intros Hm. unfold days_in_month, month_lengths.
  do 13 (destruct m as [|m]; [try lia; cbn; try destruct (is_leap y); lia|]). lia.
Qed.

Lemma read_moment_iso t : MIN_SECOND ≤ t ≤ MAX_SECOND → read_moment (iso_text t +:+ "+00:00") = Some (t, Some 0).
Proof.
  intros Ht. pose proof (date_of_days _ (date_range t Ht)) as Hd. unfold iso_text.
  destruct (date_of (t / DAY)) as [y [m d]]. destruct Hd as (Hy & Hm & Hd & E).
  pose proof (days_in_month_le y m Hm). destruct (clock_fields t) as (Hh & Hmi & Hs & Ec). cbv zeta in *.
  set (h := t mod DAY / 3600) in *. set (mi := t mod DAY / 60 mod 60) in *. set (sec := t mod DAY mod 60) in *.
  rewrite !str_app_assoc, !str_cons_app, !str_nil_app. unfold read_moment.
  repeat (rewrite read_digits_padded by (cbn; lia); cbn [mbind option_bind]; rewrite expect_here; cbn [mbind option_bind]).
  rewrite read_digits_padded by (cbn; lia). cbn [mbind option_bind].
  change (read_zone "+00:00") with (Some (Some 0)). cbn [mbind option_bind]. cbn [Z.of_nat Pos.of_succ_nat Pos.succ].
  rewrite !Z.mul_0_l, !Z.add_0_l, Nat2Z.id.
  match goal with |- (if ?b then _ else _) = _ =>
    assert (b = true) as -> by (rewrite !andb_true_iff, !Z.leb_le, !Z.ltb_lt; lia) end.
  rewrite E.   do 2 f_equal. pose proof (Z.div_mod t DAY ltac:(done)). lia.
Qed.

#[export, refine] Instance gregorian : IsoTime := {
  isoformat t := iso_text t +:+ "+00:00";
  fromisoformat := read_iso;
}.
Proof.
  - intros s t. unfold read_iso. destruct (read_moment s) as [[u [z|]]|]; [|done..].
    destruct (in_range ((u - z) * MICRO)) eqn:E; naive_solver.
  - intros t Ht. eexists. split; [done|]. pose proof (date_of_days _ (date_range t Ht)) as Hd. unfold iso_text.
    destruct (date_of (t / DAY)) as [y [m d]]. destruct Hd as (Hy & Hm & Hd & E).
    pose proof (days_in_month_le y m Hm). destruct (clock_fields t) as (Hh & Hmi & Hs & _). cbv zeta in *.
    split; [|cbn [padded]; by rewrite str_cons_app].
    rewrite !str_all_app, !padded_chars by (cbn; lia). done.
  - intros t Ht. unfold read_iso. rewrite read_moment_iso by done. rewrite Z.sub_0_r. unfold in_range.
    rewrite Z.div_mul by done. by rewrite !(proj2 (Z.leb_le _ _)) by lia.
Defined.
