(* ===== verification/PyStrings.v ===== *)
(** * More of Python's [str]: replacing, case, [repr], and line anchors

    Code points are below 256, and what is said of a character is what the
    Unicode database says of it there. *)

From Stdlib Require Import Ascii.
From S2P Require Import Prelude PyText.

(** ** Replacing *)

(** [s.replace(old, new)] for a non-empty [old]; [skip] characters of a match
    are still to be passed over. *)
Fixpoint replace_go (old new : string) (skip : nat) (s : string) : string :=
  match s with
  | "" => ""
  | String c s' =>
      match skip with
      | S k => replace_go old new k s'
      | O => if String.prefix old s then new +:+ replace_go old new (String.length old - 1) s'
             else String c (replace_go old new 0 s')
      end
  end.

Definition str_replace (old new s : string) : string := replace_go old new 0 s.

Definition other_than (c : ascii) (x : ascii) : bool := negb (Ascii.eqb x c).

Lemma replace_other h o new d s : str_all (other_than h) d = true →
  str_replace (String h o) new (d +:+ s) = d +:+ str_replace (String h o) new s.
Proof.
  unfold str_replace. induction d as [|c d IH]; [by rewrite !str_nil_app|]. cbn [str_all]. intros [Hc Hd]%andb_true_iff.
  rewrite !str_cons_app. cbn [replace_go String.prefix]. unfold other_than in Hc.
  destruct (Ascii.ascii_dec h c) as [->|_]; [by rewrite Ascii.eqb_refl in Hc|]. by rewrite IH.
Qed.

Lemma replace_none h o new s : str_all (other_than h) s = true → str_replace (String h o) new s = s.
Proof. intros Hs. rewrite <-(str_app_nil s) at 1. rewrite replace_other by done. apply str_app_nil. Qed.

(** ** Case and digits *)

Definition char_lower (c : ascii) : ascii :=
  let n := Ascii.nat_of_ascii c in
  if ((65 <=? n) && (n <=? 90) || (192 <=? n) && (n <=? 222) && negb (n =? 215))%nat
  then Ascii.ascii_of_nat (n + 32) else c.

Fixpoint str_lower (s : string) : string :=
  match s with "" => "" | String c s' => String (char_lower c) (str_lower s') end.

(** [c.isdigit()]: the decimal digits and the three superscripts. *)
Definition char_isdigit (c : ascii) : bool :=
  is_dec_digit c || (let n := Ascii.nat_of_ascii c in (n =? 178) || (n =? 179) || (n =? 185))%nat.

Definition str_isdigit (s : string) : bool := nonempty s && str_all char_isdigit s.

(** The characters of [\w]: [c.isalnum()] or the underscore. *)
Definition word_char (c : ascii) : bool :=
  let n := Ascii.nat_of_ascii c in
  ((48 <=? n) && (n <=? 57) || (65 <=? n) && (n <=? 90) || (97 <=? n) && (n <=? 122) || (n =? 95)
   || (n =? 170) || (n =? 178) || (n =? 179) || (n =? 181) || (n =? 185) || (n =? 186)
   || (188 <=? n) && (n <=? 190) || (192 <=? n) && negb (n =? 215) && negb (n =? 247))%nat.

(** The leading decimal digits and the rest. *)
Fixpoint span_digits (s : string) : string * string :=
  match s with
  | String c s' => if is_dec_digit c then let '(d, r) := span_digits s' in (String c d, r) else ("", s)
  | "" => ("", "")
  end.

Lemma span_digits_app s : let '(d, r) := span_digits s in s = d +:+ r ∧ str_all is_dec_digit d = true.
Proof.
  induction s as [|c s IH]; [done|]. cbn. destruct (is_dec_digit c) eqn:E; [|done].
  destruct (span_digits s) as [d r]. destruct IH as [-> Hd]. rewrite str_cons_app. cbn. by rewrite E.
Qed.

(** ** Anchors: [$] also matches before a newline that ends the text *)

Definition NEWLINE : ascii := Ascii.ascii_of_nat 10.

Fixpoint chomp (s : string) : string :=
  match s with
  | "" => ""
  | String c s' => if Ascii.eqb c NEWLINE && negb (nonempty s') then "" else String c (chomp s')
  end.

Lemma chomp_id s : str_all (other_than NEWLINE) s = true → chomp s = s.
Proof.
  induction s as [|c s IH]; [done|]. cbn [str_all chomp]. intros [Hc Hs]%andb_true_iff. unfold other_than in Hc.
  apply negb_true_iff in Hc. rewrite Hc. cbn. by rewrite IH.
Qed.

Lemma chomp_stripped s : chomp (str_strip s) = str_strip s.
Proof.
  unfold str_strip. generalize (lstrip_by is_space s). clear s. intros s. induction s as [|c s IH]; [done|]. cbn [rstrip_by].
  destruct (rstrip_by is_space s) as [|c' r] eqn:E.
  - destruct (is_space c) eqn:Ec; [done|]. cbn. rewrite andb_true_r.
    destruct (Ascii.eqb_spec c NEWLINE) as [->|]; [by vm_compute in Ec|done].
  - cbn [chomp]. rewrite andb_false_r. f_equal. exact IH.
Qed.

(** ** [repr] *)

Definition SQUOTE : ascii := Ascii.ascii_of_nat 39.
Definition DQUOTE : ascii := Ascii.ascii_of_nat 34.
Definition BACKSLASH : ascii := Ascii.ascii_of_nat 92.

Definition repr_char (q c : ascii) : string :=
  let n := Ascii.nat_of_ascii c in
  if Ascii.eqb c q || Ascii.eqb c BACKSLASH then String BACKSLASH (String c "")
  else if (n =? 10)%nat then String BACKSLASH "n"
  else if (n =? 13)%nat then String BACKSLASH "r"
  else if (n =? 9)%nat then String BACKSLASH "t"
  else if ((32 <=? n) && (n <=? 126) || (161 <=? n) && negb (n =? 173))%nat then String c ""
  else String BACKSLASH (String "x" (String (hex_digit (Z.of_nat n / 16)) (String (hex_digit (Z.of_nat n mod 16)) ""))).

Fixpoint repr_chars (q : ascii) (s : string) : string :=
  match s with "" => "" | String c s' => repr_char q c +:+ repr_chars q s' end.

(** [repr(s)] of a [str]: double quotes when they save escapes. *)
Definition str_repr (s : string) : string :=
  let q := if char_in SQUOTE s && negb (char_in DQUOTE s) then DQUOTE else SQUOTE in
  String q (repr_chars q s +:+ String q "").

(** [repr(v)]; only a string's differs from its [str]. *)
Definition val_repr `{PyRepr} (v : pyval) : string := match v with VStr s => str_repr s | _ => py_str v end.

(** ** Splitting on commas into stripped, non-empty parts *)

Definition comma_parts (s : string) : list string :=
  filter (λ p, nonempty p = true) (str_strip <$> str_split "," s).

(** ** Stripped text *)

Definition head_kept (p : ascii → bool) (s : string) : bool := match s with "" => true | String c _ => negb (p c) end.

Lemma lstrip_head p s : head_kept p (lstrip_by p s) = true.
Proof. induction s as [|c s IH]; [done|]. cbn. destruct (p c) eqn:E; [done|]. cbn. by rewrite E. Qed.

Lemma lstrip_kept p s : head_kept p s = true → lstrip_by p s = s.
Proof. destruct s as [|c s]; [done|]. cbn. by intros ->%negb_true_iff. Qed.

Lemma rstrip_head p s : head_kept p s = true → head_kept p (rstrip_by p s) = true.
Proof. destruct s as [|c s]; [done|]. cbn. intros E. destruct (rstrip_by p s); [|done]. apply negb_true_iff in E. rewrite E. cbn. by rewrite E. Qed.

Lemma rstrip_idem p s : rstrip_by p (rstrip_by p s) = rstrip_by p s.
Proof.
  induction s as [|c s IH]; [done|]. cbn. destruct (rstrip_by p s) as [|c' r] eqn:E.
  - destruct (p c) eqn:Ec; [done|]. cbn. by rewrite Ec.
  - cbn [rstrip_by] in *. by rewrite IH.
Qed.

Lemma rstrip_app p s t : rstrip_by p t = t → t ≠ "" → rstrip_by p (s +:+ t) = s +:+ t.
Proof.
  intros Ht Hne. induction s as [|c s IH]; [done|]. rewrite !str_cons_app. cbn. rewrite IH.
  destruct (s +:+ t) eqn:E; [|done]. destruct s, t; cbn in E; done.
Qed.

Lemma strip_strip s : str_strip (str_strip s) = str_strip s.
Proof.
  unfold str_strip. rewrite (lstrip_kept is_space (rstrip_by _ _)); [apply rstrip_idem|]. apply rstrip_head, lstrip_head.
Qed.

Lemma strip_app c p s : is_space c = false → str_strip s = s → s ≠ "" → str_strip (String c p +:+ s) = String c p +:+ s.
Proof.
  intros Hc Hs Hne. unfold str_strip. rewrite lstrip_kept by (rewrite str_cons_app; cbn; by rewrite Hc).
  apply rstrip_app; [|done]. rewrite <-Hs. unfold str_strip. apply rstrip_idem.
Qed.

Lemma str_all_lstrip q p s : str_all q s = true → str_all q (lstrip_by p s) = true.
Proof. induction s as [|c s IH]; [done|]. cbn. intros [Hc Hs]%andb_true_iff. destruct (p c); [auto|]. cbn. by rewrite Hc, Hs. Qed.

Lemma str_all_rstrip q p s : str_all q s = true → str_all q (rstrip_by p s) = true.
Proof.
  induction s as [|c s IH]; [done|]. cbn. intros [Hc Hs]%andb_true_iff. specialize (IH Hs).
  destruct (rstrip_by p s) eqn:E; [destruct (p c); [done|]; cbn; by rewrite Hc|]. cbn [str_all] in *. by rewrite Hc, IH.
Qed.

Lemma str_all_strip q s : str_all q s = true → str_all q (str_strip s) = true.
Proof. intros. by apply str_all_rstrip, str_all_lstrip. Qed.

Lemma str_all_drop q n s : str_all q s = true → str_all q (str_drop n s) = true.
Proof. revert s. induction n as [|n IH]; intros [|c s]; cbn; try done. intros [_ Hs]%andb_true_iff. auto. Qed.

Lemma split_no_sep sep s : Forall (λ p, str_all (other_than sep) p = true) (str_split sep s).
Proof.
  induction s as [|c s IH]; [by repeat constructor|]. cbn. destruct (Ascii.eqb c sep) eqn:E; [by constructor|].
  destruct (str_split sep s) as [|w ws]; [by repeat constructor; cbn; unfold other_than; rewrite E|].
  inversion_clear IH. constructor; [|done]. cbn. unfold other_than at 1. by rewrite E.
Qed.

(** What stands between the commas is stripped, not empty and free of commas. *)
Definition is_part (p : string) : Prop :=
  str_all (other_than ",") p = true ∧ str_strip p = p ∧ nonempty p = true.

Lemma comma_parts_parts s : Forall is_part (comma_parts s).
Proof.
  unfold comma_parts. apply Forall_forall. intros p [Hp Hin]%list_elem_of_filter.
  apply list_elem_of_fmap in Hin as (w & -> & Hw). split_and!; [|apply strip_strip|done].
  apply str_all_strip. by eapply (proj1 (Forall_forall _ _)) in Hw; [|apply split_no_sep].
Qed.

Lemma comma_parts_one p : is_part p → comma_parts p = [p].
Proof.
  intros (Hc & Hs & Hn). unfold comma_parts. rewrite str_split_all; [|exact Hc].
  cbn [fmap list_fmap]. rewrite Hs. by rewrite filter_cons_True.
Qed.
