(* ===== verification/JsonText.v ===== *)
(** * JSON text of one object per line

    What the journal and the wire use of [json.dumps] and [json.loads], as a
    class with its laws: a value is printed on one line of ASCII and read back
    with the keys of its objects sorted.  Clients are proved against the class;
    [Json] is the grammar itself and discharges it. *)

From S2P Require Import Prelude PyText.

Definition newline : Ascii.ascii := Ascii.ascii_of_nat 10.

(** Text without a newline. *)
Definition one_line (s : string) : bool := str_all (λ c, negb (Ascii.eqb c newline)) s.

(** ** Values: an induction principle that reaches into lists and objects *)

Section pyval_nested_ind.
Variable P : pyval → Prop.
Hypothesis Hnone : P VNone.
Hypothesis Hbool : ∀ b, P (VBool b).
Hypothesis Hint : ∀ z, P (VInt z).
Hypothesis Hfloat : ∀ f, P (VFloat f).
Hypothesis Hstr : ∀ s, P (VStr s).
Hypothesis Hlist : ∀ l, Forall P l → P (VList l).
Hypothesis Hdict : ∀ d, Forall (λ p, P p.2) d → P (VDict d).

Fixpoint pyval_nested_ind (v : pyval) : P v :=
  match v with
  | VNone => Hnone
  | VBool b => Hbool b
  | VInt z => Hint z
  | VFloat f => Hfloat f
  | VStr s => Hstr s
  | VList l => Hlist l ((fix go l := match l return Forall P l with
                         | [] => Forall_nil_2 P
                         | x :: l' => Forall_cons_2 P x l' (pyval_nested_ind x) (go l')
                         end) l)
  | VDict d => Hdict d ((fix go d := match d return Forall (λ p, P p.2) d with
                         | [] => Forall_nil_2 _
                         | p :: d' => Forall_cons_2 _ p d' (pyval_nested_ind p.2) (go d')
                         end) d)
  end.
End pyval_nested_ind.

(** ** Sorted keys: the item order of [sort_keys=True] *)

Section sort_items.
Context {A : Type}.
Implicit Types (p q : string * A) (d : list (string * A)).

Fixpoint insert_item p d : list (string * A) :=
  match d with
  | [] => [p]
  | q :: d' => if String.leb p.1 q.1 then p :: d else q :: insert_item p d'
  end.

Definition sort_items d : list (string * A) := foldr insert_item [] d.

Lemma insert_item_perm p d : insert_item p d ≡ₚ p :: d.
Proof.
  induction d as [|q d IH]; cbn; [done|]. destruct (String.leb p.1 q.1); [done|]. rewrite IH. constructor.
Qed.

Lemma sort_items_perm d : sort_items d ≡ₚ d.
Proof. induction d as [|p d IH]; cbn; [done|]. by rewrite insert_item_perm, IH. Qed.

Lemma sort_items_wf d : dict_wf d → dict_wf (sort_items d).
Proof. unfold dict_wf. by rewrite sort_items_perm. Qed.
End sort_items.

Lemma sort_items_fmap {A B} (f : A → B) (d : list (string * A)) :
  sort_items (map (λ p, (p.1, f p.2)) d) = map (λ p, (p.1, f p.2)) (sort_items d).
Proof.
  assert (∀ p (l : list (string * A)),
    insert_item (p.1, f p.2) (map (λ p, (p.1, f p.2)) l) = map (λ p, (p.1, f p.2)) (insert_item p l)) as Hins.
  { intros p l. induction l as [|q l IH]; cbn; [done|]. destruct (String.leb p.1 q.1); [done|]. cbn. by rewrite IH. }
  induction d as [|p d IH]; [done|]. cbn [map sort_items foldr]. fold (sort_items d).
  change (foldr insert_item [] (map (λ p, (p.1, f p.2)) d)) with (sort_items (map (λ p, (p.1, f p.2)) d)).
  by rewrite IH, Hins.
Qed.

Lemma dict_get_perm {A} (d d' : list (string * A)) k : dict_wf d → d ≡ₚ d' → dict_get d k = dict_get d' k.
Proof.
  intros Hwf Hp. revert Hwf. induction Hp as [|[k1 v1] d d' Hp IH|[k1 v1] [k2 v2] d|d d1 d2 Hp1 IH1 Hp2 IH2].
  - done.
  - intros Hwf. cbn. destruct (String.eqb k1 k); [done|]. apply IH. by inversion Hwf.
  - intros Hwf. cbn. destruct (String.eqb_spec k1 k) as [->|], (String.eqb_spec k2 k) as [->|]; try done.
    exfalso. inversion Hwf as [|? ? Hn _]. apply Hn. cbn. by left.
  - intros Hwf. rewrite IH1 by done. apply IH2. unfold dict_wf in *. by rewrite <-Hp1.
Qed.

Lemma dict_get_map {A B} (f : A → B) (d : list (string * A)) k :
  dict_get (map (λ p, (p.1, f p.2)) d) k = f <$> dict_get d k.
Proof. induction d as [|[k1 v1] d IH]; cbn; [done|]. by destruct (String.eqb k1 k). Qed.

Lemma dict_map_wf {A B} (f : A → B) (d : list (string * A)) : dict_wf d → dict_wf (map (λ p, (p.1, f p.2)) d).
Proof. unfold dict_wf. change (@map) with (@List.map). by rewrite <-!list_fmap_compose. Qed.

(** The value with the keys of every object sorted: what a reader of the text
    gets back. *)
Fixpoint sorted (v : pyval) : pyval :=
  match v with
  | VList l => VList (map sorted l)
  | VDict d => VDict (sort_items (map (λ p, (p.1, sorted p.2)) d))
  | _ => v
  end.

Definition sorted_items (d : list (string * pyval)) : list (string * pyval) :=
  sort_items (map (λ p, (p.1, sorted p.2)) d).

Lemma sorted_items_wf d : dict_wf d → dict_wf (sorted_items d).
Proof. intros. by apply sort_items_wf, dict_map_wf. Qed.

Lemma dict_get_sorted d k : dict_wf d → dict_get (sorted_items d) k = sorted <$> dict_get d k.
Proof.
  intros Hwf. rewrite <-(dict_get_map sorted).
  apply dict_get_perm; [by apply sorted_items_wf|]. apply sort_items_perm.
Qed.

Lemma get_sorted d k : dict_wf d → get (sorted_items d) k = sorted (get d k).
Proof. intros Hd. unfold get. rewrite dict_get_sorted by done. by destruct (dict_get d k). Qed.

Lemma dict_set_same {A} (d : list (string * A)) k v : dict_get d k = Some v → dict_set d k v = d.
Proof.
  induction d as [|[k1 v1] d IH]; cbn; [done|]. destruct (String.eqb_spec k1 k) as [->|]; [congruence|].
  intros E. by rewrite IH.
Qed.

(** ** What can be printed: unique keys, and integers within the interpreter's
    limit of 4300 decimal digits *)

Definition INT_LIMIT : Z := 10 ^ 4300.

Lemma INT_LIMIT_large n : n < 10 ^ 20 → n < INT_LIMIT.
Proof. intros Hn. apply (Z.lt_trans _ _ _ Hn), Z.pow_lt_mono_r; lia. Qed.
#[global] Opaque INT_LIMIT.

Fixpoint printable (v : pyval) : bool :=
  match v with
  | VInt z => Z.abs z <? INT_LIMIT
  | VList l => forallb printable l
  | VDict d => bool_decide (NoDup d.*1) && forallb (λ p, printable p.2) d
  | _ => true
  end.

Lemma printable_dict d : printable (VDict d) = true ↔ dict_wf d ∧ Forall (λ p, printable p.2 = true) d.
Proof.
  cbn [printable]. rewrite andb_true_iff, bool_decide_eq_true, forallb_forall, Forall_forall.
  unfold dict_wf. by setoid_rewrite list_elem_of_In.
Qed.

(** ** The interface *)

Class JsonText := {
  (** [json.dumps(d, sort_keys=True, separators=(",", ":"))] of an object. *)
  dumps : list (string * pyval) → string;
  (** [json.loads(line.decode("utf-8"))]; [None] is a [UnicodeDecodeError] or
      [ValueError]. *)
  loads : string → option pyval;
  loads_dumps d : printable (VDict d) = true → loads (dumps d) = Some (VDict (sorted_items d));
  dumps_one_line d : one_line (dumps d) = true;
  dumps_braced d : String.prefix "{" (dumps d) = true;
}.

(** What the board's fields use besides: text that is already decoded, and the
    default separators. *)
Class JsonStr `{JsonText} := {
  (** [json.loads(text)]; [None] is a [ValueError]. *)
  loads_str : string → option pyval;
  (** [json.dumps(d, sort_keys=True)] of an object. *)
  dumps_spaced : list (string * pyval) → string;
  loads_str_dumps d : printable (VDict d) = true → loads_str (dumps d) = Some (VDict (sorted_items d));
  loads_str_empty : loads_str "" = None;
}.
