(* ===== verification/Json.v ===== *)
(** * The JSON grammar of Python's [json] module

    [render] is [json.dumps] with sorted keys, compact separators and ASCII
    escapes; [parse] is [json.loads] of a decoded line: the scanner of strings
    and numbers and the recursive descent over values, with fuel.  How a float
    is written and read is the class [FloatText].  The round trip discharges the
    interface [JsonText].

    Strings hold code points below 256, so a text that names a larger one (by a
    [\u] escape or in UTF-8) is outside the model, and is refused here. *)

From Stdlib Require Import Ascii.
From S2P Require Import Prelude PyText JsonText.

Definition quote : Ascii.ascii := Ascii.ascii_of_nat 34.
Definition backslash : Ascii.ascii := Ascii.ascii_of_nat 92.

Definition code (c : Ascii.ascii) : Z := Z.of_nat (Ascii.nat_of_ascii c).
Definition chr (n : Z) : Ascii.ascii := Ascii.ascii_of_nat (Z.to_nat n).

Lemma code_range c : 0 ≤ code c < 256.
Proof. unfold code. pose proof (Ascii.nat_ascii_bounded c). lia. Qed.

Lemma chr_code c : chr (code c) = c.
Proof. unfold chr, code. by rewrite Nat2Z.id, Ascii.ascii_nat_embedding. Qed.

(** ** Strings *)

(** The two-character escapes, by the letter after the backslash. *)
Definition short_escapes : list (Ascii.ascii * Ascii.ascii) :=
  [(quote, quote); (backslash, backslash); (chr 98, chr 8); (chr 102, chr 12); (chr 110, chr 10);
   (chr 114, chr 13); (chr 116, chr 9)].

Definition escape_of (c : Ascii.ascii) : option Ascii.ascii :=
  fst <$> List.find (λ p, Ascii.eqb p.2 c) short_escapes.

Definition unescape (e : Ascii.ascii) : option Ascii.ascii :=
  if Ascii.eqb e "/" then Some "/"%char else snd <$> List.find (λ p, Ascii.eqb p.1 e) short_escapes.

(** One character of a string literal. *)
Definition escape (c : Ascii.ascii) : string :=
  match escape_of c with
  | Some e => String backslash (String e "")
  | None =>
      if (32 <=? code c) && (code c <=? 126) then String c ""
      else String backslash (String "u" (String "0" (String "0"
             (String (hex_digit (code c / 16)) (String (hex_digit (code c mod 16)) "")))))
  end.

Fixpoint escapes (s : string) : string :=
  match s with "" => "" | String c s' => escape c +:+ escapes s' end.

Definition render_string (s : string) : string := String quote (escapes s +:+ String quote "").

(** The value of four hex digits. *)
Definition hex4 (a b c d : Ascii.ascii) : option Z :=
  x ← digit_value a; y ← digit_value b; z ← digit_value c; w ← digit_value d;
  if (x <? 16) && (y <? 16) && (z <? 16) && (w <? 16) then Some (((x * 16 + y) * 16 + z) * 16 + w) else None.

(** The rest of a string literal after its opening quote, and what follows it. *)
Fixpoint scan_string (s : string) : option (string * string) :=
  match s with
  | "" => None
  | String c s1 =>
      if Ascii.eqb c quote then Some ("", s1)
      else if Ascii.eqb c backslash then
        match s1 with
        | String e s2 =>
            if Ascii.eqb e "u" then
              match s2 with
              | String h1 (String h2 (String h3 (String h4 s3))) =>
                  n ← hex4 h1 h2 h3 h4;
                  if n <? 256 then '(t, r) ← scan_string s3; Some (String (chr n) t, r) else None
              | _ => None
              end
            else x ← unescape e; '(t, r) ← scan_string s2; Some (String x t, r)
        | "" => None
        end
      else if code c <? 32 then None
      else '(t, r) ← scan_string s1; Some (String c t, r)
  end.

(** ** Numbers *)

Fixpoint scan_digits (s : string) : string * string :=
  match s with
  | String c s' => if is_dec_digit c then let '(d, r) := scan_digits s' in (String c d, r) else ("", s)
  | "" => ("", "")
  end.

Definition scan_sign (s : string) : string * string :=
  match s with String c s' => if Ascii.eqb c "-" then ("-", s') else ("", s) | "" => ("", "") end.

(** [0|[1-9]\d*]. *)
Definition scan_whole (s : string) : option (string * string) :=
  match s with
  | String c s' =>
      if Ascii.eqb c "0" then Some ("0", s')
      else if is_dec_digit c then let '(d, r) := scan_digits s' in Some (String c d, r) else None
  | "" => None
  end.

(** [(\.\d+)?] *)
Definition scan_fraction (s : string) : string * string :=
  match s with
  | String c s' =>
      if Ascii.eqb c "." then
        let '(d, r) := scan_digits s' in if nonempty d then (String c d, r) else ("", s)
      else ("", s)
  | "" => ("", "")
  end.

(** [([eE][-+]?\d+)?] *)
Definition scan_exponent (s : string) : string * string :=
  match s with
  | String c s' =>
      if Ascii.eqb c "e" || Ascii.eqb c "E" then
        let '(sign, s1) := match s' with
          | String x s2 => if Ascii.eqb x "-" || Ascii.eqb x "+" then (String x "", s2) else ("", s')
          | "" => ("", "")
          end in
        let '(d, r) := scan_digits s1 in if nonempty d then (String c (sign +:+ d), r) else ("", s)
      else ("", s)
  | "" => ("", "")
  end.

(** The literal's integer part, its fraction and exponent, and the rest. *)
Definition scan_number (s : string) : option (string * string * string) :=
  let '(sign, s1) := scan_sign s in
  '(whole, s2) ← scan_whole s1;
  let '(frac, s3) := scan_fraction s2 in
  let '(expo, s4) := scan_exponent s3 in
  Some (sign +:+ whole, frac +:+ expo, s4).

(** [float.__repr__] of a finite float and [float()] of a number literal. *)
Class FloatText := {
  float_repr : Z → string;
  float_of : string → pyfloat;
  float_of_repr t : float_of (float_repr t) = FFin t;
  float_lexes t : ∃ whole frac,
    scan_number (float_repr t) = Some (whole, frac, "") ∧ float_repr t = whole +:+ frac ∧ nonempty frac = true;
}.

Section json.
Context `{FloatText}.

Definition render_float (f : pyfloat) : string :=
  match f with FFin t => float_repr t | FInf => "Infinity" | FNegInf => "-Infinity" | FNan => "NaN" end.

Fixpoint render (v : pyval) : string :=
  match v with
  | VNone => "null"
  | VBool true => "true"
  | VBool false => "false"
  | VInt z => pretty z
  | VFloat f => render_float f
  | VStr s => render_string s
  | VList l => "[" +:+ String.concat "," (map render l) +:+ "]"
  | VDict d => "{" +:+ String.concat "," (map (λ p, render_string p.1 +:+ ":" +:+ p.2)
                                             (sort_items (map (λ p, (p.1, render p.2)) d))) +:+ "}"
  end.

(** The default separators of [json.dumps]. *)
Fixpoint render_spaced (v : pyval) : string :=
  match v with
  | VList l => "[" +:+ String.concat ", " (map render_spaced l) +:+ "]"
  | VDict d => "{" +:+ String.concat ", " (map (λ p, render_string p.1 +:+ ": " +:+ p.2)
                                              (sort_items (map (λ p, (p.1, render_spaced p.2)) d))) +:+ "}"
  | _ => render v
  end.

(** ** Values *)

Definition is_ws (c : Ascii.ascii) : bool :=
  bool_decide (code c ∈ [32; 9; 10; 13]).

Fixpoint skip_ws (s : string) : string :=
  match s with String c s' => if is_ws c then skip_ws s' else s | "" => "" end.

Definition number_value (whole frac : string) : option pyval :=
  if nonempty frac then Some (VFloat (float_of (whole +:+ frac))) else VInt <$> parse_int 10 whole.

(** A literal name or a number. *)
Definition scan_atom (s : string) : option (pyval * string) :=
  if String.prefix "null" s then Some (VNone, str_drop 4 s)
  else if String.prefix "true" s then Some (VBool true, str_drop 4 s)
  else if String.prefix "false" s then Some (VBool false, str_drop 5 s)
  else if String.prefix "NaN" s then Some (VFloat FNan, str_drop 3 s)
  else if String.prefix "Infinity" s then Some (VFloat FInf, str_drop 8 s)
  else if String.prefix "-Infinity" s then Some (VFloat FNegInf, str_drop 9 s)
  else '(whole, frac, r) ← scan_number s; v ← number_value whole frac; Some (v, r).

Fixpoint parse_value (fuel : nat) (s : string) : option (pyval * string) :=
  match fuel, s with
  | S fuel, String c s1 =>
      if Ascii.eqb c quote then '(t, r) ← scan_string s1; Some (VStr t, r)
      else if Ascii.eqb c "{" then
        match skip_ws s1 with
        | String c2 s2 =>
            if Ascii.eqb c2 "}" then Some (VDict [], s2)
            else '(d, r) ← parse_members fuel (String c2 s2); Some (VDict (dict_of_list d), r)
        | "" => None
        end
      else if Ascii.eqb c "[" then
        match skip_ws s1 with
        | String c2 s2 =>
            if Ascii.eqb c2 "]" then Some (VList [], s2)
            else '(l, r) ← parse_elements fuel (String c2 s2); Some (VList l, r)
        | "" => None
        end
      else scan_atom s
  | _, _ => None
  end
with parse_members (fuel : nat) (s : string) : option (list (string * pyval) * string) :=
  match fuel, s with
  | S fuel, String c s1 =>
      if Ascii.eqb c quote then
        '(k, s2) ← scan_string s1;
        match skip_ws s2 with
        | String c2 s3 =>
            if Ascii.eqb c2 ":" then
              '(v, s4) ← parse_value fuel (skip_ws s3);
              match skip_ws s4 with
              | String c3 s5 =>
                  if Ascii.eqb c3 "," then '(d, r) ← parse_members fuel (skip_ws s5); Some ((k, v) :: d, r)
                  else if Ascii.eqb c3 "}" then Some ([(k, v)], s5) else None
              | "" => None
              end
            else None
        | "" => None
        end
      else None
  | _, _ => None
  end
with parse_elements (fuel : nat) (s : string) : option (list pyval * string) :=
  match fuel with
  | S fuel =>
      '(v, s4) ← parse_value fuel s;
      match skip_ws s4 with
      | String c3 s5 =>
          if Ascii.eqb c3 "," then '(l, r) ← parse_elements fuel (skip_ws s5); Some (v :: l, r)
          else if Ascii.eqb c3 "]" then Some ([v], s5) else None
      | "" => None
      end
  | O => None
  end.

(** [bytes.decode("utf-8")]. *)
Fixpoint utf8_decode (s : string) : option string :=
  match s with
  | "" => Some ""
  | String c s1 =>
      if code c <? 128 then String c <$> utf8_decode s1
      else match s1 with
           | String c2 s2 =>
               if (194 <=? code c) && (code c <=? 195) && (128 <=? code c2) && (code c2 <? 192)
               then String (chr ((code c - 192) * 64 + (code c2 - 128))) <$> utf8_decode s2
               else None
           | "" => None
           end
  end.

(** [json.loads] of a text. *)
Definition parse (text : string) : option pyval :=
  '(v, r) ← parse_value (S (2 * String.length text)) (skip_ws text);
  if nonempty (skip_ws r) then None else Some v.

(** ** Strings read back *)

(** The three shapes of an escaped character. *)
Lemma escape_shapes c :
  (∃ e, escape c = String backslash (String e "") ∧ Ascii.eqb e "u" = false ∧ unescape e = Some c) ∨
  (escape c = String c "" ∧ Ascii.eqb c quote = false ∧ Ascii.eqb c backslash = false ∧ (code c <? 32) = false) ∨
  (∃ h3 h4 n, escape c = String backslash (String "u" (String "0" (String "0" (String h3 (String h4 ""))))) ∧
     hex4 "0" "0" h3 h4 = Some n ∧ (n <? 256) = true ∧ chr n = c).
Proof.
  destruct (escape_of c) as [e|] eqn:E.
  - left. exists e. unfold escape. rewrite E. split; [done|].
    destruct c as [[] [] [] [] [] [] [] []]; vm_compute in E; try discriminate E; injection E as <-; by vm_compute.
  - right. unfold escape. rewrite E. destruct ((32 <=? code c) && (code c <=? 126)) eqn:Ec.
    + left. split; [done|]. boolify.
      destruct c as [[] [] [] [] [] [] [] []]; vm_compute in E; try discriminate E; try done;
        vm_compute in Ec; by destruct Ec.
    + right. exists (hex_digit (code c / 16)), (hex_digit (code c mod 16)), (code c).
      pose proof (code_range c). split; [done|]. rewrite chr_code. split_and!; [|lia|done].
      unfold hex4. rewrite !hex_digit_value by (split; [apply Z.div_pos; lia|apply Z.div_lt_upper_bound; lia] || (apply Z.mod_pos_bound; lia)).
      cbn. pose proof (Z.mod_pos_bound (code c) 16). assert (code c / 16 < 16) by (apply Z.div_lt_upper_bound; lia).
      assert (0 ≤ code c / 16) by (apply Z.div_pos; lia). pose proof (Z.div_mod (code c) 16).
      change (digit_value "0") with (Some 0). cbn [mbind option_bind].
      rewrite (proj2 (Z.ltb_lt (code c / 16) 16)), (proj2 (Z.ltb_lt (code c mod 16) 16)) by lia. cbn. f_equal. lia.
Qed.

Lemma scan_escape c s :
  scan_string (escape c +:+ s) = ('(t, r) ← scan_string s; Some (String c t, r)).
Proof.
  destruct (escape_shapes c) as [(e & -> & Hu & Hc)|[(-> & Hq & Hb & Hc)|(h3 & h4 & n & -> & Hh & Hn & Hc)]];
    rewrite !str_cons_app, str_nil_app; cbn [scan_string].
  - change (Ascii.eqb backslash quote) with false. change (Ascii.eqb backslash backslash) with true. cbn iota.
    by rewrite Hu, Hc.
  - by rewrite Hq, Hb, Hc.
  - change (Ascii.eqb backslash quote) with false. change (Ascii.eqb backslash backslash) with true. cbn iota.
    change (Ascii.eqb "u" "u") with true. cbn iota. by rewrite Hh; cbn [mbind option_bind]; rewrite Hn, Hc.
Qed.

Lemma scan_escapes s r : scan_string (escapes s +:+ String quote r) = Some (s, r).
Proof. induction s as [|c s IH]; [done|]. cbn [escapes]. by rewrite str_app_assoc, scan_escape, IH. Qed.

(** ** Numbers read back *)

(** What may follow a number without becoming part of it. *)
Definition ends (s : string) : bool :=
  match s with
  | "" => true
  | String c _ => negb (is_dec_digit c || bool_decide (code c ∈ [43; 45; 46; 69; 101]))
  end.

Lemma ends_head c s : ends (String c s) = true →
  is_dec_digit c = false ∧ Ascii.eqb c "-" = false ∧ Ascii.eqb c "+" = false ∧ Ascii.eqb c "." = false ∧
  Ascii.eqb c "e" = false ∧ Ascii.eqb c "E" = false.
Proof. destruct c as [[] [] [] [] [] [] [] []]; vm_compute; intros [=]; done. Qed.

Lemma scan_digits_app s r : ends r = true →
  scan_digits (s +:+ r) = let '(d, r0) := scan_digits s in (d, r0 +:+ r).
Proof.
  intros Hr. induction s as [|c s IH].
  - destruct r as [|c r]; [done|]. apply ends_head in Hr as (E & _). rewrite str_nil_app. cbn. by rewrite E.
  - rewrite str_cons_app. cbn. destruct (is_dec_digit c); [|done]. rewrite IH. by destruct (scan_digits s).
Qed.

Lemma scan_fraction_app s r : ends r = true →
  scan_fraction (s +:+ r) = let '(d, r0) := scan_fraction s in (d, r0 +:+ r).
Proof.
  intros Hr. destruct s as [|c s].
  - destruct r as [|c r]; [done|]. apply ends_head in Hr. destruct_and! Hr. rewrite str_nil_app. cbn. by case_match.
  - rewrite str_cons_app. cbn. destruct (Ascii.eqb c "."); [|done]. rewrite (scan_digits_app s r Hr).
    destruct (scan_digits s) as [d r0]. by destruct (nonempty d).
Qed.

Lemma scan_exponent_app s r : ends r = true →
  scan_exponent (s +:+ r) = let '(d, r0) := scan_exponent s in (d, r0 +:+ r).
Proof.
  intros Hr. destruct s as [|c s].
  - destruct r as [|c r]; [done|]. apply ends_head in Hr. destruct_and! Hr. rewrite str_nil_app. cbn.
    destruct (Ascii.eqb c "e"), (Ascii.eqb c "E"); done.
  - rewrite str_cons_app. cbn. destruct (Ascii.eqb c "e" || Ascii.eqb c "E"); [|done]. destruct s as [|x s].
    + rewrite str_nil_app. destruct r as [|x r]; [done|]. pose proof Hr as Hx.
      apply ends_head in Hx as (E0 & E1 & E2 & _). rewrite E1, E2. cbn. by rewrite E0.
    + rewrite str_cons_app. destruct (Ascii.eqb x "-" || Ascii.eqb x "+").
      * rewrite (scan_digits_app s r Hr). destruct (scan_digits s) as [d r0]. by destruct (nonempty d).
      * change (String x (s +:+ r)) with (String x s +:+ r). rewrite (scan_digits_app (String x s) r Hr).
        destruct (scan_digits (String x s)) as [d r0]. by destruct (nonempty d).
Qed.

Lemma scan_number_app s r w f : ends r = true →
  scan_number s = Some (w, f, "") → scan_number (s +:+ r) = Some (w, f, r).
Proof.
  intros Hr. unfold scan_number.
  assert (∀ s1, scan_whole s1 = None ∨ scan_whole (s1 +:+ r) = ('(d, r0) ← scan_whole s1; Some (d, r0 +:+ r))) as Hw.
  { intros [|c s1]; [by left|right]. rewrite str_cons_app. cbn. destruct (Ascii.eqb c "0"); [done|].
    destruct (is_dec_digit c); [|done]. rewrite (scan_digits_app s1 r Hr). by destruct (scan_digits s1). }
  assert (scan_whole (scan_sign s).2 = None ∨ scan_sign (s +:+ r) = ((scan_sign s).1, (scan_sign s).2 +:+ r)) as Hs.
  { destruct s as [|c s]; [by left|right]. rewrite str_cons_app. cbn. by destruct (Ascii.eqb c "-"). }
  destruct (scan_sign s) as [sign s1]. cbn [fst snd] in Hs.
  destruct Hs as [E|E]; [by rewrite E|]. rewrite E. destruct (Hw s1) as [E1|E1]; [by rewrite E1|]. rewrite E1.
  destruct (scan_whole s1) as [[whole s2]|]; [|done]. cbn. rewrite (scan_fraction_app s2 r Hr).
  destruct (scan_fraction s2) as [frac s3]. rewrite (scan_exponent_app s3 r Hr).
  destruct (scan_exponent s3) as [expo s4]. by intros [= <- <- ->].
Qed.

Lemma scan_digits_all d : str_all is_dec_digit d = true → scan_digits d = (d, "").
Proof. induction d as [|c d IH]; cbn; [done|]. intros [-> Hd]%andb_true_iff. by rewrite IH. Qed.

Lemma pretty_N_go_lead x acc : (0 < x)%N → ∃ c s, pretty_N_go x acc = String c s ∧ Ascii.eqb c "0" = false.
Proof.
  revert acc. induction (N.lt_wf_0 x) as [x _ IH]; intros acc Hx. rewrite pretty_N_go_step by done.
  destruct (decide (x / 10 = 0)%N) as [E|E].
  - rewrite E, pretty_N_go_0. eexists _, _. split; [done|].
    assert (x < 10)%N by (by apply N.div_small_iff).
    rewrite N.mod_small by done. assert (x = 1 ∨ x = 2 ∨ x = 3 ∨ x = 4 ∨ x = 5 ∨ x = 6 ∨ x = 7 ∨ x = 8 ∨ x = 9)%N
      as Hc by lia. by destruct_or! Hc; subst.
  - apply IH; [by apply N.div_lt|by apply N.neq_0_lt_0].
Qed.

Lemma scan_pretty_nonneg n : 0 ≤ n → scan_whole (pretty n) = Some (pretty n, "").
Proof.
  intros Hn. pose proof (pretty_digits n Hn) as Hd. destruct (decide (n = 0)) as [->|]; [done|].
  destruct (pretty_N_go_lead (Z.to_N n) "" ltac:(lia)) as (c & s & Hp & Hc).
  assert (pretty n = String c s) as E.
  { rewrite pretty_nonneg by done. unfold pretty, pretty_N. case_decide; [lia|done]. }
  rewrite E in Hd |- *. cbn in Hd |- *. apply andb_true_iff in Hd as [Hd1 Hd2].
  by rewrite Hc, Hd1, scan_digits_all.
Qed.

Lemma pretty_neg (n : Z) : n < 0 → pretty n = String "-" (pretty (- n)).
Proof. by destruct n. Qed.

Lemma pretty_first n : 0 ≤ n → ∃ c s, pretty n = String c s ∧ is_dec_digit c = true.
Proof.
  intros Hn. pose proof (pretty_digits n Hn) as Hd. pose proof (pretty_nonempty n Hn).
  destruct (pretty n) as [|c s]; [done|]. cbn in Hd. apply andb_true_iff in Hd as [? _]. eauto.
Qed.

Lemma scan_pretty (z : Z) : scan_number (pretty z) = Some (pretty z, "", "").
Proof.
  unfold scan_number. destruct (decide (z < 0)) as [Hz|Hz].
  - rewrite (pretty_neg z Hz). cbn [scan_sign]. change (Ascii.eqb "-" "-") with true. cbn iota.
    by rewrite scan_pretty_nonneg by lia.
  - destruct (pretty_first z ltac:(lia)) as (c & s & E & Hc).
    assert (scan_sign (pretty z) = ("", pretty z)) as ->.
    { rewrite E. cbn. assert (Ascii.eqb c "-" = false) as ->; [|done].
      by destruct c as [[] [] [] [] [] [] [] []]; vm_compute in Hc |- *. }
    by rewrite scan_pretty_nonneg by lia.
Qed.

Lemma parse_pretty_Z z : Z.abs z < INT_LIMIT → parse_int 10 (pretty z) = Some z.
Proof.
  intros Hz. assert (INT_LIMIT = 10 ^ Z.of_nat (Z.to_nat 4300)) as HL by (rewrite Z2Nat.id by lia; reflexivity).
  rewrite HL in Hz. assert (∀ n, 0 ≤ n → n < 10 ^ Z.of_nat (Z.to_nat 4300) → parse_int 10 (pretty n) = Some n) as Hpos.
  { intros n H1 H2. apply (parse_pretty n (Z.to_nat 4300)); lia. }
  destruct (decide (z < 0)) as [Hn|Hn]; [|apply Hpos; lia].
  specialize (Hpos (- z) ltac:(lia) ltac:(lia)). pose proof (pretty_digits (- z) ltac:(lia)) as Hd.
  assert (str_all (λ c, negb (is_space c)) (pretty (- z)) = true) as Hs.
  { eapply str_all_impl; [|exact Hd]. intros c Hc. by rewrite is_dec_digit_not_space. }
  unfold parse_int in Hpos |- *. rewrite str_strip_id in Hpos by done.
  rewrite (prefix_dec_false "-"), (prefix_dec_false "+") in Hpos by done.
  rewrite (pretty_neg z Hn), str_strip_id by done.
  change (String.prefix "-" (String "-" (pretty (- z)))) with (String.prefix "" (pretty (- z))).
  assert (String.prefix "" (pretty (- z)) = true) as -> by by destruct (pretty (- z)).
  change (str_drop 1 (String "-" (pretty (- z)))) with (pretty (- z)). rewrite Hpos. cbn. f_equal. lia.
Qed.

(** ** Atoms read back *)

(** The first characters of a number: no literal name begins with them. *)
Definition number_start (s : string) : Prop :=
  ∃ c s', s = String c s' ∧
    (is_dec_digit c = true ∨ c = "-"%char ∧ ∃ c2 s2, s' = String c2 s2 ∧ is_dec_digit c2 = true).

Lemma scan_number_start s x : scan_number s = Some x → number_start s.
Proof.
  unfold scan_number. destruct s as [|c s]; [done|]. cbn. intros Hx. exists c, s. split; [done|].
  assert (∀ c' s' y, scan_whole (String c' s') = Some y → is_dec_digit c' = true) as Hw.
  { intros c' s' y. cbn. destruct (Ascii.eqb c' "0") eqn:E; [apply Ascii.eqb_eq in E as ->; done|].
    by destruct (is_dec_digit c'). }
  destruct (Ascii.eqb c "-") eqn:E.
  - apply Ascii.eqb_eq in E as ->. right. split; [done|]. destruct s as [|c2 s2]; [done|].
    exists c2, s2. split; [done|]. destruct (scan_whole (String c2 s2)) eqn:E2; [by eapply Hw|done].
  - left. destruct (scan_whole (String c s)) eqn:E2; [by eapply Hw|done].
Qed.

Lemma digit_not_letter c p s : is_dec_digit c = true → is_dec_digit p = false → ∀ q, String.prefix (String p q) (String c s) = false.
Proof. intros Hc Hp q. cbn. destruct (ascii_dec p c) as [->|]; [congruence|done]. Qed.

Lemma scan_atom_number s : number_start s →
  scan_atom s = ('(whole, frac, r) ← scan_number s; v ← number_value whole frac; Some (v, r)).
Proof.
  intros (c & s' & -> & Hc). unfold scan_atom.
  assert (∀ p q, is_dec_digit p = false → p ≠ "-"%char → String.prefix (String p q) (String c s') = false) as Hno.
  { intros p q Hp Hm. cbn. destruct (ascii_dec p c) as [->|]; [|done]. destruct Hc as [?|[? _]]; congruence. }
  rewrite !Hno by done.
  assert (String.prefix "-Infinity" (String c s') = false) as ->; [|done].
  destruct Hc as [Hc|[-> (c2 & s2 & -> & Hc)]]; [by apply digit_not_letter|].
  change (String.prefix "Infinity" (String c2 s2) = false). by apply digit_not_letter.
Qed.

Lemma scan_atom_int z r : Z.abs z < INT_LIMIT → ends r = true → scan_atom (pretty z +:+ r) = Some (VInt z, r).
Proof.
  intros Hz Hr. pose proof (scan_number_app _ r _ _ Hr (scan_pretty z)) as Hs.
  rewrite scan_atom_number by by eapply scan_number_start. rewrite Hs. cbn. unfold number_value. cbn.
  by rewrite parse_pretty_Z.
Qed.

Lemma scan_atom_float t r : ends r = true → scan_atom (float_repr t +:+ r) = Some (VFloat (FFin t), r).
Proof.
  intros Hr. destruct (float_lexes t) as (whole & frac & Hs & E & Hf).
  pose proof (scan_number_app _ r _ _ Hr Hs) as Hs'.
  rewrite scan_atom_number by by eapply scan_number_start. rewrite Hs'. cbn. unfold number_value.
  by rewrite Hf, <-E, float_of_repr.
Qed.

(** ** Values read back *)

(** The text of a value begins a value. *)
Definition starts (s : string) : Prop := ∃ c s', s = String c s' ∧ is_ws c = false ∧ Ascii.eqb c "]" = false.

Lemma number_starts s : number_start s → starts s.
Proof.
  intros (c & s' & -> & Hc). exists c, s'. split; [done|]. destruct Hc as [Hc|[-> _]]; [|done].
  by destruct c as [[] [] [] [] [] [] [] []]; vm_compute in Hc |- *.
Qed.

Lemma render_starts v : starts (render v).
Proof.
  destruct v as [|[]|z|[t| | |]|s|l|d]; cbn [render render_float]; try (by eexists _, _).
  - eapply number_starts, scan_number_start, scan_pretty.
  - destruct (float_lexes t) as (? & ? & Hs & _). by eapply number_starts, scan_number_start.
Qed.

Lemma skip_ws_starts s r : starts s → skip_ws (s +:+ r) = s +:+ r.
Proof. intros (c & s' & -> & Hc & _). rewrite str_cons_app. cbn. by rewrite Hc. Qed.

Lemma parse_number f s : number_start s → parse_value (S f) s = scan_atom s.
Proof.
  intros (c & s' & -> & Hc). cbn [parse_value].
  assert (Ascii.eqb c quote = false ∧ Ascii.eqb c "{" = false ∧ Ascii.eqb c "[" = false) as (-> & -> & ->); [|done].
  destruct Hc as [Hc|[-> _]]; [|done]. by destruct c as [[] [] [] [] [] [] [] []]; vm_compute in Hc |- *.
Qed.

(** [v] is read back from its text, whatever follows that cannot extend it. *)
Definition reads_back (v : pyval) : Prop := ∀ f r,
  ends r = true → (String.length (render v) < f)%nat → parse_value f (render v +:+ r) = Some (sorted v, r).

Definition member_text (p : string * pyval) : string := render_string p.1 +:+ ":" +:+ render p.2.

Lemma concat_cons sep x y l : String.concat sep (x :: y :: l) = x +:+ sep +:+ String.concat sep (y :: l).
Proof. done. Qed.

Lemma parse_elements_render l : Forall reads_back l → l ≠ [] → ∀ f r,
  (String.length (String.concat "," (map render l)) < f)%nat →
  parse_elements (S f) (String.concat "," (map render l) +:+ String "]" r) = Some (map sorted l, r).
Proof.
  induction 1 as [|v l Hv Hl IH]; [done|]. intros _ f r Hf. cbn [parse_elements]. destruct l as [|w l].
  - change (String.concat "," (map render [v])) with (render v) in *. by rewrite Hv.
  - cbn [map] in *. rewrite concat_cons, !str_length_app in Hf. cbn [String.length] in Hf.
    rewrite concat_cons, !str_app_assoc. change ("," +:+ ?x) with (String "," x).
    rewrite Hv by (done || lia). cbn [mbind option_bind skip_ws].
    change (is_ws ",") with false. cbn iota. change (Ascii.eqb "," ",") with true. cbn iota.
    rewrite skip_ws_starts.
    + destruct f as [|f]; [lia|]. rewrite IH by (done || lia). done.
    + destruct (render_starts w) as (c & s' & E & Hc). exists c.
      destruct l; [exists s'|eexists]; cbn [map]; [done|]. rewrite concat_cons, E. by rewrite str_cons_app.
Qed.

Lemma parse_members_render m : Forall (λ p, reads_back p.2) m → m ≠ [] → ∀ f r,
  (String.length (String.concat "," (map member_text m)) < f)%nat →
  parse_members f (String.concat "," (map member_text m) +:+ String "}" r)
  = Some (map (λ p, (p.1, sorted p.2)) m, r).
Proof.
  induction 1 as [|[k v] m Hv Hm IH]; [done|]. intros _ f r Hf.
  assert (∀ t, member_text (k, v) +:+ t = String quote (escapes k +:+ String quote (String ":" (render v +:+ t)))) as Hmt.
  { intros t. unfold member_text, render_string. cbn [fst snd]. by rewrite !str_app_assoc, str_cons_app, str_app_assoc. }
  assert ((String.length (member_text (k, v)) = String.length (escapes k) + 3 + String.length (render v))%nat) as Hlen.
  { unfold member_text, render_string. cbn [fst snd]. rewrite str_cons_app. cbn [String.length].
    rewrite !str_length_app. cbn [String.length]. lia. }
  assert (∀ f t, (String.length (render v) < f)%nat → ends t = true →
    parse_value f (skip_ws (render v +:+ t)) = Some (sorted v, t)) as Hval.
  { intros. rewrite skip_ws_starts by apply render_starts. by apply Hv. }
  assert (starts (member_text (k, v))) as Hst.
  { unfold member_text, render_string. cbn [fst]. rewrite str_cons_app. by eexists _, _. }
  assert (∀ f t, parse_members (S f) (member_text (k, v) +:+ t) =
    ('(v, s4) ← parse_value f (skip_ws (render v +:+ t));
     match skip_ws s4 with
     | String c3 s5 =>
         if Ascii.eqb c3 "," then '(d, r) ← parse_members f (skip_ws s5); Some ((k, v) :: d, r)
         else if Ascii.eqb c3 "}" then Some ([(k, v)], s5) else None
     | "" => None
     end)) as Hstep.
  { intros f' t. rewrite Hmt. cbn [parse_members]. change (Ascii.eqb quote quote) with true. cbn iota.
    by rewrite scan_escapes. }
  destruct m as [|[k' v'] m].
  - change (String.concat "," (map member_text [(k, v)])) with (member_text (k, v)) in *.
    destruct f as [|f]; [lia|]. rewrite Hstep, Hval by (done || lia). done.
  - cbn [map] in *. rewrite concat_cons, !str_length_app in Hf. cbn [String.length] in Hf.
    rewrite concat_cons, !str_app_assoc. destruct f as [|f]; [lia|]. rewrite Hstep.
    change ("," +:+ ?x) with (String "," x). rewrite Hval by (done || lia).
    cbn [mbind option_bind skip_ws]. change (is_ws ",") with false. cbn iota.
    change (Ascii.eqb "," ",") with true. cbn iota. rewrite skip_ws_starts.
    + by rewrite IH by (done || lia).
    + unfold member_text, render_string. destruct m; cbn [map fst]; [|rewrite concat_cons];
        rewrite !str_cons_app; by eexists _, _.
Qed.

Lemma render_dict d :
  render (VDict d) = "{" +:+ String.concat "," (map member_text (sort_items d)) +:+ "}".
Proof. cbn [render]. rewrite sort_items_fmap. by rewrite map_map. Qed.

Lemma concat_starts {A} (text : A → string) x l : starts (text x) → starts (String.concat "," (map text (x :: l))).
Proof.
  intros (c & s & E & Hc). cbn [map]. destruct l; [by exists c, s|]. cbn [map]. rewrite concat_cons, E.
  rewrite str_cons_app. by eexists _, _.
Qed.

Lemma member_starts p : ∃ s, member_text p = String quote s.
Proof. unfold member_text, render_string. rewrite str_cons_app. eauto. Qed.

Lemma concat_member p m : ∃ s, String.concat "," (map member_text (p :: m)) = String quote s.
Proof.
  destruct (member_starts p) as [s E]. destruct m; cbn [map]; [by exists s|].
  rewrite concat_cons, E, str_cons_app. eauto.
Qed.

Lemma reads_back_list l : Forall reads_back l → reads_back (VList l).
Proof.
  intros Hl f r Hr Hf. cbn [render] in Hf. rewrite !str_length_app in Hf. cbn [String.length] in Hf.
  destruct f as [|f]; [lia|]. cbn [render]. rewrite !str_app_assoc. change ("]" +:+ r) with (String "]" r).
  change ("[" +:+ ?x) with (String "[" x). cbn [parse_value].
  change (Ascii.eqb "[" quote) with false. change (Ascii.eqb "[" "{") with false.
  change (Ascii.eqb "[" "[") with true. cbn iota.
  destruct l as [|v l]; [done|]. destruct f as [|f]; [lia|].
  rewrite skip_ws_starts by apply concat_starts, render_starts.
  pose proof (concat_starts render v l (render_starts v)) as (c & s & E & Hws & Hc).
  pose proof (parse_elements_render (v :: l) Hl ltac:(done) f r ltac:(lia)) as Hp.
  rewrite E, str_cons_app in Hp |- *. by rewrite Hc, Hp.
Qed.

Lemma reads_back_dict d : dict_wf d → Forall (λ p, reads_back p.2) d → reads_back (VDict d).
Proof.
  intros Hwf Hd f r Hr Hf. rewrite render_dict in Hf |- *. rewrite !str_length_app in Hf. cbn [String.length] in Hf.
  destruct f as [|f]; [lia|]. rewrite !str_app_assoc. change ("}" +:+ r) with (String "}" r).
  change ("{" +:+ ?x) with (String "{" x). cbn [parse_value].
  change (Ascii.eqb "{" quote) with false. change (Ascii.eqb "{" "{") with true. cbn iota.
  assert (sorted (VDict d) = VDict (dict_of_list (map (λ p, (p.1, sorted p.2)) (sort_items d)))) as ->.
  { cbn [sorted]. rewrite sort_items_fmap, dict_of_list_wf; [done|]. by apply dict_map_wf, sort_items_wf. }
  assert (Forall (λ p, reads_back p.2) (sort_items d)) as Hs by by rewrite sort_items_perm.
  destruct (sort_items d) as [|p m]; [done|].
  pose proof (parse_members_render (p :: m) Hs ltac:(done) f r ltac:(lia)) as Hp.
  destruct (concat_member p m) as [s E]. rewrite E, str_cons_app in *. cbn [skip_ws].
  change (is_ws quote) with false. cbn iota. change (Ascii.eqb quote "}") with false. cbn iota. by rewrite Hp.
Qed.

(** A literal name before [r] is read as the name. *)
Ltac read_literal r :=
  match goal with |- parse_value _ (?p +:+ r) = ?x =>
    change (scan_atom (p +:+ r) = x); unfold scan_atom;
    repeat (rewrite prefix_app || match goal with |- context [String.prefix ?q ?s] =>
      change (String.prefix q s) with false; cbn iota end);
    by rewrite (drop_prefix_app p)
  end.

Lemma render_reads_back v : printable v = true → reads_back v.
Proof.
  induction v as [|b|z|t|s|l IH|d IH] using pyval_nested_ind; intros Hv.
  - intros [|f] r Hr Hf; [cbn in Hf; lia|]. cbn [render sorted]. read_literal r.
  - intros [|f] r Hr Hf; [destruct b; cbn in Hf; lia|]. destruct b; cbn [render sorted]; read_literal r.
  - intros [|f] r Hr Hf; [lia|]. cbn [render sorted]. cbn [printable] in Hv. apply Z.ltb_lt in Hv.
    rewrite parse_number; [by apply scan_atom_int|].
    eapply scan_number_start, scan_number_app; [done|apply scan_pretty].
  - intros [|f] r Hr Hf; [lia|]. destruct t as [t| | |]; cbn [render render_float sorted]; [|read_literal r..].
    rewrite parse_number; [by apply scan_atom_float|]. destruct (float_lexes t) as (? & ? & Hs & _).
    by eapply scan_number_start, scan_number_app.
  - intros [|f] r Hr Hf; [lia|]. cbn [render sorted]. unfold render_string. rewrite str_cons_app, str_app_assoc.
    cbn [parse_value]. change (Ascii.eqb quote quote) with true. cbn iota.
    change (String quote "" +:+ r) with (String quote r). by rewrite scan_escapes.
  - apply reads_back_list. cbn [printable] in Hv. rewrite forallb_forall in Hv.
    rewrite Forall_forall in IH |- *. intros v Hin. apply IH; [done|]. apply Hv. by apply list_elem_of_In.
  - apply printable_dict in Hv as [Hwf Hv]. apply reads_back_dict; [done|].
    rewrite Forall_forall in IH, Hv |- *. eauto.
Qed.

(** [json.loads(json.dumps(v, sort_keys=True)) == v], up to the order of keys. *)
Lemma parse_render v : printable v = true → parse (render v) = Some (sorted v).
Proof.
  intros Hv. unfold parse. destruct (render_starts v) as (c & s & E & Hc & _).
  assert (skip_ws (render v) = render v) as -> by (rewrite E; cbn; by rewrite Hc).
  pose proof (render_reads_back v Hv (S (2 * String.length (render v))) "" eq_refl ltac:(lia)) as Hp.
  rewrite str_app_nil in Hp. by rewrite Hp.
Qed.

(** ** The fuel is enough: every step of the descent consumes text *)

Lemma scan_string_shrinks s t r : scan_string s = Some (t, r) → (String.length r < String.length s)%nat.
Proof.
  revert t. induction (Nat.lt_wf_0_projected String.length s) as [s _ IH]. intros t.
  assert (∀ s' x, (String.length s' < String.length s)%nat →
    ('(t, r) ← scan_string s'; Some (String x t, r)) = Some (t, r) → (String.length r < String.length s)%nat) as Hrec.
  { intros s' x Hl Hs. destruct (scan_string s') as [[t' r']|] eqn:E; [|done]. cbn in Hs. injection Hs as _ <-.
    apply IH in E; [lia|done]. }
  destruct s as [|c s1]; [done|]. cbn [scan_string]. destruct (Ascii.eqb c quote); [intros [= _ <-]; cbn; lia|].
  destruct (Ascii.eqb c backslash).
  - destruct s1 as [|e s2]; [done|]. destruct (Ascii.eqb e "u").
    + destruct s2 as [|h1 [|h2 [|h3 [|h4 s3]]]]; try done. destruct (hex4 h1 h2 h3 h4) as [n|]; [|done].
      cbn [mbind option_bind]. destruct (n <? 256); [|done]. apply Hrec. cbn. lia.
    + destruct (unescape e); [|done]. apply Hrec. cbn. lia.
  - destruct (code c <? 32); [done|]. apply Hrec. cbn. lia.
Qed.

Lemma skip_ws_shrinks s : (String.length (skip_ws s) ≤ String.length s)%nat.
Proof. induction s as [|c s IH]; cbn; [done|]. destruct (is_ws c); cbn; lia. Qed.

Lemma scan_digits_shrinks s : (String.length (scan_digits s).2 ≤ String.length s)%nat.
Proof. induction s as [|c s IH]; cbn; [done|]. destruct (is_dec_digit c), (scan_digits s); cbn in *; lia. Qed.

Lemma scan_number_shrinks s w fr r : scan_number s = Some (w, fr, r) → (String.length r < String.length s)%nat.
Proof.
  unfold scan_number. destruct (scan_sign s) as [sign s1] eqn:E1.
  assert (String.length s1 ≤ String.length s)%nat as H1.
  { destruct s as [|c s]; cbn in E1; [by injection E1 as <- <-|]. destruct (Ascii.eqb c "-"); injection E1 as <- <-; cbn; lia. }
  destruct (scan_whole s1) as [[whole s2]|] eqn:E2; [|done]. cbn [mbind option_bind].
  assert (String.length s2 < String.length s1)%nat as H2.
  { destruct s1 as [|c s1]; [done|]. cbn in E2. destruct (Ascii.eqb c "0"); [injection E2 as <- <-; cbn; lia|].
    pose proof (scan_digits_shrinks s1). destruct (is_dec_digit c), (scan_digits s1); [|done..].
    injection E2 as <- <-. cbn in *. lia. }
  destruct (scan_fraction s2) as [frac s3] eqn:E3.
  assert (String.length s3 ≤ String.length s2)%nat as H3.
  { destruct s2 as [|c s2]; cbn in E3; [by injection E3 as <- <-|]. pose proof (scan_digits_shrinks s2).
    destruct (Ascii.eqb c "."), (scan_digits s2) as [d r2]; [destruct (nonempty d)|]; injection E3 as <- <-; cbn in *; lia. }
  destruct (scan_exponent s3) as [expo s4] eqn:E4. intros [= _ _ <-].
  assert (String.length s4 ≤ String.length s3)%nat; [|lia].
  destruct s3 as [|c s3]; cbn in E4; [by injection E4 as <- <-|].
  destruct (Ascii.eqb c "e" || Ascii.eqb c "E"); [|injection E4 as <- <-; done].
  destruct (match s3 with String x s2 => _ | "" => _ end) as [sg s5] eqn:E5.
  assert (String.length s5 ≤ String.length s3)%nat.
  { destruct s3 as [|x s3]; [by injection E5 as <- <-|].
    destruct (Ascii.eqb x "-" || Ascii.eqb x "+"); injection E5 as <- <-; cbn; lia. }
  pose proof (scan_digits_shrinks s5). destruct (scan_digits s5) as [d r5].
  destruct (nonempty d); injection E4 as <- <-; cbn in *; lia.
Qed.

Lemma str_drop_prefix_shrinks p s : String.prefix p s = true → nonempty p = true →
  (String.length (str_drop (String.length p) s) < String.length s)%nat.
Proof.
  intros Hp Hn. destruct p as [|c p]; [done|]. destruct s as [|c' s]; [done|]. cbn [String.length str_drop].
  enough (∀ n s, String.length (str_drop n s) ≤ String.length s)%nat as Hd by (specialize (Hd (String.length p) s); lia).
  intros n. induction n as [|n IH]; intros [|x t]; cbn; try done. specialize (IH t). lia.
Qed.

Lemma scan_atom_shrinks s v r : scan_atom s = Some (v, r) → (String.length r < String.length s)%nat.
Proof.
  unfold scan_atom. repeat match goal with |- (if String.prefix ?p s then _ else _) = _ → _ =>
    let E := fresh in destruct (String.prefix p s) eqn:E;
      [intros [= _ <-]; by apply (str_drop_prefix_shrinks p)|] end.
  destruct (scan_number s) as [[[w fr] r']|] eqn:E; [|done]. cbn [mbind option_bind].
  destruct (number_value w fr); [|done]. cbn. intros [= _ <-]. by eapply scan_number_shrinks.
Qed.

(** What a step of the descent leaves is shorter than what it was given. *)
Definition shrinks {A} (p : string → option (A * string)) : Prop :=
  ∀ s x r, p s = Some (x, r) → (String.length r < String.length s)%nat.

Lemma parse_shrinks f : shrinks (parse_value f) ∧ shrinks (parse_members f) ∧ shrinks (parse_elements f).
Proof.
  induction f as [|f (IHv & IHm & IHe)]; [by split_and!; intros ? ? ? [=]|].
  assert (∀ s c t, skip_ws s = String c t → String.length t < String.length s)%nat as Hws.
  { intros s c t E. pose proof (skip_ws_shrinks s) as Hs. rewrite E in Hs. cbn in Hs. lia. }
  split_and!; intros s x r Hs.
  - destruct s as [|c s1]; [done|]. cbn [parse_value] in Hs. destruct (Ascii.eqb c quote).
    { destruct (scan_string s1) as [[t r']|] eqn:E; [|done]. cbn in Hs. injection Hs as _ <-.
      apply scan_string_shrinks in E. cbn. lia. }
    destruct (Ascii.eqb c "{"); [|destruct (Ascii.eqb c "[")];
      [destruct (skip_ws s1) as [|c2 s2] eqn:E; [done|]; apply Hws in E..|by eapply scan_atom_shrinks].
    + destruct (Ascii.eqb c2 "}"); [injection Hs as _ <-; cbn; lia|].
      destruct (parse_members f (String c2 s2)) as [[d r']|] eqn:Em; [|done]. cbn in Hs. injection Hs as _ <-.
      apply IHm in Em. cbn in *. lia.
    + destruct (Ascii.eqb c2 "]"); [injection Hs as _ <-; cbn; lia|].
      destruct (parse_elements f (String c2 s2)) as [[d r']|] eqn:Em; [|done]. cbn in Hs. injection Hs as _ <-.
      apply IHe in Em. cbn in *. lia.
  - destruct s as [|c s1]; [done|]. cbn [parse_members] in Hs. destruct (Ascii.eqb c quote); [|done].
    destruct (scan_string s1) as [[k s2]|] eqn:E1; [|done]. cbn [mbind option_bind] in Hs.
    apply scan_string_shrinks in E1. destruct (skip_ws s2) as [|c2 s3] eqn:E2; [done|]. apply Hws in E2.
    destruct (Ascii.eqb c2 ":"); [|done].
    destruct (parse_value f (skip_ws s3)) as [[v s4]|] eqn:E3; [|done]. cbn [mbind option_bind] in Hs.
    apply IHv in E3. pose proof (skip_ws_shrinks s3). destruct (skip_ws s4) as [|c3 s5] eqn:E4; [done|].
    apply Hws in E4. destruct (Ascii.eqb c3 ",").
    + destruct (parse_members f (skip_ws s5)) as [[d r']|] eqn:E5; [|done]. cbn in Hs. injection Hs as _ <-.
      apply IHm in E5. pose proof (skip_ws_shrinks s5). cbn. lia.
    + destruct (Ascii.eqb c3 "}"); [|done]. injection Hs as _ <-. cbn. lia.
  - cbn [parse_elements] in Hs. destruct (parse_value f s) as [[v s4]|] eqn:E3; [|done].
    cbn [mbind option_bind] in Hs. apply IHv in E3. destruct (skip_ws s4) as [|c3 s5] eqn:E4; [done|].
    apply Hws in E4. destruct (Ascii.eqb c3 ",").
    + destruct (parse_elements f (skip_ws s5)) as [[d r']|] eqn:E5; [|done]. cbn in Hs. injection Hs as _ <-.
      apply IHe in E5. pose proof (skip_ws_shrinks s5). lia.
    + destruct (Ascii.eqb c3 "]"); [|done]. injection Hs as _ <-. lia.
Qed.

Lemma parse_fuel_step f :
  (∀ s, (2 * String.length s < f)%nat → parse_value f s = parse_value (S f) s) ∧
  (∀ s, (2 * String.length s < f)%nat → parse_members f s = parse_members (S f) s) ∧
  (∀ s, (2 * String.length s + 1 < f)%nat → parse_elements f s = parse_elements (S f) s).
Proof.
  induction f as [|f (IHv & IHm & IHe)]; [split_and!; intros; lia|].
  assert (∀ s c t, skip_ws s = String c t → String.length t < String.length s)%nat as Hws.
  { intros s c t E. pose proof (skip_ws_shrinks s) as Hs. rewrite E in Hs. cbn in Hs. lia. }
  destruct (parse_shrinks f) as (Sv & Sm & Se).
  split_and!; intros s Hs.
  - destruct s as [|c s1]; [done|]. cbn [String.length] in Hs. remember (S f) as f' eqn:Hf'.
    rewrite Hf' at 1. cbn [parse_value]. destruct (Ascii.eqb c quote); [done|].
    destruct (Ascii.eqb c "{"); [|destruct (Ascii.eqb c "["); [|done]];
      (destruct (skip_ws s1) as [|c2 s2] eqn:E; [done|]; apply Hws in E); subst f'.
    + by rewrite IHm by (cbn; lia).
    + by rewrite IHe by (cbn; lia).
  - destruct s as [|c s1]; [done|]. cbn [String.length] in Hs. remember (S f) as f' eqn:Hf'.
    rewrite Hf' at 1. cbn [parse_members]. destruct (Ascii.eqb c quote); [|done].
    destruct (scan_string s1) as [[k s2]|] eqn:E1; [|done]. cbn [mbind option_bind].
    apply scan_string_shrinks in E1. destruct (skip_ws s2) as [|c2 s3] eqn:E2; [done|]. apply Hws in E2.
    destruct (Ascii.eqb c2 ":"); [|done]. subst f'. pose proof (skip_ws_shrinks s3). rewrite <-IHv by lia.
    destruct (parse_value f (skip_ws s3)) as [[v s4]|] eqn:E3; [|done]. cbn [mbind option_bind].
    apply Sv in E3. destruct (skip_ws s4) as [|c3 s5] eqn:E4; [done|]. apply Hws in E4.
    pose proof (skip_ws_shrinks s5). by rewrite IHm by lia.
  - remember (S f) as f' eqn:Hf'. rewrite Hf' at 1. cbn [parse_elements]. subst f'. rewrite <-IHv by lia.
    destruct (parse_value f s) as [[v s4]|] eqn:E3; [|done]. cbn [mbind option_bind].
    apply Sv in E3. destruct (skip_ws s4) as [|c3 s5] eqn:E4; [done|]. apply Hws in E4.
    pose proof (skip_ws_shrinks s5). by rewrite IHe by lia.
Qed.

(** More fuel than [parse] gives changes nothing. *)
Lemma parse_fuel_enough f s : (2 * String.length s < f)%nat →
  parse_value f s = parse_value (S (2 * String.length s)) s.
Proof.
  intros Hf. induction f as [|f IH]; [lia|]. destruct (decide (f = 2 * String.length s)%nat) as [->|]; [done|].
  rewrite <-IH by lia. symmetry. apply parse_fuel_step. lia.
Qed.

(** ** The text is one line of printable ASCII *)

Definition printing (c : Ascii.ascii) : bool := (32 <=? code c) && (code c <=? 126).

Lemma escape_printing c : str_all printing (escape c) = true.
Proof. by destruct c as [[] [] [] [] [] [] [] []]. Qed.

Lemma render_string_printing s : str_all printing (render_string s) = true.
Proof.
  unfold render_string. cbn [str_all]. rewrite str_all_app. cbn [str_all]. rewrite !andb_true_r. cbn [andb].
  induction s as [|c s IH]; [done|]. cbn [escapes]. by rewrite str_all_app, escape_printing.
Qed.

Lemma digit_printing c : is_dec_digit c = true → printing c = true.
Proof. by destruct c as [[] [] [] [] [] [] [] []]; vm_compute. Qed.

Lemma pretty_printing (z : Z) : str_all printing (pretty z) = true.
Proof.
  assert (∀ n : Z, 0 ≤ n → str_all printing (pretty n) = true) as Hp.
  { intros n Hn. eapply str_all_impl; [|by apply pretty_digits]. apply digit_printing. }
  destruct (decide (z < 0)) as [Hz|]; [|apply Hp; lia]. rewrite (pretty_neg z Hz). cbn. apply Hp. lia.
Qed.

Lemma concat_printing l : Forall (λ s, str_all printing s = true) l → str_all printing (String.concat "," l) = true.
Proof.
  induction 1 as [|s l Hs Hl IH]; [done|]. destruct l as [|t l]; [done|].
  by rewrite concat_cons, !str_all_app, Hs, IH.
Qed.

Lemma scan_digits_printing s : str_all printing (scan_digits s).1 = true.
Proof.
  induction s as [|c s IH]; [done|]. cbn. destruct (is_dec_digit c) eqn:E, (scan_digits s) as [d r]; [|done..].
  cbn in *. by rewrite digit_printing.
Qed.

Lemma scan_number_printing s w fr r : scan_number s = Some (w, fr, r) → str_all printing (w +:+ fr) = true.
Proof.
  unfold scan_number. destruct (scan_sign s) as [sign s1] eqn:E1.
  assert (str_all printing sign = true) as H1.
  { destruct s as [|c s]; cbn in E1; [by injection E1 as <- <-|]. by destruct (Ascii.eqb c "-"); injection E1 as <- <-. }
  destruct (scan_whole s1) as [[whole s2]|] eqn:E2; [|done]. cbn [mbind option_bind].
  assert (str_all printing whole = true) as H2.
  { destruct s1 as [|c s1]; [done|]. cbn in E2. destruct (Ascii.eqb c "0"); [by injection E2 as <- <-|].
    pose proof (scan_digits_printing s1). destruct (is_dec_digit c) eqn:E, (scan_digits s1); [|done..].
    injection E2 as <- <-. cbn in *. by rewrite digit_printing. }
  destruct (scan_fraction s2) as [frac s3] eqn:E3.
  assert (str_all printing frac = true) as H3.
  { destruct s2 as [|c s2]; cbn in E3; [by injection E3 as <- <-|]. pose proof (scan_digits_printing s2).
    destruct (Ascii.eqb c ".") eqn:E, (scan_digits s2) as [d r2]; [destruct (nonempty d)|]; injection E3 as <- <-; try done.
    apply Ascii.eqb_eq in E as ->. cbn in *. done. }
  destruct (scan_exponent s3) as [expo s4] eqn:E4. intros [= <- <- _]. rewrite !str_all_app, H1, H2, H3. cbn [andb].
  destruct s3 as [|c s3]; cbn in E4; [by injection E4 as <- <-|].
  destruct (Ascii.eqb c "e" || Ascii.eqb c "E") eqn:Ec; [|by injection E4 as <- <-].
  assert (printing c = true) as Hc by (apply orb_true_iff in Ec as [Ec|Ec]; apply Ascii.eqb_eq in Ec as ->; done).
  destruct (match s3 with String x s2 => _ | "" => _ end) as [sg s5] eqn:E5.
  assert (str_all printing sg = true).
  { destruct s3 as [|x s3]; [by injection E5 as <- <-|].
    destruct (Ascii.eqb x "-" || Ascii.eqb x "+") eqn:Ex; injection E5 as <- <-; [|done].
    by apply orb_true_iff in Ex as [Ex|Ex]; apply Ascii.eqb_eq in Ex as ->. }
  pose proof (scan_digits_printing s5). destruct (scan_digits s5) as [d r5].
  destruct (nonempty d); injection E4 as <- <-; [|done]. cbn in *. rewrite Hc, str_all_app. cbn [andb]. by apply andb_true_iff.
Qed.

Lemma render_printing v : str_all printing (render v) = true.
Proof.
  induction v as [|[]|z|[t| | |]|s|l IH|d IH] using pyval_nested_ind; try done.
  - apply pretty_printing.
  - cbn. destruct (float_lexes t) as (w & fr & Hs & -> & _). by eapply scan_number_printing.
  - apply render_string_printing.
  - cbn [render]. rewrite !str_all_app, concat_printing; [done|]. by apply Forall_map.
  - rewrite render_dict, !str_all_app, concat_printing; [done|]. apply Forall_map.
    rewrite (sort_items_perm d). eapply Forall_impl; [exact IH|]. intros p Hp. cbn. unfold member_text.
    by rewrite !str_all_app, render_string_printing, Hp.
Qed.

Lemma utf8_decode_printing s : str_all printing s = true → utf8_decode s = Some s.
Proof.
  induction s as [|c s IH]; [done|]. cbn [str_all utf8_decode]. intros [Hc Hs]%andb_true_iff.
  unfold printing in Hc. apply andb_true_iff in Hc as [_ Hc%Z.leb_le].
  rewrite (proj2 (Z.ltb_lt (code c) 128)) by lia. by rewrite IH.
Qed.
End json.

#[export, refine] Instance json_text `{FloatText} : JsonText := {
  dumps d := render (VDict d);
  loads s := t ← utf8_decode s; parse t;
}.
Proof.
  - intros d Hd. rewrite utf8_decode_printing by apply render_printing. by apply parse_render.
  - intros d. eapply str_all_impl; [|apply render_printing]. intros c. cbn.
    by destruct c as [[] [] [] [] [] [] [] []]; vm_compute.
  - intros d. rewrite render_dict. apply prefix_app.
Defined.

#[export, refine] Instance json_str `{FloatText} : JsonStr := {
  loads_str := parse;
  dumps_spaced d := render_spaced (VDict d);
}.
Proof.
  - intros d Hd. by apply parse_render.
  - done.
Defined.
