(* ===== verification/JsonStandIn.v ===== *)
(** * Stand-ins for what the JSON grammar leaves open

    Instances of the classes the model is parametric in, for evaluating it at
    concrete inputs. *)

From S2P Require Import Prelude PyText JsonText Json.

(** Any rendering of compound values will do. *)
#[export] Instance value_repr : PyRepr := λ _, "<value>".

(** Ticks written as the digits of a fraction. *)
Definition ticks_repr (t : Z) : string := (if t <? 0 then "-0." else "0.") +:+ pretty (Z.abs t).

Definition ticks_of (s : string) : pyfloat :=
  let '(sign, body) := scan_sign s in
  match parse_digits 10 false 0 (str_drop 2 body) with
  | Some n => FFin (if nonempty sign then - n else n)
  | None => FNan
  end.

Lemma parse_digits_pretty n : 0 ≤ n → parse_digits 10 false 0 (pretty n) = Some n.
Proof.
  intros Hn. rewrite pretty_nonneg by done. unfold pretty, pretty_N. case_decide; [by assert (n = 0) as -> by lia|].
  destruct (pretty_N_go_spec (Z.to_N n) "" false ltac:(lia)) as [-> _]. simpl. f_equal. lia.
Qed.

#[export, refine] Instance ticks_text : FloatText := {| float_repr := ticks_repr; float_of := ticks_of |}.
Proof.
  - intros t. unfold ticks_repr, ticks_of. assert (parse_digits 10 false 0 (pretty (Z.abs t)) = Some (Z.abs t)) as Hp
      by (apply parse_digits_pretty; lia).
    destruct (Z.ltb_spec t 0); rewrite ?str_cons_app, str_nil_app; cbn [scan_sign Ascii.eqb Bool.eqb str_drop];
      rewrite Hp; f_equal; cbn -[Z.abs]; lia.
  - intros t. set (sign := if t <? 0 then "-" else "").
    exists (sign +:+ "0"), ("." +:+ pretty (Z.abs t)).
    pose proof (pretty_digits (Z.abs t) ltac:(lia)) as Hd. pose proof (pretty_nonempty (Z.abs t) ltac:(lia)) as Hn.
    split_and!; [| |done].
    + unfold ticks_repr, sign. unfold scan_number. destruct (t <? 0); rewrite ?str_cons_app, ?str_nil_app;
        cbn [scan_sign Ascii.eqb Bool.eqb scan_whole scan_fraction mbind option_bind]; rewrite (scan_digits_all _ Hd);
        (destruct (pretty (Z.abs t)); [done|]); cbn [nonempty negb String.eqb scan_exponent];
        by rewrite ?str_app_nil, ?str_cons_app, ?str_nil_app.
    + unfold ticks_repr, sign. by destruct (t <? 0).
Defined.
