(* ===== verification/Base64.v ===== *)
(** * Base64 (Python's [base64] and [binascii] modules)

    [b64encode] and [b64decode(data, validate=True)], the latter as the state
    machine of the strict decoder, with their round trip and the length of an
    encoding. *)

From Stdlib Require Import Ascii.
From S2P Require Import Prelude PyText JsonText Json.

(** ** The alphabet *)

Definition b64_char (v : Z) : Ascii.ascii :=
  if v <? 26 then chr (65 + v) else if v <? 52 then chr (97 + (v - 26)) else if v <? 62 then chr (48 + (v - 52))
  else if v =? 62 then "+"%char else "/"%char.

Definition b64_value (c : Ascii.ascii) : option Z :=
  let n := code c in
  if (65 <=? n) && (n <=? 90) then Some (n - 65)
  else if (97 <=? n) && (n <=? 122) then Some (n - 71)
  else if (48 <=? n) && (n <=? 57) then Some (n + 4)
  else if n =? 43 then Some 62 else if n =? 47 then Some 63 else None.

(** ** Encoding: three bytes at a time *)

Fixpoint b64encode (s : string) : string :=
  match s with
  | "" => ""
  | String a "" => String (b64_char (code a / 4)) (String (b64_char (code a mod 4 * 16)) "==")
  | String a (String b "") =>
      String (b64_char (code a / 4)) (String (b64_char (code a mod 4 * 16 + code b / 16))
        (String (b64_char (code b mod 16 * 4)) "="))
  | String a (String b (String c s')) =>
      String (b64_char (code a / 4)) (String (b64_char (code a mod 4 * 16 + code b / 16))
        (String (b64_char (code b mod 16 * 4 + code c / 64)) (String (b64_char (code c mod 64)) (b64encode s'))))
  end.

(** ** Decoding: the strict state machine

    [quad] counts the data characters of the current group, [left] holds the
    bits of the last one that are not in a byte yet, [pads] the padding of this
    group, [padded] whether any padding was seen. *)
Fixpoint b64_go (quad left pads : Z) (padded : bool) (s : string) : option string :=
  match s with
  | "" => if quad =? 0 then Some "" else None
  | String c s' =>
      if Ascii.eqb c "=" then
        if (2 <=? quad) && (4 <=? quad + (pads + 1)) then (if nonempty s' then None else Some "")
        else b64_go quad left (if 2 <=? quad then pads + 1 else pads) true s'
      else match b64_value c with
      | None => None
      | Some v =>
          if padded then None
          else if quad =? 0 then b64_go 1 v 0 false s'
          else if quad =? 1 then String (chr (left * 4 + v / 16)) <$> b64_go 2 (v mod 16) 0 false s'
          else if quad =? 2 then String (chr (left * 16 + v / 4)) <$> b64_go 3 (v mod 4) 0 false s'
          else String (chr (left * 64 + v)) <$> b64_go 0 0 0 false s'
      end
  end.

(** [base64.b64decode(s, validate=True)]; [None] is [binascii.Error]. *)
Definition b64decode (s : string) : option string :=
  if String.prefix "=" s then None else b64_go 0 0 0 false s.

(** ** Round trip *)

Lemma b64_value_char v : 0 ≤ v < 64 → b64_value (b64_char v) = Some v ∧ Ascii.eqb (b64_char v) "=" = false.
Proof.
  intros Hv. assert (In v (map Z.of_nat (seq 0 64))) as Hin.
  { apply in_map_iff. exists (Z.to_nat v). rewrite in_seq. lia. }
  assert (forallb (λ v, bool_decide (b64_value (b64_char v) = Some v) && negb (Ascii.eqb (b64_char v) "="))
            (map Z.of_nat (seq 0 64)) = true) as Hall by (vm_compute; reflexivity).
  rewrite forallb_forall in Hall. specialize (Hall v Hin). apply andb_true_iff in Hall as [H1 H2].
  by rewrite bool_decide_eq_true in H1; rewrite negb_true_iff in H2.
Qed.

Lemma b64_char_range v : 0 ≤ v < 64 → code (b64_char v) < 128 ∧ code (b64_char v) ≠ 61.
Proof.
  intros Hv. destruct (b64_value_char v Hv) as [H1 H2]. unfold b64_value in H1. split.
  - repeat match type of H1 with context [if ?b then _ else _] => destruct b eqn:?; boolify; [lia|] end. done.
  - intros E. revert H1. rewrite E. vm_compute. done.
Qed.

Section split_byte.
Variable c : Ascii.ascii.

Lemma split6 : 0 ≤ code c / 4 < 64 ∧ 0 ≤ code c mod 4 < 4 ∧ code c = code c / 4 * 4 + code c mod 4.
Proof. pose proof (code_range c). pose proof (Z.div_mod (code c) 4). pose proof (Z.mod_pos_bound (code c) 4). lia. Qed.

Lemma split4 : 0 ≤ code c / 16 < 16 ∧ 0 ≤ code c mod 16 < 16 ∧ code c = code c / 16 * 16 + code c mod 16.
Proof. pose proof (code_range c). pose proof (Z.div_mod (code c) 16). pose proof (Z.mod_pos_bound (code c) 16). lia. Qed.

Lemma split2 : 0 ≤ code c / 64 < 4 ∧ 0 ≤ code c mod 64 < 64 ∧ code c = code c / 64 * 64 + code c mod 64.
Proof. pose proof (code_range c). pose proof (Z.div_mod (code c) 64). pose proof (Z.mod_pos_bound (code c) 64). lia. Qed.
End split_byte.

Lemma b64_go_char quad left v s : 0 ≤ v < 64 → b64_go quad left 0 false (String (b64_char v) s) =
  if quad =? 0 then b64_go 1 v 0 false s
  else if quad =? 1 then String (chr (left * 4 + v / 16)) <$> b64_go 2 (v mod 16) 0 false s
  else if quad =? 2 then String (chr (left * 16 + v / 4)) <$> b64_go 3 (v mod 4) 0 false s
  else String (chr (left * 64 + v)) <$> b64_go 0 0 0 false s.
Proof. intros Hv. cbn [b64_go]. destruct (b64_value_char v Hv) as [-> ->]. done. Qed.

Lemma b64_join a b q n : 0 ≤ b < n → 0 < n → q = a * n + b → q / n = a ∧ q mod n = b.
Proof.
  intros Hb Hn ->. rewrite Z.add_comm, Z.div_add, Z.mod_add by lia. rewrite Z.div_small, Z.mod_small by lia. lia.
Qed.

Lemma b64_first a b s : (0 ≤ b < 16) →
  b64_go 0 0 0 false (String (b64_char (code a / 4)) (String (b64_char (code a mod 4 * 16 + b)) s))
  = String a <$> b64_go 2 b 0 false s.
Proof.
  intros Hb. pose proof (split6 a) as (H1 & H2 & H3).
  rewrite !b64_go_char by lia. cbn [Z.eqb]. change (1 =? 0) with false. change (1 =? 1) with true. cbn iota.
  destruct (b64_join (code a mod 4) b (code a mod 4 * 16 + b) 16) as [-> ->]; [lia..|].
  rewrite <-H3, chr_code. done.
Qed.

Lemma b64_second b c s : (0 ≤ c < 4) →
  b64_go 2 (code b / 16) 0 false (String (b64_char (code b mod 16 * 4 + c)) s) = String b <$> b64_go 3 c 0 false s.
Proof.
  intros Hc. pose proof (split4 b) as (H1 & H2 & H3). rewrite b64_go_char by lia.
  change (2 =? 0) with false. change (2 =? 1) with false. change (2 =? 2) with true. cbn iota.
  destruct (b64_join (code b mod 16) c (code b mod 16 * 4 + c) 4) as [-> ->]; [lia..|]. by rewrite <-H3, chr_code.
Qed.

Lemma b64_roundtrip_go s : b64_go 0 0 0 false (b64encode s) = Some s.
Proof.
  induction (Nat.lt_wf_0_projected String.length s) as [s _ IH]. destruct s as [|a [|b [|c s]]]; cbn [b64encode].
  - done.
  - rewrite <-(Z.add_0_r (code a mod 4 * 16)), b64_first by lia. done.
  - pose proof (split4 b). rewrite b64_first by lia. rewrite <-(Z.add_0_r (code b mod 16 * 4)), b64_second by (done || lia). done.
  - pose proof (split4 b). pose proof (split2 c) as (H1 & H2 & H3). rewrite b64_first, b64_second by (done || lia).
    rewrite b64_go_char by lia. change (3 =? 0) with false. change (3 =? 1) with false. change (3 =? 2) with false.
    cbn iota. rewrite <-H3, chr_code, IH; [done|]. cbn. lia.
Qed.

Lemma b64_roundtrip s : b64decode (b64encode s) = Some s.
Proof.
  unfold b64decode. rewrite b64_roundtrip_go.
  assert (∀ v t, 0 ≤ v < 64 → String.prefix "=" (String (b64_char v) t) = false) as Hp.
  { intros v t Hv. cbn [String.prefix]. destruct (ascii_dec "=" (b64_char v)) as [E|]; [|done].
    destruct (b64_value_char v Hv) as [_ H]. by rewrite <-E in H. }
  destruct s as [|a [|b [|c s]]]; cbn [b64encode]; [done|rewrite Hp; [done|apply split6]..].
Qed.

Lemma b64_length s : Z.of_nat (String.length (b64encode s)) = 4 * ((Z.of_nat (String.length s) + 2) / 3).
Proof.
  induction (Nat.lt_wf_0_projected String.length s) as [s _ IH]. destruct s as [|a [|b [|c s]]]; try done.
  cbn [b64encode String.length]. rewrite !Nat2Z.inj_succ, IH by (cbn; lia).
  replace (Z.succ (Z.succ (Z.succ (Z.of_nat (String.length s)))) + 2) with (Z.of_nat (String.length s) + 2 + 1 * 3) by lia.
  rewrite Z.div_add by lia. lia.
Qed.

Lemma b64_ascii s : str_all (λ c, code c <? 128) (b64encode s) = true.
Proof.
  assert (∀ v, 0 ≤ v < 64 → (code (b64_char v) <? 128) = true) as Hc.
  { intros v Hv. apply Z.ltb_lt, (b64_char_range v Hv). }
  induction (Nat.lt_wf_0_projected String.length s) as [s _ IH].
  destruct s as [|a [|b [|c s]]]; cbn [b64encode str_all]; [done|..];
    pose proof (split6 a); try pose proof (split4 b); try pose proof (split2 c); rewrite !Hc by lia; [done..|].
  apply IH. cbn. lia.
Qed.
