(* ===== verification/Protocol.v ===== *)
(** * The wire between a supervisor and its callers
      (runtime/head/local_pty/protocol.py)

    The limits, the frames and payloads, the paths of a run directory, and the
    refusals.  A frame is one line of JSON; a payload is base64 text. *)

From S2P Require Import Prelude PyText JsonText Json Base64.

Definition INPUT_MAX_BYTES : Z := 64 * 1024.
Definition ENVELOPE_SLACK_BYTES : Z := 4096.
Definition FRAME_MAX_BYTES : Z := (INPUT_MAX_BYTES * 4 + 2) / 3 + ENVELOPE_SLACK_BYTES.
Definition OUTPUT_BUFFER_BYTES : Z := 256 * 1024.
Definition ATTACH_MAX_CLIENTS : Z := 4.
Definition CONNECTION_MAX_CLIENTS : Z := ATTACH_MAX_CLIENTS * 4.

Definition SOCKET_NAME : string := "head.sock".
Definition STARTUP_ERROR_NAME : string := "startup.error".
Definition SUPERVISOR_ERROR_NAME : string := "supervisor.error".

Definition OP_STATUS : string := "status".
Definition OP_INPUT : string := "input".
Definition OP_OUTPUT : string := "output".
Definition OP_ATTACH : string := "attach".
Definition OP_RESIZE : string := "resize".
Definition OP_DRAIN : string := "drain".
Definition OP_STOP : string := "stop".
Definition OPS : list string := [OP_STATUS; OP_INPUT; OP_OUTPUT; OP_ATTACH; OP_RESIZE; OP_DRAIN; OP_STOP].

Definition REQUEST_ID : string := "id".

(** [DELIVERY_STATES]. *)
Inductive DeliveryState := DELIVERY_IN_FLIGHT | DELIVERY_COMPLETE | DELIVERY_STALLED | DELIVERY_FAILED.

#[global] Instance DeliveryState_eq_dec : EqDecision DeliveryState.
Proof. solve_decision. Defined.

Definition delivery_state_text (s : DeliveryState) : string :=
  match s with
  | DELIVERY_IN_FLIGHT => "in_flight" | DELIVERY_COMPLETE => "complete" | DELIVERY_STALLED => "stalled"
  | DELIVERY_FAILED => "failed"
  end.

Definition ERROR_INPUT_TOO_LARGE : string := "input_too_large".
Definition ERROR_FRAME_TOO_LARGE : string := "frame_too_large".
Definition ERROR_ATTACH_LIMIT : string := "attach_limit".
Definition ERROR_CONNECTION_LIMIT : string := "connection_limit".
Definition ERROR_INPUT_IN_FLIGHT : string := "input_in_flight".
Definition ERROR_DRAINING : string := "draining".
Definition ERROR_HEAD_GONE : string := "head_gone".
Definition ERROR_MALFORMED : string := "malformed_request".
Definition ERROR_UNKNOWN_OP : string := "unknown_op".

Definition EVENT_OUTPUT : string := "output".
Definition EVENT_DROPPED : string := "dropped".
Definition EVENT_EXITED : string := "exited".

Definition SUN_PATH_MAX : Z := 100.

(** [INPUT_DELIVERY_SECONDS], in ticks. *)
Definition INPUT_DELIVERY_SECONDS : Z := seconds 10.

Definition ProtocolError (msg : string) : exn := Exn "ProtocolError" msg.

(** ** Paths

    A [pathlib] path: its anchor and its parts. *)
Record Path := { p_anchor : string; p_parts : list string }.

Definition path_str (p : Path) : string := p_anchor p +:+ String.concat "/" (p_parts p).

(** [path / name] for a name without a separator. *)
Definition path_child (p : Path) (name : string) : Path := {| p_anchor := p_anchor p; p_parts := p_parts p ++ [name] |}.

(** [len(s.encode("utf-8"))]. *)
Fixpoint utf8_length (s : string) : Z :=
  match s with "" => 0 | String c s' => (if code c <? 128 then 1 else 2) + utf8_length s' end.

Section protocol.
Context `{PyRepr, JsonText}.
Variable repr : string → string.
(** [f"{seconds:g}"]. *)
Variable fmt_g : Z → string.

Definition run_dir_for (root : Path) (run_id : string) : res Path :=
  if negb (nonempty run_id) || str_contains "/" run_id || String.eqb run_id "." || String.eqb run_id ".."
  then Raise (ProtocolError ("a run directory is named by a run id, not by " +:+ repr run_id))
  else Ok (path_child root run_id).

Definition socket_path_for (run_dir : Path) : res Path :=
  let path := path_child run_dir SOCKET_NAME in
  if SUN_PATH_MAX <? utf8_length (path_str path)
  then Raise (ProtocolError ("the head socket path is " +:+ pretty (Z.of_nat (String.length (path_str path)))
                +:+ " bytes, over the " +:+ pretty SUN_PATH_MAX +:+ "-byte limit a Unix socket address has: "
                +:+ path_str path))
  else Ok path.

(** ** Frames and payloads *)

Definition encode_frame (payload : list (string * pyval)) : string := dumps payload +:+ String newline "".

(** The text of the decoder's own error is not modelled. *)
Definition decode_frame (line : string) : res (list (string * pyval)) :=
  match loads line with
  | None => Raise (ProtocolError "unreadable frame: ")
  | Some (VDict d) => Ok d
  | Some _ => Raise (ProtocolError "a frame is a JSON object")
  end.

Definition encode_payload (data : string) : string := b64encode data.

Definition decode_payload (data : pyval) : res string :=
  match data with
  | VStr s =>
      if str_all (λ c, code c <? 128) s then
        match b64decode s with Some bytes => Ok bytes | None => Raise (ProtocolError "a payload is base64 text: ") end
      else Raise (ProtocolError "a payload is base64 text: ")
  | _ => Raise (ProtocolError "a payload is base64 text")
  end.

(** ** Refusals *)

Definition input_refusal (size : Z) : list (string * pyval) :=
  [("ok", VBool false); ("error", VStr ERROR_INPUT_TOO_LARGE); ("limit_bytes", VInt INPUT_MAX_BYTES);
   ("size_bytes", VInt size);
   ("detail", VStr ("input of " +:+ pretty size +:+ " bytes exceeds the " +:+ pretty INPUT_MAX_BYTES
               +:+ "-byte limit; it was neither truncated nor split"))].

Definition in_flight_refusal (delivery : list (string * pyval)) : list (string * pyval) :=
  [("ok", VBool false); ("error", VStr ERROR_INPUT_IN_FLIGHT); ("delivery", VDict delivery);
   ("detail", VStr ("delivery " +:+ py_str (get delivery "id") +:+ " is still being written ("
               +:+ py_str (get delivery "written_bytes") +:+ " of " +:+ py_str (get delivery "size_bytes")
               +:+ " bytes); this head takes one payload at a time"))].

Definition delivery_detail (state : DeliveryState) (size written : Z) (why : string) (secs : Z) : string :=
  match state with
  | DELIVERY_COMPLETE => "all " +:+ pretty written +:+ " bytes reached the head's terminal"
  | DELIVERY_IN_FLIGHT =>
      pretty written +:+ " of " +:+ pretty size +:+ " bytes have reached the head's terminal so far"
  | DELIVERY_STALLED =>
      pretty written +:+ " of " +:+ pretty size +:+ " bytes reached the head's terminal within " +:+ fmt_g secs
      +:+ "s and the delivery was abandoned there: " +:+ why
  | DELIVERY_FAILED =>
      pretty written +:+ " of " +:+ pretty size
      +:+ " bytes reached the head's terminal and the delivery ended: " +:+ why
  end.

Definition connection_refusal (connections : Z) : list (string * pyval) :=
  [("ok", VBool false); ("error", VStr ERROR_CONNECTION_LIMIT); ("limit", VInt CONNECTION_MAX_CLIENTS);
   ("connections", VInt connections);
   ("detail", VStr (pretty connections +:+ " callers already hold a connection to this head, which is the "
               +:+ pretty CONNECTION_MAX_CLIENTS +:+ "-connection limit"))].

(** ** Round trips *)

Lemma decode_encode_frame d : printable (VDict d) = true → ∃ line,
  encode_frame d = line +:+ String newline "" ∧ one_line line = true ∧ decode_frame line = Ok (sorted_items d).
Proof.
  intros Hd. exists (dumps d). split_and!; [done|apply dumps_one_line|]. unfold decode_frame. by rewrite loads_dumps.
Qed.

Lemma decode_encode_payload data : decode_payload (VStr (encode_payload data)) = Ok data.
Proof. unfold decode_payload, encode_payload. by rewrite b64_ascii, b64_roundtrip. Qed.

(** A payload inside the input limit, with room for the JSON around it, fits in
    a frame. *)
Lemma payload_fits data :
  Z.of_nat (String.length data) ≤ INPUT_MAX_BYTES →
  Z.of_nat (String.length (encode_payload data)) + ENVELOPE_SLACK_BYTES ≤ FRAME_MAX_BYTES + 2.
Proof.
  intros Hd. unfold encode_payload. rewrite b64_length. unfold FRAME_MAX_BYTES.
  assert ((Z.of_nat (String.length data) + 2) / 3 ≤ (INPUT_MAX_BYTES + 2) / 3) as Hm by (apply Z.div_le_mono; lia).
  change ((INPUT_MAX_BYTES + 2) / 3) with 21846 in Hm. change ((INPUT_MAX_BYTES * 4 + 2) / 3) with 87382. lia.
Qed.
End protocol.
