(* ===== verification/Journal.v ===== *)
(** * One head's event journal (runtime/head/local_pty/journal.py)

    The append-only file of single-line JSON records a supervisor writes about
    its head: the writer with its sequence recovered on open, the tolerant
    reader, the bounded reader of the file's end, and the two queries on what
    was read.  Bytes are [string]s; the file is what a path names.  JSON text is
    the interface [JsonText]. *)

From S2P Require Import Prelude PyText JsonText.

Definition JOURNAL_SCHEMA_VERSION : Z := 1.
Definition JOURNAL_TAIL_BYTES : Z := 64 * 1024.

Definition RUN_STARTED : string := "run.started".
Definition SCOPE_BOUND : string := "scope.bound".
Definition INPUT_ACCEPTED : string := "input.accepted".
Definition TURN_STARTED : string := "turn.started".
Definition PROVIDER_PROGRESSED : string := "provider.progressed".
Definition TURN_FINISHED : string := "turn.finished".
Definition DRAIN_REQUESTED : string := "drain.requested".
Definition RUN_STOPPING : string := "run.stopping".
Definition RUN_EXITED : string := "run.exited".

Definition EVENT_KINDS : list string :=
  [SCOPE_BOUND; RUN_STARTED; INPUT_ACCEPTED; TURN_STARTED; PROVIDER_PROGRESSED; TURN_FINISHED; DRAIN_REQUESTED;
   RUN_STOPPING; RUN_EXITED].

Definition RESERVED_FIELDS : list string := ["schema_version"; "seq"; "run_id"; "kind"; "at"].

(** A record: the items of its dict. *)
Notation record := (list (string * pyval)) (only parsing).

Record JournalReadResult := {
  events : list record; truncated_tail : bool; malformed : Z; ordered : bool; partial_head : bool;
}.

(** The dataclass's defaults. *)
Definition empty_result (partial : bool) : JournalReadResult :=
  {| events := []; truncated_tail := false; malformed := 0; ordered := true; partial_head := partial |}.

(** What a path names. *)
Inductive File := Absent | Unreadable | Bytes (content : string).

(** How one [os.write] and the [fsync] after it went: the bytes the kernel took,
    and the text of the [OSError], if one was raised. *)
Record WriteOutcome := { wo_taken : nat; wo_error : option string }.

Record Writer := { jw_run_id : string; jw_open : bool; jw_seq : Z }.

Definition JournalError (msg : string) : exn := Exn "JournalError" msg.

(** ** Division rounded to the nearest, ties to even: [round(x, 6)] of a time *)
Definition div_even (a b : Z) : Z :=
  let q := a / b in let r := a mod b in
  if 2 * r <? b then q else if b <? 2 * r then q + 1 else if Z.even q then q else q + 1.

Definition round_micro (t : Z) : Z := div_even (div_even (t * 10 ^ 6) SECOND * SECOND) (10 ^ 6).

Section journal.
Context `{PyRepr, JsonText}.
Variable repr : string → string.

Definition kinds (r : JournalReadResult) : list string := map (λ e, py_str_or (get e "kind")) (events r).

Definition of_kind (r : JournalReadResult) (kind : string) : list record :=
  List.filter (λ e, match get e "kind" with VStr k => String.eqb k kind | _ => false end) (events r).

(** ** The reader *)

(** [record.get("schema_version") == JOURNAL_SCHEMA_VERSION], Python's equality. *)
Definition current_version (v : pyval) : bool :=
  match v with
  | VInt z => z =? JOURNAL_SCHEMA_VERSION
  | VBool b => b
  | VFloat (FFin t) => t =? seconds JOURNAL_SCHEMA_VERSION
  | _ => false
  end.

(** [_usable]. *)
Definition usable (v : pyval) : option record :=
  match v with
  | VDict d =>
      if negb (current_version (get d "schema_version")) then None
      else if negb (match get d "kind" with VStr k => bool_decide (k ∈ EVENT_KINDS) | _ => false end) then None
      else if negb (nonempty (py_str_or (get d "run_id"))) then None
      else match dict_get d "seq" with
           | None => None
           | Some v =>
               match py_int v with
               | Ok seq => if seq <=? 0 then None else Some (dict_set d "seq" (VInt seq))
               | Raise _ => None
               end
           end
  | _ => None
  end.

(** [bytes.isspace] of one byte. *)
Definition byte_space (c : Ascii.ascii) : bool :=
  let n := Ascii.nat_of_ascii c in ((9 <=? n) && (n <=? 13) || (n =? 32))%nat.

(** [not line.strip()]. *)
Definition blank (line : string) : bool := str_all byte_space line.

(** What one complete line is: skipped, a record, or malformed. *)
Inductive Line := Blank | Event (r : record) | Malformed.

Definition read_line (line : string) : Line :=
  if blank line then Blank
  else match loads line with
       | None => Malformed
       | Some v => match usable v with Some r => Event r | None => Malformed end
       end.

(** [int(event.get("seq") or 0)]. *)
Definition event_seq (e : record) : res Z :=
  let v := get e "seq" in py_int (if py_truthy v then v else VInt 0).

Definition line_events (lines : list string) : list record :=
  omap (λ l, match read_line l with Event r => Some r | _ => None end) lines.

Definition line_malformed (lines : list string) : Z :=
  Z.of_nat (length (List.filter (λ l, match read_line l with Malformed => true | _ => false end) lines)).

(** [int(later["seq"]) > int(earlier["seq"])] for every neighbouring pair. *)
Fixpoint increasing (l : list record) : bool :=
  match l with
  | a :: (b :: _) as t =>
      match py_int (get a "seq"), py_int (get b "seq") with
      | Ok x, Ok y => (x <? y) && increasing t
      | _, _ => false
      end
  | _ => true
  end.

(** [raw.endswith(b"\n")]. *)
Fixpoint ends_newline (s : string) : bool :=
  match s with
  | "" => false
  | String c "" => Ascii.eqb c newline
  | String _ s' => ends_newline s'
  end.

(** [_parsed]. *)
Definition parsed (raw : string) (partial : bool) : JournalReadResult :=
  if negb (nonempty raw) then empty_result partial
  else
    let truncated := negb (ends_newline raw) in
    let lines := str_split newline raw in
    let lines := if truncated then take (length lines - 1) lines else lines in
    {| events := line_events lines; truncated_tail := truncated; malformed := line_malformed lines;
       ordered := increasing (line_events lines); partial_head := partial |}.

Definition OSError : exn := Exn "OSError" "".

Definition read_events (f : File) : res JournalReadResult :=
  match f with
  | Absent => Ok (empty_result false)
  | Unreadable => Raise OSError
  | Bytes raw => Ok (parsed raw false)
  end.

(** [tail_window]: the size is measured on [measured]; the bytes are read from
    [later], what the file holds by then. *)
Definition tail_window (measured later : File) (max_bytes : Z) : res (option (string * bool)) :=
  if max_bytes <=? 0
  then Raise (JournalError "a bounded journal read is bounded by a positive number of bytes")
  else match measured, later with
  | Absent, _ => Ok None
  | Bytes s0, Bytes s1 =>
      let size := Z.of_nat (String.length s0) in
      let start := Z.max 0 (size - max_bytes) in
      let raw := str_take (Z.to_nat (Z.min max_bytes (Z.max 0 (size - start)))) (str_drop (Z.to_nat start) s1) in
      if start <=? 0 then Ok (Some (raw, false))
      else Ok (Some ((str_partition newline raw).2, true))
  | _, _ => Raise OSError
  end.

Definition read_tail (measured later : File) (max_bytes : Z) : res JournalReadResult :=
  window ← tail_window measured later max_bytes;
  match window with
  | None => Ok (empty_result false)
  | Some (raw, partial) => Ok (parsed raw partial)
  end.

Definition events_since (l : list record) (seq : Z) : res (list record) :=
  foldM (λ acc e, n ← event_seq e; Ok (if seq <? n then acc ++ [e] else acc)) [] l.

(** ** The writer *)

(** [_last_seq]. *)
Definition last_seq (f : File) : res Z :=
  match read_events f with
  | Raise _ => Ok 0
  | Ok result =>
      seqs ← foldM (λ acc e, n ← event_seq e; Ok (acc ++ [n])) [] (events result);
      Ok (match seqs with [] => 0 | n :: l => foldl Z.max n l end)
  end.

(** [JournalWriter(path, run_id)]. *)
Definition new_writer (run_id : string) : res Writer :=
  _ ← require (nonempty run_id) (JournalError "a journal names the run it belongs to");
  Ok {| jw_run_id := run_id; jw_open := false; jw_seq := 0 |}.

(** [JournalWriter.open]: the file exists afterwards. *)
Definition open_writer (w : Writer) (f : File) : res (Writer * File) :=
  seq ← last_seq f;
  match f with
  | Absent => Ok ({| jw_run_id := jw_run_id w; jw_open := true; jw_seq := seq |}, Bytes "")
  | Unreadable => Raise OSError
  | Bytes s => Ok ({| jw_run_id := jw_run_id w; jw_open := true; jw_seq := seq |}, Bytes s)
  end.

Definition close_writer (w : Writer) : Writer := {| jw_run_id := jw_run_id w; jw_open := false; jw_seq := jw_seq w |}.

(** The record an append writes. *)
Definition new_record (w : Writer) (kind : string) (fields : record) (now : Z) : record :=
  foldl (λ r p, dict_set r p.1 p.2)
    [("schema_version", VInt JOURNAL_SCHEMA_VERSION); ("seq", VInt (jw_seq w + 1)); ("run_id", VStr (jw_run_id w));
     ("kind", VStr kind); ("at", VFloat (FFin (round_micro now)))] fields.

Definition record_line (r : record) : string := dumps r +:+ String newline "".

Definition file_append (f : File) (s : string) : File :=
  match f with Bytes t => Bytes (t +:+ s) | _ => Bytes s end.

(** [JournalWriter.append]: what it returns or raises, the writer and the file
    it leaves. *)
Definition append (w : Writer) (f : File) (kind : string) (fields : record) (now : Z) (o : WriteOutcome)
  : res record * Writer * File :=
  let collisions := List.filter (λ k, dict_has fields k) RESERVED_FIELDS in
  if negb (bool_decide (kind ∈ EVENT_KINDS)) then
    (Raise (JournalError ("unknown journal event kind " +:+ repr kind +:+ " (known: "
              +:+ String.concat ", " EVENT_KINDS +:+ ")")), w, f)
  else if negb (bool_decide (collisions = [])) then
    (Raise (JournalError ("a journal record's own fields cannot be overwritten: "
              +:+ String.concat ", " (sort_strings collisions))), w, f)
  else if negb (jw_open w) then (Raise (JournalError "the journal is not open"), w, f)
  else
    let r := new_record w kind fields now in
    let w' := {| jw_run_id := jw_run_id w; jw_open := true; jw_seq := jw_seq w + 1 |} in
    let f' := file_append f (str_take (wo_taken o) (record_line r)) in
    (match wo_error o with Some strerror => Raise (Exn "OSError" strerror) | None => Ok r end, w', f').
End journal.
