(* ===== verification/JournalFacts.v ===== *)
(** * What a reader of the journal may believe

    The round trip of complete appends over any number of sessions, what a torn
    last write costs, and the bounded read of the end as a suffix of the full
    one. *)

From Stdlib Require Import Ascii.
From S2P Require Import Prelude PyText JsonText Journal.

(** ** Lines *)

Definition newlines (s : string) : nat := length (str_split newline s) - 1.

(** The lines of [s] that a newline ends. *)
Definition complete_lines (s : string) : list string := removelast (str_split newline s).

Lemma str_split_nonnil sep s : str_split sep s ≠ [].
Proof. destruct s as [|c s]; cbn; [done|]. destruct (Ascii.eqb c sep); [done|]. by destruct (str_split sep s). Qed.

Lemma removelast_cons {A} (x : A) l : l ≠ [] → removelast (x :: l) = x :: removelast l.
Proof. by destruct l. Qed.

Lemma complete_newline s : complete_lines (String newline s) = "" :: complete_lines s.
Proof. unfold complete_lines. cbn. apply removelast_cons, str_split_nonnil. Qed.

(** A character that is no newline only lengthens the first line. *)
Lemma complete_char c s : Ascii.eqb c newline = false →
  length (complete_lines (String c s)) = length (complete_lines s) ∧
  ∀ n, drop (S n) (complete_lines (String c s)) = drop (S n) (complete_lines s).
Proof.
  intros Hc. unfold complete_lines. cbn. rewrite Hc. pose proof (str_split_nonnil newline s).
  destruct (str_split newline s) as [|w [|w' ws]]; [done|split; [done|by intros []]|]. done.
Qed.

Lemma newlines_complete s : newlines s = length (complete_lines s).
Proof.
  unfold newlines, complete_lines. pose proof (str_split_nonnil newline s).
  destruct (str_split newline s) as [|w ws] using rev_ind; [done|]. rewrite removelast_last, length_app. cbn. lia.
Qed.

(** The lines of the bytes after the first newline of [b] are the last of
    [a +:+ b]. *)
Lemma complete_lines_cut a b :
  complete_lines (str_partition newline b).2 = drop (S (newlines a)) (complete_lines (a +:+ b)).
Proof.
  rewrite newlines_complete. induction a as [|c a IH].
  - change (complete_lines "") with ([] : list string). cbn [length]. rewrite str_nil_app.
    induction b as [|c b IH]; [done|]. cbn [str_partition]. destruct (Ascii.eqb c newline) eqn:Hc.
    + apply Ascii.eqb_eq in Hc as ->. by rewrite complete_newline.
    + destruct (complete_char c b Hc) as [_ ->]. rewrite <-IH. by destruct (str_partition newline b).
  - rewrite str_cons_app. destruct (Ascii.eqb c newline) eqn:Hc.
    + apply Ascii.eqb_eq in Hc as ->. by rewrite !complete_newline.
    + destruct (complete_char c a Hc) as [-> _], (complete_char c (a +:+ b) Hc) as [_ ->]. done.
Qed.

Lemma split_complete s : ∃ w, str_split newline s = complete_lines s ++ [w].
Proof.
  unfold complete_lines. pose proof (str_split_nonnil newline s).
  destruct (str_split newline s) as [|w ws _] using rev_ind; [done|]. exists w. by rewrite removelast_last.
Qed.

Lemma split_single s w : str_split newline s = [w] → s = w.
Proof.
  revert w. induction s as [|c s IH]; intros w; cbn; [by intros [= <-]|].
  pose proof (str_split_nonnil newline s). destruct (Ascii.eqb c newline); [by destruct (str_split newline s)|].
  destruct (str_split newline s) as [|w' [|]]; [done| |done]. intros [= <-]. by rewrite (IH w').
Qed.

Lemma split_ends_newline s : ends_newline s = true → str_split newline s = complete_lines s ++ [""].
Proof.
  induction s as [|c s IH]; [done|]. destruct s as [|c' s].
  - unfold complete_lines. cbn. by intros ->.
  - intros Hs. specialize (IH Hs). destruct (Ascii.eqb c newline) eqn:Hc.
    + apply Ascii.eqb_eq in Hc as ->. rewrite complete_newline. cbn [app]. by rewrite <-IH.
    + unfold complete_lines in *. change (str_split newline (String c (String c' s))) with
        (if Ascii.eqb c newline then "" :: str_split newline (String c' s)
         else match str_split newline (String c' s) with w :: ws => String c w :: ws | [] => [String c ""] end).
      rewrite Hc. destruct (str_split newline (String c' s)) as [|w [|w' ws]] eqn:E; [done| |].
      * cbn in IH. injection IH as ->. by apply split_single in E.
      * change (removelast (String c w :: w' :: ws)) with (String c w :: removelast (w' :: ws)).
        change (removelast (w :: w' :: ws)) with (w :: removelast (w' :: ws)) in IH.
        apply (f_equal (@tl string)) in IH. change (String c w :: ?x ++ ?y) with (String c w :: (x ++ y)).
        by apply (f_equal (cons (String c w))).
Qed.

(** ** What [parsed] says, by its complete lines *)

Section journal_facts.
Context `{PyRepr, JsonText}.

Lemma line_events_app l k : line_events (l ++ k) = line_events l ++ line_events k.
Proof. apply omap_app. Qed.

Lemma line_malformed_app l k : line_malformed (l ++ k) = line_malformed l + line_malformed k.
Proof. unfold line_malformed. rewrite List.filter_app, length_app. lia. Qed.

Lemma parsed_lines raw partial :
  events (parsed raw partial) = line_events (complete_lines raw) ∧
  malformed (parsed raw partial) = line_malformed (complete_lines raw) ∧
  ordered (parsed raw partial) = increasing (line_events (complete_lines raw)) ∧
  partial_head (parsed raw partial) = partial ∧
  truncated_tail (parsed raw partial) = nonempty raw && negb (ends_newline raw).
Proof.
  unfold parsed. destruct (nonempty raw) eqn:Hraw.
  2:{ destruct raw; [|done]. done. }
  cbn [negb andb]. destruct (ends_newline raw) eqn:He; cbn [negb events malformed ordered partial_head truncated_tail].
  - rewrite split_ends_newline, line_events_app, line_malformed_app by done.
    change (line_events [""]) with ([] : list (list (string * pyval))). rewrite app_nil_r.
    change (line_malformed [""]) with 0. rewrite Z.add_0_r. done.
  - destruct (split_complete raw) as [w ->]. rewrite length_app. cbn [length].
    rewrite take_app_le, take_ge by lia. done.
Qed.

Lemma increasing_suffix l k : increasing (l ++ k) = true → increasing k = true.
Proof.
  induction l as [|a l IH]; [done|]. intros Hi. apply IH. cbn in Hi. destruct (l ++ k) as [|b t]; [done|].
  destruct (py_int (get a "seq")), (py_int (get b "seq")); try done. by apply andb_true_iff in Hi as [_ ?].
Qed.

(** ** The bounded read *)

(** Nothing appended after the measurement is read. *)
Lemma tail_window_stable s more max :
  tail_window (Bytes s) (Bytes (s +:+ more)) max = tail_window (Bytes s) (Bytes s) max.
Proof.
  unfold tail_window. destruct (max <=? 0) eqn:Hm; [done|]. boolify. cbv zeta.
  set (size := Z.of_nat (String.length s)). set (start := Z.max 0 (size - max)).
  rewrite str_drop_app_le by lia. rewrite str_take_app_le; [done|]. rewrite str_drop_length. lia.
Qed.

Lemma tail_window_exact s max : 0 < max →
  tail_window (Bytes s) (Bytes s) max =
    Ok (Some (let start := Z.to_nat (Z.of_nat (String.length s) - max) in
              if Z.of_nat (String.length s) <=? max then (s, false)
              else ((str_partition newline (str_drop start s)).2, true))).
Proof.
  intros Hm. unfold tail_window. rewrite (proj2 (Z.leb_gt max 0)) by lia. cbv zeta.
  set (size := Z.of_nat (String.length s)). destruct (size <=? max) eqn:E; boolify.
  - rewrite Z.max_l, (proj2 (Z.leb_le 0 0)) by lia. change (Z.to_nat 0) with 0%nat.
    change (str_drop 0 s) with s. rewrite str_take_id; [done|]. lia.
  - rewrite Z.max_r, (proj2 (Z.leb_gt (size - max) 0)) by lia.
    rewrite str_take_id; [done|]. rewrite str_drop_length. lia.
Qed.


(** ** Complete appends read back *)

(** A record a reader accepts as it is. *)
Record good (r : list (string * pyval)) (n : Z) : Prop := {
  good_wf : dict_wf r;
  good_printable : printable (VDict r) = true;
  good_version : get r "schema_version" = VInt JOURNAL_SCHEMA_VERSION;
  good_kind : ∃ k, get r "kind" = VStr k ∧ k ∈ EVENT_KINDS;
  good_run : ∃ id, get r "run_id" = VStr id ∧ nonempty id = true;
  good_seq : dict_get r "seq" = Some (VInt n);
  good_positive : 0 < n;
}.

Lemma good_line r n : good r n → read_line (dumps r) = Event (sorted_items r).
Proof.
  intros [Hwf Hp Hv (k & Hk & Hin) (id & Hid & Hne) Hs Hn]. unfold read_line.
  assert (blank (dumps r) = false) as ->.
  { pose proof (dumps_braced r) as Hb. destruct (dumps r) as [|c s]; [done|]. cbn [String.prefix] in Hb. unfold blank. cbn [str_all].
    revert Hb. by destruct (ascii_dec "{" c) as [<-|]. }
  rewrite loads_dumps by done. unfold usable. rewrite !get_sorted by done. rewrite Hv, Hk, Hid.
  change (sorted (VInt JOURNAL_SCHEMA_VERSION)) with (VInt 1). cbn [sorted current_version].
  change (1 =? JOURNAL_SCHEMA_VERSION) with true. cbn [negb]. rewrite bool_decide_eq_true_2 by done. cbn [negb].
  unfold py_str_or. cbn [py_truthy py_str]. change (negb (String.eqb id "")) with (nonempty id).
  rewrite Hne, Hne. cbn [negb]. rewrite dict_get_sorted, Hs by done.
  cbn. rewrite (proj2 (Z.leb_gt n 0)) by lia. rewrite dict_set_same; [done|]. by rewrite dict_get_sorted, Hs.
Qed.

(** The records numbered from [n]. *)
Fixpoint numbered (n : Z) (rs : list (list (string * pyval))) : Prop :=
  match rs with [] => True | r :: rs => good r n ∧ numbered (n + 1) rs end.

Definition text (rs : list (list (string * pyval))) : string := foldr (λ r s, record_line r +:+ s) "" rs.

Lemma text_snoc rs r : text (rs ++ [r]) = text rs +:+ record_line r.
Proof.
  induction rs as [|x rs IH]; cbn [text foldr app]; [by rewrite str_app_nil, str_nil_app|].
  fold (text (rs ++ [r])). fold (text rs). by rewrite str_app_assoc, <-IH.
Qed.

Lemma numbered_snoc n rs r : numbered n (rs ++ [r]) ↔ numbered n rs ∧ good r (n + Z.of_nat (length rs)).
Proof.
  revert n. induction rs as [|x rs IH]; intros n; cbn [app numbered length].
  - rewrite Z.add_0_r. tauto.
  - rewrite IH. replace (n + 1 + Z.of_nat (length rs)) with (n + Z.of_nat (S (length rs))) by lia. tauto.
Qed.

Lemma line_app r s : record_line r +:+ s = dumps r +:+ String newline s.
Proof. unfold record_line. by rewrite str_app_assoc. Qed.

Lemma complete_text rs s : complete_lines (text rs +:+ s) = map dumps rs ++ complete_lines s.
Proof.
  induction rs as [|r rs IH]; [done|]. cbn [text foldr map]. fold (text rs). rewrite str_app_assoc, line_app.
  unfold complete_lines in *. rewrite str_split_app by apply dumps_one_line.
  rewrite removelast_cons by apply str_split_nonnil. by rewrite IH.
Qed.

Lemma events_numbered n rs : numbered n rs →
  line_events (map dumps rs) = map sorted_items rs ∧ line_malformed (map dumps rs) = 0.
Proof.
  revert n. induction rs as [|r rs IH]; intros n; [done|]. intros [Hg Hr]. destruct (IH _ Hr) as [E1 E2].
  change (map dumps (r :: rs)) with ([dumps r] ++ map dumps rs). rewrite line_events_app, line_malformed_app, E1, E2.
  unfold line_events, line_malformed. cbn. by rewrite (good_line r n Hg).
Qed.

Lemma numbered_increasing n rs : numbered n rs → increasing (map sorted_items rs) = true.
Proof.
  revert n. induction rs as [|r rs IH]; intros n; [done|]. intros [Hg Hr]. specialize (IH _ Hr).
  destruct rs as [|r' rs]; [done|]. destruct Hr as [Hg' _].
  assert (∀ r n, good r n → get (sorted_items r) "seq" = VInt n) as Hseq.
  { intros x m Hx. rewrite get_sorted by by eapply good_wf. unfold get. by rewrite (good_seq _ _ Hx). }
  change (match py_int (get (sorted_items r) "seq"), py_int (get (sorted_items r') "seq") with
    | Ok x, Ok y => (x <? y) && increasing (map sorted_items (r' :: rs)) | _, _ => false end = true).
  rewrite (Hseq _ _ Hg), (Hseq _ _ Hg'), IH. cbn. by rewrite (proj2 (Z.ltb_lt n (n + 1))) by lia.
Qed.

(** ** Sessions: a writer opened over what the last one left *)

Record Entry := { en_kind : string; en_fields : list (string * pyval); en_now : Z }.

Record valid (e : Entry) : Prop := {
  valid_kind : en_kind e ∈ EVENT_KINDS;
  valid_printable : printable (VDict (en_fields e)) = true;
  valid_fields : Forall (λ k, k ∉ (en_fields e).*1) RESERVED_FIELDS;
}.

Variable repr : string → string.

(** Appends whose every byte was taken. *)
Fixpoint write_all (w : Writer) (f : File) (es : list Entry) : res (list (list (string * pyval)) * Writer * File) :=
  match es with
  | [] => Ok ([], w, f)
  | e :: es =>
      let line := record_line (new_record w (en_kind e) (en_fields e) (en_now e)) in
      match append repr w f (en_kind e) (en_fields e) (en_now e)
              {| wo_taken := String.length line; wo_error := None |} with
      | (Ok r, w, f) => '(rs, w, f) ← write_all w f es; Ok (r :: rs, w, f)
      | (Raise x, _, _) => Raise x
      end
  end.

Definition session (run_id : string) (es : list Entry) (f : File) : res (list (list (string * pyval)) * File) :=
  w ← new_writer run_id; '(w, f) ← open_writer w f; '(rs, w, f) ← write_all w f es;
  let _ := close_writer w in Ok (rs, f).

Fixpoint sessions (l : list (string * list Entry)) (f : File) : res (list (list (string * pyval)) * File) :=
  match l with
  | [] => Ok ([], f)
  | (run_id, es) :: l => '(rs, f) ← session run_id es f; '(rs', f) ← sessions l f; Ok (rs ++ rs', f)
  end.

(** The file holds the records [rs], numbered from one. *)
Definition holds (f : File) (rs : list (list (string * pyval))) : Prop :=
  numbered 1 rs ∧ (f = Bytes (text rs) ∨ f = Absent ∧ rs = []).

Lemma ends_newline_app a s : nonempty s = true → ends_newline (a +:+ s) = ends_newline s.
Proof.
  intros Hs. induction a as [|c a IH]; [done|]. rewrite str_cons_app. cbn [ends_newline].
  destruct (a +:+ s) eqn:E; [|by rewrite <-IH]. by destruct a, s.
Qed.

Lemma one_line_open s : one_line s = true → ends_newline s = false.
Proof.
  induction s as [|c s IH]; [done|]. unfold one_line. cbn [str_all ends_newline].
  intros [Hc%negb_true_iff Hs]%andb_true_iff. by destruct s; [|apply IH].
Qed.

(** The full read of complete lines followed by a line that has no end. *)
Lemma read_torn rs s : numbered 1 rs → one_line s = true → read_events (Bytes (text rs +:+ s)) = Ok {|
  events := map sorted_items rs; truncated_tail := nonempty s; malformed := 0; ordered := true;
  partial_head := false |}.
Proof.
  intros Hn Hs. cbn [read_events]. f_equal.
  destruct (parsed_lines (text rs +:+ s) false) as (E1 & E2 & E3 & E4 & E5).
  destruct (parsed (text rs +:+ s) false) as [ev tr ma or pa]. cbn in *. subst. rewrite complete_text.
  assert (complete_lines s = []) as -> by (unfold complete_lines; by rewrite str_split_all).
  rewrite app_nil_r. destruct (events_numbered 1 rs Hn) as [-> ->]. rewrite (numbered_increasing 1 rs Hn). f_equal.
  destruct (nonempty s) eqn:Hne.
  - rewrite ends_newline_app, one_line_open by done. destruct (text rs), s; done.
  - destruct s; [|done]. rewrite str_app_nil. destruct rs as [|r rs _] using rev_ind; [done|].
    rewrite text_snoc. unfold record_line. rewrite <-str_app_assoc, (ends_newline_app _ (String newline "")) by done.
    apply andb_false_r.
Qed.

Lemma holds_read f rs : holds f rs → read_events f = Ok {|
  events := map sorted_items rs; truncated_tail := false; malformed := 0; ordered := true; partial_head := false |}.
Proof. intros [Hn [->|[-> ->]]]; [|done]. rewrite <-(str_app_nil (text rs)). by apply (read_torn rs ""). Qed.

Lemma seqs_numbered n rs acc : numbered n rs →
  foldM (λ acc e, m ← event_seq e; Ok (acc ++ [m])) acc (map sorted_items rs)
  = Ok (acc ++ seqZ n (Z.of_nat (length rs))).
Proof.
  revert n acc. induction rs as [|r rs IH]; intros n acc Hn; [cbn; by rewrite app_nil_r|].
  destruct Hn as [Hg Hr]. cbn [map foldM].
  assert (event_seq (sorted_items r) = Ok n) as ->.
  { unfold event_seq. rewrite get_sorted by by eapply good_wf. unfold get. rewrite (good_seq _ _ Hg). cbn.
    pose proof (good_positive _ _ Hg). by rewrite (proj2 (Z.eqb_neq n 0)) by lia. }
  cbn [mbind res_bind]. rewrite (IH _ _ Hr), <-(assoc_L (++)). do 2 f_equal.
  rewrite (seqZ_cons n (Z.of_nat (length (r :: rs)))) by (cbn; lia). cbn [app length]. f_equal. f_equal; lia.
Qed.

Lemma max_seqZ m k : 0 ≤ k → foldl Z.max m (seqZ (m + 1) k) = m + k.
Proof.
  intros Hk. revert m. pattern k. apply natlike_ind; [| |done]; clear k Hk.
  - intros m. rewrite seqZ_nil by lia. cbn. lia.
  - intros k Hk IH m. rewrite seqZ_cons by lia. cbn [foldl]. rewrite Z.max_r by lia.
    replace (Z.pred (Z.succ k)) with k by lia. replace (Z.succ (m + 1)) with (m + 1 + 1) by lia. rewrite IH. lia.
Qed.

Lemma holds_last_seq f rs : holds f rs → last_seq f = Ok (Z.of_nat (length rs)).
Proof.
  intros Hf. unfold last_seq. rewrite (holds_read f rs Hf). cbn [events].
  rewrite (seqs_numbered 1) by apply Hf. cbn [mbind res_bind app]. f_equal. destruct rs as [|r rs]; [done|].
  rewrite seqZ_cons by (cbn; lia). replace (Z.succ 1) with (1 + 1) by lia. rewrite max_seqZ; cbn; lia.
Qed.

Lemma foldl_dict_set_fresh (base fields : list (string * pyval)) :
  dict_wf (base ++ fields) → foldl (λ r p, dict_set r p.1 p.2) base fields = base ++ fields.
Proof.
  revert base. induction fields as [|[k v] fields IH]; intros base Hwf; cbn [foldl]; [by rewrite app_nil_r|].
  cbn [fst snd]. rewrite dict_set_fresh.
  - rewrite IH; [by rewrite <-(assoc_L (++))|]. by rewrite <-(assoc_L (++)).
  - apply dict_get_None_keys. unfold dict_wf in Hwf. rewrite fmap_app in Hwf.
    apply NoDup_app in Hwf as (_ & Hd & _). intros Hk. apply (Hd _ Hk). cbn. by left.
Qed.

Lemma new_record_good w e :
  valid e → nonempty (jw_run_id w) = true → 0 ≤ jw_seq w → jw_seq w + 1 < INT_LIMIT →
  good (new_record w (en_kind e) (en_fields e) (en_now e)) (jw_seq w + 1).
Proof.
  intros [Hk Hp Hres] Hid Hs Hl. apply printable_dict in Hp as [Hwf Hp]. unfold new_record.
  set (base := [_; _; _; _; _]). rewrite Forall_forall in Hres.
  assert (dict_wf (base ++ en_fields e)) as Hb.
  { unfold dict_wf. rewrite fmap_app. apply NoDup_app. split_and!; [|intros k Hin|done].
    - apply (bool_decide_unpack _). vm_compute. exact I.
    - apply Hres. change (base.*1) with ["schema_version"; "seq"; "run_id"; "kind"; "at"] in Hin. exact Hin. }
  rewrite foldl_dict_set_fresh by done. split; try done.
  - apply printable_dict. split; [done|]. apply Forall_app. split; [|done]. unfold base.
    repeat (apply Forall_cons; split; [cbn [fst snd printable]|]); [..|done]; try reflexivity.
    apply Z.ltb_lt. lia.
  - by exists (en_kind e).
  - by exists (jw_run_id w).
  - lia.
Qed.

Lemma append_holds w f e rs :
  holds f rs → f ≠ Absent → valid e → nonempty (jw_run_id w) = true → jw_open w = true →
  jw_seq w = Z.of_nat (length rs) → jw_seq w + 1 < INT_LIMIT → ∀ o,
  let r := new_record w (en_kind e) (en_fields e) (en_now e) in
  append repr w f (en_kind e) (en_fields e) (en_now e) o =
    (match wo_error o with Some strerror => Raise (Exn "OSError" strerror) | None => Ok r end,
     {| jw_run_id := jw_run_id w; jw_open := true; jw_seq := jw_seq w + 1 |},
     Bytes (text rs +:+ str_take (wo_taken o) (record_line r))) ∧
  numbered 1 (rs ++ [r]).
Proof.
  intros [Hn Hf] Ha Hv Hid Ho Hs Hl o r. split.
  - unfold append. rewrite bool_decide_eq_true_2 by apply Hv. cbn [negb].
    assert (List.filter (λ k, dict_has (en_fields e) k) RESERVED_FIELDS = []) as ->.
    { pose proof (valid_fields _ Hv) as Hr. induction Hr as [|k l Hk Hl' IH]; [done|]. cbn [List.filter].
      unfold dict_has. by rewrite (proj2 (dict_get_None_keys (en_fields e) k) Hk). }
    rewrite bool_decide_eq_true_2 by done. cbn [negb]. rewrite Ho. cbn [negb].
    destruct Hf as [->|[-> _]]; [|done]. done.
  - apply numbered_snoc. split; [done|]. replace (1 + Z.of_nat (length rs)) with (jw_seq w + 1) by lia.
    apply new_record_good; try done. lia.
Qed.

(** What a record says of its run and its kind. *)
Definition said (r : list (string * pyval)) : pyval * pyval := (get r "run_id", get r "kind").

Lemma new_record_said w kind fields now :
  Forall (λ k, k ∉ fields.*1) RESERVED_FIELDS → said (new_record w kind fields now) = (VStr (jw_run_id w), VStr kind).
Proof.
  intros Hf. unfold said, new_record. set (base := [_; _; _; _; _]).
  assert (∀ k b, k ∈ RESERVED_FIELDS → dict_get (foldl (λ r p, dict_set r p.1 p.2) b fields) k = dict_get b k) as Hget.
  { intros k b Hk. rewrite Forall_forall in Hf. specialize (Hf k Hk). revert b.
    induction fields as [|[k' v] fields IH]; intros b; [done|]. cbn in Hf. apply not_elem_of_cons in Hf as [Hne Hf].
    cbn [foldl]. rewrite IH by done. cbn. rewrite dict_get_set_ne; [done|congruence]. }
  unfold get. by rewrite !Hget by (apply (bool_decide_unpack _); vm_compute; exact I).
Qed.

Lemma write_all_holds es : ∀ w f rs,
  holds f rs → f ≠ Absent → Forall valid es → nonempty (jw_run_id w) = true → jw_open w = true →
  jw_seq w = Z.of_nat (length rs) → jw_seq w + Z.of_nat (length es) < INT_LIMIT →
  ∃ rs' f', write_all w f es =
      Ok (rs', {| jw_run_id := jw_run_id w; jw_open := true; jw_seq := jw_seq w + Z.of_nat (length es) |}, f') ∧
    holds f' (rs ++ rs') ∧ f' ≠ Absent ∧ length rs' = length es ∧
    map said rs' = map (λ e, (VStr (jw_run_id w), VStr (en_kind e))) es.
Proof.
  induction es as [|e es IH]; intros w f rs Hf Ha Hes Hid Ho Hs Hl.
  { exists [], f. rewrite app_nil_r. split_and!; try done. cbn. rewrite Z.add_0_r. destruct w. cbn in *. by subst. }
  apply Forall_cons in Hes as [He Hes]. cbn [length] in Hl. cbn [write_all].
  destruct (append_holds w f e rs Hf Ha He Hid Ho Hs ltac:(lia)
    {| wo_taken := String.length (record_line (new_record w (en_kind e) (en_fields e) (en_now e))); wo_error := None |})
    as [-> Hn].
  cbn [wo_error wo_taken]. rewrite str_take_id by done. set (r := new_record w _ _ _) in *.
  assert (holds (Bytes (text rs +:+ record_line r)) (rs ++ [r])) as Hf'.
  { split; [done|]. left. by rewrite text_snoc. }
  destruct (IH {| jw_run_id := jw_run_id w; jw_open := true; jw_seq := jw_seq w + 1 |} _ _ Hf')
    as (rs' & f' & E & Hh & Ha' & Hlen & Hsaid); try done; [cbn; rewrite length_app; cbn; lia|cbn; lia|].
  rewrite E. cbn [mbind res_bind jw_seq jw_run_id] in *. exists (r :: rs'), f'. split_and!.
  - cbn. do 3 f_equal. f_equal. lia.
  - by rewrite <-(assoc_L (++)) in Hh.
  - done.
  - cbn. by rewrite Hlen.
  - cbn [map]. rewrite Hsaid. f_equal. apply new_record_said, (valid_fields _ He).
Qed.

Lemma open_holds f rs id : holds f rs → nonempty id = true →
  ∃ f', (w ← new_writer id; open_writer w f)
    = Ok ({| jw_run_id := id; jw_open := true; jw_seq := Z.of_nat (length rs) |}, f') ∧ holds f' rs ∧ f' ≠ Absent.
Proof.
  intros Hf Hid. unfold new_writer. rewrite Hid. cbn. unfold open_writer. rewrite (holds_last_seq f rs Hf). cbn.
  destruct Hf as [Hn [->|[-> ->]]]; eexists; (split_and!; [done| |done]); split; auto.
Qed.

Lemma session_holds f rs id es :
  holds f rs → nonempty id = true → Forall valid es → Z.of_nat (length rs + length es) < INT_LIMIT →
  ∃ rs' f', session id es f = Ok (rs', f') ∧ holds f' (rs ++ rs') ∧ length rs' = length es ∧
    map said rs' = map (λ e, (VStr id, VStr (en_kind e))) es.
Proof.
  intros Hf Hid Hes Hl. unfold session. destruct (open_holds f rs id Hf Hid) as (f1 & E & Hf1 & Ha).
  destruct (new_writer id) as [w|]; [|done]. cbn [mbind res_bind] in E |- *. rewrite E.
  destruct (write_all_holds es {| jw_run_id := id; jw_open := true; jw_seq := Z.of_nat (length rs) |} f1 rs Hf1 Ha Hes
    Hid eq_refl eq_refl ltac:(cbn; lia)) as (rs' & f' & E' & Hh & _ & H1 & H2).
  exists rs', f'. cbn [mbind res_bind]. by rewrite E'.
Qed.

Definition valid_session (s : string * list Entry) : Prop := nonempty s.1 = true ∧ Forall valid s.2.
Definition entries (l : list (string * list Entry)) : nat := sum_list_with (λ s, length s.2) l.

Lemma sessions_holds l : ∀ f rs,
  holds f rs → Forall valid_session l → Z.of_nat (length rs + entries l) < INT_LIMIT →
  ∃ rs' f', sessions l f = Ok (rs', f') ∧ holds f' (rs ++ rs') ∧ length rs' = entries l ∧
    map said rs' = flat_map (λ s, map (λ e, (VStr s.1, VStr (en_kind e))) s.2) l.
Proof.
  induction l as [|[id es] l IH]; intros f rs Hf Hl Hn.
  { exists [], f. by rewrite app_nil_r. }
  apply Forall_cons in Hl as [[Hid Hes] Hl]. cbn [fst snd] in *. unfold entries in *. cbn in Hn.
  destruct (session_holds f rs id es Hf Hid Hes ltac:(lia)) as (r1 & f1 & E1 & Hf1 & Hl1 & Hs1).
  destruct (IH f1 (rs ++ r1) Hf1 Hl) as (r2 & f2 & E2 & Hf2 & Hl2 & Hs2); [rewrite length_app; lia|].
  exists (r1 ++ r2), f2. cbn [sessions]. rewrite E1. cbn [mbind res_bind]. rewrite E2. split_and!; [done| | |].
  - by rewrite (assoc_L (++)).
  - rewrite length_app. cbn. lia.
  - rewrite map_app, Hs1, Hs2. done.
Qed.

(** C6. What the supervisors of a run directory appended is what a reader finds,
    as long as the file took every line whole: over any number of sessions of
    complete appends, each taking over the file the last one left, the full read
    returns every record in the order it was written, numbered from one without
    a gap, with its own run id and kind, and reports nothing torn, malformed or
    out of order.  An append cut short is the subject of
    [torn_append_is_contained]. *)
Theorem journal_reads_back l :
  Forall valid_session l → Z.of_nat (entries l) < INT_LIMIT →
  ∃ rs f, sessions l Absent = Ok (rs, f) ∧
    map said rs = flat_map (λ s, map (λ e, (VStr s.1, VStr (en_kind e))) s.2) l ∧
    (∀ i r, rs !! i = Some r → get r "seq" = VInt (Z.of_nat i + 1)) ∧
    read_events f = Ok {| events := map sorted_items rs; truncated_tail := false; malformed := 0; ordered := true;
                          partial_head := false |}.
Proof.
  intros Hl Hn. destruct (sessions_holds l Absent []) as (rs & f & E & Hf & _ & Hs); [split; [done|by right]|done|done|].
  cbn [app] in Hf. exists rs, f. split_and!; try done; [|by apply holds_read].
  destruct Hf as [Hnum _]. clear -Hnum. intros i r Hi. replace (Z.of_nat i + 1) with (1 + Z.of_nat i) by lia.
  revert i Hi. generalize dependent 1. induction rs as [|r' rs IH]; intros n Hnum i Hi; [done|].
  destruct Hnum as [Hg Hnum]. destruct i as [|i]; cbn in Hi.
  - injection Hi as ->. unfold get. rewrite (good_seq _ _ Hg). cbn. f_equal. lia.
  - rewrite (IH _ Hnum i Hi). f_equal. lia.
Qed.

(** Bytes that continue a torn line and then end it: the records before stay,
    the joined line is read as one, and what follows is read as it would be in a
    file of its own. *)
Lemma read_after_torn rs torn first rest :
  numbered 1 rs → one_line torn = true → one_line first = true →
  events (parsed (text rs +:+ (torn +:+ (first +:+ String newline rest))) false)
  = map sorted_items rs ++ line_events [torn +:+ first] ++ events (parsed rest false).
Proof.
  intros Hn Ht Hf. destruct (parsed_lines (text rs +:+ (torn +:+ (first +:+ String newline rest))) false) as (-> & _).
  destruct (parsed_lines rest false) as (-> & _). rewrite complete_text, line_events_app.
  destruct (events_numbered 1 rs Hn) as [-> _]. f_equal. rewrite <-str_app_assoc. unfold complete_lines.
  rewrite str_split_app by (unfold one_line in *; by rewrite str_all_app, Ht, Hf).
  rewrite removelast_cons by apply str_split_nonnil. by rewrite <-line_events_app.
Qed.

(** The bytes of a line of which less than all was taken hold no newline. *)
Lemma torn_one_line r taken :
  (taken < String.length (record_line r))%nat →
  str_take taken (record_line r) = str_take taken (dumps r) ∧ one_line (str_take taken (dumps r)) = true ∧
  nonempty (str_take taken (dumps r)) = bool_decide (taken ≠ 0%nat).
Proof.
  unfold record_line. rewrite str_length_app. cbn [String.length]. intros Ht. split_and!.
  - by rewrite str_take_app_le by lia.
  - pose proof (dumps_one_line r) as Ho. unfold one_line in *.
    rewrite <-(str_take_drop taken (dumps r)), str_all_app in Ho. by apply andb_true_iff in Ho as [? _].
  - destruct taken as [|n]; [done|]. rewrite bool_decide_eq_true_2 by done.
    pose proof (dumps_braced r). by destruct (dumps r).
Qed.

(** C34. What a supervisor killed in the middle of an append can cost.  Whatever
    part of the line reached the file, a reader that comes before the next
    append finds all the records before it, reports a torn tail exactly when
    some byte of it is there, and counts nothing as malformed.  And whatever is
    appended later, those records stay the first ones read, the torn bytes are
    judged as one line together with the bytes up to the next newline (so the
    line written next is the only other one they can cost), and everything
    behind that newline is read as in a file of its own. *)
Theorem torn_append_is_contained l id es e taken error :
  Forall valid_session (l ++ [(id, es)]) → valid e → Z.of_nat (entries l + length es) + 1 < INT_LIMIT →
  ∃ rs f w f1 rs' w' f2 line,
    sessions l Absent = Ok (rs, f) ∧ (w ← new_writer id; open_writer w f) = Ok (w, f1) ∧
    write_all w f1 es = Ok (rs', w', f2) ∧
    line = record_line (new_record w' (en_kind e) (en_fields e) (en_now e)) ∧
    ((taken < String.length line)%nat →
     let '(_, _, f3) := append repr w' f2 (en_kind e) (en_fields e) (en_now e)
                          {| wo_taken := taken; wo_error := error |} in
     read_events f3 = Ok {| events := map sorted_items (rs ++ rs'); truncated_tail := bool_decide (taken ≠ 0%nat);
                            malformed := 0; ordered := true; partial_head := false |} ∧
     ∀ first rest, one_line first = true → ∃ found alone,
       read_events (file_append f3 (first +:+ String newline rest)) = Ok found ∧ read_events (Bytes rest) = Ok alone ∧
       events found = map sorted_items (rs ++ rs') ++ line_events [str_take taken line +:+ first] ++ events alone).
Proof.
  intros Hl He Hn. apply Forall_app in Hl as [Hl Hes]. rewrite Forall_singleton in Hes. destruct Hes as [Hid Hes].
  destruct (sessions_holds l Absent []) as (rs & f & E & Hf & Hlen & _); [split; [done|by right]|done|cbn; lia|].
  cbn [app] in Hf. destruct (open_holds f rs id Hf Hid) as (f1 & E1 & Hf1 & Ha).
  destruct (write_all_holds es {| jw_run_id := id; jw_open := true; jw_seq := Z.of_nat (length rs) |} f1 rs Hf1 Ha Hes
    Hid eq_refl eq_refl ltac:(cbn; lia)) as (rs' & f2 & E2 & Hf2 & Ha2 & Hlen2 & _).
  eexists rs, f, _, f1, rs', _, f2, _. split_and!; [done..|]. intros Ht. cbn [jw_run_id jw_seq] in *.
  set (w' := {| jw_run_id := id; jw_open := true; jw_seq := Z.of_nat (length rs) + Z.of_nat (length es) |}) in *.
  destruct (append_holds w' f2 e (rs ++ rs') Hf2 Ha2 He Hid eq_refl ltac:(cbn; rewrite length_app; lia)
    ltac:(cbn; lia) {| wo_taken := taken; wo_error := error |}) as [-> _]. cbn [wo_taken].
  set (r := new_record _ _ _ _) in *. destruct (torn_one_line r taken Ht) as (-> & Ho & Hne). split.
  - by rewrite read_torn, Hne by (done || apply Hf2).
  - intros first rest Hfirst. do 2 eexists. split; [done|]. split; [done|]. rewrite str_app_assoc.
    apply read_after_torn; [apply Hf2|done..].
Qed.
End journal_facts.
