(* ===== verification/Screen.v ===== *)
(** * The text screen that judges a head's progress
      (runtime/head/local_pty/screen.py)

    A bounded grid of text cells fed by a pty's bytes: cursor placement, erasure
    and scrolling, the parser of escape sequences, and the incremental UTF-8
    decoder in front of it.  A cell is a list of code points: a blank is one
    space, the second half of a wide character is empty.  List indexing raises
    as Python's does.  What the Unicode database says of a character is the
    class [Unicode]. *)

From S2P Require Import Prelude PyText.

Definition MAX_ROWS : Z := 120.
Definition MAX_COLS : Z := 240.
Definition CSI_PARAMETER_MAX : Z := 64.
Definition COMBINING_MAX : Z := 8.

(** [unicodedata.combining], [east_asian_width(c) in "WF"], [str.isprintable] and
    [str.isspace]; a space is narrow. *)
Class Unicode := {
  combining : Z → bool; wide : Z → bool; isprintable : Z → bool; isspace : Z → bool;
  wide_space : wide 32 = false;
}.

(** [_size]: of a value that [int()] may refuse. *)
Definition size_of (value : pyval) (limit : Z) : Z :=
  match py_int value with Ok n => Z.min (Z.max n 1) limit | Raise _ => 1 end.

(** ** Python's list indexing *)

Definition IndexError : exn := Exn "IndexError" "list index out of range".

(** The position an index names: a negative one counts from the end. *)
Definition py_pos {A} (l : list A) (i : Z) : res nat :=
  let n := Z.of_nat (length l) in
  if (0 <=? i) && (i <? n) then Ok (Z.to_nat i)
  else if (- n <=? i) && (i <? 0) then Ok (Z.to_nat (n + i))
  else Raise IndexError.

Definition py_nth {A} (l : list A) (i : Z) : res A :=
  p ← py_pos l i; match l !! p with Some x => Ok x | None => Raise IndexError end.

Definition py_set {A} (l : list A) (i : Z) (x : A) : res (list A) := p ← py_pos l i; Ok (<[p := x]> l).

(** [l.pop(i)], the popped item discarded. *)
Definition py_pop {A} (l : list A) (i : Z) : res (list A) := p ← py_pos l i; Ok (delete p l).

(** [l.insert(i, x)] for a non-negative index. *)
Definition py_insert {A} (l : list A) (i : Z) (x : A) : list A := take (Z.to_nat i) l ++ x :: drop (Z.to_nat i) l.

(** ** One buffer *)

Notation cell := (list Z) (only parsing).

Definition blank_cell : cell := [32].
Definition blank_row (cols : Z) : list cell := replicate (Z.to_nat cols) blank_cell.

Record Buffer := {
  b_rows : Z; b_cols : Z; b_cells : list (list (list Z)); b_row : Z; b_col : Z; b_scroll_top : Z; b_scroll_bottom : Z;
  b_wrap_next : bool; b_saved : Z * Z;
}.

#[global] Instance Buffer_settable : Settable Buffer := λ b, {|
  b_rows := b_rows b; b_cols := b_cols b; b_cells := b_cells b; b_row := b_row b; b_col := b_col b;
  b_scroll_top := b_scroll_top b; b_scroll_bottom := b_scroll_bottom b; b_wrap_next := b_wrap_next b;
  b_saved := b_saved b |}.

(** [_Buffer.__init__]. *)
Definition new_buffer (rows cols : Z) : Buffer := {|
  b_rows := rows; b_cols := cols; b_cells := replicate (Z.to_nat rows) (blank_row cols); b_row := 0; b_col := 0;
  b_scroll_top := 0; b_scroll_bottom := rows - 1; b_wrap_next := false; b_saved := (0, 0) |}.

(** [_Buffer.resize]. *)
Definition kept_row (old_cols cols : Z) (row : list (list Z)) : list (list Z) :=
  let keep := Z.to_nat (Z.min cols old_cols) in take keep row ++ drop keep (blank_row cols).

Definition buffer_resize (b : Buffer) (rows cols : Z) : Buffer :=
  let keep := Z.to_nat (Z.min rows (b_rows b)) in
  {| b_rows := rows; b_cols := cols;
     b_cells := map (kept_row (b_cols b) cols) (take keep (b_cells b))
                ++ replicate (Z.to_nat rows - keep) (blank_row cols);
     b_row := Z.min (b_row b) (rows - 1); b_col := Z.min (b_col b) (cols - 1);
     b_scroll_top := 0; b_scroll_bottom := rows - 1; b_wrap_next := false;
     b_saved := (Z.min (b_saved b).1 (rows - 1), Z.min (b_saved b).2 (cols - 1)) |}.

Definition linefeed (b : Buffer) : res Buffer :=
  let b := b <| b_wrap_next := false |> in
  if (b_scroll_top b <=? b_row b) && (b_row b <=? b_scroll_bottom b) && (b_row b =? b_scroll_bottom b) then
    cells ← py_pop (b_cells b) (b_scroll_top b);
    Ok (b <| b_cells := py_insert cells (b_scroll_bottom b) (blank_row (b_cols b)) |>)
  else Ok (b <| b_row := Z.min (b_row b + 1) (b_rows b - 1) |>).

Definition carriage_return (b : Buffer) : Buffer := b <| b_col := 0 |> <| b_wrap_next := false |>.

Definition backspace (b : Buffer) : Buffer := b <| b_col := Z.max 0 (b_col b - 1) |> <| b_wrap_next := false |>.

Definition tab (b : Buffer) : Buffer :=
  b <| b_col := Z.min ((b_col b / 8 + 1) * 8) (b_cols b - 1) |> <| b_wrap_next := false |>.

(** [_clear_cell], on the row it indexes. *)
Definition clear_in_row (cols : Z) (cells : list (list Z)) (col : Z) : res (list (list Z)) :=
  here ← py_nth cells col;
  cells ← (if bool_decide (here = []) && negb (col =? 0) then py_set cells (col - 1) blank_cell
           else if col + 1 <? cols then
             right ← py_nth cells (col + 1);
             if bool_decide (right = []) then py_set cells (col + 1) blank_cell else Ok cells
           else Ok cells);
  py_set cells col blank_cell.

(** Rewrite the row [row] in place. *)
Definition on_row (b : Buffer) (row : Z) (f : list (list Z) → res (list (list Z))) : res Buffer :=
  cells ← py_nth (b_cells b) row; cells ← f cells; all ← py_set (b_cells b) row cells; Ok (b <| b_cells := all |>).

Definition clear_cell (b : Buffer) (row col : Z) : res Buffer :=
  on_row b row (λ cells, clear_in_row (b_cols b) cells col).

Definition set_cell (b : Buffer) (row col : Z) (c : list Z) : res Buffer :=
  on_row b row (λ cells, py_set cells col c).

Definition move (b : Buffer) (row col : option Z) : Buffer :=
  let b := match row with Some r => b <| b_row := Z.min (Z.max r 0) (b_rows b - 1) |> | None => b end in
  let b := match col with Some c => b <| b_col := Z.min (Z.max c 0) (b_cols b - 1) |> | None => b end in
  b <| b_wrap_next := false |>.

(** The integers of [range(start, stop)]. *)
Definition range (start stop : Z) : list Z := seqZ start (stop - start).

Definition erase_line (b : Buffer) (mode : Z) : res Buffer :=
  let clear start stop := foldM (λ b col, clear_cell b (b_row b) col) b (range start stop) in
  if mode =? 0 then clear (b_col b) (b_cols b)
  else if mode =? 1 then clear 0 (b_col b + 1)
  else if mode =? 2 then clear 0 (b_cols b)
  else Ok b.

Definition erase_rows (b : Buffer) (rows : list Z) : res Buffer :=
  foldM (λ b row, all ← py_set (b_cells b) row (blank_row (b_cols b)); Ok (b <| b_cells := all |>)) b rows.

Definition erase_display (b : Buffer) (mode : Z) : res Buffer :=
  if (mode =? 2) || (mode =? 3) then erase_rows b (range 0 (b_rows b))
  else if mode =? 0 then b ← erase_line b 0; erase_rows b (range (b_row b + 1) (b_rows b))
  else if mode =? 1 then b ← erase_line b 1; erase_rows b (range 0 (b_row b))
  else Ok b.

Section unicode.
Context `{Unicode}.

Definition put_combining (b : Buffer) (char : Z) : res Buffer :=
  let previous := if b_wrap_next b then b_col b else b_col b - 1 in
  if 0 <=? previous then
    cells ← py_nth (b_cells b) (b_row b);
    c ← py_nth cells previous;
    if bool_decide (c ≠ []) && bool_decide (c ≠ blank_cell) && (Z.of_nat (length c) <? COMBINING_MAX)
    then set_cell b (b_row b) previous (c ++ [char])
    else Ok b
  else Ok b.

(** The cell or the two cells a placed character takes, and the cursor after it. *)
Definition place (b : Buffer) (char : Z) (width : Z) : res Buffer :=
  b ← clear_cell b (b_row b) (b_col b);
  b ← (if width =? 2 then clear_cell b (b_row b) (b_col b + 1) else Ok b);
  b ← set_cell b (b_row b) (b_col b) [char];
  b ← (if width =? 2 then set_cell b (b_row b) (b_col b + 1) [] else Ok b);
  let col := b_col b + width in
  Ok (if b_cols b <=? col then b <| b_col := b_cols b - 1 |> <| b_wrap_next := true |> else b <| b_col := col |>).

Definition put (b : Buffer) (char : Z) : res Buffer :=
  if combining char then put_combining b char
  else
    let width := if wide char then 2 else 1 in
    b ← (if b_wrap_next b || (width =? 2) && (b_col b =? b_cols b - 1)
         then b ← linefeed b; Ok (carriage_return b) else Ok b);
    if (width =? 2) && (b_cols b =? 1) then Ok b else place b char width.

(** ** The incremental UTF-8 decoder with errors ignored *)

(** The byte [b] may follow the bytes [pending] of an unfinished sequence. *)
Definition continues (pending : list Z) (b : Z) : bool :=
  match pending with
  | [224] => (160 <=? b) && (b <=? 191)
  | [237] => (128 <=? b) && (b <=? 159)
  | [240] => (144 <=? b) && (b <=? 191)
  | [244] => (128 <=? b) && (b <=? 143)
  | [] => false
  | _ => (128 <=? b) && (b <=? 191)
  end.

(** The length of the sequence a leading byte opens; 0 for a byte that opens none. *)
Definition sequence_length (lead : Z) : Z :=
  if (194 <=? lead) && (lead <=? 223) then 2
  else if (224 <=? lead) && (lead <=? 239) then 3
  else if (240 <=? lead) && (lead <=? 244) then 4 else 0.

Definition code_point (bytes : list Z) : Z :=
  match bytes with
  | [a; b] => (a - 192) * 64 + (b - 128)
  | [a; b; c] => ((a - 224) * 64 + (b - 128)) * 64 + (c - 128)
  | [a; b; c; d] => (((a - 240) * 64 + (b - 128)) * 64 + (c - 128)) * 64 + (d - 128)
  | _ => 0
  end.

(** [decoder.decode(bytes((b,)))]: the characters decoded and what is pending. *)
Definition decode_byte (pending : list Z) (b : Z) : list Z * list Z :=
  if continues pending b then
    let bytes := pending ++ [b] in
    if Z.of_nat (length bytes) =? sequence_length (default 0 (head bytes)) then ([code_point bytes], [])
    else ([], bytes)
  else if b <? 128 then ([b], [])
  else if sequence_length b =? 0 then ([], []) else ([], [b]).

(** ** The screen *)

Inductive ParserState := Ground | Esc | EscIntermediate | Csi | StringState | StringEsc.

Record Screen := {
  s_rows : Z; s_cols : Z; s_main : Buffer; s_alternate : Buffer; s_alternate_active : bool; s_state : ParserState;
  s_parameters : list Z; s_pending : list Z;
}.

#[global] Instance Screen_settable : Settable Screen := λ s, {|
  s_rows := s_rows s; s_cols := s_cols s; s_main := s_main s; s_alternate := s_alternate s;
  s_alternate_active := s_alternate_active s; s_state := s_state s; s_parameters := s_parameters s;
  s_pending := s_pending s |}.

Definition new_screen (rows cols : pyval) : Screen :=
  let rows := size_of rows MAX_ROWS in
  let cols := size_of cols MAX_COLS in
  {| s_rows := rows; s_cols := cols; s_main := new_buffer rows cols; s_alternate := new_buffer rows cols;
     s_alternate_active := false; s_state := Ground; s_parameters := []; s_pending := [] |}.

Definition the_buffer (s : Screen) : Buffer := if s_alternate_active s then s_alternate s else s_main s.

Definition with_buffer (s : Screen) (b : Buffer) : Screen :=
  if s_alternate_active s then s <| s_alternate := b |> else s <| s_main := b |>.

Definition screen_resize (s : Screen) (rows cols : pyval) : Screen :=
  let rows := size_of rows MAX_ROWS in
  let cols := size_of cols MAX_COLS in
  s <| s_rows := rows |> <| s_cols := cols |> <| s_main := buffer_resize (s_main s) rows cols |>
    <| s_alternate := buffer_resize (s_alternate s) rows cols |>.

(** [int(item) if item.isdigit() else 0] of parameter bytes. *)
Definition is_digit_byte (b : Z) : bool := (48 <=? b) && (b <=? 57).

Definition parameter_value (item : list Z) : Z :=
  match item with
  | [] => 0
  | _ => if forallb is_digit_byte item then foldl (λ n b, n * 10 + (b - 48)) 0 item else 0
  end.

(** [raw.split(";")]. *)
Fixpoint split_at (sep : Z) (l : list Z) : list (list Z) :=
  match l with
  | [] => [[]]
  | b :: l' =>
      if b =? sep then [] :: split_at sep l'
      else match split_at sep l' with w :: ws => (b :: w) :: ws | [] => [[b]] end
  end.

(** The region of [CSI r]. *)
Definition set_scroll (b : Buffer) (count : Z) (values : list Z) : Buffer :=
  let top := count - 1 in
  let bottom := (match values with _ :: v :: _ => if v =? 0 then b_rows b else v | _ => b_rows b end) - 1 in
  let b := if (0 <=? top) && (top <? bottom) && (bottom <? b_rows b)
           then b <| b_scroll_top := top |> <| b_scroll_bottom := bottom |>
           else b <| b_scroll_top := 0 |> <| b_scroll_bottom := b_rows b - 1 |> in
  move b (Some 0) (Some 0).

(** The final byte of a sequence without a private marker, on the active buffer. *)
Definition control_buffer (b : Buffer) (final : Z) (values : list Z) : res Buffer :=
  let first := default 0 (head values) in
  let count := Z.max 1 first in
  if final =? 65 then Ok (move b (Some (b_row b - count)) None)
  else if final =? 66 then Ok (move b (Some (b_row b + count)) None)
  else if final =? 67 then Ok (move b None (Some (b_col b + count)))
  else if final =? 68 then Ok (move b None (Some (b_col b - count)))
  else if final =? 69 then Ok (move b (Some (b_row b + count)) (Some 0))
  else if final =? 70 then Ok (move b (Some (b_row b - count)) (Some 0))
  else if final =? 71 then Ok (move b None (Some (count - 1)))
  else if (final =? 72) || (final =? 102) then
    Ok (move b (Some (count - 1)) (Some ((match values with _ :: v :: _ => Z.max 1 v | _ => 1 end) - 1)))
  else if final =? 100 then Ok (move b (Some (count - 1)) None)
  else if final =? 74 then erase_display b first
  else if final =? 75 then erase_line b first
  else if final =? 114 then Ok (set_scroll b count values)
  else Ok b.

(** [_control]. *)
Definition control (s : Screen) (final : Z) : res Screen :=
  let raw := s_parameters s in
  let private := match raw with b :: _ => b =? 63 | [] => false end in
  let raw := if private then tl raw else raw in
  let values := map parameter_value (take 8 (split_at 59 raw)) in
  if private then
    if ((final =? 104) || (final =? 108)) && existsb (λ v, (v =? 47) || (v =? 1049)) values then
      if final =? 104 then
        let s := if existsb (λ v, v =? 1049) values then s <| s_alternate := new_buffer (s_rows s) (s_cols s) |> else s in
        Ok (s <| s_alternate_active := true |>)
      else Ok (s <| s_alternate_active := false |>)
    else Ok s
  else b ← control_buffer (the_buffer s) final values; Ok (with_buffer s b).

(** [_ground]. *)
Definition ground (s : Screen) (byte : Z) : res Screen :=
  let quiet := s <| s_pending := [] |> in
  let decoding := match s_pending s with [] => false | _ => true end in
  if byte =? 27 then Ok (quiet <| s_state := Esc |>)
  else if (byte =? 155) && negb decoding then Ok (s <| s_state := Csi |> <| s_parameters := [] |>)
  else if bool_decide (byte ∈ [144; 152; 157; 158; 159]) && negb decoding then Ok (s <| s_state := StringState |>)
  else if byte =? 13 then Ok (with_buffer quiet (carriage_return (the_buffer s)))
  else if (byte =? 10) || (byte =? 11) || (byte =? 12) then
    b ← linefeed (the_buffer s); Ok (with_buffer quiet b)
  else if byte =? 8 then Ok (with_buffer quiet (backspace (the_buffer s)))
  else if byte =? 9 then Ok (with_buffer quiet (tab (the_buffer s)))
  else if (byte <? 32) || (byte =? 127) then Ok quiet
  else
    let '(chars, pending) := decode_byte (s_pending s) byte in
    b ← foldM (λ b char, if isprintable char then put b char else Ok b) (the_buffer s) chars;
    Ok (with_buffer (s <| s_pending := pending |>) b).

(** One byte of [feed]. *)
Definition feed_byte (s : Screen) (byte : Z) : res Screen :=
  match s_state s with
  | Ground => ground s byte
  | Esc =>
      if byte =? 91 then Ok (s <| s_state := Csi |> <| s_parameters := [] |>)
      else if bool_decide (byte ∈ [93; 80; 94; 95; 88]) then Ok (s <| s_state := StringState |>)
      else if bool_decide (byte ∈ [40; 41; 42; 43; 45; 46; 47; 35; 37]) then Ok (s <| s_state := EscIntermediate |>)
      else
        let s := s <| s_state := Ground |> in
        let b := the_buffer s in
        if byte =? 55 then Ok (with_buffer s (b <| b_saved := (b_row b, b_col b) |>))
        else if byte =? 56 then Ok (with_buffer s (move b (Some (b_saved b).1) (Some (b_saved b).2)))
        else Ok s
  | EscIntermediate =>
      if (48 <=? byte) && (byte <=? 126) then Ok (s <| s_state := Ground |>)
      else if byte =? 27 then Ok (s <| s_state := Esc |>) else Ok s
  | Csi =>
      if (64 <=? byte) && (byte <=? 126) then s ← control s byte; Ok (s <| s_state := Ground |>)
      else if (32 <=? byte) && (byte <=? 63) then
        Ok (if Z.of_nat (length (s_parameters s)) <? CSI_PARAMETER_MAX
            then s <| s_parameters := s_parameters s ++ [byte] |> else s)
      else if byte =? 27 then Ok (s <| s_state := Esc |>) else Ok (s <| s_state := Ground |>)
  | StringState =>
      if byte =? 7 then Ok (s <| s_state := Ground |>)
      else if byte =? 27 then Ok (s <| s_state := StringEsc |>) else Ok s
  | StringEsc =>
      if (byte =? 92) || (byte =? 7) then Ok (s <| s_state := Ground |>)
      else if negb (byte =? 27) then Ok (s <| s_state := StringState |>) else Ok s
  end.

Definition byte_values (data : string) : list Z :=
  map (λ c, Z.of_nat (Ascii.nat_of_ascii c)) (String.list_ascii_of_string data).

Definition feed (s : Screen) (data : string) : res Screen := foldM feed_byte s (byte_values data).

(** [line.rstrip()]. *)
Fixpoint drop_while (p : Z → bool) (l : list Z) : list Z :=
  match l with x :: l' => if p x then drop_while p l' else l | [] => [] end.

Definition rstrip_points (l : list Z) : list Z := reverse (drop_while isspace (reverse l)).

Definition lines (s : Screen) : list (list Z) := map (λ row, rstrip_points (concat row)) (b_cells (the_buffer s)).
End unicode.
