(* ===== verification/ScreenFacts.v ===== *)
(** * The screen never fails and never grows

    From any size a caller asks for and any bytes a head writes, the screen
    stays a grid of its size with the cursor inside, no index is out of range,
    and no second half of a wide character is left without its first. *)

From S2P Require Import Prelude PyText Screen.

(** ** Rows *)

(** The second half of a wide character stands right after a first half. *)
Definition no_orphan (row : list (list Z)) : Prop :=
  ∀ i, row !! i = Some [] → ∃ j x, i = S j ∧ row !! j = Some x ∧ x ≠ [] ∧ x ≠ blank_cell.

Record wf_row (cols : Z) (row : list (list Z)) : Prop := {
  row_length : Z.of_nat (length row) = cols;
  row_cells : Forall (λ c : list Z, Z.of_nat (length c) ≤ COMBINING_MAX) row;
  row_orphans : no_orphan row;
}.

Lemma blank_row_wf cols : 0 ≤ cols → wf_row cols (blank_row cols).
Proof.
  intros Hc. split.
  - unfold blank_row. rewrite length_replicate. lia.
  - apply Forall_replicate. done.
  - intros i Hi. unfold blank_row in Hi. apply lookup_replicate in Hi as [[=] _].
Qed.

Lemma py_pos_in {A} (l : list A) i : 0 ≤ i < Z.of_nat (length l) → py_pos l i = Ok (Z.to_nat i).
Proof. intros Hi. unfold py_pos. rewrite (proj2 (Z.leb_le 0 i)), (proj2 (Z.ltb_lt i _)) by lia. done. Qed.

Lemma py_nth_in {A} (l : list A) i : 0 ≤ i < Z.of_nat (length l) →
  ∃ x, py_nth l i = Ok x ∧ l !! Z.to_nat i = Some x.
Proof.
  intros Hi. unfold py_nth. rewrite py_pos_in by done. cbn.
  destruct (lookup_lt_is_Some_2 l (Z.to_nat i)) as [x E]; [lia|]. exists x. by rewrite E.
Qed.

Lemma py_set_in {A} (l : list A) i x : 0 ≤ i < Z.of_nat (length l) → py_set l i x = Ok (<[Z.to_nat i := x]> l).
Proof. intros Hi. unfold py_set. by rewrite py_pos_in. Qed.

(** A non-empty cell may be written where no second half follows it. *)
Lemma no_orphan_write row i x :
  no_orphan row → x ≠ [] → row !! S i ≠ Some [] → no_orphan (<[i := x]> row).
Proof.
  intros Hr Hx Hn j Hj. destruct (decide (i = j)) as [->|Hij].
  - apply list_lookup_insert_Some in Hj as [(_ & E & _)|[? _]]; congruence.
  - rewrite list_lookup_insert_ne in Hj by done. destruct (Hr j Hj) as (k & y & -> & Hk & Hy).
    exists k, y. split; [done|]. rewrite list_lookup_insert_ne; [done|]. congruence.
Qed.

Lemma wf_row_write cols row i x :
  wf_row cols row → x ≠ [] → Z.of_nat (length x) ≤ COMBINING_MAX → row !! S i ≠ Some [] → wf_row cols (<[i := x]> row).
Proof.
  intros [Hl Hc Ho] Hx Hlen Hn. split.
  - by rewrite length_insert.
  - by apply Forall_insert.
  - by apply no_orphan_write.
Qed.

(** Clearing a cell clears the other half of a wide character with it. *)
Lemma clear_in_row_ok cols row col :
  wf_row cols row → 0 ≤ col < cols → ∃ row', clear_in_row cols row col = Ok row' ∧ wf_row cols row' ∧
    row' !! Z.to_nat col = Some blank_cell ∧ row' !! S (Z.to_nat col) ≠ Some [].
Proof.
  intros Hr Hc. pose proof (row_length _ _ Hr) as Hl. unfold clear_in_row.
  destruct (py_nth_in row col ltac:(lia)) as (here & -> & Hh). cbn [mbind res_bind].
  assert (∀ r : list (list Z), wf_row cols r → r !! S (Z.to_nat col) ≠ Some [] →
    ∃ row', py_set r col blank_cell = Ok row' ∧ wf_row cols row' ∧ row' !! Z.to_nat col = Some blank_cell ∧
      row' !! S (Z.to_nat col) ≠ Some []) as Hset.
  { intros r Hwf Hn. pose proof (row_length _ _ Hwf). eexists. rewrite py_set_in by lia. split_and!; [done| | |].
    - by apply wf_row_write.
    - apply list_lookup_insert_eq. lia.
    - rewrite list_lookup_insert_ne by lia. done. }
  destruct (bool_decide (here = []) && negb (col =? 0)) eqn:E.
  - boolify. subst here. rewrite py_set_in by lia. cbn [mbind res_bind].
    assert (row !! S (Z.to_nat col) ≠ Some []) as Hn.
    { intros Hn. destruct (row_orphans _ _ Hr _ Hn) as (j & x & [= <-] & Hj & Hx & _). congruence. }
    set (k := Z.to_nat (col - 1)). assert (Z.to_nat col = S k) as Hk by lia.
    (* the two halves are cleared one after the other; between the two writes the second is an orphan *)
    rewrite py_set_in by (rewrite length_insert; lia). eexists. split; [done|]. rewrite Hk in *. split_and!.
    + rewrite list_insert_insert_ne by lia. apply wf_row_write; try done; [apply wf_row_write; try done|].
      rewrite list_lookup_insert_eq; [done|lia].
    + apply list_lookup_insert_eq. rewrite length_insert. lia.
    + rewrite !list_lookup_insert_ne by lia. done.
  - destruct (col + 1 <? cols) eqn:Ec; boolify.
    + destruct (py_nth_in row (col + 1) ltac:(lia)) as (right & -> & Hright). cbn [mbind res_bind].
      replace (Z.to_nat (col + 1)) with (S (Z.to_nat col)) in Hright by lia.
      destruct (bool_decide (right = [])) eqn:Er; boolify.
      * subst right. rewrite py_set_in by lia. cbn [mbind res_bind].
        replace (Z.to_nat (col + 1)) with (S (Z.to_nat col)) by lia. apply Hset.
        -- apply wf_row_write; try done. intros Hn.
           destruct (row_orphans _ _ Hr _ Hn) as (j & x & [= <-] & Hj & Hx & _). congruence.
        -- rewrite list_lookup_insert_eq; [done|lia].
      * cbn [mbind res_bind]. apply Hset; [done|congruence].
    + cbn [mbind res_bind]. apply Hset; [done|]. rewrite lookup_ge_None_2; [done|lia].
Qed.

(** ** Buffers *)

Record wf_buffer (rows cols : Z) (b : Buffer) : Prop := {
  wb_rows : b_rows b = rows;
  wb_cols : b_cols b = cols;
  wb_size : 1 ≤ rows ≤ MAX_ROWS ∧ 1 ≤ cols ≤ MAX_COLS;
  wb_length : Z.of_nat (length (b_cells b)) = rows;
  wb_cells : Forall (wf_row cols) (b_cells b);
  wb_cursor : 0 ≤ b_row b < rows ∧ 0 ≤ b_col b < cols;
  wb_scroll : 0 ≤ b_scroll_top b ≤ b_scroll_bottom b ∧ b_scroll_bottom b < rows;
  wb_saved : 0 ≤ (b_saved b).1 < rows ∧ 0 ≤ (b_saved b).2 < cols;
}.

Create HintDb screen.

(** The operation returns, and keeps the buffer a grid of its size. *)
Definition safe (rows cols : Z) (m : res Buffer) : Prop := ∃ b, m = Ok b ∧ wf_buffer rows cols b.

Lemma safe_ret rows cols b : wf_buffer rows cols b → safe rows cols (Ok b).
Proof. by exists b. Qed.

Lemma safe_bind rows cols m k :
  safe rows cols m → (∀ b, wf_buffer rows cols b → safe rows cols (k b)) → safe rows cols (m ≫= k).
Proof. intros (b & -> & Hb) Hk. by apply Hk. Qed.

Lemma safe_foldM {A} rows cols (f : Buffer → A → res Buffer) (P : A → Prop) l :
  (∀ b a, wf_buffer rows cols b → P a → safe rows cols (f b a)) → Forall P l →
  ∀ b, wf_buffer rows cols b → safe rows cols (foldM f b l).
Proof.
  intros Hf. induction 1 as [|a l Ha Hl IH]; intros b Hb; cbn [foldM]; [by apply safe_ret|].
  apply safe_bind; [by apply Hf|]. done.
Qed.

(** Split a well-formedness goal after a change of some fields. *)
Ltac wf_fields H :=
  destruct H; split; cbn [update b_rows b_cols b_cells b_row b_col b_scroll_top b_scroll_bottom b_wrap_next b_saved
    fst snd] in *; try (by eauto); try lia.

Lemma new_buffer_wf rows cols : 1 ≤ rows ≤ MAX_ROWS → 1 ≤ cols ≤ MAX_COLS → wf_buffer rows cols (new_buffer rows cols).
Proof.
  intros Hr Hc. split; cbn; try done; try lia.
  - rewrite length_replicate. lia.
  - apply Forall_replicate, blank_row_wf. lia.
Qed.

Section dims.
Context (rows cols : Z).
Implicit Types b : Buffer.
Notation wf := (wf_buffer rows cols).
Notation safe := (safe rows cols).

Lemma carriage_return_wf b : wf b → wf (carriage_return b).
Proof. intros Hb. unfold carriage_return. wf_fields Hb. Qed.

Lemma backspace_wf b : wf b → wf (backspace b).
Proof. intros Hb. unfold backspace. wf_fields Hb. Qed.

Lemma tab_wf b : wf b → wf (tab b).
Proof. intros Hb. unfold tab. pose proof (Z.div_pos (b_col b) 8). wf_fields Hb. Qed.

Lemma move_wf b row col : wf b → wf (move b row col).
Proof. intros Hb. unfold move. destruct row, col; wf_fields Hb. Qed.

Lemma set_scroll_wf b count values : wf b → 1 ≤ count → wf (set_scroll b count values).
Proof.
  intros Hb Hc. unfold set_scroll. apply move_wf.
  set (bottom := match values with _ :: v :: _ => if v =? 0 then b_rows b else v | _ => b_rows b end - 1).
  destruct ((0 <=? count - 1) && (count - 1 <? bottom) && (bottom <? b_rows b)) eqn:E; boolify;
    wf_fields Hb.
Qed.

Lemma linefeed_safe b : wf b → safe (linefeed b).
Proof.
  intros Hb. unfold linefeed. set (b' := b <| b_wrap_next := false |>).
  assert (wf b') as Hb' by (unfold b'; wf_fields Hb). clearbody b'. clear b Hb.
  destruct (_ && _ && _) eqn:E; [|apply safe_ret; wf_fields Hb'].
  pose proof (wb_scroll _ _ _ Hb'). pose proof (wb_length _ _ _ Hb') as Hl. unfold py_pop. rewrite py_pos_in by lia.
  cbn [mbind res_bind]. apply safe_ret.
  assert (Z.of_nat (length (delete (Z.to_nat (b_scroll_top b')) (b_cells b'))) = rows - 1) as Hd.
  { rewrite length_delete; [lia|]. apply lookup_lt_is_Some_2. lia. }
  pose proof (wb_cols _ _ _ Hb') as Hcols. pose proof (wb_size _ _ _ Hb').
  wf_fields Hb'; unfold py_insert.
  - rewrite length_app. cbn [length]. rewrite length_take, length_drop. lia.
  - apply Forall_app. split; [by apply Forall_take, Forall_delete|]. constructor.
    + rewrite Hcols. apply blank_row_wf. lia.
    + by apply Forall_drop, Forall_delete.
Qed.

(** Rewriting one row of the grid. *)
Lemma on_row_safe b row (f : list (list Z) → res (list (list Z))) :
  wf b → 0 ≤ row < rows → (∀ r, wf_row cols r → ∃ r', f r = Ok r' ∧ wf_row cols r') →
  ∃ cells, on_row b row f = Ok (b <| b_cells := cells |>) ∧ wf (b <| b_cells := cells |>).
Proof.
  intros Hb Hr Hf. unfold on_row. pose proof (wb_length _ _ _ Hb) as Hl.
  destruct (py_nth_in (b_cells b) row ltac:(lia)) as (r & -> & Hlook). cbn [mbind res_bind].
  destruct (Hf r) as (r' & -> & Hr').
  { apply (Forall_lookup_1 _ _ _ _ (wb_cells _ _ _ Hb) Hlook). }
  cbn [mbind res_bind]. rewrite py_set_in by lia. eexists. split; [done|].
  wf_fields Hb; [by rewrite length_insert|by apply Forall_insert].
Qed.

Lemma clear_cell_safe b row col : wf b → 0 ≤ row < rows → 0 ≤ col < cols →
  ∃ cells, clear_cell b row col = Ok (b <| b_cells := cells |>) ∧ wf (b <| b_cells := cells |>).
Proof.
  intros Hb Hr Hc. apply on_row_safe; [done..|]. intros r Hwf. rewrite (wb_cols _ _ _ Hb).
  destruct (clear_in_row_ok cols r col Hwf Hc) as (r' & E & Hr' & _). by exists r'.
Qed.

Lemma erase_line_safe b mode : wf b → safe (erase_line b mode).
Proof.
  intros Hb. unfold erase_line. pose proof (wb_cursor _ _ _ Hb). pose proof (wb_cols _ _ _ Hb) as Hcols.
  assert (∀ start stop, 0 ≤ start → stop ≤ cols →
    safe (foldM (λ b col, clear_cell b (b_row b) col) b (range start stop))) as Hf.
  { intros start stop Hs Ht. apply (safe_foldM _ _ _ (λ col, 0 ≤ col < cols)); [| |done].
    - intros b1 col Hb1 Hc. pose proof (wb_cursor _ _ _ Hb1).
      destruct (clear_cell_safe b1 (b_row b1) col) as (cells & -> & Hw); [done|lia..|]. by apply safe_ret.
    - apply Forall_forall. intros col Hcol. unfold range in Hcol. apply elem_of_seqZ in Hcol. lia. }
  destruct (mode =? 0); [apply Hf; lia|]. destruct (mode =? 1); [apply Hf; lia|].
  destruct (mode =? 2); [apply Hf; lia|]. by apply safe_ret.
Qed.

Lemma erase_rows_safe b start stop : wf b → 0 ≤ start → stop ≤ rows → safe (erase_rows b (range start stop)).
Proof.
  intros Hb Hs Ht. apply (safe_foldM _ _ _ (λ row, 0 ≤ row < rows)); [| |done].
  - intros b1 row Hb1 Hr. pose proof (wb_length _ _ _ Hb1). pose proof (wb_cols _ _ _ Hb1) as Hc.
    pose proof (wb_size _ _ _ Hb1). rewrite py_set_in by lia. cbn [mbind res_bind]. apply safe_ret.
    wf_fields Hb1; [by rewrite length_insert|]. apply Forall_insert; [done|]. rewrite Hc. apply blank_row_wf. lia.
  - apply Forall_forall. intros row Hrow. unfold range in Hrow. apply elem_of_seqZ in Hrow. lia.
Qed.

Lemma erase_display_safe b mode : wf b → safe (erase_display b mode).
Proof.
  intros Hb. unfold erase_display. pose proof (wb_rows _ _ _ Hb) as Hr. destruct (_ || _).
  { apply erase_rows_safe; [done|lia..]. }
  destruct (mode =? 0).
  { apply safe_bind; [by apply erase_line_safe|]. intros b1 Hb1. pose proof (wb_rows _ _ _ Hb1).
    pose proof (wb_cursor _ _ _ Hb1). apply erase_rows_safe; [done|lia..]. }
  destruct (mode =? 1); [|by apply safe_ret].
  apply safe_bind; [by apply erase_line_safe|]. intros b1 Hb1. pose proof (wb_cursor _ _ _ Hb1).
  apply erase_rows_safe; [done|lia..].
Qed.

(** ** Placing a character *)

(** The buffer with the row at the cursor replaced. *)
Definition at_cursor b (r : list (list Z)) : Buffer := b <| b_cells := <[Z.to_nat (b_row b) := r]> (b_cells b) |>.

Lemma on_cursor_row b r r' (f : list (list Z) → res (list (list Z))) :
  wf b → f r = Ok r' → on_row (at_cursor b r) (b_row b) f = Ok (at_cursor b r').
Proof.
  intros Hb Hf. pose proof (wb_cursor _ _ _ Hb). pose proof (wb_length _ _ _ Hb). unfold on_row, at_cursor. cbn [update b_cells].
  unfold py_nth. rewrite py_pos_in by (rewrite length_insert; lia). cbn [mbind res_bind].
  rewrite list_lookup_insert_eq by lia. cbn [mbind res_bind]. rewrite Hf. cbn [mbind res_bind].
  rewrite py_set_in by (rewrite length_insert; lia). cbn. by rewrite list_insert_insert_eq.
Qed.

Lemma at_cursor_id b : wf b → ∃ r, wf_row cols r ∧ b = at_cursor b r.
Proof.
  intros Hb. pose proof (wb_cursor _ _ _ Hb). pose proof (wb_length _ _ _ Hb).
  destruct (lookup_lt_is_Some_2 (b_cells b) (Z.to_nat (b_row b))) as [r Hr]; [lia|]. exists r. split.
  - apply (Forall_lookup_1 _ _ _ _ (wb_cells _ _ _ Hb) Hr).
  - unfold at_cursor. rewrite list_insert_id by done. by destruct b.
Qed.

Lemma at_cursor_wf b r : wf b → wf_row cols r → wf (at_cursor b r).
Proof. intros Hb Hr. unfold at_cursor. wf_fields Hb; [by rewrite length_insert|by apply Forall_insert]. Qed.

Section unicode.
Context `{Unicode}.

(** The row after a character of width one or two was written at [col]. *)
Lemma place_row r col char (two : bool) :
  wf_row cols r → 0 ≤ col → (if two then col + 1 < cols ∧ char ≠ 32 else col < cols) →
  ∃ r1 r2 r3 r4,
    clear_in_row cols r col = Ok r1 ∧
    (if two then clear_in_row cols r1 (col + 1) else Ok r1) = Ok r2 ∧
    py_set r2 col [char] = Ok r3 ∧ (if two then py_set r3 (col + 1) [] else Ok r3) = Ok r4 ∧ wf_row cols r4.
Proof.
  intros Hr H0 Hc. assert (col < cols) by (destruct two; lia).
  destruct (clear_in_row_ok cols r col Hr ltac:(lia)) as (r1 & E1 & Hr1 & Hb1 & Hn1).
  destruct two.
  - destruct Hc as [Hc Hchar]. destruct (clear_in_row_ok cols r1 (col + 1) Hr1 ltac:(lia)) as (r2 & E2 & Hr2 & Hb2 & Hn2).
    replace (Z.to_nat (col + 1)) with (S (Z.to_nat col)) in Hb2, Hn2 by lia.
    pose proof (row_length _ _ Hr2). eexists r1, r2, _, _. split_and!; [done|done|apply py_set_in; lia| |].
    { apply py_set_in. rewrite length_insert. lia. }
    assert (wf_row cols (<[Z.to_nat col:=[char]]> r2)) as [Hl3 Hc3 Ho3] by (apply wf_row_write; try done; by rewrite Hb2).
    replace (Z.to_nat (col + 1)) with (S (Z.to_nat col)) by lia. split.
    + by rewrite length_insert.
    + by apply Forall_insert.
    + intros i Hi. destruct (decide (i = S (Z.to_nat col))) as [->|Hne].
      * exists (Z.to_nat col), [char]. split_and!; [done| |done|by intros [= ->]].
        rewrite list_lookup_insert_ne by lia. apply list_lookup_insert_eq. lia.
      * rewrite list_lookup_insert_ne in Hi by done. destruct (Ho3 i Hi) as (j & x & -> & Hj & Hx).
        exists j, x. split; [done|]. rewrite list_lookup_insert_ne; [done|]. intros <-.
        rewrite list_lookup_insert_ne in Hi by lia. done.
  - pose proof (row_length _ _ Hr1). eexists r1, r1, _, _. split_and!; [done|done|apply py_set_in; lia|done|].
    by apply wf_row_write.
Qed.

Lemma place_safe b char width : wf b → (width = 1 ∨ width = 2 ∧ b_col b + 1 < cols ∧ char ≠ 32) → safe (place b char width).
Proof.
  intros Hb Hw. pose proof (wb_cursor _ _ _ Hb) as [_ Hc]. pose proof (wb_cols _ _ _ Hb) as Hcols.
  destruct (at_cursor_id b Hb) as (r & Hr & Eb).
  destruct (place_row r (b_col b) char (width =? 2) Hr ltac:(lia)) as (r1 & r2 & r3 & r4 & E1 & E2 & E3 & E4 & Hr4).
  { destruct Hw as [->|[-> ?]]; [cbn; lia|]. done. }
  assert (place b char width = Ok (let b4 := at_cursor b r4 in
    if cols <=? b_col b + width then b4 <| b_col := cols - 1 |> <| b_wrap_next := true |>
    else b4 <| b_col := b_col b + width |>)) as ->.
  { unfold place.
    assert (clear_cell b (b_row b) (b_col b) = Ok (at_cursor b r1)) as ->.
    { unfold clear_cell. rewrite Hcols.
      pose proof (on_cursor_row b r r1 (λ cells, clear_in_row cols cells (b_col b)) Hb E1) as Hx. by rewrite <-Eb in Hx. }
    cbn [mbind res_bind]. unfold set_cell, clear_cell. change (b_row (at_cursor b ?x)) with (b_row b).
    change (b_col (at_cursor b ?x)) with (b_col b). change (b_cols (at_cursor b ?x)) with (b_cols b).
    destruct (width =? 2).
    - rewrite (on_cursor_row b r1 r2) by (done || by rewrite Hcols). cbn [mbind res_bind].
      rewrite (on_cursor_row b r2 r3) by done. cbn [mbind res_bind].
      rewrite (on_cursor_row b r3 r4) by done. cbn [mbind res_bind]. by rewrite <-Hcols.
    - injection E2 as <-. injection E4 as <-. cbn [mbind res_bind].
      rewrite (on_cursor_row b r1 r3) by done. cbn [mbind res_bind]. by rewrite <-Hcols. }
  apply safe_ret. pose proof (at_cursor_wf b r4 Hb Hr4) as Hb4. cbv zeta.
  destruct (cols <=? b_col b + width) eqn:E; boolify; [wf_fields Hb4|]. 
  assert (1 ≤ width) by lia. clear Hw. change (b_col b) with (b_col (at_cursor b r4)) in *. wf_fields Hb4.
Qed.

Lemma put_combining_safe b char : wf b → safe (put_combining b char).
Proof.
  intros Hb. unfold put_combining. pose proof (wb_cursor _ _ _ Hb) as [Hrow Hcol].
  set (previous := if b_wrap_next b then b_col b else b_col b - 1).
  destruct (0 <=? previous) eqn:E; [|by apply safe_ret]. boolify.
  assert (previous < cols) as Hp by (unfold previous; destruct (b_wrap_next b); lia).
  destruct (at_cursor_id b Hb) as (r & Hr & Eb). pose proof (row_length _ _ Hr) as Hl.
  pose proof (wb_length _ _ _ Hb).
  assert (py_nth (b_cells b) (b_row b) = Ok r) as ->.
  { unfold py_nth. rewrite py_pos_in by lia. cbn [mbind res_bind].
    assert (b_cells b !! Z.to_nat (b_row b) = Some r) as ->; [|done].
    rewrite Eb. unfold at_cursor. cbn [update b_cells b_row]. apply list_lookup_insert_eq. lia. }
  cbn [mbind res_bind]. destruct (py_nth_in r previous ltac:(lia)) as (c & -> & Hlook). cbn [mbind res_bind].
  destruct (_ && _ && _) eqn:Ec; [|by apply safe_ret]. boolify. unfold set_cell.
  pose proof (on_cursor_row b r _ (λ cells, py_set cells previous (c ++ [char])) Hb
    (py_set_in r previous (c ++ [char]) ltac:(lia))) as Hset. rewrite <-Eb in Hset. rewrite Hset. apply safe_ret.
  apply at_cursor_wf; [done|]. split.
  - by rewrite length_insert.
  - apply Forall_insert; [apply Hr|]. rewrite length_app. cbn. unfold COMBINING_MAX in *. lia.
  - intros i Hi. destruct (decide (i = Z.to_nat previous)) as [->|Hne].
    { rewrite list_lookup_insert_eq in Hi by lia. injection Hi as Hi. by destruct c. }
    rewrite list_lookup_insert_ne in Hi by done. destruct (row_orphans _ _ Hr i Hi) as (j & x & -> & Hj & Hx).
    exists j. destruct (decide (j = Z.to_nat previous)) as [->|Hj'].
    + exists (c ++ [char]). split_and!; [done|apply list_lookup_insert_eq; lia|by destruct c|].
      intros Heq. apply (f_equal length) in Heq. rewrite length_app in Heq. cbn in Heq. destruct c; [done|]. cbn in Heq. lia.
    + exists x. by rewrite list_lookup_insert_ne by done.
Qed.

Lemma put_safe b char : wf b → safe (put b char).
Proof.
  intros Hb. unfold put. destruct (combining char); [by apply put_combining_safe|].
  set (width := if wide char then 2 else 1).
  assert (wide char = true → char ≠ 32) as Hsp by (intros Hw ->; by rewrite wide_space in Hw).
  destruct (b_wrap_next b || (width =? 2) && (b_col b =? b_cols b - 1)) eqn:Ew.
  - destruct (linefeed_safe b Hb) as (b1 & -> & Hb1). cbn [mbind res_bind].
    pose proof (carriage_return_wf b1 Hb1) as Hb2. destruct ((width =? 2) && (b_cols (carriage_return b1) =? 1)) eqn:E; [by apply safe_ret|].
    apply place_safe; [done|]. pose proof (wb_cols _ _ _ Hb2). pose proof (wb_size _ _ _ Hb2).
    unfold width in *. destruct (wide char); [|by left]. right. change (b_col (carriage_return b1)) with 0.
    change (2 =? 2) with true in E. cbn [andb] in E. boolify. split_and!; [done| |auto]. lia.
  - cbn [mbind res_bind]. destruct ((width =? 2) && (b_cols b =? 1)) eqn:E; [by apply safe_ret|].
    apply place_safe; [done|]. pose proof (wb_cols _ _ _ Hb). pose proof (wb_cursor _ _ _ Hb).
    unfold width in *. destruct (wide char); [|by left]. right. cbn in Ew. apply orb_false_iff in Ew as [_ Ew]. boolify.
    split_and!; [done| |auto]. lia.
Qed.

Lemma control_buffer_safe b final values : wf b → safe (control_buffer b final values).
Proof.
  intros Hb. unfold control_buffer. cbv zeta.
  repeat match goal with |- ScreenFacts.safe _ _ (if ?c then _ else _) => destruct c end;
    try (by apply safe_ret, move_wf); [by apply erase_display_safe|by apply erase_line_safe| |by apply safe_ret].
  apply safe_ret, set_scroll_wf; [done|lia].
Qed.
End unicode.
End dims.

(** ** The screen *)

Section screen.
Context `{Unicode}.

(** Bytes of a sequence that is not finished. *)
Definition unfinished (pending : list Z) : Prop :=
  match pending with [] => True | lead :: _ => Z.of_nat (length pending) < sequence_length lead end.

Record wf_screen (s : Screen) : Prop := {
  ws_main : wf_buffer (s_rows s) (s_cols s) (s_main s);
  ws_alternate : wf_buffer (s_rows s) (s_cols s) (s_alternate s);
  ws_parameters : Z.of_nat (length (s_parameters s)) ≤ CSI_PARAMETER_MAX;
  ws_pending : unfinished (s_pending s);
}.

Lemma size_of_range v limit : 1 ≤ limit → 1 ≤ size_of v limit ≤ limit.
Proof. intros. unfold size_of. destruct (py_int v); lia. Qed.

Lemma new_screen_wf rows cols : wf_screen (new_screen rows cols).
Proof.
  pose proof (size_of_range rows MAX_ROWS ltac:(done)). pose proof (size_of_range cols MAX_COLS ltac:(done)).
  split; cbn; try done; by apply new_buffer_wf.
Qed.

Lemma kept_row_wf old cols row : wf_row old row → 1 ≤ old → 1 ≤ cols → wf_row cols (kept_row old cols row).
Proof.
  intros [Hl Hc Ho] H1 H2. unfold kept_row. set (keep := Z.to_nat (Z.min cols old)).
  pose proof (blank_row_wf cols ltac:(lia)) as [Bl Bc Bo]. split.
  - rewrite length_app, length_take, length_drop. lia.
  - apply Forall_app. split; [by apply Forall_take|by apply Forall_drop].
  - intros i Hi. apply lookup_app_Some in Hi as [Hi|[_ Hi]].
    + apply lookup_take_Some in Hi as [Hi Hk]. destruct (Ho i Hi) as (j & x & -> & Hj & Hx).
      exists j, x. split_and!; try done; [|by destruct Hx..]. apply lookup_app_l_Some, lookup_take_Some. split; [done|lia].
    + rewrite lookup_drop in Hi. unfold blank_row in Hi. apply lookup_replicate in Hi as [[=] _].
Qed.

Lemma buffer_resize_wf rows cols rows' cols' b :
  wf_buffer rows cols b → 1 ≤ rows' ≤ MAX_ROWS → 1 ≤ cols' ≤ MAX_COLS → wf_buffer rows' cols' (buffer_resize b rows' cols').
Proof.
  intros Hb Hr Hc. destruct Hb as [E1 E2 Hs Hl Hcells Hcur Hscr Hsav].
  split; cbn [buffer_resize b_rows b_cols b_cells b_row b_col b_scroll_top b_scroll_bottom b_saved fst snd]; try done; try lia.
  - rewrite length_app, length_map, length_take, length_replicate. lia.
  - apply Forall_app. split; [|apply Forall_replicate, blank_row_wf; lia]. apply Forall_map, Forall_take.
    eapply Forall_impl; [exact Hcells|]. intros row Hrow. rewrite E2. apply kept_row_wf; [done|lia..].
Qed.

Lemma screen_resize_wf s rows cols : wf_screen s → wf_screen (screen_resize s rows cols).
Proof.
  intros [Hm Ha Hp Hd]. pose proof (size_of_range rows MAX_ROWS ltac:(done)).
  pose proof (size_of_range cols MAX_COLS ltac:(done)).
  split; cbn; try done; by eapply buffer_resize_wf.
Qed.

Lemma the_buffer_wf s : wf_screen s → wf_buffer (s_rows s) (s_cols s) (the_buffer s).
Proof. intros [Hm Ha _ _]. unfold the_buffer. by destruct (s_alternate_active s). Qed.

Lemma with_buffer_wf s s' b : wf_screen s → s_rows s' = s_rows s → s_cols s' = s_cols s →
  s_main s' = s_main s → s_alternate s' = s_alternate s → s_parameters s' = s_parameters s →
  unfinished (s_pending s') → wf_buffer (s_rows s) (s_cols s) b → wf_screen (with_buffer s' b).
Proof.
  intros [Hm Ha Hp Hd] E1 E2 E3 E4 E5 Hd' Hb. unfold with_buffer.
  destruct (s_alternate_active s'); split; cbn; try done; try (rewrite E1, E2, ?E3, ?E4; done); by rewrite E5.
Qed.

(** The step returns and keeps the screen well formed. *)
Definition safe_screen (m : res Screen) : Prop := ∃ s, m = Ok s ∧ wf_screen s.

Lemma decode_byte_unfinished pending b : unfinished pending → unfinished (decode_byte pending b).2.
Proof.
  intros Hp. unfold decode_byte. destruct (continues pending b) eqn:Ec.
  - cbv zeta. destruct pending as [|lead rest]; [done|]. cbn [app head default length].
    destruct (Z.of_nat _ =? _) eqn:E; [done|]. boolify. cbn in *. rewrite length_app in *. cbn in *. lia.
  - destruct (b <? 128); [done|]. destruct (sequence_length b =? 0) eqn:E; [done|]. boolify. cbn.
    unfold sequence_length in *. repeat case_match; lia.
Qed.

Lemma ground_safe s byte : wf_screen s → safe_screen (ground s byte).
Proof.
  intros Hs. pose proof (the_buffer_wf s Hs) as Hb. unfold ground. cbv zeta.
  assert (∀ b, wf_buffer (s_rows s) (s_cols s) b → wf_screen (with_buffer (s <| s_pending := [] |>) b)) as Hw.
  { intros b Hwb. by apply (with_buffer_wf s). }
  assert (wf_screen (s <| s_pending := [] |>)) as Hq by (destruct Hs; by split).
  destruct (byte =? 27); [eexists; split; [done|]; destruct Hq; by split|].
  destruct (_ && _); [eexists; split; [done|]; destruct Hs; by split|].
  destruct (_ && _); [eexists; split; [done|]; destruct Hs; by split|].
  destruct (byte =? 13); [eexists; split; [done|]; by apply Hw, carriage_return_wf|].
  destruct (_ || _ || _).
  { destruct (linefeed_safe _ _ _ Hb) as (b & -> & Hb'). eexists. split; [done|]. by apply Hw. }
  destruct (byte =? 8); [eexists; split; [done|]; by apply Hw, backspace_wf|].
  destruct (byte =? 9); [eexists; split; [done|]; by apply Hw, tab_wf|].
  destruct (_ || _); [by eexists|].
  pose proof (decode_byte_unfinished (s_pending s) byte (ws_pending _ Hs)) as Hp.
  destruct (decode_byte (s_pending s) byte) as [chars pending]. cbn in Hp.
  destruct (safe_foldM (s_rows s) (s_cols s) (λ b char, if isprintable char then put b char else Ok b) (λ _, True) chars)
    with (b := the_buffer s) as (b & -> & Hb'); [|by apply Forall_true|done|].
  - intros b char Hwb _. destruct (isprintable char); [by apply put_safe|by apply safe_ret].
  - eexists. split; [done|]. by apply (with_buffer_wf s).
Qed.

Lemma control_safe s final : wf_screen s → safe_screen (control s final).
Proof.
  intros Hs. pose proof (the_buffer_wf s Hs) as Hb. unfold control. cbv zeta.
  destruct (match s_parameters s with b :: _ => b =? 63 | [] => false end).
  - destruct (_ && _); [|by eexists]. destruct (final =? 104); [|eexists; split; [done|]; destruct Hs; by split].
    eexists. split; [done|]. destruct Hs as [Hm Ha Hp Hd]. destruct (existsb _ _); split; cbn; try done.
    apply new_buffer_wf; apply Hm.
  - match goal with |- context [control_buffer ?b ?f ?v] => destruct (control_buffer_safe _ _ b f v Hb) as (b' & -> & Hb') end.
    eexists. split; [done|]. apply (with_buffer_wf s); try done. apply Hs.
Qed.

Lemma feed_byte_safe s byte : wf_screen s → safe_screen (feed_byte s byte).
Proof.
  intros Hs. pose proof (the_buffer_wf s Hs) as Hb.
  assert (∀ st, wf_screen (s <| s_state := st |>)) as Hst by (intros; destruct Hs; by split).
  assert (∀ st, wf_screen (s <| s_state := st |> <| s_parameters := [] |>)) as Hpa by (intros; destruct Hs; by split).
  unfold feed_byte. destruct (s_state s).
  - by apply ground_safe.
  - destruct (byte =? 91); [by eexists|]. destruct (bool_decide _); [by eexists|]. destruct (bool_decide _); [by eexists|].
    cbv zeta. change (the_buffer (s <| s_state := Ground |>)) with (the_buffer s).
    destruct (byte =? 55); [|destruct (byte =? 56); [|by eexists]]; (eexists; split; [done|]);
      apply (with_buffer_wf s); try done; try apply Hs.
    + destruct Hb; split; cbn; done.
    + by apply move_wf.
  - destruct (_ && _); [by eexists|]. destruct (byte =? 27); by eexists.
  - destruct (_ && _).
    { destruct (control_safe s byte Hs) as (s' & -> & Hs'). eexists. split; [done|]. destruct Hs'; by split. }
    destruct (_ && _); [|destruct (byte =? 27); by eexists]. eexists. split; [done|].
    destruct (_ <? _) eqn:E; [|done]. boolify. destruct Hs; split; cbn; try done.
    rewrite length_app. cbn. lia.
  - destruct (byte =? 7); [by eexists|]. destruct (byte =? 27); by eexists.
  - destruct (_ || _); [by eexists|]. destruct (negb _); by eexists.
Qed.

(** What a supervisor does to its screen. *)
Inductive ScreenOp := Feed (data : string) | Resize (rows cols : pyval).

Definition screen_op (s : Screen) (o : ScreenOp) : res Screen :=
  match o with Feed data => feed s data | Resize rows cols => Ok (screen_resize s rows cols) end.

Lemma screen_op_safe s o : wf_screen s → safe_screen (screen_op s o).
Proof.
  intros Hs. destruct o as [data|rows cols]; cbn; [|eexists; split; [done|]; by apply screen_resize_wf].
  unfold feed. revert s Hs. induction (byte_values data) as [|b l IH]; intros s Hs; cbn [foldM]; [by eexists|].
  destruct (feed_byte_safe s b Hs) as (s' & -> & Hs'). by apply IH.
Qed.

Lemma line_bounded cols row : wf_row cols row → Z.of_nat (length (rstrip_points (concat row))) ≤ COMBINING_MAX * cols.
Proof.
  intros [Hl Hc _]. unfold rstrip_points. rewrite length_reverse.
  assert (∀ l, (length (drop_while isspace l) ≤ length l)%nat) as Hd.
  { intros l. induction l as [|x l IH]; cbn; [done|]. destruct (isspace x); cbn; lia. }
  specialize (Hd (reverse (concat row))). rewrite length_reverse in Hd.
  enough (Z.of_nat (length (concat row)) ≤ COMBINING_MAX * Z.of_nat (length row)) by (subst; lia).
  clear Hl Hd. induction Hc as [|c row Hc Hrow IH]; cbn; [lia|]. rewrite length_app. lia.
Qed.

(** C32. Whatever size is asked for and whatever bytes arrive, in any interleaving
    of output and resizes, the screen returns (no index is ever out of range)
    and stays within its fixed bound: a grid of at most 120 by 240 cells of at
    most eight code points, the cursor and the scroll region inside it, no
    second half of a wide character without its first, at most 64 parameter
    bytes and three undecoded ones. *)
Theorem screen_stays_within_bounds rows cols ops :
  ∃ s, foldM screen_op (new_screen rows cols) ops = Ok s ∧ wf_screen s ∧
    Z.of_nat (length (lines s)) ≤ MAX_ROWS ∧
    Forall (λ line, Z.of_nat (length line) ≤ COMBINING_MAX * MAX_COLS) (lines s) ∧
    Z.of_nat (length (s_pending s)) ≤ 3.
Proof.
  assert (∀ s0, wf_screen s0 → safe_screen (foldM screen_op s0 ops)) as Hf.
  { induction ops as [|o ops IH]; intros s0 Hs0; cbn [foldM]; [by eexists|].
    destruct (screen_op_safe s0 o Hs0) as (s1 & -> & Hs1). by apply IH. }
  destruct (Hf _ (new_screen_wf rows cols)) as (s & -> & Hs). exists s. split; [done|]. split; [done|].
  pose proof (the_buffer_wf s Hs) as Hb. pose proof (wb_size _ _ _ Hb). unfold lines. split_and!.
  - rewrite length_map, (wb_length _ _ _ Hb). lia.
  - apply Forall_map. eapply Forall_impl; [exact (wb_cells _ _ _ Hb)|]. intros row Hrow. cbn.
    pose proof (line_bounded _ _ Hrow). unfold COMBINING_MAX in *. lia.
  - pose proof (ws_pending _ Hs) as Hp. destruct (s_pending s) as [|lead rest]; cbn in *; [lia|].
    unfold sequence_length in Hp. repeat case_match; lia.
Qed.
End screen.
