(* ===== verification/Supervisor.v ===== *)
(** * The process that owns one head (runtime/head/local_pty/supervisor.py)

    The supervisor of an unscoped head as a program in a state monad [SM]: its
    connections, the one delivery in flight, the head's turns and their
    progress, the bounded output, draining and stopping, the tick, and the loop
    from [run] to [_shutdown].  A raised exception keeps the state.  The kernel,
    the clock and the callers answer through a [World] indexed by the number of
    the call; a loop that ends when the kernel blocks or fails gets the whole
    sequence of its answers.  Which descriptors the selector reports is the
    environment's choice.  The state holds the log of everything observable. *)

From S2P Require Import Prelude PyText JsonText Json Base64 Protocol Journal Screen.

Definition TURN_QUIET_SECONDS : Z := seconds 2.
Definition PROGRESS_COALESCE_SECONDS : Z := seconds 1 / 2.
Definition PROGRESS_SEEN_LINES_MAX : Z := 4096.
Definition STOP_GRACE_SECONDS : Z := seconds 5.
Definition READ_CHUNK : nat := Z.to_nat 65536.
Definition EXIT_OK : Z := 0.
Definition EXIT_STARTUP_FAILED : Z := 2.
Definition EXIT_ALREADY_RUNNING : Z := 3.
Definition EXIT_RUN_FAILED : Z := 4.
Definition START_FAILED : string := "startup_failed".
Definition RUN_FAILED : string := "run_failed".

(** ** What the supervisor holds *)

(** One caller; [cl_open]: its descriptor has not been closed. *)
Record Client := {
  cl_inbox : string; cl_pending : string; cl_attached : bool; cl_dropped : Z; cl_closing : bool;
  cl_overflowed : bool; cl_open : bool;
}.

#[global] Instance Client_settable : Settable Client := λ c, {|
  cl_inbox := cl_inbox c; cl_pending := cl_pending c; cl_attached := cl_attached c; cl_dropped := cl_dropped c;
  cl_closing := cl_closing c; cl_overflowed := cl_overflowed c; cl_open := cl_open c |}.

Definition new_client : Client := {|
  cl_inbox := ""; cl_pending := ""; cl_attached := false; cl_dropped := 0; cl_closing := false;
  cl_overflowed := false; cl_open := true |}.

Record Delivery := {
  dl_id : Z; dl_payload : string; dl_subject : string; dl_written : nat; dl_seconds : Z; dl_deadline : Z;
  dl_state : DeliveryState; dl_why : string;
}.

#[global] Instance Delivery_settable : Settable Delivery := λ d, {|
  dl_id := dl_id d; dl_payload := dl_payload d; dl_subject := dl_subject d; dl_written := dl_written d;
  dl_seconds := dl_seconds d; dl_deadline := dl_deadline d; dl_state := dl_state d; dl_why := dl_why d |}.

Definition dl_size (d : Delivery) : nat := String.length (dl_payload d).
Definition in_flight (d : Delivery) : bool := bool_decide (dl_state d = DELIVERY_IN_FLIGHT).

(** What an observer of the process can see. *)
Inductive Ev :=
| EvRecord (kind : string) (fields : list (string * pyval))
| EvPty (bytes : string)
| EvOutput (chunk : string)
| EvSignal (number : Z)
| EvAdmit (id : Z) (payload : string)
| EvAccept (client : nat)
| EvRefuse (frame : list (string * pyval))
| EvClose (client : nat)
| EvRequest (client : nat) (line : string)
| EvFrame (client : nat) (frame : list (string * pyval))
| EvWinsize (rows cols : Z).

Record Sup := {
  sv_rows : Z; sv_cols : Z; sv_objects : list Client; sv_clients : list nat; sv_writer : Writer; sv_file : File;
  sv_master : bool; sv_head_pid : Z; sv_head_status : option Z;
  sv_output : string; sv_output_dropped : Z; sv_output_total : Z; sv_screen : Screen;
  sv_turn_open : bool; sv_turn_id : Z; sv_turn_bytes : Z; sv_last_output_at : Z;
  sv_progress_bytes : Z; sv_progress_at : Z; sv_window_bytes : Z; sv_seen : list string; sv_visible : list string;
  sv_folded : Z; sv_delivery : option Delivery; sv_delivery_seq : Z;
  sv_started : bool; sv_draining : bool; sv_stopping : bool; sv_stop_deadline : Z; sv_signalled : Z;
  sv_calls : nat; sv_log : list Ev;
}.

#[global] Instance Sup_settable : Settable Sup := λ s, {|
  sv_rows := sv_rows s; sv_cols := sv_cols s; sv_objects := sv_objects s; sv_clients := sv_clients s;
  sv_writer := sv_writer s; sv_file := sv_file s; sv_master := sv_master s; sv_head_pid := sv_head_pid s;
  sv_head_status := sv_head_status s; sv_output := sv_output s; sv_output_dropped := sv_output_dropped s;
  sv_output_total := sv_output_total s; sv_screen := sv_screen s; sv_turn_open := sv_turn_open s;
  sv_turn_id := sv_turn_id s; sv_turn_bytes := sv_turn_bytes s; sv_last_output_at := sv_last_output_at s;
  sv_progress_bytes := sv_progress_bytes s; sv_progress_at := sv_progress_at s; sv_window_bytes := sv_window_bytes s;
  sv_seen := sv_seen s; sv_visible := sv_visible s; sv_folded := sv_folded s; sv_delivery := sv_delivery s;
  sv_delivery_seq := sv_delivery_seq s; sv_started := sv_started s; sv_draining := sv_draining s;
  sv_stopping := sv_stopping s; sv_stop_deadline := sv_stop_deadline s; sv_signalled := sv_signalled s;
  sv_calls := sv_calls s; sv_log := sv_log s |}.

(** ** What answers it *)

(** How a loop over a non-blocking descriptor ends. *)
Inductive LoopEnd := LBlocks | LFails (strerror : string).

(** How the loop that reads the terminal ends: it blocks, the last slave end is
    gone, or another error. *)
Inductive ReadEnd := RBlocks | RClosed | RError.

Inductive Recv := Received (data : string) | RecvBlocks | RecvFails.
Inductive Wait := Running | Exited (status : Z) | NoChild.

Record World := {
  w_time : nat → Z; w_mono : nat → Z; w_outcome : nat → WriteOutcome;
  w_reads : nat → list string * ReadEnd; w_writes : nat → list nat * LoopEnd; w_sends : nat → list nat * LoopEnd;
  w_recv : nat → Recv; w_accepts : nat → nat; w_wait : nat → Wait; w_farewells : nat → nat;
  w_fork : nat → res Z; w_pid_file : nat → res unit; w_abandon : nat → list Wait;
}.

Record Config := {
  cf_run_id : string; cf_role : string; cf_task : string; cf_command : string; cf_pid_file : string;
  cf_socket_path : string; cf_quiet_seconds : Z; cf_delivery_seconds : Z; cf_supervisor_pid : Z;
}.

(** ** The monad *)

Definition SM (A : Type) : Type := Sup → res A * Sup.

#[global] Instance SM_ret : MRet SM := λ A a s, (Ok a, s).
#[global] Instance SM_bind : MBind SM := λ A B k m s,
  match m s with (Ok a, s') => k a s' | (Raise e, s') => (Raise e, s') end.

Definition raise {A} (e : exn) : SM A := λ s, (Raise e, s).
Definition the {A} (f : Sup → A) : SM A := λ s, (Ok (f s), s).
Definition modify (f : Sup → Sup) : SM unit := λ s, (Ok tt, f s).
Definition emit (e : Ev) : SM unit := modify (λ s, s <| sv_log := sv_log s ++ [e] |>).
Definition call {A} (f : nat → A) : SM A := λ s, (Ok (f (sv_calls s)), s <| sv_calls := S (sv_calls s) |>).
Definition when (b : bool) (m : SM unit) : SM unit := if b then m else mret tt.

(** [try: m except ProtocolError as exc: h(str(exc))]. *)
Definition catch_protocol {A} (m : SM A) (h : string → SM A) : SM A := λ s,
  match m s with
  | (Raise (Exn cls msg), s') => if String.eqb cls "ProtocolError" then h msg s' else (Raise (Exn cls msg), s')
  | r => r
  end.

(** A call that returns or raises. *)
Definition lift {A} (r : res A) : SM A := λ s, (r, s).

Fixpoint for_each {A} (l : list A) (f : A → SM unit) : SM unit :=
  match l with [] => mret tt | a :: l' => f a ≫= λ _, for_each l' f end.

(** ** Progress: the normalised lines of the screen (_progress_lines) *)

Section progress.
Context `{Unicode}.
(** [\w] and [\d]. *)
Variable is_word is_digit : Z → bool.

Definition is_spinner (c : Z) : bool :=
  (0x2700 <=? c) && (c <=? 0x27bf) || (0x2800 <=? c) && (c <=? 0x28ff) || (0x25a0 <=? c) && (c <=? 0x25ff)
  || (c =? 0x2022) || (c =? 0xb7).

(** [_SPINNER.sub("", raw)]; [before] is the character before the rest. *)
Fixpoint strip_spinners (before : bool) (l : list Z) : list Z :=
  match l with
  | [] => []
  | c :: l' =>
      let star := (c =? 42) && negb before && negb (match l' with d :: _ => is_word d | [] => false end) in
      if is_spinner c || star then strip_spinners (is_word c) l' else c :: strip_spinners (is_word c) l'
  end.

(** [_DIGITS.sub("#", text)]; [inside] a run of digits. *)
Fixpoint fold_digits (inside : bool) (l : list Z) : list Z :=
  match l with
  | [] => []
  | c :: l' => if is_digit c then (if inside then [] else [35]) ++ fold_digits true l' else c :: fold_digits false l'
  end.

(** [" ".join(text.split())]. *)
Fixpoint squeeze (started pending : bool) (l : list Z) : list Z :=
  match l with
  | [] => []
  | c :: l' =>
      if isspace c then squeeze started true l'
      else (if started && pending then [32] else []) ++ c :: squeeze true false l'
  end.

Definition normalized (raw : list Z) : list Z := squeeze false false (fold_digits false (strip_spinners false raw)).

(** The non-empty normalised lines; the set is a list without repetitions. *)
Definition progress_lines (l : list (list Z)) : list (list Z) :=
  remove_dups (List.filter (λ line, bool_decide (line ≠ [])) (map normalized l)).
End progress.

(** ** Signals by name: [signal.Signals] on Linux *)

Definition SIGNALS : list (string * Z) :=
  [("SIGHUP", 1); ("SIGINT", 2); ("SIGQUIT", 3); ("SIGILL", 4); ("SIGTRAP", 5); ("SIGABRT", 6); ("SIGIOT", 6);
   ("SIGBUS", 7); ("SIGFPE", 8); ("SIGKILL", 9); ("SIGUSR1", 10); ("SIGSEGV", 11); ("SIGUSR2", 12); ("SIGPIPE", 13);
   ("SIGALRM", 14); ("SIGTERM", 15); ("SIGSTKFLT", 16); ("SIGCHLD", 17); ("SIGCLD", 17); ("SIGCONT", 18);
   ("SIGSTOP", 19); ("SIGTSTP", 20); ("SIGTTIN", 21); ("SIGTTOU", 22); ("SIGURG", 23); ("SIGXCPU", 24);
   ("SIGXFSZ", 25); ("SIGVTALRM", 26); ("SIGPROF", 27); ("SIGWINCH", 28); ("SIGIO", 29); ("SIGPOLL", 29);
   ("SIGPWR", 30); ("SIGSYS", 31); ("SIGRTMIN", 34); ("SIGRTMAX", 64)].

Definition signal_number (name : string) : option Z := dict_get SIGNALS name.

Definition SIGKILL : Z := 9.
Definition SIGTERM : Z := 15.

(** [str.upper] below code point 256; the upper case of U+00B5 and U+00FF lies
    above it, and they stay. *)
Definition upper_char (c : Ascii.ascii) : string :=
  let n := code c in
  if (97 <=? n) && (n <=? 122) || (224 <=? n) && (n <=? 254) && negb (n =? 247) then String (chr (n - 32)) ""
  else if n =? 223 then "SS" else String c "".

Fixpoint upper (s : string) : string :=
  match s with "" => "" | String c s' => upper_char c +:+ upper s' end.

(** [failure_of]. *)
Definition failure_of (started : bool) : string * string * Z :=
  if started then (SUPERVISOR_ERROR_NAME, RUN_FAILED, EXIT_RUN_FAILED)
  else (STARTUP_ERROR_NAME, START_FAILED, EXIT_STARTUP_FAILED).

Section supervisor.
Context `{PyRepr, JsonText, Unicode}.
Variable repr : string → string.
Variable fmt_g : Z → string.
Variable is_word is_digit : Z → bool.
(** [hashlib.blake2b(line.encode("utf-8"), digest_size=16).digest()]. *)
Variable digest : list Z → string.
Variable W : World.
Variable cf : Config.

(** ** The journal (_append) *)

Definition append (kind : string) (fields : list (string * pyval)) : SM (list (string * pyval)) :=
  now ← call (w_time W);
  o ← call (w_outcome W);
  w ← the sv_writer;
  f ← the sv_file;
  let '(r, w', f') := Journal.append repr w f kind fields now o in
  modify (λ s, s <| sv_writer := w' |> <| sv_file := f' |>) ≫= λ _,
  match r with
  | Ok rec => emit (EvRecord kind fields) ≫= λ _, mret rec
  | Raise e => raise e
  end.

Definition record (kind : string) (fields : list (string * pyval)) : SM unit := append kind fields ≫= λ _, mret tt.

(** [_signal_head]. *)
Definition signal_head (number : Z) : SM unit :=
  pid ← the sv_head_pid; when (0 <? pid) (emit (EvSignal number)).

(** ** Deliveries *)

Definition delivery_view (d : Delivery) : list (string * pyval) :=
  [("id", VInt (dl_id d)); ("state", VStr (delivery_state_text (dl_state d)));
   ("size_bytes", VInt (Z.of_nat (dl_size d))); ("written_bytes", VInt (Z.of_nat (dl_written d)));
   ("complete", VBool (bool_decide (dl_state d = DELIVERY_COMPLETE))); ("subject", VStr (dl_subject d));
   ("timeout_seconds", VFloat (FFin (dl_seconds d)));
   ("detail", VStr (delivery_detail fmt_g (dl_state d) (Z.of_nat (dl_size d)) (Z.of_nat (dl_written d)) (dl_why d)
                     (dl_seconds d)))].

(** The turn a delivery opens. *)
Definition open_turn (subject : string) : SM unit :=
  now ← call (w_time W);
  modify (λ s, s <| sv_turn_id := sv_turn_id s + 1 |> <| sv_turn_open := true |> <| sv_turn_bytes := 0 |>
    <| sv_last_output_at := now |> <| sv_progress_bytes := 0 |> <| sv_window_bytes := 0 |> <| sv_progress_at := 0 |>
    <| sv_seen := [] |> <| sv_visible := [] |> <| sv_folded := 0 |>) ≫= λ _,
  turn ← the sv_turn_id;
  record TURN_STARTED [("turn", VInt turn); ("subject", VStr subject)].

(** [_finish_delivery]. *)
Definition finish_delivery (state : DeliveryState) (why : string) : SM unit :=
  delivery ← the sv_delivery;
  match delivery with
  | Some d =>
      if in_flight d then
        let d' := d <| dl_state := state |> <| dl_why := why |> in
        modify (λ s, s <| sv_delivery := Some d' |>) ≫= λ _,
        record INPUT_ACCEPTED
          [("bytes", VInt (Z.of_nat (dl_written d))); ("offered_bytes", VInt (Z.of_nat (dl_size d)));
           ("complete", VBool (bool_decide (state = DELIVERY_COMPLETE))); ("delivery", VInt (dl_id d));
           ("state", VStr (delivery_state_text state)); ("subject", VStr (dl_subject d));
           ("detail", VStr (delivery_detail fmt_g state (Z.of_nat (dl_size d)) (Z.of_nat (dl_written d)) why
                             (dl_seconds d)))] ≫= λ _,
        turn_open ← the sv_turn_open;
        when (negb (dl_written d =? 0)%nat && negb turn_open) (open_turn (dl_subject d))
      else mret tt
  | None => mret tt
  end.

(** [_expire_delivery]. *)
Definition expire_delivery : SM unit :=
  delivery ← the sv_delivery;
  match delivery with
  | Some d =>
      if in_flight d then
        status ← the sv_head_status;
        match status with
        | Some _ => finish_delivery DELIVERY_FAILED "the head exited"
        | None =>
            now ← call (w_mono W);
            when (dl_deadline d <=? now) (finish_delivery DELIVERY_STALLED "the head stopped reading its terminal")
        end
      else mret tt
  | None => mret tt
  end.

(** The write loop of [_pump_delivery]: each answer is what one [os.write] of the
    next chunk took.  [None]: every byte is written or the terminal blocks. *)
Fixpoint write_loop (d : Delivery) (answers : list nat) (last : LoopEnd) : SM (option string) :=
  if (dl_written d <? dl_size d)%nat then
    let chunk := str_take READ_CHUNK (str_drop (dl_written d) (dl_payload d)) in
    match answers with
    | n :: answers =>
        let taken := str_take n chunk in
        let d := d <| dl_written := (dl_written d + String.length taken)%nat |> in
        modify (λ s, s <| sv_delivery := Some d |>) ≫= λ _, emit (EvPty taken) ≫= λ _, write_loop d answers last
    | [] => match last with LBlocks => mret None | LFails strerror => mret (Some strerror) end
    end
  else mret None.

(** [_pump_delivery]. *)
Definition pump_delivery : SM unit :=
  delivery ← the sv_delivery;
  match delivery with
  | Some d =>
      if in_flight d then
        status ← the sv_head_status;
        match status with
        | Some _ => finish_delivery DELIVERY_FAILED "the head exited"
        | None =>
            '(answers, last) ← call (w_writes W);
            failed ← write_loop d answers last;
            match failed with
            | Some strerror =>
                finish_delivery DELIVERY_FAILED ("the head's terminal refused the write (" +:+ strerror +:+ ")")
            | None =>
                delivery ← the sv_delivery;
                match delivery with
                | Some d =>
                    if (dl_size d <=? dl_written d)%nat then finish_delivery DELIVERY_COMPLETE "" else expire_delivery
                | None => mret tt
                end
            end
        end
      else mret tt
  | None => mret tt
  end.

(** [_admit]. *)
Definition admit_payload (payload subject : string) : SM Delivery :=
  modify (λ s, s <| sv_delivery_seq := sv_delivery_seq s + 1 |>) ≫= λ _,
  seq ← the sv_delivery_seq;
  now ← call (w_mono W);
  let d := {| dl_id := seq; dl_payload := payload; dl_subject := subject; dl_written := 0;
              dl_seconds := cf_delivery_seconds cf; dl_deadline := now + cf_delivery_seconds cf;
              dl_state := DELIVERY_IN_FLIGHT; dl_why := "" |} in
  modify (λ s, s <| sv_delivery := Some d |>) ≫= λ _, emit (EvAdmit seq payload) ≫= λ _, mret d.

(** ** Progress *)

(** The history of seen digests, oldest first, after [d]. *)
Definition remember (seen : list string) (d : string) : list string :=
  if bool_decide (d ∈ seen) then seen
  else (if PROGRESS_SEEN_LINES_MAX <=? Z.of_nat (length seen) then tl seen else seen) ++ [d].

(** [_flush_progress]. *)
Definition flush_progress : SM unit :=
  window ← the sv_window_bytes;
  if window =? 0 then mret tt
  else
    s ← the (λ s, s);
    let visible := remove_dups (map digest (progress_lines is_word is_digit (lines (sv_screen s)))) in
    let new := existsb (λ d, negb (bool_decide (d ∈ sv_seen s)) && negb (bool_decide (d ∈ sv_visible s))) visible in
    modify (λ s, s <| sv_window_bytes := 0 |> <| sv_progress_at := 0 |> <| sv_visible := visible |>
      <| sv_seen := foldl remember (sv_seen s) (sort_strings visible) |>) ≫= λ _,
    if negb new then modify (λ s, s <| sv_folded := sv_folded s + 1 |>)
    else
      record PROVIDER_PROGRESSED
        [("turn", VInt (sv_turn_id s)); ("output_bytes", VInt (sv_progress_bytes s));
         ("total_output_bytes", VInt (sv_output_total s)); ("dropped_bytes", VInt (sv_output_dropped s));
         ("folded_windows", VInt (sv_folded s))] ≫= λ _,
      modify (λ s, s <| sv_progress_bytes := 0 |> <| sv_folded := 0 |>).

(** The end of a turn. *)
Definition close_turn (reason : string) (extra : list (string * pyval)) : SM unit :=
  s ← the (λ s, s);
  record TURN_FINISHED
    ([("turn", VInt (sv_turn_id s)); ("reason", VStr reason)] ++ extra
     ++ [("output_bytes", VInt (sv_turn_bytes s)); ("folded_windows", VInt (sv_folded s))]) ≫= λ _,
  modify (λ s, s <| sv_turn_open := false |>).

(** ** Callers *)

Definition client (id : nat) : SM Client :=
  objects ← the sv_objects; match objects !! id with Some c => mret c | None => raise (Exn "KeyError" "") end.

Definition on_client (id : nat) (f : Client → Client) : SM unit :=
  modify (λ s, s <| sv_objects := alter f id (sv_objects s) |>).

(** [_close_client]. *)
Definition close_client (id : nat) : SM unit :=
  c ← client id;
  modify (λ s, s <| sv_clients := List.filter (λ i, negb (i =? id)%nat) (sv_clients s) |>) ≫= λ _,
  on_client id (λ c, c <| cl_open := false |>) ≫= λ _,
  when (cl_open c) (emit (EvClose id)).

(** The send loop of [_flush]: what is left, or [None] after an [OSError]. *)
Fixpoint send_loop (pending : string) (answers : list nat) (last : LoopEnd) : option string :=
  if nonempty pending then
    match answers with
    | n :: answers => send_loop (str_drop (Nat.min n READ_CHUNK) pending) answers last
    | [] => match last with LBlocks => Some pending | LFails _ => None end
    end
  else Some pending.

(** [_flush]. *)
Definition flush (id : nat) : SM unit :=
  c ← client id;
  '(answers, last) ← call (w_sends W);
  match (if cl_open c then send_loop (cl_pending c) answers last
         else if nonempty (cl_pending c) then None else Some "") with
  | None => close_client id
  | Some pending =>
      on_client id (λ c, c <| cl_pending := pending |>) ≫= λ _,
      when (cl_closing c && negb (nonempty pending)) (close_client id)
  end.

(** A frame queued for a caller. *)
Definition queue (id : nat) (frame : list (string * pyval)) : SM unit :=
  on_client id (λ c, c <| cl_pending := cl_pending c +:+ encode_frame frame |>) ≫= λ _, emit (EvFrame id frame).

(** [_send]. *)
Definition send (id : nat) (frame : list (string * pyval)) : SM unit := queue id frame ≫= λ _, flush id.

(** [_answer]. *)
Definition answer (id : nat) (request_id : pyval) (payload : list (string * pyval)) : SM unit :=
  send id (match request_id with
           | VStr _ | VInt _ => dict_set payload REQUEST_ID request_id
           | _ => payload
           end).

(** [_announce_dropped]. *)
Definition announce_dropped (id : nat) : SM unit :=
  c ← client id;
  when (cl_overflowed c)
    (queue id [("event", VStr EVENT_DROPPED); ("bytes", VInt (cl_dropped c))] ≫= λ _,
     on_client id (λ c, c <| cl_overflowed := false |>)).

(** [_push_output]. *)
Definition push_output (chunk : string) (id : nat) : SM unit :=
  c ← client id;
  if OUTPUT_BUFFER_BYTES <? Z.of_nat (String.length (cl_pending c) + String.length chunk) then
    on_client id (λ c, c <| cl_dropped := cl_dropped c + Z.of_nat (String.length chunk) |> <| cl_overflowed := true |>)
  else
    announce_dropped id ≫= λ _,
    queue id [("event", VStr EVENT_OUTPUT); ("data", VStr (encode_payload chunk))] ≫= λ _,
    flush id.

Definition if_attached (f : nat → SM unit) (id : nat) : SM unit :=
  c ← client id; when (cl_attached c) (f id).

(** ** The head's terminal *)

(** [_record_output]. *)
Definition record_output (chunk : string) : SM unit :=
  screen ← the sv_screen;
  screen ← lift (feed screen chunk);
  now ← call (w_time W);
  modify (λ s,
    let output := sv_output s +:+ chunk in
    let excess := (String.length output - Z.to_nat OUTPUT_BUFFER_BYTES)%nat in
    s <| sv_screen := screen |> <| sv_output_total := sv_output_total s + Z.of_nat (String.length chunk) |>
      <| sv_output := str_drop excess output |> <| sv_output_dropped := sv_output_dropped s + Z.of_nat excess |>
      <| sv_last_output_at := now |>) ≫= λ _,
  emit (EvOutput chunk) ≫= λ _,
  turn_open ← the sv_turn_open;
  when turn_open (modify (λ s,
    s <| sv_turn_bytes := sv_turn_bytes s + Z.of_nat (String.length chunk) |>
      <| sv_progress_bytes := sv_progress_bytes s + Z.of_nat (String.length chunk) |>
      <| sv_window_bytes := sv_window_bytes s + Z.of_nat (String.length chunk) |>
      <| sv_progress_at := if sv_progress_at s =? 0 then now else sv_progress_at s |>)) ≫= λ _,
  clients ← the sv_clients;
  for_each clients (if_attached (push_output chunk)).

(** [_reap]. *)
Definition reap : SM unit :=
  s ← the (λ s, s);
  if (sv_head_pid s <=? 0) || match sv_head_status s with Some _ => true | None => false end then mret tt
  else
    waited ← call (w_wait W);
    match waited with
    | Running => mret tt
    | Exited status => modify (λ s, s <| sv_head_status := Some status |>)
    | NoChild => modify (λ s, s <| sv_head_status := Some 0 |>)
    end.

(** [_master_closed]. *)
Definition master_closed : SM unit :=
  finish_delivery DELIVERY_FAILED "the head's terminal was closed before the delivery finished" ≫= λ _, reap.

Fixpoint read_loop (chunks : list string) (last : ReadEnd) : SM unit :=
  match chunks with
  | "" :: _ => master_closed
  | chunk :: chunks => record_output chunk ≫= λ _, read_loop chunks last
  | [] => match last with RBlocks => mret tt | RClosed => master_closed | RError => raise (Exn "OSError" "") end
  end.

(** [_read_head]. *)
Definition read_head : SM unit := '(chunks, last) ← call (w_reads W); read_loop chunks last.

(** ** Requests *)

Definition attached_count (s : Sup) : Z :=
  Z.of_nat (length (List.filter (λ id, match sv_objects s !! id with Some c => cl_attached c | None => false end)
                      (sv_clients s))).

Definition alive (s : Sup) : bool := match sv_head_status s with None => true | Some _ => false end.

Definition HEAD_GONE : list (string * pyval) :=
  [("ok", VBool false); ("error", VStr ERROR_HEAD_GONE); ("detail", VStr "the head has exited")].

(** [_op_status]. *)
Definition op_status : SM (list (string * pyval)) :=
  the (λ s,
    [("ok", VBool true); ("run_id", VStr (cf_run_id cf)); ("role", VStr (cf_role cf)); ("task", VStr (cf_task cf));
     ("head_pid", VInt (sv_head_pid s)); ("supervisor_pid", VInt (cf_supervisor_pid cf)); ("alive", VBool (alive s));
     ("draining", VBool (sv_draining s)); ("stopping", VBool (sv_stopping s)); ("turn_open", VBool (sv_turn_open s));
     ("turn", VInt (sv_turn_id s));
     ("delivery", match sv_delivery s with Some d => VDict (delivery_view d) | None => VNone end);
     ("rows", VInt (sv_rows s)); ("cols", VInt (sv_cols s)); ("journal_seq", VInt (jw_seq (sv_writer s)));
     ("output_bytes", VInt (sv_output_total s)); ("dropped_bytes", VInt (sv_output_dropped s));
     ("attached", VInt (attached_count s)); ("attach_limit", VInt ATTACH_MAX_CLIENTS);
     ("connections", VInt (Z.of_nat (length (sv_clients s)))); ("connection_limit", VInt CONNECTION_MAX_CLIENTS);
     ("input_limit_bytes", VInt INPUT_MAX_BYTES); ("output_buffer_bytes", VInt OUTPUT_BUFFER_BYTES)]).

(** The answer to an admitted payload. *)
Definition admitted (payload : string) (request : list (string * pyval)) : SM (list (string * pyval)) :=
  d ← admit_payload payload (py_str_or (get request "subject"));
  the (λ s,
    [("ok", VBool true); ("accepted", VBool true); ("accepted_bytes", VInt (Z.of_nat (String.length payload)));
     ("delivery", VDict (delivery_view d)); ("turn", VInt (sv_turn_id s))]).

(** [_op_input]. *)
Definition op_input (request : list (string * pyval)) : SM (list (string * pyval)) :=
  payload ← lift (decode_payload (get request "data"));
  let size := Z.of_nat (String.length payload) in
  s ← the (λ s, s);
  if INPUT_MAX_BYTES <? size then mret (input_refusal size)
  else if negb (alive s) then mret HEAD_GONE
  else if sv_draining s then
    mret [("ok", VBool false); ("error", VStr ERROR_DRAINING);
          ("detail", VStr "this head's admission is closed; it takes no further input")]
  else match sv_delivery s with
  | Some d => if in_flight d then mret (in_flight_refusal (delivery_view d)) else admitted payload request
  | None => admitted payload request
  end.

(** [_op_output]. *)
Definition op_output (request : list (string * pyval)) : SM (list (string * pyval)) :=
  let asked := get request "max_bytes" in
  limit ← (match py_int (if py_truthy asked then asked else VInt OUTPUT_BUFFER_BYTES) with
           | Ok n => mret n
           | Raise (Exn cls msg) =>
               if String.eqb cls "TypeError" || String.eqb cls "ValueError"
               then raise (ProtocolError "max_bytes is a number") else raise (Exn cls msg)
           end);
  let limit := Z.to_nat (Z.max 0 (Z.min limit OUTPUT_BUFFER_BYTES)) in
  the (λ s,
    let size := String.length (sv_output s) in
    let tail := if (limit =? 0)%nat then "" else str_drop (size - limit) (sv_output s) in
    [("ok", VBool true); ("data", VStr (encode_payload tail)); ("bytes", VInt (Z.of_nat (String.length tail)));
     ("total_bytes", VInt (sv_output_total s));
     ("dropped_bytes", VInt (sv_output_dropped s + Z.max 0 (Z.of_nat size - Z.of_nat (String.length tail))));
     ("truncated", VBool (Z.of_nat (String.length tail) <? sv_output_total s)); ("alive", VBool (alive s))]).

(** [_op_attach]. *)
Definition op_attach (id : nat) : SM (list (string * pyval)) :=
  c ← client id;
  s ← the (λ s, s);
  if cl_attached c then mret [("ok", VBool true); ("attached", VBool true); ("already", VBool true)]
  else if ATTACH_MAX_CLIENTS <=? attached_count s then
    mret [("ok", VBool false); ("error", VStr ERROR_ATTACH_LIMIT); ("limit", VInt ATTACH_MAX_CLIENTS);
          ("attached", VInt (attached_count s));
          ("detail", VStr (pretty (attached_count s) +:+ " callers already hold this head's stream, which is the "
                       +:+ pretty ATTACH_MAX_CLIENTS +:+ "-attachment limit"))]
  else
    on_client id (λ c, c <| cl_attached := true |>) ≫= λ _,
    mret [("ok", VBool true); ("attached", VBool true); ("data", VStr (encode_payload (sv_output s)));
          ("dropped_bytes", VInt (sv_output_dropped s)); ("total_bytes", VInt (sv_output_total s))].

(** [struct.pack("HHHH", rows, cols, 0, 0)] raises outside sixteen bits. *)
Definition unsigned_short (n : Z) : bool := (0 <=? n) && (n <=? 65535).

(** [set_winsize]. *)
Definition set_winsize (rows cols : Z) : SM unit :=
  let rows := Z.max 1 rows in
  let cols := Z.max 1 cols in
  modify (λ s, s <| sv_rows := rows |> <| sv_cols := cols |>
                 <| sv_screen := screen_resize (sv_screen s) (VInt rows) (VInt cols) |>) ≫= λ _,
  master ← the sv_master;
  if negb master then mret tt
  else if unsigned_short rows && unsigned_short cols then emit (EvWinsize rows cols)
  else raise (Exn "struct.error" "'H' format requires 0 <= number <= 65535").

(** [int(request[key])] of a resize. *)
Definition resize_field (request : list (string * pyval)) (key : string) : SM Z :=
  match dict_get request key with
  | None => raise (ProtocolError "a resize names rows and cols")
  | Some v =>
      match py_int v with
      | Ok n => mret n
      | Raise (Exn cls msg) =>
          if String.eqb cls "TypeError" || String.eqb cls "ValueError"
          then raise (ProtocolError "a resize names rows and cols") else raise (Exn cls msg)
      end
  end.

(** [_op_resize]. *)
Definition op_resize (request : list (string * pyval)) : SM (list (string * pyval)) :=
  rows ← resize_field request "rows";
  cols ← resize_field request "cols";
  s ← the (λ s, s);
  if negb (alive s) then mret HEAD_GONE
  else
    set_winsize rows cols ≫= λ _,
    the (λ s, [("ok", VBool true); ("rows", VInt (sv_rows s)); ("cols", VInt (sv_cols s))]).

(** [str(request.get("initiator") or "client")]. *)
Definition initiator_of (request : list (string * pyval)) : string :=
  let v := get request "initiator" in if py_truthy v then py_str v else "client".

(** The drain a caller or a stop asks for. *)
Definition begin_drain (initiator : string) : SM unit :=
  s ← the (λ s, s);
  when (negb (sv_draining s))
    (modify (λ s, s <| sv_draining := true |>) ≫= λ _,
     record DRAIN_REQUESTED [("initiator", VStr initiator); ("turn_open", VBool (sv_turn_open s))]).

(** [_op_drain]. *)
Definition op_drain (request : list (string * pyval)) : SM (list (string * pyval)) :=
  begin_drain (initiator_of request) ≫= λ _,
  the (λ s, [("ok", VBool true); ("draining", VBool true); ("turn_open", VBool (sv_turn_open s))]).

(** [_begin_stop]. *)
Definition begin_stop (initiator : string) (number : Z) : SM unit :=
  s ← the (λ s, s);
  when (negb (sv_stopping s))
    (modify (λ s, s <| sv_stopping := true |>) ≫= λ _,
     begin_drain initiator ≫= λ _,
     record RUN_STOPPING
       [("initiator", VStr initiator); ("signal", VInt number); ("turn_open", VBool (sv_turn_open s))] ≫= λ _,
     signal_head number ≫= λ _,
     now ← call (w_time W);
     modify (λ s, s <| sv_stop_deadline := now + STOP_GRACE_SECONDS |>)).

(** [_op_stop]. *)
Definition op_stop (request : list (string * pyval)) : SM (list (string * pyval)) :=
  let asked := get request "signal" in
  let name := upper (if py_truthy asked then py_str asked else "TERM") in
  match signal_number (if String.prefix "SIG" name then name else "SIG" +:+ name) with
  | None => raise (ProtocolError ("unknown signal " +:+ repr name))
  | Some number =>
      s ← the (λ s, s);
      if negb (alive s) then mret HEAD_GONE
      else
        begin_stop (initiator_of request) number ≫= λ _,
        mret [("ok", VBool true); ("stopping", VBool true); ("signal", VInt number)]
  end.

(** The handler an op names. *)
Definition handler (op : string) (id : nat) (request : list (string * pyval)) : option (SM (list (string * pyval))) :=
  if String.eqb op OP_STATUS then Some op_status
  else if String.eqb op OP_INPUT then Some (op_input request)
  else if String.eqb op OP_OUTPUT then Some (op_output request)
  else if String.eqb op OP_ATTACH then Some (op_attach id)
  else if String.eqb op OP_RESIZE then Some (op_resize request)
  else if String.eqb op OP_DRAIN then Some (op_drain request)
  else if String.eqb op OP_STOP then Some (op_stop request)
  else None.

(** [_handle]. *)
Definition malformed_answer (detail : string) : list (string * pyval) :=
  [("ok", VBool false); ("error", VStr ERROR_MALFORMED); ("detail", VStr detail)].

Definition handle (id : nat) (line : string) : SM unit :=
  emit (EvRequest id line) ≫= λ _,
  match decode_frame line with
  | Raise (Exn _ msg) => send id (malformed_answer msg)
  | Ok request =>
      let request_id := get request REQUEST_ID in
      let op := py_str_or (get request "op") in
      match handler op id request with
      | None =>
          answer id request_id
            [("ok", VBool false); ("error", VStr ERROR_UNKNOWN_OP);
             ("detail", VStr ("unknown op " +:+ repr op +:+ " (known: " +:+ String.concat ", " OPS +:+ ")"))]
      | Some h =>
          catch_protocol (payload ← h; answer id request_id payload)
            (λ msg, answer id request_id (malformed_answer msg))
      end
  end.

(** ** The socket *)

(** One waiting connection of [_accept]: held, or refused with a frame of its own. *)
Definition accept_one : SM unit :=
  s ← the (λ s, s);
  if CONNECTION_MAX_CLIENTS <=? Z.of_nat (length (sv_clients s)) then
    emit (EvRefuse (connection_refusal (Z.of_nat (length (sv_clients s)))))
  else
    let id := length (sv_objects s) in
    modify (λ s, s <| sv_objects := sv_objects s ++ [new_client] |> <| sv_clients := sv_clients s ++ [id] |>) ≫= λ _,
    emit (EvAccept id).

(** [_accept]. *)
Definition accept : SM unit :=
  waiting ← call (w_accepts W); for_each (replicate waiting tt) (λ _, accept_one).

Definition frame_refusal (size : Z) : list (string * pyval) :=
  [("ok", VBool false); ("error", VStr ERROR_FRAME_TOO_LARGE); ("limit_bytes", VInt FRAME_MAX_BYTES);
   ("size_bytes", VInt size);
   ("detail", VStr ("an unterminated request of at least " +:+ pretty size +:+ " bytes exceeds the "
               +:+ pretty FRAME_MAX_BYTES +:+ "-byte frame limit"))].

(** The lines of an inbox, one at a time; every round takes a line off it. *)
Fixpoint line_loop (fuel : nat) (id : nat) : SM unit :=
  match fuel with
  | O => mret tt
  | S fuel =>
      c ← client id;
      if char_in newline (cl_inbox c) then
        let '(line, rest) := str_partition newline (cl_inbox c) in
        on_client id (λ c, c <| cl_inbox := rest |>) ≫= λ _,
        handle id line ≫= λ _,
        c ← client id;
        if cl_closing c then mret tt else line_loop fuel id
      else
        when (FRAME_MAX_BYTES <? Z.of_nat (String.length (cl_inbox c)))
          (send id (frame_refusal (Z.of_nat (String.length (cl_inbox c)))) ≫= λ _,
           on_client id (λ c, c <| cl_inbox := "" |> <| cl_closing := true |>))
  end.

(** [_read_client]. *)
Definition read_client (id : nat) : SM unit :=
  c ← client id;
  received ← call (w_recv W);
  match (if cl_open c then received else RecvFails) with
  | RecvBlocks => mret tt
  | RecvFails | Received "" => close_client id
  | Received data =>
      let inbox := cl_inbox c +:+ data in
      on_client id (λ c, c <| cl_inbox := inbox |>) ≫= λ _, line_loop (S (String.length inbox)) id
  end.

(** ** The loop *)

(** What the selector reported. *)
Inductive Key := KListener | KMaster (readable writable : bool) | KWakeup (signal : Z) | KClient (id : nat) (readable writable : bool).

(** [_dispatch]; a wakeup carries the signal the handler remembered. *)
Definition dispatch (k : Key) : SM unit :=
  match k with
  | KListener => accept
  | KMaster readable writable => when readable read_head ≫= λ _, when writable pump_delivery
  | KWakeup number => modify (λ s, s <| sv_signalled := number |>)
  | KClient id readable writable =>
      s ← the (λ s, s);
      match sv_objects s !! id with
      | None => mret tt
      | Some _ => when writable (flush id) ≫= λ _, when readable (read_client id)
      end
  end.

(** [_tick]. *)
Definition tick : SM unit :=
  now ← call (w_time W);
  s ← the (λ s, s);
  when (negb (sv_signalled s =? 0) && negb (sv_stopping s))
    (begin_stop ("signal:" +:+ pretty (sv_signalled s)) SIGTERM) ≫= λ _,
  s ← the (λ s, s);
  (if sv_turn_open s && negb (sv_last_output_at s =? 0) && (cf_quiet_seconds cf <=? now - sv_last_output_at s) then
     flush_progress ≫= λ _,
     close_turn "quiet" [("quiet_seconds", VFloat (FFin (cf_quiet_seconds cf)))]
   else when (sv_turn_open s && negb (sv_window_bytes s =? 0) && (PROGRESS_COALESCE_SECONDS <=? now - sv_progress_at s))
     flush_progress) ≫= λ _,
  expire_delivery ≫= λ _,
  s ← the (λ s, s);
  when (sv_stopping s && negb (sv_stop_deadline s =? 0) && (sv_stop_deadline s <=? now))
    (modify (λ s, s <| sv_stop_deadline := 0 |>) ≫= λ _, signal_head SIGKILL) ≫= λ _,
  reap.

(** One pass of the loop in [run]. *)
Definition pass (keys : list Key) : SM unit := for_each keys dispatch ≫= λ _, tick.

(** ** Ending *)

(** [os.WTERMSIG] and [os.WEXITSTATUS] of a wait status. *)
Definition term_signal (status : Z) : Z := Z.land status 127.
Definition exit_status (status : Z) : Z := Z.land (Z.shiftr status 8) 255.
Definition signaled (status : Z) : bool := negb (term_signal status =? 0) && negb (term_signal status =? 127).
Definition exited (status : Z) : bool := term_signal status =? 0.

Definition pending_somewhere (s : Sup) : bool :=
  existsb (λ id, match sv_objects s !! id with Some c => nonempty (cl_pending c) | None => false end) (sv_clients s).

Fixpoint farewell (rounds : nat) : SM unit :=
  match rounds with
  | O => mret tt
  | S rounds =>
      s ← the (λ s, s);
      when (pending_somewhere s) (for_each (sv_clients s) flush ≫= λ _, farewell rounds)
  end.

(** [_finish]. *)
Definition finish : SM Z :=
  s0 ← the (λ s, s);
  let status := default 0 (sv_head_status s0) in
  finish_delivery DELIVERY_FAILED "the head exited before the delivery finished" ≫= λ _,
  flush_progress ≫= λ _,
  turn_open ← the sv_turn_open;
  when turn_open (close_turn "head_exited" []) ≫= λ _,
  s ← the (λ s, s);
  rec ← append RUN_EXITED
    [("head_pid", VInt (sv_head_pid s)); ("output_bytes", VInt (sv_output_total s));
     ("dropped_bytes", VInt (sv_output_dropped s)); ("stopping", VBool (sv_stopping s));
     ("signal", if signaled status then VInt (term_signal status) else VNone);
     ("exit_code", if exited status then VInt (exit_status status) else VNone)];
  for_each (sv_clients s) (λ id,
    c ← client id;
    when (cl_attached c)
      (announce_dropped id ≫= λ _,
       queue id [("event", VStr EVENT_EXITED); ("record", VDict rec)]) ≫= λ _,
    flush id) ≫= λ _,
  rounds ← call (w_farewells W);
  farewell rounds ≫= λ _,
  mret EXIT_OK.

(** [_shutdown]. *)
Definition shutdown : SM unit :=
  s ← the (λ s, s);
  for_each (sv_clients s) close_client ≫= λ _,
  modify (λ s, s <| sv_master := false |> <| sv_writer := close_writer (sv_writer s) |>).

(** [_abandon_head]. *)
Fixpoint abandon_loop (waits : list Wait) : SM bool :=
  match waits with
  | [] => mret false
  | Running :: waits => abandon_loop waits
  | Exited status :: _ => modify (λ s, s <| sv_head_status := Some status |>) ≫= λ _, mret true
  | NoChild :: _ => modify (λ s, s <| sv_head_status := Some 0 |>) ≫= λ _, mret true
  end.

Definition abandon_head : SM unit :=
  s ← the (λ s, s);
  if (sv_head_pid s <=? 0) || negb (alive s) then mret tt
  else
    signal_head SIGTERM ≫= λ _,
    waits ← call (w_abandon W);
    abandon_loop waits ≫= λ gone : bool,
    if gone then mret tt
    else
      signal_head SIGKILL ≫= λ _,
      waited ← call (w_wait W);
      modify (λ s, s <| sv_head_status := Some (match waited with Exited status => status | _ => 0 end) |>).

(** [_begin] of an unscoped head: the fork answers with the head's pid; writing
    the supervisor's pid file may fail after it. *)
Definition begin : SM unit :=
  w ← lift (new_writer (cf_run_id cf));
  f ← the sv_file;
  '(w, f) ← lift (open_writer w f);
  modify (λ s, s <| sv_writer := w |> <| sv_file := f |>) ≫= λ _,
  forked ← call (w_fork W);
  pid ← lift forked;
  modify (λ s, s <| sv_head_pid := pid |> <| sv_master := true |>) ≫= λ _,
  written ← call (w_pid_file W);
  lift written ≫= λ _,
  s ← the (λ s, s);
  record RUN_STARTED
    [("head_pid", VInt pid); ("supervisor_pid", VInt (cf_supervisor_pid cf)); ("command", VStr (cf_command cf));
     ("rows", VInt (sv_rows s)); ("cols", VInt (sv_cols s)); ("role", VStr (cf_role cf)); ("task", VStr (cf_task cf));
     ("pid_file", VStr (cf_pid_file cf)); ("socket_path", VStr (cf_socket_path cf));
     ("input_limit_bytes", VInt INPUT_MAX_BYTES); ("output_buffer_bytes", VInt OUTPUT_BUFFER_BYTES);
     ("attach_limit", VInt ATTACH_MAX_CLIENTS)] ≫= λ _,
  modify (λ s, s <| sv_started := true |>).

(** The [while] of [run] over the batches the selector reports; [None]: the head
    is still running when they end. *)
Fixpoint loop (batches : list (list Key)) : SM (option Z) :=
  s ← the (λ s, s);
  if alive s then
    match batches with
    | [] => mret None
    | keys :: batches => pass keys ≫= λ _, loop batches
    end
  else finish ≫= λ exit : Z, mret (Some exit).

(** [run], with its two clean-ups. *)
Definition run (batches : list (list Key)) : SM (option Z) := λ s,
  let '(begun, s1) := begin s in
  match begun with
  | Raise e =>
      let '(abandoned, s2) := abandon_head s1 in
      let '(_, s3) := shutdown s2 in
      (Raise (match abandoned with Raise e' => e' | Ok _ => e end), s3)
  | Ok _ =>
      let '(r, s2) := loop batches s1 in
      match r with
      | Ok None => (Ok None, s2)
      | _ => let '(_, s3) := shutdown s2 in (r, s3)
      end
  end.

(** How [main] ends a claimed run: the exit code, and the failure file and
    reason it leaves, if any. *)
Definition main (batches : list (list Key)) (s : Sup) : option (Z * option (string * string)) * Sup :=
  let '(r, s') := run batches s in
  (match r with
   | Ok None => None
   | Ok (Some code) => Some (code, None)
   | Raise _ => let '(name, reason, code) := failure_of (sv_started s') in Some (code, Some (name, reason))
   end, s').

(** [Supervisor.__init__], over the journal file it finds. *)
Definition new_supervisor (rows cols : Z) (f : File) : Sup := {|
  sv_rows := Z.max 1 rows; sv_cols := Z.max 1 cols; sv_objects := []; sv_clients := [];
  sv_writer := {| jw_run_id := cf_run_id cf; jw_open := false; jw_seq := 0 |}; sv_file := f;
  sv_master := false; sv_head_pid := 0; sv_head_status := None; sv_output := ""; sv_output_dropped := 0;
  sv_output_total := 0; sv_screen := new_screen (VInt (Z.max 1 rows)) (VInt (Z.max 1 cols)); sv_turn_open := false;
  sv_turn_id := 0; sv_turn_bytes := 0; sv_last_output_at := 0; sv_progress_bytes := 0; sv_progress_at := 0;
  sv_window_bytes := 0; sv_seen := []; sv_visible := []; sv_folded := 0; sv_delivery := None; sv_delivery_seq := 0;
  sv_started := false; sv_draining := false; sv_stopping := false; sv_stop_deadline := 0; sv_signalled := 0;
  sv_calls := 0; sv_log := [] |}.
End supervisor.
