(* ===== verification/SupervisorSpec.v ===== *)
(** * What a supervisor's life may look like

    The supervisor's contract as an automaton over its log: one delivery at a
    time, its bytes in order and its record exact; turns that open on landed
    input and close with the bytes they saw; draining before stopping, each
    once; one answer to one question, carrying its id; a bounded number of
    callers.  The theorems that follow from the automaton alone are here; that
    the program only has accepted logs is in [SupervisorFacts]. *)

From S2P Require Import Prelude PyText JsonText Json Base64 Protocol Journal Screen Supervisor.

Section spec.
Context `{PyRepr, JsonText}.

(** The life so far. *)
Record Life := {
  lf_started : bool; lf_ended : bool;
  lf_open : option (Z * string * nat);     (** the delivery in flight: id, payload, bytes on the terminal *)
  lf_seq : Z;                              (** deliveries admitted *)
  lf_landed : bool;                        (** the last delivery put bytes on the terminal *)
  lf_turn : option Z; lf_turn_id : Z;      (** the open turn's output bytes; turns opened *)
  lf_stream : string;                      (** everything the head wrote *)
  lf_drained : bool; lf_stopping : bool;
  lf_held : list nat;                      (** the callers held *)
  lf_asked : option (nat * pyval);         (** the question not answered yet, and its id *)
}.

#[global] Instance Life_settable : Settable Life := λ l, {|
  lf_started := lf_started l; lf_ended := lf_ended l; lf_open := lf_open l; lf_seq := lf_seq l; lf_landed := lf_landed l;
  lf_turn := lf_turn l; lf_turn_id := lf_turn_id l; lf_stream := lf_stream l; lf_drained := lf_drained l;
  lf_stopping := lf_stopping l; lf_held := lf_held l; lf_asked := lf_asked l |}.

Definition born : Life := {|
  lf_started := false; lf_ended := false; lf_open := None; lf_seq := 0; lf_landed := false; lf_turn := None;
  lf_turn_id := 0; lf_stream := ""; lf_drained := false; lf_stopping := false; lf_held := []; lf_asked := None |}.

(** An [input.accepted] record that tells the truth about a delivery. *)
Definition truthful (id : Z) (payload : string) (written : nat) (fields : list (string * pyval)) : Prop :=
  get fields "delivery" = VInt id ∧ get fields "bytes" = VInt (Z.of_nat written) ∧
  get fields "offered_bytes" = VInt (Z.of_nat (String.length payload)) ∧
  ∃ complete, get fields "complete" = VBool complete ∧
    if complete then written = String.length payload else (written < String.length payload)%nat ∨ payload = "".

(** The record may be journalled now. *)
Definition may_record (l : Life) (kind : string) (fields : list (string * pyval)) : Prop :=
  if String.eqb kind RUN_STARTED then lf_started l = false
  else lf_started l = true ∧ lf_ended l = false ∧
    if String.eqb kind INPUT_ACCEPTED then
      match lf_open l with Some (id, payload, written) => truthful id payload written fields | None => False end
    else if String.eqb kind TURN_STARTED then
      lf_turn l = None ∧ lf_landed l = true ∧ get fields "turn" = VInt (lf_turn_id l + 1)
    else if String.eqb kind TURN_FINISHED then
      match lf_turn l with
      | Some n => get fields "turn" = VInt (lf_turn_id l) ∧ get fields "output_bytes" = VInt n
      | None => False
      end
    else if String.eqb kind PROVIDER_PROGRESSED then
      lf_turn l ≠ None ∧ get fields "turn" = VInt (lf_turn_id l) ∧
      get fields "total_output_bytes" = VInt (Z.of_nat (String.length (lf_stream l)))
    else if String.eqb kind DRAIN_REQUESTED then lf_drained l = false
    else if String.eqb kind RUN_STOPPING then lf_drained l = true ∧ lf_stopping l = false
    else if String.eqb kind RUN_EXITED then lf_open l = None ∧ lf_turn l = None
    else False.

Definition recorded (l : Life) (kind : string) (fields : list (string * pyval)) : Life :=
  if String.eqb kind RUN_STARTED then l <| lf_started := true |>
  else if String.eqb kind INPUT_ACCEPTED then
    match lf_open l with
    | Some (_, _, written) => l <| lf_open := None |> <| lf_landed := negb (written =? 0)%nat |>
    | None => l
    end
  else if String.eqb kind TURN_STARTED then
    l <| lf_turn := Some 0 |> <| lf_turn_id := lf_turn_id l + 1 |>
  else if String.eqb kind TURN_FINISHED then l <| lf_turn := None |>
  else if String.eqb kind DRAIN_REQUESTED then l <| lf_drained := true |>
  else if String.eqb kind RUN_STOPPING then l <| lf_stopping := true |>
  else if String.eqb kind RUN_EXITED then l <| lf_ended := true |>
  else l.

(** The frame answers a question with this id: it repeats a text or a number,
    and carries nothing for anything else. *)
Definition answers (request_id : pyval) (frame : list (string * pyval)) : Prop :=
  match request_id with
  | VStr _ | VInt _ => dict_get frame REQUEST_ID = Some request_id
  | _ => dict_get frame REQUEST_ID = None
  end.

Definition asked_id (line : string) : pyval :=
  match decode_frame line with Ok request => get request REQUEST_ID | Raise _ => VNone end.

(** Frames that answer nothing: pushed events, and the refusal of a frame that
    never ends. *)
Definition unasked (frame : list (string * pyval)) : bool :=
  dict_has frame "event" || match get frame "error" with VStr e => String.eqb e ERROR_FRAME_TOO_LARGE | _ => false end.

(** The event may happen now. *)
Definition may (l : Life) (e : Ev) : Prop :=
  match e with
  | EvRecord kind fields => may_record l kind fields
  | EvPty bytes =>
      match lf_open l with
      | Some (_, payload, written) => str_take (String.length bytes) (str_drop written payload) = bytes
      | None => False
      end
  | EvOutput _ => True
  | EvSignal _ => lf_stopping l = true ∨ lf_started l = false
  | EvAdmit id payload =>
      lf_started l = true ∧ lf_ended l = false ∧ lf_drained l = false ∧ lf_open l = None ∧ id = lf_seq l + 1 ∧
      Z.of_nat (String.length payload) ≤ INPUT_MAX_BYTES
  | EvAccept c => c ∉ lf_held l ∧ Z.of_nat (length (lf_held l)) < CONNECTION_MAX_CLIENTS
  | EvRefuse _ => CONNECTION_MAX_CLIENTS ≤ Z.of_nat (length (lf_held l))
  | EvClose _ => True
  | EvRequest _ _ => lf_asked l = None
  | EvFrame c frame =>
      if unasked frame then lf_asked l = None
      else match lf_asked l with Some (c', request_id) => c' = c ∧ answers request_id frame | None => False end
  | EvWinsize rows cols => 1 ≤ rows ≤ 65535 ∧ 1 ≤ cols ≤ 65535
  end.

Definition live (l : Life) (e : Ev) : Life :=
  match e with
  | EvRecord kind fields => recorded l kind fields
  | EvPty bytes =>
      match lf_open l with
      | Some (id, payload, written) => l <| lf_open := Some (id, payload, (written + String.length bytes)%nat) |>
      | None => l
      end
  | EvOutput chunk =>
      l <| lf_stream := lf_stream l +:+ chunk |>
        <| lf_turn := (λ n, n + Z.of_nat (String.length chunk)) <$> lf_turn l |>
  | EvAdmit id payload => l <| lf_open := Some (id, payload, 0%nat) |> <| lf_seq := id |> <| lf_landed := false |>
  | EvAccept c => l <| lf_held := lf_held l ++ [c] |>
  | EvClose c => l <| lf_held := List.filter (λ i, negb (i =? c)%nat) (lf_held l) |>
  | EvRequest c line => l <| lf_asked := Some (c, asked_id line) |>
  | EvFrame _ frame => if unasked frame then l else l <| lf_asked := None |>
  | EvSignal _ | EvRefuse _ | EvWinsize _ _ => l
  end.

(** *** The records one by one *)

Lemma may_started l f : may l (EvRecord RUN_STARTED f) ↔ lf_started l = false.
Proof. done. Qed.

Lemma may_accepted l f : may l (EvRecord INPUT_ACCEPTED f) ↔ lf_started l = true ∧ lf_ended l = false ∧
  match lf_open l with Some (id, payload, written) => truthful id payload written f | None => False end.
Proof. done. Qed.

Lemma may_turn_started l f : may l (EvRecord TURN_STARTED f) ↔ lf_started l = true ∧ lf_ended l = false ∧
  lf_turn l = None ∧ lf_landed l = true ∧ get f "turn" = VInt (lf_turn_id l + 1).
Proof. done. Qed.

Lemma may_turn_finished l f : may l (EvRecord TURN_FINISHED f) ↔ lf_started l = true ∧ lf_ended l = false ∧
  match lf_turn l with
  | Some n => get f "turn" = VInt (lf_turn_id l) ∧ get f "output_bytes" = VInt n
  | None => False
  end.
Proof. done. Qed.

Lemma may_progressed l f : may l (EvRecord PROVIDER_PROGRESSED f) ↔ lf_started l = true ∧ lf_ended l = false ∧
  lf_turn l ≠ None ∧ get f "turn" = VInt (lf_turn_id l) ∧
  get f "total_output_bytes" = VInt (Z.of_nat (String.length (lf_stream l))).
Proof. done. Qed.

Lemma may_drain l f : may l (EvRecord DRAIN_REQUESTED f) ↔
  lf_started l = true ∧ lf_ended l = false ∧ lf_drained l = false.
Proof. done. Qed.

Lemma may_stopping l f : may l (EvRecord RUN_STOPPING f) ↔
  lf_started l = true ∧ lf_ended l = false ∧ lf_drained l = true ∧ lf_stopping l = false.
Proof. done. Qed.

Lemma may_exited l f : may l (EvRecord RUN_EXITED f) ↔
  lf_started l = true ∧ lf_ended l = false ∧ lf_open l = None ∧ lf_turn l = None.
Proof. done. Qed.

Lemma live_started l f : live l (EvRecord RUN_STARTED f) = l <| lf_started := true |>.
Proof. done. Qed.

Lemma live_accepted l f id payload written : lf_open l = Some (id, payload, written) →
  live l (EvRecord INPUT_ACCEPTED f) = l <| lf_open := None |> <| lf_landed := negb (written =? 0)%nat |>.
Proof. intros E. cbn [live]. unfold recorded. cbn. by rewrite E. Qed.

Lemma live_turn_started l f :
  live l (EvRecord TURN_STARTED f) = l <| lf_turn := Some 0 |> <| lf_turn_id := lf_turn_id l + 1 |>.
Proof. done. Qed.

Lemma live_turn_finished l f : live l (EvRecord TURN_FINISHED f) = l <| lf_turn := None |>.
Proof. done. Qed.

Lemma live_progressed l f : live l (EvRecord PROVIDER_PROGRESSED f) = l.
Proof. done. Qed.

Lemma live_drain l f : live l (EvRecord DRAIN_REQUESTED f) = l <| lf_drained := true |>.
Proof. done. Qed.

Lemma live_stopping l f : live l (EvRecord RUN_STOPPING f) = l <| lf_stopping := true |>.
Proof. done. Qed.

Lemma live_exited l f : live l (EvRecord RUN_EXITED f) = l <| lf_ended := true |>.
Proof. done. Qed.

(** The log is a life the contract allows. *)
Fixpoint allowed (l : Life) (log : list Ev) : Prop :=
  match log with [] => True | e :: log => may l e ∧ allowed (live l e) log end.

Definition lived (log : list Ev) : Life := foldl live born log.

Lemma allowed_app l log log' : allowed l (log ++ log') ↔ allowed l log ∧ allowed (foldl live l log) log'.
Proof. revert l. induction log as [|e log IH]; intros l; cbn [allowed app foldl]; [tauto|]. rewrite IH. tauto. Qed.

Lemma allowed_snoc log e : allowed born (log ++ [e]) ↔ allowed born log ∧ may (lived log) e.
Proof. rewrite allowed_app. cbn [allowed]. fold (lived log). tauto. Qed.

Lemma lived_snoc log e : lived (log ++ [e]) = live (lived log) e.
Proof. unfold lived. by rewrite foldl_app. Qed.
End spec.
