(* ===== verification/SupervisorFacts.v ===== *)
(** * The supervisor keeps its contract

    A relation between the supervisor's state and the life its log tells, kept
    by every operation; on an exception the log is still an allowed one. *)

From S2P Require Import Prelude PyText JsonText Json Base64 Protocol Journal Screen ScreenFacts Supervisor SupervisorSpec.

(** ** Weakest preconditions: [Q] after a return, [E] after an exception *)

Definition wp {A} (m : SM A) (Q : A → Sup → Prop) (E : exn → Sup → Prop) (s : Sup) : Prop :=
  match m s with (Ok a, s') => Q a s' | (Raise e, s') => E e s' end.

Definition is_protocol (e : exn) : bool := let '(Exn cls _) := e in String.eqb cls "ProtocolError".

Section wp.
Context (E : exn → Sup → Prop).

Lemma wp_ret {A} (a : A) Q s : Q a s → wp (mret a) Q E s.
Proof. done. Qed.

Lemma wp_bind {A B} (m : SM A) (k : A → SM B) Q s : wp m (λ a, wp (k a) Q E) E s → wp (m ≫= k) Q E s.
Proof. unfold wp, mbind, SM_bind. by destruct (m s) as [[a|e] s']. Qed.

Lemma wp_mono {A} (m : SM A) (Q Q' : A → Sup → Prop) s : (∀ a s, Q a s → Q' a s) → wp m Q E s → wp m Q' E s.
Proof. intros HQ. unfold wp. destruct (m s) as [[a|e] s']; [apply HQ|done]. Qed.

Lemma wp_mono_exn {A} (m : SM A) Q (E' : exn → Sup → Prop) s : (∀ e s, E e s → E' e s) → wp m Q E s → wp m Q E' s.
Proof. intros HE. unfold wp. destruct (m s) as [[a|e] s']; [done|apply HE]. Qed.

Lemma wp_the {A} (f : Sup → A) Q s : Q (f s) s → wp (the f) Q E s.
Proof. done. Qed.

Lemma wp_modify f (Q : unit → Sup → Prop) s : Q tt (f s) → wp (modify f) Q E s.
Proof. done. Qed.

Lemma wp_call {A} (f : nat → A) Q s :
  Q (f (sv_calls s)) (s <| sv_calls := S (sv_calls s) |>) → wp (call f) Q E s.
Proof. done. Qed.

Lemma wp_raise {A} e (Q : A → Sup → Prop) s : E e s → wp (raise e) Q E s.
Proof. done. Qed.

Lemma wp_lift {A} (r : res A) Q s : (∀ e, r = Raise e → E e s) → (∀ a, r = Ok a → Q a s) → wp (lift r) Q E s.
Proof. intros He HQ. unfold wp, lift. destruct r; auto. Qed.

Lemma wp_when b m (Q : unit → Sup → Prop) s :
  (b = true → wp m Q E s) → (b = false → Q tt s) → wp (when b m) Q E s.
Proof. destruct b; cbn; [auto|]. intros _ HQ. apply wp_ret. auto. Qed.

Lemma wp_for_each {A} (l : list A) f (P : Sup → Prop) :
  (∀ a s, a ∈ l → P s → wp (f a) (λ _, P) E s) → ∀ s, P s → wp (for_each l f) (λ _, P) E s.
Proof.
  induction l as [|a l IH]; intros Hf s Hs; cbn [for_each]; [by apply wp_ret|]. apply wp_bind.
  eapply wp_mono; [|apply Hf; [by left|done]]. cbn. intros _ s' Hs'. apply IH; [|done].
  intros b s1 Hb. apply Hf. by right.
Qed.

Lemma wp_catch {A} (m : SM A) h Q s :
  wp m Q (λ e s, if is_protocol e then ∀ msg, wp (h msg) Q E s else E e s) s → wp (catch_protocol m h) Q E s.
Proof.
  unfold wp, catch_protocol. destruct (m s) as [[a|[cls msg]] s']; [done|]. cbn [is_protocol].
  destruct (String.eqb cls "ProtocolError"); [|done]. intros Hh. apply Hh.
Qed.
End wp.

(** The state's projections past an update, and the life's. *)
Ltac sup_simpl :=
  cbn [update sv_rows sv_cols sv_objects sv_clients sv_writer sv_file sv_master sv_head_pid sv_head_status
    sv_output sv_output_dropped sv_output_total sv_screen sv_turn_open sv_turn_id sv_turn_bytes sv_last_output_at
    sv_progress_bytes sv_progress_at sv_window_bytes sv_seen sv_visible sv_folded sv_delivery sv_delivery_seq
    sv_started sv_draining sv_stopping sv_stop_deadline sv_signalled sv_calls sv_log
    lf_started lf_ended lf_open lf_seq lf_landed lf_turn lf_turn_id lf_stream lf_drained lf_stopping
    lf_held lf_asked] in *.

Section facts.
Context `{PyRepr, JsonText, Unicode}.
Variable repr : string → string.
Variable fmt_g : Z → string.
Variable is_word is_digit : Z → bool.
Variable digest : list Z → string.
Variable W : World.
Variable cf : Config.

(** The log tells an allowed life. *)
Definition lawful (s : Sup) : Prop := allowed born (sv_log s).

Definition life (s : Sup) : Life := lived (sv_log s).

(** What an exception that ends the run leaves: a lawful log, and it is none the
    request loop would answer. *)
Definition strict (e : exn) (s : Sup) : Prop := lawful s ∧ is_protocol e = false.

Definition held_delivery (s : Sup) : option (Z * string * nat) :=
  match sv_delivery s with
  | Some d => if in_flight d then Some (dl_id d, dl_payload d, dl_written d) else None
  | None => None
  end.

(** What of the state the contract speaks of agrees with the life [l]; [asked] is
    the question being answered. *)
Record relates (asked : option (nat * pyval)) (l : Life) (s : Sup) : Prop := {
  rl_started : lf_started l = true;
  rl_ended : lf_ended l = false;
  rl_open : lf_open l = held_delivery s;
  rl_seq : lf_seq l = sv_delivery_seq s;
  rl_turn : lf_turn l = if sv_turn_open s then Some (sv_turn_bytes s) else None;
  rl_turn_id : lf_turn_id l = sv_turn_id s;
  rl_window : sv_window_bytes s ≠ 0 → sv_turn_open s = true;
  rl_total : sv_output_total s = Z.of_nat (String.length (lf_stream l));
  rl_output : sv_output s = str_drop (String.length (lf_stream l) - Z.to_nat OUTPUT_BUFFER_BYTES) (lf_stream l);
  rl_dropped : sv_output_dropped s = Z.of_nat (String.length (lf_stream l) - Z.to_nat OUTPUT_BUFFER_BYTES);
  rl_drained : lf_drained l = sv_draining s;
  rl_stopping : lf_stopping l = sv_stopping s;
  rl_held : lf_held l = sv_clients s;
  rl_nodup : NoDup (sv_clients s);
  rl_clients_open : ∀ id, id ∈ sv_clients s → ∃ c, sv_objects s !! id = Some c ∧ cl_open c = true;
  rl_open_clients : ∀ id c, sv_objects s !! id = Some c → cl_open c = true → id ∈ sv_clients s;
  rl_connections : Z.of_nat (length (sv_clients s)) ≤ CONNECTION_MAX_CLIENTS;
  rl_attached : attached_count s ≤ ATTACH_MAX_CLIENTS;
  rl_asked : lf_asked l = asked;
  rl_screen : wf_screen (sv_screen s);
}.

Definition related (asked : option (nat * pyval)) (s : Sup) : Prop := lawful s ∧ relates asked (life s) s.

(** A delivery in flight has bytes left to place. *)
Definition short (s : Sup) : Prop :=
  match held_delivery s with
  | Some (_, payload, written) => (written < String.length payload)%nat ∨ payload = "" ∧ written = 0%nat
  | None => True
  end.

Definition faithful (asked : option (nat * pyval)) (s : Sup) : Prop := related asked s ∧ short s.

Definition preserves {A} (P : Sup → Prop) (m : SM A) : Prop := ∀ s, P s → wp m (λ _, P) strict s.

Notation keeps asked := (preserves (faithful asked)).

(** Prove [relates] of an updated life and an updated state field by field. *)
Ltac fields H :=
  destruct H; split; unfold held_delivery, attached_count in *; sup_simpl; try done; try congruence.

(** The fields the contract does not speak of. *)
Definition same_contract (s s' : Sup) : Prop :=
  sv_log s' = sv_log s ∧ sv_delivery s' = sv_delivery s ∧ sv_delivery_seq s' = sv_delivery_seq s ∧
  sv_turn_open s' = sv_turn_open s ∧ sv_turn_bytes s' = sv_turn_bytes s ∧ sv_turn_id s' = sv_turn_id s ∧
  (sv_window_bytes s' = sv_window_bytes s ∨ sv_window_bytes s' = 0) ∧ sv_output_total s' = sv_output_total s ∧
  sv_output s' = sv_output s ∧ sv_output_dropped s' = sv_output_dropped s ∧ sv_draining s' = sv_draining s ∧
  sv_stopping s' = sv_stopping s ∧ sv_clients s' = sv_clients s ∧ sv_objects s' = sv_objects s ∧
  sv_screen s' = sv_screen s.

Lemma related_same asked s s' : same_contract s s' → related asked s → related asked s'.
Proof.
  intros (E1 & E2 & E3 & E4 & E5 & E6 & E7 & E8 & E9 & E10 & E11 & E12 & E13 & E14 & E15) [Hl Hr].
  split; unfold lawful, life in *; rewrite E1; [done|]. destruct Hr. split; unfold held_delivery, attached_count in *;
    rewrite ?E2, ?E3, ?E4, ?E5, ?E6, ?E8, ?E9, ?E10, ?E11, ?E12, ?E13, ?E14, ?E15; try done.
  destruct E7 as [->| ->]; done.
Qed.

Lemma short_same s s' : sv_delivery s' = sv_delivery s → short s → short s'.
Proof. unfold short, held_delivery. by intros ->. Qed.

Lemma faithful_same asked s s' : same_contract s s' → faithful asked s → faithful asked s'.
Proof. intros E [Hr Hs]. split; [by eapply related_same|]. eapply short_same; [|done]. apply E. Qed.

(** [faithful] or [related] of a state that differs in such fields only. *)
Ltac same :=
  cbv beta in *;
  first [eapply faithful_same; [|eassumption] | eapply related_same; [|eassumption]]; by (split_and!; cbn; auto).

Lemma faithful_lawful asked s : faithful asked s → lawful s.
Proof. by intros [[] _]. Qed.

Lemma lawful_log s s' : sv_log s' = sv_log s → lawful s → lawful s'.
Proof. unfold lawful. by intros ->. Qed.

(** ** Emitting an event *)

(** [s'] is [s] after the event [e], as far as the log goes. *)
Definition after (e : Ev) (s s' : Sup) : Prop := sv_log s' = sv_log s ++ [e].

Lemma related_after asked e s s' :
  after e s s' → lawful s → may (life s) e → relates asked (live (life s) e) s' → related asked s'.
Proof.
  intros E Hl Hm Hr. unfold related, lawful, life in *. rewrite E. split; [by apply allowed_snoc|]. by rewrite lived_snoc.
Qed.

Lemma life_after e s s' : after e s s' → life s' = live (life s) e.
Proof. intros E. unfold life. rewrite E. apply lived_snoc. Qed.

Lemma lawful_after e s s' : after e s s' → lawful s → may (life s) e → lawful s'.
Proof. intros E Hl Hm. unfold lawful. rewrite E. by apply allowed_snoc. Qed.

Lemma wp_emit e E (Q : unit → Sup → Prop) s :
  Q tt (s <| sv_log := sv_log s ++ [e] |>) → wp (emit e) Q E s.
Proof. done. Qed.

Lemma wp_append_any kind fields Q (E : exn → Sup → Prop) s :
  (∀ e n w f, is_protocol e = false → E e (s <| sv_calls := n |> <| sv_writer := w |> <| sv_file := f |>)) →
  (∀ r n w f, Q r (s <| sv_calls := n |> <| sv_writer := w |> <| sv_file := f |>
                     <| sv_log := sv_log s ++ [EvRecord kind fields] |>)) →
  wp (append repr W kind fields) Q E s.
Proof.
  intros HE HQ. unfold append. apply wp_bind, wp_call, wp_bind, wp_call, wp_bind, wp_the, wp_bind, wp_the.
  destruct (Journal.append _ _ _ _ _ _ _) as [[r w'] f'] eqn:EJ. apply wp_bind, wp_modify. destruct r as [rec|e].
  - apply wp_bind, wp_emit, wp_ret. apply HQ.
  - apply wp_raise, HE. unfold Journal.append in EJ. repeat case_match; simplify_eq; done.
Qed.

Lemma wp_append kind fields Q s :
  lawful s → may_record (life s) kind fields →
  (∀ r n w f, Q r (s <| sv_calls := n |> <| sv_writer := w |> <| sv_file := f |>
                     <| sv_log := sv_log s ++ [EvRecord kind fields] |>)) →
  wp (append repr W kind fields) Q strict s.
Proof. intros Hl Hm HQ. apply wp_append_any; [|done]. intros e n w f He. split; [by eapply lawful_log|done]. Qed.

Lemma wp_record kind fields (Q : unit → Sup → Prop) s :
  lawful s → may_record (life s) kind fields →
  (∀ n w f, Q tt (s <| sv_calls := n |> <| sv_writer := w |> <| sv_file := f |>
                    <| sv_log := sv_log s ++ [EvRecord kind fields] |>)) →
  wp (record repr W kind fields) Q strict s.
Proof. intros Hl Hm HQ. apply wp_bind, wp_append; [done..|]. intros _ n w f. apply wp_ret, HQ. Qed.

(** ** Deliveries *)

Lemma held_finished s d : in_flight d = false → sv_delivery s = Some d → held_delivery s = None.
Proof. intros Hd E. unfold held_delivery. by rewrite E, Hd. Qed.

Lemma open_turn_related asked subject s :
  related asked s → sv_turn_open s = false → lf_landed (life s) = true →
  wp (open_turn repr W subject) (λ _ s', related asked s' ∧ sv_delivery s' = sv_delivery s) strict s.
Proof.
  intros [Hl Hr] Ht Hland. unfold open_turn. apply wp_bind, wp_call, wp_bind, wp_modify, wp_bind, wp_the.
  assert (may (life s) (EvRecord TURN_STARTED [("turn", VInt (sv_turn_id s + 1)); ("subject", VStr subject)])) as Hm.
  { destruct Hr. rewrite Ht in rl_turn0. apply may_turn_started. split_and!; try done. by rewrite rl_turn_id0. }
  apply wp_record; [by eapply lawful_log|exact Hm|]. intros n w f. split; [|done].
  eapply (related_after asked _ s); [reflexivity|exact Hl|exact Hm|]. rewrite live_turn_started. by fields Hr.
Qed.

(** How a delivery may end: complete exactly when every byte is placed. *)
Definition ends_as (state : DeliveryState) (s : Sup) : Prop :=
  match held_delivery s with
  | Some (_, payload, written) =>
      match state with
      | DELIVERY_COMPLETE => written = String.length payload
      | DELIVERY_IN_FLIGHT => False
      | _ => (written < String.length payload)%nat ∨ payload = ""
      end
  | None => True
  end.

Lemma finish_delivery_ends asked state why s :
  related asked s → ends_as state s →
  wp (finish_delivery repr fmt_g W state why) (λ _ s', faithful asked s' ∧ held_delivery s' = None) strict s.
Proof.
  intros [Hl Hr] He. unfold finish_delivery. apply wp_bind, wp_the.
  destruct (sv_delivery s) as [d|] eqn:Ed; [destruct (in_flight d) eqn:Ef|].
  2,3: assert (held_delivery s = None) as Hn by (unfold held_delivery; by rewrite Ed, ?Ef);
    apply wp_ret; unfold faithful, short; by rewrite Hn.
  assert (held_delivery s = Some (dl_id d, dl_payload d, dl_written d)) as Hheld by (unfold held_delivery; by rewrite Ed, Ef).
  unfold ends_as in He. rewrite Hheld in He.
  set (d' := d <| dl_state := state |> <| dl_why := why |>).
  assert (in_flight d' = false) as Hd' by (unfold d', in_flight; cbn; by destruct state).
  apply wp_bind, wp_modify, wp_bind.
  match goal with |- wp (record _ _ _ ?fs) _ _ _ => set (f0 := fs) end.
  assert (lf_open (life s) = Some (dl_id d, dl_payload d, dl_written d)) as Hopen by (destruct Hr; congruence).
  assert (may (life s) (EvRecord INPUT_ACCEPTED f0)) as Hm.
  { apply may_accepted. rewrite Hopen. split_and!; [apply Hr..|]. split_and!; try done.
    exists (bool_decide (state = DELIVERY_COMPLETE)). split; [done|]. by destruct state. }
  apply wp_record; [by eapply lawful_log|exact Hm|]. intros n w f.
  set (s2 := _ <| sv_log := _ |>).
  assert (related asked s2) as Hs2.
  { apply (related_after asked (EvRecord INPUT_ACCEPTED f0) s); [reflexivity|done|done|].
    rewrite (live_accepted _ _ _ _ _ Hopen). unfold s2. fields Hr. by rewrite Hd'. }
  apply wp_bind, wp_the, wp_when.
  - intros [Hw Ht]%andb_true_iff. apply negb_true_iff in Ht. eapply wp_mono; [|apply open_turn_related; [done|done|]].
    + intros _ s3 [Hs3 E3]. assert (held_delivery s3 = None) as Hn by by apply (held_finished s3 d'). unfold faithful, short. by rewrite Hn.
    + rewrite (life_after (EvRecord INPUT_ACCEPTED f0) s s2) by reflexivity.
      rewrite (live_accepted _ _ _ _ _ Hopen). exact Hw.
  - intros _. assert (held_delivery s2 = None) as Hn by by apply (held_finished s2 d'). unfold faithful, short. by rewrite Hn.
Qed.

Lemma finish_delivery_faithful asked state why s : related asked s → ends_as state s →
  wp (finish_delivery repr fmt_g W state why) (λ _, faithful asked) strict s.
Proof. intros Hs He. eapply wp_mono; [|by apply (finish_delivery_ends asked)]. by intros ? s' []. Qed.

Lemma faithful_ends asked s state : faithful asked s → (state = DELIVERY_STALLED ∨ state = DELIVERY_FAILED) → ends_as state s.
Proof.
  intros [_ Hs] Hst. unfold ends_as, short in *. destruct (held_delivery s) as [[[id p] w]|]; [|done].
  destruct Hst as [->| ->]; tauto.
Qed.

Lemma finish_delivery_keeps asked state why : (state = DELIVERY_STALLED ∨ state = DELIVERY_FAILED) →
  keeps asked (finish_delivery repr fmt_g W state why).
Proof. intros Hst s Hs. apply finish_delivery_faithful; [apply Hs|by eapply faithful_ends]. Qed.

Lemma expire_keeps asked : keeps asked (expire_delivery repr fmt_g W).
Proof.
  intros s Hs. unfold expire_delivery. apply wp_bind, wp_the. destruct (sv_delivery s) as [d|]; [|by apply wp_ret].
  destruct (in_flight d); [|by apply wp_ret]. apply wp_bind, wp_the. destruct (sv_head_status s).
  - apply finish_delivery_keeps; auto.
  - apply wp_bind, wp_call. assert (faithful asked (s <| sv_calls := S (sv_calls s) |>)) by same.
    apply wp_when; [|done]. intros _. apply finish_delivery_keeps; auto.
Qed.

(** A write loop places the next bytes of the payload. *)
Lemma write_loop_related asked answers last : ∀ s d,
  related asked s → sv_delivery s = Some d → in_flight d = true → (dl_written d ≤ dl_size d)%nat →
  wp (write_loop d answers last) (λ failed s', related asked s' ∧ ∃ d', sv_delivery s' = Some d' ∧ in_flight d' = true ∧
      (dl_written d' ≤ dl_size d')%nat ∧ (failed ≠ None → (dl_written d' < dl_size d')%nat)) strict s.
Proof.
  induction answers as [|n answers IH]; intros s d Hs Hd Hf Hle; cbn [write_loop];
    (destruct (dl_written d <? dl_size d)%nat eqn:E; [|apply wp_ret; split; [done|]; exists d; split_and!; done]);
    apply Nat.ltb_lt in E.
  - destruct last; apply wp_ret; (split; [done|]); exists d; split_and!; done.
  - set (chunk := str_take READ_CHUNK (str_drop (dl_written d) (dl_payload d))). set (taken := str_take n chunk).
    set (d' := d <| dl_written := (dl_written d + String.length taken)%nat |>).
    apply wp_bind, wp_modify, wp_bind, wp_emit.
    assert (str_take (String.length taken) (str_drop (dl_written d) (dl_payload d)) = taken ∧
            (dl_written d + String.length taken ≤ dl_size d)%nat) as [Htake Hlen].
    { unfold taken, chunk. rewrite str_take_take_min, str_take_own_length. split; [done|].
      pose proof (str_take_length_le (Nat.min n READ_CHUNK) (str_drop (dl_written d) (dl_payload d))) as Hx.
      rewrite str_drop_length in Hx. unfold dl_size in *. lia. }
    destruct Hs as [Hl Hr].
    assert (lf_open (life s) = Some (dl_id d, dl_payload d, dl_written d)) as Hopen.
    { destruct Hr. rewrite rl_open0. unfold held_delivery. by rewrite Hd, Hf. }
    apply IH; [|done|done|done]. apply (related_after asked (EvPty taken) s); [reflexivity|done| |].
    + cbn [may]. by rewrite Hopen.
    + cbn [live]. rewrite Hopen. fields Hr. change (in_flight d') with (in_flight d). by rewrite Hf.
Qed.

Lemma pump_keeps asked : keeps asked (pump_delivery repr fmt_g W).
Proof.
  intros s Hs. unfold pump_delivery. apply wp_bind, wp_the. destruct (sv_delivery s) as [d|] eqn:Hd; [|by apply wp_ret].
  destruct (in_flight d) eqn:Hf; [|by apply wp_ret]. apply wp_bind, wp_the. destruct (sv_head_status s).
  { apply finish_delivery_keeps; auto. }
  assert (faithful asked (s <| sv_calls := S (sv_calls s) |>)) as Hs1 by same.
  apply wp_bind, wp_call. destruct (w_writes W (sv_calls s)) as [answers last]. apply wp_bind.
  assert (dl_written d ≤ dl_size d)%nat as Hle.
  { destruct Hs as [_ Hs]. unfold short, held_delivery in Hs. rewrite Hd, Hf in Hs. unfold dl_size.
    lia. }
  eapply wp_mono; [|apply (write_loop_related asked answers last _ d); [apply Hs1|done..]].
  cbn. intros failed s2 (Hr2 & d2 & Hd2 & Hf2 & Hle2 & Hfail). destruct failed as [strerror|].
  - apply finish_delivery_faithful; [done|]. unfold ends_as, held_delivery. rewrite Hd2, Hf2. left. by apply Hfail.
  - apply wp_bind, wp_the. rewrite Hd2. destruct (dl_size d2 <=? dl_written d2)%nat eqn:Ec.
    + apply Nat.leb_le in Ec. apply finish_delivery_faithful; [done|]. unfold ends_as, held_delivery. rewrite Hd2, Hf2.
      unfold dl_size in *. lia.
    + apply Nat.leb_gt in Ec. apply expire_keeps. split; [done|]. unfold short, held_delivery. rewrite Hd2, Hf2. by left.
Qed.

Lemma admit_payload_faithful asked payload subject s :
  faithful asked s → sv_draining s = false → held_delivery s = None →
  Z.of_nat (String.length payload) ≤ INPUT_MAX_BYTES →
  wp (admit_payload W cf payload subject) (λ _, faithful asked) strict s.
Proof.
  intros [[Hl Hr] Hs] Hdr Hh Hlen. unfold admit_payload.
  apply wp_bind, wp_modify, wp_bind, wp_the, wp_bind, wp_call, wp_bind, wp_modify, wp_bind, wp_emit, wp_ret. split.
  - eapply (related_after asked _ s); [reflexivity|done| |].
    + cbn [may]. sup_simpl. destruct Hr. split_and!; try done; congruence.
    + cbn [live]. fields Hr.
  - unfold short, held_delivery. sup_simpl. cbn. destruct payload; [by right|left; cbn; lia].
Qed.

(** ** Turns and progress *)

(** Flushing empties the window and leaves the turn as it is. *)
Lemma flush_progress_window asked s : faithful asked s →
  wp (flush_progress repr is_word is_digit digest W)
    (λ _ s', faithful asked s' ∧ sv_window_bytes s' = 0 ∧ sv_turn_open s' = sv_turn_open s ∧
             sv_delivery s' = sv_delivery s) strict s.
Proof.
  intros Hs. unfold flush_progress. apply wp_bind, wp_the.
  destruct (sv_window_bytes s =? 0) eqn:Ew; boolify; [by apply wp_ret|]. apply wp_bind, wp_the, wp_bind, wp_modify.
  set (visible := remove_dups _). destruct (negb _).
  { apply wp_modify. split; [same|done]. }
  pose proof Hs as [[Hl Hr] Hsh]. pose proof (rl_window _ _ _ Hr Ew) as Ht.
  match goal with |- wp (record _ _ _ ?fs ≫= _) _ _ _ => set (f0 := fs) end.
  assert (may (life s) (EvRecord PROVIDER_PROGRESSED f0)) as Hm.
  { apply may_progressed. destruct Hr. rewrite Ht in rl_turn0. split_and!; try done.
    - by rewrite rl_turn0.
    - by rewrite rl_turn_id0.
    - by rewrite <-rl_total0. }
  apply wp_bind, wp_record; [by eapply lawful_log|exact Hm|]. intros n w f. apply wp_modify. split; [|done]. split.
  - eapply (related_after asked _ s); [reflexivity|done|exact Hm|]. rewrite live_progressed. fields Hr.
  - by eapply short_same.
Qed.

Lemma flush_progress_keeps asked : keeps asked (flush_progress repr is_word is_digit digest W).
Proof. intros s Hs. eapply wp_mono; [|by apply flush_progress_window]. by intros ? s' []. Qed.

Lemma close_turn_faithful asked reason extra s :
  faithful asked s → sv_turn_open s = true → sv_window_bytes s = 0 → dict_get extra "output_bytes" = None →
  wp (close_turn repr W reason extra)
    (λ _ s', faithful asked s' ∧ sv_turn_open s' = false ∧ sv_delivery s' = sv_delivery s) strict s.
Proof.
  intros [[Hl Hr] Hs] Ht Hw Hx. unfold close_turn. apply wp_bind, wp_the.
  match goal with |- wp (record _ _ _ ?fs ≫= _) _ _ _ => set (f0 := fs) end.
  assert (get f0 "output_bytes" = VInt (sv_turn_bytes s)) as Hf0.
  { unfold f0, get. cbn [app dict_get String.eqb]. clear -Hx.
    change (default VNone (dict_get (extra ++ [("output_bytes", VInt (sv_turn_bytes s)); ("folded_windows", VInt (sv_folded s))]) "output_bytes") = VInt (sv_turn_bytes s)).
    induction extra as [|[k v] extra IH]; [done|]. cbn in Hx |- *. destruct (String.eqb k "output_bytes"); [done|auto]. }
  assert (may (life s) (EvRecord TURN_FINISHED f0)) as Hm.
  { apply may_turn_finished. destruct Hr. rewrite Ht in rl_turn0. rewrite rl_turn0. split_and!; try done.
    by rewrite rl_turn_id0. }
  apply wp_bind, wp_record; [done|exact Hm|]. intros n w f. apply wp_modify. split; [|done]. split.
  - eapply (related_after asked _ s); [reflexivity|done|exact Hm|]. rewrite live_turn_finished. fields Hr.
  - by eapply short_same.
Qed.

(** ** Callers *)

Lemma attached_alter f id s : (∀ c, cl_attached (f c) = cl_attached c) →
  attached_count (s <| sv_objects := alter f id (sv_objects s) |>) = attached_count s.
Proof.
  intros Hf. unfold attached_count. sup_simpl. do 2 f_equal. apply List.filter_ext. intros i.
  destruct (decide (id = i)) as [->|]; [|by rewrite list_lookup_alter_ne].
  rewrite list_lookup_alter_eq. destruct (sv_objects s !! i); cbn; [by rewrite Hf|done].
Qed.

(** A change of a caller that neither opens, closes, attaches nor detaches it. *)
Definition quiet_change (f : Client → Client) : Prop :=
  ∀ c, cl_open (f c) = cl_open c ∧ cl_attached (f c) = cl_attached c.

Lemma relates_alter asked l s id f :
  (∀ c, cl_open (f c) = cl_open c) →
  attached_count (s <| sv_objects := alter f id (sv_objects s) |>) ≤ ATTACH_MAX_CLIENTS →
  relates asked l s → relates asked l (s <| sv_objects := alter f id (sv_objects s) |>).
Proof.
  intros Hf Ha Hr. assert (∀ i c', alter f id (sv_objects s) !! i = Some c' → ∃ c, sv_objects s !! i = Some c ∧ cl_open c' = cl_open c) as Hback.
  { intros i c' Hi. destruct (decide (id = i)) as [->|].
    - rewrite list_lookup_alter_eq in Hi. destruct (sv_objects s !! i) as [c|]; [|done]. cbn in Hi. injection Hi as <-.
      exists c. split; [done|apply Hf].
    - rewrite list_lookup_alter_ne in Hi by done. eauto. }
  assert (∀ i c, sv_objects s !! i = Some c → ∃ c', alter f id (sv_objects s) !! i = Some c' ∧ cl_open c' = cl_open c) as Hfwd.
  { intros i c Hi. destruct (decide (id = i)) as [->|].
    - rewrite list_lookup_alter_eq, Hi. cbn. eexists. split; [done|apply Hf].
    - rewrite list_lookup_alter_ne by done. eauto. }
  destruct Hr. split; sup_simpl; try done.
  - intros i Hi. destruct (rl_clients_open0 i Hi) as (c & Hc & Ho). destruct (Hfwd i c Hc) as (c' & Hc' & E).
    exists c'. split; [done|congruence].
  - intros i c' Hi Ho. destruct (Hback i c' Hi) as (c & Hc & E). eapply rl_open_clients0; [done|congruence].
Qed.

Lemma relates_on_client asked l s id f : quiet_change f → relates asked l s →
  relates asked l (s <| sv_objects := alter f id (sv_objects s) |>).
Proof.
  intros Hf Hr. apply relates_alter; [apply Hf| |done]. rewrite attached_alter; [apply Hr|apply Hf].
Qed.

Lemma faithful_on_client asked s id f : quiet_change f → faithful asked s →
  faithful asked (s <| sv_objects := alter f id (sv_objects s) |>).
Proof. intros Hf [[Hl Hr] Hs]. split; [split; [done|by apply relates_on_client]|done]. Qed.

Lemma wp_client asked id (Q : Client → Sup → Prop) s :
  faithful asked s → (∀ c, sv_objects s !! id = Some c → Q c s) → wp (client id) Q strict s.
Proof.
  intros Hs HQ. unfold client. apply wp_bind, wp_the. destruct (sv_objects s !! id) as [c|]; [by apply wp_ret, HQ|].
  apply wp_raise. split; [by eapply faithful_lawful|done].
Qed.

Lemma filter_remove_count (p : nat → bool) id l :
  (length (List.filter p (List.filter (λ i, negb (i =? id)%nat) l)) ≤ length (List.filter p l))%nat.
Proof.
  induction l as [|i l IH]; [done|]. cbn [List.filter]. destruct (i =? id)%nat; cbn [negb List.filter];
    destruct (p i); cbn [length]; lia.
Qed.

Lemma relates_log asked l s log : relates asked l s → relates asked l (s <| sv_log := log |>).
Proof. intros []. by split. Qed.

(** A caller's descriptor closed: it is held no more. *)
Definition without (id : nat) (l : list nat) : list nat := List.filter (λ i, negb (i =? id)%nat) l.

Lemma elem_of_without i id l : i ∈ without id l ↔ i ∈ l ∧ i ≠ id.
Proof. unfold without. rewrite !list_elem_of_In, filter_In, negb_true_iff, Nat.eqb_neq. done. Qed.

Lemma without_fresh id l : id ∉ l → without id l = l.
Proof.
  induction l as [|i l IH]; [done|]. intros [Hn1 Hn2]%not_elem_of_cons. cbn.
  rewrite (proj2 (Nat.eqb_neq i id)) by done. cbn. f_equal. by apply IH.
Qed.

Lemma relates_close asked l s id c : sv_objects s !! id = Some c → relates asked l s →
  relates asked (l <| lf_held := without id (lf_held l) |>)
    (s <| sv_clients := without id (sv_clients s) |> <| sv_objects := alter (λ c, c <| cl_open := false |>) id (sv_objects s) |>).
Proof.
  intros Hc Hr. destruct Hr. split; unfold held_delivery in *; sup_simpl; try done.
  - congruence.
  - unfold without. by apply NoDup_ListNoDup, List.NoDup_filter, NoDup_ListNoDup.
  - intros i [Hi Hne]%elem_of_without. rewrite list_lookup_alter_ne by done. auto.
  - intros i c' Hi Ho. apply elem_of_without. destruct (decide (id = i)) as [->|Hne].
    + rewrite list_lookup_alter_eq, Hc in Hi. cbn in Hi. injection Hi as <-. done.
    + rewrite list_lookup_alter_ne in Hi by done. eauto.
  - etrans; [|exact rl_connections0].
    pose proof (filter_remove_count (λ _, true) id (sv_clients s)) as Hle.
    assert (∀ l : list nat, List.filter (λ _, true) l = l) as Hid by (intros k; induction k; cbn; congruence).
    rewrite !Hid in Hle. unfold without. lia.
  - etrans; [|exact rl_attached0].
    pose proof (attached_alter (λ c, c <| cl_open := false |>) id (s <| sv_clients := without id (sv_clients s) |>) ltac:(done)) as Ha.
    unfold attached_count in *. sup_simpl. rewrite Ha. apply Nat2Z.inj_le, filter_remove_count.
Qed.

Lemma relates_gone asked l s id c : sv_objects s !! id = Some c → cl_open c = false → relates asked l s →
  without id (lf_held l) = lf_held l.
Proof.
  intros Hc Ho Hr. apply without_fresh. rewrite (rl_held _ _ _ Hr). intros Hi.
  destruct (rl_clients_open _ _ _ Hr id Hi) as (c' & Hc' & Ho'). congruence.
Qed.

Lemma close_client_keeps asked id : keeps asked (close_client id).
Proof.
  intros s Hs. unfold close_client. apply wp_bind, (wp_client asked); [done|]. intros c Hc.
  apply wp_bind, wp_modify, wp_bind. unfold on_client. apply wp_modify. pose proof Hs as [[Hl Hr] Hsh].
  pose proof (relates_close asked (life s) s id c Hc Hr) as Hrc. fold (without id (sv_clients s)).
  apply wp_when; intros Ho; (split; [|by eapply short_same]).
  - eapply (related_after asked (EvClose id) s); [reflexivity|done|done|]. by apply relates_log.
  - split; [done|]. change (relates asked (life s) (s <| sv_clients := without id (sv_clients s) |>
      <| sv_objects := alter (λ c, c <| cl_open := false |>) id (sv_objects s) |>)).
    rewrite (relates_gone asked (life s) s id c Hc Ho Hr) in Hrc. by destruct Hrc; split.
Qed.

(** Sequencing of operations that keep the relation. *)
Lemma keeps_bind {A B} P (m : SM A) (k : A → SM B) :
  preserves P m → (∀ a, preserves P (k a)) → preserves P (m ≫= k).
Proof. intros Hm Hk s Hs. apply wp_bind. eapply wp_mono; [|by apply Hm]. intros a s' Hs'. by apply Hk. Qed.

Lemma keeps_ret {A} P (a : A) : preserves P (mret a).
Proof. intros s Hs. by apply wp_ret. Qed.

Lemma keeps_the {A} P (f : Sup → A) : preserves P (the f).
Proof. intros s Hs. by apply wp_the. Qed.

Lemma keeps_when P b m : (b = true → preserves P m) → preserves P (when b m).
Proof. intros Hm s Hs. apply wp_when; [|done]. intros Hb. by apply Hm. Qed.

Lemma keeps_for_each {A} P (l : list A) f : (∀ a, preserves P (f a)) → preserves P (for_each l f).
Proof. intros Hf s Hs. apply wp_for_each; [|done]. intros a s' _ Hs'. by apply Hf. Qed.

Lemma keeps_call {A} asked (f : nat → A) : keeps asked (call f).
Proof. intros s Hs. apply wp_call. same. Qed.

Lemma keeps_raise {A} asked e : is_protocol e = false → keeps asked (raise e : SM A).
Proof. intros He s Hs. apply wp_raise. split; [by eapply faithful_lawful|done]. Qed.

Lemma keeps_client asked id : keeps asked (client id).
Proof. intros s Hs. apply (wp_client asked); [done|]. by intros. Qed.

Lemma keeps_on_client asked id f : quiet_change f → keeps asked (on_client id f).
Proof. intros Hf s Hs. unfold on_client. apply wp_modify. by apply faithful_on_client. Qed.

Hint Resolve keeps_ret keeps_the keeps_call keeps_raise keeps_client : keeps.

Lemma flush_keeps asked id : keeps asked (flush W id).
Proof.
  unfold flush. apply keeps_bind; [auto with keeps|]. intros c. apply keeps_bind; [auto with keeps|]. intros [answers last].
  case_match; [|apply close_client_keeps]. apply keeps_bind; [by apply keeps_on_client|]. intros _.
  apply keeps_when. intros _. apply close_client_keeps.
Qed.

Lemma queue_event_keeps id frame : unasked frame = true → keeps None (queue id frame).
Proof.
  intros Hf s Hs. unfold queue, on_client. apply wp_bind, wp_modify, wp_emit.
  assert (faithful None (s <| sv_objects := alter (λ c, c <| cl_pending := cl_pending c +:+ encode_frame frame |>) id (sv_objects s) |>))
    as [[Hl Hr] Hsh] by by apply faithful_on_client.
  split; [|by eapply short_same]. eapply (related_after None (EvFrame id frame)); [reflexivity|done| |].
  - cbn [may]. rewrite Hf. apply Hr.
  - cbn [live]. rewrite Hf. by apply relates_log.
Qed.

(** The answer to the question being asked. *)
Lemma queue_answer id request_id frame s :
  faithful (Some (id, request_id)) s → unasked frame = false → answers request_id frame →
  wp (queue id frame) (λ _, faithful None) strict s.
Proof.
  intros Hs Hf Ha. unfold queue, on_client. apply wp_bind, wp_modify, wp_emit.
  assert (faithful (Some (id, request_id))
    (s <| sv_objects := alter (λ c, c <| cl_pending := cl_pending c +:+ encode_frame frame |>) id (sv_objects s) |>))
    as [[Hl Hr] Hsh] by by apply faithful_on_client.
  split; [|by eapply short_same]. eapply (related_after None (EvFrame id frame)); [reflexivity|done| |].
  - cbn [may]. rewrite Hf. unfold life in *. rewrite (rl_asked _ _ _ Hr). done.
  - cbn [live]. rewrite Hf. apply relates_log. destruct Hr. by split.
Qed.

Lemma send_answer id request_id frame s :
  faithful (Some (id, request_id)) s → unasked frame = false → answers request_id frame →
  wp (send W id frame) (λ _, faithful None) strict s.
Proof.
  intros Hs Hf Ha. unfold send. apply wp_bind. eapply wp_mono; [|by apply (queue_answer id request_id)].
  intros ? s' Hs'. by apply flush_keeps.
Qed.

(** An answer carries back the id of its question, and nothing else that could
    make it look like an event. *)
Lemma answer_faithful id request_id payload s :
  faithful (Some (id, request_id)) s → unasked payload = false → dict_get payload REQUEST_ID = None →
  wp (answer W id request_id payload) (λ _, faithful None) strict s.
Proof.
  intros Hs Hf Hid. unfold answer.
  assert (∀ v, unasked (dict_set payload REQUEST_ID v) = false) as Hset.
  { intros v. unfold unasked, dict_has, get in *. rewrite !dict_get_set_ne by done. done. }
  apply (send_answer id request_id); [done| |].
  - by destruct request_id.
  - unfold answers. destruct request_id; try done; by rewrite dict_get_set_eq.
Qed.

Lemma announce_keeps id : keeps None (announce_dropped id).
Proof.
  unfold announce_dropped. apply keeps_bind; [auto with keeps|]. intros c. apply keeps_when. intros _.
  apply keeps_bind; [by apply queue_event_keeps|]. intros _. by apply keeps_on_client.
Qed.

Lemma push_keeps chunk id : keeps None (push_output W chunk id).
Proof.
  unfold push_output. apply keeps_bind; [auto with keeps|]. intros c. case_match; [by apply keeps_on_client|].
  apply keeps_bind; [apply announce_keeps|]. intros _. apply keeps_bind; [by apply queue_event_keeps|]. intros _.
  apply flush_keeps.
Qed.

(** ** The head's terminal *)

(** Dropping the excess of an appended buffer keeps the last bytes of the stream. *)
Lemma tail_append max (stream chunk : string) :
  let output := str_drop (String.length stream - max) stream +:+ chunk in
  let excess := (String.length output - max)%nat in
  str_drop excess output = str_drop (String.length (stream +:+ chunk) - max) (stream +:+ chunk) ∧
  (String.length stream - max + excess = String.length (stream +:+ chunk) - max)%nat.
Proof.
  intros output excess. unfold excess, output. rewrite !str_length_app, str_drop_length.
  set (n := String.length stream). set (k := String.length chunk). split; [|lia].
  rewrite <-(str_drop_app_le (n - max) stream chunk) by (unfold n; lia).
  rewrite str_drop_drop. f_equal. lia.
Qed.

Lemma record_output_keeps chunk : keeps None (record_output W chunk).
Proof.
  intros s Hs. unfold record_output. apply wp_bind, wp_the, wp_bind, wp_lift.
  { intros e He. destruct (screen_op_safe (sv_screen s) (Feed chunk)) as (s' & E & _); [apply Hs|]. cbn in E. congruence. }
  intros screen Hscreen. assert (wf_screen screen) as Hwf.
  { destruct (screen_op_safe (sv_screen s) (Feed chunk)) as (s' & E & Hs'); [apply Hs|]. cbn in E. congruence. }
  apply wp_bind, wp_call, wp_bind, wp_modify, wp_bind, wp_emit, wp_bind, wp_the. sup_simpl.
  pose proof Hs as [[Hl Hr] Hsh].
  destruct (tail_append (Z.to_nat OUTPUT_BUFFER_BYTES) (lf_stream (life s)) chunk) as [Ht He].
  rewrite <-(rl_output _ _ _ Hr) in Ht, He.
  assert (∀ s', sv_log s' = sv_log s ++ [EvOutput chunk] → held_delivery s' = held_delivery s → sv_delivery_seq s' = sv_delivery_seq s →
    sv_turn_open s' = sv_turn_open s → (sv_turn_open s = true → sv_turn_bytes s' = sv_turn_bytes s + Z.of_nat (String.length chunk)) →
    sv_turn_id s' = sv_turn_id s → (sv_turn_open s = false → sv_window_bytes s' = sv_window_bytes s) →
    sv_output_total s' = sv_output_total s + Z.of_nat (String.length chunk) →
    sv_output s' = str_drop (String.length (sv_output s +:+ chunk) - Z.to_nat OUTPUT_BUFFER_BYTES) (sv_output s +:+ chunk) →
    sv_output_dropped s' = sv_output_dropped s + Z.of_nat (String.length (sv_output s +:+ chunk) - Z.to_nat OUTPUT_BUFFER_BYTES) →
    sv_draining s' = sv_draining s → sv_stopping s' = sv_stopping s → sv_clients s' = sv_clients s → sv_objects s' = sv_objects s →
    sv_screen s' = screen → faithful None s') as Hout.
  { intros s' E1 E2 E3 E4 E5 E6 E7 E8 E9 E10 E11 E12 E13 E14 E15. split; [|unfold short in *; by rewrite E2].
    apply (related_after None (EvOutput chunk) s); [done|done|done|]. cbn [live].
    destruct Hr. split; unfold attached_count in *; sup_simpl; rewrite ?E2, ?E3, ?E4, ?E6, ?E8, ?E9, ?E10, ?E11, ?E12, ?E13, ?E14, ?E15; try done.
    - rewrite rl_turn0. destruct (sv_turn_open s); [|done]. cbn. by rewrite E5.
    - intros Hw. destruct (sv_turn_open s) eqn:Eo; [done|]. rewrite E7 in Hw by done. auto.
    - rewrite str_length_app. lia.
    - lia. }
  destruct (sv_turn_open s) eqn:Eo.
  - apply wp_bind. cbn [when]. apply wp_modify, wp_bind, wp_the. sup_simpl. apply keeps_for_each.
    + intros id. unfold if_attached. apply keeps_bind; [auto with keeps|]. intros c. apply keeps_when. intros _. apply push_keeps.
    + by apply Hout.
  - apply wp_bind. cbn [when]. apply wp_ret, wp_bind, wp_the. sup_simpl. apply keeps_for_each.
    + intros id. unfold if_attached. apply keeps_bind; [auto with keeps|]. intros c. apply keeps_when. intros _. apply push_keeps.
    + by apply Hout.
Qed.

Lemma reap_keeps asked : keeps asked (reap W).
Proof.
  intros s Hs. unfold reap. apply wp_bind, wp_the. case_match; [by apply wp_ret|]. apply wp_bind, wp_call.
  destruct (w_wait W (sv_calls s)); [apply wp_ret|apply wp_modify..]; same.
Qed.

Lemma read_loop_keeps chunks last : keeps None (read_loop repr fmt_g W chunks last).
Proof.
  assert (keeps None (master_closed repr fmt_g W)) as Hm.
  { apply keeps_bind; [apply finish_delivery_keeps; auto|]. intros _. apply reap_keeps. }
  induction chunks as [|chunk chunks IH]; cbn [read_loop].
  - destruct last; auto with keeps.
  - destruct chunk as [|c chunk]; [done|]. apply keeps_bind; [apply record_output_keeps|]. done.
Qed.

Lemma read_head_keeps : keeps None (read_head repr fmt_g W).
Proof. apply keeps_bind; [auto with keeps|]. intros [chunks last]. apply read_loop_keeps. Qed.

(** ** Requests *)

(** What a handler's exception leaves: if the request loop will answer it, the
    state is as faithful as before. *)
Definition excused (asked : option (nat * pyval)) (e : exn) (s : Sup) : Prop :=
  lawful s ∧ (is_protocol e = true → faithful asked s).

Lemma strict_excused asked e s : strict e s → excused asked e s.
Proof. intros [Hl He]. split; [done|]. by rewrite He. Qed.

Lemma faithful_excused asked e s : faithful asked s → excused asked e s.
Proof. intros Hs. split; [by eapply faithful_lawful|done]. Qed.

(** A handler returns an answer that is no event and has no id of its own. *)
Definition plain (payload : list (string * pyval)) : Prop := unasked payload = false ∧ dict_get payload REQUEST_ID = None.

Definition answering (h : SM (list (string * pyval))) : Prop := ∀ asked s,
  faithful asked s → wp h (λ payload s', faithful asked s' ∧ plain payload) (excused asked) s.

Lemma keeps_excused {A} asked (m : SM A) s : keeps asked m → faithful asked s → wp m (λ _, faithful asked) (excused asked) s.
Proof. intros Hm Hs. eapply wp_mono_exn; [|by apply Hm]. apply strict_excused. Qed.

Lemma begin_drain_keeps asked initiator : keeps asked (begin_drain repr W initiator).
Proof.
  intros s Hs. unfold begin_drain. apply wp_bind, wp_the, wp_when; [|done]. intros Hd%negb_true_iff.
  apply wp_bind, wp_modify. pose proof Hs as [[Hl Hr] Hsh].
  match goal with |- wp (record _ _ _ ?fs) _ _ _ => set (f0 := fs) end.
  assert (may (life s) (EvRecord DRAIN_REQUESTED f0)) as Hm by (apply may_drain; destruct Hr; split_and!; congruence).
  apply wp_record; [by eapply lawful_log|exact Hm|]. intros n w f. split; [|by eapply short_same].
  eapply (related_after asked _ s); [reflexivity|done|exact Hm|]. rewrite live_drain. fields Hr.
Qed.

Lemma signal_head_faithful asked number s : faithful asked s → sv_stopping s = true →
  wp (signal_head number) (λ _, faithful asked) strict s.
Proof.
  intros Hs Hst. unfold signal_head. apply wp_bind, wp_the, wp_when; [|done]. intros _. apply wp_emit.
  pose proof Hs as [[Hl Hr] Hsh]. split; [|by eapply short_same].
  eapply (related_after asked (EvSignal number) s); [reflexivity|done| |by apply relates_log].
  cbn [may]. left. destruct Hr. congruence.
Qed.

(** The stopping flag is raised before its records are written. *)
Lemma begin_stop_keeps asked initiator number : keeps asked (begin_stop repr W initiator number).
Proof.
  intros s Hs. unfold begin_stop. apply wp_bind, wp_the, wp_when; [|done]. intros Hst%negb_true_iff.
  apply wp_bind, wp_modify, wp_bind. pose proof Hs as [[Hl Hr] Hsh].
  assert (∀ s1, faithful asked s1 → sv_draining s1 = true → sv_stopping s1 = false → ∀ fs,
    wp (record repr W RUN_STOPPING fs ≫= λ _, signal_head number ≫= λ _, now ← call (w_time W);
        modify (λ s, s <| sv_stop_deadline := now + STOP_GRACE_SECONDS |>))
      (λ _, faithful asked) strict (s1 <| sv_stopping := true |>)) as Hrest.
  { intros s1 Hs1 Hd1 Hst1 fs. pose proof Hs1 as [[Hl1 Hr1] Hsh1].
    assert (may (life s1) (EvRecord RUN_STOPPING fs)) as Hm by (apply may_stopping; destruct Hr1; split_and!; congruence).
    apply wp_bind, wp_record; [by eapply lawful_log|exact Hm|]. intros n w f. apply wp_bind.
    eapply wp_mono; [|apply (signal_head_faithful asked); [|reflexivity]].
    - intros ? s2 Hs2. apply wp_bind, wp_call, wp_modify. same.
    - split; [|by eapply short_same]. eapply (related_after asked _ s1); [reflexivity|done|exact Hm|].
      rewrite live_stopping. fields Hr1. }
  unfold begin_drain. apply wp_bind, wp_the. sup_simpl. destruct (sv_draining s) eqn:Hd; cbn [negb when].
  - apply wp_ret. by apply Hrest.
  - apply wp_bind, wp_modify. match goal with |- wp (record _ _ _ ?fs) _ _ _ => set (f0 := fs) end.
    assert (may (life s) (EvRecord DRAIN_REQUESTED f0)) as Hm by (apply may_drain; destruct Hr; split_and!; congruence).
    apply wp_record; [by eapply lawful_log|exact Hm|]. intros n w f.
    change (?x <| sv_stopping := true |> <| sv_draining := true |> <| sv_calls := n |> <| sv_writer := w |>
      <| sv_file := f |> <| sv_log := ?y |>) with
      (s <| sv_draining := true |> <| sv_calls := n |> <| sv_writer := w |> <| sv_file := f |>
         <| sv_log := sv_log s ++ [EvRecord DRAIN_REQUESTED f0] |> <| sv_stopping := true |>).
    apply Hrest; [|done|done]. split; [|by eapply short_same].
    eapply (related_after asked _ s); [reflexivity|done|exact Hm|]. rewrite live_drain. fields Hr.
Qed.

Lemma op_status_answering : answering (op_status fmt_g cf).
Proof. intros asked s Hs. unfold op_status. apply wp_the. split; [done|]. by split. Qed.

Lemma admitted_answering payload request asked s :
  faithful asked s → sv_draining s = false → held_delivery s = None → Z.of_nat (String.length payload) ≤ INPUT_MAX_BYTES →
  wp (admitted fmt_g W cf payload request) (λ payload s', faithful asked s' ∧ plain payload) (excused asked) s.
Proof.
  intros Hs Hd Hh Hl. unfold admitted. apply wp_bind. eapply wp_mono_exn; [apply strict_excused|].
  eapply wp_mono; [|by apply admit_payload_faithful]. intros d s' Hs'. apply wp_the. split; [done|]. by split.
Qed.

Lemma op_input_answering request : answering (op_input fmt_g W cf request).
Proof.
  intros asked s Hs. unfold op_input. apply wp_bind, wp_lift; [by intros; apply faithful_excused|]. intros payload _.
  apply wp_bind, wp_the. destruct (INPUT_MAX_BYTES <? _) eqn:El; [by apply wp_ret; split; [|split]|]. boolify.
  destruct (negb (alive s)); [by apply wp_ret; split; [|split]|].
  destruct (sv_draining s) eqn:Ed; [by apply wp_ret; split; [|split]|].
  destruct (sv_delivery s) as [d|] eqn:Edl; [destruct (in_flight d) eqn:Ef|].
  - apply wp_ret. split; [done|]. by split.
  - apply admitted_answering; try done. unfold held_delivery. by rewrite Edl, Ef.
  - apply admitted_answering; try done. unfold held_delivery. by rewrite Edl.
Qed.

Lemma op_output_answering request : answering (op_output request).
Proof.
  intros asked s Hs. unfold op_output. apply wp_bind. destruct (py_int _) as [n|[cls msg]].
  - apply wp_ret, wp_the. split; [done|]. by split.
  - case_match; apply wp_raise; by apply faithful_excused.
Qed.

Lemma resize_field_wp asked request key s (Q : Z → Sup → Prop) :
  faithful asked s → (∀ n, Q n s) → wp (resize_field request key) Q (excused asked) s.
Proof.
  intros Hs HQ. unfold resize_field. destruct (dict_get request key) as [v|]; [|apply wp_raise; by apply faithful_excused].
  destruct (py_int v) as [n|[cls msg]]; [by apply wp_ret|]. case_match; apply wp_raise; by apply faithful_excused.
Qed.

Lemma set_winsize_keeps asked rows cols : keeps asked (set_winsize rows cols).
Proof.
  intros s Hs. unfold set_winsize. apply wp_bind, wp_modify. set (s1 := _ <| sv_screen := _ |>).
  assert (faithful asked s1) as Hs1.
  { destruct Hs as [[Hl Hr] Hsh]. split; [|done]. split; [done|]. unfold s1. destruct Hr; split; try done.
    by apply screen_resize_wf. }
  apply wp_bind, wp_the. destruct (negb _); [by apply wp_ret|]. destruct (_ && _) eqn:E.
  - apply wp_emit. pose proof Hs1 as [[Hl1 Hr1] Hsh1]. split; [|by eapply short_same].
    eapply (related_after asked (EvWinsize (Z.max 1 rows) (Z.max 1 cols)) s1); [reflexivity|done| |by apply relates_log].
    unfold unsigned_short in E. boolify. cbn. lia.
  - apply wp_raise. split; [by eapply faithful_lawful|done].
Qed.

Lemma op_resize_answering request : answering (op_resize request).
Proof.
  intros asked s Hs. unfold op_resize. apply wp_bind, (resize_field_wp asked); [done|]. intros rows.
  apply wp_bind, (resize_field_wp asked); [done|]. intros cols. apply wp_bind, wp_the.
  destruct (negb _); [by apply wp_ret; split; [|split]|]. apply wp_bind.
  eapply wp_mono; [|by apply keeps_excused; [apply set_winsize_keeps|]]. intros ? s' Hs'. apply wp_the. split; [done|]. by split.
Qed.

Lemma op_drain_answering request : answering (op_drain repr W request).
Proof.
  intros asked s Hs. unfold op_drain. apply wp_bind.
  eapply wp_mono; [|by apply keeps_excused; [apply begin_drain_keeps|]]. intros ? s' Hs'. apply wp_the. split; [done|]. by split.
Qed.

Lemma op_stop_answering request : answering (op_stop repr W request).
Proof.
  intros asked s Hs. unfold op_stop. cbv zeta. destruct (signal_number _); [|apply wp_raise; by apply faithful_excused].
  apply wp_bind, wp_the. destruct (negb _); [by apply wp_ret; split; [|split]|]. apply wp_bind.
  eapply wp_mono; [|by apply keeps_excused; [apply begin_stop_keeps|]]. intros ? s' Hs'. apply wp_ret. split; [done|]. by split.
Qed.

(** Attaching counts against the limit before it is granted. *)
Lemma attached_one f id s : (∀ c, cl_attached c = false → cl_attached (f c) = true) → NoDup (sv_clients s) →
  attached_count (s <| sv_objects := alter f id (sv_objects s) |>) ≤ attached_count s + 1.
Proof.
  intros Hf. unfold attached_count. sup_simpl. intros Hn.
  set (p := λ i, match sv_objects s !! i with Some c => cl_attached c | None => false end).
  set (q := λ i, match alter f id (sv_objects s) !! i with Some c => cl_attached c | None => false end).
  assert (∀ i, i ≠ id → q i = p i) as Hne by (intros i Hi; unfold p, q; by rewrite list_lookup_alter_ne).
  enough (length (List.filter q (sv_clients s)) ≤ length (List.filter p (sv_clients s)) + 1)%nat by lia.
  induction Hn as [|i l Hi Hn IH]; [cbn; lia|]. cbn [List.filter]. destruct (decide (i = id)) as [->|Hd].
  - assert (List.filter q l = List.filter p l) as ->.
    { apply filter_ext_in. intros j Hj. apply Hne. intros ->. by apply Hi, list_elem_of_In. }
    destruct (q id), (p id); cbn [length]; lia.
  - rewrite (Hne i Hd). destruct (p i); cbn [length]; lia.
Qed.

Lemma op_attach_answering id : answering (op_attach id).
Proof.
  intros asked s Hs. unfold op_attach. apply wp_bind. eapply wp_mono_exn; [apply (strict_excused asked)|].
  apply (wp_client asked); [done|]. intros c Hc. apply wp_bind, wp_the.
  destruct (cl_attached c); [by apply wp_ret; split; [|split]|].
  destruct (ATTACH_MAX_CLIENTS <=? attached_count s) eqn:El; [by apply wp_ret; split; [|split]|]. boolify.
  unfold on_client. apply wp_bind, wp_modify, wp_ret. split; [|by split]. destruct Hs as [[Hl Hr] Hsh].
  split; [|by eapply short_same]. split; [done|].
  apply relates_alter; [done| |done].
  pose proof (attached_one (λ c, c <| cl_attached := true |>) id s ltac:(done) (rl_nodup _ _ _ Hr)). lia.
Qed.

Lemma handler_answering op id request h : handler repr fmt_g W cf op id request = Some h → answering h.
Proof.
  unfold handler. intros Hh. repeat case_match; simplify_eq; auto using op_status_answering, op_input_answering,
    op_output_answering, op_attach_answering, op_resize_answering, op_drain_answering, op_stop_answering.
Qed.

(** One question, one answer. *)
Lemma handle_keeps id line : keeps None (handle repr fmt_g W cf id line).
Proof.
  intros s Hs. unfold handle. apply wp_bind, wp_emit. set (s1 := _ <| sv_log := _ |>).
  assert (faithful (Some (id, asked_id line)) s1) as Hs1.
  { pose proof Hs as [[Hl Hr] Hsh]. split; [|by eapply short_same].
    apply (related_after _ (EvRequest id line) s); [reflexivity|done|apply Hr|]. cbn [live]. fields Hr. }
  unfold asked_id in Hs1. destruct (decode_frame line) as [request|[cls msg]].
  - cbv zeta. destruct (handler _ _ _ _ _ _ _) as [h|] eqn:Eh.
    + apply wp_catch, wp_bind. eapply wp_mono_exn; [|eapply wp_mono; [|by eapply handler_answering]].
      * intros e s2 [Hl He]. cbv beta. destruct (is_protocol e) eqn:Ee; [|by split]. intros msg. by apply answer_faithful; [apply He|..].
      * intros payload s2 [Hs2 [Hp1 Hp2]]. eapply wp_mono_exn; [|by apply answer_faithful].
        intros e s3 [Hl He]. by rewrite He.
    + by apply answer_faithful.
  - by apply (send_answer id VNone).
Qed.

(** ** The socket *)

Lemma accept_one_keeps : keeps None accept_one.
Proof.
  intros s Hs. unfold accept_one. apply wp_bind, wp_the. pose proof Hs as [[Hl Hr] Hsh].
  destruct (CONNECTION_MAX_CLIENTS <=? _) eqn:E; boolify.
  { apply wp_emit. split; [|by eapply short_same]. eapply (related_after None (EvRefuse _) s); [reflexivity|done| |by apply relates_log].
    cbn [may]. by rewrite (rl_held _ _ _ Hr). }
  apply wp_bind, wp_modify, wp_emit. split; [|by eapply short_same]. set (id := length (sv_objects s)).
  assert (id ∉ sv_clients s) as Hid.
  { intros (c & Hc & _)%(rl_clients_open _ _ _ Hr). apply lookup_lt_Some in Hc. unfold id in Hc. lia. }
  eapply (related_after None (EvAccept id) s); [reflexivity|done|by cbn; rewrite (rl_held _ _ _ Hr)|]. cbn [live].
  fields Hr.
  - apply NoDup_app. split_and!; [done| |apply NoDup_singleton]. intros i Hi ->%list_elem_of_singleton. done.
  - intros i [Hi| ->%list_elem_of_singleton]%elem_of_app.
    + destruct (rl_clients_open0 i Hi) as (c & Hc & Ho). exists c. split; [by apply lookup_app_l_Some|done].
    + exists new_client. split; [|done]. rewrite lookup_app_r by done. by rewrite Nat.sub_diag.
  - intros i c Hi Ho. apply elem_of_app. apply lookup_app_Some in Hi as [Hi|[Hle Hi]]; [eauto|].
    apply list_lookup_singleton_Some in Hi as [Hi _]. right. apply list_elem_of_singleton. unfold id. lia.
  - rewrite length_app. cbn. lia.
  - rewrite List.filter_app, length_app. cbn [List.filter]. rewrite lookup_app_r by done. rewrite Nat.sub_diag. cbn.
    rewrite Nat.add_0_r. erewrite filter_ext_in; [exact rl_attached0|]. intros i Hi. cbn.
    rewrite lookup_app_l; [done|]. destruct (rl_clients_open0 i) as (c & Hc & _); [by apply list_elem_of_In|].
    by eapply lookup_lt_Some.
Qed.

Lemma accept_keeps : keeps None (accept W).
Proof. apply keeps_bind; [auto with keeps|]. intros n. apply keeps_for_each. intros _. apply accept_one_keeps. Qed.

Lemma line_loop_keeps fuel id : keeps None (line_loop repr fmt_g W cf fuel id).
Proof.
  induction fuel as [|fuel IH]; cbn [line_loop]; [auto with keeps|]. apply keeps_bind; [auto with keeps|]. intros c.
  case_match.
  - destruct (str_partition _ _) as [line rest]. apply keeps_bind; [by apply keeps_on_client|]. intros _.
    apply keeps_bind; [apply handle_keeps|]. intros _. apply keeps_bind; [auto with keeps|]. intros c'. by case_match; auto with keeps.
  - apply keeps_when. intros _. apply keeps_bind; [|intros _; by apply keeps_on_client].
    apply keeps_bind; [by apply queue_event_keeps|]. intros _. apply flush_keeps.
Qed.

Lemma read_client_keeps id : keeps None (read_client repr fmt_g W cf id).
Proof.
  apply keeps_bind; [auto with keeps|]. intros c. apply keeps_bind; [auto with keeps|]. intros received.
  repeat case_match; try (apply close_client_keeps || apply keeps_ret).
  all: apply keeps_bind; [by apply keeps_on_client|]; intros _; apply line_loop_keeps.
Qed.

(** ** The loop *)

Lemma keeps_modify asked f : (∀ s, same_contract s (f s)) → keeps asked (modify f).
Proof. intros Hf s Hs. apply wp_modify. by eapply faithful_same. Qed.

Lemma dispatch_keeps k : keeps None (dispatch repr fmt_g W cf k).
Proof.
  destruct k; cbn [dispatch].
  - apply accept_keeps.
  - apply keeps_bind; [|intros _]; apply keeps_when; intros _; [apply read_head_keeps|apply pump_keeps].
  - apply keeps_modify. by intros s; split_and!; auto.
  - apply keeps_bind; [auto with keeps|]. intros s. case_match; [|auto with keeps].
    apply keeps_bind; [|intros _]; apply keeps_when; intros _; [apply flush_keeps|apply read_client_keeps].
Qed.

Lemma quiet_keeps reason extra s : faithful None s → sv_turn_open s = true → dict_get extra "output_bytes" = None →
  wp (flush_progress repr is_word is_digit digest W ≫= λ _, close_turn repr W reason extra) (λ _, faithful None) strict s.
Proof.
  intros Hs Ht Hx. apply wp_bind. eapply wp_mono; [|by apply (flush_progress_window None)].
  intros ? s' (Hs' & Hw & Eo & _). eapply wp_mono; [|apply (close_turn_faithful None); congruence]. by intros ? s2 [].
Qed.

Lemma tick_keeps : keeps None (tick repr fmt_g is_word is_digit digest W cf).
Proof.
  unfold tick. apply keeps_bind; [auto with keeps|]. intros now. apply keeps_bind; [auto with keeps|]. intros s0.
  apply keeps_bind; [apply keeps_when; intros _; apply begin_stop_keeps|]. intros _ s Hs. apply wp_bind, wp_the, wp_bind.
  eapply wp_mono; [|instantiate (1 := λ _, faithful None); destruct (_ && _ && _) eqn:E].
  - intros ? s1 Hs1. revert s1 Hs1. change (keeps None (expire_delivery repr fmt_g W ≫= λ _, s ← the (λ s, s);
      when (sv_stopping s && negb (sv_stop_deadline s =? 0) && (sv_stop_deadline s <=? now))
        (modify (λ s, s <| sv_stop_deadline := 0 |>) ≫= λ _, signal_head SIGKILL) ≫= λ _, reap W)).
    apply keeps_bind; [apply expire_keeps|]. intros _ s1 Hs1. apply wp_bind, wp_the, wp_bind.
    eapply wp_mono; [|instantiate (1 := λ _, faithful None); apply wp_when; [|done]].
    + intros ? s2 Hs2. by apply reap_keeps.
    + intros Hb%andb_true_iff. apply wp_bind, wp_modify, signal_head_faithful; [same|].
      by destruct Hb as [[Hst _]%andb_true_iff _].
  - apply quiet_keeps; [done| |done]. by repeat (apply andb_true_iff in E as [E _]).
  - apply keeps_when; [|done]. intros _. apply flush_progress_keeps.
Qed.

Lemma pass_keeps keys : keeps None (pass repr fmt_g is_word is_digit digest W cf keys).
Proof. apply keeps_bind; [apply keeps_for_each, dispatch_keeps|]. intros _. apply tick_keeps. Qed.

(** ** The end *)

(** After [run.exited]: nothing is in flight, no turn is open, and the callers
    are still held as the life says. *)
Definition parting (s : Sup) : Prop :=
  lawful s ∧ lf_ended (life s) = true ∧ relates None (life s <| lf_ended := false |>) s ∧
  held_delivery s = None ∧ sv_turn_open s = false.

Lemma parting_client id : preserves parting (client id).
Proof.
  intros s Hs. unfold client. apply wp_bind, wp_the. case_match; [by apply wp_ret|]. apply wp_raise. split; [apply Hs|done].
Qed.

Lemma parting_call {A} (f : nat → A) : preserves parting (call f).
Proof. intros s (Hl & He & Hr & Hd & Ht). apply wp_call. split_and!; try done. by destruct Hr; split. Qed.

Lemma parting_on_client id f : quiet_change f → preserves parting (on_client id f).
Proof.
  intros Hf s (Hl & He & Hr & Hd & Ht). unfold on_client. apply wp_modify. split_and!; try done. by apply relates_on_client.
Qed.

Lemma parting_queue id frame : unasked frame = true → preserves parting (queue id frame).
Proof.
  intros Hf. apply keeps_bind; [by apply parting_on_client|]. intros _ s (Hl & He & Hr & Hd & Ht). apply wp_emit.
  assert (after (EvFrame id frame) s (s <| sv_log := sv_log s ++ [EvFrame id frame] |>)) as Ha by done.
  pose proof (life_after _ _ _ Ha) as El. cbn [live] in El. rewrite Hf in El.
  split_and!; try done; rewrite ?El; [|done|by apply relates_log].
  eapply lawful_after; [done..|]. cbn [may]. rewrite Hf. apply Hr.
Qed.

Lemma parting_close_at id c E s : parting s → sv_objects s !! id = Some c →
  wp (close_client id) (λ _ s', parting s' ∧ sv_clients s' = without id (sv_clients s)) E s.
Proof.
  intros (Hl & He & Hr & Hd & Ht) Hc. unfold close_client, client. apply wp_bind, wp_bind, wp_the. rewrite Hc.
  apply wp_ret, wp_bind, wp_modify, wp_bind. unfold on_client. apply wp_modify.
  pose proof (relates_close None _ s id c Hc Hr) as Hrc. fold (without id (sv_clients s)).
  apply wp_when; intros Ho.
  - apply wp_emit. set (s1 := _ <| sv_log := _ |>). assert (after (EvClose id) s s1) as Ha by done.
    pose proof (life_after _ _ _ Ha) as El. split; [|done]. split_and!; try done; rewrite ?El; [|done|].
    + by eapply lawful_after.
    + by apply relates_log.
  - pose proof (relates_gone None _ s id c Hc Ho Hr) as Eg. split; [|done]. split_and!; try done.
    change (relates None (life s <| lf_ended := false |>) (s <| sv_clients := without id (sv_clients s) |>
      <| sv_objects := alter (λ c, c <| cl_open := false |>) id (sv_objects s) |>)).
    rewrite Eg in Hrc. by destruct Hrc; split.
Qed.

Lemma parting_close id : preserves parting (close_client id).
Proof.
  intros s Hs. destruct (sv_objects s !! id) as [c|] eqn:Hc.
  - eapply wp_mono; [|by eapply parting_close_at]. by intros ? s' [].
  - unfold close_client, client. apply wp_bind, wp_bind, wp_the. rewrite Hc. apply wp_raise. by split; [apply Hs|].
Qed.

Hint Resolve parting_client parting_call : keeps.

Lemma parting_flush id : preserves parting (flush W id).
Proof.
  unfold flush. apply keeps_bind; [auto with keeps|]. intros c. apply keeps_bind; [auto with keeps|]. intros [answers last].
  case_match; [|apply parting_close]. apply keeps_bind; [by apply parting_on_client|]. intros _.
  apply keeps_when. intros _. apply parting_close.
Qed.

Lemma parting_announce id : preserves parting (announce_dropped id).
Proof.
  unfold announce_dropped. apply keeps_bind; [auto with keeps|]. intros c. apply keeps_when. intros _.
  apply keeps_bind; [by apply parting_queue|]. intros _. by apply parting_on_client.
Qed.

Lemma parting_farewell rounds : preserves parting (farewell W rounds).
Proof.
  induction rounds as [|rounds IH]; cbn [farewell]; [auto with keeps|]. apply keeps_bind; [auto with keeps|]. intros s.
  apply keeps_when. intros _. apply keeps_bind; [apply keeps_for_each, parting_flush|]. done.
Qed.

(** Once the delivery, the progress and the turn are settled, the run may end. *)
Lemma settle_turn s : faithful None s → held_delivery s = None → sv_window_bytes s = 0 →
  wp (when (sv_turn_open s) (close_turn repr W "head_exited" []))
    (λ _ s', faithful None s' ∧ held_delivery s' = None ∧ sv_turn_open s' = false) strict s.
Proof.
  intros Hs Hd Hw. apply wp_when; intros Ht; [|done].
  eapply wp_mono; [|by apply (close_turn_faithful None)]. intros ? s' (Hs' & Ht' & Ed). split_and!; [done| |done].
  unfold held_delivery in *. by rewrite Ed.
Qed.

Lemma exited_parting fields s Q : faithful None s → held_delivery s = None → sv_turn_open s = false →
  (∀ r s', parting s' → Q r s') → wp (append repr W RUN_EXITED fields) Q strict s.
Proof.
  intros [[Hl Hr] Hsh] Hd Ht HQ.
  assert (may (life s) (EvRecord RUN_EXITED fields)) as Hm.
  { apply may_exited. destruct Hr. rewrite Ht in rl_turn0. split_and!; congruence. }
  apply wp_append; [done|exact Hm|]. intros r n w f. apply HQ. set (s1 := _ <| sv_log := _ |>).
  assert (after (EvRecord RUN_EXITED fields) s s1) as Ha by done.
  pose proof (life_after _ _ _ Ha) as El. rewrite live_exited in El. split_and!; try done; rewrite ?El; [|done|].
  - by eapply lawful_after.
  - by destruct Hr; split.
Qed.

Lemma finish_parting s : faithful None s →
  wp (finish repr fmt_g is_word is_digit digest W) (λ code s', code = EXIT_OK ∧ parting s') strict s.
Proof.
  intros Hs. unfold finish. apply wp_bind, wp_the. cbv zeta. apply wp_bind.
  eapply wp_mono; [|apply (finish_delivery_ends None); [apply Hs|by eapply faithful_ends; auto]].
  intros ? s1 [Hs1 Hd1]. apply wp_bind. eapply wp_mono; [|by apply (flush_progress_window None)].
  intros ? s2 (Hs2 & Hw2 & _ & Ed2). assert (held_delivery s2 = None) as Hd2 by (unfold held_delivery in *; by rewrite Ed2).
  apply wp_bind, wp_the, wp_bind. eapply wp_mono; [|by apply settle_turn]. intros ? s3 (Hs3 & Hd3 & Ht3).
  apply wp_bind, wp_the, wp_bind, exited_parting; [done..|]. intros r s4 Hs4.
  apply wp_bind. eapply wp_mono; [|apply (keeps_for_each parting); [|exact Hs4]].
  - intros ? s5 Hs5. apply wp_bind. eapply wp_mono; [|by apply parting_call]. intros rounds s6 Hs6.
    apply wp_bind. eapply wp_mono; [|by apply parting_farewell]. intros ? s7 Hs7. by apply wp_ret.
  - intros id. apply keeps_bind; [auto with keeps|]. intros c. apply keeps_bind; [|intros _; apply parting_flush].
    apply keeps_when. intros _. apply keeps_bind; [apply parting_announce|]. intros _. by apply parting_queue.
Qed.

(** Closing every caller is always lawful. *)
Lemma close_client_lawful id s : lawful s → wp (close_client id) (λ _, lawful) (λ _, lawful) s.
Proof.
  intros Hs. unfold close_client, client. apply wp_bind, wp_bind, wp_the.
  destruct (sv_objects s !! id) as [c|]; [|by apply wp_raise]. apply wp_ret, wp_bind, wp_modify, wp_bind. unfold on_client.
  apply wp_modify, wp_when; intros Ho; [|done]. apply wp_emit. by apply (lawful_after (EvClose id) s).
Qed.

Lemma shutdown_lawful s : lawful s → lawful (shutdown s).2.
Proof.
  intros Hs. enough (wp shutdown (λ _, lawful) (λ _, lawful) s) as Hw by (unfold wp in Hw; by destruct (shutdown s) as [[]]).
  unfold shutdown. apply wp_bind, wp_the, wp_bind. eapply wp_mono; [|apply wp_for_each; [|exact Hs]].
  - intros ? s' Hs'. apply wp_modify. by eapply lawful_log.
  - intros id s' _. apply close_client_lawful.
Qed.

(** After [run.exited], it closes everyone. *)
Lemma close_all_parting ids E : ∀ s, parting s → sv_clients s = ids →
  wp (for_each ids close_client) (λ _ s', parting s' ∧ sv_clients s' = []) E s.
Proof.
  induction ids as [|id ids IH]; intros s Hs Hids; cbn [for_each]; [by apply wp_ret|].
  pose proof Hs as (_ & _ & Hr & _). destruct (rl_clients_open _ _ _ Hr id) as (c & Hc & _); [rewrite Hids; by left|].
  apply wp_bind. eapply wp_mono; [|by eapply parting_close_at]. intros ? s' [Hs' Hc']. apply IH; [done|].
  rewrite Hc', Hids. pose proof (rl_nodup _ _ _ Hr) as Hn. rewrite Hids in Hn. apply NoDup_cons in Hn as [Hn _].
  cbn. rewrite Nat.eqb_refl. cbn. by apply without_fresh.
Qed.

Lemma shutdown_parting s : parting s → lawful (shutdown s).2 ∧ lf_ended (life (shutdown s).2) = true ∧
  lf_open (life (shutdown s).2) = None ∧ lf_turn (life (shutdown s).2) = None ∧ lf_held (life (shutdown s).2) = [] ∧ lf_asked (life (shutdown s).2) = None.
Proof.
  intros Hs. enough (wp shutdown (λ _ s', parting s' ∧ sv_clients s' = []) (λ _ _, False) s) as Hw.
  { unfold wp in Hw. destruct (shutdown s) as [[[]|e] s']; [|done]. cbn. destruct Hw as [(Hl & He & Hr & Hd & Ht) Hc].
    destruct Hr. cbn in *. rewrite Ht in rl_turn0. split_and!; congruence. }
  unfold shutdown. apply wp_bind, wp_the, wp_bind. eapply wp_mono; [|by apply close_all_parting].
  intros ? s' [(Hl & He & Hr & Hd & Ht) Hc]. apply wp_modify. split; [|done]. split_and!; try done. by destruct Hr; split.
Qed.

(** ** The beginning *)

(** Before the run is recorded nothing can be seen. *)
Definition unborn (s : Sup) : Prop :=
  sv_log s = [] ∧ relates None (born <| lf_started := true |>) s ∧ held_delivery s = None.

Lemma begin_faithful s : unborn s →
  wp (begin repr W cf) (λ _ s', faithful None s') (λ _ s', sv_log s' = []) s.
Proof.
  intros (Hlog & Hr & Hd). unfold begin. apply wp_bind, wp_lift; [done|]. intros w _. apply wp_bind, wp_the, wp_bind, wp_lift; [done|].
  intros [w1 f1] _. apply wp_bind, wp_modify, wp_bind, wp_call, wp_bind, wp_lift; [done|]. intros pid _.
  apply wp_bind, wp_modify, wp_bind, wp_call, wp_bind, wp_lift; [done|]. intros _ _.
  apply wp_bind, wp_the, wp_bind. unfold record. apply wp_bind, wp_append_any; [done|].
  intros r n w2 f2. apply wp_ret, wp_modify. set (s1 := _ <| sv_started := true |>).
  assert (sv_log s1 = [] ++ [EvRecord RUN_STARTED _]) as El by (unfold s1; sup_simpl; rewrite Hlog; reflexivity).
  split; [split|].
  - unfold lawful. rewrite El. by apply allowed_snoc.
  - unfold life. rewrite El, lived_snoc, live_started. by destruct Hr; split.
  - unfold short. by change (held_delivery s1) with (held_delivery s); rewrite Hd.
Qed.

(** A head that began and was never recorded is only signalled. *)
Lemma signal_head_unborn number s : lawful s ∧ lf_started (life s) = false →
  wp (signal_head number) (λ _ s', lawful s' ∧ lf_started (life s') = false) (λ _ _, False) s.
Proof.
  intros [Hl Hst]. unfold signal_head. apply wp_bind, wp_the, wp_when; [|done]. intros _. apply wp_emit.
  set (s1 := _ <| sv_log := _ |>). assert (after (EvSignal number) s s1) as Ha by done. split.
  - eapply lawful_after; [done..|]. by right.
  - by rewrite (life_after _ _ _ Ha).
Qed.

Lemma abandon_lawful s : sv_log s = [] → lawful (abandon_head W s).2.
Proof.
  intros Hlog. enough (wp (abandon_head W) (λ _ s', lawful s' ∧ lf_started (life s') = false) (λ _ _, False) s) as Hw
    by (unfold wp in Hw; by destruct (abandon_head W s) as [[[]|e] s']; [apply Hw|]).
  assert (lawful s ∧ lf_started (life s) = false) as Hs by (unfold lawful, life; by rewrite Hlog).
  unfold abandon_head. apply wp_bind, wp_the. destruct (_ || _); [by apply wp_ret|].
  apply wp_bind. eapply wp_mono; [|by apply signal_head_unborn]. intros ? s1 Hs1. apply wp_bind, wp_call, wp_bind.
  generalize (w_abandon W (sv_calls s1)). intros waits.
  assert (∀ waits s, lawful s ∧ lf_started (life s) = false →
    wp (abandon_loop waits) (λ _ s', lawful s' ∧ lf_started (life s') = false) (λ _ _, False) s) as Hloop.
  { clear. induction waits as [|[| |] waits IH]; intros s Hs; cbn [abandon_loop]; auto using wp_ret.
    all: by apply wp_bind, wp_modify, wp_ret. }
  eapply wp_mono; [|by apply Hloop]. intros [] s2 Hs2; [by apply wp_ret|]. apply wp_bind.
  eapply wp_mono; [|by apply signal_head_unborn]. intros ? s3 Hs3. by apply wp_bind, wp_call, wp_modify.
Qed.

(** ** A whole run *)

Lemma loop_faithful batches : ∀ s, faithful None s →
  wp (loop repr fmt_g is_word is_digit digest W cf batches)
    (λ r s', match r with None => faithful None s' | Some code => code = EXIT_OK ∧ parting s' end) strict s.
Proof.
  induction batches as [|keys batches IH]; intros s Hs; cbn [loop]; apply wp_bind, wp_the; destruct (alive s).
  - by apply wp_ret.
  - apply wp_bind. eapply wp_mono; [|by apply finish_parting]. intros code s' Hs'. by apply wp_ret.
  - apply wp_bind. eapply wp_mono; [|by apply pass_keeps]. intros ? s' Hs'. by apply IH.
  - apply wp_bind. eapply wp_mono; [|by apply finish_parting]. intros code s' Hs'. by apply wp_ret.
Qed.

Lemma new_supervisor_unborn rows cols f : unborn (new_supervisor cf rows cols f).
Proof. split_and!; [done| |done]. split; try done; cbn; try apply new_screen_wf; try apply NoDup_nil_2; lia || set_solver. Qed.

(** What a run leaves, however it ends. *)
Lemma run_lawful batches s : unborn s →
  let '(r, s') := run repr fmt_g is_word is_digit digest W cf batches s in
  lawful s' ∧ match r with
  | Ok None => faithful None s'
  | Ok (Some code) => code = EXIT_OK ∧ lf_ended (life s') = true ∧ lf_open (life s') = None ∧
      lf_turn (life s') = None ∧ lf_held (life s') = [] ∧ lf_asked (life s') = None
  | Raise _ => True
  end.
Proof.
  intros Hs. unfold run. pose proof (begin_faithful s Hs) as Hb. unfold wp in Hb. destruct (begin _ _ _ s) as [[?|e] s1].
  - pose proof (loop_faithful batches s1 Hb) as Hl. unfold wp in Hl. destruct (loop _ _ _ _ _ _ _ _ s1) as [[[code|]|e] s2].
    + destruct Hl as [-> Hp]. pose proof (shutdown_parting s2 Hp). destruct (shutdown s2). cbn in *. tauto.
    + split; [by eapply faithful_lawful|done].
    + destruct Hl as [Hl _]. pose proof (shutdown_lawful s2 Hl). by destruct (shutdown s2).
  - pose proof (abandon_lawful s1 Hb) as Ha. destruct (abandon_head W s1) as [ra s2].
    pose proof (shutdown_lawful s2 Ha) as Hsd. by destruct (shutdown s2).
Qed.
End facts.
