(* ===== verification/SupervisorRuns.v ===== *)
(** * What follows for the supervisor's callers and its head

    Consequences of the contract: what an [input.accepted] record says of the
    bytes on the terminal, that answers match questions, that the output a
    caller reads is the end of the head's stream, the bounds on callers, and
    that a read leaves no request unread. *)

From S2P Require Import Prelude PyText JsonText Json Base64 Protocol Journal Screen ScreenFacts Supervisor SupervisorSpec.
From S2P Require Import SupervisorFacts.

(** ** Operations that leave a part of the state alone *)

Definition untouched {A X} (f : Sup → X) (m : SM A) : Prop := ∀ s, f (m s).2 = f s.

Section untouched.
Context {X : Type} (f : Sup → X).

Lemma untouched_ret {A} (a : A) : untouched f (mret a).
Proof. done. Qed.

Lemma untouched_the {A} (g : Sup → A) : untouched f (the g).
Proof. done. Qed.

Lemma untouched_raise {A} e : untouched f (raise e : SM A).
Proof. done. Qed.

Lemma untouched_lift {A} (r : res A) : untouched f (lift r).
Proof. done. Qed.

Lemma untouched_modify g : (∀ s, f (g s) = f s) → untouched f (modify g).
Proof. intros Hg s. apply Hg. Qed.

Lemma untouched_bind {A B} (m : SM A) (k : A → SM B) :
  untouched f m → (∀ a, untouched f (k a)) → untouched f (m ≫= k).
Proof.
  intros Hm Hk s. specialize (Hm s). unfold mbind, SM_bind. destruct (m s) as [[a|e] s']; [|done].
  cbn in Hm. by rewrite Hk.
Qed.

Lemma untouched_when b m : untouched f m → untouched f (when b m).
Proof. by destruct b. Qed.

Lemma untouched_for_each {A} (l : list A) g : (∀ a, untouched f (g a)) → untouched f (for_each l g).
Proof. intros Hg. induction l as [|a l IH]; [done|]. by apply untouched_bind. Qed.

Lemma untouched_catch {A} (m : SM A) h : untouched f m → (∀ msg, untouched f (h msg)) → untouched f (catch_protocol m h).
Proof.
  intros Hm Hh s. specialize (Hm s). unfold catch_protocol. destruct (m s) as [[a|[cls msg]] s']; [done|].
  case_match; [|done]. cbn in Hm. by rewrite Hh.
Qed.
End untouched.

(** Everything but a read leaves what callers have sent alone, and closes no one
    to further requests. *)
Definition inboxes (s : Sup) : list (string * bool) := (λ c, (cl_inbox c, cl_closing c)) <$> sv_objects s.

Create HintDb untouched.
#[global] Hint Resolve untouched_ret untouched_the untouched_raise untouched_lift : untouched.

Section inboxes.
Context `{PyRepr, JsonText, Unicode}.
Variable repr : string → string.
Variable fmt_g : Z → string.
Variable is_word is_digit : Z → bool.
Variable digest : list Z → string.
Variable W : World.
Variable cf : Config.

Lemma inboxes_call {A} (g : nat → A) : untouched inboxes (call g).
Proof. done. Qed.

Lemma inboxes_modify g : (∀ s, sv_objects (g s) = sv_objects s) → untouched inboxes (modify g).
Proof. intros Hg. apply untouched_modify. intros s. unfold inboxes. by rewrite Hg. Qed.

Lemma inboxes_emit e : untouched inboxes (emit e).
Proof. by apply inboxes_modify. Qed.

Lemma inboxes_on_client id g : (∀ c, (cl_inbox (g c), cl_closing (g c)) = (cl_inbox c, cl_closing c)) → untouched inboxes (on_client id g).
Proof.
  intros Hg. apply untouched_modify. intros s. unfold inboxes. sup_simpl.
  apply list_eq. intros i. rewrite !list_lookup_fmap. destruct (decide (id = i)) as [->|].
  - rewrite list_lookup_alter_eq. destruct (sv_objects s !! i); cbn; [by rewrite Hg|done].
  - by rewrite list_lookup_alter_ne.
Qed.

Hint Resolve inboxes_call inboxes_emit : untouched.
Hint Extern 1 (untouched inboxes (modify _)) => apply inboxes_modify; done : untouched.
Hint Extern 1 (untouched inboxes (on_client _ _)) => apply inboxes_on_client; done : untouched.

Ltac frame :=
  intros; try solve [auto 1 with untouched];
  lazymatch goal with
  | |- untouched _ (_ ≫= _) => apply untouched_bind; frame
  | |- untouched _ (when _ _) => apply untouched_when; frame
  | |- untouched _ (for_each _ _) => apply untouched_for_each; frame
  | |- untouched _ (catch_protocol _ _) => apply untouched_catch; frame
  | |- untouched _ (let _ := _ in _) => cbv zeta; frame
  | |- untouched _ (match _ with _ => _ end) => case_match; frame
  | |- _ => idtac
  end.

Lemma inboxes_client id : untouched inboxes (client id).
Proof. unfold client. frame. Qed.
Hint Resolve inboxes_client : untouched.

Lemma inboxes_record kind fields : untouched inboxes (record repr W kind fields).
Proof. unfold record, append. frame. Qed.
Hint Resolve inboxes_record : untouched.

Lemma inboxes_close id : untouched inboxes (close_client id).
Proof. unfold close_client. frame. Qed.
Hint Resolve inboxes_close : untouched.

Lemma inboxes_flush id : untouched inboxes (flush W id).
Proof. unfold flush. frame. Qed.
Hint Resolve inboxes_flush : untouched.

Lemma inboxes_answer id request_id payload : untouched inboxes (answer W id request_id payload).
Proof. unfold answer, send, queue. frame. Qed.

Hint Resolve inboxes_answer : untouched.

Lemma inboxes_begin_stop initiator number : untouched inboxes (begin_stop repr W initiator number).
Proof. unfold begin_stop, begin_drain, signal_head. frame. Qed.
Hint Resolve inboxes_begin_stop : untouched.

Lemma inboxes_handler op id request h : handler repr fmt_g W cf op id request = Some h → untouched inboxes h.
Proof.
  unfold handler. intros Hh. repeat case_match; simplify_eq;
    unfold op_status, op_input, op_output, op_attach, op_resize, op_drain, op_stop, admitted, admit_payload, resize_field,
      set_winsize, begin_drain; frame.
Qed.

Lemma inboxes_handle id line : untouched inboxes (handle repr fmt_g W cf id line).
Proof.
  unfold handle. apply untouched_bind; [frame|]. intros _. destruct (decode_frame line) as [request|[cls msg]].
  - cbv zeta. destruct (handler _ _ _ _ _ _ _) as [h|] eqn:Eh; [|frame]. apply inboxes_handler in Eh. frame.
  - unfold send, queue. frame.
Qed.

Hint Resolve inboxes_handle : untouched.

Lemma inboxes_finish_delivery state why : untouched inboxes (finish_delivery repr fmt_g W state why).
Proof. unfold finish_delivery, open_turn. frame. Qed.
Hint Resolve inboxes_finish_delivery : untouched.

Lemma inboxes_expire : untouched inboxes (expire_delivery repr fmt_g W).
Proof. unfold expire_delivery. frame. Qed.
Hint Resolve inboxes_expire : untouched.

Lemma inboxes_write_loop answers last : ∀ d, untouched inboxes (write_loop d answers last).
Proof. induction answers as [|n answers IH]; intros d; cbn [write_loop]; frame. Qed.
Hint Resolve inboxes_write_loop : untouched.

Lemma inboxes_pump : untouched inboxes (pump_delivery repr fmt_g W).
Proof. unfold pump_delivery. frame. Qed.
Hint Resolve inboxes_pump : untouched.

Lemma inboxes_flush_progress : untouched inboxes (flush_progress repr is_word is_digit digest W).
Proof. unfold flush_progress. frame. Qed.
Hint Resolve inboxes_flush_progress : untouched.

Lemma inboxes_tick : untouched inboxes (tick repr fmt_g is_word is_digit digest W cf).
Proof. unfold tick, close_turn, reap, signal_head. frame. Qed.

Lemma inboxes_push chunk id : untouched inboxes (push_output W chunk id).
Proof. unfold push_output, announce_dropped, queue. frame. Qed.
Hint Resolve inboxes_push : untouched.

Lemma inboxes_read_head : untouched inboxes (read_head repr fmt_g W).
Proof.
  unfold read_head. apply untouched_bind; [frame|]. intros [chunks last].
  induction chunks as [|chunk chunks IH]; cbn [read_loop]; unfold master_closed, reap, record_output, if_attached; frame.
Qed.
Hint Resolve inboxes_read_head : untouched.

Lemma inboxes_begin : untouched inboxes (begin repr W cf).
Proof. unfold begin. frame. Qed.

(** A caller whose every complete request has been read. *)
Definition read_up (front : string * bool) : Prop := char_in newline front.1 = false ∨ front.2 = true.

Definition all_read (s : Sup) : Prop := Forall read_up (inboxes s).

Notation reads m := (∀ s, all_read s → wp m (λ _, all_read) (λ _ _, True) s).

Lemma untouched_reads {A} (m : SM A) : untouched inboxes m → reads m.
Proof.
  intros Hm s Hs. specialize (Hm s). unfold wp. destruct (m s) as [[a|e] s']; [|done]. cbn in Hm.
  unfold all_read in *. by rewrite Hm.
Qed.

Lemma accept_reads : reads (accept W).
Proof.
  intros s Hs. unfold accept. apply wp_bind, wp_call, wp_for_each; [|done]. intros _ s1 _ Hs1. unfold accept_one.
  apply wp_bind, wp_the. case_match; [by apply wp_emit|]. apply wp_bind, wp_modify, wp_emit. unfold all_read, inboxes in *.
  sup_simpl. rewrite fmap_app. apply Forall_app. split; [done|]. constructor; [by left|done].
Qed.

(** Everyone but [id] is read up. *)
Definition others_read (id : nat) (s : Sup) : Prop := ∀ i front, i ≠ id → inboxes s !! i = Some front → read_up front.

Lemma others_all id s : others_read id s → (∀ front, inboxes s !! id = Some front → read_up front) → all_read s.
Proof.
  intros Ho Hid. apply Forall_lookup. intros i front Hi. destruct (decide (i = id)) as [->|]; eauto.
Qed.

Lemma all_others id s : all_read s → others_read id s.
Proof. intros Hs i front _ Hi. eapply Forall_lookup; eauto. Qed.

Lemma inboxes_alter s id g :
  inboxes (s <| sv_objects := alter g id (sv_objects s) |>) !! id
    = (λ c, (cl_inbox (g c), cl_closing (g c))) <$> (sv_objects s !! id) ∧
  (others_read id s → others_read id (s <| sv_objects := alter g id (sv_objects s) |>)).
Proof.
  unfold others_read, inboxes. sup_simpl. split.
  - rewrite list_lookup_fmap, list_lookup_alter_eq. by destruct (sv_objects s !! id).
  - intros Ho i front Hi. rewrite list_lookup_fmap, list_lookup_alter_ne by done. rewrite <-list_lookup_fmap. by apply Ho.
Qed.

Lemma inboxes_lookup s id : inboxes s !! id = (λ c, (cl_inbox c, cl_closing c)) <$> (sv_objects s !! id).
Proof. unfold inboxes. by rewrite list_lookup_fmap. Qed.

(** A line off the front leaves a shorter inbox. *)
Lemma partition_shorter sep s : char_in sep s = true → (String.length (str_partition sep s).2 < String.length s)%nat.
Proof.
  induction s as [|c s IH]; [done|]. cbn [char_in str_partition]. destruct (Ascii.eqb c sep); [cbn; lia|]. cbn [orb].
  intros Hs. apply IH in Hs. destruct (str_partition sep s). cbn in *. lia.
Qed.

(** The fuel of the line loop is enough: it ends with every line read, or the
    caller closed to more. *)
Lemma line_loop_reads fuel id : ∀ s c, others_read id s → sv_objects s !! id = Some c → (String.length (cl_inbox c) < fuel)%nat →
  wp (line_loop repr fmt_g W cf fuel id) (λ _, all_read) (λ _ _, True) s.
Proof.
  induction fuel as [|fuel IH]; intros s c Ho Hc Hf; [lia|]. cbn [line_loop]. unfold client.
  apply wp_bind, wp_bind, wp_the. rewrite Hc. apply wp_ret. destruct (char_in newline (cl_inbox c)) eqn:En.
  - pose proof (partition_shorter _ _ En) as Hlt. destruct (str_partition _ _) as [line rest]. cbn [snd] in Hlt.
    apply wp_bind. unfold on_client. apply wp_modify. set (s1 := s <| sv_objects := _ |>).
    destruct (inboxes_alter s id (λ c, c <| cl_inbox := rest |>)) as [E1 Ho1]. specialize (Ho1 Ho). rewrite Hc in E1. cbn in E1.
    apply wp_bind. pose proof (inboxes_handle id line s1) as Hh. unfold wp at 1.
    destruct (handle _ _ _ _ _ _ s1) as [[?|e] s2]; [|done]. cbn [snd] in Hh.
    change (inboxes s1 !! id = Some (rest, cl_closing c)) in E1. rewrite <-Hh in E1.
    assert (others_read id s2) as Ho2 by (unfold others_read; rewrite Hh; exact Ho1).
    apply wp_bind, wp_bind, wp_the. rewrite inboxes_lookup in E1.
    destruct (sv_objects s2 !! id) as [c2|] eqn:Hc2; [|done]. injection E1 as Ei Ecl. apply wp_ret.
    destruct (cl_closing c2) eqn:Ecl2.
    + apply wp_ret. apply (others_all id); [done|]. rewrite inboxes_lookup, Hc2. intros front [= <-]. by right.
    + eapply IH; [done|done|]. rewrite Ei. lia.
  - apply wp_when; intros Hbig.
    + apply wp_bind. unfold wp at 1.
      pose proof (inboxes_answer id VNone (frame_refusal (Z.of_nat (String.length (cl_inbox c)))) s) as Hh. unfold answer in Hh.
      destruct (send _ _ _ s) as [[?|e] s2]; [|done]. cbn [snd] in Hh. unfold on_client. apply wp_modify.
      destruct (inboxes_alter s2 id (λ c, c <| cl_inbox := "" |> <| cl_closing := true |>)) as [E1 Ho1].
      apply (others_all id); [apply Ho1; unfold others_read; by rewrite Hh|]. rewrite E1. intros front Hfr.
      destruct (sv_objects s2 !! id); [|done]. injection Hfr as <-. by right.
    + apply (others_all id); [done|]. rewrite inboxes_lookup, Hc. intros front [= <-]. by left.
Qed.

Lemma read_client_reads id : reads (read_client repr fmt_g W cf id).
Proof.
  intros s Hs. unfold read_client, client. apply wp_bind, wp_bind, wp_the.
  destruct (sv_objects s !! id) as [c|] eqn:Hc; [|done]. apply wp_ret, wp_bind, wp_call.
  assert (all_read (s <| sv_calls := S (sv_calls s) |>)) as Hs1 by done.
  destruct (if cl_open c then _ else _) as [[|ch data]| |]; [by apply untouched_reads; [apply inboxes_close|]| |by apply wp_ret|
    by apply untouched_reads; [apply inboxes_close|]].
  cbv zeta. apply wp_bind. unfold on_client. apply wp_modify.
  destruct (inboxes_alter (s <| sv_calls := S (sv_calls s) |>) id (λ c0, c0 <| cl_inbox := cl_inbox c +:+ String ch data |>)) as [E1 Ho1].
  eapply line_loop_reads; [by apply Ho1, all_others| |].
  - sup_simpl. by rewrite list_lookup_alter_eq, Hc.
  - cbn. lia.
Qed.

Lemma dispatch_reads k : reads (dispatch repr fmt_g W cf k).
Proof.
  destruct k as [|rd wr|n|id rd wr]; cbn [dispatch].
  - apply accept_reads.
  - apply untouched_reads. frame.
  - apply untouched_reads. frame.
  - intros s Hs. apply wp_bind, wp_the. case_match; [|by apply wp_ret]. apply wp_bind. eapply wp_mono; [|by apply untouched_reads; [frame|]].
    intros ? s' Hs'. apply wp_when; [|done]. intros _. by apply read_client_reads.
Qed.

Lemma loop_reads batches : ∀ s, all_read s →
  wp (loop repr fmt_g is_word is_digit digest W cf batches) (λ r s', r = None → all_read s') (λ _ _, True) s.
Proof.
  induction batches as [|keys batches IH]; intros s Hs; cbn [loop]; apply wp_bind, wp_the; destruct (alive s);
    try (unfold wp, mbind, SM_bind; destruct (finish _ _ _ _ _ _ s) as [[code|e] s']; done).
  - by apply wp_ret.
  - apply wp_bind. unfold pass. apply wp_bind. eapply wp_mono; [|apply wp_for_each; [|exact Hs]].
    + intros ? s1 Hs1. eapply wp_mono; [|by apply untouched_reads; [apply inboxes_tick|]]. intros ? s2. apply IH.
    + intros k s1 _. apply dispatch_reads.
Qed.
End inboxes.

(** ** Reading a log *)

(** The bytes placed on the terminal, and the bytes the head wrote. *)
Definition typed (log : list Ev) : string := foldr (λ e t, match e with EvPty b => b +:+ t | _ => t end) "" log.
Definition stream (log : list Ev) : string := foldr (λ e t, match e with EvOutput b => b +:+ t | _ => t end) "" log.

(** Python's [s[-n:]] of a positive [n]. *)
Definition last_bytes (n : nat) (s : string) : string := str_drop (String.length s - n) s.

Definition is_dialogue (e : Ev) : bool := match e with EvRequest _ _ | EvFrame _ _ => true | _ => false end.

Lemma str_take_add (a b p : string) w :
  str_take (String.length a) (str_drop w p) = a → str_take (String.length b) (str_drop (w + String.length a) p) = b →
  str_take (String.length (a +:+ b)) (str_drop w p) = a +:+ b.
Proof.
  rewrite <-str_drop_drop. generalize (str_drop w p). clear. intros s Ha Hb.
  rewrite <-(str_take_drop (String.length a) s) at 1. rewrite Ha, str_length_app.
  revert Hb. generalize (str_drop (String.length a) s). clear. intros t Ht.
  induction a as [|c a IH]; [by rewrite !str_nil_app|]. rewrite !str_cons_app. cbn [String.length Nat.add].
  by rewrite str_take_cons, IH.
Qed.

Lemma str_take_all s : str_take (String.length s) s = s.
Proof. induction s as [|c s IH]; [done|]. cbn [String.length]. by rewrite str_take_cons, IH. Qed.

Lemma bool_decide_ext_ltb (P : Prop) `{Decision P} a b : (a < b ↔ P) → (a <? b) = bool_decide P.
Proof. intros HP. destruct (Z.ltb_spec a b); symmetry; [apply bool_decide_eq_true|apply bool_decide_eq_false]; [tauto|]. rewrite <-HP. lia. Qed.

Section logs.
Context `{PyRepr, JsonText}.

Lemma lived_stream log : lf_stream (lived log) = stream log.
Proof.
  unfold lived. enough (∀ l, lf_stream (foldl live l log) = lf_stream l +:+ stream log) as Hl by (rewrite Hl; apply str_nil_app).
  induction log as [|e log IH]; intros l; cbn [foldl stream foldr]; [by rewrite str_app_nil|]. rewrite IH. fold (stream log).
  destruct e; cbn [live]; try (unfold recorded; repeat case_match; done). cbn. by rewrite str_app_assoc.
Qed.

(** Between its admission and its record a delivery is the only one, and the
    terminal gets its bytes in order. *)
Lemma open_window id payload mid : ∀ l w, lf_open l = Some (id, payload, w) → allowed l mid →
  (∀ f, EvRecord INPUT_ACCEPTED f ∉ mid) →
  lf_open (foldl live l mid) = Some (id, payload, (w + String.length (typed mid))%nat) ∧
  str_take (String.length (typed mid)) (str_drop w payload) = typed mid ∧ ∀ id' p', EvAdmit id' p' ∉ mid.
Proof.
  induction mid as [|e mid IH]; intros l w Hl Ha Hn.
  { cbn. rewrite Nat.add_0_r. split_and!; [done| |intros; apply not_elem_of_nil]. by destruct (str_drop w payload). }
  destruct Ha as [Hm Ha]. assert (∀ f, EvRecord INPUT_ACCEPTED f ∉ mid) as Hn' by (intros f Hf; apply (Hn f); by right).
  assert (∀ l', live l e = l' → lf_open l' = Some (id, payload, w) → typed (e :: mid) = typed mid → (∀ id' p', e ≠ EvAdmit id' p') →
    lf_open (foldl live l (e :: mid)) = Some (id, payload, (w + String.length (typed (e :: mid)))%nat) ∧
    str_take (String.length (typed (e :: mid))) (str_drop w payload) = typed (e :: mid) ∧
    ∀ id' p', EvAdmit id' p' ∉ e :: mid) as Hskip.
  { intros l' El Hl' Et He. rewrite Et. cbn [foldl]. rewrite El in *. destruct (IH l' w Hl' Ha Hn') as (H1 & H2 & H3).
    split_and!; [done..|]. intros id' p' [Hin|Hin]%elem_of_cons; [by eapply He|by eapply H3]. }
  destruct e; try (eapply Hskip; [reflexivity| |done|done]; cbn; try case_match; done).
  - eapply Hskip; [reflexivity| |done|done]. cbn [live]. unfold recorded. repeat case_match; try done; simplify_eq.
    exfalso. apply (Hn fields). match goal with E : String.eqb kind INPUT_ACCEPTED = true |- _ => apply String.eqb_eq in E as -> end.
    by left.
  - cbn [may] in Hm. rewrite Hl in Hm. cbn [foldl typed foldr]. fold (typed mid).
    destruct (IH (live l (EvPty bytes)) (w + String.length bytes)%nat) as (H1 & H2 & H3);
      [cbn [live]; by rewrite Hl|done..|]. rewrite H1. rewrite str_length_app, Nat.add_assoc. split_and!; [done| |].
    + rewrite <-str_length_app. by apply str_take_add.
    + intros id' p' [Hin|Hin]%elem_of_cons; [done|by eapply H3].
  - cbn [may] in Hm. destruct Hm as (_ & _ & _ & Hm & _). congruence.
Qed.

Definition silent (log : list Ev) : Prop := Forall (λ e, is_dialogue e = false) log.

Lemma live_silent l e : is_dialogue e = false → lf_asked (live l e) = lf_asked l.
Proof. destruct e; try done; intros _; cbn [live]; unfold recorded; by repeat case_match. Qed.

(** The next thing said after a question is its answer. *)
Lemma question_answered c request_id log : ∀ l, lf_asked l = Some (c, request_id) → allowed l log →
  silent log ∧ lf_asked (foldl live l log) = Some (c, request_id) ∨
  ∃ mid frame rest, log = mid ++ EvFrame c frame :: rest ∧ silent mid ∧ unasked frame = false ∧ answers request_id frame.
Proof.
  induction log as [|e log IH]; intros l Hl Ha; [by left; split; [constructor|]|]. destruct Ha as [Hm Ha].
  destruct (is_dialogue e) eqn:Ed.
  - right. destruct e; try done; cbn [may] in Hm; [congruence|]. destruct (unasked frame) eqn:Eu; [congruence|].
    rewrite Hl in Hm. destruct Hm as [-> Hm]. exists [], frame, log. split_and!; try done; by constructor.
  - destruct (IH (live l e)) as [[Hs Hf]|(mid & frame & rest & -> & Hs & Hu & Hans)]; [by rewrite live_silent|done| |].
    + left. split; [by constructor|done].
    + right. exists (e :: mid), frame, rest. split_and!; try done; by constructor.
Qed.

(** A question not answered yet was asked, and nothing was said since. *)
Lemma question_asked log : ∀ c request_id, allowed born log → lf_asked (lived log) = Some (c, request_id) →
  ∃ pre line mid, log = pre ++ EvRequest c line :: mid ∧ silent mid ∧ request_id = asked_id line.
Proof.
  induction log as [|e log IH] using rev_ind; intros c request_id; [done|]. rewrite allowed_snoc, lived_snoc. intros [Ha Hm] Hl.
  destruct (is_dialogue e) eqn:Ed.
  - destruct e; try done.
    + injection Hl as -> <-. exists log, line, []. split_and!; try done; by constructor.
    + cbn [may live] in *. destruct (unasked frame); [congruence|done].
  - rewrite live_silent in Hl by done. destruct (IH c request_id Ha Hl) as (pre & line & mid & -> & Hs & ->).
    exists pre, line, (mid ++ [e]). split_and!; [by rewrite <-app_assoc| |done]. apply Forall_app. by split; [|constructor].
Qed.
End logs.

(** ** The theorems *)

Section runs.
Context `{PyRepr, JsonText, Unicode}.
Variable repr : string → string.
Variable fmt_g : Z → string.
Variable is_word is_digit : Z → bool.
Variable digest : list Z → string.
Variable W : World.
Variable cf : Config.
Variables rows cols : Z.
Variable f : File.

(** A supervisor started on the journal [f] and run over [batches]. *)
Definition outcome (batches : list (list Key)) : res (option Z) * Sup :=
  run repr fmt_g is_word is_digit digest W cf batches (new_supervisor cf rows cols f).

Lemma outcome_lawful batches : allowed born (sv_log (outcome batches).2).
Proof.
  pose proof (run_lawful repr fmt_g is_word is_digit digest W cf batches _ (new_supervisor_unborn cf rows cols f)) as Hr.
  unfold outcome. destruct (run _ _ _ _ _ _ _ _ _) as [r s]. apply Hr.
Qed.

Lemma outcome_faithful batches s : outcome batches = (Ok None, s) → faithful None s.
Proof.
  pose proof (run_lawful repr fmt_g is_word is_digit digest W cf batches _ (new_supervisor_unborn cf rows cols f)) as Hr.
  unfold outcome. intros E. rewrite E in Hr. apply Hr.
Qed.

Lemma outcome_asked batches r s : outcome batches = (Ok r, s) → lf_asked (lived (sv_log s)) = None.
Proof.
  pose proof (run_lawful repr fmt_g is_word is_digit digest W cf batches _ (new_supervisor_unborn cf rows cols f)) as Hr.
  unfold outcome. intros E. rewrite E in Hr. destruct Hr as [_ Hr]. destruct r; [apply Hr|]. by destruct Hr as [[_ []] _].
Qed.

(** C1. However the kernel, the clock, the head and its callers behave, and
    however the run ends, the log of a supervisor is a life its contract allows:
    one delivery in flight at a time with its bytes in order and an exact
    record, turns opened by landed input and closed with the bytes they saw,
    drain before stop and each once, signals only to a head being stopped or
    never recorded, answers in step with questions, at most sixteen callers.  A
    run that returns has closed every caller, with no delivery or turn open. *)
Theorem supervisor_keeps_contract batches :
  let '(r, s) := outcome batches in
  allowed born (sv_log s) ∧
  match r with
  | Ok (Some code) => code = EXIT_OK ∧ lf_ended (lived (sv_log s)) = true ∧ lf_open (lived (sv_log s)) = None ∧
      lf_turn (lived (sv_log s)) = None ∧ lf_held (lived (sv_log s)) = []
  | _ => True
  end.
Proof.
  pose proof (run_lawful repr fmt_g is_word is_digit digest W cf batches _ (new_supervisor_unborn cf rows cols f)) as Hr.
  unfold outcome. destruct (run _ _ _ _ _ _ _ _ _) as [[[code|]|e] s]; destruct Hr as [Hl Hr]; (split; [done|]); unfold life in Hr; tauto.
Qed.

(** C5. The record that ends a delivery says which bytes of it reached the head:
    between the admission and the record no other delivery is admitted, what
    was placed on the terminal is a prefix of the payload of exactly the
    recorded length, and the record says complete only if that is all of it. *)
Theorem input_record_is_exact batches pre id payload mid fields post :
  sv_log (outcome batches).2 = pre ++ EvAdmit id payload :: mid ++ EvRecord INPUT_ACCEPTED fields :: post →
  (∀ g, EvRecord INPUT_ACCEPTED g ∉ mid) →
  (∀ id' p', EvAdmit id' p' ∉ mid) ∧ get fields "delivery" = VInt id ∧
  get fields "bytes" = VInt (Z.of_nat (String.length (typed mid))) ∧
  get fields "offered_bytes" = VInt (Z.of_nat (String.length payload)) ∧
  typed mid = str_take (String.length (typed mid)) payload ∧
  ∃ complete, get fields "complete" = VBool complete ∧
    if complete then typed mid = payload else typed mid ≠ payload ∨ payload = "".
Proof.
  intros E Hn. pose proof (outcome_lawful batches) as Ha. rewrite E in Ha.
  apply allowed_app in Ha as [_ [_ Ha]]. apply allowed_app in Ha as [Hmid [Hrec _]].
  destruct (open_window id payload mid (live (foldl live born pre) (EvAdmit id payload)) 0%nat eq_refl Hmid Hn) as (Ho & Ht & Hadm).
  apply may_accepted in Hrec as (_ & _ & Hrec). rewrite Ho in Hrec. destruct Hrec as (Hd & Hb & Hof & complete & Hc & Htr).
  cbn [str_drop] in Ht. cbn [Nat.add] in *. split_and!; try done. exists complete. split; [done|]. destruct complete.
  - rewrite Htr in Ht. rewrite <-Ht. apply str_take_all.
  - destruct Htr as [Htr|Htr]; [left; intros Hx; rewrite Hx in Htr; lia|by right].
Qed.

(** Callers get answers in step with their questions: the first thing said
    after a question is the answer to it, on the same connection and with its
    id, unless the run ended by an exception first; and whatever looks like an
    answer follows its question. *)
Theorem answers_follow_questions batches :
  let '(r, s) := outcome batches in
  (∀ pre c line post, sv_log s = pre ++ EvRequest c line :: post →
    (∃ e, r = Raise e) ∧ silent post ∨
    ∃ mid frame rest, post = mid ++ EvFrame c frame :: rest ∧ silent mid ∧ unasked frame = false ∧ answers (asked_id line) frame) ∧
  (∀ pre c frame post, sv_log s = pre ++ EvFrame c frame :: post → unasked frame = false →
    ∃ pre' line mid, pre = pre' ++ EvRequest c line :: mid ∧ silent mid ∧ answers (asked_id line) frame).
Proof.
  pose proof (outcome_lawful batches) as Ha. pose proof (outcome_asked batches) as Hq.
  destruct (outcome batches) as [r s]. cbn [snd] in Ha. split.
  - intros pre c line post E. rewrite E in Ha. apply allowed_app in Ha as [_ [_ Ha]].
    destruct (question_answered c (asked_id line) post (live (foldl live born pre) (EvRequest c line)) eq_refl Ha) as [[Hs Hl]|Hx]; [left|by right].
    split; [|done]. destruct r as [r|e]; [|by exists e]. exfalso. specialize (Hq r s eq_refl). revert Hq.
    unfold lived. rewrite E, foldl_app. cbn [foldl]. unfold lived in Hl. rewrite Hl. done.
  - intros pre c frame post E Hu. rewrite E in Ha. apply allowed_app in Ha as [Hpre [Hm _]]. cbn [may] in Hm. rewrite Hu in Hm.
    fold (lived pre) in Hm. destruct (lf_asked (lived pre)) as [[c' request_id]|] eqn:El; [|done]. destruct Hm as [-> Hm].
    destruct (question_asked pre c request_id Hpre El) as (pre' & line & mid & -> & Hs & ->). by exists pre', line, mid.
Qed.

(** The end of the buffer is the end of the stream. *)
Lemma kept_tail n B s : (n ≤ B)%nat →
  let kept := str_drop (String.length s - B) s in
  (if (n =? 0)%nat then "" else str_drop (String.length kept - n) kept) = last_bytes n s.
Proof.
  intros Hn kept. unfold last_bytes, kept. rewrite str_drop_length, str_drop_drop. destruct (Nat.eqb_spec n 0) as [->|].
  - assert (String.length (str_drop (String.length s - 0) s) = 0%nat) as Hl by (rewrite str_drop_length; lia).
    by destruct (str_drop (String.length s - 0) s).
  - f_equal. lia.
Qed.

(** C28. What a caller reads of the head's output is the end of everything the
    head wrote: the last bytes of the stream, as many as were asked for within
    the buffer, with the stream's length and the count of what is missing. *)
Theorem output_is_the_end_of_the_stream batches s request frame s' :
  outcome batches = (Ok None, s) → op_output request s = (Ok frame, s') →
  s' = s ∧ ∃ limit, py_int (if py_truthy (get request "max_bytes") then get request "max_bytes" else VInt OUTPUT_BUFFER_BYTES) = Ok limit ∧
  let all := stream (sv_log s) in
  let tail := last_bytes (Z.to_nat (Z.max 0 (Z.min limit OUTPUT_BUFFER_BYTES))) all in
  decode_payload (get frame "data") = Ok tail ∧
  get frame "bytes" = VInt (Z.of_nat (String.length tail)) ∧
  get frame "total_bytes" = VInt (Z.of_nat (String.length all)) ∧
  get frame "dropped_bytes" = VInt (Z.of_nat (String.length all) - Z.of_nat (String.length tail)) ∧
  get frame "truncated" = VBool (bool_decide (tail ≠ all)).
Proof.
  intros E%outcome_faithful. destruct E as [[_ Hr] _]. unfold op_output. cbv zeta. unfold mbind, SM_bind.
  destruct (py_int _) as [limit|[cls msg]]; [|by destruct (_ || _)]. intros [= <- <-]. split; [done|]. exists limit. split; [done|].
  cbv zeta. set (n := Z.to_nat (Z.max 0 (Z.min limit OUTPUT_BUFFER_BYTES))).
  pose proof (rl_output _ _ _ Hr) as Eo. pose proof (rl_total _ _ _ Hr) as Et. pose proof (rl_dropped _ _ _ Hr) as Ed.
  clear Hr. unfold life in Eo, Et, Ed. rewrite lived_stream in Eo, Et, Ed. set (all := stream (sv_log s)) in *.
  assert (n ≤ Z.to_nat OUTPUT_BUFFER_BYTES)%nat as Hn by (unfold n; lia).
  set (B := Z.to_nat OUTPUT_BUFFER_BYTES) in *. clearbody B n.
  set (kept := if (n =? 0)%nat then "" else str_drop (String.length (sv_output s) - n) (sv_output s)).
  assert (kept = last_bytes n all) as Hkept by (unfold kept; rewrite Eo; by apply kept_tail).
  assert (String.length (last_bytes n all) = Nat.min n (String.length all)) as Hlen by (unfold last_bytes; rewrite str_drop_length; lia).
  rewrite Hkept, Hlen. split_and!.
  - apply decode_encode_payload.
  - done.
  - by rewrite <-Et.
  - cbn. rewrite Ed. f_equal. rewrite Eo, str_drop_length. lia.
  - cbn. rewrite Et. do 2 f_equal. apply bool_decide_ext_ltb. split; [intros Hlt Hx; rewrite Hx in Hlen; lia|]. intros Hne.
    destruct (decide (n < String.length all)%nat); [lia|]. exfalso. apply Hne. unfold last_bytes.
    by replace (String.length all - n)%nat with 0%nat by lia.
Qed.

Lemma outcome_reads batches s : outcome batches = (Ok None, s) → all_read s.
Proof.
  unfold outcome, run. intros E. destruct (begin _ _ _ _) as [[?|e] s1] eqn:Eb.
  - assert (all_read s1) as Hs1.
    { pose proof (inboxes_begin repr W cf (new_supervisor cf rows cols f)) as Hi. rewrite Eb in Hi. unfold all_read.
      cbn [snd] in Hi. rewrite Hi. constructor. }
    pose proof (loop_reads repr fmt_g is_word is_digit digest W cf batches s1 Hs1) as Hl. unfold wp in Hl.
    destruct (loop _ _ _ _ _ _ _ _ s1) as [[[code|]|e] s2]; [by destruct (shutdown s2)| |by destruct (shutdown s2)].
    injection E as <-. by apply Hl.
  - destruct (abandon_head W s1) as [ra s2]. by destruct (shutdown s2).
Qed.

(** C33. Between any two passes of a supervisor that still runs (after any
    sequence of events that neither raised nor ended it), at most sixteen
    connections are held, at most four of them have the stream, the output kept
    is within its buffer, and no caller has a complete request left unhandled,
    except one already marked for closing, whose further requests are not
    read. *)
Theorem callers_are_bounded batches s :
  outcome batches = (Ok None, s) →
  Z.of_nat (length (sv_clients s)) ≤ CONNECTION_MAX_CLIENTS ∧ attached_count s ≤ ATTACH_MAX_CLIENTS ∧
  Z.of_nat (String.length (sv_output s)) ≤ OUTPUT_BUFFER_BYTES ∧
  ∀ id c, sv_objects s !! id = Some c → char_in newline (cl_inbox c) = false ∨ cl_closing c = true.
Proof.
  intros E. destruct (outcome_faithful batches s E) as [[_ Hr] _].
  split_and!; [apply (rl_connections _ _ _ Hr)|apply (rl_attached _ _ _ Hr)| |].
  - rewrite (rl_output _ _ _ Hr), str_drop_length. unfold OUTPUT_BUFFER_BYTES. lia.
  - intros id c Hc. pose proof (outcome_reads batches s E) as Ha. apply (Forall_lookup_1 _ _ id (cl_inbox c, cl_closing c) Ha).
    by rewrite inboxes_lookup, Hc.
Qed.
End runs.
