(* ===== verification/SupervisorWitnesses.v ===== *)
(** * The supervisor and its journal at concrete inputs

    A stand-in for the Unicode tables, a world in
    which the kernel takes everything, and what the theorems say there. *)

From S2P Require Import Prelude PyText JsonText Json JsonStandIn Base64 Protocol Journal JournalFacts Screen ScreenFacts Supervisor.
From S2P Require Import SupervisorSpec SupervisorFacts SupervisorRuns.

#[export, refine] Instance ascii_unicode : Unicode := {|
  combining _ := false; wide _ := false; isprintable c := (32 <=? c) && (c <=? 126); isspace c := (c =? 32) || (9 <=? c) && (c <=? 13)
|}.
Proof. done. Defined.

Definition quoted (s : string) : string := "'" +:+ s +:+ "'".
Definition word (c : Z) : bool := (97 <=? c) && (c <=? 122).
Definition digit (c : Z) : bool := (48 <=? c) && (c <=? 57).
Definition bytes_of (l : list Z) : string := foldr (λ c s, String (chr c) s) "" l.

(** A kernel that takes every byte, a head that writes [said] whenever it is
    read and never exits, callers that send [asked] whenever they are read. *)
Definition kind_world (said asked : string) : World := {|
  w_time n := seconds (Z.of_nat n); w_mono n := seconds (Z.of_nat n);
  w_outcome _ := {| wo_taken := 5000%nat; wo_error := None |};
  w_reads _ := ([said], RBlocks); w_writes _ := ([1000%nat], LBlocks); w_sends _ := ([5000%nat], LBlocks);
  w_recv _ := Received asked; w_accepts _ := 1%nat; w_wait _ := Running; w_farewells _ := 1%nat;
  w_fork _ := Ok 42; w_pid_file _ := Ok tt; w_abandon _ := [] |}.

Definition a_config : Config := {|
  cf_run_id := "run-9"; cf_role := "worker"; cf_task := "t-1"; cf_command := "head"; cf_pid_file := "head.pid";
  cf_socket_path := "supervisor.sock"; cf_quiet_seconds := TURN_QUIET_SECONDS; cf_delivery_seconds := seconds 30;
  cf_supervisor_pid := 41 |}.

Definition supervised (said asked : string) (batches : list (list Key)) : res (option Z) * Sup :=
  outcome quoted show_seconds word digit bytes_of (kind_world said asked) a_config 24 80 Absent batches.

(** A whole request on the wire. *)
Definition request_line (d : list (string * pyval)) : string := render (VDict d) +:+ String newline "".

Definition type_hello : string :=
  request_line [("op", VStr "input"); ("data", VStr (encode_payload "hello")); ("id", VInt 7)].

Definition typing : res (option Z) * Sup :=
  supervised "ok" type_hello [[KListener]; [KClient 0 true false]; [KMaster true true]].
Definition typing_log : list Ev := sv_log typing.2.

Definition record_fields (e : option Ev) : list (string * pyval) :=
  match e with Some (EvRecord _ fields) => fields | _ => [] end.

Definition ends_delivery (e : Ev) : bool := match e with EvRecord kind _ => String.eqb kind INPUT_ACCEPTED | _ => false end.

Lemma no_record mid : forallb (λ e, negb (ends_delivery e)) mid = true → ∀ g, EvRecord INPUT_ACCEPTED g ∉ mid.
Proof.
  intros Hm g Hg. rewrite forallb_forall in Hm. apply list_elem_of_In in Hg. specialize (Hm _ Hg). done.
Qed.

(** What happened between the admission and its record, and the record. *)
Definition typing_mid : list Ev := take 3 (drop 4 typing_log).
Definition typing_record : list (string * pyval) := record_fields (typing_log !! 7%nat).

Lemma input_record_is_exact_witness :
  typed typing_mid = "hello" ∧ get typing_record "bytes" = VInt (Z.of_nat (String.length (typed typing_mid))) ∧
  get typing_record "offered_bytes" = VInt (Z.of_nat (String.length "hello")) ∧
  ∃ complete, get typing_record "complete" = VBool complete ∧
    if complete then typed typing_mid = "hello" else typed typing_mid ≠ "hello" ∨ "hello" = "".
Proof.
  destruct (input_record_is_exact quoted show_seconds word digit bytes_of (kind_world "ok" type_hello) a_config 24 80 Absent
    [[KListener]; [KClient 0 true false]; [KMaster true true]]
    (take 3 typing_log) 1 "hello" typing_mid typing_record (drop 8 typing_log))
    as (H1 & H2 & H3 & H4 & H5 & H6).
  - vm_compute. reflexivity.
  - apply no_record. vm_compute. reflexivity.
  - split; [vm_compute; reflexivity|]. split; [exact H3|]. split; [exact H4|exact H6].
Defined.

(** Two chunks of output, the second read back by its last byte. *)
Definition listening : res (option Z) * Sup := supervised "ok" type_hello [[KMaster true false]; [KMaster true false]].

Definition one_byte : list (string * pyval) := [("op", VStr "output"); ("max_bytes", VInt 1)].

Definition answered {A} (d : A) (r : res A) : A := match r with Ok a => a | Raise _ => d end.

Definition heard : list (string * pyval) := answered [] (op_output one_byte listening.2).1.

Lemma output_is_the_end_of_the_stream_witness :
  stream (sv_log listening.2) = "okok" ∧ ∃ limit,
    decode_payload (get heard "data") = Ok (last_bytes (Z.to_nat (Z.max 0 (Z.min limit OUTPUT_BUFFER_BYTES))) (stream (sv_log listening.2))) ∧
    get heard "total_bytes" = VInt (Z.of_nat (String.length (stream (sv_log listening.2)))).
Proof.
  destruct (output_is_the_end_of_the_stream quoted show_seconds word digit bytes_of (kind_world "ok" type_hello) a_config 24 80 Absent
    [[KMaster true false]; [KMaster true false]] listening.2 one_byte heard listening.2)
    as (_ & limit & Hl & H1 & H2 & H3 & H4 & H5).
  - vm_compute. reflexivity.
  - vm_compute. reflexivity.
  - split; [vm_compute; reflexivity|]. exists limit. split; [exact H1|exact H3].
Defined.

Lemma callers_are_bounded_witness :
  Z.of_nat (length (sv_clients typing.2)) ≤ CONNECTION_MAX_CLIENTS ∧ attached_count typing.2 ≤ ATTACH_MAX_CLIENTS ∧
  sv_clients typing.2 = [0%nat].
Proof.
  destruct (callers_are_bounded quoted show_seconds word digit bytes_of (kind_world "ok" type_hello) a_config 24 80 Absent
    [[KListener]; [KClient 0 true false]; [KMaster true true]] typing.2) as (H1 & H2 & _ & _); [vm_compute; reflexivity|].
  split; [exact H1|]. split; [exact H2|]. vm_compute. reflexivity.
Defined.

(** ** The journal *)

Definition exit_entry : Entry := {| en_kind := RUN_EXITED; en_fields := [("detail", VStr "done")]; en_now := seconds 9 |}.
Definition start_entry : Entry := {| en_kind := RUN_STARTED; en_fields := [("role", VStr "worker")]; en_now := seconds 7 |}.

Definition two_runs : list (string * list Entry) := [("run-1", [start_entry; exit_entry]); ("run-2", [start_entry])].

Definition entry_check (e : Entry) : bool :=
  bool_decide (en_kind e ∈ EVENT_KINDS) && bool_decide (Forall (λ k, k ∉ (en_fields e).*1) RESERVED_FIELDS)
  && printable (VDict (en_fields e)).

Lemma entry_checked e : entry_check e = true → valid e.
Proof. intros Hc. unfold entry_check in Hc. boolify. by split. Qed.

Lemma two_runs_valid : Forall valid_session two_runs.
Proof.
  repeat (apply Forall_cons; split); try apply Forall_nil_2; (split; [reflexivity|]); cbn;
    repeat (apply Forall_cons; split); try apply Forall_nil_2; apply entry_checked; vm_compute; reflexivity.
Qed.

Definition two_runs_file : File := answered Absent (snd <$> sessions quoted two_runs Absent).
Definition file_text (f : File) : string := match f with Bytes s => s | _ => "" end.

Lemma journal_reads_back_witness :
  ∃ rs f, sessions quoted two_runs Absent = Ok (rs, f) ∧
    map said rs = [(VStr "run-1", VStr RUN_STARTED); (VStr "run-1", VStr RUN_EXITED); (VStr "run-2", VStr RUN_STARTED)] ∧
    (∀ i r, rs !! i = Some r → get r "seq" = VInt (Z.of_nat i + 1)) ∧
    read_events f = Ok {| events := map sorted_items rs; truncated_tail := false; malformed := 0; ordered := true;
                          partial_head := false |}.
Proof.
  destruct (journal_reads_back quoted two_runs two_runs_valid) as (rs & f & H1 & H2 & H3 & H4); [apply INT_LIMIT_large; reflexivity|].
  exists rs, f. split; [exact H1|]. split; [exact H2|]. split; [exact H3|exact H4].
Defined.


Lemma torn_append_is_contained_witness :
  ∃ rs f w f1 rs' w' f2 line,
    sessions quoted two_runs Absent = Ok (rs, f) ∧ (w ← new_writer "run-3"; open_writer w f) = Ok (w, f1) ∧
    write_all quoted w f1 [start_entry] = Ok (rs', w', f2) ∧
    line = record_line (new_record w' (en_kind exit_entry) (en_fields exit_entry) (en_now exit_entry)) ∧
    ((20 < String.length line)%nat →
     let '(_, _, f3) := Journal.append quoted w' f2 (en_kind exit_entry) (en_fields exit_entry) (en_now exit_entry)
                          {| wo_taken := 20%nat; wo_error := None |} in
     read_events f3 = Ok {| events := map sorted_items (rs ++ rs'); truncated_tail := bool_decide (20%nat ≠ 0%nat);
                            malformed := 0; ordered := true; partial_head := false |} ∧
     ∀ first rest, one_line first = true → ∃ found alone,
       read_events (file_append f3 (first +:+ String newline rest)) = Ok found ∧ read_events (Bytes rest) = Ok alone ∧
       events found = map sorted_items (rs ++ rs') ++ line_events [str_take 20 line +:+ first] ++ events alone).
Proof.
  apply (torn_append_is_contained quoted two_runs "run-3" [start_entry] exit_entry 20%nat None).
  - apply Forall_app. split; [apply two_runs_valid|]. apply Forall_singleton. split; [reflexivity|]. apply Forall_singleton.
    apply entry_checked. vm_compute. reflexivity.
  - apply entry_checked. vm_compute. reflexivity.
  - apply INT_LIMIT_large. vm_compute. reflexivity.
Defined.
