(* ===== verification/SupervisorFindings.v ===== *)
(** * Findings about the supervisor

    Closed runs of the model in which a single request ends the supervisor, and
    in which a torn journal line swallows the next run's first record. *)

From S2P Require Import Prelude PyText JsonText Json JsonStandIn Base64 Protocol Journal Screen Supervisor SupervisorRuns SupervisorWitnesses.

(** A supervisor with a head that is alive and one caller that sends [line]. *)
Definition told (line : string) : option (Z * option (string * string)) * Sup :=
  main quoted show_seconds word digit bytes_of (kind_world "ok" line) a_config [[KListener]; [KClient 0 true false]]
    (new_supervisor a_config 24 80 Absent).

Definition oversized_resize : string := request_line [("op", VStr "resize"); ("rows", VInt 70000); ("cols", VInt 80)].
Definition infinite_output : string := request_line [("op", VStr "output"); ("max_bytes", VFloat FInf)].

(** The run is over: the process fails as a lost run, its head has not exited and
    was sent no signal, the caller got no answer, and no [run.exited] is written. *)
Definition lost (o : option (Z * option (string * string)) * Sup) : bool :=
  let '(ending, s) := o in
  bool_decide (ending = Some (EXIT_RUN_FAILED, Some (SUPERVISOR_ERROR_NAME, RUN_FAILED))) && alive s
  && forallb (λ e, match e with
       | EvRecord kind _ => negb (String.eqb kind RUN_EXITED)
       | EvFrame _ _ | EvSignal _ => false
       | _ => true
       end) (sv_log s).

(** One request ends the supervisor of a live head: a resize beyond sixteen
    bits, whose [struct.error], or an output bound of [Infinity], whose
    [OverflowError], no handler answers. *)
Example one_request_loses_the_run : lost (told oversized_resize) = true ∧ lost (told infinite_output) = true.
Proof. split; vm_compute; reflexivity. Qed.

(** A journal whose last line a killed supervisor left half written. *)
Definition torn_journal : File := Bytes (file_text two_runs_file +:+ str_take 40 (file_text two_runs_file)).

(** A supervisor taking that journal over. *)
Definition takeover : res (option Z) * Sup :=
  outcome quoted show_seconds word digit bytes_of (kind_world "ok" "") a_config 24 80 torn_journal [].

(** The first record a supervisor writes after a torn line is lost: it is
    glued to the torn bytes, and the reader finds three old records, one
    malformed line and no [run.started] of the new run. *)
Example torn_line_swallows_run_started :
  takeover.1 = Ok None ∧ existsb (λ e, match e with EvRecord kind _ => String.eqb kind RUN_STARTED | _ => false end) (sv_log takeover.2) = true ∧
  match read_events (sv_file takeover.2) with
  | Ok found => malformed found = 1 ∧ map (λ e, get e "run_id") (events found) = [VStr "run-1"; VStr "run-1"; VStr "run-2"]
  | Raise _ => False
  end.
Proof. vm_compute. auto. Qed.
