(* ===== verification/HeadVitality.v ===== *)
(** * Head-vitality observations (dispatch/head_vitality.py)

    One channel's reading of one head run at one instant: the enumerations of
    the three axes, the snapshot constructor with its checks, the JSON form,
    and the five builders that turn a producer's status into a snapshot. *)

From stdpp Require Import gmap.
From Stdlib Require Import Ascii.
From S2P Require Import Prelude PyText.

(** ** Bounds and constants *)

Definition SNAPSHOT_VERSION : Z := 1.
Definition REASON_LIMIT : nat := 240.
Definition CURSOR_LIMIT : nat := 240.
Definition COMMAND_LIMIT : nat := 300.
Definition CHILD_KEY_LIMIT : nat := 80.
Definition CHILD_CPU_ADVANCE_MS : Z := 500.
Definition CHILD_IO_ADVANCE_BYTES : Z := 256 * 1024.
Definition CHILD_CURSOR_PREFIX : string := "c2:".
Definition JOURNAL_CURSOR_PREFIX : string := "j1:".
Definition JOURNAL_CLOCK_SKEW : Z := seconds 60.
Definition JOURNAL_SEQ_LIMIT : Z := 2 ^ 53.

(** The heartbeat states of runtime/head/identity.py this module compares with. *)
Definition HEARTBEAT_LIVE_MATCH : string := "live-match".
Definition HEARTBEAT_DEAD : string := "dead".
Definition HEARTBEAT_IDENTITY_MISMATCH : string := "identity-mismatch".

Definition HeadVitalityError (msg : string) : exn := Exn "HeadVitalityError" msg.

(** ** The axes *)

Inductive ProcessState := P_RUNNING | P_SUSPENDED | P_DEAD | P_UNKNOWN.
Inductive TurnState := T_ACTIVE | T_IDLE | T_UNKNOWN.
Inductive ProgressState := G_ADVANCING | G_QUIET | G_STAGNANT | G_UNKNOWN.
Inductive SourceAvailability := AVAILABLE | UNAVAILABLE.
Inductive SnapshotSource :=
| PID_HEARTBEAT
| PROVIDER_CURSOR
| PANE_ADVISORY
| EXECUTION_RECEIPT
| EXECUTION_CHILD
| SUPERVISOR_JOURNAL.

#[global] Instance ProcessState_eq_dec : EqDecision ProcessState.
Proof. solve_decision. Defined.
#[global] Instance TurnState_eq_dec : EqDecision TurnState.
Proof. solve_decision. Defined.
#[global] Instance ProgressState_eq_dec : EqDecision ProgressState.
Proof. solve_decision. Defined.
#[global] Instance SourceAvailability_eq_dec : EqDecision SourceAvailability.
Proof. solve_decision. Defined.
#[global] Instance SnapshotSource_eq_dec : EqDecision SnapshotSource.
Proof. solve_decision. Defined.

#[global, refine] Instance ProcessState_enum : StrEnum ProcessState := {|
  enum_value p := match p with
    | P_RUNNING => "running" | P_SUSPENDED => "suspended"
    | P_DEAD => "dead" | P_UNKNOWN => "unknown" end;
  enum_members := [P_RUNNING; P_SUSPENDED; P_DEAD; P_UNKNOWN] |}.
Proof. all: solve_enum. Defined.

#[global, refine] Instance TurnState_enum : StrEnum TurnState := {|
  enum_value t := match t with
    | T_ACTIVE => "active" | T_IDLE => "idle" | T_UNKNOWN => "unknown" end;
  enum_members := [T_ACTIVE; T_IDLE; T_UNKNOWN] |}.
Proof. all: solve_enum. Defined.

#[global, refine] Instance ProgressState_enum : StrEnum ProgressState := {|
  enum_value g := match g with
    | G_ADVANCING => "advancing" | G_QUIET => "quiet"
    | G_STAGNANT => "stagnant" | G_UNKNOWN => "unknown" end;
  enum_members := [G_ADVANCING; G_QUIET; G_STAGNANT; G_UNKNOWN] |}.
Proof. all: solve_enum. Defined.

#[global, refine] Instance SourceAvailability_enum : StrEnum SourceAvailability := {|
  enum_value a := match a with AVAILABLE => "available" | UNAVAILABLE => "unavailable" end;
  enum_members := [AVAILABLE; UNAVAILABLE] |}.
Proof. all: solve_enum. Defined.

#[global, refine] Instance SnapshotSource_enum : StrEnum SnapshotSource := {|
  enum_value s := match s with
    | PID_HEARTBEAT => "pid_heartbeat" | PROVIDER_CURSOR => "provider_cursor"
    | PANE_ADVISORY => "pane_advisory" | EXECUTION_RECEIPT => "execution_receipt"
    | EXECUTION_CHILD => "execution_child" | SUPERVISOR_JOURNAL => "supervisor_journal" end;
  enum_members := [PID_HEARTBEAT; PROVIDER_CURSOR; PANE_ADVISORY; EXECUTION_RECEIPT;
                   EXECUTION_CHILD; SUPERVISOR_JOURNAL] |}.
Proof. all: solve_enum. Defined.

(** ** The snapshot *)

Record VitalitySnapshot := {
  run_id : string;
  source : SnapshotSource;
  observed_at : Z;
  availability : SourceAvailability;
  process : ProcessState;
  turn : TurnState;
  progress : ProgressState;
  cursor : option string;
  reason : string;
  child_key : string;
  command : string;
  output_path : string;
  turn_since : Z;
}.

#[global] Instance VitalitySnapshot_eq_dec : EqDecision VitalitySnapshot.
Proof. solve_decision. Defined.

(** The checks one epoch-seconds field goes through: a number, finite, not
    negative; [float()] itself may raise OverflowError. *)
Definition checked_time (v : pyval) (not_number not_finite : exn) : res Z :=
  _ ← require (is_number v) not_number;
  f ← py_float v;
  match finite f with
  | Some t => if t <? 0 then Raise not_finite else Ok t
  | None => Raise not_finite
  end.

(** [VitalitySnapshot(...)]: [__post_init__] refuses an unnamed run and a bad
    clock, and bounds the texts. *)
Definition new_snapshot (run_id : string) (source : SnapshotSource) (observed_at : pyval)
    (availability : SourceAvailability) (process : ProcessState) (turn : TurnState)
    (progress : ProgressState) (cursor : option string)
    (reason child_key command output_path : string) (turn_since : pyval) : res VitalitySnapshot :=
  _ ← require (nonempty (str_strip run_id))
        (HeadVitalityError "a vitality snapshot is bound to a HeadRun.run_id");
  at_ ← checked_time observed_at
        (HeadVitalityError "a vitality snapshot carries an epoch-seconds timestamp")
        (HeadVitalityError "a vitality snapshot timestamp is finite and not negative");
  since ← checked_time turn_since
        (HeadVitalityError "a vitality snapshot turn_since is epoch seconds")
        (HeadVitalityError "a vitality snapshot turn_since is finite and not negative");
  Ok {| run_id := run_id; source := source; observed_at := at_; availability := availability;
        process := process; turn := turn; progress := progress;
        cursor := str_take CURSOR_LIMIT <$> cursor;
        reason := str_take REASON_LIMIT reason;
        child_key := str_take CHILD_KEY_LIMIT child_key;
        command := str_take COMMAND_LIMIT command;
        output_path := str_take COMMAND_LIMIT output_path;
        turn_since := since |}.

Definition advisory (s : VitalitySnapshot) : bool := bool_decide (source s = PANE_ADVISORY).

Definition time_val (t : Z) : pyval := VFloat (FFin t).

Definition snapshot_to_json (s : VitalitySnapshot) : pyval :=
  VDict [
    ("version", VInt SNAPSHOT_VERSION);
    ("run_id", VStr (run_id s));
    ("source", VStr (enum_value (source s)));
    ("observed_at", time_val (observed_at s));
    ("availability", VStr (enum_value (availability s)));
    ("process", VStr (enum_value (process s)));
    ("turn", VStr (enum_value (turn s)));
    ("progress", VStr (enum_value (progress s)));
    ("cursor", match cursor s with Some c => VStr c | None => VNone end);
    ("reason", VStr (reason s));
    ("child_key", VStr (child_key s));
    ("command", VStr (command s));
    ("output_path", VStr (output_path s));
    ("turn_since", time_val (turn_since s))].

Section with_repr.
Context `{PyRepr}.

(** [_payload_time]: OverflowError counts as not finite here. *)
Definition payload_time (v : pyval) : res Z :=
  _ ← require (is_number v) (HeadVitalityError "vitality snapshot turn_since is not a number");
  let bad := HeadVitalityError "vitality snapshot turn_since is not finite" in
  match py_float v with
  | Ok (FFin t) => if t <? 0 then Raise bad else Ok t
  | _ => Raise bad
  end.

(** One enumeration field of a payload: [E(str(payload.get(k) or ""))]. *)
Definition axis {A} `{StrEnum A} (d : list (string * pyval)) (k : string) : res A :=
  match enum_of_value (py_str_or (get d k)) with
  | Some a => Ok a
  | None => Raise (HeadVitalityError "vitality snapshot names an axis outside its vocabulary")
  end.

Definition is_version (v : pyval) (n : Z) : bool :=
  match v with VInt z => z =? n | _ => false end.

Definition snapshot_from_json (payload : pyval) : res VitalitySnapshot :=
  match payload with
  | VDict d =>
      _ ← require (is_version (get d "version") SNAPSHOT_VERSION)
            (HeadVitalityError "vitality snapshot has an unsupported version");
      _ ← require (is_number (get d "observed_at"))
            (HeadVitalityError "vitality snapshot timestamp is not a number");
      at_ ← py_float (get d "observed_at");
      _ ← require (match finite at_ with Some _ => true | None => false end)
            (HeadVitalityError "vitality snapshot timestamp is not finite");
      source ← axis d "source";
      availability ← axis d "availability";
      process ← axis d "process";
      turn ← axis d "turn";
      progress ← axis d "progress";
      since ← payload_time (default (time_val 0) (dict_get d "turn_since"));
      new_snapshot (py_str_or (get d "run_id")) source (VFloat at_) availability process turn progress
        (match get d "cursor" with VNone => None | c => Some (py_str c) end)
        (py_str_or (get d "reason")) (py_str_or (get d "child_key"))
        (py_str_or (get d "command")) (py_str_or (get d "output_path")) (time_val since)
  | _ => Raise (HeadVitalityError "a vitality snapshot is read from an object")
  end.

(** [_unavailable]: the one shape every failed observation takes. *)
Definition unavailable (rid : string) (at_ : pyval) (src : SnapshotSource) (why : string) :
    res VitalitySnapshot :=
  new_snapshot rid src at_ UNAVAILABLE P_UNKNOWN T_UNKNOWN G_UNKNOWN None
    (str_take REASON_LIMIT why) "" "" "" (time_val 0).

(** ** The pid heartbeat *)

Definition from_pid_heartbeat (status : pyval) (rid : string) (at_ : pyval) : res VitalitySnapshot :=
  match status with
  | VDict d =>
      let state := py_str_or (get d "state") in
      if String.eqb state HEARTBEAT_LIVE_MATCH then
        new_snapshot rid PID_HEARTBEAT at_ AVAILABLE
          (if py_truthy (get d "stopped") then P_SUSPENDED else P_RUNNING)
          T_UNKNOWN G_UNKNOWN None "" "" "" "" (time_val 0)
      else if String.eqb state HEARTBEAT_DEAD then
        new_snapshot rid PID_HEARTBEAT at_ AVAILABLE P_DEAD T_UNKNOWN G_UNKNOWN None
          "heartbeat names a process that is gone or unreaped" "" "" "" (time_val 0)
      else if String.eqb state HEARTBEAT_IDENTITY_MISMATCH then
        unavailable rid at_ PID_HEARTBEAT "pid heartbeat belongs to another live HeadRun"
      else
        unavailable rid at_ PID_HEARTBEAT
          ("pid heartbeat is inconclusive: " +:+
             (if nonempty state then state else "no classification"))
  | _ => unavailable rid at_ PID_HEARTBEAT "pid heartbeat status is not an object"
  end.

(** ** The provider cursor *)

Definition FIRST_OBSERVATION : string :=
  "first observation of this source: no earlier cursor to compare against".

Definition from_provider_cursor (evidence : pyval) (rid previous_cursor : string) (at_ : pyval) :
    res VitalitySnapshot :=
  match evidence with
  | VDict d =>
      let state := py_str_or (get d "state") in
      if negb (String.eqb state "observed")
         || negb (String.eqb (py_str_or (get d "admission")) "accepted") then
        let detail := py_str_or (get d "reason") in
        let detail := if String.eqb state "identity_mismatch" then
                        (if nonempty detail then detail
                         else "provider cursor is bound to another HeadRun")
                      else detail in
        unavailable rid at_ PROVIDER_CURSOR
          (str_strip_chars ": " ("provider cursor is not admitted: " +:+ detail))
      else if negb (String.eqb (py_str_or (get d "head_run_id")) rid) then
        unavailable rid at_ PROVIDER_CURSOR
          "provider cursor names a HeadRun other than the snapshot's run"
      else
        let cur := py_str_or (get d "cursor") in
        if negb (nonempty cur) then
          unavailable rid at_ PROVIDER_CURSOR "admitted provider cursor carries no cursor value"
        else if negb (nonempty previous_cursor) then
          new_snapshot rid PROVIDER_CURSOR at_ AVAILABLE P_UNKNOWN T_UNKNOWN G_UNKNOWN (Some cur)
            FIRST_OBSERVATION "" "" "" (time_val 0)
        else
          let advanced := negb (String.eqb (str_take CURSOR_LIMIT cur)
                                           (str_take CURSOR_LIMIT previous_cursor)) in
          new_snapshot rid PROVIDER_CURSOR at_ AVAILABLE P_UNKNOWN T_UNKNOWN
            (if advanced then G_ADVANCING else G_QUIET) (Some cur)
            (if advanced then "" else "provider cursor unchanged since the previous snapshot")
            "" "" "" (time_val 0)
  | _ => unavailable rid at_ PROVIDER_CURSOR "provider cursor evidence is not an object"
  end.

(** ** Child processes *)

Record ChildItem := {
  c_pid : Z; c_start : Z; c_cpu_ms : Z; c_io : Z; c_command : string; c_output : string;
}.

(** Iterating a value in a [for]: the items of a list, the keys of a dict, the
    characters of a string. *)
Fixpoint str_chars (s : string) : list pyval :=
  match s with EmptyString => [] | String c s' => VStr (String c "") :: str_chars s' end.

Definition py_iter (v : pyval) : res (list pyval) :=
  match v with
  | VList l => Ok l
  | VDict d => Ok (VStr <$> d.*1)
  | VStr s => Ok (str_chars s)
  | _ => Raise (Exn "TypeError" "object is not iterable")
  end.

(** [int(v or 0)]. *)
Definition py_int_or (v : pyval) : res Z := if py_truthy v then py_int v else Ok 0.

(** [item[k]]. *)
Definition subscript (d : list (string * pyval)) (k : string) : res pyval :=
  match dict_get d k with Some v => Ok v | None => Raise (Exn "KeyError" k) end.

Definition parse_descendant (d : list (string * pyval)) : res ChildItem :=
  pid_v ← subscript d "pid";
  pid ← py_int pid_v;
  start_v ← subscript d "start";
  start ← py_int start_v;
  cpu ← py_int_or (get d "cpu_ms");
  io ← py_int_or (get d "io");
  Ok {| c_pid := pid; c_start := start; c_cpu_ms := Z.max 0 cpu; c_io := Z.max 0 io;
        c_command := py_str_or (get d "command"); c_output := py_str_or (get d "output") |}.

Definition caught (classes : list string) (e : exn) : bool :=
  let 'Exn cls _ := e in bool_decide (cls ∈ classes).

(** The loop over [evidence["descendants"]]: a malformed entry is skipped. *)
Fixpoint parse_descendants (items : list pyval) : res (list ChildItem) :=
  match items with
  | [] => Ok []
  | VDict d :: rest =>
      match parse_descendant d with
      | Ok item => cons item <$> parse_descendants rest
      | Raise e => if caught ["KeyError"; "TypeError"; "ValueError"] e
                   then parse_descendants rest else Raise e
      end
  | _ :: rest => parse_descendants rest
  end.

Definition non_negative_int (v : pyval) : res Z :=
  match py_int_or v with
  | Ok z => Ok (Z.max 0 z)
  | Raise e => if caught ["TypeError"; "ValueError"] e then Ok 0 else Raise e
  end.

(** Lexicographic [a <= b] on pairs of integers, Python's tuple order. *)
Definition pair_leb (a b : Z * Z) : bool :=
  (a.1 <? b.1) || ((a.1 =? b.1) && (a.2 <=? b.2)).

(** [sorted(items, key=(cpu_ms, start), reverse=True)]: stable, so an earlier
    item stays before a later one with an equal key. *)
Definition busy_key (i : ChildItem) : Z * Z := (c_cpu_ms i, c_start i).

Fixpoint insert_busy (x : ChildItem) (l : list ChildItem) : list ChildItem :=
  match l with
  | [] => [x]
  | y :: l' => if pair_leb (busy_key y) (busy_key x) then x :: l else y :: insert_busy x l'
  end.

Definition sort_busy (l : list ChildItem) : list ChildItem := foldr insert_busy [] l.

Definition child_entry (i : ChildItem) : string :=
  fmt_hex (c_pid i) +:+ "." +:+ fmt_hex (c_start i) +:+ "." +:+ fmt_hex (c_cpu_ms i)
    +:+ "." +:+ fmt_hex (c_io i).

(** The entries that fit: the loop stops at the first one that does not. *)
Fixpoint fit_entries (cursor_len : nat) (entries : list string) (items : list ChildItem) : list string :=
  match items with
  | [] => entries
  | i :: rest =>
      let entries' := entries ++ [child_entry i] in
      if (CURSOR_LIMIT <? cursor_len + String.length (String.concat "," entries'))%nat
      then entries else fit_entries cursor_len entries' rest
  end.

Definition child_cursor_head (uptime total_cpu total_io : Z) : string :=
  CHILD_CURSOR_PREFIX +:+ fmt_hex uptime +:+ ":" +:+ fmt_hex total_cpu +:+ ":"
    +:+ fmt_hex total_io +:+ ";".

Definition child_cursor (uptime total_cpu total_io : Z) (descendants : list ChildItem) : string :=
  let head := child_cursor_head uptime total_cpu total_io in
  head +:+ String.concat "," (fit_entries (String.length head) [] (sort_busy descendants)).

Definition parse_entry (entry : string) : option ((Z * Z) * (Z * Z)) :=
  match str_split "." entry with
  | [a; b; c; d] =>
      pid ← parse_int 16 a; start ← parse_int 16 b; cpu ← parse_int 16 c; io ← parse_int 16 d;
      Some ((pid, start), (cpu, io))
  | _ => None
  end.

Fixpoint parse_entries (acc : gmap (Z * Z) (Z * Z)) (entries : list string) :
    option (gmap (Z * Z) (Z * Z)) :=
  match entries with
  | [] => Some acc
  | e :: rest => '(k, v) ← parse_entry e; parse_entries (<[k := v]> acc) rest
  end.

Definition parse_child_cursor (text : string) : option (Z * Z * Z * gmap (Z * Z) (Z * Z)) :=
  if String.prefix CHILD_CURSOR_PREFIX text then
    let '(head, body) := str_partition ";" (str_drop 3 text) in
    match str_split ":" head with
    | [a; b; c] =>
        uptime ← parse_int 16 a; cpu ← parse_int 16 b; io ← parse_int 16 c;
        counters ← parse_entries ∅ (List.filter nonempty (str_split "," body));
        Some (uptime, cpu, io, counters)
    | _ => None
    end
  else None.

Definition child_key_of (marker : string) (i : ChildItem) : string :=
  marker +:+ ":" +:+ pretty (c_pid i) +:+ "." +:+ pretty (c_start i).

(** [max(items, key=(start, pid), default=None)]: the first of the maxima. *)
Definition youngest (items : list ChildItem) : option ChildItem :=
  fold_left (λ best i, match best with
    | None => Some i
    | Some b => if pair_leb (c_start i, c_pid i) (c_start b, c_pid b) then Some b else Some i
    end) items None.

(** No mover this reading: the mover on file while it lives, else the youngest. *)
Definition settled (previous_key : string) (items : list ChildItem) : option ChildItem * string :=
  let kept := if String.prefix "m:" previous_key
              then List.find (λ i, String.eqb (child_key_of "m" i) previous_key) items else None in
  match kept with
  | Some i => (Some i, "m")
  | None => (youngest items, "y")
  end.

(** How far one descendant moved since the previous reading, when known. *)
Definition moved (counters : gmap (Z * Z) (Z * Z)) (previous_uptime : Z) (i : ChildItem) :
    option (Z * Z) :=
  match counters !! (c_pid i, c_start i) with
  | Some known => Some (Z.max 0 (c_cpu_ms i - known.1), Z.max 0 (c_io i - known.2))
  | None => if negb (previous_uptime =? 0) && (previous_uptime <? c_start i)
            then Some (c_cpu_ms i, c_io i) else None
  end.

(** The busiest mover: the loop keeps the first strict maximum above [(0, 0)]. *)
Definition busiest (counters : gmap (Z * Z) (Z * Z)) (previous_uptime : Z) (items : list ChildItem) :
    (Z * Z) * option ChildItem :=
  fold_left (λ acc i, match moved counters previous_uptime i with
    | Some m => if pair_leb m acc.1 then acc else (m, Some i)
    | None => acc
    end) items ((0, 0), None).

Definition sumZ (f : ChildItem → Z) (l : list ChildItem) : Z := foldr (λ i a, f i + a) 0 l.

(** One of the two aggregates: the reported one when its key is present. *)
Definition aggregate (d : list (string * pyval)) (k : string) (f : ChildItem → Z) (l : list ChildItem) :
    res Z :=
  if dict_has d k then non_negative_int (get d k) else Ok (sumZ f l).

Definition child_reading (rid : string) (at_ : pyval) (cur : string) (g : ProgressState)
    (why : string) (described : option ChildItem * string) : res VitalitySnapshot :=
  new_snapshot rid EXECUTION_CHILD at_ AVAILABLE P_UNKNOWN T_UNKNOWN g (Some cur) why
    (match described.1 with None => "" | Some i => child_key_of described.2 i end)
    (match described.1 with None => "" | Some i => c_command i end)
    (match described.1 with None => "" | Some i => c_output i end) (time_val 0).

Definition child_deltas (total_cpu total_io previous_cpu previous_io : Z) : Z * Z :=
  (Z.max 0 (total_cpu - previous_cpu), Z.max 0 (total_io - previous_io)).

Definition child_advanced (deltas : Z * Z) : bool :=
  (CHILD_CPU_ADVANCE_MS <=? deltas.1) || (CHILD_IO_ADVANCE_BYTES <=? deltas.2).

(** The reading itself: the described descendants, the uptime and the two
    whole-tree aggregates. *)
Definition child_totals (d : list (string * pyval)) : res (list ChildItem * Z * Z * Z) :=
  items ← (if py_truthy (get d "descendants") then py_iter (get d "descendants") else Ok []);
  descendants ← parse_descendants items;
  uptime ← non_negative_int (get d "uptime_ticks");
  total_cpu ← aggregate d "total_cpu_ms" c_cpu_ms descendants;
  total_io ← aggregate d "total_io" c_io descendants;
  Ok (descendants, uptime, total_cpu, total_io).

Definition from_child_activity (evidence : pyval) (rid previous_cursor previous_key : string)
    (at_ : pyval) : res VitalitySnapshot :=
  let refused detail := unavailable rid at_ EXECUTION_CHILD
        (str_strip_chars ": " ("child processes were not read: " +:+ detail)) in
  match evidence with
  | VDict d =>
      if negb (String.eqb (py_str_or (get d "state")) "observed")
      then refused (py_str_or (get d "reason"))
      else
        '(descendants, uptime, total_cpu, total_io) ← child_totals d;
        let cur := child_cursor uptime total_cpu total_io descendants in
        if bool_decide (length descendants = 0%nat) && negb (py_truthy (get d "descendant_count")) then
          child_reading rid at_ cur G_QUIET "the head has no live child process" (None, "y")
        else match parse_child_cursor previous_cursor with
        | None => child_reading rid at_ cur G_UNKNOWN FIRST_OBSERVATION
                    (settled previous_key descendants)
        | Some (previous_uptime, previous_cpu, previous_io, counters) =>
            let deltas := child_deltas total_cpu total_io previous_cpu previous_io in
            if negb (child_advanced deltas) then
              child_reading rid at_ cur G_QUIET
                ("child processes moved " +:+ pretty deltas.1 +:+ "ms cpu and "
                   +:+ pretty deltas.2 +:+ " bytes since the previous reading")
                (settled previous_key descendants)
            else match (busiest counters previous_uptime descendants).2 with
            | None => child_reading rid at_ cur G_ADVANCING "" (settled previous_key descendants)
            | Some mover => child_reading rid at_ cur G_ADVANCING "" (Some mover, "m")
            end
        end
  | _ => refused ""
  end.

(** ** The supervisor journal *)

(** [since > float(observed_at) + JOURNAL_CLOCK_SKEW], non-finite clocks included. *)
Definition beyond_clock (since : Z) (at_ : pyfloat) : bool :=
  match at_ with
  | FFin t => t + JOURNAL_CLOCK_SKEW <? since
  | FNegInf => true
  | FInf | FNan => false
  end.

(** [_journal_reading]: [inl (turn, since, progress_seq)] or [inr refusal]. *)
Definition journal_reading (evidence : pyval) (rid : string) (at_ : pyval) :
    res ((TurnState * Z * Z) + string) :=
  match evidence with
  | VDict d =>
      if negb (match get d "state" with VStr s => String.eqb s "observed" | _ => false end) then
        let detail := match get d "reason" with VStr s => s | _ => "" end in
        Ok (inr (str_take REASON_LIMIT
                   (str_strip_chars ": " ("supervisor journal did not answer: " +:+ detail))))
      else if negb (match get d "run_id" with VStr s => String.eqb s rid | _ => false end) then
        Ok (inr "supervisor journal reading names a HeadRun other than the snapshot's run")
      else
        match (match get d "turn" with
               | VStr s => if String.eqb s "active" then Some T_ACTIVE
                           else if String.eqb s "idle" then Some T_IDLE else None
               | _ => None end) with
        | None => Ok (inr "supervisor journal reading names no turn state")
        | Some turn =>
            if negb (is_number (get d "turn_since")) then
              Ok (inr "supervisor journal turn time is not a number")
            else match py_float (get d "turn_since") with
            | Raise _ => Ok (inr "supervisor journal turn time is not finite")
            | Ok f =>
                let outside := inr "supervisor journal turn time is outside the observation's clock" in
                match finite f with
                | None => Ok outside
                | Some since =>
                    if since <=? 0 then Ok outside
                    else
                      clock ← py_float at_;
                      if beyond_clock since clock then Ok outside
                      else match get d "progress_seq" with
                      | VInt seq =>
                          if (0 <=? seq) && (seq <=? JOURNAL_SEQ_LIMIT) then Ok (inl (turn, since, seq))
                          else Ok (inr "supervisor journal progress sequence is not a count")
                      | _ => Ok (inr "supervisor journal progress sequence is not a count")
                      end
                end
            end
        end
  | _ => Ok (inr "supervisor journal reading is not an object")
  end.

Definition parse_journal_cursor (text : string) : option Z :=
  if String.prefix JOURNAL_CURSOR_PREFIX text then
    let digits := str_drop 3 text in
    if negb (is_ascii_digits digits) || (20 <? String.length digits)%nat then None
    else parse_int 10 digits
  else None.

Definition journal_cursor (seq : Z) : string := JOURNAL_CURSOR_PREFIX +:+ pretty seq.

Definition from_supervisor_journal (evidence : pyval) (rid previous_cursor : string) (at_ : pyval) :
    res VitalitySnapshot :=
  reading ← journal_reading evidence rid at_;
  match reading with
  | inr refusal => unavailable rid at_ SUPERVISOR_JOURNAL refusal
  | inl (turn, since, seq) =>
      let accept g why :=
        new_snapshot rid SUPERVISOR_JOURNAL at_ AVAILABLE P_UNKNOWN turn g
          (Some (journal_cursor seq)) why "" "" "" (time_val since) in
      match parse_journal_cursor previous_cursor with
      | None => accept G_UNKNOWN FIRST_OBSERVATION
      | Some previous =>
          if seq <? previous then
            unavailable rid at_ SUPERVISOR_JOURNAL
              "supervisor journal progress went backwards since the previous reading"
          else if previous <? seq then accept G_ADVANCING ""
          else accept G_QUIET "no new provider.progressed since the previous reading"
      end
  end.

(** ** The pane *)

Definition from_pane_readiness (status : pyval) (rid : string) (at_ : pyval) : res VitalitySnapshot :=
  let idle := match status with VDict d => get d "idle" | _ => VNone end in
  match idle with
  | VBool b =>
      new_snapshot rid PANE_ADVISORY at_ AVAILABLE P_UNKNOWN (if b then T_IDLE else T_ACTIVE)
        G_UNKNOWN None "" "" "" "" (time_val 0)
  | _ =>
      let detail := match status with
        | VDict d => str_take REASON_LIMIT (str_strip (py_str_or (get d "reason")))
        | _ => "" end in
      new_snapshot rid PANE_ADVISORY at_ UNAVAILABLE P_UNKNOWN T_UNKNOWN G_UNKNOWN None
        (if nonempty detail then "pane readiness did not answer: " +:+ detail
         else "pane readiness did not answer") "" "" "" (time_val 0)
  end.

(** ** All channels of one status *)

Definition is_dict (v : pyval) : bool := match v with VDict _ => true | _ => false end.

(** One channel: its snapshot when the status carries it, nothing otherwise. *)
Definition channel (present : bool) (build : res VitalitySnapshot) : res (list VitalitySnapshot) :=
  if present then (λ s, [s]) <$> build else Ok [].

Definition snapshots_from_status (status : pyval)
    (rid previous_cursor previous_child_cursor previous_child_key previous_journal_cursor : string)
    (at_ : pyval) : res (list VitalitySnapshot) :=
  match status with
  | VDict d =>
      pid ← channel (is_dict (get d "pid_status"))
              (from_pid_heartbeat (get d "pid_status") rid at_);
      provider ← channel (is_dict (get d "provider_progress"))
              (from_provider_cursor (get d "provider_progress") rid previous_cursor at_);
      pane ← channel (dict_has d "idle") (from_pane_readiness status rid at_);
      child ← channel (is_dict (get d "child_activity"))
              (from_child_activity (get d "child_activity") rid previous_child_cursor
                 previous_child_key at_);
      journal ← channel (dict_has d "supervisor_journal")
              (from_supervisor_journal (get d "supervisor_journal") rid previous_journal_cursor at_);
      Ok (pid ++ provider ++ pane ++ child ++ journal)
  | _ => Ok []
  end.

End with_repr.

(** ** Well-formed snapshots *)

(** What [__post_init__] guarantees of every constructed snapshot. *)
Record snapshot_wf (s : VitalitySnapshot) : Prop := {
  swf_run : nonempty (str_strip (run_id s)) = true;
  swf_at : 0 ≤ observed_at s;
  swf_since : 0 ≤ turn_since s;
  swf_cursor : from_option (λ c, (String.length c ≤ CURSOR_LIMIT)%nat) True (cursor s);
  swf_reason : (String.length (reason s) ≤ REASON_LIMIT)%nat;
  swf_key : (String.length (child_key s) ≤ CHILD_KEY_LIMIT)%nat;
  swf_command : (String.length (command s) ≤ COMMAND_LIMIT)%nat;
  swf_output : (String.length (output_path s) ≤ COMMAND_LIMIT)%nat;
}.

Lemma checked_time_Ok v e1 e2 t :
  checked_time v e1 e2 = Ok t ↔ is_number v = true ∧ py_float v = Ok (FFin t) ∧ 0 ≤ t.
Proof.
  unfold checked_time. split.
  - intros H. inv_ok. split; [done|]. destruct x0; simpl in *; try done.
    destruct (Z.ltb_spec ticks 0); inv_ok. auto.
  - intros (-> & E & Ht). simpl. rewrite E. simpl.
    by rewrite (proj2 (Z.ltb_ge _ _)).
Qed.

Lemma checked_time_val t e1 e2 : 0 ≤ t → checked_time (time_val t) e1 e2 = Ok t.
Proof. intros. by apply checked_time_Ok. Qed.

Lemma new_snapshot_Ok rid src at_ av p t g cur why key cmd out since s :
  new_snapshot rid src at_ av p t g cur why key cmd out since = Ok s →
  snapshot_wf s ∧ run_id s = rid ∧ source s = src ∧ availability s = av ∧ process s = p ∧
  turn s = t ∧ progress s = g ∧ cursor s = str_take CURSOR_LIMIT <$> cur ∧
  reason s = str_take REASON_LIMIT why ∧ child_key s = str_take CHILD_KEY_LIMIT key ∧
  py_float at_ = Ok (FFin (observed_at s)) ∧ py_float since = Ok (FFin (turn_since s)).
Proof.
  unfold new_snapshot. intros H. inv_ok.
  apply checked_time_Ok in E0 as (_ & E0 & ?), E1 as (_ & E1 & ?).
  split; [|done]. split; simpl; auto with py. destruct cur; simpl; auto with py.
Qed.

(** Rebuilding a well-formed snapshot from its own fields changes nothing. *)
Lemma new_snapshot_id s :
  snapshot_wf s →
  new_snapshot (run_id s) (source s) (time_val (observed_at s)) (availability s) (process s)
    (turn s) (progress s) (cursor s) (reason s) (child_key s) (command s) (output_path s)
    (time_val (turn_since s)) = Ok s.
Proof.
  intros [Hr Ha Hs Hc Hre Hk Hcm Ho]. unfold new_snapshot. rewrite Hr. simpl.
  rewrite checked_time_val by done. simpl. rewrite checked_time_val by done. simpl.
  rewrite !(str_take_id _ _ Hre), !(str_take_id _ _ Hk), !(str_take_id _ _ Hcm), !(str_take_id _ _ Ho).
  destruct s as [? ? ? ? ? ? ? [c|]]; simpl in *; [by rewrite str_take_id|done].
Qed.

Section facts.
Context `{PyRepr}.

Lemma axis_value {A} `{StrEnum A} d k (a : A) :
  get d k = VStr (enum_value a) → axis d k = Ok a.
Proof. intros E. unfold axis. by rewrite E, py_str_or_str, enum_of_value_value. Qed.

Lemma unavailable_Ok rid at_ src why s :
  unavailable rid at_ src why = Ok s →
  snapshot_wf s ∧ run_id s = rid ∧ source s = src ∧ availability s = UNAVAILABLE ∧
  process s = P_UNKNOWN ∧ turn s = T_UNKNOWN ∧ progress s = G_UNKNOWN ∧ cursor s = None.
Proof. intros E. apply new_snapshot_Ok in E. naive_solver. Qed.

(** Reading a snapshot back from JSON yields only well-formed snapshots. *)
Lemma snapshot_from_json_wf payload s : snapshot_from_json payload = Ok s → snapshot_wf s.
Proof.
  destruct payload; try done. simpl. intros E. inv_ok. eapply proj1, new_snapshot_Ok. eassumption.
Qed.

(** A stored snapshot is read back verbatim: for every well-formed snapshot
    [VitalitySnapshot.from_json(s.to_json()) == s]. *)
Theorem snapshot_json_roundtrip s :
  snapshot_wf s → snapshot_from_json (snapshot_to_json s) = Ok s.
Proof.
  intros Hwf. unfold snapshot_to_json, snapshot_from_json. cbn -[axis payload_time].
  rewrite !(axis_value _ _ (source s)), !(axis_value _ _ (availability s)),
    !(axis_value _ _ (process s)), !(axis_value _ _ (turn s)), !(axis_value _ _ (progress s)) by done.
  cbn. destruct (Z.ltb_spec (turn_since s) 0) as [Hneg|]; [destruct Hwf; lia|]. cbn.
  rewrite !py_str_or_str. etrans; [|by apply new_snapshot_id].
  f_equal. by destruct (cursor s).
Qed.

End facts.
