(* ===== verification/HeadVitalityFacts.v ===== *)
(** * What a single observation may say (dispatch/head_vitality.py)

    Theorems about the snapshot builders: the discipline every produced
    snapshot obeys, and the cursors of the child and journal channels. *)

From stdpp Require Import gmap.
From Stdlib Require Import Ascii.
From S2P Require Import Prelude PyText HeadVitality.

(** What a snapshot of run [rid] may say, whatever channel produced it. *)
Record disciplined (rid : string) (s : VitalitySnapshot) : Prop := {
  disc_wf : snapshot_wf s;
  disc_run : run_id s = rid;
  disc_not_stagnant : progress s ≠ G_STAGNANT;
  disc_dark : availability s = UNAVAILABLE →
    process s = P_UNKNOWN ∧ turn s = T_UNKNOWN ∧ progress s = G_UNKNOWN ∧ cursor s = None;
  disc_process : process s ≠ P_UNKNOWN → source s = PID_HEARTBEAT;
  disc_turn : turn s ≠ T_UNKNOWN → source s = PANE_ADVISORY ∨ source s = SUPERVISOR_JOURNAL;
  disc_progress : progress s ≠ G_UNKNOWN →
    source s = PROVIDER_CURSOR ∨ source s = EXECUTION_CHILD ∨ source s = SUPERVISOR_JOURNAL;
}.

(** Close a discipline goal from the constructor equation of its snapshot. *)
Ltac discipline :=
  match goal with
  | E : new_snapshot _ _ _ _ _ _ _ _ _ _ _ _ _ = Ok ?s |- disciplined _ ?s =>
      apply new_snapshot_Ok in E; destruct_and? E; split; try congruence; try done; intros ?
  | E : unavailable _ _ _ _ = Ok ?s |- disciplined _ ?s =>
      apply unavailable_Ok in E; destruct_and? E; split; try congruence; try done; intros ?
  end; try (split_and!; congruence); try (left; congruence); try (right; congruence);
  try (right; left; congruence); try (right; right; congruence).

Section facts.
Context `{PyRepr}.

(** The source of a constructed snapshot. *)
Ltac sourced :=
  match goal with
  | E : new_snapshot _ _ _ _ _ _ _ _ _ _ _ _ _ = Ok ?s |- source ?s = _ =>
      apply new_snapshot_Ok in E; by destruct_and? E
  | E : unavailable _ _ _ _ = Ok ?s |- source ?s = _ =>
      apply unavailable_Ok in E; by destruct_and? E
  end.

Lemma from_pid_heartbeat_disciplined st rid at_ s :
  from_pid_heartbeat st rid at_ = Ok s → disciplined rid s ∧ source s = PID_HEARTBEAT.
Proof. unfold from_pid_heartbeat. intros E. repeat case_match; (split; [discipline|sourced]). Qed.

Lemma from_provider_cursor_disciplined ev rid prev at_ s :
  from_provider_cursor ev rid prev at_ = Ok s → disciplined rid s ∧ source s = PROVIDER_CURSOR.
Proof.
  unfold from_provider_cursor. intros E. repeat case_match; (split; [discipline|sourced]).
Qed.

Lemma child_reading_disciplined rid at_ cur g why desc s :
  child_reading rid at_ cur g why desc = Ok s → g ≠ G_STAGNANT →
  disciplined rid s ∧ source s = EXECUTION_CHILD.
Proof. unfold child_reading. intros E Hg. split; [discipline|sourced]. Qed.

Lemma from_child_activity_disciplined ev rid prev key at_ s :
  from_child_activity ev rid prev key at_ = Ok s → disciplined rid s ∧ source s = EXECUTION_CHILD.
Proof.
  unfold from_child_activity. intros E.
  repeat case_match; inv_ok; try (split; [discipline|sourced]);
    repeat case_match; by apply child_reading_disciplined in E.
Qed.

Lemma from_supervisor_journal_disciplined ev rid prev at_ s :
  from_supervisor_journal ev rid prev at_ = Ok s → disciplined rid s ∧ source s = SUPERVISOR_JOURNAL.
Proof.
  unfold from_supervisor_journal. intros E. inv_ok.
  repeat case_match; (split; [discipline|sourced]).
Qed.

Lemma from_pane_readiness_disciplined st rid at_ s :
  from_pane_readiness st rid at_ = Ok s → disciplined rid s ∧ source s = PANE_ADVISORY.
Proof. unfold from_pane_readiness. intros E. repeat case_match; (split; [discipline|sourced]). Qed.

Lemma channel_Ok b m l : channel b m = Ok l → l = [] ∨ ∃ s, m = Ok s ∧ l = [s].
Proof. unfold channel. destruct b; intros E; inv_ok; eauto. Qed.

Lemma channel_elem b m l s : s ∈ l → channel b m = Ok l → b = true ∧ m = Ok s.
Proof.
  unfold channel. destruct b; intros Hs E; inv_ok; simplify_eq/=; [|set_solver].
  by apply list_elem_of_singleton in Hs as ->.
Qed.

Lemma channel_sources (P : VitalitySnapshot → Prop) src b m l :
  (∀ s, m = Ok s → P s ∧ source s = src) → channel b m = Ok l →
  Forall P l ∧ source <$> l `sublist_of` [src].
Proof.
  intros Hm [->|(s & E & ->)]%channel_Ok.
  - split; [done|apply sublist_nil_l].
  - destruct (Hm s E) as [HP Hs]. split; [by repeat constructor|]. csimpl. by rewrite Hs.
Qed.

(** The five channels of one status: disciplined snapshots, one per source. *)
Lemma snapshots_from_status_channels st rid pc pcc pck pjc at_ l :
  snapshots_from_status st rid pc pcc pck pjc at_ = Ok l →
  Forall (disciplined rid) l ∧
  source <$> l `sublist_of`
    [PID_HEARTBEAT; PROVIDER_CURSOR; PANE_ADVISORY; EXECUTION_CHILD; SUPERVISOR_JOURNAL].
Proof.
  unfold snapshots_from_status.
  destruct st; try (intros [= <-]; split; [done|apply sublist_nil_l]). intros E. inv_ok.
  eapply channel_sources in E0 as [? ?]; [|intros s; apply from_pid_heartbeat_disciplined].
  eapply channel_sources in E1 as [? ?]; [|intros s; apply from_provider_cursor_disciplined].
  eapply channel_sources in E2 as [? ?]; [|intros s; apply from_pane_readiness_disciplined].
  eapply channel_sources in E3 as [? ?]; [|intros s; apply from_child_activity_disciplined].
  eapply channel_sources in E4 as [? ?]; [|intros s; apply from_supervisor_journal_disciplined].
  rewrite !Forall_app, !fmap_app. split; [by split_and!|].
  change ([PID_HEARTBEAT; PROVIDER_CURSOR; PANE_ADVISORY; EXECUTION_CHILD; SUPERVISOR_JOURNAL])
    with ([PID_HEARTBEAT] ++ [PROVIDER_CURSOR] ++ [PANE_ADVISORY] ++ [EXECUTION_CHILD]
            ++ [SUPERVISOR_JOURNAL]).
  repeat apply sublist_app; done.
Qed.

Lemma from_pid_heartbeat_dead st rid at_ s :
  from_pid_heartbeat st rid at_ = Ok s → process s = P_DEAD →
  ∃ p, st = VDict p ∧ py_str_or (get p "state") = HEARTBEAT_DEAD.
Proof.
  unfold from_pid_heartbeat. intros E Hd.
  repeat case_match; try (apply new_snapshot_Ok in E; destruct_and? E; congruence);
    try (apply unavailable_Ok in E; destruct_and? E; congruence).
  eexists. split; [done|]. by apply String.eqb_eq.
Qed.

(** Every snapshot the dispatcher builds from one terminal status is bound
    to the run it was asked about, is well formed, never claims stagnation, says
    nothing on any axis when its channel is dark, speaks to the Process axis only
    from the pid heartbeat, to Turn only from the pane or the journal and to
    Progress only from the provider, the children or the journal; there is at
    most one snapshot per source; and a snapshot says Dead only when the
    heartbeat's own classification is "dead". *)
Theorem status_snapshots_disciplined st rid pc pcc pck pjc at_ l :
  snapshots_from_status st rid pc pcc pck pjc at_ = Ok l →
  Forall (disciplined rid) l ∧ NoDup (source <$> l) ∧
  (∀ s, s ∈ l → process s = P_DEAD →
     ∃ d p, st = VDict d ∧ get d "pid_status" = VDict p ∧
            py_str_or (get p "state") = HEARTBEAT_DEAD).
Proof.
  intros E. destruct (snapshots_from_status_channels _ _ _ _ _ _ _ _ E) as [Hd Hs].
  split_and!; [done|..].
  - eapply sublist_NoDup; [|exact Hs]. by apply (bool_decide_unpack _).
  - intros s Hin Hdead. rewrite Forall_forall in Hd.
    assert (source s = PID_HEARTBEAT) as Hsrc by (apply (disc_process _ _ (Hd _ Hin)); congruence).
    destruct st as [| | | | | |d]; simpl in E; try (injection E as <-; set_solver).
    inv_ok. exists d.
    assert (s ∈ x) as Hx.
    { rewrite !elem_of_app in Hin. destruct Hin as [?|[Hin|[Hin|[Hin|Hin]]]]; [done|..]; exfalso.
      - eapply channel_elem in Hin as (? & Hin%from_provider_cursor_disciplined); naive_solver congruence.
      - eapply channel_elem in Hin as (? & Hin%from_pane_readiness_disciplined); naive_solver congruence.
      - eapply channel_elem in Hin as (? & Hin%from_child_activity_disciplined); naive_solver congruence.
      - eapply channel_elem in Hin as (? & Hin%from_supervisor_journal_disciplined);
          naive_solver congruence. }
    eapply channel_elem in Hx as (_ & Hx); [|exact E0].
    destruct (from_pid_heartbeat_dead _ _ _ _ Hx Hdead) as (p & Hp & ?). eauto.
Qed.

(** ** The child cursor *)

Lemma no_sep_app sep s t :
  str_all (λ c, negb (Ascii.eqb c sep)) s = true → str_all (λ c, negb (Ascii.eqb c sep)) t = true →
  str_all (λ c, negb (Ascii.eqb c sep)) (s +:+ t) = true.
Proof. intros Hs Ht. by rewrite str_all_app, Hs, Ht. Qed.

Lemma no_sep_cons sep c s :
  Ascii.eqb c sep = false → str_all (λ c, negb (Ascii.eqb c sep)) s = true →
  str_all (λ c, negb (Ascii.eqb c sep)) (String c s) = true.
Proof. intros Hc Hs. cbn [str_all]. by rewrite Hc, Hs. Qed.

Lemma app_sep s sep t : s +:+ String sep "" +:+ t = s +:+ String sep t.
Proof. done. Qed.

Lemma app_String c a b : String c a +:+ b = String c (a +:+ b).
Proof. done. Qed.

Lemma parse_entry_child_entry i :
  parse_entry (child_entry i) = Some ((c_pid i, c_start i), (c_cpu_ms i, c_io i)).
Proof.
  unfold parse_entry, child_entry. rewrite !app_sep.
  rewrite !str_split_app, str_split_all by (by apply fmt_hex_no_sep).
  by rewrite !parse_fmt_hex.
Qed.

Lemma child_entry_no_sep sep i :
  is_hex_char sep = false → Ascii.eqb "." sep = false →
  str_all (λ c, negb (Ascii.eqb c sep)) (child_entry i) = true.
Proof.
  intros Hs Hd. unfold child_entry.
  repeat (apply no_sep_app; [first [by apply fmt_hex_no_sep | cbn [str_all]; by rewrite Hd]|]).
  by apply fmt_hex_no_sep.
Qed.

Lemma child_entry_nonempty i : nonempty (child_entry i) = true.
Proof.
  unfold nonempty. destruct (String.eqb_spec (child_entry i) "") as [E|]; [|done].
  pose proof (parse_entry_child_entry i) as P. by rewrite E in P.
Qed.

(** What a reader gets back from the described descendants [l]. *)
Definition counters_of (l : list ChildItem) : gmap (Z * Z) (Z * Z) :=
  fold_left (λ m i, <[(c_pid i, c_start i) := (c_cpu_ms i, c_io i)]> m) l ∅.

Lemma parse_entries_child l m :
  parse_entries m (child_entry <$> l) =
  Some (fold_left (λ m i, <[(c_pid i, c_start i) := (c_cpu_ms i, c_io i)]> m) l m).
Proof.
  revert m. induction l as [|i l IH]; intros m; csimpl; [done|].
  rewrite parse_entry_child_entry. csimpl. apply IH.
Qed.

Lemma parse_body l :
  parse_entries ∅ (List.filter nonempty (str_split "," (String.concat "," (child_entry <$> l)))) =
  Some (counters_of l).
Proof.
  destruct l as [|i l]; [done|]. rewrite str_split_concat.
  - etrans; [|apply parse_entries_child]. f_equal.
    induction (i :: l) as [|j k IH]; csimpl; [done|]. by rewrite child_entry_nonempty, IH.
  - apply Forall_fmap, Forall_true. intros. by apply child_entry_no_sep.
  - done.
Qed.

(** The loop keeps a prefix of the busiest-first list that fits the bound. *)
Lemma fit_entries_prefix len acc items :
  ∃ n, fit_entries len acc items = acc ++ (child_entry <$> take n items).
Proof.
  revert acc. induction items as [|i items IH]; intros acc; cbn [fit_entries].
  - exists 0%nat. by rewrite app_nil_r.
  - case_match.
    + exists 0%nat. by rewrite app_nil_r.
    + destruct (IH (acc ++ [child_entry i])) as [n ->]. exists (S n).
      by rewrite <-(assoc_L (++)).
Qed.

Lemma fit_entries_length len acc items :
  (len + String.length (String.concat "," acc) ≤ CURSOR_LIMIT)%nat →
  (len + String.length (String.concat "," (fit_entries len acc items)) ≤ CURSOR_LIMIT)%nat.
Proof.
  revert acc. induction items as [|i items IH]; intros acc Hacc; cbn [fit_entries]; [done|].
  case_match eqn:E; [done|]. apply IH. by apply Nat.ltb_ge in E.
Qed.

Lemma length_app_str s t : String.length (s +:+ t) = (String.length s + String.length t)%nat.
Proof. induction s as [|c s IH]; simpl; [done|]. by rewrite <-IH. Qed.

(** The child cursor a reading writes is read back by the next one: the
    uptime and the two whole-tree aggregates exactly, and the counters of the
    busiest described descendants, as many as fit.  The whole cursor respects
    the 240-character bound snapshots keep, so storing it loses nothing. *)
Lemma child_cursor_parses uptime cpu io descendants :
  (String.length (child_cursor_head uptime cpu io) ≤ CURSOR_LIMIT)%nat →
  str_take CURSOR_LIMIT (child_cursor uptime cpu io descendants)
    = child_cursor uptime cpu io descendants ∧
  ∃ n, parse_child_cursor (child_cursor uptime cpu io descendants)
       = Some (uptime, cpu, io, counters_of (take n (sort_busy descendants))).
Proof.
  intros Hhead. split.
  - apply str_take_id. unfold child_cursor. rewrite length_app_str.
    apply fit_entries_length. cbn [String.concat String.length]. lia.
  - destruct (fit_entries_prefix (String.length (child_cursor_head uptime cpu io)) []
                (sort_busy descendants)) as [n Hn].
    exists n. unfold child_cursor, parse_child_cursor. rewrite Hn. cbn [app].
    set (body := String.concat _ _).
    assert (child_cursor_head uptime cpu io +:+ body = CHILD_CURSOR_PREFIX +:+
      (fmt_hex uptime +:+ String ":" (fmt_hex cpu +:+ String ":" (fmt_hex io))) +:+ String ";" body)
      as ->.
    { unfold child_cursor_head. rewrite !str_app_assoc. repeat (rewrite ?app_String, ?str_app_assoc). done. }
    rewrite prefix_app, drop_prefix_app by done.
    rewrite str_partition_app by
      (repeat first [by apply fmt_hex_no_sep | apply no_sep_cons; [done|] | apply no_sep_app]).
    rewrite !str_split_app, str_split_all by (by apply fmt_hex_no_sep).
    rewrite !parse_fmt_hex. csimpl. unfold body. by rewrite parse_body.
Qed.

(** ** Movement between two readings *)

(** The observed evidence of a head with at least one live descendant. *)
Definition child_observed (d : list (string * pyval)) (ds : list ChildItem) (u c i : Z) : Prop :=
  py_str_or (get d "state") = "observed" ∧ child_totals d = Ok (ds, u, c, i) ∧
  (ds ≠ [] ∨ py_truthy (get d "descendant_count") = true).

Lemma child_reading_Ok rid at_ cur g why desc s :
  child_reading rid at_ cur g why desc = Ok s →
  progress s = g ∧ cursor s = Some (str_take CURSOR_LIMIT cur).
Proof. intros E. apply new_snapshot_Ok in E. by destruct_and? E. Qed.

(** Unfold one observed child reading up to its comparison with the past. *)
Lemma from_child_activity_observed d ds u c i rid prev key at_ s :
  child_observed d ds u c i → from_child_activity (VDict d) rid prev key at_ = Ok s →
  cursor s = Some (str_take CURSOR_LIMIT (child_cursor u c i ds)) ∧
  progress s = match parse_child_cursor prev with
    | None => G_UNKNOWN
    | Some (_, pc, pi, _) =>
        if child_advanced (child_deltas c i pc pi) then G_ADVANCING else G_QUIET
    end.
Proof.
  intros (Hst & Ht & Hlive) E. unfold from_child_activity in E. rewrite Hst, Ht in E.
  change (negb (String.eqb "observed" "observed")) with false in E. csimpl in E.
  assert (bool_decide (length ds = 0%nat) && negb (py_truthy (get d "descendant_count")) = false) as Hl.
  { destruct Hlive as [Hne| ->]; [|by rewrite andb_false_r]. destruct ds; [done|done]. }
  rewrite Hl in E. destruct (parse_child_cursor prev) as [[[[pu pc] pi] cs]|].
  - destruct (child_advanced _); csimpl in E; repeat case_match; apply child_reading_Ok in E; naive_solver.
  - apply child_reading_Ok in E. naive_solver.
Qed.

(** Two consecutive child readings: when the second is compared with the
    cursor the first one left on its snapshot, it advances exactly when the
    whole tree's CPU grew by at least 500 ms or its IO by at least 256 KiB, and
    is quiet otherwise; an aggregate that went down is quiet. *)
Theorem child_activity_two_readings d1 d2 ds1 ds2 u1 c1 i1 u2 c2 i2 rid prev1 k1 k2 at1 at2 s1 s2 cur :
  child_observed d1 ds1 u1 c1 i1 → child_observed d2 ds2 u2 c2 i2 →
  (String.length (child_cursor_head u1 c1 i1) ≤ CURSOR_LIMIT)%nat →
  from_child_activity (VDict d1) rid prev1 k1 at1 = Ok s1 → cursor s1 = Some cur →
  from_child_activity (VDict d2) rid cur k2 at2 = Ok s2 →
  progress s2 = if (CHILD_CPU_ADVANCE_MS <=? c2 - c1) || (CHILD_IO_ADVANCE_BYTES <=? i2 - i1)
                then G_ADVANCING else G_QUIET.
Proof.
  intros H1 H2 Hfit E1 Hcur E2.
  destruct (from_child_activity_observed _ _ _ _ _ _ _ _ _ _ H1 E1) as [Hc _].
  destruct (from_child_activity_observed _ _ _ _ _ _ _ _ _ _ H2 E2) as [_ ->].
  destruct (child_cursor_parses u1 c1 i1 ds1 Hfit) as [Ht [n Hn]].
  rewrite Hc, Ht in Hcur. injection Hcur as <-. rewrite Hn.
  unfold child_advanced, child_deltas; cbn [fst snd].
  assert (∀ t x, 0 < t → (t <=? Z.max 0 x) = (t <=? x)) as Hmax
    by (intros t x Ht0; destruct (Z.leb_spec t x), (Z.leb_spec t (Z.max 0 x)); lia).
  by rewrite !Hmax.
Qed.

(** ** The journal cursor *)

Lemma journal_reading_seq ev rid at_ t since seq :
  journal_reading ev rid at_ = Ok (inl (t, since, seq)) →
  0 ≤ seq ≤ JOURNAL_SEQ_LIMIT ∧ (t = T_ACTIVE ∨ t = T_IDLE) ∧ 0 < since.
Proof.
  destruct ev as [| | | | | |d]; try done. unfold journal_reading.
  destruct (negb _); [done|]. destruct (negb _); [done|].
  destruct (match get d "turn" with VStr _ => _ | _ => _ end) as [t'|] eqn:Ht; [|done].
  destruct (negb _); [done|]. destruct (py_float (get d "turn_since")) as [f|]; [|done].
  destruct (finite f) as [since'|]; [|done]. destruct (Z.leb_spec since' 0); [done|].
  intros E. inv_ok. destruct (beyond_clock _ _); [done|].
  destruct (get d "progress_seq"); try done. destruct (_ && _) eqn:B; [|done].
  simplify_eq. boolify. split_and!; try lia.
  destruct (get d "turn"); try done. repeat case_match; naive_solver.
Qed.

Lemma parse_journal_cursor_id seq :
  0 ≤ seq ≤ JOURNAL_SEQ_LIMIT →
  parse_journal_cursor (str_take CURSOR_LIMIT (journal_cursor seq)) = Some seq.
Proof.
  intros Hs. assert (0 ≤ seq < 10 ^ Z.of_nat 16) as Hb.
  { split; [lia|]. apply Z.le_lt_trans with JOURNAL_SEQ_LIMIT; [lia|done]. }
  pose proof (pretty_length seq 16 Hb ltac:(lia)) as Hl.
  rewrite str_take_id by (unfold journal_cursor; rewrite length_app_str;
    change (String.length JOURNAL_CURSOR_PREFIX) with 3%nat; unfold CURSOR_LIMIT; lia).
  unfold parse_journal_cursor, journal_cursor.
  rewrite prefix_app, drop_prefix_app by done.
  unfold is_ascii_digits. rewrite all_ascii_digits_str_all, pretty_digits by lia.
  assert (nonempty (pretty seq) = true) as ->.
  { unfold nonempty. destruct (String.eqb_spec (pretty seq) ""); [|done].
    by destruct (pretty_nonempty seq ltac:(lia)). }
  rewrite (proj2 (Nat.ltb_ge _ _)) by lia. cbn [orb andb negb].
  by apply (parse_pretty seq 16); try lia.
Qed.

(** Two consecutive journal readings of one run: compared with the cursor
    the first left on its snapshot, the second advances exactly when the
    progress sequence grew, is quiet when it stayed, and a sequence that went
    backwards is a dark channel, never quiet and never progress.  The turn
    state and its start are the journal's own. *)
Theorem journal_two_readings e1 e2 rid prev1 at1 at2 s1 s2 cur t1 since1 n1 t2 since2 n2 :
  journal_reading e1 rid at1 = Ok (inl (t1, since1, n1)) →
  journal_reading e2 rid at2 = Ok (inl (t2, since2, n2)) →
  from_supervisor_journal e1 rid prev1 at1 = Ok s1 → cursor s1 = Some cur →
  from_supervisor_journal e2 rid cur at2 = Ok s2 →
  (n1 < n2 → availability s2 = AVAILABLE ∧ progress s2 = G_ADVANCING ∧
             turn s2 = t2 ∧ turn_since s2 = since2) ∧
  (n1 = n2 → availability s2 = AVAILABLE ∧ progress s2 = G_QUIET ∧
             turn s2 = t2 ∧ turn_since s2 = since2) ∧
  (n2 < n1 → availability s2 = UNAVAILABLE ∧ progress s2 = G_UNKNOWN ∧ turn s2 = T_UNKNOWN).
Proof.
  intros R1 R2 E1 Hcur E2.
  destruct (journal_reading_seq _ _ _ _ _ _ R1) as [Hn1 _].
  assert (cur = str_take CURSOR_LIMIT (journal_cursor n1)) as ->.
  { unfold from_supervisor_journal in E1. rewrite R1 in E1. csimpl in E1.
    repeat case_match; first [apply new_snapshot_Ok in E1 | apply unavailable_Ok in E1];
      destruct_and? E1; simplify_eq/=; congruence. }
  unfold from_supervisor_journal in E2. rewrite R2 in E2. csimpl in E2.
  rewrite parse_journal_cursor_id in E2 by done.
  destruct (Z.ltb_spec n2 n1) as [|Hge]; [|destruct (Z.ltb_spec n1 n2) as [|Hge']].
  - apply unavailable_Ok in E2. destruct_and? E2. split_and!; intros; [lia..|done].
  - apply new_snapshot_Ok in E2. destruct_and? E2. split_and!; intros; [|lia..].
    unfold time_val in *. simplify_eq/=. done.
  - apply new_snapshot_Ok in E2. destruct_and? E2. split_and!; intros; [lia| |lia].
    unfold time_val in *. simplify_eq/=. done.
Qed.

End facts.
