(* ===== verification/HeadVitalityEpisode.v ===== *)
(** * The persisted vitality episode (dispatch/head_vitality_episode.py)

    The verdict vocabulary, the thresholds, the episode record with its
    constructor checks ([__post_init__], which [dataclasses.replace] runs again
    on every change) and its JSON form. *)

From S2P Require Import Prelude PyText HeadVitality.

(** ** Constants *)

Definition EPISODE_VERSION : Z := 1.
Definition BASIS_TOKEN_LIMIT : nat := 80.
Definition BASIS_ENTRY_LIMIT : nat := 10.
Definition NAME_LIMIT : nat := 80.
Definition PROGRESS_SOURCES : list string := ["provider_cursor"].

(** dispatch/watchdog.py *)
Definition IDLE_STALL_DEFAULT : Z := 5 * 60.

Definition DARK_CEILING_DEFAULT : Z := 2 * seconds IDLE_STALL_DEFAULT.
Definition CHILD_ACTIVITY_CEILING_DEFAULT : Z := seconds (45 * 60).
Definition IDLE_TURN_SUSPECT_DEFAULT : Z := seconds IDLE_STALL_DEFAULT.
Definition IDLE_TURN_CONFIRM_DEFAULT : Z := 2 * seconds IDLE_STALL_DEFAULT.
Definition IDLE_TURN_ADAPTERS : list string := ["claude"; "codex"].

(** ** Verdicts *)

Inductive VitalityVerdict :=
| HEALTHY_ACTIVE | HEALTHY_QUIET | SUSPENDED | RETAINED
| SUSPECTED_STALL | CONFIRMED_STALL | DEAD | UNVERIFIABLE.

#[global] Instance VitalityVerdict_eq_dec : EqDecision VitalityVerdict.
Proof. solve_decision. Defined.

#[global, refine] Instance VitalityVerdict_enum : StrEnum VitalityVerdict := {|
  enum_value v := match v with
    | HEALTHY_ACTIVE => "healthy_active" | HEALTHY_QUIET => "healthy_quiet"
    | SUSPENDED => "suspended" | RETAINED => "retained"
    | SUSPECTED_STALL => "suspected_stall" | CONFIRMED_STALL => "confirmed_stall"
    | DEAD => "dead" | UNVERIFIABLE => "unverifiable" end;
  enum_members := [HEALTHY_ACTIVE; HEALTHY_QUIET; SUSPENDED; RETAINED; SUSPECTED_STALL;
                   CONFIRMED_STALL; DEAD; UNVERIFIABLE] |}.
Proof. all: solve_enum. Defined.

(** ** Thresholds *)

Record VitalityThresholds := {
  suspect_after : Z;
  confirm_after : Z;
  dark_ceiling : Z;
  child_activity_ceiling : Z;
  idle_turn_suspect_after : Z;
  idle_turn_confirm_after : Z;
}.

(** One threshold's check: a number, then positive and finite. *)
Definition check_threshold (name : string) (v : pyval) : res Z :=
  _ ← require (is_number v) (HeadVitalityError ("vitality threshold " +:+ name +:+ " is a number"));
  f ← py_float v;
  match finite f with
  | Some t => if t <=? 0
              then Raise (HeadVitalityError ("vitality threshold " +:+ name +:+ " is positive and finite"))
              else Ok t
  | None => Raise (HeadVitalityError ("vitality threshold " +:+ name +:+ " is positive and finite"))
  end.

(** [VitalityThresholds(...)]. *)
Definition new_thresholds (suspect confirm dark child idle_suspect idle_confirm : pyval) :
    res VitalityThresholds :=
  suspect ← check_threshold "suspect_after" suspect;
  confirm ← check_threshold "confirm_after" confirm;
  dark ← check_threshold "dark_ceiling" dark;
  child ← check_threshold "child_activity_ceiling" child;
  idle_suspect ← check_threshold "idle_turn_suspect_after" idle_suspect;
  idle_confirm ← check_threshold "idle_turn_confirm_after" idle_confirm;
  _ ← require (idle_suspect <=? idle_confirm)
        (HeadVitalityError "the idle-turn confirmation does not come before its suspicion");
  Ok {| suspect_after := suspect; confirm_after := confirm; dark_ceiling := dark;
        child_activity_ceiling := child; idle_turn_suspect_after := idle_suspect;
        idle_turn_confirm_after := idle_confirm |}.

Definition DEFAULT_VITALITY_THRESHOLDS : VitalityThresholds := {|
  suspect_after := seconds IDLE_STALL_DEFAULT;
  confirm_after := 2 * seconds IDLE_STALL_DEFAULT;
  dark_ceiling := DARK_CEILING_DEFAULT;
  child_activity_ceiling := CHILD_ACTIVITY_CEILING_DEFAULT;
  idle_turn_suspect_after := IDLE_TURN_SUSPECT_DEFAULT;
  idle_turn_confirm_after := IDLE_TURN_CONFIRM_DEFAULT |}.

(** What the constructor guarantees of every thresholds value. *)
Record thresholds_wf (t : VitalityThresholds) : Prop := {
  twf_suspect : 0 < suspect_after t;
  twf_confirm : 0 < confirm_after t;
  twf_dark : 0 < dark_ceiling t;
  twf_child : 0 < child_activity_ceiling t;
  twf_idle : 0 < idle_turn_suspect_after t;
  twf_idle_confirm : idle_turn_suspect_after t ≤ idle_turn_confirm_after t;
}.

(** ** The episode *)

Record VitalityEpisode := {
  e_run_id : string;
  verdict : VitalityVerdict;
  started_at : Z;
  suspected_since : Z;
  confirmed_since : Z;
  last_progress_at : Z;
  last_progress_source : string;
  quiet_since : Z;
  evidence_cursors : list (string * string);
  unavailable_since : list (string * Z);
  basis : list string;
  e_reason : string;
  recovery_rung : Z;
  recovery_span_started_at : Z;
  deterministic_refusals : Z;
  activity_epoch : Z;
  updated_at : Z;
  stall_frozen_since : Z;
  last_turn : string;
  turn_ended_at : Z;
  child_progress_at : Z;
  child_activity_since : Z;
  last_child_key : string;
  last_child_command : string;
  last_child_output : string;
  last_child_at : Z;
  idle_turn_since : Z;
}.

#[global] Instance VitalityEpisode_eta : Settable VitalityEpisode := λ e,
  Build_VitalityEpisode (e_run_id e) (verdict e) (started_at e) (suspected_since e)
    (confirmed_since e) (last_progress_at e) (last_progress_source e) (quiet_since e)
    (evidence_cursors e) (unavailable_since e) (basis e) (e_reason e) (recovery_rung e)
    (recovery_span_started_at e) (deterministic_refusals e) (activity_epoch e) (updated_at e)
    (stall_frozen_since e) (last_turn e) (turn_ended_at e) (child_progress_at e)
    (child_activity_since e) (last_child_key e) (last_child_command e) (last_child_output e)
    (last_child_at e) (idle_turn_since e).

(** [_finite_timestamp]. *)
Definition finite_timestamp (v : pyval) (name : string) : res Z :=
  checked_time v
    (HeadVitalityError ("vitality episode " +:+ name +:+ " is a number"))
    (HeadVitalityError ("vitality episode " +:+ name +:+ " is finite and not negative")).

Fixpoint check_stamps (l : list (string * Z)) : res unit :=
  match l with
  | [] => Ok tt
  | (name, t) :: l' => _ ← finite_timestamp (time_val t) name; check_stamps l'
  end.

(** The clock fields in the order [__post_init__] checks them. *)
Definition stamps (e : VitalityEpisode) : list (string * Z) := [
  ("started_at", started_at e);
  ("suspected_since", suspected_since e);
  ("confirmed_since", confirmed_since e);
  ("last_progress_at", last_progress_at e);
  ("quiet_since", quiet_since e);
  ("updated_at", updated_at e);
  ("stall_frozen_since", stall_frozen_since e);
  ("turn_ended_at", turn_ended_at e);
  ("child_progress_at", child_progress_at e);
  ("child_activity_since", child_activity_since e);
  ("last_child_at", last_child_at e);
  ("idle_turn_since", idle_turn_since e)].

(** [{str(name)[:80]: _finite_timestamp(since) for name, since in ...}]. *)
Fixpoint check_unavailable (acc : list (string * Z)) (l : list (string * pyval)) :
    res (list (string * Z)) :=
  match l with
  | [] => Ok acc
  | (name, v) :: l' =>
      t ← finite_timestamp v "unavailable_since";
      check_unavailable (dict_set acc (str_take NAME_LIMIT name) t) l'
  end.

Definition bound_cursors (d : list (string * string)) : list (string * string) :=
  dict_of_list ((λ p, (str_take NAME_LIMIT p.1, str_take CURSOR_LIMIT p.2)) <$> d).

(** [VitalityEpisode(...)]: every check and normalisation of [__post_init__].
    [unavailable] holds the raw values of the [unavailable_since] field. *)
Definition new_episode (e : VitalityEpisode) (unavailable : list (string * pyval)) :
    res VitalityEpisode :=
  _ ← require (nonempty (str_strip (e_run_id e)))
        (HeadVitalityError "a vitality episode is bound to a HeadRun.run_id");
  _ ← check_stamps (stamps e);
  _ ← require (0 <=? recovery_rung e)
        (HeadVitalityError "a vitality episode recovery rung is not negative");
  _ ← finite_timestamp (time_val (recovery_span_started_at e)) "recovery_span_started_at";
  _ ← require (0 <=? deterministic_refusals e)
        (HeadVitalityError "a vitality episode deterministic refusal count is a non-negative int");
  _ ← require (0 <=? activity_epoch e)
        (HeadVitalityError "a vitality episode activity epoch is not negative");
  dark ← check_unavailable [] unavailable;
  _ ← require (bool_decide (last_turn e ∈ [""; "active"; "idle"]))
        (HeadVitalityError "a vitality episode last turn is active, idle or unrecorded");
  Ok (e <| evidence_cursors := bound_cursors (evidence_cursors e) |>
        <| unavailable_since := dark |>
        <| basis := take BASIS_ENTRY_LIMIT (str_take BASIS_TOKEN_LIMIT <$> basis e) |>
        <| e_reason := str_take REASON_LIMIT (e_reason e) |>
        <| last_child_key := str_take CHILD_KEY_LIMIT (last_child_key e) |>
        <| last_child_command := str_take COMMAND_LIMIT (last_child_command e) |>
        <| last_child_output := str_take COMMAND_LIMIT (last_child_output e) |>).

(** [dataclasses.replace(episode, ...)]: the changed record goes through the
    constructor again. *)
Definition replace (e : VitalityEpisode) : res VitalityEpisode :=
  new_episode e ((λ p, (p.1, time_val p.2)) <$> unavailable_since e).

(** The field defaults of the dataclass, for a run first seen at [now]. *)
Definition blank_episode (rid : string) (now : Z) : VitalityEpisode := {|
  e_run_id := rid; verdict := UNVERIFIABLE; started_at := now; suspected_since := 0;
  confirmed_since := 0; last_progress_at := 0; last_progress_source := ""; quiet_since := 0;
  evidence_cursors := []; unavailable_since := []; basis := []; e_reason := "";
  recovery_rung := 0; recovery_span_started_at := 0; deterministic_refusals := 0;
  activity_epoch := 0; updated_at := now; stall_frozen_since := 0; last_turn := "";
  turn_ended_at := 0; child_progress_at := 0; child_activity_since := 0; last_child_key := "";
  last_child_command := ""; last_child_output := ""; last_child_at := 0; idle_turn_since := 0 |}.

(** ** JSON *)

Definition episode_to_json (e : VitalityEpisode) : pyval :=
  VDict [
    ("version", VInt EPISODE_VERSION);
    ("run_id", VStr (e_run_id e));
    ("verdict", VStr (enum_value (verdict e)));
    ("started_at", time_val (started_at e));
    ("suspected_since", time_val (suspected_since e));
    ("confirmed_since", time_val (confirmed_since e));
    ("last_progress_at", time_val (last_progress_at e));
    ("last_progress_source", VStr (last_progress_source e));
    ("quiet_since", time_val (quiet_since e));
    ("evidence_cursors", VDict ((λ p, (p.1, VStr p.2)) <$> evidence_cursors e));
    ("unavailable_since", VDict ((λ p, (p.1, time_val p.2)) <$> unavailable_since e));
    ("basis", VList (VStr <$> basis e));
    ("reason", VStr (e_reason e));
    ("recovery_rung", VInt (recovery_rung e));
    ("recovery_span_started_at", time_val (recovery_span_started_at e));
    ("deterministic_refusals", VInt (deterministic_refusals e));
    ("activity_epoch", VInt (activity_epoch e));
    ("updated_at", time_val (updated_at e));
    ("stall_frozen_since", time_val (stall_frozen_since e));
    ("last_turn", VStr (last_turn e));
    ("turn_ended_at", time_val (turn_ended_at e));
    ("child_progress_at", time_val (child_progress_at e));
    ("child_activity_since", time_val (child_activity_since e));
    ("last_child_key", VStr (last_child_key e));
    ("last_child_command", VStr (last_child_command e));
    ("last_child_output", VStr (last_child_output e));
    ("last_child_at", time_val (last_child_at e));
    ("idle_turn_since", time_val (idle_turn_since e))].

(** A dict all of whose values are strings. *)
Definition as_str_dict (v : pyval) : option (list (string * string)) :=
  match v with
  | VDict d => mapM (λ p, match p.2 with VStr s => Some (p.1, s) | _ => None end) d
  | _ => None
  end.

Definition as_str_list (v : pyval) : option (list string) :=
  match v with
  | VList l => mapM (λ x, match x with VStr s => Some s | _ => None end) l
  | _ => None
  end.

(** [isinstance(v, int) and not isinstance(v, bool) and v >= 0]. *)
Definition as_count (v : pyval) : option Z :=
  match v with VInt z => if z <? 0 then None else Some z | _ => None end.

(** [value or raise]. *)
Definition or_raise {A} (o : option A) (msg : string) : res A :=
  match o with Some a => Ok a | None => Raise (HeadVitalityError msg) end.

Section with_repr.
Context `{PyRepr}.

Definition stamp_of (d : list (string * pyval)) (k : string) : res Z :=
  finite_timestamp (get d k) k.

(** A stamp whose absence reads as [0.0]. *)
Definition optional_stamp_of (d : list (string * pyval)) (k : string) : res Z :=
  finite_timestamp (default (time_val 0) (dict_get d k)) k.

Definition episode_from_json (payload : pyval) : res VitalityEpisode :=
  match payload with
  | VDict d =>
      _ ← require (is_version (get d "version") EPISODE_VERSION)
            (HeadVitalityError "vitality episode has an unsupported version");
      v ← or_raise (enum_of_value (py_str_or (get d "verdict")))
            "vitality episode names a verdict outside its vocabulary";
      cursors ← or_raise (as_str_dict (get d "evidence_cursors"))
            "vitality episode evidence cursors are malformed";
      unavailable ← or_raise (match get d "unavailable_since" with VDict u => Some u | _ => None end)
            "vitality episode unavailable sources are malformed";
      tokens ← or_raise (as_str_list (get d "basis")) "vitality episode basis is malformed";
      rung ← or_raise (as_count (get d "recovery_rung"))
            "vitality episode recovery rung is a non-negative int";
      epoch ← or_raise (as_count (get d "activity_epoch"))
            "vitality episode activity epoch is a non-negative int";
      refusals ← or_raise (as_count (default (VInt 0) (dict_get d "deterministic_refusals")))
            "vitality episode deterministic refusal count is a non-negative int";
      started ← stamp_of d "started_at";
      suspected ← stamp_of d "suspected_since";
      confirmed ← stamp_of d "confirmed_since";
      progressed ← stamp_of d "last_progress_at";
      quiet ← optional_stamp_of d "quiet_since";
      span ← optional_stamp_of d "recovery_span_started_at";
      updated ← stamp_of d "updated_at";
      frozen ← stamp_of d "stall_frozen_since";
      ended ← optional_stamp_of d "turn_ended_at";
      child_at ← optional_stamp_of d "child_progress_at";
      child_since ← optional_stamp_of d "child_activity_since";
      last_at ← optional_stamp_of d "last_child_at";
      idle ← optional_stamp_of d "idle_turn_since";
      new_episode {|
        e_run_id := py_str_or (get d "run_id"); verdict := v; started_at := started;
        suspected_since := suspected; confirmed_since := confirmed; last_progress_at := progressed;
        last_progress_source := str_take NAME_LIMIT (py_str_or (get d "last_progress_source"));
        quiet_since := quiet; evidence_cursors := cursors; unavailable_since := [];
        basis := tokens; e_reason := py_str_or (get d "reason"); recovery_rung := rung;
        recovery_span_started_at := span; deterministic_refusals := refusals;
        activity_epoch := epoch; updated_at := updated; stall_frozen_since := frozen;
        last_turn := py_str_or (get d "last_turn"); turn_ended_at := ended;
        child_progress_at := child_at; child_activity_since := child_since;
        last_child_key := py_str_or (get d "last_child_key");
        last_child_command := py_str_or (get d "last_child_command");
        last_child_output := py_str_or (get d "last_child_output");
        last_child_at := last_at; idle_turn_since := idle |} unavailable
  | _ => Raise (HeadVitalityError "a vitality episode is read from an object")
  end.

End with_repr.

(** ** What the constructor guarantees *)

Definition bound_unavailable (d : list (string * Z)) : list (string * Z) :=
  dict_of_list ((λ p, (str_take NAME_LIMIT p.1, p.2)) <$> d).

(** The record [replace] returns. *)
Definition normalise (e : VitalityEpisode) : VitalityEpisode :=
  e <| evidence_cursors := bound_cursors (evidence_cursors e) |>
    <| unavailable_since := bound_unavailable (unavailable_since e) |>
    <| basis := take BASIS_ENTRY_LIMIT (str_take BASIS_TOKEN_LIMIT <$> basis e) |>
    <| e_reason := str_take REASON_LIMIT (e_reason e) |>
    <| last_child_key := str_take CHILD_KEY_LIMIT (last_child_key e) |>
    <| last_child_command := str_take COMMAND_LIMIT (last_child_command e) |>
    <| last_child_output := str_take COMMAND_LIMIT (last_child_output e) |>.

(** What [__post_init__] requires of the values it is given. *)
Record episode_valid (e : VitalityEpisode) : Prop := {
  ev_run : nonempty (str_strip (e_run_id e)) = true;
  ev_stamps : Forall (λ p, 0 ≤ p.2) (stamps e);
  ev_rung : 0 ≤ recovery_rung e;
  ev_span : 0 ≤ recovery_span_started_at e;
  ev_refusals : 0 ≤ deterministic_refusals e;
  ev_epoch : 0 ≤ activity_epoch e;
  ev_dark : dict_all (λ t, 0 ≤ t) (unavailable_since e);
  ev_turn : last_turn e ∈ [""; "active"; "idle"];
}.

(** A constructed episode: valid, and unchanged by normalisation.  The source
    name of the last progress is the one text [__post_init__] leaves alone. *)
Record episode_wf (e : VitalityEpisode) : Prop := {
  ewf_valid : episode_valid e;
  ewf_cursors : dict_wf (evidence_cursors e) ∧
    Forall (λ p, (String.length p.1 ≤ NAME_LIMIT)%nat ∧ (String.length p.2 ≤ CURSOR_LIMIT)%nat)
      (evidence_cursors e);
  ewf_dark : dict_wf (unavailable_since e) ∧
    Forall (λ p, (String.length p.1 ≤ NAME_LIMIT)%nat) (unavailable_since e);
  ewf_basis : (length (basis e) ≤ BASIS_ENTRY_LIMIT)%nat ∧
    Forall (λ t, (String.length t ≤ BASIS_TOKEN_LIMIT)%nat) (basis e);
  ewf_reason : (String.length (e_reason e) ≤ REASON_LIMIT)%nat;
  ewf_key : (String.length (last_child_key e) ≤ CHILD_KEY_LIMIT)%nat;
  ewf_command : (String.length (last_child_command e) ≤ COMMAND_LIMIT)%nat;
  ewf_output : (String.length (last_child_output e) ≤ COMMAND_LIMIT)%nat;
  ewf_source : (String.length (last_progress_source e) ≤ NAME_LIMIT)%nat;
}.

Lemma finite_timestamp_val t name u : finite_timestamp (time_val t) name = Ok u ↔ u = t ∧ 0 ≤ t.
Proof. unfold finite_timestamp. rewrite checked_time_Ok. naive_solver. Qed.

Lemma check_stamps_Ok l u : check_stamps l = Ok u ↔ Forall (λ p, 0 ≤ p.2) l.
Proof.
  destruct u. induction l as [|[name t] l IH]; cbn [check_stamps]; [by split|].
  rewrite bind_Ok, Forall_cons, <-IH. setoid_rewrite finite_timestamp_val. naive_solver.
Qed.

Lemma check_unavailable_Ok d acc d' :
  check_unavailable acc ((λ p, (p.1, time_val p.2)) <$> d) = Ok d' ↔
  dict_all (λ t, 0 ≤ t) d ∧
  d' = fold_left (λ acc p, dict_set acc p.1 p.2) ((λ p, (str_take NAME_LIMIT p.1, p.2)) <$> d) acc.
Proof.
  revert acc. induction d as [|[k t] d IH]; intros acc; cbn [check_unavailable fmap list_fmap].
  - unfold dict_all. naive_solver.
  - rewrite bind_Ok. setoid_rewrite finite_timestamp_val. setoid_rewrite IH.
    unfold dict_all. rewrite Forall_cons. naive_solver.
Qed.

Lemma replace_Ok e e' : replace e = Ok e' ↔ episode_valid e ∧ e' = normalise e.
Proof.
  unfold replace, new_episode. split.
  - intros E. inv_ok. apply check_stamps_Ok in E1. apply check_unavailable_Ok in E6 as [? ->].
    apply finite_timestamp_val in E3 as [_ ?]. boolify. split; [by split|done].
  - intros [[H1 H2 H3 H4 H5 H6 H7 H8] ->]. rewrite H1. cbn [require mbind res_bind].
    rewrite (proj2 (check_stamps_Ok _ tt) H2). cbn [require mbind res_bind].
    rewrite (proj2 (Z.leb_le _ _) H3). cbn [require mbind res_bind].
    rewrite (proj2 (finite_timestamp_val _ _ _) (conj eq_refl H4)). cbn [require mbind res_bind].
    rewrite (proj2 (Z.leb_le _ _) H5), (proj2 (Z.leb_le _ _) H6). cbn [require mbind res_bind].
    rewrite (proj2 (check_unavailable_Ok _ [] _) (conj H7 eq_refl)). cbn [require mbind res_bind].
    rewrite (proj2 (bool_decide_eq_true _) H8). done.
Qed.

Lemma list_fmap_id_on {A} (f : A → A) l : Forall (λ x, f x = x) l → f <$> l = l.
Proof. induction 1 as [|x l Hx _ IH]; csimpl; [done|]. by rewrite Hx, IH. Qed.

Lemma bound_unavailable_id d :
  dict_wf d → Forall (λ p, (String.length p.1 ≤ NAME_LIMIT)%nat) d → bound_unavailable d = d.
Proof.
  intros Hd Hl. unfold bound_unavailable. rewrite list_fmap_id_on; [by apply dict_of_list_wf|].
  eapply Forall_impl; [exact Hl|]. intros [k t] Hk. simpl in *. by rewrite str_take_id.
Qed.

Lemma bound_cursors_id d :
  dict_wf d →
  Forall (λ p, (String.length p.1 ≤ NAME_LIMIT)%nat ∧ (String.length p.2 ≤ CURSOR_LIMIT)%nat) d →
  bound_cursors d = d.
Proof.
  intros Hd Hl. unfold bound_cursors. rewrite list_fmap_id_on; [by apply dict_of_list_wf|].
  eapply Forall_impl; [exact Hl|]. intros [k t] [Hk Ht]. simpl in *. by rewrite !str_take_id.
Qed.

(** A constructed episode goes through the constructor unchanged. *)
Lemma normalise_id e : episode_wf e → normalise e = e.
Proof.
  intros [_ [Hc1 Hc2] [Hd1 Hd2] [Hb1 Hb2] Hr Hk Hcm Ho _]. unfold normalise.
  rewrite bound_cursors_id, bound_unavailable_id by done.
  rewrite (list_fmap_id_on (str_take BASIS_TOKEN_LIMIT)), take_ge by
    (try eapply Forall_impl; try exact Hb2; try done; intros; by apply str_take_id).
  rewrite !str_take_id by done. by destruct e.
Qed.

Lemma replace_id e : episode_wf e → replace e = Ok e.
Proof. intros Hwf. apply replace_Ok. split; [apply Hwf|]. by rewrite normalise_id. Qed.

Lemma normalise_wf e :
  episode_valid e → (String.length (last_progress_source e) ≤ NAME_LIMIT)%nat →
  episode_wf (normalise e).
Proof.
  intros [H1 H2 H3 H4 H5 H6 H7 H8] Hs. split; try apply str_take_length; try done.
  - split; try done. apply dict_of_list_Forall, Forall_fmap. exact H7.
  - split; [apply dict_of_list_is_wf|]. apply dict_of_list_Forall, Forall_fmap, Forall_true.
    intros [k v]. split; cbn; auto with py.
  - split; [apply dict_of_list_is_wf|]. apply dict_of_list_Forall, Forall_fmap, Forall_true.
    intros [k v]. cbn. auto with py.
  - split; [apply (firstn_le_length BASIS_ENTRY_LIMIT)|].
    apply Forall_take, Forall_fmap, Forall_true. intros. cbn. auto with py.
Qed.

(** A dict of raw values that passes the check is the rendering of its stamps. *)
Lemma check_unavailable_inv u acc d :
  check_unavailable acc u = Ok d → dict_all (λ t, 0 ≤ t) acc → dict_all (λ t, 0 ≤ t) d.
Proof.
  revert acc. induction u as [|[k v] u IH]; intros acc; cbn [check_unavailable]; [naive_solver|].
  intros E Hacc. inv_ok. apply checked_time_Ok in E0 as (_ & _ & ?).
  eapply IH; [done|]. by apply dict_all_set.
Qed.

Lemma check_unavailable_bounded u acc d :
  check_unavailable acc u = Ok d →
  dict_wf acc → Forall (λ p, (String.length p.1 ≤ NAME_LIMIT)%nat) acc →
  dict_wf d ∧ Forall (λ p, (String.length p.1 ≤ NAME_LIMIT)%nat) d.
Proof.
  revert acc. induction u as [|[k v] u IH]; intros acc; cbn [check_unavailable]; [naive_solver|].
  intros E Hw Hl. inv_ok. eapply IH; [done|auto with py|].
  apply dict_set_Forall; cbn; auto with py.
Qed.

(** Every constructed episode is well formed. *)
Lemma new_episode_wf e u e' :
  (String.length (last_progress_source e) ≤ NAME_LIMIT)%nat → new_episode e u = Ok e' → episode_wf e'.
Proof.
  intros Hs E. unfold new_episode in E. inv_ok.
  apply check_stamps_Ok in E1. apply finite_timestamp_val in E3 as [_ ?]. boolify.
  pose proof (check_unavailable_inv _ _ _ E6 ltac:(constructor)).
  destruct (check_unavailable_bounded _ _ _ E6) as [? ?]; [by apply NoDup_nil_2|done|].
  split; try apply str_take_length; try done.
  - split; [apply dict_of_list_is_wf|]. apply dict_of_list_Forall, Forall_fmap, Forall_true.
    intros [? ?]. split; cbn; auto with py.
  - split; [apply (firstn_le_length BASIS_ENTRY_LIMIT)|].
    apply Forall_take, Forall_fmap, Forall_true. intros. cbn. auto with py.
Qed.

Section json_facts.
Context `{PyRepr}.

Lemma episode_from_json_wf payload e : episode_from_json payload = Ok e → episode_wf e.
Proof.
  destruct payload; try done. unfold episode_from_json. intros E. inv_ok.
  eapply new_episode_wf; [|eassumption]. apply str_take_length.
Qed.

Lemma as_str_dict_to_json d : as_str_dict (VDict ((λ p, (p.1, VStr p.2)) <$> d)) = Some d.
Proof.
  unfold as_str_dict. induction d as [|[k v] d IH]; [done|].
  rewrite fmap_cons. cbn [mapM fst snd]. by rewrite IH.
Qed.

Lemma as_str_list_to_json l : as_str_list (VList (VStr <$> l)) = Some l.
Proof.
  unfold as_str_list. induction l as [|x l IH]; [done|].
  rewrite fmap_cons. cbn [mapM]. by rewrite IH.
Qed.

Lemma as_count_nonneg z : 0 ≤ z → as_count (VInt z) = Some z.
Proof. intros. simpl. by rewrite (proj2 (Z.ltb_ge _ _)). Qed.

Lemma stamp_val t name : 0 ≤ t → finite_timestamp (time_val t) name = Ok t.
Proof. intros. by apply finite_timestamp_val. Qed.

(** A persisted episode survives a dispatcher restart verbatim: reading
    back the JSON a well-formed episode was stored as yields the same episode,
    field by field. *)
Theorem episode_json_roundtrip e :
  episode_wf e → episode_from_json (episode_to_json e) = Ok e.
Proof.
  intros Hwf. destruct (ewf_valid _ Hwf) as [Hrun Hst Hrung Hspan Href Hep Hdk Htn].
  unfold stamps in Hst. rewrite !Forall_cons in Hst. cbn [snd] in Hst. destruct_and! Hst.
  unfold episode_from_json, episode_to_json. cbn [get dict_get default String.eqb Ascii.eqb Bool.eqb].
  unfold get; cbn [dict_get String.eqb Ascii.eqb Bool.eqb default from_option id].
  unfold stamp_of, optional_stamp_of, get.
  cbn [dict_get String.eqb Ascii.eqb Bool.eqb default from_option id].
  rewrite as_str_dict_to_json, as_str_list_to_json, !as_count_nonneg by done.
  rewrite !py_str_or_str, enum_of_value_value. cbn [or_raise mbind res_bind require is_version].
  change (EPISODE_VERSION =? EPISODE_VERSION) with true. cbn [or_raise mbind res_bind require].
  rewrite !stamp_val by done. cbn [mbind res_bind].
  rewrite (str_take_id NAME_LIMIT) by apply Hwf.
  etrans; [|by apply replace_id]. by destruct e.
Qed.

End json_facts.
