(* ===== verification/HeadVitalityReduce.v ===== *)
(** * The vitality reducer (dispatch/head_vitality_episode.py)

    [reduce_vitality] folds one tick's snapshots into the run's episode.  Its
    body is modelled stage by stage: run resolution, unfreezing, the dark and
    answering sources, the Turn axis, child processes, the idle-turn rule, the
    verdict arms in their order, the answer-owed rule and the final record. *)

From S2P Require Import Prelude PyText HeadVitality HeadVitalityEpisode.

(** ** Choosing the run and its snapshots *)

(** [_resolve_run_id]. *)
Definition resolve_run_id (previous : option VitalityEpisode) (snapshots : list VitalitySnapshot) :
    string * list string :=
  let run_ids := sort_strings (remove_dups (run_id <$> snapshots)) in
  let first := default "" (head run_ids) in
  let chosen := match previous with
    | Some p => if bool_decide (e_run_id p ∈ run_ids) then e_run_id p else first
    | None => first
    end in
  (chosen, List.filter (λ name, negb (String.eqb name chosen)) run_ids).

(** One assignment of [_latest_per_source]: the dict is the list of its
    values, whose keys are their sources; a newer reading takes the place of
    the known one. *)
Fixpoint put_latest (latest : list VitalitySnapshot) (s : VitalitySnapshot) : list VitalitySnapshot :=
  match latest with
  | [] => [s]
  | k :: rest =>
      if bool_decide (source k = source s)
      then (if observed_at k <? observed_at s then s :: rest else latest)
      else k :: put_latest rest s
  end.

(** [_latest_per_source]. *)
Definition latest_per_source (snapshots : list VitalitySnapshot) : list VitalitySnapshot :=
  fold_left put_latest snapshots [].

(** [owned.get(source)]. *)
Definition owned_get (owned : list VitalitySnapshot) (src : SnapshotSource) : option VitalitySnapshot :=
  List.find (λ s, bool_decide (source s = src)) owned.

(** [owned[name] for name in sorted(owned)]: StrEnum keys sort by their value. *)
Definition sorted_owned (owned : list VitalitySnapshot) : list VitalitySnapshot :=
  omap (λ name, List.find (λ s, String.eqb (enum_value (source s)) name) owned)
    (sort_strings ((λ s, enum_value (source s)) <$> owned)).

Definition answering (s : VitalitySnapshot) : bool := bool_decide (availability s = AVAILABLE).

(** ** Clocks *)

(** [_quiet_reference]. *)
Definition quiet_reference (e : VitalityEpisode) : Z :=
  or_time (Z.max (Z.max (last_progress_at e) (quiet_since e)) (child_progress_at e)) (started_at e).

(** [_head_quiet_reference]. *)
Definition head_quiet_reference (e : VitalityEpisode) : Z :=
  or_time (Z.max (last_progress_at e) (quiet_since e)) (started_at e).

(** [_freeze_stall_clocks]. *)
Definition freeze_stall_clocks (e : VitalityEpisode) (now : Z) (retained : bool) : res VitalityEpisode :=
  replace (e <| suspected_since := 0 |> <| confirmed_since := 0 |>
             <| stall_frozen_since := or_time (stall_frozen_since e) now |>
             <| e_reason := if retained then "process held on a stop signal by a confirmed retention"
                            else "process suspended on a stop signal" |>).

Definition parked (s : VitalitySnapshot) : bool :=
  answering s && negb (advisory s) && bool_decide (process s = P_SUSPENDED).

Definition shift (now delta stamp : Z) : Z :=
  if stamp =? 0 then stamp else Z.min now (stamp + delta).

(** [_unfreeze_if_resumed]. *)
Definition unfreeze_if_resumed (e : VitalityEpisode) (owned : list VitalitySnapshot) (now : Z) :
    res VitalityEpisode :=
  if stall_frozen_since e =? 0 then Ok e
  else if existsb parked owned then Ok e
  else
    let delta := Z.max 0 (now - stall_frozen_since e) in
    replace (e <| started_at := shift now delta (started_at e) |>
               <| last_progress_at := shift now delta (last_progress_at e) |>
               <| quiet_since := shift now delta (quiet_since e) |>
               <| child_progress_at := shift now delta (child_progress_at e) |>
               <| child_activity_since := shift now delta (child_activity_since e) |>
               <| suspected_since := shift now delta (suspected_since e) |>
               <| confirmed_since := shift now delta (confirmed_since e) |>
               <| stall_frozen_since := 0 |>).

(** ** Dark and answering sources *)

Definition note_source (now : Z) (eb : VitalityEpisode * list string) (s : VitalitySnapshot) :
    res (VitalityEpisode * list string) :=
  let '(e, b) := eb in
  let name := enum_value (source s) in
  if bool_decide (availability s = UNAVAILABLE) then
    if dict_has (unavailable_since e) name then Ok (e, b)
    else
      e' ← replace (e <| unavailable_since := dict_set (unavailable_since e) name now |>);
      Ok (e', b ++ ["unavailable@" +:+ name])
  else
    e1 ← (if dict_has (unavailable_since e) name
          then replace (e <| unavailable_since := dict_del (unavailable_since e) name |>) else Ok e);
    e2 ← (match cursor s with
          | Some c => if nonempty c
                      then replace (e1 <| evidence_cursors := dict_set (evidence_cursors e1) name c |>)
                      else Ok e1
          | None => Ok e1
          end);
    Ok (e2, b).

Definition note_absent (now : Z) (eb : VitalityEpisode * list string) (name : string) :
    res (VitalityEpisode * list string) :=
  let '(e, b) := eb in
  if dict_has (unavailable_since e) name then Ok (e, b)
  else
    e' ← replace (e <| unavailable_since := dict_set (unavailable_since e) name now |>);
    Ok (e', b ++ ["absent@" +:+ name]).

(** The progress sources this episode has heard from that did not answer now. *)
Definition absent_progress (e : VitalityEpisode) (owned : list VitalitySnapshot) : list string :=
  sort_strings (List.filter (λ name,
    (dict_has (evidence_cursors e) name || String.eqb (last_progress_source e) name)
    && negb (existsb (λ s, String.eqb (enum_value (source s)) name) owned)) PROGRESS_SOURCES).

(** ** The Turn axis and child processes *)

Definition record_turn (e : VitalityEpisode) (owned : list VitalitySnapshot) (now : Z) :
    res VitalityEpisode :=
  match List.find (λ s, advisory s && answering s && negb (bool_decide (turn s = T_UNKNOWN))) owned with
  | None => Ok e
  | Some s =>
      if bool_decide (turn s = T_ACTIVE)
      then replace (e <| last_turn := "active" |> <| turn_ended_at := 0 |>)
      else replace (e <| last_turn := "idle" |>
                      <| turn_ended_at := if nonempty (last_turn e)
                           then (if String.eqb (last_turn e) "idle" then turn_ended_at e else now)
                           else turn_ended_at e |>)
  end.

Definition child_advancing (child : option VitalitySnapshot) : bool :=
  match child with
  | Some c => answering c && bool_decide (progress c = G_ADVANCING)
  | None => false
  end.

Definition child_since_of (e : VitalityEpisode) : Z :=
  or_time (child_activity_since e) (head_quiet_reference e).

Definition child_held (c : VitalitySnapshot) (since : Z) : Z := Z.max 0 (observed_at c - since).

(** The child reading: what it leaves on the episode, the hold it earns (with
    the start of the streak it is measured from) and its basis token. *)
Definition record_child (e : VitalityEpisode) (child : option VitalitySnapshot)
    (th : VitalityThresholds) : res (VitalityEpisode * option (VitalitySnapshot * Z) * list string) :=
  match child with
  | Some c =>
      if answering c then
        let keyed := nonempty (child_key c) in
        e' ← replace (e <| last_child_key := child_key c |>
                        <| last_child_command := if keyed then command c else "" |>
                        <| last_child_output := if keyed then output_path c else "" |>
                        <| last_child_at := if keyed then observed_at c else 0 |>);
        if bool_decide (progress c = G_ADVANCING) then
          let since := child_since_of e' in
          let held := child_held c since in
          if held <? child_activity_ceiling th then Ok (e', Some (c, since), [])
          else Ok (e', None,
                   ["child-ceiling:" +:+ show_seconds held +:+ "s@" +:+ enum_value (source c)])
        else Ok (e', None, [])
      else Ok (e, None, [])
  | None => Ok (e, None, [])
  end.

(** ** The idle-turn stall *)

(** [_idle_turn_stall]. *)
Definition ladder (level : Z) : VitalityVerdict :=
  if level =? 2 then CONFIRMED_STALL else if level =? 1 then SUSPECTED_STALL else HEALTHY_QUIET.

Definition ladder_index (v : VitalityVerdict) : Z :=
  match v with CONFIRMED_STALL => 2 | SUSPECTED_STALL => 1 | _ => 0 end.

Definition idle_turn_stall (e : VitalityEpisode) (journal : option VitalitySnapshot) (now : Z)
    (th : VitalityThresholds) (answer_owed_since : Z) (child_moving : bool) :
    res (option (VitalityVerdict * VitalityEpisode * list string)) :=
  match journal with
  | Some j =>
      if negb (answering j) || negb (bool_decide (turn j = T_IDLE)) || (turn_since j =? 0)
         || (answer_owed_since <=? 0) then Ok None
      else
        let reference := Z.max (Z.max (turn_since j) answer_owed_since) (quiet_since e) in
        let idle_seconds := Z.max 0 (now - reference) in
        let level := if idle_turn_confirm_after th <=? idle_seconds then 2
                     else if idle_turn_suspect_after th <=? idle_seconds then 1 else 0 in
        let suspect_at := reference + idle_turn_suspect_after th in
        let confirm_at := reference + idle_turn_confirm_after th in
        let reason := "the head's turn ended and it has sat at its prompt for "
              +:+ show_seconds idle_seconds +:+ "s without answering the dispatcher" in
        let held := ladder_index (verdict e) in
        let onset := or_time (or_time (suspected_since e) (confirmed_since e)) (updated_at e) in
        let stands := (level <? held) && (Z.max answer_owed_since (quiet_since e) <=? onset) in
        let level' := if stands then held else level in
        let reason' := if stands then enum_value (verdict e)
              +:+ " stands and the head's turn has ended: " +:+ reason else reason in
        let v := ladder level' in
        let tokens := ["idle-turn:" +:+ show_seconds idle_seconds +:+ "s@supervisor_journal"]
              ++ (if stands then ["stall-stands"] else [])
              ++ (if child_moving then ["child-not-holding-idle-turn"] else [])
              ++ (match v with
                  | CONFIRMED_STALL => ["confirmed-stall"]
                  | SUSPECTED_STALL => ["suspected-stall"] | _ => [] end) in
        e' ← replace (e <| suspected_since := match v with
                             | CONFIRMED_STALL | SUSPECTED_STALL => or_time (suspected_since e) suspect_at
                             | _ => 0 end |>
                        <| confirmed_since := match v with
                             | CONFIRMED_STALL => or_time (confirmed_since e) confirm_at
                             | _ => 0 end |>
                        <| idle_turn_since := reference |>
                        <| stall_frozen_since := 0 |>
                        <| e_reason := reason' |>);
        Ok (Some (v, e', tokens))
  | None => Ok None
  end.

(** ** The verdict arms *)

(** What one arm concludes: the verdict, the episode and its basis tokens. *)
Notation ruling := (VitalityVerdict * VitalityEpisode * list string)%type.

Definition strong_of (owned : list VitalitySnapshot) : list VitalitySnapshot :=
  List.filter (λ s, answering s && negb (advisory s)
                    && negb (bool_decide (source s = EXECUTION_CHILD))) owned.

Definition has_progress (s : VitalitySnapshot) : bool :=
  bool_decide (progress s = G_ADVANCING) || bool_decide (progress s = G_QUIET).

Definition is_process (p : ProcessState) (s : VitalitySnapshot) : bool := bool_decide (process s = p).

Definition is_advancing (s : VitalitySnapshot) : bool := bool_decide (progress s = G_ADVANCING).

Definition source_names (l : list VitalitySnapshot) : string :=
  String.concat "," (sort_strings ((λ s, enum_value (source s)) <$> l)).

Definition arm_dead (e : VitalityEpisode) (strong : list VitalitySnapshot) : res ruling :=
  Ok (DEAD, e, ["dead@" +:+ source_names (List.filter (is_process P_DEAD) strong)]).

Definition arm_suspended (e : VitalityEpisode) (strong : list VitalitySnapshot) (now : Z)
    (retained : bool) : res ruling :=
  let v := if retained then RETAINED else SUSPENDED in
  let by_heartbeat := existsb (λ s, bool_decide (source s = PID_HEARTBEAT))
                        (List.filter (is_process P_SUSPENDED) strong) in
  e' ← freeze_stall_clocks e now retained;
  Ok (v, e', [enum_value v +:+ (if by_heartbeat then "@pid_heartbeat" else "")]).

(** [(a.observed_at, a.source.value) <= (b.observed_at, b.source.value)]. *)
Definition recency_leb (a b : VitalitySnapshot) : bool :=
  (observed_at a <? observed_at b)
  || ((observed_at a =? observed_at b) && String.leb (enum_value (source a)) (enum_value (source b))).

(** [max(items, key=...)]: the first of the maxima. *)
Definition max_by (leb : VitalitySnapshot → VitalitySnapshot → bool) (l : list VitalitySnapshot) :
    option VitalitySnapshot :=
  fold_left (λ best s, match best with
    | None => Some s
    | Some b => if leb s b then Some b else Some s
    end) l None.

Definition arm_advancing (e : VitalityEpisode) (advancing : VitalitySnapshot) : res ruling :=
  let progressed := observed_at advancing in
  let moved_ahead := last_progress_at e <? progressed in
  e' ← replace (e <| suspected_since := 0 |> <| confirmed_since := 0 |>
                  <| last_progress_at := Z.max (last_progress_at e) progressed |>
                  <| last_progress_source := enum_value (source advancing) |>
                  <| activity_epoch := activity_epoch e + (if moved_ahead then 1 else 0) |>
                  <| stall_frozen_since := 0 |>
                  <| child_activity_since := 0 |>
                  <| e_reason := "" |>);
  Ok (HEALTHY_ACTIVE, e', ["advancing@" +:+ enum_value (source advancing)]).

Definition arm_child (e : VitalityEpisode) (child : VitalitySnapshot) (since : Z)
    (th : VitalityThresholds) : res ruling :=
  e' ← replace (e <| suspected_since := 0 |> <| confirmed_since := 0 |>
                  <| child_progress_at := Z.max (child_progress_at e) (observed_at child) |>
                  <| child_activity_since := since |>
                  <| stall_frozen_since := 0 |>
                  <| e_reason := "the head is quiet while its child process works ("
                       +:+ show_seconds (child_held child since) +:+ "s of the "
                       +:+ show_seconds (child_activity_ceiling th) +:+ "s child activity ceiling)" |>);
  Ok (HEALTHY_ACTIVE, e', ["advancing@" +:+ enum_value (source child)]).

(** The two rungs of strong quiet: stamps, reason and token of a stall. *)
Definition climb_quiet (e : VitalityEpisode) (quiet reference : Z) (th : VitalityThresholds)
    (why : string) : res ruling :=
  if suspect_after th + confirm_after th <=? quiet then
    e' ← replace (e <| confirmed_since := or_time (confirmed_since e)
                         (reference + suspect_after th + confirm_after th) |>
                    <| suspected_since := or_time (suspected_since e) (reference + suspect_after th) |>
                    <| e_reason := why |>);
    Ok (CONFIRMED_STALL, e', ["confirmed-stall"])
  else if suspect_after th <=? quiet then
    e' ← replace (e <| suspected_since := or_time (suspected_since e) (reference + suspect_after th) |>
                    <| e_reason := why |>);
    Ok (SUSPECTED_STALL, e', ["suspected-stall"])
  else Ok (HEALTHY_QUIET, e, []).

Definition arm_quiet (e : VitalityEpisode) (progress_evidence : list VitalitySnapshot) (now : Z)
    (th : VitalityThresholds) : res ruling :=
  let quietest := max_by (λ a b, observed_at a <=? observed_at b) progress_evidence in
  let reference := quiet_reference e in
  let quiet := Z.max 0 (now - reference) in
  let token := "quiet:" +:+ show_seconds quiet +:+ "s@"
               +:+ from_option (λ s, enum_value (source s)) "" quietest in
  e1 ← replace (e <| stall_frozen_since := 0 |>);
  e2 ← (if bool_decide (verdict e1 = CONFIRMED_STALL) && (confirmed_since e1 =? 0)
        then replace (e1 <| confirmed_since := reference + suspect_after th + confirm_after th |>)
        else Ok e1);
  '(v, e3, tokens) ← climb_quiet e2 quiet reference th
        ("strong quiet for " +:+ show_seconds quiet +:+ "s with no advancement");
  Ok (v, e3, token :: tokens).

(** The reason of the first dark source, in source order, that gave one. *)
Definition dark_reason (owned : list VitalitySnapshot) : option string :=
  head (List.filter nonempty
    (reason <$> List.filter (λ s, bool_decide (availability s = UNAVAILABLE)) (sorted_owned owned))).

Definition dark_progress_of (e : VitalityEpisode) : list (string * Z) :=
  List.filter (λ p, bool_decide (p.1 ∈ PROGRESS_SOURCES)) (unavailable_since e).

Definition min_stamp (l : list (string * Z)) : Z :=
  match l with
  | [] => 0
  | p :: rest => foldr (λ q m, Z.min q.2 m) p.2 rest
  end.

Definition dark_names_of (e : VitalityEpisode) : string :=
  String.concat "," (sort_strings (dark_progress_of e).*1).

Definition dark_seconds_of (e : VitalityEpisode) (now : Z) : Z :=
  match dark_progress_of e with
  | [] => 0
  | dark => Z.max 0 (now - min_stamp dark)
  end.

Definition is_dark (e : VitalityEpisode) : bool :=
  match dark_progress_of e with [] => false | _ => true end.

Definition within_ceiling (e : VitalityEpisode) (now : Z) (th : VitalityThresholds) : bool :=
  is_dark e && (dark_seconds_of e now <? dark_ceiling th).

Definition arm_strong (e : VitalityEpisode) (owned strong : list VitalitySnapshot) (now : Z)
    (th : VitalityThresholds) : res ruling :=
  let reference := quiet_reference e in
  let quiet := Z.max 0 (now - reference) in
  e1 ← replace (e <| stall_frozen_since := 0 |>);
  let dark_seconds := dark_seconds_of e1 now in
  let dark_names := dark_names_of e1 in
  let tokens := ["alive-no-progress-source@" +:+ source_names strong]
        ++ (if is_dark e1 then ["dark:" +:+ show_seconds dark_seconds +:+ "s@" +:+ dark_names] else []) in
  if bool_decide (verdict e1 = CONFIRMED_STALL) then
    e2 ← replace (e1 <| confirmed_since := or_time (confirmed_since e1)
                          (reference + suspect_after th + confirm_after th) |>
                     <| e_reason := if is_dark e1
                          then dark_names +:+ " not answering for " +:+ show_seconds dark_seconds
                                 +:+ "s; confirmation stands"
                          else "progress source known but not answering; confirmation stands" |>);
    Ok (CONFIRMED_STALL, e2, tokens ++ ["preserved-confirmation:provider-dark-pid-alive"])
  else if within_ceiling e1 now th && bool_decide (verdict e1 = SUSPECTED_STALL) then
    e2 ← replace (e1 <| suspected_since := or_time (suspected_since e1) (reference + suspect_after th) |>
                     <| e_reason := if is_dark e1
                          then dark_names +:+ " not answering for " +:+ show_seconds dark_seconds
                                 +:+ "s; suspicion stands"
                          else "progress source known but not answering; suspicion stands" |>);
    Ok (SUSPECTED_STALL, e2, tokens ++ ["preserved-suspicion:provider-dark-pid-alive"])
  else if within_ceiling e1 now th then
    e2 ← replace (e1 <| e_reason := default
           (dark_names +:+ " known to this episode but not answering for " +:+ show_seconds dark_seconds
              +:+ "s; frozen for another " +:+ show_seconds (dark_ceiling th - dark_seconds) +:+ "s")
           (dark_reason owned) |>);
    Ok (HEALTHY_QUIET, e2, tokens)
  else
    '(v, e2, more) ← climb_quiet e1 quiet reference th
       (if is_dark e1
        then dark_names +:+ " has been dark for " +:+ show_seconds dark_seconds +:+ "s (past the "
               +:+ show_seconds (dark_ceiling th)
               +:+ "s ceiling) and the head has shown no progress for " +:+ show_seconds quiet +:+ "s"
        else "running with no progress evidence for " +:+ show_seconds quiet +:+ "s");
    Ok (v, e2, tokens ++ more).

Definition arm_blind (e : VitalityEpisode) (th : VitalityThresholds) : res ruling :=
  if bool_decide (verdict e = CONFIRMED_STALL) then
    e' ← replace (e <| confirmed_since := or_time (confirmed_since e)
                         (quiet_reference e + suspect_after th + confirm_after th) |>);
    Ok (CONFIRMED_STALL, e', ["preserved-confirmation:strong-sources-unavailable"])
  else Ok (UNVERIFIABLE, e, ["no-strong-source-answered"]).

(** The arms in the order the code tries them. *)
Definition conclude (e : VitalityEpisode) (owned : list VitalitySnapshot)
    (idle_turn : option ruling) (child_hold : option (VitalitySnapshot * Z)) (now : Z)
    (th : VitalityThresholds) (retained : bool) : res ruling :=
  let strong := strong_of owned in
  let evidence := List.filter has_progress strong in
  if existsb (is_process P_DEAD) strong then arm_dead e strong
  else if existsb (is_process P_SUSPENDED) strong then arm_suspended e strong now retained
  else match max_by recency_leb (List.filter is_advancing evidence) with
  | Some advancing => arm_advancing e advancing
  | None =>
      match idle_turn with
      | Some decided => Ok decided
      | None =>
          match child_hold with
          | Some (child, since) => arm_child e child since th
          | None =>
              match evidence with
              | _ :: _ => arm_quiet e evidence now th
              | [] =>
                  match strong with
                  | _ :: _ => arm_strong e owned strong now th
                  | [] => arm_blind e th
                  end
              end
          end
      end
  end.

(** ** The answer-owed rule and the final record *)

Definition raise_answer_owed (r : ruling) (now answer_owed_since : Z) : res ruling :=
  let '(v, e, tokens) := r in
  if bool_decide (v = HEALTHY_QUIET) && (0 <? answer_owed_since)
     && (last_progress_at e <? answer_owed_since) && (answer_owed_since <=? turn_ended_at e) then
    e' ← replace (e <| suspected_since := or_time (suspected_since e) (turn_ended_at e) |>
                    <| e_reason := "the dispatcher's rejected report has gone unanswered for "
                         +:+ show_seconds (Z.max 0 (now - answer_owed_since))
                         +:+ "s and the head's turn ended with no new work" |>);
    Ok (SUSPECTED_STALL, e', tokens ++ ["answer-owed:turn-ended"])
  else Ok r.

Definition advisory_tokens (owned : list VitalitySnapshot) : list string :=
  (λ s, "advisory:" +:+ enum_value (turn s) +:+ "@" +:+ enum_value (source s))
    <$> List.filter (λ s, advisory s && answering s) owned.

Definition finish (r : ruling) (tokens : list string) (owned : list VitalitySnapshot) (now : Z) :
    res VitalityEpisode :=
  let '(v, e, _) := r in
  replace (e <| verdict := v |>
             <| e_reason := if nonempty (e_reason e) then e_reason e
                            else default "" (dark_reason owned) |>
             <| basis := take BASIS_ENTRY_LIMIT tokens |>
             <| updated_at := now |>).

(** ** The reducer *)

Definition start_episode (previous : option VitalityEpisode) (target : string) (now : Z) :
    res VitalityEpisode :=
  match previous with
  | Some p => if String.eqb (e_run_id p) target then Ok p else replace (blank_episode target now)
  | None => replace (blank_episode target now)
  end.

Definition identity_tokens (previous : option VitalityEpisode) (target : string)
    (foreign : list string) : list string :=
  ((λ name, "dropped-foreign-run:" +:+ name) <$> sort_strings foreign)
  ++ match previous with
     | Some p => if String.eqb (e_run_id p) target then []
                 else ["identity-changed-from:" +:+ e_run_id p]
     | None => []
     end.

(** The readings of one tick absorbed into the episode, before any verdict: the
    dark and answering sources, the absent ones, the Turn axis, the child
    reading, and the idle-turn clock cleared. *)
Definition absorb (e1 : VitalityEpisode) (tokens : list string) (owned : list VitalitySnapshot)
    (now : Z) (th : VitalityThresholds) :
    res (VitalityEpisode * option (VitalitySnapshot * Z) * list string) :=
  '(e2, b2) ← foldM (note_source now) (e1, tokens) (sorted_owned owned);
  '(e3, b3) ← foldM (note_absent now) (e2, b2) (absent_progress e2 owned);
  e4 ← record_turn e3 owned now;
  '(e5, hold, b5) ← record_child e4 (owned_get owned EXECUTION_CHILD) th;
  e6 ← replace (e5 <| idle_turn_since := 0 |>);
  Ok (e6, hold, b3 ++ b5).

(** One reduction over the snapshots of the chosen run. *)
Definition reduce_owned (e0 : VitalityEpisode) (tokens0 : list string) (owned : list VitalitySnapshot)
    (now : Z) (th : VitalityThresholds) (retained : bool) (answer_owed_since : Z) (adapter : string) :
    res VitalityEpisode :=
  e1 ← unfreeze_if_resumed e0 owned now;
  '(e6, hold, b) ← absorb e1 tokens0 owned now th;
  idle ← idle_turn_stall e6
           (if bool_decide (adapter ∈ IDLE_TURN_ADAPTERS) then owned_get owned SUPERVISOR_JOURNAL else None)
           now th answer_owed_since (child_advancing (owned_get owned EXECUTION_CHILD));
  r ← conclude e6 owned idle hold now th retained;
  r' ← raise_answer_owed r now answer_owed_since;
  finish r' (b ++ r'.2 ++ advisory_tokens owned) owned now.

Definition reduce_vitality (previous : option VitalityEpisode) (snapshots : list VitalitySnapshot)
    (now : pyval) (th : VitalityThresholds) (retained : bool) (answer_owed_since : pyval)
    (adapter : string) : res VitalityEpisode :=
  now_o ← finite_number now;
  now ← or_raise now_o "reduce_vitality needs a finite now";
  owed_o ← finite_number answer_owed_since;
  owed ← or_raise (t ← owed_o; if t <? 0 then None else Some t)
           "reduce_vitality needs a finite answer_owed_since";
  match snapshots with
  | [] => or_raise previous "a first episode needs at least one snapshot"
  | _ =>
      let '(target, foreign) := resolve_run_id previous snapshots in
      let owned := latest_per_source
                     (List.filter (λ s, String.eqb (run_id s) target) snapshots) in
      e0 ← start_episode previous target now;
      reduce_owned e0 (identity_tokens previous target foreign) owned now th retained owed adapter
  end.

(** ** What an operator reads off one episode *)

Record DarkSource := {
  ds_source : string; ds_dark_since : Z; ds_dark_seconds : Z; ds_freeze_expires_at : Z;
}.

Record Deadline := { dl_verdict : VitalityVerdict; dl_at : Z; dl_in_seconds : Z }.

Record Outlook := {
  ol_quiet_seconds : Z; ol_dark_sources : list DarkSource;
  ol_next_deadline : option Deadline; ol_note : string;
}.

Definition empty_outlook : Outlook :=
  {| ol_quiet_seconds := 0; ol_dark_sources := []; ol_next_deadline := None; ol_note := "" |}.

(** The dark progress sources in name order; each name occurs once. *)
Definition sorted_dark (e : VitalityEpisode) : list (string * Z) :=
  omap (λ name, (λ t, (name, t)) <$> dict_get (unavailable_since e) name)
    (sort_strings (dark_progress_of e).*1).

Definition frozen_until (dark : list DarkSource) : Z :=
  match dark with
  | [] => 0
  | x :: rest => foldr (λ y m, Z.max (ds_freeze_expires_at y) m) (ds_freeze_expires_at x) rest
  end.

(** The next rung of the ladder and its instant, when there is one. *)
Definition next_rung (e : VitalityEpisode) (th : VitalityThresholds) (frozen : Z) :
    option (VitalityVerdict * Z) :=
  let reference := quiet_reference e in
  let idle := negb (idle_turn_since e =? 0) in
  match verdict e with
  | HEALTHY_QUIET =>
      Some (SUSPECTED_STALL,
            if idle then idle_turn_since e + idle_turn_suspect_after th
            else Z.max (reference + suspect_after th) frozen)
  | SUSPECTED_STALL =>
      Some (CONFIRMED_STALL,
            if idle then idle_turn_since e + idle_turn_confirm_after th
            else Z.max (reference + suspect_after th + confirm_after th) frozen)
  | _ => None
  end.

Definition outlook_note (v : VitalityVerdict) : string :=
  match v with
  | CONFIRMED_STALL => "the stall is confirmed; the recovery path owns this head, not another threshold"
  | SUSPENDED | RETAINED => "the stall clocks are frozen while the process is parked on a stop signal"
  | _ => ""
  end.

Definition recovery_outlook (episode : option VitalityEpisode) (now : pyval)
    (thresholds : option VitalityThresholds) : res Outlook :=
  match episode, thresholds with
  | Some e, Some th =>
      now_o ← finite_number now;
      match now_o with
      | None => Ok empty_outlook
      | Some now =>
          let dark := (λ p, {| ds_source := p.1; ds_dark_since := p.2;
                               ds_dark_seconds := Z.max 0 (now - p.2);
                               ds_freeze_expires_at := p.2 + dark_ceiling th |}) <$> sorted_dark e in
          Ok {| ol_quiet_seconds := Z.max 0 (now - quiet_reference e);
                ol_dark_sources := dark;
                ol_next_deadline :=
                  (λ p, {| dl_verdict := p.1; dl_at := p.2; dl_in_seconds := Z.max 0 (p.2 - now) |})
                    <$> next_rung e th (frozen_until dark);
                ol_note := outlook_note (verdict e) |}
      end
  | _, _ => Ok empty_outlook
  end.

(** The line a respawned successor gets about its predecessor's command. *)
Definition interrupted_command_note (episode : option VitalityEpisode) (rid : string) : string :=
  match episode with
  | None => ""
  | Some e =>
      if negb (nonempty rid) || negb (String.eqb (e_run_id e) rid) then ""
      else
        let cmd := str_strip (last_child_command e) in
        if negb (nonempty cmd) then ""
        else
          let output := str_strip (last_child_output e) in
          "The previous head was stopped while running: " +:+ cmd
            +:+ (if nonempty output then " (its output was redirected to " +:+ output +:+ ")" else "")
  end.
