(* ===== verification/HeadVitalityReduceFacts.v ===== *)
(** * The reducer is total and keeps episodes well formed

    Stage lemmas for [reduce_vitality]: each stage returns on well-formed
    input, keeps the episode well formed, and leaves the clocks it does not
    own alone.  The properties of the verdict are proved over these. *)

From S2P Require Import Prelude PyText HeadVitality HeadVitalityEpisode HeadVitalityReduce.

(** The part of an episode the observation stages may not touch. *)
Definition core (e : VitalityEpisode) :=
  (e_run_id e, verdict e, started_at e, suspected_since e, confirmed_since e,
   last_progress_at e, last_progress_source e, quiet_since e, e_reason e,
   (recovery_rung e, recovery_span_started_at e, deterministic_refusals e, activity_epoch e),
   updated_at e, stall_frozen_since e, child_progress_at e, child_activity_since e).

Ltac core_inj H := unfold core in H; injection H as ? ? ? ? ? ? ? ? ? ? ? ? ? ? ? ? ?.

Lemma or_time_nonneg a b : 0 ≤ a → 0 ≤ b → 0 ≤ or_time a b.
Proof. unfold or_time. destruct (a =? 0); lia. Qed.

Lemma stamps_nonneg e : episode_valid e →
  0 ≤ started_at e ∧ 0 ≤ suspected_since e ∧ 0 ≤ confirmed_since e ∧ 0 ≤ last_progress_at e ∧
  0 ≤ quiet_since e ∧ 0 ≤ updated_at e ∧ 0 ≤ stall_frozen_since e ∧ 0 ≤ turn_ended_at e ∧
  0 ≤ child_progress_at e ∧ 0 ≤ child_activity_since e ∧ 0 ≤ last_child_at e ∧ 0 ≤ idle_turn_since e.
Proof.
  intros Hv. pose proof (ev_stamps _ Hv) as H. unfold stamps in H. rewrite !Forall_cons in H.
  cbn [snd] in H. destruct_and! H. by split_and!.
Qed.

Lemma quiet_reference_nonneg e : episode_valid e → 0 ≤ quiet_reference e.
Proof. intros Hv%stamps_nonneg. destruct_and! Hv. apply or_time_nonneg; lia. Qed.

Lemma head_quiet_reference_nonneg e : episode_valid e → 0 ≤ head_quiet_reference e.
Proof. intros Hv%stamps_nonneg. destruct_and! Hv. apply or_time_nonneg; lia. Qed.

(** An updated record is valid when the changed clocks are not negative. *)
Ltac solve_valid :=
  match goal with
  | Hv : episode_valid ?e |- episode_valid _ =>
      let H := fresh in pose proof (stamps_nonneg e Hv) as H; destruct_and! H;
      destruct Hv; split; try done; try (cbn; lia);
      try (unfold stamps; rewrite ?Forall_cons; cbn; split_and!; try done; try lia;
           try (apply or_time_nonneg; lia))
  end.

(** [replace] of a valid record whose last source name is short. *)
Lemma replace_valid e :
  episode_valid e → (String.length (last_progress_source e) ≤ NAME_LIMIT)%nat →
  ∃ e', replace e = Ok e' ∧ e' = normalise e ∧ episode_wf e'.
Proof.
  intros Hv Hs. exists (normalise e). split_and!; [by apply replace_Ok|done|by apply normalise_wf].
Qed.

Lemma normalise_reason e :
  (String.length (e_reason e) ≤ REASON_LIMIT)%nat → e_reason (normalise e) = e_reason e.
Proof. intros. cbn. by apply str_take_id. Qed.

(** Enumeration values are short. *)
Lemma source_value_length (s : SnapshotSource) : (String.length (enum_value s) ≤ NAME_LIMIT)%nat.
Proof. destruct s; cbn; unfold NAME_LIMIT; lia. Qed.

(** ** The stages before the verdict *)

Lemma shift_nonneg now delta t : 0 ≤ now → 0 ≤ delta → 0 ≤ t → 0 ≤ shift now delta t.
Proof. unfold shift. destruct (t =? 0); lia. Qed.

Lemma unfreeze_spec e owned now :
  episode_wf e → 0 ≤ now →
  ∃ e', unfreeze_if_resumed e owned now = Ok e' ∧ episode_wf e' ∧
    e_run_id e' = e_run_id e ∧ verdict e' = verdict e ∧
    (recovery_rung e', recovery_span_started_at e', deterministic_refusals e', activity_epoch e')
      = (recovery_rung e, recovery_span_started_at e, deterministic_refusals e, activity_epoch e).
Proof.
  intros Hwf Hnow. unfold unfreeze_if_resumed.
  destruct (stall_frozen_since e =? 0); [by eexists|]. destruct (existsb _ _); [by eexists|].
  pose proof (ewf_valid _ Hwf) as Hv.
  edestruct replace_valid as (e' & E & -> & Hwf'); [| |rewrite E; eexists; split_and!; done].
  - pose proof (stamps_nonneg _ Hv) as H. destruct_and! H. destruct Hv; split; try done.
    unfold stamps; rewrite ?Forall_cons; cbn; split_and!; try done; apply shift_nonneg; lia.
  - apply Hwf.
Qed.

Lemma note_source_spec now e b s :
  episode_wf e → 0 ≤ now → snapshot_wf s →
  ∃ e' b', note_source now (e, b) s = Ok (e', b') ∧ episode_wf e' ∧ core e' = core e.
Proof.
  intros Hwf Hnow Hs. pose proof (ewf_valid _ Hwf) as Hv. unfold note_source.
  assert (∀ e1 d, episode_wf e1 → dict_all (λ t, 0 ≤ t) d →
    ∃ e2, replace (e1 <| unavailable_since := d |>) = Ok e2 ∧ episode_wf e2 ∧ core e2 = core e1) as Hu.
  { intros e1 d Hwf1 Hd. pose proof (ewf_valid _ Hwf1) as Hv1.
    edestruct (replace_valid (e1 <| unavailable_since := d |>)) as (e2 & E & -> & Hwf2).
    - destruct Hv1; by split.
    - apply Hwf1.
    - eexists; split_and!; [exact E|done|]. unfold core. rewrite normalise_reason; [done|apply Hwf1]. }
  assert (∀ e1 c, episode_wf e1 →
    ∃ e2, replace (e1 <| evidence_cursors := c |>) = Ok e2 ∧ episode_wf e2 ∧ core e2 = core e1) as Hc.
  { intros e1 c Hwf1. pose proof (ewf_valid _ Hwf1) as Hv1.
    edestruct (replace_valid (e1 <| evidence_cursors := c |>)) as (e2 & E & -> & Hwf2).
    - destruct Hv1; by split.
    - apply Hwf1.
    - eexists; split_and!; [exact E|done|]. unfold core. rewrite normalise_reason; [done|apply Hwf1]. }
  destruct (bool_decide (availability s = UNAVAILABLE)).
  - destruct (dict_has _ _); [by do 2 eexists|].
    destruct (Hu e (dict_set (unavailable_since e) (enum_value (source s)) now)) as (e2 & -> & ? & ?);
      [done|apply dict_all_set; [apply Hv|done]|]. by do 2 eexists.
  - assert (∃ e1, (if dict_has (unavailable_since e) (enum_value (source s))
      then replace (e <| unavailable_since := dict_del (unavailable_since e) (enum_value (source s)) |>)
      else Ok e) = Ok e1 ∧ episode_wf e1 ∧ core e1 = core e) as (e1 & -> & Hwf1 & Hc1).
    { destruct (dict_has _ _); [|by eexists]. apply Hu; [done|]. apply dict_all_del, Hv. }
    cbn [mbind res_bind]. destruct (cursor s) as [c|]; [|by do 2 eexists].
    destruct (nonempty c); [|by do 2 eexists].
    destruct (Hc e1 (dict_set (evidence_cursors e1) (enum_value (source s)) c)) as (e2 & -> & ? & ?);
      [done|]. do 2 eexists; split_and!; [done|done|congruence].
Qed.

Lemma note_absent_spec now e b name :
  episode_wf e → 0 ≤ now →
  ∃ e' b', note_absent now (e, b) name = Ok (e', b') ∧ episode_wf e' ∧ core e' = core e.
Proof.
  intros Hwf Hnow. pose proof (ewf_valid _ Hwf) as Hv. unfold note_absent.
  destruct (dict_has _ _); [by do 2 eexists|].
  edestruct (replace_valid (e <| unavailable_since := dict_set (unavailable_since e) name now |>))
    as (e2 & E & -> & Hwf2).
  - destruct Hv; split; try done. by apply dict_all_set.
  - apply Hwf.
  - rewrite E. do 2 eexists; split_and!; [done|done|].
    unfold core. rewrite normalise_reason; [done|apply Hwf].
Qed.

(** A loop whose body keeps the invariant and the core keeps them. *)
Lemma foldM_core {A} (f : VitalityEpisode * list string → A → res (VitalityEpisode * list string))
    (P : A → Prop) l e b :
  (∀ e b a, episode_wf e → P a → ∃ e' b', f (e, b) a = Ok (e', b') ∧ episode_wf e' ∧ core e' = core e) →
  Forall P l → episode_wf e →
  ∃ e' b', foldM f (e, b) l = Ok (e', b') ∧ episode_wf e' ∧ core e' = core e.
Proof.
  intros Hf Hl. revert e b. induction Hl as [|a l Ha Hl IH]; intros e b Hwf; cbn [foldM]; [by do 2 eexists|].
  destruct (Hf e b a Hwf Ha) as (e1 & b1 & -> & Hwf1 & Hc1). cbn [mbind res_bind].
  destruct (IH e1 b1 Hwf1) as (e2 & b2 & -> & Hwf2 & Hc2). do 2 eexists. split_and!; [done|done|congruence].
Qed.

Lemma record_turn_spec e owned now :
  episode_wf e → 0 ≤ now →
  ∃ e', record_turn e owned now = Ok e' ∧ episode_wf e' ∧ core e' = core e.
Proof.
  intros Hwf Hnow. pose proof (ewf_valid _ Hwf) as Hv. unfold record_turn.
  destruct (List.find _ _) as [s|]; [|by eexists].
  assert (∀ t z, t ∈ [""; "active"; "idle"] → 0 ≤ z →
    ∃ e', replace (e <| last_turn := t |> <| turn_ended_at := z |>) = Ok e' ∧ episode_wf e' ∧
          core e' = core e) as Hr.
  { intros t z Ht Hz.
    edestruct (replace_valid (e <| last_turn := t |> <| turn_ended_at := z |>)) as (e2 & E & -> & Hwf2).
    - solve_valid.
    - apply Hwf.
    - eexists; split_and!; [exact E|done|]. unfold core. rewrite normalise_reason; [done|apply Hwf]. }
  pose proof (stamps_nonneg _ Hv). destruct (bool_decide _); apply Hr; try set_solver; try lia.
  repeat case_match; lia.
Qed.

Lemma record_child_spec e child th :
  episode_wf e → from_option snapshot_wf True child →
  ∃ e' hold b, record_child e child th = Ok (e', hold, b) ∧ episode_wf e' ∧ core e' = core e ∧
    (∀ c since, hold = Some (c, since) →
       child = Some c ∧ answering c = true ∧ progress c = G_ADVANCING ∧
       since = child_since_of e ∧ child_held c since < child_activity_ceiling th) ∧
    (hold = None → child_advancing child = true →
       ∃ c, child = Some c ∧ child_activity_ceiling th ≤ child_held c (child_since_of e)).
Proof.
  intros Hwf Hc. pose proof (ewf_valid _ Hwf) as Hv. unfold record_child, child_advancing.
  destruct child as [c|]; [|by do 3 eexists]. cbn in Hc.
  destruct (answering c) eqn:Ha; [|by do 3 eexists].
  edestruct (replace_valid (e <| last_child_key := child_key c |>
      <| last_child_command := if nonempty (child_key c) then command c else "" |>
      <| last_child_output := if nonempty (child_key c) then output_path c else "" |>
      <| last_child_at := if nonempty (child_key c) then observed_at c else 0 |>))
    as (e2 & E & -> & Hwf2).
  { pose proof (swf_at _ Hc). solve_valid. case_match; lia. }
  { apply Hwf. }
  rewrite E. cbn [mbind res_bind].
  match goal with |- context [normalise ?x] => set (e2 := normalise x) in * end.
  assert (core e2 = core e) as Hcore
    by (unfold e2, core; rewrite normalise_reason; [done|apply Hwf]).
  assert (child_since_of e2 = child_since_of e) as Hsince by done. rewrite Hsince.
  destruct (bool_decide_reflect (progress c = G_ADVANCING)) as [Hp|Hp].
  - destruct (Z.ltb_spec (child_held c (child_since_of e)) (child_activity_ceiling th)).
    + do 3 eexists. split_and!; [done|done|done| |done]. intros ? ? [= <- <-]. by split_and!.
    + do 3 eexists. split_and!; [done|done|done|done|]. intros _ _. by exists c.
  - do 3 eexists. by split_and!.
Qed.

Lemma clear_idle_spec e :
  episode_wf e → ∃ e', replace (e <| idle_turn_since := 0 |>) = Ok e' ∧ episode_wf e' ∧ core e' = core e
    ∧ turn_ended_at e' = turn_ended_at e ∧ unavailable_since e' = unavailable_since e ∧ idle_turn_since e' = 0.
Proof.
  intros Hwf. pose proof (ewf_valid _ Hwf) as Hv.
  edestruct (replace_valid (e <| idle_turn_since := 0 |>)) as (e2 & E & -> & Hwf2).
  - solve_valid.
  - apply Hwf.
  - eexists; split_and!; [exact E|done| |done| |done].
    + unfold core. rewrite normalise_reason; [done|apply Hwf].
    + apply bound_unavailable_id; apply Hwf.
Qed.

(** ** The idle-turn rule *)

Lemma idle_turn_stall_spec e journal now th owed moving :
  episode_wf e → thresholds_wf th → 0 ≤ now → 0 ≤ owed → from_option snapshot_wf True journal →
  ∃ o, idle_turn_stall e journal now th owed moving = Ok o ∧
    from_option (λ r : ruling, episode_wf r.1.2 ∧ e_run_id r.1.2 = e_run_id e ∧
      last_progress_at r.1.2 = last_progress_at e) True o.
Proof.
  intros Hwf Hth Hnow Howed Hj. pose proof (ewf_valid _ Hwf) as Hv. unfold idle_turn_stall.
  destruct journal as [j|]; [|by eexists]. cbn in Hj. destruct (_ || _); [by eexists|].
  set (reference := Z.max _ _). cbv zeta.
  set (v := ladder _). set (why := if (_ && _) then _ else _).
  assert (0 ≤ reference) as Href by (pose proof (swf_since _ Hj); unfold reference; lia).
  destruct Hth. edestruct replace_valid as (e2 & E & Heq & Hwf2);
    [| |rewrite E; eexists; split; [reflexivity|]; cbn; by subst e2].
  - solve_valid; destruct v; try lia; apply or_time_nonneg; lia.
  - apply Hwf.
Qed.

(** ** The arms *)

(** A ruling over a well-formed episode of the same run. *)
Definition good_ruling (rid : string) (r : ruling) : Prop :=
  episode_wf r.1.2 ∧ e_run_id r.1.2 = rid.

(** An arm ends in a [replace] of a valid record. *)
Ltac arm_replace :=
  edestruct replace_valid as (? & -> & -> & ?);
  [ | | cbn [mbind res_bind]; eexists; split; [reflexivity|by split] ].

Lemma climb_quiet_spec e quiet reference th why :
  episode_wf e → thresholds_wf th → 0 ≤ reference →
  ∃ r, climb_quiet e quiet reference th why = Ok r ∧ good_ruling (e_run_id e) r.
Proof.
  intros Hwf [] Href. pose proof (ewf_valid _ Hwf) as Hv. unfold climb_quiet.
  destruct (_ <=? quiet); [arm_replace|destruct (_ <=? quiet); [arm_replace|]].
  1,3: solve_valid. 1,2: apply Hwf. eexists. split; [done|]. by split.
Qed.

Lemma thaw_spec e :
  episode_wf e → ∃ e', replace (e <| stall_frozen_since := 0 |>) = Ok e' ∧ episode_wf e' ∧
    e' = e <| stall_frozen_since := 0 |>.
Proof.
  intros Hwf. pose proof (ewf_valid _ Hwf) as Hv.
  edestruct (replace_valid (e <| stall_frozen_since := 0 |>)) as (e2 & E & -> & Hwf2).
  - solve_valid.
  - apply Hwf.
  - eexists; split_and!; [exact E|done|]. apply normalise_id. destruct Hwf; split; try done.
    solve_valid.
Qed.

Lemma arm_quiet_spec e evidence now th :
  episode_wf e → thresholds_wf th →
  ∃ r, arm_quiet e evidence now th = Ok r ∧ good_ruling (e_run_id e) r.
Proof.
  intros Hwf Hth. pose proof (ewf_valid _ Hwf) as Hv. unfold arm_quiet.
  pose proof (quiet_reference_nonneg e Hv) as Href.
  destruct (thaw_spec e Hwf) as (e1 & -> & Hwf1 & He1). cbn [mbind res_bind].
  assert (∃ e2, (if bool_decide (verdict e1 = CONFIRMED_STALL) && (confirmed_since e1 =? 0)
    then replace (e1 <| confirmed_since := quiet_reference e + suspect_after th + confirm_after th |>)
    else Ok e1) = Ok e2 ∧ episode_wf e2 ∧ e_run_id e2 = e_run_id e) as (e2 & -> & Hwf2 & Hr2).
  { destruct (_ && _); [|exists e1; by subst]. pose proof (ewf_valid _ Hwf1) as Hv1. destruct Hth.
    edestruct (replace_valid (e1 <| confirmed_since := quiet_reference e + suspect_after th + confirm_after th |>))
      as (e2 & E & -> & Hwf2); [solve_valid|apply Hwf1|]. eexists; split_and!; [exact E|done|by subst]. }
  cbn [mbind res_bind].
  destruct (climb_quiet_spec e2 (Z.max 0 (now - quiet_reference e)) (quiet_reference e) th
    ("strong quiet for " +:+ show_seconds (Z.max 0 (now - quiet_reference e)) +:+ "s with no advancement"))
    as ([[v e3] b] & -> & Hwf3 & Hr3); [done..|].
  eexists. split; [done|]. split; [done|]. cbn in *. congruence.
Qed.

Lemma arm_strong_spec e owned strong now th :
  episode_wf e → thresholds_wf th →
  ∃ r, arm_strong e owned strong now th = Ok r ∧ good_ruling (e_run_id e) r.
Proof.
  intros Hwf Hth. pose proof (ewf_valid _ Hwf) as Hv. unfold arm_strong.
  pose proof (quiet_reference_nonneg e Hv) as Href.
  destruct (thaw_spec e Hwf) as (e1 & -> & Hwf1 & He1). cbn [mbind res_bind].
  assert (e_run_id e1 = e_run_id e) as Hrun by (by subst). rewrite <-Hrun. clear He1.
  pose proof (ewf_valid _ Hwf1) as Hv1.
  destruct (bool_decide _); [destruct Hth; arm_replace; [solve_valid|apply Hwf1]|].
  destruct (_ && _); [destruct Hth; arm_replace; [solve_valid|apply Hwf1]|].
  destruct (within_ceiling _ _ _); [destruct Hth; arm_replace; [solve_valid|apply Hwf1]|].
  edestruct (climb_quiet_spec e1) as ([[v e3] b] & E & Hwf3 & Hr3); [done|exact Hth|exact Href|].
  rewrite E. eexists. split; [done|]. by split.
Qed.

Lemma arm_blind_spec e th :
  episode_wf e → thresholds_wf th → ∃ r, arm_blind e th = Ok r ∧ good_ruling (e_run_id e) r.
Proof.
  intros Hwf []. pose proof (ewf_valid _ Hwf) as Hv. unfold arm_blind.
  pose proof (quiet_reference_nonneg e Hv).
  destruct (bool_decide _); [arm_replace; [solve_valid|apply Hwf]|].
  eexists. split; [done|]. by split.
Qed.

Lemma arm_suspended_spec e strong now retained :
  episode_wf e → 0 ≤ now →
  ∃ r, arm_suspended e strong now retained = Ok r ∧ good_ruling (e_run_id e) r.
Proof.
  intros Hwf Hnow. pose proof (ewf_valid _ Hwf) as Hv. unfold arm_suspended, freeze_stall_clocks.
  arm_replace; [solve_valid|apply Hwf].
Qed.

Lemma arm_advancing_spec e s :
  episode_wf e → snapshot_wf s → ∃ r, arm_advancing e s = Ok r ∧ good_ruling (e_run_id e) r.
Proof.
  intros Hwf Hs. pose proof (ewf_valid _ Hwf) as Hv. pose proof (swf_at _ Hs). unfold arm_advancing.
  arm_replace; [|apply source_value_length]. solve_valid. destruct (_ <? _); cbn; lia.
Qed.

Lemma arm_child_spec e c since th :
  episode_wf e → snapshot_wf c → 0 ≤ since → ∃ r, arm_child e c since th = Ok r ∧ good_ruling (e_run_id e) r.
Proof.
  intros Hwf Hs Hsince. pose proof (ewf_valid _ Hwf) as Hv. pose proof (swf_at _ Hs). unfold arm_child.
  arm_replace; [solve_valid|apply Hwf].
Qed.
