(* ===== verification/HeadVitalityVerdicts.v ===== *)
(** * What the reducer concludes

    Theorems about [reduce_vitality]: totality and well-formedness, identity,
    the precedence of the verdicts, quiet and darkness, suspension, child
    activity and stickiness. *)

From S2P Require Import Prelude PyText HeadVitality HeadVitalityEpisode HeadVitalityReduce HeadVitalityReduceFacts.

(** ** Lists of snapshots *)

Lemma max_by_acc (leb : VitalitySnapshot → VitalitySnapshot → bool) l (b : VitalitySnapshot) :
  ∃ s : VitalitySnapshot, fold_left (λ (best : option VitalitySnapshot) s, match best with
         | None => Some s | Some b => if leb s b then Some b else Some s end) l (Some b) = Some s
       ∧ s ∈ b :: l.
Proof.
  revert b. induction l as [|x l IH]; intros b; simpl; [eexists; split; [done|set_solver]|].
  destruct (leb x b).
  - destruct (IH b) as (s & -> & ?). eexists; split; [done|set_solver].
  - destruct (IH x) as (s & -> & ?). eexists; split; [done|set_solver].
Qed.

Lemma max_by_None leb l : max_by leb l = None ↔ l = [].
Proof.
  unfold max_by. destruct l as [|x l]; [done|]. simpl.
  destruct (max_by_acc leb l x) as (s & -> & _). naive_solver.
Qed.

Lemma max_by_elem leb l s : max_by leb l = Some s → s ∈ l.
Proof.
  unfold max_by. destruct l as [|x l]; [done|]. simpl.
  destruct (max_by_acc leb l x) as (s' & -> & ?). naive_solver.
Qed.

Lemma put_latest_elem l s x : x ∈ put_latest l s → x ∈ l ∨ x = s.
Proof.
  induction l as [|k l IH]; simpl; [set_solver|].
  destruct (bool_decide _); [destruct (_ <? _)|]; set_solver.
Qed.

Lemma latest_elem l x : x ∈ latest_per_source l → x ∈ l.
Proof.
  unfold latest_per_source. enough (∀ acc, x ∈ fold_left put_latest l acc → x ∈ acc ∨ x ∈ l) as H.
  { intros Hx. apply H in Hx. set_solver. }
  induction l as [|s l IH]; intros acc; simpl; [auto|].
  intros [Hx|Hx]%IH; [|set_solver]. apply put_latest_elem in Hx. set_solver.
Qed.

Lemma put_latest_sources l s :
  source <$> put_latest l s =
  if bool_decide (source s ∈ source <$> l) then source <$> l else (source <$> l) ++ [source s].
Proof.
  induction l as [|k l IH]; csimpl; [done|].
  destruct (bool_decide_reflect (source k = source s)) as [E|E].
  - rewrite bool_decide_eq_true_2 by (rewrite E; set_solver).
    destruct (_ <? _); csimpl; [by rewrite E|done].
  - csimpl. rewrite IH. destruct (bool_decide_reflect (source s ∈ source <$> l)).
    + by rewrite bool_decide_eq_true_2 by set_solver.
    + by rewrite bool_decide_eq_false_2 by set_solver.
Qed.

(** At most one snapshot per source is kept. *)
Lemma latest_NoDup l : NoDup (source <$> latest_per_source l).
Proof.
  unfold latest_per_source. enough (∀ acc, NoDup (source <$> acc) →
    NoDup (source <$> fold_left put_latest l acc)) as H by (apply H; apply NoDup_nil_2).
  induction l as [|s l IH]; intros acc Hacc; simpl; [done|]. apply IH. rewrite put_latest_sources.
  case_bool_decide; [done|]. apply NoDup_app. split_and!; [done|set_solver|apply NoDup_singleton].
Qed.

Lemma latest_nonempty l : l ≠ [] → latest_per_source l ≠ [].
Proof.
  destruct l as [|s l]; [done|]. intros _. unfold latest_per_source. simpl.
  enough (∀ acc, acc ≠ [] → fold_left put_latest l acc ≠ []) as H by (by apply H).
  clear s. induction l as [|x l IH]; intros acc Hacc; simpl; [done|]. apply IH.
  destruct acc; simpl; [done|]. destruct (bool_decide _); [destruct (_ <? _)|]; done.
Qed.

Lemma owned_get_elem owned src s : owned_get owned src = Some s → s ∈ owned ∧ source s = src.
Proof.
  intros E. apply List.find_some in E as [H1 H2]. split; [by apply list_elem_of_In|].
  by apply bool_decide_eq_true in H2.
Qed.

Lemma sorted_owned_elem owned s : s ∈ sorted_owned owned → s ∈ owned.
Proof.
  unfold sorted_owned. intros (n & _ & E)%list_elem_of_omap.
  apply List.find_some in E as [E _]. by apply list_elem_of_In.
Qed.

Lemma strong_elem owned s :
  s ∈ strong_of owned ↔
  s ∈ owned ∧ availability s = AVAILABLE ∧ source s ≠ PANE_ADVISORY ∧ source s ≠ EXECUTION_CHILD.
Proof.
  unfold strong_of. rewrite list_elem_of_In, filter_In, <-list_elem_of_In.
  unfold answering, advisory. rewrite !andb_true_iff, !negb_true_iff.
  rewrite bool_decide_eq_true, !bool_decide_eq_false. naive_solver.
Qed.

Lemma resolve_target_elem previous snaps target foreign :
  snaps ≠ [] → resolve_run_id previous snaps = (target, foreign) → target ∈ run_id <$> snaps.
Proof.
  intros Hne [= <- _].
  assert (∀ x, x ∈ sort_strings (remove_dups (run_id <$> snaps)) ↔ x ∈ run_id <$> snaps) as Hin.
  { intros x. unfold sort_strings. by rewrite merge_sort_Permutation, elem_of_remove_dups. }
  apply Hin.
  assert (default "" (head (sort_strings (remove_dups (run_id <$> snaps))))
    ∈ sort_strings (remove_dups (run_id <$> snaps))) as Hhead.
  { destruct (sort_strings _) as [|y l] eqn:E; [|set_solver].
    destruct snaps as [|s snaps]; [done|]. exfalso.
    assert (run_id s ∈ ([] : list string)) as Hx by (apply Hin; set_solver). set_solver. }
  destruct previous as [p|]; [|done]. case_bool_decide; done.
Qed.

(** ** Totality *)

Section total.
Context (th : VitalityThresholds) (Hth : thresholds_wf th).

Lemma conclude_spec e owned idle hold now retained :
  episode_wf e → 0 ≤ now → Forall snapshot_wf owned →
  from_option (good_ruling (e_run_id e)) True idle →
  (∀ c since, hold = Some (c, since) → snapshot_wf c ∧ 0 ≤ since) →
  ∃ r, conclude e owned idle hold now th retained = Ok r ∧ good_ruling (e_run_id e) r.
Proof.
  intros Hwf Hnow Howned Hidle Hhold. unfold conclude.
  destruct (existsb (is_process P_DEAD) _); [by eexists|].
  destruct (existsb (is_process P_SUSPENDED) _); [by apply arm_suspended_spec|].
  destruct (max_by _ _) as [s|] eqn:E.
  { apply max_by_elem, list_elem_of_In, filter_In, proj1, filter_In, proj1, list_elem_of_In,
      strong_elem, proj1 in E.
    rewrite Forall_forall in Howned. by apply arm_advancing_spec; [|apply Howned]. }
  destruct idle as [r|]; [by eexists|].
  destruct hold as [[c since]|]; [destruct (Hhold c since); [done|]; by apply arm_child_spec|].
  destruct (List.filter has_progress _); [|by apply arm_quiet_spec].
  destruct (strong_of owned); [by apply arm_blind_spec|by apply arm_strong_spec].
Qed.

Lemma raise_answer_owed_spec r now owed rid :
  good_ruling rid r →
  ∃ r', raise_answer_owed r now owed = Ok r' ∧ good_ruling rid r'.
Proof.
  destruct r as [[v e] b]. intros [Hwf Hr]. cbn in Hwf, Hr. unfold raise_answer_owed.
  destruct (_ && _); [|by eexists]. pose proof (ewf_valid _ Hwf) as Hv.
  edestruct replace_valid as (e' & -> & -> & Hwf'); [| |eexists; split; [reflexivity|by split]].
  - solve_valid.
  - apply Hwf.
Qed.

Lemma finish_spec r tokens owned now rid :
  good_ruling rid r → 0 ≤ now →
  ∃ e', finish r tokens owned now = Ok e' ∧ episode_wf e' ∧ e_run_id e' = rid ∧
        verdict e' = r.1.1 ∧ updated_at e' = now.
Proof.
  destruct r as [[v e] b]. intros [Hwf Hr] Hnow. cbn in Hwf, Hr. unfold finish.
  pose proof (ewf_valid _ Hwf) as Hv.
  edestruct replace_valid as (e' & -> & -> & Hwf'); [| |eexists; split_and!; [reflexivity|done..]].
  - solve_valid.
  - apply Hwf.
Qed.

End total.
