(* ===== verification/HeadVitalitySpec.v ===== *)
(** * The vitality decision table, and the reducer's refinement of it

    [decision] is the abstract contract of one reduction: eight verdicts chosen
    from six observations, with no episode record, no stamps and no texts.  The
    effect lemmas say what each arm of the reducer does to the clocks, and
    [conclude_decision] that the arms take exactly the table's branch. *)

From S2P Require Import Prelude PyText HeadVitality HeadVitalityEpisode HeadVitalityReduce HeadVitalityReduceFacts.
From S2P Require Import HeadVitalityVerdicts.

(** ** The table *)

(** The verdict strong quiet of a given length earns. *)
Definition quiet_verdict (th : VitalityThresholds) (quiet : Z) : VitalityVerdict :=
  if suspect_after th + confirm_after th <=? quiet then CONFIRMED_STALL
  else if suspect_after th <=? quiet then SUSPECTED_STALL else HEALTHY_QUIET.

(** What one tick knows: the strong readings, the idle-turn ruling if that rule
    applies, whether a child holds the head, how long the head has been quiet,
    and for how long its progress source has been dark. *)
Record Observation := {
  ob_strong : list VitalitySnapshot;
  ob_idle : option VitalityVerdict;
  ob_child : bool;
  ob_quiet : Z;
  ob_dark : option Z;
}.

Definition decision (th : VitalityThresholds) (previous : VitalityVerdict) (retained : bool)
    (o : Observation) : VitalityVerdict :=
  if existsb (is_process P_DEAD) (ob_strong o) then DEAD
  else if existsb (is_process P_SUSPENDED) (ob_strong o) then (if retained then RETAINED else SUSPENDED)
  else if existsb is_advancing (ob_strong o) then HEALTHY_ACTIVE
  else match ob_idle o with
  | Some v => v
  | None =>
      if ob_child o then HEALTHY_ACTIVE
      else if existsb has_progress (ob_strong o) then quiet_verdict th (ob_quiet o)
      else if bool_decide (previous = CONFIRMED_STALL) then CONFIRMED_STALL
      else match ob_strong o with
      | [] => UNVERIFIABLE
      | _ =>
          if from_option (λ d, d <? dark_ceiling th) false (ob_dark o)
          then (if bool_decide (previous = SUSPECTED_STALL) then SUSPECTED_STALL else HEALTHY_QUIET)
          else quiet_verdict th (ob_quiet o)
      end
  end.

Definition dark_of (e : VitalityEpisode) (now : Z) : option Z :=
  if is_dark e then Some (dark_seconds_of e now) else None.

(** ** Effects of the arms *)

(** The clocks quiet is measured from, and the counters no arm but advancement moves. *)
Definition clocks (e : VitalityEpisode) :=
  (started_at e, last_progress_at e, quiet_since e, child_progress_at e, child_activity_since e).

Definition bookkeeping (e : VitalityEpisode) :=
  (e_run_id e, recovery_rung e, recovery_span_started_at e, deterministic_refusals e, turn_ended_at e).

(** What [replace] returned is the normalised record. *)
Ltac inv_replace :=
  inv_ok; repeat match goal with
  | H : replace _ = Ok _ |- _ => apply replace_Ok in H as [_ H]; subst
  | H : (_, _, _) = (_, _, _) |- _ => injection H as ? ? ?; subst
  end.

Lemma climb_quiet_effect e quiet reference th why v e' b :
  climb_quiet e quiet reference th why = Ok (v, e', b) →
  v = quiet_verdict th quiet ∧ clocks e' = clocks e ∧ bookkeeping e' = bookkeeping e ∧
  stall_frozen_since e' = stall_frozen_since e ∧ activity_epoch e' = activity_epoch e ∧
  idle_turn_since e' = idle_turn_since e.
Proof.
  unfold climb_quiet, quiet_verdict. intros E.
  destruct (_ <=? quiet); [|destruct (_ <=? quiet)]; inv_replace; by split_and!.
Qed.

Lemma arm_quiet_effect e evidence now th v e' b :
  arm_quiet e evidence now th = Ok (v, e', b) →
  v = quiet_verdict th (Z.max 0 (now - quiet_reference e)) ∧ clocks e' = clocks e ∧
  bookkeeping e' = bookkeeping e ∧ stall_frozen_since e' = 0 ∧
  activity_epoch e' = activity_epoch e ∧ idle_turn_since e' = idle_turn_since e.
Proof.
  unfold arm_quiet. intros E. inv_ok. destruct x1 as [[v' e1] b']. simplify_eq/=.
  apply climb_quiet_effect in E2 as (-> & Hc & Hb & Hf & He & Hi).
  apply replace_Ok in E0 as [_ ->].
  destruct (_ && _); [apply replace_Ok in E1 as [_ ->]|injection E1 as <-];
    (split_and!; [done|exact Hc|exact Hb|exact Hf|exact He|exact Hi]).
Qed.

Lemma arm_strong_effect e owned strong now th v e' b :
  episode_wf e → arm_strong e owned strong now th = Ok (v, e', b) →
  v = (if bool_decide (verdict e = CONFIRMED_STALL) then CONFIRMED_STALL
       else if from_option (λ d, d <? dark_ceiling th) false (dark_of e now)
       then (if bool_decide (verdict e = SUSPECTED_STALL) then SUSPECTED_STALL else HEALTHY_QUIET)
       else quiet_verdict th (Z.max 0 (now - quiet_reference e))) ∧
  clocks e' = clocks e ∧ bookkeeping e' = bookkeeping e ∧ stall_frozen_since e' = 0 ∧
  activity_epoch e' = activity_epoch e ∧ idle_turn_since e' = idle_turn_since e.
Proof.
  intros Hwf. unfold arm_strong. destruct (thaw_spec e Hwf) as (e1 & -> & _ & He1). cbn [mbind res_bind].
  assert (clocks e1 = clocks e ∧ bookkeeping e1 = bookkeeping e ∧ stall_frozen_since e1 = 0 ∧
    activity_epoch e1 = activity_epoch e ∧ idle_turn_since e1 = idle_turn_since e)
    as (Hc & Hb & Hf & Ha & Hi) by (by rewrite He1).
  replace (verdict e) with (verdict e1) by (by rewrite He1).
  replace (dark_of e now) with (dark_of e1 now) by (by rewrite He1).
  assert (from_option (λ d, d <? dark_ceiling th) false (dark_of e1 now) = within_ceiling e1 now th) as ->.
  { unfold dark_of, within_ceiling. by destruct (is_dark e1). }
  clear He1 Hwf. intros E.
  destruct (bool_decide (verdict e1 = CONFIRMED_STALL)); [inv_replace; by split_and!|].
  destruct (within_ceiling e1 now th); cbn [andb] in E.
  - destruct (bool_decide (verdict e1 = SUSPECTED_STALL)); inv_replace; by split_and!.
  - inv_ok. destruct x as [[v' e2] b']. inv_replace.
    apply climb_quiet_effect in E0 as (-> & ? & ? & ? & ? & ?). split_and!; congruence.
Qed.

Lemma arm_blind_effect e th v e' b :
  arm_blind e th = Ok (v, e', b) →
  v = (if bool_decide (verdict e = CONFIRMED_STALL) then CONFIRMED_STALL else UNVERIFIABLE) ∧
  clocks e' = clocks e ∧ bookkeeping e' = bookkeeping e ∧
  stall_frozen_since e' = stall_frozen_since e ∧ activity_epoch e' = activity_epoch e ∧
  idle_turn_since e' = idle_turn_since e.
Proof.
  unfold arm_blind. intros E. destruct (bool_decide _); inv_replace; by split_and!.
Qed.

Lemma arm_suspended_effect e strong now retained v e' b :
  arm_suspended e strong now retained = Ok (v, e', b) →
  v = (if retained then RETAINED else SUSPENDED) ∧
  clocks e' = clocks e ∧ bookkeeping e' = bookkeeping e ∧
  stall_frozen_since e' = or_time (stall_frozen_since e) now ∧ activity_epoch e' = activity_epoch e ∧
  idle_turn_since e' = idle_turn_since e ∧ suspected_since e' = 0 ∧ confirmed_since e' = 0.
Proof. unfold arm_suspended, freeze_stall_clocks. intros E. inv_replace. by split_and!. Qed.

Lemma arm_advancing_effect e s v e' b :
  arm_advancing e s = Ok (v, e', b) →
  v = HEALTHY_ACTIVE ∧ bookkeeping e' = bookkeeping e ∧ idle_turn_since e' = idle_turn_since e ∧
  clocks e' = (started_at e, Z.max (last_progress_at e) (observed_at s), quiet_since e, child_progress_at e, 0) ∧
  suspected_since e' = 0 ∧ confirmed_since e' = 0 ∧ stall_frozen_since e' = 0 ∧
  last_progress_source e' = enum_value (source s) ∧
  activity_epoch e' = activity_epoch e + (if last_progress_at e <? observed_at s then 1 else 0).
Proof. unfold arm_advancing. intros E. inv_replace. by split_and!. Qed.

Lemma arm_child_effect e c since th v e' b :
  arm_child e c since th = Ok (v, e', b) →
  v = HEALTHY_ACTIVE ∧ bookkeeping e' = bookkeeping e ∧ idle_turn_since e' = idle_turn_since e ∧
  clocks e' = (started_at e, last_progress_at e, quiet_since e,
               Z.max (child_progress_at e) (observed_at c), since) ∧
  suspected_since e' = 0 ∧ confirmed_since e' = 0 ∧ stall_frozen_since e' = 0 ∧
  activity_epoch e' = activity_epoch e.
Proof. unfold arm_child. intros E. inv_replace. by split_and!. Qed.

(** The idle-turn ruling keeps the clocks too. *)
Lemma idle_turn_effect e journal now th owed moving v e' b :
  idle_turn_stall e journal now th owed moving = Ok (Some (v, e', b)) →
  clocks e' = clocks e ∧ bookkeeping e' = bookkeeping e ∧ stall_frozen_since e' = 0 ∧
  activity_epoch e' = activity_epoch e.
Proof.
  unfold idle_turn_stall. intros E. destruct journal as [j|]; [|done].
  destruct (_ || _); [done|]. cbv zeta in E. inv_replace. by split_and!.
Qed.

(** ** What the observation stages leave *)

(** Since when a source counts as dark after this tick's readings: a reading
    that is unavailable starts or keeps the mark, one that answers clears it,
    and a progress source the episode knew that is absent counts as dark. *)
Definition dark_since_after (e : VitalityEpisode) (owned : list VitalitySnapshot) (now : Z)
    (src : SnapshotSource) : option Z :=
  let name := enum_value src in
  let before := dict_get (unavailable_since e) name in
  match owned_get owned src with
  | Some s => if bool_decide (availability s = UNAVAILABLE) then Some (default now before) else None
  | None =>
      if bool_decide (name ∈ PROGRESS_SOURCES)
         && (dict_has (evidence_cursors e) name || String.eqb (last_progress_source e) name)
      then Some (default now before) else before
  end.

(** The Turn axis after this tick's advisory reading. *)
Definition turn_ended_after (e : VitalityEpisode) (owned : list VitalitySnapshot) (now : Z) : Z :=
  match List.find (λ s, advisory s && answering s && negb (bool_decide (turn s = T_UNKNOWN))) owned with
  | None => turn_ended_at e
  | Some s =>
      if bool_decide (turn s = T_ACTIVE) then 0
      else if nonempty (last_turn e)
      then (if String.eqb (last_turn e) "idle" then turn_ended_at e else now) else turn_ended_at e
  end.

Lemma dict_has_get {A} (d : list (string * A)) k : dict_has d k = bool_decide (is_Some (dict_get d k)).
Proof. unfold dict_has. symmetry. destruct (dict_get d k); [by apply bool_decide_eq_true|].
  apply bool_decide_eq_false. by intros [].
Qed.

Lemma source_value_inj (a b : SnapshotSource) : enum_value a = enum_value b ↔ a = b.
Proof. split; [apply enum_value_inj|by intros ->]. Qed.

Lemma replace_unavailable e d e' :
  episode_wf e → dict_wf d → Forall (λ p, (String.length p.1 ≤ NAME_LIMIT)%nat) d →
  replace (e <| unavailable_since := d |>) = Ok e' → e' = e <| unavailable_since := d |>.
Proof.
  intros Hwf Hd Hl [Hv ->]%replace_Ok. apply normalise_id. destruct Hwf. by split.
Qed.

Lemma replace_cursors e c e' :
  episode_wf e → dict_wf c →
  Forall (λ p, (String.length p.1 ≤ NAME_LIMIT)%nat ∧ (String.length p.2 ≤ CURSOR_LIMIT)%nat) c →
  replace (e <| evidence_cursors := c |>) = Ok e' → e' = e <| evidence_cursors := c |>.
Proof.
  intros Hwf Hd Hl [Hv ->]%replace_Ok. apply normalise_id. destruct Hwf. by split.
Qed.

Lemma dict_get_set {A} (d : list (string * A)) k k' v :
  dict_get (dict_set d k v) k' = if String.eqb k k' then Some v else dict_get d k'.
Proof.
  destruct (String.eqb_spec k k') as [->|]; [apply dict_get_set_eq|by apply dict_get_set_ne].
Qed.

Lemma dict_get_del {A} (d : list (string * A)) k k' :
  dict_get (dict_del d k) k' = if String.eqb k k' then None else dict_get d k'.
Proof.
  destruct (String.eqb_spec k k') as [->|]; [apply dict_get_del_eq|by apply dict_get_del_ne].
Qed.

Lemma note_source_step now e b s e' b' src :
  episode_wf e → snapshot_wf s → note_source now (e, b) s = Ok (e', b') →
  dict_get (unavailable_since e') (enum_value src) =
    (if bool_decide (source s = src)
     then (if bool_decide (availability s = UNAVAILABLE)
           then Some (default now (dict_get (unavailable_since e) (enum_value src))) else None)
     else dict_get (unavailable_since e) (enum_value src)) ∧
  (source s ≠ src → dict_get (evidence_cursors e') (enum_value src) =
                    dict_get (evidence_cursors e) (enum_value src)) ∧
  turn_ended_at e' = turn_ended_at e ∧ last_turn e' = last_turn e.
Proof.
  intros Hwf Hs. unfold note_source. set (name := enum_value (source s)).
  assert (String.length name ≤ NAME_LIMIT)%nat as Hname by apply source_value_length.
  assert (bool_decide (source s = src) = String.eqb name (enum_value src)) as Hsrc.
  { destruct (String.eqb_spec name (enum_value src)) as [E|E].
    - apply bool_decide_eq_true. by apply source_value_inj.
    - apply bool_decide_eq_false. intros Hs'. apply E. unfold name. by rewrite Hs'. }
  rewrite Hsrc. assert (source s ≠ src → String.eqb name (enum_value src) = false) as Hne.
  { intros. rewrite <-Hsrc. by apply bool_decide_eq_false. }
  destruct (ewf_dark _ Hwf) as [Hd1 Hd2]. destruct (bool_decide (availability s = UNAVAILABLE)).
  - unfold dict_has. destruct (dict_get (unavailable_since e) name) as [t|] eqn:Et.
    + intros [= <- <-]. split_and!; try done. destruct (String.eqb_spec name (enum_value src)) as [<-|]; [|done].
      by rewrite Et.
    + intros E. inv_ok. apply replace_unavailable in E0 as ->; try done;
        [|auto with py..].
      split_and!; try done.
      change (unavailable_since (_ <| unavailable_since := ?d |>)) with d. rewrite dict_get_set.
      destruct (String.eqb_spec name (enum_value src)) as [<-|]; [by rewrite Et|done].
  - intros E. inv_ok.
    assert (episode_wf x ∧ evidence_cursors x = evidence_cursors e ∧
      dict_get (unavailable_since x) (enum_value src) = dict_get (dict_del (unavailable_since e) name) (enum_value src)
      ∧ turn_ended_at x = turn_ended_at e ∧ last_turn x = last_turn e) as (Hwf1 & Hc1 & Hu1 & Ht1 & Hl1).
    { destruct (dict_has _ _) eqn:Eh.
      - assert (episode_wf x) by (apply replace_Ok in E0 as [? ->]; apply normalise_wf; [done|apply Hwf]).
        apply replace_unavailable in E0 as ->; try done; [by apply dict_del_wf|by apply dict_del_Forall].
      - simplify_eq. split_and!; try done. rewrite dict_get_del. unfold dict_has in Eh.
        destruct (String.eqb_spec name (enum_value src)) as [<-|]; [by destruct (dict_get _ _)|done]. }
    pose proof (swf_cursor _ Hs) as Hcur. destruct (cursor s) as [c|]; [destruct (nonempty c)|];
      rewrite dict_get_del in Hu1; inv_ok; try by rewrite Hc1.
    destruct (ewf_cursors _ Hwf1) as [Hk1 Hk2]. apply replace_cursors in E1 as ->; try done;
      [|auto with py..].
    split_and!; try done. intros Hn.
    change (evidence_cursors (_ <| evidence_cursors := ?d |>)) with d. rewrite dict_get_set, Hc1. by rewrite (Hne Hn).
Qed.

Lemma owned_get_NoDup owned s :
  NoDup (source <$> owned) → s ∈ owned → owned_get owned (source s) = Some s.
Proof.
  intros Hnd Hs. unfold owned_get. induction owned as [|x l IH]; [set_solver|]. csimpl in *.
  apply NoDup_cons in Hnd as [Hx Hnd]. case_bool_decide as E.
  - apply elem_of_cons in Hs as [->|Hs]; [done|]. destruct Hx. rewrite E.
    by apply list_elem_of_fmap_2.
  - apply elem_of_cons in Hs as [->|Hs]; [done|]. by apply IH.
Qed.

Lemma owned_get_perm l k src : NoDup (source <$> l) → l ≡ₚ k → owned_get l src = owned_get k src.
Proof.
  intros Hnd Hp. assert (NoDup (source <$> k)) as Hnd' by (by rewrite <-Hp).
  destruct (owned_get l src) as [s|] eqn:E.
  - apply owned_get_elem in E as [Hs <-]. symmetry. apply owned_get_NoDup; [done|]. by rewrite <-Hp.
  - destruct (owned_get k src) as [s|] eqn:E'; [|done]. apply owned_get_elem in E' as [Hs <-].
    rewrite <-Hp in Hs. by rewrite owned_get_NoDup in E.
Qed.

(** Sorting by name keeps every owned snapshot, once. *)
Lemma sorted_owned_perm owned : NoDup (source <$> owned) → sorted_owned owned ≡ₚ owned.
Proof.
  intros Hnd. unfold sorted_owned, sort_strings. set (f := λ name, List.find _ owned).
  transitivity (omap f ((λ s, enum_value (source s)) <$> owned)).
  { apply omap_Permutation. apply merge_sort_Permutation. }
  assert (∀ s, s ∈ owned → f (enum_value (source s)) = Some s) as Hf.
  { intros s Hs. rewrite <-(owned_get_NoDup owned s Hnd Hs). unfold f, owned_get.
    clear. induction owned as [|x l IH]; cbn [List.find]; [done|]. rewrite IH.
    destruct (String.eqb_spec (enum_value (source x)) (enum_value (source s))) as [E|E].
    - apply source_value_inj in E. by rewrite bool_decide_eq_true_2.
    - rewrite bool_decide_eq_false_2; [done|]. intros H. by rewrite H in E. }
  clearbody f. clear Hnd. induction owned as [|s l IH]; cbn [omap list_omap fmap list_fmap]; [done|].
  rewrite (Hf s) by set_solver. constructor. apply IH. set_solver.
Qed.

Lemma note_sources_effect now l e b e' b' src :
  NoDup (source <$> l) → Forall snapshot_wf l → episode_wf e → 0 ≤ now →
  foldM (note_source now) (e, b) l = Ok (e', b') →
  dict_get (unavailable_since e') (enum_value src) =
    (match owned_get l src with
     | Some s => if bool_decide (availability s = UNAVAILABLE)
                 then Some (default now (dict_get (unavailable_since e) (enum_value src))) else None
     | None => dict_get (unavailable_since e) (enum_value src)
     end) ∧
  (owned_get l src = None → dict_get (evidence_cursors e') (enum_value src) =
                            dict_get (evidence_cursors e) (enum_value src)) ∧
  turn_ended_at e' = turn_ended_at e ∧ last_turn e' = last_turn e.
Proof.
  intros Hnd Hl. revert e b Hnd. induction Hl as [|s l Hs Hl IH]; intros e b Hnd Hwf Hnow E;
    cbn [foldM] in E; [injection E as <- <-; done|]. csimpl in Hnd. apply NoDup_cons in Hnd as [Hx Hnd].
  destruct (note_source_spec now e b s Hwf Hnow Hs) as (e1 & b1 & E1 & Hwf1 & _).
  rewrite E1 in E. cbn [mbind res_bind] in E.
  destruct (note_source_step _ _ _ _ _ _ src Hwf Hs E1) as (Hu1 & Hc1 & Ht1 & Hl1).
  destruct (IH e1 b1 Hnd Hwf1 Hnow E) as (Hu & Hc & Ht & Hl').
  unfold owned_get in *. cbn [List.find]. destruct (bool_decide_reflect (source s = src)) as [Hsrc|Hsrc].
  - assert (List.find (λ s, bool_decide (source s = src)) l = None) as Hnone.
    { destruct (List.find _ l) as [s'|] eqn:Ef; [|done]. apply List.find_some in Ef as [Hin Hb].
      apply bool_decide_eq_true in Hb. destruct Hx. rewrite Hsrc, <-Hb.
      apply list_elem_of_fmap_2. by apply list_elem_of_In. }
    rewrite Hnone in Hu. rewrite Hu, Hu1. split_and!; [done|done|congruence..].
  - rewrite Hu, Hu1. split_and!; [done| |congruence..]. intros Hn. rewrite (Hc Hn). by apply Hc1.
Qed.

Lemma note_absent_step now e b name e' b' k :
  episode_wf e → (String.length name ≤ NAME_LIMIT)%nat → note_absent now (e, b) name = Ok (e', b') →
  dict_get (unavailable_since e') k =
    (if String.eqb name k then Some (default now (dict_get (unavailable_since e) k))
     else dict_get (unavailable_since e) k) ∧
  turn_ended_at e' = turn_ended_at e ∧ last_turn e' = last_turn e.
Proof.
  intros Hwf Hn. unfold note_absent. destruct (ewf_dark _ Hwf) as [Hd1 Hd2].
  rewrite dict_has_get. destruct (dict_get (unavailable_since e) name) as [t|] eqn:Et.
  - rewrite bool_decide_eq_true_2 by done. intros [= <- <-]. split_and!; try done.
    destruct (String.eqb_spec name k) as [<-|]; [by rewrite Et|done].
  - rewrite bool_decide_eq_false_2 by (by intros []). intros E. inv_ok.
    apply replace_unavailable in E0 as ->; try done; [|auto with py..].
    split_and!; try done.
    change (unavailable_since (_ <| unavailable_since := ?d |>)) with d. rewrite dict_get_set.
    destruct (String.eqb_spec name k) as [<-|]; [by rewrite Et|done].
Qed.

Lemma owned_get_name owned src :
  existsb (λ s, String.eqb (enum_value (source s)) (enum_value src)) owned =
  bool_decide (is_Some (owned_get owned src)).
Proof.
  unfold owned_get. induction owned as [|s l IH]; cbn [existsb List.find].
  - symmetry. apply bool_decide_eq_false. by intros [].
  - destruct (String.eqb_spec (enum_value (source s)) (enum_value src)) as [E|E].
    + apply source_value_inj in E. rewrite (bool_decide_eq_true_2 (source s = src)) by done.
      symmetry. by apply bool_decide_eq_true.
    + rewrite (bool_decide_eq_false_2 (source s = src)); [done|]. intros H. by rewrite H in E.
Qed.

(** The one progress source of [PROGRESS_SOURCES], absent and known. *)
Definition provider_absent (e : VitalityEpisode) (owned : list VitalitySnapshot) : bool :=
  (dict_has (evidence_cursors e) (enum_value PROVIDER_CURSOR)
   || String.eqb (last_progress_source e) (enum_value PROVIDER_CURSOR))
  && negb (bool_decide (is_Some (owned_get owned PROVIDER_CURSOR))).

Lemma absent_progress_eq e owned :
  absent_progress e owned = if provider_absent e owned then [enum_value PROVIDER_CURSOR] else [].
Proof.
  unfold absent_progress, provider_absent, PROGRESS_SOURCES. rewrite <-owned_get_name.
  change (enum_value PROVIDER_CURSOR) with "provider_cursor". cbn [List.filter].
  by destruct (_ && _).
Qed.

(** At most one progress source can be dark: the provider cursor. *)
Lemma dark_progress_eq e :
  dict_wf (unavailable_since e) →
  dark_progress_of e =
  from_option (λ t, [(enum_value PROVIDER_CURSOR, t)]) [] (dict_get (unavailable_since e) (enum_value PROVIDER_CURSOR)).
Proof.
  unfold dark_progress_of, dict_wf. change (enum_value PROVIDER_CURSOR) with "provider_cursor".
  generalize (unavailable_since e) as d. intros d.
  assert (∀ d', "provider_cursor" ∉ d'.*1 →
    List.filter (λ p : string * Z, bool_decide (p.1 ∈ PROGRESS_SOURCES)) d' = []) as Hnone.
  { induction d' as [|[k t] d' IH]; csimpl; [done|]. intros Hn.
    rewrite bool_decide_eq_false_2 by (unfold PROGRESS_SOURCES; set_solver). apply IH. set_solver. }
  induction d as [|[k t] d IH]; csimpl; [done|]. rewrite NoDup_cons. intros [Hk Hd].
  destruct (String.eqb_spec k "provider_cursor") as [->|Hne].
  - rewrite bool_decide_eq_true_2 by (unfold PROGRESS_SOURCES; set_solver). by rewrite Hnone.
  - rewrite bool_decide_eq_false_2 by (unfold PROGRESS_SOURCES; set_solver). by apply IH.
Qed.

Lemma dark_of_eq e now :
  episode_wf e →
  dark_of e now = (λ t, Z.max 0 (now - t)) <$> dict_get (unavailable_since e) (enum_value PROVIDER_CURSOR).
Proof.
  intros Hwf. unfold dark_of, is_dark, dark_seconds_of. rewrite dark_progress_eq by apply Hwf.
  by destruct (dict_get _ _).
Qed.

Lemma record_turn_effect e owned now e' :
  episode_wf e → record_turn e owned now = Ok e' →
  turn_ended_at e' = turn_ended_after e owned now ∧ unavailable_since e' = unavailable_since e.
Proof.
  intros Hwf. unfold record_turn, turn_ended_after.
  destruct (ewf_dark _ Hwf) as [Hd1 Hd2].
  destruct (List.find _ _) as [s|]; [|by intros [= <-]]. destruct (bool_decide _);
    intros [_ ->]%replace_Ok; (split; [done|]); by apply bound_unavailable_id.
Qed.

Lemma record_child_frame e child th e' hold b :
  episode_wf e → record_child e child th = Ok (e', hold, b) →
  turn_ended_at e' = turn_ended_at e ∧ unavailable_since e' = unavailable_since e.
Proof.
  intros Hwf. unfold record_child. destruct child as [c|]; [|by intros [= <-]].
  destruct (answering c); [|by intros [= <-]]. intros E. inv_ok. apply replace_Ok in E0 as [_ ->].
  destruct (ewf_dark _ Hwf) as [Hd1 Hd2].
  destruct (bool_decide _); [destruct (_ <? _)|]; injection E as <- _ _; (split; [done|]);
    by apply bound_unavailable_id.
Qed.

(** What the arms see: the dark clock and the Turn axis after the tick's readings. *)
Lemma observation_effect e1 tokens owned now th e2 b2 e3 b3 e4 e5 hold b5 e6 :
  NoDup (source <$> owned) → Forall snapshot_wf owned → episode_wf e1 → 0 ≤ now →
  foldM (note_source now) (e1, tokens) (sorted_owned owned) = Ok (e2, b2) → episode_wf e2 → core e2 = core e1 →
  foldM (note_absent now) (e2, b2) (absent_progress e2 owned) = Ok (e3, b3) → episode_wf e3 →
  record_turn e3 owned now = Ok e4 → episode_wf e4 →
  record_child e4 (owned_get owned EXECUTION_CHILD) th = Ok (e5, hold, b5) → episode_wf e5 →
  replace (e5 <| idle_turn_since := 0 |>) = Ok e6 → episode_wf e6 →
  dark_of e6 now = (λ t, Z.max 0 (now - t)) <$> dark_since_after e1 owned now PROVIDER_CURSOR ∧
  turn_ended_at e6 = turn_ended_after e1 owned now.
Proof.
  intros Hnd Hown Hwf1 Hnow E2 Hwf2 Hc2 E3 Hwf3 E4 Hwf4 E5 Hwf5 E6 Hwf6.
  pose proof (sorted_owned_perm owned Hnd) as Hperm.
  destruct (note_sources_effect now (sorted_owned owned) e1 tokens e2 b2 PROVIDER_CURSOR) as (Hu2 & Hk2 & Ht2 & Hl2);
    [by rewrite Hperm|by rewrite Hperm|done..|].
  rewrite (owned_get_perm _ owned) in Hu2, Hk2 by (by rewrite Hperm || done).
  destruct (record_turn_effect _ _ _ _ Hwf3 E4) as [Ht4 Hu4].
  destruct (record_child_frame _ _ _ _ _ _ Hwf4 E5) as [Ht5 Hu5].
  destruct (clear_idle_spec e5 Hwf5) as (e6' & E6' & _ & _ & Ht6 & Hu6 & _).
  rewrite E6' in E6. injection E6 as ->.
  assert (dict_get (unavailable_since e3) (enum_value PROVIDER_CURSOR) =
          dark_since_after e1 owned now PROVIDER_CURSOR ∧
          turn_ended_at e3 = turn_ended_at e1 ∧ last_turn e3 = last_turn e1) as (Hu3 & Ht3 & Hl3).
  { rewrite absent_progress_eq in E3. unfold dark_since_after, provider_absent in *.
    rewrite (bool_decide_eq_true_2 (_ ∈ PROGRESS_SOURCES)) by (unfold PROGRESS_SOURCES; set_solver).
    assert (last_progress_source e2 = last_progress_source e1) as Hs2 by (by core_inj Hc2).
    rewrite Hs2 in E3. destruct (owned_get owned PROVIDER_CURSOR) as [s|] eqn:Eg.
    - rewrite bool_decide_eq_true_2, andb_false_r in E3 by done.
      cbn [foldM] in E3. injection E3 as <- _. done.
    - rewrite bool_decide_eq_false_2, andb_true_r in E3 by (by intros []).
      unfold dict_has in *. rewrite (Hk2 eq_refl) in E3.
      cbn [andb]. destruct (_ || _); cbn [foldM] in E3; [|by injection E3 as <- _].
      inv_ok.
      apply (note_absent_step _ _ _ _ _ _ (enum_value PROVIDER_CURSOR)) in E as (-> & -> & ->);
        [|done|apply source_value_length]. rewrite String.eqb_refl, Hu2. done. }
  split.
  - rewrite dark_of_eq by done. by rewrite Hu6, Hu5, Hu4, Hu3.
  - rewrite Ht6, Ht5, Ht4. unfold turn_ended_after. by rewrite Ht3, Hl3.
Qed.
