(* ===== verification/HeadVitalityRefine.v ===== *)
(** * One reduction as a whole: its verdict and its clocks

    [expected_verdict] assembles the decision table from the unfrozen episode
    and the owned snapshots; [reduce_owned_effect] is the lemma every property
    of the reducer is proved from. *)

From S2P Require Import Prelude PyText HeadVitality HeadVitalityEpisode HeadVitalityReduce HeadVitalityReduceFacts.
From S2P Require Import HeadVitalityVerdicts HeadVitalitySpec.

(** ** The abstract inputs of the table *)

(** A stall verdict already reached that began after the question it answers. *)
Definition onset (e : VitalityEpisode) : Z :=
  or_time (or_time (suspected_since e) (confirmed_since e)) (updated_at e).

(** The verdict of the idle-turn rule, when the rule applies. *)
Definition idle_verdict (e : VitalityEpisode) (journal : option VitalitySnapshot) (now : Z)
    (th : VitalityThresholds) (owed : Z) : option VitalityVerdict :=
  j ← journal;
  if answering j && bool_decide (turn j = T_IDLE) && negb (turn_since j =? 0) && (0 <? owed) then
    let idle := Z.max 0 (now - Z.max (Z.max (turn_since j) owed) (quiet_since e)) in
    let earned := if idle_turn_confirm_after th <=? idle then CONFIRMED_STALL
                  else if idle_turn_suspect_after th <=? idle then SUSPECTED_STALL else HEALTHY_QUIET in
    Some (if (ladder_index earned <? ladder_index (verdict e)) && (Z.max owed (quiet_since e) <=? onset e)
          then verdict e else earned)
  else None.

(** A child process holds the head active. *)
Definition child_holds (e : VitalityEpisode) (owned : list VitalitySnapshot) (th : VitalityThresholds) : bool :=
  match owned_get owned EXECUTION_CHILD with
  | Some c => answering c && bool_decide (progress c = G_ADVANCING)
              && (child_held c (child_since_of e) <? child_activity_ceiling th)
  | None => false
  end.

Definition idle_journal (adapter : string) (owned : list VitalitySnapshot) : option VitalitySnapshot :=
  if bool_decide (adapter ∈ IDLE_TURN_ADAPTERS) then owned_get owned SUPERVISOR_JOURNAL else None.

Definition observe (e : VitalityEpisode) (owned : list VitalitySnapshot) (now : Z)
    (th : VitalityThresholds) (owed : Z) (adapter : string) : Observation := {|
  ob_strong := strong_of owned;
  ob_idle := idle_verdict e (idle_journal adapter owned) now th owed;
  ob_child := child_holds e owned th;
  ob_quiet := Z.max 0 (now - quiet_reference e);
  ob_dark := (λ t, Z.max 0 (now - t)) <$> dark_since_after e owned now PROVIDER_CURSOR |}.

(** The head's turn ended after the question was put and no work followed. *)
Definition owes_answer (e : VitalityEpisode) (owned : list VitalitySnapshot) (now owed : Z) : bool :=
  (0 <? owed) && (last_progress_at e <? owed) && (owed <=? turn_ended_after e owned now).

Definition expected_verdict (e : VitalityEpisode) (owned : list VitalitySnapshot) (now : Z)
    (th : VitalityThresholds) (retained : bool) (owed : Z) (adapter : string) : VitalityVerdict :=
  let v := decision th (verdict e) retained (observe e owned now th owed adapter) in
  if bool_decide (v = HEALTHY_QUIET) && owes_answer e owned now owed then SUSPECTED_STALL else v.

(** ** The rulings *)

Lemma ladder_of_index v : ladder_index v = 0 ∨ ladder (ladder_index v) = v.
Proof. destruct v; auto. Qed.

Lemma idle_turn_verdict e journal now th owed moving idle :
  idle_turn_stall e journal now th owed moving = Ok idle →
  (λ r : ruling, r.1.1) <$> idle = idle_verdict e journal now th owed.
Proof.
  unfold idle_turn_stall, idle_verdict. destruct journal as [j|]; [|by intros [= <-]]. cbn [mbind option_bind].
  destruct (answering j); cbn [negb orb andb]; [|by intros [= <-]].
  destruct (bool_decide (turn j = T_IDLE)); cbn [negb orb andb]; [|by intros [= <-]].
  destruct (turn_since j =? 0); cbn [negb orb andb]; [by intros [= <-]|].
  destruct (Z.leb_spec owed 0), (Z.ltb_spec 0 owed); try lia; [by intros [= <-]|].
  cbv zeta. intros E. inv_ok. cbn [fmap option_fmap option_map fst]. f_equal. clear.
  fold (onset e). set (idle := Z.max 0 _). set (stood := Z.max owed (quiet_since e) <=? onset e).
  destruct (idle_turn_confirm_after th <=? idle), (idle_turn_suspect_after th <=? idle);
    cbn [ladder_index]; destruct (verdict e); cbn; destruct stood; done.
Qed.

Lemma advancing_exists (l : list VitalitySnapshot) :
  existsb is_advancing l = false ↔ max_by recency_leb (List.filter is_advancing (List.filter has_progress l)) = None.
Proof.
  rewrite max_by_None. induction l as [|s l IH]; cbn [existsb List.filter]; [done|].
  unfold has_progress at 1. fold (is_advancing s).
  destruct (is_advancing s) eqn:E; cbn [orb List.filter]; rewrite ?E; cbn [orb]; [done|].
  destruct (bool_decide _); cbn [List.filter]; rewrite ?E; done.
Qed.

Lemma progress_exists (l : list VitalitySnapshot) :
  existsb has_progress l = match List.filter has_progress l with [] => false | _ => true end.
Proof. induction l as [|s l IH]; cbn [existsb List.filter]; [done|]. by destruct (has_progress s). Qed.

Lemma max_by_max leb (f : VitalitySnapshot → Z) l s :
  (∀ a b, leb a b = true → f a ≤ f b) → (∀ a b, leb a b = false → f b ≤ f a) →
  max_by leb l = Some s → ∀ x, x ∈ l → f x ≤ f s.
Proof.
  intros H1 H2. unfold max_by. destruct l as [|y l]; [done|]. cbn [fold_left]. revert y.
  induction l as [|z l IH]; intros y E x Hx; cbn [fold_left] in E.
  - injection E as ->. apply list_elem_of_singleton in Hx as ->. done.
  - destruct (leb z y) eqn:Ez.
    + pose proof (IH y E) as H. apply elem_of_cons in Hx as [->|[->|Hx]%elem_of_cons]; [apply H; set_solver| |apply H; set_solver].
      transitivity (f y); [by apply H1|apply H; set_solver].
    + pose proof (IH z E) as H. apply elem_of_cons in Hx as [->|Hx]; [|apply H; set_solver].
      transitivity (f z); [by apply H2|apply H; set_solver].
Qed.

Lemma recency_leb_at a b : recency_leb a b = true → observed_at a ≤ observed_at b.
Proof. unfold recency_leb. intros [H|[H _]%andb_true_iff]%orb_true_iff; lia. Qed.

Lemma recency_gt_at a b : recency_leb a b = false → observed_at b ≤ observed_at a.
Proof. unfold recency_leb. intros [H _]%orb_false_iff. lia. Qed.

(** The newest strong reading that shows progress. *)
Definition newest_advance (owned : list VitalitySnapshot) (s : VitalitySnapshot) : Prop :=
  s ∈ strong_of owned ∧ progress s = G_ADVANCING ∧
  ∀ s', s' ∈ strong_of owned → progress s' = G_ADVANCING → observed_at s' ≤ observed_at s.

Lemma advancing_newest owned s :
  max_by recency_leb (List.filter is_advancing (List.filter has_progress (strong_of owned))) = Some s →
  newest_advance owned s.
Proof.
  intros E. assert (∀ x, x ∈ List.filter is_advancing (List.filter has_progress (strong_of owned)) ↔
    x ∈ strong_of owned ∧ progress x = G_ADVANCING) as Hin.
  { intros x. rewrite !list_elem_of_In, !filter_In. unfold has_progress, is_advancing.
    rewrite orb_true_iff, !bool_decide_eq_true. naive_solver. }
  pose proof (max_by_max _ observed_at _ _ recency_leb_at recency_gt_at E) as Hmax.
  apply max_by_elem in E. apply Hin in E as [H1 H2]. split_and!; [done..|].
  intros s' Hs' Hp. apply Hmax, Hin. done.
Qed.

(** ** The clocks *)

(** How a reduction moves the clocks, by its verdict. *)
Definition clock_step (e e' : VitalityEpisode) (owned : list VitalitySnapshot) (now : Z)
    (th : VitalityThresholds) (v : VitalityVerdict) : Prop :=
  match v with
  | HEALTHY_ACTIVE =>
      suspected_since e' = 0 ∧ confirmed_since e' = 0 ∧ stall_frozen_since e' = 0 ∧
      ((∃ s, newest_advance owned s ∧
          clocks e' = (started_at e, Z.max (last_progress_at e) (observed_at s), quiet_since e,
                       child_progress_at e, 0) ∧
          last_progress_source e' = enum_value (source s) ∧
          activity_epoch e' = activity_epoch e + (if last_progress_at e <? observed_at s then 1 else 0)) ∨
       (existsb is_advancing (strong_of owned) = false ∧
        ∃ c, owned_get owned EXECUTION_CHILD = Some c ∧
          child_held c (child_since_of e) < child_activity_ceiling th ∧
          clocks e' = (started_at e, last_progress_at e, quiet_since e,
                       Z.max (child_progress_at e) (observed_at c), child_since_of e) ∧
          activity_epoch e' = activity_epoch e))
  | SUSPENDED | RETAINED =>
      clocks e' = clocks e ∧ activity_epoch e' = activity_epoch e ∧
      stall_frozen_since e' = or_time (stall_frozen_since e) now ∧
      suspected_since e' = 0 ∧ confirmed_since e' = 0
  | _ =>
      clocks e' = clocks e ∧ activity_epoch e' = activity_epoch e ∧
      (stall_frozen_since e' = 0 ∨
       stall_frozen_since e' = stall_frozen_since e ∧ (v = DEAD ∨ strong_of owned = []))
  end.

Lemma clock_step_same e e' owned now th v :
  v ∉ [HEALTHY_ACTIVE; SUSPENDED; RETAINED] →
  clocks e' = clocks e → activity_epoch e' = activity_epoch e →
  stall_frozen_since e' = 0 ∨
    stall_frozen_since e' = stall_frozen_since e ∧ (v = DEAD ∨ strong_of owned = []) →
  clock_step e e' owned now th v.
Proof. intros Hv. destruct v; try done; set_solver. Qed.

Lemma quiet_verdict_plain th q : quiet_verdict th q ∉ [HEALTHY_ACTIVE; SUSPENDED; RETAINED].
Proof. unfold quiet_verdict. repeat case_match; set_solver. Qed.

Lemma idle_verdict_plain e journal now th owed v :
  idle_verdict e journal now th owed = Some v → v ∉ [HEALTHY_ACTIVE; SUSPENDED; RETAINED; DEAD; UNVERIFIABLE].
Proof.
  unfold idle_verdict. destruct journal as [j|]; [|done]. cbn [mbind option_bind].
  destruct (_ && _); [|done]. cbv zeta. intros [= <-].
  destruct (_ <=? _); [|destruct (_ <=? _)]; destruct (verdict e); cbn;
    try destruct (_ <=? _); set_solver.
Qed.

Lemma conclude_effect e owned journal idle hold now th retained owed moving v e' b :
  episode_wf e →
  idle_turn_stall e journal now th owed moving = Ok idle →
  (∀ c since, hold = Some (c, since) →
     owned_get owned EXECUTION_CHILD = Some c ∧ since = child_since_of e ∧
     child_held c since < child_activity_ceiling th) →
  conclude e owned idle hold now th retained = Ok (v, e', b) →
  v = decision th (verdict e) retained {|
        ob_strong := strong_of owned; ob_idle := idle_verdict e journal now th owed;
        ob_child := bool_decide (is_Some hold); ob_quiet := Z.max 0 (now - quiet_reference e);
        ob_dark := dark_of e now |} ∧
  clock_step e e' owned now th v ∧ bookkeeping e' = bookkeeping e.
Proof.
  intros Hwf Hidle Hhold. pose proof (idle_turn_verdict _ _ _ _ _ _ _ Hidle) as Hv.
  unfold conclude, decision. cbn [ob_strong ob_idle ob_child ob_quiet ob_dark].
  destruct (existsb (is_process P_DEAD) _).
  { intros [= <- <- _]. split_and!; [done|by apply clock_step_same; [set_solver|auto..]|done]. }
  destruct (existsb (is_process P_SUSPENDED) _).
  { intros (-> & ? & ? & ? & ? & ? & ? & ?)%arm_suspended_effect. split_and!; [done|by destruct retained|done]. }
  destruct (max_by _ _) as [s|] eqn:Emax.
  { rewrite (not_false_is_true (existsb is_advancing _)) by (rewrite advancing_exists; by rewrite Emax).
    intros (-> & ? & ? & ? & ? & ? & ? & ? & ?)%arm_advancing_effect. split_and!; [done| |done].
    cbn [clock_step]. split_and!; [done..|]. left. exists s. split; [by apply advancing_newest|]. by split_and!. }
  apply advancing_exists in Emax as Eadv. rewrite Eadv.
  destruct idle as [[[v0 e0] b0]|]; cbn [fmap option_fmap option_map fst] in Hv; rewrite <-Hv.
  { intros [= <- <- _]. apply idle_turn_effect in Hidle as (? & ? & ? & ?).
    split_and!; [done| |done]. symmetry in Hv. apply idle_verdict_plain in Hv.
    apply clock_step_same; [set_solver|auto..]. }
  destruct hold as [[c since]|].
  { rewrite bool_decide_eq_true_2 by done. destruct (Hhold c since eq_refl) as (Hg & -> & Hheld).
    intros (-> & ? & ? & ? & ? & ? & ? & ?)%arm_child_effect. split_and!; [done| |done].
    cbn [clock_step]. split_and!; [done..|]. right. split; [done|]. exists c. by split_and!. }
  rewrite bool_decide_eq_false_2 by (by intros []). rewrite progress_exists.
  destruct (List.filter has_progress _) as [|x evidence].
  - destruct (strong_of owned) as [|y strong] eqn:Estrong.
    + intros (-> & ? & ? & ? & ? & ?)%arm_blind_effect. split_and!; [by destruct (bool_decide _)| |done].
      apply clock_step_same; [destruct (bool_decide _); set_solver|done..|]. rewrite Estrong. auto.
    + intros (-> & ? & ? & ? & ? & ?)%arm_strong_effect; [|done]. split_and!; [done| |done].
      apply clock_step_same; [|auto..].
      pose proof (quiet_verdict_plain th (Z.max 0 (now - quiet_reference e))).
      destruct (bool_decide (_ = CONFIRMED_STALL)); [set_solver|]. destruct (from_option _ _ _); [|done].
      destruct (bool_decide _); set_solver.
  - intros (-> & ? & ? & ? & ? & ?)%arm_quiet_effect. split_and!; [done| |done].
    apply clock_step_same; [apply quiet_verdict_plain|auto..].
Qed.

(** Everything of an episode [clock_step] looks at. *)
Definition step_view (e : VitalityEpisode) :=
  (clocks e, suspected_since e, confirmed_since e, stall_frozen_since e, last_progress_source e, activity_epoch e).

Lemma clock_step_view e1 e2 e1' e2' owned now th v :
  step_view e1 = step_view e2 → step_view e1' = step_view e2' →
  clock_step e1 e1' owned now th v → clock_step e2 e2' owned now th v.
Proof.
  unfold step_view, clocks. intros [= ? ? ? ? ? ? ? ? ? ?] [= ? ? ? ? ? ? ? ? ? ?].
  assert (child_since_of e1 = child_since_of e2) as Hs
    by (unfold child_since_of, head_quiet_reference; congruence).
  unfold clock_step, clocks. rewrite Hs. clear Hs.
  repeat match goal with
  | H : ?f e1 = ?f e2 |- _ => rewrite !H; clear H
  | H : ?f e1' = ?f e2' |- _ => rewrite !H; clear H
  end. done.
Qed.

Lemma raise_effect v e b now owed v' e' b' :
  raise_answer_owed (v, e, b) now owed = Ok (v', e', b') →
  v' = (if bool_decide (v = HEALTHY_QUIET) &&
           ((0 <? owed) && (last_progress_at e <? owed) && (owed <=? turn_ended_at e))
        then SUSPECTED_STALL else v) ∧
  clocks e' = clocks e ∧ bookkeeping e' = bookkeeping e ∧ activity_epoch e' = activity_epoch e ∧
  stall_frozen_since e' = stall_frozen_since e ∧ (v' = v → e' = e).
Proof.
  unfold raise_answer_owed. rewrite <-!andb_assoc.
  destruct (bool_decide_reflect (v = HEALTHY_QUIET)) as [->|]; cbn [andb]; [|by intros [= <- <- _]].
  destruct (_ && _); [|by intros [= <- <- _]]. intros E. inv_replace. by split_and!.
Qed.

Lemma clock_step_raise e e' e'' owned now th v v' :
  clock_step e e' owned now th v → clocks e'' = clocks e' → activity_epoch e'' = activity_epoch e' →
  stall_frozen_since e'' = stall_frozen_since e' → (v' = v → e'' = e') →
  v' = v ∨ v = HEALTHY_QUIET ∧ v' = SUSPECTED_STALL →
  clock_step e e'' owned now th v'.
Proof.
  intros Hs Hc Ha Hf Heq [->|[-> ->]]; [by rewrite Heq|]. cbn [clock_step] in *.
  destruct Hs as (H1 & H2 & H3). rewrite Hc, Ha, Hf. split_and!; [done..|].
  destruct H3 as [?|[? [?|?]]]; [by left|done|]. right. auto.
Qed.

Lemma finish_effect v e b tokens owned now e' :
  finish (v, e, b) tokens owned now = Ok e' →
  verdict e' = v ∧ step_view e' = step_view e ∧ bookkeeping e' = bookkeeping e ∧ updated_at e' = now.
Proof. unfold finish. intros [_ ->]%replace_Ok. by split_and!. Qed.

(** What no reduction touches: the run and the recovery ladder. *)
Definition ladder_state (e : VitalityEpisode) :=
  (e_run_id e, recovery_rung e, recovery_span_started_at e, deterministic_refusals e).

(** The observation stages: total, silent on the core, with the dark clock and
    the Turn axis the arms then see, and the child's hold. *)
Lemma absorb_effect e1 tokens owned now th :
  episode_wf e1 → NoDup (source <$> owned) → Forall snapshot_wf owned → 0 ≤ now →
  ∃ e6 hold b, absorb e1 tokens owned now th = Ok (e6, hold, b) ∧ episode_wf e6 ∧ core e6 = core e1 ∧
    dark_of e6 now = (λ t, Z.max 0 (now - t)) <$> dark_since_after e1 owned now PROVIDER_CURSOR ∧
    turn_ended_at e6 = turn_ended_after e1 owned now ∧
    bool_decide (is_Some hold) = child_holds e1 owned th ∧
    (∀ c since, hold = Some (c, since) →
       owned_get owned EXECUTION_CHILD = Some c ∧ since = child_since_of e1 ∧
       child_held c since < child_activity_ceiling th).
Proof.
  intros Hwf1 Hnd Hown Hnow. pose proof Hown as Hown'. rewrite Forall_forall in Hown'.
  destruct (foldM_core (note_source now) snapshot_wf (sorted_owned owned) e1 tokens)
    as (e2 & b2 & E2 & Hwf2 & Hc2); [by intros; apply note_source_spec| |done|].
  { apply Forall_forall. intros s Hs%sorted_owned_elem. by apply Hown'. }
  destruct (foldM_core (note_absent now) (λ _, True) (absent_progress e2 owned) e2 b2)
    as (e3 & b3 & E3 & Hwf3 & Hc3); [by intros; apply note_absent_spec|by apply Forall_true|done|].
  destruct (record_turn_spec e3 owned now Hwf3 Hnow) as (e4 & E4 & Hwf4 & Hc4).
  assert (from_option snapshot_wf True (owned_get owned EXECUTION_CHILD)) as Hget.
  { destruct (owned_get _ _) as [s|] eqn:E; [|done]. apply owned_get_elem, proj1 in E. by apply Hown'. }
  destruct (record_child_spec e4 (owned_get owned EXECUTION_CHILD) th Hwf4 Hget)
    as (e5 & hold & b5 & E5 & Hwf5 & Hc5 & Hh5 & Hn5).
  destruct (clear_idle_spec e5 Hwf5) as (e6 & E6 & Hwf6 & Hc6 & _).
  destruct (observation_effect e1 tokens owned now th e2 b2 e3 b3 e4 e5 hold b5 e6) as [Hdark Hturn]; [done..|].
  assert (child_since_of e4 = child_since_of e1) as Hs.
  { assert (core e4 = core e1) as Hc by congruence. core_inj Hc.
    unfold child_since_of, head_quiet_reference. congruence. }
  rewrite Hs in Hh5, Hn5. exists e6, hold, (b3 ++ b5). split_and!; try done; [|congruence| |].
  - unfold absorb. rewrite E2. cbn [mbind res_bind]. rewrite E3. cbn [mbind res_bind].
    rewrite E4. cbn [mbind res_bind]. rewrite E5. cbn [mbind res_bind]. by rewrite E6.
  - unfold child_holds. destruct hold as [[c since]|].
    + destruct (Hh5 c since eq_refl) as (-> & Ha & Hp & -> & Hheld). rewrite bool_decide_eq_true_2 by done.
      rewrite Ha, bool_decide_eq_true_2 by done. symmetry. by apply Z.ltb_lt.
    + rewrite bool_decide_eq_false_2 by (by intros []). specialize (Hn5 eq_refl). unfold child_advancing in Hn5.
      destruct (owned_get owned EXECUTION_CHILD) as [c|]; [|done]. destruct (answering c && _); [|done].
      destruct Hn5 as (c' & [= <-] & Hle); [done|]. symmetry. by apply Z.ltb_ge.
  - intros c since Hh. destruct (Hh5 c since Hh) as (? & _ & _ & ? & ?). by split_and!.
Qed.

(** The core fixes every abstract input of the table but the dark clock and the Turn axis. *)
Lemma core_inputs e e1 :
  core e = core e1 →
  step_view e = step_view e1 ∧ verdict e = verdict e1 ∧ ladder_state e = ladder_state e1 ∧
  quiet_reference e = quiet_reference e1 ∧ child_since_of e = child_since_of e1 ∧
  ∀ journal now th owed, idle_verdict e journal now th owed = idle_verdict e1 journal now th owed.
Proof.
  intros Hc. core_inj Hc. unfold step_view, clocks, ladder_state, quiet_reference, child_since_of,
    head_quiet_reference, idle_verdict, onset.
  repeat match goal with H : ?f e = ?f e1 |- _ => rewrite H; clear H end. by split_and!.
Qed.

(** One reduction: total, with the expected verdict and clocks. *)
Lemma reduce_owned_effect e0 tokens owned now th retained owed adapter :
  thresholds_wf th → episode_wf e0 → NoDup (source <$> owned) → Forall snapshot_wf owned →
  0 ≤ now → 0 ≤ owed →
  ∃ e1 e',
    unfreeze_if_resumed e0 owned now = Ok e1 ∧ episode_wf e1 ∧ verdict e1 = verdict e0 ∧
    reduce_owned e0 tokens owned now th retained owed adapter = Ok e' ∧ episode_wf e' ∧
    ladder_state e' = ladder_state e0 ∧ updated_at e' = now ∧
    verdict e' = expected_verdict e1 owned now th retained owed adapter ∧
    clock_step e1 e' owned now th (verdict e').
Proof.
  intros Hth Hwf0 Hnd Hown Hnow Howed.
  destruct (unfreeze_spec e0 owned now Hwf0 Hnow) as (e1 & E1 & Hwf1 & Hrun1 & Hv1 & Hl1).
  destruct (absorb_effect e1 tokens owned now th Hwf1 Hnd Hown Hnow)
    as (e6 & hold & b6 & E6 & Hwf6 & Hc & Hdark & Hturn & Hhold & Hh).
  destruct (core_inputs e6 e1 Hc) as (Hview & Hv6 & Hlad & Hq & Hcs & Hidle6).
  assert (∀ src, from_option snapshot_wf True (owned_get owned src)) as Hget.
  { rewrite Forall_forall in Hown. intros src. destruct (owned_get owned src) as [s|] eqn:E; [|done].
    apply owned_get_elem, proj1 in E. by apply Hown. }
  destruct (idle_turn_stall_spec e6 (idle_journal adapter owned) now th owed
    (child_advancing (owned_get owned EXECUTION_CHILD)) Hwf6 Hth Hnow Howed)
    as (idle & E7 & Hidle); [unfold idle_journal; destruct (bool_decide (adapter ∈ _)); [apply Hget|done]|].
  destruct (conclude_spec th Hth e6 owned idle hold now retained Hwf6 Hnow Hown) as ([[v e7] b7] & E8 & Hr).
  { destruct idle as [i|]; [|done]. cbn in *. unfold good_ruling. naive_solver. }
  { intros c since Hhs. destruct (Hh c since Hhs) as (Hg & -> & _). split.
    - specialize (Hget EXECUTION_CHILD). by rewrite Hg in Hget.
    - pose proof (stamps_nonneg _ (ewf_valid _ Hwf1)).
      apply or_time_nonneg; [lia|]. apply head_quiet_reference_nonneg, Hwf1. }
  destruct (raise_answer_owed_spec (v, e7, b7) now owed _ Hr) as ([[v' e8] b8] & E9 & Hr').
  destruct (finish_spec (v', e8, b8) (b6 ++ b8 ++ advisory_tokens owned) owned now _ Hr' Hnow)
    as (e' & E10 & Hwf' & _).
  rewrite <-Hcs in Hh.
  destruct (conclude_effect _ _ _ _ _ _ _ _ _ _ _ _ _ Hwf6 E7 Hh E8) as (Hv & Hstep & Hbk7).
  destruct (raise_effect _ _ _ _ _ _ _ _ E9) as (Hv' & Hc8 & Hbk8 & Ha8 & Hf8 & Heq8).
  destruct (finish_effect _ _ _ _ _ _ _ E10) as (Hv'' & Hview' & Hbk' & Hupd).
  exists e1, e'. split_and!; try done.
  - unfold reduce_owned. rewrite E1. cbn [mbind res_bind]. rewrite E6. cbn [mbind res_bind].
    fold (idle_journal adapter owned). rewrite E7. cbn [mbind res_bind].
    rewrite E8. cbn [mbind res_bind]. rewrite E9. cbn [mbind res_bind]. exact E10.
  - unfold ladder_state, bookkeeping in *. simplify_eq. congruence.
  - assert (v = decision th (verdict e1) retained (observe e1 owned now th owed adapter)) as Hdec.
    { rewrite Hv. unfold observe. by rewrite Hidle6, Hhold, Hq, Hdark, Hv6. }
    rewrite Hv'', Hv'. unfold expected_verdict, owes_answer. rewrite <-Hdec.
    destruct (bool_decide_reflect (v = HEALTHY_QUIET)) as [->|]; [|done]. cbn [clock_step] in Hstep.
    replace (last_progress_at e7) with (last_progress_at e1)
      by (destruct Hstep as [Hs _]; unfold clocks, step_view in *; simplify_eq; congruence).
    replace (turn_ended_at e7) with (turn_ended_after e1 owned now)
      by (unfold bookkeeping in Hbk7; simplify_eq; congruence). done.
  - rewrite Hv''. eapply clock_step_view; [exact Hview|symmetry; exact Hview'|].
    eapply clock_step_raise; try done. rewrite Hv'.
    destruct (bool_decide_reflect (v = HEALTHY_QUIET)); cbn [andb]; [|by left]. destruct (_ && _); auto.
Qed.

(** ** The whole reducer *)

(** The run one reduction is about, and its snapshots. *)
Definition run_target (previous : option VitalityEpisode) (snapshots : list VitalitySnapshot) : string :=
  (resolve_run_id previous snapshots).1.

Definition owned_of (previous : option VitalityEpisode) (snapshots : list VitalitySnapshot) :
    list VitalitySnapshot :=
  latest_per_source (List.filter (λ s, String.eqb (run_id s) (run_target previous snapshots)) snapshots).

(** The episode the reduction starts from. *)
Definition base_episode (previous : option VitalityEpisode) (target : string) (now : Z) : VitalityEpisode :=
  match previous with
  | Some p => if String.eqb (e_run_id p) target then p else blank_episode target now
  | None => blank_episode target now
  end.

(** The inputs every caller passes: a constructed episode or none, at least one
    constructed snapshot, and clocks that are not negative. *)
Record tick_input (previous : option VitalityEpisode) (snapshots : list VitalitySnapshot)
    (now : Z) (th : VitalityThresholds) (owed : Z) : Prop := {
  ti_previous : from_option episode_wf True previous;
  ti_some : snapshots ≠ [];
  ti_snapshots : Forall snapshot_wf snapshots;
  ti_now : 0 ≤ now;
  ti_thresholds : thresholds_wf th;
  ti_owed : 0 ≤ owed;
}.

Lemma blank_episode_wf rid now :
  nonempty (str_strip rid) = true → 0 ≤ now → episode_wf (blank_episode rid now).
Proof.
  intros Hr Hn. split; try (cbn; lia); try (split; [apply NoDup_nil_2|done]); try (split; cbn; [lia|done]).
  split; cbn; try done; [|constructor|by left]. unfold stamps. repeat constructor; cbn; lia.
Qed.

Lemma owned_of_wf previous snapshots :
  Forall snapshot_wf snapshots →
  Forall snapshot_wf (owned_of previous snapshots) ∧ NoDup (source <$> owned_of previous snapshots).
Proof.
  intros Hs. split; [|apply latest_NoDup]. rewrite Forall_forall in *. intros s Hin%latest_elem.
  apply Hs. by apply list_elem_of_In, filter_In, proj1, list_elem_of_In in Hin.
Qed.

Lemma run_target_elem previous snapshots :
  snapshots ≠ [] → run_target previous snapshots ∈ run_id <$> snapshots.
Proof.
  intros Hne. unfold run_target. destruct (resolve_run_id previous snapshots) as [t f] eqn:E.
  by eapply resolve_target_elem.
Qed.

(** The previous run is kept while the batch still mentions it. *)
Lemma run_target_known p snapshots :
  e_run_id p ∈ run_id <$> snapshots → run_target (Some p) snapshots = e_run_id p.
Proof.
  intros Hin. unfold run_target, resolve_run_id. cbn [fst].
  by rewrite bool_decide_eq_true_2 by (unfold sort_strings; by rewrite merge_sort_Permutation, elem_of_remove_dups).
Qed.

Lemma base_episode_wf previous snapshots now th owed :
  tick_input previous snapshots now th owed →
  episode_wf (base_episode previous (run_target previous snapshots) now) ∧
  e_run_id (base_episode previous (run_target previous snapshots) now) = run_target previous snapshots.
Proof.
  intros [Hp Hne Hs Hn _ _].
  assert (nonempty (str_strip (run_target previous snapshots)) = true) as Hrun.
  { pose proof (run_target_elem previous snapshots Hne) as Hin.
    apply list_elem_of_fmap in Hin as (s & -> & Hin). rewrite Forall_forall in Hs. by apply swf_run, Hs. }
  unfold base_episode. destruct previous as [p|]; [|by split; [apply blank_episode_wf|]].
  destruct (String.eqb_spec (e_run_id p) (run_target (Some p) snapshots)); [done|].
  by split; [apply blank_episode_wf|].
Qed.

Lemma start_episode_eq previous snapshots now th owed :
  tick_input previous snapshots now th owed →
  start_episode previous (run_target previous snapshots) now =
  Ok (base_episode previous (run_target previous snapshots) now).
Proof.
  intros Hin. destruct (base_episode_wf _ _ _ _ _ Hin) as [Hwf _]. unfold start_episode, base_episode in *.
  destruct previous as [p|]; [|by apply replace_id]. destruct (String.eqb _ _); [done|by apply replace_id].
Qed.

Lemma reduce_vitality_eq previous snapshots now th retained owed adapter :
  tick_input previous snapshots now th owed →
  ∃ tokens,
    reduce_vitality previous snapshots (time_val now) th retained (time_val owed) adapter =
    reduce_owned (base_episode previous (run_target previous snapshots) now) tokens
      (owned_of previous snapshots) now th retained owed adapter.
Proof.
  intros Hin. pose proof (start_episode_eq _ _ _ _ _ Hin) as Hst. destruct Hin as [_ Hne _ _ _ Howed].
  unfold reduce_vitality, owned_of. unfold finite_number, time_val. cbn [is_number py_float fmap res_fmap finite].
  cbn [mbind res_bind or_raise option_bind]. rewrite (proj2 (Z.ltb_ge _ _)) by done.
  cbn [mbind res_bind or_raise]. destruct snapshots as [|s snapshots]; [done|].
  destruct (resolve_run_id previous (s :: snapshots)) as [t f] eqn:E. unfold run_target in *. rewrite E in *.
  cbn [fst] in *. rewrite Hst. cbn [mbind res_bind]. by eexists.
Qed.

(** The lemma behind the properties of the reducer. *)
Lemma reduce_effect previous snapshots now th retained owed adapter :
  tick_input previous snapshots now th owed →
  let target := run_target previous snapshots in
  let owned := owned_of previous snapshots in
  let e0 := base_episode previous target now in
  ∃ e1 e',
    unfreeze_if_resumed e0 owned now = Ok e1 ∧ episode_wf e1 ∧ verdict e1 = verdict e0 ∧
    reduce_vitality previous snapshots (time_val now) th retained (time_val owed) adapter = Ok e' ∧
    episode_wf e' ∧ ladder_state e' = ladder_state e0 ∧ updated_at e' = now ∧
    verdict e' = expected_verdict e1 owned now th retained owed adapter ∧
    clock_step e1 e' owned now th (verdict e').
Proof.
  intros Hin target owned e0. destruct (base_episode_wf _ _ _ _ _ Hin) as [Hwf _].
  destruct (reduce_vitality_eq _ _ _ _ retained _ adapter Hin) as [tokens ->].
  destruct (owned_of_wf previous snapshots) as [Hown Hnd]; [apply Hin|].
  apply reduce_owned_effect; (done || apply Hin).
Qed.
