(* ===== verification/HeadVitalityProperties.v ===== *)
(** * Properties of one vitality reduction

    What [reduce_vitality] concludes from one tick's snapshots, for every
    previous episode and every batch: totality, the decision table, the
    precedence of the process verdicts, advancement, child activity, silence
    and the operator's outlook. *)

From S2P Require Import Prelude PyText HeadVitality HeadVitalityEpisode HeadVitalityReduce HeadVitalityReduceFacts.
From S2P Require Import HeadVitalityVerdicts HeadVitalitySpec HeadVitalityRefine.

(** ** Reading the table *)

Lemma existsb_elem {A} (f : A → bool) (l : list A) : existsb f l = true ↔ ∃ x, x ∈ l ∧ f x = true.
Proof. rewrite existsb_exists. setoid_rewrite list_elem_of_In. done. Qed.

Lemma existsb_none {A} (f : A → bool) (l : list A) : existsb f l = false ↔ ∀ x, x ∈ l → f x = false.
Proof.
  rewrite <-not_true_iff_false, existsb_elem. split.
  - intros H x Hx. destruct (f x) eqn:E; [|done]. destruct H. eauto.
  - intros H (x & Hx & E). by rewrite H in E.
Qed.

Lemma expected_eq e owned now th retained owed adapter v :
  v ≠ HEALTHY_QUIET → v ≠ SUSPECTED_STALL →
  expected_verdict e owned now th retained owed adapter = v ↔
  decision th (verdict e) retained (observe e owned now th owed adapter) = v.
Proof.
  intros H1 H2. unfold expected_verdict. set (d := decision _ _ _ _).
  destruct (bool_decide_reflect (d = HEALTHY_QUIET)) as [E|]; [|done]. rewrite E.
  destruct (owes_answer _ _ _ _); cbn [andb]; split; congruence.
Qed.

(** No rung but the process arms yields a process verdict. *)
Lemma decision_tail th prev retained o :
  existsb (is_process P_DEAD) (ob_strong o) = false →
  existsb (is_process P_SUSPENDED) (ob_strong o) = false →
  (∀ v, ob_idle o = Some v → v ∉ [HEALTHY_ACTIVE; SUSPENDED; RETAINED; DEAD; UNVERIFIABLE]) →
  decision th prev retained o ∉ [DEAD; SUSPENDED; RETAINED].
Proof.
  intros Hd Hs Hi. unfold decision. rewrite Hd, Hs.
  destruct (existsb is_advancing _); [set_solver|]. destruct (ob_idle o) as [v|]; [specialize (Hi v eq_refl); set_solver|].
  pose proof (quiet_verdict_plain th (ob_quiet o)) as Hq.
  assert (quiet_verdict th (ob_quiet o) ≠ DEAD) by (unfold quiet_verdict; repeat case_match; done).
  destruct (ob_child o); [set_solver|]. destruct (existsb has_progress _); [set_solver|].
  destruct (bool_decide _); [set_solver|]. destruct (ob_strong o); [set_solver|].
  destruct (from_option _ _ _); [|set_solver]. destruct (bool_decide _); set_solver.
Qed.

(** A strong reading of the run's process state. *)
Definition heard (owned : list VitalitySnapshot) (p : ProcessState) : Prop :=
  ∃ s, s ∈ strong_of owned ∧ process s = p.

Lemma heard_true owned p : existsb (is_process p) (strong_of owned) = true ↔ heard owned p.
Proof. rewrite existsb_elem. unfold heard, is_process. by setoid_rewrite bool_decide_eq_true. Qed.

Lemma heard_false owned p : existsb (is_process p) (strong_of owned) = false ↔ ¬ heard owned p.
Proof. by rewrite <-heard_true, not_true_iff_false. Qed.

(** Without a suspended reading the verdict is neither SUSPENDED nor RETAINED. *)
Lemma expected_unparked e owned now th retained owed adapter :
  ¬ heard owned P_SUSPENDED →
  expected_verdict e owned now th retained owed adapter ≠ SUSPENDED ∧
  expected_verdict e owned now th retained owed adapter ≠ RETAINED.
Proof.
  intros Hs%heard_false. set (o := observe e owned now th owed adapter).
  assert (decision th (verdict e) retained o ∉ [SUSPENDED; RETAINED]) as Hn.
  { destruct (existsb (is_process P_DEAD) (ob_strong o)) eqn:Hd.
    - unfold decision. rewrite Hd. set_solver.
    - pose proof (decision_tail th (verdict e) retained o Hd Hs) as Ht.
      enough (decision th (verdict e) retained o ∉ [DEAD; SUSPENDED; RETAINED]) by set_solver.
      apply Ht. intros v Hv. unfold o, observe in Hv. cbn [ob_idle] in Hv. by eapply idle_verdict_plain. }
  rewrite !not_elem_of_cons in Hn. split; intros E; apply expected_eq in E; intuition done.
Qed.

(** A strong reading of advancement. *)
Definition advanced (owned : list VitalitySnapshot) : Prop :=
  ∃ s, s ∈ strong_of owned ∧ progress s = G_ADVANCING.

Lemma advanced_true owned : existsb is_advancing (strong_of owned) = true ↔ advanced owned.
Proof. rewrite existsb_elem. unfold advanced, is_advancing. by setoid_rewrite bool_decide_eq_true. Qed.

Lemma advanced_false owned : existsb is_advancing (strong_of owned) = false ↔ ¬ advanced owned.
Proof. by rewrite <-advanced_true, not_true_iff_false. Qed.

(** ** Totality and the table *)

(** C36. On the inputs its callers pass, a reduction always returns: a
    well-formed episode of one of the runs in the batch (the previous run when
    it is there), stamped with this tick, with the recovery ladder untouched. *)
Theorem reduce_total previous snapshots now th retained owed adapter :
  tick_input previous snapshots now th owed →
  ∃ e', reduce_vitality previous snapshots (time_val now) th retained (time_val owed) adapter = Ok e' ∧
    episode_wf e' ∧ updated_at e' = now ∧ e_run_id e' ∈ run_id <$> snapshots ∧
    ∀ p, previous = Some p → e_run_id p ∈ run_id <$> snapshots → ladder_state e' = ladder_state p.
Proof.
  intros Hin. destruct (reduce_effect _ _ _ _ retained _ adapter Hin)
    as (e1 & e' & _ & _ & _ & E & Hwf & Hlad & Hup & _).
  destruct (base_episode_wf _ _ _ _ _ Hin) as [_ Hrun]. exists e'. split_and!; try done.
  - replace (e_run_id e') with (run_target previous snapshots) by (unfold ladder_state in Hlad; congruence).
    apply run_target_elem, Hin.
  - intros p -> Hp. rewrite Hlad. unfold base_episode. by rewrite run_target_known, String.eqb_refl.
Qed.

(** The reducer refines the decision table: its verdict is the table's
    entry for the strong readings, the idle-turn ruling, the child hold, the
    quiet measured on the unfrozen clocks and the age of the provider's
    darkness, raised to a suspicion when an owed answer outlived the turn. *)
Theorem reduce_refines_table previous snapshots now th retained owed adapter :
  tick_input previous snapshots now th owed →
  ∃ e1 e',
    unfreeze_if_resumed (base_episode previous (run_target previous snapshots) now)
      (owned_of previous snapshots) now = Ok e1 ∧
    reduce_vitality previous snapshots (time_val now) th retained (time_val owed) adapter = Ok e' ∧
    verdict e' = expected_verdict e1 (owned_of previous snapshots) now th retained owed adapter.
Proof.
  intros Hin. destruct (reduce_effect _ _ _ _ retained _ adapter Hin)
    as (e1 & e' & E1 & _ & _ & E & _ & _ & _ & Hv & _). by exists e1, e'.
Qed.

(** A strong reading that the head made no progress. *)
Definition still (owned : list VitalitySnapshot) : Prop :=
  ∃ s, s ∈ strong_of owned ∧ progress s = G_QUIET.

Lemma answers_progress owned : ¬ advanced owned → existsb has_progress (strong_of owned) = true ↔ still owned.
Proof.
  intros Hadv. rewrite existsb_elem. split; intros (s & Hs & Hp); exists s; (split; [done|]); unfold has_progress in *.
  - apply orb_true_iff in Hp as [Hp|Hp]; apply bool_decide_eq_true in Hp; [|done]. destruct Hadv. by exists s.
  - rewrite Hp. by apply orb_true_iff; right; apply bool_decide_eq_true.
Qed.

(** Neither a child that answers nor an idle turn that was read. *)
Definition alone (owned : list VitalitySnapshot) : Prop :=
  ∀ s, s ∈ owned → availability s = AVAILABLE →
    source s ≠ EXECUTION_CHILD ∧ (source s = SUPERVISOR_JOURNAL → turn s ≠ T_IDLE).

Lemma alone_observed e owned now th owed adapter : alone owned →
  ob_idle (observe e owned now th owed adapter) = None ∧ ob_child (observe e owned now th owed adapter) = false.
Proof.
  intros Ha. unfold observe. cbn [ob_idle ob_child]. split.
  - unfold idle_journal, idle_verdict. destruct (bool_decide _); [|done].
    destruct (owned_get owned SUPERVISOR_JOURNAL) as [j|] eqn:Ej; [|done]. cbn [mbind option_bind].
    apply owned_get_elem in Ej as [Hj Hsrc]. unfold answering. destruct (bool_decide_reflect (availability j = AVAILABLE)) as [Hav|]; [|done].
    rewrite (bool_decide_eq_false_2 (turn j = T_IDLE)); [done|]. by apply (Ha j).
  - unfold child_holds. destruct (owned_get owned EXECUTION_CHILD) as [c|] eqn:Ec; [|done].
    apply owned_get_elem in Ec as [Hc Hsrc]. unfold answering. destruct (bool_decide_reflect (availability c = AVAILABLE)) as [Hav|]; [|done].
    by destruct (Ha c Hc Hav).
Qed.

Lemma confirmed_decision th retained o : ob_idle o = None → ob_child o = false →
  decision th CONFIRMED_STALL retained o = CONFIRMED_STALL ↔
  existsb (is_process P_DEAD) (ob_strong o) = false ∧ existsb (is_process P_SUSPENDED) (ob_strong o) = false
  ∧ existsb is_advancing (ob_strong o) = false
  ∧ (existsb has_progress (ob_strong o) = true → suspect_after th + confirm_after th ≤ ob_quiet o).
Proof.
  intros Hi Hc. unfold decision. rewrite Hi, Hc, bool_decide_eq_true_2 by done.
  destruct (existsb (is_process P_DEAD) _); [naive_solver|]. destruct (existsb (is_process P_SUSPENDED) _); [destruct retained; naive_solver|].
  destruct (existsb is_advancing _); [naive_solver|]. destruct (existsb has_progress _); [|naive_solver].
  unfold quiet_verdict. destruct (Z.leb_spec (suspect_after th + confirm_after th) (ob_quiet o)); [naive_solver|].
  destruct (_ <=? _); naive_solver lia.
Qed.

(** C4. What ends a confirmed stall, and nothing else does. For a head whose
    stall clocks run, of the same run, with no child answering and no idle turn
    read: a reduction leaves a confirmed stall confirmed exactly when no strong
    reading says dead, suspended or advancing and, if some strong reading answers
    that there was no progress, the head has been quiet for both thresholds. So a
    head whose progress sources are all dark stays confirmed for however long. The
    last condition is where the code departs from its own words, that only
    progress, suspension, death or another identity ends a confirmation: one earned
    by an idle turn or in the dark is dropped when a source answers quiet too
    early. *)
Theorem confirmation_ends_exactly p snapshots now th retained owed adapter :
  tick_input (Some p) snapshots now th owed → verdict p = CONFIRMED_STALL → stall_frozen_since p = 0 →
  e_run_id p ∈ run_id <$> snapshots →
  let owned := owned_of (Some p) snapshots in
  alone owned →
  ∃ e', reduce_vitality (Some p) snapshots (time_val now) th retained (time_val owed) adapter = Ok e' ∧
    (verdict e' = CONFIRMED_STALL ↔
      ¬ heard owned P_DEAD ∧ ¬ heard owned P_SUSPENDED ∧ ¬ advanced owned
      ∧ (still owned → suspect_after th + confirm_after th ≤ Z.max 0 (now - quiet_reference p))).
Proof.
  intros Hin Hv Hf Hrun owned Ha. destruct (reduce_effect _ _ _ _ retained _ adapter Hin)
    as (e1 & e' & E1 & _ & _ & E & _ & _ & _ & Hverdict & _).
  assert (e1 = p) as ->.
  { unfold base_episode in E1. rewrite run_target_known, String.eqb_refl in E1 by done.
    unfold unfreeze_if_resumed in E1. rewrite Hf in E1. by injection E1. }
  exists e'. split; [exact E|]. rewrite Hverdict, expected_eq, Hv by done. fold owned.
  destruct (alone_observed p owned now th owed adapter Ha) as [Hi Hc].
  rewrite confirmed_decision by done. cbn [observe ob_strong ob_quiet]. rewrite !heard_false, advanced_false.
  split; intros (H1 & H2 & H3 & H4); (split_and!; [done..|]); intros Hs; by apply H4, answers_progress.
Qed.

(** Death and suspension are concluded exactly from a strong reading that
    says so, and outrank every other sign: DEAD when some strong source of the
    run says dead, otherwise SUSPENDED (RETAINED under the dispatcher's own
    retention) when one says suspended, and never without such a reading. *)
Theorem process_verdicts_exact previous snapshots now th retained owed adapter e' :
  tick_input previous snapshots now th owed →
  reduce_vitality previous snapshots (time_val now) th retained (time_val owed) adapter = Ok e' →
  let owned := owned_of previous snapshots in
  (verdict e' = DEAD ↔ heard owned P_DEAD) ∧
  (verdict e' = SUSPENDED ↔ ¬ heard owned P_DEAD ∧ heard owned P_SUSPENDED ∧ retained = false) ∧
  (verdict e' = RETAINED ↔ ¬ heard owned P_DEAD ∧ heard owned P_SUSPENDED ∧ retained = true).
Proof.
  intros Hin E owned. destruct (reduce_effect _ _ _ _ retained _ adapter Hin)
    as (e1 & e2 & _ & _ & _ & E2 & _ & _ & _ & Hv & _). rewrite E in E2. injection E2 as <-.
  fold owned in Hv. rewrite Hv, !expected_eq by done. rewrite <-!heard_true, !not_true_iff_false.
  set (o := observe e1 owned now th owed adapter).
  pose proof (decision_tail th (verdict e1) retained o) as Htail.
  change (strong_of owned) with (ob_strong o). unfold decision in *.
  destruct (existsb (is_process P_DEAD) (ob_strong o)); [intuition congruence|].
  destruct (existsb (is_process P_SUSPENDED) (ob_strong o)); [destruct retained; intuition congruence|].
  specialize (Htail eq_refl eq_refl). set (v := if existsb is_advancing _ then _ else _) in *.
  assert (v ∉ [DEAD; SUSPENDED; RETAINED]) as Hn.
  { apply Htail. intros w Hw. unfold o, observe in Hw. cbn in Hw. by eapply idle_verdict_plain. }
  rewrite !not_elem_of_cons in Hn. intuition congruence.
Qed.

(** Advancement ends a stall at once: with no dead or suspended reading,
    one strong advancing source makes the head HEALTHY_ACTIVE whatever the
    episode said before, clears both stall stamps and any freeze, moves the
    progress clock to the newest such reading, and counts a new activity epoch
    exactly when that reading is newer than the last. *)
Theorem advance_ends_stall previous snapshots now th retained owed adapter e1 e' s :
  tick_input previous snapshots now th owed →
  let owned := owned_of previous snapshots in
  ¬ heard owned P_DEAD → ¬ heard owned P_SUSPENDED → newest_advance owned s →
  unfreeze_if_resumed (base_episode previous (run_target previous snapshots) now) owned now = Ok e1 →
  reduce_vitality previous snapshots (time_val now) th retained (time_val owed) adapter = Ok e' →
  verdict e' = HEALTHY_ACTIVE ∧ suspected_since e' = 0 ∧ confirmed_since e' = 0 ∧
  stall_frozen_since e' = 0 ∧ last_progress_at e' = Z.max (last_progress_at e1) (observed_at s) ∧
  activity_epoch e' = activity_epoch e1 + (if last_progress_at e1 <? observed_at s then 1 else 0).
Proof.
  intros Hin owned Hd Hs Hnew E1 E. destruct (reduce_effect _ _ _ _ retained _ adapter Hin)
    as (e1' & e2 & E1' & _ & _ & E2 & _ & _ & _ & Hv & Hstep).
  rewrite E in E2. injection E2 as <-. fold owned in Hv, Hstep, E1'. rewrite E1 in E1'. injection E1' as <-.
  assert (existsb is_advancing (strong_of owned) = true) as Hadv.
  { apply advanced_true. exists s. split; apply Hnew. }
  assert (verdict e' = HEALTHY_ACTIVE) as Ha.
  { rewrite Hv. apply expected_eq; [done..|]. unfold decision. cbn [ob_strong observe].
    by rewrite (proj2 (heard_false _ _) Hd), (proj2 (heard_false _ _) Hs), Hadv. }
  rewrite Ha in Hstep. destruct Hstep as (? & ? & ? & [(s' & Hnew' & Hc & _ & Hep)|[Hno _]]); [|congruence].
  assert (observed_at s' = observed_at s) as Hobs.
  { destruct Hnew as (N1 & N2 & N3), Hnew' as (N1' & N2' & N3').
    pose proof (N3 s' N1' N2'). pose proof (N3' s N1 N2). lia. }
  rewrite Hobs in Hc, Hep. unfold clocks in Hc. injection Hc as ? ? ? ? ?. by split_and!.
Qed.

(** ** Silence *)

Lemma idle_verdict_not_owed e journal now th : idle_verdict e journal now th 0 = None.
Proof. unfold idle_verdict. destruct journal; [|done]. cbn. by rewrite andb_false_r. Qed.

Lemma expected_not_owed e owned now th retained adapter :
  expected_verdict e owned now th retained 0 adapter =
  decision th (verdict e) retained (observe e owned now th 0 adapter).
Proof. unfold expected_verdict, owes_answer. cbn [Z.ltb Z.compare andb]. by rewrite andb_false_r. Qed.

Lemma child_holds_elem e owned th :
  child_holds e owned th = true → ∃ c, owned_get owned EXECUTION_CHILD = Some c ∧ progress c = G_ADVANCING.
Proof.
  unfold child_holds. destruct (owned_get _ _) as [c|]; [|done].
  intros [[_ Hp%bool_decide_eq_true]%andb_true_iff _]%andb_true_iff. eauto.
Qed.

Lemma base_confirmed previous target now :
  verdict (base_episode previous target now) = CONFIRMED_STALL →
  ∃ p, previous = Some p ∧ verdict p = CONFIRMED_STALL.
Proof.
  unfold base_episode. destruct previous as [p|]; [|done]. destruct (String.eqb _ _); [eauto|done].
Qed.

(** A tick in which the head shows no sign of work: alive by some strong
    source, nothing dead, suspended or advancing, and no child holding it. *)
Record silent (e1 : VitalityEpisode) (owned : list VitalitySnapshot) (th : VitalityThresholds) : Prop := {
  sl_alive : strong_of owned ≠ [];
  sl_dead : ¬ heard owned P_DEAD;
  sl_suspended : ¬ heard owned P_SUSPENDED;
  sl_advance : ¬ advanced owned;
  sl_child : child_holds e1 owned th = false;
}.

Lemma decision_silent e1 owned now th retained adapter :
  silent e1 owned th →
  decision th (verdict e1) retained (observe e1 owned now th 0 adapter) =
  (let quiet := Z.max 0 (now - quiet_reference e1) in
   if existsb has_progress (strong_of owned) then quiet_verdict th quiet
   else if bool_decide (verdict e1 = CONFIRMED_STALL) then CONFIRMED_STALL
   else if from_option (λ t, Z.max 0 (now - t) <? dark_ceiling th) false
             (dark_since_after e1 owned now PROVIDER_CURSOR)
   then (if bool_decide (verdict e1 = SUSPECTED_STALL) then SUSPECTED_STALL else HEALTHY_QUIET)
   else quiet_verdict th quiet).
Proof.
  intros [Ha Hd%heard_false Hs%heard_false Hadv%advanced_false Hc]. unfold decision, observe.
  cbn [ob_strong ob_idle ob_child ob_quiet ob_dark].
  rewrite Hd, Hs, Hadv, idle_verdict_not_owed, Hc. destruct (existsb has_progress _); [done|].
  destruct (bool_decide _); [done|]. destruct (strong_of owned); [done|].
  by destruct (dark_since_after _ _ _ _).
Qed.

(** C35. A silent head is confirmed stalled, and no later than it should be:
    once the quiet reaches both rungs, and the provider is answering, was
    never heard, or has been dark for the whole dark ceiling, the reduction
    returns, and its verdict is CONFIRMED_STALL. *)
Theorem silent_head_confirmed previous snapshots now th retained adapter e1 :
  tick_input previous snapshots now th 0 →
  let owned := owned_of previous snapshots in
  unfreeze_if_resumed (base_episode previous (run_target previous snapshots) now) owned now = Ok e1 →
  silent e1 owned th →
  quiet_reference e1 + suspect_after th + confirm_after th ≤ now →
  (∀ t, dark_since_after e1 owned now PROVIDER_CURSOR = Some t → t + dark_ceiling th ≤ now) →
  ∃ e', reduce_vitality previous snapshots (time_val now) th retained (time_val 0) adapter = Ok e' ∧
    verdict e' = CONFIRMED_STALL.
Proof.
  intros Hin owned E1 Hsil Hq Hdark. destruct (reduce_effect _ _ _ _ retained _ adapter Hin)
    as (e1' & e2 & E1' & _ & _ & E2 & _ & _ & _ & Hv & _). exists e2. split; [exact E2|].
  fold owned in Hv, E1'. rewrite E1 in E1'. injection E1' as <-.
  rewrite Hv, expected_not_owed, decision_silent by done. cbv zeta.
  assert (quiet_verdict th (Z.max 0 (now - quiet_reference e1)) = CONFIRMED_STALL) as ->.
  { unfold quiet_verdict. by rewrite (proj2 (Z.leb_le _ _)) by lia. }
  destruct (existsb has_progress _); [done|]. destruct (bool_decide (_ = CONFIRMED_STALL)); [done|].
  destruct (dark_since_after e1 owned now PROVIDER_CURSOR) as [t|]; [|done]. cbn [from_option].
  specialize (Hdark t eq_refl). by rewrite (proj2 (Z.ltb_ge _ _)) by lia.
Qed.

(** A head nobody can see is never newly condemned: when no strong source
    answers, the verdict is UNVERIFIABLE, or the CONFIRMED_STALL the episode
    already carried, or HEALTHY_ACTIVE on a working child; in particular never
    DEAD, SUSPENDED or a fresh stall. *)
Theorem blind_tick_concludes_nothing previous snapshots now th retained owed adapter e' :
  tick_input previous snapshots now th owed →
  let owned := owned_of previous snapshots in
  strong_of owned = [] →
  reduce_vitality previous snapshots (time_val now) th retained (time_val owed) adapter = Ok e' →
  verdict e' = UNVERIFIABLE ∨
  (verdict e' = HEALTHY_ACTIVE ∧ ∃ c, owned_get owned EXECUTION_CHILD = Some c ∧ progress c = G_ADVANCING) ∨
  (verdict e' = CONFIRMED_STALL ∧ ∃ p, previous = Some p ∧ verdict p = CONFIRMED_STALL).
Proof.
  intros Hin owned Hblind E. destruct (reduce_effect _ _ _ _ retained _ adapter Hin)
    as (e1 & e2 & E1 & _ & Hv1 & E2 & _ & _ & _ & Hv & _).
  rewrite E in E2. injection E2 as <-. fold owned in Hv, E1.
  assert (idle_verdict e1 (idle_journal adapter owned) now th owed = None) as Hidle.
  { unfold idle_verdict, idle_journal. destruct (bool_decide _); [|done].
    destruct (owned_get owned SUPERVISOR_JOURNAL) as [j|] eqn:Ej; [|done]. cbn [mbind option_bind].
    destruct (answering j) eqn:Ha; [|done]. apply owned_get_elem in Ej as [Hj Hsrc].
    assert (j ∈ strong_of owned) as Hs; [|rewrite Hblind in Hs; set_solver].
    apply strong_elem. unfold answering in Ha. apply bool_decide_eq_true in Ha. by rewrite Hsrc. }
  assert (decision th (verdict e1) retained (observe e1 owned now th owed adapter) =
          (if child_holds e1 owned th then HEALTHY_ACTIVE
           else if bool_decide (verdict e1 = CONFIRMED_STALL) then CONFIRMED_STALL else UNVERIFIABLE)) as Hdec.
  { unfold decision, observe. cbn [ob_strong ob_idle ob_child ob_quiet ob_dark]. rewrite Hblind, Hidle. done. }
  unfold expected_verdict in Hv. rewrite Hdec in Hv. destruct (child_holds e1 owned th) eqn:Ec.
  { right; left. split; [done|]. by apply child_holds_elem in Ec. }
  destruct (bool_decide_reflect (verdict e1 = CONFIRMED_STALL)) as [Hc|]; [|by left].
  right; right. split; [done|]. rewrite Hv1 in Hc. by apply base_confirmed in Hc.
Qed.

(** ** The operator's outlook *)

(** The deadline [recovery_outlook] shows is the reducer's own: for an
    episode on the quiet ladder whose clocks run and whose provider is not
    dark, if the head only stays quiet, the next rung is reached at exactly
    the instant shown and not a tick earlier. *)
Theorem outlook_deadline_exact e snapshots seen now th retained adapter o d e' :
  tick_input (Some e) snapshots now th 0 → e_run_id e ∈ run_id <$> snapshots →
  stall_frozen_since e = 0 → idle_turn_since e = 0 →
  dict_get (unavailable_since e) (enum_value PROVIDER_CURSOR) = None →
  recovery_outlook (Some e) (time_val seen) (Some th) = Ok o → ol_next_deadline o = Some d →
  let owned := owned_of (Some e) snapshots in
  silent e owned th → (∃ s, s ∈ strong_of owned ∧ progress s = G_QUIET) →
  reduce_vitality (Some e) snapshots (time_val now) th retained (time_val 0) adapter = Ok e' →
  ladder_index (dl_verdict d) ≤ ladder_index (verdict e') ↔ dl_at d ≤ now.
Proof.
  intros Hin Hrun Hfr Hidle Hdark Ho Hd owned Hsil Hquiet E.
  assert (episode_wf e) as Hwf by apply Hin.
  destruct (reduce_effect _ _ _ _ retained _ adapter Hin) as (e1 & e2 & E1 & _ & _ & E2 & _ & _ & _ & Hv & _).
  rewrite E in E2. injection E2 as <-. fold owned in Hv, E1.
  rewrite run_target_known in E1 by done. unfold base_episode, unfreeze_if_resumed in E1.
  rewrite String.eqb_refl, Hfr in E1. injection E1 as <-.
  rewrite expected_not_owed, decision_silent in Hv by done.
  assert (existsb has_progress (strong_of owned) = true) as Hev.
  { apply existsb_elem. destruct Hquiet as (s & Hs & Hp). exists s. split; [done|].
    unfold has_progress. by rewrite Hp. }
  rewrite Hev in Hv. cbv zeta in Hv. rewrite Hv.
  unfold recovery_outlook, finite_number, time_val in Ho. cbn in Ho. injection Ho as <-. cbn in Hd.
  unfold sorted_dark in Hd. rewrite dark_progress_eq, Hdark in Hd by apply Hwf. cbn in Hd.
  unfold next_rung in Hd. rewrite Hidle in Hd. cbn in Hd.
  destruct (ti_thresholds _ _ _ _ _ Hin). pose proof (quiet_reference_nonneg e (ewf_valid _ Hwf)).
  destruct (verdict e); try done; injection Hd as <-; cbn [dl_at dl_verdict ladder_index];
    unfold quiet_verdict; destruct (Z.leb_spec (suspect_after th + confirm_after th) (Z.max 0 (now - quiet_reference e)));
    try destruct (Z.leb_spec (suspect_after th) (Z.max 0 (now - quiet_reference e))); cbn [ladder_index]; lia.
Qed.
