(* ===== verification/HeadVitalityIndependence.v ===== *)
(** * What the verdict does not depend on

    The order of the batch, the advisory pane, and the snapshots of other runs. *)

From S2P Require Import Prelude PyText HeadVitality HeadVitalityEpisode HeadVitalityReduce HeadVitalityReduceFacts.
From S2P Require Import HeadVitalityVerdicts HeadVitalitySpec HeadVitalityRefine HeadVitalityProperties.

(** ** The latest snapshot of each source *)

Lemma latest_snoc l s : latest_per_source (l ++ [s]) = put_latest (latest_per_source l) s.
Proof. unfold latest_per_source. by rewrite fold_left_app. Qed.

Lemma put_latest_spec l s x :
  NoDup (source <$> l) →
  x ∈ put_latest l s ↔
    (x ∈ l ∧ (source x = source s → observed_at s ≤ observed_at x)) ∨
    (x = s ∧ ∀ k, k ∈ l → source k = source s → observed_at k < observed_at s).
Proof.
  induction l as [|k l IH]; cbn [put_latest]; [set_solver|]. csimpl. rewrite NoDup_cons. intros [Hk Hnd].
  assert (∀ y, y ∈ l → source y ≠ source k) as Hne.
  { intros y Hy E. apply Hk. rewrite <-E. by apply list_elem_of_fmap_2. }
  destruct (bool_decide_reflect (source k = source s)) as [E|E].
  - destruct (Z.ltb_spec (observed_at k) (observed_at s)) as [Hlt|Hge]; rewrite !elem_of_cons.
    + split.
      * intros [->|Hx]; [right; split; [done|]|left; split; [by right|]].
        -- intros y [->|Hy]%elem_of_cons; [done|]. intros E'. destruct (Hne y Hy). congruence.
        -- intros E'. destruct (Hne x Hx). congruence.
      * intros [[[->|Hx] H]|[-> _]]; [specialize (H E); lia|by right|by left].
    + split.
      * intros [->|Hx]; left; (split; [auto|]); intros E'; [lia|]. destruct (Hne x Hx). congruence.
      * intros [[H _]|[-> H]]; [done|]. assert (k ∈ k :: l) as Hkk by set_solver. specialize (H k Hkk E). lia.
  - rewrite elem_of_cons, (IH Hnd). setoid_rewrite elem_of_cons. split.
    + intros [->|[[Hx H]|[-> H]]]; [left; split; [by left|congruence]|left; split; [by right|done]|].
      right. split; [done|]. intros y [->|Hy]; [congruence|by apply H].
    + intros [[[->|Hx] H]|[-> H]]; [by left|right; left; done|]. right; right. split; [done|]. auto.
Qed.

Lemma latest_covers l s : s ∈ l → ∃ k, k ∈ latest_per_source l ∧ source k = source s.
Proof.
  enough (source s ∈ source <$> l → source s ∈ source <$> latest_per_source l) as H.
  { intros Hs. destruct (proj1 (list_elem_of_fmap _ _ _) (H (list_elem_of_fmap_2 _ _ _ Hs))) as (k & ? & ?). eauto. }
  induction l as [|x l IH] using rev_ind; [set_solver|].
  rewrite latest_snoc, put_latest_sources, fmap_app, elem_of_app.
  case_bool_decide as Hb; intros [Hs|Hs]; csimpl in Hs.
  - by apply IH.
  - by apply list_elem_of_singleton in Hs as ->.
  - apply elem_of_app. left. by apply IH.
  - apply elem_of_app. by right.
Qed.

(** Two readings of one source never carry the same instant. *)
Definition distinct_readings (l : list VitalitySnapshot) : Prop :=
  ∀ s s', s ∈ l → s' ∈ l → source s = source s' → observed_at s = observed_at s' → s = s'.

Lemma latest_max l s s' :
  s ∈ latest_per_source l → s' ∈ l → source s' = source s → observed_at s' ≤ observed_at s.
Proof.
  revert s. induction l as [|x l IH] using rev_ind; [set_solver|]. intros s. rewrite latest_snoc.
  rewrite put_latest_spec by apply latest_NoDup. rewrite elem_of_app, list_elem_of_singleton.
  intros [[Hs H]|[-> H]] Hs' E.
  - destruct Hs' as [Hs'| ->]; [by apply IH|by apply H].
  - destruct Hs' as [Hs'| ->]; [|done].
    (* some reading of this source was kept before, and it was not newer *)
    destruct (latest_covers l s' Hs') as (k & Hk & Ek). specialize (IH k Hk Hs' (eq_sym Ek)).
    specialize (H k Hk). rewrite Ek in H. specialize (H E). lia.
Qed.

Lemma latest_spec l s :
  distinct_readings l →
  s ∈ latest_per_source l ↔
  s ∈ l ∧ ∀ s', s' ∈ l → source s' = source s → observed_at s' ≤ observed_at s.
Proof.
  intros Hd. split.
  - intros Hs. split; [by apply latest_elem|]. intros. by eapply latest_max.
  - intros [Hs Hmax]. destruct (latest_covers l s Hs) as (k & Hk & Ek).
    assert (s = k) as ->; [|done]. apply latest_elem in Hk as Hkl. apply Hd; try done.
    pose proof (latest_max l k s Hk Hs (eq_sym Ek)). specialize (Hmax k Hkl Ek). lia.
Qed.

Lemma latest_perm l k :
  distinct_readings l → l ≡ₚ k → latest_per_source l ≡ₚ latest_per_source k.
Proof.
  intros Hd Hp. assert (distinct_readings k) as Hd'.
  { intros s s'. rewrite <-!Hp. apply Hd. }
  apply NoDup_Permutation; [eapply NoDup_fmap_1, latest_NoDup..|]. intros s.
  rewrite !latest_spec by done. setoid_rewrite Hp. done.
Qed.

Lemma filter_perm {A} (f : A → bool) (l k : list A) : l ≡ₚ k → List.filter f l ≡ₚ List.filter f k.
Proof.
  induction 1 as [|x l k _ IH|x y l|l k m _ IH1 _ IH2]; cbn [List.filter]; [done| | |by etrans].
  - by destruct (f x); rewrite IH.
  - destruct (f x), (f y); try done. apply Permutation_swap.
Qed.

Lemma existsb_perm {A} (f : A → bool) (l k : list A) : l ≡ₚ k → existsb f l = existsb f k.
Proof.
  intros Hp. apply eq_true_iff_eq. rewrite !existsb_elem. by setoid_rewrite Hp.
Qed.

Lemma run_target_perm previous l k : l ≡ₚ k → run_target previous l = run_target previous k.
Proof.
  intros Hp. unfold run_target, resolve_run_id. cbn [fst].
  assert (sort_strings (remove_dups (run_id <$> l)) = sort_strings (remove_dups (run_id <$> k))) as ->; [|done].
  apply sort_strings_perm, NoDup_Permutation; [apply NoDup_remove_dups..|]. intros x.
  by rewrite !elem_of_remove_dups, Hp.
Qed.

Lemma owned_of_perm previous l k :
  distinct_readings l → l ≡ₚ k → owned_of previous l ≡ₚ owned_of previous k.
Proof.
  intros Hd Hp. unfold owned_of. rewrite (run_target_perm previous l k Hp). apply latest_perm; [|by apply filter_perm].
  intros s s' Hs Hs'. apply list_elem_of_In, filter_In, proj1, list_elem_of_In in Hs, Hs'. by apply Hd.
Qed.

(** ** Two batches the reducer cannot tell apart *)

(** The strong readings up to order, and the readings the table asks for by source. *)
Record same_evidence (l k : list VitalitySnapshot) : Prop := {
  se_strong : strong_of l ≡ₚ strong_of k;
  se_parked : existsb parked l = existsb parked k;
  se_child : owned_get l EXECUTION_CHILD = owned_get k EXECUTION_CHILD;
  se_journal : owned_get l SUPERVISOR_JOURNAL = owned_get k SUPERVISOR_JOURNAL;
  se_provider : owned_get l PROVIDER_CURSOR = owned_get k PROVIDER_CURSOR;
}.

Lemma decision_same th prev retained o1 o2 :
  ob_strong o1 ≡ₚ ob_strong o2 → ob_idle o1 = ob_idle o2 → ob_child o1 = ob_child o2 →
  ob_quiet o1 = ob_quiet o2 → ob_dark o1 = ob_dark o2 →
  decision th prev retained o1 = decision th prev retained o2.
Proof.
  intros Hs Hi Hc Hq Hd. unfold decision. rewrite !(existsb_perm _ _ _ Hs), Hi, Hc, Hq, Hd.
  destruct (ob_strong o1) as [|x l], (ob_strong o2) as [|y k]; try done.
  - by apply Permutation_nil_cons in Hs.
  - symmetry in Hs. by apply Permutation_nil_cons in Hs.
Qed.

Lemma expected_same e l k now th retained owed adapter :
  same_evidence l k → owed = 0 ∨ turn_ended_after e l now = turn_ended_after e k now →
  expected_verdict e l now th retained owed adapter = expected_verdict e k now th retained owed adapter.
Proof.
  intros [Hs _ Hc Hj Hp] Ht. unfold expected_verdict.
  assert (owes_answer e l now owed = owes_answer e k now owed) as ->.
  { unfold owes_answer. by destruct Ht as [->| ->]. }
  rewrite (decision_same th (verdict e) retained (observe e l now th owed adapter) (observe e k now th owed adapter));
    [done|done|..]; unfold observe; cbn.
  - unfold idle_journal. by rewrite Hj.
  - unfold child_holds. by rewrite Hc.
  - done.
  - unfold dark_since_after. by rewrite Hp.
Qed.

Lemma unfreeze_same e l k now :
  same_evidence l k → unfreeze_if_resumed e l now = unfreeze_if_resumed e k now.
Proof. intros [_ Hp _ _ _]. unfold unfreeze_if_resumed. by rewrite Hp. Qed.

Lemma perm_same_evidence l k : NoDup (source <$> l) → l ≡ₚ k → same_evidence l k.
Proof.
  intros Hnd Hp. split; [by apply filter_perm|by apply existsb_perm|by apply owned_get_perm..].
Qed.

(** Only the pane is advisory, so at most one snapshot answers for the Turn axis. *)
Lemma turn_ended_pane e owned now :
  NoDup (source <$> owned) →
  turn_ended_after e owned now =
  turn_ended_after e (from_option (λ s, [s]) [] (owned_get owned PANE_ADVISORY)) now.
Proof.
  intros Hnd. unfold turn_ended_after, owned_get.
  set (p := λ s, advisory s && answering s && negb (bool_decide (turn s = T_UNKNOWN))).
  assert (List.find p owned = List.find p (from_option (λ s, [s]) []
    (List.find (λ s, bool_decide (source s = PANE_ADVISORY)) owned))) as ->; [|done].
  induction owned as [|s l IH]; [done|]. csimpl in Hnd. apply NoDup_cons in Hnd as [Hs Hnd].
  cbn [List.find]. destruct (bool_decide_reflect (source s = PANE_ADVISORY)) as [E|E]; cbn [from_option List.find].
  - destruct (p s); [done|]. destruct (List.find p l) as [x|] eqn:Ex; [|done].
    apply List.find_some in Ex as [Hx Hpx]. unfold p, advisory in Hpx.
    apply andb_true_iff in Hpx as [[Hadv%bool_decide_eq_true _]%andb_true_iff _]. destruct Hs.
    rewrite E, <-Hadv. apply list_elem_of_fmap_2. by apply list_elem_of_In.
  - rewrite (IH Hnd). assert (p s = false) as ->; [|done]. unfold p, advisory.
    by rewrite bool_decide_eq_false_2.
Qed.

(** The verdict does not depend on the order of the batch: reducing a
    permutation of the snapshots, no two of which are readings of one source
    at one instant, concludes the same verdict. *)
Theorem verdict_order_independent previous l k now th retained owed adapter e e' :
  tick_input previous l now th owed → distinct_readings l → l ≡ₚ k →
  reduce_vitality previous l (time_val now) th retained (time_val owed) adapter = Ok e →
  reduce_vitality previous k (time_val now) th retained (time_val owed) adapter = Ok e' →
  verdict e' = verdict e.
Proof.
  intros Hin Hd Hp E E'. assert (tick_input previous k now th owed) as Hin'.
  { destruct Hin. split; try done; [|by rewrite <-Hp]. intros ->. by apply Permutation_nil_r in Hp. }
  pose proof (owned_of_perm previous l k Hd Hp) as Ho.
  assert (NoDup (source <$> owned_of previous l)) as Hnd by apply latest_NoDup.
  pose proof (perm_same_evidence _ _ Hnd Ho) as Hse.
  destruct (reduce_effect _ _ _ _ retained _ adapter Hin) as (e1 & e2 & E1 & _ & _ & E2 & _ & _ & _ & Hv & _).
  destruct (reduce_effect _ _ _ _ retained _ adapter Hin') as (e1' & e2' & E1' & _ & _ & E2' & _ & _ & _ & Hv' & _).
  rewrite E in E2. injection E2 as <-. rewrite E' in E2'. injection E2' as <-.
  rewrite <-(unfreeze_same _ _ _ _ Hse), <-(run_target_perm previous l k Hp), E1 in E1'. injection E1' as <-.
  rewrite Hv, Hv'. symmetry. apply expected_same; [done|]. right.
  rewrite (turn_ended_pane _ (owned_of previous l)) by done.
  rewrite (turn_ended_pane _ (owned_of previous k)) by apply latest_NoDup. by rewrite (owned_get_perm _ _ _ Hnd Ho).
Qed.

(** ** The advisory pane *)

Lemma put_latest_filter (P : SnapshotSource → bool) l s :
  List.filter (λ x, P (source x)) (put_latest l s) =
  if P (source s) then put_latest (List.filter (λ x, P (source x)) l) s
  else List.filter (λ x, P (source x)) l.
Proof.
  induction l as [|k l IH]; cbn [put_latest List.filter]; [by destruct (P (source s))|].
  destruct (bool_decide_reflect (source k = source s)) as [E|E].
  - destruct (observed_at k <? observed_at s) eqn:Eo; cbn [List.filter]; rewrite E;
      destruct (P (source s)); cbn [put_latest]; try done;
      rewrite (bool_decide_eq_true_2 (source k = source s)), Eo by done; done.
  - cbn [List.filter]. rewrite IH. destruct (P (source k)), (P (source s)); cbn [put_latest]; try done.
    by rewrite (bool_decide_eq_false_2 (source k = source s)).
Qed.

Lemma latest_filter (P : SnapshotSource → bool) l :
  latest_per_source (List.filter (λ x, P (source x)) l) =
  List.filter (λ x, P (source x)) (latest_per_source l).
Proof.
  induction l as [|s l IH] using rev_ind; [done|].
  rewrite List.filter_app, latest_snoc, put_latest_filter, <-IH. cbn [List.filter].
  destruct (P (source s)); [by rewrite latest_snoc|by rewrite app_nil_r].
Qed.

Lemma filter_comm {A} (f g : A → bool) l : List.filter f (List.filter g l) = List.filter g (List.filter f l).
Proof.
  induction l as [|x l IH]; cbn [List.filter]; [done|].
  destruct (f x) eqn:Ef, (g x) eqn:Eg; cbn [List.filter]; rewrite ?Ef, ?Eg, IH; done.
Qed.

Lemma filter_idem {A} (f : A → bool) l : List.filter f (List.filter f l) = List.filter f l.
Proof.
  induction l as [|x l IH]; cbn [List.filter]; [done|]. destruct (f x) eqn:E; cbn [List.filter]; rewrite ?E, IH; done.
Qed.

Definition not_pane_source (src : SnapshotSource) : bool := negb (bool_decide (src = PANE_ADVISORY)).
Definition not_pane (s : VitalitySnapshot) : bool := not_pane_source (source s).

Lemma owned_get_not_pane l src :
  src ≠ PANE_ADVISORY → owned_get (List.filter not_pane l) src = owned_get l src.
Proof.
  intros Hsrc. unfold owned_get. induction l as [|s l IH]; cbn [List.filter List.find]; [done|].
  unfold not_pane at 1, not_pane_source. destruct (bool_decide_reflect (source s = PANE_ADVISORY)) as [E|E]; cbn [negb List.find].
  - rewrite IH, (bool_decide_eq_false_2 (source s = src)) by congruence. done.
  - by rewrite IH.
Qed.

Lemma not_pane_evidence l : same_evidence (List.filter not_pane l) l.
Proof.
  split; try by apply owned_get_not_pane.
  - unfold strong_of. induction l as [|s l IH]; cbn [List.filter]; [done|]. unfold not_pane at 1, not_pane_source, advisory at 2.
    destruct (bool_decide_reflect (source s = PANE_ADVISORY)) as [E|E]; cbn [negb].
    + by rewrite andb_false_r.
    + cbn [List.filter]. unfold advisory at 1. rewrite (bool_decide_eq_false_2 (source s = PANE_ADVISORY)) by done.
      cbn [negb]. destruct (answering s && true && _); by rewrite IH.
  - induction l as [|s l IH]; cbn [List.filter existsb]; [done|]. unfold not_pane at 1, not_pane_source.
    destruct (bool_decide_reflect (source s = PANE_ADVISORY)) as [E|E]; cbn [negb existsb]; rewrite IH; [|done].
    unfold parked at 2, advisory. rewrite (bool_decide_eq_true_2 (source s = PANE_ADVISORY)) by done.
    by rewrite andb_false_r.
Qed.

(** The pane is only an advisor: while no answer is owed, a batch with its
    pane readings removed (and the watched run still in it) reduces to the
    same verdict. *)
Theorem pane_is_advisory p snapshots now th retained adapter e e' :
  tick_input (Some p) snapshots now th 0 →
  e_run_id p ∈ run_id <$> List.filter not_pane snapshots →
  reduce_vitality (Some p) snapshots (time_val now) th retained (time_val 0) adapter = Ok e →
  reduce_vitality (Some p) (List.filter not_pane snapshots) (time_val now) th retained (time_val 0) adapter = Ok e' →
  verdict e' = verdict e.
Proof.
  intros Hin Hrun E E'. set (kept := List.filter not_pane snapshots) in *.
  assert (∀ s, s ∈ kept → s ∈ snapshots) as Hsub.
  { intros s Hs. by apply list_elem_of_In, filter_In, proj1, list_elem_of_In in Hs. }
  assert (tick_input (Some p) kept now th 0) as Hin'.
  { destruct Hin. split; try done; [by intros Hk; rewrite Hk in Hrun; set_solver|].
    rewrite Forall_forall in *. auto. }
  assert (e_run_id p ∈ run_id <$> snapshots) as Hrun'.
  { apply list_elem_of_fmap in Hrun as (s & Es & Hs). rewrite Es. apply list_elem_of_fmap_2. auto. }
  destruct (reduce_effect _ _ _ _ retained _ adapter Hin) as (e1 & e2 & E1 & _ & _ & E2 & _ & _ & _ & Hv & _).
  destruct (reduce_effect _ _ _ _ retained _ adapter Hin') as (e1' & e2' & E1' & _ & _ & E2' & _ & _ & _ & Hv' & _).
  rewrite E in E2. injection E2 as <-. rewrite E' in E2'. injection E2' as <-.
  assert (owned_of (Some p) kept = List.filter not_pane (owned_of (Some p) snapshots)) as Ho.
  { unfold owned_of. rewrite !run_target_known by done. 
    etrans; [|apply (latest_filter not_pane_source)]. f_equal.
    apply filter_comm. }
  pose proof (not_pane_evidence (owned_of (Some p) snapshots)) as Hse. rewrite <-Ho in Hse.
  rewrite !run_target_known in * by done. rewrite (unfreeze_same _ _ _ _ Hse), E1 in E1'. injection E1' as <-.
  rewrite Hv, Hv'. apply expected_same; auto.
Qed.

(** ** Other runs *)

Lemma note_source_tokens now e b b' s :
  fst <$> note_source now (e, b) s = fst <$> note_source now (e, b') s.
Proof.
  unfold note_source. destruct (bool_decide _).
  - destruct (dict_has _ _); [done|]. by destruct (replace _).
  - destruct (if dict_has _ _ then _ else _) as [e1|]; [|done]. cbn [mbind res_bind].
    destruct (match cursor s with Some _ => _ | None => _ end); done.
Qed.

Lemma note_absent_tokens now e b b' name :
  fst <$> note_absent now (e, b) name = fst <$> note_absent now (e, b') name.
Proof. unfold note_absent. destruct (dict_has _ _); [done|]. by destruct (replace _). Qed.

Lemma foldM_tokens {A} (f : VitalityEpisode * list string → A → res (VitalityEpisode * list string)) l e b b' :
  (∀ e b b' a, fst <$> f (e, b) a = fst <$> f (e, b') a) →
  fst <$> foldM f (e, b) l = fst <$> foldM f (e, b') l.
Proof.
  intros Hf. revert e b b'. induction l as [|a l IH]; intros e b b'; cbn [foldM]; [done|].
  specialize (Hf e b b' a). destruct (f (e, b) a) as [[e1 b1]|x], (f (e, b') a) as [[e2 b2]|y];
    cbn in Hf; simplify_eq; cbn [mbind res_bind]; [apply IH|done].
Qed.

Lemma fst_Ok {A B} (m m' : res (A * B)) a b :
  fst <$> m = fst <$> m' → m = Ok (a, b) → ∃ b', m' = Ok (a, b').
Proof. intros H ->. destruct m' as [[a' b']|]; cbn in H; simplify_eq. eauto. Qed.

Lemma absorb_tokens e b b' owned now th e6 hold t :
  absorb e b owned now th = Ok (e6, hold, t) → ∃ t', absorb e b' owned now th = Ok (e6, hold, t').
Proof.
  unfold absorb. intros E. inv_ok. destruct x as [e2 b2]. inv_ok. destruct x as [e3 b3]. inv_ok.
  destruct x0 as [[e5 h] b5]. inv_ok.
  destruct (fst_Ok _ _ _ _ (foldM_tokens _ _ e b b' (note_source_tokens now)) E0) as (b2' & ->).
  cbn [mbind res_bind].
  destruct (fst_Ok _ _ _ _ (foldM_tokens _ _ e2 b2 b2' (note_absent_tokens now)) E1) as (b3' & ->).
  cbn [mbind res_bind]. rewrite E2. cbn [mbind res_bind]. rewrite E3. cbn [mbind res_bind]. rewrite E4. eauto.
Qed.

(** An episode without its basis tokens. *)
Definition sans_basis (e : VitalityEpisode) : VitalityEpisode := e <| basis := [] |>.

Lemma reduce_owned_tokens e0 b b' owned now th retained owed adapter e e' :
  reduce_owned e0 b owned now th retained owed adapter = Ok e →
  reduce_owned e0 b' owned now th retained owed adapter = Ok e' → sans_basis e' = sans_basis e.
Proof.
  unfold reduce_owned. destruct (unfreeze_if_resumed e0 owned now) as [e1|]; [|done]. cbn [mbind res_bind].
  destruct (absorb e1 b owned now th) as [[[e6 hold] t]|] eqn:Ea; [|done].
  destruct (absorb_tokens _ _ b' _ _ _ _ _ _ Ea) as (t' & ->). cbn [mbind res_bind].
  destruct (idle_turn_stall _ _ _ _ _ _) as [idle|]; [|done]. cbn [mbind res_bind].
  destruct (conclude _ _ _ _ _ _ _) as [r|]; [|done]. cbn [mbind res_bind].
  destruct (raise_answer_owed r now owed) as [[[v e7] b7]|]; [|done]. cbn [mbind res_bind].
  unfold finish. intros [_ ->]%replace_Ok [_ ->]%replace_Ok. done.
Qed.

(** One run's evidence never touches another's episode: dropping every
    snapshot of a foreign run from the batch leaves the reduced episode the
    same in every field but its basis tokens. *)
Theorem foreign_runs_weightless p snapshots now th retained owed adapter e e' :
  tick_input (Some p) snapshots now th owed → e_run_id p ∈ run_id <$> snapshots →
  let own := List.filter (λ s, String.eqb (run_id s) (e_run_id p)) snapshots in
  reduce_vitality (Some p) snapshots (time_val now) th retained (time_val owed) adapter = Ok e →
  reduce_vitality (Some p) own (time_val now) th retained (time_val owed) adapter = Ok e' →
  sans_basis e' = sans_basis e.
Proof.
  intros Hin Hrun own E E'. pose proof Hrun as (s & Es & Hs)%list_elem_of_fmap.
  assert (s ∈ own) as Hown.
  { apply list_elem_of_In, filter_In. split; [by apply list_elem_of_In|]. rewrite <-Es. apply String.eqb_refl. }
  assert (e_run_id p ∈ run_id <$> own) as Hrun' by (rewrite Es; by apply list_elem_of_fmap_2).
  assert (tick_input (Some p) own now th owed) as Hin'.
  { destruct Hin. split; try done; [by intros Hk; rewrite Hk in Hown; set_solver|]. rewrite Forall_forall in *.
    intros x Hx. apply list_elem_of_In, filter_In, proj1, list_elem_of_In in Hx. auto. }
  destruct (reduce_vitality_eq _ _ _ _ retained _ adapter Hin) as [b Eb]. rewrite Eb in E.
  destruct (reduce_vitality_eq _ _ _ _ retained _ adapter Hin') as [b' Eb']. rewrite Eb' in E'.
  assert (owned_of (Some p) own = owned_of (Some p) snapshots) as Ho.
  { unfold owned_of. rewrite !run_target_known by done. f_equal. unfold own. apply filter_idem. }
  rewrite Ho in E'. rewrite !run_target_known in * by done. by eapply reduce_owned_tokens.
Qed.
