(* ===== verification/HeadVitalityTraces.v ===== *)
(** * Properties of runs of ticks

    A run is the sequence of reductions the dispatcher's ticks make over one
    head's episode.  The theorems hold of every reachable episode: stalls are
    earned by uninterrupted quiet, time spent suspended is not charged, and a
    working child holds a head only for the child ceiling. *)

From S2P Require Import Prelude PyText HeadVitality HeadVitalityEpisode HeadVitalityReduce HeadVitalityReduceFacts.
From S2P Require Import HeadVitalityVerdicts HeadVitalitySpec HeadVitalityRefine HeadVitalityProperties.

Record Tick := {
  tk_now : Z;
  tk_snapshots : list VitalitySnapshot;
  tk_retained : bool;
  tk_owed : Z;
  tk_adapter : string;
}.

Definition tick_step (th : VitalityThresholds) (e : VitalityEpisode) (t : Tick) : res VitalityEpisode :=
  reduce_vitality (Some e) (tk_snapshots t) (time_val (tk_now t)) th (tk_retained t)
    (time_val (tk_owed t)) (tk_adapter t).

Definition run_ticks (th : VitalityThresholds) (e : VitalityEpisode) (ticks : list Tick) : res VitalityEpisode :=
  foldM (tick_step th) e ticks.

(** The run's own newest reading of each source in a tick. *)
Definition owned_in (rid : string) (t : Tick) : list VitalitySnapshot :=
  latest_per_source (List.filter (λ s, String.eqb (run_id s) rid) (tk_snapshots t)).

(** A tick that observes the run, on a clock that has not gone back. *)
Record tick_ok (rid : string) (since : Z) (t : Tick) : Prop := {
  to_run : rid ∈ run_id <$> tk_snapshots t;
  to_wf : Forall snapshot_wf (tk_snapshots t);
  to_now : since ≤ tk_now t;
  to_owed : 0 ≤ tk_owed t;
}.

Fixpoint ticks_ok (rid : string) (since : Z) (ticks : list Tick) : Prop :=
  match ticks with
  | [] => True
  | t :: rest => tick_ok rid since t ∧ ticks_ok rid (tk_now t) rest
  end.

Lemma tick_step_effect th e t :
  thresholds_wf th → episode_wf e → tick_ok (e_run_id e) (updated_at e) t →
  let owned := owned_in (e_run_id e) t in
  ∃ e1 e', unfreeze_if_resumed e owned (tk_now t) = Ok e1 ∧ episode_wf e1 ∧ verdict e1 = verdict e ∧
    tick_step th e t = Ok e' ∧ episode_wf e' ∧ e_run_id e' = e_run_id e ∧ ladder_state e' = ladder_state e ∧
    updated_at e' = tk_now t ∧
    verdict e' = expected_verdict e1 owned (tk_now t) th (tk_retained t) (tk_owed t) (tk_adapter t) ∧
    clock_step e1 e' owned (tk_now t) th (verdict e').
Proof.
  intros Hth Hwf [Hrun Hs Hnow Howed] owned. pose proof (stamps_nonneg _ (ewf_valid _ Hwf)) as Hst. destruct_and! Hst.
  assert (tick_input (Some e) (tk_snapshots t) (tk_now t) th (tk_owed t)) as Hin.
  { split; try done; [|lia]. intros Hn. rewrite Hn in Hrun. set_solver. }
  destruct (reduce_effect _ _ _ _ (tk_retained t) _ (tk_adapter t) Hin) as
    (e1 & e' & E1 & Hwf1 & Hv1 & E & Hwf' & Hl & Hu & Hv & Hstep).
  unfold owned_of in *. rewrite run_target_known in * by done. unfold base_episode in *.
  rewrite String.eqb_refl in *. exists e1, e'. split_and!; try done. unfold ladder_state in Hl. congruence.
Qed.

(** ** Clocks under unfreezing *)

Lemma unfreeze_clocks e owned now e1 :
  unfreeze_if_resumed e owned now = Ok e1 →
  e1 = e ∧ (stall_frozen_since e = 0 ∨ existsb parked owned = true) ∨
  (stall_frozen_since e ≠ 0 ∧ existsb parked owned = false ∧
   let sh := shift now (Z.max 0 (now - stall_frozen_since e)) in
   clocks e1 = (sh (started_at e), sh (last_progress_at e), sh (quiet_since e),
                sh (child_progress_at e), sh (child_activity_since e)) ∧
   stall_frozen_since e1 = 0).
Proof.
  unfold unfreeze_if_resumed. destruct (Z.eqb_spec (stall_frozen_since e) 0) as [|Hf]; [intros [= <-]; auto|].
  destruct (existsb parked owned); [intros [= <-]; auto|]. intros [_ ->]%replace_Ok. right. by split_and!.
Qed.

Lemma unfreeze_progress e owned now e1 p :
  unfreeze_if_resumed e owned now = Ok e1 → p ≤ last_progress_at e → p ≤ now → p ≤ last_progress_at e1.
Proof.
  intros E Hle Hn. apply unfreeze_clocks in E as [[-> _]|(_ & _ & Hc & _)]; [done|]. unfold clocks in Hc.
  injection Hc as ? -> ? ? ?. unfold shift. destruct (_ =? 0); lia.
Qed.

(** ** Stalls are earned *)

(** [p] bounds the head's last progress from below, and a stall verdict was
    reached only after the quiet it needs since [p]. *)
Record earned (th : VitalityThresholds) (p : Z) (e : VitalityEpisode) : Prop := {
  er_progress : p ≤ last_progress_at e;
  er_past : p ≤ updated_at e;
  er_suspected : verdict e = SUSPECTED_STALL → p + suspect_after th ≤ updated_at e;
  er_confirmed : verdict e = CONFIRMED_STALL → p + suspect_after th + confirm_after th ≤ updated_at e;
}.

Lemma quiet_reference_bounds e : episode_wf e → last_progress_at e ≤ quiet_reference e.
Proof.
  intros Hwf. pose proof (stamps_nonneg _ (ewf_valid _ Hwf)) as Hst. destruct_and! Hst.
  unfold quiet_reference, or_time. destruct (Z.eqb_spec (Z.max (Z.max (last_progress_at e) (quiet_since e)) (child_progress_at e)) 0); lia.
Qed.

Lemma clock_step_progress e e' owned now th v :
  clock_step e e' owned now th v → last_progress_at e ≤ last_progress_at e'.
Proof.
  intros Hs. destruct v; cbn [clock_step] in Hs;
    try (destruct Hs as [Hc _]; unfold clocks in Hc; injection Hc as ? -> ? ? ?; done).
  destruct Hs as (_ & _ & _ & [(s & _ & Hc & _)|(_ & c & _ & _ & Hc & _)]);
    unfold clocks in Hc; injection Hc as ? -> ? ? ?; lia.
Qed.

Lemma quiet_verdict_earns th q : thresholds_wf th →
  (quiet_verdict th q = SUSPECTED_STALL → suspect_after th ≤ q) ∧
  (quiet_verdict th q = CONFIRMED_STALL → suspect_after th + confirm_after th ≤ q).
Proof.
  intros []. unfold quiet_verdict. destruct (Z.leb_spec (suspect_after th + confirm_after th) q);
    [split; [done|lia]|]. destruct (Z.leb_spec (suspect_after th) q); split; done || lia.
Qed.

(** Where a stall verdict of the table comes from when no answer is owed. *)
Lemma decision_stall th prev retained e owned now adapter v :
  decision th prev retained (observe e owned now th 0 adapter) = v →
  v = SUSPECTED_STALL ∨ v = CONFIRMED_STALL →
  v = quiet_verdict th (Z.max 0 (now - quiet_reference e)) ∨ v = prev.
Proof.
  unfold decision, observe. cbn [ob_strong ob_idle ob_child ob_quiet ob_dark]. rewrite idle_verdict_not_owed.
  intros <-. destruct (existsb (is_process P_DEAD) _); [intuition done|].
  destruct (existsb (is_process P_SUSPENDED) _); [destruct retained; intuition done|].
  destruct (existsb is_advancing _); [intuition done|]. destruct (child_holds _ _ _); [intuition done|].
  destruct (existsb has_progress _); [auto|].
  destruct (bool_decide_reflect (prev = CONFIRMED_STALL)) as [->|]; [auto|].
  destruct (strong_of owned); [intuition done|]. destruct (from_option _ _ _); [|auto].
  destruct (bool_decide_reflect (prev = SUSPECTED_STALL)) as [->|]; [auto|intuition done].
Qed.

Lemma earned_step th p e t e' :
  thresholds_wf th → episode_wf e → tick_ok (e_run_id e) (updated_at e) t → tk_owed t = 0 →
  earned th p e → tick_step th e t = Ok e' → earned th p e'.
Proof.
  intros Hth Hwf Hok Howed [Hp Hpast Hsus Hcon] E. pose proof (to_now _ _ _ Hok) as Hnow.
  destruct (tick_step_effect th e t Hth Hwf Hok)
    as (e1 & e2 & E1 & Hwf1 & Hv1 & E2 & _ & _ & _ & Hup & Hv & Hstep). rewrite E in E2. injection E2 as <-.
  rewrite Howed, expected_not_owed in Hv.
  assert (p ≤ last_progress_at e1) as Hp1 by (eapply unfreeze_progress; [done..|lia]).
  pose proof (clock_step_progress _ _ _ _ _ _ Hstep) as Hle. pose proof (quiet_reference_bounds _ Hwf1) as Hq.
  destruct (quiet_verdict_earns th (Z.max 0 (tk_now t - quiet_reference e1)) Hth) as [Hqs Hqc].
  destruct Hth. split; [lia|lia| |]; intros Hst; rewrite Hup.
  - destruct (decision_stall _ _ _ _ _ _ _ _ (eq_sym Hv) (or_introl Hst)) as [Hd|Hd].
    + rewrite Hd in Hst. specialize (Hqs Hst). lia.
    + rewrite Hst, Hv1 in Hd. specialize (Hsus (eq_sym Hd)). lia.
  - destruct (decision_stall _ _ _ _ _ _ _ _ (eq_sym Hv) (or_intror Hst)) as [Hd|Hd].
    + rewrite Hd in Hst. specialize (Hqc Hst). lia.
    + rewrite Hst, Hv1 in Hd. specialize (Hcon (eq_sym Hd)). lia.
Qed.

Lemma earned_advance th e t e' s :
  thresholds_wf th → episode_wf e → tick_ok (e_run_id e) (updated_at e) t →
  let owned := owned_in (e_run_id e) t in
  ¬ heard owned P_DEAD → ¬ heard owned P_SUSPENDED →
  s ∈ strong_of owned → progress s = G_ADVANCING → observed_at s ≤ tk_now t →
  tick_step th e t = Ok e' → earned th (observed_at s) e'.
Proof.
  intros Hth Hwf Hok owned Hd Hs Hin Hp Hobs E.
  destruct (tick_step_effect th e t Hth Hwf Hok)
    as (e1 & e2 & E1 & Hwf1 & Hv1 & E2 & _ & _ & _ & Hup & Hv & Hstep). rewrite E in E2. injection E2 as <-.
  fold owned in Hv, Hstep. assert (advanced owned) as Hadv by (by exists s). apply advanced_true in Hadv.
  assert (verdict e' = HEALTHY_ACTIVE) as Ha.
  { rewrite Hv. apply expected_eq; [done..|]. unfold decision. cbn [ob_strong observe].
    by rewrite (proj2 (heard_false _ _) Hd), (proj2 (heard_false _ _) Hs), Hadv. }
  rewrite Ha in Hstep. destruct Hstep as (_ & _ & _ & [(s' & (_ & _ & Hmax) & Hc & _)|[Hno _]]); [|congruence].
  specialize (Hmax s Hin Hp). unfold clocks in Hc. injection Hc as ? Hlp ? ? ?.
  split; [lia|by rewrite Hup|by rewrite Ha..].
Qed.

Lemma run_ticks_invariant th (P : VitalityEpisode → Prop) ticks e e' :
  thresholds_wf th → episode_wf e → ticks_ok (e_run_id e) (updated_at e) ticks →
  (∀ e t e', episode_wf e → tick_ok (e_run_id e) (updated_at e) t → t ∈ ticks → P e → tick_step th e t = Ok e' → P e') →
  P e → run_ticks th e ticks = Ok e' → P e'.
Proof.
  intros Hth. revert e. induction ticks as [|t ticks IH]; intros e Hwf Hok Hstep HP E;
    unfold run_ticks in *; cbn [foldM] in E; [by injection E as <-|]. destruct Hok as [Ht Hok].
  destruct (tick_step_effect th e t Hth Hwf Ht) as (_ & e2 & _ & _ & _ & E2 & Hwf2 & Hrun & _ & Hup & _).
  rewrite E2 in E. cbn [mbind res_bind] in E. apply (IH e2); try done.
  - by rewrite Hrun, Hup.
  - intros e3 t3 e4 Hwf3 Hok3 Ht3 HP3 E3. eapply (Hstep e3 t3); try done. set_solver.
  - eapply (Hstep e t); try done. set_solver.
Qed.

Lemma run_ticks_app th e pre post :
  run_ticks th e (pre ++ post) = (e' ← run_ticks th e pre; run_ticks th e' post).
Proof.
  unfold run_ticks. revert e. induction pre as [|t pre IH]; intros e; cbn [foldM app]; [done|].
  destruct (tick_step th e t); [apply IH|done].
Qed.

(** A run of good ticks returns, on the same run's episode. *)
Lemma run_ticks_total th e ticks :
  thresholds_wf th → episode_wf e → ticks_ok (e_run_id e) (updated_at e) ticks →
  ∃ e', run_ticks th e ticks = Ok e' ∧ episode_wf e' ∧ e_run_id e' = e_run_id e ∧
        updated_at e' = from_option tk_now (updated_at e) (last ticks).
Proof.
  intros Hth. revert e. induction ticks as [|t ticks IH]; intros e Hwf Hok; [by exists e|]. destruct Hok as [Ht Hok].
  destruct (tick_step_effect th e t Hth Hwf Ht) as (_ & e2 & _ & _ & _ & E2 & Hwf2 & Hrun & _ & Hup & _).
  destruct (IH e2) as (e' & E & Hwf' & Hrun' & Hup'); [done|by rewrite Hrun, Hup|]. exists e'.
  unfold run_ticks in *. cbn [foldM]. rewrite E2. split_and!; [done|done|congruence|].
  rewrite Hup', Hup, last_cons. by destruct (last ticks).
Qed.

Lemma ticks_ok_app rid since pre post :
  ticks_ok rid since (pre ++ post) ↔
  ticks_ok rid since pre ∧ ticks_ok rid (from_option tk_now since (last pre)) post.
Proof.
  revert since. induction pre as [|t pre IH]; intros since; cbn [ticks_ok app]; [naive_solver|].
  rewrite IH. replace (from_option tk_now since (last (t :: pre)))
    with (from_option tk_now (tk_now t) (last pre)) by (rewrite last_cons; by destruct (last pre)). naive_solver.
Qed.

(** The clock never goes back over a run. *)
Lemma run_ticks_clock th e ticks e' :
  thresholds_wf th → episode_wf e → ticks_ok (e_run_id e) (updated_at e) ticks →
  run_ticks th e ticks = Ok e' → updated_at e ≤ updated_at e'.
Proof.
  intros Hth Hwf Hok E. eapply (run_ticks_invariant th (λ x, updated_at e ≤ updated_at x)); try done.
  intros e1 t e2 Hwf1 Hok1 _ Hle E1. pose proof (to_now _ _ _ Hok1).
  destruct (tick_step_effect th e1 t Hth Hwf1 Hok1) as (_ & e3 & _ & _ & _ & E3 & _ & _ & _ & Hup & _).
  rewrite E1 in E3. injection E3 as <-. lia.
Qed.

(** C3. No head is condemned for a silence it did not keep.  Over any run of
    ticks with no owed answer: if at some tick a strong source showed progress
    (and none said dead or suspended), then a later SUSPECTED_STALL comes no
    sooner than [suspect_after] after that progress, and a later
    CONFIRMED_STALL no sooner than [suspect_after + confirm_after] after it. *)
Theorem stall_is_earned th e pre t post e' s :
  thresholds_wf th → episode_wf e → ticks_ok (e_run_id e) (updated_at e) (pre ++ t :: post) →
  Forall (λ t, tk_owed t = 0) post →
  let owned := owned_in (e_run_id e) t in
  ¬ heard owned P_DEAD → ¬ heard owned P_SUSPENDED →
  s ∈ strong_of owned → progress s = G_ADVANCING → observed_at s ≤ tk_now t →
  run_ticks th e (pre ++ t :: post) = Ok e' →
  (verdict e' = SUSPECTED_STALL → observed_at s + suspect_after th ≤ updated_at e') ∧
  (verdict e' = CONFIRMED_STALL → observed_at s + suspect_after th + confirm_after th ≤ updated_at e').
Proof.
  intros Hth Hwf [Hpre [Ht Hpost]]%ticks_ok_app Howed owned Hd Hs Hin Hp Hobs E.
  destruct (run_ticks_total th e pre Hth Hwf Hpre) as (e1 & E1 & Hwf1 & Hrun1 & Hup1).
  rewrite run_ticks_app, E1 in E. cbn [mbind res_bind] in E. rewrite <-Hup1 in Ht.
  unfold run_ticks in E. cbn [foldM] in E. apply bind_Ok in E as (e2 & E2 & E). fold (run_ticks th e2 post) in E.
  rewrite <-Hrun1 in Ht. unfold owned in *. rewrite <-Hrun1 in Hd, Hs, Hin.
  pose proof (earned_advance th e1 t e2 s Hth Hwf1 Ht Hd Hs Hin Hp Hobs E2) as Hear.
  destruct (tick_step_effect th e1 t Hth Hwf1 Ht) as (_ & e2' & _ & _ & _ & E2' & Hwf2 & Hrun2 & _ & Hup2 & _).
  rewrite E2 in E2'. injection E2' as <-.
  enough (earned th (observed_at s) e') as [_ _ H1 H2] by done.
  eapply (run_ticks_invariant th (earned th (observed_at s)) post e2); try done.
  - by rewrite Hrun2, Hrun1, Hup2.
  - intros e3 t3 e4 Hwf3 Hok3 Ht3 He3. rewrite Forall_forall in Howed. eapply earned_step; try done. by apply Howed.
Qed.

(** ** Suspension is not charged *)

Definition suspended_tick (rid : string) (t : Tick) : Prop :=
  ¬ heard (owned_in rid t) P_DEAD ∧ heard (owned_in rid t) P_SUSPENDED.

Lemma heard_parked owned : heard owned P_SUSPENDED → existsb parked owned = true.
Proof.
  intros (s & (Hs & Ha & Hp & _)%strong_elem & Hsus). apply existsb_elem. exists s. split; [done|].
  unfold parked, answering, advisory. by rewrite Ha, Hsus, (bool_decide_eq_false_2 (source s = PANE_ADVISORY)).
Qed.

(** A suspended tick freezes the clocks where the first one found them. *)
Lemma suspended_step th e t e' :
  thresholds_wf th → episode_wf e → tick_ok (e_run_id e) (updated_at e) t → suspended_tick (e_run_id e) t →
  tick_step th e t = Ok e' →
  (verdict e' = SUSPENDED ∨ verdict e' = RETAINED) ∧
  clocks e' = clocks e ∧ stall_frozen_since e' = or_time (stall_frozen_since e) (tk_now t).
Proof.
  intros Hth Hwf Hok [Hd Hs] E.
  destruct (tick_step_effect th e t Hth Hwf Hok)
    as (e1 & e2 & E1 & _ & _ & E2 & _ & _ & _ & _ & Hv & Hstep). rewrite E in E2. injection E2 as <-.
  unfold unfreeze_if_resumed in E1. rewrite (heard_parked _ Hs) in E1.
  assert (e1 = e) as -> by (destruct (_ =? 0); congruence).
  assert (verdict e' = if tk_retained t then RETAINED else SUSPENDED) as Hv'.
  { rewrite Hv. apply expected_eq; [by destruct (tk_retained t)..|]. unfold decision. cbn [ob_strong observe].
    by rewrite (proj2 (heard_false _ _) Hd), (proj2 (heard_true _ _) Hs). }
  rewrite Hv' in Hstep |- *. destruct (tk_retained t); destruct Hstep as (? & _ & ? & _); auto.
Qed.

Lemma suspended_run th e ticks e' f :
  thresholds_wf th → episode_wf e → ticks_ok (e_run_id e) (updated_at e) ticks →
  Forall (suspended_tick (e_run_id e)) ticks → stall_frozen_since e = f → f ≠ 0 →
  run_ticks th e ticks = Ok e' → clocks e' = clocks e ∧ stall_frozen_since e' = f.
Proof.
  intros Hth Hwf Hok Hsus Hf Hne E.
  enough (clocks e' = clocks e ∧ stall_frozen_since e' = f ∧ e_run_id e' = e_run_id e) as (? & ? & ?) by done.
  eapply (run_ticks_invariant th (λ x, clocks x = clocks e ∧ stall_frozen_since x = f ∧ e_run_id x = e_run_id e)); try done.
  intros e1 t e2 Hwf1 Hok1 Ht (Hc & Hf1 & Hrun) E1. rewrite Forall_forall in Hsus. specialize (Hsus t Ht).
  rewrite <-Hrun in Hsus. destruct (suspended_step th e1 t e2) as (_ & Hc2 & Hf2); try done.
  destruct (tick_step_effect th e1 t Hth Hwf1 Hok1) as (_ & e3 & _ & _ & _ & E3 & _ & Hrun3 & _).
  rewrite E1 in E3. injection E3 as <-. split_and!; [congruence| |congruence].
  rewrite Hf2, Hf1. unfold or_time. by rewrite (proj2 (Z.eqb_neq _ _)).
Qed.

Lemma shift_max now d a b :
  0 ≤ a → 0 ≤ b → 0 ≤ d → 0 ≤ now → Z.max (shift now d a) (shift now d b) = shift now d (Z.max a b).
Proof.
  intros. unfold shift. destruct (Z.max_spec a b) as [[? ->]|[? ->]];
    destruct (Z.eqb_spec a 0), (Z.eqb_spec b 0); lia.
Qed.

(** Shifting every clock by the frozen span shifts the quiet reference by it. *)
Lemma quiet_reference_shift e e1 f now :
  episode_wf e → 0 < started_at e → f ≤ now →
  started_at e ≤ f → last_progress_at e ≤ f → quiet_since e ≤ f → child_progress_at e ≤ f →
  clocks e1 = (let sh := shift now (Z.max 0 (now - f)) in
     (sh (started_at e), sh (last_progress_at e), sh (quiet_since e), sh (child_progress_at e), sh (child_activity_since e))) →
  quiet_reference e1 = quiet_reference e + (now - f).
Proof.
  intros Hwf Hst Hf H1 H2 H3 H4 Hc. pose proof (stamps_nonneg _ (ewf_valid _ Hwf)) as Hs. destruct_and! Hs.
  unfold clocks in Hc. injection Hc as Hc1 Hc2 Hc3 Hc4 _.
  unfold quiet_reference. rewrite Hc1, Hc2, Hc3, Hc4, !shift_max by lia.
  set (m := Z.max _ (child_progress_at e)). assert (0 ≤ m ≤ f) as Hm by lia. clearbody m. unfold or_time, shift.
  rewrite (proj2 (Z.eqb_neq (started_at e) 0)) by lia. destruct (Z.eqb_spec m 0) as [->|]; [cbn; lia|].
  rewrite (proj2 (Z.eqb_neq _ 0)) by lia. lia.
Qed.

Lemma quiet_reference_le e t :
  started_at e ≤ t → last_progress_at e ≤ t → quiet_since e ≤ t → child_progress_at e ≤ t → quiet_reference e ≤ t.
Proof. unfold quiet_reference, or_time. destruct (_ =? 0); lia. Qed.

(** C27. Time spent suspended is not charged to the head: however long a run of
    suspended ticks lasts, the first tick after it that finds the process
    resumed and quiet concludes what the quiet before the suspension earned,
    not a stall made of the suspension itself. *)
Theorem suspended_time_is_free th e first ticks t e' :
  thresholds_wf th → episode_wf e →
  stall_frozen_since e = 0 → 0 < started_at e →
  started_at e ≤ tk_now first → last_progress_at e ≤ tk_now first →
  quiet_since e ≤ tk_now first → child_progress_at e ≤ tk_now first →
  ticks_ok (e_run_id e) (updated_at e) (first :: ticks ++ [t]) →
  Forall (suspended_tick (e_run_id e)) (first :: ticks) →
  let owned := owned_in (e_run_id e) t in
  tk_owed t = 0 → existsb parked owned = false → ¬ heard owned P_DEAD → ¬ advanced owned →
  (∃ s, s ∈ strong_of owned ∧ progress s = G_QUIET) → owned_get owned EXECUTION_CHILD = None →
  run_ticks th e (first :: ticks ++ [t]) = Ok e' →
  verdict e' = quiet_verdict th (tk_now first - quiet_reference e).
Proof.
  intros Hth Hwf Hfr Hst H1 H2 H3 H4 Hok Hsus owned Howed Hpark Hdead Hadv Hq Hchild E.
  destruct Hok as [Hokf [Hok [Hokt _]]%ticks_ok_app]. inversion Hsus as [|? ? Hsf Hsr]; subst.
  unfold run_ticks in E. cbn [foldM] in E. apply bind_Ok in E as (e1 & E1 & E). fold (run_ticks th e1 (ticks ++ [t])) in E.
  destruct (suspended_step th e first e1 Hth Hwf Hokf Hsf E1) as (_ & Hc1 & Hf1). rewrite Hfr in Hf1. cbn in Hf1.
  destruct (tick_step_effect th e first Hth Hwf Hokf) as (_ & e1' & _ & _ & _ & E1' & Hwf1 & Hr1 & _ & Hu1 & _).
  rewrite E1 in E1'. injection E1' as <-. rewrite <-Hr1 in Hok, Hsr, Hokt. rewrite <-Hu1 in Hok.
  destruct (run_ticks_total th e1 ticks Hth Hwf1 Hok) as (e2 & E2 & Hwf2 & Hr2 & Hu2).
  rewrite run_ticks_app, E2 in E. unfold run_ticks in E. cbn [mbind res_bind foldM] in E.
  apply bind_Ok in E as (e3 & E3 & [= ->]).
  destruct (suspended_run th e1 ticks e2 (tk_now first) Hth Hwf1 Hok Hsr Hf1) as [Hc2 Hf2]; [lia|done|].
  rewrite Hu1 in Hu2. rewrite <-Hu2, <-Hr2 in Hokt.
  destruct (tick_step_effect th e2 t Hth Hwf2 Hokt) as (e4 & e5 & E4 & Hwf4 & _ & E5 & _ & _ & _ & _ & Hv & _).
  rewrite E3 in E5. injection E5 as <-. rewrite Hr2, Hr1 in Hv, E4. fold owned in Hv, E4.
  pose proof (run_ticks_clock th e1 ticks e2 Hth Hwf1 Hok E2) as Hle. pose proof (to_now _ _ _ Hokt) as Hle'.
  rewrite Hu1 in Hle. pose proof (stamps_nonneg _ (ewf_valid _ Hwf)) as Hnn.
  apply unfreeze_clocks in E4 as [[_ [?|?]]|(_ & _ & Hc4 & _)]; [lia|congruence|].
  rewrite Hf2 in Hc4. rewrite Hc1 in Hc2. unfold clocks in Hc2. injection Hc2 as C1 C2 C3 C4 C5.
  rewrite C1, C2, C3, C4, C5 in Hc4.
  rewrite Howed, expected_not_owed, decision_silent in Hv.
  - rewrite (proj2 (existsb_elem has_progress (strong_of owned))) in Hv.
    + rewrite Hv. cbv zeta. f_equal. rewrite (quiet_reference_shift e e4 (tk_now first) (tk_now t)); try done; [|lia].
      pose proof (quiet_reference_le e (tk_now first)). lia.
    + destruct Hq as (s & Hs & Hp). exists s. split; [done|]. unfold has_progress. by rewrite Hp.
  - split; try done.
    + intros Hn. destruct Hq as (s & Hs & _). rewrite Hn in Hs. set_solver.
    + intros Hh%heard_parked. congruence.
    + unfold child_holds. by rewrite Hchild.
Qed.

(** ** A child holds a head only for the child ceiling *)

(** A tick in which the head itself neither advances nor is suspended. *)
Definition head_idle (rid : string) (t : Tick) : Prop :=
  ¬ heard (owned_in rid t) P_SUSPENDED ∧ ¬ advanced (owned_in rid t).

Lemma child_since_clocks e e' : clocks e' = clocks e → child_since_of e' = child_since_of e.
Proof. unfold clocks, child_since_of, head_quiet_reference. congruence. Qed.

(** While the head is idle, the start of the child's streak never moves. *)
Lemma child_since_step th e t e' :
  thresholds_wf th → episode_wf e → tick_ok (e_run_id e) (updated_at e) t → head_idle (e_run_id e) t →
  stall_frozen_since e = 0 → 0 < child_since_of e → tick_step th e t = Ok e' →
  child_since_of e' = child_since_of e ∧ stall_frozen_since e' = 0 ∧
  (verdict e' = HEALTHY_ACTIVE → ∃ c, owned_get (owned_in (e_run_id e) t) EXECUTION_CHILD = Some c ∧
     observed_at c < child_since_of e + child_activity_ceiling th).
Proof.
  intros Hth Hwf Hok [Hs Hadv] Hf Hpos E.
  destruct (tick_step_effect th e t Hth Hwf Hok)
    as (e1 & e2 & E1 & _ & _ & E2 & _ & _ & _ & _ & Hv & Hstep). rewrite E in E2. injection E2 as <-.
  unfold unfreeze_if_resumed in E1. rewrite Hf in E1. injection E1 as <-.
  destruct (verdict e') eqn:Ev; cbn [clock_step] in Hstep;
    try (destruct Hstep as (Hc & _ & Hfr); split_and!; [by apply child_since_clocks|intuition congruence|done]).
  - destruct Hstep as (_ & _ & Hfr & [(s & (Hin & Hp & _) & _)|(_ & c & Hg & Hheld & Hc & _)]);
      [destruct Hadv; by exists s|].
    split_and!; [|done|].
    + unfold clocks in Hc. injection Hc as ? ? ? ? Hca. unfold child_since_of at 1, or_time. rewrite Hca.
      by rewrite (proj2 (Z.eqb_neq _ _)) by lia.
    + intros _. exists c. split; [done|]. unfold child_held in Hheld. lia.
  - by destruct (expected_unparked e (owned_in (e_run_id e) t) (tk_now t) th (tk_retained t) (tk_owed t) (tk_adapter t) Hs).
  - by destruct (expected_unparked e (owned_in (e_run_id e) t) (tk_now t) th (tk_retained t) (tk_owed t) (tk_adapter t) Hs).
Qed.

(** A working child excuses a quiet head only for so long: over any run of
    ticks in which the head itself neither advances nor is suspended, a
    HEALTHY_ACTIVE verdict needs a child reading taken less than
    [child_activity_ceiling] after the head's last own sign of life, however
    often children come and go in between. *)
Theorem child_hold_bounded th e ticks t e' :
  thresholds_wf th → episode_wf e → stall_frozen_since e = 0 → 0 < child_since_of e →
  ticks_ok (e_run_id e) (updated_at e) (ticks ++ [t]) →
  Forall (head_idle (e_run_id e)) (ticks ++ [t]) →
  run_ticks th e (ticks ++ [t]) = Ok e' → verdict e' = HEALTHY_ACTIVE →
  ∃ c, owned_get (owned_in (e_run_id e) t) EXECUTION_CHILD = Some c ∧
       observed_at c < child_since_of e + child_activity_ceiling th.
Proof.
  intros Hth Hwf Hf Hpos [Hok [Hokt _]]%ticks_ok_app [Hidle Hidt]%Forall_app E Hv.
  rewrite Forall_singleton in Hidt.
  destruct (run_ticks_total th e ticks Hth Hwf Hok) as (e1 & E1 & Hwf1 & Hr1 & Hu1).
  rewrite run_ticks_app, E1 in E. unfold run_ticks in E. cbn [mbind res_bind foldM] in E.
  apply bind_Ok in E as (e2 & E2 & [= ->]).
  assert (child_since_of e1 = child_since_of e ∧ stall_frozen_since e1 = 0 ∧ e_run_id e1 = e_run_id e) as (Hc1 & Hf1 & _).
  { eapply (run_ticks_invariant th (λ x, child_since_of x = child_since_of e ∧ stall_frozen_since x = 0 ∧
      e_run_id x = e_run_id e) ticks e e1); [done|done|done| |by split_and!|done].
    intros x tk y Hwfx Hokx Hin (Hcx & Hfx & Hrx) Ey. rewrite Forall_forall in Hidle. specialize (Hidle tk Hin).
    rewrite <-Hrx in Hidle. destruct (child_since_step th x tk y) as (? & ? & _); try done; [lia|].
    destruct (tick_step_effect th x tk Hth Hwfx Hokx) as (_ & z & _ & _ & _ & Ez & _ & Hrz & _).
    rewrite Ey in Ez. injection Ez as <-. split_and!; congruence. }
  rewrite <-Hr1, <-Hu1 in Hokt. rewrite <-Hr1 in Hidt.
  destruct (child_since_step th e1 t e' Hth Hwf1 Hokt Hidt Hf1) as (_ & _ & Hres); [lia|done|].
  destruct (Hres Hv) as (c & Hg & Hlt). exists c. rewrite <-Hr1. split; [done|lia].
Qed.
