(* ===== verification/HeadVitalityPolicy.v ===== *)
(** * The recovery policy (dispatch/head_vitality_policy.py)

    One tick's intent for one head, chosen from its persisted episode alone:
    the deterministic-refusal arm, the nudge, and the SIGCONT rungs keyed on
    the suspension span. *)

From S2P Require Import Prelude PyText HeadVitality HeadVitalityEpisode HeadVitalityReduce.

Definition DECISION_VERSION : Z := 1.

Inductive RecoveryIntent :=
| OBSERVE | NUDGE | SIGCONT | REQUEST_DRAIN | ESCALATE_OPERATOR | RESPAWN | BLOCK.

#[global] Instance RecoveryIntent_eq_dec : EqDecision RecoveryIntent.
Proof. solve_decision. Defined.

#[global, refine] Instance RecoveryIntent_enum : StrEnum RecoveryIntent := {|
  enum_value i := match i with
    | OBSERVE => "observe" | NUDGE => "nudge" | SIGCONT => "sigcont"
    | REQUEST_DRAIN => "request_drain" | ESCALATE_OPERATOR => "escalate_operator"
    | RESPAWN => "respawn" | BLOCK => "block" end;
  enum_members := [OBSERVE; NUDGE; SIGCONT; REQUEST_DRAIN; ESCALATE_OPERATOR; RESPAWN; BLOCK] |}.
Proof. all: solve_enum. Defined.

Definition RUNG_NONE : Z := 0.
Definition RUNG_SUSPICION_NOTED : Z := 1.
Definition RUNG_SIGCONT_SENT : Z := 2.
Definition RUNG_RESPONSE_WINDOW : Z := 3.
Definition RUNG_ESCALATED : Z := 4.

Inductive DeterministicReasonClass :=
| INVALID_CONFIGURATION | MISSING_EXECUTABLE | AUTHENTICATION_REJECTED
| RESOURCE_EXHAUSTED | SPLIT_SOURCE_NOT_FOUND.

#[global] Instance DeterministicReasonClass_eq_dec : EqDecision DeterministicReasonClass.
Proof. solve_decision. Defined.

#[global, refine] Instance DeterministicReasonClass_enum : StrEnum DeterministicReasonClass := {|
  enum_value c := match c with
    | INVALID_CONFIGURATION => "invalid_configuration"
    | MISSING_EXECUTABLE => "missing_executable"
    | AUTHENTICATION_REJECTED => "authentication_rejected"
    | RESOURCE_EXHAUSTED => "resource_exhausted"
    | SPLIT_SOURCE_NOT_FOUND => "split_source_not_found" end;
  enum_members := [INVALID_CONFIGURATION; MISSING_EXECUTABLE; AUTHENTICATION_REJECTED;
                   RESOURCE_EXHAUSTED; SPLIT_SOURCE_NOT_FOUND] |}.
Proof. all: solve_enum. Defined.

Definition DETERMINISTIC_TERMINAL_REASONS : list (string * DeterministicReasonClass) := [
  ("terminal_split_source_not_found", SPLIT_SOURCE_NOT_FOUND);
  ("terminal_split_invalid_request", INVALID_CONFIGURATION);
  ("head_executable_not_found", MISSING_EXECUTABLE);
  ("authentication_rejected", AUTHENTICATION_REJECTED);
  ("resource_exhausted", RESOURCE_EXHAUSTED)].

(** The class of the first table token the reason contains. *)
Definition deterministic_reason_class (reason : string) : option DeterministicReasonClass :=
  snd <$> List.find (λ p, str_contains p.1 reason) DETERMINISTIC_TERMINAL_REASONS.

(** ** Thresholds and decisions *)

Record RecoveryThresholds := {
  response_window_seconds : Z;
  deterministic_refusal_limit : Z;
}.

Definition new_recovery_thresholds (window limit : pyval) : res RecoveryThresholds :=
  let bad := Exn "ValueError" "recovery threshold response_window_seconds is positive and finite" in
  w_o ← finite_number window;
  w ← (match w_o with Some w => if w <=? 0 then Raise bad else Ok w | None => Raise bad end);
  l ← (match limit with
       | VInt l => if l <? 1
                   then Raise (Exn "ValueError" "recovery threshold deterministic_refusal_limit is a positive int")
                   else Ok l
       | _ => Raise (Exn "ValueError" "recovery threshold deterministic_refusal_limit is a positive int")
       end);
  Ok {| response_window_seconds := w; deterministic_refusal_limit := l |}.

Definition DEFAULT_RECOVERY_THRESHOLDS : RecoveryThresholds :=
  {| response_window_seconds := seconds (5 * 60); deterministic_refusal_limit := 3 |}.

(** What the constructor guarantees. *)
Definition recovery_thresholds_wf (t : RecoveryThresholds) : Prop :=
  0 < response_window_seconds t ∧ 1 ≤ deterministic_refusal_limit t.

Record RecoveryDecision := {
  intent : RecoveryIntent;
  rung : Z;
  refusals : Z;
  d_reason : string;
  detail : list (string * pyval);
}.

Definition decision_to_json (d : RecoveryDecision) : pyval :=
  VDict [
    ("version", VInt DECISION_VERSION);
    ("intent", VStr (enum_value (intent d)));
    ("rung", VInt (rung d));
    ("refusals", VInt (refusals d));
    ("reason", VStr (d_reason d));
    ("detail", VDict (detail d))].

(** [apply_rung_state]: the decision's rung written back onto the episode. *)
Definition apply_rung_state (e : VitalityEpisode) (d : RecoveryDecision) : res VitalityEpisode :=
  replace (e <| recovery_rung := rung d |>
             <| recovery_span_started_at := stall_frozen_since e |>
             <| deterministic_refusals := refusals d |>).

(** ** The arms *)

(** [_previous_or_observe]. *)
Definition previous_or_observe (previous : option VitalityEpisode) (why : string) : RecoveryDecision :=
  match previous with
  | Some p => {| intent := OBSERVE; rung := recovery_rung p; refusals := deterministic_refusals p;
                 d_reason := why; detail := [] |}
  | None => {| intent := OBSERVE; rung := RUNG_NONE; refusals := 0; d_reason := why; detail := [] |}
  end.

(** [_decide_deterministic]. *)
Definition decide_deterministic (e : VitalityEpisode) (previous : option VitalityEpisode)
    (th : RecoveryThresholds) (cls : DeterministicReasonClass) : RecoveryDecision :=
  let seen := match previous with
    | Some p => Z.max (deterministic_refusals e) (deterministic_refusals p)
    | None => deterministic_refusals e
    end in
  let n := seen + 1 in
  let d := [("deterministic_class", VStr (enum_value cls)); ("identical_refusals", VInt n);
            ("limit", VInt (deterministic_refusal_limit th))] in
  if deterministic_refusal_limit th <=? n then
    {| intent := ESCALATE_OPERATOR; rung := Z.max (recovery_rung e) RUNG_ESCALATED; refusals := n;
       d_reason := "deterministic refusal '" +:+ enum_value cls +:+ "' repeated " +:+ pretty n
         +:+ "x: retrying cannot change it, escalating to the operator instead of re-sending";
       detail := d |}
  else
    {| intent := OBSERVE; rung := recovery_rung e; refusals := n;
       d_reason := "deterministic refusal '" +:+ enum_value cls +:+ "' (" +:+ pretty n +:+ "x of "
         +:+ pretty (deterministic_refusal_limit th) +:+ "): counting toward fast escalation";
       detail := d |}.

(** The span the previous rung state belongs to is this episode's span. *)
Definition same_span (e : VitalityEpisode) (previous : option VitalityEpisode) : bool :=
  match previous with
  | Some p => (RUNG_SIGCONT_SENT <=? recovery_rung p) && (0 <? recovery_span_started_at p)
              && (recovery_span_started_at p =? stall_frozen_since e)
  | None => false
  end.

Definition previous_rung (previous : option VitalityEpisode) : Z :=
  match previous with Some p => recovery_rung p | None => 0 end.

(** [_decide_suspended]. *)
Definition decide_suspended (e : VitalityEpisode) (previous : option VitalityEpisode) (now : Z)
    (th : RecoveryThresholds) : RecoveryDecision :=
  let span := stall_frozen_since e in
  let window := response_window_seconds th in
  if negb (same_span e previous) then
    {| intent := SIGCONT; rung := RUNG_RESPONSE_WINDOW; refusals := deterministic_refusals e;
       d_reason := "process parked on a stop signal: send one identity-fenced SIGCONT, then hold a "
         +:+ show_seconds window +:+ "s response window";
       detail := [("span_started_at", time_val span); ("response_window_seconds", time_val window);
                  ("window_expires_at", time_val (now + window))] |}
  else if RUNG_ESCALATED <=? previous_rung previous then
    {| intent := OBSERVE; rung := RUNG_ESCALATED; refusals := deterministic_refusals e;
       d_reason := "still suspended past the response window; the operator has been escalated for this span and the head remains untouched";
       detail := [("span_started_at", time_val span)] |}
  else
    let suspended_for := Z.max 0 (now - span) in
    if suspended_for <=? window then
      {| intent := OBSERVE; rung := RUNG_RESPONSE_WINDOW; refusals := deterministic_refusals e;
         d_reason := "SIGCONT sent this span; inside the response window ("
           +:+ show_seconds suspended_for +:+ "s of " +:+ show_seconds window +:+ "s)";
         detail := [("span_started_at", time_val span); ("suspended_for_seconds", time_val suspended_for);
                    ("window_expires_at", time_val (span + window))] |}
    else
      {| intent := ESCALATE_OPERATOR; rung := RUNG_ESCALATED; refusals := deterministic_refusals e;
         d_reason := "suspended for " +:+ show_seconds suspended_for +:+ "s -- past the "
           +:+ show_seconds window
           +:+ "s response window even after SIGCONT; escalating to the operator, NOT stopping the process";
         detail := [("span_started_at", time_val span);
                    ("suspended_for_seconds", time_val suspended_for)] |}.

(** The decision once the clock and thresholds are readable. *)
Definition decide_readable (e : VitalityEpisode) (previous : option VitalityEpisode) (now : Z)
    (th : RecoveryThresholds) : RecoveryDecision :=
  match verdict e with
  | RETAINED =>
      {| intent := OBSERVE; rung := RUNG_NONE; refusals := 0; d_reason := "";
         detail := [("verdict", VStr (enum_value (verdict e))); ("retained", VBool true)] |}
  | v =>
      match deterministic_reason_class (e_reason e) with
      | Some cls => decide_deterministic e previous th cls
      | None =>
          match v with
          | SUSPECTED_STALL =>
              {| intent := NUDGE; rung := RUNG_SUSPICION_NOTED; refusals := deterministic_refusals e;
                 d_reason := if nonempty (e_reason e) then e_reason e
                             else "strong quiet past the suspect threshold";
                 detail := [("suspected_since", time_val (suspected_since e))] |}
          | SUSPENDED => decide_suspended e previous now th
          | _ =>
              {| intent := OBSERVE; rung := RUNG_NONE; refusals := 0; d_reason := "";
                 detail := [("verdict", VStr (enum_value v))] |}
          end
      end
  end.

Definition decide_recovery (episode previous : option VitalityEpisode) (now : pyval)
    (thresholds : option RecoveryThresholds) : res RecoveryDecision :=
  match episode with
  | None => Ok (previous_or_observe previous "no persisted episode to decide from")
  | Some e =>
      now_o ← finite_number now;
      match now_o, thresholds with
      | None, _ => Ok (previous_or_observe previous "the policy was handed a clock it cannot read")
      | _, None => Ok (previous_or_observe previous "the policy was handed thresholds it cannot read")
      | Some now, Some th => Ok (decide_readable e previous now th)
      end
  end.
