(* ===== verification/HeadVitalityGuard.v ===== *)
(** * The destructive guard (dispatch/head_vitality_guard.py)

    The last fence between a verdict and a stop, kill, respawn or replace. *)

From S2P Require Import Prelude PyText HeadVitality HeadVitalityEpisode HeadVitalityReduce.

Definition PROGRESS_SOURCE_NAMES : list string := ["provider_cursor"].

Inductive GuardRefusal :=
| R_MISSING_EPISODE | R_FOREIGN_RUN | R_HEALTHY_ACTIVE | R_HEALTHY_QUIET | R_SUSPENDED | R_RETAINED
| R_UNVERIFIABLE | R_SUSPECTED_STALL | R_PID_ONLY_CEILING_UNELAPSED.

#[global] Instance GuardRefusal_eq_dec : EqDecision GuardRefusal.
Proof. solve_decision. Defined.

#[global, refine] Instance GuardRefusal_enum : StrEnum GuardRefusal := {|
  enum_value r := match r with
    | R_MISSING_EPISODE => "missing-episode" | R_FOREIGN_RUN => "foreign-run"
    | R_HEALTHY_ACTIVE => "healthy-active" | R_HEALTHY_QUIET => "healthy-quiet"
    | R_SUSPENDED => "suspended" | R_RETAINED => "retained" | R_UNVERIFIABLE => "unverifiable"
    | R_SUSPECTED_STALL => "suspected-stall"
    | R_PID_ONLY_CEILING_UNELAPSED => "pid-only-ceiling-unelapsed" end;
  enum_members := [R_MISSING_EPISODE; R_FOREIGN_RUN; R_HEALTHY_ACTIVE; R_HEALTHY_QUIET; R_SUSPENDED;
                   R_RETAINED; R_UNVERIFIABLE; R_SUSPECTED_STALL; R_PID_ONLY_CEILING_UNELAPSED] |}.
Proof. all: solve_enum. Defined.

(** [_REFUSED_VERDICTS]. *)
Definition REFUSED_VERDICTS (v : VitalityVerdict) : option (GuardRefusal * string) :=
  match v with
  | HEALTHY_ACTIVE => Some (R_HEALTHY_ACTIVE, "the head is advancing right now")
  | HEALTHY_QUIET => Some (R_HEALTHY_QUIET, "the head is alive and quiet below every stall threshold")
  | UNVERIFIABLE => Some (R_UNVERIFIABLE, "no strong channel answered; nothing is concluded")
  | SUSPENDED => Some (R_SUSPENDED,
      "the process is parked on a stop signal: SIGCONT territory, not kill territory")
  | RETAINED => Some (R_RETAINED,
      "the dispatcher's own confirmed retention is holding this process: not a head to recover")
  | SUSPECTED_STALL => Some (R_SUSPECTED_STALL,
      "suspicion authorises one idempotent nudge, never destruction")
  | CONFIRMED_STALL | DEAD => None
  end.

Record GuardDecision := {
  g_action : string;
  allowed : bool;
  refusal : option GuardRefusal;
  g_reason : string;
  g_verdict : string;
  episode_run_id : string;
}.

Definition guard_to_json (d : GuardDecision) : pyval :=
  VDict [
    ("action", VStr (g_action d));
    ("allowed", VBool (allowed d));
    ("refusal", VStr (match refusal d with Some r => enum_value r | None => "" end));
    ("reason", VStr (g_reason d));
    ("verdict", VStr (g_verdict d));
    ("episode_run_id", VStr (episode_run_id d))].

(** The progress-source names among the keys of a dict. *)
Definition progress_names {A} (d : list (string * A)) : list string :=
  List.filter (λ n, dict_has d n) PROGRESS_SOURCE_NAMES.

Definition is_nonempty {A} (l : list A) : bool := match l with [] => false | _ => true end.

(** [_progress_source_answering]. *)
Definition progress_source_answering (e : VitalityEpisode) : bool :=
  let witnessed := is_nonempty (progress_names (evidence_cursors e)) || (0 <? last_progress_at e) in
  let dark := is_nonempty (progress_names (unavailable_since e)) in
  witnessed && negb dark.

(** [_refused]. *)
Definition refused (action : string) (r : GuardRefusal) (why : string) (e : option VitalityEpisode) :
    GuardDecision :=
  {| g_action := action; allowed := false; refusal := Some r; g_reason := why;
     g_verdict := from_option (λ e, enum_value (verdict e)) "" e;
     episode_run_id := from_option e_run_id "" e |}.

Definition basis_text (e : VitalityEpisode) : string :=
  if is_nonempty (basis e) then String.concat ", " (basis e) else "none".

(** The elapsed time the pid-only rule compares with the outer ceiling. *)
Definition pid_only_held (e : VitalityEpisode) (now ceiling : Z) : bool :=
  bool_decide (verdict e = CONFIRMED_STALL) && negb (progress_source_answering e)
  && (0 <? ceiling) && (Z.max 0 (now - started_at e) <? ceiling).

Definition pid_only_reason (e : VitalityEpisode) (now ceiling : Z) : string :=
  let dark := sort_strings (progress_names (unavailable_since e)) in
  "confirmation was earned "
    +:+ (if is_nonempty dark then "with " +:+ String.concat ", " dark +:+ " dark (secretary-1543 arm)"
         else "on the pid alone (issue 656 arm)")
    +:+ ", so the outer ceiling of " +:+ show_seconds ceiling +:+ "s must also have elapsed ("
    +:+ show_seconds (Z.max 0 (now - started_at e)) +:+ "s have)".

Definition assert_destructive_allowed (episode : option VitalityEpisode) (action : string)
    (now : pyval) (current_run_id : string) (pid_only_outer_ceiling_seconds : Z) : res GuardDecision :=
  now_o ← finite_number now;
  match now_o with
  | None => Ok (refused action R_MISSING_EPISODE
                  "the guard was handed a clock it cannot read; waiting is the safe side" None)
  | Some now =>
      match episode with
      | None => Ok (refused action R_MISSING_EPISODE
          "no vitality episode is on file; a destructive step nobody observed would act on nobody's evidence"
          None)
      | Some e =>
          if nonempty current_run_id && negb (String.eqb (e_run_id e) current_run_id) then
            Ok (refused action R_FOREIGN_RUN
              ("the persisted episode names run " +:+ e_run_id e +:+ ", not the current run "
                 +:+ current_run_id
                 +:+ ": one run's stall verdict must never execute against its replacement") (Some e))
          else
            match REFUSED_VERDICTS (verdict e) with
            | Some (r, why) =>
                Ok (refused action r (why +:+ " (basis: " +:+ basis_text e +:+ ")") (Some e))
            | None =>
                if negb (bool_decide (verdict e = CONFIRMED_STALL)) && negb (bool_decide (verdict e = DEAD)) then
                  Ok (refused action R_UNVERIFIABLE
                        ("verdict " +:+ enum_value (verdict e)
                           +:+ " is not one the guard knows as destructive-authorising; refusing on principle")
                        (Some e))
                else if pid_only_held e now pid_only_outer_ceiling_seconds then
                  Ok (refused action R_PID_ONLY_CEILING_UNELAPSED
                        (pid_only_reason e now pid_only_outer_ceiling_seconds) (Some e))
                else
                  Ok {| g_action := action; allowed := true; refusal := None;
                        g_reason := enum_value (verdict e) +:+ " stands (basis: " +:+ basis_text e +:+ ")";
                        g_verdict := enum_value (verdict e); episode_run_id := e_run_id e |}
            end
      end
  end.
