(* ===== verification/WaitVitality.v ===== *)
(** * The wait tick (dispatch/wait_vitality.py)

    One tick of the dispatcher's wait on a worker or reviewer head: the
    observation that reduces and stores the role's episode, the recovery policy
    with its persisted rungs, the one report prompt of a round
    (dispatch/worker_report.py, dispatch/worker_lifecycle.py), the guarded
    destructive step, and the table that turns the verdict into an action.

    The tick runs in a state monad over the card's record, with the log of what
    it did to the world; an exception leaves both as they were when it was
    raised.  The host, the clock and the environment are
    parameters: what they answered this tick is a field of [Host]. *)

From S2P Require Import Prelude PyText HeadVitality HeadVitalityEpisode HeadVitalityReduce HeadVitalityPolicy.
From S2P Require Import HeadVitalityGuard.

(** ** The time ceilings (dispatch/watchdog.py, infra/env.py) *)

Definition REVIEW_VERDICT_STALL_DEFAULT : Z := 90 * 60.
Definition WORKER_REPORT_STALL_DEFAULT : Z := 6 * 60 * 60.
Definition INITIAL_OUTPUT_STALL_DEFAULT : Z := 3 * 60.
Definition SUSPENSION_RESPONSE_WINDOW_DEFAULT : Z := 5 * 60.

(** [positive_int]: an environment value that is not a positive integer falls
    back to the default. *)
Definition positive_int (env : string → option string) (name : string) (dflt : Z) : Z :=
  match env name with
  | None => dflt
  | Some text =>
      if nonempty text
      then match parse_int 10 text with
           | Some v => if 0 <? v then v else dflt
           | None => dflt
           end
      else dflt
  end.

Inductive Kind := Worker | Review.

#[global] Instance Kind_eq_dec : EqDecision Kind.
Proof. solve_decision. Defined.

Definition kind_name (k : Kind) : string := match k with Worker => "worker" | Review => "review" end.

(** The step a tick's outcome is filed under. *)
Definition step_name (k : Kind) : string := match k with Worker => "advance" | Review => "review" end.

Section watchdog.
Context (env : string → option string).

Definition stall_seconds (k : Kind) : Z :=
  match k with
  | Review => positive_int env "UMMANU_REVIEW_VERDICT_STALL_SECONDS" REVIEW_VERDICT_STALL_DEFAULT
  | Worker => positive_int env "UMMANU_WORKER_REPORT_STALL_SECONDS" WORKER_REPORT_STALL_DEFAULT
  end.

Definition initial_output_stall_seconds : Z :=
  positive_int env "UMMANU_INITIAL_OUTPUT_STALL_SECONDS" INITIAL_OUTPUT_STALL_DEFAULT.

Definition suspension_response_window_seconds : Z :=
  positive_int env "UMMANU_HEAD_SUSPENSION_RESPONSE_SECONDS" SUSPENSION_RESPONSE_WINDOW_DEFAULT.

End watchdog.

(** ** The report prompt's own state (dispatch/worker_lifecycle.py) *)

Inductive ReportNudgeStage := N_NONE | N_PENDING | N_DELIVERED.

#[global] Instance ReportNudgeStage_eq_dec : EqDecision ReportNudgeStage.
Proof. solve_decision. Defined.

#[global, refine] Instance ReportNudgeStage_enum : StrEnum ReportNudgeStage := {|
  enum_value s := match s with N_NONE => "none" | N_PENDING => "pending" | N_DELIVERED => "delivered" end;
  enum_members := [N_NONE; N_PENDING; N_DELIVERED] |}.
Proof. all: solve_enum. Defined.

Record WorkerReportNudge := { n_stage : ReportNudgeStage; n_generation : Z; n_sent_at : Z }.

Definition spent (n : WorkerReportNudge) (generation : Z) : bool :=
  negb (bool_decide (n_stage n = N_NONE)) && (n_generation n =? generation).

Definition unconfirmed (n : WorkerReportNudge) : bool := bool_decide (n_stage n = N_PENDING).

Definition nudge_begin (n : WorkerReportNudge) (generation now : Z) : res WorkerReportNudge :=
  if spent n generation
  then Raise (Exn "ValueError" ("report generation " +:+ pretty generation +:+ " has already been prompted"))
  else Ok {| n_stage := N_PENDING; n_generation := generation; n_sent_at := now |}.

Definition nudge_confirm (n : WorkerReportNudge) : res WorkerReportNudge :=
  match n_stage n with
  | N_NONE => Raise (Exn "ValueError" "cannot confirm a report prompt from none")
  | _ => Ok {| n_stage := N_DELIVERED; n_generation := n_generation n; n_sent_at := n_sent_at n |}
  end.

(** ** The record the tick reads and writes *)

(** One role's slot of the dispatcher record. *)
Record RoleState := {
  vitality_episode : option VitalityEpisode;
  head_run_id : string;
  head_adapter : string;
  waiting_since : Z;
  role_started_at : Z;
  progress_at : Z;
  respawns : Z;
  role_paused_at : Z;
  pid_file : string;
  idle_since : Z;
  idle_confirmations : Z;
}.

#[global] Instance RoleState_eta : Settable RoleState := λ r,
  Build_RoleState (vitality_episode r) (head_run_id r) (head_adapter r) (waiting_since r)
    (role_started_at r) (progress_at r) (respawns r) (role_paused_at r) (pid_file r)
    (idle_since r) (idle_confirmations r).

(** [reset_idle] (dispatch/watchdog.py). *)
Definition reset_idle (s : RoleState) : RoleState := s <| idle_since := 0 |> <| idle_confirmations := 0 |>.

Record WaitRecord := {
  worker_slot : RoleState;
  review_slot : RoleState;
  worker_retained : bool;
  worker_answer_owed_since : Z;
  report_generation : Z;
  worker_report_nudge : WorkerReportNudge;
  comment_baseline : string;
}.

#[global] Instance WaitRecord_eta : Settable WaitRecord := λ r,
  Build_WaitRecord (worker_slot r) (review_slot r) (worker_retained r) (worker_answer_owed_since r)
    (report_generation r) (worker_report_nudge r) (comment_baseline r).

(** [getattr(record, f"{kind}_...")]. *)
Definition slot (k : Kind) (r : WaitRecord) : RoleState :=
  match k with Worker => worker_slot r | Review => review_slot r end.

Definition with_slot (k : Kind) (f : RoleState → RoleState) (r : WaitRecord) : WaitRecord :=
  match k with
  | Worker => r <| worker_slot := f (worker_slot r) |>
  | Review => r <| review_slot := f (review_slot r) |>
  end.

Definition wait_cycle_token (r : WaitRecord) : string :=
  comment_baseline r +:+ "-" +:+ pretty (respawns (worker_slot r))
    +:+ "-" +:+ pretty (respawns (review_slot r)).

(** ** The tick monad *)

(** What a tick did to the world, in order.  [Saved r]: the card's record was
    persisted, as it then was. *)
Inductive Effect :=
| Saved (r : WaitRecord)
| Commented (topic suffix : string)
| Prompted (generation : Z)   (* the prompt was sent, whether or not it arrived *)
| Resumed (k : Kind)
| Respawned (k : Kind) (trigger : string)
| Escalated (k : Kind) (trigger : string).

(** A step that replaces the head or gives it up. *)
Definition destructive (x : Effect) : bool :=
  match x with Respawned _ _ | Escalated _ _ => true | _ => false end.

(** A raised exception keeps the record as the statements before it left it,
    and everything they did to the world. *)
Definition M (A : Type) : Type := WaitRecord → res A * WaitRecord * list Effect.

#[global] Instance M_ret : MRet M := λ A a r, (Ok a, r, []).
#[global] Instance M_bind : MBind M := λ A B f m r,
  match m r with
  | (Ok a, r1, l1) => let '(b, r2, l2) := f a r1 in (b, r2, l1 ++ l2)
  | (Raise e, r1, l1) => (Raise e, r1, l1)
  end.

Definition ask : M WaitRecord := λ r, (Ok r, r, []).
Definition modify (f : WaitRecord → WaitRecord) : M unit := λ r, (Ok tt, f r, []).
Definition tell (x : Effect) : M unit := λ r, (Ok tt, r, [x]).
Definition lift {A} (m : res A) : M A := λ r, (m, r, []).

(** [save_records]. *)
Definition save : M unit := λ r, (Ok tt, r, [Saved r]).

(** [setattr(record, ...)] then [save_records]. *)
Definition store_slot (k : Kind) (f : RoleState → RoleState) : M unit :=
  modify (with_slot k f) ≫= λ _, save.

Definition comment (topic suffix : string) : M unit := tell (Commented topic suffix).

Record Outcome := { o_status : string; o_action : string; o_reason : string }.

(** ** What the world answered this tick *)

(** What sending the report prompt answered: delivered, refused by the host, or
    another exception. *)
Inductive PromptAnswer := Delivered | Refused (why : string) | Broken (e : exn).

Inductive IdentityCheck := LiveMatch | NotLive | Mismatch.

(** What sending SIGCONT answered: sent, no such process, or another OS error. *)
Inductive SignalAnswer := Landed | Vanished | Unresumable (message : string).

Record Host := {
  h_env : string → option string;
  h_noop : bool;
  (** successive readings of [time.time()] after the tick's own [now] *)
  h_clock : nat → Z;
  (** [worker_addressable], and what sending the prompt answered *)
  h_addressable : bool;
  h_prompt : PromptAnswer;
  (** the identity fence before SIGCONT, and what the signal answered *)
  h_identity : IdentityCheck;
  h_signal : SignalAnswer;
  (** the bring-up behind a permitted respawn, and the Blocked transition behind
      a permitted escalation: their outcome, or the exception that left them *)
  h_respawn : string → res Outcome;
  h_escalate : string → res Outcome;
}.

Definition outcome (status action why : string) : Outcome :=
  {| o_status := status; o_action := action; o_reason := why |}.

Definition set_episode (e : option VitalityEpisode) (s : RoleState) : RoleState := s <| vitality_episode := e |>.

(** ** Observation: reduce this tick's status into the role's episode *)

(** [answer_owed_since_for_wait]. *)
Definition answer_owed_since_for_wait (r : WaitRecord) (k : Kind) : Z :=
  match k with
  | Review => role_started_at (review_slot r)
  | Worker => Z.max (role_started_at (worker_slot r)) (worker_answer_owed_since r)
  end.

Definition is_dict_val (v : pyval) : bool := match v with VDict _ => true | _ => false end.

(** Whether the status carries any reading at all. *)
Definition observed (status : list (string * pyval)) : bool :=
  is_dict_val (get status "pid_status") || is_dict_val (get status "provider_progress")
  || dict_has status "idle" || is_dict_val (get status "child_activity")
  || dict_has status "supervisor_journal".

(** The cursor the previous episode keeps for one source. *)
Definition kept_cursor (previous : option VitalityEpisode) (src : SnapshotSource) : string :=
  from_option (λ p, default "" (dict_get (evidence_cursors p) (enum_value src))) "" previous.

(** The previous episode when it belongs to this run. *)
Definition same_run (previous : option VitalityEpisode) (rid : string) : option VitalityEpisode :=
  p ← previous; if String.eqb (e_run_id p) rid then Some p else None.

Section tick.
Context `{PyRepr} (h : Host).

(** [reduce_and_store_vitality_episode]. *)
Definition reduce_and_store (k : Kind) (status : list (string * pyval)) (now : Z) (owed : option Z) :
    M (option VitalityEpisode) :=
  r ← ask;
  let previous := vitality_episode (slot k r) in
  let rid := head_run_id (slot k r) in
  if negb (nonempty rid) then
    modify (with_slot k (set_episode None)) ≫= λ _, mret None
  else if negb (observed status) then mret None
  else
    snapshots ← lift (snapshots_from_status (VDict status) rid
        (kept_cursor previous PROVIDER_CURSOR)
        (kept_cursor (same_run previous rid) EXECUTION_CHILD)
        (from_option last_child_key "" (same_run previous rid))
        (kept_cursor (same_run previous rid) SUPERVISOR_JOURNAL)
        (time_val now));
    let retained := match k with Worker => worker_retained r | Review => false end in
    let owed := default (match k with Worker => worker_answer_owed_since r | Review => 0 end) owed in
    match reduce_vitality previous snapshots (time_val now) DEFAULT_VITALITY_THRESHOLDS retained
            (time_val owed) (head_adapter (slot k r)) with
    | Raise _ =>
        comment (kind_name k +:+ "-vitality-error") (py_str (time_val now)) ≫= λ _, mret None
    | Ok e =>
        store_slot k (set_episode (Some e)) ≫= λ _,
        if from_option (λ p, bool_decide (verdict p = verdict e)) false previous then mret (Some e)
        else
          comment (kind_name k +:+ "-vitality-verdict")
            (from_option (λ p, enum_value (verdict p)) "none" previous +:+ "->" +:+ enum_value (verdict e))
          ≫= λ _, mret (Some e)
    end.

(** ** The recovery policy and its rungs *)

Definition recovery_thresholds : res RecoveryThresholds :=
  new_recovery_thresholds (time_val (seconds (suspension_response_window_seconds (h_env h))))
    (VInt (deterministic_refusal_limit DEFAULT_RECOVERY_THRESHOLDS)).

(** [_recovery_policy_decision]: the decision, and the episode with its rung
    written back; an observe that changes nothing rewrites nothing. *)
Definition recovery_policy_decision (episode : option VitalityEpisode) (now : Z) :
    res (option (RecoveryDecision * VitalityEpisode)) :=
  match episode with
  | None => Ok None
  | Some e =>
      th ← recovery_thresholds;
      d ← decide_recovery (Some e) (Some e) (time_val now) (Some th);
      if bool_decide (intent d = OBSERVE) && ((recovery_rung e =? rung d)
           && (deterministic_refusals e =? refusals d))
      then Ok (Some (d, e))
      else e' ← apply_rung_state e d; Ok (Some (d, e'))
  end.

(** Whether the policy rewrote the episode, and so must persist it. *)
Definition policy_changed (d : RecoveryDecision) (e : VitalityEpisode) : bool :=
  negb (bool_decide (intent d = OBSERVE) && ((recovery_rung e =? rung d)
        && (deterministic_refusals e =? refusals d))).

(** [_run_recovery_policy]. *)
Definition run_recovery_policy (k : Kind) (episode : option VitalityEpisode) (now : Z) :
    M (option RecoveryDecision) :=
  asked ← lift (recovery_policy_decision episode now);
  match asked, episode with
  | Some (d, updated), Some e =>
      (if policy_changed d e then store_slot k (set_episode (Some updated)) else mret tt)
      ≫= λ _, mret (Some d)
  | _, _ => mret None
  end.

(** [_escalate_recovery_to_operator]. *)
Definition escalate_recovery (k : Kind) (d : RecoveryDecision) : M Outcome :=
  comment (kind_name k +:+ "-deterministic-refusal")
    (py_str (match dict_get (detail d) "identical_refusals" with
             | Some v => if py_truthy v then v else VInt 0 | None => VInt 0 end)) ≫= λ _,
  mret (outcome "degraded" (kind_name k +:+ "-deterministic-refusal-escalated") (d_reason d)).

(** [recovery_policy_outcome]. *)
Definition recovery_policy_outcome (k : Kind) (episode : option VitalityEpisode) (now : Z) :
    M (option Outcome) :=
  d ← run_recovery_policy k episode now;
  match d with
  | Some d => if bool_decide (intent d = ESCALATE_OPERATOR)
              then escalate_recovery k d ≫= λ o, mret (Some o) else mret None
  | None => mret None
  end.

(** [_sigcont_head]: whether the signal was sent. *)
Definition sigcont_head (k : Kind) : M bool :=
  r ← ask;
  if h_noop h || negb (nonempty (pid_file (slot k r))) then mret false
  else match h_identity h with
  | LiveMatch =>
      match h_signal h with
      | Landed => tell (Resumed k) ≫= λ _, mret true
      | Vanished => mret false
      | Unresumable message => lift (Raise (Exn "HostError" message))
      end
  | NotLive | Mismatch => mret false
  end.

(** A stamp of the decision's detail. *)
Definition detail_time (d : RecoveryDecision) (key : string) : Z :=
  match dict_get (detail d) key with Some (VFloat (FFin t)) => t | _ => 0 end.

(** [f"{t:.0f}"]: rounded to the nearest whole second, ties to even. *)
Definition fmt_0f (t : Z) : string :=
  let q := t / SECOND in
  let r := 2 * (t mod SECOND) in
  pretty (if r <? SECOND then q else if SECOND <? r then q + 1 else q + q mod 2).

(** [_escalate_suspended_head]: one durable comment per suspension span. *)
Definition escalate_suspended_head (k : Kind) (d : RecoveryDecision) : M unit :=
  comment (kind_name k +:+ "-suspension-window-expired")
    ("suspended@" +:+ show_seconds (detail_time d "span_started_at")).

(** [execute_recovery_intent]: the whole Suspended arm. *)
Definition execute_recovery_intent (k : Kind) (episode : option VitalityEpisode) (now : Z) : M Outcome :=
  asked ← lift (recovery_policy_decision episode now);
  match asked with
  | None => mret (outcome "degraded" (kind_name k +:+ "-suspension-observed") "no vitality episode on file")
  | Some (d, updated) =>
      store_slot k (set_episode (Some updated)) ≫= λ _,
      match intent d with
      | SIGCONT =>
          sent ← sigcont_head k;
          comment (kind_name k +:+ "-vitality-sigcont") ("sigcont@" +:+ fmt_0f (detail_time d "span_started_at")) ≫= λ _,
          mret (outcome "degraded"
            (kind_name k +:+ (if (sent : bool) then "-sigcont-sent" else "-sigcont-fenced")) (d_reason d))
      | ESCALATE_OPERATOR =>
          escalate_suspended_head k d ≫= λ _,
          mret (outcome "degraded" (kind_name k +:+ "-suspension-escalated") (d_reason d))
      | _ =>
          mret (outcome (if rung d <? RUNG_ESCALATED then "ok" else "degraded")
            (kind_name k +:+ "-suspension-observed") (d_reason d))
      end
  end.

(** ** The one report prompt of a round (dispatch/worker_report.py) *)

(** The episode after a delivered prompt: its quiet clock restarts. *)
Definition restart_quiet (e : VitalityEpisode) : res VitalityEpisode :=
  replace (e <| verdict := HEALTHY_QUIET |> <| suspected_since := 0 |> <| confirmed_since := 0 |>
             <| started_at := h_clock h 1 |> <| quiet_since := h_clock h 2 |>
             <| updated_at := h_clock h 3 |>
             <| e_reason := "report prompt delivered; the quiet clock restarts here" |>).

(** [prompt_worker_report]: the tick's outcome if the prompt was delivered, and
    the trigger the caller carries on with. *)
Definition prompt_worker_report (trigger : string) : M (option Outcome * string) :=
  r ← ask;
  let generation := report_generation r in
  if spent (worker_report_nudge r) generation then mret (None, trigger)
  else if negb (h_addressable h) then mret (None, trigger)
  else
    n ← lift (nudge_begin (worker_report_nudge r) generation (h_clock h 0));
    modify (λ r, r <| worker_report_nudge := n |>) ≫= λ _, save ≫= λ _,
    tell (Prompted generation) ≫= λ _,
    match h_prompt h with
    | Refused why =>
        save ≫= λ _, mret (None, trigger +:+ ", and the report prompt was refused: " +:+ why)
    | Broken e => lift (Raise e)
    | Delivered =>
        n' ← lift (nudge_confirm n);
        modify (λ r, r <| worker_report_nudge := n' |>) ≫= λ _,
        modify (with_slot Worker reset_idle) ≫= λ _,
        e' ← lift (match vitality_episode (worker_slot r) with
                   | Some e => Some <$> restart_quiet e
                   | None => Ok None
                   end);
        modify (with_slot Worker (set_episode e')) ≫= λ _, save ≫= λ _,
        comment "worker-report-prompt" (pretty generation) ≫= λ _,
        mret (Some (outcome "degraded" "worker-report-prompted" trigger), trigger)
    end.

(** ** The guarded destructive step *)

(** [_vitality_guard_decision]. *)
Definition vitality_guard_decision (k : Kind) (r : WaitRecord) (action : string) : res GuardDecision :=
  assert_destructive_allowed (vitality_episode (slot k r)) action (time_val (h_clock h 4))
    (head_run_id (slot k r)) (seconds (stall_seconds (h_env h) k)).

(** [_guard_or_wait]. *)
Definition guard_or_wait (k : Kind) (action : string) (proceed : M Outcome) : M Outcome :=
  r ← ask;
  d ← lift (vitality_guard_decision k r action);
  if allowed d then proceed
  else
    let why := from_option enum_value "" (refusal d) in
    comment (kind_name k +:+ "-vitality-guard-refused") (wait_cycle_token r +:+ "-" +:+ why) ≫= λ _,
    mret (outcome "degraded" (kind_name k +:+ "-guard-refused") (why +:+ ": " +:+ g_reason d)).

(** [_trigger_wait_watchdog]: respawn once, then escalate to Blocked. *)
Definition trigger_wait_watchdog (k : Kind) (trigger : string) : M Outcome :=
  r ← ask;
  if 1 <=? respawns (slot k r) then
    guard_or_wait k (kind_name k +:+ "-escalate")
      (tell (Escalated k trigger) ≫= λ _, lift (h_escalate h trigger))
  else
    guard_or_wait k (kind_name k +:+ "-respawn")
      (tell (Respawned k trigger) ≫= λ _, lift (h_respawn h trigger)).

(** ** The decision table of the wait tick *)

Definition wait_expectation (k : Kind) (r : WaitRecord) : string :=
  match k with
  | Review => "review verdict"
  | Worker => "worker report for generation " +:+ pretty (report_generation r)
  end.

(** [plain_wait]: nothing to say, unless the runtime itself was unreadable. *)
Definition plain_wait (k : Kind) (runtime_reason : string) : option Outcome :=
  if nonempty runtime_reason
  then Some (outcome "degraded" (kind_name k +:+ "-runtime-unavailable") runtime_reason) else None.

(** Renew the role's outer wait window. *)
Definition renew_wait (k : Kind) (now : Z) : M unit := store_slot k (λ s, s <| waiting_since := now |>).

Definition on_dead (k : Kind) (status : list (string * pyval)) : M (option Outcome) :=
  o ← trigger_wait_watchdog k
    (match get status "head_loss_reason" with
     | VStr "memory_limit" => "memory_limit: the supervisor recorded a head memory-limit kill"
     | _ => "the pid heartbeat names a gone or unreaped process"
     end);
  mret (Some o).

Definition or_text (a b : string) : string := if nonempty a then a else b.

Definition on_confirmed (k : Kind) (e : VitalityEpisode) : M (option Outcome) :=
  r ← ask;
  let why := "the " +:+ kind_name k +:+ " head's vitality episode confirms a stall ("
      +:+ or_text (e_reason e) "strong quiet past both thresholds" +:+ ") with no " +:+ wait_expectation k r in
  match k with
  | Worker =>
      '(prompted, why') ← prompt_worker_report why;
      match prompted with
      | Some o => mret (Some o)
      | None => o ← trigger_wait_watchdog k why'; mret (Some o)
      end
  | Review => o ← trigger_wait_watchdog k why; mret (Some o)
  end.

Definition on_suspected (k : Kind) (e : VitalityEpisode) : M (option Outcome) :=
  r ← ask;
  let basis := or_text (e_reason e) "strong quiet past the suspect threshold" in
  let why := "the " +:+ kind_name k +:+ " head's vitality episode suspects a stall ("
      +:+ basis +:+ ") with no " +:+ wait_expectation k r in
  match k with
  | Worker =>
      '(prompted, why') ← prompt_worker_report why;
      match prompted with
      | Some o => mret (Some o)
      | None => mret (Some (outcome "degraded" (kind_name k +:+ "-stall-suspected") why'))
      end
  | Review => mret (Some (outcome "degraded" (kind_name k +:+ "-stall-suspected") why))
  end.

Definition on_retained (k : Kind) (e : VitalityEpisode) (now : Z) (runtime_reason : string) : M (option Outcome) :=
  run_recovery_policy k (Some e) now ≫= λ _,
  renew_wait k now ≫= λ _,
  mret (if nonempty runtime_reason then plain_wait k runtime_reason
        else Some (outcome "ok" (kind_name k +:+ "-retained")
                     "the head is held suspended by this card's confirmed retention")).

Definition on_healthy (k : Kind) (e : VitalityEpisode) (now : Z) (runtime_reason : string) : M (option Outcome) :=
  run_recovery_policy k (Some e) now ≫= λ _,
  renew_wait k now ≫= λ _, mret (plain_wait k runtime_reason).

(** [_escalate_unobservable_wait]. *)
Definition escalate_unobservable_wait (k : Kind) (waited ceiling : Z) : M Outcome :=
  r ← ask;
  comment (kind_name k +:+ "-unobserved-wait") (wait_cycle_token r) ≫= λ _,
  mret (outcome "degraded" (kind_name k +:+ "-unobserved-wait-escalated")
    ("nothing could observe the head for " +:+ show_seconds waited +:+ "s (ceiling "
       +:+ pretty ceiling +:+ "s); escalated to the operator, head untouched")).

(** [activity and ...]: the last terminal output the status carries. *)
Definition activity_time (status : list (string * pyval)) : option Z :=
  match get status "last_activity" with
  | VFloat (FFin t) => if t =? 0 then None else Some t
  | VInt z => if z =? 0 then None else Some (seconds z)
  | _ => None
  end.

(** No verdict was earned: the policy's say, the two output clocks, and the
    outer ceiling, which escalates to the operator and touches nothing. *)
Definition on_unobserved (k : Kind) (status : list (string * pyval)) (episode : option VitalityEpisode)
    (now : Z) (runtime_reason : string) (progress : Z) : M (option Outcome) :=
  policy ← recovery_policy_outcome k episode now;
  match policy with
  | Some o => mret (Some o)
  | None =>
      r ← ask;
      let stall := stall_seconds (h_env h) k in
      let started := role_started_at (slot k r) in
      let silent_start := negb (py_truthy (get status "pid_confirmed"))
        && match activity_time status with
           | Some a => negb (started =? 0) && (a <=? started)
                       && (seconds (initial_output_stall_seconds (h_env h)) <? now - started)
           | None => false
           end in
      if silent_start then
        o ← trigger_wait_watchdog k
              ("no terminal output since launch for " +:+ show_seconds (now - started) +:+ "s");
        mret (Some o)
      else if negb (progress =? 0) && (seconds stall <? now - progress) then
        o ← trigger_wait_watchdog k ("no terminal output for " +:+ show_seconds (now - progress) +:+ "s");
        mret (Some o)
      else if waiting_since (slot k r) =? 0 then
        renew_wait k now ≫= λ _, mret (plain_wait k runtime_reason)
      else if seconds stall <=? now - waiting_since (slot k r) then
        o ← escalate_unobservable_wait k (now - waiting_since (slot k r)) stall; mret (Some o)
      else mret (plain_wait k runtime_reason)
  end.

(** [_decide_wait_by_verdict]. *)
Definition decide_wait_by_verdict (k : Kind) (status : list (string * pyval))
    (episode : option VitalityEpisode) (now : Z) (runtime_reason : string) (progress : Z) :
    M (option Outcome) :=
  match episode with
  | Some e =>
      match verdict e with
      | DEAD => on_dead k status
      | CONFIRMED_STALL => on_confirmed k e
      | SUSPECTED_STALL => on_suspected k e
      | RETAINED => on_retained k e now runtime_reason
      | SUSPENDED => o ← execute_recovery_intent k (Some e) now; mret (Some o)
      | HEALTHY_ACTIVE | HEALTHY_QUIET => on_healthy k e now runtime_reason
      | UNVERIFIABLE => on_unobserved k status (Some e) now runtime_reason progress
      end
  | None => on_unobserved k status None now runtime_reason progress
  end.

(** [wait_watchdog]: [reading] is what the host's status call answered, or the
    text of the exception it raised; [provider_outcome] is the provider-failure
    verdict that outranks every stall reading. *)
Definition wait_watchdog (k : Kind) (reading : list (string * pyval) + string)
    (provider_outcome : option Outcome) (now : Z) : M (option Outcome) :=
  r ← ask;
  if negb (role_paused_at (slot k r) =? 0)
  then mret (Some (outcome "ok" (kind_name k +:+ "-paused") ""))
  else
    let status := match reading with
      | inl status => status
      | inr _ => [("known", VBool false); ("live", VBool true); ("reason", VStr "runtime-unavailable")]
      end in
    let runtime_reason := match reading with inl _ => "" | inr text => text end in
    if py_truthy (get status "identity_mismatch") then
      mret (Some (outcome "degraded" (kind_name k +:+ "-heartbeat-identity-mismatch")
        "the heartbeat names a live process with a mismatching launch identity"))
    else match provider_outcome with
    | Some o => mret (Some o)
    | None =>
        let before := progress_at (slot k r) in
        let progress := match activity_time status with Some a => Z.max before a | None => before end in
        (if progress =? before then mret tt else store_slot k (λ s, s <| progress_at := progress |>)) ≫= λ _,
        r1 ← ask;
        episode ← reduce_and_store k status now (Some (answer_owed_since_for_wait r1 k));
        decide_wait_by_verdict k status episode now runtime_reason progress
    end.

End tick.
