(* ===== verification/WaitVitalityFacts.v ===== *)
(** * What one wait tick may do

    The rules of the tick monad, the isolation of the two roles, and the one
    report prompt of a round, which holds across crashes of the dispatcher. *)

From S2P Require Import Prelude PyText HeadVitality HeadVitalityEpisode HeadVitalityReduce HeadVitalityReduceFacts.
From S2P Require Import HeadVitalityPolicy HeadVitalityGuard WaitVitality.

(** ** Reasoning about the tick monad

    [tick_rel R m]: whatever [m] does from [r], to [r'] with the log [l], is in [R].  A
    [StepRel] holds of doing nothing and composes, so [tick_rel R] follows the
    program's structure; the base cases are hints. *)

Create HintDb wait.

Class StepRel (R : WaitRecord → list Effect → WaitRecord → Prop) := {
  rel_nil : ∀ r, R r [] r;
  rel_app : ∀ r1 r2 r3 l1 l2, R r1 l1 r2 → R r2 l2 r3 → R r1 (l1 ++ l2) r3;
}.

Definition tick_rel {A} (R : WaitRecord → list Effect → WaitRecord → Prop) (m : M A) : Prop :=
  ∀ r a r' l, m r = (a, r', l) → R r l r'.

(** A sequence either completes its first part and goes on, or raises there. *)
Lemma M_bind_inv {A B} (m : M A) (f : A → M B) r b r' l :
  (m ≫= f) r = (b, r', l) →
  (∃ a r1 l1 l2, m r = (Ok a, r1, l1) ∧ f a r1 = (b, r', l2) ∧ l = l1 ++ l2) ∨
  (∃ e, m r = (Raise e, r', l) ∧ b = Raise e).
Proof.
  unfold mbind, M_bind. destruct (m r) as [[[a|e] r1] l1].
  - destruct (f a r1) as [[b' r2] l2] eqn:E. intros [= <- <- <-]. left. by exists a, r1, l1, l2.
  - intros [= <- <- <-]. right. by exists e.
Qed.

Section rules.
Context (R : WaitRecord → list Effect → WaitRecord → Prop) `{!StepRel R}.

Lemma rel_bind {A B} (m : M A) (f : A → M B) :
  tick_rel R m → (∀ a, tick_rel R (f a)) → tick_rel R (m ≫= f).
Proof.
  intros Hm Hf r b r' l [(a & r1 & l1 & l2 & E1 & E2 & ->)|(e & E & _)]%M_bind_inv; [|by eapply Hm].
  eapply rel_app; [by eapply Hm|by eapply Hf].
Qed.

Lemma rel_ret {A} (a : A) : tick_rel R (mret a).
Proof. intros r a' r' l [= <- <- <-]. apply rel_nil. Qed.

Lemma rel_ask : tick_rel R ask.
Proof. intros r a' r' l [= <- <- <-]. apply rel_nil. Qed.

Lemma rel_lift {A} (m : res A) : tick_rel R (lift m).
Proof. intros r a' r' l [= <- <- <-]. apply rel_nil. Qed.

Lemma rel_tell x : (∀ r, R r [x] r) → tick_rel R (tell x).
Proof. intros Hx r a r' l [= <- <- <-]. apply Hx. Qed.

Lemma rel_save : (∀ r, R r [Saved r] r) → tick_rel R save.
Proof. intros Hx r a r' l [= <- <- <-]. apply Hx. Qed.

Lemma rel_modify f : (∀ r, R r [] (f r)) → tick_rel R (modify f).
Proof. intros Hf r a r' l [= <- <- <-]. apply Hf. Qed.

End rules.

#[export] Hint Extern 0 (tick_rel _ (mret _)) => apply rel_ret; apply _ : wait.
#[export] Hint Extern 0 (tick_rel _ ask) => apply rel_ask; apply _ : wait.
#[export] Hint Extern 0 (tick_rel _ (lift _)) => apply rel_lift; apply _ : wait.

(** Follow the program's structure down to its base operations. *)
Ltac walk :=
  repeat match goal with
  | |- tick_rel _ (_ ≫= _) => apply rel_bind; [apply _| |intros ?]
  | |- tick_rel _ (if ?b then _ else _) => destruct b
  | |- tick_rel _ (match ?x with _ => _ end) => destruct x
  | |- tick_rel _ (let '(_, _) := ?x in _) => destruct x
  | |- tick_rel _ _ => first [done | solve [eauto with wait] | progress unfold store_slot, comment, renew_wait]
  end.

(** ** One role never touches the other's slot *)

Definition other (k : Kind) : Kind := match k with Worker => Review | Review => Worker end.

(** The effects that name a role name this one, and only a worker is prompted. *)
Definition about (k : Kind) (x : Effect) : Prop :=
  match x with
  | Saved _ | Commented _ _ => True
  | Prompted _ => k = Worker
  | Resumed k' | Respawned k' _ | Escalated k' _ => k' = k
  end.

Definition keeps_other (k : Kind) (r : WaitRecord) (l : list Effect) (r' : WaitRecord) : Prop :=
  slot (other k) r' = slot (other k) r ∧ head_run_id (slot k r') = head_run_id (slot k r) ∧
  worker_retained r' = worker_retained r ∧ report_generation r' = report_generation r ∧
  (k = Review → worker_report_nudge r' = worker_report_nudge r) ∧ Forall (about k) l.

#[global] Instance keeps_other_rel k : StepRel (keeps_other k).
Proof.
  split.
  - intros r. by split_and!.
  - intros r1 r2 r3 l1 l2 (H1 & H2 & H3 & H4 & H5 & H6) (G1 & G2 & G3 & G4 & G5 & G6).
    split_and!; try congruence; [|by apply Forall_app]. intros Hk. rewrite (G5 Hk). auto.
Qed.

Lemma keeps_tell k x : about k x → tick_rel (keeps_other k) (tell x).
Proof. intros Hx. apply rel_tell. intros r. split_and!; try done. by constructor. Qed.

Lemma keeps_slot k f :
  (∀ s, head_run_id (f s) = head_run_id s) → tick_rel (keeps_other k) (modify (with_slot k f)).
Proof. intros Hf. apply rel_modify. intros r. destruct k; split_and!; cbn; auto. Qed.

Lemma keeps_nudge n : tick_rel (keeps_other Worker) (modify (λ r, r <| worker_report_nudge := n |>)).
Proof. apply rel_modify. intros r. by split_and!. Qed.

Lemma keeps_save k : tick_rel (keeps_other k) save.
Proof. apply rel_save. intros r. split_and!; try done. by constructor. Qed.

#[export] Hint Resolve keeps_save : wait.
#[export] Hint Extern 1 (tick_rel (keeps_other _) (tell _)) => apply keeps_tell; done : wait.
#[export] Hint Extern 1 (tick_rel (keeps_other _) (modify (with_slot _ _))) => apply keeps_slot; done : wait.
#[export] Hint Resolve keeps_nudge : wait.

Section isolation.
Context `{PyRepr} (h : Host).

Lemma reduce_keeps k status now owed : tick_rel (keeps_other k) (reduce_and_store k status now owed).
Proof. unfold reduce_and_store. walk. Qed.

Lemma policy_keeps k e now : tick_rel (keeps_other k) (run_recovery_policy h k e now).
Proof. unfold run_recovery_policy. walk. Qed.

Lemma trigger_keeps k why : tick_rel (keeps_other k) (trigger_wait_watchdog h k why).
Proof. unfold trigger_wait_watchdog, guard_or_wait. walk. Qed.

Lemma prompt_keeps why : tick_rel (keeps_other Worker) (prompt_worker_report h why).
Proof. unfold prompt_worker_report. walk. Qed.

Lemma execute_keeps k e now : tick_rel (keeps_other k) (execute_recovery_intent h k e now).
Proof. unfold execute_recovery_intent, sigcont_head, escalate_suspended_head. walk. Qed.

End isolation.

#[export] Hint Resolve reduce_keeps policy_keeps trigger_keeps prompt_keeps execute_keeps : wait.

Section isolation_claim.
Context `{PyRepr} (h : Host).

(** A wait tick on one role is confined to it: the other role's slot (its
    episode, clocks and run) is untouched, every signal, respawn or escalation
    names this role, a reviewer's tick never prompts the worker or spends its
    round's prompt, and the run, the retention flag and the round survive; all
    of it also when the tick ends in an exception. *)
Theorem wait_tick_confined k reading provider now r out r' l :
  wait_watchdog h k reading provider now r = (out, r', l) → keeps_other k r l r'.
Proof.
  assert (tick_rel (keeps_other k) (wait_watchdog h k reading provider now)) as Hrel; [|by apply Hrel].
  unfold wait_watchdog, decide_wait_by_verdict, on_unobserved, recovery_policy_outcome, escalate_recovery,
    escalate_unobservable_wait, on_dead, on_healthy, on_retained.
  destruct k; unfold on_confirmed, on_suspected; walk.
Qed.

End isolation_claim.

(** ** One report prompt per round *)

Definition is_prompt (x : Effect) : bool := match x with Prompted _ => true | _ => false end.

Definition prompts (l : list Effect) : nat := length (List.filter is_prompt l).

Definition round_spent (r : WaitRecord) : bool := spent (worker_report_nudge r) (report_generation r).

(** The record on disk after the effects [l], when [disk] was there before. *)
Definition on_disk (disk : WaitRecord) (l : list Effect) : WaitRecord :=
  foldl (λ d x, match x with Saved s => s | _ => d end) disk l.

Lemma prompts_app l1 l2 : prompts (l1 ++ l2) = (prompts l1 + prompts l2)%nat.
Proof. unfold prompts. by rewrite List.filter_app, length_app. Qed.

Lemma on_disk_app d l1 l2 : on_disk d (l1 ++ l2) = on_disk (on_disk d l1) l2.
Proof. apply foldl_app. Qed.

Lemma on_disk_cases d l : on_disk d l = d ∨ Saved (on_disk d l) ∈ l.
Proof.
  revert d. induction l as [|x l IH]; intros d; [by left|]. destruct (IH (on_disk d [x])) as [H|H].
  - cbn [on_disk foldl] in *. unfold on_disk in H. rewrite H. destruct x; [right|by left..]. by apply list_elem_of_here.
  - right. by apply list_elem_of_further.
Qed.

(** A spent round stays spent, in memory and on disk, and is never prompted
    again; an unspent one is prompted at most once; and wherever the log is cut
    after the prompt, the disk already says that the round is spent. *)
Record one_prompt (r : WaitRecord) (l : list Effect) (r' : WaitRecord) : Prop := {
  op_spent : round_spent r = true → round_spent r' = true ∧ prompts l = 0%nat;
  op_once : (prompts l ≤ 1)%nat;
  op_memory : prompts l = 1%nat → round_spent r' = true;
  op_saves : ∀ s, Saved s ∈ l → round_spent r = true → round_spent s = true;
  op_disk : ∀ d l1 l2, l = l1 ++ l2 → prompts l1 = 1%nat → round_spent (on_disk d l1) = true;
}.

Lemma one_prompt_quiet r l r' :
  prompts l = 0%nat → (round_spent r = true → round_spent r' = true) →
  (∀ s, Saved s ∈ l → round_spent r = true → round_spent s = true) → one_prompt r l r'.
Proof.
  intros Hp Hs Hd. split; [by auto|lia|lia|done|].
  intros d l1 l2 ->. rewrite prompts_app in Hp. lia.
Qed.

Lemma one_prompt_disk r1 r2 r3 l1 l2 d p q :
  one_prompt r1 l1 r2 → one_prompt r2 l2 r3 → l1 ++ l2 = p ++ q → prompts p = 1%nat →
  round_spent (on_disk d p) = true.
Proof.
  intros H1 H2 [(k & -> & ->)|(k & -> & ->)]%app_eq_inv Hp; [by eapply (op_disk _ _ _ H1)|].
  rewrite prompts_app in Hp. rewrite on_disk_app.
  destruct (decide (prompts k = 1%nat)) as [Hk|Hk]; [by eapply (op_disk _ _ _ H2)|].
  assert (prompts l1 = 1%nat) as Hl by lia. pose proof (op_memory _ _ _ H1 Hl) as Hr2.
  destruct (on_disk_cases (on_disk d l1) k) as [->|Hs].
  - apply (op_disk _ _ _ H1 d l1 []); [by rewrite app_nil_r|done].
  - apply (op_saves _ _ _ H2); [|done]. apply elem_of_app. by left.
Qed.

#[global] Instance one_prompt_rel : StepRel one_prompt.
Proof.
  split.
  - intros r. apply one_prompt_quiet; [done..|]. intros s Hs. by apply not_elem_of_nil in Hs.
  - intros r1 r2 r3 l1 l2 H1 H2. pose proof (op_spent _ _ _ H1) as S1. pose proof (op_spent _ _ _ H2) as S2.
    pose proof (op_once _ _ _ H1). pose proof (op_once _ _ _ H2). pose proof (op_memory _ _ _ H1) as M1.
    pose proof (op_memory _ _ _ H2) as M2.
    assert (prompts l1 = 1%nat → prompts l2 = 0%nat ∧ round_spent r3 = true) as Hafter.
    { intros Hl. destruct (S2 (M1 Hl)). done. }
    split; rewrite ?prompts_app.
    + intros [Hr2 ->]%S1. by destruct (S2 Hr2) as [? ->].
    + destruct (decide (prompts l1 = 1%nat)) as [Hl|]; [destruct (Hafter Hl); lia|lia].
    + intros Hl. destruct (decide (prompts l1 = 1%nat)) as [Hl1|]; [by apply Hafter|]. apply M2. lia.
    + intros s [Hs|Hs]%elem_of_app Hr; [by apply (op_saves _ _ _ H1)|].
      apply (op_saves _ _ _ H2); [done|by apply S1].
    + intros d p q E Hp. by apply (one_prompt_disk r1 r2 r3 l1 l2 d p q).
Qed.

Lemma one_prompt_tell x :
  is_prompt x = false → (∀ s, x ≠ Saved s) → tick_rel one_prompt (tell x).
Proof.
  intros Hx Hs. apply rel_tell. intros r. apply one_prompt_quiet; [|done|].
  - unfold prompts. cbn [List.filter]. by rewrite Hx.
  - intros s Hin%list_elem_of_singleton. by destruct (Hs s).
Qed.

Lemma one_prompt_save : tick_rel one_prompt save.
Proof. apply rel_save. intros r. apply one_prompt_quiet; [done..|]. by intros s [= ->]%list_elem_of_singleton. Qed.

Lemma one_prompt_slot k f : tick_rel one_prompt (modify (with_slot k f)).
Proof.
  apply rel_modify. intros r. apply one_prompt_quiet; [done|by destruct k|].
  intros s Hs. by apply not_elem_of_nil in Hs.
Qed.

#[export] Hint Extern 1 (tick_rel one_prompt (tell _)) => apply one_prompt_tell; done : wait.
#[export] Hint Resolve one_prompt_save one_prompt_slot : wait.

(** The prompt itself: the spent round reached the disk before it was sent. *)
Lemma one_prompt_sent r s1 g rest r' :
  round_spent r = false → round_spent s1 = true → prompts rest = 0%nat →
  (∀ s, Saved s ∈ rest → round_spent s = true) → round_spent r' = true →
  one_prompt r (Saved s1 :: Prompted g :: rest) r'.
Proof.
  intros Hr Hs1 Hp Hs Hr'.
  assert (∀ p, prompts (Saved s1 :: Prompted g :: p) = S (prompts p)) as Hlen by done.
  split; [congruence|rewrite Hlen; lia|done|congruence|].
  intros d l1 l2 E Hp1. destruct l1 as [|x1 [|x2 p]]; [done|by injection E as <- _|].
  injection E as <- <- ->. change (round_spent (on_disk s1 p) = true).
  destruct (on_disk_cases s1 p) as [->|Hin]; [done|]. apply Hs, elem_of_app. by left.
Qed.

Section prompts.
Context `{PyRepr} (h : Host).

(** Sending the round's prompt: the intent is on disk first. *)
Lemma prompt_once why : tick_rel one_prompt (prompt_worker_report h why).
Proof.
  intros r a r' l. unfold prompt_worker_report.
  assert (one_prompt r [] r) as Hquiet by apply rel_nil.
  intros [(r0 & ? & ? & l2 & [= <- <- <-] & E & ->)|(e & [=] & _)]%M_bind_inv. cbn [app].
  destruct (spent (worker_report_nudge r) (report_generation r)) eqn:Es; [by injection E as _ <- <-|].
  destruct (negb (h_addressable h)); [by injection E as _ <- <-|].
  unfold nudge_begin in E. rewrite Es in E.
  assert (∀ stage, stage ≠ N_NONE →
    spent {| n_stage := stage; n_generation := report_generation r; n_sent_at := h_clock h 0 |} (report_generation r) = true) as Hn.
  { intros stage Hs. unfold spent. cbn. by rewrite Z.eqb_refl, bool_decide_eq_false_2. }
  unfold mbind, M_bind, lift, modify, tell, save, comment, mret, M_ret in E. cbn in E.
  destruct (h_prompt h) as [|refused|x]; [destruct (vitality_episode (worker_slot r)) as [e|];
    [destruct (restart_quiet h e)|]|..]; cbn in E; injection E as _ <- <-;
    (apply one_prompt_sent; [done|by apply Hn|done| |by apply Hn]); intros s Hin; set_unfold; naive_solver.
Qed.

Hint Resolve prompt_once : wait.

Lemma tick_prompts_once k reading provider now : tick_rel one_prompt (wait_watchdog h k reading provider now).
Proof.
  unfold wait_watchdog, decide_wait_by_verdict, on_unobserved, recovery_policy_outcome, escalate_recovery,
    escalate_unobservable_wait, on_dead, on_healthy, on_retained, reduce_and_store, run_recovery_policy,
    execute_recovery_intent, sigcont_head, escalate_suspended_head.
  destruct k; unfold on_confirmed, on_suspected, trigger_wait_watchdog, guard_or_wait; walk.
Qed.

End prompts.

(** A run of wait ticks, each with what the world answered it.  A tick may be
    cut short after any number of its effects: the dispatcher then restarts
    from the record on disk. *)
Record WaitTick := {
  wt_host : Host; wt_kind : Kind; wt_reading : list (string * pyval) + string;
  wt_provider : option Outcome; wt_now : Z; wt_cut : option nat;
}.

Section runs.
Context `{PyRepr}.

Definition wait_tick (t : WaitTick) : M (option Outcome) :=
  wait_watchdog (wt_host t) (wt_kind t) (wt_reading t) (wt_provider t) (wt_now t).

(** Everything a run did to the world, from the record in memory and on disk. *)
Fixpoint run_wait (ticks : list WaitTick) (memory disk : WaitRecord) : list Effect :=
  match ticks with
  | [] => []
  | t :: rest =>
      let '(_, r', l) := wait_tick t memory in
      match wt_cut t with
      | None => l ++ run_wait rest r' (on_disk disk l)
      | Some n => take n l ++ run_wait rest (on_disk disk (take n l)) (on_disk disk (take n l))
      end
  end.

Lemma on_disk_spent d r l r' :
  one_prompt r l r' → round_spent r = true → round_spent d = true → round_spent (on_disk d l) = true.
Proof. intros Hop Hr Hd. destruct (on_disk_cases d l) as [->|Hs]; [done|]. by apply (op_saves _ _ _ Hop). Qed.

Lemma run_wait_prompts ticks memory disk :
  (prompts (run_wait ticks memory disk) ≤ 1)%nat ∧
  (round_spent memory = true → round_spent disk = true → prompts (run_wait ticks memory disk) = 0%nat).
Proof.
  revert memory disk. induction ticks as [|t ticks IH]; intros memory disk; [cbn; split; [lia|done]|].
  cbn [run_wait]. destruct (wait_tick t memory) as [[a r'] l] eqn:E.
  pose proof (tick_prompts_once _ _ _ _ _ _ _ _ _ E) as Hop. destruct (wt_cut t) as [n|]; rewrite prompts_app.
  - assert (l = take n l ++ drop n l) as Hsplit by (by rewrite take_drop).
    pose proof (op_once _ _ _ Hop) as Honce. rewrite Hsplit, prompts_app in Honce.
    destruct (IH (on_disk disk (take n l)) (on_disk disk (take n l))) as [IH1 IH2]. split.
    + destruct (decide (prompts (take n l) = 1%nat)) as [Hp|]; [|lia].
      pose proof (op_disk _ _ _ Hop disk _ _ Hsplit Hp). rewrite IH2 by done. lia.
    + intros Hm Hd. destruct (op_spent _ _ _ Hop Hm) as [_ Hz]. rewrite Hsplit, prompts_app in Hz.
      assert (round_spent (on_disk disk (take n l)) = true) as Hdd.
      { destruct (on_disk_cases disk (take n l)) as [->|Hs]; [done|]. apply (op_saves _ _ _ Hop); [|done].
        by eapply elem_of_take in Hs as (? & ? & _); eapply list_elem_of_lookup_2. }
      rewrite IH2 by done. lia.
  - destruct (IH r' (on_disk disk l)) as [IH1 IH2]. pose proof (op_once _ _ _ Hop). split.
    + destruct (decide (prompts l = 1%nat)) as [Hp|]; [|lia].
      pose proof (op_disk _ _ _ Hop disk l [] ltac:(by rewrite app_nil_r) Hp).
      rewrite IH2; [lia|by apply (op_memory _ _ _ Hop)|done].
    + intros Hm Hd. destruct (op_spent _ _ _ Hop Hm) as [Hr' Hz]. rewrite IH2; [lia|done|].
      by eapply on_disk_spent.
Qed.

(** C15. A report round sends at most one prompt, across crashes: over any
    sequence of wait ticks of either role, whatever hosts, clocks, refusals and
    exceptions they meet, and however each tick is cut short after any of its
    effects and the dispatcher restarted from the record on disk, the worker is
    sent the prompt at most once while the round stays the same, and never when
    the record says it was already spent, delivered or not. *)
Theorem one_prompt_per_round ticks r :
  (prompts (run_wait ticks r r) ≤ 1)%nat ∧ (round_spent r = true → prompts (run_wait ticks r r) = 0%nat).
Proof. destruct (run_wait_prompts ticks r r). auto. Qed.

End runs.
