(* ===== verification/WaitVitalitySafety.v ===== *)
(** * The guard, the recovery ladder, and what a tick may destroy *)

From S2P Require Import Prelude PyText HeadVitality HeadVitalityEpisode HeadVitalityReduce HeadVitalityReduceFacts.
From S2P Require Import HeadVitalityPolicy HeadVitalityGuard WaitVitality WaitVitalityFacts.

(** ** The destructive guard *)

(** What authorises a destructive step: a verdict of death or confirmed stall,
    on the run being acted on, and for a confirmation earned without a
    progress source also the role's outer ceiling. *)
Record authorised (e : VitalityEpisode) (rid : string) (now ceiling : Z) : Prop := {
  au_verdict : verdict e = DEAD ∨ verdict e = CONFIRMED_STALL;
  au_run : rid = "" ∨ e_run_id e = rid;
  au_ceiling : verdict e = CONFIRMED_STALL → progress_source_answering e = false → 0 < ceiling →
               ceiling ≤ now - started_at e;
}.

Lemma nonempty_false s : nonempty s = false ↔ s = "".
Proof. unfold nonempty. rewrite negb_false_iff. apply String.eqb_eq. Qed.

Lemma guard_allows episode action now rid ceiling d :
  assert_destructive_allowed episode action (time_val now) rid ceiling = Ok d →
  allowed d = true ↔ ∃ e, episode = Some e ∧ authorised e rid now ceiling.
Proof.
  unfold assert_destructive_allowed, finite_number, time_val. cbn. intros E.
  destruct episode as [e|]; [|injection E as <-; split; [done|naive_solver]].
  destruct (nonempty rid && negb (String.eqb (e_run_id e) rid)) eqn:Erun.
  { injection E as <-. split; [done|]. intros (e' & [= <-] & [_ Hr _]). exfalso.
    apply andb_true_iff in Erun as [Hne Hneq%negb_true_iff%String.eqb_neq].
    destruct Hr as [->|?]; done. }
  assert (rid = "" ∨ e_run_id e = rid) as Hrun.
  { apply andb_false_iff in Erun as [?%nonempty_false|?%negb_false_iff%String.eqb_eq]; auto. }
  destruct (REFUSED_VERDICTS (verdict e)) as [[rf why]|] eqn:Erf.
  { injection E as <-. split; [done|]. intros (e' & [= <-] & [[Hv|Hv] _ _]); by rewrite Hv in Erf. }
  destruct (negb _ && negb _) eqn:Ep.
  { injection E as <-. split; [done|]. intros (e' & [= <-] & [Hv _ _]). boolify. by destruct Hv. }
  assert (verdict e = DEAD ∨ verdict e = CONFIRMED_STALL) as Hv.
  { apply andb_false_iff in Ep as [Hv|Hv]; apply negb_false_iff, bool_decide_eq_true in Hv; auto. }
  destruct (pid_only_held e now ceiling) eqn:Eh; injection E as <-; cbn.
  - split; [done|]. intros (e' & [= <-] & [_ _ Hc]). unfold pid_only_held in Eh. boolify.
    specialize (Hc ltac:(done) ltac:(done) ltac:(lia)). lia.
  - split; [|done]. intros _. exists e. split; [done|]. split; [done|done|]. intros Hcs Hans Hpos.
    unfold pid_only_held in Eh. rewrite Hans, bool_decide_eq_true_2, (proj2 (Z.ltb_lt 0 ceiling)) in Eh by done.
    cbn in Eh. lia.
Qed.

(** C29. The guard authorises a destructive step exactly when an episode is on
    file whose verdict is DEAD or CONFIRMED_STALL, that names the run being
    acted on, and, for a stall confirmed while no progress source answers,
    whose run is older than the outer ceiling; every other call is refused
    with a named refusal. *)
Theorem guard_exact episode action now rid ceiling d :
  assert_destructive_allowed episode action (time_val now) rid ceiling = Ok d →
  (allowed d = true ↔ ∃ e, episode = Some e ∧ authorised e rid now ceiling) ∧
  (allowed d = false ↔ is_Some (refusal d)) ∧ g_action d = action.
Proof.
  intros E. split; [by eapply guard_allows|]. unfold assert_destructive_allowed, finite_number, time_val in E. cbn in E.
  destruct episode as [e|]; [|injection E as <-; naive_solver].
  destruct (_ && _); [injection E as <-; naive_solver|].
  destruct (REFUSED_VERDICTS _) as [[rf why]|]; [injection E as <-; naive_solver|].
  destruct (_ && _); [injection E as <-; naive_solver|].
  destruct (pid_only_held _ _ _); injection E as <-; cbn; (split; [|done]); split; done || by intros [].
Qed.

(** ** A tick destroys only what the guard authorised *)

(** Nothing of this log is destructive. *)
Definition gentle (r : WaitRecord) (l : list Effect) (r' : WaitRecord) : Prop :=
  Forall (λ x, destructive x = false) l.

#[global] Instance gentle_rel : StepRel gentle.
Proof. split; [intros; by apply Forall_nil|]. unfold gentle. intros. by apply Forall_app. Qed.

Lemma gentle_tell x : destructive x = false → tick_rel gentle (tell x).
Proof. intros Hx. apply rel_tell. intros r. by constructor. Qed.

Lemma gentle_modify f : tick_rel gentle (modify f).
Proof. apply rel_modify. intros r. by apply Forall_nil. Qed.

Lemma gentle_save : tick_rel gentle save.
Proof. apply rel_save. intros r. by constructor. Qed.

#[export] Hint Resolve gentle_save : wait.
#[export] Hint Extern 1 (tick_rel gentle (tell _)) => apply gentle_tell; done : wait.
#[export] Hint Resolve gentle_modify : wait.

(** Where the log is destructive, the role's stored episode authorised it. *)
Definition answers_to_guard (h : Host) (k : Kind) (r : WaitRecord) (l : list Effect) (r' : WaitRecord) : Prop :=
  Exists (λ x, destructive x = true) l →
  ∃ e, vitality_episode (slot k r') = Some e ∧
       authorised e (head_run_id (slot k r')) (h_clock h 4) (seconds (stall_seconds (h_env h) k)).

Lemma gentle_Exists r l r' : gentle r l r' → ¬ Exists (λ x, destructive x = true) l.
Proof.
  intros Hg Hx. apply Exists_exists in Hx as (x & Hin & Hd). unfold gentle in Hg. rewrite Forall_forall in Hg.
  specialize (Hg x Hin). congruence.
Qed.

Lemma guarded_gentle {A} h k (m : M A) : tick_rel gentle m → tick_rel (answers_to_guard h k) m.
Proof. intros Hm r a r' l E Hx. by apply Hm, gentle_Exists in E. Qed.

(** A gentle step first, then a guarded one. *)
Lemma guarded_bind {A B} h k (m : M A) (f : A → M B) :
  tick_rel gentle m → (∀ a, tick_rel (answers_to_guard h k) (f a)) → tick_rel (answers_to_guard h k) (m ≫= f).
Proof.
  intros Hm Hf r b r' l [(a & r1 & l1 & l2 & E1 & E2 & ->)|(e & E & _)]%M_bind_inv Hx;
    [|by apply Hm, gentle_Exists in E].
  apply (Hf a _ _ _ _ E2). apply Exists_app in Hx as [Hx|Hx]; [|done]. by apply Hm, gentle_Exists in E1.
Qed.

(** A guarded step whose answer is only wrapped. *)
Lemma guarded_wrap {A B} h k (m : M A) (g : A → B) :
  tick_rel (answers_to_guard h k) m → tick_rel (answers_to_guard h k) (m ≫= λ a, mret (g a)).
Proof.
  intros Hm r b r' l [(a & r1 & l1 & l2 & E1 & [= _ <- <-] & ->)|(e & E & _)]%M_bind_inv; [|by apply (Hm _ _ _ _ E)].
  rewrite app_nil_r. by apply (Hm _ _ _ _ E1).
Qed.

Section safety.
Context `{PyRepr} (h : Host).

Lemma guard_or_wait_guarded k action x o :
  tick_rel (answers_to_guard h k) (guard_or_wait h k action (tell x ≫= λ _, lift o)).
Proof.
  unfold guard_or_wait. intros r a r' l [(r0 & ? & ? & l2 & [= <- <- <-] & E & ->)|(e & [=] & _)]%M_bind_inv.
  unfold mbind at 1, M_bind at 1, lift at 1 in E.
  destruct (vitality_guard_decision h k r action) as [d|x0] eqn:Eg; cbn [app] in *.
  2: { injection E as _ <- <-. intros Hx. by apply Exists_nil in Hx. }
  unfold vitality_guard_decision in Eg. apply guard_allows in Eg. destruct (allowed d) eqn:Ea.
  - injection E as _ <- <-. intros _. by apply Eg.
  - injection E as _ <- <-. intros Hx. exfalso. revert Hx. apply (gentle_Exists r _ r). by repeat constructor.
Qed.

Lemma trigger_guarded k why : tick_rel (answers_to_guard h k) (trigger_wait_watchdog h k why).
Proof.
  unfold trigger_wait_watchdog. apply guarded_bind; [auto with wait|]. intros r.
  destruct (1 <=? _); apply guard_or_wait_guarded.
Qed.

Lemma prompt_gentle why : tick_rel gentle (prompt_worker_report h why).
Proof. unfold prompt_worker_report. walk. Qed.

Lemma reduce_gentle k status now owed : tick_rel gentle (reduce_and_store k status now owed).
Proof. unfold reduce_and_store. walk. Qed.

Lemma policy_gentle k e now : tick_rel gentle (run_recovery_policy h k e now).
Proof. unfold run_recovery_policy. walk. Qed.

Lemma execute_gentle k e now : tick_rel gentle (execute_recovery_intent h k e now).
Proof. unfold execute_recovery_intent, sigcont_head, escalate_suspended_head. walk. Qed.

Lemma outcome_gentle k e now : tick_rel gentle (recovery_policy_outcome h k e now).
Proof. unfold recovery_policy_outcome, escalate_recovery, run_recovery_policy. walk. Qed.

Hint Resolve prompt_gentle reduce_gentle policy_gentle execute_gentle outcome_gentle : wait.

Ltac guarded :=
  repeat match goal with
  | |- tick_rel (answers_to_guard _ _) (trigger_wait_watchdog _ _ _) => apply trigger_guarded
  | |- tick_rel (answers_to_guard _ _) (trigger_wait_watchdog _ _ _ ≫= _) => apply guarded_wrap
  | |- tick_rel (answers_to_guard _ _) (_ ≫= _) => apply guarded_bind; [solve [walk]|intros ?]
  | |- tick_rel (answers_to_guard _ _) (mret _) => apply guarded_gentle; solve [auto with wait]
  | |- tick_rel (answers_to_guard _ _) (if ?b then _ else _) => destruct b
  | |- tick_rel (answers_to_guard _ _) (match ?x with _ => _ end) => destruct x
  end.

Lemma unobserved_guarded k status e now why progress :
  tick_rel (answers_to_guard h k) (on_unobserved h k status e now why progress).
Proof. unfold on_unobserved, escalate_unobservable_wait. guarded. Qed.

Lemma confirmed_guarded k e : tick_rel (answers_to_guard h k) (on_confirmed h k e).
Proof. unfold on_confirmed. destruct k; guarded. Qed.

Lemma dead_guarded k status : tick_rel (answers_to_guard h k) (on_dead h k status).
Proof. unfold on_dead. guarded. Qed.

Lemma suspected_gentle k e : tick_rel gentle (on_suspected h k e).
Proof. unfold on_suspected. destruct k; walk. Qed.

Lemma healthy_gentle k e now why : tick_rel gentle (on_healthy h k e now why).
Proof. unfold on_healthy. walk. Qed.

Lemma retained_gentle k e now why : tick_rel gentle (on_retained h k e now why).
Proof. unfold on_retained. walk. Qed.

Hint Resolve suspected_gentle healthy_gentle retained_gentle : wait.

(** C2. No wait tick respawns or gives up a head without authority: if the log
    of a tick has a respawn or an escalation to Blocked, the episode stored for
    that role says DEAD or CONFIRMED_STALL, names the run the role is on, and
    a stall confirmed without a progress source has outlived the role's outer
    ceiling.  A quiet, suspended, retained, suspected or unobservable head is
    never destroyed, whatever the clocks say and also when the tick ends in an
    exception. *)
Theorem destruction_is_authorised k reading provider now r out r' l :
  wait_watchdog h k reading provider now r = (out, r', l) →
  Exists (λ x, destructive x = true) l →
  ∃ e, vitality_episode (slot k r') = Some e ∧
       authorised e (head_run_id (slot k r')) (h_clock h 4) (seconds (stall_seconds (h_env h) k)).
Proof.
  assert (tick_rel (answers_to_guard h k) (wait_watchdog h k reading provider now)) as Hrel;
    [|intros E Hx; by eapply (Hrel _ _ _ _ E)].
  unfold wait_watchdog. apply guarded_bind; [auto with wait|]. intros r0.
  destruct (negb _); [apply guarded_gentle; auto with wait|].
  destruct (py_truthy _); [apply guarded_gentle; auto with wait|].
  destruct provider as [o|]; [apply guarded_gentle; auto with wait|].
  apply guarded_bind; [walk|]. intros _. apply guarded_bind; [auto with wait|]. intros r1.
  apply guarded_bind; [auto with wait|]. intros episode. unfold decide_wait_by_verdict.
  destruct episode as [e|]; [|apply unobserved_guarded].
  destruct (verdict e); try (apply guarded_gentle; solve [walk]);
    [apply confirmed_guarded|apply dead_guarded|apply unobserved_guarded].
Qed.

End safety.
