(* ===== verification/RecoveryLadder.v ===== *)
(** * The recovery ladder over a suspension span

    The policy's intents, and the ladder a suspended head climbs over a run of
    ticks: one SIGCONT, a response window, one escalation, then nothing. *)

From S2P Require Import Prelude PyText HeadVitality HeadVitalityEpisode HeadVitalityReduce HeadVitalityReduceFacts.
From S2P Require Import HeadVitalityVerdicts HeadVitalitySpec HeadVitalityRefine HeadVitalityProperties.
From S2P Require Import HeadVitalityTraces HeadVitalityPolicy WaitVitality.

(** ** The intents *)

(** The policy never destroys: whatever the episode, its intent is observe,
    nudge, SIGCONT or escalate; a SIGCONT is only for a SUSPENDED head, a nudge
    only for a SUSPECTED_STALL, an escalation only for a SUSPENDED head or a
    deterministic refusal, and a RETAINED head is only observed, its ladder
    cleared. *)
Theorem policy_never_destroys e previous now th d :
  decide_recovery (Some e) previous (time_val now) (Some th) = Ok d →
  intent d ∈ [OBSERVE; NUDGE; SIGCONT; ESCALATE_OPERATOR] ∧
  (intent d = SIGCONT → verdict e = SUSPENDED) ∧
  (intent d = NUDGE → verdict e = SUSPECTED_STALL) ∧
  (intent d = ESCALATE_OPERATOR → verdict e = SUSPENDED ∨ is_Some (deterministic_reason_class (e_reason e))) ∧
  (verdict e = RETAINED → intent d = OBSERVE ∧ rung d = RUNG_NONE ∧ refusals d = 0).
Proof.
  unfold decide_recovery, finite_number, time_val.
  cbn [is_number py_float fmap res_fmap finite mbind res_bind]. intros [= <-].
  unfold decide_readable. generalize (deterministic_reason_class (e_reason e)) as cls. intros cls.
  destruct (verdict e) eqn:Ev; try (destruct cls as [c|]; [unfold decide_deterministic; destruct (_ <=? _)|]);
    try (unfold decide_suspended; destruct (negb _); [|destruct (_ <=? _); [|destruct (_ <=? _)]]);
    cbn; split_and!; intros; try done; try set_solver; eauto.
Qed.

(** A deterministic refusal is counted, not retried: each sighting on a
    head that is not retained raises the count by one, and the operator is
    called exactly when the count reaches the limit. *)
Theorem deterministic_refusals_counted e now th d c :
  verdict e ≠ RETAINED → deterministic_reason_class (e_reason e) = Some c →
  decide_recovery (Some e) (Some e) (time_val now) (Some th) = Ok d →
  refusals d = deterministic_refusals e + 1 ∧
  (intent d = ESCALATE_OPERATOR ↔ deterministic_refusal_limit th ≤ deterministic_refusals e + 1) ∧
  (intent d ≠ ESCALATE_OPERATOR → intent d = OBSERVE ∧ rung d = recovery_rung e).
Proof.
  intros Hv Hc. unfold decide_recovery, finite_number, time_val.
  cbn [is_number py_float fmap res_fmap finite mbind res_bind]. intros [= <-].
  assert (decide_readable e (Some e) now th = decide_deterministic e (Some e) th c) as ->.
  { unfold decide_readable. rewrite Hc. by destruct (verdict e). }
  unfold decide_deterministic. rewrite Z.max_id. destruct (Z.leb_spec (deterministic_refusal_limit th) (deterministic_refusals e + 1));
    cbn; split_and!; done || (split; [done|lia]) || (split; [|done]; lia) || (intros; done) || lia.
Qed.

(** ** Suspended ticks leave a suspended episode *)

Lemma finish_reason v e b tokens owned now e' :
  finish (v, e, b) tokens owned now = Ok e' →
  e_reason e' = str_take REASON_LIMIT (if nonempty (e_reason e) then e_reason e else default "" (dark_reason owned)).
Proof. unfold finish. by intros [_ ->]%replace_Ok. Qed.

Lemma freeze_reason e now e' :
  freeze_stall_clocks e now false = Ok e' →
  e_reason e' = str_take REASON_LIMIT "process suspended on a stop signal".
Proof. unfold freeze_stall_clocks. by intros [_ ->]%replace_Ok. Qed.

Lemma raise_suspended e b now owed : raise_answer_owed (SUSPENDED, e, b) now owed = Ok (SUSPENDED, e, b).
Proof. done. Qed.

Lemma suspended_reason th e t e' :
  thresholds_wf th → episode_wf e → tick_ok (e_run_id e) (updated_at e) t →
  suspended_tick (e_run_id e) t → tk_retained t = false → tick_step th e t = Ok e' →
  e_reason e' = "process suspended on a stop signal".
Proof.
  intros Hth Hwf Hok [Hd Hs] Hret E. unfold tick_step in E. pose proof (stamps_nonneg _ (ewf_valid _ Hwf)) as Hst.
  assert (tick_input (Some e) (tk_snapshots t) (tk_now t) th (tk_owed t)) as Hin.
  { destruct Hok as [Hrun Hsn Hnow Howed]. split; try done; [|lia]. intros Hn. rewrite Hn in Hrun. set_solver. }
  destruct (reduce_vitality_eq _ _ _ _ (tk_retained t) _ (tk_adapter t) Hin) as [b Eb]. rewrite Eb in E. clear Eb.
  unfold owned_of in E. rewrite run_target_known in E by apply Hok. fold (owned_in (e_run_id e) t) in E.
  unfold reduce_owned in E. inv_ok. destruct x0 as [[e6 hold] b6]. inv_ok.
  unfold conclude in E3. rewrite (proj2 (heard_false _ _) Hd), (proj2 (heard_true _ _) Hs) in E3.
  unfold arm_suspended in E3. inv_ok. rewrite Hret in *. apply freeze_reason in E5.
  rewrite raise_suspended in E4. injection E4 as <-. apply finish_reason in E.
  assert (str_take REASON_LIMIT "process suspended on a stop signal" = "process suspended on a stop signal") as Htake
    by (vm_compute; reflexivity).
  rewrite Htake in E5. rewrite E, E5. exact Htake.
Qed.

(** The result of reducing one suspended tick, as the policy sees it. *)
Lemma suspended_tick_effect th e t :
  thresholds_wf th → episode_wf e → tick_ok (e_run_id e) (updated_at e) t →
  suspended_tick (e_run_id e) t → tk_retained t = false →
  ∃ e', tick_step th e t = Ok e' ∧ episode_wf e' ∧ verdict e' = SUSPENDED ∧
    deterministic_reason_class (e_reason e') = None ∧ updated_at e' = tk_now t ∧
    ladder_state e' = ladder_state e ∧ stall_frozen_since e' = or_time (stall_frozen_since e) (tk_now t).
Proof.
  intros Hth Hwf Hok Hsus Hret.
  destruct (tick_step_effect th e t Hth Hwf Hok) as (e1 & e' & _ & _ & _ & E & Hwf' & _ & Hl & Hu & Hv & _).
  exists e'. destruct (suspended_step th e t e' Hth Hwf Hok Hsus E) as (_ & _ & Hf).
  split_and!; try done.
  - rewrite Hv. apply expected_eq; [done..|]. destruct Hsus as [Hd Hs]. unfold decision. cbn [ob_strong observe].
    by rewrite (proj2 (heard_false _ _) Hd), (proj2 (heard_true _ _) Hs), Hret.
  - rewrite (suspended_reason th e t e') by done. reflexivity.
Qed.

(** ** One span of the ladder *)

(** The reference behaviour of the ladder after its SIGCONT: observe inside the
    response window, escalate at the first tick past it, observe from then on. *)
Fixpoint span_plan (deadline : Z) (escalated : bool) (nows : list Z) : list RecoveryIntent :=
  match nows with
  | [] => []
  | n :: rest =>
      if escalated then OBSERVE :: span_plan deadline true rest
      else if n <=? deadline then OBSERVE :: span_plan deadline false rest
      else ESCALATE_OPERATOR :: span_plan deadline true rest
  end.

Section span.
Context (h : Host) (th : VitalityThresholds) (Hth : thresholds_wf th).

Definition window : Z := seconds (suspension_response_window_seconds (h_env h)).

Lemma positive_int_pos env name dflt : 0 < dflt → 0 < positive_int env name dflt.
Proof.
  intros Hd. unfold positive_int. destruct (env name) as [s|]; [|done]. destruct (nonempty s); [|done].
  destruct (parse_int 10 s) as [v|]; [|done]. destruct (Z.ltb_spec 0 v); done.
Qed.

Lemma window_pos : 0 < window.
Proof.
  unfold window, seconds, suspension_response_window_seconds.
  pose proof (positive_int_pos (h_env h) "UMMANU_HEAD_SUSPENSION_RESPONSE_SECONDS" SUSPENSION_RESPONSE_WINDOW_DEFAULT).
  unfold SUSPENSION_RESPONSE_WINDOW_DEFAULT, SECOND in *. lia.
Qed.

Definition span_thresholds : RecoveryThresholds :=
  {| response_window_seconds := window; deterministic_refusal_limit := 3 |}.

(** The installation's thresholds always construct. *)
Lemma recovery_thresholds_Ok : recovery_thresholds h = Ok span_thresholds.
Proof.
  unfold recovery_thresholds, new_recovery_thresholds, finite_number, time_val.
  cbn [is_number py_float fmap res_fmap finite mbind res_bind]. fold window.
  rewrite (proj2 (Z.leb_gt _ _)) by apply window_pos. done.
Qed.

Lemma apply_rung_Ok e d :
  episode_wf e → 0 ≤ rung d → 0 ≤ refusals d →
  ∃ e', apply_rung_state e d = Ok e' ∧ episode_wf e' ∧ verdict e' = verdict e ∧ e_run_id e' = e_run_id e ∧
    updated_at e' = updated_at e ∧ stall_frozen_since e' = stall_frozen_since e ∧
    recovery_rung e' = rung d ∧ recovery_span_started_at e' = stall_frozen_since e.
Proof.
  intros Hwf Hr Hn. pose proof (ewf_valid _ Hwf) as Hv. unfold apply_rung_state.
  edestruct replace_valid as (e' & -> & -> & Hwf'); [| |eexists; split_and!; done].
  - solve_valid.
  - apply Hwf.
Qed.

(** One policy call on a suspended episode. *)
Lemma policy_suspended e now :
  episode_wf e → verdict e = SUSPENDED → deterministic_reason_class (e_reason e) = None →
  ∃ e', recovery_policy_decision h (Some e) now =
      Ok (Some (decide_suspended e (Some e) now span_thresholds, e')) ∧
    episode_wf e' ∧ e_run_id e' = e_run_id e ∧ updated_at e' = updated_at e ∧
    stall_frozen_since e' = stall_frozen_since e ∧
    let d := decide_suspended e (Some e) now span_thresholds in
    recovery_rung e' = rung d ∧
    (recovery_span_started_at e' = stall_frozen_since e ∨
     intent d = OBSERVE ∧ recovery_span_started_at e' = recovery_span_started_at e).
Proof.
  intros Hwf Hv Hc. unfold recovery_policy_decision. rewrite recovery_thresholds_Ok. cbn [mbind res_bind].
  assert (decide_recovery (Some e) (Some e) (time_val now) (Some span_thresholds) =
    Ok (decide_suspended e (Some e) now span_thresholds)) as ->.
  { unfold decide_recovery, finite_number, time_val. cbn [is_number py_float fmap res_fmap finite mbind res_bind].
    unfold decide_readable. by rewrite Hv, Hc. }
  cbn [mbind res_bind]. set (d := decide_suspended e (Some e) now span_thresholds).
  assert (0 ≤ rung d ∧ 0 ≤ refusals d) as [Hr Hn].
  { pose proof (ev_refusals _ (ewf_valid _ Hwf)). unfold d, decide_suspended. destruct (negb _); [by split|].
    destruct (_ <=? _); [by split|]. destruct (_ <=? _); by split. }
  destruct (apply_rung_Ok e d Hwf Hr Hn) as (e' & E' & Hwf' & _ & Hrun & Hup & Hfr & Hrg & Hsp).
  destruct (bool_decide_reflect (intent d = OBSERVE)) as [Hi|Hi]; cbn [andb].
  - destruct (Z.eqb_spec (recovery_rung e) (rung d)) as [Heq|Hne]; cbn [andb].
    + destruct (_ =? _); [exists e; split_and!; auto|]. rewrite E'. exists e'. split_and!; auto.
    + rewrite E'. exists e'. split_and!; auto.
  - rewrite E'. exists e'. split_and!; auto.
Qed.

(** One tick of a parked head: reduce, then ask the policy and keep its rung. *)
Definition ladder_tick (e : VitalityEpisode) (t : Tick) : res (RecoveryIntent * VitalityEpisode) :=
  e1 ← tick_step th e t;
  asked ← recovery_policy_decision h (Some e1) (tk_now t);
  match asked with
  | Some (d, e2) => Ok (intent d, e2)
  | None => Ok (OBSERVE, e1)
  end.

Fixpoint ladder_run (e : VitalityEpisode) (ticks : list Tick) : res (list RecoveryIntent) :=
  match ticks with
  | [] => Ok []
  | t :: rest => '(i, e') ← ladder_tick e t; l ← ladder_run e' rest; Ok (i :: l)
  end.

(** Suspended ticks the dispatcher itself did not ask for. *)
Definition parked_tick (rid : string) (t : Tick) : Prop := suspended_tick rid t ∧ tk_retained t = false.

Lemma ladder_tick_effect e t :
  episode_wf e → tick_ok (e_run_id e) (updated_at e) t → parked_tick (e_run_id e) t →
  ∃ e1 e2, ladder_tick e t = Ok (intent (decide_suspended e1 (Some e1) (tk_now t) span_thresholds), e2) ∧
    ladder_state e1 = ladder_state e ∧ stall_frozen_since e1 = or_time (stall_frozen_since e) (tk_now t) ∧
    episode_wf e2 ∧ e_run_id e2 = e_run_id e ∧ updated_at e2 = tk_now t ∧
    stall_frozen_since e2 = stall_frozen_since e1 ∧
    let d := decide_suspended e1 (Some e1) (tk_now t) span_thresholds in
    recovery_rung e2 = rung d ∧
    (recovery_span_started_at e2 = stall_frozen_since e1 ∨
     intent d = OBSERVE ∧ recovery_span_started_at e2 = recovery_span_started_at e1).
Proof.
  intros Hwf Hok [Hsus Hret].
  destruct (suspended_tick_effect th e t Hth Hwf Hok Hsus Hret) as (e1 & E1 & Hwf1 & Hv1 & Hc1 & Hu1 & Hl1 & Hf1).
  destruct (policy_suspended e1 (tk_now t) Hwf1 Hv1 Hc1) as (e2 & E2 & Hwf2 & Hr2 & Hu2 & Hf2 & Hrg & Hsp).
  exists e1, e2. unfold ladder_tick. rewrite E1. cbn [mbind res_bind]. rewrite E2. cbn [mbind res_bind].
  split_and!; try done; [|congruence]. unfold ladder_state in Hl1. congruence.
Qed.

(** From the SIGCONT on, the run follows the plan. *)
Lemma ladder_follows_plan e ticks f (escalated : bool) :
  episode_wf e → ticks_ok (e_run_id e) (updated_at e) ticks → Forall (parked_tick (e_run_id e)) ticks →
  0 < f → f ≤ updated_at e → stall_frozen_since e = f → recovery_span_started_at e = f →
  recovery_rung e = (if escalated then RUNG_ESCALATED else RUNG_RESPONSE_WINDOW) →
  ladder_run e ticks = Ok (span_plan (f + window) escalated (tk_now <$> ticks)).
Proof.
  revert e escalated. induction ticks as [|t ticks IH]; intros e escalated Hwf Hok Hp Hf Hfu Hfr Hsp Hrg; [done|].
  destruct Hok as [Ht Hok]. inversion Hp as [|? ? Hpt Hpr]; subst x l. pose proof (to_now _ _ _ Ht) as Hnow.
  destruct (ladder_tick_effect e t Hwf Ht Hpt)
    as (e1 & e2 & E & Hl1 & Hf1 & Hwf2 & Hr2 & Hu2 & Hf2 & Hrg2 & Hsp2).
  unfold ladder_state in Hl1. injection Hl1 as Hrun1 Hrg1 Hsp1 _.
  rewrite Hfr in Hf1. unfold or_time in Hf1. rewrite (proj2 (Z.eqb_neq f 0)) in Hf1 by lia.
  assert (same_span e1 (Some e1) = true) as Hspan.
  { unfold same_span. rewrite Hrg1, Hrg, Hsp1, Hsp, Hf1, Z.eqb_refl, (proj2 (Z.ltb_lt 0 f)) by done.
    by destruct escalated. }
  cbn [ladder_run]. rewrite E. cbn [mbind res_bind]. rewrite fmap_cons. cbn [span_plan].
  assert (e_run_id e = e_run_id e2) as Hre by congruence. rewrite Hre in Hok, Hpr. rewrite <-Hu2 in Hok.
  assert (recovery_span_started_at e2 = f) as Hsp2' by (destruct Hsp2 as [?|[_ ?]]; congruence).
  unfold decide_suspended in *. rewrite Hspan in *. cbn [negb previous_rung] in *. rewrite Hrg1, Hrg in *.
  destruct escalated; [|change (RUNG_ESCALATED <=? RUNG_RESPONSE_WINDOW) with false in *]; cbn [Z.leb RUNG_ESCALATED] in *.
  - change (RUNG_ESCALATED <=? RUNG_ESCALATED) with true in *. cbn in Hrg2 |- *.
    rewrite (IH e2 true); try done; try lia; try congruence.
  - rewrite Hf1 in *. change (response_window_seconds span_thresholds) with window in *.
    replace (Z.max 0 (tk_now t - f) <=? window) with (tk_now t <=? f + window) in *
      by (pose proof window_pos; apply eq_true_iff_eq; rewrite !Z.leb_le; lia).
    destruct (tk_now t <=? f + window); cbn in Hrg2 |- *.
    + rewrite (IH e2 false); try done; try lia; try congruence.
    + rewrite (IH e2 true); try done; try lia; try congruence.
Qed.

(** C18. One suspension span earns exactly one SIGCONT and at most one
    escalation: over any run of ticks that find the head parked (and not by
    the dispatcher's own retention), the first tick resumes it, later ticks
    only observe until the response window has passed, the first one after
    that calls the operator once, and from then on the head is left alone. *)
Theorem one_sigcont_per_span e first ticks :
  episode_wf e → ticks_ok (e_run_id e) (updated_at e) (first :: ticks) →
  Forall (parked_tick (e_run_id e)) (first :: ticks) →
  0 < tk_now first → stall_frozen_since e = 0 → recovery_span_started_at e ≠ tk_now first →
  ladder_run e (first :: ticks) =
  Ok (SIGCONT :: span_plan (tk_now first + window) false (tk_now <$> ticks)).
Proof.
  intros Hwf [Ht Hok] Hp Hnow Hfr Hspan. inversion Hp as [|? ? Hpt Hpr]; subst x l.
  destruct (ladder_tick_effect e first Hwf Ht Hpt)
    as (e1 & e2 & E & Hl1 & Hf1 & Hwf2 & Hr2 & Hu2 & Hf2 & Hrg2 & Hsp2).
  unfold ladder_state in Hl1. injection Hl1 as Hrun1 Hrg1 Hsp1 _. rewrite Hfr in Hf1. cbn in Hf1.
  assert (same_span e1 (Some e1) = false) as Hs.
  { unfold same_span. rewrite Hsp1, Hf1, (proj2 (Z.eqb_neq _ _)) by done. apply andb_false_r. }
  unfold decide_suspended in *. rewrite Hs in *. cbn in Hrg2, Hsp2. cbn [ladder_run]. rewrite E. cbn [mbind res_bind negb intent].
  rewrite (ladder_follows_plan e2 ticks (tk_now first) false); try done.
  - by rewrite Hr2, Hu2.
  - by rewrite Hr2.
  - by rewrite Hu2.
  - congruence.
  - destruct Hsp2 as [?|[? _]]; [congruence|done].
Qed.

End span.
