(* ===== verification/Board.v ===== *)
(** * The board's lifecycle (board/models.py, board/roles.py,
    board/transitions.py, board/card_transitions.py)

    The entities of the board protocol with their constructor checks, the
    literal registry of lifecycle edges with the event each one emits, and the
    registry of which role may take which Card edge. *)

From S2P Require Import Prelude PyText.

(** ** Vocabulary (board/models.py, board/roles.py) *)

Inductive EntityKind := K_PRODUCT | K_ISSUE | K_SPRINT | K_CARD.

#[global] Instance EntityKind_eq_dec : EqDecision EntityKind.
Proof. solve_decision. Defined.

#[global, refine] Instance EntityKind_enum : StrEnum EntityKind := {|
  enum_value k := match k with
    | K_PRODUCT => "product" | K_ISSUE => "issue" | K_SPRINT => "sprint" | K_CARD => "card" end;
  enum_members := [K_PRODUCT; K_ISSUE; K_SPRINT; K_CARD] |}.
Proof. all: solve_enum. Defined.

Inductive EventKind :=
| ENTITY_CREATED | ENTITY_UPDATED | PRODUCT_ARCHIVED | ISSUE_CLOSED | SPRINT_CLOSED | SPRINT_STOPPED
| SPRINT_REOPENED | CARD_READY | CARD_STARTED | CARD_SUBMITTED | CARD_ASSESSED | CARD_REWORKED
| CARD_RELEASED | CARD_BLOCKED | CARD_UNBLOCKED | CARD_RETURNED | CARD_MOVED | CARD_REPORTED
| CARD_VERDICTED | CARD_DECIDED | CARD_DECISION_REFUSED | ATTEMPT_USAGE | ATTEMPT_OUTCOME.

#[global] Instance EventKind_eq_dec : EqDecision EventKind.
Proof. solve_decision. Defined.

#[global, refine] Instance EventKind_enum : StrEnum EventKind := {|
  enum_value k := match k with
    | ENTITY_CREATED => "entity.created" | ENTITY_UPDATED => "entity.updated"
    | PRODUCT_ARCHIVED => "product.archived" | ISSUE_CLOSED => "issue.closed"
    | SPRINT_CLOSED => "sprint.closed" | SPRINT_STOPPED => "sprint.stopped"
    | SPRINT_REOPENED => "sprint.reopened" | CARD_READY => "card.readied"
    | CARD_STARTED => "card.started" | CARD_SUBMITTED => "card.submitted"
    | CARD_ASSESSED => "card.assessed" | CARD_REWORKED => "card.reworked"
    | CARD_RELEASED => "card.released" | CARD_BLOCKED => "card.blocked"
    | CARD_UNBLOCKED => "card.unblocked" | CARD_RETURNED => "card.returned"
    | CARD_MOVED => "card.moved" | CARD_REPORTED => "card.reported"
    | CARD_VERDICTED => "card.verdict" | CARD_DECIDED => "card.decided"
    | CARD_DECISION_REFUSED => "card.decision_refused" | ATTEMPT_USAGE => "attempt.usage"
    | ATTEMPT_OUTCOME => "attempt.outcome" end;
  enum_members := [ENTITY_CREATED; ENTITY_UPDATED; PRODUCT_ARCHIVED; ISSUE_CLOSED; SPRINT_CLOSED;
    SPRINT_STOPPED; SPRINT_REOPENED; CARD_READY; CARD_STARTED; CARD_SUBMITTED; CARD_ASSESSED;
    CARD_REWORKED; CARD_RELEASED; CARD_BLOCKED; CARD_UNBLOCKED; CARD_RETURNED; CARD_MOVED;
    CARD_REPORTED; CARD_VERDICTED; CARD_DECIDED; CARD_DECISION_REFUSED; ATTEMPT_USAGE;
    ATTEMPT_OUTCOME] |}.
Proof. all: solve_enum. Defined.

Inductive ProductState := PS_ACTIVE | PS_ARCHIVED.
Inductive IssueState := IS_OPEN | IS_CLOSED.
Inductive IssueKind := IK_BUG | IK_FEATURE | IK_QUESTION | IK_IMPROVEMENT.
Inductive IssuePriority := P0 | P1 | P2 | P3.
Inductive IssueCloseReason := CR_RESOLVED | CR_INVALID | CR_DUPLICATE | CR_WONT_DO.
Inductive SprintState := SS_OPEN | SS_CLOSED | SS_STOPPED.
Inductive CardState := ISSUES | READY | IN_PROGRESS | VALIDATE | ASSESSMENT | BLOCKED | DONE.
Inductive Role := PO | DISPATCHER | WORKER | REVIEWER | OBSERVER | STEWARD | RETRO.

#[global] Instance ProductState_eq_dec : EqDecision ProductState.
Proof. solve_decision. Defined.
#[global] Instance IssueState_eq_dec : EqDecision IssueState.
Proof. solve_decision. Defined.
#[global] Instance IssueKind_eq_dec : EqDecision IssueKind.
Proof. solve_decision. Defined.
#[global] Instance IssuePriority_eq_dec : EqDecision IssuePriority.
Proof. solve_decision. Defined.
#[global] Instance IssueCloseReason_eq_dec : EqDecision IssueCloseReason.
Proof. solve_decision. Defined.
#[global] Instance SprintState_eq_dec : EqDecision SprintState.
Proof. solve_decision. Defined.
#[global] Instance CardState_eq_dec : EqDecision CardState.
Proof. solve_decision. Defined.
#[global] Instance Role_eq_dec : EqDecision Role.
Proof. solve_decision. Defined.

#[global, refine] Instance ProductState_enum : StrEnum ProductState := {|
  enum_value s := match s with PS_ACTIVE => "active" | PS_ARCHIVED => "archived" end;
  enum_members := [PS_ACTIVE; PS_ARCHIVED] |}.
Proof. all: solve_enum. Defined.

#[global, refine] Instance IssueState_enum : StrEnum IssueState := {|
  enum_value s := match s with IS_OPEN => "open" | IS_CLOSED => "closed" end;
  enum_members := [IS_OPEN; IS_CLOSED] |}.
Proof. all: solve_enum. Defined.

#[global, refine] Instance IssueKind_enum : StrEnum IssueKind := {|
  enum_value k := match k with
    | IK_BUG => "bug" | IK_FEATURE => "feature" | IK_QUESTION => "question"
    | IK_IMPROVEMENT => "improvement" end;
  enum_members := [IK_BUG; IK_FEATURE; IK_QUESTION; IK_IMPROVEMENT] |}.
Proof. all: solve_enum. Defined.

#[global, refine] Instance IssuePriority_enum : StrEnum IssuePriority := {|
  enum_value p := match p with P0 => "P0" | P1 => "P1" | P2 => "P2" | P3 => "P3" end;
  enum_members := [P0; P1; P2; P3] |}.
Proof. all: solve_enum. Defined.

#[global, refine] Instance IssueCloseReason_enum : StrEnum IssueCloseReason := {|
  enum_value r := match r with
    | CR_RESOLVED => "resolved" | CR_INVALID => "invalid" | CR_DUPLICATE => "duplicate"
    | CR_WONT_DO => "wont_do" end;
  enum_members := [CR_RESOLVED; CR_INVALID; CR_DUPLICATE; CR_WONT_DO] |}.
Proof. all: solve_enum. Defined.

#[global, refine] Instance SprintState_enum : StrEnum SprintState := {|
  enum_value s := match s with SS_OPEN => "open" | SS_CLOSED => "closed" | SS_STOPPED => "stopped" end;
  enum_members := [SS_OPEN; SS_CLOSED; SS_STOPPED] |}.
Proof. all: solve_enum. Defined.

#[global, refine] Instance CardState_enum : StrEnum CardState := {|
  enum_value s := match s with
    | ISSUES => "issues" | READY => "ready" | IN_PROGRESS => "in_progress" | VALIDATE => "validate"
    | ASSESSMENT => "assessment" | BLOCKED => "blocked" | DONE => "done" end;
  enum_members := [ISSUES; READY; IN_PROGRESS; VALIDATE; ASSESSMENT; BLOCKED; DONE] |}.
Proof. all: solve_enum. Defined.

#[global, refine] Instance Role_enum : StrEnum Role := {|
  enum_value r := match r with
    | PO => "po" | DISPATCHER => "dispatcher" | WORKER => "worker" | REVIEWER => "reviewer"
    | OBSERVER => "observer" | STEWARD => "steward" | RETRO => "retro" end;
  enum_members := [PO; DISPATCHER; WORKER; REVIEWER; OBSERVER; STEWARD; RETRO] |}.
Proof. all: solve_enum. Defined.

(** ** Entities *)

(** [_non_empty]. *)
Definition non_empty (value field_name : string) : res unit :=
  require (nonempty (str_strip value)) (Exn "ValueError" (field_name +:+ " must not be empty")).

Record Product := {
  pr_ref : string; pr_title : string; pr_state : ProductState; pr_projects : list string;
  pr_description : string;
}.

Record Issue := {
  is_ref : string; is_title : string; is_product_ref : string; is_state : IssueState;
  is_priority : option IssuePriority; is_kind : option IssueKind; is_description : string;
  is_close_reason : option IssueCloseReason;
}.

Record Sprint := {
  sp_ref : string; sp_goal : string; sp_state : SprintState; sp_product_ref : option string;
  sp_issue_refs : list string; sp_card_refs : list string;
}.

Record Card := {
  ca_ref : string; ca_title : string; ca_state : CardState; ca_sprint_ref : option string;
  ca_issue_refs : list string; ca_product_ref : option string; ca_description : string;
}.

(** [Product(...)] with its [__post_init__]. *)
Definition new_product (ref title : string) (state : ProductState) (projects : list string)
    (description : string) : res Product :=
  _ ← non_empty ref "product ref";
  _ ← non_empty title "product title";
  Ok {| pr_ref := ref; pr_title := title; pr_state := state; pr_projects := projects;
        pr_description := description |}.

(** One closed vocabulary of an Issue: absent, or a member. *)
Definition vocabulary {A} `{StrEnum A} (v : option string) : res (option A) :=
  match v with
  | None => Ok None
  | Some text =>
      match enum_of_value text with
      | Some a => Ok (Some a)
      | None => Raise (Exn "ValueError" "invalid Issue vocabulary")
      end
  end.

(** [""] reads as absence. *)
Definition blank_absent (v : option string) : option string :=
  match v with Some "" => None | _ => v end.

(** [Issue(...)]: the staged [pending]/[pending] shape reads as absence. *)
Definition new_issue (ref title product_ref : string) (state : IssueState)
    (priority issue_kind : option string) (description : string) (close_reason : option string) :
    res Issue :=
  let pending v := bool_decide (v = Some "pending") in
  _ ← require (Bool.eqb (pending priority) (pending issue_kind))
        (Exn "ValueError" "incomplete Issue vocabulary must omit both priority and kind");
  let absent := pending priority in
  p ← vocabulary (blank_absent (if absent then None else priority));
  k ← vocabulary (blank_absent (if absent then None else issue_kind));
  c ← vocabulary (blank_absent close_reason);
  _ ← non_empty ref "issue ref";
  _ ← non_empty title "issue title";
  _ ← non_empty product_ref "issue product ref";
  Ok {| is_ref := ref; is_title := title; is_product_ref := product_ref; is_state := state;
        is_priority := p; is_kind := k; is_description := description; is_close_reason := c |}.

Definition new_sprint (ref goal : string) (state : SprintState) (product_ref : option string)
    (issue_refs card_refs : list string) : res Sprint :=
  _ ← non_empty ref "sprint ref";
  Ok {| sp_ref := ref; sp_goal := goal; sp_state := state; sp_product_ref := product_ref;
        sp_issue_refs := issue_refs; sp_card_refs := card_refs |}.

Definition new_card (ref title : string) (state : CardState) (sprint_ref : option string)
    (issue_refs : list string) (product_ref : option string) (description : string) : res Card :=
  _ ← non_empty ref "card ref";
  _ ← non_empty title "card title";
  Ok {| ca_ref := ref; ca_title := title; ca_state := state; ca_sprint_ref := sprint_ref;
        ca_issue_refs := issue_refs; ca_product_ref := product_ref; ca_description := description |}.

Inductive BoardEntity :=
| E_PRODUCT (p : Product) | E_ISSUE (i : Issue) | E_SPRINT (s : Sprint) | E_CARD (c : Card).

Definition entity_kind (e : BoardEntity) : EntityKind :=
  match e with
  | E_PRODUCT _ => K_PRODUCT | E_ISSUE _ => K_ISSUE | E_SPRINT _ => K_SPRINT | E_CARD _ => K_CARD
  end.

(** ** The transition registry (board/transitions.py) *)

Inductive LifecycleState :=
| L_PRODUCT (s : ProductState) | L_ISSUE (s : IssueState) | L_SPRINT (s : SprintState)
| L_CARD (s : CardState).

#[global] Instance LifecycleState_eq_dec : EqDecision LifecycleState.
Proof. solve_decision. Defined.

(** [.value]. *)
Definition state_value (s : LifecycleState) : string :=
  match s with
  | L_PRODUCT s => enum_value s | L_ISSUE s => enum_value s
  | L_SPRINT s => enum_value s | L_CARD s => enum_value s
  end.

Record Transition := { t_source : LifecycleState; t_target : LifecycleState; t_event : EventKind }.

Definition edge (a b : LifecycleState) (k : EventKind) : Transition :=
  {| t_source := a; t_target := b; t_event := k |}.

(** [TRANSITIONS]: the literal registry, an edge's key being its two ends. *)
Definition TRANSITIONS (kind : EntityKind) : list Transition :=
  match kind with
  | K_PRODUCT => [
      edge (L_PRODUCT PS_ACTIVE) (L_PRODUCT PS_ARCHIVED) PRODUCT_ARCHIVED]
  | K_ISSUE => [
      edge (L_ISSUE IS_OPEN) (L_ISSUE IS_CLOSED) ISSUE_CLOSED]
  | K_SPRINT => [
      edge (L_SPRINT SS_OPEN) (L_SPRINT SS_CLOSED) SPRINT_CLOSED;
      edge (L_SPRINT SS_STOPPED) (L_SPRINT SS_CLOSED) SPRINT_CLOSED;
      edge (L_SPRINT SS_OPEN) (L_SPRINT SS_STOPPED) SPRINT_STOPPED;
      edge (L_SPRINT SS_CLOSED) (L_SPRINT SS_OPEN) SPRINT_REOPENED;
      edge (L_SPRINT SS_STOPPED) (L_SPRINT SS_OPEN) SPRINT_REOPENED]
  | K_CARD => [
      edge (L_CARD ISSUES) (L_CARD READY) CARD_READY;
      edge (L_CARD ISSUES) (L_CARD IN_PROGRESS) CARD_MOVED;
      edge (L_CARD ISSUES) (L_CARD VALIDATE) CARD_MOVED;
      edge (L_CARD ISSUES) (L_CARD ASSESSMENT) CARD_MOVED;
      edge (L_CARD ISSUES) (L_CARD BLOCKED) CARD_BLOCKED;
      edge (L_CARD ISSUES) (L_CARD DONE) CARD_MOVED;
      edge (L_CARD READY) (L_CARD ISSUES) CARD_MOVED;
      edge (L_CARD READY) (L_CARD IN_PROGRESS) CARD_STARTED;
      edge (L_CARD READY) (L_CARD VALIDATE) CARD_MOVED;
      edge (L_CARD READY) (L_CARD ASSESSMENT) CARD_MOVED;
      edge (L_CARD READY) (L_CARD BLOCKED) CARD_BLOCKED;
      edge (L_CARD READY) (L_CARD DONE) CARD_MOVED;
      edge (L_CARD IN_PROGRESS) (L_CARD ISSUES) CARD_MOVED;
      edge (L_CARD IN_PROGRESS) (L_CARD READY) CARD_RETURNED;
      edge (L_CARD IN_PROGRESS) (L_CARD VALIDATE) CARD_SUBMITTED;
      edge (L_CARD IN_PROGRESS) (L_CARD ASSESSMENT) CARD_MOVED;
      edge (L_CARD IN_PROGRESS) (L_CARD BLOCKED) CARD_BLOCKED;
      edge (L_CARD IN_PROGRESS) (L_CARD DONE) CARD_MOVED;
      edge (L_CARD VALIDATE) (L_CARD ISSUES) CARD_MOVED;
      edge (L_CARD VALIDATE) (L_CARD READY) CARD_MOVED;
      edge (L_CARD VALIDATE) (L_CARD IN_PROGRESS) CARD_RETURNED;
      edge (L_CARD VALIDATE) (L_CARD ASSESSMENT) CARD_ASSESSED;
      edge (L_CARD VALIDATE) (L_CARD BLOCKED) CARD_BLOCKED;
      edge (L_CARD VALIDATE) (L_CARD DONE) CARD_MOVED;
      edge (L_CARD ASSESSMENT) (L_CARD ISSUES) CARD_MOVED;
      edge (L_CARD ASSESSMENT) (L_CARD READY) CARD_MOVED;
      edge (L_CARD ASSESSMENT) (L_CARD IN_PROGRESS) CARD_REWORKED;
      edge (L_CARD ASSESSMENT) (L_CARD VALIDATE) CARD_MOVED;
      edge (L_CARD ASSESSMENT) (L_CARD DONE) CARD_RELEASED;
      edge (L_CARD ASSESSMENT) (L_CARD BLOCKED) CARD_BLOCKED;
      edge (L_CARD BLOCKED) (L_CARD ISSUES) CARD_MOVED;
      edge (L_CARD BLOCKED) (L_CARD READY) CARD_UNBLOCKED;
      edge (L_CARD BLOCKED) (L_CARD IN_PROGRESS) CARD_MOVED;
      edge (L_CARD BLOCKED) (L_CARD VALIDATE) CARD_MOVED;
      edge (L_CARD BLOCKED) (L_CARD ASSESSMENT) CARD_MOVED;
      edge (L_CARD BLOCKED) (L_CARD DONE) CARD_MOVED;
      edge (L_CARD DONE) (L_CARD ISSUES) CARD_MOVED;
      edge (L_CARD DONE) (L_CARD READY) CARD_MOVED;
      edge (L_CARD DONE) (L_CARD IN_PROGRESS) CARD_MOVED;
      edge (L_CARD DONE) (L_CARD VALIDATE) CARD_MOVED;
      edge (L_CARD DONE) (L_CARD ASSESSMENT) CARD_MOVED;
      edge (L_CARD DONE) (L_CARD BLOCKED) CARD_BLOCKED]
  end.

Definition lifecycle_state (e : BoardEntity) : LifecycleState :=
  match e with
  | E_PRODUCT p => L_PRODUCT (pr_state p) | E_ISSUE i => L_ISSUE (is_state i)
  | E_SPRINT s => L_SPRINT (sp_state s) | E_CARD c => L_CARD (ca_state c)
  end.

Definition InvalidTransition (msg : string) : exn := Exn "InvalidTransition" msg.

(** [transition_for]: the states are [StrEnum] members, so a key is compared by
    its two texts. *)
Definition transition_for (kind : EntityKind) (source target : LifecycleState) : res Transition :=
  match List.find (λ t, String.eqb (state_value (t_source t)) (state_value source)
                        && String.eqb (state_value (t_target t)) (state_value target)) (TRANSITIONS kind) with
  | Some t => Ok t
  | None => Raise (InvalidTransition (enum_value kind +:+ " cannot transition from "
              +:+ state_value source +:+ " to " +:+ state_value target))
  end.

(** [transition]: the checked successor, and the edge's declaration. *)
Definition transition (e : BoardEntity) (target : LifecycleState) : res (BoardEntity * Transition) :=
  declaration ← transition_for (entity_kind e) (lifecycle_state e) target;
  match e, target with
  | E_PRODUCT p, L_PRODUCT t =>
      p' ← new_product (pr_ref p) (pr_title p) t (pr_projects p) (pr_description p);
      Ok (E_PRODUCT p', declaration)
  | E_ISSUE i, L_ISSUE t =>
      i' ← new_issue (is_ref i) (is_title i) (is_product_ref i) t (enum_value <$> is_priority i)
             (enum_value <$> is_kind i) (is_description i) (enum_value <$> is_close_reason i);
      Ok (E_ISSUE i', declaration)
  | E_SPRINT s, L_SPRINT t =>
      s' ← new_sprint (sp_ref s) (sp_goal s) t (sp_product_ref s) (sp_issue_refs s) (sp_card_refs s);
      Ok (E_SPRINT s', declaration)
  | E_CARD c, L_CARD t =>
      c' ← new_card (ca_ref c) (ca_title c) t (ca_sprint_ref c) (ca_issue_refs c) (ca_product_ref c)
             (ca_description c);
      Ok (E_CARD c', declaration)
  | _, _ => Raise (InvalidTransition (enum_value (entity_kind e) +:+ " cannot transition to "
              +:+ state_value target))
  end.

(** ** Card authority (board/card_transitions.py) *)

Definition CARD_STATES : list CardState := enum_members.

(** Every ordered pair of two different states, sources filtered by [keep]. *)
Definition all_edges (keep : CardState → bool) : list (CardState * CardState) :=
  source ← List.filter keep CARD_STATES;
  target ← CARD_STATES;
  if bool_decide (source = target) then [] else [(source, target)].

Definition CARD_TRANSITIONS (role : Role) : list (CardState * CardState) :=
  match role with
  | PO => all_edges (λ _, true)
  | DISPATCHER => [
      (READY, IN_PROGRESS); (IN_PROGRESS, DONE); (READY, BLOCKED); (IN_PROGRESS, VALIDATE);
      (IN_PROGRESS, BLOCKED); (IN_PROGRESS, READY); (VALIDATE, IN_PROGRESS); (VALIDATE, BLOCKED);
      (VALIDATE, DONE); (VALIDATE, ASSESSMENT); (ASSESSMENT, IN_PROGRESS); (ASSESSMENT, DONE);
      (ASSESSMENT, BLOCKED)]
  | OBSERVER => all_edges (λ source, negb (bool_decide (source = ASSESSMENT)))
  | WORKER | REVIEWER | RETRO => []
  | STEWARD => [
      (BLOCKED, READY); (BLOCKED, DONE); (IN_PROGRESS, DONE); (READY, BLOCKED);
      (IN_PROGRESS, BLOCKED); (VALIDATE, BLOCKED); (ASSESSMENT, BLOCKED)]
  end.

Definition CardTransitionForbidden (role source target : string) : exn :=
  Exn "CardTransitionForbidden" (role +:+ " cannot transition a Card from " +:+ source +:+ " to " +:+ target).

(** [card_transition]: the declared edge, when [role] owns it. *)
Definition card_transition (role source target : string) : res Transition :=
  match enum_of_value (A := Role) role, enum_of_value (A := CardState) source,
        enum_of_value (A := CardState) target with
  | Some r, Some s, Some t =>
      if bool_decide ((s, t) ∈ CARD_TRANSITIONS r)
      then transition_for K_CARD (L_CARD s) (L_CARD t)
      else Raise (CardTransitionForbidden role (enum_value s) (enum_value t))
  | _, _, _ => Raise (CardTransitionForbidden role source target)
  end.
