(* ===== verification/BoardFacts.v ===== *)
(** * Properties of the board lifecycle *)

From S2P Require Import Prelude PyText Board.

(** ** The Card registry *)

(** Decide a statement about every pair of Card states by evaluation. *)
Ltac card_cases a b := destruct a, b; vm_compute; try done; eauto.

(** The Card graph is complete: every move between two different states is
    declared, with those ends, and no self-loop is. *)
Lemma card_edge_declared a b :
  match transition_for K_CARD (L_CARD a) (L_CARD b) with
  | Ok t => a ≠ b ∧ t_source t = L_CARD a ∧ t_target t = L_CARD b
  | Raise _ => a = b
  end.
Proof. card_cases a b. Qed.

Lemma authority_irreflexive r a b : (a, b) ∈ CARD_TRANSITIONS r → a ≠ b.
Proof.
  intros Hin ->. apply (bool_decide_eq_true_2 _) in Hin. revert Hin. destruct r, b; vm_compute; done.
Qed.

(** Card authority is exact and closed: a role's request succeeds exactly
    when role and states are members of their vocabularies and the role owns
    that edge, and then it yields the declared edge between those two states;
    every other request is refused as CardTransitionForbidden, so no role owns
    an edge the lifecycle does not declare. *)
Theorem card_authority_exact role source target :
  (∃ r a b, role = enum_value r ∧ source = enum_value a ∧ target = enum_value b ∧
     (a, b) ∈ CARD_TRANSITIONS r ∧ a ≠ b ∧
     ∃ k, card_transition role source target = Ok (edge (L_CARD a) (L_CARD b) k)) ∨
  ((∀ r a b, role = enum_value r → source = enum_value a → target = enum_value b →
     (a, b) ∉ CARD_TRANSITIONS r) ∧
   ∃ msg, card_transition role source target = Raise (Exn "CardTransitionForbidden" msg)).
Proof.
  unfold card_transition. destruct (enum_of_value role) as [r|] eqn:Er; cycle 1.
  { right. split; [|by eexists]. intros r a b -> _ _. by rewrite enum_of_value_value in Er. }
  apply enum_of_value_Some in Er. destruct (enum_of_value source) as [a|] eqn:Ea; cycle 1.
  { right. split; [|by eexists]. intros ? a b _ -> _. by rewrite enum_of_value_value in Ea. }
  apply enum_of_value_Some in Ea. destruct (enum_of_value target) as [b|] eqn:Eb; cycle 1.
  { right. split; [|by eexists]. intros ? ? b _ _ ->. by rewrite enum_of_value_value in Eb. }
  apply enum_of_value_Some in Eb. case_bool_decide as Hin.
  - left. exists r, a, b. pose proof (authority_irreflexive _ _ _ Hin) as Hne. split_and!; try done.
    pose proof (card_edge_declared a b) as Hd. destruct (transition_for _ _ _) as [t|]; [|done].
    destruct Hd as (_ & Hs & Ht). exists (t_event t). destruct t. cbn in *. by subst.
  - right. split; [|by eexists]. intros r' a' b' Hr Ha Hb. subst.
    apply enum_value_inj in Hr as ->. apply enum_value_inj in Ha as ->. by apply enum_value_inj in Hb as ->.
Qed.

(** Who may move what: workers, reviewers and retro heads move no Card; a
    Card leaves Assessment only by the product owner, by the dispatcher (to In
    progress, Done or Blocked) or by the steward (to Blocked); the dispatcher
    never takes a Card out of Blocked, Done or Issues; and a steward's move
    ends in Ready, Done or Blocked. *)
Theorem authority_boundaries role source target t :
  card_transition role source target = Ok t →
  role ∉ ["worker"; "reviewer"; "retro"] ∧
  (source = "assessment" → role = "po" ∨
     (role = "dispatcher" ∧ target ∈ ["in_progress"; "done"; "blocked"]) ∨ (role = "steward" ∧ target = "blocked")) ∧
  (role = "dispatcher" → source ∈ ["ready"; "in_progress"; "validate"; "assessment"]) ∧
  (role = "steward" → target ∈ ["ready"; "done"; "blocked"]).
Proof.
  unfold card_transition. destruct (enum_of_value role) as [r|] eqn:Er; [|done].
  destruct (enum_of_value source) as [a|] eqn:Ea; [|done]. destruct (enum_of_value target) as [b|] eqn:Eb; [|done].
  apply enum_of_value_Some in Er, Ea, Eb. subst. destruct (bool_decide ((a, b) ∈ CARD_TRANSITIONS r)) eqn:Hin; [|done].
  intros _. revert Hin.
  destruct r, a, b; vm_compute (bool_decide _); intros Hin; try discriminate Hin;
    cbn; split_and!; intros; try discriminate; auto; set_solver.
Qed.

(** The event of a Card edge says what happened: [card.blocked] is emitted
    exactly by the moves into Blocked, and every event but the generic
    [card.moved], [card.blocked] and [card.returned] is emitted by one edge
    only, so it identifies the move it records. *)
Theorem card_events_identify_moves a b t :
  transition_for K_CARD (L_CARD a) (L_CARD b) = Ok t →
  (t_event t = CARD_BLOCKED ↔ b = BLOCKED) ∧
  (t_event t ∉ [CARD_MOVED; CARD_BLOCKED; CARD_RETURNED] →
   ∀ a' b' t', transition_for K_CARD (L_CARD a') (L_CARD b') = Ok t' → t_event t' = t_event t → a' = a ∧ b' = b).
Proof.
  intros E. split.
  - revert E. destruct a, b; vm_compute; intros [= <-]; done.
  - intros Hn a' b' t' E' Hev.
    assert (∀ x y u, transition_for K_CARD (L_CARD x) (L_CARD y) = Ok u →
      match t_event u with
      | CARD_READY => x = ISSUES ∧ y = READY | CARD_STARTED => x = READY ∧ y = IN_PROGRESS
      | CARD_SUBMITTED => x = IN_PROGRESS ∧ y = VALIDATE | CARD_ASSESSED => x = VALIDATE ∧ y = ASSESSMENT
      | CARD_REWORKED => x = ASSESSMENT ∧ y = IN_PROGRESS | CARD_RELEASED => x = ASSESSMENT ∧ y = DONE
      | CARD_UNBLOCKED => x = BLOCKED ∧ y = READY
      | CARD_MOVED | CARD_BLOCKED | CARD_RETURNED => True | _ => False end) as Hid.
    { intros x y u. destruct x, y; vm_compute; intros [= <-]; done. }
    pose proof (Hid _ _ _ E) as H1. pose proof (Hid _ _ _ E') as H2. rewrite Hev in H2.
    destruct (t_event t); try done; try set_solver; destruct H1 as [-> ->], H2 as [-> ->]; done.
Qed.

(** ** Entities *)

(** What the constructors guarantee. *)
Definition entity_wf (e : BoardEntity) : Prop :=
  match e with
  | E_PRODUCT p => nonempty (str_strip (pr_ref p)) = true ∧ nonempty (str_strip (pr_title p)) = true
  | E_ISSUE i => nonempty (str_strip (is_ref i)) = true ∧ nonempty (str_strip (is_title i)) = true ∧
                 nonempty (str_strip (is_product_ref i)) = true
  | E_SPRINT s => nonempty (str_strip (sp_ref s)) = true
  | E_CARD c => nonempty (str_strip (ca_ref c)) = true ∧ nonempty (str_strip (ca_title c)) = true
  end.

(** The entity with another state of its own kind. *)
Definition with_state (e : BoardEntity) (target : LifecycleState) : option BoardEntity :=
  match e, target with
  | E_PRODUCT (Build_Product a b _ d f), L_PRODUCT t => Some (E_PRODUCT (Build_Product a b t d f))
  | E_ISSUE (Build_Issue a b c _ d f g i), L_ISSUE t => Some (E_ISSUE (Build_Issue a b c t d f g i))
  | E_SPRINT (Build_Sprint a b _ d f g), L_SPRINT t => Some (E_SPRINT (Build_Sprint a b t d f g))
  | E_CARD (Build_Card a b _ d f g i), L_CARD t => Some (E_CARD (Build_Card a b t d f g i))
  | _, _ => None
  end.

Lemma vocabulary_value {A} `{StrEnum A} (v : option A) :
  (∀ a, enum_value a ≠ "") → vocabulary (blank_absent (enum_value <$> v)) = Ok v.
Proof.
  intros Hne. destruct v as [a|]; [|done]. cbn. specialize (Hne a).
  destruct (enum_value a) as [|c s] eqn:E; [done|]. cbn. rewrite <-E. by rewrite enum_of_value_value.
Qed.

Lemma reissue i t :
  entity_wf (E_ISSUE i) →
  new_issue (is_ref i) (is_title i) (is_product_ref i) t (enum_value <$> is_priority i)
    (enum_value <$> is_kind i) (is_description i) (enum_value <$> is_close_reason i) =
  Ok (Build_Issue (is_ref i) (is_title i) (is_product_ref i) t (is_priority i) (is_kind i) (is_description i)
        (is_close_reason i)).
Proof.
  intros (H1 & H2 & H3). unfold new_issue.
  rewrite (bool_decide_eq_false_2 (_ <$> is_priority i = _)) by (by destruct (is_priority i) as [[]|]).
  rewrite (bool_decide_eq_false_2 (_ <$> is_kind i = _)) by (by destruct (is_kind i) as [[]|]).
  cbn [Bool.eqb require mbind res_bind]. rewrite !vocabulary_value by (by intros []).
  cbn [mbind res_bind]. unfold non_empty. by rewrite H1, H2, H3.
Qed.

(** A lifecycle transition changes the state and nothing else: for a
    constructed entity it succeeds exactly when the edge is declared for its
    kind and the target is a state of that kind, and the successor is the same
    entity in the target state, again well formed. *)
Theorem transition_changes_only_state e target :
  entity_wf e →
  match transition e target with
  | Ok (e', d) => with_state e target = Some e' ∧ entity_wf e' ∧ entity_kind e' = entity_kind e ∧
      lifecycle_state e' = target ∧ transition_for (entity_kind e) (lifecycle_state e) target = Ok d
  | Raise x => (∃ msg, x = InvalidTransition msg) ∧
      (with_state e target = None ∨ ¬ is_ok (transition_for (entity_kind e) (lifecycle_state e) target))
  end.
Proof.
  intros Hwf. unfold transition. destruct (transition_for (entity_kind e) (lifecycle_state e) target) as [d|x] eqn:E; cycle 1.
  { cbn. split; [|by right; intros []]. unfold transition_for in E. destruct (List.find _ _); [done|].
    injection E as <-. by eexists. }
  cbn [mbind res_bind]. destruct e as [p|i|s|c], target as [t|t|t|t]; 
    try (split; [by eexists|left; first [by destruct p|by destruct i|by destruct s|by destruct c]]).
  - destruct p, Hwf as [H1 H2]. unfold new_product, non_empty. cbn in *. rewrite H1, H2. cbn. by split_and!.
  - rewrite (reissue i t Hwf). destruct i, Hwf as (H1 & H2 & H3). cbn [mbind res_bind]. by split_and!.
  - destruct s. unfold new_sprint, non_empty. cbn in *. rewrite Hwf. cbn. by split_and!.
  - destruct c, Hwf as [H1 H2]. unfold new_card, non_empty. cbn in *. rewrite H1, H2. cbn. by split_and!.
Qed.

(** Archiving and closing are final for products and issues, while a sprint
    is never stuck: no transition leaves an archived Product or a closed Issue,
    and a closed or stopped Sprint can be reopened. *)
Theorem terminal_states e target :
  (lifecycle_state e = L_PRODUCT PS_ARCHIVED ∨ lifecycle_state e = L_ISSUE IS_CLOSED →
   is_ok (transition e target) = false) ∧
  (∀ s, e = E_SPRINT s → sp_state s ≠ SS_OPEN → entity_wf e →
   is_ok (transition e (L_SPRINT SS_OPEN)) = true).
Proof.
  split.
  - intros Hst. unfold transition.
    assert (is_ok (transition_for (entity_kind e) (lifecycle_state e) target) = false) as Hno.
    { destruct e; cbn [lifecycle_state entity_kind] in *; destruct Hst as [Hs|Hs]; try discriminate; rewrite Hs;
        destruct target as [t|t|t|t]; destruct t; vm_compute; done. }
    by destruct (transition_for _ _ _).
  - intros s -> Hn Hwf. destruct s as [ref goal st pref irefs crefs]. unfold transition.
    cbn [entity_kind lifecycle_state Board.sp_state] in *.
    assert (∃ d, transition_for K_SPRINT (L_SPRINT st) (L_SPRINT SS_OPEN) = Ok d) as [d ->]
      by (destruct st; [done|vm_compute; by eexists..]).
    unfold entity_wf in Hwf. cbn [Board.sp_ref] in Hwf. cbn [mbind res_bind]. unfold new_sprint, non_empty.
    cbn [Board.sp_ref]. by rewrite Hwf.
Qed.
