(* ===== verification/TerminalTaxonomy.v ===== *)
(** * The terminal taxonomy (board/terminal_taxonomy.py)

    The typed description of a terminal transition, its persisted record, and
    the reader that accepts a forward record only when it is exactly what the
    writer would have written. *)

From S2P Require Import Prelude PyText.

Definition TERMINAL_DISPOSITIONS : list string :=
  ["release"; "rework"; "reslice"; "blocked"; "drop"; "operator_stop"].

Definition BLOCKED_REASONS : list string :=
  ["implementation"; "review"; "task_contract"; "gate"; "provider"; "infrastructure"; "operator"; "other"].

Definition TERMINAL_TAXONOMY_VERSION : Z := 2.
Definition TERMINAL_TAXONOMY_V1 : Z := 1.

Definition TaxonomyError (msg : string) : exn := Exn "TerminalTaxonomyValidationError" msg.

Record TerminalTaxonomy := {
  tt_disposition : string;
  tt_blocked_reason : option string;
  tt_source_evidence : option string;
  tt_budget_class : option string;
  tt_provenance : string;
}.

#[global] Instance TerminalTaxonomy_eq_dec : EqDecision TerminalTaxonomy.
Proof. solve_decision. Defined.

(** An optional text as JSON. *)
Definition opt_val (o : option string) : pyval := from_option VStr VNone o.

Definition to_record (t : TerminalTaxonomy) : list (string * pyval) := [
  ("version", VInt TERMINAL_TAXONOMY_VERSION);
  ("disposition", VStr (tt_disposition t));
  ("blocked_reason", opt_val (tt_blocked_reason t));
  ("source_evidence", opt_val (tt_source_evidence t));
  ("budget_class", opt_val (tt_budget_class t));
  ("provenance", VStr (tt_provenance t))].

(** The reason a blocked terminal's evidence normalises to. *)
Definition normal_reason (evidence : string) : string :=
  if String.eqb evidence "wrong_task_definition" then "task_contract"
  else if String.eqb evidence "external_fact" then "other" else evidence.

(** [==] of two JSON texts, or of a text and an absence. *)
Definition is_text (v : pyval) (o : option string) : bool :=
  match v, o with
  | VNone, None => true
  | VStr s, Some s' => String.eqb s s'
  | _, _ => false
  end.

Section taxonomy.
(** Python's [repr], which only reaches the texts of the errors. *)
Context (py_repr : pyval → string).

(** [normalize_terminal_taxonomy], on values a record may hold. *)
Definition normalize_terminal_taxonomy (disposition blocked_reason : pyval) : res TerminalTaxonomy :=
  let unsupported := TaxonomyError ("unsupported terminal disposition " +:+ py_repr disposition) in
  match disposition with
  | VStr d =>
      if bool_decide (d ∈ TERMINAL_DISPOSITIONS) then
        if negb (String.eqb d "blocked") then
          match blocked_reason with
          | VNone => Ok {| tt_disposition := d; tt_blocked_reason := None; tt_source_evidence := None;
                           tt_budget_class := if String.eqb d "reslice" then Some "blocked" else None;
                           tt_provenance := "forward" |}
          | _ => Raise (TaxonomyError
                   "a terminal taxonomy blocked reason is present exactly for blocked disposition")
          end
        else
          match blocked_reason with
          | VStr text =>
              let evidence := str_strip text in
              if nonempty evidence then
                let normalized := normal_reason evidence in
                if bool_decide (normalized ∈ BLOCKED_REASONS)
                then Ok {| tt_disposition := d; tt_blocked_reason := Some normalized;
                           tt_source_evidence := Some evidence;
                           tt_budget_class := Some (if String.eqb normalized "infrastructure"
                                                    then "infrastructure_blocked" else "blocked");
                           tt_provenance := "forward" |}
                else Raise (TaxonomyError
                       ("unsupported terminal blocked reason " +:+ py_repr (VStr evidence)))
              else Raise (TaxonomyError "a blocked terminal taxonomy requires source evidence")
          | _ => Raise (TaxonomyError "a blocked terminal taxonomy requires source evidence")
          end
      else Raise unsupported
  | _ => Raise unsupported
  end.

(** [version == n]: an int, a float or a bool of that value. *)
Definition number_is (v : pyval) (n : Z) : bool :=
  match v with
  | VInt z => z =? n
  | VFloat (FFin t) => t =? seconds n
  | VBool b => (if b then 1 else 0) =? n
  | _ => false
  end.

(** A value a Python set cannot be asked about. *)
Definition unhashable (v : pyval) : bool := match v with VList _ | VDict _ => true | _ => false end.

(** The field set of one record version, as a set of names. *)
Definition record_fields (current : bool) : list string :=
  ["version"; "disposition"; "blocked_reason"; "source_evidence"; "provenance"]
  ++ (if current then ["budget_class"] else []).

Definition same_fields (d : list (string * pyval)) (fields : list string) : bool :=
  forallb (λ f, dict_has d f) fields && forallb (λ p, bool_decide (p.1 ∈ fields)) d.

(** The legacy reading: no taxonomy was recorded. *)
Definition read_legacy (disposition : option string) : res TerminalTaxonomy :=
  match disposition with
  | None => Raise (TaxonomyError "a legacy terminal taxonomy needs its transition disposition")
  | Some d =>
      if bool_decide (d ∈ TERMINAL_DISPOSITIONS)
      then Ok {| tt_disposition := d;
                 tt_blocked_reason := if String.eqb d "blocked" then Some "other" else None;
                 tt_source_evidence := None; tt_budget_class := None; tt_provenance := "legacy" |}
      else Raise (TaxonomyError ("unsupported terminal disposition " +:+ py_repr (VStr d)))
  end.

(** The forward reading of one record. *)
Definition read_forward (raw : list (string * pyval)) (disposition : option string) : res TerminalTaxonomy :=
  let version := get raw "version" in
  let current := number_is version TERMINAL_TAXONOMY_VERSION in
  _ ← require (same_fields raw (record_fields current))
        (TaxonomyError "terminal taxonomy has an unsupported field set");
  _ ← require (negb (unhashable version)) (Exn "TypeError" "unhashable type");
  _ ← require ((number_is version TERMINAL_TAXONOMY_V1 || current)
               && is_text (get raw "provenance") (Some "forward"))
        (TaxonomyError "terminal taxonomy has an unsupported version or provenance");
  t ← normalize_terminal_taxonomy (get raw "disposition") (get raw "source_evidence");
  _ ← require (from_option (String.eqb (tt_disposition t)) true disposition
               && is_text (get raw "blocked_reason") (tt_blocked_reason t))
        (TaxonomyError "terminal taxonomy does not match its transition");
  _ ← require (negb current || is_text (get raw "budget_class") (tt_budget_class t))
        (TaxonomyError "terminal taxonomy does not match its budget class");
  Ok t.

(** [read_terminal_taxonomy]. *)
Definition read_terminal_taxonomy (data : pyval) (disposition : option string) : res TerminalTaxonomy :=
  match (match data with VDict d => get d "terminal_taxonomy" | _ => VNone end) with
  | VNone => read_legacy disposition
  | VDict raw => read_forward raw disposition
  | _ => Raise (TaxonomyError "terminal taxonomy has an unsupported field set")
  end.

Definition budget_event_type (t : TerminalTaxonomy) : option string := tt_budget_class t.

(** ** Properties *)

(** The evidence texts a blocked terminal may carry. *)
Definition evidence_texts : list string := BLOCKED_REASONS ++ ["wrong_task_definition"; "external_fact"].

Lemma normal_reason_inv s : normal_reason s ∈ BLOCKED_REASONS → s ∈ evidence_texts.
Proof.
  unfold normal_reason, evidence_texts. destruct (String.eqb_spec s "wrong_task_definition") as [->|]; [set_solver|].
  destruct (String.eqb_spec s "external_fact") as [->|]; [set_solver|]. intros. apply elem_of_app. by left.
Qed.

Lemma evidence_strip s : s ∈ evidence_texts → str_strip s = s.
Proof.
  unfold evidence_texts, BLOCKED_REASONS. cbn [app]. rewrite !elem_of_cons.
  intros Hs. repeat destruct Hs as [->|Hs]; try reflexivity. set_solver.
Qed.

(** Everything a constructed taxonomy is. *)
Lemma normalize_inv d r t :
  normalize_terminal_taxonomy d r = Ok t →
  d = VStr (tt_disposition t) ∧ tt_disposition t ∈ TERMINAL_DISPOSITIONS ∧ tt_provenance t = "forward" ∧
  ((tt_disposition t ≠ "blocked" ∧ r = VNone ∧ tt_source_evidence t = None ∧ tt_blocked_reason t = None ∧
    tt_budget_class t = if String.eqb (tt_disposition t) "reslice" then Some "blocked" else None) ∨
   (tt_disposition t = "blocked" ∧ ∃ text evidence, r = VStr text ∧ evidence = str_strip text ∧
    evidence ∈ evidence_texts ∧ tt_source_evidence t = Some evidence ∧
    tt_blocked_reason t = Some (normal_reason evidence) ∧ normal_reason evidence ∈ BLOCKED_REASONS ∧
    tt_budget_class t = Some (if String.eqb (normal_reason evidence) "infrastructure"
                              then "infrastructure_blocked" else "blocked"))).
Proof.
  unfold normalize_terminal_taxonomy. destruct d as [| | | |d| |]; try done. case_bool_decide as Hd; [|done].
  destruct (String.eqb_spec d "blocked") as [->|Hne]; cbn [negb].
  - destruct r as [| | | |text| |]; try done. destruct (nonempty _); [|done]. case_bool_decide as Hn; [|done].
    intros [= <-]. cbn. split_and!; try done. right. split; [done|]. exists text, (str_strip text).
    split_and!; try done. by apply normal_reason_inv.
  - destruct r; try done. intros [= <-]. cbn. split_and!; try done. left. by split_and!.
Qed.

(** A taxonomy normalises again from its own record. *)
Lemma normalize_again d r t :
  normalize_terminal_taxonomy d r = Ok t →
  normalize_terminal_taxonomy (VStr (tt_disposition t)) (opt_val (tt_source_evidence t)) = Ok t.
Proof.
  intros E. destruct (normalize_inv _ _ _ E) as (-> & Hd & Hp & [(Hn & -> & Hs & _)|(Hb & text & ev & -> & -> & Hev & Hs & _)]).
  - by rewrite Hs.
  - rewrite Hs. revert E. unfold normalize_terminal_taxonomy. cbn [opt_val from_option].
    by rewrite (evidence_strip _ Hev).
Qed.

Lemma is_text_opt o : is_text (opt_val o) o = true.
Proof. destruct o; [|done]. apply String.eqb_refl. Qed.

Lemma is_text_true v o : is_text v o = true ↔ v = opt_val o.
Proof.
  split; [|intros ->; apply is_text_opt]. destruct v, o; try done. cbn. by intros ->%String.eqb_eq.
Qed.

(** A terminal description survives its record: whatever the writer
    normalised and persisted, the reader gives back unchanged, with no expected
    disposition or with the one it was written for. *)
Theorem taxonomy_roundtrip d r t expected :
  normalize_terminal_taxonomy d r = Ok t →
  expected = None ∨ expected = Some (tt_disposition t) →
  read_terminal_taxonomy (VDict [("terminal_taxonomy", VDict (to_record t))]) expected = Ok t.
Proof.
  intros E Hx. pose proof (normalize_inv _ _ _ E) as (_ & _ & Hp & _).
  change (read_terminal_taxonomy (VDict [("terminal_taxonomy", VDict (to_record t))]) expected)
    with (read_forward (to_record t) expected).
  unfold read_forward.
  change (get (to_record t) "version") with (VInt TERMINAL_TAXONOMY_VERSION).
  change (get (to_record t) "disposition") with (VStr (tt_disposition t)).
  change (get (to_record t) "blocked_reason") with (opt_val (tt_blocked_reason t)).
  change (get (to_record t) "source_evidence") with (opt_val (tt_source_evidence t)).
  change (get (to_record t) "budget_class") with (opt_val (tt_budget_class t)).
  change (get (to_record t) "provenance") with (VStr (tt_provenance t)).
  change (number_is (VInt TERMINAL_TAXONOMY_VERSION) TERMINAL_TAXONOMY_VERSION) with true.
  change (same_fields (to_record t) (record_fields true)) with true.
  cbn [require mbind res_bind unhashable negb].
  rewrite Hp. cbn [is_text orb andb]. rewrite String.eqb_refl, orb_true_r. cbn [require mbind res_bind andb].
  rewrite (normalize_again _ _ _ E). cbn [mbind res_bind]. rewrite !is_text_opt.
  assert (from_option (String.eqb (tt_disposition t)) true expected = true) as ->.
  { destruct Hx as [->| ->]; [done|]. apply String.eqb_refl. }
  done.
Qed.

(** The reader trusts no forward record further than its evidence: an
    accepted current-version record states exactly the disposition, blocked
    reason and budget class that its source evidence normalises to, and
    matches the disposition its transition expects. *)
Theorem taxonomy_read_sound raw expected t :
  read_terminal_taxonomy (VDict [("terminal_taxonomy", VDict raw)]) expected = Ok t →
  number_is (get raw "version") TERMINAL_TAXONOMY_VERSION = true →
  normalize_terminal_taxonomy (get raw "disposition") (get raw "source_evidence") = Ok t ∧
  get raw "disposition" = VStr (tt_disposition t) ∧ get raw "blocked_reason" = opt_val (tt_blocked_reason t) ∧
  get raw "budget_class" = opt_val (tt_budget_class t) ∧ get raw "provenance" = VStr "forward" ∧
  (∀ d, expected = Some d → tt_disposition t = d).
Proof.
  intros E Hv. change (read_forward raw expected = Ok t) in E. unfold read_forward in E. rewrite Hv in E. inv_ok.
  apply andb_true_iff in E2 as [_ E2%is_text_true]. apply andb_true_iff in E4 as [Ed E4%is_text_true].
  cbn [negb orb] in E5. apply is_text_true in E5. pose proof (normalize_inv _ _ _ E3) as (Hd & _).
  split_and!; try done. intros d ->. by apply String.eqb_eq in Ed.
Qed.

(** A taxonomy that is read is a constructed one, or a legacy record. *)
Lemma read_normalized data expected t : read_terminal_taxonomy data expected = Ok t →
  (∃ d r, normalize_terminal_taxonomy d r = Ok t) ∨ (tt_provenance t = "legacy" ∧ tt_budget_class t = None).
Proof.
  unfold read_terminal_taxonomy. intros E.
  destruct (match data with VDict d => get d "terminal_taxonomy" | _ => VNone end); try done.
  - right. unfold read_legacy in E. destruct expected; [|done]. case_bool_decide; [|done]. by injection E as <-.
  - left. unfold read_forward in E. inv_ok. eauto.
Qed.

(** The budget class follows the reason: a terminal charges the
    infrastructure budget exactly when its normalised reason is
    infrastructure, a blocked or resliced one charges the sprint's blocked
    budget otherwise, and releases, reworks, drops, operator stops and legacy
    records charge nothing. *)
Theorem budget_follows_reason data expected t :
  read_terminal_taxonomy data expected = Ok t →
  (budget_event_type t = Some "infrastructure_blocked" ↔
     tt_provenance t = "forward" ∧ tt_blocked_reason t = Some "infrastructure") ∧
  (budget_event_type t = Some "blocked" ↔
     tt_provenance t = "forward" ∧ (tt_disposition t = "reslice" ∨
       (tt_disposition t = "blocked" ∧ tt_blocked_reason t ≠ Some "infrastructure"))) ∧
  (budget_event_type t = None ↔
     tt_provenance t = "legacy" ∨ (tt_disposition t ≠ "blocked" ∧ tt_disposition t ≠ "reslice")).
Proof.
  intros Hcase%read_normalized. unfold budget_event_type. destruct Hcase as [(d & r & Hn)|[Hl Hb]].
  - destruct (normalize_inv _ _ _ Hn) as (_ & _ & Hp & [(Hd & _ & _ & Hr & Hb)|(Hd & text & ev & _ & _ & _ & _ & Hr & _ & Hb)]);
      rewrite Hp, Hr, Hb.
    + destruct (String.eqb_spec (tt_disposition t) "reslice"); intuition congruence.
    + destruct (String.eqb_spec (normal_reason ev) "infrastructure"); intuition congruence.
  - rewrite Hl, Hb. intuition congruence.
Qed.

End taxonomy.
