(* ===== verification/WaitCard.v ===== *)
(** * A wait card's data (board/wait_card.py)

    The target, the deadline and the return addresses a wait card names, as they
    are parsed from what its creator typed, written to the card and read back;
    and what the dispatcher knows about the wait, the [WaitState] it keeps on
    the card. *)

From Stdlib Require Import Ascii.
From S2P Require Import Prelude PyText JsonText Sha256 IsoTime PyStrings Board.

Definition WAIT_SPEC : string := "wait".
Definition WAIT_STATE : string := "wait_state".
Definition WAIT_CANCEL : string := "wait_cancel".
Definition EXTENSION_BAG : string := "extra".

Definition TARGET_RUN : string := "github_run".
Definition TARGET_CARD : string := "card".
Definition TARGET_TIME : string := "time".

Definition OBSERVER : string := "observer".
Definition DEPENDENTS : string := "dependents".
Definition PO_SESSION_PREFIX : string := "po-session:".
Definition CARD_PREFIX : string := "card:".

Definition TARGET_REACHED : string := "target_reached".
Definition CANCELLED : string := "cancelled".
Definition DEADLINE_PASSED : string := "deadline_passed".
Definition SOURCE_UNREACHABLE : string := "source_unreachable".
Definition OUTCOMES : list string := [TARGET_REACHED; CANCELLED; DEADLINE_PASSED; SOURCE_UNREACHABLE].

Definition WAITING : string := "waiting".
Definition RESULT_READY : string := "result_ready".
Definition DELIVERED : string := "delivered".
Definition ACCEPTED : string := "accepted".

Definition DEFAULT_TRANSIENT_WINDOW_SECONDS : Z := 30 * 60.

(** ** The regular expressions *)

Definition alnum (c : ascii) : bool :=
  let n := Ascii.nat_of_ascii c in
  ((48 <=? n) && (n <=? 57) || (65 <=? n) && (n <=? 90) || (97 <=? n) && (n <=? 122))%nat.

Definition lower_alnum (c : ascii) : bool :=
  let n := Ascii.nat_of_ascii c in ((48 <=? n) && (n <=? 57) || (97 <=? n) && (n <=? 122))%nat.

Definition is_hyphen (c : ascii) : bool := Ascii.eqb c "-".

(** [[A-Za-z0-9][A-Za-z0-9-]{0,38}] *)
Definition is_owner (s : string) : bool :=
  match s with
  | String c s' => alnum c && str_all (λ c, alnum c || is_hyphen c) s' && (String.length s' <=? 38)%nat
  | "" => false
  end.

(** [[A-Za-z0-9._-]{1,100}] *)
Definition is_repo_name (s : string) : bool :=
  str_all (λ c, alnum c || is_hyphen c || Ascii.eqb c "." || Ascii.eqb c "_") s
  && (1 <=? String.length s)%nat && (String.length s <=? 100)%nat.

(** [_REPO_RE]: no class of it holds a slash, so the first one parts it. *)
Definition repo_match (s : string) : bool :=
  let '(owner, name) := str_partition "/" (chomp s) in is_owner owner && is_repo_name name.

(** [(?:/attempts/[0-9]+)?/?$] *)
Definition run_url_end (s : string) : bool :=
  bool_decide (s ∈ [""; "/"])
  || (String.prefix "/attempts/" s
      && let '(d, r) := span_digits (str_drop 10 s) in nonempty d && bool_decide (r ∈ [""; "/"])).

Definition GITHUB : string := "https://github.com/".

(** [_RUN_URL_RE]: the groups [repo] and [run]. *)
Definition run_url_match (s : string) : option (string * string) :=
  let s := chomp s in
  if String.prefix GITHUB s then
    let '(owner, r) := str_partition "/" (str_drop (String.length GITHUB) s) in
    let '(name, r) := str_partition "/" r in
    if is_owner owner && is_repo_name name && String.prefix "actions/runs/" r then
      let '(run, r) := span_digits (str_drop 13 r) in
      if nonempty run && (String.length run <=? 20)%nat && run_url_end r
      then Some (owner +:+ "/" +:+ name, run) else None
    else None
  else None.

(** [(?:(\d+)u)?]: the group, empty when it took no part, and the rest. *)
Definition duration_part (u : ascii) (s : string) : string * string :=
  let '(d, r) := span_digits s in
  match r with
  | String c r' => if nonempty d && Ascii.eqb c u then (d, r') else ("", s)
  | "" => ("", s)
  end.

(** [_DURATION_RE]: its four groups. *)
Definition duration_match (s : string) : option (string * string * string * string) :=
  let '(d, s1) := duration_part "d" s in
  let '(h, s2) := duration_part "h" s1 in
  let '(m, s3) := duration_part "m" s2 in
  let '(sec, s4) := duration_part "s" s3 in
  if nonempty (chomp s4) then None else Some (d, h, m, sec).

(** What follows the last hyphen. *)
Fixpoint after_last_hyphen (s : string) : option string :=
  match s with
  | "" => None
  | String c s' => match after_last_hyphen s' with
                   | Some t => Some t
                   | None => if is_hyphen c then Some s' else None
                   end
  end.

(** [_CARD_REF_RE]: the hyphen before the number is the last one. *)
Definition card_ref_match (s : string) : bool :=
  match chomp s with
  | String c s' =>
      lower_alnum c && str_all (λ c, lower_alnum c || is_hyphen c) s'
      && match after_last_hyphen s' with Some number => is_ascii_digits number | None => false end
  | "" => false
  end.

(** ** Errors *)

Definition WaitSpecError (msg : string) : exn := Exn "WaitSpecError" msg.
Definition is_spec_error (e : exn) : bool := let '(Exn cls _) := e in String.eqb cls "WaitSpecError".

(** [except WaitSpecError: return None]. *)
Definition catch_spec {A} (m : res A) : res (option A) :=
  match m with
  | Ok a => Ok (Some a)
  | Raise e => if is_spec_error e then Ok None else Raise e
  end.

(** ** Times *)

Section times.
Context `{IsoTime}.

(** To the second. *)
Definition utc_text (moment : Z) : string := str_replace "+00:00" "Z" (isoformat (moment / MICRO)).

Definition parse_utc (value what : string) : res Z :=
  let text := str_strip value in
  match fromisoformat (str_replace "z" "+00:00" (str_replace "Z" "+00:00" text)) with
  | IsoBad => Raise (WaitSpecError (what +:+ " " +:+ str_repr text +:+ " is not an ISO-8601 time"))
  | IsoNaive => Raise (WaitSpecError (what +:+ " " +:+ str_repr text
                                      +:+ " names no zone; give UTC, e.g. 2026-09-28T12:00:00Z"))
  | IsoAware t => Ok t
  | IsoFar => Raise date_overflow
  end.

(** [int(part or 0)]. *)
Definition int_or_zero (part : string) : res Z := if nonempty part then py_int (VStr part) else Ok 0.

Definition parse_duration (value what : string) : res Z :=
  let text := str_lower (str_strip value) in
  match (if nonempty text then duration_match text else None) with
  | Some (d, h, m, s) =>
      if negb (nonempty d || nonempty h || nonempty m || nonempty s) then
        Raise (WaitSpecError (what +:+ " " +:+ str_repr value +:+ " is not a duration like 90m, 2h or 1d12h"))
      else
        days ← int_or_zero d; hours ← int_or_zero h; minutes ← int_or_zero m; secs ← int_or_zero s;
        duration ← timedelta days hours minutes secs;
        if duration <=? 0 then Raise (WaitSpecError (what +:+ " " +:+ str_repr value +:+ " is not a positive duration"))
        else Ok duration
  | None => Raise (WaitSpecError (what +:+ " " +:+ str_repr value +:+ " is not a duration like 90m, 2h or 1d12h"))
  end.

Definition parse_deadline (value : string) (now : Z) : res Z :=
  let text := str_strip value in
  if negb (nonempty text) then
    Raise (WaitSpecError "a wait card needs --wait-deadline: an absolute UTC time or a duration from now")
  else
    deadline ← match duration_match (str_lower text) with
               | Some _ => duration ← parse_duration text "--wait-deadline"; add_duration now duration
               | None => parse_utc text "--wait-deadline"
               end;
    if deadline <=? now then
      Raise (WaitSpecError ("--wait-deadline " +:+ utc_text deadline +:+ " has already passed (now "
                            +:+ utc_text now +:+ ")"))
    else Ok deadline.
End times.

(** ** The target *)

Record WaitTarget := {
  wt_kind : string;
  wt_repo : string;
  wt_run_id : Z;
  wt_ref : string;
  wt_states : list string;
  wt_at : string;
}.

#[global] Instance WaitTarget_eq_dec : EqDecision WaitTarget.
Proof. solve_decision. Defined.

Definition run_target (repo : string) (run_id : Z) : WaitTarget :=
  {| wt_kind := TARGET_RUN; wt_repo := repo; wt_run_id := run_id; wt_ref := ""; wt_states := []; wt_at := "" |}.
Definition card_target (ref : string) (states : list string) : WaitTarget :=
  {| wt_kind := TARGET_CARD; wt_repo := ""; wt_run_id := 0; wt_ref := ref; wt_states := states; wt_at := "" |}.
Definition time_target (at_ : string) : WaitTarget :=
  {| wt_kind := TARGET_TIME; wt_repo := ""; wt_run_id := 0; wt_ref := ""; wt_states := []; wt_at := at_ |}.

(** The evidence link. *)
Definition link (t : WaitTarget) : string :=
  if String.eqb (wt_kind t) TARGET_RUN
  then GITHUB +:+ wt_repo t +:+ "/actions/runs/" +:+ pretty (wt_run_id t) else "".

Definition describe (t : WaitTarget) : string :=
  if String.eqb (wt_kind t) TARGET_RUN
  then "GitHub Actions run " +:+ wt_repo t +:+ "#" +:+ pretty (wt_run_id t) +:+ " (" +:+ link t +:+ ")"
  else if String.eqb (wt_kind t) TARGET_CARD
  then "card " +:+ wt_ref t +:+ " reaching " +:+ String.concat " or " (wt_states t)
  else "the time " +:+ wt_at t.

Definition target_to_json (t : WaitTarget) : list (string * pyval) :=
  if String.eqb (wt_kind t) TARGET_RUN
  then [("kind", VStr (wt_kind t)); ("repo", VStr (wt_repo t)); ("run_id", VInt (wt_run_id t)); ("url", VStr (link t))]
  else if String.eqb (wt_kind t) TARGET_CARD
  then [("kind", VStr (wt_kind t)); ("ref", VStr (wt_ref t)); ("states", VList (VStr <$> wt_states t))]
  else [("kind", VStr (wt_kind t)); ("at", VStr (wt_at t))].

Definition CARD_STATE_NAMES : list string := enum_value <$> (enum_members (A := CardState)).
Definition is_card_state (s : string) : bool := bool_decide (s ∈ CARD_STATE_NAMES).

(** [all(state in _CARD_STATES for state in states)]: a set, so membership of an
    unhashable value raises. *)
Fixpoint all_card_states (l : list pyval) : res bool :=
  match l with
  | [] => Ok true
  | VStr s :: l' => if is_card_state s then all_card_states l' else Ok false
  | VList _ :: _ => Raise (Exn "TypeError" "unhashable type: 'list'")
  | VDict _ :: _ => Raise (Exn "TypeError" "unhashable type: 'dict'")
  | _ :: _ => Ok false
  end.

Section card.
Context `{PyRepr, IsoTime}.

Definition target_from_json (payload : pyval) : res (option WaitTarget) :=
  match payload with
  | VDict d =>
      let kind := py_str_or (get d "kind") in
      if String.eqb kind TARGET_RUN then
        let repo := py_str_or (get d "repo") in
        match get d "run_id" with
        | VInt run_id => Ok (if repo_match repo && (0 <? run_id) then Some (run_target repo run_id) else None)
        | _ => Ok None
        end
      else if String.eqb kind TARGET_CARD then
        let ref := py_str_or (get d "ref") in
        match get d "states" with
        | VList ((_ :: _) as states) =>
            if nonempty ref then
              known ← all_card_states states;
              Ok (if known : bool then Some (card_target ref (py_str <$> states)) else None)
            else Ok None
        | _ => Ok None
        end
      else if String.eqb kind TARGET_TIME then
        at_ ← catch_spec (parse_utc (py_str_or (get d "at")) "at");
        Ok (option_map (λ t, time_target (utc_text t)) at_)
      else Ok None
  | _ => Ok None
  end.

Definition parse_run_target (value run_id : string) : res WaitTarget :=
  let text := str_strip value in
  let run_text := str_strip run_id in
  match run_url_match text with
  | Some (repo, run) =>
      if nonempty run_text && negb (String.eqb run_text run) then
        Raise (WaitSpecError ("--wait-run-id " +:+ run_text +:+ " contradicts the run URL " +:+ text))
      else n ← py_int (VStr run); Ok (run_target repo n)
  | None =>
      if negb (repo_match text) then
        Raise (WaitSpecError ("--wait-run " +:+ str_repr text +:+ " is neither owner/repo nor a run URL "
                              +:+ "(https://github.com/<owner>/<repo>/actions/runs/<id>)"))
      else if negb (nonempty run_text) then
        Raise (WaitSpecError ("--wait-run " +:+ text +:+ " names a repository; give the run with --wait-run-id"))
      else
        let refused := WaitSpecError ("--wait-run-id " +:+ str_repr run_text +:+ " is not a positive run id") in
        if negb (str_isdigit run_text) then Raise refused
        else n ← py_int (VStr run_text); if n <=? 0 then Raise refused else Ok (run_target text n)
  end.

(** [list(dict.fromkeys(l))]. *)
Definition add_once (l : list string) (x : string) : list string := if bool_decide (x ∈ l) then l else l ++ [x].
Definition unique (l : list string) : list string := foldl add_once [] l.

Definition parse_card_target (ref states : string) : res WaitTarget :=
  let reference := str_strip ref in
  if negb (card_ref_match reference) then
    Raise (WaitSpecError ("--wait-card " +:+ str_repr reference +:+ " is not a card reference like secretary-1790"))
  else
    let named := comma_parts states in
    if bool_decide (named = []) then
      Raise (WaitSpecError "--wait-card needs --wait-states: the states it waits for, e.g. done,blocked")
    else
      match filter (λ s, is_card_state s = false) named with
      | [] => Ok (card_target reference (unique named))
      | unknown => Raise (WaitSpecError ("--wait-states names unknown state(s) " +:+ String.concat ", " unknown
                            +:+ " (known: " +:+ String.concat ", " CARD_STATE_NAMES +:+ ")"))
      end.

(** ** Return addresses *)

Definition after (prefix s : string) : string := str_drop (String.length prefix) s.

(** One comma-separated part, already stripped and not empty. *)
Definition parse_address (address : string) : res string :=
  if bool_decide (address ∈ [OBSERVER; DEPENDENTS]) then Ok address
  else if String.prefix PO_SESSION_PREFIX address && nonempty (str_strip (after PO_SESSION_PREFIX address))
  then Ok (PO_SESSION_PREFIX +:+ str_strip (after PO_SESSION_PREFIX address))
  else if String.prefix CARD_PREFIX address && card_ref_match (str_strip (after CARD_PREFIX address))
  then Ok (CARD_PREFIX +:+ str_strip (after CARD_PREFIX address))
  else Raise (WaitSpecError ("--wait-return " +:+ str_repr address +:+ " is not observer, dependents or po-session:<id>")).

Definition parse_returns (values : list pyval) : res (list string) :=
  found ← foldM (λ found address, address ← parse_address address; Ok (add_once found address)) []
                (mjoin ((λ raw, comma_parts (py_str_or raw)) <$> values));
  match found with
  | [] => Raise (WaitSpecError "a wait card needs at least one --wait-return: observer, dependents or po-session:<id>")
  | _ => Ok found
  end.

Definition returned_card (address : string) : string :=
  if String.prefix CARD_PREFIX address then after CARD_PREFIX address else "".

Definition po_sessions (returns : list string) : list string :=
  after PO_SESSION_PREFIX <$> filter (λ a, String.prefix PO_SESSION_PREFIX a = true) returns.

(** ** The spec *)

Record WaitSpec := {
  sp_target : WaitTarget;
  sp_deadline : string;
  sp_returns : list string;
  sp_created_at : string;
  sp_window : Z;
}.

Definition spec_to_json (s : WaitSpec) : list (string * pyval) := [
  ("target", VDict (target_to_json (sp_target s)));
  ("deadline", VStr (sp_deadline s));
  ("return", VList (VStr <$> sp_returns s));
  ("created_at", VStr (sp_created_at s));
  ("transient_window_seconds", VInt (sp_window s))].

Definition spec_from_json (payload : pyval) : res (option WaitSpec) :=
  match payload with
  | VDict d =>
      target ← target_from_json (get d "target");
      let window := default (VInt DEFAULT_TRANSIENT_WINDOW_SECONDS) (dict_get d "transient_window_seconds") in
      parsed ← catch_spec (
        deadline ← parse_utc (py_str_or (get d "deadline")) "deadline";
        created ← parse_utc (py_str_or (get d "created_at")) "created_at";
        addresses ← parse_returns (match get d "return" with VList l => l | _ => [] end);
        Ok (utc_text deadline, utc_text created, addresses));
      Ok (match parsed, target, window with
          | Some (deadline, created, addresses), Some t, VInt w =>
              if w <=? 0 then None
              else Some {| sp_target := t; sp_deadline := deadline; sp_returns := addresses;
                           sp_created_at := created; sp_window := w |}
          | _, _, _ => None
          end)
  | _ => Ok None
  end.

(** What [task create --type wait] was given. *)
Record WaitInput := {
  in_run : string;
  in_run_id : string;
  in_card : string;
  in_states : string;
  in_until : string;
  in_deadline : string;
  in_returns : list string;
  in_transient_window : string;
  in_sprint : string;
}.

Definition build_wait_spec (i : WaitInput) (now : Z) : res WaitSpec :=
  let named := filter (λ p, nonempty p.2 = true)
                 [("--wait-run", in_run i); ("--wait-card", in_card i); ("--wait-until", in_until i)] in
  if bool_decide (named.*1 = []) then
    Raise (WaitSpecError "a wait card needs exactly one target: --wait-run, --wait-card or --wait-until")
  else if (1 <? length named)%nat then
    Raise (WaitSpecError ("a wait card waits for exactly one target, not " +:+ String.concat " and " named.*1))
  else if nonempty (in_run_id i) && negb (nonempty (in_run i)) then
    Raise (WaitSpecError "--wait-run-id belongs to --wait-run owner/repo")
  else if nonempty (in_states i) && negb (nonempty (in_card i)) then
    Raise (WaitSpecError "--wait-states belongs to --wait-card")
  else
    target ← (if nonempty (in_run i) then parse_run_target (in_run i) (in_run_id i)
              else if nonempty (in_card i) then parse_card_target (in_card i) (in_states i)
              else at_ ← parse_utc (in_until i) "--wait-until"; Ok (time_target (utc_text at_)));
    moment ← parse_deadline (in_deadline i) now;
    late ← (if String.eqb (wt_kind target) TARGET_TIME
            then at_ ← parse_utc (wt_at target) "--wait-until"; Ok (moment <? at_) else Ok false);
    if late : bool then
      Raise (WaitSpecError ("--wait-until " +:+ wt_at target +:+ " lies after the deadline " +:+ utc_text moment))
    else
      addresses ← parse_returns (VStr <$> in_returns i);
      if bool_decide (OBSERVER ∈ addresses) && negb (nonempty (in_sprint i)) then
        Raise (WaitSpecError "--wait-return observer needs --sprint: only a sprint's card has an observer")
      else
        window ← (if nonempty (str_strip (in_transient_window i))
                  then d ← parse_duration (in_transient_window i) "--wait-transient-window"; Ok (d / MICRO)
                  else Ok DEFAULT_TRANSIENT_WINDOW_SECONDS);
        Ok {| sp_target := target; sp_deadline := utc_text moment; sp_returns := addresses;
              sp_created_at := utc_text now; sp_window := window |}.
End card.

(** ** The fields of the card *)

Definition Fields : Type := list (string * pyval).

(** The extension bag of a card, or an empty one. *)
Definition bag (task : Fields) : Fields :=
  match get task "extensions" with
  | VDict extensions => match get extensions EXTENSION_BAG with VDict b => b | _ => [] end
  | _ => []
  end.

(** ** What the dispatcher knows *)

Record WaitState := {
  ws_since : string;
  ws_observed_at : string;
  ws_observation : string;
  ws_error : string;
  ws_error_since : string;
  ws_error_at : string;
  ws_result : option Fields;
  ws_deliveries : list (string * list (string * string));
  ws_successors : list (string * list (string * string));
}.

#[global] Instance WaitState_eta : Settable WaitState := λ s,
  Build_WaitState (ws_since s) (ws_observed_at s) (ws_observation s) (ws_error s) (ws_error_since s) (ws_error_at s)
    (ws_result s) (ws_deliveries s) (ws_successors s).

Definition new_wait_state : WaitState := Build_WaitState "" "" "" "" "" "" None [] [].

(** A dict of texts as a value. *)
Definition texts (d : list (string * string)) : pyval := VDict (map (λ p, (p.1, VStr p.2)) d).
Definition records (d : list (string * list (string * string))) : pyval := VDict (map (λ p, (p.1, texts p.2)) d).

Definition state_to_json (s : WaitState) : Fields := [
  ("since", VStr (ws_since s));
  ("observed_at", VStr (ws_observed_at s));
  ("observation", VStr (ws_observation s));
  ("error", VStr (ws_error s));
  ("error_since", VStr (ws_error_since s));
  ("error_at", VStr (ws_error_at s));
  ("result", match ws_result s with Some r => VDict r | None => VNone end);
  ("deliveries", records (ws_deliveries s));
  ("successors", records (ws_successors s))].

(** [v in OUTCOMES] and [v == text]. *)
Definition is_outcome (v : pyval) : bool := match v with VStr s => bool_decide (s ∈ OUTCOMES) | _ => false end.
Definition equals (v : pyval) (s : string) : bool := match v with VStr t => String.eqb t s | _ => false end.

Section state.
Context `{PyRepr}.

(** The dict comprehensions: the entries that are dicts and pass [keep], with
    their values as texts. *)
Definition read_records (keep : Fields → bool) (v : pyval) : list (string * list (string * string)) :=
  match v with
  | VDict d => omap (λ p, match p.2 with
                          | VDict r => if keep r then Some (p.1, map (λ q, (q.1, py_str q.2)) r) else None
                          | _ => None
                          end) d
  | _ => []
  end.

Definition state_from_json (payload : pyval) : WaitState :=
  match payload with
  | VDict d =>
      {| ws_since := py_str_or (get d "since");
         ws_observed_at := py_str_or (get d "observed_at");
         ws_observation := py_str_or (get d "observation");
         ws_error := py_str_or (get d "error");
         ws_error_since := py_str_or (get d "error_since");
         ws_error_at := py_str_or (get d "error_at");
         ws_result := match get d "result" with
                      | VDict r => if is_outcome (get r "outcome") && py_truthy (get r "key") then Some r else None
                      | _ => None
                      end;
         ws_deliveries := read_records (λ r, equals (get r "status") ACCEPTED) (get d "deliveries");
         ws_successors := read_records (λ r, py_truthy (get r "replaces") && py_truthy (get r "via")) (get d "successors") |}
  | _ => new_wait_state
  end.

(** The addresses the frozen result still owes a delivery to. *)
Definition pending_addresses (spec : WaitSpec) (state : WaitState) : list string :=
  filter (λ a, a ≠ OBSERVER ∧ dict_get (ws_deliveries state) a = None) (sp_returns spec).
End state.

Section fields.
Context `{PyRepr, IsoTime, JsonText, !JsonStr}.

Definition spec_text (s : WaitSpec) : string := dumps (spec_to_json s).
Definition state_text (s : WaitState) : string := dumps (state_to_json s).

(** A field of the bag: an object as it is, or the value of its JSON text. *)
Definition json_field (task : Fields) (key : string) : pyval :=
  match get (bag task) key with
  | VDict d => VDict d
  | raw => default VNone (loads_str (py_str_or raw))
  end.

Definition wait_spec (task : Fields) : res (option WaitSpec) := spec_from_json (json_field task WAIT_SPEC).
Definition wait_state (task : Fields) : WaitState := state_from_json (json_field task WAIT_STATE).

Record Cancel := { ca_at : string; ca_by : string; ca_role : string; ca_reason : string }.

Definition wait_cancel (task : Fields) : option Cancel :=
  match json_field task WAIT_CANCEL with
  | VDict d =>
      let field key := str_strip (py_str_or (get d key)) in
      if nonempty (field "reason") && nonempty (field "at")
      then Some {| ca_at := field "at"; ca_by := field "by"; ca_role := field "role"; ca_reason := field "reason" |}
      else None
  | _ => None
  end.

Definition cancel_text (at_ by_ role reason : string) : string :=
  dumps_spaced [("at", VStr at_); ("by", VStr by_); ("role", VStr role); ("reason", VStr reason)].

(** The frozen result's identity: part of every delivery key. *)
Definition result_key (result : Fields) : string :=
  str_take 16 (sha256_hex (dumps_spaced [("outcome", get result "outcome"); ("fact", get result "fact")])).

Definition is_pending (status : string) : bool := String.eqb status "pending".

(** The delivery status [task show] names for each address. *)
Definition shown_deliveries (spec : WaitSpec) (state : WaitState) (card_state : string) : list (string * string) :=
  let terminal := bool_decide (card_state ∈ [enum_value DONE; enum_value BLOCKED]) in
  dict_of_list ((λ a, (a,
    if String.eqb a OBSERVER
    then if bool_decide (is_Some (ws_result state)) && terminal then ACCEPTED else "pending"
    else default "pending" (r ← dict_get (ws_deliveries state) a; dict_get r "status"))) <$> sp_returns spec).

Definition cancel_val (c : option Cancel) : pyval :=
  match c with
  | Some c => texts [("at", ca_at c); ("by", ca_by c); ("role", ca_role c); ("reason", ca_reason c)]
  | None => VNone
  end.

(** [x or None] of a text that may be absent. *)
Definition text_or_none (o : option string) : pyval :=
  match o with Some s => if nonempty s then VStr s else VNone | None => VNone end.

Definition wait_view (task : Fields) : res pyval :=
  if negb (String.eqb (py_str_or (get task "type")) "wait") then Ok VNone
  else
    spec ← wait_spec task;
    match spec with
    | None => Ok (texts [("state", "malformed"); ("reason", "the card carries no well-formed wait spec")])
    | Some spec =>
        let state := wait_state task in
        let deliveries := shown_deliveries spec state (py_str_or (get task "state")) in
        let pending := existsb is_pending deliveries.*2 in
        let name := match ws_result state with
          | None => WAITING
          | Some r => if equals (get r "outcome") TARGET_REACHED then if pending then RESULT_READY else DELIVERED
                      else py_str (get r "outcome")
          end in
        let target := target_to_json (sp_target spec) in
        Ok (VDict [
          ("state", VStr name);
          ("target", VDict (if nonempty (link (sp_target spec))
                            then dict_set target "link" (VStr (link (sp_target spec))) else target));
          ("waiting_since", VStr (if nonempty (ws_since state) then ws_since state else sp_created_at spec));
          ("deadline", VStr (sp_deadline spec));
          ("return_to", VList (VStr <$> sp_returns spec));
          ("transient_window_seconds", VInt (sp_window spec));
          ("last_observation", if nonempty (ws_observation state)
                               then texts [("at", ws_observed_at state); ("text", ws_observation state)] else VNone);
          ("last_error", if nonempty (ws_error state)
                         then texts [("at", ws_error_at state); ("since", ws_error_since state);
                                     ("text", ws_error state)] else VNone);
          ("result", match ws_result state with
                     | Some r => VDict ((λ k, (k, get r k)) <$> ["outcome"; "summary"; "evidence"; "fact"; "frozen_at"])
                     | None => VNone end);
          ("delivery", VStr (if pending then "pending" else "complete"));
          ("deliveries", texts deliveries);
          ("po_sessions", VDict ((λ a, (a, VDict [
              ("addressed", VStr (after PO_SESSION_PREFIX a));
              ("received_by", text_or_none (r ← dict_get (ws_deliveries state) a; dict_get r "session"))]))
            <$> filter (λ a, String.prefix PO_SESSION_PREFIX a = true) (sp_returns spec)));
          ("cancel", cancel_val (wait_cancel task))])
    end.
End fields.
