(* ===== verification/WaitCardFacts.v ===== *)
(** * A wait card is read as it was written

    The round trips of times, of what the dispatcher knows and of a created
    spec through the card's JSON fields. *)

From Stdlib Require Import Ascii.
From S2P Require Import Prelude PyText JsonText Sha256 IsoTime PyStrings Board WaitCard.

(** ** Times *)

Section times.
Context `{IsoTime}.

Lemma iso_char_not c x : iso_char x = true → iso_char c = false → other_than c x = true.
Proof. unfold other_than. intros Hx Hc. destruct (Ascii.eqb_spec x c); [congruence|done]. Qed.

Lemma iso_chars_not c d : str_all iso_char d = true → iso_char c = false → str_all (other_than c) d = true.
Proof. intros Hd Hc. eapply str_all_impl; [|exact Hd]. intros x Hx. by eapply iso_char_not. Qed.

Lemma in_range_second t : in_range t = true → MIN_SECOND ≤ t / MICRO ≤ MAX_SECOND.
Proof. unfold in_range. intros [?%Z.leb_le ?%Z.leb_le]%andb_true_iff. lia. Qed.

Lemma utc_text_shape t : in_range t = true →
  ∃ d, isoformat (t / MICRO) = d +:+ "+00:00" ∧ utc_text t = d +:+ "Z" ∧ str_all iso_char d = true ∧ nonempty d = true.
Proof.
  intros Ht. destruct (isoformat_shape _ (in_range_second t Ht)) as (d & E & Hd & Hn). exists d. split_and!; try done.
  unfold utc_text. rewrite E, replace_other by by apply iso_chars_not. done.
Qed.

Lemma utc_text_nonempty t : in_range t = true → nonempty (utc_text t) = true.
Proof. intros Ht. destruct (utc_text_shape t Ht) as (d & _ & -> & _ & Hd). by destruct d. Qed.

(** A written time is read to the second. *)
Lemma parse_utc_text t what : in_range t = true → parse_utc (utc_text t) what = Ok (t / MICRO * MICRO).
Proof.
  intros Ht. destruct (utc_text_shape t Ht) as (d & E & -> & Hd & Hn). unfold parse_utc.
  rewrite str_strip_id.
  - rewrite replace_other by by apply iso_chars_not. change (str_replace "Z" "+00:00" "Z") with "+00:00".
    rewrite replace_none, <-E, fromisoformat_isoformat; [done|by apply in_range_second|].
    rewrite str_all_app, (iso_chars_not "z" d) by done. done.
  - rewrite str_all_app. apply andb_true_iff. split; [|done]. eapply str_all_impl; [|exact Hd].
    intros c. by destruct c as [[] [] [] [] [] [] [] []]; vm_compute.
Qed.

Lemma utc_text_whole t : utc_text (t / MICRO * MICRO) = utc_text t.
Proof. unfold utc_text. by rewrite Z.div_mul. Qed.

Lemma parse_utc_range s what t : parse_utc s what = Ok t → in_range t = true.
Proof. unfold parse_utc. case_match; intros [= <-]. by eapply fromisoformat_range. Qed.

Lemma parse_deadline_range s now t : parse_deadline s now = Ok t → in_range t = true ∧ now < t.
Proof.
  unfold parse_deadline. case_match; [done|]. intros (deadline & E & Hd)%bind_Ok.
  destruct (Z.leb_spec deadline now); [done|]. injection Hd as ->. split; [|lia].
  case_match; [|by eapply parse_utc_range]. apply bind_Ok in E as (d & _ & [-> Hr]%add_duration_Ok). done.
Qed.

Lemma parse_duration_range s what d : parse_duration s what = Ok d → 0 < d / MICRO < 10 ^ 15.
Proof.
  unfold parse_duration. case_match; [|done]. repeat case_match; try done. subst. intros E. inv_ok.
  destruct (Z.leb_spec x3 0); [done|]. inv_ok.
  match goal with Ht : timedelta _ _ _ _ = Ok _ |- _ => apply timedelta_Ok in Ht as [-> Hb] end.
  rewrite Z.div_mul in * by done. unfold MICRO in *. lia.
Qed.
End times.

#[global] Hint Resolve utc_text_nonempty parse_utc_range : py.

(** ** Values read back from sorted text *)

Lemma sorted_strings (l : list string) : map sorted (VStr <$> l) = VStr <$> l.
Proof. induction l as [|s l IH]; [done|]. cbn. by rewrite IH. Qed.

Lemma py_strs `{PyRepr} (l : list string) : py_str <$> (VStr <$> l) = l.
Proof. induction l as [|s l IH]; [done|]. cbn. by rewrite IH. Qed.

(** The order of the keys is the only thing a trip through the text changes. *)
Definition sort_records {A} (d : list (string * list (string * A))) : list (string * list (string * A)) :=
  map (λ p, (p.1, sort_items p.2)) (sort_items d).

Definition canonical (s : WaitState) : WaitState :=
  s <| ws_result := sorted_items <$> ws_result s |>
    <| ws_deliveries := sort_records (ws_deliveries s) |>
    <| ws_successors := sort_records (ws_successors s) |>.


Lemma sorted_texts d : sorted (texts d) = texts (sort_items d).
Proof. unfold texts. cbn [sorted]. rewrite map_map. cbn. by rewrite <-(sort_items_fmap VStr). Qed.

Lemma sorted_records d : sorted (records d) = records (sort_records d).
Proof.
  unfold records, sort_records. cbn [sorted]. rewrite map_map. cbn [fst snd]. rewrite (sort_items_fmap (λ r, sorted (texts r))).
  rewrite map_map. f_equal. apply map_ext. intros p. cbn [fst snd]. by rewrite sorted_texts.
Qed.

Lemma texts_get d k : get (map (λ p, (p.1, VStr p.2)) d) k = match dict_get d k with Some s => VStr s | None => VNone end.
Proof. unfold get. rewrite dict_get_map. by destruct (dict_get d k). Qed.

Lemma sort_items_get {A} (d : list (string * A)) k : dict_wf d → dict_get (sort_items d) k = dict_get d k.
Proof. intros Hd. symmetry. apply dict_get_perm; [done|]. by rewrite sort_items_perm. Qed.

Lemma sort_records_get {A} (d : list (string * list (string * A))) k :
  dict_wf d → dict_get (sort_records d) k = sort_items <$> dict_get d k.
Proof. intros Hd. unfold sort_records. by rewrite dict_get_map, sort_items_get. Qed.

Lemma sort_records_all {A} (P : list (string * A) → Prop) d :
  (∀ r, P r → P (sort_items r)) → dict_all P d → dict_all P (sort_records d).
Proof.
  intros HP Hd. unfold dict_all, sort_records in *. rewrite Forall_map, (sort_items_perm d).
  eapply Forall_impl; [exact Hd|]. intros p Hp. by apply HP.
Qed.

Lemma sort_records_wf {A} (d : list (string * list (string * A))) : dict_wf d → dict_wf (sort_records d).
Proof. intros Hd. by apply dict_map_wf, sort_items_wf. Qed.

Lemma read_records_texts `{PyRepr} keep d :
  dict_all (λ r, keep (map (λ p, (p.1, VStr p.2)) r) = true) d → read_records keep (records d) = d.
Proof.
  unfold dict_all, read_records, records. induction d as [|[a r] d IH]; [done|]. intros [Hr Hd]%Forall_cons. cbn in *.
  rewrite Hr. cbn. rewrite IH by done. do 2 f_equal. rewrite map_map. cbn. clear. induction r as [|[k v] r IH]; [done|].
  cbn. by rewrite IH.
Qed.

(** ** What the dispatcher knows is read back *)

(** A delivery record, and a successor record that names its route. *)
Definition accepted_record (r : list (string * string)) : Prop := dict_wf r ∧ dict_get r "status" = Some ACCEPTED.

Definition routed_record (r : list (string * string)) : Prop :=
  dict_wf r ∧ ∃ replaces via, dict_get r "replaces" = Some replaces ∧ dict_get r "via" = Some via
                              ∧ nonempty replaces = true ∧ nonempty via = true.

(** No field but [fact] nests, and [fact] nests once. *)
Definition flat (r : Fields) : Prop :=
  (∀ k, k ≠ "fact" → sorted (get r k) = get r k) ∧
  ∃ f, get r "fact" = VDict f ∧ dict_wf f ∧ ∀ k, sorted (get f k) = get f k.

Record result_ok (r : Fields) : Prop := {
  ro_outcome : is_outcome (get r "outcome") = true;
  ro_key : py_truthy (get r "key") = true;
  ro_printable : printable (VDict r) = true;
  ro_flat : flat r;
}.

(** When the source fell silent is a time, or it did not. *)
Definition stamped `{IsoTime} (text : string) : Prop := text = "" ∨ ∃ m, in_range m = true ∧ text = utc_text m.

Record state_ok `{IsoTime} (s : WaitState) : Prop := {
  so_result : ∀ r, ws_result s = Some r → result_ok r;
  so_deliveries : dict_wf (ws_deliveries s) ∧ dict_all accepted_record (ws_deliveries s);
  so_successors : dict_wf (ws_successors s) ∧ dict_all routed_record (ws_successors s);
  so_since : stamped (ws_error_since s);
}.

Lemma accepted_sorted r : accepted_record r → accepted_record (sort_items r).
Proof. intros [Hw Hs]. split; [by apply sort_items_wf|]. by rewrite sort_items_get. Qed.

Lemma routed_sorted r : routed_record r → routed_record (sort_items r).
Proof.
  intros [Hw (a & b & ?)]. split; [by apply sort_items_wf|]. exists a, b. by rewrite !sort_items_get.
Qed.

Lemma new_state_ok `{IsoTime} : state_ok new_wait_state.
Proof. split; [done|..|by left]; by repeat split; try constructor. Qed.

Lemma printable_texts d : dict_wf d → printable (texts d) = true.
Proof.
  intros Hd. unfold texts. apply printable_dict. split; [by apply dict_map_wf|]. apply Forall_map, Forall_true. done.
Qed.

Lemma printable_records d : dict_wf d → dict_all dict_wf d → printable (records d) = true.
Proof.
  intros Hd Ha. unfold records. apply printable_dict. split; [by apply dict_map_wf|]. apply Forall_map.
  eapply Forall_impl; [exact Ha|]. intros p Hp. by apply printable_texts.
Qed.

Lemma state_json_wf s : dict_wf (state_to_json s).
Proof. apply (bool_decide_unpack _). by vm_compute. Qed.

Lemma state_printable `{IsoTime} s : state_ok s → printable (VDict (state_to_json s)) = true.
Proof.
  intros Hs. apply printable_dict. split; [apply state_json_wf|]. unfold state_to_json.
  repeat constructor; cbn [snd]; try done.
  - destruct (ws_result s) as [r|] eqn:E; [|done]. by apply (so_result _ Hs r E).
  - destruct (so_deliveries _ Hs) as [Hd Ha]. apply printable_records; [done|]. eapply Forall_impl; [exact Ha|]. by intros p [? _].
  - destruct (so_successors _ Hs) as [Hd Ha]. apply printable_records; [done|]. eapply Forall_impl; [exact Ha|]. by intros p [? _].
Qed.

Lemma truthy_sorted v : py_truthy (sorted v) = py_truthy v.
Proof.
  destruct v as [| | | | |[|v l]|d]; try done. cbn [sorted py_truthy]. pose proof (sort_items_perm (map (λ p, (p.1, sorted p.2)) d)) as Hp.
  destruct d as [|p d]; [done|]. destruct (sort_items _) eqn:E; [|done]. by apply Permutation_nil_l in Hp.
Qed.

Lemma outcome_sorted v : is_outcome (sorted v) = is_outcome v.
Proof. by destruct v. Qed.

(** *** Sorting again changes nothing *)

Lemma printable_sorted v : printable v = true → printable (sorted v) = true.
Proof.
  induction v as [| | | | |l IH|d IH] using pyval_nested_ind; try done.
  - cbn [printable sorted]. rewrite !forallb_forall. intros Hl x (y & <- & Hy)%in_map_iff.
    rewrite Forall_forall in IH. apply IH; [by apply list_elem_of_In|]. by apply Hl.
  - intros [Hw Ha]%printable_dict. cbn [sorted]. apply printable_dict. fold (sorted_items d). split; [by apply sorted_items_wf|].
    unfold sorted_items. rewrite sort_items_perm. apply Forall_map. rewrite Forall_forall in IH, Ha |- *. intros p Hp.
    cbn. apply (IH p Hp), (Ha p Hp).
Qed.

Lemma flat_sorted r : dict_wf r → flat r → flat (sorted_items r).
Proof.
  intros Hw [Hr (f & Ef & Hf & Hs)]. split.
  - intros k Hk. by rewrite get_sorted, !Hr.
  - exists (sorted_items f). rewrite get_sorted, Ef by done. split; [done|]. split; [by apply sorted_items_wf|].
    intros k. by rewrite get_sorted, !Hs.
Qed.

Lemma result_ok_sorted r : result_ok r → result_ok (sorted_items r).
Proof.
  intros [Ho Hk Hp Hf]. pose proof (proj1 (proj1 (printable_dict r) Hp)) as Hw.
  split; [by rewrite get_sorted, outcome_sorted|by rewrite get_sorted, truthy_sorted| |by apply flat_sorted].
  by apply (printable_sorted (VDict r)).
Qed.

Lemma canonical_ok `{IsoTime} s : state_ok s → state_ok (canonical s).
Proof.
  intros [Hr [Hd Hda] [Hs Hsa] Ht]. split; cbn; [..|done].
  - intros r (r0 & E & ->)%fmap_Some. by apply result_ok_sorted, Hr.
  - split; [by apply sort_records_wf|]. apply sort_records_all; [apply accepted_sorted|done].
  - split; [by apply sort_records_wf|]. apply sort_records_all; [apply routed_sorted|done].
Qed.

Section state.
Context `{PyRepr, IsoTime}.

(** The reader of the result keeps what the writer of it left. *)
Definition read_result (v : pyval) : option Fields :=
  match v with
  | VDict r => if is_outcome (get r "outcome") && py_truthy (get r "key") then Some r else None
  | _ => None
  end.

Lemma read_result_sorted r : result_ok r → read_result (sorted (VDict r)) = Some (sorted_items r).
Proof.
  intros [Ho Hk [Hw _]%printable_dict _]. cbn [sorted read_result]. fold (sorted_items r).
  by rewrite !get_sorted, outcome_sorted, truthy_sorted, Ho, Hk.
Qed.

Definition result_val (s : WaitState) : pyval := match ws_result s with Some r => VDict r | None => VNone end.
Definition keep_delivery (r : Fields) : bool := equals (get r "status") ACCEPTED.
Definition keep_successor (r : Fields) : bool := py_truthy (get r "replaces") && py_truthy (get r "via").

(** Reading the fields of a written state, each changed by [f]. *)
Lemma state_from_fields d (f : pyval → pyval) s :
  (∀ k, get d k = f (get (state_to_json s) k)) → (∀ t, f (VStr t) = VStr t) →
  state_from_json (VDict d) = s <| ws_result := read_result (f (result_val s)) |>
    <| ws_deliveries := read_records keep_delivery (f (records (ws_deliveries s))) |>
    <| ws_successors := read_records keep_successor (f (records (ws_successors s))) |>.
Proof.
  intros Hd Hf. unfold state_from_json. rewrite !Hd. unfold update; cbn -[py_str_or read_records get].
  change (get (state_to_json s) "since") with (VStr (ws_since s)).
  change (get (state_to_json s) "observed_at") with (VStr (ws_observed_at s)).
  change (get (state_to_json s) "observation") with (VStr (ws_observation s)).
  change (get (state_to_json s) "error") with (VStr (ws_error s)).
  change (get (state_to_json s) "error_since") with (VStr (ws_error_since s)).
  change (get (state_to_json s) "error_at") with (VStr (ws_error_at s)).
  rewrite !Hf, !py_str_or_str. done.
Qed.

Lemma kept_deliveries d : dict_all accepted_record d → read_records keep_delivery (records d) = d.
Proof.
  intros Ha. apply read_records_texts. eapply Forall_impl; [exact Ha|]. intros p (_ & E). unfold keep_delivery.
  by rewrite texts_get, E.
Qed.

Lemma kept_successors d : dict_all routed_record d → read_records keep_successor (records d) = d.
Proof.
  intros Ha. apply read_records_texts. eapply Forall_impl; [exact Ha|].
  intros p (_ & a & b & E1 & E2 & H1 & H2). unfold keep_successor. rewrite !texts_get, E1, E2. cbn.
  unfold nonempty in *. by rewrite H1, H2.
Qed.

(** A copy through the JSON form. *)
Lemma state_copy s : state_ok s → state_from_json (VDict (state_to_json s)) = s.
Proof.
  intros Hs. rewrite (state_from_fields _ id s) by done. destruct (so_deliveries _ Hs), (so_successors _ Hs). cbn [id].
  rewrite kept_deliveries, kept_successors by done. destruct s as [? ? ? ? ? ? [r|] ? ?]; [|done].
  unfold update, result_val; cbn. destruct (so_result _ Hs r eq_refl) as [Ho Hk _ _]. by rewrite Ho, Hk.
Qed.

Lemma state_from_sorted s : state_ok s → state_from_json (VDict (sorted_items (state_to_json s))) = canonical s.
Proof.
  intros Hs. rewrite (state_from_fields _ sorted s); [|intros k; apply get_sorted, state_json_wf|done].
  pose proof (canonical_ok s Hs) as Hc. destruct (so_deliveries _ Hc), (so_successors _ Hc).
  rewrite !sorted_records, kept_deliveries, kept_successors by done. unfold canonical, update, result_val; cbn. f_equal.
  destruct (ws_result s) as [r|] eqn:E; [|done]. by apply read_result_sorted, (so_result _ Hs).
Qed.
End state.

(** ** Numbers stay within the interpreter's limit *)

Lemma digit_value_nonneg c d : digit_value c = Some d → 0 ≤ d.
Proof. destruct c as [[] [] [] [] [] [] [] []]; vm_compute; intros [= <-]; done. Qed.

Lemma parse_digits_bound b acc s z : 0 ≤ acc → parse_digits 10 b acc s = Some z →
  0 ≤ z < (acc + 1) * 10 ^ Z.of_nat (count_digits s).
Proof.
  revert b acc. induction s as [|c s IH]; intros b acc Ha; cbn [parse_digits count_digits].
  - destruct b; [|done]. intros [= <-]. change (10 ^ Z.of_nat 0) with 1. lia.
  - destruct (Ascii.eqb c "_"); [destruct b; [|done]; intros E; by apply (IH _ _ Ha E)|].
    destruct (digit_value c) as [d|] eqn:Ed; [|done]. destruct (Z.ltb_spec d 10) as [Hd|]; [|done].
    pose proof (digit_value_nonneg _ _ Ed). intros E. apply IH in E; [|lia].
    rewrite Nat2Z.inj_add, Z.pow_add_r by lia. change (10 ^ Z.of_nat 1) with 10.
    assert (0 < 10 ^ Z.of_nat (count_digits s)) by (apply Z.pow_pos_nonneg; lia). nia.
Qed.

Lemma parse_unsigned_bound s z : parse_unsigned 10 s = Some z → 0 ≤ z < INT_LIMIT.
Proof.
  unfold parse_unsigned. change (10 =? 16) with false. cbn iota. destruct (Z.leb_spec (Z.of_nat (count_digits s)) 4300) as [Hc|]; [|done].
  intros E%parse_digits_bound; [|done]. split; [lia|]. apply Z.lt_le_trans with (1 := proj2 E). rewrite Z.add_0_l, Z.mul_1_l.
  change INT_LIMIT with (10 ^ 4300). apply Z.pow_le_mono_r; lia.
Qed.

Lemma int_bound `{PyRepr} s z : py_int (VStr s) = Ok z → Z.abs z < INT_LIMIT.
Proof.
  cbn. destruct (parse_int 10 s) as [z'|] eqn:E; [|done]. intros [= <-]. unfold parse_int in E. destruct (String.prefix "-" _).
  - apply fmap_Some in E as (u & Hu & ->). apply parse_unsigned_bound in Hu. lia.
  - destruct (String.prefix "+" _); apply parse_unsigned_bound in E; lia.
Qed.

Lemma digits_nonneg s z : str_all is_dec_digit s = true → py_int (VStr s) = Ok z → 0 ≤ z.
Proof.
  intros Hd. cbn. destruct (parse_int 10 s) as [z'|] eqn:E; [|done]. intros [= <-]. unfold parse_int in E.
  rewrite str_strip_id in E by (eapply str_all_impl; [|exact Hd]; intros c Hc; by rewrite is_dec_digit_not_space).
  rewrite (prefix_dec_false "-") in E by done. destruct (String.prefix "+" s); apply parse_unsigned_bound in E; lia.
Qed.

(** ** A created spec is read back *)

Lemma str_partition_spec c s : let '(h, t) := str_partition c s in str_all (other_than c) h = true ∧ (s = h ∧ t = "" ∨ s = h +:+ String c t).
Proof.
  induction s as [|x s IH]; [by split; [|left]|]. cbn. destruct (Ascii.eqb_spec x c) as [->|Hx]; [split; [done|by right]|].
  destruct (str_partition c s) as [h t]. destruct IH as [Hh Hs]. cbn. unfold other_than at 1.
  destruct (Ascii.eqb_spec x c); [done|]. split; [done|]. destruct Hs as [[-> ->]| ->]; [by left|right; by rewrite str_cons_app].
Qed.

Lemma repo_parts owner name : is_owner owner = true → is_repo_name name = true → repo_match (owner +:+ "/" +:+ name) = true.
Proof.
  intros Ho Hn. unfold repo_match. rewrite chomp_id.
  - rewrite str_cons_app, str_nil_app, str_partition_app; [by rewrite Ho, Hn|].
    destruct owner as [|c o]; [done|]. cbn in Ho. apply andb_true_iff in Ho as [[Hc Ho]%andb_true_iff _]. cbn. apply andb_true_iff.
    split; [clear -Hc|eapply str_all_impl; [|exact Ho]; clear; intros c];
      destruct c as [[] [] [] [] [] [] [] []]; vm_compute in *; done.
  - rewrite !str_all_app. apply andb_true_iff. split; [|cbn; apply andb_true_iff in Hn as [[Hn _]%andb_true_iff _];
      eapply str_all_impl; [|exact Hn]; clear; intros c; by destruct c as [[] [] [] [] [] [] [] []]; vm_compute].
    destruct owner as [|c o]; [done|]. cbn in Ho. apply andb_true_iff in Ho as [[Hc Ho]%andb_true_iff _]. cbn. apply andb_true_iff.
    split; [clear -Hc|eapply str_all_impl; [|exact Ho]; clear; intros c];
      destruct c as [[] [] [] [] [] [] [] []]; vm_compute in *; done.
Qed.

Lemma run_url_match_ok s repo run : run_url_match s = Some (repo, run) → repo_match repo = true ∧ str_all is_dec_digit run = true.
Proof.
  unfold run_url_match. case_match; [|done]. destruct (str_partition _ (str_drop _ _)) as [owner r].
  destruct (str_partition _ r) as [name r2]. destruct (is_owner owner && is_repo_name name && _) eqn:E; [|done].
  apply andb_true_iff in E as [[Ho Hn]%andb_true_iff _]. pose proof (span_digits_app (str_drop 13 r2)) as Hs.
  destruct (span_digits _) as [d r3]. case_match; [|done]. intros [= <- <-]. split; [by apply repo_parts|apply Hs].
Qed.

Section spec.
Context `{PyRepr, IsoTime}.

(** An address as [parse_returns] leaves it. *)
Definition is_address (a : string) : Prop := is_part a ∧ parse_address a = Ok a.

Lemma drop_app_prefix p s : String.prefix p s = true → s = p +:+ after p s.
Proof.
  unfold after. revert s. induction p as [|c p IH]; intros s; [done|]. destruct s as [|c' s]; [done|]. cbn.
  destruct (Ascii.ascii_dec c c') as [->|]; [|done]. intros Hp. rewrite str_cons_app. f_equal. by apply IH.
Qed.

Lemma after_prefix p s : after p (p +:+ s) = s.
Proof. by apply drop_prefix_app. Qed.

(** A prefix followed by stripped text is a part, and is taken as it is. *)
Lemma prefixed_part c p x : str_all (other_than ",") (String c p) = true → is_space c = false → is_part x → is_part (String c p +:+ x).
Proof.
  intros Hp Hc (Hx & Hs & Hn). split_and!; [by rewrite str_all_app, Hp, Hx| |by rewrite str_cons_app].
  apply strip_app; [done..|]. by destruct x.
Qed.

Lemma stripped_part s : str_all (other_than ",") s = true → nonempty (str_strip s) = true → is_part (str_strip s).
Proof. intros Hs Hn. split_and!; [by apply str_all_strip|apply strip_strip|done]. Qed.

Lemma card_ref_nonempty s : card_ref_match s = true → nonempty s = true.
Proof. by destruct s. Qed.

Lemma parse_address_stable p a : is_part p → parse_address p = Ok a → is_address a.
Proof.
  intros Hp. assert (str_all (other_than ",") p = true) as Hc by apply Hp. unfold parse_address at 1.
  case_bool_decide as Hb; [|destruct (String.prefix PO_SESSION_PREFIX p && _) eqn:E1;
                            [|destruct (String.prefix CARD_PREFIX p && _) eqn:E2; [|done]]]; intros [= <-].
  - split; [done|]. unfold parse_address. by rewrite bool_decide_true.
  - apply andb_true_iff in E1 as [E1 Hn]. set (x := str_strip (after PO_SESSION_PREFIX p)) in *.
    assert (is_part x) as Hx by (apply stripped_part; [by apply str_all_drop|done]). split; [by apply prefixed_part|].
    unfold parse_address. rewrite bool_decide_false by (unfold OBSERVER, DEPENDENTS, PO_SESSION_PREFIX; rewrite str_cons_app; set_solver).
    rewrite prefix_app, after_prefix. destruct Hx as (_ & -> & ->). done.
  - apply andb_true_iff in E2 as [E2 Hm]. set (x := str_strip (after CARD_PREFIX p)) in *.
    assert (is_part x) as Hx by (apply stripped_part; [by apply str_all_drop|by apply card_ref_nonempty]).
    split; [by apply prefixed_part|]. unfold parse_address.
    rewrite bool_decide_false by (unfold OBSERVER, DEPENDENTS, CARD_PREFIX; rewrite str_cons_app; set_solver).
    rewrite prefix_app, after_prefix. destruct Hx as (_ & Hs & _). rewrite Hs, Hm.
    by replace (String.prefix PO_SESSION_PREFIX (CARD_PREFIX +:+ x)) with false.
Qed.

Definition take_address (found : list string) (address : string) : res (list string) :=
  a ← parse_address address; Ok (add_once found a).

Lemma take_addresses_ok parts found l : Forall is_part parts → Forall is_address found → NoDup found →
  foldM take_address found parts = Ok l → Forall is_address l ∧ NoDup l.
Proof.
  revert found. induction parts as [|p parts IH]; intros found Hp Hf Hn; cbn.
  - by intros [= <-].
  - inversion_clear Hp as [|? ? Hp1 Hps]. intros (found' & (a & Ea & [= <-])%bind_Ok & Hl)%bind_Ok.
    eapply IH; [done|..|exact Hl]; unfold add_once; case_bool_decide; try done.
    + apply Forall_app. split; [done|]. constructor; [by eapply parse_address_stable|constructor].
    + apply NoDup_app. split_and!; [done| |apply NoDup_singleton]. set_solver.
Qed.

Lemma parse_returns_ok values l : parse_returns values = Ok l → Forall is_address l ∧ NoDup l ∧ l ≠ [].
Proof.
  unfold parse_returns. fold take_address. intros (found & Hf & Hl)%bind_Ok. destruct found as [|a found]; [done|].
  injection Hl as <-. assert (Forall is_part (mjoin ((λ raw, comma_parts (py_str_or raw)) <$> values))) as Hp.
  { apply Forall_join, Forall_fmap, Forall_true. intros v. apply comma_parts_parts. }
  destruct (take_addresses_ok _ [] _ Hp (Forall_nil_2 _) (NoDup_nil_2) Hf). done.
Qed.

Lemma take_addresses_id l found : Forall is_address l → NoDup (found ++ l) → foldM take_address found l = Ok (found ++ l).
Proof.
  revert found. induction l as [|a l IH]; intros found Ha Hn; [by rewrite app_nil_r|].
  inversion_clear Ha as [|? ? [_ Ea] Hl]. cbn [foldM].
  assert (take_address found a = Ok (add_once found a)) as -> by (unfold take_address; by rewrite Ea). cbn [mbind res_bind].
  assert (a ∉ found) as Hnot by (apply NoDup_app in Hn as (_ & Hn & _); set_solver).
  unfold add_once. rewrite bool_decide_false by done. rewrite IH, <-app_assoc; [done|done|]. by rewrite <-app_assoc.
Qed.

Lemma parse_returns_id l : Forall is_address l → NoDup l → l ≠ [] → parse_returns (VStr <$> l) = Ok l.
Proof.
  intros Ha Hn Hne. unfold parse_returns. fold take_address.
  replace (mjoin ((λ raw, comma_parts (py_str_or raw)) <$> (VStr <$> l))) with l.
  - rewrite take_addresses_id by done. cbn. by destruct l.
  - clear Hn Hne. induction l as [|a l IH]; [done|]. inversion_clear Ha as [|? ? [Hp _] Hl]. cbn.
    rewrite py_str_or_str, comma_parts_one by done. cbn. f_equal. by apply IH.
Qed.

(** *** Targets *)

(** What the reader of a target accepts. *)
Definition target_ok (t : WaitTarget) : Prop :=
  (∃ repo n, t = run_target repo n ∧ repo_match repo = true ∧ 0 < n < INT_LIMIT) ∨
  (∃ ref l, t = card_target ref l ∧ nonempty ref = true ∧ l ≠ [] ∧ Forall (λ s, is_card_state s = true) l) ∨
  (∃ m, t = time_target (utc_text m) ∧ in_range m = true).

Lemma target_json_wf t : dict_wf (target_to_json t).
Proof. unfold target_to_json. repeat case_match; apply (bool_decide_unpack _); by vm_compute. Qed.

Lemma target_printable t : target_ok t → printable (VDict (target_to_json t)) = true.
Proof.
  intros Ht. apply printable_dict. split; [apply target_json_wf|].
  destruct Ht as [(repo & n & -> & _ & Hn)|[(ref & l & -> & _)|(m & -> & _)]]; repeat constructor; cbn.
  - apply Z.ltb_lt. lia.
  - clear. induction l; by cbn.
Qed.

Lemma all_card_states_ok l : Forall (λ s, is_card_state s = true) l → all_card_states (VStr <$> l) = Ok true.
Proof. induction 1 as [|s l Hs _ IH]; [done|]. cbn. by rewrite Hs. Qed.

Lemma target_from_sorted t : target_ok t → target_from_json (sorted (VDict (target_to_json t))) = Ok (Some t).
Proof.
  intros Ht. cbn [sorted]. fold (sorted_items (target_to_json t)). unfold target_from_json.
  rewrite !get_sorted by apply target_json_wf.
  destruct Ht as [(repo & n & -> & Hm & Hn)|[(ref & l & -> & Hr & Hl & Hall)|(m & -> & Hm)]].
  - change (get _ "kind") with (VStr TARGET_RUN). change (get _ "repo") with (VStr repo).
    change (get _ "run_id") with (VInt n). cbn [sorted]. rewrite !py_str_or_str, Hm. cbn [String.eqb andb].
    by rewrite (proj2 (Z.ltb_lt _ _)) by lia.
  - change (get _ "kind") with (VStr TARGET_CARD). change (get _ "ref") with (VStr ref).
    change (get _ "states") with (VList (VStr <$> l)). cbn [sorted]. rewrite !py_str_or_str, sorted_strings.
    destruct (VStr <$> l) as [|v vs] eqn:E; [by destruct l|]. rewrite Hr, <-E. cbn [String.eqb]. rewrite all_card_states_ok by done.
    cbn [mbind res_bind]. by rewrite py_strs.
  - change (get _ "kind") with (VStr TARGET_TIME). change (get _ "at") with (VStr (utc_text m)). cbn [sorted].
    rewrite !py_str_or_str, parse_utc_text by done. cbn [catch_spec mbind res_bind option_map]. by rewrite utc_text_whole.
Qed.

(** *** The whole spec *)

Record spec_ok (s : WaitSpec) : Prop := {
  sk_target : target_ok (sp_target s);
  sk_deadline : ∃ m, in_range m = true ∧ sp_deadline s = utc_text m;
  sk_created : ∃ m, in_range m = true ∧ sp_created_at s = utc_text m;
  sk_returns : Forall is_address (sp_returns s) ∧ NoDup (sp_returns s) ∧ sp_returns s ≠ [];
  sk_window : 0 < sp_window s < 10 ^ 20;
}.

Lemma spec_json_wf s : dict_wf (spec_to_json s).
Proof. apply (bool_decide_unpack _). by vm_compute. Qed.

Lemma spec_printable s : spec_ok s → printable (VDict (spec_to_json s)) = true.
Proof.
  intros Hs. apply printable_dict. split; [apply spec_json_wf|]. unfold spec_to_json.
  pose proof (sk_window _ Hs) as Hw. pose proof (INT_LIMIT_large (sp_window s)). repeat constructor; cbn [snd].
  - apply target_printable, Hs.
  - cbn. clear. induction (sp_returns s); by cbn.
  - cbn [printable]. apply Z.ltb_lt. lia.
Qed.

Lemma spec_from_sorted s : spec_ok s → spec_from_json (VDict (sorted_items (spec_to_json s))) = Ok (Some s).
Proof.
  intros [Ht (m & Hm & Ed) (c & Hc & Ec) (Ha & Hn & Hne) Hw]. unfold spec_from_json.
  rewrite !get_sorted, dict_get_sorted by apply spec_json_wf.
  change (get _ "target") with (VDict (target_to_json (sp_target s))). change (get _ "deadline") with (VStr (sp_deadline s)).
  change (get _ "return") with (VList (VStr <$> sp_returns s)). change (get _ "created_at") with (VStr (sp_created_at s)).
  change (dict_get _ _) with (Some (VInt (sp_window s))). rewrite target_from_sorted by done.
  cbn [sorted fmap option_fmap option_map default from_option mbind res_bind]. rewrite sorted_strings, !py_str_or_str, Ed, Ec, !parse_utc_text by done.
  cbn [mbind res_bind]. rewrite parse_returns_id by done. cbn [mbind res_bind catch_spec]. rewrite !utc_text_whole. cbn [id].
  destruct (Z.leb_spec (sp_window s) 0); [lia|]. rewrite <-Ed, <-Ec. by destruct s.
Qed.

(** *** What creation accepts *)

Lemma run_target_ok value run_id t :
  parse_run_target value run_id = Ok t → wt_run_id t ≠ 0 → target_ok t.
Proof.
  unfold parse_run_target. intros E Hn. left. destruct (run_url_match (str_strip value)) as [[repo run]|] eqn:Eu.
  - case_match; [done|]. apply bind_Ok in E as (n & En & [= <-]). exists repo, n. split; [done|].
    cbn in Hn. pose proof (int_bound _ _ En) as Hb. apply run_url_match_ok in Eu as [Hr Hd].
    pose proof (digits_nonneg _ _ Hd En). split; [done|]. lia.
  - destruct (repo_match (str_strip value)) eqn:Hm; [|done]. cbn [negb] in E. case_match; [done|].
    destruct (str_isdigit (str_strip run_id)); [|done]. cbn [negb] in E. apply bind_Ok in E as (n & En & E).
    destruct (Z.leb_spec n 0); [done|]. injection E as <-. exists (str_strip value), n. pose proof (int_bound _ _ En).
    split_and!; try done; lia.
Qed.

Lemma run_target_kind value run_id t : parse_run_target value run_id = Ok t → wt_kind t = TARGET_RUN.
Proof.
  unfold parse_run_target. destruct (run_url_match _) as [[repo run]|].
  - case_match; [done|]. intros (n & _ & [= <-])%bind_Ok. done.
  - do 3 (case_match; [done|]). intros (n & _ & E)%bind_Ok. case_match; [done|]. by injection E as <-.
Qed.

Lemma unique_subset l : ∀ x, x ∈ unique l ↔ x ∈ l.
Proof.
  unfold unique. assert (∀ acc x, x ∈ foldl add_once acc l ↔ x ∈ acc ∨ x ∈ l) as Hg; [|intros x; rewrite Hg; set_solver].
  induction l as [|y l IH]; intros acc x; cbn; [set_solver|]. rewrite IH. unfold add_once. case_bool_decide; set_solver.
Qed.

Lemma card_target_ok ref states t : parse_card_target ref states = Ok t → target_ok t.
Proof.
  unfold parse_card_target. destruct (card_ref_match (str_strip ref)) eqn:Hr; [|done]. cbn [negb].
  case_bool_decide as Hn; [done|]. destruct (filter _ _) as [|] eqn:Ef; [|done]. intros [= <-]. right; left.
  exists (str_strip ref), (unique (comma_parts states)). split_and!; [done|by apply card_ref_nonempty| |].
  - destruct (comma_parts states) as [|p l]; [done|]. intros Hu. assert (p ∈ unique (p :: l)) by (apply unique_subset; set_solver).
    rewrite Hu in *. set_solver.
  - apply Forall_forall. intros x Hx. rewrite unique_subset in Hx. destruct (is_card_state x) eqn:E; [done|].
    assert (x ∈ filter (λ s, is_card_state s = false) (comma_parts states)) as Hin by (by apply list_elem_of_filter).
    rewrite Ef in Hin. set_solver.
Qed.

(** Everything creation accepts is well formed on the card, but for a run URL
    that ends in zero. *)
Lemma build_spec_ok i now spec :
  build_wait_spec i now = Ok spec → in_range now = true →
  (wt_kind (sp_target spec) = TARGET_RUN → wt_run_id (sp_target spec) ≠ 0) → spec_ok spec.
Proof.
  unfold build_wait_spec. do 4 (case_match; [done|]). intros E Hnow Hrun.
  apply bind_Ok in E as (target & Et & E). apply bind_Ok in E as (moment & Em & E). apply bind_Ok in E as (late & _ & E).
  destruct late; [done|]. apply bind_Ok in E as (addresses & Ea & E). case_match; [done|].
  apply bind_Ok in E as (window & Ew & [= <-]). cbn in Hrun. split; cbn.
  - destruct (nonempty (in_run i)) eqn:Er.
    + eapply run_target_ok; [exact Et|]. apply Hrun. by eapply run_target_kind.
    + destruct (nonempty (in_card i)); [by eapply card_target_ok|].
      apply bind_Ok in Et as (at_ & Ep & [= <-]). right; right. exists at_. split; [done|]. by eapply parse_utc_range.
  - exists moment. split; [|done]. by eapply parse_deadline_range.
  - exists now. done.
  - by eapply parse_returns_ok.
  - destruct (nonempty (str_strip (in_transient_window i))); [|injection Ew as <-; unfold DEFAULT_TRANSIENT_WINDOW_SECONDS; lia].
    apply bind_Ok in Ew as (d & Ed & [= <-]). apply parse_duration_range in Ed. lia.
Qed.
End spec.

(** ** Through the card *)

Section fields.
Context `{PyRepr, IsoTime, JsonText, !JsonStr}.

(** The field of a card as the store keeps it: its text, or nothing. *)
Definition holds_text (task : Fields) (key : string) (text : option string) : Prop :=
  get (bag task) key = match text with Some t => VStr t | None => VNone end.

Lemma json_field_dumps task key d :
  holds_text task key (Some (dumps d)) → printable (VDict d) = true → json_field task key = VDict (sorted_items d).
Proof.
  intros Hf Hd. unfold json_field. rewrite Hf. rewrite py_str_or_str, loads_str_dumps by done. done.
Qed.

Lemma wait_state_text task s : holds_text task WAIT_STATE (Some (state_text s)) → state_ok s → wait_state task = canonical s.
Proof.
  intros Hf Hs. unfold wait_state. rewrite (json_field_dumps _ _ _ Hf) by by apply state_printable.
  by apply state_from_sorted.
Qed.

Lemma wait_state_absent task : holds_text task WAIT_STATE None → wait_state task = new_wait_state.
Proof. intros Hf. unfold wait_state, json_field. rewrite Hf. change (py_str_or VNone) with "". by rewrite loads_str_empty. Qed.

(** What is read off a card is shaped as the dispatcher needs it. *)
Lemma read_spec_shape task spec : wait_spec task = Ok (Some spec) →
  Forall is_address (sp_returns spec) ∧ NoDup (sp_returns spec) ∧ 0 < sp_window spec.
Proof.
  unfold wait_spec, spec_from_json. destruct (json_field task WAIT_SPEC) as [| | | | | |d]; try done.
  intros (target & _ & E)%bind_Ok. apply bind_Ok in E as (parsed & Ep & E).
  destruct parsed as [[[deadline created] addresses]|]; [|done]. destruct target; [|done]. destruct (default _ _); try done.
  destruct (Z.leb_spec z 0); [done|]. injection E as <-. cbn.
  unfold catch_spec in Ep. destruct (mbind _ _) as [x|e] eqn:Ex; [|by destruct (is_spec_error e)]. injection Ep as ->.
  inv_ok. simplify_eq. match goal with Hp : parse_returns _ = Ok _ |- _ => apply parse_returns_ok in Hp end. naive_solver.
Qed.

(** The times of a spec read off a card. *)
Lemma read_spec_times task spec : wait_spec task = Ok (Some spec) →
  (∃ m, in_range m = true ∧ sp_deadline spec = utc_text m) ∧
  (wt_kind (sp_target spec) ≠ TARGET_RUN → wt_kind (sp_target spec) ≠ TARGET_CARD →
   ∃ m, in_range m = true ∧ wt_at (sp_target spec) = utc_text m).
Proof.
  unfold wait_spec, spec_from_json. destruct (json_field task WAIT_SPEC) as [| | | | | |d]; try done.
  intros (target & Et & E)%bind_Ok. apply bind_Ok in E as (parsed & Ep & E).
  destruct parsed as [[[deadline created] addresses]|]; [|done]. destruct target as [t|]; [|done]. destruct (default _ _); try done.
  destruct (Z.leb_spec z 0); [done|]. injection E as <-. cbn. split.
  - unfold catch_spec in Ep. destruct (mbind _ _) as [x|e] eqn:Ex; [|by destruct (is_spec_error e)]. injection Ep as ->.
    inv_ok. simplify_eq. eexists. split; [|reflexivity]. by eapply parse_utc_range.
  - intros Hrun Hcard. unfold target_from_json in Et. destruct (get d "target") as [| | | | | |dt]; try done.
    destruct (String.eqb (py_str_or (get dt "kind")) TARGET_RUN).
    { destruct (get dt "run_id"); try done. destruct (repo_match _ && _); [|done]. by injection Et as <-. }
    destruct (String.eqb (py_str_or (get dt "kind")) TARGET_CARD).
    { destruct (get dt "states") as [| | | | |[|v l]|]; try done. destruct (nonempty _); [|done].
      apply bind_Ok in Et as (b & _ & [= Et]). destruct b; [|done]. by injection Et as <-. }
    destruct (String.eqb (py_str_or (get dt "kind")) TARGET_TIME); [|done]. apply bind_Ok in Et as (o & Eo & [= Et]).
    destruct o as [m|]; [|done]. injection Et as <-. exists m. split; [|done]. unfold catch_spec in Eo.
    destruct (parse_utc _ _) eqn:Eq; [injection Eo as ->; by eapply parse_utc_range|by destruct (is_spec_error e)].
Qed.

(** C31. What creation writes is what the dispatcher reads.  Whatever wait
    [build_wait_spec] accepts, of a run, a card or a time, with a deadline given
    as a time or a duration and any list of return addresses, its JSON text on
    the card reads back as that very spec, field by field; the one exception is
    a run numbered 0. *)
Theorem created_spec_reads_back i now spec task :
  build_wait_spec i now = Ok spec → in_range now = true →
  (wt_kind (sp_target spec) = TARGET_RUN → wt_run_id (sp_target spec) ≠ 0) →
  holds_text task WAIT_SPEC (Some (spec_text spec)) →
  wait_spec task = Ok (Some spec).
Proof.
  intros Hb Hn Hr Hf. assert (spec_ok spec) as Hs by by eapply build_spec_ok.
  unfold wait_spec. rewrite (json_field_dumps _ _ _ Hf) by by apply spec_printable. by apply spec_from_sorted.
Qed.
End fields.
