(* ===== verification/GateBackend.v ===== *)
(** * A read through the gate's backend (dispatch/gate.py, dispatch/helpers.py)

    One call of the [gh] tool: what its output says of an answer, when silence
    is a transport error, and the JSON it prints. *)

From Stdlib Require Import Ascii.
From S2P Require Import Prelude PyText JsonText PyStrings.

(** ** Regular expressions over the tool's text *)

(** [p] matches at the head of [s], letters in either case. *)
Definition prefix_nocase (p s : string) : bool := String.prefix (str_lower p) (str_lower s).

(** [\b] between two characters, absent ones being the ends of the text. *)
Definition is_word (o : option ascii) : bool := from_option word_char false o.
Definition head_char (s : string) : option ascii := match s with String c _ => Some c | "" => None end.
Definition boundary (prev : option ascii) (s : string) : bool := negb (Bool.eqb (is_word prev) (is_word (head_char s))).

(** [(\d{3})\b] at the head of [s]. *)
Definition three_digits (s : string) : option string :=
  match s with
  | String a (String b (String c r)) =>
      if is_dec_digit a && is_dec_digit b && is_dec_digit c && boundary (Some c) r
      then Some (String a (String b (String c ""))) else None
  | _ => None
  end.

(** [[ /](\d{3})\b]. *)
Definition spaced_status (s : string) : option string :=
  match s with
  | String c r => if Ascii.eqb c " " || Ascii.eqb c "/" then three_digits r else None
  | "" => None
  end.

(** What remains after [/\d] and after [/\d\.\d]. *)
Definition after_version (s : string) : option string :=
  match s with
  | String c (String d r) => if Ascii.eqb c "/" && is_dec_digit d then Some r else None
  | _ => None
  end.

Definition after_minor (s : string) : option string :=
  match s with
  | String c (String d r) => if Ascii.eqb c "." && is_dec_digit d then Some r else None
  | _ => None
  end.

(** [http(?:/\d(?:\.\d)?)?[ /](\d{3})\b] after [http]: the longest version first. *)
Definition http_status (s : string) : option string :=
  match after_version s with
  | Some r =>
      match (r' ← after_minor r; spaced_status r') with
      | Some code => Some code
      | None => match spaced_status r with Some code => Some code | None => spaced_status s end
      end
  | None => spaced_status s
  end.

(** [_HTTP_STATUS_RE] at one position; [prev] is the character before it. *)
Definition status_at (prev : option ascii) (s : string) : option string :=
  if boundary prev s && prefix_nocase "http" s then http_status (str_drop 4 s)
  else if prefix_nocase "returned error:" s then three_digits (lstrip_by is_space (str_drop 15 s))
  else None.

(** The status code of the leftmost match. *)
Fixpoint http_status_search (prev : option ascii) (s : string) : option string :=
  match status_at prev s with
  | Some code => Some code
  | None => match s with String c s' => http_status_search (Some c) s' | "" => None end
  end.

Definition begins_with_space (s : string) : bool := from_option is_space false (head_char s).

Definition DQ : string := String DQUOTE "".

(** [_ANSWERED_RE] at one position; [^] also matches after a newline. *)
Definition answered_at (prev : option ascii) (s : string) : bool :=
  let line_start := match prev with None => true | Some c => Ascii.eqb c NEWLINE end in
  (boundary prev s && prefix_nocase "graphql:" s && begins_with_space (str_drop 8 s))
  || (line_start && let t := lstrip_by is_space s in prefix_nocase "remote:" t && begins_with_space (str_drop 7 t))
  || (String.prefix "!" s && let t := lstrip_by is_space (str_drop 1 s) in
        existsb (λ w, prefix_nocase w t) ["[rejected]"; "[remote rejected]"; "[deleted]"; "[no match]"])
  || (line_start && let t := lstrip_by is_space s in
        String.prefix "{" t && let u := lstrip_by is_space (str_drop 1 t) in
        (prefix_nocase (DQ +:+ "errors" +:+ DQ) u || prefix_nocase (DQ +:+ "message" +:+ DQ) u)).

Fixpoint answered_search (prev : option ascii) (s : string) : bool :=
  answered_at prev s || match s with String c s' => answered_search (Some c) s' | "" => false end.

(** [_backend_answered] of a command that is not [git]. *)
Definition backend_answered (text : string) : bool :=
  let text := str_strip text in
  if negb (nonempty text) then false
  else match http_status_search None text with
       | Some code => negb (String.prefix "5" code)
       | None => answered_search None text
       end.

(** ** Lines *)

Definition is_line_break (c : ascii) : bool :=
  let n := Ascii.nat_of_ascii c in
  ((10 <=? n) && (n <=? 13) || (28 <=? n) && (n <=? 30) || (n =? 133))%nat.

(** [s.splitlines()]; [\r\n] is one break. *)
Fixpoint splitlines_go (after_cr : bool) (line : string) (s : string) : list string :=
  match s with
  | "" => if nonempty line then [line] else []
  | String c s' =>
      if after_cr && Ascii.eqb c NEWLINE then splitlines_go false "" s'
      else if is_line_break c then line :: splitlines_go (Ascii.nat_of_ascii c =? 13)%nat "" s'
      else splitlines_go false (line +:+ String c "") s'
  end.

Definition splitlines (s : string) : list string := splitlines_go false "" s.

(** [_tail]: the last forty lines. *)
Definition tail (text : string) : string :=
  let lines := splitlines (str_strip text) in
  String.concat (String NEWLINE "") (drop (length lines - 40) lines).

(** ** The call *)

(** What [host.run_capture] does: the tool ran, it could not be run, or something
    else was raised. *)
Inductive Ran :=
| RanCode (code : Z) (stdout stderr : string)
| RanHostError (message : string)
| RanRaise (e : exn).

(** What the caller of [_gh_api] sees. *)
Inductive GhAnswer :=
| GhValue (v : pyval)
| GhTransport (message : string)   (** [GateTransportError] *)
| GhRefused (message : string)     (** [HostError] *)
| GhRaise (e : exn).

Section gh.
Context `{JsonText, !JsonStr}.

Definition first_text (a b : string) : string := if nonempty a then a else b.

Definition gh_api (ran : Ran) : GhAnswer :=
  let label := "gate gh api" in
  match ran with
  | RanHostError message => GhTransport (label +:+ " got no answer: " +:+ message)
  | RanRaise e => GhRaise e
  | RanCode code stdout stderr =>
      if code =? 0 then
        let text := str_strip stdout in
        GhValue (if nonempty text then default (VList []) (loads_str text) else VList [])
      else
        let text := tail (str_strip (first_text stderr stdout)) in
        if backend_answered text then GhRefused ("gate gh api failed: " +:+ text)
        else GhTransport (label +:+ " got no answer: " +:+ first_text text "(no output)")
  end.
End gh.

Example status_not_found : http_status_search None "gh: Not Found (HTTP 404)" = Some "404".
Proof. vm_compute. reflexivity. Qed.

Example status_version : http_status_search None "HTTP/1.1 503 Service Unavailable" = Some "503".
Proof. vm_compute. reflexivity. Qed.

Example status_none : http_status_search None "xhttp 404" = None.
Proof. vm_compute. reflexivity. Qed.
