(* ===== verification/WaitCards.v ===== *)
(** * The dispatcher's tick of a wait card (dispatch/wait_cards.py,
      dispatch/po_delivery.py)

    Claiming a wait card, observing its target once per tick, freezing the first
    terminal fact, delivering it to every return address and the terminal move,
    as a program over what the dispatcher knows of the wait.  The board, the PO
    service, GitHub and the clock answer through a [World] indexed by the number
    of the call.  The log holds what was asked of them; a write of the card's
    [wait_state] is in the log when the card took it, whatever was answered. *)

From Stdlib Require Import Ascii.
From S2P Require Import Prelude PyText Program RequestIds JsonText Sha256 IsoTime PyStrings Board TerminalTaxonomy.
From S2P Require Import WaitCard GateBackend.

Definition WAIT_STEP : string := "wait-card".
Definition PO_DELIVERY : string := "po".
Definition PO_SUCCESSOR : string := "po-successor".
Definition DEPENDENT_COMMENT : string := "dependent-comment".
Definition DEPENDENT_BLOCKED : string := "dependent-blocked".
Definition CARD_COMMENT : string := "card-comment".
Definition TERMINAL_MOVE : string := "terminal".
Definition WAIT_MALFORMED_ACTION : string := "wait-malformed-blocked".
Definition RUN_COMPLETED : string := "completed".
Definition WAIT_KIND : string := "wait".
Definition WAIT_OUTCOME_INPUT : string := "wait_outcome".
Definition SPRINT_ROUTE : string := "sprint_session".
Definition CREATE_ROUTE : string := "create_session".
Definition SUCCESSORS_PER_TICK : nat := 2.

(** ** What the others answer *)

(** A [TaskError] of the board, or any other exception. *)
Inductive Fault := TaskFault (code message : string) | OtherFault (e : exn).

Definition fault_exn (f : Fault) : exn := match f with TaskFault _ message => Exn "TaskError" message | OtherFault e => e end.

(** A write of the card's own field: taken, or failed with or without effect. *)
Inductive WriteAnswer := Took | Failed (applied : bool) (f : Fault).

(** The PO service's exceptions, as their classes part them. *)
Inductive PoFault :=
| SessionClosed (message : string)
| SessionNotFound (message : string)
| RequestConflict (message : string)
| ServiceRefused (code message : string)
| PoServiceError (cls message : string)
| PoStoreError (cls message : string)
| PoRaise (e : exn).

(** [type(exc).__name__] and [str(exc)]. *)
Definition po_name (f : PoFault) : string :=
  match f with
  | SessionClosed _ => "SessionClosed" | SessionNotFound _ => "SessionNotFound"
  | RequestConflict _ => "RequestConflict" | ServiceRefused _ _ => "ServiceRefused"
  | PoServiceError cls _ | PoStoreError cls _ | PoRaise (Exn cls _) => cls
  end.

Definition po_message (f : PoFault) : string :=
  match f with
  | SessionClosed m | SessionNotFound m | RequestConflict m | ServiceRefused _ m | PoServiceError _ m
  | PoStoreError _ m | PoRaise (Exn _ m) => m
  end.

Record World := {
  w_clock : nat → Z;                                      (** [utcnow()] *)
  w_committed : nat → string → bool + exn;                (** [audit.committed_event(id) is not None] *)
  w_new_attempt : nat → string;                           (** [new_attempt_id()] *)
  w_rfc3339 : nat → string;                               (** [now_rfc3339()] *)
  w_save_records : nat → option exn;
  w_claim : nat → option Fault;
  w_show : nat → string → Fields + Fault;                 (** [reader.show] *)
  w_list : nat → list Fields + Fault;                     (** [reader.list] of the dependents' columns *)
  w_events : nat → string → list Fields + Fault;          (** [audit.events] *)
  w_comment : nat → option Fault;
  w_move : nat → option Fault;
  w_record : nat → WriteAnswer;                           (** [writer.record_wait_state] *)
  w_gh : nat → Ran;                                       (** [host.run_capture] *)
  w_sprint : nat → string → Fields + Fault;               (** [sprints.show] *)
  w_submit : nat → option PoFault;
  w_request : nat → string → option (option Z) + PoFault; (** [po.request]: the turn's number *)
  w_queued : nat → string → option string + PoFault;      (** [po.queued]: its session *)
  w_sprint_session : nat → Fields + PoFault;
  w_choice : nat → string → option (string * string * string) + PoFault;
  w_create : nat → Fields + PoFault;
}.

(** ** What the tick asks for *)

Inductive Event :=
| EvClaim (worker request_id : string)
| EvSavedRecords
| EvRecorded (state : WaitState)                          (** the card's [wait_state] is now this one *)
| EvMove (ref target reason request_id : string) (taxonomy : option Fields) (outcome : option string)
| EvComment (ref body request_id : string)
| EvSubmit (session text request_id : string) (card : Fields)
| EvSprintSession (sprint request_id : string)
| EvCreateSession (cli model effort request_id : string).

Record Tick := {
  tk_wait : WaitState;          (** [state] *)
  tk_calls : nat;
  tk_records : list string;     (** the cards that have a dispatcher record *)
  tk_payload : Fields;
}.

#[global] Instance Tick_eta : Settable Tick := λ t,
  Build_Tick (tk_wait t) (tk_calls t) (tk_records t) (tk_payload t).

Notation TM := (Prog Tick Event).

Definition wait : TM WaitState := λ t, (Ok (tk_wait t), t, []).
Definition on_wait (f : WaitState → WaitState) : TM unit := λ t, (Ok tt, t <| tk_wait := f (tk_wait t) |>, []).
Definition dispatcher_records : TM (list string) := λ t, (Ok (tk_records t), t, []).
Definition on_tick (f : Tick → Tick) : TM unit := λ t, (Ok tt, f t, []).
Definition call {A} (f : nat → A) : TM A := λ t, (Ok (f (tk_calls t)), t <| tk_calls := S (tk_calls t) |>, []).
Definition raise {A} (e : exn) : TM A := lift (Raise e).

(** [task["ref"]], as text. *)
Definition ref_of `{PyRepr} (task : Fields) : res string :=
  match dict_get task "ref" with Some v => Ok (py_str v) | None => Raise (Exn "KeyError" "'ref'") end.

(** [delivery_request_id]. *)
Definition delivery_request_id (reference action address key : string) : string :=
  String.concat "-" (request_token <$> ["dispatcher"; "wait"; action; reference; address; key]).

(** [_outcome]. *)
Definition outcome (ref attempt_id action : string) (fields : Fields) : Fields :=
  [("status", VStr "ok"); ("step", VStr WAIT_STEP); ("pilot_ref", VStr ref); ("attempt_id", VStr attempt_id);
   ("action", VStr action)] ++ fields.

(** [_duration]. *)
Definition duration_text (secs : Z) : string :=
  if secs mod 60 =? 0 then pretty (secs / 60) +:+ "m" else pretty secs +:+ "s".

(** ** A card's blockers *)

Section blockers.
Context `{PyRepr}.

Definition is_wait (task : Fields) : bool := String.eqb (py_str_or (get task "type")) WAIT_KIND.

Definition blocker_refs (task : Fields) : list string := comma_parts (py_str_or (get task "blocked_by")).

(** A wait card that still waits. *)
Definition holds_back (blocker : Fields) : bool :=
  is_wait blocker && (equals (get blocker "state") "ready" || equals (get blocker "state") "in_progress").

(** ** A transition an audit event records ([board/audit_contract.py]) *)

Definition PROTOCOL_EVENT_RECORD_TYPE : string := "board.protocol_event".

Definition dict_or_empty (v : pyval) : Fields := match v with VDict d => d | _ => [] end.

Definition card_transition_of (event : Fields) : option (string * string) :=
  if equals (get event "record_type") PROTOCOL_EVENT_RECORD_TYPE then
    let typed := dict_or_empty (get event "transition") in
    let target := py_str_or (get typed "target") in
    if nonempty target then Some (py_str_or (get typed "source"), target) else None
  else if negb (String.eqb (py_str_or (get event "kind")) "moved")
          || negb (String.eqb (py_str_or (get event "outcome")) "success") then None
  else
    let payload := dict_or_empty (get event "payload") in
    let target := py_str_or (get payload "to") in
    if nonempty target then Some (py_str_or (get payload "from"), target) else None.

(** When the events say the card last moved into [column]. *)
Definition last_entered (events : list Fields) (column : string) : string :=
  foldl (λ entered event,
    match card_transition_of event with
    | Some (_, target) => if String.eqb target column then py_str_or (get event "occurred_at") else entered
    | None => entered
    end) "" events.
End blockers.

(** ** Candidates *)

Record Candidate := {
  cd_outcome : string;
  cd_fact : Fields;
  cd_summary : string;
  cd_evidence : string;
  cd_happened_at : string;      (** when the source itself says it happened *)
}.

(** What one observation came to: nothing yet, a terminal candidate, or the
    source's refusal or silence ([_Unreachable], [_Transient]). *)
Inductive Seen := StillPending | Terminal (c : Candidate) | Unreachable (message : string) | Transient (message : string).

Section freeze.
Context `{PyRepr, IsoTime, JsonText, !JsonStr}.

(** [_freeze]. *)
Definition frozen (c : Candidate) (now : Z) : Fields :=
  let result := [("outcome", VStr (cd_outcome c)); ("fact", VDict (cd_fact c)); ("summary", VStr (cd_summary c));
                 ("evidence", VStr (cd_evidence c)); ("frozen_at", VStr (utc_text now))] in
  result ++ [("key", VStr (result_key result))].

Definition freeze (state : WaitState) (c : Candidate) (now : Z) : WaitState := state <| ws_result := Some (frozen c now) |>.

(** [_not_after]; an exception other than the refusal leaves it. *)
Definition not_after (happened_at : string) (deadline : Z) : res bool :=
  if nonempty happened_at then
    t ← catch_spec (parse_utc happened_at "happened_at");
    Ok (match t with Some t => t <=? deadline | None => false end)
  else Ok false.

Definition deadline_candidate (state : WaitState) (spec : WaitSpec) (c : option Candidate) : Candidate :=
  let last := if nonempty (ws_observation state) then "; last observation: " +:+ ws_observation state else "" in
  let seen := match c with Some c => "; seen after it: " +:+ cd_summary c | None => "" end in
  {| cd_outcome := DEADLINE_PASSED;
     cd_fact := [("deadline", VStr (sp_deadline spec)); ("last_observation", VStr (ws_observation state));
                 ("last_error", VStr (ws_error state));
                 ("seen_after_deadline", VStr (match c with Some c => cd_outcome c | None => "" end))];
     cd_summary := "the deadline " +:+ sp_deadline spec +:+ " passed with no result" +:+ last +:+ seen;
     cd_evidence := link (sp_target spec);
     cd_happened_at := "" |}.

(** [_settle]: the one place a result is frozen and the deadline enforced. *)
Definition settle (state : WaitState) (spec : WaitSpec) (candidate : option Candidate) (now : Z) : res WaitState :=
  match ws_result state with
  | Some _ => Ok state
  | None =>
      deadline ← parse_utc (sp_deadline spec) "deadline";
      if now <? deadline then
        Ok (match candidate with Some c => freeze state c now | None => state end)
      else
        in_time ← (match candidate with
                   | Some c => if String.eqb (cd_outcome c) TARGET_REACHED then not_after (cd_happened_at c) deadline
                               else Ok false
                   | None => Ok false
                   end);
        Ok (match candidate, in_time with
            | Some c, true => freeze state c now
            | _, _ => freeze state (deadline_candidate state spec candidate) now
            end)
  end.

(** [_observed]: stamped when it was first seen. *)
Definition observed (state : WaitState) (text : string) (now : Z) : WaitState :=
  if String.eqb (ws_observation state) text then state
  else state <| ws_observation := text |> <| ws_observed_at := utc_text now |>.

(** [_classified]: definitive for 404, 410 and no access, transient otherwise. *)
Definition classified (path message : string) : Seen :=
  let code := default "" (http_status_search None message) in
  let limited := str_contains "rate limit" (str_lower message) in
  if bool_decide (code ∈ ["404"; "410"]) || (String.eqb code "403" && negb limited)
  then Unreachable ("GitHub answered GET " +:+ path +:+ " with HTTP " +:+ code +:+ ": " +:+ message)
  else Transient ("GitHub answered GET " +:+ path +:+ ": " +:+ message).

(** [_observe_time]. *)
Definition observe_time (spec : WaitSpec) (state : WaitState) (now : Z) : res (WaitState * Seen) :=
  let at_ := wt_at (sp_target spec) in
  moment ← parse_utc at_ "at";
  Ok (if now <? moment then (observed state ("waiting for " +:+ at_) now, StillPending)
      else (observed state (at_ +:+ " arrived") now,
            Terminal {| cd_outcome := TARGET_REACHED; cd_fact := [("at", VStr at_)];
                        cd_summary := "the time " +:+ at_ +:+ " arrived"; cd_evidence := ""; cd_happened_at := at_ |})).

Definition run_path (t : WaitTarget) : string := "repos/" +:+ wt_repo t +:+ "/actions/runs/" +:+ pretty (wt_run_id t).
Definition run_name (t : WaitTarget) : string := wt_repo t +:+ "#" +:+ pretty (wt_run_id t).

(** [_observe_run] after the one read. *)
Definition observe_run (spec : WaitSpec) (state : WaitState) (now : Z) (answer : GhAnswer) : res (WaitState * Seen) :=
  let t := sp_target spec in
  match answer with
  | GhRaise e => Raise e
  | GhTransport message => Ok (state, Transient ("GitHub did not answer GET " +:+ run_path t +:+ ": " +:+ message))
  | GhRefused message => Ok (state, classified (run_path t) message)
  | GhValue v =>
      match v with
      | VDict run =>
          if py_truthy (get run "status") then
            let status := py_str_or (get run "status") in
            let conclusion := py_str_or (get run "conclusion") in
            if negb (String.eqb status RUN_COMPLETED)
            then Ok (observed state ("run " +:+ run_name t +:+ " is " +:+ status) now, StillPending)
            else
              let html_url := if py_truthy (get run "html_url") then py_str (get run "html_url") else link t in
              let updated_at := py_str_or (get run "updated_at") in
              let fact := [("status", VStr status); ("conclusion", VStr conclusion); ("html_url", VStr html_url);
                           ("created_at", VStr (py_str_or (get run "created_at")));
                           ("run_started_at", VStr (py_str_or (get run "run_started_at")));
                           ("updated_at", VStr updated_at)] in
              let summary := "run " +:+ run_name t +:+ " concluded " +:+ first_text conclusion "with no conclusion" in
              Ok (observed state summary now,
                  Terminal {| cd_outcome := TARGET_REACHED; cd_fact := fact; cd_summary := summary;
                              cd_evidence := html_url; cd_happened_at := updated_at |})
          else Ok (state, Transient ("GitHub answered GET " +:+ run_path t +:+ " with no run status"))
      | _ => Ok (state, Transient ("GitHub answered GET " +:+ run_path t +:+ " with no run status"))
      end
  end.
End freeze.

(** ** Texts *)

Section texts.
Context `{PyRepr}.

Definition newlines (lines : list string) : string := String.concat (String NEWLINE "") lines.

(** [_result_lines]. *)
Definition result_lines (spec : WaitSpec) (result : Fields) : list string :=
  let fact := dict_or_empty (get result "fact") in
  ["Target: " +:+ describe (sp_target spec);
   "Outcome: " +:+ py_str (get result "outcome");
   "Result: " +:+ py_str_or (get result "summary")]
  ++ (if String.eqb (wt_kind (sp_target spec)) TARGET_RUN && equals (get result "outcome") TARGET_REACHED then
        ["Conclusion: " +:+ (if py_truthy (get fact "conclusion") then py_str (get fact "conclusion") else "none")]
        ++ mjoin ((λ name, if py_truthy (get fact name) then [name +:+ ": " +:+ py_str (get fact name)] else [])
                  <$> ["created_at"; "run_started_at"; "updated_at"])
      else [])
  ++ (if py_truthy (get result "evidence") then ["Evidence: " +:+ py_str (get result "evidence")] else []).

Definition render_po_input (reference : string) (spec : WaitSpec) (result : Fields) : string :=
  rstrip_by is_space (newlines (
    ["Wait card " +:+ reference +:+ " ended: " +:+ py_str (get result "outcome")
       +:+ ". You named this session as a return address.";
     ""; "Card: " +:+ reference]
    ++ result_lines spec result
    ++ [""; "Nothing else is sent for this wait. Decide what follows from it in this turn, or cut a card for it."]))
  +:+ String NEWLINE "".

Definition evidence_line (result : Fields) : list string :=
  if py_truthy (get result "evidence") then ["Evidence: " +:+ py_str (get result "evidence")] else [].

Definition render_dependent_comment (reference : string) (result : Fields) : string :=
  let outcome := py_str_or (get result "outcome") in
  let follows := if String.eqb outcome TARGET_REACHED then "This card is claimable now."
                 else "This card is Blocked with that outcome as its reason." in
  newlines (["[wait:" +:+ outcome +:+ "] " +:+ reference; "";
             "The wait card this card is blocked by ended " +:+ outcome +:+ ": " +:+ py_str_or (get result "summary")]
            ++ evidence_line result ++ [""; follows]) +:+ String NEWLINE "".

Definition render_card_comment (reference : string) (result : Fields) : string :=
  let outcome := py_str (get result "outcome") in
  newlines (["[wait:" +:+ outcome +:+ "] " +:+ reference; "";
             "The wait card " +:+ reference +:+ " this card named as its e2e wait ended " +:+ outcome +:+ ": "
               +:+ py_str_or (get result "summary")]
            ++ evidence_line result ++ [""; "The dispatcher's e2e stage acts on this result on this card."])
  +:+ String NEWLINE "".

(** One address of the completion comment. *)
Definition delivered_line (state : WaitState) (address : string) : string :=
  if String.eqb address OBSERVER then "- " +:+ address +:+ ": this comment and the card's terminal column"
  else
    let record := default [] (dict_get (ws_deliveries state) address) in
    let field key := default "" (dict_get record key) in
    let taken := if nonempty (field "session") then ", taken by PO session " +:+ field "session" else "" in
    "- " +:+ address +:+ ": " +:+ first_text (field "status") "pending" +:+ " (" +:+ field "detail" +:+ taken +:+ ")".

Definition render_outcome_record (spec : WaitSpec) (state : WaitState) : string :=
  let result := default [] (ws_result state) in
  rstrip_by is_space (newlines (
    ["[wait:" +:+ py_str (get result "outcome") +:+ "]"; ""] ++ result_lines spec result ++ [""; "Delivered:"]
    ++ (delivered_line state <$> sp_returns spec))) +:+ String NEWLINE "".

(** [card_facts] of a wait's outcome ([board/production_rights.py]). *)
Definition card_facts (ref sprint : string) : Fields :=
  [("card_ref", VStr ref); ("kind", VStr WAIT_KIND); ("touches_production", VNone); ("sprint_ref", VStr sprint);
   ("input", VStr WAIT_OUTCOME_INPUT)].

(** ** Identifiers of the claim ([dispatch/helpers.py], [dispatch/state.py]) *)

Definition slug_char (c : ascii) : bool := lower_alnum c.

(** [re.sub("[^a-z0-9]+", "-", s)]. *)
Fixpoint slug_runs (gap : bool) (s : string) : string :=
  match s with
  | "" => ""
  | String c s' => if slug_char c then String c (slug_runs false s')
                   else if gap then slug_runs true s' else String "-" (slug_runs true s')
  end.

Definition slug (value : string) : string :=
  first_text (str_take 30 (str_strip_chars "-" (slug_runs false (str_lower value)))) "task".

(** [_worker_id]. *)
Definition worker_id (task : Fields) (ref : string) : res string :=
  workspace ← (match dict_get task "workspace" with
               | Some (VDict d) => Ok d
               | Some _ => Raise (Exn "AttributeError" "get")
               | None => Ok []
               end);
  name ← (if py_truthy (get workspace "slug") then Ok (py_str (get workspace "slug"))
          else if py_truthy (get task "title")
          then match get task "title" with VStr t => Ok (slug t) | _ => Raise (Exn "AttributeError" "lower") end
          else Ok (slug ref));
  Ok (str_strip_chars "-" (str_take 80 (ref +:+ "-" +:+ name))).

(** [record_attempt]. *)
Definition record_attempt (payload : Fields) (attempt_id reference actor owner now : string) : Fields :=
  let attempts := match get payload "attempts" with VList l => l | _ => [] end in
  let payload := dict_set payload "attempts" (VList attempts) in
  if existsb (λ a, match a with VDict d => equals (get d "attempt_id") attempt_id | _ => false end) attempts then payload
  else dict_set payload "attempts" (VList (attempts ++ [texts [("attempt_id", attempt_id); ("pilot_ref", reference);
         ("owner", owner); ("started_at", now); ("started_by", actor)]])).

(** [normalize_terminal_taxonomy(disposition="blocked", blocked_reason="other").to_record()]. *)
Definition blocked_taxonomy : res Fields :=
  to_record <$> normalize_terminal_taxonomy val_repr (VStr "blocked") (VStr "other").
End texts.

Section tick.
Context `{PyRepr, IsoTime, JsonText, !JsonStr} (W : World) (owner : string).

(** A board call whose [TaskError] nobody catches here. *)
Definition unless_fault {A} (answer : A + Fault) : TM A :=
  match answer with inl a => mret a | inr f => raise (fault_exn f) end.

Definition no_fault (answer : option Fault) : TM unit :=
  match answer with None => mret tt | Some f => raise (fault_exn f) end.

(** [pending_wait_blockers]: one read of each blocker the cache does not hold. *)
Fixpoint pending_blockers (refs : list string) (cache : list (string * option Fields)) :
    TM (list string * list (string * option Fields)) :=
  match refs with
  | [] => mret ([], cache)
  | ref :: refs' =>
      held ← (match dict_get cache ref with
              | Some blocker => mret (blocker, cache)
              | None =>
                  answer ← call (λ n, w_show W n ref);
                  match answer with
                  | inl blocker => mret (Some blocker, dict_set cache ref (Some blocker))
                  | inr (TaskFault _ _) => mret (None, dict_set cache ref None)
                  | inr (OtherFault e) => raise e
                  end
              end);
      rest ← pending_blockers refs' held.2;
      mret (match held.1 with
            | Some blocker => if holds_back blocker then (ref :: rest.1, rest.2) else rest
            | None => rest
            end)
  end.

Definition pending_wait_blockers (task : Fields) (cache : list (string * option Fields)) : TM (list string * list (string * option Fields)) :=
  pending_blockers (blocker_refs task) cache.

(** [_record]. *)
Definition record (ref : string) : TM unit :=
  state ← wait;
  answer ← call (w_record W);
  match answer with
  | Took => emit (EvRecorded state)
  | Failed applied f => (if applied : bool then emit (EvRecorded state) else mret tt) ≫= λ _, raise (fault_exn f)
  end.

Definition move (ref target reason request_id : string) (taxonomy : option Fields) (outcome : option string) :
    TM (option Fault) :=
  emit (EvMove ref target reason request_id taxonomy outcome) ≫= λ _, call (w_move W).

Definition comment (ref body request_id : string) : TM (option Fault) :=
  emit (EvComment ref body request_id) ≫= λ _, call (w_comment W).

(** ** Observation *)

(** [_entered_at]. *)
Definition entered_at (reference column : string) : TM string :=
  answer ← call (λ n, w_events W n reference);
  match answer with
  | inl events => mret (last_entered events column)
  | inr (TaskFault _ _) => mret ""
  | inr (OtherFault e) => raise e
  end.

(** [_observe_card]. *)
Definition observe_card (spec : WaitSpec) (now : Z) : TM Seen :=
  let ref := wt_ref (sp_target spec) in
  answer ← call (λ n, w_show W n ref);
  match answer with
  | inr (OtherFault e) => raise e
  | inr (TaskFault code message) =>
      mret (if String.eqb code "not_found" then Unreachable ("card " +:+ ref +:+ " does not exist")
            else Transient ("card " +:+ ref +:+ " could not be read: " +:+ message))
  | inl card =>
      let column := py_str_or (get card "state") in
      if negb (bool_decide (column ∈ wt_states (sp_target spec))) then
        on_wait (λ s, observed s (ref +:+ " is " +:+ column) now) ≫= λ _, mret StillPending
      else
        let summary := ref +:+ " reached " +:+ column in
        on_wait (λ s, observed s summary now) ≫= λ _,
        entered ← entered_at ref column;
        mret (Terminal {| cd_outcome := TARGET_REACHED;
                          cd_fact := [("ref", VStr ref); ("state", VStr column); ("entered_at", VStr entered)];
                          cd_summary := summary; cd_evidence := ""; cd_happened_at := entered |})
  end.

(** A step that reads and replaces the state. *)
Definition through (f : WaitState → res (WaitState * Seen)) : TM Seen :=
  state ← wait; next ← lift (f state); on_wait (λ _, next.1) ≫= λ _, mret next.2.

Definition see (spec : WaitSpec) (now : Z) : TM Seen :=
  if String.eqb (wt_kind (sp_target spec)) TARGET_RUN then
    ran ← call (w_gh W); through (λ state, observe_run spec state now (gh_api ran))
  else if String.eqb (wt_kind (sp_target spec)) TARGET_CARD then observe_card spec now
  else through (λ state, observe_time spec state now).

(** What a silent source leaves: the error, and the end of its window. *)
Definition note_error (state : WaitState) (text : string) (now : Z) : WaitState :=
  let state := if nonempty (ws_error_since state) then state else state <| ws_error_since := utc_text now |> in
  if String.eqb (ws_error state) text then state else state <| ws_error := text |> <| ws_error_at := utc_text now |>.

Definition clear_error (state : WaitState) : WaitState :=
  state <| ws_error := "" |> <| ws_error_since := "" |> <| ws_error_at := "" |>.

Definition window_end (state : WaitState) (spec : WaitSpec) : res Z :=
  since ← parse_utc (ws_error_since state) "error_since";
  window ← timedelta 0 0 0 (sp_window spec);
  add_duration since window.

Definition cancel_candidate (c : Cancel) : Candidate :=
  {| cd_outcome := CANCELLED;
     cd_fact := [("cancelled_at", VStr (ca_at c)); ("by", VStr (ca_by c)); ("role", VStr (ca_role c));
                 ("reason", VStr (ca_reason c))];
     cd_summary := "cancelled by " +:+ ca_role c +:+ " " +:+ ca_by c +:+ " at " +:+ ca_at c +:+ ": " +:+ ca_reason c;
     cd_evidence := ""; cd_happened_at := "" |}.

Definition unreachable_candidate (spec : WaitSpec) (message : string) : Candidate :=
  {| cd_outcome := SOURCE_UNREACHABLE; cd_fact := [("error", VStr message)];
     cd_summary := "the source is unreachable: " +:+ message; cd_evidence := link (sp_target spec); cd_happened_at := "" |}.

Definition silent_candidate (spec : WaitSpec) (state : WaitState) (text : string) : Candidate :=
  {| cd_outcome := SOURCE_UNREACHABLE;
     cd_fact := [("error", VStr text); ("since", VStr (ws_error_since state)); ("window_seconds", VInt (sp_window spec))];
     cd_summary := "the source did not answer from " +:+ ws_error_since state +:+ " for "
                   +:+ duration_text (sp_window spec) +:+ ": " +:+ text;
     cd_evidence := link (sp_target spec); cd_happened_at := "" |}.

(** [_look]. *)
Definition look (task : Fields) (spec : WaitSpec) (now : Z) : TM (option Candidate) :=
  match wait_cancel task with
  | Some c => mret (Some (cancel_candidate c))
  | None =>
      seen ← see spec now;
      match seen with
      | Unreachable message => mret (Some (unreachable_candidate spec message))
      | Transient message =>
          let text := str_take 500 message in
          on_wait (λ s, note_error s text now) ≫= λ _,
          state ← wait;
          ends ← lift (window_end state spec);
          mret (if now <? ends then None else Some (silent_candidate spec state text))
      | StillPending => on_wait clear_error ≫= λ _, mret None
      | Terminal c => on_wait clear_error ≫= λ _, mret (Some c)
      end
  end.

(** [_observe]. *)
Definition observe (task : Fields) (spec : WaitSpec) (now : Z) : TM unit :=
  candidate ← look task spec now;
  state ← wait;
  state' ← lift (settle state spec candidate now);
  on_wait (λ _, state').

(** ** Delivery to a PO session *)

Definition is_store_error (f : PoFault) : bool :=
  match f with SessionClosed _ | SessionNotFound _ | RequestConflict _ | PoStoreError _ _ => true | _ => false end.

Definition is_po_error (f : PoFault) : bool := match f with PoRaise _ => false | _ => true end.
Definition po_exn (f : PoFault) : exn := Exn (po_name f) (po_message f).

(** [already_submitted], as to whether it answers with something. *)
Definition already_submitted (request_id session_id : string) : TM bool :=
  known ← call (λ n, w_request W n request_id);
  match known with
  | inr f => if is_store_error f then mret false else raise (po_exn f)
  | inl (Some _) => mret true
  | inl None =>
      queued ← call (λ n, w_queued W n request_id);
      match queued with
      | inr f => if is_store_error f then mret false else raise (po_exn f)
      | inl q => mret (bool_decide (q = Some session_id))
      end
  end.

(** [is_sprint_session]; a [TaskError] is its message. *)
Definition is_sprint_session (sprint_ref session_id : string) : TM (bool + string) :=
  if negb (nonempty sprint_ref) then mret (inl false)
  else
    answer ← call (λ n, w_sprint W n sprint_ref);
    match answer with
    | inl sprint => mret (inl (equals (get sprint "status") "open"
                               && String.eqb (py_str_or (get sprint "po_session")) session_id))
    | inr (TaskFault _ message) => mret (inr message)
    | inr (OtherFault e) => raise e
    end.

(** The successor record of an address; [setdefault] has put one there. *)
Definition succession (state : WaitState) (address : string) : list (string * string) :=
  default [] (dict_get (ws_successors state) address).

Definition set_succession (address : string) (r : list (string * string)) : TM unit :=
  on_wait (λ s, s <| ws_successors := dict_set (ws_successors s) address r |>).

(** The service's answer to the request for a successor, or why there is none yet. *)
Definition ask_successor (sprint_ref closed via request_id : string) : TM (Fields + string) :=
  let not_open f := "the successor of closed PO session " +:+ closed +:+ " is not open yet: " +:+ po_name f +:+ ": "
                    +:+ po_message f in
  let answered (a : Fields + PoFault) : TM (Fields + string) := match a with
    | inl d => mret (inl d)
    | inr f => if is_po_error f then mret (inr (not_open f)) else raise (po_exn f)
    end in
  if String.eqb via SPRINT_ROUTE then
    emit (EvSprintSession sprint_ref request_id) ≫= λ _, a ← call (w_sprint_session W); answered a
  else
    choice ← call (λ n, w_choice W n closed);
    match choice with
    | inr f => if is_po_error f then mret (inr (not_open f)) else raise (po_exn f)
    | inl None => mret (inr ("PO session " +:+ closed +:+ " is closed and this installation offers no model for a successor"))
    | inl (Some (cli, model, effort)) =>
        emit (EvCreateSession cli model effort request_id) ≫= λ _, a ← call (w_create W); answered a
    end.

(** [open_successor] on the record of [address]: the session, or why not. *)
Definition open_successor (ref sprint_ref address closed request_id : string) : TM (string + string) :=
  state ← wait;
  routed ← (if bool_decide (dict_get (succession state address) "replaces" = Some closed) then mret (inl tt)
            else
              own ← is_sprint_session sprint_ref closed;
              match own with
              | inr message => mret (inr ("the sprint of " +:+ ref +:+ " cannot be read to route the successor of "
                                          +:+ closed +:+ ": " +:+ message))
              | inl own =>
                  set_succession address [("replaces", closed); ("via", if own : bool then SPRINT_ROUTE else CREATE_ROUTE);
                                          ("session", "")] ≫= λ _,
                  record ref ≫= λ _, mret (inl tt)
              end);
  match routed with
  | inr why => mret (inr why)
  | inl _ =>
      state ← wait;
      let r := succession state address in
      via ← lift (match dict_get r "via" with Some v => Ok v | None => Raise (Exn "KeyError" "'via'") end);
      answer ← ask_successor sprint_ref closed via request_id;
      match answer with
      | inr why => mret (inr why)
      | inl d =>
          let session := py_str_or (get d "session_id") in
          if negb (nonempty session) then mret (inr ("the PO service named no successor of " +:+ closed))
          else set_succession address (dict_set r "session" session) ≫= λ _, record ref ≫= λ _, mret (inl session)
      end
  end.

(** [_successor]. *)
Definition successor (ref sprint_ref address closed key : string) : TM (string + string) :=
  state ← wait;
  (if dict_has (ws_successors state) address then mret tt else set_succession address []) ≫= λ _,
  answer ← open_successor ref sprint_ref address closed (delivery_request_id ref PO_SUCCESSOR closed key);
  state ← wait;
  (match succession state address with
   | [] => on_wait (λ s, s <| ws_successors := dict_del (ws_successors s) address |>)
   | _ => mret tt
   end) ≫= λ _, mret answer.

(** What a delivery came to: the receiving side took it, with the session that
    did, or it is put off to the next tick. *)
Inductive Delivery := Taken (detail received : string) | Postponed (why : string).

(** [deliver], with [n] submissions left. *)
Fixpoint deliver (n : nat) (session_id text request_id : string) (card : Fields)
    (next : string → TM (string + string)) : TM Delivery :=
  match n with
  | O => mret (Postponed ("every successor of the session opened this tick was closed again (last " +:+ session_id +:+ ")"))
  | S n' =>
      emit (EvSubmit session_id text request_id card) ≫= λ _,
      answer ← call (w_submit W);
      match answer with
      | None => mret (Taken request_id session_id)
      | Some (SessionClosed _ | SessionNotFound _) =>
          following ← next session_id;
          match following with
          | inr why => mret (Postponed why)
          | inl session => deliver n' session text request_id card next
          end
      | Some (RequestConflict message) =>
          ours ← already_submitted request_id session_id;
          mret (if ours : bool then Taken request_id session_id
                else Postponed ("request id " +:+ request_id +:+ " is bound to another input: " +:+ message))
      | Some (ServiceRefused code message) =>
          mret (Postponed ("the PO service refused it (" +:+ code +:+ "): " +:+ message))
      | Some ((PoServiceError _ _ | PoStoreError _ _) as f) => mret (Postponed (po_name f +:+ ": " +:+ po_message f))
      | Some (PoRaise e) => raise e
      end
  end.

Definition result_key_of (result : Fields) : string := py_str_or (get result "key").

(** [_deliver_po]. *)
Definition deliver_po (ref sprint_ref : string) (spec : WaitSpec) (address : string) : TM Delivery :=
  state ← wait;
  let result := default [] (ws_result state) in
  let key := result_key_of result in
  let session_id := first_text (default "" (dict_get (succession state address) "session")) (after PO_SESSION_PREFIX address) in
  deliver (SUCCESSORS_PER_TICK + 1) session_id (render_po_input ref spec result)
    (delivery_request_id ref PO_DELIVERY address key) (card_facts ref sprint_ref)
    (λ closed, successor ref sprint_ref address closed key).

(** ** Delivery on the board *)

(** [sorted(dependents, key=lambda card: str(card.get("ref") or ""))]. *)
Definition sort_cards (cards : list Fields) : list Fields :=
  (sort_items ((λ c, (py_str_or (get c "ref"), c)) <$> cards)).*2.

(** The comment and the move of each dependent; the first [TaskError] ends it. *)
Fixpoint tell_dependents (ref key outcome : string) (result : Fields) (cards : list Fields) :
    TM (option (string * string)) :=
  match cards with
  | [] => mret None
  | dependent :: rest =>
      other ← lift (ref_of dependent);
      commented ← comment other (render_dependent_comment ref result) (delivery_request_id ref DEPENDENT_COMMENT other key);
      match commented with
      | Some (OtherFault e) => raise e
      | Some (TaskFault code message) => mret (Some (code, message))
      | None =>
          moved ← (if negb (String.eqb outcome TARGET_REACHED) && equals (get dependent "state") "ready" then
                     taxonomy ← lift blocked_taxonomy;
                     move other "blocked" ("blocked by wait card " +:+ ref +:+ ", which ended " +:+ outcome +:+ ": "
                                           +:+ py_str_or (get result "summary"))
                       (delivery_request_id ref DEPENDENT_BLOCKED other key) (Some taxonomy) (Some outcome)
                   else mret None);
          match moved with
          | Some (OtherFault e) => raise e
          | Some (TaskFault code message) => mret (Some (code, message))
          | None => tell_dependents ref key outcome result rest
          end
      end
  end.

(** The cards held by [ref]. *)
Definition dependents_of (ref : string) (cards : list Fields) : list Fields :=
  filter (λ card, ref ∈ blocker_refs card ∧ equals (get card "ref") ref = false) cards.

(** [_deliver_dependents]. *)
Definition deliver_dependents (ref : string) (result : Fields) : TM Delivery :=
  answer ← call (w_list W);
  match answer with
  | inr (OtherFault e) => raise e
  | inr (TaskFault code message) => mret (Postponed (code +:+ ": " +:+ message))
  | inl cards =>
      let dependents := dependents_of ref cards in
      failed ← tell_dependents ref (result_key_of result) (py_str_or (get result "outcome")) result (sort_cards dependents);
      match failed with
      | Some (code, message) => mret (Postponed (code +:+ ": " +:+ message))
      | None =>
          names ← lift (foldM (λ names card, name ← ref_of card; Ok (names ++ [name])) [] dependents);
          mret (Taken (first_text (String.concat ", " names) "(none)") "")
      end
  end.

(** [_deliver_card]. *)
Definition deliver_card (ref address : string) (result : Fields) : TM Delivery :=
  let other := returned_card address in
  commented ← comment other (render_card_comment ref result) (delivery_request_id ref CARD_COMMENT address (result_key_of result));
  match commented with
  | None => mret (Taken other "")
  | Some (TaskFault code message) =>
      mret (if String.eqb code "not_found" then Taken (other +:+ " does not exist; nothing took the result") ""
            else Postponed (code +:+ ": " +:+ message))
  | Some (OtherFault e) => raise e
  end.

(** One address of [_deliver]. *)
Definition deliver_to (ref sprint_ref : string) (spec : WaitSpec) (result : Fields) (address : string) : TM Delivery :=
  if String.eqb address DEPENDENTS then deliver_dependents ref result
  else if nonempty (returned_card address) then deliver_card ref address result
  else deliver_po ref sprint_ref spec address.

Definition delivery_record (at_ detail received : string) : list (string * string) :=
  [("status", ACCEPTED); ("at", at_); ("detail", detail)] ++ (if nonempty received then [("session", received)] else []).

(** The addresses in turn; what is put off is told apart. *)
Fixpoint deliver_all (ref sprint_ref : string) (spec : WaitSpec) (result : Fields) (addresses : list string) : TM (list string) :=
  match addresses with
  | [] => mret []
  | address :: rest =>
      d ← deliver_to ref sprint_ref spec result address;
      match d with
      | Postponed why => postponed ← deliver_all ref sprint_ref spec result rest; mret ((address +:+ ": " +:+ why) :: postponed)
      | Taken detail received =>
          now ← call (w_clock W);
          on_wait (λ s, s <| ws_deliveries := dict_set (ws_deliveries s) address
                              (delivery_record (utc_text now) detail received) |>) ≫= λ _,
          record ref ≫= λ _,
          deliver_all ref sprint_ref spec result rest
      end
  end.

(** The terminal move of [_deliver]. *)
Definition finish (ref attempt_id : string) (spec : WaitSpec) (result : Fields) : TM Fields :=
  let ended := py_str_or (get result "outcome") in
  let reached := String.eqb ended TARGET_REACHED in
  state ← wait;
  taxonomy ← (if reached then mret None else t ← lift blocked_taxonomy; mret (Some t));
  moved ← move ref (if reached then "done" else "blocked") (render_outcome_record spec state)
            (delivery_request_id ref TERMINAL_MOVE OBSERVER (result_key_of result)) taxonomy (Some ended);
  no_fault moved ≫= λ _,
  mret (outcome ref attempt_id (if reached then "wait-target-reached" else "wait-ended")
          [("outcome", VStr ended); ("summary", get result "summary"); ("state", VStr (if reached then "done" else "blocked"))]).

(** [_deliver]. *)
Definition deliver_result (ref sprint_ref attempt_id : string) (spec : WaitSpec) : TM Fields :=
  state ← wait;
  let result := default [] (ws_result state) in
  postponed ← deliver_all ref sprint_ref spec result (pending_addresses spec state);
  match postponed with
  | [] => finish ref attempt_id spec result
  | _ =>
      mret (dict_set (dict_set (outcome ref attempt_id "wait-delivery-postponed"
              [("outcome", get result "outcome"); ("postponed", VList (VStr <$> postponed))])
              "status" (VStr "degraded"))
              "reason" (VStr ("a return address did not take the wait's result; it is repeated next tick under the same "
                              +:+ "key: " +:+ String.concat "; " postponed)))
  end.

(** ** The tick *)

(** A card in In progress whose spec is not well formed. *)
Definition block_malformed (ref attempt_id : string) : TM Fields :=
  let reason := "the wait card carries no well-formed wait spec, so there is nothing to wait for" in
  taxonomy ← lift blocked_taxonomy;
  moved ← move ref "blocked" reason (attempt_request_id attempt_id WAIT_MALFORMED_ACTION ref "") (Some taxonomy) None;
  no_fault moved ≫= λ _,
  mret (dict_set (outcome ref attempt_id WAIT_MALFORMED_ACTION [("reason", VStr reason)]) "status" (VStr "blocked")).

(** The part of [advance_wait_card] for a card with its spec. *)
Definition advance_waiting (ref attempt_id : string) (task : Fields) (spec : WaitSpec) : TM Fields :=
  now ← call (w_clock W);
  let known := wait_state task in
  on_wait (λ _, state_from_json (VDict (state_to_json known))) ≫= λ _,
  on_wait (λ s, if nonempty (ws_since s) then s else s <| ws_since := utc_text now |>) ≫= λ _,
  state ← wait;
  (if bool_decide (ws_result state = None) then observe task spec now else mret tt) ≫= λ _,
  state ← wait;
  (if String.eqb (state_text state) (state_text known) then mret tt else record ref) ≫= λ _,
  match ws_result state with
  | None => mret (outcome ref attempt_id "wait-waiting" [("observation", VStr (ws_observation state));
                    ("error", VStr (ws_error state)); ("deadline", VStr (sp_deadline spec))])
  | Some _ => deliver_result ref (py_str_or (get task "sprint")) attempt_id spec
  end.

(** [claim_wait_card] up to the read of the claimed card: the attempt it runs under. *)
Definition claim (ref attempt_id : string) (task : Fields) : TM string :=
  let claim_id := attempt_request_id attempt_id "claim" ref "" in
  committed ← call (λ n, w_committed W n claim_id);
  committed ← (match committed with inl b => mret b | inr e => raise e end);
  attempt_id ← (if committed : bool then
                  fresh ← call (w_new_attempt W);
                  stamp ← call (w_rfc3339 W);
                  on_tick (λ t, t <| tk_payload := dict_set (record_attempt (tk_payload t) fresh ref owner owner stamp)
                                                     "attempt_id" (VStr fresh) |>) ≫= λ _, mret fresh
                else mret attempt_id);
  worker ← lift (worker_id task ref);
  emit (EvClaim worker (attempt_request_id attempt_id "claim" ref "")) ≫= λ _,
  answer ← call (w_claim W);
  no_fault answer ≫= λ _, mret attempt_id.

(** [advance_wait_card] of a card that is not in Ready. *)
Definition advance_claimed (ref : string) (task : Fields) (attempt_id : string) : TM Fields :=
  let column := py_str_or (get task "state") in
  held ← dispatcher_records;
  (if bool_decide (ref ∈ held) then
     on_tick (λ t, t <| tk_records := filter (λ r, r ≠ ref) (tk_records t) |>) ≫= λ _,
     emit EvSavedRecords ≫= λ _,
     answer ← call (w_save_records W);
     match answer with None => mret tt | Some e => raise e end
   else mret tt) ≫= λ _,
  if negb (String.eqb column "in_progress") then
    view ← lift (wait_view task);
    mret (outcome ref attempt_id "wait-closed" [("state", VStr column); ("wait", view)])
  else
    spec ← lift (wait_spec task);
    match spec with
    | None => block_malformed ref attempt_id
    | Some spec => advance_waiting ref attempt_id task spec
    end.

(** [advance_wait_card]; [depth] is what the interpreter's stack still holds of
    its mutual recursion with [claim_wait_card]. *)
Fixpoint advance_wait_card (depth : nat) (task : Fields) (attempt_id : string) : TM Fields :=
  ref ← lift (ref_of task);
  if String.eqb (py_str_or (get task "state")) "ready" then
    attempt_id ← claim ref attempt_id task;
    shown ← call (λ n, w_show W n ref);
    task' ← unless_fault shown;
    match depth with
    | O => raise (Exn "RecursionError" "maximum recursion depth exceeded")
    | S d => advance_wait_card d task' attempt_id
    end
  else advance_claimed ref task attempt_id.
End tick.
