(* ===== verification/WaitCardsFacts.v ===== *)
(** * What one tick of a wait card may ask for

    A monitor that knows what the card holds: from it follow the order of
    freezing, delivering and moving, and that every delivery is of the result
    on the card.  Each operation of the tick keeps it. *)

From Stdlib Require Import Ascii.
From S2P Require Import Prelude PyText Program RequestIds JsonText Sha256 IsoTime PyStrings Board TerminalTaxonomy.
From S2P Require Import WaitCard WaitCardFacts GateBackend WaitCards.

(** ** Results that say the same *)

Definition fact (r : Fields) : Fields := dict_or_empty (get r "fact").

(** Up to the order of the keys. *)
Definition same (r r' : Fields) : Prop :=
  (∀ k, k ≠ "fact" → get r k = get r' k) ∧ (∀ k, get (fact r) k = get (fact r') k).

#[global] Instance same_equivalence : Equivalence same.
Proof.
  split.
  - by intros r.
  - intros r r' [H1 H2]. split; intros; symmetry; auto.
  - intros r1 r2 r3 [H1 H2] [H3 H4]. split; intros; [rewrite H1 by done; auto|rewrite H2; auto].
Qed.

Lemma same_sorted r : result_ok r → same r (sorted_items r).
Proof.
  intros [_ _ Hp [Hr (f & Ef & Hf & Hs)]]. pose proof (proj1 (proj1 (printable_dict r) Hp)) as Hw.
  split; [intros k Hk; by rewrite get_sorted, Hr|]. intros k. unfold fact. rewrite get_sorted, Ef by done. cbn [sorted dict_or_empty].
  fold (sorted_items f). by rewrite get_sorted.
Qed.

Lemma same_of_sorted r r' : result_ok r → result_ok r' → sorted_items r = sorted_items r' → same r r'.
Proof. intros Hr Hr' E. rewrite (same_sorted r Hr), (same_sorted r' Hr'), E. done. Qed.

Section render.
Context `{PyRepr}.

Lemma same_key r r' : same r r' → result_key_of r = result_key_of r'.
Proof. intros [Hr _]. unfold result_key_of. by rewrite Hr. Qed.

Lemma same_lines spec r r' : same r r' → result_lines spec r = result_lines spec r'.
Proof.
  intros [Hr Hf]. unfold result_lines. fold (fact r) (fact r'). rewrite !(Hr "outcome"), !(Hr "summary"), !(Hr "evidence") by done.
  cbn [fmap list_fmap]. by rewrite !Hf.
Qed.

(** The same result always renders the same. *)
Lemma same_input ref spec r r' : same r r' → render_po_input ref spec r = render_po_input ref spec r'.
Proof. intros Hs. unfold render_po_input. rewrite (same_lines spec r r' Hs). by rewrite (proj1 Hs "outcome"). Qed.

Lemma same_dependent ref r r' : same r r' → render_dependent_comment ref r = render_dependent_comment ref r'.
Proof.
  intros [Hr _]. unfold render_dependent_comment, evidence_line.
  by rewrite !(Hr "outcome"), !(Hr "summary"), !(Hr "evidence").
Qed.

Lemma same_card ref r r' : same r r' → render_card_comment ref r = render_card_comment ref r'.
Proof.
  intros [Hr _]. unfold render_card_comment, evidence_line.
  by rewrite !(Hr "outcome"), !(Hr "summary"), !(Hr "evidence").
Qed.
End render.

(** ** The monitor *)

(** What the card's [wait_state] holds after an event. *)
Definition on_card (k : option WaitState) (e : Event) : option WaitState :=
  match e with EvRecorded s => Some s | _ => k end.

Definition card_result (k : option WaitState) : option Fields := k ≫= ws_result.
Definition card_deliveries (k : option WaitState) : list (string * list (string * string)) := from_option ws_deliveries [] k.

Section monitor.
Context `{PyRepr, IsoTime, JsonText, !JsonStr} (ref : string) (spec : WaitSpec).

(** The card says that the result of [address] is still to be delivered. *)
Definition owed (k : option WaitState) (address : string) : Prop :=
  address ∈ sp_returns spec ∧ address ≠ OBSERVER ∧ dict_has (card_deliveries k) address = false.

(** Every address but the observer took it. *)
Definition settled (k : option WaitState) : Prop :=
  ∀ address, address ∈ sp_returns spec → address ≠ OBSERVER → dict_has (card_deliveries k) address = true.

Definition ended (r : Fields) : string := py_str_or (get r "outcome").

(** What may be asked for when the card holds [k]. *)
Definition proper (k : option WaitState) (e : Event) : Prop :=
  match e with
  | EvClaim _ _ | EvSavedRecords => True
  | EvRecorded s =>
      state_ok s ∧ (∀ r, card_result k = Some r → ∃ r', ws_result s = Some r' ∧ same r r') ∧
      (∀ a, dict_has (card_deliveries k) a = true → dict_has (ws_deliveries s) a = true)
  | EvSubmit _ text request_id _ =>
      ∃ r a, card_result k = Some r ∧ owed k a ∧ text = render_po_input ref spec r ∧
             request_id = delivery_request_id ref PO_DELIVERY a (result_key_of r)
  | EvSprintSession _ request_id | EvCreateSession _ _ _ request_id =>
      ∃ r closed, card_result k = Some r ∧ request_id = delivery_request_id ref PO_SUCCESSOR closed (result_key_of r)
  | EvComment other body request_id =>
      ∃ r, card_result k = Some r ∧
        ((∃ a, owed k a ∧ other = returned_card a ∧ body = render_card_comment ref r ∧
               request_id = delivery_request_id ref CARD_COMMENT a (result_key_of r)) ∨
         (owed k DEPENDENTS ∧ body = render_dependent_comment ref r ∧
          request_id = delivery_request_id ref DEPENDENT_COMMENT other (result_key_of r)))
  | EvMove other target _ request_id _ outcome =>
      ∃ r, card_result k = Some r ∧ outcome = Some (ended r) ∧
        ((other = ref ∧ settled k ∧ target = (if String.eqb (ended r) TARGET_REACHED then "done" else "blocked") ∧
          request_id = delivery_request_id ref TERMINAL_MOVE OBSERVER (result_key_of r)) ∨
         (owed k DEPENDENTS ∧ ended r ≠ TARGET_REACHED ∧ target = "blocked" ∧
          request_id = delivery_request_id ref DEPENDENT_BLOCKED other (result_key_of r)))
  end.

Notation sees := (sees on_card proper).

(** ** Rules of the tick's monad *)

Lemma sees_wait t k (Q : WaitState → Tick → option WaitState → Prop) : Q (tk_wait t) t k → sees wait t k Q.
Proof. done. Qed.

Lemma sees_on_wait f t k (Q : () → Tick → option WaitState → Prop) :
  Q tt (t <| tk_wait := f (tk_wait t) |>) k → sees (on_wait f) t k Q.
Proof. done. Qed.

Lemma sees_on_tick f t k (Q : () → Tick → option WaitState → Prop) : Q tt (f t) k → sees (on_tick f) t k Q.
Proof. done. Qed.

Lemma sees_records t k (Q : list string → Tick → option WaitState → Prop) : Q (tk_records t) t k → sees dispatcher_records t k Q.
Proof. done. Qed.

Lemma sees_call {A} (f : nat → A) t k (Q : A → Tick → option WaitState → Prop) :
  Q (f (tk_calls t)) (t <| tk_calls := S (tk_calls t) |>) k → sees (call f) t k Q.
Proof. done. Qed.

Lemma sees_raise {A} e t k (Q : A → Tick → option WaitState → Prop) : sees (raise e) t k Q.
Proof. unfold raise. by apply sees_lift. Qed.
End monitor.

(** One step of the program, without choices of its own. *)
Ltac see_step :=
  cbv beta;
  match goal with
  | |- sees _ _ (mret _ ≫= _) _ _ _ => apply sees_bind, sees_ret
  | |- sees _ _ (_ ≫= _) _ _ _ => apply sees_bind
  | |- sees _ _ (mret _) _ _ _ => apply sees_ret
  | |- sees _ _ wait _ _ _ => apply sees_wait
  | |- sees _ _ (on_wait _) _ _ _ => apply sees_on_wait
  | |- sees _ _ (on_tick _) _ _ _ => apply sees_on_tick
  | |- sees _ _ dispatcher_records _ _ _ => apply sees_records
  | |- sees _ _ (call _) _ _ _ => apply sees_call
  | |- sees _ _ (raise _) _ _ _ => apply sees_raise
  | |- sees _ _ (lift _) _ _ _ => apply sees_lift; intros ? ?
  | |- sees _ _ (if ?b then _ else _) _ _ _ => destruct b eqn:?
  | |- sees _ _ (match ?x with _ => _ end) _ _ _ => destruct x eqn:?
  end.

Ltac see := repeat see_step.

(** ** Records of successors in the making *)

Lemma dict_all_get {A} (P : A → Prop) (d : list (string * A)) :
  dict_wf d → dict_all P d ↔ ∀ k v, dict_get d k = Some v → P v.
Proof.
  unfold dict_all, dict_wf. induction d as [|[k v] d IH]; cbn; intros Hw; [by split|].
  inversion_clear Hw as [|? ? Hk Hd]. rewrite Forall_cons, IH by done. cbn. split.
  - intros [Hv Hall] k' v'. destruct (String.eqb_spec k k'); [by intros [= <-]|apply Hall].
  - intros Hall. split; [apply (Hall k); by rewrite String.eqb_refl|]. intros k' v' E. apply (Hall k').
    destruct (String.eqb_spec k k') as [->|]; [|done]. exfalso. apply Hk. apply dict_get_Some_elem in E.
    apply list_elem_of_fmap. by exists (k', v').
Qed.

(** All records but the one of [address] are routed, and that one may be empty. *)
Record loose_ok `{IsoTime} (address : string) (s : WaitState) : Prop := {
  lo_result : ∀ r, ws_result s = Some r → result_ok r;
  lo_deliveries : dict_wf (ws_deliveries s) ∧ dict_all accepted_record (ws_deliveries s);
  lo_wf : dict_wf (ws_successors s);
  lo_successors : ∀ a rec, dict_get (ws_successors s) a = Some rec → routed_record rec ∨ a = address ∧ rec = [];
  lo_since : stamped (ws_error_since s);
}.

Section loose.
Context `{IsoTime}.

Lemma state_ok_loose a s : state_ok s → loose_ok a s.
Proof.
  intros [Hr Hd [Hw Ha] Ht]. split; try done. intros a' rec E. left. by apply (proj1 (dict_all_get _ _ Hw) Ha a').
Qed.

Lemma loose_open a s : state_ok s → loose_ok a (s <| ws_successors := dict_set (ws_successors s) a [] |>).
Proof.
  intros [Hr Hd [Hw Ha] Ht]. split; try done; cbn; [by apply dict_set_wf|]. intros a' rec.
  destruct (decide (a = a')) as [->|Hne]; [rewrite dict_get_set_eq; intros [= <-]; by right|].
  rewrite dict_get_set_ne by done. intros E. left. by apply (proj1 (dict_all_get _ _ Hw) Ha a').
Qed.

Lemma loose_set a s rec : loose_ok a s → routed_record rec → state_ok (s <| ws_successors := dict_set (ws_successors s) a rec |>).
Proof.
  intros [Hr Hd Hw Hs Ht] Hrec. split; try done; cbn. assert (dict_wf (dict_set (ws_successors s) a rec)) as Hw' by by apply dict_set_wf.
  split; [done|]. apply dict_all_get; [done|]. intros a' v. destruct (decide (a = a')) as [->|Hne]; [rewrite dict_get_set_eq; by intros [= <-]|].
  rewrite dict_get_set_ne by done. intros E. destruct (Hs _ _ E) as [|[-> _]]; done.
Qed.

Lemma loose_close a s : loose_ok a s → succession s a = [] → state_ok (s <| ws_successors := dict_del (ws_successors s) a |>).
Proof.
  intros [Hr Hd Hw Hs Ht] He. split; try done; cbn. split; [by apply dict_del_wf|]. apply dict_all_get; [by apply dict_del_wf|].
  intros a' v. destruct (decide (a = a')) as [->|Hne]; [by rewrite dict_get_del_eq|]. rewrite dict_get_del_ne by done.
  intros E. destruct (Hs _ _ E) as [|[-> _]]; done.
Qed.

Lemma loose_done a s : loose_ok a s → succession s a ≠ [] → state_ok s.
Proof.
  intros [Hr Hd Hw Hs Ht] He. split; try done. split; [done|]. apply dict_all_get; [done|]. intros a' v E.
  destruct (Hs _ _ E) as [|[-> ->]]; [done|]. exfalso. apply He. unfold succession. by rewrite E.
Qed.

Lemma deliver_ok s a rec : state_ok s → accepted_record rec → state_ok (s <| ws_deliveries := dict_set (ws_deliveries s) a rec |>).
Proof. intros [Hr [Hw Hd] Hs Ht] Hrec. split; try done; cbn. split; [by apply dict_set_wf|by apply dict_all_set]. Qed.
End loose.

Lemma routed_new closed own : nonempty closed = true →
  routed_record [("replaces", closed); ("via", if own : bool then SPRINT_ROUTE else CREATE_ROUTE); ("session", "")].
Proof.
  intros Hc. split; [apply (bool_decide_unpack _); by vm_compute|]. exists closed, (if own then SPRINT_ROUTE else CREATE_ROUTE).
  by destruct own.
Qed.

Lemma routed_session rec session : routed_record rec → routed_record (dict_set rec "session" session).
Proof.
  intros [Hw (a & b & E1 & E2 & H1 & H2)]. split; [by apply dict_set_wf|]. exists a, b.
  by rewrite !dict_get_set_ne by done.
Qed.

Lemma accepted_new at_ detail received : accepted_record (delivery_record at_ detail received).
Proof. unfold delivery_record. destruct (nonempty received); split; try done; apply (bool_decide_unpack _); by vm_compute. Qed.

Lemma dict_has_set {A} (d : list (string * A)) a b v : dict_has (dict_set d a v) b = bool_decide (a = b) || dict_has d b.
Proof.
  unfold dict_has. case_bool_decide as E; [subst; by rewrite dict_get_set_eq|]. by rewrite dict_get_set_ne.
Qed.

(** ** Delivering *)

(** The frozen result is on the card, and so is what was delivered of it. *)
Record delivering (P : WaitState → Prop) (r : Fields) (D : list (string * list (string * string))) (s : WaitState)
    (k : option WaitState) : Prop := {
  dv_ok : P s;
  dv_result : ws_result s = Some r;
  dv_card : ∃ r', card_result k = Some r' ∧ same r' r;
  dv_mem : ws_deliveries s = D;
  dv_same : ∀ a, dict_has (card_deliveries k) a = dict_has D a;
}.

Section delivery.
Context `{PyRepr, IsoTime, JsonText, !JsonStr} (W : World) (ref : string) (spec : WaitSpec).
Notation sees := (sees on_card (proper ref spec)).

(** A write the card may take. *)
Lemma sees_record t k (Q : () → Tick → option WaitState → Prop) :
  state_ok (tk_wait t) → (∀ r, card_result k = Some r → ∃ r', ws_result (tk_wait t) = Some r' ∧ same r r') →
  (∀ a, dict_has (card_deliveries k) a = true → dict_has (ws_deliveries (tk_wait t)) a = true) →
  Q tt (t <| tk_calls := S (tk_calls t) |>) (Some (tk_wait t)) → sees (record W ref) t k Q.
Proof.
  intros Hok Hr Hd HQ. unfold record. see; try done; by apply sees_emit.
Qed.

Lemma same_state_delivering s r : state_ok s → ws_result s = Some r → delivering state_ok r (ws_deliveries s) s (Some s).
Proof. intros Hs Hr. split; try done. by exists r. Qed.

Lemma delivering_record r D t k s (Q : () → Tick → option WaitState → Prop) :
  delivering (λ _, True) r D s k → state_ok (tk_wait t) → ws_result (tk_wait t) = Some r →
  (∀ a, dict_has D a = true → dict_has (ws_deliveries (tk_wait t)) a = true) →
  (∀ t', tk_wait t' = tk_wait t → delivering state_ok r (ws_deliveries (tk_wait t)) (tk_wait t') (Some (tk_wait t)) →
     Q tt t' (Some (tk_wait t))) →
  sees (record W ref) t k Q.
Proof.
  intros [_ _ (r' & Hk & Hsame) _ Hd] Hok Hr Hinc HQ. apply sees_record; [done|..].
  - intros r0. rewrite Hk. intros [= <-]. by exists r.
  - intros a. rewrite Hd. apply Hinc.
  - by apply HQ; [|apply same_state_delivering].
Qed.
(** The same, when only the successors changed. *)
Lemma delivering_rerecord r D t k s (Q : () → Tick → option WaitState → Prop) :
  delivering (λ _, True) r D s k → state_ok (tk_wait t) → ws_result (tk_wait t) = Some r → ws_deliveries (tk_wait t) = D →
  (∀ t', tk_wait t' = tk_wait t → delivering state_ok r D (tk_wait t') (Some (tk_wait t)) → Q tt t' (Some (tk_wait t))) →
  sees (record W ref) t k Q.
Proof. intros Hd Hok Hr <- HQ. by eapply delivering_record. Qed.

Lemma delivering_weaken (P Q : WaitState → Prop) r D s k : (P s → Q s) → delivering P r D s k → delivering Q r D s k.
Proof. intros HPQ [? ? ? ? ?]. by split; auto. Qed.

Lemma sees_submitted request_id session t k (Q : bool → Tick → option WaitState → Prop) :
  (∀ b t', tk_wait t' = tk_wait t → Q b t' k) → sees (already_submitted W request_id session) t k Q.
Proof. intros HQ. unfold already_submitted. see; by apply HQ. Qed.

Lemma sees_sprint sprint session t k (Q : bool + string → Tick → option WaitState → Prop) :
  (∀ b t', tk_wait t' = tk_wait t → Q b t' k) → sees (is_sprint_session W sprint session) t k Q.
Proof. intros HQ. unfold is_sprint_session. see; by apply HQ. Qed.

Lemma sees_ask sprint closed via t k r (Q : Fields + string → Tick → option WaitState → Prop) :
  (∃ r', card_result k = Some r' ∧ same r' r) → (∀ a t', tk_wait t' = tk_wait t → Q a t' k) →
  sees (ask_successor W sprint closed via (delivery_request_id ref PO_SUCCESSOR closed (result_key_of r))) t k Q.
Proof.
  intros (r' & Hk & Hs) HQ. rewrite <-(same_key _ _ Hs). unfold ask_successor.
  see; try (by apply HQ); apply sees_emit; try (by exists r', closed); see; by apply HQ.
Qed.

(** What an operation on the succession of [address] leaves. *)
Definition opened (address : string) (r : Fields) D (answer : string + string) (t : Tick) (k : option WaitState) : Prop :=
  delivering (loose_ok address) r D (tk_wait t) k ∧ match answer with inl session => nonempty session = true | inr _ => True end.

Lemma loose_routed a s rec : loose_ok a s → dict_get (ws_successors s) a = Some rec → rec ≠ [] → routed_record rec.
Proof. intros Hl E Hne. destruct (lo_successors _ _ Hl _ _ E) as [|[_ ->]]; done. Qed.

Lemma sees_route sprint address closed t k r D (Q : unit + string → Tick → option WaitState → Prop) :
  nonempty closed = true → delivering (loose_ok address) r D (tk_wait t) k →
  (∀ t' k', delivering state_ok r D (tk_wait t') k' → routed_record (succession (tk_wait t') address) → Q (inl tt) t' k') →
  (∀ why t', delivering (loose_ok address) r D (tk_wait t') k → Q (inr why) t' k) →
  sees (if bool_decide (dict_get (succession (tk_wait t) address) "replaces" = Some closed) then mret (inl tt)
        else
          own ← is_sprint_session W sprint closed;
          match own with
          | inr message => mret (inr ("the sprint of " +:+ ref +:+ " cannot be read to route the successor of "
                                      +:+ closed +:+ ": " +:+ message))
          | inl own =>
              set_succession address [("replaces", closed); ("via", if own : bool then SPRINT_ROUTE else CREATE_ROUTE);
                                      ("session", "")] ≫= λ _,
              record W ref ≫= λ _, mret (inl tt)
          end) t k Q.
Proof.
  intros Hc Hd HQ Hwhy. case_bool_decide as E.
  - apply sees_ret. assert (succession (tk_wait t) address ≠ []) as Hne by (intros E0; by rewrite E0 in E).
    assert (state_ok (tk_wait t)) as Hs by (eapply loose_done; [apply Hd|done]).
    apply HQ; [by eapply delivering_weaken; [|exact Hd]|]. unfold succession in *.
    destruct (dict_get (ws_successors (tk_wait t)) address) as [rec|] eqn:Er; [|done].
    by eapply loose_routed; [apply (dv_ok _ _ _ _ _ Hd)| |].
  - apply sees_bind, sees_sprint. intros [own|message] t' Et; [|see; apply Hwhy; by rewrite Et].
    see. unfold set_succession. see. cbn [tk_wait]. set (s' := _ <| ws_successors := _ |>).
    assert (state_ok s') as Hs' by (apply loose_set; [rewrite Et; apply Hd|by apply routed_new]).
    eapply (delivering_rerecord r D _ _ (tk_wait t)); [by eapply delivering_weaken; [|exact Hd]|exact Hs'| | |].
    + cbn. rewrite Et. apply Hd.
    + cbn. rewrite Et. apply Hd.
    + intros t2 E2 Hd2. see. apply HQ; [done|]. rewrite E2. unfold succession. cbn. rewrite dict_get_set_eq. by apply routed_new.
Qed.

Lemma sees_open sprint address closed t k r D :
  nonempty closed = true → delivering (loose_ok address) r D (tk_wait t) k →
  sees (open_successor W ref sprint address closed (delivery_request_id ref PO_SUCCESSOR closed (result_key_of r))) t k
    (opened address r D).
Proof.
  intros Hc Hd. unfold open_successor. see_step. see_step. see_step. apply (sees_route _ _ _ _ _ r D); [done|done|..].
  - clear t k Hd. intros t k Hd Hr. see.
    apply (sees_ask _ _ _ _ _ r); [apply Hd|].
    intros [d|why] t' Et; [|see; split; [rewrite Et; by eapply delivering_weaken; [apply state_ok_loose|]|done]].
    cbv beta iota. destruct (negb _) eqn:En; see; [split; [rewrite Et; by eapply delivering_weaken; [apply state_ok_loose|]|done]|].
    unfold set_succession. see. cbn [tk_wait]. rewrite Et.
    eapply (delivering_rerecord r D _ _ (tk_wait t)); [by eapply delivering_weaken; [|exact Hd]| |cbn; apply Hd|cbn; apply Hd|].
    + apply loose_set; [apply state_ok_loose, Hd|by apply routed_session].
    + intros t2 E2 Hd2. see. split; [by eapply delivering_weaken; [apply state_ok_loose|]|]. cbn.
      by apply negb_false_iff.
  - intros why t' Hd'. see. done.
Qed.

Lemma sees_successor sprint address closed t k r D :
  nonempty closed = true → delivering state_ok r D (tk_wait t) k →
  sees (successor W ref sprint address closed (result_key_of r)) t k
    (λ answer t' k', delivering state_ok r D (tk_wait t') k' ∧
                     match answer with inl session => nonempty session = true | inr _ => True end).
Proof.
  intros Hc Hd. unfold successor. apply sees_bind, sees_wait, sees_bind.
  apply sees_mono with (P := λ _ t' k', delivering (loose_ok address) r D (tk_wait t') k').
  { unfold set_succession. see; [by eapply delivering_weaken; [apply state_ok_loose|]|].
    destruct Hd as [Hs Hr Hk Hm He]. split; [by apply loose_open|done..]. }
  intros _ t1 k1 Hd1. apply sees_bind. eapply sees_mono; [by apply sees_open|]. intros answer t2 k2 [Hd2 Ha].
  apply sees_bind, sees_wait, sees_bind. destruct (succession (tk_wait t2) address) eqn:E; see; (split; [|done]).
  - destruct Hd2 as [Hs Hr Hk Hm He]. split; [by apply loose_close|done..].
  - eapply delivering_weaken; [|exact Hd2]. intros Hs. eapply loose_done; [done|]. by rewrite E.
Qed.

Lemma sees_deliver n sprint address session t k r D :
  nonempty session = true → delivering state_ok r D (tk_wait t) k → address ∈ sp_returns spec → address ≠ OBSERVER →
  dict_has D address = false →
  sees (deliver W n session (render_po_input ref spec r) (delivery_request_id ref PO_DELIVERY address (result_key_of r))
         (card_facts ref sprint) (λ closed, successor W ref sprint address closed (result_key_of r))) t k
    (λ _ t' k', delivering state_ok r D (tk_wait t') k').
Proof.
  intros Hn Hd Ha Ho Hnot. revert session t k Hn Hd. induction n as [|n IH]; intros session t k Hn Hd; cbn [deliver]; [by see|].
  apply sees_bind, sees_emit.
  { destruct (dv_card _ _ _ _ _ Hd) as (r' & Hk & Hs). exists r', address. split_and!; [done| |by symmetry; apply same_input|].
    - split_and!; [done..|]. by rewrite (dv_same _ _ _ _ _ Hd).
    - by rewrite (same_key _ _ Hs). }
  cbn [on_card]. apply sees_bind, sees_call.
  assert (∀ t', tk_wait t' = tk_wait t →
    sees (successor W ref sprint address session (result_key_of r) ≫= λ following,
          match following with
          | inl session => deliver W n session (render_po_input ref spec r)
              (delivery_request_id ref PO_DELIVERY address (result_key_of r)) (card_facts ref sprint)
              (λ closed, successor W ref sprint address closed (result_key_of r))
          | inr why => mret (Postponed why)
          end) t' k (λ _ t' k', delivering state_ok r D (tk_wait t') k')) as Hnext.
  { intros t' Et. apply sees_bind. eapply sees_mono; [apply (sees_successor _ _ _ _ _ r D); [done|by rewrite Et]|].
    intros [s2|why] t2 k2 [Hd2 Hs2]; [by apply IH|by see]. }
  destruct (w_submit W (tk_calls t)) as [[]|] eqn:Ef; try (see; done); try (by apply Hnext).
  apply sees_bind, sees_submitted. intros b t' Et. see; by rewrite Et.
Qed.

(** An address that is neither the board's nor a card's is a session's. *)
Lemma session_address a : is_address a → a ≠ OBSERVER → a ≠ DEPENDENTS → returned_card a = "" →
  nonempty (after PO_SESSION_PREFIX a) = true.
Proof.
  intros [_ Ha] Ho Hd Hc. unfold parse_address in Ha. rewrite bool_decide_false in Ha by set_solver.
  destruct (String.prefix PO_SESSION_PREFIX a && _) eqn:E1.
  - apply andb_true_iff in E1 as [_ Hn]. injection Ha as <-. by rewrite after_prefix.
  - destruct (String.prefix CARD_PREFIX a && _) eqn:E2; [|done]. apply andb_true_iff in E2 as [Hp Hm].
    unfold returned_card in Hc. rewrite Hp in Hc. rewrite Hc in Hm. done.
Qed.

Lemma first_text_nonempty a b : nonempty b = true → nonempty (first_text a b) = true.
Proof. unfold first_text. by destruct (nonempty a) eqn:E. Qed.

Lemma sees_deliver_po sprint address t k r D :
  delivering state_ok r D (tk_wait t) k → owed spec k address → nonempty (after PO_SESSION_PREFIX address) = true →
  sees (deliver_po W ref sprint spec address) t k (λ _ t' k', delivering state_ok r D (tk_wait t') k').
Proof.
  intros Hd (Ha & Ho & Hn) Hs. unfold deliver_po. see. rewrite (dv_result _ _ _ _ _ Hd). cbn [default from_option].
  apply sees_deliver; try done; [by apply first_text_nonempty|]. by rewrite <-(dv_same _ _ _ _ _ Hd).
Qed.

(** Operations that only comment and move. *)
Lemma sees_comment other body request_id t k (Q : option Fault → Tick → option WaitState → Prop) :
  proper ref spec k (EvComment other body request_id) → (∀ f t', tk_wait t' = tk_wait t → Q f t' k) →
  sees (comment W other body request_id) t k Q.
Proof. intros Hp HQ. unfold comment. apply sees_bind, sees_emit; [done|]. see. by apply HQ. Qed.

Lemma sees_move other target reason request_id taxonomy out t k (Q : option Fault → Tick → option WaitState → Prop) :
  proper ref spec k (EvMove other target reason request_id taxonomy out) → (∀ f t', tk_wait t' = tk_wait t → Q f t' k) →
  sees (move W other target reason request_id taxonomy out) t k Q.
Proof. intros Hp HQ. unfold move. apply sees_bind, sees_emit; [done|]. see. by apply HQ. Qed.

Lemma sees_tell r r' cards t k (Q : option (string * string) → Tick → option WaitState → Prop) :
  card_result k = Some r' → same r' r → owed spec k DEPENDENTS → (∀ f t', tk_wait t' = tk_wait t → Q f t' k) →
  sees (tell_dependents W ref (result_key_of r) (ended r) r cards) t k Q.
Proof.
  intros Hk Hs Ho. assert (ended r = ended r') as He by (unfold ended; by rewrite (proj1 Hs "outcome")).
  rewrite <-(same_key _ _ Hs), He. revert t. induction cards as [|d cards IH]; intros t HQ; cbn [tell_dependents].
  - see. by apply HQ.
  - apply sees_bind, sees_lift. intros other Eo. apply sees_bind, sees_comment.
    { exists r'. split; [done|]. right. split_and!; [done|by symmetry; apply same_dependent|done]. }
    intros f t1 E1. destruct f as [[]|]; [see; apply HQ; congruence|see|]. cbv iota.
    assert (∀ t2, tk_wait t2 = tk_wait t →
      sees (tell_dependents W ref (result_key_of r') (ended r') r cards) t2 k Q) as Hrest.
    { intros t2 E2. apply IH. intros f t' Et. apply HQ. congruence. }
    apply sees_bind. destruct (negb _ && _) eqn:Eb; [|see; by apply Hrest].
    apply sees_bind, sees_lift. intros tax _. apply sees_move.
    + exists r'. split_and!; [done..|]. right. apply andb_true_iff in Eb as [Eb _].
      split_and!; [done| |done|done]. intros E. by rewrite E in Eb.
    + intros f t2 E2. destruct f as [[]|]; see; [apply HQ; congruence|apply Hrest; congruence].
Qed.

Lemma sees_dependents t k r D :
  delivering state_ok r D (tk_wait t) k → owed spec k DEPENDENTS →
  sees (deliver_dependents W ref r) t k (λ _ t' k', delivering state_ok r D (tk_wait t') k').
Proof.
  intros Hd Ho. unfold deliver_dependents. apply sees_bind, sees_call.
  destruct (w_list W _) as [cards|[]]; see; try done. destruct (dv_card _ _ _ _ _ Hd) as (r' & Hk & Hs).
  fold (ended r). eapply sees_tell; [done..|]. intros f t' Et. see; cbn in Et; by rewrite Et.
Qed.

Lemma sees_card address t k r D :
  delivering state_ok r D (tk_wait t) k → owed spec k address →
  sees (deliver_card W ref address r) t k (λ _ t' k', delivering state_ok r D (tk_wait t') k').
Proof.
  intros Hd Ho. unfold deliver_card. destruct (dv_card _ _ _ _ _ Hd) as (r' & Hk & Hs). apply sees_bind, sees_comment.
  - exists r'. split; [done|]. left. exists address. split_and!; [done..|by symmetry; apply same_card|].
    by rewrite (same_key _ _ Hs).
  - intros f t' Et. see; by rewrite Et.
Qed.

Lemma sees_deliver_to sprint address t k r D :
  delivering state_ok r D (tk_wait t) k → owed spec k address → is_address address →
  sees (deliver_to W ref sprint spec r address) t k (λ _ t' k', delivering state_ok r D (tk_wait t') k').
Proof.
  intros Hd Ho Ha. unfold deliver_to. destruct (String.eqb_spec address DEPENDENTS) as [->|Hne]; [by apply sees_dependents|].
  destruct (nonempty (returned_card address)) eqn:E; [by apply sees_card|]. apply sees_deliver_po; [done..|].
  apply session_address; [done|apply Ho|done|]. by destruct (returned_card address).
Qed.

(** The addresses in turn. *)
Lemma sees_deliver_all sprint addresses t k r D :
  delivering state_ok r D (tk_wait t) k → Forall is_address addresses → NoDup addresses →
  Forall (λ a, a ∈ sp_returns spec ∧ a ≠ OBSERVER ∧ dict_has D a = false) addresses →
  sees (deliver_all W ref sprint spec r addresses) t k
    (λ postponed t' k', ∃ D', delivering state_ok r D' (tk_wait t') k' ∧ (∀ a, dict_has D a = true → dict_has D' a = true) ∧
       (postponed = [] → ∀ a, a ∈ addresses → dict_has D' a = true)).
Proof.
  revert t k D. induction addresses as [|a l IH]; intros t k D Hd Ha Hn Hf; cbn [deliver_all].
  - see. exists D. split_and!; [done..|]. intros _ a Ha'. set_solver.
  - inversion_clear Ha as [|? ? Ha1 Ha2]. inversion_clear Hn as [|? ? Hn1 Hn2]. inversion_clear Hf as [|? ? (Hr & Ho & Hh) Hf2].
    apply sees_bind. eapply sees_mono.
    { apply sees_deliver_to; [done| |done]. split_and!; [done..|]. by rewrite (dv_same _ _ _ _ _ Hd). }
    intros d t1 k1 Hd1. destruct d as [detail received|why].
    + see. cbn [tk_wait]. eapply (delivering_record r D _ _ (tk_wait t1)).
      * eapply delivering_weaken; [|exact Hd1]. done.
      * apply deliver_ok; [apply Hd1|apply accepted_new].
      * apply Hd1.
      * intros a'. cbn. rewrite dict_has_set, (dv_mem _ _ _ _ _ Hd1). intros ->. apply orb_true_r.
      * intros t2 E2 Hd2. see.
        assert (∀ b, dict_has (ws_deliveries (tk_wait t2)) b = bool_decide (a = b) || dict_has D b) as HD.
        { intros b. rewrite E2. cbn. by rewrite dict_has_set, (dv_mem _ _ _ _ _ Hd1). }
        rewrite <-E2 in Hd2 at 1. set (D2 := ws_deliveries (tk_wait t2)) in *.
        eapply sees_mono.
        { apply (IH _ _ D2); [exact Hd2|done..|]. rewrite Forall_forall in Hf2 |- *. intros a' Hin.
          destruct (Hf2 a' Hin) as (H1' & H2' & H3'). split_and!; [done..|]. rewrite HD, H3', orb_false_r.
          apply bool_decide_eq_false. intros ->. done. }
        intros postponed t3 k3 (D' & Hd3 & Hinc & Hall). exists D'. split_and!; [done|..].
        -- intros a' Ha'. apply Hinc. rewrite HD, Ha'. apply orb_true_r.
        -- intros Hp a' [->|Hin]%elem_of_cons; [|by apply Hall]. apply Hinc. rewrite HD. by rewrite bool_decide_true.
    + see. eapply sees_mono; [by apply IH|]. intros postponed t3 k3 (D' & Hd3 & Hinc & Hall). see. by exists D'.
Qed.

Lemma sees_no_fault f t k (Q : () → Tick → option WaitState → Prop) : Q tt t k → sees (no_fault f) t k Q.
Proof. intros HQ. unfold no_fault. by see. Qed.

Lemma sees_finish attempt t k r D :
  delivering state_ok r D (tk_wait t) k → settled spec k →
  sees (finish W ref attempt spec r) t k (λ _ _ k', k' = k).
Proof.
  intros Hd Hs. unfold finish. fold (ended r). destruct (dv_card _ _ _ _ _ Hd) as (r' & Hk & Hsame).
  assert (ended r = ended r') as -> by (unfold ended; by rewrite (proj1 Hsame "outcome")). rewrite <-(same_key _ _ Hsame).
  apply sees_bind, sees_wait, sees_bind. eapply sees_mono with (P := λ _ t' k', t' = t ∧ k' = k).
  { destruct (String.eqb (ended r') TARGET_REACHED); [by see|]. see. done. }
  intros taxonomy ? ? [-> ->]. apply sees_bind, sees_move.
  - exists r'. split_and!; [done..|]. left. done.
  - intros f t' _. apply sees_bind, sees_no_fault. by see.
Qed.

Lemma sees_deliver_result sprint attempt t k r D :
  delivering state_ok r D (tk_wait t) k → Forall is_address (sp_returns spec) → NoDup (sp_returns spec) →
  sees (deliver_result W ref sprint attempt spec) t k (λ _ _ _, True).
Proof.
  intros Hd Ha Hn. unfold deliver_result. apply sees_bind, sees_wait. rewrite (dv_result _ _ _ _ _ Hd). cbn [default from_option].
  apply sees_bind. assert (∀ a, a ∈ pending_addresses spec (tk_wait t) ↔ (a ≠ OBSERVER ∧ dict_has D a = false) ∧ a ∈ sp_returns spec) as Hp.
  { intros a. unfold pending_addresses. rewrite list_elem_of_filter, (dv_mem _ _ _ _ _ Hd). unfold dict_has. destruct (dict_get D a); naive_solver. }
  eapply sees_mono; [apply (sees_deliver_all _ _ _ _ r D); [done|..]|].
  - rewrite Forall_forall in Ha |- *. intros a Hin. apply Ha, Hp, Hin.
  - by apply NoDup_filter.
  - apply Forall_forall. intros a ([? ?] & ?)%Hp. done.
  - intros postponed t' k' (D' & Hd' & Hinc & Hall). destruct postponed as [|]; [|by see].
    eapply sees_mono; [eapply sees_finish; [done|]|done]. intros a Hin Ho. rewrite (dv_same _ _ _ _ _ Hd').
    destruct (dict_has D a) eqn:E; [by apply Hinc|]. apply Hall; [done|]. by apply Hp.
Qed.
End delivery.

(** ** Observing *)

(** A value that sorting leaves alone and JSON can print. *)
Definition atom (v : pyval) : bool := match v with VStr _ => true | VInt z => Z.abs z <? INT_LIMIT | _ => false end.

Definition fact_ok (d : Fields) : Prop := dict_wf d ∧ Forall (λ p, atom p.2 = true) d.

Record candidate_ok (c : Candidate) : Prop := {
  co_outcome : cd_outcome c ∈ OUTCOMES;
  co_fact : fact_ok (cd_fact c);
}.

Lemma fact_sorted d k : fact_ok d → sorted (get d k) = get d k.
Proof.
  intros [_ Ha]. unfold get. destruct (dict_get d k) as [v|] eqn:E; [|done]. apply dict_get_Some_elem in E.
  rewrite Forall_forall in Ha. specialize (Ha _ E). by destruct v.
Qed.

Lemma fact_printable d : fact_ok d → printable (VDict d) = true.
Proof.
  intros [Hw Ha]. apply printable_dict. split; [done|]. eapply Forall_impl; [exact Ha|]. intros [k v] Hv. by destruct v.
Qed.

(** A literal fact: its keys are told apart by computation. *)
Ltac solve_fact :=
  split; [apply (bool_decide_unpack _); by vm_compute|repeat (apply Forall_cons; split; [done|]); by apply Forall_nil].

Section freezing.
Context `{PyRepr, IsoTime, JsonText, !JsonStr}.

Lemma result_key_nonempty r : nonempty (result_key r) = true.
Proof.
  unfold result_key. pose proof (sha256_hex_length (dumps_spaced [("outcome", get r "outcome"); ("fact", get r "fact")])) as Hl.
  by destruct (sha256_hex _).
Qed.

Lemma frozen_ok c now : candidate_ok c → result_ok (frozen c now).
Proof.
  intros [Ho Hf]. split.
  - cbn. by apply bool_decide_eq_true.
  - change (get (frozen c now) "key") with (VStr (result_key (take 5 (frozen c now)))). cbn [py_truthy].
    apply result_key_nonempty.
  - apply printable_dict. split; [apply (bool_decide_unpack _); by vm_compute|].
    pose proof (fact_printable _ Hf). unfold frozen. cbn [app]. repeat (apply Forall_cons; split; [done|]). by apply Forall_nil.
  - split.
    + intros k Hk. unfold frozen, get. cbn [app dict_get]. rewrite (proj2 (String.eqb_neq "fact" k)) by done.
      by repeat case_match.
    + exists (cd_fact c). split; [done|]. split; [apply Hf|]. intros k. by apply fact_sorted.
Qed.

(** Everything but the observation and the error. *)
Definition core (s : WaitState) := (ws_result s, ws_deliveries s, ws_successors s).

Lemma core_ok s s' : core s = core s' → stamped (ws_error_since s') → state_ok s → state_ok s'.
Proof. unfold core. intros [= E1 E2 E3] Ht [Hr Hd Hs _]. split; [..|done]; by rewrite <-?E1, <-?E2, <-?E3. Qed.

(** Only the observation and the error text change. *)
Definition calm (s s' : WaitState) : Prop := core s' = core s ∧ ws_error_since s' = ws_error_since s.

Lemma calm_observed s text now : calm s (observed s text now).
Proof. unfold observed. by case_match. Qed.

Lemma calm_ok s s' : calm s s' → state_ok s → state_ok s'.
Proof. intros [Ec Es] Hs. eapply core_ok; [symmetry; exact Ec| |done]. rewrite Es. apply Hs. Qed.

Lemma core_noted s text now : core (note_error s text now) = core s.
Proof. unfold note_error. by repeat case_match. Qed.

Lemma stamped_noted s text now :
  in_range now = true → stamped (ws_error_since s) → stamped (ws_error_since (note_error s text now)).
Proof. intros Hn Hs. unfold note_error. repeat case_match; try done; right; by exists now. Qed.

(** What an observation may conclude. *)
Definition seen_ok (seen : Seen) : Prop := match seen with Terminal c => candidate_ok c | _ => True end.

Lemma observe_time_ok spec s now s' seen : observe_time spec s now = Ok (s', seen) → calm s s' ∧ seen_ok seen.
Proof.
  unfold observe_time. intros (m & _ & E)%bind_Ok. case_match; injection E as <- <-; (split; [apply calm_observed|]); [done|].
  split; [cbn; set_solver|solve_fact].
Qed.

Lemma observe_run_ok spec s now answer s' seen : observe_run spec s now answer = Ok (s', seen) → calm s s' ∧ seen_ok seen.
Proof.
  unfold observe_run, classified. intros E. repeat case_match; try done; injection E as <- <-; try done;
    (split; [by try apply calm_observed|]); try done; (split; [cbn; set_solver|solve_fact]).
Qed.

Lemma settle_ok s spec c now s' :
  settle s spec c now = Ok s' → state_ok s → (∀ c', c = Some c' → candidate_ok c') →
  state_ok s' ∧ ws_deliveries s' = ws_deliveries s.
Proof.
  unfold settle. destruct (ws_result s) as [r|] eqn:Er; [by intros [= <-]|].
  intros (deadline & _ & E)%bind_Ok Hs Hc.
  assert (∀ c', candidate_ok c' → state_ok (freeze s c' now)) as Hf.
  { intros c' Hc'. destruct Hs as [Hr Hd Hsu Ht]. split; try done. cbn. intros r [= <-]. by apply frozen_ok. }
  assert (candidate_ok (deadline_candidate s spec c)) as Hl by (split; [cbn; set_solver|solve_fact]).
  case_match; [injection E as <-; destruct c as [c'|]; [split; [by apply Hf, Hc|done]|done]|].
  apply bind_Ok in E as (b & _ & [= <-]). destruct c as [c'|]; [destruct b|]; (split; [|done]); auto.
Qed.
End freezing.

Section tick.
Context `{PyRepr, IsoTime, JsonText, !JsonStr} (W : World) (owner ref : string) (spec : WaitSpec).
Notation sees := (sees on_card (proper ref spec)).

(** Nothing is asked of the board, and only the observation and the error move. *)
Lemma sees_see now t k :
  sees (see W spec now) t k (λ seen t' k', k' = k ∧ calm (tk_wait t) (tk_wait t') ∧ seen_ok seen).
Proof.
  unfold see, through, observe_card, entered_at. see; try done.
  - destruct a as [s' seen]. by match goal with E : observe_run _ _ _ _ = _ |- _ => apply observe_run_ok in E end.
  - split_and!; [done|apply calm_observed|done].
  - split_and!; [done|apply calm_observed|]. split; [cbn; set_solver|solve_fact].
  - split_and!; [done|apply calm_observed|]. split; [cbn; set_solver|solve_fact].
  - split_and!; [done..|]. by case_match.
  - destruct a as [s' seen]. by match goal with E : observe_time _ _ _ = _ |- _ => apply observe_time_ok in E end.
Qed.

Lemma window_bound s d : window_end s spec = Ok d → 0 < sp_window spec → Z.abs (sp_window spec) < INT_LIMIT.
Proof.
  unfold window_end. intros (since & _ & E)%bind_Ok Hw. apply bind_Ok in E as (w & Ew & _).
  apply timedelta_Ok in Ew as [-> Hb]. rewrite Z.div_mul in Hb by done. rewrite Z.abs_eq by lia.
  apply INT_LIMIT_large. lia.
Qed.

Lemma sees_look task now t k : 0 < sp_window spec → in_range now = true → state_ok (tk_wait t) →
  sees (look W task spec now) t k
    (λ c t' k', k' = k ∧ core (tk_wait t') = core (tk_wait t) ∧ state_ok (tk_wait t') ∧ ∀ c', c = Some c' → candidate_ok c').
Proof.
  intros Hw Hnow Hs. unfold look. destruct (wait_cancel task) as [c|].
  - see. split_and!; [done..|]. intros c' [= <-]. split; [cbn; set_solver|solve_fact].
  - apply sees_bind. eapply sees_mono; [apply sees_see|]. intros seen t1 k1 (-> & Hcalm & Hseen).
    assert (state_ok (tk_wait t1)) as Hs1 by by eapply calm_ok. destruct Hcalm as [Ec _].
    assert (state_ok (clear_error (tk_wait t1))) as Hs2 by (eapply core_ok; [|by left|exact Hs1]; done).
    destruct seen as [|c|m|m].
    + by see.
    + see. split_and!; [done..|]. by intros c' [= <-].
    + see. split_and!; [done..|]. intros c' [= <-]. split; [cbn; set_solver|solve_fact].
    + see. split_and!; [done|etransitivity; [apply core_noted|done]| |].
      { eapply core_ok; [symmetry; apply core_noted|apply stamped_noted; [done|apply Hs1]|done]. }
      case_match; [done|]. intros c' [= <-].
      match goal with E : window_end _ _ = Ok _ |- _ => apply window_bound in E; [|done] end.
      split; [cbn; set_solver|]. split; [apply (bool_decide_unpack _); by vm_compute|].
      repeat (apply Forall_cons; split; [done || by apply Z.ltb_lt|]). by apply Forall_nil.
Qed.

Lemma sees_observe task now t k : 0 < sp_window spec → in_range now = true → state_ok (tk_wait t) →
  sees (observe W task spec now) t k
    (λ _ t' k', k' = k ∧ state_ok (tk_wait t') ∧ ws_deliveries (tk_wait t') = ws_deliveries (tk_wait t)).
Proof.
  intros Hw Hnow Hs. unfold observe. apply sees_bind. eapply sees_mono; [by apply sees_look|].
  intros c t1 k1 (-> & Ec & Hs1 & Hc). see.
  match goal with E : settle _ _ _ _ = Ok _ |- _ => eapply settle_ok in E as [Hs' Hd]; [|done|done] end.
  split_and!; [done..|]. etransitivity; [exact Hd|]. by injection Ec.
Qed.

(** The clock reads a time. *)
Definition keeps_time : Prop := ∀ n, in_range (w_clock W n) = true.

(** The card holds [k] and is the one with this spec. *)
Record carries (k : option WaitState) (task : Fields) : Prop := {
  cy_ref : ref_of task = Ok ref;
  cy_state : holds_text task WAIT_STATE (state_text <$> k);
  cy_spec : wait_spec task = Ok (Some spec);
}.

(** What the tick starts from. *)
Lemma known_state k task : carries k task → (∀ s, k = Some s → state_ok s) →
  state_ok (wait_state task) ∧ (∀ a, dict_has (card_deliveries k) a = dict_has (ws_deliveries (wait_state task)) a) ∧
  ws_result (wait_state task) = sorted_items <$> card_result k.
Proof.
  intros [_ Hf _] Hk. destruct k as [s|]; cbn in *.
  - specialize (Hk s eq_refl). rewrite (wait_state_text _ s) by done. split_and!; [by apply canonical_ok| |done].
    intros a. cbn. unfold dict_has. rewrite sort_records_get by apply (so_deliveries _ Hk). by destruct (dict_get _ a).
  - rewrite wait_state_absent by done. split_and!; [apply new_state_ok|done..].
Qed.

(** States with the same text have the same result. *)
Lemma same_text s s' : state_ok s → state_ok s' → state_text s = state_text s' →
  sorted_items <$> ws_result s = sorted_items <$> ws_result s'.
Proof.
  intros Hs Hs' E. unfold state_text in E.
  pose proof (loads_str_dumps _ (state_printable s Hs)) as L. pose proof (loads_str_dumps _ (state_printable s' Hs')) as L'.
  rewrite E, L' in L. assert (sorted_items (state_to_json s') = sorted_items (state_to_json s)) as Ej by congruence.
  pose proof (state_from_sorted s Hs) as F. pose proof (state_from_sorted s' Hs') as F'. rewrite Ej, F in F'.
  change (ws_result (canonical s) = ws_result (canonical s')). by rewrite F'.
Qed.

(** After the observation the result, if any, is on the card. *)
Lemma sees_saved known t k (Q : () → Tick → option WaitState → Prop) :
  state_ok (tk_wait t) → state_ok known →
  (∀ a, dict_has (card_deliveries k) a = dict_has (ws_deliveries (tk_wait t)) a) →
  (∀ r, card_result k = Some r → result_ok r ∧ ws_result (tk_wait t) = Some (sorted_items r)) →
  ws_result known = sorted_items <$> card_result k →
  (∀ t' k', tk_wait t' = tk_wait t → (∀ r, ws_result (tk_wait t) = Some r →
     delivering state_ok r (ws_deliveries (tk_wait t)) (tk_wait t') k') → Q tt t' k') →
  sees (if String.eqb (state_text (tk_wait t)) (state_text known) then mret tt else record W ref) t k Q.
Proof.
  intros Hs Hknown Hd Hr Hkr HQ. destruct (String.eqb_spec (state_text (tk_wait t)) (state_text known)) as [E|_].
  - see. apply HQ; [done|]. intros r Er. split; try done. apply same_text in E; [|done..]. rewrite Er, Hkr in E.
    destruct (card_result k) as [r'|] eqn:Ek; [|done]. exists r'. split; [done|]. destruct (Hr r' eq_refl) as [Hr' Er'].
    rewrite Er in Er'. injection Er' as ->. by apply same_sorted.
  - apply sees_record; [done|..].
    + intros r Hk. destruct (Hr r Hk) as [Hr' Er']. exists (sorted_items r). split; [done|]. by apply same_sorted.
    + intros a. by rewrite Hd.
    + apply HQ; [done|]. intros r Er. by apply same_state_delivering.
Qed.

Lemma sees_waiting attempt task t k :
  keeps_time → carries k task → (∀ s, k = Some s → state_ok s) →
  sees (advance_waiting W ref attempt task spec) t k (λ _ _ _, True).
Proof.
  intros Hclock Hc Hk. destruct (known_state k task Hc Hk) as (Hs & Hd & Hr). assert (spec_shape : wait_spec task = Ok (Some spec)) by apply Hc.
  apply read_spec_shape in spec_shape as (Ha & Hn & Hw). unfold advance_waiting.
  apply sees_bind, sees_call. cbv zeta. apply sees_bind, sees_on_wait. rewrite state_copy by done.
  apply sees_bind, sees_on_wait, sees_bind, sees_wait. 
  match goal with |- context [update (proj := tk_wait) (λ _, if ?b then ?x else ?y) ?t0] =>
    set (t1 := update (proj := tk_wait) (λ _, if b then x else y) t0) end.
  assert (calm (wait_state task) (tk_wait t1)) as E1 by (subst t1; split; cbn; by case_match).
  assert (state_ok (tk_wait t1)) as Hs1 by (by eapply calm_ok). clearbody t1. destruct E1 as [[= Er Ed _] _].
  apply sees_bind. apply sees_mono with (P := λ _ t' k', k' = k ∧ state_ok (tk_wait t') ∧
    ws_deliveries (tk_wait t') = ws_deliveries (wait_state task) ∧
    (∀ r, ws_result (wait_state task) = Some r → ws_result (tk_wait t') = Some r)).
  { case_bool_decide as En.
    - eapply sees_mono; [by apply sees_observe|]. intros _ t2 k2 (-> & H2s & H2d). split_and!; [done|done|congruence|congruence].
    - see. split_and!; [done|done|done|congruence]. }
  intros _ t2 ? (-> & Hs2 & Hd2 & Hr2). apply sees_bind, sees_wait, sees_bind.
  apply (sees_saved (wait_state task)); [done|done| | |done|].
  - intros a. by rewrite Hd2.
  - intros r Ek. split; [|apply Hr2; by rewrite Hr, Ek]. destruct k as [s|]; [|done]. by apply (so_result _ (Hk s eq_refl)).
  - intros t3 k3 E3 Hdel. destruct (ws_result (tk_wait t2)) as [r|] eqn:E2; [|by see].
    eapply sees_deliver_result; [by apply Hdel|done|done].
Qed.

Lemma sees_claim attempt task t k (Q : string → Tick → option WaitState → Prop) :
  (∀ a t', Q a t' k) → sees (claim W owner ref attempt task) t k Q.
Proof.
  intros HQ. unfold claim. see; try done; apply sees_emit; try done; see; apply sees_no_fault; by see.
Qed.

Lemma sees_claimed task attempt t k :
  keeps_time → carries k task → (∀ s, k = Some s → state_ok s) → sees (advance_claimed W ref task attempt) t k (λ _ _ _, True).
Proof.
  intros Hclock Hc Hk. unfold advance_claimed. apply sees_bind, sees_records, sees_bind.
  apply sees_mono with (P := λ _ t' k', k' = k).
  - case_bool_decide; [|by see]. see; apply sees_emit; try done; by see.
  - intros _ t1 ? ->. case_match; [by see|]. rewrite (cy_spec _ _ Hc). apply sees_bind, sees_lift. intros ? [= <-].
    by apply sees_waiting.
Qed.

(** A whole tick. *)
Lemma sees_advance depth task attempt t k :
  keeps_time → carries k task → (∀ s, k = Some s → state_ok s) → (∀ n task', w_show W n ref = inl task' → carries k task') →
  sees (advance_wait_card W owner depth task attempt) t k (λ _ _ _, True).
Proof.
  intros Hclock Hc Hk Hshow. revert task attempt t Hc. induction depth as [|depth IH]; intros task attempt t Hc; cbn [advance_wait_card];
    rewrite (cy_ref _ _ Hc); (apply sees_bind, sees_lift; intros ? [= <-]);
    (case_match; [apply sees_bind, sees_claim; intros a t1; unfold unless_fault|by apply sees_claimed]).
  - see; done.
  - see. apply IH. by eapply Hshow.
Qed.
End tick.
