(* ===== verification/WaitCardsRuns.v ===== *)
(** * The life of a wait

    Ticks over one wait card, each possibly cut by a crash after any of its
    effects and followed by a new dispatcher that reads the card back: one
    result, delivered and then moved on, and none that outlives its deadline. *)

From Stdlib Require Import Ascii.
From S2P Require Import Prelude PyText Program RequestIds JsonText Sha256 IsoTime PyStrings Board TerminalTaxonomy.
From S2P Require Import WaitCard WaitCardFacts GateBackend WaitCards WaitCardsFacts.

Section life.
Context `{PyRepr, IsoTime, JsonText, !JsonStr} (owner ref : string) (spec : WaitSpec).

(** [life log k]: everything the ticks so far have asked for, and what the card
    holds.  A tick reads the card as it is; what of its log happened before the
    dispatcher died is any prefix of it.  Only the dispatcher writes the
    [wait_state] field, and the spec is never changed. *)
Inductive life : list Event → option WaitState → Prop :=
| life_start : life [] None
| life_tick log k W depth task attempt t kept rest :
    life log k →
    keeps_time W →
    carries ref spec k task →
    (∀ n task', w_show W n ref = inl task' → carries ref spec k task') →
    (advance_wait_card W owner depth task attempt t).2 = kept ++ rest →
    life (log ++ kept) (nexts on_card k kept).

Notation checks := (checks on_card (proper ref spec)).

Lemma proper_states log k : checks k log → (∀ s, k = Some s → state_ok s) → ∀ s, nexts on_card k log = Some s → state_ok s.
Proof.
  revert k. induction log as [|e log IH]; intros k; cbn [checks nexts foldl]; [done|]. intros [He Hl] Hk. apply (IH _ Hl).
  intros s. destruct e; cbn; try apply Hk. intros [= ->]. apply He.
Qed.

Lemma life_checks log k : life log k → checks None log ∧ k = nexts on_card None log ∧ ∀ s, k = Some s → state_ok s.
Proof.
  induction 1 as [|log k W depth task attempt t kept rest _ (Hc & -> & Hok) Hclock Hcar Hshow Elog]; [done|].
  pose proof (sees_advance W owner ref spec depth task attempt t _ Hclock Hcar Hok Hshow) as Hs. unfold sees in Hs.
  destruct (advance_wait_card W owner depth task attempt t) as [[res t'] l]. cbn in Elog. subst l.
  destruct Hs as [Hs _]. apply checks_app in Hs as [Hkept _]. split_and!.
  - by apply checks_app.
  - symmetry. apply nexts_app.
  - by apply proper_states.
Qed.

(** The result on the card stands. *)
Lemma result_stands log k r : checks k log → card_result k = Some r →
  ∃ r', card_result (nexts on_card k log) = Some r' ∧ same r r'.
Proof.
  revert k r. induction log as [|e log IH]; intros k r; cbn [checks nexts foldl]; [by exists r|]. intros [He Hl] Hr.
  destruct e; cbn [on_card] in *; try by apply IH. destruct He as (_ & Hres & _). destruct (Hres r Hr) as (r1 & E1 & S1).
  destruct (IH _ r1 Hl E1) as (r2 & E2 & S2). exists r2. split; [done|]. by etransitivity.
Qed.

(** ** One result *)

(** Everything [e] says comes from the result [r]. *)
Definition made_of (r : Fields) (e : Event) : Prop :=
  match e with
  | EvClaim _ _ | EvSavedRecords => True
  | EvRecorded s => ws_result s = None ∨ ∃ r', ws_result s = Some r' ∧ same r' r
  | EvSubmit _ text request_id _ =>
      text = render_po_input ref spec r ∧
      ∃ a, a ∈ sp_returns spec ∧ request_id = delivery_request_id ref PO_DELIVERY a (result_key_of r)
  | EvSprintSession _ request_id | EvCreateSession _ _ _ request_id =>
      ∃ closed, request_id = delivery_request_id ref PO_SUCCESSOR closed (result_key_of r)
  | EvComment other body request_id =>
      (∃ a, a ∈ sp_returns spec ∧ other = returned_card a ∧ body = render_card_comment ref r ∧
            request_id = delivery_request_id ref CARD_COMMENT a (result_key_of r)) ∨
      (body = render_dependent_comment ref r ∧ request_id = delivery_request_id ref DEPENDENT_COMMENT other (result_key_of r))
  | EvMove other target _ request_id _ outcome =>
      outcome = Some (ended r) ∧
      ((other = ref ∧ target = (if String.eqb (ended r) TARGET_REACHED then "done" else "blocked") ∧
        request_id = delivery_request_id ref TERMINAL_MOVE OBSERVER (result_key_of r)) ∨
       (ended r ≠ TARGET_REACHED ∧ target = "blocked" ∧
        request_id = delivery_request_id ref DEPENDENT_BLOCKED other (result_key_of r)))
  end.

Lemma ended_same r r' : same r r' → ended r = ended r'.
Proof. intros [Hr _]. unfold ended. by rewrite Hr. Qed.

Lemma proper_made k e r : proper ref spec k e → (∀ r', card_result (on_card k e) = Some r' → same r' r) → made_of r e.
Proof.
  intros He Hr. destruct e; cbn [on_card] in Hr; try done.
  - cbn in Hr |- *. destruct (ws_result state) as [r'|]; [right; exists r'; auto|by left].
  - destruct He as (r' & Hk & -> & Hd). specialize (Hr r' Hk). cbn. rewrite <-(ended_same _ _ Hr), <-(same_key _ _ Hr).
    split; [done|]. destruct Hd as [(? & _ & ? & ?)|(_ & ? & ? & ?)]; [left|right]; done.
  - destruct He as (r' & Hk & Hd). specialize (Hr r' Hk). cbn.
    rewrite <-(same_key _ _ Hr), <-(same_card ref _ _ Hr), <-(same_dependent ref _ _ Hr).
    destruct Hd as [(a & (? & _) & ? & ? & ?)|(_ & ? & ?)]; [left; by exists a|right; done].
  - destruct He as (r' & a & Hk & (Ha & _) & -> & ->). specialize (Hr r' Hk). cbn.
    rewrite <-(same_key _ _ Hr), <-(same_input ref spec _ _ Hr). split; [done|]. by exists a.
  - destruct He as (r' & closed & Hk & ->). specialize (Hr r' Hk). exists closed. by rewrite (same_key _ _ Hr).
  - destruct He as (r' & closed & Hk & ->). specialize (Hr r' Hk). exists closed. by rewrite (same_key _ _ Hr).
Qed.

(** C11. One wait has one result.  Over any run of ticks, whatever the services
    answered and wherever the dispatcher died, there is one result such that
    every state written to the card holds it or none, and every PO input,
    comment, successor request and move carries its text, its outcome and a
    request id made of its key: a repeat after a crash is the same request. *)
Theorem one_result_per_wait log k : life log k → ∃ r, ∀ e, e ∈ log → made_of r e.
Proof.
  intros (Hc & -> & _)%life_checks. exists (default [] (card_result (nexts on_card None log))).
  intros e (l1 & l2 & ->)%list_elem_of_split. apply checks_app in Hc as [_ [He Hl]].
  apply (proper_made (nexts on_card None l1)); [done|]. intros r' Hr.
  replace (nexts on_card None (l1 ++ e :: l2)) with (nexts on_card (on_card (nexts on_card None l1) e) l2)
    by (unfold nexts; by rewrite foldl_app).
  destruct (result_stands l2 _ r' Hl Hr) as (r2 & -> & S2). done.
Qed.

(** C12. Freeze, deliver, move, in that order and each address once.  Over any
    such run, a delivery to an address is asked for only while the card itself
    holds the result and no record that the address took it; a dependent is
    Blocked only on an outcome that is not [target_reached]; and the wait card
    makes its terminal move only when the card records every address but the
    observer's as taken, to Done exactly on [target_reached].  No write to the
    card ever drops its result or a delivery. *)
Theorem freeze_deliver_move log k l1 e l2 :
  life log k → log = l1 ++ e :: l2 → proper ref spec (nexts on_card None l1) e.
Proof. intros (Hc & _)%life_checks ->. by apply checks_app in Hc as [_ [He _]]. Qed.

(** ** The deadline *)

(** What a timestamp of the source raises, if anything, is a refusal to read it. *)
Definition datable (text : string) : Prop := nonempty text = true → ∀ e, parse_utc text "happened_at" = Raise e → is_spec_error e = true.

(** The services answer or raise what the code expects, and the card takes
    what is written to it. *)
Record answering (W : World) : Prop := {
  an_gh : ∀ n e, w_gh W n ≠ RanRaise e;
  an_show : ∀ n r e, w_show W n r ≠ inr (OtherFault e);
  an_events : ∀ n r e, w_events W n r ≠ inr (OtherFault e);
  an_record : ∀ n, w_record W n = Took;
  an_save : ∀ n, w_save_records W n = None;
  an_run : ∀ n run, gh_api (w_gh W n) = GhValue (VDict run) → datable (py_str_or (get run "updated_at"));
  an_entered : ∀ n r events column, w_events W n r = inl events → datable (last_entered events column);
}.

(** The transient window that opened at [m] ends before the calendar does. *)
Definition window_fits (m : Z) : Prop := in_range (m / MICRO * MICRO + sp_window spec * MICRO) = true.

Lemma bind_quiet {A B} (m : TM A) (f : A → TM B) t a t' : m t = (Ok a, t', []) → (m ≫= f) t = f a t'.
Proof. intros E. unfold mbind, Prog_bind. rewrite E. by destruct (f a t') as [[? ?] ?]. Qed.

Lemma datable_utc m : in_range m = true → datable (utc_text m).
Proof. intros Hm _ e. by rewrite parse_utc_text. Qed.

Lemma not_after_returns text deadline : datable text → ∃ b, not_after text deadline = Ok b.
Proof.
  intros Hd. unfold not_after. destruct (nonempty text) eqn:En; [|by eexists]. unfold catch_spec.
  destruct (parse_utc text "happened_at") as [t|e] eqn:E; [by eexists|]. rewrite (Hd En e E). by eexists.
Qed.

Lemma window_end_returns s m : sp_window spec > 0 → in_range m = true → ws_error_since s = utc_text m → window_fits m →
  ∃ d, window_end s spec = Ok d.
Proof.
  intros Hw Hm Es Hf. unfold window_end. rewrite Es, parse_utc_text by done. cbn [mbind res_bind].
  unfold timedelta. rewrite !Z.mul_0_l, !Z.add_0_l. assert (Z.abs (sp_window spec / DAY) ≤ MAX_DELTA_DAYS) as Hd.
  { unfold window_fits in Hf. apply in_range_second in Hf, Hm. rewrite <-Z.mul_add_distr_r, Z.div_mul in Hf by done.
    unfold MIN_SECOND, MAX_SECOND, DAY, MAX_DELTA_DAYS in *. zdiv. }
  rewrite (proj2 (Z.leb_le _ _)) by exact Hd. cbn [mbind res_bind]. unfold add_duration. unfold window_fits in Hf. rewrite Hf. by eexists.
Qed.

Lemma settle_returns s c now m :
  ws_result s = None → in_range m = true → sp_deadline spec = utc_text m → m / MICRO * MICRO ≤ now →
  (∀ c', c = Some c' → datable (cd_happened_at c')) →
  ∃ s' r, settle s spec c now = Ok s' ∧ ws_result s' = Some r ∧ ended r ∈ [TARGET_REACHED; DEADLINE_PASSED].
Proof.
  intros Er Hm Ed Hnow Hc. unfold settle. rewrite Er, Ed, parse_utc_text by done. cbn [mbind res_bind].
  rewrite (proj2 (Z.ltb_ge _ _)) by done.
  assert (∀ c', cd_outcome c' ∈ [TARGET_REACHED; DEADLINE_PASSED] →
    ∃ s' r, Ok (freeze s c' now) = Ok s' ∧ ws_result s' = Some r ∧ ended r ∈ [TARGET_REACHED; DEADLINE_PASSED]) as Hf.
  { intros c' Ho. eexists _, _. split_and!; [done..|]. unfold ended.
    change (get (frozen c' now) "outcome") with (VStr (cd_outcome c')). by rewrite py_str_or_str. }
  destruct c as [c|]; [|cbn; apply Hf; set_solver]. destruct (String.eqb_spec (cd_outcome c) TARGET_REACHED) as [Ho|_].
  - destruct (not_after_returns (cd_happened_at c) (m / MICRO * MICRO)) as [b ->]; [by apply Hc|]. cbn [mbind res_bind].
    destruct b; apply Hf; [rewrite Ho; set_solver|cbn; set_solver].
  - cbn. apply Hf. cbn. set_solver.
Qed.

(** One look at the target returns, and whatever it saw has a readable time. *)
Lemma see_returns W now t :
  answering W → (wt_kind (sp_target spec) ≠ TARGET_RUN → wt_kind (sp_target spec) ≠ TARGET_CARD →
                 ∃ m, in_range m = true ∧ wt_at (sp_target spec) = utc_text m) →
  ∃ seen t', see W spec now t = (Ok seen, t', []) ∧ calm (tk_wait t) (tk_wait t') ∧
             match seen with Terminal c => datable (cd_happened_at c) | _ => True end.
Proof.
  intros HW Hat. unfold see. destruct (String.eqb_spec (wt_kind (sp_target spec)) TARGET_RUN) as [Hk|Hk];
    [|destruct (String.eqb_spec (wt_kind (sp_target spec)) TARGET_CARD) as [Hk'|Hk']].
  - pose proof (an_run _ HW (tk_calls t)) as Hrun. pose proof (an_gh _ HW (tk_calls t)) as Hgh.
    erewrite bind_quiet by reflexivity. unfold through. erewrite bind_quiet by reflexivity.
    assert (∃ s' seen, observe_run spec (tk_wait t) now (gh_api (w_gh W (tk_calls t))) = Ok (s', seen) ∧
      match seen with Terminal c => datable (cd_happened_at c) | _ => True end) as (s' & seen & E & Hd).
    { unfold observe_run. destruct (gh_api (w_gh W (tk_calls t))) as [v|m|m|e] eqn:Eg.
      - destruct v as [| | | | | |run]; try (by eexists _, _). destruct (py_truthy (get run "status")); [|by eexists _, _].
        case_match; [by eexists _, _|]. eexists _, _. split; [done|]. by apply Hrun.
      - by eexists _, _.
      - eexists _, _. split; [done|]. unfold classified. by destruct (_ || _).
      - exfalso. unfold gh_api in Eg. destruct (w_gh W (tk_calls t)) as [code out err|m|e']; [|done|by destruct (Hgh e')].
        by repeat case_match. }
    apply observe_run_ok in E as Hcalm. destruct Hcalm as [Hcalm _].
    cbn [tk_wait]. change (tk_wait (t <| tk_calls := S (tk_calls t) |>)) with (tk_wait t). rewrite E.
    eexists seen, _. split; [reflexivity|]. done.
  - unfold observe_card. erewrite bind_quiet by reflexivity. pose proof (an_show _ HW (tk_calls t) (wt_ref (sp_target spec))) as Hshow.
    destruct (w_show W (tk_calls t) (wt_ref (sp_target spec))) as [card|[code message|e]]; [| |by destruct (Hshow e)].
    + cbv zeta. case_match.
      * erewrite bind_quiet by reflexivity. eexists _, _. split; [reflexivity|]. split; [apply calm_observed|done].
      * erewrite bind_quiet by reflexivity. unfold entered_at.
        set (t1 := _ <| tk_wait := _ |>). pose proof (an_events _ HW (tk_calls t1) (wt_ref (sp_target spec))) as Hev.
        pose proof (an_entered _ HW (tk_calls t1) (wt_ref (sp_target spec))) as Hent.
        assert (calm (tk_wait t) (tk_wait t1)) as Hcalm by apply calm_observed. clearbody t1.
        destruct (w_events W (tk_calls t1) (wt_ref (sp_target spec))) as [events|[code message|e]] eqn:Ee; [| |by destruct (Hev e)].
        -- erewrite bind_quiet; [|erewrite bind_quiet by reflexivity; rewrite Ee; reflexivity].
           eexists _, _. split; [reflexivity|]. split; [done|]. by apply Hent.
        -- erewrite bind_quiet; [|erewrite bind_quiet by reflexivity; rewrite Ee; reflexivity].
           by eexists _, _.
    + eexists _, _. split; [reflexivity|]. split; [done|]. by destruct (String.eqb code _).
  - unfold through. erewrite bind_quiet by reflexivity. destruct (Hat Hk Hk') as (m & Hm & Em).
    unfold observe_time. rewrite Em, parse_utc_text by done. cbn [mbind res_bind].
    case_match; (eexists _, _; split; [reflexivity|]); (split; [apply calm_observed|]); [done|]. by apply datable_utc.
Qed.

(** The moments at which a silence may have begun, in a tick at [now] over [s]. *)
Definition windows_fit (now : Z) (s : WaitState) : Prop :=
  window_fits now ∧ ∀ m, in_range m = true → ws_error_since s = utc_text m → window_fits m.

Lemma look_returns W task now t :
  answering W → in_range now = true → 0 < sp_window spec →
  (wt_kind (sp_target spec) ≠ TARGET_RUN → wt_kind (sp_target spec) ≠ TARGET_CARD →
   ∃ m, in_range m = true ∧ wt_at (sp_target spec) = utc_text m) →
  stamped (ws_error_since (tk_wait t)) → windows_fit now (tk_wait t) →
  ∃ c t', look W task spec now t = (Ok c, t', []) ∧ ws_result (tk_wait t') = ws_result (tk_wait t) ∧
          ∀ c', c = Some c' → datable (cd_happened_at c').
Proof.
  intros HW Hnow Hw Hat Hst [Hf Hf']. unfold look. destruct (wait_cancel task) as [c|].
  { eexists _, _. split; [reflexivity|]. split; [done|]. by intros c' [= <-]. }
  destruct (see_returns W now t HW Hat) as (seen & t1 & E & [Ec Es] & Hd). rewrite (bind_quiet _ _ _ _ _ E). injection Ec as Er _ _.
  destruct seen as [|c|m|m].
  - eexists _, _. split; [reflexivity|]. done.
  - eexists _, _. split; [reflexivity|]. split; [done|]. by intros c' [= <-].
  - eexists _, _. split; [reflexivity|]. split; [done|]. by intros c' [= <-].
  - cbv zeta. erewrite bind_quiet by reflexivity. erewrite bind_quiet by reflexivity. set (t2 := _ <| tk_wait := _ |>).
    assert (∃ d, window_end (tk_wait t2) spec = Ok d) as [d Ew].
    { assert (∃ x, in_range x = true ∧ ws_error_since (tk_wait t2) = utc_text x ∧ window_fits x) as (x & Hx & Ex & Hfx).
      { change (tk_wait t2) with (note_error (tk_wait t1) (str_take 500 m) now). unfold note_error. rewrite Es.
        destruct Hst as [E0|(x & Hx & Ex)]; [rewrite E0; exists now; by case_match|].
        exists x. rewrite Ex, utc_text_nonempty by done. split_and!; [done|case_match; cbn; congruence|by apply Hf']. }
      by apply (window_end_returns _ x); [lia|..]. }
    rewrite Ew. eexists _, _. split; [reflexivity|]. split; [|case_match; [done|]; by intros c' [= <-]].
    pose proof (core_noted (tk_wait t1) (str_take 500 m) now) as En. injection En as En _ _.
    change (tk_wait t2) with (note_error (tk_wait t1) (str_take 500 m) now). congruence.
Qed.

Lemma observe_returns W task now t m :
  answering W → in_range now = true → 0 < sp_window spec →
  (wt_kind (sp_target spec) ≠ TARGET_RUN → wt_kind (sp_target spec) ≠ TARGET_CARD →
   ∃ m, in_range m = true ∧ wt_at (sp_target spec) = utc_text m) →
  in_range m = true → sp_deadline spec = utc_text m → m / MICRO * MICRO ≤ now →
  stamped (ws_error_since (tk_wait t)) → windows_fit now (tk_wait t) → ws_result (tk_wait t) = None →
  ∃ t' r, observe W task spec now t = (Ok tt, t', []) ∧ ws_result (tk_wait t') = Some r ∧
          ended r ∈ [TARGET_REACHED; DEADLINE_PASSED].
Proof.
  intros HW Hnow Hw Hat Hm Ed Hle Hst Hf Hr. destruct (look_returns W task now t HW Hnow Hw Hat Hst Hf) as (c & t1 & E & Er & Hc).
  unfold observe. rewrite (bind_quiet _ _ _ _ _ E). erewrite bind_quiet by reflexivity.
  destruct (settle_returns (tk_wait t1) c now m) as (s' & r & Es & Hr' & Ho); [congruence|done..|]. rewrite Es.
  eexists _, r. split; [reflexivity|]. done.
Qed.

Lemma waiting_freezes W attempt task t k m :
  answering W → keeps_time W → carries ref spec k task → (∀ s, k = Some s → state_ok s) → card_result k = None →
  in_range m = true → sp_deadline spec = utc_text m → (∀ n, m / MICRO * MICRO ≤ w_clock W n) →
  (∀ n, window_fits (w_clock W n)) → (∀ s x, k = Some s → in_range x = true → ws_error_since s = utc_text x → window_fits x) →
  ∃ s r log, (advance_waiting W ref attempt task spec t).2 = EvRecorded s :: log ∧ ws_result s = Some r ∧
             ended r ∈ [TARGET_REACHED; DEADLINE_PASSED].
Proof.
  intros HW Hclock Hc Hk Hr Hm Ed Hle Hfit Hfit'. destruct (known_state ref spec k task Hc Hk) as (Hs & _ & Hres).
  destruct (read_spec_shape task spec (cy_spec _ _ _ _ Hc)) as (_ & _ & Hw).
  destruct (read_spec_times task spec (cy_spec _ _ _ _ Hc)) as (_ & Hat). rewrite Hr in Hres. cbn in Hres.
  unfold advance_waiting. erewrite bind_quiet by reflexivity. cbv zeta. erewrite bind_quiet by reflexivity.
  rewrite state_copy by done. erewrite bind_quiet by reflexivity. erewrite bind_quiet by reflexivity.
  match goal with |- context [update (proj := tk_wait) (λ _, if ?b then ?x else ?y) ?t0] =>
    set (t1 := update (proj := tk_wait) (λ _, if b then x else y) t0) end.
  assert (calm (wait_state task) (tk_wait t1)) as Hcalm by (subst t1; split; cbn; by case_match). clearbody t1.
  assert (state_ok (tk_wait t1)) as Hs1 by by eapply calm_ok. destruct Hcalm as [[= Er _ _] Es].
  rewrite Hres in Er. rewrite (bool_decide_true (ws_result (tk_wait t1) = None)) by exact Er.
  destruct (observe_returns W task (w_clock W (tk_calls t)) t1 m) as (t2 & r & Eo & Hr2 & Ho); try done; try congruence.
  - rewrite Es. apply Hs.
  - split; [done|]. rewrite Es. intros x Hx Ex. destruct k as [s|].
    + apply (Hfit' s x eq_refl Hx). by rewrite (wait_state_text task s (cy_state _ _ _ _ Hc) (Hk s eq_refl)) in Ex.
    + rewrite (wait_state_absent task (cy_state _ _ _ _ Hc)) in Ex. cbn in Ex. pose proof (utc_text_nonempty x Hx) as Hne. by rewrite <-Ex in Hne.
  - rewrite (bind_quiet _ _ _ _ _ Eo). erewrite bind_quiet by reflexivity.
    pose proof (sees_observe W ref spec task (w_clock W (tk_calls t)) t1 k Hw (Hclock _)) as Hso. unfold sees in Hso. rewrite Eo in Hso.
    destruct (Hso Hs1) as [_ (_ & Hs2 & _)].
    destruct (String.eqb_spec (state_text (tk_wait t2)) (state_text (wait_state task))) as [Et|_].
    + exfalso. apply same_text in Et; [|done..]. by rewrite Hr2, Hres in Et.
    + exists (tk_wait t2), r. unfold record, wait, call, emit, mbind, Prog_bind. rewrite (an_record _ HW), Hr2. cbn.
      destruct (deliver_result _ _ _ _ _ _) as [[? ?] ?]. eexists. split; [reflexivity|]. done.
Qed.

(** The card is claimed: the tick goes on to observe it. *)
Lemma advance_in_progress W depth task attempt t :
  ref_of task = Ok ref → py_str_or (get task "state") = "in_progress" → wait_spec task = Ok (Some spec) → answering W →
  ∃ l0 t0, nexts on_card None l0 = None ∧ (∀ k, nexts on_card k l0 = k) ∧
    (advance_wait_card W owner depth task attempt t).2 = l0 ++ (advance_waiting W ref attempt task spec t0).2.
Proof.
  intros Hr Hcol Hspec HW.
  assert (advance_wait_card W owner depth task attempt t = advance_claimed W ref task attempt t) as ->.
  { destruct depth; cbn [advance_wait_card]; rewrite Hr; (erewrite bind_quiet by reflexivity); by rewrite Hcol. }
  unfold advance_claimed. rewrite Hcol, Hspec. erewrite bind_quiet by reflexivity. case_bool_decide.
  - exists [EvSavedRecords]. unfold on_tick, emit, call, mbind, Prog_bind. rewrite (an_save _ HW). cbn.
    destruct (advance_waiting _ _ _ _ _ _) as [[? ?] ?] eqn:E. eexists. split_and!; [done..|]. rewrite E. done.
  - exists []. erewrite bind_quiet by reflexivity. cbn. erewrite bind_quiet by reflexivity. by eexists.
Qed.

(** C26. No wait outlives its deadline, as long as its unreachable windows end
    within the calendar.  A tick over a claimed card, at or past the deadline,
    after any run, in which the services answer or fail as the code expects, the
    card takes what is written, and the window counted from the clock or from a
    stored failure ends at a time that can be written ([window_fits]; without it
    the tick raises before it looks at the deadline, as
    [endless_window_outlives_deadline] shows), ends with a result on the card,
    whatever the target is doing; and when it is this tick that freezes it, the
    outcome is [deadline_passed], or [target_reached], and never a cancel or an
    unreachable source.  What the delivery does afterwards does not matter. *)
Theorem no_wait_outlives_its_deadline log W depth task attempt t k deadline :
  life log k → answering W → keeps_time W → carries ref spec k task →
  (∀ n task', w_show W n ref = inl task' → carries ref spec k task') →
  py_str_or (get task "state") = "in_progress" →
  parse_utc (sp_deadline spec) "deadline" = Ok deadline → (∀ n, deadline ≤ w_clock W n) →
  (∀ n, window_fits (w_clock W n)) →
  (∀ s x, k = Some s → in_range x = true → ws_error_since s = utc_text x → window_fits x) →
  ∃ r, card_result (nexts on_card k (advance_wait_card W owner depth task attempt t).2) = Some r ∧
       (card_result k = None → ended r ∈ [TARGET_REACHED; DEADLINE_PASSED]).
Proof.
  intros (_ & _ & Hk)%life_checks HW Hclock Hc Hshow Hcol Hd Hle Hfit Hfit'.
  pose proof (sees_advance W owner ref spec depth task attempt t k Hclock Hc Hk Hshow) as Hs. unfold sees in Hs.
  assert (checks k (advance_wait_card W owner depth task attempt t).2) as Hch
    by (destruct (advance_wait_card W owner depth task attempt t) as [[? ?] ?]; apply Hs). clear Hs.
  destruct (card_result k) as [r|] eqn:Er.
  { destruct (result_stands _ _ r Hch Er) as (r' & E' & _). by exists r'. }
  destruct (read_spec_times task spec (cy_spec _ _ _ _ Hc)) as ((m & Hm & Em) & _).
  rewrite Em, parse_utc_text in Hd by done. injection Hd as <-.
  destruct (advance_in_progress W depth task attempt t (cy_ref _ _ _ _ Hc) Hcol (cy_spec _ _ _ _ Hc) HW) as (l0 & t0 & _ & Hl0 & El).
  rewrite El in Hch |- *. destruct (waiting_freezes W attempt task t0 k m) as (s & r & log2 & Elog & Hr & Ho); try done.
  rewrite Elog in Hch |- *. apply checks_app in Hch as [_ Hch]. rewrite Hl0 in Hch. destruct Hch as [_ Hch].
  destruct (result_stands _ _ r Hch Hr) as (r' & E' & S'). exists r'. rewrite nexts_app, Hl0. split; [exact E'|].
  intros _. by rewrite <-(ended_same _ _ S').
Qed.

(** A late fact does not count.  Whatever one observation brings: before the
    deadline what it saw, if anything, becomes the result as it is; from the
    deadline on there is a result, and its outcome is [target_reached] exactly
    when the target was seen reached and the source's own timestamp says it was
    at or before the deadline, and [deadline_passed] in every other case, a
    cancel and an unreachable source included. *)
Theorem late_facts_do_not_count s c now deadline s' :
  settle s spec c now = Ok s' → ws_result s = None → parse_utc (sp_deadline spec) "deadline" = Ok deadline →
  (now < deadline ∧ ws_result s' = (λ c, frozen c now) <$> c) ∨
  (deadline ≤ now ∧ ∃ r, ws_result s' = Some r ∧ ended r ∈ [TARGET_REACHED; DEADLINE_PASSED] ∧
     (ended r = TARGET_REACHED ↔
        ∃ c' t, c = Some c' ∧ cd_outcome c' = TARGET_REACHED ∧ nonempty (cd_happened_at c') = true ∧
                parse_utc (cd_happened_at c') "happened_at" = Ok t ∧ t ≤ deadline)).
Proof.
  intros E Hr Hd. unfold settle in E. rewrite Hr, Hd in E. cbn [mbind res_bind] in E.
  destruct (Z.ltb_spec now deadline) as [Hlt|Hge]; [left; split; [done|]; destruct c; by injection E as <-|right; split; [done|]].
  assert (∀ c', ended (frozen c' now) = cd_outcome c') as He by (intros c'; apply py_str_or_str).
  apply bind_Ok in E as (b & Eb & [= <-]). destruct c as [c|].
  - destruct (String.eqb_spec (cd_outcome c) TARGET_REACHED) as [Ho|Ho].
    + unfold not_after in Eb. destruct (nonempty (cd_happened_at c)) eqn:En.
      * apply bind_Ok in Eb as (o & Eo & [= <-]). unfold catch_spec in Eo.
        destruct (parse_utc (cd_happened_at c) "happened_at") as [t|e] eqn:Ep.
        -- injection Eo as <-. destruct (Z.leb_spec t deadline); (eexists; split; [done|]); rewrite He; cbn.
           ++ split; [rewrite Ho; set_solver|]. split; [|done]. intros _. exists c, t. done.
           ++ split; [set_solver|]. split; [done|]. intros (c1 & t1 & Ec & _ & _ & Et & Hle). assert (t1 = t) by congruence. lia.
        -- destruct (is_spec_error e); [|done]. injection Eo as <-. eexists; split; [done|]. rewrite He; cbn.
           split; [set_solver|]. split; [done|]. intros (c1 & t1 & Ec & _ & _ & Et & _). congruence.
      * injection Eb as <-. eexists; split; [done|]. rewrite He; cbn. split; [set_solver|]. split; [done|].
        intros (c1 & t1 & Ec & _ & Hn & _). congruence.
    + injection Eb as <-. eexists; split; [done|]. rewrite He; cbn. split; [set_solver|]. split; [done|].
      intros (c1 & t1 & Ec & Ho1 & _). congruence.
  - injection Eb as <-. eexists; split; [done|]. rewrite He; cbn. split; [set_solver|]. split; [done|].
    by intros (c1 & t1 & Ec & _).
Qed.
End life.
