(* ===== verification/WaitCardsWitnesses.v ===== *)
(** * Wait cards at concrete inputs

    A wait for a run of a workflow, created, ticked and ended, and what the
    theorems say there; then the findings, closed runs in which the code departs
    from its own documentation. *)

From Stdlib Require Import Ascii.
From S2P Require Import Prelude PyText Program RequestIds JsonText Json JsonStandIn Sha256 IsoTime PyStrings Board TerminalTaxonomy.
From S2P Require Import WaitCard WaitCardFacts GateBackend WaitCards WaitCardsFacts WaitCardsRuns.

(** 2026-09-28T10:00:00Z. *)
Definition noon : Z := 1790589600 * MICRO.

Definition an_input (run window : string) (returns : list string) : WaitInput := {|
  in_run := run; in_run_id := ""; in_card := ""; in_states := ""; in_until := ""; in_deadline := "2h";
  in_returns := returns; in_transient_window := window; in_sprint := "s-1" |}.

Definition RUN_URL : string := "https://github.com/acme/app/actions/runs/42".

Definition spec_of (i : WaitInput) : WaitSpec :=
  match build_wait_spec i noon with
  | Ok s => s
  | Raise _ => {| sp_target := time_target ""; sp_deadline := ""; sp_returns := []; sp_created_at := ""; sp_window := 1 |}
  end.

Definition a_spec : WaitSpec := spec_of (an_input RUN_URL "" ["po-session:abc, observer"]).

(** The card as the store shows it. *)
Definition card_with (column : string) (bag : Fields) : Fields :=
  [("ref", VStr "app-7"); ("type", VStr "wait"); ("state", VStr column); ("extensions", VDict [("extra", VDict bag)])].

Definition card_of (column : string) (spec : WaitSpec) (state : option WaitState) : Fields :=
  card_with column ([("wait", VStr (spec_text spec))] ++ match state with Some s => [("wait_state", VStr (state_text s))] | None => [] end).

(** The tool answers [ran] at the time [now]; everybody takes everything. *)
Definition world (now : Z) (ran : Ran) : World := {|
  w_clock _ := now; w_committed _ _ := inl false; w_new_attempt _ := "attempt-2"; w_rfc3339 _ := "";
  w_save_records _ := None; w_claim _ := None; w_show _ _ := inr (TaskFault "not_found" "no card");
  w_list _ := inl []; w_events _ _ := inl []; w_comment _ := None; w_move _ := None; w_record _ := Took;
  w_gh _ := ran; w_sprint _ _ := inl []; w_submit _ := None; w_request _ _ := inl None; w_queued _ _ := inl None;
  w_sprint_session _ := inl []; w_choice _ _ := inl None; w_create _ := inl [] |}.

Definition Q : string := String DQUOTE "".
Definition json_text_of (key value : string) : string := Q +:+ key +:+ Q +:+ ":" +:+ Q +:+ value +:+ Q.

(** A run that completed at [at_], and a tool that prints nothing. *)
Definition completed (at_ : string) : Ran :=
  RanCode 0 ("{" +:+ json_text_of "status" "completed" +:+ "," +:+ json_text_of "conclusion" "success" +:+ ","
             +:+ json_text_of "updated_at" at_ +:+ "}") "".
Definition silence : Ran := RanCode 1 "" "".

Definition a_tick : Tick := {| tk_wait := new_wait_state; tk_calls := 0; tk_records := []; tk_payload := [] |}.

Definition run_tick (now : Z) (ran : Ran) (task : Fields) : res Fields * Tick * list Event :=
  advance_wait_card (world now ran) "ummanu" 4 task "attempt-1" a_tick.

Definition hour : Z := 3600 * MICRO.

(** The tick in which the run's conclusion is seen. *)
Definition ending : list Event := (run_tick (noon + hour) (completed "2026-09-28T10:30:00Z") (card_of "in_progress" a_spec None)).2.

Definition kind_of (e : Event) : string :=
  match e with
  | EvClaim _ _ => "claim" | EvSavedRecords => "records" | EvRecorded _ => "state" | EvMove _ target _ _ _ _ => target
  | EvComment _ _ _ => "comment" | EvSubmit s _ _ _ => s | EvSprintSession _ _ => "sprint" | EvCreateSession _ _ _ _ => "create"
  end.

Example ending_in_order : kind_of <$> ending = ["state"; "abc"; "state"; "done"].
Proof. vm_compute. reflexivity. Qed.

Example ending_request : (λ e, match e with EvSubmit _ _ id _ => id | _ => "" end) <$> (ending !! 1%nat)
  = Some "dispatcher-wait-po-app-7-po-session-abc-0a074b0a259d191d".
Proof. vm_compute. reflexivity. Qed.

Lemma a_card_carries : carries "app-7" a_spec None (card_of "in_progress" a_spec None).
Proof. split; vm_compute; reflexivity. Qed.

Lemma world_time now ran : in_range now = true → keeps_time (world now ran).
Proof. by intros Hn n. Qed.

(** A card's first tick, run to its end. *)
Lemma first_tick owner ref spec W depth task attempt t :
  keeps_time W → carries ref spec None task → (∀ n, ∃ e, w_show W n ref = inr e) →
  life owner ref spec (advance_wait_card W owner depth task attempt t).2
    (nexts on_card None (advance_wait_card W owner depth task attempt t).2).
Proof.
  intros HW Hc Hs. apply (life_tick _ _ _ [] None W depth task attempt t _ []); [constructor|done..| |].
  - intros n task' E. destruct (Hs n) as [e He]. congruence.
  - symmetry. apply app_nil_r.
Qed.

Lemma ending_life : life "ummanu" "app-7" a_spec ending (nexts on_card None ending).
Proof.
  apply first_tick.
  - by apply world_time.
  - exact a_card_carries.
  - intros n. by eexists.
Qed.

Lemma one_result_per_wait_witness :
  kind_of <$> ending = ["state"; "abc"; "state"; "done"] ∧ ∃ r, ∀ e, e ∈ ending → made_of "app-7" a_spec r e.
Proof. split; [vm_compute; reflexivity|]. exact (one_result_per_wait _ _ _ _ _ ending_life). Defined.

(** The submission to the session, and the move to Done. *)
Lemma freeze_deliver_move_witness :
  ∃ e1 e2 e3 e4, ending = [e1; e2; e3; e4] ∧ proper "app-7" a_spec (on_card None e1) e2 ∧
    proper "app-7" a_spec (on_card (on_card (on_card None e1) e2) e3) e4.
Proof.
  pose proof ending_in_order as Ho. destruct ending as [|e1 [|e2 [|e3 [|e4 [|]]]]] eqn:E; try discriminate Ho.
  exists e1, e2, e3, e4. split; [done|]. pose proof ending_life as Hl. rewrite E in Hl. split.
  - exact (freeze_deliver_move _ _ _ _ _ [e1] e2 [e3; e4] Hl eq_refl).
  - exact (freeze_deliver_move _ _ _ _ _ [e1; e2; e3] e4 [] Hl eq_refl).
Defined.

(** GitHub is silent, and the deadline has come. *)
Lemma silent_answering now : in_range now = true → answering (world now silence).
Proof. intros Hn. split; try done. by intros n r ev column [= <-] Hne. Qed.

Lemma no_wait_outlives_its_deadline_witness :
  ∃ r, card_result (nexts on_card None (run_tick (noon + 2 * hour) silence (card_of "in_progress" a_spec None)).2) = Some r ∧
       (card_result None = None → ended r ∈ [TARGET_REACHED; DEADLINE_PASSED]).
Proof.
  refine (no_wait_outlives_its_deadline "ummanu" "app-7" a_spec [] (world (noon + 2 * hour) silence) 4
            (card_of "in_progress" a_spec None) "attempt-1" a_tick None (noon + 2 * hour) _ _ _ _ _ _ _ _ _ _).
  - constructor.
  - by apply silent_answering.
  - by apply world_time.
  - exact a_card_carries.
  - done.
  - vm_compute. reflexivity.
  - vm_compute. reflexivity.
  - intros n. apply Z.le_refl.
  - intros n. vm_compute. reflexivity.
  - done.
Defined.

(** The run completed in time and is seen late; a cancel seen late. *)
Definition reached_at (at_ : string) : Candidate :=
  {| cd_outcome := TARGET_REACHED; cd_fact := []; cd_summary := "reached"; cd_evidence := ""; cd_happened_at := at_ |}.

Lemma late_facts_do_not_count_witness :
  let c := reached_at "2026-09-28T10:30:00Z" in
  let s' := freeze new_wait_state c (noon + 3 * hour) in
  settle new_wait_state a_spec (Some c) (noon + 3 * hour) = Ok s' ∧
  ∃ r, ws_result s' = Some r ∧ ended r = TARGET_REACHED.
Proof.
  cbv zeta. assert (settle new_wait_state a_spec (Some (reached_at "2026-09-28T10:30:00Z")) (noon + 3 * hour)
    = Ok (freeze new_wait_state (reached_at "2026-09-28T10:30:00Z") (noon + 3 * hour))) as E by (vm_compute; reflexivity).
  split; [exact E|].
  destruct (late_facts_do_not_count a_spec new_wait_state _ _ (noon + 2 * hour) _ E eq_refl) as [[Hlt _]|(_ & r & Hr & _ & Hiff)].
  - vm_compute. reflexivity.
  - exfalso. revert Hlt. vm_compute. discriminate.
  - exists r. split; [exact Hr|]. apply Hiff. eexists _, (noon + 1800 * MICRO). split; [reflexivity|]. split; [reflexivity|].
    split; [reflexivity|]. split; [vm_compute; reflexivity|]. vm_compute. discriminate.
Defined.

Lemma created_spec_reads_back_witness :
  build_wait_spec (an_input RUN_URL "" ["po-session:abc, observer"]) noon = Ok a_spec ∧
  wait_spec (card_of "ready" a_spec None) = Ok (Some a_spec).
Proof.
  assert (build_wait_spec (an_input RUN_URL "" ["po-session:abc, observer"]) noon = Ok a_spec) as E by (vm_compute; reflexivity).
  split; [exact E|]. refine (created_spec_reads_back _ _ _ _ E _ _ _).
  - vm_compute. reflexivity.
  - intros _. vm_compute. discriminate.
  - reflexivity.
Defined.

(** ** Findings *)

(** What a tick over the card made of a spec returns or raises, and what it
    asked for. *)
Definition tick_over (spec : WaitSpec) (now : Z) (ran : Ran) : res Fields * list Event :=
  let '(answer, _, log) := run_tick now ran (card_of "in_progress" spec None) in (answer, log).

Definition endless_input : WaitInput := an_input RUN_URL "9999999d" ["observer"].

(** A transient window the creation accepts disables the deadline.  A wait
    created with a window of 9999999 days, over a source that does not answer,
    raises OverflowError out of every tick before the deadline is looked at, on
    the deadline and fifty years after it alike; nothing is written to the
    card, so nothing ever ends the wait. *)
Theorem endless_window_outlives_deadline :
  build_wait_spec endless_input noon = Ok (spec_of endless_input) ∧
  Forall (λ now, tick_over (spec_of endless_input) now silence = (Raise date_overflow, []))
    [noon + hour; noon + 2 * hour; noon + 3 * hour; noon + 24 * hour; noon + 8766 * hour; noon + 438300 * hour].
Proof. split; [|repeat constructor]; vm_compute; reflexivity. Qed.

Definition run_zero_input : WaitInput := an_input "https://github.com/acme/app/actions/runs/0" "" ["observer"].

(** A run URL may name run 0, and the wait is then lost.  [--wait-run-id 0]
    is refused, but the URL of run 0 passes the creation, is written to the card
    and does not read back: the first tick Blocks the card as malformed without
    a delivery to its return addresses. *)
Theorem run_zero_is_lost :
  (∃ msg, parse_run_target "acme/app" "0" = Raise (WaitSpecError msg)) ∧
  build_wait_spec run_zero_input noon = Ok (spec_of run_zero_input) ∧
  wait_spec (card_of "ready" (spec_of run_zero_input) None) = Ok None ∧
  kind_of <$> (tick_over (spec_of run_zero_input) (noon + hour) (completed "2026-09-28T10:30:00Z")).2 = ["blocked"].
Proof. split; [eexists|]; vm_compute; [reflexivity|]. repeat split. Qed.

(** A stored spec whose [states] holds a list raises out of the reader instead
    of reading as absent. *)
Example unhashable_state_raises :
  wait_spec (card_with "in_progress" [("wait", VDict [
    ("target", VDict [("kind", VStr "card"); ("ref", VStr "app-1"); ("states", VList [VList []])])])])
  = Raise (Exn "TypeError" "unhashable type: 'list'").
Proof. vm_compute. reflexivity. Qed.
