(* ===== verification/E2eBudget.v ===== *)
(** * The e2e run budget (board/e2e_budget.py)

    What a sprint, or a card outside every sprint, may spend on e2e runs, how the
    owner's recorded answer raises it, and which decision card a raise needs. *)

From Stdlib Require Import Ascii.
From S2P Require Import Prelude PyText RequestIds JsonText Sha256 PyStrings Board WaitCard GateBackend.

Definition DEFAULT_E2E_BUDGET : Z := 3.
Definition CARD_E2E_CAP : Z := 3.
Definition E2E_CAP_FIELD : string := "e2e_cap".
Definition SPRINT_BUDGET_RAISED : string := "e2e_budget_raised".
Definition CARD_CAP_RAISED : string := "e2e_cap_raised".
Definition AFTER_MERGE_DISPATCH_INFIX : string := "-e2e-am-".
Definition SPRINT_DECISION_ACTION : string := "e2e-budget".
Definition CARD_DECISION_ACTION : string := "e2e-cap".
Definition BATCH_DECISION_ACTION : string := "e2e-caps".

(** board/owner_handover.py *)
Definition OWNER_ROLE : string := "owner".
Definition HANDED_TO_OWNER : string := "handed_to_owner".

(** A [TaskError]: its code is part of the class here. *)
Definition TaskError (code message : string) : exn := Exn ("TaskError " +:+ code) message.
Definition refused (message : string) : exn := TaskError "authorization_refused" message.

(** ** Decision cards *)

Definition token (value : string) : string := request_token value.

Definition is_sprint_ref (scope_ref : string) : bool := String.prefix "sprint:" scope_ref.

Definition decision_prefix (scope_ref : string) : string :=
  let action := if is_sprint_ref scope_ref then SPRINT_DECISION_ACTION else CARD_DECISION_ACTION in
  String.concat "-" (token <$> ["dispatcher"; action; scope_ref]) +:+ "-".

Definition decision_request_id (scope_ref : string) (generation : Z) : string :=
  decision_prefix scope_ref +:+ pretty generation.

Definition batch_decision_request_id (spent : list string) (generation : Z) : string :=
  "dispatcher-" +:+ BATCH_DECISION_ACTION +:+ "-" +:+ pretty generation +:+ "-" +:+ String.concat "." (token <$> spent).

(** [_BATCH_DECISION.fullmatch]: the group. *)
Definition batch_match (s : string) : option string :=
  let prefix := "dispatcher-e2e-caps-" in
  if String.prefix prefix s then
    let '(d, r) := span_digits (str_drop (String.length prefix) s) in
    match r with
    | String c cards =>
        if nonempty d && Ascii.eqb c "-" && nonempty cards && str_all (other_than NEWLINE) cards then Some cards else None
    | "" => None
    end
  else None.

Definition batch_decision_cards (request_id : string) : list string :=
  match batch_match request_id with Some cards => str_split "." cards | None => [] end.

(** [re.fullmatch(re.escape(decision_prefix(scope_ref)) + "[0-9]+", created_id)]. *)
Definition decides_scope (scope_ref created_id : string) : bool :=
  let prefix := decision_prefix scope_ref in
  String.prefix prefix created_id && is_ascii_digits (str_drop (String.length prefix) created_id).

(** ** Views *)

Record ChargeView := { cv_card : string; cv_dispatch_id : string; cv_at : string }.

Record BudgetView := {
  bv_budget : Z; bv_used : Z; bv_summary : string; bv_after_merge : nat; bv_cards : list string;
  bv_charges : list ChargeView
}.

Section views.
Context `{PyRepr, JsonText, !JsonStr}.

Definition charge_view (item : pyval) : option ChargeView :=
  match item with
  | VDict d => Some {| cv_card := py_str_or (get d "card"); cv_dispatch_id := py_str_or (get d "dispatch_id");
                       cv_at := py_str_or (get d "at") |}
  | _ => None
  end.

Definition budget_view (budget used : Z) (charges : list pyval) : BudgetView :=
  let listed := omap charge_view charges in
  let after_merge := length (filter (λ c, str_contains AFTER_MERGE_DISPATCH_INFIX (cv_dispatch_id c) = true) listed) in
  {| bv_budget := budget; bv_used := used;
     bv_summary := "e2e: " +:+ pretty used +:+ " of " +:+ pretty budget
                   +:+ (if (after_merge =? 0)%nat then "" else " (" +:+ pretty after_merge +:+ " after merge)");
     bv_after_merge := after_merge;
     bv_cards := unique (filter (λ c, nonempty c = true) (cv_card <$> listed));
     bv_charges := listed |}.

(** [int(str(v or d))]. *)
Definition int_of_text (v : pyval) (d : Z) : res Z := py_int (VStr (if py_truthy v then py_str v else pretty d)).

Definition sprint_budget (meta : Fields) : BudgetView :=
  let '(budget, used) :=
    match (budget ← int_of_text (get meta "sprint_e2e_budget") DEFAULT_E2E_BUDGET;
           used ← int_of_text (get meta "sprint_e2e_used") 0; Ok (budget, used)) with
    | Ok p => p
    | Raise _ => (DEFAULT_E2E_BUDGET, 0)
    end in
  let text := py_str_or (get meta "sprint_e2e_charges") in
  budget_view budget used (match loads_str (first_text text "[]") with Some (VList l) => l | _ => [] end).

(** ** A card's own cap *)

Definition only_dicts (l : list pyval) : list Fields := omap (λ v, match v with VDict d => Some d | _ => None end) l.

Definition cap_raises (task : Fields) : list Fields :=
  let payload := match get (bag task) E2E_CAP_FIELD with
                 | VDict d => Some (VDict d)
                 | raw => loads_str (first_text (py_str_or raw) "{}")
                 end in
  match payload with
  | Some (VDict d) => match get d "raises" with VList l => only_dicts l | _ => [] end
  | _ => []
  end.

Definition int_or_0 (v : pyval) : res Z := if py_truthy v then py_int v else Ok 0.

Definition card_cap (task : Fields) : res Z :=
  foldM (λ cap item, add ← int_or_0 (get item "add"); Ok (cap + add)) CARD_E2E_CAP (cap_raises task).

Definition cap_text (raises : list Fields) : string := dumps [("raises", VList (VDict <$> raises))].
End views.

(** ** The owner's answer *)

Inductive Answer := Raises (n : Z) | No.

#[global] Instance Answer_eq_dec : EqDecision Answer.
Proof. solve_decision. Defined.

(** [e2e budget:\s*] at the head of [s], letters in either case: the rest. *)
Definition after_budget (s : string) : option string :=
  if prefix_nocase "e2e budget:" s then Some (lstrip_by is_space (str_drop 11 s)) else None.

(** [_RAISE.fullmatch]: the digits. *)
Definition raise_match (s : string) : option string :=
  r ← after_budget s;
  if prefix_nocase "raise" r then
    let t := str_drop 5 r in
    let d := lstrip_by is_space t in
    if begins_with_space t && is_ascii_digits d then Some d else None
  else None.

(** [_NO.fullmatch]. *)
Definition no_match (s : string) : bool :=
  match after_budget s with Some r => String.eqb (str_lower r) "no" | None => false end.

Definition line_answer (line : string) : res (option Answer) :=
  let text := str_strip line in
  match raise_match text with
  | Some d => n ← py_int (VStr d); Ok (Some (Raises n))
  | None => Ok (if no_match text then Some No else None)
  end.

Definition owner_answer (body : string) : res (option Answer) :=
  answers ← foldM (λ found line, a ← line_answer line; Ok (found ++ option_list a)) [] (splitlines body);
  Ok (match answers with
      | [No] => Some No
      | [Raises n] => if 0 <? n then Some (Raises n) else None
      | _ => None
      end).

(** ** Authorization *)

(** What the audit and the reader answer. *)
Record Reads := {
  event_id_owner : string → res (option string);
  committed_event : string → res (option Fields);
  events : string → res (list Fields);
  show : string → res Fields;
}.

Section authorization.
Context `{PyRepr}.

Definition payload_of (event : Fields) : Fields := match get event "payload" with VDict d => d | _ => [] end.

Definition owner_comment (event : Fields) : bool := equals (get (payload_of event) "marker") OWNER_ROLE.

(** One event of [owner_answers_after_handover]. *)
Definition scan_answers (st : bool * list string) (event : Fields) : bool * list string :=
  let '(handed, found) := st in
  let kind := py_str_or (get event "kind") in
  if String.eqb kind HANDED_TO_OWNER then (true, found)
  else if handed && String.eqb kind "commented" && owner_comment event && py_truthy (get event "event_id")
  then (handed, found ++ [py_str (get event "event_id")]) else (handed, found).

Definition owner_answers_after_handover (events : list Fields) : list string := (foldl scan_answers (false, []) events).2.

(** [text.encode("utf-8")] of code points below 256. *)
Fixpoint utf8_encode (s : string) : string :=
  match s with
  | "" => ""
  | String c s' =>
      let n := Ascii.nat_of_ascii c in
      if (n <? 128)%nat then String c (utf8_encode s')
      else String (Ascii.ascii_of_nat (192 + n / 64)) (String (Ascii.ascii_of_nat (128 + n mod 64)) (utf8_encode s'))
  end.

Definition body_digest (body : string) : string := sha256_hex (utf8_encode body).

(** The owner's text under the role line the writer puts above it. *)
Definition comment_text (comment : Fields) : string :=
  let '(first, rest) := str_partition NEWLINE (py_str_or (get comment "body")) in
  if String.eqb (str_strip first) ("[" +:+ OWNER_ROLE +:+ "]") then rest else "".

(** [for x in v or []]. *)
Definition iterate (v : pyval) : res (list pyval) :=
  if py_truthy v then
    match v with
    | VList l => Ok l
    | VStr _ | VDict _ => Ok []   (** characters, or keys: none of them a mapping *)
    | _ => Raise (Exn "TypeError" "object is not iterable")
    end
  else Ok [].

Definition comment_body (B : Reads) (decision digest : string) : res (option string) :=
  task ← show B decision;
  comments ← iterate (get task "comments");
  Ok (head (filter (λ body, body_digest body = digest)
              (comment_text <$> filter (λ c, equals (get c "marker") OWNER_ROLE = true) (only_dicts comments)))).

Definition is_created (event : Fields) : bool := equals (get event "kind") "created".

(** Whether the card whose history begins so decides the budget of [scope_ref]. *)
Definition decides (scope_ref : string) (history : list Fields) : bool :=
  match head (filter (λ e, is_created e = true) history) with
  | None => false
  | Some created =>
      let created_id := py_str_or (get created "request_id") in
      decides_scope scope_ref created_id
      || (negb (is_sprint_ref scope_ref) && bool_decide (scope_ref ∈ batch_decision_cards created_id))
  end.

Definition authorized_raise (B : Reads) (event_id scope_ref : string) (add : option Z) : res (string * Z) :=
  let event_id := str_strip event_id in
  if negb (nonempty event_id) then
    Raise (refused "a raise needs --authorized-by: the event id of the owner's comment on the budget decision card")
  else
    request_id ← event_id_owner B event_id;
    event ← (if nonempty (default "" request_id) then committed_event B (default "" request_id) else Ok None);
    match filter (λ e, String.eqb (py_str_or (get e "event_id")) event_id = true) (option_list event) with
    | [] => Raise (refused ("--authorized-by " +:+ event_id +:+ " names no committed event"))
    | event :: _ =>
        if negb (equals (get event "kind") "commented" && owner_comment event) then
          Raise (refused ("--authorized-by " +:+ event_id +:+ " is not an owner comment; only the owner raises an e2e budget"))
        else
          let decision := py_str_or (get event "ref") in
          history ← events B decision;
          if negb (decides scope_ref history) then
            Raise (refused ("--authorized-by " +:+ event_id +:+ " is a comment on " +:+ first_text decision "no card"
                            +:+ ", which is not an e2e budget decision card of " +:+ scope_ref))
          else if negb (bool_decide (event_id ∈ owner_answers_after_handover history)) then
            Raise (refused ("--authorized-by " +:+ event_id +:+ " was not made after " +:+ decision
                            +:+ " was handed to the owner (`task handover`)"))
          else
            body ← comment_body B decision (py_str_or (get (payload_of event) "body_sha256"));
            answer ← (match body with Some body => owner_answer body | None => Ok None end);
            match answer with
            | None => Raise (refused ("the owner's comment " +:+ event_id +:+ " carries no single answer line "
                                      +:+ "(`e2e budget: raise <N>` or `e2e budget: no`), so it authorizes nothing"))
            | Some No => Raise (refused ("the owner's comment " +:+ event_id
                                         +:+ " answers `e2e budget: no`: it authorizes no raise"))
            | Some (Raises runs) =>
                if from_option (λ a, negb (a =? runs)) false add then
                  Raise (refused ("--add " +:+ pretty (default 0 add) +:+ " is not what the owner recorded: the comment "
                                  +:+ event_id +:+ " says `e2e budget: raise " +:+ pretty runs +:+ "`"))
                else Ok (decision, runs)
            end
    end.
End authorization.

Example answers :
  owner_answer ("Yes." +:+ String NEWLINE "E2E Budget:  raise  02 ") = Ok (Some (Raises 2)) ∧
  owner_answer "e2e budget: raise2" = Ok None ∧ owner_answer "e2e budget:no" = Ok (Some No) ∧
  owner_answer ("e2e budget: no" +:+ String NEWLINE "e2e budget: raise 1") = Ok None ∧
  owner_answer "e2e budget: raise 0" = Ok None.
Proof. by vm_compute. Qed.
