(* ===== verification/E2eBudgetFacts.v ===== *)
(** * What authorizes a raise

    The regular expressions of the owner's answer against its grammar, the exact
    conditions under which a comment authorizes a raise, and that a decision
    card decides one budget. *)

From Stdlib Require Import Ascii.
From S2P Require Import Prelude PyText RequestIds JsonText Sha256 PyStrings Board WaitCard GateBackend E2eBudget.

(** ** Blanks and case *)

Definition blank (s : string) : Prop := str_all is_space s = true.

Lemma lstrip_parts p s : ∃ b, s = b +:+ lstrip_by p s ∧ str_all p b = true.
Proof.
  induction s as [|c s (b & E & Hb)]; [by exists ""|]. cbn [lstrip_by]. destruct (p c) eqn:Ec; [|by exists ""].
  exists (String c b). rewrite str_cons_app, <-E. cbn. by rewrite Ec.
Qed.

Lemma rstrip_parts p s : ∃ b, s = rstrip_by p s +:+ b ∧ str_all p b = true.
Proof.
  induction s as [|c s (b & E & Hb)]; [by exists ""|]. cbn [rstrip_by]. destruct (rstrip_by p s) as [|c' r] eqn:Er.
  - rewrite str_nil_app in E. subst b. destruct (p c) eqn:Ec.
    + exists (String c s). cbn. by rewrite Ec.
    + exists s. by rewrite str_cons_app.
  - exists b. by rewrite str_cons_app, <-E.
Qed.

Lemma lstrip_pad p b s : str_all p b = true → lstrip_by p (b +:+ s) = lstrip_by p s.
Proof. induction b as [|c b IH]; [done|]. rewrite str_cons_app. cbn. intros [-> Hb]%andb_true_iff. auto. Qed.

Lemma rstrip_blank p b : str_all p b = true → rstrip_by p b = "".
Proof. induction b as [|c b IH]; [done|]. cbn. intros [Hc Hb]%andb_true_iff. by rewrite IH, Hc. Qed.

Lemma rstrip_pad p s b : str_all p b = true → rstrip_by p (s +:+ b) = rstrip_by p s.
Proof.
  intros Hb. induction s as [|c s IH]; [rewrite str_nil_app; by apply rstrip_blank|].
  rewrite str_cons_app. cbn [rstrip_by]. by rewrite IH.
Qed.

Lemma strip_parts s : ∃ b1 b2, s = b1 +:+ str_strip s +:+ b2 ∧ blank b1 ∧ blank b2.
Proof.
  destruct (lstrip_parts is_space s) as (b1 & E1 & H1). destruct (rstrip_parts is_space (lstrip_by is_space s)) as (b2 & E2 & H2).
  exists b1, b2. unfold str_strip. by rewrite <-E2.
Qed.

Lemma head_kept_app p s t : s ≠ "" → head_kept p (s +:+ t) = head_kept p s.
Proof. by destruct s. Qed.

(** A text whose ends are no blanks, between blanks. *)
Lemma strip_padded b1 core t b2 :
  blank b1 → blank b2 → core ≠ "" → head_kept is_space core = true → str_all (λ c, negb (is_space c)) t = true → t ≠ "" →
  str_strip (b1 +:+ (core +:+ t) +:+ b2) = core +:+ t.
Proof.
  intros H1 H2 Hne Hc Ht Ht'. unfold str_strip. rewrite lstrip_pad by done.
  rewrite lstrip_kept by by rewrite str_app_assoc, head_kept_app.
  rewrite rstrip_pad by done. apply rstrip_app; [by apply rstrip_by_id|done].
Qed.

Lemma space_caseless c : is_space c = true → char_lower c = c.
Proof. destruct c as [[] [] [] [] [] [] [] []]; vm_compute; done. Qed.

Lemma lower_length s : String.length (str_lower s) = String.length s.
Proof. induction s as [|c s IH]; [done|]. cbn. by rewrite IH. Qed.

Lemma lower_not_space w h : str_all (λ c, negb (is_space c)) w = true → str_lower h = w → str_all (λ c, negb (is_space c)) h = true.
Proof.
  revert w. induction h as [|c h IH]; intros w Hw E; [done|]. subst w. cbn in *. apply andb_true_iff in Hw as [Hc Hw].
  rewrite (IH _ Hw eq_refl), andb_true_r. destruct (is_space c) eqn:Es; [|done]. by rewrite (space_caseless c Es), Es in Hc.
Qed.

Lemma nocase_split p s : prefix_nocase p s = true → ∃ h, s = h +:+ str_drop (String.length p) s ∧ str_lower h = str_lower p.
Proof.
  unfold prefix_nocase. revert s. induction p as [|c p IH]; intros s; [by exists ""|]. destruct s as [|d s]; [done|]. cbn.
  destruct (Ascii.ascii_dec _ _) as [E|]; [|done]. intros (h & Es & Eh)%IH. exists (String d h). rewrite str_cons_app. split; [by f_equal|]. cbn. by rewrite E, Eh.
Qed.

Lemma nocase_app p h r : str_lower h = str_lower p → prefix_nocase p (h +:+ r) = true ∧ str_drop (String.length p) (h +:+ r) = r.
Proof.
  intros E. split.
  - unfold prefix_nocase. revert h E. induction p as [|c p IH]; intros [|d h] E; [by destruct (str_lower ("" +:+ r))|done|done|].
    rewrite str_cons_app. cbn in *. injection E as E1 E2. rewrite E1. destruct (Ascii.ascii_dec _ _); [by apply IH|done].
  - rewrite <-(lower_length p), <-E, lower_length. by apply drop_prefix_app.
Qed.

Lemma prefix_drop p s : String.prefix p s = true → s = p +:+ str_drop (String.length p) s.
Proof.
  revert s. induction p as [|c p IH]; intros s; [done|]. destruct s as [|d s]; [done|]. cbn.
  destruct (Ascii.ascii_dec c d) as [->|]; [|done]. intros E. rewrite str_cons_app. f_equal. by apply IH.
Qed.

Lemma str_app_inj p s t : p +:+ s = p +:+ t → s = t.
Proof. induction p as [|c p IH]; [done|]. rewrite !str_cons_app. intros [= E]. auto. Qed.

(** ** The answer line *)

(** A line that answers: the words in any case, with blanks about them. *)
Inductive answers : string → Answer → Prop :=
| answers_raise b1 w g1 v g2 d b2 n :
    blank b1 → str_lower w = "e2e budget:" → blank g1 → str_lower v = "raise" → blank g2 → g2 ≠ "" →
    is_ascii_digits d = true → py_int (VStr d) = Ok n → blank b2 →
    answers (b1 +:+ (w +:+ g1 +:+ v +:+ g2 +:+ d) +:+ b2) (Raises n)
| answers_no b1 w g1 v b2 :
    blank b1 → str_lower w = "e2e budget:" → blank g1 → str_lower v = "no" → blank b2 →
    answers (b1 +:+ (w +:+ g1 +:+ v) +:+ b2) No.

Lemma after_budget_spec s r : after_budget s = Some r ↔
  ∃ w g, s = w +:+ g +:+ r ∧ str_lower w = "e2e budget:" ∧ blank g ∧ head_kept is_space r = true.
Proof.
  unfold after_budget. split.
  - destruct (prefix_nocase _ s) eqn:E; [|done]. intros Hr%(inj Some). subst r. apply nocase_split in E as (w & Es & Ew).
    destruct (lstrip_parts is_space (str_drop 11 s)) as (g & Eg & Hg). exists w, g. rewrite <-Eg.
    split_and!; [exact Es|exact Ew|done|apply lstrip_head].
  - intros (w & g & -> & Hw & Hg & Hr). destruct (nocase_app "e2e budget:" w (g +:+ r) Hw) as [-> Hd].
    change 11%nat with (String.length "e2e budget:"). by rewrite Hd, lstrip_pad, lstrip_kept.
Qed.

Lemma digits_no_space d : is_ascii_digits d = true → str_all (λ c, negb (is_space c)) d = true ∧ d ≠ "".
Proof.
  unfold is_ascii_digits. intros [Hn Hd]%andb_true_iff. rewrite all_ascii_digits_str_all in Hd. split; [|by destruct d].
  eapply str_all_impl; [|exact Hd]. intros c Hc. by rewrite (is_dec_digit_not_space c Hc).
Qed.

Lemma kept_no_space t : str_all (λ c, negb (is_space c)) t = true → head_kept is_space t = true.
Proof. destruct t; [done|]. by intros [? _]%andb_true_iff. Qed.

Lemma raise_match_spec s d : raise_match s = Some d ↔
  ∃ w g1 v g2, s = w +:+ g1 +:+ v +:+ g2 +:+ d ∧ str_lower w = "e2e budget:" ∧ blank g1 ∧ str_lower v = "raise" ∧
    blank g2 ∧ g2 ≠ "" ∧ is_ascii_digits d = true.
Proof.
  unfold raise_match. split.
  - intros (r & (w & g1 & -> & Hw & Hg1 & _)%after_budget_spec & E)%bind_Some.
    destruct (prefix_nocase "raise" r) eqn:Ep; [|done]. destruct (_ && _) eqn:Eb; [|done]. apply (inj Some) in E. subst d.
    apply andb_true_iff in Eb as [Hsp Hd]. apply nocase_split in Ep as (v & Er & Hv).
    destruct (lstrip_parts is_space (str_drop 5 r)) as (g2 & E2 & Hg2). exists w, g1, v, g2. rewrite <-E2.
    change (String.length "raise") with 5%nat in Er. split_and!; [by rewrite <-Er|done..| |done]. intros ->. rewrite str_nil_app in E2.
    destruct (digits_no_space _ Hd) as [Hns Hne]. rewrite <-E2 in Hns, Hne. destruct (str_drop 5 r); [done|].
    cbn in Hns, Hsp. by rewrite Hsp in Hns.
  - intros (w & g1 & v & g2 & -> & Hw & Hg1 & Hv & Hg2 & Hne & Hd).
    rewrite (proj2 (after_budget_spec _ (v +:+ g2 +:+ d))).
    + cbn [mbind option_bind]. destruct (nocase_app "raise" v (g2 +:+ d) Hv) as [-> Hdr].
      change 5%nat with (String.length "raise"). rewrite Hdr. destruct (digits_no_space d Hd) as [Hns Hnd].
      rewrite lstrip_pad, lstrip_kept, Hd by (try done; by apply kept_no_space).
      destruct g2 as [|c g2]; [done|]. apply andb_true_iff in Hg2 as [Hc _]. rewrite str_cons_app. cbn. by rewrite Hc.
    + exists w, g1. split_and!; [done..|]. rewrite head_kept_app by (by intros ->). apply kept_no_space.
      by apply (lower_not_space "raise").
Qed.

Lemma no_match_spec s : no_match s = true ↔
  ∃ w g1 v, s = w +:+ g1 +:+ v ∧ str_lower w = "e2e budget:" ∧ blank g1 ∧ str_lower v = "no".
Proof.
  unfold no_match. split.
  - destruct (after_budget s) as [r|] eqn:E; [|done]. apply after_budget_spec in E as (w & g1 & -> & Hw & Hg & _).
    intros Hr%String.eqb_eq. by exists w, g1, r.
  - intros (w & g1 & v & -> & Hw & Hg & Hv). rewrite (proj2 (after_budget_spec _ v)); [by apply String.eqb_eq|].
    exists w, g1. split_and!; try done. by apply kept_no_space, (lower_not_space "no").
Qed.

Lemma budget_word w : str_lower w = "e2e budget:" → w ≠ "" ∧ head_kept is_space w = true.
Proof.
  destruct w as [|c w]; [done|]. intros E. split; [done|]. cbn in *. injection E as E _.
  destruct (is_space c) eqn:Es; [|done]. rewrite (space_caseless c Es) in E. by subst c.
Qed.

(** The regular expressions read the grammar. *)
Lemma line_answer_spec line a : line_answer line = Ok (Some a) ↔ answers line a.
Proof.
  unfold line_answer. split.
  - destruct (strip_parts line) as (b1 & b2 & El & H1 & H2). rewrite El at 2.
    destruct (raise_match (str_strip line)) as [d|] eqn:E.
    + apply raise_match_spec in E as (w & g1 & v & g2 & -> & Hw & Hg1 & Hv & Hg2 & Hne & Hd).
      intros (n & Hn & E)%bind_Ok. injection E as <-. by constructor.
    + destruct (no_match (str_strip line)) eqn:En; [|done]. intros [= <-].
      apply no_match_spec in En as (w & g1 & v & -> & Hw & Hg1 & Hv). by constructor.
  - intros [c1 w g1 v g2 d c2 n H1 Hw Hg1 Hv Hg2 Hne Hd Hn H2|c1 w g1 v c2 H1 Hw Hg1 Hv H2];
      destruct (budget_word w Hw) as [Hw1 Hw2].
    + destruct (digits_no_space d Hd) as [Hns Hnd].
      assert (w +:+ g1 +:+ v +:+ g2 +:+ d = (w +:+ g1 +:+ v +:+ g2) +:+ d) as Ea by by rewrite !str_app_assoc.
      rewrite Ea, strip_padded, <-Ea by (done || (by destruct w) || by rewrite head_kept_app).
      rewrite (proj2 (raise_match_spec _ d)) by by exists w, g1, v, g2. by rewrite Hn.
    + assert (str_all (λ c, negb (is_space c)) v = true) as Hns by by apply (lower_not_space "no").
      rewrite <-(str_app_assoc w), strip_padded, str_app_assoc by (done || (by destruct w) || (by rewrite head_kept_app) || by intros ->).
      assert (after_budget (w +:+ g1 +:+ v) = Some v) as Eb by (apply after_budget_spec; exists w, g1; split_and!; try done; by apply kept_no_space).
      rewrite (proj2 (no_match_spec _)) by by exists w, g1, v. unfold raise_match. rewrite Eb. cbn [mbind option_bind].
      unfold prefix_nocase. rewrite Hv. done.
Qed.

(** ** The comment *)

Definition silent_line (line : string) : Prop := line_answer line = Ok None.

(** One line answers, and it grants [n] runs. *)
Definition grants (body : string) (n : Z) : Prop :=
  0 < n ∧ ∃ l1 line l2, splitlines body = l1 ++ line :: l2 ∧ answers line (Raises n) ∧ Forall silent_line (l1 ++ l2).

Definition collect (found : list Answer) (line : string) : res (list Answer) :=
  a ← line_answer line; Ok (found ++ option_list a).

Lemma collect_spec lines found l : foldM collect found lines = Ok l ↔
  ∃ read, Forall2 (λ line a, line_answer line = Ok a) lines read ∧ l = found ++ mjoin (option_list <$> read).
Proof.
  revert found. induction lines as [|line lines IH]; intros found; cbn [foldM].
  - split; [intros [= <-]; exists []; split; [constructor|by rewrite app_nil_r]|].
    intros (read & ->%Forall2_nil_inv_l & ->). by rewrite app_nil_r.
  - split.
    + intros (found' & (a & Ha & E)%bind_Ok & (read & Hr & ->)%IH)%bind_Ok. injection E as <-.
      exists (a :: read). split; [by constructor|]. cbn. by rewrite <-app_assoc.
    + intros (read & (a & read' & Ha & Hr & ->)%Forall2_cons_inv_l & ->). unfold collect at 2. rewrite Ha.
      cbn [mbind res_bind]. apply IH. exists read'. split; [done|]. cbn. by rewrite <-app_assoc.
Qed.

Lemma join_one {A} (read : list (option A)) a : mjoin (option_list <$> read) = [a] ↔
  ∃ r1 r2, read = r1 ++ Some a :: r2 ∧ Forall (λ x, x = None) (r1 ++ r2).
Proof.
  split.
  - induction read as [|[b|] read IH]; [done| |]; cbn.
    + intros [= -> E]. exists [], read. split; [done|]. cbn. clear IH. induction read as [|[c|] read IH]; cbn in *; [done|done|auto].
    + intros (r1 & r2 & -> & Hn)%IH. exists (None :: r1), r2. split; [done|]. by constructor.
  - intros (r1 & r2 & -> & [H1 H2]%Forall_app). rewrite fmap_app, join_app. cbn.
    assert (∀ r : list (option A), Forall (λ x, x = None) r → mjoin (option_list <$> r) = []) as E
      by (induction 1 as [|x r -> _ IH]; [done|exact IH]).
    by rewrite !E.
Qed.

Lemma silent_lines lines read :
  Forall2 (λ line a, line_answer line = Ok a) lines read → Forall (λ x, x = None) read → Forall silent_line lines.
Proof. induction 1 as [|line a lines read E _ IH]; [constructor|]. intros [-> Hn]%Forall_cons. constructor; auto. Qed.

Lemma owner_answer_spec body n : owner_answer body = Ok (Some (Raises n)) ↔ grants body n.
Proof.
  unfold owner_answer, grants. fold collect. split.
  - intros (l & (read & Hr & ->)%collect_spec & E)%bind_Ok. rewrite app_nil_l in E. injection E as E.
    destruct (mjoin (option_list <$> read)) as [|[m|] [|]] eqn:Ej; try discriminate E.
    destruct (Z.ltb_spec 0 m) as [Hm|]; [|done]. injection E as ->. split; [done|].
    apply join_one in Ej as (r1 & r2 & -> & [N1 N2]%Forall_app). apply Forall2_app_inv_r in Hr as (l1 & l2' & H1 & H2 & El).
    apply Forall2_cons_inv_r in H2 as (line & l2 & Hl & H2 & ->). exists l1, line, l2.
    split_and!; [done|by apply line_answer_spec|]. apply Forall_app. split; by eapply silent_lines.
  - intros (Hn & l1 & line & l2 & El & Ha & [S1 S2]%Forall_app).
    assert (foldM collect [] (splitlines body) = Ok [Raises n]) as ->.
    + apply collect_spec. exists (replicate (length l1) None ++ Some (Raises n) :: replicate (length l2) None). split.
      * rewrite El. apply Forall2_app; [|constructor; [by apply line_answer_spec|]].
        -- clear -S1. induction S1; cbn; by constructor.
        -- clear -S2. induction S2; cbn; by constructor.
      * symmetry. apply join_one. eexists _, _. split; [done|]. apply Forall_app. split; by apply Forall_replicate.
    + cbn. by rewrite (proj2 (Z.ltb_lt _ _) Hn).
Qed.

(** ** Authorization *)

Section authorization.
Context `{PyRepr}.

Definition is_handover (e : Fields) : Prop := py_str_or (get e "kind") = HANDED_TO_OWNER.

(** An event that is the owner's comment [id]. *)
Definition is_answer (id : string) (e : Fields) : Prop :=
  py_str_or (get e "kind") = "commented" ∧ owner_comment e = true ∧
  py_truthy (get e "event_id") = true ∧ py_str (get e "event_id") = id.

Definition answered_after_handover (id : string) (history : list Fields) : Prop :=
  ∃ l1 h l2 e l3, history = l1 ++ h :: l2 ++ e :: l3 ∧ is_handover h ∧ is_answer id e.

Lemma scan_step handed found e x :
  x ∈ (scan_answers (handed, found) e).2 ↔ x ∈ found ∨ (handed = true ∧ is_answer x e).
Proof.
  unfold scan_answers, is_answer. destruct (String.eqb_spec (py_str_or (get e "kind")) HANDED_TO_OWNER) as [E|Hn]; cbn [snd].
  - rewrite E. split; [by left|]. intros [?|(_ & ? & _)]; [done|discriminate].
  - destruct (handed && _ && _ && _) eqn:Eb; cbn [snd].
    + apply andb_true_iff in Eb as [Eb Ht]. apply andb_true_iff in Eb as [Eb Ho].
      apply andb_true_iff in Eb as [-> Hk%String.eqb_eq]. rewrite elem_of_app, list_elem_of_singleton. naive_solver.
    + split; [by left|]. intros [?|(-> & Hk & Ho & Ht & _)]; [done|]. rewrite Hk, Ho, Ht in Eb. discriminate.
Qed.

Lemma scan_handed handed found e : (scan_answers (handed, found) e).1 = true ↔ handed = true ∨ is_handover e.
Proof.
  unfold scan_answers, is_handover. destruct (String.eqb_spec (py_str_or (get e "kind")) HANDED_TO_OWNER); cbn [fst]; [naive_solver|].
  destruct (_ && _ && _ && _); cbn [fst]; naive_solver.
Qed.

Lemma scan_spec history handed found x : x ∈ (foldl scan_answers (handed, found) history).2 ↔
  x ∈ found ∨ (handed = true ∧ ∃ l1 e l2, history = l1 ++ e :: l2 ∧ is_answer x e) ∨ answered_after_handover x history.
Proof.
  revert handed found. induction history as [|e history IH]; intros handed found.
  { cbn. split; [by left|]. intros [?|[(_ & l1 & e & l2 & E & _)|(l1 & h & l2 & e & l3 & E & _)]]; [done| |]; by destruct l1. }
  cbn [foldl]. pose proof (scan_step handed found e x) as Hs. pose proof (scan_handed handed found e) as Hh.
  destruct (scan_answers (handed, found) e) as [handed' found']. cbn [fst snd] in Hs, Hh. rewrite IH, Hs, Hh. split.
  - intros [[?|[? ?]]|[[[?|?] (l1 & e' & l2 & -> & ?)]|(l1 & h & l2 & e' & l3 & -> & ? & ?)]].
    + by left.
    + right; left. split; [done|]. by exists [], e, history.
    + right; left. split; [done|]. by exists (e :: l1), e', l2.
    + right; right. by exists [], e, l1, e', l2.
    + right; right. by exists (e :: l1), h, l2, e', l3.
  - intros [?|[(? & l1 & e' & l2 & E & ?)|(l1 & h & l2 & e' & l3 & E & ? & ?)]]; [by left; left| |].
    + destruct l1 as [|e1 l1]; injection E as <- ->; [by left; right|]. right; left. split; [by left|]. by exists l1, e', l2.
    + destruct l1 as [|e1 l1]; injection E as <- ->; [|right; right; by exists l1, h, l2, e', l3].
      right; left. split; [by right|]. by exists l2, e', l3.
Qed.

Lemma handover_spec id history : id ∈ owner_answers_after_handover history ↔ answered_after_handover id history.
Proof.
  unfold owner_answers_after_handover. rewrite scan_spec. split; [|by right; right].
  intros [?%not_elem_of_nil|[[? _]|?]]; done.
Qed.

(** The create request of a card that decides the budget of [scope_ref]: the
    dispatcher's, of one generation, or of a batch that names the card. *)
Definition decision_for (scope_ref created_id : string) : Prop :=
  (∃ g, is_ascii_digits g = true ∧ created_id = decision_prefix scope_ref +:+ g) ∨
  (is_sprint_ref scope_ref = false ∧ scope_ref ∈ batch_decision_cards created_id).

Lemma decides_spec scope_ref history : decides scope_ref history = true ↔
  ∃ created, head (filter (λ e, is_created e = true) history) = Some created ∧
    decision_for scope_ref (py_str_or (get created "request_id")).
Proof.
  unfold decides, decision_for. destruct (head _) as [created|]; [|naive_solver]. set (id := py_str_or _).
  assert (decides_scope scope_ref id = true ↔ ∃ g, is_ascii_digits g = true ∧ id = decision_prefix scope_ref +:+ g) as Hd.
  { unfold decides_scope. rewrite andb_true_iff. split.
    - intros [Hp Hg]. exists (str_drop (String.length (decision_prefix scope_ref)) id). split; [done|]. by apply prefix_drop.
    - intros (g & Hg & ->). rewrite prefix_app, drop_prefix_app by done. done. }
  rewrite orb_true_iff, andb_true_iff, negb_true_iff, bool_decide_eq_true, Hd. naive_solver.
Qed.

(** The conditions on the comment [id] as it stands on the board. *)
Record authorises (B : Reads) (id scope_ref : string) (add : option Z) (decision : string) (n : Z) : Prop := {
  au_named : id ≠ "";
  au_event : ∃ request event history body,
    event_id_owner B id = Ok (Some request) ∧ request ≠ "" ∧ committed_event B request = Ok (Some event) ∧
    py_str_or (get event "event_id") = id ∧
    get event "kind" = VStr "commented" ∧ owner_comment event = true ∧ py_str_or (get event "ref") = decision ∧
    events B decision = Ok history ∧
    (∃ created, head (filter (λ e, is_created e = true) history) = Some created ∧
                decision_for scope_ref (py_str_or (get created "request_id"))) ∧
    answered_after_handover id history ∧
    comment_body B decision (py_str_or (get (payload_of event) "body_sha256")) = Ok (Some body) ∧ grants body n;
  au_add : add = None ∨ add = Some n;
}.

Lemma equals_spec v s : equals v s = true ↔ v = VStr s.
Proof. destruct v; cbn; try done. rewrite String.eqb_eq. naive_solver. Qed.

Lemma nonempty_spec s : nonempty s = true ↔ s ≠ "".
Proof. by destruct s. Qed.

(** C14. A raise is authorized exactly by the owner's word.  [authorized_raise]
    answers a decision card and a number exactly when the id names a committed
    comment of the owner on that card, the card is the one the dispatcher cut
    for this budget (or the batch that names this card), the comment came after
    the card was handed over, exactly one line of its text answers, in the
    grammar of the answer line, that line grants the number, which is positive,
    and [--add] does not say another; whatever else holds, it raises. *)
Theorem authorized_raise_exact B event_id scope_ref add decision n :
  authorized_raise B event_id scope_ref add = Ok (decision, n) ↔
  authorises B (str_strip event_id) scope_ref add decision n.
Proof.
  unfold authorized_raise. set (id := str_strip event_id). split.
  - destruct (nonempty id) eqn:Hid; [|done]. cbn [negb]. intros (request & Hreq & (event0 & Hev & E)%bind_Ok)%bind_Ok.
    destruct (filter _ (option_list event0)) as [|event l] eqn:Ef; [done|].
    assert (event ∈ filter (λ e, String.eqb (py_str_or (get e "event_id")) id = true) (option_list event0)) as Hin
      by (rewrite Ef; left). apply list_elem_of_filter in Hin as [Hname%String.eqb_eq Hin].
    destruct event0 as [event'|]; [|by apply not_elem_of_nil in Hin]. apply list_elem_of_singleton in Hin as <-.
    destruct (equals _ _ && owner_comment event) eqn:Hc; [|done]. cbn [negb] in E. apply andb_true_iff in Hc as [Hk Ho].
    apply bind_Ok in E as (history & Hh & E). destruct (decides scope_ref history) eqn:Hd; [|done]. cbn [negb] in E.
    case_bool_decide as Hans; [|done]. cbn [negb] in E. apply bind_Ok in E as (body & Hb & (answer & Ha & E)%bind_Ok).
    destruct answer as [[m|]|]; try done. destruct (from_option (λ a, negb (a =? m)) false add) eqn:Hadd; [done|].
    injection E as <- ->. destruct body as [body|]; [|done]. apply nonempty_spec in Hid. apply equals_spec in Hk.
    apply decides_spec in Hd. apply handover_spec in Hans. apply owner_answer_spec in Ha.
    destruct request as [request|]; [|by cbn in Hev]. cbn in Hev. destruct (nonempty request) eqn:Hr; [|done]. apply nonempty_spec in Hr.
    split; [done|by exists request, event, history, body|]. destruct add as [a|]; [|by left]. right. cbn in Hadd.
    apply negb_false_iff, Z.eqb_eq in Hadd. by subst.
  - intros [Hid%nonempty_spec (request & event & history & body & Hreq & Hne%nonempty_spec & Hev & Hname & Hk & Ho & Hdec & Hh & Hd & Ha & Hb & Hg) Hadd].
    apply decides_spec in Hd. apply handover_spec in Ha. apply owner_answer_spec in Hg.
    rewrite Hid. cbn [negb]. rewrite Hreq. cbn [mbind res_bind]. change (default "" (Some request)) with request. rewrite Hne, Hev. cbn [mbind res_bind]. change (option_list (Some event)) with [event].
    rewrite filter_cons_True by by apply String.eqb_eq. rewrite Hk, Ho. cbn [equals String.eqb andb negb]. rewrite Hdec, Hh.
    cbn [mbind res_bind]. rewrite Hd. cbn [negb]. rewrite bool_decide_true by done. cbn [negb]. rewrite Hb. cbn [mbind res_bind].
    rewrite Hg. cbn [mbind res_bind]. destruct Hadd as [->| ->]; cbn; [done|]. by rewrite Z.eqb_refl.
Qed.
End authorization.

(** ** One decision, one budget *)

(** The references of sprints and of cards. *)
Inductive scope : string → Prop :=
| scope_sprint d : is_ascii_digits d = true → scope ("sprint:" +:+ d)
| scope_card c p d : lower_alnum c = true → str_all (λ c, lower_alnum c || is_hyphen c) p = true →
    is_ascii_digits d = true → scope (String c p +:+ "-" +:+ d).

Definition undashed (s : string) : Prop := str_all (λ c, negb (is_dash c)) s = true ∧ s ≠ "".

Lemma digits_undashed d : is_ascii_digits d = true → undashed d ∧ str_all token_char d = true.
Proof.
  unfold is_ascii_digits. intros [Hn Hd]%andb_true_iff. rewrite all_ascii_digits_str_all in Hd.
  split; [split; [|by destruct d]|]; (eapply str_all_impl; [|exact Hd]); intros c; destruct c as [[] [] [] [] [] [] [] []]; by vm_compute.
Qed.

Lemma rstrip_dash_app x t : undashed t → rstrip_dash (x +:+ t) = x +:+ t.
Proof.
  intros [Ht Hne]. assert (rstrip_dash t = t) as E.
  { clear Hne. induction t as [|c t IH]; [done|]. apply andb_true_iff in Ht as [Hc%negb_true_iff Ht]. cbn. rewrite (IH Ht), Hc.
    by destruct t. }
  induction x as [|c x IH]; [done|]. rewrite str_cons_app. cbn. rewrite IH. by destruct x, t.
Qed.

Lemma dash_runs_id gap s : str_all token_char s = true → dash_runs gap s = s.
Proof. revert gap. induction s as [|c s IH]; intros gap; [done|]. cbn. intros [-> Hs]%andb_true_iff. by rewrite IH. Qed.

Lemma token_id c x t : str_all token_char (String c x) = true → str_all token_char t = true → is_dash c = false → undashed t →
  request_token (String c x +:+ t) = String c x +:+ t.
Proof.
  intros Hx Ht Hc Hu. unfold request_token. rewrite dash_runs_id by by rewrite str_all_app, Hx, Ht.
  assert (lstrip_dash (String c x +:+ t) = String c x +:+ t) as -> by (rewrite str_cons_app; cbn; by rewrite Hc).
  by rewrite rstrip_dash_app.
Qed.

Lemma sprint_token d : is_ascii_digits d = true → request_token ("sprint:" +:+ d) = "sprint-" +:+ d.
Proof.
  intros [Hu Ht]%digits_undashed. unfold request_token.
  change (dash_runs false ("sprint:" +:+ d)) with ("sprint-" +:+ dash_runs true d). rewrite dash_runs_id by done.
  change (lstrip_dash ("sprint-" +:+ d)) with ("sprint-" +:+ d). by rewrite rstrip_dash_app.
Qed.

Lemma card_token c p d : lower_alnum c = true → str_all (λ c, lower_alnum c || is_hyphen c) p = true → is_ascii_digits d = true →
  request_token (String c p +:+ "-" +:+ d) = String c p +:+ "-" +:+ d.
Proof.
  intros Hc Hp [Hu Ht]%digits_undashed.
  assert (∀ c, lower_alnum c || is_hyphen c = true → token_char c = true) as Hk
    by (intros c'; destruct c' as [[] [] [] [] [] [] [] []]; by vm_compute).
  rewrite <-str_app_assoc, str_cons_app. apply token_id; [|done| |done].
  - cbn [str_all]. rewrite (Hk c), str_all_app by by rewrite Hc. cbn. rewrite (str_all_impl _ _ _ Hk Hp). done.
  - revert Hc. destruct c as [[] [] [] [] [] [] [] []]; by vm_compute.
Qed.

Lemma last_dash a1 a2 g1 g2 : undashed g1 → undashed g2 → a1 +:+ "-" +:+ g1 = a2 +:+ "-" +:+ g2 → a1 = a2.
Proof.
  assert (∀ x g g', undashed g → g = x +:+ "-" +:+ g' → False) as Hno.
  { intros x g g' [Hg _] ->. rewrite !str_all_app in Hg. apply andb_true_iff in Hg as [_ [Hg _]%andb_true_iff]. done. }
  intros H1 H2. revert a2. induction a1 as [|c a1 IH]; intros [|d a2] E; [done| | |].
  - rewrite str_nil_app, !str_cons_app, str_nil_app in E. injection E as _ E. by destruct (Hno _ _ _ H1 E).
  - rewrite str_nil_app, !str_cons_app, str_nil_app in E. injection E as _ E. by destruct (Hno _ _ _ H2 (eq_sym E)).
  - rewrite !str_cons_app in E. injection E as -> E. f_equal. by apply IH.
Qed.

Lemma decision_prefix_sprint d : is_ascii_digits d = true →
  decision_prefix ("sprint:" +:+ d) = ("dispatcher-e2e-budget-" +:+ "sprint-" +:+ d) +:+ "-".
Proof.
  intros Hd. unfold decision_prefix, token. cbn [fmap list_fmap]. rewrite sprint_token by done.
  unfold is_sprint_ref. by rewrite prefix_app.
Qed.

Lemma decision_prefix_card s : scope s → is_sprint_ref s = false → decision_prefix s = ("dispatcher-e2e-cap-" +:+ s) +:+ "-".
Proof.
  intros [d Hd|c p d Hc Hp Hd] Hs; [unfold is_sprint_ref in Hs; by rewrite prefix_app in Hs|]. unfold decision_prefix, token. rewrite Hs. cbn [fmap list_fmap].
  by rewrite card_token.
Qed.

Lemma card_not_sprint c p d : lower_alnum c = true → str_all (λ c, lower_alnum c || is_hyphen c) p = true →
  is_ascii_digits d = true → is_sprint_ref (String c p +:+ "-" +:+ d) = false.
Proof.
  intros Hc Hp Hd. destruct (is_sprint_ref _) eqn:E; [|done]. apply prefix_drop in E. exfalso.
  assert (str_all (λ c, lower_alnum c || is_hyphen c) (String c p +:+ "-" +:+ d) = true) as Ha.
  { rewrite !str_all_app. cbn [str_all]. rewrite Hc, Hp. cbn. unfold is_ascii_digits in Hd. apply andb_true_iff in Hd as [_ Hd].
    rewrite all_ascii_digits_str_all in Hd. eapply str_all_impl; [|exact Hd].
    intros x; destruct x as [[] [] [] [] [] [] [] []]; by vm_compute. }
  rewrite E, str_all_app in Ha. apply andb_true_iff in Ha as [Ha _]. by vm_compute in Ha.
Qed.

(** The create ids of the decisions for two budgets differ. *)
Lemma decision_prefix_inj s1 s2 g1 g2 : scope s1 → scope s2 → is_ascii_digits g1 = true → is_ascii_digits g2 = true →
  decision_prefix s1 +:+ g1 = decision_prefix s2 +:+ g2 → s1 = s2.
Proof.
  assert (∀ x y, "dispatcher-e2e-budget-" +:+ x ≠ "dispatcher-e2e-cap-" +:+ y) as Hne by done.
  intros [d1 D1|c1 p1 d1 C1 P1 D1] [d2 D2|c2 p2 d2 C2 P2 D2] [U1 _]%digits_undashed [U2 _]%digits_undashed;
    rewrite ?decision_prefix_sprint by done;
    rewrite ?decision_prefix_card by (first [by constructor|by apply card_not_sprint]);
    rewrite (str_app_assoc (_ +:+ _)), (str_app_assoc (_ +:+ _)); intros E%last_dash; try done.
  - apply (str_app_inj "dispatcher-e2e-budget-"), (str_app_inj "sprint-") in E. by subst.
  - by apply (str_app_inj "dispatcher-e2e-cap-") in E.
Qed.

Lemma decision_not_batch s g : scope s → is_ascii_digits g = true → batch_decision_cards (decision_prefix s +:+ g) = [].
Proof.
  intros [d D|c p d C P D] _; [rewrite decision_prefix_sprint by done|rewrite decision_prefix_card by (first [by constructor|by apply card_not_sprint])];
    done.
Qed.

(** A decision card decides one budget.  The card a sprint's or a card's
    spent budget was taken to the owner with answers for that sprint or card
    only: if a card's history decides the budgets of two references, they are
    the same reference, or it is the decision of an after-merge batch and both
    are cards that it names. *)
Theorem decision_names_one_scope `{PyRepr} s1 s2 history :
  scope s1 → scope s2 → decides s1 history = true → decides s2 history = true →
  s1 = s2 ∨ ∃ created, created ∈ history ∧
    s1 ∈ batch_decision_cards (py_str_or (get created "request_id")) ∧
    s2 ∈ batch_decision_cards (py_str_or (get created "request_id")).
Proof.
  intros H1 H2 (c1 & E1 & D1)%decides_spec (c2 & E2 & D2)%decides_spec. rewrite E1 in E2. injection E2 as <-.
  destruct D1 as [(g1 & G1 & I1)|[_ B1]], D2 as [(g2 & G2 & I2)|[_ B2]].
  - left. rewrite I1 in I2. exact (decision_prefix_inj s1 s2 g1 g2 H1 H2 G1 G2 I2).
  - rewrite I1, decision_not_batch in B2 by done. by apply not_elem_of_nil in B2.
  - rewrite I2, decision_not_batch in B1 by done. by apply not_elem_of_nil in B1.
  - right. exists c1. split; [|done]. apply head_Some_elem_of in E1. by apply list_elem_of_filter in E1 as [_ E1].
Qed.
