(* ===== verification/E2eLedger.v ===== *)
(** * The e2e ledger on the store (board/sql_sprints.py, board/e2e_record.py, tasks.py, sprints.py)

    The rows of the store that carry the e2e budget: the sprints with what they
    may spend and have spent, the charged runs, the cards, and the requests table
    of the audit.  A charge, a dispatch intent before or after the merge, a raise
    and a restore of a sprint's account are transactions over them: a definition returns the store it leaves, and one that raises leaves
    the store it was given. *)

From S2P Require Import Prelude PyText RequestIds JsonText Sha256 PyStrings Board WaitCard GateBackend E2eBudget.

(** ** The rows *)

Inductive Status := Committed | Staged | Discarded.

#[global] Instance Status_eq_dec : EqDecision Status.
Proof. solve_decision. Defined.

(** A row of [requests]; [intent] is the event. *)
Record Row := { rq_id : string; rq_status : Status; rq_intent : Fields }.

Record SprintRow := { sr_state : SprintState; sr_budget : Z; sr_used : Z }.

(** A row of [sprint_e2e_charges]; the dispatch id is its key. *)
Record Charge := { ch_dispatch : string; ch_sprint : string; ch_card : string; ch_at : Z }.

(** The rows of [requests] are in claim order. *)
Record Store := {
  st_requests : list Row;
  st_sprints : list (string * SprintRow);
  st_charges : list Charge;
  st_cards : list (string * Fields);
}.

#[global] Instance Store_eta : Settable Store := λ s,
  Build_Store (st_requests s) (st_sprints s) (st_charges s) (st_cards s).

Section ledger.
Context `{PyRepr, JsonText, !JsonStr}.

(** ** The audit (board/sql_audit.py, board/audit_contract.py) *)

Definition record_of (db : Store) (request_id : string) (status : Status) : option Fields :=
  rq_intent <$> head (filter (λ r, rq_id r = request_id ∧ rq_status r = status) (st_requests db)).

(** The events of a card or sprint, of one kind or of any; an empty reference
    narrows nothing. *)
Definition audit_events (db : Store) (reference : string) (kind : option string) : list Fields :=
  filter (λ e, (negb (nonempty reference) || String.eqb (py_str_or (get e "ref")) reference)
               && from_option (equals (get e "kind")) true kind = true)
    (rq_intent <$> filter (λ r, rq_status r = Committed) (st_requests db)).

Definition id_owner (db : Store) (event_id : string) : option string :=
  rq_id <$> head (filter (λ r, equals (get (rq_intent r) "event_id") event_id = true) (st_requests db)).

Definition foreign_claim : exn := TaskError "validation" "request id belongs to another operation or payload".

(** [v == w] of a payload's member and an identity's. *)
Definition same_value (v w : pyval) : bool :=
  match w with
  | VInt n => match v with
              | VInt m => m =? n
              | VBool b => (if b then 1 else 0) =? n
              | VFloat (FFin t) => t =? n * SECOND
              | _ => false
              end
  | VStr s => equals v s
  | _ => false
  end.

Definition require_claim (existing : Fields) (kind reference : string) (identity : Fields) : res unit :=
  if negb (String.eqb (py_str_or (get existing "kind")) kind) then Raise foreign_claim
  else if negb (String.eqb (py_str_or (get existing "ref")) reference) then Raise foreign_claim
  else match get existing "payload" with
       | VDict payload => if forallb (λ p, same_value (get payload p.1) p.2) identity then Ok tt else Raise foreign_claim
       | _ => Raise foreign_claim
       end.

(** [stage] and [append] of a new record in one transaction. *)
Definition commit_event (db : Store) (request_id : string) (event : Fields) : res Store :=
  match record_of db request_id Discarded with
  | Some row =>
      let refusal := match get row "stale_refusal" with VDict d => d | _ => [] end in
      Raise (TaskError "validation" ("request id was refused when its stale staged record was settled: "
               +:+ first_text (py_str_or (get refusal "reason")) "no reason recorded"))
  | None => Ok (db <| st_requests := st_requests db ++ [{| rq_id := request_id; rq_status := Committed; rq_intent := event |}] |>)
  end.

(** A staged record is committed as it is. *)
Definition commit_row (request_id : string) (r : Row) : Row :=
  if bool_decide (rq_id r = request_id ∧ rq_status r = Staged)
  then {| rq_id := rq_id r; rq_status := Committed; rq_intent := rq_intent r |} else r.

Definition commit_staged (db : Store) (request_id : string) : Store :=
  db <| st_requests := commit_row request_id <$> st_requests db |>.

(** ** Cards and roles (tasks.py) *)

Definition show_card (db : Store) (reference : string) : res Fields :=
  match dict_get (st_cards db) reference with
  | Some task => Ok task
  | None => Raise (TaskError "not_found" ("card " +:+ reference +:+ " does not exist"))
  end.

Definition reads (db : Store) : Reads := {|
  event_id_owner e := Ok (id_owner db e);
  committed_event r := Ok (record_of db r Committed);
  events ref := Ok (audit_events db ref None);
  show ref := show_card db ref |}.

(** [saveTaskMetadata] of one extension field of a card. *)
Definition save_field (db : Store) (reference key text : string) : Store :=
  match dict_get (st_cards db) reference with
  | None => db
  | Some task =>
      let extensions := match get task "extensions" with VDict d => d | _ => [] end in
      let extra := dict_set (bag task) key (VStr text) in
      let task := dict_set task "extensions" (VDict (dict_set extensions EXTENSION_BAG (VDict extra))) in
      db <| st_cards := dict_set (st_cards db) reference task |>
  end.

Definition role_forbidden : exn := TaskError "role_forbidden" "role is not permitted for this operation".

Definition admit_role (role actor : string) (allowed : list Role) : res Role :=
  if String.eqb role (enum_value PO) && String.eqb (str_strip actor) "observer" then
    Raise (TaskError "role_masquerade"
             "the observer writes in its own name: use --role observer --actor observer, not --role po")
  else match enum_of_value role with
       | Some r => if bool_decide (r ∈ allowed) then Ok r else Raise role_forbidden
       | None => Raise role_forbidden
       end.

(** [str(task.get("type") or "code") == "code"]. *)
Definition is_code (task : Fields) : bool :=
  String.eqb (if py_truthy (get task "type") then py_str (get task "type") else "code") "code".

(** ** Charging a run (board/sql_sprints.py) *)

Definition charge_before (a b : Charge) : Prop :=
  ch_at a < ch_at b ∨ (ch_at a = ch_at b ∧ String.leb (ch_dispatch a) (ch_dispatch b) = true).

#[global] Instance charge_before_dec : RelDecision charge_before.
Proof. intros a b. unfold charge_before. apply _. Defined.

(** The sprint's charged runs, oldest first. *)
Definition e2e_charges (db : Store) (reference : string) : list Charge :=
  merge_sort charge_before (filter (λ c, ch_sprint c = reference) (st_charges db)).

Record ChargeAnswer := { an_charged : bool; an_budget : option (Z * Z * list Charge) }.

Definition e2e_budget (db : Store) (reference : string) : option (Z * Z * list Charge) :=
  (λ row, (sr_budget row, sr_used row, e2e_charges db reference)) <$> dict_get (st_sprints db) reference.

Definition is_charged (db : Store) (dispatch_id : string) : bool :=
  existsb (λ c, String.eqb (ch_dispatch c) dispatch_id) (st_charges db).

(** The UPDATE is one statement on the sprint's row, the check and the increment
    together. *)
Definition charge_e2e (db : Store) (reference task_ref dispatch_id : string) (at_ : Z) : res (Store * ChargeAnswer) :=
  match dict_get (st_sprints db) reference with
  | None => Raise (Exn "SqlCardError" ("no sprint " +:+ reference +:+ " to charge an e2e run to"))
  | Some row =>
      if (sr_used row <? sr_budget row) && negb (is_charged db dispatch_id) then
        let db1 := db <| st_sprints := dict_set (st_sprints db) reference
                         {| sr_state := sr_state row; sr_budget := sr_budget row; sr_used := sr_used row + 1 |} |>
                    <| st_charges := st_charges db ++ [{| ch_dispatch := dispatch_id; ch_sprint := reference;
                                                         ch_card := task_ref; ch_at := at_ |}] |> in
        Ok (db1, {| an_charged := true; an_budget := e2e_budget db1 reference |})
      else
        Ok (db, {| an_charged := existsb (λ c, String.eqb (ch_dispatch c) dispatch_id) (e2e_charges db reference);
                  an_budget := e2e_budget db reference |})
  end.

Definition E2E_FIELD : string := "e2e".

(** The dispatch intent of a card's run, charged first. *)
Definition record_e2e_intent (db : Store) (role actor reference state sprint dispatch_id : string) (at_ : Z) :
    res (Store * ChargeAnswer) :=
  _ ← admit_role role actor [DISPATCHER];
  task ← show_card db reference;
  if negb (is_code task) then
    Raise (TaskError "validation" (reference +:+ " is not a code card; it carries no e2e runs"))
  else
    charge ← (if nonempty sprint then charge_e2e db sprint reference dispatch_id at_
              else Ok (db, {| an_charged := true; an_budget := None |}));
    let '(db1, answer) := charge in
    Ok (if an_charged answer then (save_field db1 reference E2E_FIELD state, answer) else (db1, answer)).

(** ** After the merge (tasks.py, board/e2e_record.py) *)

Definition DISPATCH_STATES : list string := ["intent"; "sent"; "refused"].

(** [e2e_record._json_field]. *)
Definition e2e_field (task : Fields) : option pyval :=
  match get (bag task) E2E_FIELD with
  | VDict d => Some (VDict d)
  | raw => loads_str (py_str_or raw)
  end.

(** What [E2eRun.from_json] takes for a run record. *)
Definition is_run (v : pyval) : bool :=
  match v with
  | VDict d => nonempty (py_str_or (get d "dispatch_id")) && nonempty (py_str_or (get d "sha"))
               && bool_decide (py_str_or (get d "dispatch") ∈ DISPATCH_STATES)
  | _ => false
  end.

(** The dispatch ids [AfterMergeMark.from_json] keeps of the card's own cap. *)
Definition own_charges (v : pyval) : list string :=
  match v with
  | VDict m => if py_truthy (get m "merge_sha")
               then match get m "charged" with VList l => List.filter nonempty (py_str <$> l) | _ => [] end else []
  | _ => []
  end.

(** [e2e_state(task).dispatched]. *)
Definition dispatched (task : Fields) : Z :=
  match e2e_field task with
  | Some (VDict d) =>
      Z.of_nat (match get d "runs" with VList l => length (List.filter is_run l) | _ => 0%nat end)
      + Z.of_nat (length (own_charges (get d "after_merge")))
  | _ => 0
  end.

Record AfterMergeAnswer := { aa_charge : ChargeAnswer; aa_spent : list string }.

(** The covered cards whose own cap has no run left. *)
Definition spent_cards (tasks : list (string * Fields)) : res (list string) :=
  foldM (λ spent t, cap ← card_cap t.2; Ok (if cap <=? dispatched t.2 then spent ++ [t.1] else spent)) [] tasks.

(** One run for every covered card, charged to the open sprint under its
    carrier's name, or to each card's own cap. *)
Definition record_after_merge_intent (db : Store) (role actor : string) (states : list (string * string))
    (sprint dispatch_id carrier : string) (at_ : Z) : res (Store * AfterMergeAnswer) :=
  _ ← admit_role role actor [DISPATCHER];
  if negb (dict_has states carrier) then
    Raise (TaskError "validation" ("the carrier " +:+ carrier +:+ " is not among the covered cards"))
  else
    tasks ← foldM (λ tasks p, task ← show_card db p.1; Ok (tasks ++ [(p.1, task)])) [] states;
    match List.find (λ t, negb (is_code t.2)) tasks with
    | Some t => Raise (TaskError "validation" (t.1 +:+ " is not a code card; it carries no e2e runs"))
    | None =>
        charge ← (if nonempty sprint then
                    '(db1, answer) ← charge_e2e db sprint carrier dispatch_id at_;
                    Ok (db1, {| aa_charge := answer; aa_spent := [] |})
                  else
                    spent ← spent_cards tasks;
                    Ok (db, {| aa_charge := {| an_charged := bool_decide (spent = []); an_budget := None |}; aa_spent := spent |}));
        let '(db1, answer) := charge in
        Ok (if an_charged (aa_charge answer)
            then (foldl (λ db p, save_field db p.1 E2E_FIELD p.2) db1 states, answer) else (db1, answer))
    end.

(** ** A restore (board/sql_sprints.py) *)

(** The account an export carries; a field at its default is left out. *)
Record Account := { ac_budget : option Z; ac_used : option Z; ac_charges : option (list Charge) }.

(** [ON CONFLICT (dispatch_id) DO NOTHING]. *)
Definition insert_charge (charges : list Charge) (c : Charge) : list Charge :=
  if existsb (λ x, String.eqb (ch_dispatch x) (ch_dispatch c)) charges then charges else charges ++ [c].

Definition restore_e2e_charges (charges : list Charge) (reference : string) (items : list Charge) : list Charge :=
  foldl insert_charge (filter (λ c, ch_sprint c ≠ reference) charges)
    ((λ c, {| ch_dispatch := ch_dispatch c; ch_sprint := reference; ch_card := ch_card c; ch_at := ch_at c |}) <$> items).

(** The e2e half of [save_metadata] of a restored sprint. *)
Definition restore_account (db : Store) (reference : string) (a : Account) : Store :=
  match dict_get (st_sprints db) reference with
  | None => db
  | Some row =>
      db <| st_sprints := dict_set (st_sprints db) reference
              {| sr_state := sr_state row; sr_budget := default (sr_budget row) (ac_budget a);
                 sr_used := default (sr_used row) (ac_used a) |} |>
         <| st_charges := match ac_charges a with
                          | Some items => restore_e2e_charges (st_charges db) reference items
                          | None => st_charges db
                          end |>
  end.

(** ** Raises *)

(** What a call knows that the store does not: the new event's id, its time, and
    the texts of the subject's transport key and revision. *)
Record Stamp := { sm_event_id : string; sm_at : string; sm_task_id : string; sm_number : Z; sm_revision : string }.

Definition new_event (kind role actor reference request_id : string) (m : Stamp) (payload : Fields) : Fields := [
  ("event_id", VStr (sm_event_id m)); ("schema_version", VInt 1); ("occurred_at", VStr (sm_at m));
  ("actor", VDict [("role", VStr role); ("id", VStr actor)]); ("kind", VStr kind); ("outcome", VStr "success");
  ("task_id", VStr (sm_task_id m)); ("ref", VStr reference);
  ("backend", VDict [("kind", VStr "postgres"); ("task_id", VInt (sm_number m)); ("revision", VStr (sm_revision m))]);
  ("request_id", VStr request_id); ("payload", VDict payload)].

(** What the owner's answer granted, once [authorized_raise] has read it. *)
Record Grant := { gr_ref : string; gr_by : string; gr_decision : string; gr_runs : Z }.

Definition check_add (add : option Z) : res unit :=
  match add with
  | Some n => if n <? 1 then Raise (TaskError "validation" ("--add is a whole number of runs, 1 or more; not " +:+ pretty n))
              else Ok tt
  | None => Ok tt
  end.

(** The first raise that names this comment. *)
Definition used_answer (db : Store) (reference kind authorized_by : string) : option Fields :=
  head (filter (λ e, equals (get (payload_of e) "authorized_by") authorized_by = true) (audit_events db reference (Some kind))).

(** [SprintWriter.raise_e2e_budget] before its transaction. *)
Definition admit_budget_raise (db : Store) (role actor reference authorized_by : string) (add : option Z) : res Grant :=
  _ ← admit_role role actor [PO];
  _ ← check_add add;
  let answered := str_strip authorized_by in
  granted ← authorized_raise (reads db) answered reference add;
  Ok {| gr_ref := reference; gr_by := answered; gr_decision := granted.1; gr_runs := granted.2 |}.

Definition show_sprint (db : Store) (reference : string) : res SprintRow :=
  match dict_get (st_sprints db) reference with
  | Some row => Ok row
  | None => Raise (TaskError "not_found" ("sprint " +:+ reference +:+ " does not exist"))
  end.

(** [SprintWriter._write] of a raise: a known request is replayed, a new one adds
    to the budget in place. *)
Definition write_budget_raise (db : Store) (g : Grant) (role actor request_id : string) (m : Stamp) : res Store :=
  match record_of db request_id Committed, record_of db request_id Staged with
  | Some known, _ => _ ← show_sprint db (py_str_or (get known "ref")); Ok db
  | None, Some known =>
      if equals (get known "record_type") "board.protocol_event" then
        Raise (TaskError "validation"
                 "request id belongs to a typed Sprint lifecycle occurrence; retry its protocol recovery")
      else _ ← show_sprint db (py_str_or (get known "ref")); Ok (commit_staged db request_id)
  | None, None =>
      row ← show_sprint db (gr_ref g);
      if negb (bool_decide (sr_state row = SS_OPEN)) then Raise (TaskError "closed" "sprint is closed")
      else
        db' ← commit_event db request_id (new_event SPRINT_BUDGET_RAISED role actor (gr_ref g) request_id m
                [("add", VInt (gr_runs g)); ("authorized_by", VStr (gr_by g)); ("decision", VStr (gr_decision g))]);
        Ok (db' <| st_sprints := dict_set (st_sprints db') (gr_ref g)
                     {| sr_state := sr_state row; sr_budget := sr_budget row + gr_runs g; sr_used := sr_used row |} |>)
  end.

(** [SprintWriter._raise_e2e_budget_atomic]: one transaction. *)
Definition raise_budget_atomic (db : Store) (g : Grant) (role actor request_id : string) (m : Stamp) : res Store :=
  let known := match record_of db request_id Committed with Some e => Some e | None => record_of db request_id Staged end in
  _ ← (match known with
       | Some e =>
           if equals (get e "kind") SPRINT_BUDGET_RAISED && equals (get e "ref") (gr_ref g)
              && same_value (get (payload_of e) "add") (VInt (gr_runs g))
              && equals (get (payload_of e) "authorized_by") (gr_by g)
           then Ok tt
           else Raise (TaskError "validation" ("request id " +:+ str_repr request_id
                  +:+ " already belongs to another sprint write; a raise is repeated "
                  +:+ "only with the same sprint, --add and --authorized-by"))
       | None =>
           match used_answer db (gr_ref g) SPRINT_BUDGET_RAISED (gr_by g) with
           | Some e => Raise (refused ("the owner's comment " +:+ gr_by g +:+ " already authorized a raise of " +:+ gr_ref g
                                       +:+ " (" +:+ py_str (get e "request_id") +:+ "); each answer raises once"))
           | None => Ok tt
           end
       end);
  write_budget_raise db g role actor request_id m.

(** [SprintWriter.raise_e2e_budget]. *)
Definition raise_e2e_budget (db : Store) (role actor reference authorized_by : string) (add : option Z)
    (request_id : string) (m : Stamp) : res Store :=
  g ← admit_budget_raise db role actor reference authorized_by add;
  raise_budget_atomic db g role actor (first_text request_id ("e2e-budget-raise-" +:+ gr_by g)) m.

(** [TaskWriter._sprint_open]. *)
Definition sprint_open (db : Store) (sprint : string) : bool :=
  match dict_get (st_sprints db) sprint with Some row => bool_decide (sr_state row = SS_OPEN) | None => false end.

(** [TaskWriter.raise_e2e_cap] up to its write: no transaction holds it. *)
Definition admit_cap_raise (db : Store) (role actor reference authorized_by : string) (add : option Z)
    (request_id : string) : res (Grant * string) :=
  _ ← admit_role role actor [PO];
  _ ← check_add add;
  let answered := str_strip authorized_by in
  current ← show_card db reference;
  let sprint := py_str_or (get current "sprint") in
  if negb (is_code current) then Raise (TaskError "validation" (reference +:+ " is not a code card; it has no e2e cap"))
  else if nonempty sprint && sprint_open db sprint then
    Raise (TaskError "validation" (reference +:+ " belongs to " +:+ sprint
             +:+ ", whose e2e budget it spends: raise that with `sprint e2e-budget`"))
  else
    granted ← authorized_raise (reads db) answered reference add;
    let request_id := first_text request_id ("e2e-cap-raise-" +:+ answered) in
    let known := bool_decide (is_Some (record_of db request_id Committed)) || bool_decide (is_Some (record_of db request_id Staged)) in
    match (if known then None else used_answer db reference CARD_CAP_RAISED answered) with
    | Some e => Raise (refused ("the owner's comment " +:+ answered +:+ " already authorized a raise of " +:+ reference
                                +:+ "'s e2e cap (" +:+ py_str (get e "request_id") +:+ "); each answer raises once"))
    | None => Ok ({| gr_ref := reference; gr_by := answered; gr_decision := granted.1; gr_runs := granted.2 |}, request_id)
    end.

(** [_check_execution_record]. *)
Definition check_execution_record (task : Fields) : res unit :=
  if equals (get task "record_type") "issue" || equals (get task "record_type") "product"
  then Raise (TaskError "transition_forbidden" "Product issues and products cannot enter execution task columns")
  else Ok tt.

(** [TaskWriter._write] of the raise: its last step is one transaction. *)
Definition write_cap_raise (db : Store) (g : Grant) (role actor request_id : string) (m : Stamp) : res Store :=
  let identity := [("add", VInt (gr_runs g)); ("authorized_by", VStr (gr_by g))] in
  match record_of db request_id Committed, record_of db request_id Staged with
  | Some known, _ => _ ← require_claim known CARD_CAP_RAISED (gr_ref g) identity; _ ← show_card db (gr_ref g); Ok db
  | None, Some known => _ ← require_claim known CARD_CAP_RAISED (gr_ref g) identity; Ok (commit_staged db request_id)
  | None, None =>
      task ← show_card db (gr_ref g);
      _ ← check_execution_record task;
      cap ← card_cap task;
      db' ← commit_event db request_id (new_event CARD_CAP_RAISED role actor (gr_ref g) request_id m
              (identity ++ [("decision", VStr (gr_decision g)); ("cap", VInt (cap + gr_runs g))]));
      Ok (save_field db' (gr_ref g) E2E_CAP_FIELD
            (cap_text (cap_raises task ++ [identity ++ [("decision", VStr (gr_decision g)); ("at", VStr (sm_at m))]])))
  end.

(** [TaskWriter.raise_e2e_cap]. *)
Definition raise_e2e_cap (db : Store) (role actor reference authorized_by : string) (add : option Z)
    (request_id : string) (m : Stamp) : res Store :=
  admitted ← admit_cap_raise db role actor reference authorized_by add request_id;
  write_cap_raise db admitted.1 role actor admitted.2 m.
End ledger.
