(* ===== verification/E2eLedgerFacts.v ===== *)
(** * Runs of the e2e ledger

    Any interleaving of intents, after-merge intents, raises, creations, restores
    and other writes of the store, as a step relation: what a sprint has spent is
    bounded by what it was created or restored with and by the raises recorded
    since, each of them authorized by one comment of the owner on a store the
    run went through. *)

From stdpp Require Import relations.
From S2P Require Import Prelude PyText RequestIds JsonText Sha256 PyStrings Board WaitCard GateBackend E2eBudget E2eLedger.

Section runs.
Context `{PyRepr, JsonText, !JsonStr}.

Definition raises_of (db : Store) (ref : string) : list Fields := audit_events db ref (Some SPRINT_BUDGET_RAISED).

Definition charges_of (db : Store) (ref : string) : list Charge := filter (λ c, ch_sprint c = ref) (st_charges db).

(** The comment a raise names, and what it added. *)
Definition answer_of (e : Fields) : string := py_str_or (get (payload_of e) "authorized_by").
Definition added (e : Fields) : Z := match get (payload_of e) "add" with VInt n => n | _ => 0 end.
Definition total (l : list Fields) : Z := foldr Z.add 0 (added <$> l).

Definition is_raise (r : Row) : bool := equals (get (rq_intent r) "kind") SPRINT_BUDGET_RAISED.

(** A run: the store, the grants the calls in flight have read, and for each
    sprint the budget it was last created or restored with and how many raises
    it had then. *)
Record Birth := { bi_budget : Z; bi_seen : nat }.
Record Run := { ru_db : Store; ru_grants : list Grant; ru_born : list (string * Birth) }.

#[global] Instance Run_eta : Settable Run := λ r, Build_Run (ru_db r) (ru_grants r) (ru_born r).

Definition start : Run := {|
  ru_db := {| st_requests := []; st_sprints := []; st_charges := []; st_cards := [] |}; ru_grants := []; ru_born := [] |}.

Definition created (r : Run) (ref : string) (budget : Z) : Run := r
  <| ru_db := (ru_db r) <| st_sprints := dict_set (st_sprints (ru_db r)) ref
                             {| sr_state := SS_OPEN; sr_budget := budget; sr_used := 0 |} |> |>
  <| ru_born := dict_set (ru_born r) ref {| bi_budget := budget; bi_seen := length (raises_of (ru_db r) ref) |} |>.

Definition restored (r : Run) (ref : string) (a : Account) (row : SprintRow) : Run := r
  <| ru_db := restore_account (ru_db r) ref a |>
  <| ru_born := dict_set (ru_born r) ref {| bi_budget := sr_budget row; bi_seen := length (raises_of (ru_db r) ref) |} |>.

(** One write.  A raise reads its grant first and writes it in a transaction of
    its own later; anything may happen in between.  A restore writes an account
    that is in order: no more charges than runs used, no more used than the
    budget.  Other writers touch neither the budgets nor the charges, and record
    no raise. *)
Inductive step (r : Run) : Run → Prop :=
| step_create ref budget :
    nonempty ref = true → dict_get (st_sprints (ru_db r)) ref = None → 0 ≤ budget → step r (created r ref budget)
| step_restore ref a row :
    dict_get (st_sprints (restore_account (ru_db r) ref a)) ref = Some row →
    Z.of_nat (length (charges_of (restore_account (ru_db r) ref a) ref)) ≤ sr_used row ≤ sr_budget row →
    step r (restored r ref a row)
| step_close ref row state :
    dict_get (st_sprints (ru_db r)) ref = Some row →
    step r (r <| ru_db := (ru_db r) <| st_sprints := dict_set (st_sprints (ru_db r)) ref
                   {| sr_state := state; sr_budget := sr_budget row; sr_used := sr_used row |} |> |>)
| step_event row :
    is_raise row = false → step r (r <| ru_db := (ru_db r) <| st_requests := st_requests (ru_db r) ++ [row] |> |>)
| step_cards cards : step r (r <| ru_db := (ru_db r) <| st_cards := cards |> |>)
| step_intent role actor ref state sprint dispatch at_ db' answer :
    record_e2e_intent (ru_db r) role actor ref state sprint dispatch at_ = Ok (db', answer) → step r (r <| ru_db := db' |>)
| step_after_merge role actor states sprint dispatch carrier at_ db' answer :
    record_after_merge_intent (ru_db r) role actor states sprint dispatch carrier at_ = Ok (db', answer) →
    step r (r <| ru_db := db' |>)
| step_admit role actor ref by_ add g :
    admit_budget_raise (ru_db r) role actor ref by_ add = Ok g → step r (r <| ru_grants := g :: ru_grants r |>)
| step_cap g role actor id m db' :
    write_cap_raise (ru_db r) g role actor id m = Ok db' → step r (r <| ru_db := db' |>)
| step_raise g role actor id m db' :
    g ∈ ru_grants r → raise_budget_atomic (ru_db r) g role actor id m = Ok db' → step r (r <| ru_db := db' |>).

(** The step that opened the account of [ref]. *)
Definition opens (ref : string) (r r' : Run) : Prop :=
  step r r' ∧ ((∃ budget, r' = created r ref budget) ∨ ∃ a row, r' = restored r ref a row).

(** ** The invariant *)

Definition records_grant (gs : list Grant) (ref : string) (e : Fields) : Prop :=
  ∃ g, g ∈ gs ∧ gr_ref g = ref ∧ get (payload_of e) "authorized_by" = VStr (gr_by g) ∧ added e = gr_runs g.

Record balanced (db : Store) (gs : list Grant) (born : list (string * Birth)) (ref : string) (row : SprintRow) : Prop := {
  ba_budget : ∃ b, dict_get born ref = Some b ∧ (bi_seen b ≤ length (raises_of db ref))%nat ∧
                sr_budget row = bi_budget b + total (drop (bi_seen b) (raises_of db ref));
  ba_used : Z.of_nat (length (charges_of db ref)) ≤ sr_used row;
  ba_within : sr_used row ≤ sr_budget row;
}.

Record sound (db : Store) (gs : list Grant) (born : list (string * Birth)) : Prop := {
  so_balanced : ∀ ref row, dict_get (st_sprints db) ref = Some row → balanced db gs born ref row;
  so_named : ∀ ref row, dict_get (st_sprints db) ref = Some row → nonempty ref = true;
  so_known : ∀ ref, nonempty ref = true → dict_get (st_sprints db) ref = None → raises_of db ref = [] ∧ charges_of db ref = [];
  so_once : NoDup (ch_dispatch <$> st_charges db);
  so_answers : ∀ ref, nonempty ref = true → NoDup (answer_of <$> raises_of db ref);
  so_grants : ∀ ref, nonempty ref = true → Forall (records_grant gs ref) (raises_of db ref);
  so_staged : ∀ r, r ∈ st_requests db → rq_status r = Staged → is_raise r = false;
  so_given : ∀ g, g ∈ gs → 0 < gr_runs g;
}.

(** ** Lemmas on the operations *)

Lemma owner_answer_positive body n : owner_answer body = Ok (Some (Raises n)) → 0 < n.
Proof.
  unfold owner_answer. intros (answers & _ & E)%bind_Ok. injection E as E.
  destruct answers as [|[m|] [|]]; try discriminate E. destruct (Z.ltb_spec 0 m); by simplify_eq.
Qed.

Lemma authorized_positive B by_ scope add d n : authorized_raise B by_ scope add = Ok (d, n) → 0 < n.
Proof.
  unfold authorized_raise. intros E. destruct (negb (nonempty _)); [done|]. inv_ok. case_match; [done|].
  destruct (negb _); [done|]. inv_ok. destruct (negb _); [done|]. destruct (negb _); [done|]. inv_ok.
  destruct x3 as [[m|]|]; try done. destruct (from_option (λ a, negb (a =? m)) false add); [done|]. injection E as _ <-.
  destruct x2; [by eapply owner_answer_positive|done].
Qed.

Lemma admit_positive db role actor ref by_ add g : admit_budget_raise db role actor ref by_ add = Ok g → 0 < gr_runs g.
Proof. unfold admit_budget_raise. intros E. inv_ok. destruct x1 as [d n]. by eapply authorized_positive. Qed.

(** A transaction that touches the named rows only. *)
Lemma raises_append db r ref : raises_of (db <| st_requests := st_requests db ++ [r] |>) ref
  = raises_of db ref ++ (if bool_decide (rq_status r = Committed) then
                           filter (λ e, (negb (nonempty ref) || String.eqb (py_str_or (get e "ref")) ref)
                                        && equals (get e "kind") SPRINT_BUDGET_RAISED = true) [rq_intent r] else []).
Proof.
  unfold raises_of, audit_events. change (st_requests (db <| st_requests := st_requests db ++ [r] |>)) with (st_requests db ++ [r]).
  rewrite filter_app, fmap_app, filter_app. f_equal.
  rewrite filter_cons, filter_nil. case_bool_decide; by case_decide.
Qed.

Lemma raises_other db r ref : is_raise r = false → raises_of (db <| st_requests := st_requests db ++ [r] |>) ref = raises_of db ref.
Proof.
  intros Hr. rewrite raises_append. case_bool_decide; [|apply app_nil_r]. rewrite filter_cons, filter_nil.
  unfold is_raise in Hr. rewrite Hr, andb_false_r. apply app_nil_r.
Qed.

Lemma intent_shape db role actor ref state sprint dispatch at_ db' answer :
  record_e2e_intent db role actor ref state sprint dispatch at_ = Ok (db', answer) →
  (∃ db1, (db1 = db ∨ ∃ a, charge_e2e db sprint ref dispatch at_ = Ok (db1, a)) ∧
     ∃ cards, db' = db1 <| st_cards := cards |>).
Proof.
  unfold record_e2e_intent. intros E. inv_ok. destruct (negb _); [done|]. inv_ok.
  destruct x1 as [db1 a]. exists db1. split.
  - destruct (nonempty sprint); [by right; eexists|]. simplify_eq. by left.
  - assert (db1 = db1 <| st_cards := st_cards db1 |>) as E' by by destruct db1.
    injection E as E. destruct (an_charged a); simplify_eq; [|by eexists]. unfold save_field.
    destruct (dict_get _ _); by eexists.
Qed.

Lemma staged_found db id e : record_of db id Staged = Some e →
  ∃ r, r ∈ st_requests db ∧ rq_status r = Staged ∧ rq_intent r = e.
Proof.
  unfold record_of. intros (r & Hr%head_Some_elem_of & ->)%fmap_Some. apply list_elem_of_filter in Hr as [[_ Hs] Hr].
  by exists r.
Qed.

(** What no raise touches. *)
Record calm_step (db db' : Store) : Prop := {
  cs_sprints : st_sprints db' = st_sprints db;
  cs_charges : st_charges db' = st_charges db;
  cs_raises : ∀ ref, raises_of db' ref = raises_of db ref;
  cs_staged : ∀ r, r ∈ st_requests db' → rq_status r = Staged → is_raise r = true → r ∈ st_requests db;
}.

Lemma calm_event db r : is_raise r = false → calm_step db (db <| st_requests := st_requests db ++ [r] |>).
Proof.
  intros Hr. split; [done|done|intros ref; by apply raises_other|].
  intros r' [Hin|Hin%list_elem_of_singleton]%elem_of_app; [done|congruence].
Qed.

Lemma calm_cards db cards : calm_step db (db <| st_cards := cards |>).
Proof. by split. Qed.

Lemma calm_trans db1 db2 db3 : calm_step db1 db2 → calm_step db2 db3 → calm_step db1 db3.
Proof. intros [] []. split; try congruence. auto. Qed.

Lemma calm_save db ref key text : calm_step db (save_field db ref key text).
Proof. unfold save_field. destruct (dict_get _ _); by split. Qed.

(** The committed raises among [rows]. *)
Definition raises_in (ref : string) (rows : list Row) : list Fields :=
  filter (λ e, (negb (nonempty ref) || String.eqb (py_str_or (get e "ref")) ref)
               && equals (get e "kind") SPRINT_BUDGET_RAISED = true)
    (rq_intent <$> filter (λ r, rq_status r = Committed) rows).

Lemma raises_in_cons ref r rows : is_raise r = false → raises_in ref (r :: rows) = raises_in ref rows.
Proof.
  intros Hr. unfold raises_in. rewrite filter_cons. case_decide; [|done]. cbn [fmap list_fmap].
  rewrite filter_cons. unfold is_raise in Hr. rewrite Hr, andb_false_r. done.
Qed.

Lemma calm_staged db id : (∀ r, r ∈ st_requests db → rq_status r = Staged → is_raise r = false) →
  calm_step db (commit_staged db id).
Proof.
  intros Hs. split; [done|done| |].
  - intros ref. change (raises_in ref (commit_row id <$> st_requests db) = raises_in ref (st_requests db)).
    induction (st_requests db) as [|r rows IH]; [done|]. cbn [fmap list_fmap].
    specialize (IH (λ r' Hr', Hs r' (list_elem_of_further _ _ _ Hr'))). unfold commit_row at 1. case_bool_decide as Hr.
    + assert (is_raise r = false) as Hn by (apply Hs; [left|apply Hr]). by rewrite !raises_in_cons.
    + unfold raises_in in *. rewrite !filter_cons. case_decide; [|done]. cbn [fmap list_fmap]. rewrite !filter_cons.
      by case_decide; [f_equal|].
  - intros r (r' & -> & Hr')%list_elem_of_fmap. unfold commit_row. by case_bool_decide.
Qed.

Lemma calm_cap db g role actor id m db' : (∀ r, r ∈ st_requests db → rq_status r = Staged → is_raise r = false) →
  write_cap_raise db g role actor id m = Ok db' → calm_step db db'.
Proof.
  intros Hs E. unfold write_cap_raise in E. destruct (record_of db id Committed); [inv_ok; by split|].
  destruct (record_of db id Staged); [inv_ok; by apply calm_staged|]. inv_ok.
  eapply calm_trans; [|apply calm_save]. unfold commit_event in E3. destruct (record_of db id Discarded); [done|]. inv_ok.
  by apply calm_event.
Qed.

(** ** Every step keeps the invariant *)

Lemma sound_calm db db' gs born : sound db gs born → calm_step db db' → sound db' gs born.
Proof.
  intros [Hb Hn Hk Ho Ha Hg Hs Hp] [Es Ec Er Et].
  assert (∀ ref, charges_of db' ref = charges_of db ref) as Ec' by (intros ref; unfold charges_of; by rewrite Ec).
  split; rewrite ?Es, ?Ec; try done.
  - intros ref row Hrow. destruct (Hb ref row Hrow). split; rewrite ?Er, ?Ec'; done.
  - intros ref. rewrite Er, Ec'. apply Hk.
  - intros ref. rewrite Er. apply Ha.
  - intros ref. rewrite Er. apply Hg.
  - intros r Hr Hst. destruct (is_raise r) eqn:E; [|done]. rewrite <-E. apply Hs; [by apply Et|done].
Qed.

(** One sprint's row is replaced by one whose account is in balance. *)
Lemma sound_row db db' gs born born' ref row :
  sound db gs born → nonempty ref = true →
  st_sprints db' = dict_set (st_sprints db) ref row → balanced db' gs born' ref row →
  (∀ ref', nonempty ref' = true → ref' ≠ ref → raises_of db' ref' = raises_of db ref' ∧ charges_of db' ref' = charges_of db ref' ∧
                        dict_get born' ref' = dict_get born ref') →
  NoDup (ch_dispatch <$> st_charges db') → NoDup (answer_of <$> raises_of db' ref) →
  Forall (records_grant gs ref) (raises_of db' ref) →
  (∀ r, r ∈ st_requests db' → rq_status r = Staged → r ∈ st_requests db) →
  sound db' gs born'.
Proof.
  intros [Hb Hn Hk Ho Ha Hg Hs Hp] Href Es Hrow Hother Hd Hans Hgr Hst.
  assert (∀ ref', ref' ≠ ref → dict_get (st_sprints db') ref' = dict_get (st_sprints db) ref') as Eo
    by (intros ref' Hne; rewrite Es; by apply dict_get_set_ne).
  assert (dict_get (st_sprints db') ref = Some row) as Er by (rewrite Es; apply dict_get_set_eq).
  split; [| | |done| | |by intros r Hr Hr'; apply Hs; [apply Hst|]|done].
  - intros ref' row' E. destruct (decide (ref' = ref)) as [->|Hne]; [by simplify_eq|].
    rewrite Eo in E by done. destruct (Hb _ _ E). destruct (Hother ref' (Hn _ _ E) Hne) as (E1 & E2 & E3).
    split; rewrite ?E1, ?E2, ?E3; done.
  - intros ref' row' E. destruct (decide (ref' = ref)) as [->|Hne]; [done|]. rewrite Eo in E by done. by eapply Hn.
  - intros ref' Hr' E. destruct (decide (ref' = ref)) as [->|Hne]; [by simplify_eq|]. rewrite Eo in E by done.
    destruct (Hother ref' Hr' Hne) as (-> & -> & _). by apply Hk.
  - intros ref' Hr'. destruct (decide (ref' = ref)) as [->|Hne]; [done|]. destruct (Hother ref' Hr' Hne) as (-> & _). by apply Ha.
  - intros ref' Hr'. destruct (decide (ref' = ref)) as [->|Hne]; [done|]. destruct (Hother ref' Hr' Hne) as (-> & _). by apply Hg.
Qed.

Lemma sound_create db gs born ref budget :
  sound db gs born → nonempty ref = true → dict_get (st_sprints db) ref = None → 0 ≤ budget →
  sound (db <| st_sprints := dict_set (st_sprints db) ref {| sr_state := SS_OPEN; sr_budget := budget; sr_used := 0 |} |>)
    gs (dict_set born ref {| bi_budget := budget; bi_seen := length (raises_of db ref) |}).
Proof.
  intros Hsd Href Hnew Hpos. destruct (so_known _ _ _ Hsd ref Href Hnew) as [Er Ec].
  eapply sound_row; try done.
  - split; cbn [sr_budget sr_used]; [|by unfold charges_of in *; cbn; rewrite Ec|done].
    eexists. rewrite dict_get_set_eq. split; [done|]. change (raises_of (_ <| st_sprints := _ |>) ref) with (raises_of db ref).
    rewrite Er. cbn. lia.
  - intros ref' _ Hne. split_and!; [done..|]. by apply dict_get_set_ne.
  - apply (so_once _ _ _ Hsd).
  - by apply (so_answers _ _ _ Hsd).
  - by apply (so_grants _ _ _ Hsd).
Qed.

Lemma sound_close db gs born ref row state :
  sound db gs born → dict_get (st_sprints db) ref = Some row →
  sound (db <| st_sprints := dict_set (st_sprints db) ref
                 {| sr_state := state; sr_budget := sr_budget row; sr_used := sr_used row |} |>) gs born.
Proof.
  intros Hsd Hrow. pose proof (so_named _ _ _ Hsd _ _ Hrow) as Href. destruct (so_balanced _ _ _ Hsd _ _ Hrow).
  eapply sound_row; try done.
  - apply (so_once _ _ _ Hsd).
  - by apply (so_answers _ _ _ Hsd).
  - by apply (so_grants _ _ _ Hsd).
Qed.

Lemma sound_charge db gs born sprint card dispatch at_ db' a :
  sound db gs born → charge_e2e db sprint card dispatch at_ = Ok (db', a) → sound db' gs born.
Proof.
  intros Hsd. unfold charge_e2e. destruct (dict_get (st_sprints db) sprint) as [row|] eqn:Hrow; [|done].
  destruct (_ && _) eqn:Eb; [|by intros [= <- _]]. apply andb_true_iff in Eb as [Hlt%Z.ltb_lt Hnew%negb_true_iff].
  intros [= <- _]. pose proof (so_named _ _ _ Hsd _ _ Hrow) as Href. destruct (so_balanced _ _ _ Hsd _ _ Hrow) as [Hb Hu Hw].
  eapply (sound_row db _ gs born born sprint {| sr_state := sr_state row; sr_budget := sr_budget row; sr_used := sr_used row + 1 |});
    try done; cbn.
  - split; cbn [sr_budget sr_used]; [done| |lia]. unfold charges_of. cbn. rewrite filter_app, filter_cons_True by done.
    rewrite filter_nil, length_app. cbn. fold (charges_of db sprint). lia.
  - intros ref' _ Hne. split_and!; [done| |done]. unfold charges_of. cbn. rewrite filter_app, filter_cons_False by done.
    by rewrite filter_nil, app_nil_r.
  - rewrite fmap_app. apply NoDup_app. split; [apply (so_once _ _ _ Hsd)|]. split; [|by apply NoDup_singleton].
    intros x (c & -> & Hc)%list_elem_of_fmap Hx%list_elem_of_singleton. cbn in Hx.
    apply Bool.not_true_iff_false in Hnew. apply Hnew, existsb_exists. exists c. split; [by apply list_elem_of_In|].
    apply String.eqb_eq. exact Hx.
  - by apply (so_answers _ _ _ Hsd).
  - by apply (so_grants _ _ _ Hsd).
Qed.

Lemma sound_admit db gs born g : sound db gs born → 0 < gr_runs g → sound db (g :: gs) born.
Proof.
  intros [Hb Hn Hk Ho Ha Hg Hs Hp] Hpos. split; try done.
  - intros ref row Hrow. by destruct (Hb ref row Hrow).
  - intros ref Href. eapply Forall_impl; [by apply Hg|]. intros e (g' & Hin & ?). exists g'. split; [by right|done].
  - intros g' [->|Hin]%elem_of_cons; [done|by apply Hp].
Qed.

Lemma raise_atomic_cases db g role actor id m db' :
  (∀ r, r ∈ st_requests db → rq_status r = Staged → is_raise r = false) →
  raise_budget_atomic db g role actor id m = Ok db' →
  db' = db ∨
  ∃ row event, used_answer db (gr_ref g) SPRINT_BUDGET_RAISED (gr_by g) = None ∧
    dict_get (st_sprints db) (gr_ref g) = Some row ∧
    event = new_event SPRINT_BUDGET_RAISED role actor (gr_ref g) id m
              [("add", VInt (gr_runs g)); ("authorized_by", VStr (gr_by g)); ("decision", VStr (gr_decision g))] ∧
    db' = db <| st_requests := st_requests db ++ [{| rq_id := id; rq_status := Committed; rq_intent := event |}] |>
             <| st_sprints := dict_set (st_sprints db) (gr_ref g)
                  {| sr_state := sr_state row; sr_budget := sr_budget row + gr_runs g; sr_used := sr_used row |} |>.
Proof.
  intros Hs E. unfold raise_budget_atomic in E. apply bind_Ok in E as (u & Hk & E). unfold write_budget_raise in E.
  destruct (record_of db id Committed); [inv_ok; by left|]. destruct (record_of db id Staged) as [e|] eqn:Est.
  - apply staged_found in Est as (r & Hr & Hst & <-). specialize (Hs r Hr Hst). unfold is_raise in Hs. by rewrite Hs in Hk.
  - right. destruct (used_answer _ _ _ _); [done|]. apply bind_Ok in E as (row & Hrow & E).
    destruct (negb _); [done|]. apply bind_Ok in E as (db1 & Hc & E). unfold commit_event in Hc.
    destruct (record_of db id Discarded); [done|]. injection Hc as <-. injection E as <-.
    unfold show_sprint in Hrow. destruct (dict_get _ _) as [row'|] eqn:Hg; [|done]. injection Hrow as <-.
    by eexists _, _.
Qed.

Lemma raises_added db role actor ref id m payload ref' : nonempty ref' = true →
  raises_of (db <| st_requests := st_requests db ++ [{| rq_id := id; rq_status := Committed;
               rq_intent := new_event SPRINT_BUDGET_RAISED role actor ref id m payload |}] |>) ref'
  = raises_of db ref' ++ (if bool_decide (ref' = ref) then [new_event SPRINT_BUDGET_RAISED role actor ref id m payload] else []).
Proof.
  intros Hne. rewrite raises_append. cbn [rq_status rq_intent]. rewrite bool_decide_true by done. f_equal.
  rewrite filter_cons, filter_nil. change (get (new_event _ _ _ _ _ _ _) "ref") with (VStr ref).
  change (equals (get (new_event _ _ _ _ _ _ _) "kind") SPRINT_BUDGET_RAISED) with true.
  rewrite py_str_or_str, andb_true_r, Hne. cbn [negb orb]. destruct (String.eqb_spec ref ref') as [->|]; case_decide;
    by case_bool_decide.
Qed.

Lemma answer_fresh db ref a : used_answer db ref SPRINT_BUDGET_RAISED a = None →
  Forall (λ e, ∃ t, get (payload_of e) "authorized_by" = VStr t) (raises_of db ref) →
  a ∉ answer_of <$> raises_of db ref.
Proof.
  unfold used_answer. fold (raises_of db ref). intros Hu Hf (e & Ea & He)%list_elem_of_fmap.
  apply head_None in Hu. rewrite Forall_forall in Hf. destruct (Hf e He) as [t Ht].
  assert (e ∈ filter (λ e, equals (get (payload_of e) "authorized_by") a = true) (raises_of db ref)) as Hin.
  { apply list_elem_of_filter. split; [|done]. rewrite Ht. apply String.eqb_eq. unfold answer_of in Ea.
    rewrite Ht, py_str_or_str in Ea. congruence. }
  rewrite Hu in Hin. by apply not_elem_of_nil in Hin.
Qed.

Lemma total_app l1 l2 : total (l1 ++ l2) = total l1 + total l2.
Proof. unfold total. induction l1 as [|e l IH]; [done|]. cbn in *. rewrite IH. lia. Qed.

Lemma sound_raise db gs born g role actor id m db' :
  sound db gs born → g ∈ gs → raise_budget_atomic db g role actor id m = Ok db' → sound db' gs born.
Proof.
  intros Hsd Hg E. apply raise_atomic_cases in E as [->|(row & event & Hu & Hrow & Ee & ->)]; [done| |apply (so_staged _ _ _ Hsd)].
  pose proof (so_named _ _ _ Hsd _ _ Hrow) as Href. destruct (so_balanced _ _ _ Hsd _ _ Hrow) as [(b & Hb & Hseen & Eb) Hused Hw].
  pose proof (so_given _ _ _ Hsd g Hg) as Hpos. set (db1 := db <| st_requests := _ |>).
  assert (∀ ref', nonempty ref' = true → raises_of (db1 <| st_sprints := dict_set (st_sprints db) (gr_ref g)
            {| sr_state := sr_state row; sr_budget := sr_budget row + gr_runs g; sr_used := sr_used row |} |>) ref'
          = raises_of db ref' ++ (if bool_decide (ref' = gr_ref g) then [event] else [])) as Er
    by (intros ref' Hne; subst event; by apply (raises_added db)).
  pose proof (Er _ Href) as Er'. rewrite bool_decide_true in Er' by done.
  eapply (sound_row db _ gs born born (gr_ref g)); try done.
  - split; cbn [sr_budget sr_used]; [|done|lia]. exists b. split; [done|]. rewrite Er', length_app. split; [lia|].
    rewrite drop_app_le by done. rewrite total_app, Eb. subst event. cbn. lia.
  - intros ref' Hne Hd. rewrite Er by done. by rewrite bool_decide_false, app_nil_r by done.
  - apply (so_once _ _ _ Hsd).
  - rewrite Er', fmap_app. apply NoDup_app. split; [by apply (so_answers _ _ _ Hsd)|]. split; [|by apply NoDup_singleton].
    intros x Hx Hx'%list_elem_of_singleton. subst x event. revert Hx. unfold answer_of at 1. cbn. rewrite py_str_or_str.
    apply answer_fresh; [done|]. eapply Forall_impl; [by apply (so_grants _ _ _ Hsd)|]. intros e (g' & _ & _ & ? & _). by eexists.
  - rewrite Er'. apply Forall_app. split; [by apply (so_grants _ _ _ Hsd)|]. apply Forall_singleton. subst event. by exists g.
  - intros r [Hr|Hr%list_elem_of_singleton]%elem_of_app Hst; [done|]. by subst r.
Qed.

Lemma intents_saved db1 states : calm_step db1 (foldl (λ db p, save_field db p.1 E2E_FIELD p.2) db1 states).
Proof.
  revert db1. induction states as [|p states IH]; intros db1; [by split|]. cbn. eapply calm_trans; [apply calm_save|apply IH].
Qed.

Lemma sound_after_merge db gs born role actor states sprint dispatch carrier at_ db' answer :
  sound db gs born → record_after_merge_intent db role actor states sprint dispatch carrier at_ = Ok (db', answer) → sound db' gs born.
Proof.
  intros Hsd. unfold record_after_merge_intent. intros E. inv_ok. destruct (negb _); [done|]. inv_ok.
  destruct (List.find _ _); [done|]. inv_ok. destruct x1 as [db1 a].
  assert (sound db1 gs born) as Hs1.
  { destruct (nonempty sprint); inv_ok; [|done]. destruct x1 as [db2 a2]. simplify_eq. by eapply sound_charge. }
  destruct (an_charged _); simplify_eq; [|done]. eapply sound_calm; [done|apply intents_saved].
Qed.

(** ** A restore *)

Lemma insert_charge_kept charges c : NoDup (ch_dispatch <$> charges) → NoDup (ch_dispatch <$> insert_charge charges c).
Proof.
  intros Hn. unfold insert_charge. destruct (existsb _ _) eqn:E; [done|]. rewrite fmap_app. apply NoDup_app.
  split; [done|]. split; [|by apply NoDup_singleton]. intros x (d & -> & Hd)%list_elem_of_fmap Hx%list_elem_of_singleton.
  apply Bool.not_true_iff_false in E. apply E, existsb_exists. exists d. split; [by apply list_elem_of_In|].
  apply String.eqb_eq. exact Hx.
Qed.

Lemma insert_charge_others charges c ref : ch_sprint c ≠ ref →
  filter (λ c, ch_sprint c = ref) (insert_charge charges c) = filter (λ c, ch_sprint c = ref) charges.
Proof.
  intros Hc. unfold insert_charge. destruct (existsb _ _); [done|].
  by rewrite filter_app, filter_cons_False, filter_nil, app_nil_r by done.
Qed.

Lemma restore_charges_facts charges reference items :
  NoDup (ch_dispatch <$> charges) →
  NoDup (ch_dispatch <$> restore_e2e_charges charges reference items) ∧
  ∀ ref, ref ≠ reference → filter (λ c, ch_sprint c = ref) (restore_e2e_charges charges reference items)
                           = filter (λ c, ch_sprint c = ref) charges.
Proof.
  intros Hn. unfold restore_e2e_charges. set (kept := filter _ charges).
  assert (NoDup (ch_dispatch <$> kept)) as Hk by (eapply sublist_NoDup; [exact Hn|]; apply fmap_sublist, sublist_filter).
  assert (∀ ref, ref ≠ reference → filter (λ c, ch_sprint c = ref) kept = filter (λ c, ch_sprint c = ref) charges) as Ho.
  { intros ref Hne. unfold kept. rewrite list_filter_filter. apply list_filter_iff. naive_solver. }
  clearbody kept. revert kept Hk Ho. induction items as [|c items IH]; intros kept Hk Ho; [done|]. cbn [fmap list_fmap foldl].
  apply IH; [by apply insert_charge_kept|]. intros ref Hne. rewrite insert_charge_others by (cbn; congruence). by apply Ho.
Qed.

Lemma sound_restore db gs born ref a row :
  sound db gs born → dict_get (st_sprints (restore_account db ref a)) ref = Some row →
  Z.of_nat (length (charges_of (restore_account db ref a) ref)) ≤ sr_used row ≤ sr_budget row →
  sound (restore_account db ref a) gs (dict_set born ref {| bi_budget := sr_budget row; bi_seen := length (raises_of db ref) |}).
Proof.
  intros Hsd. unfold restore_account. destruct (dict_get (st_sprints db) ref) as [old|] eqn:Hold; [|congruence].
  pose proof (so_named _ _ _ Hsd _ _ Hold) as Href. set (charges := match ac_charges a with Some _ => _ | None => _ end).
  intros Hrow Hin. cbn in Hrow. rewrite dict_get_set_eq in Hrow.
  assert (NoDup (ch_dispatch <$> charges) ∧ ∀ ref', ref' ≠ ref →
    filter (λ c, ch_sprint c = ref') charges = filter (λ c, ch_sprint c = ref') (st_charges db)) as [Hn Ho].
  { unfold charges. destruct (ac_charges a); [|split; [apply (so_once _ _ _ Hsd)|done]].
    apply restore_charges_facts, (so_once _ _ _ Hsd). }
  eapply (sound_row db _ gs born _ ref row); try done.
  - cbn. congruence.
  - split; [|lia..]. eexists. rewrite dict_get_set_eq. split; [done|].
    change (raises_of (_ <| st_charges := _ |>) ref) with (raises_of db ref). cbn. split; [lia|]. rewrite drop_all. cbn. lia.
  - intros ref' _ Hne. split_and!; [done|by apply Ho|by apply dict_get_set_ne].
  - by apply (so_answers _ _ _ Hsd).
  - by apply (so_grants _ _ _ Hsd).
Qed.

(** ** Runs *)

Lemma start_sound : sound (ru_db start) [] [].
Proof. split; try done; [constructor|intros ref _; constructor|by intros r ?%not_elem_of_nil|by intros g ?%not_elem_of_nil]. Qed.

Lemma run_step_sound r r' : step r r' → sound (ru_db r) (ru_grants r) (ru_born r) → sound (ru_db r') (ru_grants r') (ru_born r').
Proof.
  intros [ref b ? ? ?|ref a row ? ?|ref row st ?|row ?|cards|role actor ref st sprint d at_ db' a E
         |role actor states sprint d carrier at_ db' a E|role actor ref by_ add g E|g role actor id m db' E|g role actor id m db' Hg E] Hsd;
    cbn [ru_db ru_grants ru_born update created restored].
  - by apply sound_create.
  - by apply sound_restore.
  - by apply sound_close.
  - by eapply sound_calm, calm_event.
  - eapply sound_calm, calm_cards. done.
  - apply intent_shape in E as (db1 & Hc & cards & ->). eapply sound_calm, calm_cards.
    destruct Hc as [->|[a' Hc]]; [done|by eapply sound_charge].
  - by eapply sound_after_merge.
  - apply sound_admit; [done|by eapply admit_positive].
  - eapply sound_calm, calm_cap; try done. apply (so_staged _ _ _ Hsd).
  - by eapply sound_raise.
Qed.

Lemma run_sound r : rtc step start r → sound (ru_db r) (ru_grants r) (ru_born r).
Proof. apply (rtc_ind_r (λ r, sound (ru_db r) (ru_grants r) (ru_born r))); [apply start_sound|]. eauto using run_step_sound. Qed.

(** Every grant was read off a store the run went through. *)
Lemma run_granted r g : rtc step start r → g ∈ ru_grants r →
  ∃ mid role actor by_ add, rtc step start mid ∧ rtc step mid r ∧ admit_budget_raise (ru_db mid) role actor (gr_ref g) by_ add = Ok g.
Proof.
  intros Hr. revert g. pattern r. eapply rtc_ind_r; [|clear r Hr|exact Hr]; [by intros g ?%not_elem_of_nil|].
  intros r r' Hr Hs IH g Hg.
  assert (g ∈ ru_grants r → ∃ mid role actor by_ add, rtc step start mid ∧ rtc step mid r' ∧
            admit_budget_raise (ru_db mid) role actor (gr_ref g) by_ add = Ok g) as Hold.
  { intros Hg'. destruct (IH g Hg') as (mid & role & actor & by_ & add & Hx1 & Hx2 & Hx3).
    exists mid, role, actor, by_, add. split_and!; [done|by eapply rtc_r|done]. }
  pose proof Hs as Hs'. destruct Hs as [| | | | | | |role actor ref by_ add g' E| |]; try by apply Hold.
  cbn in Hg. apply elem_of_cons in Hg as [->|Hg]; [|by apply Hold].
  exists r, role, actor, by_, add. split; [done|]. split; [by apply rtc_once|].
  assert (gr_ref g' = ref) as -> by (unfold admit_budget_raise in E; by inv_ok). done.
Qed.

(** Every account was opened by a step of the run. *)
Lemma run_opened r ref b : rtc step start r → dict_get (ru_born r) ref = Some b →
  ∃ mid mid' row, rtc step start mid ∧ opens ref mid mid' ∧ rtc step mid' r ∧
    dict_get (st_sprints (ru_db mid')) ref = Some row ∧ sr_budget row = bi_budget b ∧
    length (raises_of (ru_db mid') ref) = bi_seen b.
Proof.
  intros Hr. revert b. pattern r. eapply rtc_ind_r; [|clear r Hr|exact Hr]; [done|]. intros r r' Hr Hs IH b Hb.
  assert (dict_get (ru_born r) ref = Some b → ∃ mid mid' row, rtc step start mid ∧ opens ref mid mid' ∧ rtc step mid' r' ∧
    dict_get (st_sprints (ru_db mid')) ref = Some row ∧ sr_budget row = bi_budget b ∧
    length (raises_of (ru_db mid') ref) = bi_seen b) as Hold.
  { intros Hb'. destruct (IH b Hb') as (mid & mid' & row & Hx1 & Hx2 & Hx3 & Hx4 & Hx5).
    exists mid, mid', row. split_and!; try done; try apply Hx5. by eapply rtc_r. }
  pose proof Hs as Hs'. destruct Hs as [ref' budget Hne Hnew Hpos|ref' a row Hrow Hin| | | | | | | |]; try by apply Hold.
  - cbn in Hb. destruct (decide (ref' = ref)) as [->|Hd]; [|rewrite dict_get_set_ne in Hb by done; by apply Hold].
    rewrite dict_get_set_eq in Hb. injection Hb as <-. exists r, (created r ref budget). eexists.
    split; [done|]. split; [split; [done|left; by eexists]|]. split; [done|]. cbn. by rewrite dict_get_set_eq.
  - cbn in Hb. destruct (decide (ref' = ref)) as [->|Hd]; [|rewrite dict_get_set_ne in Hb by done; by apply Hold].
    rewrite dict_get_set_eq in Hb. injection Hb as <-. exists r, (restored r ref a row), row.
    split; [done|]. split; [split; [done|right; by eexists _, _]|]. split; [done|]. cbn. split; [done|]. split; [done|].
    unfold restore_account. by destruct (dict_get (st_sprints (ru_db r)) ref).
Qed.

End runs.
