(* ===== verification/E2eWitnesses.v ===== *)
(** * The e2e budget at concrete inputs

    A sprint whose budget is spent and raised on the owner's word, and two
    findings on the raise of a card's own cap. *)

From stdpp Require Import relations.
From S2P Require Import Prelude PyText RequestIds JsonText Json JsonStandIn Sha256 PyStrings Board WaitCard GateBackend.
From S2P Require Import E2eBudget E2eBudgetFacts E2eLedger E2eLedgerFacts.

Definition the_answer : string := "Fine." +:+ String NEWLINE "e2e budget: raise 2".

Definition event_of (id kind ref request : string) (payload : Fields) : Fields :=
  [("event_id", VStr id); ("kind", VStr kind); ("ref", VStr ref); ("request_id", VStr request); ("payload", VDict payload)].

Definition row_of (e : Fields) : Row := {| rq_id := py_str (get e "request_id"); rq_status := Committed; rq_intent := e |}.

(** The history of the decision card [ref], cut under [created], handed over and
    answered. *)
Definition decision_history (ref created : string) : list Row := row_of <$> [
  event_of "evt_1" "created" ref created [];
  event_of "evt_2" HANDED_TO_OWNER ref "handover-1" [];
  event_of "evt_3" "commented" ref "comment-1" [("marker", VStr OWNER_ROLE); ("body_sha256", VStr (body_digest the_answer))]].

Definition decision_card : Fields :=
  [("type", VStr "decision"); ("comments", VList [VDict [("marker", VStr OWNER_ROLE);
    ("body", VStr ("[owner]" +:+ String NEWLINE the_answer))]])].

Definition code_card (sprint : string) : Fields := [("type", VStr "code"); ("sprint", VStr sprint)].

Definition a_stamp (id : string) : Stamp :=
  {| sm_event_id := id; sm_at := "2026-09-28T10:00:00Z"; sm_task_id := "7"; sm_number := 7; sm_revision := "r" |}.

Definition after_ {A} (r : res A) (d : A) : A := match r with Ok a => a | Raise _ => d end.

(** ** A sprint *)

Definition db0 : Store := {| st_requests := []; st_sprints := []; st_charges := []; st_cards := [] |}.

Definition db1 : Store := db0 <| st_sprints := dict_set (st_sprints db0) "sprint:5" {| sr_state := SS_OPEN; sr_budget := 1; sr_used := 0 |} |>.

Definition db2 : Store := db1 <| st_cards := [("app-1", code_card "sprint:5"); ("app-9", decision_card)] |>.

Definition intent (db : Store) (dispatch : string) : res (Store * ChargeAnswer) :=
  record_e2e_intent db "dispatcher" "ummanu" "app-1" "{}" "sprint:5" dispatch 0.

Definition db3 : Store := (after_ (intent db2 "d-1") (db2, {| an_charged := false; an_budget := None |})).1.

Definition with_row (db : Store) (r : Row) : Store := db <| st_requests := st_requests db ++ [r] |>.

Definition history_5 : list Row := decision_history "app-9" "dispatcher-e2e-budget-sprint-5-1".

Definition db4 : Store := foldl with_row db3 history_5.

Definition the_grant : Grant := {| gr_ref := "sprint:5"; gr_by := "evt_3"; gr_decision := "app-9"; gr_runs := 2 |}.

Definition db5 : Store := after_ (raise_budget_atomic db4 the_grant "po" "po" "r-1" (a_stamp "evt_4")) db4.

(** The second run is one after the merge. *)
Definition db6 : Store :=
  match record_after_merge_intent db5 "dispatcher" "ummanu" [("app-1", "{}")] "sprint:5" "d-2" "app-1" 0 with
  | Ok a => a.1
  | Raise _ => db5
  end.

Example budget_spent : an_charged <$> (snd <$> intent db3 "d-2") = Ok false.
Proof. vm_compute. reflexivity. Qed.

Example raise_is_that : raise_e2e_budget db4 "po" "po" "sprint:5" "evt_3" None "r-1" (a_stamp "evt_4") = Ok db5
  ∧ dict_get (st_sprints db5) "sprint:5" = Some {| sr_state := SS_OPEN; sr_budget := 3; sr_used := 1 |}.
Proof. split; vm_compute; reflexivity. Qed.

(** A run of the ledger that is at [db]. *)
Definition at_db (db : Store) (gs : list Grant) : Run :=
  {| ru_db := db; ru_grants := gs; ru_born := [("sprint:5", {| bi_budget := 1; bi_seen := 0 |})] |}.

Lemma events_run db gs rows : forallb (λ r, negb (is_raise r)) rows = true →
  rtc step (at_db db gs) (at_db (foldl with_row db rows) gs).
Proof.
  revert db. induction rows as [|r rows IH]; intros db; [done|]. cbn. intros [Hn%negb_true_iff Hs]%andb_true_iff.
  eapply rtc_l; [exact (step_event (at_db db gs) r Hn)|]. exact (IH (with_row db r) Hs).
Qed.

Definition opened_run : Run := created start "sprint:5" 1.

Lemma opened_run_is : opened_run = at_db db1 [].
Proof. vm_compute. reflexivity. Qed.

Definition last_run : Run := at_db db6 [the_grant].

Lemma last_run_reached : rtc step start last_run.
Proof.
  eapply rtc_l; [apply (step_create start "sprint:5" 1); done|]. fold opened_run. rewrite opened_run_is.
  eapply rtc_l; [exact (step_cards (at_db db1 []) (st_cards db2))|].
  eapply rtc_l; [eapply (step_intent (at_db db2 []) "dispatcher" "ummanu" "app-1" "{}" "sprint:5" "d-1" 0); vm_compute; reflexivity|].
  change (rtc step (at_db db3 []) last_run).
  etrans; [apply (events_run db3 [] history_5); vm_compute; reflexivity|].
  eapply rtc_l; [eapply (step_admit (at_db db4 []) "po" "po" "sprint:5" "evt_3" None the_grant); vm_compute; reflexivity|].
  eapply rtc_l; [eapply (step_raise (at_db db4 [the_grant]) the_grant "po" "po" "r-1" (a_stamp "evt_4") db5); [left|vm_compute; reflexivity]|].
  eapply rtc_l; [eapply (step_after_merge (at_db db5 [the_grant]) "dispatcher" "ummanu" [("app-1", "{}")] "sprint:5" "d-2" "app-1" 0 db6); vm_compute; reflexivity|].
  done.
Qed.


Lemma decision_names_one_scope_witness :
  decides "sprint:5" (rq_intent <$> history_5) = true ∧
  ("sprint:5" = "sprint:5" ∨ ∃ created, created ∈ rq_intent <$> history_5 ∧
    "sprint:5" ∈ batch_decision_cards (py_str_or (get created "request_id")) ∧
    "sprint:5" ∈ batch_decision_cards (py_str_or (get created "request_id"))).
Proof.
  assert (decides "sprint:5" (rq_intent <$> history_5) = true) as E by (vm_compute; reflexivity). split; [exact E|].
  apply (decision_names_one_scope "sprint:5" "sprint:5"); [by apply (scope_sprint "5")|by apply (scope_sprint "5")|exact E|exact E].
Defined.

(** ** Findings *)

(** Two cards outside every sprint, both caps spent, and the one decision of
    their after-merge batch, answered by the owner. *)
Definition batch_store : Store := {|
  st_requests := decision_history "app-9" (batch_decision_request_id ["app-1"; "app-2"] 6);
  st_sprints := []; st_charges := [];
  st_cards := [("app-1", code_card ""); ("app-2", code_card ""); ("app-9", decision_card)] |}.

(** The command the dispatcher prints, with no [--request-id]. *)
Definition raise_cap (db : Store) (ref : string) (m : Stamp) : res Store := raise_e2e_cap db "po" "po" ref "evt_3" None "" m.

Definition cap_of (r : res Store) (ref : string) : res Z := db ← r; task ← show_card db ref; card_cap task.

(** A batch decision raises one card only.  The owner's comment on the
    decision of an after-merge batch authorizes the raise of every card it
    names, and the decision prints one command for each; the default request id
    is made of the comment alone, so the command for the first card succeeds
    and the one for the second is refused as a foreign request, with its cap
    unchanged, on every repeat. *)
Theorem batch_raises_one_card :
  let first := raise_cap batch_store "app-1" (a_stamp "evt_4") in
  authorized_raise (reads batch_store) "evt_3" "app-1" None = Ok ("app-9", 2) ∧
  authorized_raise (reads batch_store) "evt_3" "app-2" None = Ok ("app-9", 2) ∧
  cap_of first "app-1" = Ok 5 ∧
  (first ≫= λ db, authorized_raise (reads db) "evt_3" "app-2" None) = Ok ("app-9", 2) ∧
  (first ≫= λ db, raise_cap db "app-2" (a_stamp "evt_5")) = Raise foreign_claim ∧
  cap_of first "app-2" = Ok 3.
Proof. vm_compute. repeat split. Qed.

(** Two calls that read the store before either has written. *)
Definition two_at_once (db : Store) (id1 id2 : string) : res Store :=
  a ← admit_cap_raise db "po" "po" "app-1" "evt_3" None id1;
  b ← admit_cap_raise db "po" "po" "app-1" "evt_3" None id2;
  db' ← write_cap_raise db a.1 "po" "po" a.2 (a_stamp "evt_4");
  write_cap_raise db' b.1 "po" "po" b.2 (a_stamp "evt_5").

(** One answer may raise a card's cap twice.  The check that the comment has
    not raised this cap before is made before the transaction and not in it: two
    calls under request ids of their own that overlap both pass it and both
    write, and the cap goes up by twice what the owner granted; one after the
    other, the second is refused. *)
Theorem one_answer_raises_twice :
  cap_of (two_at_once batch_store "id-1" "id-2") "app-1" = Ok (CARD_E2E_CAP + 2 + 2) ∧
  ∃ e, (db ← raise_e2e_cap batch_store "po" "po" "app-1" "evt_3" None "id-1" (a_stamp "evt_4");
        raise_e2e_cap db "po" "po" "app-1" "evt_3" None "id-2" (a_stamp "evt_5")) = Raise (refused e).
Proof. split; [vm_compute; reflexivity|]. eexists. vm_compute. reflexivity. Qed.
