(* ===== verification/Admission.v ===== *)
(** * Admission of an open sprint (board/sprint_admission.py, sprints.py, tasks.py)

    The resources of a sprint, the rules that admit a second open one, and the
    local index of reserved projects that the write guard reads: its two ways of
    being kept (one sprint's change, or a rebuild from the board), its file, and
    the guard's question which open sprints reserve a project.

    The file of the index is absent, unreadable or holds a text; a write always
    succeeds.  What [Path.resolve] answers is the host's, a parameter. *)

From S2P Require Import Prelude PyText JsonText PyStrings Board TerminalTaxonomy WaitCard E2eBudget.

(** [sorted(set(words))]. *)
Definition sorted_set (l : list string) : list string := sort_strings (remove_dups l).

(** ** The resources *)

Record SprintAdmission := {
  sa_ref : string;
  sa_product : string;
  sa_reservations : list string;
  sa_repositories : list string;
  sa_state : option SprintState;
}.

#[global] Instance SprintAdmission_eq_dec : EqDecision SprintAdmission.
Proof. solve_decision. Defined.

Definition is_open (s : SprintAdmission) : bool := bool_decide (sa_state s = Some SS_OPEN).

Definition guard_projects (s : SprintAdmission) : list string :=
  sorted_set (List.filter nonempty (str_strip <$> sa_reservations s)).

Section documents.
Context `{PyRepr}.

Definition document_strings (value : pyval) : list string :=
  match value with VList l => py_str <$> l | _ => [] end.

Definition admission_from_document (document : Fields) : SprintAdmission := {|
  sa_ref := py_str_or (get document "ref");
  sa_product := str_strip (py_str_or (get document "product"));
  sa_reservations := document_strings (get document "reservations");
  sa_repositories := document_strings (get document "repositories");
  sa_state := enum_of_value (py_str_or (get document "status"));
|}.
End documents.

(** ** The index: project to the references of the open sprints that reserve it *)

Definition Index : Type := list (string * list string).

(** A [dict] updated in a loop over the projects, then sorted by its keys. *)
Definition add_ref (reference : string) (projects : Index) (project : string) : Index :=
  dict_set projects project (sorted_set (default [] (dict_get projects project) ++ [reference])).

Definition with_sprint (index : Index) (s : SprintAdmission) : Index :=
  if negb (nonempty (sa_ref s)) || negb (is_open s) then index
  else sort_items (foldl (add_ref (sa_ref s)) index (guard_projects s)).

Definition without_sprint (index : Index) (reference : string) : Index :=
  omap (λ e, match filter (λ r, r ≠ reference) e.2 with [] => None | kept => Some (e.1, kept) end) index.

Definition from_sprints (sprints : list SprintAdmission) : Index :=
  foldl (λ index s, if is_open s then with_sprint index s else index) [] sprints.

Definition to_projects_document (index : Index) : Fields :=
  (λ e, (e.1, VList (VStr <$> e.2))) <$> index.

Definition to_document (index : Index) (version : Z) : Fields :=
  [("version", VInt version); ("projects", VDict (to_projects_document index))].

Section index_file.
Context `{PyRepr, JsonText, !JsonStr}.

Definition index_from_document (value : pyval) (version : Z) : option Index :=
  match value with
  | VDict d =>
      if number_is (get d "version") version then
        match get d "projects" with
        | VDict projects =>
            Some (sort_items (omap (λ p, match p.2 with
                                         | VList refs => if nonempty p.1
                                             then Some (p.1, sorted_set (List.filter nonempty (py_str <$> refs)))
                                             else None
                                         | _ => None
                                         end) projects))
        | _ => None
        end
      else None
  | _ => None
  end.

(** ** Its file (sprints.py) *)

Definition GUARD_INDEX_VERSION : Z := 2.

Inductive IndexFile := Absent | Unreadable | Text (s : string).

Definition write_guard_index (index : Index) : IndexFile := Text (dumps (to_document index GUARD_INDEX_VERSION)).

Definition read_guard_index (file : IndexFile) : option Index :=
  match file with
  | Text s => raw ← loads_str s; index_from_document raw GUARD_INDEX_VERSION
  | _ => None
  end.

Definition sprint_guard_index_initialized (file : IndexFile) : bool :=
  match read_guard_index file with Some _ => true | None => false end.

Definition active_sprint_projects (file : IndexFile) : Index := default [] (read_guard_index file).

(** [path.exists()]. *)
Definition exists_file (file : IndexFile) : bool := match file with Absent => false | _ => true end.

Definition update_active_sprint_projects (file : IndexFile) (s : SprintAdmission) : IndexFile :=
  match read_guard_index file, exists_file file with
  | None, true => Absent
  | index, _ =>
      let index := without_sprint (default [] index) (sa_ref s) in
      write_guard_index (if is_open s then with_sprint index s else index)
  end.

Definition replace_active_sprint_projects (sprints : list Fields) : IndexFile :=
  write_guard_index (from_sprints (admission_from_document <$> sprints)).

(** ** The guard's question (tasks.py) *)

(** The sprint board as the guard reads it; a read that fails raises a
    [TaskError]. *)
Record SprintBoard := {
  sb_list_open : res (list Fields);
  sb_show : string → res Fields;
}.

Definition Unverifiable (sprint_ref : string) : exn := Exn "SprintReservationUnverifiable" sprint_ref.

Definition refresh_active_sprint_projects (board : SprintBoard) (file : IndexFile) : res IndexFile :=
  replace_active_sprint_projects <$> sb_list_open board.

(** [project in sprint.get("reservations", [])]. *)
Definition reserves (sprint : Fields) (project : string) : res bool :=
  match dict_get sprint "reservations" with
  | None => Ok false
  | Some (VList l) => Ok (existsb (λ v, equals v project) l)
  | Some (VStr s) => Ok (str_contains project s)
  | Some (VDict d) => Ok (dict_has d project)
  | Some _ => Raise (Exn "TypeError" "argument is not iterable")
  end.

(** The loop over the references; the file follows what was read, whatever
    happens next. *)
Fixpoint verify_refs (board : SprintBoard) (linked : option Fields) (project : string) (refs : list string)
    (file : IndexFile) (held : list string) : IndexFile * res (list string) :=
  match refs with
  | [] => (file, Ok held)
  | sprint_ref :: refs' =>
      let sprint := match linked with
                    | Some d => if py_truthy (VDict d) && equals (get d "ref") sprint_ref then Ok d
                                else sb_show board sprint_ref
                    | None => sb_show board sprint_ref
                    end in
      match sprint with
      | Raise _ => (file, Raise (Unverifiable sprint_ref))
      | Ok d =>
          let file := update_active_sprint_projects file (admission_from_document d) in
          if equals (get d "status") "open" then
            match reserves d project with
            | Ok b => verify_refs board linked project refs' file (if b then held ++ [sprint_ref] else held)
            | Raise e => (file, Raise e)
            end
          else verify_refs board linked project refs' file held
      end
  end.

Definition open_sprints_reserving (board : SprintBoard) (file : IndexFile) (project : string)
    (linked : option Fields) : IndexFile * res (list string) :=
  match (if sprint_guard_index_initialized file then Ok file
         else refresh_active_sprint_projects board file) with
  | Raise _ => (file, Raise (Unverifiable ""))
  | Ok file =>
      let refs := default [] (dict_get (active_sprint_projects file) project) in
      match (match linked with
             | Some d =>
                 b ← reserves d project;
                 if b : bool then
                   match dict_get d "ref" with
                   | Some v => Ok (refs ++ [py_str v])
                   | None => Raise (Exn "KeyError" "'ref'")
                   end
                 else Ok refs
             | None => Ok refs
             end) with
      | Raise e => (file, Raise e)
      | Ok refs => verify_refs board linked project (sorted_set refs) file []
      end
  end.
End index_file.

(** ** The rules of admission (sprints.py) *)

Definition DEFAULT_OPEN_SPRINT_LIMIT : Z := 1.
Definition MAX_OPEN_SPRINT_LIMIT : Z := 2.

(** [raw is None or isinstance(raw, bool) or not isinstance(raw, int)]. *)
Definition open_sprint_limit (config : option Fields) : Z :=
  match config with
  | Some d => match get d "open_sprint_limit" with
              | VInt raw => if (DEFAULT_OPEN_SPRINT_LIMIT <=? raw) && (raw <=? MAX_OPEN_SPRINT_LIMIT) then raw
                            else DEFAULT_OPEN_SPRINT_LIMIT
              | _ => DEFAULT_OPEN_SPRINT_LIMIT
              end
  | None => DEFAULT_OPEN_SPRINT_LIMIT
  end.

Definition open_sprint_limit_invalid (config : option Fields) : bool :=
  match config with
  | Some d => match dict_get d "open_sprint_limit" with
              | None => false
              | Some (VInt raw) => negb ((DEFAULT_OPEN_SPRINT_LIMIT <=? raw) && (raw <=? MAX_OPEN_SPRINT_LIMIT))
              | Some _ => true
              end
  | None => false
  end.

(** A path by its parts, the root first. *)
Definition path : Type := list string.

(** [Path(text).resolve()]; [None] is the host's refusal. *)
Class PathResolve := resolve_path : string → option path.

Definition is_absolute (text : string) : bool := String.prefix "/" text.

(** [p.parents], the nearest last. *)
Definition parents (p : path) : list path := (λ n, take n p) <$> seq 1 (length p - 1).

Definition roots_overlap (left right : path) : bool :=
  bool_decide (left = right ∨ left ∈ parents right ∨ right ∈ parents left).

Section rules.
Context `{PathResolve}.

(** [str(path)] in a message. *)
Variable show_path : path → string.

Definition scan_root (refusal : string → string → exn) (roots : list path) (raw : string) : res (list path) :=
  let text := str_strip raw in
  if negb (nonempty text) then Ok roots
  else if is_absolute text then
    match resolve_path text with
    | Some root => Ok (if bool_decide (root ∈ roots) then roots else roots ++ [root])
    | None => Raise (refusal text "cannot be resolved on this host")
    end
  else Raise (refusal text "is not an absolute path").

Definition scanned_roots (paths : list string) (refusal : string → string → exn) : res (list path) :=
  foldM (scan_root refusal) [] paths.

Definition resource_conflict (message : string) : exn := TaskError "resource_conflict" message.

(** [held.setdefault(project, ref)] over the sprints in order. *)
Definition hold (held : list (string * string)) (p : string * string) : list (string * string) :=
  if dict_has held p.1 then held else dict_set held p.1 p.2.

Definition held_by (others : list SprintAdmission) : list (string * string) :=
  foldl hold [] (others ≫= λ s, (λ project, (project, sa_ref s)) <$> sa_reservations s).

Definition pair_le (p q : string * string) : Prop :=
  String.le p.1 q.1 ∧ (p.1 = q.1 → String.le p.2 q.2).
#[local] Instance pair_le_dec p q : Decision (pair_le p q) := ltac:(unfold pair_le; apply _).

Definition refuse_shared_reservations (reservations : list string) (others : list SprintAdmission) : res unit :=
  let held := held_by others in
  let clashes := omap (λ project, (λ ref, (project, ref)) <$> dict_get held project) reservations in
  match clashes with
  | [] => Ok tt
  | _ => Raise (resource_conflict ("project(s) already reserved by an open sprint: " +:+
           String.concat ", " ((λ c, c.1 +:+ " held by " +:+ c.2) <$> merge_sort pair_le clashes)))
  end.

Definition by_ref (a b : SprintAdmission) : Prop := String.le (sa_ref a) (sa_ref b).
#[local] Instance by_ref_dec a b : Decision (by_ref a b) := ltac:(unfold by_ref; apply _).

Definition sorted_by_ref (l : list SprintAdmission) : list SprintAdmission := merge_sort by_ref l.

(** [next((root for root in roots if overlap), None)]. *)
Definition first_clash (roots : list path) (held : path) : option path :=
  head (List.filter (λ root, roots_overlap root held) roots).

Fixpoint refuse_held_roots (reference : string) (roots : list path) (held_roots : list path) : res unit :=
  match held_roots with
  | [] => Ok tt
  | held :: rest =>
      match first_clash roots held with
      | Some clash => Raise (resource_conflict ("repository root " +:+ show_path clash +:+ " overlaps "
                               +:+ show_path held +:+ ", held by open sprint " +:+ reference))
      | None => refuse_held_roots reference roots rest
      end
  end.

(** One turn of the pairwise comparison. *)
Definition refuse_pair (product : string) (roots : list path) (sprint : SprintAdmission) : res unit :=
  let reference := sa_ref sprint in
  _ ← require (nonempty (sa_product sprint)) (resource_conflict ("open sprint " +:+ reference +:+
        " declares no product, so a second open sprint cannot be proven disjoint from it"));
  _ ← require (negb (String.eqb (sa_product sprint) product)) (resource_conflict ("product " +:+ product +:+
        " is already the product of open sprint " +:+ reference +:+
        "; a second open sprint needs a different product"));
  held_roots ← scanned_roots (sa_repositories sprint) (λ text why, resource_conflict ("open sprint " +:+ reference
        +:+ " declares repository root " +:+ str_repr text +:+ ", which " +:+ why +:+
        ", so a second open sprint cannot be proven disjoint from it"));
  refuse_held_roots reference roots held_roots.

Definition refuse_shared_resources (candidate : SprintAdmission) (others : list SprintAdmission) : res unit :=
  let product := sa_product candidate in
  let ordered := sorted_by_ref others in
  _ ← match ordered with
      | first :: _ => require (nonempty product) (resource_conflict
          ("this sprint declares no product, so it cannot be proven disjoint from open sprint " +:+ sa_ref first))
      | [] => Ok tt
      end;
  roots ← scanned_roots (sa_repositories candidate) (λ text why, resource_conflict
        ("this sprint declares repository root " +:+ str_repr text +:+ ", which " +:+ why +:+
         ", so it cannot be proven disjoint from another open sprint"));
  foldM (λ _ sprint, refuse_pair product roots sprint) tt ordered.

Definition open_sprint_count_error (others : list SprintAdmission) (limit : Z) : exn :=
  let refs := String.concat ", " (sort_strings (sa_ref <$> others)) in
  TaskError "sprint_conflict"
    (if limit =? DEFAULT_OPEN_SPRINT_LIMIT
     then "installation already has an open sprint: " +:+ refs +:+ "; close it before opening another"
     else "installation already holds its limit of " +:+ pretty limit +:+ " open sprints: " +:+ refs +:+
          "; close one before opening another").

Definition refuse_open_sprint (candidate : SprintAdmission) (others : list SprintAdmission) (limit : Z) : res unit :=
  _ ← refuse_shared_reservations (sa_reservations candidate) others;
  _ ← (if DEFAULT_OPEN_SPRINT_LIMIT <? limit then refuse_shared_resources candidate others else Ok tt);
  require (negb (limit <=? Z.of_nat (length others))) (open_sprint_count_error others limit).

(** A whole set, one row at a time in reference order. *)
Fixpoint admit_rows (limit : Z) (admitted rows : list SprintAdmission) : option string :=
  match rows with
  | [] => None
  | row :: rows' =>
      match refuse_open_sprint row admitted limit with
      | Raise (Exn _ message) =>
          Some ((if nonempty (sa_ref row) then sa_ref row else "?") +:+ ": " +:+ message)
      | Ok _ => admit_rows limit (admitted ++ [row]) rows'
      end
  end.

Definition open_sprint_admission_error `{PyRepr} (rows : list Fields) (limit : Z) : option string :=
  admit_rows limit [] (sorted_by_ref (admission_from_document <$> rows)).

(** The scan of [_check_conflicts]: the open rows of the board, less the one the
    transition is about.  A row is its number and its resources. *)
Definition check_conflicts (rows : list (Z * SprintAdmission)) (limit : Z) (candidate : SprintAdmission)
    (excluding : string) (excluding_id : option Z) : res unit :=
  let others := List.filter (λ r, is_open r.2 &&
    negb ((nonempty excluding && String.eqb (sa_ref r.2) excluding)
          || from_option (Z.eqb r.1) false excluding_id)) rows in
  refuse_open_sprint candidate (snd <$> others) limit.
End rules.
