(* ===== verification/AdmissionFacts.v ===== *)
(** * What the index and the rules of admission guarantee

    A canonical index is decided by the relation it denotes, so that keeping it
    one sprint at a time and rebuilding it from the board give the same bytes;
    the guard's answer is exact while the index covers the board; and the rules
    of admission are exactly pairwise disjointness, which every run of creates,
    reopens and closes keeps. *)

From S2P Require Import Prelude PyText JsonText PyStrings Board TerminalTaxonomy WaitCard E2eBudget Admission.

(** ** Sorted lists *)

Lemma leb_le a b : String.leb a b = true ↔ String.le a b.
Proof. unfold String.le. by rewrite Is_true_true. Qed.

Definition key_le {A} (p q : string * A) : Prop := String.le p.1 q.1.

Lemma insert_item_sorted {A} (p : string * A) d :
  StronglySorted key_le d → StronglySorted key_le (insert_item p d).
Proof.
  induction 1 as [|q d Hd IH Hq]; cbn; [by repeat constructor|].
  destruct (String.leb p.1 q.1) eqn:E.
  - apply leb_le in E. constructor; [by constructor|]. constructor; [done|].
    eapply Forall_impl; [exact Hq|]. intros r Hr. unfold key_le in *. by etrans.
  - constructor; [done|]. rewrite insert_item_perm. constructor; [|done].
    unfold key_le. destruct (total String.le p.1 q.1) as [Hle|]; [|done].
    apply leb_le in Hle. congruence.
Qed.

Lemma sort_items_sorted {A} (d : list (string * A)) : StronglySorted key_le (sort_items d).
Proof. induction d; cbn; [constructor|]. by apply insert_item_sorted. Qed.

(** Two lists of items sorted by unique keys that hold the same items are one. *)
Lemma sorted_items_unique {A} (d d' : list (string * A)) :
  StronglySorted key_le d → StronglySorted key_le d' → dict_wf d → d ≡ₚ d' → d = d'.
Proof.
  intros Hs. revert d'. induction Hs as [|p d Hs IH Hp]; intros d' Hs' Hwf Hd.
  { by apply Permutation_nil_l in Hd. }
  destruct d' as [|q d']; [by apply Permutation_nil_r in Hd|].
  apply StronglySorted_cons in Hs' as [Hq Hs']. apply NoDup_cons in Hwf as [Hn Hwf].
  assert (p = q) as ->.
  { assert (q ∈ p :: d) as Hqin by (rewrite Hd; left).
    assert (p ∈ q :: d') as Hpin by (rewrite <-Hd; left).
    apply elem_of_cons in Hqin as [->|Hqin]; [done|]. apply elem_of_cons in Hpin as [->|Hpin]; [done|].
    rewrite Forall_forall in Hp, Hq. specialize (Hp _ Hqin). specialize (Hq _ Hpin).
    destruct Hn. rewrite (anti_symm String.le _ _ Hp Hq). by apply list_elem_of_fmap_2. }
  f_equal. apply IH; [done..|]. by apply Permutation_cons_inv in Hd.
Qed.

Lemma sort_items_id {A} (d : list (string * A)) : StronglySorted key_le d → dict_wf d → sort_items d = d.
Proof.
  intros Hs Hwf. apply sorted_items_unique; [apply sort_items_sorted|done|by apply sort_items_wf|apply sort_items_perm].
Qed.

Lemma sorted_set_elem x l : x ∈ sorted_set l ↔ x ∈ l.
Proof. unfold sorted_set, sort_strings. by rewrite merge_sort_Permutation, elem_of_remove_dups. Qed.

Lemma sorted_set_NoDup l : NoDup (sorted_set l).
Proof. unfold sorted_set, sort_strings. rewrite merge_sort_Permutation. apply NoDup_remove_dups. Qed.

Lemma sorted_set_sorted l : StronglySorted String.le (sorted_set l).
Proof. apply (StronglySorted_merge_sort _). Qed.

(** The sorted list of a set is the only one. *)
Lemma sorted_set_unique (l k : list string) :
  StronglySorted String.le k → NoDup k → (∀ x, x ∈ k ↔ x ∈ l) → sorted_set l = k.
Proof.
  intros Hs Hk Helem. apply (StronglySorted_unique String.le); [apply sorted_set_sorted|done|].
  apply NoDup_Permutation; [apply sorted_set_NoDup|done|]. intros x. by rewrite sorted_set_elem.
Qed.

Lemma StronglySorted_filter {A} (R : A → A → Prop) (P : A → Prop) `{∀ x, Decision (P x)} (l : list A) :
  StronglySorted R l → StronglySorted R (filter P l).
Proof.
  induction 1 as [|x l Hl IH Hx]; [constructor|]. rewrite filter_cons. destruct (decide (P x)); [|done].
  constructor; [done|]. rewrite Forall_forall in *. intros y [_ Hy]%list_elem_of_filter. auto.
Qed.

Lemma StronglySorted_sublist {A} (R : A → A → Prop) (l k : list A) :
  l `sublist_of` k → StronglySorted R k → StronglySorted R l.
Proof.
  induction 1 as [|x l k Hs IH|x l k Hs IH]; intros Hk; [done|..]; apply StronglySorted_cons in Hk as [Hx Hk].
  - constructor; [by apply IH|]. rewrite Forall_forall in *. intros y Hy. apply Hx. by eapply sublist_subseteq.
  - by apply IH.
Qed.

(** ** What an index denotes *)

Lemma dict_get_elem {A} (d : list (string * A)) k v : dict_wf d → (k, v) ∈ d → dict_get d k = Some v.
Proof.
  induction d as [|[k' v'] d IH]; [by intros ? ?%not_elem_of_nil|]. intros [Hn Hwf]%NoDup_cons Hin. cbn.
  apply elem_of_cons in Hin as [[= -> ->]|Hin]; [by rewrite String.eqb_refl|].
  destruct (String.eqb_spec k' k) as [->|]; [|by apply IH]. destruct Hn. by apply (list_elem_of_fmap_2 fst) in Hin.
Qed.

Definition holds (index : Index) (project reference : string) : Prop :=
  ∃ refs, (project, refs) ∈ index ∧ reference ∈ refs.

Definition sound_entry (e : string * list string) : Prop :=
  e.2 ≠ [] ∧ NoDup e.2 ∧ StronglySorted String.le e.2.

(** Sorted by project, each once, with a sorted and non-empty set of references. *)
Record Canonical (index : Index) : Prop := {
  can_wf : dict_wf index;
  can_sorted : StronglySorted key_le index;
  can_entries : Forall sound_entry index;
}.

(** A canonical index is the only one that denotes what it denotes. *)
Lemma canonical_unique (a b : Index) :
  Canonical a → Canonical b → (∀ p r, holds a p r ↔ holds b p r) → a = b.
Proof.
  enough (∀ a b : Index, Canonical a → Canonical b → (∀ p r, holds a p r ↔ holds b p r) → ∀ e, e ∈ a → e ∈ b) as Hsub.
  { intros Ha Hb Hh. apply sorted_items_unique; [apply Ha|apply Hb|apply Ha|].
    apply NoDup_Permutation; [by apply (NoDup_fmap_1 fst), Ha|by apply (NoDup_fmap_1 fst), Hb|].
    intros e. split; apply Hsub; try done. }
  clear a b. intros a b Ha Hb Hh [p refs] Hin.
  pose proof (can_entries _ Ha) as Ea. pose proof (can_entries _ Hb) as Eb. rewrite Forall_forall in Ea, Eb.
  destruct (Ea _ Hin) as (Hne & Hnd & Hs). cbn in *.
  destruct refs as [|r refs]; [done|]. 
  destruct (proj1 (Hh p r)) as (refs' & Hin' & Hr'); [by exists (r :: refs); split; [|left]|].
  destruct (Eb _ Hin') as (_ & Hnd' & Hs'). cbn in *.
  enough (r :: refs = refs') as -> by done.
  assert (∀ c : Index, Canonical c → ∀ l l', (p, l) ∈ c → (p, l') ∈ c → l = l') as Hfun.
  { intros c Hc l l' H1 H2. pose proof (can_wf _ Hc) as Hwf.
    apply (dict_get_elem _ _ _ Hwf) in H1, H2. congruence. }
  apply (StronglySorted_unique String.le); [done..|]. apply NoDup_Permutation; [done..|]. intros x. split; intros Hx.
  - destruct (proj1 (Hh p x)) as (l & Hl & Hxl); [by exists (r :: refs)|]. by rewrite (Hfun _ Hb _ _ Hin' Hl).
  - destruct (proj2 (Hh p x)) as (l & Hl & Hxl); [by exists refs'|]. by rewrite (Hfun _ Ha _ _ Hin Hl).
Qed.

(** *** One sprint out *)

Lemma without_sprint_elem index reference p refs :
  (p, refs) ∈ without_sprint index reference ↔
  ∃ all, (p, all) ∈ index ∧ refs = filter (λ r, r ≠ reference) all ∧ refs ≠ [].
Proof.
  unfold without_sprint. rewrite list_elem_of_omap. split.
  - intros ([p' all] & Hin & E). cbn [fst snd] in E. destruct (filter _ all) as [|r k] eqn:F; [done|].
    injection E as <- <-. exists all. by rewrite F.
  - intros (all & Hin & -> & Hne). exists (p, all). split; [done|]. cbn [fst snd].
    by destruct (filter _ all).
Qed.

Lemma without_sprint_holds index reference p r :
  holds (without_sprint index reference) p r ↔ holds index p r ∧ r ≠ reference.
Proof.
  unfold holds. setoid_rewrite without_sprint_elem. split.
  - intros (refs & (all & Hin & -> & _) & [Hr Hall]%list_elem_of_filter). eauto.
  - intros ((all & Hin & Hr) & Hne). exists (filter (λ r, r ≠ reference) all).
    assert (r ∈ filter (λ r, r ≠ reference) all) as Hf by (by apply list_elem_of_filter).
    split; [|done]. exists all. split_and!; [done..|]. intros E. rewrite E in Hf. by apply not_elem_of_nil in Hf.
Qed.

Lemma without_sprint_canonical index reference : Canonical index → Canonical (without_sprint index reference).
Proof.
  intros [Hwf Hs He]. 
  assert (∀ e, e ∈ without_sprint index reference → ∃ all, (e.1, all) ∈ index) as Hkeys.
  { intros [p refs] (all & Hin & _)%without_sprint_elem. by exists all. }
  split.
  - clear He Hkeys Hs. induction index as [|[p all] index IH]; [constructor|].
    apply NoDup_cons in Hwf as [Hn Hwf]. specialize (IH Hwf). cbn. unfold without_sprint in IH.
    destruct (filter _ all); [done|]. cbn. apply NoDup_cons. split; [|done].
    intros ([p' k] & E & Hin)%list_elem_of_fmap. cbn in E. subst p'. apply Hn.
    apply (without_sprint_elem _ reference) in Hin as (all' & Hin & _). by apply (list_elem_of_fmap_2 fst) in Hin.
  - clear He Hwf Hkeys. induction Hs as [|[p all] index Hs IH Hp]; [constructor|]. cbn.
    destruct (filter _ all); [done|]. constructor; [done|]. rewrite Forall_forall in *. intros [p' k] Hin.
    apply (without_sprint_elem _ reference) in Hin as (all' & Hin & _). by apply (Hp _ Hin).
  - rewrite Forall_forall in *. intros [p refs] (all & Hin & -> & Hne)%without_sprint_elem.
    destruct (He _ Hin) as (_ & Hnd & Hso). split; [done|]. split; [by apply NoDup_filter|by apply StronglySorted_filter].
Qed.

(** *** One sprint in *)

Lemma dict_set_elem {A} (d : list (string * A)) k v k' v' :
  dict_wf d → (k', v') ∈ dict_set d k v ↔ (k' = k ∧ v' = v) ∨ (k' ≠ k ∧ (k', v') ∈ d).
Proof.
  intros Hwf. pose proof (dict_set_wf d k v Hwf) as Hwf'. split.
  - intros Hin. apply (dict_get_elem _ _ _ Hwf') in Hin. destruct (decide (k' = k)) as [->|Hne].
    + rewrite dict_get_set_eq in Hin. left. split; congruence.
    + rewrite dict_get_set_ne in Hin by done. right. split; [done|]. by apply dict_get_Some_elem.
  - intros [[-> ->]|[Hne Hin]].
    + apply dict_get_Some_elem, dict_get_set_eq.
    + apply dict_get_Some_elem. rewrite dict_get_set_ne by done. by apply dict_get_elem.
Qed.

Lemma add_ref_wf reference index p : dict_wf index → dict_wf (add_ref reference index p).
Proof. apply dict_set_wf. Qed.

Lemma add_ref_holds reference index p0 p r : dict_wf index →
  holds (add_ref reference index p0) p r ↔ holds index p r ∨ (p = p0 ∧ r = reference).
Proof.
  intros Hwf. unfold holds, add_ref. setoid_rewrite dict_set_elem; [|done]. split.
  - intros (refs & [[-> ->]|[Hne Hin]] & Hr); [|by left; eauto].
    apply sorted_set_elem, elem_of_app in Hr as [Hr|Hr%list_elem_of_singleton]; [|by right].
    left. destruct (dict_get index p0) as [refs|] eqn:E; [|by apply not_elem_of_nil in Hr].
    exists refs. split; [by apply dict_get_Some_elem|done].
  - destruct (decide (p = p0)) as [->|Hne].
    + intros Hr. eexists. split; [by left|]. apply sorted_set_elem, elem_of_app.
      destruct Hr as [(refs & Hin & Hr)|[_ ->]]; [|by right; apply list_elem_of_singleton].
      left. by rewrite (dict_get_elem _ _ _ Hwf Hin).
    + intros [(refs & Hin & Hr)|[? _]]; [|done]. exists refs. split; [by right|done].
Qed.

Lemma add_ref_entries reference index p :
  Forall sound_entry index → Forall sound_entry (add_ref reference index p).
Proof.
  intros Hi. apply dict_set_Forall; [done|]. split_and!; [|apply sorted_set_NoDup|apply sorted_set_sorted].
  cbn [snd]. set (l := default [] _). intros E.
  assert (reference ∈ sorted_set (l ++ [reference])) as Hin
    by (apply sorted_set_elem, elem_of_app; right; by apply list_elem_of_singleton).
  rewrite E in Hin. by apply not_elem_of_nil in Hin.
Qed.

(** The loop over the projects of a sprint. *)
Lemma add_refs_spec reference projects index :
  dict_wf index → Forall sound_entry index →
  let index' := foldl (add_ref reference) index projects in
  dict_wf index' ∧ Forall sound_entry index'
  ∧ ∀ p r, holds index' p r ↔ holds index p r ∨ (p ∈ projects ∧ r = reference).
Proof.
  revert index. induction projects as [|p0 projects IH]; intros index Hwf He; cbn.
  { split_and!; [done..|]. intros p r. rewrite elem_of_nil. tauto. }
  destruct (IH (add_ref reference index p0)) as (Hwf' & He' & Hh); [by apply add_ref_wf|by apply add_ref_entries|].
  split_and!; [done..|]. intros p r. rewrite Hh, add_ref_holds, elem_of_cons by done. tauto.
Qed.

(** The sprint is on the index's books. *)
Definition listed (s : SprintAdmission) : Prop := sa_ref s ≠ "" ∧ is_open s = true.

Lemma listed_dec (s : SprintAdmission) : negb (nonempty (sa_ref s)) || negb (is_open s) = false ↔ listed s.
Proof.
  unfold listed, nonempty. rewrite orb_false_iff, !negb_false_iff, negb_true_iff, String.eqb_neq. done.
Qed.

Lemma holds_perm (a b : Index) p r : a ≡ₚ b → holds a p r ↔ holds b p r.
Proof. intros Hp. unfold holds. by setoid_rewrite Hp. Qed.

Lemma with_sprint_holds index s p r : Canonical index →
  holds (with_sprint index s) p r ↔ holds index p r ∨ (listed s ∧ p ∈ guard_projects s ∧ r = sa_ref s).
Proof.
  intros [Hwf _ He]. unfold with_sprint. destruct (_ || _) eqn:E.
  { assert (¬ listed s) by (rewrite <-listed_dec; congruence). tauto. }
  apply listed_dec in E. rewrite (holds_perm _ _ _ _ (sort_items_perm _)).
  destruct (add_refs_spec (sa_ref s) (guard_projects s) index Hwf He) as (_ & _ & Hh). rewrite Hh. tauto.
Qed.

Lemma with_sprint_canonical index s : Canonical index → Canonical (with_sprint index s).
Proof.
  intros Hc. unfold with_sprint. destruct (_ || _); [done|]. destruct Hc as [Hwf _ He].
  destruct (add_refs_spec (sa_ref s) (guard_projects s) index Hwf He) as (Hwf' & He' & _).
  split; [by apply sort_items_wf|apply sort_items_sorted|by rewrite sort_items_perm].
Qed.

Lemma canonical_nil : Canonical [].
Proof. split; constructor. Qed.

Lemma from_sprints_spec sprints :
  Canonical (from_sprints sprints)
  ∧ ∀ p r, holds (from_sprints sprints) p r ↔
           ∃ s, s ∈ sprints ∧ listed s ∧ p ∈ guard_projects s ∧ r = sa_ref s.
Proof.
  unfold from_sprints.
  enough (∀ index, Canonical index →
    let index' := foldl (λ index s, if is_open s then with_sprint index s else index) index sprints in
    Canonical index' ∧ ∀ p r, holds index' p r ↔
      holds index p r ∨ ∃ s, s ∈ sprints ∧ listed s ∧ p ∈ guard_projects s ∧ r = sa_ref s) as Hgen.
  { destruct (Hgen [] canonical_nil) as [Hc Hh]. split; [done|]. intros p r. rewrite Hh. unfold holds at 1. set_solver. }
  induction sprints as [|s sprints IH]; intros index Hc; cbn.
  { split; [done|]. set_solver. }
  destruct (is_open s) eqn:Hs.
  - destruct (IH _ (with_sprint_canonical _ s Hc)) as [Hc' Hh]. split; [done|]. intros p r.
    rewrite Hh, with_sprint_holds by done. set_solver.
  - destruct (IH _ Hc) as [Hc' Hh]. split; [done|]. intros p r. rewrite Hh.
    assert (¬ listed s) by (unfold listed; rewrite Hs; naive_solver). set_solver.
Qed.

(** ** The file *)

Definition named_entry (e : string * list string) : Prop := e.1 ≠ "" ∧ "" ∉ e.2.

Lemma from_sprints_named sprints : Forall named_entry (from_sprints sprints).
Proof.
  apply Forall_forall. intros [p refs] Hin. destruct (from_sprints_spec sprints) as [Hc Hh].
  pose proof (can_entries _ Hc) as He. rewrite Forall_forall in He. destruct (He _ Hin) as (Hne & _). cbn in *.
  assert (∀ r, r ∈ refs → p ≠ "" ∧ r ≠ "") as Hall.
  { intros r Hr. destruct (proj1 (Hh p r)) as (s & _ & [Href _] & Hp & ->); [by exists refs|].
    split; [|done]. apply sorted_set_elem, list_elem_of_In, filter_In in Hp as [_ Hp].
    intros ->. done. }
  destruct refs as [|r refs]; [done|]. split; cbn [fst snd].
  - apply (Hall r). left.
  - intros Hr. by destruct (Hall "" Hr).
Qed.

Section file_facts.
Context `{PyRepr, JsonText, !JsonStr}.

Lemma sorted_strings_val (l : list string) : sorted (VList (VStr <$> l)) = VList (VStr <$> l).
Proof. cbn. f_equal. induction l; cbn; congruence. Qed.

Lemma projects_sorted index : map (λ p, (p.1, sorted p.2)) (to_projects_document index) = to_projects_document index.
Proof.
  unfold to_projects_document. induction index as [|[p refs] index IH]; [done|].
  rewrite fmap_cons. cbn [map fst snd]. by rewrite sorted_strings_val, IH.
Qed.

Lemma projects_keys index : (to_projects_document index).*1 = index.*1.
Proof. unfold to_projects_document. rewrite <-list_fmap_compose. by apply list_fmap_ext. Qed.

Lemma projects_printable index : dict_wf index → printable (VDict (to_projects_document index)) = true.
Proof.
  intros Hwf. apply printable_dict. split; [unfold dict_wf; by rewrite projects_keys|].
  unfold to_projects_document. apply Forall_fmap, Forall_true. intros [p refs]. cbn.
  apply forallb_forall. intros v Hv%list_elem_of_In. by apply list_elem_of_fmap in Hv as (r & -> & _).
Qed.

Lemma projects_are_sorted index : StronglySorted key_le index → StronglySorted key_le (to_projects_document index).
Proof.
  induction 1 as [|[p refs] index Hs IH Hp]; [constructor|]. constructor; [done|].
  apply Forall_fmap. eapply Forall_impl; [exact Hp|]. by intros [].
Qed.

Lemma strings_read_back (refs : list string) : "" ∉ refs → NoDup refs → StronglySorted String.le refs →
  sorted_set (List.filter nonempty (py_str <$> (VStr <$> refs))) = refs.
Proof.
  intros Hne Hnd Hs. apply sorted_set_unique; [done..|]. intros x.
  rewrite list_elem_of_In, list_elem_of_In, filter_In, <-list_elem_of_In, <-list_elem_of_In.
  rewrite <-list_fmap_compose. unfold compose. cbn. rewrite list_fmap_id. split; [|tauto].
  intros Hx. split; [done|]. unfold nonempty. apply negb_true_iff, String.eqb_neq. by intros ->.
Qed.

(** What was written is read back. *)
Lemma index_reads_back index : Canonical index → Forall named_entry index →
  read_guard_index (write_guard_index index) = Some index.
Proof.
  intros Hc Hn. pose proof (projects_printable index (can_wf _ Hc)) as Hp.
  unfold read_guard_index, write_guard_index. rewrite loads_str_dumps.
  2:{ apply printable_dict. split; [by repeat constructor; set_solver|].
      constructor; [by vm_compute|]. constructor; [exact Hp|constructor]. }
  change (index_from_document (VDict (sorted_items (to_document index GUARD_INDEX_VERSION))) GUARD_INDEX_VERSION = Some index).
  unfold index_from_document. rewrite !get_sorted by (repeat constructor; set_solver).
  change (get (to_document index GUARD_INDEX_VERSION) "version") with (VInt GUARD_INDEX_VERSION).
  change (get (to_document index GUARD_INDEX_VERSION) "projects") with (VDict (to_projects_document index)).
  cbn [sorted number_is]. rewrite Z.eqb_refl, projects_sorted, (sort_items_id (to_projects_document index)).
  2: by apply projects_are_sorted, Hc.
  2: { unfold dict_wf. rewrite projects_keys. apply Hc. }
  f_equal. rewrite <-(sort_items_id index) at 2 by apply Hc. f_equal.
  pose proof (can_entries _ Hc) as He. clear Hc Hp. 
  induction index as [|[p refs] index IH]; [done|].
  apply Forall_cons in He as [(_ & Hnd & Hs) He], Hn as [[Hp Hr] Hn]. cbn [fst snd] in *.
  unfold to_projects_document. rewrite fmap_cons. cbn [omap list_omap fst snd].
  assert (nonempty p = true) as -> by (unfold nonempty; by apply negb_true_iff, String.eqb_neq).
  rewrite strings_read_back by done. f_equal. by apply IH.
Qed.

(** ** Keeping the index is rebuilding it *)

(** The board after one sprint has changed or come in. *)
Definition board_put (sprints : list SprintAdmission) (s : SprintAdmission) : list SprintAdmission :=
  filter (λ x, sa_ref x ≠ sa_ref s) sprints ++ [s].

(** One change of an index, as a relation. *)
Definition change (index : Index) (s : SprintAdmission) : Index :=
  let index := without_sprint index (sa_ref s) in if is_open s then with_sprint index s else index.

Lemma change_canonical index s : Canonical index → Canonical (change index s).
Proof.
  intros Hc. unfold change. pose proof (without_sprint_canonical index (sa_ref s) Hc).
  destruct (is_open s); [by apply with_sprint_canonical|done].
Qed.

Lemma change_holds index s p r : Canonical index →
  holds (change index s) p r ↔
  (holds index p r ∧ r ≠ sa_ref s) ∨ (listed s ∧ p ∈ guard_projects s ∧ r = sa_ref s).
Proof.
  intros Hc. unfold change. destruct (is_open s) eqn:E.
  - rewrite with_sprint_holds, without_sprint_holds by by apply without_sprint_canonical. done.
  - rewrite without_sprint_holds. unfold listed. rewrite E. naive_solver.
Qed.

Lemma change_named index s : Canonical index → Forall named_entry index → Forall named_entry (change index s).
Proof.
  intros Hc Hn. pose proof (change_canonical index s Hc) as Hc'. apply Forall_forall. intros [p refs] Hin.
  pose proof (can_entries _ Hc') as He. rewrite Forall_forall in He. destruct (He _ Hin) as (Hne & _).
  assert (∀ r, r ∈ refs → p ≠ "" ∧ r ≠ "") as Hall.
  { intros r Hr. assert (holds (change index s) p r) as Hh by (by exists refs).
    apply change_holds in Hh as [((l & Hl & Hrl) & _)|([Href _] & Hp & ->)]; [|split; [|done]|done].
    - rewrite Forall_forall in Hn. destruct (Hn _ Hl) as [Hp Hne']. cbn in *. split; [done|]. by intros ->.
    - apply sorted_set_elem, list_elem_of_In, filter_In in Hp as [_ Hp]. by intros ->. }
  cbn in Hne. destruct refs as [|r refs]; [done|]. split; cbn [fst snd].
  - apply (Hall r). left.
  - intros Hr. by destruct (Hall "" Hr).
Qed.

Lemma from_sprints_ext l k : (∀ s, s ∈ l ↔ s ∈ k) → from_sprints l = from_sprints k.
Proof.
  intros E. destruct (from_sprints_spec l) as [Hl Hhl], (from_sprints_spec k) as [Hk Hhk].
  apply canonical_unique; [done..|]. intros p r. rewrite Hhl, Hhk. by setoid_rewrite E.
Qed.

Lemma change_rebuild sprints s : change (from_sprints sprints) s = from_sprints (board_put sprints s).
Proof.
  destruct (from_sprints_spec sprints) as [Hl Hhl], (from_sprints_spec (board_put sprints s)) as [Hk Hhk].
  apply canonical_unique; [by apply change_canonical|done|]. intros p r.
  rewrite change_holds, Hhl, Hhk by done. unfold board_put.
  setoid_rewrite elem_of_app. setoid_rewrite list_elem_of_filter. setoid_rewrite list_elem_of_singleton.
  split.
  - intros [[(x & Hx & Hl' & Hp & ->) Hr]|(Hl' & Hp & ->)]; eauto 7.
  - intros (x & [[Hr Hx] | ->] & Hl' & Hp & ->); [left|by right]. split; [by eauto|done].
Qed.

Lemma update_reads file s index : read_guard_index file = Some index →
  update_active_sprint_projects file s = write_guard_index (change index s).
Proof. intros E. unfold update_active_sprint_projects. by rewrite E. Qed.

Lemma update_rebuild sprints s :
  update_active_sprint_projects (write_guard_index (from_sprints sprints)) s
  = write_guard_index (from_sprints (board_put sprints s)).
Proof.
  rewrite (update_reads _ _ (from_sprints sprints)), change_rebuild; [done|].
  apply index_reads_back; [apply from_sprints_spec|apply from_sprints_named].
Qed.

Lemma update_absent s : update_active_sprint_projects Absent s = write_guard_index (from_sprints (board_put [] s)).
Proof. by rewrite <-change_rebuild. Qed.

(** C22. Keeping the index is rebuilding it. On an installation that starts with
    no index and no sprint, after any sequence of changes of sprints, each
    followed by its update, the file of the index is byte for byte the one a
    rebuild from the board would write, in whatever order the board lists its
    sprints. *)
Theorem index_follows_the_board (changes board : list SprintAdmission) :
  changes ≠ [] →
  (∀ s, s ∈ board ↔ s ∈ foldl board_put [] changes) →
  foldl update_active_sprint_projects Absent changes = write_guard_index (from_sprints board).
Proof.
  intros Hne Hb. rewrite (from_sprints_ext _ _ Hb). destruct changes as [|s changes]; [done|].
  cbn [foldl]. rewrite update_absent. generalize (board_put [] s). clear.
  induction changes as [|s changes IH]; intros sprints; [done|]. cbn [foldl]. by rewrite update_rebuild.
Qed.

(** ** The guard's answer *)

(** A sprint document as the board's reader normalizes it. *)
Record Normal (d : Fields) (ref st : string) (l : list string) : Prop := {
  nm_ref : dict_get d "ref" = Some (VStr ref);
  nm_named : ref ≠ "";
  nm_status : get d "status" = VStr st;
  nm_reservations : dict_get d "reservations" = Some (VList (VStr <$> l));
  nm_stripped : Forall (λ p, str_strip p = p ∧ p ≠ "") l;
}.

(** [d] is open and reserves the project. *)
Definition holding (d : Fields) (project : string) : Prop :=
  get d "status" = VStr "open" ∧ reserves d project = Ok true.

(** The sprint board and the documents on it: references are unique, the list of
    open sprints is complete, and each sprint is shown as it is. *)
Record OnBoard (board : SprintBoard) (docs : list Fields) : Prop := {
  ob_normal : ∀ d, d ∈ docs → ∃ ref st l, Normal d ref st l;
  ob_list : ∃ opened, sb_list_open board = Ok opened
              ∧ ∀ d, d ∈ opened ↔ d ∈ docs ∧ get d "status" = VStr "open";
  ob_show : ∀ d ref, d ∈ docs → get d "ref" = VStr ref → sb_show board ref = Ok d;
}.

Lemma normal_admission d ref st l : Normal d ref st l →
  sa_ref (admission_from_document d) = ref
  ∧ is_open (admission_from_document d) = String.eqb st "open"
  ∧ (∀ p, p ∈ guard_projects (admission_from_document d) ↔ p ∈ l)
  ∧ ∀ p, reserves d p = Ok (bool_decide (p ∈ l)).
Proof.
  intros [Hr Hne Hst Hl Hs]. split_and!.
  - cbn [admission_from_document sa_ref]. unfold get. rewrite Hr. cbn [default id]. apply py_str_or_str.
  - unfold is_open. cbn [admission_from_document sa_state]. rewrite Hst, py_str_or_str.
    destruct (String.eqb_spec st "open") as [->|Hn]; [done|].
    apply bool_decide_eq_false. intros E. apply Hn. by apply enum_of_value_Some in E.
  - intros p. unfold guard_projects. rewrite sorted_set_elem, list_elem_of_In, filter_In, <-list_elem_of_In.
    cbn. unfold get. rewrite Hl. cbn. rewrite <-!list_fmap_compose. unfold compose. cbn.
    rewrite list_elem_of_fmap. rewrite Forall_forall in Hs. split.
    + intros ((q & -> & Hq) & _). destruct (Hs _ Hq) as [E _]. by rewrite <-E in Hq.
    + intros Hp. destruct (Hs _ Hp) as [E Hn]. split; [by exists p|]. unfold nonempty. by apply negb_true_iff, String.eqb_neq.
  - intros p. unfold reserves. rewrite Hl. f_equal. clear. induction l as [|q l IH]; [done|].
    rewrite fmap_cons. cbn [existsb equals]. rewrite IH.
    destruct (String.eqb_spec q p) as [->|Hn]; cbn; symmetry; [apply bool_decide_eq_true; left|].
    apply bool_decide_ext. rewrite elem_of_cons. naive_solver.
Qed.

(** An index that names every open sprint under each project it reserves, and
    none the board does not know. *)
Definition indexes (docs : list Fields) (index : Index) : Prop :=
  Canonical index ∧ Forall named_entry index
  ∧ (∀ d p ref, d ∈ docs → get d "ref" = VStr ref → holding d p → holds index p ref)
  ∧ (∀ p ref, holds index p ref → ∃ d, d ∈ docs ∧ get d "ref" = VStr ref).

(** What a file may be when a question comes: nothing that can be read, which
    is rebuilt, or an index of the board. *)
Definition covers (docs : list Fields) (file : IndexFile) : Prop :=
  match read_guard_index file with None => True | Some index => indexes docs index end.

Lemma covers_written docs index : Canonical index → Forall named_entry index →
  (∀ d p ref, d ∈ docs → get d "ref" = VStr ref → holding d p → holds index p ref) →
  (∀ p ref, holds index p ref → ∃ d, d ∈ docs ∧ get d "ref" = VStr ref) →
  covers docs (write_guard_index index).
Proof. intros Hc Hn Hopen Hknown. unfold covers. by rewrite index_reads_back. Qed.

Section guard.
Context (board : SprintBoard) (docs : list Fields) (Hboard : OnBoard board docs).

Lemma doc_facts d ref : d ∈ docs → get d "ref" = VStr ref →
  sa_ref (admission_from_document d) = ref
  ∧ (∀ p, holding d p ↔ listed (admission_from_document d) ∧ p ∈ guard_projects (admission_from_document d))
  ∧ (∀ p, ∃ b, reserves d p = Ok b) ∧ ref ≠ "".
Proof.
  intros Hd Hr. destruct (ob_normal _ _ Hboard d Hd) as (ref' & st & l & Hn).
  destruct (normal_admission _ _ _ _ Hn) as (E1 & E2 & E3 & E4).
  unfold get in Hr. rewrite (nm_ref _ _ _ _ Hn) in Hr. injection Hr as <-.
  split_and!; [done| |by eauto|by apply Hn]. intros p. unfold holding, listed. rewrite E1, E2, E3, E4, String.eqb_eq.
  rewrite (nm_status _ _ _ _ Hn). pose proof (nm_named _ _ _ _ Hn). split.
  - intros [[= ->] [= Hp%bool_decide_eq_true]]. done.
  - intros [[_ ->] Hp]. by rewrite bool_decide_eq_true_2.
Qed.

Lemma one_doc d d' ref : d ∈ docs → d' ∈ docs → get d "ref" = VStr ref → get d' "ref" = VStr ref → d = d'.
Proof.
  intros Hd Hd' E E'. pose proof (ob_show _ _ Hboard _ _ Hd E). pose proof (ob_show _ _ Hboard _ _ Hd' E'). congruence.
Qed.

(** A rebuild covers the board. *)
Lemma refresh_covers file : ∃ file', refresh_active_sprint_projects board file = Ok file'
  ∧ covers docs file' ∧ read_guard_index file' ≠ None.
Proof.
  destruct (ob_list _ _ Hboard) as (opened & Hl & Ho). unfold refresh_active_sprint_projects. rewrite Hl.
  eexists. split; [done|]. unfold replace_active_sprint_projects.
  destruct (from_sprints_spec (admission_from_document <$> opened)) as [Hc Hh].
  pose proof (from_sprints_named (admission_from_document <$> opened)) as Hn.
  split; [|by rewrite index_reads_back]. apply covers_written; [done..| |].
  - intros d p ref Hd Hr Hp. destruct (doc_facts d ref Hd Hr) as (E & Hiff & _).
    apply Hh. exists (admission_from_document d). destruct (proj1 (Hiff p) Hp) as [Hli Hg].
    split_and!; [|done..]. apply list_elem_of_fmap_2, Ho. split; [done|]. apply Hp.
  - intros p ref (s & (d & -> & Hd)%list_elem_of_fmap & _ & _ & ->)%Hh.
    apply Ho in Hd as [Hd _]. destruct (ob_normal _ _ Hboard d Hd) as (ref & st & l & Hnm).
    assert (get d "ref" = VStr ref) as Hr by (unfold get; by rewrite (nm_ref _ _ _ _ Hnm)).
    destruct (doc_facts d ref Hd Hr) as (-> & _). by exists d.
Qed.

(** Following a sprint of the board keeps the index covering it. *)
Lemma update_covers file d : d ∈ docs → read_guard_index file ≠ None → covers docs file →
  let file' := update_active_sprint_projects file (admission_from_document d) in
  covers docs file' ∧ read_guard_index file' ≠ None.
Proof.
  intros Hd Hi Hcov. unfold covers in Hcov. destruct (read_guard_index file) as [index|] eqn:E; [|done].
  destruct Hcov as (Hc & Hn & Hopen & Hknown). rewrite (update_reads _ _ _ E).
  pose proof (change_canonical index (admission_from_document d) Hc) as Hc'.
  pose proof (change_named index (admission_from_document d) Hc Hn) as Hn'.
  split; [|by rewrite index_reads_back].
  destruct (ob_normal _ _ Hboard d Hd) as (ref & st & l & Hnm).
  assert (get d "ref" = VStr ref) as Hr by (unfold get; by rewrite (nm_ref _ _ _ _ Hnm)).
  destruct (doc_facts d ref Hd Hr) as (Eref & Hiff & _).
  apply covers_written; [done..| |].
  - intros d' p ref' Hd' Hr' Hp. apply change_holds; [done|]. rewrite Eref. destruct (decide (ref' = ref)) as [->|Hne].
    + right. rewrite (one_doc d' d ref Hd' Hd Hr' Hr) in Hp. by destruct (proj1 (Hiff p) Hp).
    + left. split; [by eapply Hopen|done].
  - intros p ref' Hh. apply change_holds in Hh as [[Hh _]|(_ & _ & ->)]; [by apply Hknown in Hh| |done].
    rewrite Eref. by exists d.
Qed.

(** The reference of an open sprint of the board that reserves the project. *)
Definition reserver (project ref : string) : Prop :=
  ∃ d, d ∈ docs ∧ get d "ref" = VStr ref ∧ holding d project.

(** What one turn of the verification reads is the sprint of the board. *)
Lemma sprint_read (linked : option Fields) ref d : d ∈ docs → get d "ref" = VStr ref →
  (∀ d', linked = Some d' → d' ∈ docs) →
  match linked with
  | Some d' => if py_truthy (VDict d') && equals (get d' "ref") ref then Ok d' else sb_show board ref
  | None => sb_show board ref
  end = Ok d.
Proof.
  intros Hd Hr Hlk. pose proof (ob_show _ _ Hboard _ _ Hd Hr) as Hs. destruct linked as [d'|]; [|done].
  destruct (py_truthy _ && _) eqn:E; [|done]. apply andb_true_iff in E as [_ E].
  destruct (get d' "ref") as [| | | |s| |] eqn:E'; try done. apply String.eqb_eq in E as ->.
  f_equal. by apply (one_doc d' d ref); [apply Hlk| | |].
Qed.

Lemma verify_spec linked project refs file held :
  (∀ d', linked = Some d' → d' ∈ docs) →
  (∀ ref, ref ∈ refs → ∃ d, d ∈ docs ∧ get d "ref" = VStr ref) →
  covers docs file → read_guard_index file ≠ None →
  ∃ file' got, verify_refs board linked project refs file held = (file', Ok (held ++ got))
    ∧ got `sublist_of` refs ∧ (∀ ref, ref ∈ got ↔ ref ∈ refs ∧ reserver project ref)
    ∧ covers docs file' ∧ read_guard_index file' ≠ None.
Proof.
  intros Hlk. revert file held. induction refs as [|ref refs IH]; intros file held Hkn Hcov Hi.
  { exists file, []. rewrite app_nil_r. split_and!; [done..| |done|done]. set_solver. }
  destruct (Hkn ref) as (d & Hd & Hr); [left|]. cbn [verify_refs]. rewrite (sprint_read linked ref d Hd Hr Hlk).
  destruct (update_covers file d Hd Hi Hcov) as [Hcov' Hi'].
  assert (∀ ref, ref ∈ refs → ∃ d, d ∈ docs ∧ get d "ref" = VStr ref) as Hkn' by (intros; apply Hkn; by right).
  assert (reserver project ref ↔ holding d project) as Hres.
  { split; [|by exists d]. intros (d' & Hd' & Hr' & Hh). by rewrite (one_doc d d' ref). }
  destruct (doc_facts d ref Hd Hr) as (_ & _ & Hb & _). destruct (Hb project) as [b Eb].
  set (file1 := update_active_sprint_projects _ _) in *.
  assert (∀ held, ∃ file' got, verify_refs board linked project refs file1 held = (file', Ok (held ++ got))
    ∧ got `sublist_of` refs ∧ (∀ ref, ref ∈ got ↔ ref ∈ refs ∧ reserver project ref)
    ∧ covers docs file' ∧ read_guard_index file' ≠ None) as IH' by (intros; by apply IH). clear IH.
  assert (equals (get d "status") "open" = true ↔ get d "status" = VStr "open") as Hopen.
  { destruct (get d "status"); cbn; rewrite ?String.eqb_eq; naive_solver. }
  destruct (equals _ "open") eqn:E; [|clear E].
  - rewrite Eb. destruct b.
    + destruct (IH' (held ++ [ref])) as (file' & got & -> & Hsub & Hgot & ?). exists file', (ref :: got).
      rewrite <-(assoc_L (++)). split_and!; [done|by constructor| |naive_solver..]. intros r. rewrite !elem_of_cons, Hgot.
      assert (reserver project ref) by (apply Hres; split; [by apply Hopen|done]). naive_solver.
    + destruct (IH' held) as (file' & got & -> & Hsub & Hgot & ?). exists file', got.
      split_and!; [done|by constructor| |naive_solver..]. intros r. rewrite elem_of_cons, Hgot.
      assert (¬ reserver project ref) by (rewrite Hres; unfold holding; rewrite Eb; naive_solver). naive_solver.
  - destruct (IH' held) as (file' & got & -> & Hsub & Hgot & ?). exists file', got.
    split_and!; [done|by constructor| |naive_solver..]. intros r. rewrite elem_of_cons, Hgot.
    assert (¬ reserver project ref) by (rewrite Hres; unfold holding; naive_solver). naive_solver.
Qed.

Lemma verified_refs project refs file :
  covers docs file → read_guard_index file ≠ None →
  (∀ ref, ref ∈ default [] (dict_get (active_sprint_projects file) project) → ref ∈ refs) →
  (∀ ref, ref ∈ refs → ∃ d, d ∈ docs ∧ get d "ref" = VStr ref) →
  ∀ linked, (∀ d', linked = Some d' → d' ∈ docs) →
  ∃ file' held index, verify_refs board linked project (sorted_set refs) file [] = (file', Ok held)
    ∧ (∀ ref, ref ∈ held ↔ reserver project ref) ∧ NoDup held ∧ StronglySorted String.le held
    ∧ read_guard_index file' = Some index
    ∧ (∀ p ref, reserver p ref → holds index p ref)
    ∧ (∀ p ref, holds index p ref → ∃ d, d ∈ docs ∧ get d "ref" = VStr ref).
Proof.
  intros Hcov Hi Hsub Hkn linked Hlk.
  destruct (verify_spec linked project (sorted_set refs) file []) as (file' & got & E & Hs & Hgot & Hcov' & Hr'); [done| |done..|].
  { intros ref. rewrite sorted_set_elem. apply Hkn. }
  unfold covers in Hcov'. destruct (read_guard_index file') as [index'|] eqn:Er; [|done].
  destruct Hcov' as (_ & _ & Hall' & Hknown').
  exists file', got, index'. split_and!; [done| | | |done|by intros p ref (d & Hd & Hdr & Hh); eapply Hall'|done].
  - intros ref. rewrite Hgot, sorted_set_elem. split; [naive_solver|]. intros Hr. split; [|done].
    apply Hsub. destruct Hr as (d & Hd & Hdr & Hh). unfold covers in Hcov. unfold active_sprint_projects.
    destruct (read_guard_index file) as [index|]; [|done]. destruct Hcov as (Hc & _ & Hall & _).
    destruct (Hall _ _ _ Hd Hdr Hh) as (l & Hl & Hin). cbn. by rewrite (dict_get_elem _ _ _ (can_wf _ Hc) Hl).
  - eapply sublist_NoDup; [apply sorted_set_NoDup|exact Hs].
  - eapply StronglySorted_sublist; [exact Hs|apply sorted_set_sorted].
Qed.
End guard.

(** C21. The guard's answer is exact. When the file of the index is absent,
    unreadable, of another version, or names the open sprints of the board, the
    question which open sprints reserve a project is answered by exactly those,
    sorted, whatever sprint the written card is linked to; and the file it
    leaves can be read, and names under every project all the open sprints of
    the board that reserve it, and no sprint the board does not know. *)
Theorem guard_answer_exact board docs file project linked :
  OnBoard board docs → covers docs file →
  (∀ d, linked = Some d → d ∈ docs) →
  ∃ file' held index, open_sprints_reserving board file project linked = (file', Ok held)
    ∧ (∀ ref, ref ∈ held ↔ reserver docs project ref)
    ∧ NoDup held ∧ StronglySorted String.le held
    ∧ read_guard_index file' = Some index
    ∧ (∀ p ref, reserver docs p ref → holds index p ref)
    ∧ (∀ p ref, holds index p ref → ∃ d, d ∈ docs ∧ get d "ref" = VStr ref).
Proof.
  intros Hb Hcov Hlk. unfold open_sprints_reserving.
  assert (∃ file1, (if sprint_guard_index_initialized file then Ok file else refresh_active_sprint_projects board file)
    = Ok file1 ∧ covers docs file1 ∧ read_guard_index file1 ≠ None) as (file1 & -> & Hcov1 & Hi1).
  { unfold sprint_guard_index_initialized. destruct (read_guard_index file) eqn:E; [by exists file; rewrite E|].
    by apply refresh_covers. }
  set (refs := default [] _).
  assert (∀ ref, ref ∈ refs → ∃ d, d ∈ docs ∧ get d "ref" = VStr ref) as Hkn.
  { unfold refs, active_sprint_projects. unfold covers in Hcov1. destruct (read_guard_index file1) as [index|]; [|done].
    destruct Hcov1 as (_ & _ & _ & Hknown). intros ref. cbn.
    destruct (dict_get index project) as [l|] eqn:E; [|by intros ?%not_elem_of_nil]. intros Hr.
    apply (Hknown project). exists l. split; [by apply dict_get_Some_elem|done]. }
  destruct linked as [d|]; [|by apply verified_refs].
  specialize (Hlk d eq_refl) as Hd. destruct (ob_normal _ _ Hb d Hd) as (ref & st & l & Hnm).
  destruct (normal_admission _ _ _ _ Hnm) as (_ & _ & _ & Hrs). rewrite Hrs. cbn [mbind res_bind].
  rewrite (nm_ref _ _ _ _ Hnm). destruct (bool_decide _).
  - cbn [py_str]. apply verified_refs; try done; [set_solver|].
    intros r [Hr|Hr%list_elem_of_singleton]%elem_of_app; [by apply Hkn|]. subst r. exists d. split; [done|].
    unfold get. by rewrite (nm_ref _ _ _ _ Hnm).
  - by apply verified_refs.
Qed.

(** C39. An unreadable index is replaced by an incomplete one. The first write of
    a sprint that finds the file there and unreadable (cut short, or of an older
    version) removes it, so that it be rebuilt from the board; the second finds
    no file and writes an index of its own sprint alone, which is initialized and
    is never rebuilt. The guard then answers that no open sprint reserves a
    project which that sprint does not, whatever the board holds. *)
Theorem unreadable_index_hides_reservations board file s project :
  read_guard_index file = None → exists_file file = true → project ∉ guard_projects s →
  let file' := update_active_sprint_projects (update_active_sprint_projects file s) s in
  sprint_guard_index_initialized file' = true
  ∧ (open_sprints_reserving board file' project None).2 = Ok [].
Proof.
  intros Hr He Hp. cbn zeta. assert (update_active_sprint_projects file s = Absent) as ->.
  { unfold update_active_sprint_projects. by rewrite Hr, He. }
  rewrite update_absent. set (index := from_sprints _). unfold open_sprints_reserving, sprint_guard_index_initialized, active_sprint_projects.
  assert (read_guard_index (write_guard_index index) = Some index) as Er
    by (apply index_reads_back; [apply from_sprints_spec|apply from_sprints_named]).
  rewrite !Er. split; [done|]. cbn [default id].
  destruct (dict_get index project) as [l|] eqn:E; [|done]. exfalso. apply dict_get_Some_elem in E.
  destruct (from_sprints_spec (board_put [] s)) as [Hc Hh]. fold index in Hc, Hh.
  pose proof (can_entries _ Hc) as Hent. rewrite Forall_forall in Hent. destruct (Hent _ E) as (Hne & _). cbn in *.
  destruct l as [|r l]; [done|]. destruct (proj1 (Hh project r)) as (x & Hx & _ & Hg & _); [by exists (r :: l); split; [|left]|].
  apply list_elem_of_singleton in Hx as ->. done.
Qed.
End file_facts.
