(* ===== verification/AdmissionRules.v ===== *)
(** * The rules of admission are pairwise disjointness

    What [refuse_open_sprint] accepts, stated without it: room, no shared
    project, and, where the installation may hold two open sprints, different
    products and repository trees that share no path.  Every run of creates,
    reopens and closes keeps the open sprints that way, and a set is importable
    exactly when it could have been created. *)

From stdpp Require Import relations.
From S2P Require Import Prelude PyText JsonText PyStrings Board TerminalTaxonomy WaitCard E2eBudget Admission AdmissionFacts.

(** ** Trees *)

(** The parents of a path are its proper prefixes down to the root. *)
Lemma parents_elem (p q : path) : q ∈ parents p ↔ q ≠ [] ∧ q `prefix_of` p ∧ q ≠ p.
Proof.
  unfold parents. rewrite list_elem_of_fmap. split.
  - intros (n & -> & Hn%list_elem_of_In%in_seq). split_and!.
    + intros E. apply (f_equal length) in E. rewrite length_take in E. cbn in E. lia.
    + apply prefix_take.
    + intros E. apply (f_equal length) in E. rewrite length_take in E. lia.
  - intros (Hne & [k ->] & Hneq). exists (length q). split; [by rewrite take_app_length|].
    apply list_elem_of_In, in_seq. destruct q as [|x q]; [done|]. destruct k as [|y k]; [by rewrite app_nil_r in Hneq|].
    rewrite length_app. cbn. lia.
Qed.

(** Two rooted trees overlap exactly when some path lies in both. *)
Lemma roots_overlap_spec (left right : path) : left ≠ [] → right ≠ [] →
  roots_overlap left right = true ↔ ∃ f, left `prefix_of` f ∧ right `prefix_of` f.
Proof.
  intros Hl Hr. unfold roots_overlap. rewrite bool_decide_eq_true, !parents_elem. split.
  - intros [->|[(_ & Hp & _)|(_ & Hp & _)]]; [by exists right|by exists right|by exists left].
  - intros (f & H1 & H2). destruct (decide (left = right)); [by left|].
    destruct (prefix_weak_total left right f H1 H2); naive_solver.
Qed.

#[global] Instance SprintAdmission_eta : Settable SprintAdmission := λ s,
  Build_SprintAdmission (sa_ref s) (sa_product s) (sa_reservations s) (sa_repositories s) (sa_state s).

Section rules_facts.
Context `{PathResolve} (show_path : path → string).

(** [Path.resolve] answers an absolute path: its first part is the root. *)
Hypothesis resolve_rooted : ∀ text p, resolve_path text = Some p → p ≠ [].

(** ** The roots of a sprint *)

Definition is_root (paths : list string) (root : path) : Prop :=
  ∃ raw, raw ∈ paths ∧ str_strip raw ≠ "" ∧ resolve_path (str_strip raw) = Some root.

(** Every declared root is absolute and known to the host. *)
Definition scannable (paths : list string) : Prop :=
  ∀ raw, raw ∈ paths → str_strip raw ≠ "" →
  is_absolute (str_strip raw) = true ∧ is_Some (resolve_path (str_strip raw)).

Lemma is_root_cons raw paths root :
  is_root (raw :: paths) root ↔
  (str_strip raw ≠ "" ∧ resolve_path (str_strip raw) = Some root) ∨ is_root paths root.
Proof. unfold is_root. setoid_rewrite elem_of_cons. naive_solver. Qed.

Lemma scannable_cons raw paths :
  scannable (raw :: paths) ↔
  (str_strip raw ≠ "" → is_absolute (str_strip raw) = true ∧ is_Some (resolve_path (str_strip raw)))
  ∧ scannable paths.
Proof. unfold scannable. setoid_rewrite elem_of_cons. naive_solver. Qed.

(** One declared root. *)
Lemma scan_root_spec refusal roots raw :
  match scan_root refusal roots raw with
  | Ok roots' => scannable [raw] ∧ ∀ root, root ∈ roots' ↔ root ∈ roots ∨ is_root [raw] root
  | Raise _ => ¬ scannable [raw]
  end.
Proof.
  assert (∀ root, is_root [raw] root ↔ str_strip raw ≠ "" ∧ resolve_path (str_strip raw) = Some root) as Hroot.
  { intros root. rewrite is_root_cons. unfold is_root at 1. set_solver. }
  assert (scannable [raw] ↔ (str_strip raw ≠ "" →
    is_absolute (str_strip raw) = true ∧ is_Some (resolve_path (str_strip raw)))) as Hsc.
  { rewrite scannable_cons. unfold scannable at 1. set_solver. }
  unfold scan_root, nonempty. destruct (String.eqb_spec (str_strip raw) "") as [E|E]; cbn [negb].
  { rewrite Hsc. split; [done|]. intros root. rewrite Hroot. naive_solver. }
  destruct (is_absolute (str_strip raw)) eqn:Ha; [|rewrite Hsc; naive_solver].
  destruct (resolve_path (str_strip raw)) as [root|] eqn:Er.
  - rewrite Hsc. split; [by eauto|]. intros x. rewrite Hroot. destruct (bool_decide_reflect (root ∈ roots)); set_solver.
  - rewrite Hsc. intros Hs. destruct (Hs E) as [_ []]. done.
Qed.

Lemma root_scan_spec refusal paths roots0 :
  match foldM (scan_root refusal) roots0 paths with
  | Ok roots => scannable paths ∧ ∀ root, root ∈ roots ↔ root ∈ roots0 ∨ is_root paths root
  | Raise _ => ¬ scannable paths
  end.
Proof.
  revert roots0. induction paths as [|raw paths IH]; intros roots0; cbn [foldM].
  { split; [by intros raw ?%not_elem_of_nil|]. unfold is_root. set_solver. }
  assert (scannable (raw :: paths) ↔ scannable [raw] ∧ scannable paths) as Hsc
    by (rewrite !scannable_cons; unfold scannable at 3; set_solver).
  assert (∀ x, is_root (raw :: paths) x ↔ is_root [raw] x ∨ is_root paths x) as Hroot
    by (intros x; rewrite !is_root_cons; unfold is_root at 3; set_solver).
  pose proof (scan_root_spec refusal roots0 raw) as Hone.
  destruct (scan_root refusal roots0 raw) as [roots1|]; cbn [mbind res_bind]; [|by rewrite Hsc; tauto].
  destruct Hone as [Hs1 Hr1]. specialize (IH roots1). destruct (foldM _ _ _); rewrite Hsc; [|tauto].
  destruct IH as [Hs Hr]. split; [tauto|]. intros x. rewrite Hr, Hr1, Hroot. tauto.
Qed.

Lemma scanned_spec refusal paths :
  match scanned_roots paths refusal with
  | Ok roots => scannable paths ∧ ∀ root, root ∈ roots ↔ is_root paths root
  | Raise _ => ¬ scannable paths
  end.
Proof.
  pose proof (root_scan_spec refusal paths []) as Hs. unfold scanned_roots. destruct (foldM _ _ _); [|done].
  destruct Hs as [Hs Hr]. split; [done|]. intros root. rewrite Hr. set_solver.
Qed.

(** ** Disjointness *)

Definition no_shared_project (a b : SprintAdmission) : Prop :=
  ∀ p, p ∈ sa_reservations a → p ∉ sa_reservations b.

Definition no_shared_tree (a b : SprintAdmission) : Prop :=
  ∀ ra rb f, is_root (sa_repositories a) ra → is_root (sa_repositories b) rb →
  ra `prefix_of` f → rb `prefix_of` f → False.

(** What makes two open sprints safe beside each other. *)
Record Apart (a b : SprintAdmission) : Prop := {
  ap_named : sa_product a ≠ "" ∧ sa_product b ≠ "";
  ap_product : sa_product a ≠ sa_product b;
  ap_known : scannable (sa_repositories a) ∧ scannable (sa_repositories b);
  ap_tree : no_shared_tree a b;
}.

Lemma Apart_sym a b : Apart a b → Apart b a.
Proof.
  intros [[] ? [] Ht]. split; [done|congruence|done|]. intros ra rb f Ha Hb Hf1 Hf2. by apply (Ht rb ra f).
Qed.

Lemma no_shared_project_sym a b : no_shared_project a b → no_shared_project b a.
Proof. unfold no_shared_project. naive_solver. Qed.

(** *** The shared projects *)

Lemma hold_key held p k : dict_get (hold held p) k = None ↔ dict_get held k = None ∧ k ≠ p.1.
Proof.
  unfold hold, dict_has. destruct (dict_get held p.1) as [v|] eqn:E.
  - split; [|naive_solver]. intros Hk. split; [done|]. intros ->. congruence.
  - destruct (decide (k = p.1)) as [->|Hne]; [rewrite dict_get_set_eq; naive_solver|].
    rewrite dict_get_set_ne by congruence. naive_solver.
Qed.

Lemma holds_key pairs held k : dict_get (foldl hold held pairs) k = None ↔ dict_get held k = None ∧ k ∉ pairs.*1.
Proof.
  revert held. induction pairs as [|p pairs IH]; intros held; cbn [foldl]; [set_solver|].
  rewrite IH, hold_key, fmap_cons. set_solver.
Qed.

Lemma held_by_spec others p : dict_get (held_by others) p = None ↔ ∀ o, o ∈ others → p ∉ sa_reservations o.
Proof.
  unfold held_by. rewrite holds_key. split.
  - intros [_ Hp] o Ho Hin. apply Hp. apply list_elem_of_fmap. exists (p, sa_ref o). split; [done|].
    apply list_elem_of_bind. exists o. split; [|done]. apply list_elem_of_fmap. by exists p.
  - intros Ho. split; [done|]. intros ([p' r] & -> & (o & Hin & Hoin)%list_elem_of_bind)%list_elem_of_fmap.
    apply list_elem_of_fmap in Hin as (q & [= -> ->] & Hq). by apply (Ho o).
Qed.

Lemma shared_reservations_spec reservations others :
  is_ok (refuse_shared_reservations reservations others) = true ↔
  ∀ o, o ∈ others → ∀ p, p ∈ reservations → p ∉ sa_reservations o.
Proof.
  unfold refuse_shared_reservations.
  transitivity (∀ p, p ∈ reservations → dict_get (held_by others) p = None).
  2:{ setoid_rewrite held_by_spec. naive_solver. }
  destruct (omap _ reservations) as [|c l] eqn:E; cbn [is_ok].
  - split; [|done]. intros _ p Hp. destruct (dict_get (held_by others) p) as [r|] eqn:Er; [|done].
    assert ((p, r) ∈ omap (λ project, (λ ref, (project, ref)) <$> dict_get (held_by others) project) reservations) as Hin.
    { apply list_elem_of_omap. exists p. by rewrite Er. }
    rewrite E in Hin. by apply not_elem_of_nil in Hin.
  - split; [done|]. intros Hall. assert (c ∈ c :: l) as Hin by left. rewrite <-E in Hin.
    apply list_elem_of_omap in Hin as (p & Hp & Ec). by rewrite (Hall p Hp) in Ec.
Qed.

(** *** The shared resources *)

Lemma held_roots_spec reference roots held_roots : (∀ r, r ∈ roots → r ≠ []) → (∀ r, r ∈ held_roots → r ≠ []) →
  is_ok (refuse_held_roots show_path reference roots held_roots) = true ↔
  ∀ ra rb f, ra ∈ roots → rb ∈ held_roots → ra `prefix_of` f → rb `prefix_of` f → False.
Proof.
  intros Hroots. induction held_roots as [|held rest IH]; intros Hheld; cbn [refuse_held_roots].
  { split; [by intros _ ? ? ? _ ?%not_elem_of_nil|done]. }
  assert (first_clash roots held = None ↔ ∀ ra f, ra ∈ roots → ra `prefix_of` f → held `prefix_of` f → False) as Hc.
  { unfold first_clash. split.
    - intros E ra f Hra Hf1 Hf2. assert (In ra (List.filter (λ root, roots_overlap root held) roots)) as Hin.
      { apply filter_In. split; [by apply list_elem_of_In|].
        apply roots_overlap_spec; [by apply Hroots|apply Hheld; left|by exists f]. }
      destruct (List.filter _ roots); [done|]. done.
    - intros Hno. destruct (List.filter _ roots) as [|r l] eqn:E; [done|]. exfalso.
      assert (In r (List.filter (λ root, roots_overlap root held) roots)) as [Hr Ho]%filter_In by (rewrite E; by left).
      apply list_elem_of_In in Hr. apply roots_overlap_spec in Ho as (f & Hf1 & Hf2); [|by apply Hroots|apply Hheld; left].
      by eapply Hno. }
  destruct (first_clash roots held) as [clash|]; cbn [is_ok].
  - split; [done|]. intros Hall. enough (Some clash = None) by done. apply Hc. intros ra f Hra. apply Hall; [done|left].
  - rewrite IH by (intros; apply Hheld; by right). specialize (proj1 Hc eq_refl) as Hno. split.
    + intros Hall ra rb f Hra [->|Hrb]%elem_of_cons; [by apply Hno|by apply Hall].
    + intros Hall ra rb f Hra Hrb. apply Hall; [done|by right].
Qed.

Lemma root_named paths r : is_root paths r → r ≠ [].
Proof. intros (raw & _ & _ & E). by eapply resolve_rooted. Qed.

Lemma refuse_pair_spec product roots c o :
  sa_product c = product → product ≠ "" → scannable (sa_repositories c) →
  (∀ root, root ∈ roots ↔ is_root (sa_repositories c) root) →
  is_ok (refuse_pair show_path product roots o) = true ↔ Apart c o.
Proof.
  intros <- Hne Hsc Hroots. unfold refuse_pair, nonempty.
  destruct (String.eqb_spec (sa_product o) "") as [E|E]; cbn.
  { split; [done|]. by intros [[_ ?] _ _ _]. }
  destruct (String.eqb_spec (sa_product o) (sa_product c)) as [E'|E']; cbn.
  { split; [done|]. intros [_ Hp _ _]. congruence. }
  match goal with |- context [scanned_roots _ ?r] => pose proof (scanned_spec r (sa_repositories o)) as Hs end.
  destruct (scanned_roots _ _) as [held|]; cbn.
  2:{ split; [done|]. by intros [_ _ [_ ?] _]. }
  destruct Hs as [Hso Hheld]. rewrite held_roots_spec.
  2:{ intros r Hr. by apply Hroots, root_named in Hr. }
  2:{ intros r Hr. by apply Hheld, root_named in Hr. }
  split.
  - intros Hall. split; [done|congruence|done|]. intros ra rb f Ha Hb. apply Hall; [by apply Hroots|by apply Hheld].
  - intros [_ _ _ Ht] ra rb f Ha%Hroots Hb%Hheld. by apply Ht.
Qed.

Lemma foldM_unit_ok {A} (f : A → res unit) l :
  is_ok (foldM (λ _ x, f x) tt l) = true ↔ ∀ x, x ∈ l → is_ok (f x) = true.
Proof.
  induction l as [|x l IH]; cbn [foldM]; [split; [by intros _ ? ?%not_elem_of_nil|done]|].
  setoid_rewrite elem_of_cons. destruct (f x) as [[]|] eqn:E; cbn [mbind res_bind].
  - rewrite IH. split; [|naive_solver]. intros Hall y [->|Hy]; [by rewrite E|by apply Hall].
  - split; [done|]. intros Hall. specialize (Hall x (or_introl eq_refl)). by rewrite E in Hall.
Qed.

Lemma sorted_by_ref_perm l : sorted_by_ref l ≡ₚ l.
Proof. apply merge_sort_Permutation. Qed.

Lemma shared_resources_spec c others :
  is_ok (refuse_shared_resources show_path c others) = true ↔
  scannable (sa_repositories c) ∧ ∀ o, o ∈ others → Apart c o.
Proof.
  unfold refuse_shared_resources. pose proof (sorted_by_ref_perm others) as Hp.
  assert (∀ o, o ∈ sorted_by_ref others ↔ o ∈ others) as Hin by (intros; by rewrite Hp).
  setoid_rewrite <-Hin. clear Hp Hin.
  match goal with |- context [scanned_roots (sa_repositories c) ?r] =>
    pose proof (scanned_spec r (sa_repositories c)) as Hs end.
  destruct (sorted_by_ref others) as [|first rest]; cbn [mbind res_bind].
  { destruct (scanned_roots _ _); cbn [mbind res_bind foldM is_ok].
    - split; [|done]. intros _. split; [apply Hs|by intros ? ?%not_elem_of_nil].
    - split; [done|]. by intros [? _]. }
  unfold nonempty. destruct (String.eqb_spec (sa_product c) "") as [E|E]; cbn [negb require mbind res_bind].
  { split; [done|]. intros [_ Hall]. destruct (Hall first) as [[? _] _ _ _]; [left|done]. }
  destruct (scanned_roots _ _) as [roots|]; cbn [mbind res_bind].
  - destruct Hs as [Hsc Hroots]. rewrite foldM_unit_ok. setoid_rewrite (refuse_pair_spec _ roots c); [|done..].
    naive_solver.
  - split; [done|]. by intros [? _].
Qed.

(** ** What is admitted *)

(** Room, no shared project, and, where two may be open, everything else apart. *)
Record Admissible (c : SprintAdmission) (others : list SprintAdmission) (limit : Z) : Prop := {
  ad_room : Z.of_nat (length others) < limit;
  ad_projects : ∀ o, o ∈ others → no_shared_project c o;
  ad_apart : 1 < limit → scannable (sa_repositories c) ∧ ∀ o, o ∈ others → Apart c o;
}.

Lemma ok_bind_unit (m : res unit) (k : res unit) :
  is_ok (m ≫= λ _, k) = true ↔ is_ok m = true ∧ is_ok k = true.
Proof. destruct m as [[]|]; cbn; naive_solver. Qed.

Lemma refuse_open_sprint_spec c others limit :
  refuse_open_sprint show_path c others limit = Ok tt ↔ Admissible c others limit.
Proof.
  assert (∀ m : res unit, m = Ok tt ↔ is_ok m = true) as -> by (intros [[]|]; naive_solver).
  unfold refuse_open_sprint. rewrite !ok_bind_unit, shared_reservations_spec.
  assert (is_ok (require (negb (limit <=? Z.of_nat (length others))) (open_sprint_count_error others limit)) = true
    ↔ Z.of_nat (length others) < limit) as ->.
  { rewrite Z.leb_antisym. destruct (Z.ltb_spec (Z.of_nat (length others)) limit); cbn; split; naive_solver lia. }
  assert (is_ok (if DEFAULT_OPEN_SPRINT_LIMIT <? limit then refuse_shared_resources show_path c others else Ok tt) = true
    ↔ (1 < limit → scannable (sa_repositories c) ∧ ∀ o, o ∈ others → Apart c o)) as ->.
  { unfold DEFAULT_OPEN_SPRINT_LIMIT. destruct (Z.ltb_spec 1 limit); [rewrite shared_resources_spec|]; split; naive_solver lia. }
  split; [intros (? & ? & ?); by split|by intros []].
Qed.

(** ** Every run keeps the open sprints apart *)

Implicit Types rows : list (Z * SprintAdmission).

(** The writes that change which sprints are open, as far as admission goes: the
    other checks of the same operations only refuse more.  The limit is read
    live, within its bounds. *)
Inductive admission_step rows : list (Z * SprintAdmission) → Prop :=
| step_create n c limit :
    sa_state c = Some SS_OPEN →
    (∀ r, r ∈ rows → sa_ref r.2 ≠ sa_ref c) →
    limit ≤ MAX_OPEN_SPRINT_LIMIT →
    check_conflicts show_path rows limit c "" None = Ok tt →
    admission_step rows (rows ++ [(n, c)])
| step_reopen pre post n s limit :
    rows = pre ++ (n, s) :: post → is_open s = false →
    limit ≤ MAX_OPEN_SPRINT_LIMIT →
    check_conflicts show_path rows limit s (sa_ref s) None = Ok tt →
    admission_step rows (pre ++ (n, s <| sa_state := Some SS_OPEN |>) :: post)
| step_leave pre post n s st :
    rows = pre ++ (n, s) :: post → st ≠ Some SS_OPEN →
    admission_step rows (pre ++ (n, s <| sa_state := st |>) :: post).

Definition opened rows : list SprintAdmission := snd <$> List.filter (λ r, is_open r.2) rows.

Definition Safe (l : list SprintAdmission) : Prop :=
  ForallOrdPairs (λ a b, Apart a b ∧ no_shared_project a b) l ∧ (length l ≤ 2)%nat.

Lemma opened_app rows rows' : opened (rows ++ rows') = opened rows ++ opened rows'.
Proof. unfold opened. by rewrite List.filter_app, fmap_app. Qed.

Lemma opened_cons n s rows : opened ((n, s) :: rows) = if is_open s then s :: opened rows else opened rows.
Proof. unfold opened. cbn. by destruct (is_open s). Qed.

Lemma opened_elem rows s : s ∈ opened rows ↔ ∃ n, (n, s) ∈ rows ∧ is_open s = true.
Proof.
  unfold opened. rewrite list_elem_of_fmap. setoid_rewrite list_elem_of_In. setoid_rewrite filter_In. split.
  - intros ([n s'] & -> & Hin). eauto.
  - intros (n & Hin). by exists (n, s).
Qed.

Lemma ordpairs_perm {A} (R : A → A → Prop) l k :
  (∀ a b, R a b → R b a) → l ≡ₚ k → ForallOrdPairs R l → ForallOrdPairs R k.
Proof.
  intros Hsym. induction 1 as [|x l k Hp IH|x y l|l k m Hp1 IH1 Hp2 IH2]; [done| | |by auto].
  - inversion 1; subst. constructor; [by rewrite <-Hp|auto].
  - inversion 1 as [|? ? Hy Hl]; subst. inversion Hl as [|? ? Hx Hl']; subst. inversion Hy; subst.
    by repeat constructor; auto.
Qed.

Lemma pair_sym a b : Apart a b ∧ no_shared_project a b → Apart b a ∧ no_shared_project b a.
Proof. intros []. split; [by apply Apart_sym|by apply no_shared_project_sym]. Qed.

Lemma Safe_perm l k : l ≡ₚ k → Safe l → Safe k.
Proof. intros Hp [Hf Hn]. split; [by eapply (ordpairs_perm _ _ _ pair_sym)|by rewrite <-Hp]. Qed.

(** A sprint admitted beside the open ones. *)
Lemma Safe_admit c others limit : limit ≤ 2 → Admissible c others limit → Safe others → Safe (c :: others).
Proof.
  intros Hlim [Hroom Hproj Hap] [Hf _]. split; [|cbn; lia]. constructor; [|done].
  apply Forall_forall. intros o Ho. split; [|by apply Hproj].
  apply Hap; [|done]. destruct others as [|? ?]; [by apply not_elem_of_nil in Ho|]. cbn [length] in Hroom. lia.
Qed.

Lemma Safe_app_cons l s k : Safe (l ++ s :: k) → Safe (l ++ k).
Proof.
  intros Hs. apply (Safe_perm _ (s :: l ++ k)) in Hs; [|by rewrite Permutation_middle].
  destruct Hs as [Hf Hn]. inversion Hf; subst. split; [done|]. cbn in Hn. lia.
Qed.

(** The scan of the board takes the open rows, less the sprint itself. *)
Lemma scan_all rows limit c :
  check_conflicts show_path rows limit c "" None = Ok tt ↔ Admissible c (opened rows) limit.
Proof.
  unfold check_conflicts, opened. rewrite <-refuse_open_sprint_spec.
  erewrite List.filter_ext; [done|]. intros [n s]. cbn. by rewrite andb_true_r.
Qed.

Lemma scan_closed pre post n s limit : is_open s = false →
  NoDup ((sa_ref ∘ snd) <$> (pre ++ (n, s) :: post)) →
  check_conflicts show_path (pre ++ (n, s) :: post) limit s (sa_ref s) None = Ok tt ↔
  Admissible s (opened pre ++ opened post) limit.
Proof.
  intros Hs Hnd. rewrite <-refuse_open_sprint_spec. unfold check_conflicts.
  rewrite <-opened_app. unfold opened. rewrite !List.filter_app. cbn [List.filter snd fst].
  rewrite Hs. cbn [andb].
  assert (∀ l, (∀ r, r ∈ l → sa_ref r.2 ≠ sa_ref s) →
    List.filter (λ r : Z * SprintAdmission, is_open r.2 && negb (nonempty (sa_ref s) && String.eqb (sa_ref r.2) (sa_ref s) || false)) l
    = List.filter (λ r, is_open r.2) l) as Hf.
  { induction l as [|r l IH]; intros Hl; [done|]. cbn [List.filter]. rewrite IH by (intros; apply Hl; by right).
    rewrite (proj2 (String.eqb_neq _ _)) by (apply Hl; left). by rewrite andb_false_r, andb_true_r. }
  rewrite fmap_app, fmap_cons in Hnd. apply NoDup_app in Hnd as (_ & Hpre & Hpost). apply NoDup_cons in Hpost as [Hpost _].
  cbn [from_option]. rewrite !Hf; [done|..].
  - intros r Hr E. apply Hpost. unfold compose. cbn. rewrite <-E. by apply (list_elem_of_fmap_2 (sa_ref ∘ snd)).
  - intros r Hr E. apply (Hpre (sa_ref r.2)); [by apply (list_elem_of_fmap_2 (sa_ref ∘ snd))|].
    rewrite E. left.
Qed.

Definition Admitted_rows rows : Prop := NoDup ((sa_ref ∘ snd) <$> rows) ∧ Safe (opened rows).

Lemma step_safe rows rows' : admission_step rows rows' → Admitted_rows rows → Admitted_rows rows'.
Proof.
  intros Hstep [Hnd Hsafe]. destruct Hstep as [n c limit Ho Hfresh Hlim Hc|pre post n s limit -> Hs Hlim Hc|pre post n s st -> Hst].
  - split.
    + rewrite fmap_app. apply NoDup_app. split_and!; [done| |apply NoDup_singleton].
      intros x (r & -> & Hr)%list_elem_of_fmap Hx%list_elem_of_singleton. by apply (Hfresh r Hr).
    + rewrite opened_app, opened_cons. unfold is_open at 1. rewrite Ho, bool_decide_eq_true_2 by done.
      apply (Safe_perm (c :: opened rows)); [by rewrite Permutation_cons_append|].
      apply (Safe_admit _ _ limit); [done|by apply scan_all|done].
  - split; [by rewrite fmap_app, fmap_cons in Hnd |- *|].
    rewrite scan_closed in Hc by done. rewrite opened_app, opened_cons, Hs in Hsafe.
    rewrite opened_app, opened_cons. 
    assert (is_open (s <| sa_state := Some SS_OPEN |>) = true) as -> by (by apply bool_decide_eq_true).
    eapply Safe_perm; [apply Permutation_middle|]. apply (Safe_admit _ _ limit); [done| |done].
    destruct Hc as [Hroom Hproj Hap]. split; [done..|]. intros H1. destruct (Hap H1) as [Hsc Hall].
    split; [done|]. intros o Ho. by destruct (Hall o Ho).
  - split; [by rewrite fmap_app, fmap_cons in Hnd |- *|].
    rewrite opened_app, opened_cons in Hsafe |- *.
    assert (is_open (s <| sa_state := st |>) = false) as -> by (by apply bool_decide_eq_false).
    destruct (is_open s); [by eapply Safe_app_cons|done].
Qed.

(** C8. Open sprints share nothing. Whatever sprints are created, reopened and
    closed, in any order and with the limit read anew each time, at most two are
    open at once, and two that are have different products, no reserved project
    in common, and repository roots the host can name whose trees have no path in
    common. *)
Theorem open_sprints_are_disjoint rows :
  rtc admission_step [] rows →
  (length (opened rows) ≤ 2)%nat
  ∧ ∀ n m a b, (n, a) ∈ rows → (m, b) ∈ rows → sa_ref a ≠ sa_ref b → is_open a = true → is_open b = true →
    Apart a b ∧ no_shared_project a b.
Proof.
  intros Hrun. assert (Admitted_rows rows) as [Hnd [Hf Hlen]].
  { assert (Admitted_rows []) as H0 by (split; [constructor|split; [constructor|cbn; lia]]).
    induction Hrun as [|x y z Hxy Hyz IH]; [done|]. apply IH. by eapply step_safe. }
  split; [done|]. intros n m a b Ha Hb Hne Hoa Hob.
  assert (a ∈ opened rows) as Hina by (apply opened_elem; eauto).
  assert (b ∈ opened rows) as Hinb by (apply opened_elem; eauto).
  rewrite list_elem_of_In in Hina, Hinb.
  destruct (ForallOrdPairs_In Hf a b Hina Hinb) as [->|[?|?]]; [done|done|by apply pair_sym].
Qed.

(** ** A set of open sprints *)

(** What could have been created, without an order: room, and every two of them
    apart as their limit demands. *)
Record Importable (rows : list SprintAdmission) (limit : Z) : Prop := {
  im_room : rows = [] ∨ Z.of_nat (length rows) ≤ limit;
  im_projects : ForallOrdPairs no_shared_project rows;
  im_apart : 1 < limit → Forall (λ r, scannable (sa_repositories r)) rows ∧ ForallOrdPairs Apart rows;
}.

Lemma admit_rows_spec limit (rows admitted : list SprintAdmission) :
  admit_rows show_path limit admitted rows = None ↔
  (rows = [] ∨ Z.of_nat (length admitted + length rows) ≤ limit)
  ∧ (∀ a r, a ∈ admitted → r ∈ rows → no_shared_project r a) ∧ ForallOrdPairs no_shared_project rows
  ∧ (1 < limit → Forall (λ r, scannable (sa_repositories r)) rows
       ∧ (∀ a r, a ∈ admitted → r ∈ rows → Apart r a) ∧ ForallOrdPairs Apart rows).
Proof.
  revert admitted. induction rows as [|row rows IH]; intros admitted; cbn [admit_rows].
  { split; [|done]. intros _. split_and!; [by left|set_solver|constructor|]. intros _. split_and!; [done|set_solver|constructor]. }
  pose proof (refuse_open_sprint_spec row admitted limit) as Hone.
  assert (∀ R : SprintAdmission → SprintAdmission → Prop,
    ForallOrdPairs R (row :: rows) ↔ Forall (R row) rows ∧ ForallOrdPairs R rows) as Hord.
  { intros R. split; [by inversion 1|]. intros []. by constructor. }
  rewrite !Hord, !Forall_cons, !Forall_forall. setoid_rewrite elem_of_cons. cbn [length].
  destruct (refuse_open_sprint show_path row admitted limit) as [[]|[cls message]].
  - destruct (proj1 Hone eq_refl) as [Hroom Hproj Hap]. rewrite IH, length_app, !Forall_forall. cbn [length].
    setoid_rewrite elem_of_app. setoid_rewrite list_elem_of_singleton. split.
    + intros (Hn & Hp & Hf & Ha). split_and!.
      * right. destruct Hn as [->|Hn]; cbn in *; lia.
      * intros a r Hin [->|Hr]; [by apply Hproj|by apply Hp; [left|]].
      * intros r Hr. by apply no_shared_project_sym, Hp; [right|].
      * done.
      * intros H1. destruct (Hap H1) as [Hsc Hall], (Ha H1) as (Hscs & Hpa & Hfa). split_and!; [done..| | |done].
        -- intros a r Hin [->|Hr]; [by apply Hall|by apply Hpa; [left|]].
        -- intros r Hr. by apply Apart_sym, Hpa; [right|].
    + intros (Hn & Hp & [Hrow Hf] & Ha). split_and!.
      * right. destruct Hn as [?|Hn]; [done|]. lia.
      * intros a r [Hin| ->] Hr; [by apply Hp; [|right]|by apply no_shared_project_sym, Hrow].
      * done.
      * intros H1. destruct (Ha H1) as ([_ Hscs] & Hpa & Hra & Hfa). split_and!; [done| |done].
        intros a r [Hin| ->] Hr; [by apply Hpa; [|right]|by apply Apart_sym, Hra].
  - split; [done|]. intros ([?|Hn] & Hp & _ & Ha); [done|]. exfalso.
    enough (Raise (Exn cls message) = Ok tt) by done. apply Hone. split; [lia| |].
    + intros o Ho. apply Hp; [done|by left].
    + intros H1. destruct (Ha H1) as ([Hsc _] & Hpa & _). split; [done|]. intros o Ho. by apply Hpa; [|left].
Qed.

(** C25. An import admits what creating could have reached. The judgement of a
    whole set of open sprints, made one row at a time in reference order, says
    nothing exactly when the set fits the limit and every two of them share no
    project and, where the limit is above one, are apart in product and trees
    with every root known to the host: in whatever order the rows come. *)
Theorem import_admits_what_create_would `{PyRepr} (docs : list Fields) (limit : Z) :
  open_sprint_admission_error show_path docs limit = None ↔
  Importable (admission_from_document <$> docs) limit.
Proof.
  unfold open_sprint_admission_error. rewrite admit_rows_spec. set (rows := admission_from_document <$> docs).
  pose proof (sorted_by_ref_perm rows) as Hp.
  assert (sorted_by_ref rows = [] ↔ rows = []) as Hnil.
  { split; intros E; [|by rewrite E]. rewrite E in Hp. by apply Permutation_nil_l in Hp. }
  assert (∀ R : SprintAdmission → SprintAdmission → Prop, (∀ a b, R a b → R b a) →
    ForallOrdPairs R (sorted_by_ref rows) ↔ ForallOrdPairs R rows) as Hord.
  { intros R Hsym. split; by apply ordpairs_perm. }
  rewrite (Hord _ no_shared_project_sym), (Hord _ Apart_sym), Hnil, Hp.
  setoid_rewrite elem_of_nil. cbn [length Nat.add]. split.
  - intros (? & _ & ? & Ha). split; [done..|]. intros Hl. by destruct (Ha Hl) as (? & _ & ?).
  - intros [? ? Ha]. split_and!; [done..|]. intros Hl. by destruct (Ha Hl).
Qed.
End rules_facts.
