(* ===== verification/AdmissionWitnesses.v ===== *)
(** * Admission at concrete inputs

    Two sprints on one host: a board the guard answers for, a run that opens
    both, and the index left behind by an unreadable file. *)

From stdpp Require Import relations.
From S2P Require Import Prelude PyText JsonText Json JsonStandIn PyStrings Board TerminalTaxonomy WaitCard E2eBudget.
From S2P Require Import Admission AdmissionFacts AdmissionRules.

Definition sprint_doc (ref status product : string) (reservations roots : list string) : Fields :=
  [("ref", VStr ref); ("status", VStr status); ("product", VStr product);
   ("reservations", VList (VStr <$> reservations)); ("repositories", VList (VStr <$> roots))].

Definition alpha : Fields := sprint_doc "sprint:1" "open" "Alpha" ["alpha"; "shared"] ["/srv/alpha"].
Definition beta : Fields := sprint_doc "sprint:2" "open" "Beta" ["beta"] ["/srv/beta"].
Definition gamma : Fields := sprint_doc "sprint:3" "closed" "Beta" ["beta"] ["/srv/beta/sub"].

Definition two_open : SprintBoard := {|
  sb_list_open := Ok [beta; alpha];
  sb_show := λ ref, match dict_get [("sprint:1", alpha); ("sprint:2", beta); ("sprint:3", gamma)] ref with
                    | Some d => Ok d
                    | None => Raise (TaskError "not_found" ref)
                    end;
|}.

Definition docs_of_board : list Fields := [alpha; beta; gamma].

Lemma two_open_on_board : OnBoard two_open docs_of_board.
Proof.
  split.
  - intros d Hd. unfold docs_of_board in Hd. rewrite !elem_of_cons, elem_of_nil in Hd.
    destruct Hd as [->|[->|[->|[]]]]; do 3 eexists;
      (split; [reflexivity|discriminate|reflexivity|reflexivity|]; repeat constructor; discriminate).
  - exists [beta; alpha]. split; [done|]. intros d. unfold docs_of_board. rewrite !elem_of_cons, elem_of_nil. split.
    + intros [->|[->|[]]]; (split; [tauto|reflexivity]).
    + intros [[->|[->|[->|[]]]] E]; [tauto..|discriminate E].
  - intros d ref Hd. unfold docs_of_board in Hd. rewrite !elem_of_cons, elem_of_nil in Hd.
    destruct Hd as [->|[->|[->|[]]]]; intros E; injection E as <-; reflexivity.
Qed.

Example guard_answers :
  (open_sprints_reserving two_open Absent "beta" (Some alpha)).2 = Ok ["sprint:2"]
  ∧ (open_sprints_reserving two_open (Text "{") "shared" (Some alpha)).2 = Ok ["sprint:1"]
  ∧ (open_sprints_reserving two_open Unreadable "delta" None).2 = Ok [].
Proof. vm_compute. repeat split. Qed.

Lemma guard_answer_exact_witness :
  ∃ file' held index, open_sprints_reserving two_open (Text "{") "shared" (Some alpha) = (file', Ok held)
    ∧ (∀ ref, ref ∈ held ↔ reserver docs_of_board "shared" ref)
    ∧ NoDup held ∧ StronglySorted String.le held
    ∧ read_guard_index file' = Some index
    ∧ (∀ p ref, reserver docs_of_board p ref → holds index p ref)
    ∧ (∀ p ref, holds index p ref → ∃ d, d ∈ docs_of_board ∧ get d "ref" = VStr ref).
Proof.
  apply (guard_answer_exact two_open docs_of_board (Text "{") "shared" (Some alpha)).
  - apply two_open_on_board.
  - vm_compute. exact I.
  - intros d E. injection E as <-. unfold docs_of_board. rewrite elem_of_cons. by left.
Defined.

(** ** Changes of the board *)

Definition changes : list SprintAdmission :=
  [admission_from_document alpha; admission_from_document beta;
   admission_from_document (sprint_doc "sprint:1" "closed" "Alpha" ["alpha"; "shared"] ["/srv/alpha"])].

Lemma index_follows_the_board_witness :
  foldl update_active_sprint_projects Absent changes
  = write_guard_index (from_sprints (rev (foldl board_put [] changes))).
Proof.
  apply (index_follows_the_board changes (rev (foldl board_put [] changes))).
  - discriminate.
  - intros s. by rewrite !list_elem_of_In, <-in_rev.
Defined.

(** ** Both sprints open *)

(** A host that knows every absolute path by its parts. *)
Definition by_parts : PathResolve := λ text,
  if is_absolute text then Some ("/" :: List.filter nonempty (str_split (Ascii.ascii_of_nat 47) text)) else None.

Lemma by_parts_rooted : ∀ text p, by_parts text = Some p → p ≠ [].
Proof. unfold by_parts. intros text p. destruct (is_absolute text); [|done]. by intros [= <-]. Qed.

Definition shown (p : path) : string := String.concat "/" p.

Definition a_open : SprintAdmission := admission_from_document alpha.
Definition b_open : SprintAdmission := admission_from_document beta.
Definition both_open : list (Z * SprintAdmission) := [(1, a_open); (2, b_open)].

Lemma both_open_run : rtc (@admission_step by_parts shown) [] both_open.
Proof.
  apply (rtc_l _ _ [(1, a_open)]).
  { apply (@step_create by_parts shown [] 1 a_open 1); [reflexivity|by intros r ?%not_elem_of_nil|by vm_compute|vm_compute; reflexivity]. }
  apply rtc_once. apply (@step_create by_parts shown [(1, a_open)] 2 b_open 2);
    [reflexivity| |by vm_compute|vm_compute; reflexivity].
  intros r Hr%list_elem_of_singleton. by subst r.
Qed.

Lemma open_sprints_are_disjoint_witness :
  (length (opened both_open) ≤ 2)%nat ∧ @Apart by_parts a_open b_open ∧ no_shared_project a_open b_open.
Proof.
  destruct (@open_sprints_are_disjoint by_parts shown by_parts_rooted both_open both_open_run) as [Hn Hall].
  split; [exact Hn|]. apply (Hall 1 2 a_open b_open).
  - apply list_elem_of_here.
  - apply list_elem_of_further, list_elem_of_here.
  - vm_compute. discriminate.
  - reflexivity.
  - reflexivity.
Defined.

(** The nested tree of a third sprint is refused. *)
Example nested_root_refused :
  is_ok (@refuse_open_sprint by_parts shown
    (admission_from_document (sprint_doc "sprint:4" "open" "Gamma" ["gamma"] ["/srv/beta/sub"])) [b_open] 2) = false.
Proof. vm_compute. reflexivity. Qed.

Lemma import_admits_what_create_would_witness :
  @open_sprint_admission_error by_parts shown _ [beta; alpha] 2 = None
  ↔ @Importable by_parts (admission_from_document <$> [beta; alpha]) 2.
Proof. apply (@import_admits_what_create_would by_parts shown by_parts_rooted). Defined.

Example both_importable : @open_sprint_admission_error by_parts shown _ [beta; alpha] 2 = None.
Proof. vm_compute. reflexivity. Qed.

(** ** The unreadable index *)

(** Sprint 2 is open and reserves [beta], and the guard lets it pass. *)
Lemma unreadable_index_hides_reservations_witness :
  reserver docs_of_board "beta" "sprint:2"
  ∧ (open_sprints_reserving two_open
       (update_active_sprint_projects (update_active_sprint_projects (Text "{") a_open) a_open) "beta" None).2 = Ok [].
Proof.
  split; [|apply (unreadable_index_hides_reservations two_open (Text "{") a_open "beta")].
  - exists beta. split; [by apply list_elem_of_further, list_elem_of_here|]. by repeat split.
  - vm_compute. reflexivity.
  - reflexivity.
  - intros Hin%list_elem_of_In. vm_compute in Hin. by destruct Hin as [E|[E|[]]].
Defined.
