(* ===== verification/BudgetCandidates.v ===== *)
(** * Which committed events spend a sprint's budget (board/budget_candidates.py, dispatch/production.py)

    The candidate predicate twice, in SQL over the stored record and in Python
    over the same record, the identity of an event, and the classifier that names
    what a candidate spends.  SQL has three truth values: [None] is NULL. *)

From S2P Require Import Prelude PyText JsonText PyStrings Board TerminalTaxonomy WaitCard GateBackend E2eBudget.

Definition VERDICT_KINDS : list string := ["verdict"; "card.verdict"].
Definition ACTIVE_SOURCES : list string := ["assessment"; "in_progress"; "validate"].
Definition CREATED_BUDGET_EVENTS : list string := ["hotfix"; "recreated_task"].
Definition CHARGE_PREFIX : string := "sprint-budget-".

(** ** SQL *)

(** What [->>] renders of a number with a fraction, an array or an object. *)
Class SqlRepr := sql_compound : pyval → string.

Definition and3 (a b : option bool) : option bool :=
  match a, b with
  | Some false, _ | _, Some false => Some false
  | Some true, Some true => Some true
  | _, _ => None
  end.

Definition or3 (a b : option bool) : option bool :=
  match a, b with
  | Some true, _ | _, Some true => Some true
  | Some false, Some false => Some false
  | _, _ => None
  end.

Definition not3 (a : option bool) : option bool := negb <$> a.

Definition eq3 (a b : option string) : option bool := x ← a; y ← b; Some (String.eqb x y).

(** [a IN (b, ...)]: the disjunction of the equalities. *)
Definition in3 (a : option string) (l : list (option string)) : option bool :=
  foldr (λ b acc, or3 (eq3 a b) acc) (Some false) l.

(** [a LIKE 'p%'] and [a LIKE '%p%'], [p] without a wildcard. *)
Definition like_prefix (a : option string) (p : string) : option bool := (λ s, String.prefix p s) <$> a.
Definition like_infix (a : option string) (p : string) : option bool := (λ s, str_contains p s) <$> a.

(** The row is selected. *)
Definition selected (a : option bool) : bool := match a with Some true => true | _ => false end.

Section sql.
Context `{SqlRepr}.

(** [document -> key]: NULL on anything but an object, and for an absent key. *)
Definition arrow (document : option pyval) (key : string) : option pyval :=
  d ← document; match d with VDict f => dict_get f key | _ => None end.

(** [document ->> key]. *)
Definition arrow_text (document : option pyval) (key : string) : option string :=
  v ← arrow document key;
  match v with
  | VNone => None
  | VStr s => Some s
  | VBool b => Some (if b then "true" else "false")
  | VInt z => Some (pretty z)
  | _ => Some (sql_compound v)
  end.

Definition CANDIDATE_PREDICATE (event : Fields) : option bool :=
  let intent := Some (VDict event) in
  let ref := arrow_text intent "ref" in
  let kind := arrow_text intent "kind" in
  let transition := arrow intent "transition" in
  let payload := arrow intent "payload" in
  let data := arrow intent "data" in
  let target := arrow_text transition "target" in
  let word s := Some s : option string in
  let moved_to s := and3 (eq3 kind (word "moved")) (eq3 (arrow_text payload "to") (word s)) in
  and3 (not3 (eq3 ref (word "")))
  (and3 (not3 (like_prefix ref "sprint:"))
  (or3 (and3 (in3 kind [word "verdict"; word "card.verdict"])
             (in3 (word "review:red") [arrow_text payload "marker"; arrow_text data "marker"]))
  (or3 (eq3 target (word "blocked"))
  (or3 (moved_to "blocked")
  (or3 (and3 (eq3 target (word "ready"))
             (in3 (arrow_text transition "source") [word "assessment"; word "in_progress"; word "validate"]))
  (or3 (and3 (moved_to "ready")
             (in3 (arrow_text payload "from") [word "assessment"; word "in_progress"; word "validate"]))
  (or3 (and3 (or3 (eq3 target (word "in_progress")) (moved_to "in_progress"))
             (like_infix (arrow_text intent "request_id") "gate-red"))
       (and3 (eq3 kind (word "created"))
             (or3 (in3 (arrow_text payload "budget_event") [word "hotfix"; word "recreated_task"])
                  (in3 (arrow_text data "budget_event") [word "hotfix"; word "recreated_task"])))))))))).

(** [COALESCE(NULLIF(event_id, ''), NULLIF(request_id, ''))]. *)
Definition nullif_empty (a : option string) : option string := x ← a; if nonempty x then Some x else None.

Definition IDENTITY (event : Fields) : option string :=
  match nullif_empty (arrow_text (Some (VDict event)) "event_id") with
  | Some s => Some s
  | None => nullif_empty (arrow_text (Some (VDict event)) "request_id")
  end.
End sql.

(** ** Python *)

Section python.
Context `{PyRepr}.

Definition text (value : pyval) : option string :=
  match value with
  | VNone => None
  | VStr s => Some s
  | VBool b => Some (if b then "true" else "false")
  | _ => Some (py_str value)
  end.

Definition member (document : pyval) (path : list string) : option string :=
  let step d key := match d with VDict f => get f key | _ => VNone end in
  match reverse path with
  | [] => None
  | last :: front => match foldl step document (reverse front) with VDict f => text (get f last) | _ => None end
  end.

(** [x == word] of a text or [None]. *)
Definition is_word (o : option string) (s : string) : bool := bool_decide (o = Some s).

(** [x in words]. *)
Definition among (o : option string) (l : list string) : bool :=
  match o with Some s => bool_decide (s ∈ l) | None => false end.

Definition is_candidate (event : Fields) : bool :=
  let m path := member (VDict event) path in
  let kind := m ["kind"] in
  let target := m ["transition"; "target"] in
  let moved_to := if is_word kind "moved" then m ["payload"; "to"] else None in
  match m ["ref"] with
  | None => false
  | Some reference =>
      if negb (nonempty reference) || String.prefix "sprint:" reference then false
      else if among kind VERDICT_KINDS
              && (is_word (m ["payload"; "marker"]) "review:red" || is_word (m ["data"; "marker"]) "review:red")
      then true
      else if is_word target "blocked" || is_word moved_to "blocked" then true
      else if is_word target "ready" && among (m ["transition"; "source"]) ACTIVE_SOURCES then true
      else if is_word moved_to "ready" && among (m ["payload"; "from"]) ACTIVE_SOURCES then true
      else if (is_word target "in_progress" || is_word moved_to "in_progress")
              && str_contains "gate-red" (default "" (m ["request_id"]))
      then true
      else is_word kind "created"
           && (among (m ["payload"; "budget_event"]) CREATED_BUDGET_EVENTS
               || among (m ["data"; "budget_event"]) CREATED_BUDGET_EVENTS)
  end.

(** [a or b or ""]. *)
Definition identity (event : Fields) : string :=
  let m key := default "" (member (VDict event) [key]) in
  first_text (m "event_id") (m "request_id").

(** ** The classifier (dispatch/production.py, launch.py, provider_failure.py) *)

Definition RECORD_TYPE : string := "board.protocol_event".
Definition WAIT_OUTCOME_KEY : string := "wait_outcome".
Definition ACTIVE_STATES : list string := ["assessment"; "in_progress"; "validate"].
Definition FAILURE_CLASS_INFRASTRUCTURE : string := "infrastructure".
Definition FAILURE_CLASS_TASK : string := "task".
Definition INFRASTRUCTURE_ACTION_TOKEN : string := "infrastructure".
Definition PROVIDER_UNAVAILABLE_READY_ACTION : string := "provider-unavailable-ready".

Definition bring_up_failure_class (request_id : string) : string :=
  if str_contains ("-" +:+ INFRASTRUCTURE_ACTION_TOKEN +:+ "-blocked") request_id
  then FAILURE_CLASS_INFRASTRUCTURE else FAILURE_CLASS_TASK.

Definition is_provider_unavailable_return (request_id : string) : bool :=
  str_contains ("-" +:+ PROVIDER_UNAVAILABLE_READY_ACTION +:+ "-") (request_id +:+ "-").

Definition is_typed (event : Fields) : bool := equals (get event "record_type") RECORD_TYPE.

Definition dict_or_empty (v : pyval) : Fields := match v with VDict d => d | _ => [] end.

Definition event_payload (event : Fields) : Fields :=
  dict_or_empty (get event (if is_typed event then "data" else "payload")).

(** The edge an event records, source and target; empty for no edge. *)
Definition event_edge (event : Fields) : string * string :=
  if is_typed event then
    let transition := dict_or_empty (get event "transition") in
    (py_str_or (get transition "source"), py_str_or (get transition "target"))
  else if equals (get event "kind") "moved" then
    (py_str_or (get (event_payload event) "from"), py_str_or (get (event_payload event) "to"))
  else ("", "").

(** The type of a move, when the target decides it: [None] for the fall through. *)
Definition move_event_type (payload : Fields) (request_id source target : string) : option (res (option string)) :=
  if String.eqb target "blocked" then
    Some (match get payload "terminal_taxonomy" with
          | VNone => Ok (Some (if String.eqb (bring_up_failure_class request_id) FAILURE_CLASS_INFRASTRUCTURE
                               then "infrastructure_blocked" else "blocked"))
          | _ => budget_event_type <$> read_terminal_taxonomy val_repr (VDict payload) None
          end)
  else if String.eqb target "ready" && bool_decide (source ∈ ACTIVE_STATES) then
    Some (Ok (if is_provider_unavailable_return request_id then None else Some "preempt"))
  else if String.eqb target "in_progress" && str_contains "gate-red" request_id then
    Some (Ok (Some "red_ci"))
  else None.

Definition created_event_type (event payload : Fields) : option string :=
  if equals (get event "kind") "created" then
    let budget_event := py_str_or (get payload "budget_event") in
    if bool_decide (budget_event ∈ ["recreated_task"; "hotfix"]) then Some budget_event else None
  else None.

Definition classify (event : Fields) : res (option string) :=
  let payload := event_payload event in
  let marker := py_str_or (get payload "marker") in
  _ ← require (negb (unhashable (get event "kind"))) (Exn "TypeError" "unhashable type");
  if (equals (get event "kind") "verdict" || equals (get event "kind") (enum_value CARD_VERDICTED))
     && String.eqb marker "review:red"
  then Ok (Some "red_review")
  else
    let '(source, target) := event_edge event in
    if nonempty target && py_truthy (get payload WAIT_OUTCOME_KEY) then Ok None
    else
      match (if nonempty target
             then move_event_type payload (py_str_or (get event "request_id")) source target else None) with
      | Some r => r
      | None => Ok (created_event_type event payload)
      end.
End python.
