(* ===== verification/BudgetCandidatesFacts.v ===== *)
(** * The candidate set misses nothing

    The SQL predicate and the Python predicate select the same records, and every
    event the classifier names, or cannot read, is one of them. *)

From S2P Require Import Prelude PyText JsonText PyStrings Board TerminalTaxonomy WaitCard GateBackend E2eBudget BudgetCandidates.

(** ** The two spellings of the predicate *)

(** [a] is true exactly when [b] is. *)
Definition agrees (a : option bool) (b : bool) : Prop := selected a = b.

Lemma agrees_and a b x y : agrees a x → agrees b y → agrees (and3 a b) (x && y).
Proof. unfold agrees. intros <- <-. by destruct a as [[]|], b as [[]|]. Qed.

Lemma agrees_or a b x y : agrees a x → agrees b y → agrees (or3 a b) (x || y).
Proof. unfold agrees. intros <- <-. by destruct a as [[]|], b as [[]|]. Qed.

Lemma agrees_eq o s : agrees (eq3 o (Some s)) (is_word o s).
Proof.
  unfold agrees, is_word. destruct o as [x|]; cbn; [|done].
  destruct (String.eqb_spec x s) as [->|Hn]; symmetry; [by apply bool_decide_eq_true|].
  apply bool_decide_eq_false. congruence.
Qed.

Lemma agrees_eq_flip o s : agrees (eq3 (Some s) o) (is_word o s).
Proof.
  unfold agrees, is_word. destruct o as [x|]; cbn; [|done].
  destruct (String.eqb_spec s x) as [->|Hn]; symmetry; [by apply bool_decide_eq_true|].
  apply bool_decide_eq_false. congruence.
Qed.

Lemma agrees_in o l : agrees (in3 o (Some <$> l)) (among o l).
Proof.
  induction l as [|s l IH]; [by unfold agrees; destruct o|].
  change (in3 o (Some <$> s :: l)) with (or3 (eq3 o (Some s)) (in3 o (Some <$> l))).
  pose proof (agrees_or _ _ _ _ (agrees_eq o s) IH) as Ha. unfold agrees in *. rewrite Ha. unfold is_word, among.
  destruct o as [x|]; [|done]. rewrite <-bool_decide_or. apply bool_decide_ext. rewrite elem_of_cons. naive_solver.
Qed.

Create HintDb sql.
#[export] Hint Resolve agrees_and agrees_or agrees_eq agrees_eq_flip : sql.

Section predicates.
Context `{PyRepr, SqlRepr}.

(** A member both languages render alike: not a fraction, an array or an object. *)
Definition plain (v : pyval) : bool := match v with VFloat _ | VList _ | VDict _ => false | _ => true end.

Definition plain_at (document : pyval) (key : string) : bool :=
  match document with VDict f => plain (get f key) | _ => true end.

(** The members the predicate reads are texts, numbers without a fraction, truth
    values or absent, in the record and in its [payload], [data] and
    [transition]. *)
Definition plain_event (event : Fields) : bool :=
  forallb (plain_at (VDict event)) ["ref"; "kind"; "request_id"; "event_id"]
  && forallb (plain_at (get event "payload")) ["marker"; "to"; "from"; "budget_event"]
  && forallb (plain_at (get event "data")) ["marker"; "budget_event"]
  && forallb (plain_at (get event "transition")) ["target"; "source"].

Lemma text_plain v : plain v = true →
  match v with
  | VNone => None
  | VStr s => Some s
  | VBool b => Some (if b then "true" else "false")
  | VInt z => Some (pretty z)
  | _ => Some (sql_compound v)
  end = text v.
Proof. by destruct v. Qed.

Lemma arrow_text_plain document key : plain_at document key = true →
  arrow_text (Some document) key = match document with VDict f => text (get f key) | _ => None end.
Proof.
  intros Hp. unfold arrow_text. cbn. destruct document as [| | | | | |f]; try done. cbn in Hp. unfold get in Hp |- *.
  destruct (dict_get f key) as [v|]; cbn in *; [|done]. by apply text_plain.
Qed.

Lemma member_1 event key : member (VDict event) [key] = text (get event key).
Proof. done. Qed.

Lemma member_2 event k1 k2 :
  member (VDict event) [k1; k2] = match get event k1 with VDict f => text (get f k2) | _ => None end.
Proof. done. Qed.

Lemma sql_member_1 event key : plain_at (VDict event) key = true →
  arrow_text (Some (VDict event)) key = member (VDict event) [key].
Proof. apply (arrow_text_plain (VDict event)). Qed.

Lemma sql_member_2 event k1 k2 : plain_at (get event k1) k2 = true →
  arrow_text (arrow (Some (VDict event)) k1) k2 = member (VDict event) [k1; k2].
Proof.
  intros Hp. rewrite member_2. cbn [arrow mbind option_bind]. unfold get in *.
  destruct (dict_get event k1) as [d|]; [by apply arrow_text_plain|done].
Qed.

Lemma agrees_moved kind to s :
  agrees (and3 (eq3 kind (Some "moved")) (eq3 to (Some s)))
         (is_word (if is_word kind "moved" then to else None) s).
Proof.
  assert (is_word (if is_word kind "moved" then to else None) s = is_word kind "moved" && is_word to s) as ->
    by (destruct (is_word kind "moved"); done).
  auto with sql.
Qed.

(** The reference of a card: there, not empty, not a sprint's. *)
Lemma agrees_ref ref :
  agrees (not3 (eq3 ref (Some ""))) (match ref with Some s => nonempty s | None => false end)
  ∧ agrees (not3 (like_prefix ref "sprint:")) (match ref with Some s => negb (String.prefix "sprint:" s) | None => false end).
Proof.
  unfold agrees, nonempty. destruct ref as [s|]; [|done]. cbn [eq3 mbind option_bind like_prefix fmap option_fmap option_map not3].
  split; [by destruct (String.eqb s "")|by destruct (String.prefix _ _)].
Qed.

(** C24. The two spellings of the candidate predicate select the same records. On
    every record whose members are what the journal writes there, the SQL
    predicate, with its NULLs, is true exactly when the Python one is, and the
    two spellings of the event's identity are the same. *)
Theorem candidate_predicates_agree (event : Fields) :
  plain_event event = true →
  selected (CANDIDATE_PREDICATE event) = is_candidate event
  ∧ default "" (IDENTITY event) = identity event.
Proof.
  unfold plain_event. rewrite !andb_true_iff. intros [[[Hp Hpay] Hdat] Htr]. rewrite forallb_forall in Hp, Hpay, Hdat, Htr.
  split.
  - unfold CANDIDATE_PREDICATE, is_candidate.
    rewrite !sql_member_1 by (apply Hp; cbn; tauto).
    rewrite !(sql_member_2 event "payload") by (apply Hpay; cbn; tauto).
    rewrite !(sql_member_2 event "data") by (apply Hdat; cbn; tauto).
    rewrite !(sql_member_2 event "transition") by (apply Htr; cbn; tauto).
    set (kind := member _ ["kind"]). set (target := member _ ["transition"; "target"]).
    set (ref := member _ ["ref"]). destruct (agrees_ref ref) as [Hr1 Hr2].
    eassert (agrees _ _) as Hmain; [|etransitivity; [exact Hmain|]].
    { apply agrees_and; [exact Hr1|]. apply agrees_and; [exact Hr2|].
      apply agrees_or; [apply agrees_and; [apply (agrees_in kind VERDICT_KINDS)|]|].
      { apply agrees_or; [apply agrees_eq_flip|]. apply agrees_or; [apply agrees_eq_flip|]. 
        instantiate (1 := false). done. }
      apply agrees_or; [apply agrees_eq|]. apply agrees_or; [apply agrees_moved|].
      apply agrees_or; [apply agrees_and; [apply agrees_eq|apply (agrees_in _ ACTIVE_SOURCES)]|].
      apply agrees_or; [apply agrees_and; [apply agrees_moved|apply (agrees_in _ ACTIVE_SOURCES)]|].
      apply agrees_or.
      { apply agrees_and; [apply agrees_or; [apply agrees_eq|apply agrees_moved]|].
        instantiate (1 := str_contains "gate-red" (default "" (member (VDict event) ["request_id"]))).
        unfold agrees. destruct (member (VDict event) ["request_id"]); cbn [like_infix fmap option_fmap option_map default]; [|done].
        by destruct (str_contains _ _). }
      apply agrees_and; [apply agrees_eq|]. apply agrees_or; apply (agrees_in _ CREATED_BUDGET_EVENTS). }
    destruct ref as [reference|]; [|done]. rewrite orb_false_r.
    destruct (nonempty reference); cbn [negb andb orb]; [|done]. destruct (String.prefix "sprint:" reference); cbn [negb andb]; [done|].
    rewrite <-!orb_lazy_alt, <-!orb_assoc. done.
  - unfold IDENTITY, identity. rewrite !sql_member_1 by (apply Hp; cbn; tauto).
    unfold nullif_empty, first_text. destruct (member _ ["event_id"]) as [e|]; cbn [mbind option_bind default id].
    + destruct (nonempty e); [done|]. destruct (member _ ["request_id"]) as [r|]; cbn; [|done].
      destruct (nonempty r) eqn:E; [done|]. by apply negb_false_iff, String.eqb_eq in E as ->.
    + destruct (member _ ["request_id"]) as [r|]; cbn; [|done].
      destruct (nonempty r) eqn:E; [done|]. by apply negb_false_iff, String.eqb_eq in E as ->.
Qed.
End predicates.

(** ** The classifier stays within the candidates *)

Section classifier.
Context `{PyRepr}.

(** A text that is read through [str(v or "")] is the text of the member. *)
Lemma str_or_text v w : py_str_or v = w → w ≠ "" → w ≠ "True" → text v = Some w.
Proof.
  unfold py_str_or. destruct (py_truthy v) eqn:E; [|by intros <-]. intros <- _ Hn.
  destruct v as [|[]| | | | |]; cbn in *; congruence.
Qed.

(** The reference the pass reads is one the predicate accepts. *)
Lemma ref_text v : py_str_or v ≠ "" → String.prefix "sprint:" (py_str_or v) = false →
  ∃ s, text v = Some s ∧ nonempty s = true ∧ String.prefix "sprint:" s = false.
Proof.
  intros Hne Hp. destruct (decide (py_str_or v = "True")) as [E|Hn].
  - destruct v as [|[]|z|f|s|l|d]; try (exists "true"; done);
      try (eexists; split; [apply (str_or_text (VBool false)); done|]); try done;
      (eexists; split; [reflexivity|]; unfold py_str_or in E; destruct (py_truthy _) in E; [|done];
       cbn in E; cbn [py_str]; rewrite E; done).
  - exists (py_str_or v). split_and!; [by apply str_or_text| |done]. by apply negb_true_iff, String.eqb_neq.
Qed.

Lemma infix_text v needle : needle ≠ "" → str_contains needle "True" = false →
  str_contains needle (py_str_or v) = true → str_contains needle (default "" (text v)) = true.
Proof.
  intros Hne Ht Hc. destruct (decide (py_str_or v = "")) as [E|He].
  { rewrite E in Hc. unfold str_contains in Hc. by destruct needle. }
  destruct (decide (py_str_or v = "True")) as [E|Hn]; [by rewrite E, Ht in Hc|].
  by rewrite (str_or_text v (py_str_or v)).
Qed.

Lemma is_word_true o s : o = Some s → is_word o s = true.
Proof. intros ->. by apply bool_decide_eq_true. Qed.

Lemma among_true o s l : o = Some s → s ∈ l → among o l = true.
Proof. intros -> Hs. by apply bool_decide_eq_true. Qed.

Lemma equals_get event k s : equals (get event k) s = true → get event k = VStr s.
Proof. destruct (get event k); cbn; try done. by intros ->%String.eqb_eq. Qed.

(** The arms of the predicate, once the reference is a card's. *)
Lemma is_candidate_arms event :
  py_str_or (get event "ref") ≠ "" → String.prefix "sprint:" (py_str_or (get event "ref")) = false →
  let m path := member (VDict event) path in
  let target := m ["transition"; "target"] in
  let moved_to := if is_word (m ["kind"]) "moved" then m ["payload"; "to"] else None in
  (among (m ["kind"]) VERDICT_KINDS
     && (is_word (m ["payload"; "marker"]) "review:red" || is_word (m ["data"; "marker"]) "review:red")
   || (is_word target "blocked" || is_word moved_to "blocked")
   || is_word target "ready" && among (m ["transition"; "source"]) ACTIVE_SOURCES
   || is_word moved_to "ready" && among (m ["payload"; "from"]) ACTIVE_SOURCES
   || (is_word target "in_progress" || is_word moved_to "in_progress")
      && str_contains "gate-red" (default "" (m ["request_id"]))
   || is_word (m ["kind"]) "created"
      && (among (m ["payload"; "budget_event"]) CREATED_BUDGET_EVENTS
          || among (m ["data"; "budget_event"]) CREATED_BUDGET_EVENTS)) = true →
  is_candidate event = true.
Proof.
  intros Hne Hp. cbn zeta. intros Hc. destruct (ref_text _ Hne Hp) as (s & Es & Hs & Hps).
  unfold is_candidate. rewrite (member_1 event "ref"), Es, Hs, Hps. cbn [negb orb].
  rewrite <-!orb_assoc in Hc. rewrite <-!orb_lazy_alt, <-!orb_assoc. exact Hc.
Qed.

(** A member of the payload the classifier reads, from whichever shape. *)
Lemma payload_text event k w : py_str_or (get (event_payload event) k) = w → w ≠ "" → w ≠ "True" →
  member (VDict event) [if is_typed event then "data" else "payload"; k] = Some w.
Proof.
  intros E Hw Ht. rewrite member_2. unfold event_payload in E. destruct (get event _) as [| | | | | |d] eqn:Ed;
    try (by cbn in E; congruence). by apply str_or_text.
Qed.

(** The edge the classifier reads, from whichever shape. *)
Lemma edge_text event source target : event_edge event = (source, target) → target ≠ "" → target ≠ "True" →
  (member (VDict event) ["transition"; "target"] = Some target
   ∧ (source ≠ "" → source ≠ "True" → member (VDict event) ["transition"; "source"] = Some source))
  ∨ (member (VDict event) ["kind"] = Some "moved" ∧ member (VDict event) ["payload"; "to"] = Some target
     ∧ (source ≠ "" → source ≠ "True" → member (VDict event) ["payload"; "from"] = Some source)).
Proof.
  unfold event_edge. destruct (is_typed event) eqn:Et.
  - intros [= Es Etg] Hne Ht. left. rewrite !member_2. destruct (get event "transition") as [| | | | | |d] eqn:Ed;
      try (by cbn in Etg; congruence). split; [by apply str_or_text|]. intros. by apply str_or_text.
  - destruct (equals (get event "kind") "moved") eqn:Ek; [|intros [= <- <-]; done].
    intros [= Es Etg] Hne Ht. right. pose proof (payload_text event "to" _ Etg Hne Ht) as Hto. rewrite Et in Hto.
    split_and!; [by rewrite member_1, (equals_get _ _ _ Ek)|done|]. intros Hs1 Hs2.
    pose proof (payload_text event "from" _ Es Hs1 Hs2) as Hfrom. by rewrite Et in Hfrom.
Qed.

(** A created event that spends satisfies the last arm. *)
Lemma created_is_candidate event : created_event_type event (event_payload event) ≠ None →
  is_word (member (VDict event) ["kind"]) "created"
  && (among (member (VDict event) ["payload"; "budget_event"]) CREATED_BUDGET_EVENTS
      || among (member (VDict event) ["data"; "budget_event"]) CREATED_BUDGET_EVENTS) = true.
Proof.
  unfold created_event_type. destruct (equals (get event "kind") "created") eqn:Ek; [|done].
  apply equals_get in Ek. rewrite (is_word_true _ "created") by (by rewrite member_1, Ek).
  destruct (bool_decide_reflect (py_str_or (get (event_payload event) "budget_event") ∈ ["recreated_task"; "hotfix"])) as [Hb|]; [|done].
  intros _. set (w := py_str_or _) in Hb. assert (w ∈ CREATED_BUDGET_EVENTS ∧ w ≠ "" ∧ w ≠ "True") as (Hin & Hw1 & Hw2).
  { rewrite !elem_of_cons, elem_of_nil in Hb. unfold CREATED_BUDGET_EVENTS.
    rewrite !elem_of_cons. destruct Hb as [->|[->|[]]]; (split; [tauto|done]). }
  pose proof (payload_text event "budget_event" w eq_refl Hw1 Hw2) as Hm.
  destruct (is_typed event); rewrite (among_true _ _ _ Hm Hin); by rewrite ?orb_true_r.
Qed.

(** C23. The candidate set misses nothing. Every event of a card that the
    classifier gives a budget type, and every one whose taxonomy it cannot read,
    satisfies the candidate predicate, in both shapes a record may have and
    whatever else the record holds: the pass that reads only candidates never
    passes over an event that spends. *)
Theorem candidates_miss_nothing (event : Fields) :
  py_str_or (get event "ref") ≠ "" → String.prefix "sprint:" (py_str_or (get event "ref")) = false →
  unhashable (get event "kind") = false →
  classify event ≠ Ok None → is_candidate event = true.
Proof.
  intros Hne Hp Hk Hc. apply is_candidate_arms; [done..|]. cbn zeta.
  unfold classify in Hc. rewrite Hk in Hc. cbn [negb require mbind res_bind] in Hc.
  destruct (_ && String.eqb (py_str_or (get (event_payload event) "marker")) "review:red") eqn:Ev.
  { apply andb_true_iff in Ev as [Ekind Em]. apply String.eqb_eq in Em.
    assert (among (member (VDict event) ["kind"]) VERDICT_KINDS = true) as ->.
    { apply orb_true_iff in Ekind as [E|E]; apply equals_get in E; rewrite member_1, E; by vm_compute. }
    pose proof (payload_text event "marker" _ Em ltac:(done) ltac:(done)) as Hm.
    destruct (is_typed event); rewrite (is_word_true _ _ Hm); by rewrite ?orb_true_r. }
  clear Ev. destruct (event_edge event) as [source target] eqn:Ee.
  pose proof (created_is_candidate event) as Hcreated.
  destruct (nonempty target && py_truthy _); [done|].
  destruct (nonempty target) eqn:Et.
  2:{ rewrite Hcreated; [by rewrite orb_true_r|]. intros E. by rewrite E in Hc. }
  unfold move_event_type in Hc. apply negb_true_iff, String.eqb_neq in Et.
  destruct (String.eqb_spec target "blocked") as [->|Hnb].
  { destruct (edge_text _ _ _ Ee) as [[Ht _]|(Hkm & Ht & _)]; [done..| |].
    - rewrite (is_word_true _ "blocked" Ht). by rewrite ?orb_true_r, ?orb_true_l.
    - rewrite (is_word_true _ "moved" Hkm), (is_word_true (member _ ["payload"; "to"]) "blocked" Ht).
      by rewrite ?orb_true_r, ?orb_true_l. }
  destruct (String.eqb target "ready" && _) eqn:Er.
  { apply andb_true_iff in Er as [->%String.eqb_eq Hs%bool_decide_eq_true].
    assert (source ∈ ACTIVE_SOURCES ∧ source ≠ "" ∧ source ≠ "True") as (Hin & Hs1 & Hs2).
    { unfold ACTIVE_STATES in Hs. rewrite !elem_of_cons, elem_of_nil in Hs.
      unfold ACTIVE_SOURCES. rewrite !elem_of_cons. destruct Hs as [->|[->|[->|[]]]]; (split; [tauto|done]). }
    destruct (edge_text _ _ _ Ee) as [[Ht Hsrc]|(Hkm & Ht & Hsrc)]; [done..| |].
    - rewrite (is_word_true _ "ready" Ht), (among_true _ _ _ (Hsrc Hs1 Hs2) Hin). by rewrite ?orb_true_r, ?orb_true_l.
    - rewrite (is_word_true _ "moved" Hkm), (is_word_true (member _ ["payload"; "to"]) "ready" Ht), (among_true _ _ _ (Hsrc Hs1 Hs2) Hin).
      by rewrite ?orb_true_r, ?orb_true_l. }
  destruct (String.eqb target "in_progress" && _) eqn:Eg.
  { apply andb_true_iff in Eg as [->%String.eqb_eq Hg].
    rewrite (member_1 event "request_id"), infix_text by done.
    destruct (edge_text _ _ _ Ee) as [[Ht _]|(Hkm & Ht & _)]; [done..| |].
    - rewrite (is_word_true _ "in_progress" Ht). by rewrite ?orb_true_r, ?orb_true_l.
    - rewrite (is_word_true _ "moved" Hkm), (is_word_true (member _ ["payload"; "to"]) "in_progress" Ht).
      by rewrite ?orb_true_r, ?orb_true_l. }
  rewrite Hcreated; [by rewrite orb_true_r|]. intros E. by rewrite E in Hc.
Qed.
End classifier.
