(* ===== verification/BudgetLedger.v ===== *)
(** * Charging a sprint's restart budget (board/sprint_read.py, sprints.py, dispatch/production.py)

    The rows a sprint's budget is counted from (board/sql_sprints.py), the
    normalized budget the reader shows of them, the charge as one transaction with
    the typed stop it may force, a sprint's restore, and the dispatcher's pass over
    the uncharged candidates.  The store is the one of the e2e ledger with the table
    [sprint_budget_events] beside it.  The values a write gives the store are held
    as the JSON values of their texts; the store counts rows and keeps none of
    those values, except in a restore.  A definition that raises leaves the store
    it was given, except the pass, whose transactions are its own.

    A staged record is one the transaction has claimed and not published; a record
    is published at the end of [requests], which is in settling order, with the
    revision its stamp gives it.

    Not modelled: the owner events a charge announces, the reserved-project index
    it follows (it is [Admission]'s), the time of a budget row, the other fields a
    restore rewrites, and the wording of the typed event's id. *)

From S2P Require Import Prelude PyText JsonText Sha256 PyStrings Board TerminalTaxonomy WaitCard GateBackend E2eBudget E2eLedger BudgetCandidates.

(** ** [==] of two JSON values *)

(** The numeric value of a number, in ticks. *)
Definition number_of (v : pyval) : option pyfloat :=
  match v with
  | VBool b => Some (FFin (seconds (if b then 1 else 0)))
  | VInt z => Some (FFin (seconds z))
  | VFloat f => Some f
  | _ => None
  end.

Definition float_eq (a b : pyfloat) : bool :=
  match a, b with
  | FFin s, FFin t => s =? t
  | FInf, FInf | FNegInf, FNegInf => true
  | _, _ => false
  end.

Fixpoint py_eq (v w : pyval) {struct v} : bool :=
  match v, w with
  | VNone, VNone => true
  | VStr s, VStr t => String.eqb s t
  | VList l, VList k =>
      (fix go l k := match l, k with
                     | [], [] => true
                     | x :: l', y :: k' => py_eq x y && go l' k'
                     | _, _ => false
                     end) l k
  | VDict d, VDict e =>
      (length d =? length e)%nat
      && forallb (λ p, match dict_get e p.1 with Some x => py_eq p.2 x | None => false end) d
  | _, _ => match number_of v, number_of w with Some a, Some b => float_eq a b | _, _ => false end
  end.

(** ** The normalized budget (board/sprint_read.py) *)

Definition BUDGET_EVENT_TYPES : list string :=
  ["red_review"; "blocked"; "red_ci"; "preempt"; "recreated_task"; "hotfix"].
Definition BUDGET_UNCHARGED_EVENT_TYPES : list string := ["infrastructure_blocked"].
Definition BUDGET_RECORDED_EVENT_TYPES : list string := BUDGET_EVENT_TYPES ++ BUDGET_UNCHARGED_EVENT_TYPES.
Definition DEFAULT_BUDGET_SIGNAL : Z := 3.
Definition DEFAULT_BUDGET_HARD : Z := 6.

Record Thresholds := { th_signal : Z; th_hard : Z }.

Record SprintBudget := {
  bg_total : Z;
  bg_by_type : list (string * Z);
  bg_uncharged : list (string * Z);
  bg_thresholds : Thresholds;
  bg_signal_reached : bool;
  bg_hard_reached : bool;
}.

(** [except (TypeError, ValueError)]. *)
Definition or_else {A} (r : res A) (a : A) : res A :=
  match r with
  | Raise (Exn cls _) => if bool_decide (cls ∈ ["TypeError"; "ValueError"]) then Ok a else r
  | Ok _ => r
  end.

Definition positive_int (v : pyval) : res (option Z) :=
  or_else (n ← py_int v; Ok (if 0 <? n then Some n else None)) None.

Definition budget_thresholds (config : option Fields) : res Thresholds :=
  let raw := match config with Some d => dict_or_empty (get d "sprint_budget") | None => [] end in
  signal ← positive_int (get raw "signal");
  hard ← positive_int (get raw "hard");
  let signal := default DEFAULT_BUDGET_SIGNAL signal in
  let hard := default DEFAULT_BUDGET_HARD hard in
  if hard <? signal then Raise (Exn "ValueError" "sprint budget hard threshold must not be below signal threshold")
  else Ok {| th_signal := signal; th_hard := hard |}.

Definition budget_count (counts : pyval) (event_type : string) : res Z :=
  match counts with
  | VDict d => or_else (n ← py_int (default (VInt 0) (dict_get d event_type)); Ok (Z.max 0 n)) 0
  | _ => Ok 0
  end.

(** [{name: count(name) for name in names}]. *)
Fixpoint counts_of (counts : pyval) (names : list string) : res (list (string * Z)) :=
  match names with
  | [] => Ok []
  | name :: names' => n ← budget_count counts name; rest ← counts_of counts names'; Ok ((name, n) :: rest)
  end.

Definition sum_counts (d : list (string * Z)) : Z := foldr Z.add 0 d.*2.

Section ledger.
Context `{PyRepr, SqlRepr, JsonText, !JsonStr}.
Variable th : Thresholds.

(** A value that may be a JSON text, as a mapping or nothing. *)
Definition decoded (v : pyval) : pyval :=
  match v with
  | VStr s => match loads_str s with Some (VDict d) => VDict d | _ => VDict [] end
  | _ => v
  end.

Definition from_legacy (value uncharged : pyval) : res SprintBudget :=
  let source := dict_or_empty (decoded value) in
  by_type ← counts_of (get source "by_type") BUDGET_EVENT_TYPES;
  let spare := match uncharged with VNone => get source "uncharged" | _ => uncharged end in
  uncharged ← counts_of (decoded spare) BUDGET_UNCHARGED_EVENT_TYPES;
  let total := sum_counts by_type in
  Ok {| bg_total := total; bg_by_type := by_type; bg_uncharged := uncharged; bg_thresholds := th;
        bg_signal_reached := th_signal th <=? total; bg_hard_reached := th_hard th <=? total |}.

Definition counts_document (d : list (string * Z)) : Fields := (λ p, (p.1, VInt p.2)) <$> d.

Definition budget_document (b : SprintBudget) : Fields := [
  ("total", VInt (bg_total b)); ("by_type", VDict (counts_document (bg_by_type b)));
  ("uncharged", VDict (counts_document (bg_uncharged b)));
  ("thresholds", VDict [("signal", VInt (th_signal (bg_thresholds b))); ("hard", VInt (th_hard (bg_thresholds b)))]);
  ("signal_reached", VBool (bg_signal_reached b)); ("hard_reached", VBool (bg_hard_reached b))].

(** [_budget_json], as the value it writes. *)
Definition budget_field (b : SprintBudget) : Fields := dict_del (budget_document b) "uncharged".

Definition bump (counts : list (string * Z)) (event_type : string) : list (string * Z) :=
  dict_set counts event_type (default 0 (dict_get counts event_type) + 1).

(** ** The rows (board/sql_sprints.py) *)

(** A row of [sprint_budget_events]. *)
Record BudgetEvent := {
  be_sprint : string; be_type : string; be_charged : bool; be_reason : string; be_request : string }.

Record BStore := { bs_db : Store; bs_events : list BudgetEvent }.

#[global] Instance BStore_eta : Settable BStore := λ s, Build_BStore (bs_db s) (bs_events s).

Definition events_of (db : BStore) (reference : string) : list BudgetEvent :=
  filter (λ e, be_sprint e = reference) (bs_events db).

(** [count] by type of a sprint's rows, charged or not, ordered by type. *)
Definition grouped (db : BStore) (reference : string) (charged : bool) : list (string * Z) :=
  sort_items (foldl bump [] (be_type <$> filter (λ e, be_charged e = charged) (events_of db reference))).

(** The two fields of the sprint that the reader answers; the second only where
    there is a row for it. *)
Record BudgetRow := { br_budget : pyval; br_uncharged : pyval }.

Definition budget_row (db : BStore) (reference : string) : BudgetRow := {|
  br_budget := VDict [("by_type", VDict (counts_document (grouped db reference true)))];
  br_uncharged := match grouped db reference false with [] => VNone | u => VDict (counts_document u) end |}.

(** [_request]: the newest record of the sprint that is still staged. *)
Definition staged_request (db : Store) (reference operation : string) : option (string * Fields) :=
  (λ r, (rq_id r, rq_intent r)) <$>
    last (filter (λ r, rq_status r = Staged ∧ equals (get (rq_intent r) "ref") reference = true
                       ∧ equals (get (rq_intent r) "kind") operation = true) (st_requests db)).

(** The row a charge is counted by. *)
Definition budget_event (reference request_id : string) (intent : Fields) : BudgetEvent :=
  let payload := dict_or_empty (get intent "payload") in
  let event_type := py_str_or (get payload "event_type") in
  {| be_sprint := reference; be_type := event_type; be_charged := negb (String.eqb event_type "infrastructure_blocked");
     be_reason := py_str_or (get payload "source_event_id"); be_request := request_id |}.

Definition insert_charged (db : BStore) (reference : string) : BStore :=
  match staged_request (bs_db db) reference "budget_recorded" with
  | Some (request_id, intent) =>
      if existsb (λ e, String.eqb (be_request e) request_id) (bs_events db) then db
      else
        let event := budget_event reference request_id intent in
        if nonempty (be_type event) then db <| bs_events := bs_events db ++ [event] |> else db
  | None => db
  end.

Definition items (v : pyval) : res Fields :=
  match v with VDict d => Ok d | _ => Raise (Exn "AttributeError" "object has no attribute 'items'") end.

(** The rows a restore writes for the counts of an export. *)
Fixpoint occurrences (reference request_id : string) (charged : bool) (counts : Fields) : res (list BudgetEvent) :=
  match counts with
  | [] => Ok []
  | (event_type, count) :: counts' =>
      n ← py_int count;
      rest ← occurrences reference request_id charged counts';
      Ok (((λ k : nat, {| be_sprint := reference; be_type := event_type; be_charged := charged;
                    be_reason := "restored occurrence " +:+ pretty (Z.of_nat k + 1); be_request := request_id |})
           <$> seq 0 (Z.to_nat n)) ++ rest)
  end.

(** The part of [_apply] that writes a budget. *)
Definition apply_budget (db : BStore) (reference : string) (values : Fields) : res BStore :=
  if dict_has values "sprint_budget" || dict_has values "sprint_budget_uncharged" then
    let db := insert_charged db reference in
    match staged_request (bs_db db) reference "restored" with
    | None => Ok db
    | Some (request_id, _) =>
        budget ← items (default (VDict []) (dict_get values "sprint_budget"));
        by_type ← items (default (VDict []) (dict_get budget "by_type"));
        charged ← occurrences reference request_id true by_type;
        uncharged ← items (default (VDict []) (dict_get values "sprint_budget_uncharged"));
        spare ← occurrences reference request_id false uncharged;
        Ok (db <| bs_events := filter (λ e, be_sprint e ≠ reference) (bs_events db) ++ charged ++ spare |>)
    end
  else Ok db.

Definition set_state (db : BStore) (reference : string) (row : SprintRow) (st : SprintState) : BStore :=
  db <| bs_db := bs_db db <| st_sprints := dict_set (st_sprints (bs_db db)) reference
          {| sr_state := st; sr_budget := sr_budget row; sr_used := sr_used row |} |> |>.

(** What the reader shows, and the snapshot a write takes of it. *)
Definition shown_budget (db : BStore) (reference : string) : res SprintBudget :=
  let row := budget_row db reference in from_legacy (br_budget row) (br_uncharged row).

Definition snapshot (db : BStore) (reference : string) : res (SprintState * SprintBudget) :=
  row ← show_sprint (bs_db db) reference;
  shown ← shown_budget db reference;
  budget ← from_legacy (VDict (budget_document shown)) VNone;
  Ok (sr_state row, budget).

(** ** The charge (sprints.py) *)

Record Stamps := { ss_charge : Stamp; ss_stop : Stamp; ss_typed : Stamp; ss_related : list string }.

Definition commit_in (db : BStore) (request_id : string) (event : Fields) : res BStore :=
  d ← commit_event (bs_db db) request_id event; Ok (db <| bs_db := d |>).

(** [audit.stage] of an id no record has, and the publication of what was staged. *)
Definition stage_in (db : BStore) (request_id : string) (event : Fields) : res BStore :=
  _ ← commit_event (bs_db db) request_id event;
  Ok (db <| bs_db := bs_db db <| st_requests := st_requests (bs_db db)
        ++ [{| rq_id := request_id; rq_status := Staged; rq_intent := event |}] |> |>).

Definition settle_in (db : BStore) (request_id : string) (event : Fields) : BStore :=
  db <| bs_db := bs_db db <| st_requests :=
          filter (λ r, ¬ (rq_id r = request_id ∧ rq_status r = Staged)) (st_requests (bs_db db))
          ++ [{| rq_id := request_id; rq_status := Committed; rq_intent := event |}] |> |>.

Definition STOP_REASON : string := "budget hard limit reached".

(** The typed occurrence of the stop, as its record. *)
Definition typed_stop (role actor reference request_id : string) (source : SprintState) (counts : Fields) (m : Stamps) : Fields := [
  ("schema_version", VInt 2); ("record_type", VStr RECORD_TYPE); ("request_id", VStr request_id);
  ("event_id", VStr (sm_event_id (ss_typed m))); ("kind", VStr (enum_value SPRINT_STOPPED));
  ("subject", VDict [("kind", VStr (enum_value K_SPRINT)); ("ref", VStr reference)]); ("ref", VStr reference);
  ("occurred_at", VStr (sm_at (ss_typed m))); ("actor", VDict [("role", VStr role); ("id", VStr actor)]);
  ("reason", VStr STOP_REASON); ("related_refs", VList (VStr <$> ss_related m));
  ("data", VDict [("budget_by_type", VDict counts); ("request_related_refs", VList [])]);
  ("transition", VDict [("source", VStr (enum_value source)); ("target", VStr (enum_value SS_STOPPED))])].

(** An occurrence already under the id is this one. *)
Definition same_stop (existing : Fields) (role actor reference : string) (counts : Fields) : bool :=
  let subject := dict_or_empty (get existing "subject") in
  let edge := dict_or_empty (get existing "transition") in
  equals (get subject "kind") (enum_value K_SPRINT) && equals (get subject "ref") reference
  && py_eq (get existing "actor") (VDict [("role", VStr role); ("id", VStr actor)])
  && equals (get existing "reason") STOP_REASON && equals (get edge "target") (enum_value SS_STOPPED)
  && py_eq (get existing "data") (VDict [("budget_by_type", VDict counts); ("request_related_refs", VList [])])
  && match enum_of_value (py_str (get edge "source")) with
     | Some source => is_ok (transition_for K_SPRINT (L_SPRINT source) (L_SPRINT SS_STOPPED))
                      && equals (get existing "kind") (enum_value SPRINT_STOPPED)
     | None => false
     end.

(** [_transition_host] to stopped with the computed budget. *)
Definition stop_sprint (db : BStore) (role actor reference request_id : string) (counts : Fields) (m : Stamps) : res BStore :=
  row ← show_sprint (bs_db db) reference;
  match record_of (bs_db db) request_id Committed, record_of (bs_db db) request_id Staged with
  | Some existing, _ =>
      _ ← require (same_stop existing role actor reference counts) foreign_claim; Ok db
  | None, Some existing =>
      _ ← require (same_stop existing role actor reference counts) foreign_claim;
      _ ← require (bool_decide (sr_state row = SS_STOPPED)) (TaskError "audit_pending"
            "Sprint lifecycle write is pending repair; retry with the same request id");
      Ok (settle_in db request_id existing)
  | None, None =>
      _ ← transition_for K_SPRINT (L_SPRINT (sr_state row)) (L_SPRINT SS_STOPPED);
      db ← apply_budget db reference match counts with [] => [] | _ => [("sprint_budget", VDict [("by_type", VDict counts)])] end;
      commit_in (set_state db reference row SS_STOPPED) request_id (typed_stop role actor reference request_id (sr_state row) counts m)
  end.

(** The counts a stored charge carries: exactly the types, none negative. *)
Definition stored_counts (payload : Fields) : res Fields :=
  match get (dict_or_empty (get payload "budget")) "by_type" with
  | VDict by_type =>
      _ ← require (forallb (λ t, dict_has by_type t) BUDGET_EVENT_TYPES
                   && forallb (λ p, bool_decide (p.1 ∈ BUDGET_EVENT_TYPES)) by_type)
            (TaskError "audit_pending" "hard-budget record lacks its normalized budget");
      _ ← require (forallb (λ p, match p.2 with VInt n => 0 <=? n | _ => false end) by_type)
            (TaskError "audit_pending" "hard-budget record has an invalid normalized budget");
      Ok (sort_items by_type)
  | _ => Raise (TaskError "audit_pending" "hard-budget record lacks its normalized budget")
  end.

Definition opt_text (s : string) : pyval := if nonempty s then VStr s else VNone.

(** [_record_hard_stop]. *)
Definition record_hard_stop (db : BStore) (role actor reference request_id budget_event_id event_type source_event_id : string)
    (m : Stamps) : res BStore :=
  let stop_request_id := request_id +:+ ":budget-hard-stop" in
  match record_of (bs_db db) stop_request_id Committed with
  | Some _ => Ok db
  | None =>
      _ ← show_sprint (bs_db db) reference;
      commit_in db stop_request_id (new_event "budget_hard_stopped" role actor reference stop_request_id (ss_stop m)
        [("reason", VStr "budget_hard_limit"); ("budget_event_id", opt_text budget_event_id);
         ("event_type", VStr event_type); ("source_event_id", opt_text source_event_id)])
  end.

(** [_finish_hard_budget]; [event] is staged or published. *)
Definition finish_hard_budget (db : BStore) (role actor reference event_type request_id source_event_id : string)
    (event : Fields) (m : Stamps) : res BStore :=
  let payload := dict_or_empty (get event "payload") in
  _ ← require (equals (get event "kind") "budget_recorded" && equals (get event "ref") reference
               && py_eq (get event "actor") (VDict [("role", VStr role); ("id", VStr actor)])
               && equals (get payload "event_type") event_type
               && py_eq (get payload "source_event_id") (opt_text source_event_id)
               && match get payload "hard_limit_stop" with VBool b => b | _ => false end) foreign_claim;
  counts ← stored_counts payload;
  db ← stop_sprint db role actor reference (request_id +:+ ":typed-hard-stop") counts m;
  _ ← show_sprint (bs_db db) reference;
  db ← match record_of (bs_db db) request_id Committed, record_of (bs_db db) request_id Staged with
       | Some _, _ => Ok db
       | None, Some _ => Ok (settle_in db request_id event)
       | None, None => commit_in db request_id event
       end;
  record_hard_stop db role actor reference request_id (py_str_or (get event "event_id")) event_type source_event_id m.

(** [_write] of a charge that stops nothing. *)
Definition write_charge (db : BStore) (role actor reference event_type request_id source_event_id : string)
    (charged : bool) (budget : SprintBudget) (m : Stamps) : res BStore :=
  values ← (if charged then
              b ← from_legacy (VDict [("by_type", VDict (counts_document (bump (bg_by_type budget) event_type)))]) VNone;
              Ok [("sprint_budget", VDict (budget_field b))]
            else Ok [("sprint_budget_uncharged", VDict (counts_document (bump (bg_uncharged budget) event_type)))]);
  let event := new_event "budget_recorded" role actor reference request_id (ss_charge m)
    [("event_type", VStr event_type); ("source_event_id", opt_text source_event_id); ("hard_limit_stop", VBool false)] in
  db ← stage_in db request_id event;
  db ← apply_budget db reference values;
  Ok (settle_in db request_id event).

(** [_record_budget], one transaction. *)
Definition record_budget (db : BStore) (role actor reference event_type request_id source_event_id : string)
    (m : Stamps) : res BStore :=
  _ ← admit_role role actor [PO; DISPATCHER; STEWARD];
  _ ← require (bool_decide (event_type ∈ BUDGET_RECORDED_EVENT_TYPES))
        (TaskError "validation" ("unknown budget event type " +:+ str_repr event_type));
  let charged := bool_decide (event_type ∈ BUDGET_EVENT_TYPES) in
  let committed := record_of (bs_db db) request_id Committed in
  match (match committed with Some e => Some e | None => record_of (bs_db db) request_id Staged end) with
  | Some existing =>
      if is_typed existing then Raise (TaskError "validation"
        "request id belongs to a typed Sprint lifecycle occurrence; retry its protocol recovery")
      else if negb (equals (get existing "kind") "budget_recorded") then Raise foreign_claim
      else if py_truthy (get (dict_or_empty (get existing "payload")) "hard_limit_stop") then
        finish_hard_budget db role actor reference event_type request_id source_event_id existing m
      else
        _ ← show_sprint (bs_db db) (py_str (get existing "ref"));
        Ok (match committed with Some _ => db | None => settle_in db request_id existing end)
  | None =>
      '(st, budget) ← snapshot db reference;
      if charged && bool_decide (st = SS_OPEN) && (th_hard th <=? bg_total budget + 1) then
        b ← from_legacy (VDict [("by_type", VDict (counts_document (bump (bg_by_type budget) event_type)))]) VNone;
        let event := new_event "budget_recorded" role actor reference request_id (ss_charge m)
          [("event_type", VStr event_type); ("source_event_id", opt_text source_event_id); ("hard_limit_stop", VBool true);
           ("budget", VDict [("by_type", VDict (counts_document (bg_by_type b)))])] in
        db ← stage_in db request_id event;
        finish_hard_budget db role actor reference event_type request_id source_event_id event m
      else write_charge db role actor reference event_type request_id source_event_id charged budget m
  end.

(** [restore], as far as the budget goes; [values] are the fields of the export. *)
Definition restore (db : BStore) (reference request_id : string) (values : Fields) (m : Stamp) : res BStore :=
  match record_of (bs_db db) request_id Committed, record_of (bs_db db) request_id Staged with
  | Some known, _ => _ ← show_sprint (bs_db db) (py_str (get known "ref")); Ok db
  | None, Some known =>
      if is_typed known then Raise (TaskError "validation"
        "request id belongs to a typed Sprint lifecycle occurrence; retry its protocol recovery")
      else _ ← show_sprint (bs_db db) (py_str (get known "ref")); Ok (settle_in db request_id known)
  | None, None =>
      _ ← snapshot db reference;
      let event := new_event "restored" "steward" "restore" reference request_id m
        [("fields", VList (VStr <$> (sort_items values).*1))] in
      db ← stage_in db request_id event;
      db ← apply_budget db reference values;
      Ok (settle_in db request_id event)
  end.

(** The budget fields of an export's record, as the restore is given them
    (restore.py). *)
Definition restored_values (b : SprintBudget) : Fields :=
  ("sprint_budget", VDict [("by_type", VDict (counts_document (sort_items (bg_by_type b))))])
  :: match bg_uncharged b with
     | [] => []
     | uncharged => [("sprint_budget_uncharged", VDict (counts_document (sort_items uncharged)))]
     end.

(** ** The uncharged candidates (board/sql_audit.py) *)

(** Committed, a candidate, with an identity, and no committed record under the
    charge id of it. *)
Definition is_uncharged (db : Store) (r : Row) : bool :=
  bool_decide (rq_status r = Committed) && selected (CANDIDATE_PREDICATE (rq_intent r))
  && match IDENTITY (rq_intent r) with
     | Some i => match record_of db (CHARGE_PREFIX +:+ i) Committed with Some _ => false | None => true end
     | None => false
     end.

Definition uncharged_budget_candidates (db : Store) (limit : nat) : list Fields :=
  take limit (rq_intent <$> List.filter (is_uncharged db) (st_requests db)).

(** ** The pass (dispatch/production.py) *)

Definition BUDGET_CANDIDATE_PAGE : nat := 200.

(** [append] of a marker: a committed record under the id has to be this one. *)
Definition append_marker (db : BStore) (request_id : string) (event : Fields) : res BStore :=
  match record_of (bs_db db) request_id Committed, record_of (bs_db db) request_id Staged with
  | Some existing, _ => _ ← require (py_eq (VDict existing) (VDict event)) foreign_claim; Ok db
  | None, Some pending =>
      _ ← require (py_eq (VDict pending) (VDict event)) foreign_claim;
      Ok (settle_in db request_id pending)
  | None, None => commit_in db request_id event
  end.

Definition marker_event (owner at_ kind prefix request_id source_event_id : string) (event payload : Fields) : Fields := [
  ("event_id", VStr (prefix +:+ source_event_id)); ("schema_version", VInt 1); ("occurred_at", VStr at_);
  ("actor", VDict [("role", VStr "dispatcher"); ("id", VStr owner)]); ("kind", VStr kind); ("outcome", VStr "success");
  ("task_id", VStr (py_str_or (get event "task_id"))); ("ref", VStr (py_str_or (get event "ref")));
  ("backend", VDict (dict_or_empty (get event "backend"))); ("request_id", VStr request_id);
  ("payload", VDict (("source_event_id", VStr source_event_id) :: payload))].

(** What the world answers one pass: card lookups, each a card or a [TaskError],
    the clock, new ids. *)
Record World := {
  wo_show : string → res Fields;
  wo_now : string → string;
  wo_stamps : string → Stamps;
  wo_owner : string;
}.

Definition record_unlinked_budget_event (w : World) (db : BStore) (event : Fields) (request_id source_event_id event_type : string) : res BStore :=
  append_marker db request_id (marker_event (wo_owner w) (wo_now w request_id) "budget_unlinked" "evt_budget_unlinked_"
    request_id source_event_id event [("event_type", VStr event_type)]).

Definition record_unclassified_budget_event (w : World) (db : BStore) (event : Fields) (request_id source_event_id reason : string) : res BStore :=
  append_marker db request_id (marker_event (wo_owner w) (wo_now w request_id) "budget_unclassified" "evt_budget_unclassified_"
    request_id source_event_id event [("reason", VStr reason)]).

(** The cache: a sprint's reference, [""] for none, [None] for a failed lookup. *)
Definition Cache : Type := list (string * option string).

Definition event_sprint (w : World) (event : Fields) (cache : Cache) : option string * Cache :=
  let reference := py_str_or (get event "ref") in
  match dict_get cache reference with
  | Some sprint => (sprint, cache)
  | None =>
      let sprint :=
        match get event "payload" with
        | VDict payload => if equals (get event "kind") "created" then Some (py_str_or (get payload "sprint"))
                           else match wo_show w reference with Ok card => Some (py_str_or (get card "sprint")) | Raise _ => None end
        | _ => match wo_show w reference with Ok card => Some (py_str_or (get card "sprint")) | Raise _ => None end
        end in
      (sprint, dict_set cache reference sprint)
  end.

Definition event_identity (event : Fields) : string :=
  py_str_or (if py_truthy (get event "event_id") then get event "event_id" else get event "request_id").

(** One turn of the loop: what it leaves, or the exception that ends the pass. *)
Definition charge_event (w : World) (db : BStore) (event : Fields) (cache : Cache) : res (BStore * Cache) :=
  let reference := py_str_or (get event "ref") in
  let identity := event_identity event in
  if negb (nonempty reference) || String.prefix "sprint:" reference || negb (nonempty identity) then Ok (db, cache)
  else
    let request_id := CHARGE_PREFIX +:+ identity in
    match classify event with
    | Raise (Exn cls message) =>
        if String.eqb cls "TerminalTaxonomyValidationError"
        then db' ← record_unclassified_budget_event w db event request_id identity message; Ok (db', cache)
        else Raise (Exn cls message)
    | Ok None =>
        db' ← record_unclassified_budget_event w db event request_id identity "no budget event type"; Ok (db', cache)
    | Ok (Some event_type) =>
        match event_sprint w event cache with
        | (None, cache) => Ok (db, cache)
        | (Some sprint, cache) =>
            db' ← (if nonempty sprint
                   then record_budget db "dispatcher" (wo_owner w) sprint event_type request_id identity (wo_stamps w request_id)
                   else record_unlinked_budget_event w db event request_id identity event_type);
            Ok (db', cache)
        end
    end.

Fixpoint charge_events (w : World) (db : BStore) (page : list Fields) (cache : Cache) : BStore * res unit :=
  match page with
  | [] => (db, Ok tt)
  | event :: page' =>
      match charge_event w db event cache with
      | Ok (db', cache') => charge_events w db' page' cache'
      | Raise e => (db, Raise e)
      end
  end.

Definition reconcile_sprint_budget (w : World) (db : BStore) : BStore * res unit :=
  charge_events w db (uncharged_budget_candidates (bs_db db) BUDGET_CANDIDATE_PAGE) [].
End ledger.
