(* ===== verification/BudgetLedgerFacts.v ===== *)
(** * The books of the restart budget

    What the reader shows is a count of rows; the invariant that ties a sprint's
    rows to its charge records, kept by a charge, by the stop it forces and by a
    turn of the pass. *)

From S2P Require Import Prelude PyText JsonText Sha256 PyStrings Board TerminalTaxonomy WaitCard GateBackend E2eBudget E2eLedger.
From S2P Require Import BudgetCandidates BudgetCandidatesFacts BudgetLedger.

(** ** Filters *)

Lemma filter_nothing {A} (P : A → Prop) `{∀ x, Decision (P x)} (l : list A) : (∀ x, x ∈ l → ¬ P x) → filter P l = [].
Proof.
  intros Hl. destruct (filter P l) as [|x k] eqn:E; [done|].
  assert (x ∈ filter P l) as [Hx Hin]%list_elem_of_filter by (rewrite E; left). by destruct (Hl x Hin).
Qed.

Lemma filter_everything {A} (P : A → Prop) `{∀ x, Decision (P x)} (l : list A) : (∀ x, x ∈ l → P x) → filter P l = l.
Proof.
  induction l as [|x l IH]; intros Hl; [done|]. rewrite filter_cons_True by (apply Hl; left).
  f_equal. apply IH. intros y Hy. apply Hl. by right.
Qed.

(** ** Counts *)

Definition count_in (c : list (string * Z)) (t : string) : Z := default 0 (dict_get c t).

Definition tally (c : list (string * Z)) (names : list string) : list (string * Z) :=
  (λ n, (n, count_in c n)) <$> names.

Definition non_negative (c : list (string * Z)) : Prop := ∀ t, 0 ≤ count_in c t.

Lemma dict_get_tally c names t : t ∈ names → dict_get (tally c names) t = Some (count_in c t).
Proof.
  induction names as [|n names IH]; [by intros ?%not_elem_of_nil|]. intros Hin. cbn.
  destruct (String.eqb_spec n t) as [->|Hn]; [done|]. apply IH. apply elem_of_cons in Hin. naive_solver.
Qed.

Lemma count_tally c names t : t ∈ names → count_in (tally c names) t = count_in c t.
Proof. intros Hin. unfold count_in at 1. by rewrite dict_get_tally. Qed.

Lemma dict_get_tally_absent c names t : t ∉ names → dict_get (tally c names) t = None.
Proof.
  intros Hn. apply dict_get_None_keys. unfold tally. rewrite <-list_fmap_compose. unfold compose. cbn. by rewrite list_fmap_id.
Qed.

Lemma tally_non_negative c names : non_negative c → non_negative (tally c names).
Proof.
  intros Hc t. destruct (decide (t ∈ names)) as [Hin|Hn]; [by rewrite count_tally|].
  unfold count_in. by rewrite dict_get_tally_absent.
Qed.

Lemma tally_tally c names : tally (tally c names) names = tally c names.
Proof. unfold tally at 1. unfold tally at 2. apply list_fmap_ext. intros i n Hn. f_equal. apply count_tally. by eapply list_elem_of_lookup_2. Qed.

Lemma count_bump c t t' : count_in (bump c t) t' = count_in c t' + (if decide (t' = t) then 1 else 0).
Proof.
  unfold bump, count_in. destruct (decide (t' = t)) as [->|Hn]; [by rewrite dict_get_set_eq|].
  rewrite dict_get_set_ne by congruence. cbn. lia.
Qed.

Lemma bump_non_negative c t : non_negative c → non_negative (bump c t).
Proof. intros Hc t'. rewrite count_bump. specialize (Hc t'). destruct (decide _); lia. Qed.

Lemma dict_get_counts_document c t : dict_get (counts_document c) t = VInt <$> dict_get c t.
Proof. unfold counts_document. induction c as [|[k n] c IH]; cbn; [done|]. by destruct (String.eqb k t). Qed.

Lemma budget_count_document c t : non_negative c → budget_count (VDict (counts_document c)) t = Ok (count_in c t).
Proof.
  intros Hc. cbn [budget_count]. rewrite dict_get_counts_document. specialize (Hc t). unfold count_in in *.
  destruct (dict_get c t); cbn in *; [|done]. by rewrite Z.max_r.
Qed.

Lemma counts_of_document c names : non_negative c → counts_of (VDict (counts_document c)) names = Ok (tally c names).
Proof.
  intros Hc. induction names as [|n names IH]; [done|]. cbn [counts_of]. rewrite budget_count_document by done.
  cbn [mbind res_bind]. by rewrite IH.
Qed.

Lemma counts_of_none names : counts_of VNone names = Ok (tally [] names).
Proof. induction names as [|n names IH]; [done|]. cbn [counts_of budget_count mbind res_bind]. by rewrite IH. Qed.

Section facts.
Context `{PyRepr, SqlRepr, JsonText, !JsonStr}.
Variable th : Thresholds.

(** ** What the reader counts *)

Definition budget_of (c u : list (string * Z)) : SprintBudget :=
  let total := sum_counts (tally c BUDGET_EVENT_TYPES) in
  {| bg_total := total; bg_by_type := tally c BUDGET_EVENT_TYPES; bg_uncharged := tally u BUDGET_UNCHARGED_EVENT_TYPES;
     bg_thresholds := th; bg_signal_reached := th_signal th <=? total; bg_hard_reached := th_hard th <=? total |}.

Lemma from_legacy_counts c u : non_negative c → non_negative u →
  from_legacy th (VDict [("by_type", VDict (counts_document c))])
    match u with [] => VNone | _ => VDict (counts_document u) end = Ok (budget_of c u).
Proof.
  intros Hc Hu. unfold from_legacy. cbn [decoded dict_or_empty].
  change (get [("by_type", VDict (counts_document c))] "by_type") with (VDict (counts_document c)).
  rewrite counts_of_document by done. cbn [mbind res_bind]. destruct u as [|p u].
  - change (get [("by_type", VDict (counts_document c))] "uncharged") with VNone. cbn [decoded]. by rewrite counts_of_none.
  - cbn [decoded]. by rewrite counts_of_document.
Qed.

(** Normalizing what the reader shows changes nothing. *)
Lemma from_legacy_shown c u : non_negative c → non_negative u →
  from_legacy th (VDict (budget_document (budget_of c u))) VNone = Ok (budget_of c u).
Proof.
  intros Hc Hu. unfold from_legacy. cbn [decoded dict_or_empty].
  change (get (budget_document (budget_of c u)) "by_type") with (VDict (counts_document (tally c BUDGET_EVENT_TYPES))).
  change (get (budget_document (budget_of c u)) "uncharged") with (VDict (counts_document (tally u BUDGET_UNCHARGED_EVENT_TYPES))).
  rewrite counts_of_document by (by apply tally_non_negative). cbn [mbind res_bind decoded].
  rewrite counts_of_document by (by apply tally_non_negative). cbn [mbind res_bind].
  unfold budget_of. by rewrite !tally_tally.
Qed.

(** The budget one charge computes. *)
Lemma from_legacy_bump c t : non_negative c →
  from_legacy th (VDict [("by_type", VDict (counts_document (bump (tally c BUDGET_EVENT_TYPES) t)))]) VNone
  = Ok (budget_of (bump (tally c BUDGET_EVENT_TYPES) t) []).
Proof. intros Hc. apply (from_legacy_counts _ []); [by apply bump_non_negative, tally_non_negative|done]. Qed.

(** The rows of a list that a type is counted from. *)
Definition counted (charged : bool) (t : string) (l : list BudgetEvent) : nat :=
  length (filter (λ e, be_charged e = charged ∧ be_type e = t) l).

Lemma counted_app charged t l k : counted charged t (l ++ k) = (counted charged t l + counted charged t k)%nat.
Proof. unfold counted. by rewrite filter_app, length_app. Qed.

Lemma count_foldl l d t : count_in (foldl bump d l) t = count_in d t + Z.of_nat (length (filter (λ x, x = t) l)).
Proof.
  revert d. induction l as [|x l IH]; intros d; [symmetry; apply Z.add_0_r|]. cbn [foldl]. rewrite IH, count_bump, filter_cons.
  destruct (decide (t = x)), (decide (x = t)); try congruence; cbn [length]; lia.
Qed.

Lemma foldl_bump_wf l d : dict_wf d → dict_wf (foldl bump d l).
Proof. revert d. induction l as [|x l IH]; intros d Hd; [done|]. apply IH. by apply dict_set_wf. Qed.

Lemma length_filter_types charged t l :
  length (filter (λ x, x = t) (be_type <$> filter (λ e, be_charged e = charged) l)) = counted charged t l.
Proof.
  unfold counted. induction l as [|e l IH]; [done|]. rewrite !filter_cons.
  destruct (decide (be_charged e = charged)), (decide (be_charged e = charged ∧ be_type e = t)); cbn [fmap list_fmap];
    rewrite ?filter_cons; [destruct (decide (be_type e = t)); cbn [length]; naive_solver..|naive_solver|done].
Qed.

Lemma count_grouped db S charged t : count_in (grouped db S charged) t = Z.of_nat (counted charged t (events_of db S)).
Proof.
  unfold grouped. set (d := foldl _ _ _). assert (count_in (sort_items d) t = count_in d t) as ->.
  { unfold count_in. f_equal. symmetry. apply dict_get_perm; [by apply foldl_bump_wf, NoDup_nil|].
    symmetry. apply sort_items_perm. }
  unfold d. rewrite count_foldl, length_filter_types. done.
Qed.

Lemma grouped_non_negative db S charged : non_negative (grouped db S charged).
Proof. intros t. rewrite count_grouped. lia. Qed.

Lemma shown_counts db S : shown_budget th db S = Ok (budget_of (grouped db S true) (grouped db S false)).
Proof.
  unfold shown_budget, budget_row. cbn [br_budget br_uncharged].
  rewrite <-(from_legacy_counts (grouped db S true) (grouped db S false)) by apply grouped_non_negative.
  f_equal. by destruct (grouped db S false).
Qed.

Lemma snapshot_ok db S st b : snapshot th db S = Ok (st, b) →
  b = budget_of (grouped db S true) (grouped db S false) ∧ ∃ row, show_sprint (bs_db db) S = Ok row ∧ sr_state row = st.
Proof.
  intros E. unfold snapshot in E. destruct (show_sprint _ _) as [row|]; [|done]. cbn [mbind res_bind] in E.
  rewrite shown_counts in E. cbn [mbind res_bind] in E.
  rewrite from_legacy_shown in E by apply grouped_non_negative. cbn in E. injection E as <- <-. eauto.
Qed.

(** ** The records *)

Definition budget_kind (r : Row) : bool := equals (get (rq_intent r) "kind") "budget_recorded".

(** A charge of the sprint, and one of a type. *)
Definition charge_of (S : string) (r : Row) : bool :=
  bool_decide (rq_status r = Committed) && budget_kind r && equals (get (rq_intent r) "ref") S.

Definition is_charge_of (S t : string) (r : Row) : bool :=
  charge_of S r && equals (get (dict_or_empty (get (rq_intent r) "payload")) "event_type") t.

(** A restore of the sprint whose values carried its budget. *)
Definition restores (S : string) (r : Row) : bool :=
  bool_decide (rq_status r = Committed) && equals (get (rq_intent r) "kind") "restored"
  && equals (get (rq_intent r) "ref") S
  && existsb (λ v, equals v "sprint_budget" || equals v "sprint_budget_uncharged")
       match get (dict_or_empty (get (rq_intent r) "payload")) "fields" with VList l => l | _ => [] end.

(** The records after the sprint's last restore; all of them where there is none. *)
Definition since (S : string) (rows : list Row) : list Row :=
  foldl (λ acc r, if restores S r then [] else acc ++ [r]) [] rows.

Lemma since_snoc S rows r : since S (rows ++ [r]) = if restores S r then [] else since S rows ++ [r].
Proof. unfold since. by rewrite foldl_app. Qed.

Lemma since_app S rows extra : (∀ r, r ∈ extra → restores S r = false) → since S (rows ++ extra) = since S rows ++ extra.
Proof.
  revert rows. induction extra as [|r extra IH]; intros rows Hx; [by rewrite !app_nil_r|].
  rewrite (cons_middle r rows extra), (assoc_L (++)), IH by (intros x Hin; apply Hx; by right).
  rewrite since_snoc, Hx by left. by rewrite <-(assoc_L (++)).
Qed.

Lemma since_all S rows : (∀ r, r ∈ rows → restores S r = false) → since S rows = rows.
Proof. apply (since_app S []). Qed.

Definition charges (db : Store) (S t : string) : nat := length (List.filter (is_charge_of S t) (since S (st_requests db))).

Definition TYPED_SUFFIX : string := ":typed-hard-stop".

Definition hard_charge (r : Row) : Prop :=
  rq_status r = Committed ∧ budget_kind r = true
  ∧ py_truthy (get (dict_or_empty (get (rq_intent r) "payload")) "hard_limit_stop") = true.

Definition is_stop (r : Row) : bool := equals (get (rq_intent r) "kind") (enum_value SPRINT_STOPPED).

Definition rows_of (db : BStore) : list Row := st_requests (bs_db db).

(** The row a charge record is counted by. *)
Definition event_row (S : string) (r : Row) : BudgetEvent := budget_event S (rq_id r) (rq_intent r).

(** The sprint's rows are those of its last restore, then one for each charge
    recorded since, in order. *)
Definition Kept (db : BStore) (S : string) (base : list BudgetEvent) : Prop :=
  events_of db S = base ++ (event_row S <$> List.filter (charge_of S) (since S (rows_of db)))
  ∧ ∀ e, e ∈ base → ∃ r, r ∈ rows_of db ∧ rq_id r = be_request e ∧ restores S r = true.

(** A charge names its type by a text. *)
Definition typed_charge (r : Row) : Prop :=
  budget_kind r = true → ∃ t, get (dict_or_empty (get (rq_intent r) "payload")) "event_type" = VStr t.

(** The books: request ids are unique and none is left staged, a sprint's rows are
    those of its records, and a charge that stopped its sprint has the stop beside
    it, and the stop its charge. *)
Record Booked (db : BStore) : Prop := {
  bk_ids : NoDup (rq_id <$> st_requests (bs_db db));
  bk_settled : ∀ r, r ∈ st_requests (bs_db db) → rq_status r ≠ Staged;
  bk_events : ∀ S, ∃ base, Kept db S base;
  bk_backed : ∀ e, e ∈ bs_events db → be_request e ∈ rq_id <$> st_requests (bs_db db);
  bk_types : ∀ r, r ∈ st_requests (bs_db db) → typed_charge r;
  bk_stopped : ∀ r, r ∈ st_requests (bs_db db) → hard_charge r →
    ∃ r', r' ∈ st_requests (bs_db db) ∧ rq_id r' = rq_id r +:+ TYPED_SUFFIX ∧ rq_status r' = Committed;
  bk_typed : ∀ r x, r ∈ st_requests (bs_db db) → is_stop r = true → rq_id r = x +:+ TYPED_SUFFIX →
    x ∈ rq_id <$> st_requests (bs_db db);
}.

Lemma record_of_None db id st : record_of db id st = None ↔ ∀ r, r ∈ st_requests db → rq_id r = id → rq_status r ≠ st.
Proof.
  unfold record_of. split.
  - intros E r Hr Hid Hst. assert (r ∈ filter (λ r, rq_id r = id ∧ rq_status r = st) (st_requests db)) as Hin
      by (by apply list_elem_of_filter).
    destruct (filter _ _); [by apply not_elem_of_nil in Hin|done].
  - intros Hall. destruct (filter _ _) as [|r l] eqn:E; [done|].
    assert (r ∈ filter (λ r, rq_id r = id ∧ rq_status r = st) (st_requests db)) as [[Hid Hst] Hr]%list_elem_of_filter
      by (rewrite E; left). by destruct (Hall r Hr Hid).
Qed.

Lemma record_of_Some db id st e : record_of db id st = Some e →
  ∃ r, r ∈ st_requests db ∧ rq_id r = id ∧ rq_status r = st ∧ rq_intent r = e.
Proof.
  unfold record_of. destruct (filter _ _) as [|r l] eqn:E; [done|]. intros [= <-].
  assert (r ∈ filter (λ r, rq_id r = id ∧ rq_status r = st) (st_requests db)) as [[Hid Hst] Hr]%list_elem_of_filter
    by (rewrite E; left). by exists r.
Qed.

Lemma settled_not_staged db id : Booked db → record_of (bs_db db) id Staged = None.
Proof. intros Hb. apply record_of_None. intros r Hr _. by apply (bk_settled _ Hb). Qed.

Lemma committed_found db r : r ∈ st_requests db → rq_status r = Committed → record_of db (rq_id r) Committed ≠ None.
Proof. intros Hr Hst E. by apply (proj1 (record_of_None _ _ _) E r Hr). Qed.

Definition new_row (id : string) (e : Fields) : Row := {| rq_id := id; rq_status := Committed; rq_intent := e |}.

Definition push (db : BStore) (r : Row) : BStore :=
  db <| bs_db := bs_db db <| st_requests := st_requests (bs_db db) ++ [r] |> |>.

Lemma commit_in_ok db id e db' : commit_in db id e = Ok db' →
  record_of (bs_db db) id Discarded = None ∧ db' = push db (new_row id e).
Proof.
  unfold commit_in, commit_event. destruct (record_of _ _ _); cbn; [done|]. by intros [= <-].
Qed.

Lemma fresh_id db id : Booked db → record_of (bs_db db) id Committed = None → record_of (bs_db db) id Discarded = None →
  id ∉ rq_id <$> st_requests (bs_db db).
Proof.
  intros Hb Hc Hd (r & Er & Hr)%list_elem_of_fmap. symmetry in Er.
  pose proof (bk_settled _ Hb r Hr). pose proof (proj1 (record_of_None _ _ _) Hc r Hr Er).
  pose proof (proj1 (record_of_None _ _ _) Hd r Hr Er). by destruct (rq_status r).
Qed.

(** ** What keeps the books *)

(** Records that come in together. *)
Record Fresh (db : BStore) (extra : list Row) : Prop := {
  fr_ids : NoDup (rq_id <$> extra);
  fr_new : ∀ r, r ∈ extra → rq_id r ∉ rq_id <$> rows_of db;
  fr_settled : ∀ r, r ∈ extra → rq_status r ≠ Staged;
  fr_types : ∀ r, r ∈ extra → typed_charge r;
  fr_stopped : ∀ r, r ∈ extra → hard_charge r →
    ∃ r', r' ∈ extra ∧ rq_id r' = rq_id r +:+ TYPED_SUFFIX ∧ rq_status r' = Committed;
  fr_typed : ∀ r x, r ∈ extra → is_stop r = true → rq_id r = x +:+ TYPED_SUFFIX → x ∈ rq_id <$> (rows_of db ++ extra);
}.

Lemma booked_rows db db' extra : Booked db → Fresh db extra → rows_of db' = rows_of db ++ extra →
  (∀ S, ∃ base, Kept db' S base) →
  (∀ e, e ∈ bs_events db' → e ∈ bs_events db ∨ be_request e ∈ rq_id <$> extra) → Booked db'.
Proof.
  unfold rows_of. intros [Hids Hset _ Hback Hty Hstop Htp] [Fids Fnew Fset Fty Fstop Ftp] E Hk Hev.
  unfold rows_of in *. split; rewrite ?E.
  - rewrite fmap_app. apply NoDup_app. split_and!; [done| |done].
    intros x Hx (r & -> & Hr)%list_elem_of_fmap. by apply (Fnew r Hr).
  - intros r [Hr|Hr]%elem_of_app; auto.
  - exact Hk.
  - intros e He. rewrite fmap_app. apply elem_of_app. destruct (Hev e He); auto.
  - intros r [Hr|Hr]%elem_of_app; auto.
  - intros r [Hr|Hr]%elem_of_app Hh.
    + destruct (Hstop r Hr Hh) as (r' & Hr' & ?). exists r'. split; [|done]. apply elem_of_app. by left.
    + destruct (Fstop r Hr Hh) as (r' & Hr' & ?). exists r'. split; [|done]. apply elem_of_app. by right.
  - intros r x [Hr|Hr]%elem_of_app Hs Hid; [|by eapply Ftp].
    rewrite fmap_app. apply elem_of_app. left. by eapply Htp.
Qed.

(** Records that restore nothing, with one row for each charge among them. *)
Lemma kept_app db db' S base extra fresh : Kept db S base → rows_of db' = rows_of db ++ extra →
  (∀ r, r ∈ extra → restores S r = false) → bs_events db' = bs_events db ++ fresh →
  filter (λ e, be_sprint e = S) fresh = event_row S <$> List.filter (charge_of S) extra → Kept db' S base.
Proof.
  intros [Ee Hb] Er Hx Ev Ef. split.
  - unfold events_of in *. rewrite Ev, filter_app, Ee, Ef, Er, since_app, List.filter_app, fmap_app by done.
    by rewrite <-(assoc_L (++)).
  - intros e He. destruct (Hb e He) as (r & Hr & ?). exists r. split; [|done]. rewrite Er. apply elem_of_app. by left.
Qed.

Lemma no_charges extra S : (∀ r, r ∈ extra → budget_kind r = false) → List.filter (charge_of S) extra = [].
Proof.
  induction extra as [|r extra IH]; intros Hk; [done|]. cbn [List.filter].
  assert (charge_of S r = false) as -> by (unfold charge_of; rewrite Hk by left; by rewrite andb_false_r).
  apply IH. intros x Hx. apply Hk. by right.
Qed.

(** Records that charge and restore nothing, over the same rows. *)
Lemma booked_plain db db' extra : Booked db → Fresh db extra → rows_of db' = rows_of db ++ extra →
  bs_events db' = bs_events db →
  (∀ r, r ∈ extra → budget_kind r = false ∧ ∀ S, restores S r = false) → Booked db'.
Proof.
  intros Hb Hf E Ev Hk. apply (booked_rows db db' extra); [done..| |rewrite Ev; by left]. intros S.
  destruct (bk_events _ Hb S) as (base & Hkept). exists base.
  apply (kept_app db db' S base extra []); [done..|intros r Hr; by apply Hk|by rewrite app_nil_r|].
  rewrite no_charges; [done|]. intros r Hr. by apply Hk.
Qed.

(** ** One charge *)

(** The row of a charge. *)
Definition charge_row (r : Row) (id S t : string) : Prop :=
  rq_id r = id ∧ rq_status r = Committed ∧ get (rq_intent r) "kind" = VStr "budget_recorded"
  ∧ get (rq_intent r) "ref" = VStr S ∧ get (dict_or_empty (get (rq_intent r) "payload")) "event_type" = VStr t.

Lemma charge_row_of r id S t S' : charge_row r id S t → charge_of S' r = bool_decide (S' = S).
Proof.
  intros (_ & Hst & Hk & Hr & _). unfold charge_of, budget_kind. rewrite Hst, Hk, Hr.
  rewrite bool_decide_eq_true_2 by done. cbn. symmetry. destruct (String.eqb_spec S S') as [->|];
    [by apply bool_decide_eq_true|apply bool_decide_eq_false; congruence].
Qed.

Lemma charge_row_keeps r id S t S' : charge_row r id S t → restores S' r = false.
Proof. intros (_ & Hst & Hk & _). unfold restores. rewrite Hk. by rewrite andb_false_r. Qed.

(** One charge and its row, with records that charge and restore nothing beside it. *)
Lemma booked_charge db db' id S t before charge after :
  Booked db → Fresh db (before ++ [charge] ++ after) → rows_of db' = rows_of db ++ before ++ [charge] ++ after →
  charge_row charge id S t → bs_events db' = bs_events db ++ [event_row S charge] →
  (∀ r, r ∈ before ++ after → budget_kind r = false ∧ ∀ S', restores S' r = false) → Booked db'.
Proof.
  intros Hb Hf E Hcr Ev Hk. apply (booked_rows db db' _ Hb Hf E).
  - intros S'. destruct (bk_events _ Hb S') as (base & Hkept). exists base.
    apply (kept_app db db' S' base _ [event_row S charge] Hkept E); [|exact Ev|].
    + intros r. rewrite !elem_of_app, list_elem_of_singleton. intros [Hr|[->|Hr]]; [| by eapply charge_row_keeps|];
        (apply Hk, elem_of_app; auto).
    + rewrite !List.filter_app, (no_charges before), (no_charges after) by (intros r Hr; apply Hk, elem_of_app; auto).
      cbn [List.filter app]. rewrite (charge_row_of charge id S t S' Hcr), filter_cons, filter_nil. cbn [event_row budget_event be_sprint].
      case_bool_decide as Hs; case_decide as Hs'; try congruence; [by rewrite Hs|done].
  - rewrite Ev. intros e [He| ->%list_elem_of_singleton]%elem_of_app; [by left|right].
    rewrite !fmap_app, !elem_of_app. right. left. apply list_elem_of_singleton. done.
Qed.

(** *** Staged and published *)

Definition staged_row (id : string) (e : Fields) : Row := {| rq_id := id; rq_status := Staged; rq_intent := e |}.

Lemma stage_in_ok db id e db' : stage_in db id e = Ok db' →
  record_of (bs_db db) id Discarded = None ∧ db' = push db (staged_row id e).
Proof. unfold stage_in, commit_event. destruct (record_of _ _ _); cbn; [done|]. by intros [= <-]. Qed.

Lemma rows_push db r : rows_of (push db r) = rows_of db ++ [r].
Proof. done. Qed.

Lemma apply_budget_db db S values db' : apply_budget db S values = Ok db' → bs_db db' = bs_db db.
Proof.
  unfold apply_budget. assert (bs_db (insert_charged db S) = bs_db db) as Hi.
  { unfold insert_charged. destruct (staged_request _ _ _) as [[id intent]|]; [|done].
    destruct (existsb _ _); [done|]. by destruct (nonempty _). }
  destruct (_ || _); [|by intros [= <-]]. destruct (staged_request _ _ _) as [[id intent]|]; [|by intros [= <-]].
  intros E. by inv_ok.
Qed.

(** Of a store with nothing staged, the one record the transaction staged. *)
Lemma staged_request_push db S operation id e : Booked db →
  staged_request (bs_db (push db (staged_row id e))) S operation
  = if equals (get e "ref") S && equals (get e "kind") operation then Some (id, e) else None.
Proof.
  intros Hb. unfold staged_request. change (st_requests (bs_db (push db (staged_row id e)))) with (rows_of db ++ [staged_row id e]).
  rewrite filter_app. assert (filter (λ r, rq_status r = Staged ∧ equals (get (rq_intent r) "ref") S = true
    ∧ equals (get (rq_intent r) "kind") operation = true) (rows_of db) = []) as ->.
  { apply filter_nothing. intros r Hr [Hst _]. by apply (bk_settled _ Hb r Hr). }
  cbn [app]. rewrite filter_cons, filter_nil. cbn [staged_row rq_status rq_intent].
  destruct (equals (get e "ref") S), (equals (get e "kind") operation); case_decide; naive_solver.
Qed.

(** The row of a staged charge comes in with the write of its budget. *)
Lemma apply_charge db id S t e values : Booked db → id ∉ rq_id <$> rows_of db → charge_row (new_row id e) id S t → t ≠ "" →
  dict_has values "sprint_budget" || dict_has values "sprint_budget_uncharged" = true →
  apply_budget (push db (staged_row id e)) S values
  = Ok (push db (staged_row id e) <| bs_events := bs_events db ++ [event_row S (new_row id e)] |>).
Proof.
  intros Hb Hid (_ & _ & Hk & Hr & Ht) Hne Hv. cbn [new_row rq_intent] in Hk, Hr, Ht. unfold apply_budget. rewrite Hv.
  assert (insert_charged (push db (staged_row id e)) S
    = push db (staged_row id e) <| bs_events := bs_events db ++ [event_row S (new_row id e)] |>) as ->.
  { unfold insert_charged. rewrite staged_request_push, Hk, Hr by done. cbn [equals]. rewrite !String.eqb_refl. cbn [andb].
    assert (existsb (λ e, String.eqb (be_request e) id) (bs_events (push db (staged_row id e))) = false) as ->.
    { apply not_true_is_false. intros (x & Hx%list_elem_of_In & Ex%String.eqb_eq)%existsb_exists.
      apply Hid. rewrite <-Ex. by apply (bk_backed _ Hb). }
    assert (nonempty (be_type (budget_event S id e)) = true) as ->; [|done].
    unfold budget_event. cbn [be_type]. rewrite Ht, py_str_or_str. by destruct t. }
  assert (staged_request (bs_db (push db (staged_row id e) <| bs_events := bs_events db ++ [event_row S (new_row id e)] |>)) S "restored"
    = None) as ->; [|done].
  change (bs_db (push db (staged_row id e) <| bs_events := _ |>)) with (bs_db (push db (staged_row id e))).
  rewrite staged_request_push, Hk by done. by rewrite andb_false_r.
Qed.

Lemma settle_rows db db2 id e after : Booked db → (∀ r, r ∈ after → rq_status r ≠ Staged) →
  rows_of db2 = rows_of db ++ [staged_row id e] ++ after → rows_of (settle_in db2 id e) = rows_of db ++ after ++ [new_row id e].
Proof.
  intros Hb Ha E. unfold rows_of in *. unfold settle_in, update. cbn [bs_db st_requests].
  rewrite E, !filter_app, (filter_everything _ (st_requests (bs_db db))), (filter_everything _ after);
    [|by intros r Hr [_ ?%Ha]|by intros r Hr [_ ?%(bk_settled _ Hb r)]].
  rewrite filter_cons_False by naive_solver. by rewrite <-(assoc_L (++)).
Qed.

(** *** A charge that stops nothing *)

Lemma recorded_nonempty t : t ∈ BUDGET_RECORDED_EVENT_TYPES → t ≠ "".
Proof. intros Ht ->. by apply (bool_decide_unpack (¬ "" ∈ BUDGET_RECORDED_EVENT_TYPES)). Qed.

Lemma write_charge_ok db role actor S t id src charged budget m db' :
  Booked db → record_of (bs_db db) id Committed = None → t ∈ BUDGET_RECORDED_EVENT_TYPES →
  write_charge th db role actor S t id src charged budget m = Ok db' →
  Booked db' ∧ ∃ r, rows_of db' = rows_of db ++ [r] ∧ charge_row r id S t
    ∧ st_sprints (bs_db db') = st_sprints (bs_db db) ∧ bs_events db' = bs_events db ++ [event_row S r].
Proof.
  intros Hb Hid Ht E. unfold write_charge in E.
  destruct (if charged then _ else _) as [values|] eqn:Ev; [|done]. cbn [mbind res_bind] in E.
  assert (dict_has values "sprint_budget" || dict_has values "sprint_budget_uncharged" = true) as Hv.
  { destruct charged; [destruct (from_legacy _ _ _); [|done]; cbn in Ev|]; by injection Ev as <-. }
  set (ev := new_event _ _ _ _ _ _ _) in E. destruct (stage_in db id ev) as [db1|] eqn:Es; [|done].
  apply stage_in_ok in Es as [Hd ->]. cbn [mbind res_bind] in E. pose proof (fresh_id db id Hb Hid Hd) as Hfresh.
  assert (charge_row (new_row id ev) id S t) as Hcr by done.
  rewrite (apply_charge db id S t) in E; [|done..|by apply recorded_nonempty|done].
  cbn [mbind res_bind] in E. injection E as <-. set (db2 := push db _ <| bs_events := _ |>).
  assert (rows_of (settle_in db2 id ev) = rows_of db ++ [new_row id ev]) as Er
    by (apply (settle_rows db db2 id ev []); [done|by intros r ?%not_elem_of_nil|done]).
  split; [|exists (new_row id ev); done].
  apply (booked_charge db _ id S t [] (new_row id ev) []); [done| |done..|by intros r ?%not_elem_of_nil]. split.
  - apply NoDup_singleton.
  - by intros r ->%list_elem_of_singleton.
  - by intros r ->%list_elem_of_singleton.
  - intros r ->%list_elem_of_singleton _. by exists t.
  - by intros r ->%list_elem_of_singleton (_ & _ & ?).
  - by intros r x ->%list_elem_of_singleton.
Qed.

(** *** A charge that stops its sprint *)

(** The counts after one charge of a charged type. *)
Definition charged_counts (c : list (string * Z)) (t : string) : list (string * Z) :=
  tally (bump (tally c BUDGET_EVENT_TYPES) t) BUDGET_EVENT_TYPES.

Lemma append_neq (x y : string) : y ≠ "" → x +:+ y ≠ x.
Proof.
  intros Hy E. apply (f_equal String.length) in E. rewrite str_length_app in E. destruct y; [done|]. cbn in E. lia.
Qed.

Lemma append_inj_r (x y s : string) : x +:+ s = y +:+ s → x = y.
Proof.
  intros E. pose proof (f_equal String.length E) as El. rewrite !str_length_app in El.
  assert (String.length x = String.length y) as Hl by lia.
  rewrite <-(str_take_id (String.length x) x), <-(str_take_app_le _ x s), E, Hl by lia.
  by rewrite str_take_app_le, str_take_id by lia.
Qed.

Lemma push_record db r id st :
  record_of (bs_db (push db r)) id st = None ↔ record_of (bs_db db) id st = None ∧ ¬ (rq_id r = id ∧ rq_status r = st).
Proof.
  rewrite !record_of_None. change (st_requests (bs_db (push db r))) with (st_requests (bs_db db) ++ [r]).
  setoid_rewrite elem_of_app. setoid_rewrite list_elem_of_singleton. naive_solver.
Qed.

(** Records that charge nothing but the one charge. *)
Definition beside (extra : list Row) (id S t : string) : Prop :=
  ∀ r, r ∈ extra → budget_kind r = true → charge_row r id S t.

Lemma record_hard_stop_ok db role actor S id evid t src m db' :
  record_hard_stop db role actor S id evid t src m = Ok db' →
  db' = db ∨ ∃ e, db' = push db (new_row (id +:+ ":budget-hard-stop") e)
    ∧ record_of (bs_db db) (id +:+ ":budget-hard-stop") Committed = None
    ∧ record_of (bs_db db) (id +:+ ":budget-hard-stop") Discarded = None
    ∧ get e "kind" = VStr "budget_hard_stopped".
Proof.
  unfold record_hard_stop. destruct (record_of _ _ _) eqn:E; [intros [= <-]; by left|].
  destruct (show_sprint _ _); cbn [mbind res_bind]; [|done]. intros [Hd ->]%commit_in_ok. right. eauto.
Qed.

(** The counts the stop is given. *)
Lemma stored_counts_ok payload c t :
  get (dict_or_empty (get payload "budget")) "by_type" = VDict (counts_document (charged_counts c t)) → non_negative c →
  stored_counts payload = Ok (counts_document (sort_items (charged_counts c t))).
Proof.
  intros E Hc. unfold stored_counts. rewrite E.
  assert (forallb (λ t0, dict_has (counts_document (charged_counts c t)) t0) BUDGET_EVENT_TYPES
    && forallb (λ p, bool_decide (p.1 ∈ BUDGET_EVENT_TYPES)) (counts_document (charged_counts c t)) = true) as ->.
  { apply andb_true_iff. split; apply forallb_forall.
    - intros t' Ht'%list_elem_of_In. unfold dict_has. rewrite dict_get_counts_document. unfold charged_counts.
      by rewrite dict_get_tally.
    - intros p Hp%list_elem_of_In. unfold counts_document, charged_counts, tally in Hp. rewrite <-list_fmap_compose in Hp.
      apply list_elem_of_fmap in Hp as (n & -> & Hn). by apply bool_decide_eq_true. }
  cbn [require mbind res_bind].
  assert (forallb (λ p, match p.2 with VInt n => 0 <=? n | _ => false end) (counts_document (charged_counts c t)) = true) as ->.
  { apply forallb_forall. intros p Hp%list_elem_of_In. unfold counts_document, charged_counts, tally in Hp. rewrite <-list_fmap_compose in Hp.
    apply list_elem_of_fmap in Hp as (n & -> & Hn).
    change ((0 <=? count_in (bump (tally c BUDGET_EVENT_TYPES) t) n) = true). apply Z.leb_le.
    apply bump_non_negative, tally_non_negative, Hc. }
  cbn [require mbind res_bind]. done.
Qed.

Lemma same_stop_is_stop e role actor S counts : same_stop e role actor S counts = true →
  equals (get e "kind") (enum_value SPRINT_STOPPED) = true.
Proof.
  unfold same_stop. rewrite !andb_true_iff. intros [_ Hm]. destruct (enum_of_value _); [|done].
  by apply andb_true_iff in Hm as [_ ?].
Qed.

Lemma stop_sprint_ok db role actor S id counts m db' : record_of (bs_db db) id Staged = None → counts ≠ [] →
  stop_sprint db role actor S id counts m = Ok db' →
  (db' = db ∧ ∃ r, r ∈ rows_of db ∧ rq_id r = id ∧ is_stop r = true)
  ∨ ∃ row e db1, record_of (bs_db db) id Committed = None ∧ record_of (bs_db db) id Discarded = None
      ∧ apply_budget db S [("sprint_budget", VDict [("by_type", VDict counts)])] = Ok db1
      ∧ db' = push (set_state db1 S row SS_STOPPED) (new_row id e)
      ∧ get e "kind" = VStr (enum_value SPRINT_STOPPED).
Proof.
  intros Hns Hne. unfold stop_sprint. destruct (show_sprint _ _) as [row|]; [|done]. cbn [mbind res_bind]. rewrite Hns.
  destruct (record_of (bs_db db) id Committed) as [e|] eqn:E.
  - destruct (same_stop _ _ _ _ _) eqn:Es; [|done]. cbn. intros [= <-]. left. split; [done|].
    apply record_of_Some in E as (r & Hr & Hid & _ & <-). exists r. split_and!; [done..|]. by eapply same_stop_is_stop.
  - destruct (transition_for _ _ _); [|done]. cbn [mbind res_bind]. destruct counts as [|p counts]; [done|].
    destruct (apply_budget _ _ _) as [db1|] eqn:Ea; [|done]. cbn [mbind res_bind]. intros [Hd ->]%commit_in_ok. right.
    assert (record_of (bs_db db) id Discarded = None) as Hd'.
    { rewrite <-(apply_budget_db _ _ _ _ Ea). exact Hd. }
    exists row. do 2 eexists. split_and!; [done|done|done|done|done].
Qed.

(** A settled record under an id of its own that charges, restores and stops nothing. *)
Definition plain_record (db : BStore) (r : Row) : Prop :=
  rq_id r ∉ rq_id <$> rows_of db ∧ rq_status r = Committed
  ∧ budget_kind r = false ∧ is_stop r = false.

(** The typed stop and its charge come in together. *)
Lemma fresh_stop db id S t typed charge rest :
  charge_row charge id S t → rq_id typed = id +:+ TYPED_SUFFIX → rq_status typed = Committed → budget_kind typed = false →
  rq_id typed ∉ rq_id <$> rows_of db → rq_id charge ∉ rq_id <$> rows_of db →
  NoDup (rq_id <$> [typed; charge] ++ rest) → (∀ r, r ∈ rest → plain_record db r) →
  Fresh db ([typed; charge] ++ rest).
Proof.
  intros Hcr Htid Htst Htk Hfresh_t Hfresh Hnd Hrest. pose proof Hcr as (Hcid & Hcst & Hck & _ & Hct).
  split; [done|..]; intros r.
  - intros Hr. rewrite elem_of_app, !elem_of_cons, elem_of_nil in Hr. destruct Hr as [[->|[->|[]]]|Hr]; [done..|]. by apply Hrest.
  - intros Hr. rewrite elem_of_app, !elem_of_cons, elem_of_nil in Hr.
    destruct Hr as [[->|[->|[]]]|Hr]; [by rewrite Htst|by rewrite Hcst|]. by destruct (Hrest r Hr) as (_ & -> & _).
  - intros Hr Hk. rewrite elem_of_app, !elem_of_cons, elem_of_nil in Hr. destruct Hr as [[->|[->|[]]]|Hr]; [congruence|by exists t|].
    destruct (Hrest r Hr) as (_ & _ & Hk' & _). congruence.
  - intros Hr (_ & Hk & _). exists typed. rewrite elem_of_app, !elem_of_cons, elem_of_nil in Hr |- *.
    destruct Hr as [[->|[->|[]]]|Hr]; [congruence|rewrite Hcid; tauto|]. destruct (Hrest r Hr) as (_ & _ & Hk' & _). congruence.
  - intros x Hr Hs Hx. rewrite elem_of_app, !elem_of_cons, elem_of_nil in Hr. destruct Hr as [[->|[->|[]]]|Hr].
    + rewrite Htid in Hx. apply append_inj_r in Hx as <-. rewrite !fmap_app, <-Hcid.
      apply elem_of_app. right. apply elem_of_app. left. apply list_elem_of_further, list_elem_of_here.
    + unfold is_stop in Hs. by rewrite Hck in Hs.
    + destruct (Hrest r Hr) as (_ & _ & _ & Hns). congruence.
Qed.

(** The id of the record of the stop is a new one. *)
Lemma stop_id_fresh db db1 typed charge x : Booked db → rows_of db1 = rows_of db ++ [typed; charge] →
  rq_status typed = Committed → rq_status charge = Committed →
  record_of (bs_db db1) x Committed = None → record_of (bs_db db1) x Discarded = None →
  x ∉ rq_id <$> rows_of db ++ [typed; charge].
Proof.
  intros Hb E Ht Hc Hsc Hsd (r & Er & Hr)%list_elem_of_fmap. symmetry in Er. rewrite <-E in Hr.
  pose proof (proj1 (record_of_None _ _ _) Hsc r Hr Er). pose proof (proj1 (record_of_None _ _ _) Hsd r Hr Er).
  assert (rq_status r ≠ Staged); [|by destruct (rq_status r)]. rewrite E in Hr.
  apply elem_of_app in Hr as [Hr|Hr]; [by apply (bk_settled _ Hb)|].
  rewrite !elem_of_cons, elem_of_nil in Hr. destruct Hr as [->|[->|[]]]; congruence.
Qed.

Lemma restores_kind S r k : get (rq_intent r) "kind" = VStr k → k ≠ "restored" → restores S r = false.
Proof.
  intros E Hk. unfold restores. rewrite E. cbn [equals]. destruct (String.eqb_spec k "restored"); [done|]. by rewrite andb_false_r.
Qed.

(** The stop, its charge and what is recorded of the stop. *)
Lemma booked_stop db db3 id S t typed charge after :
  Booked db → charge_row charge id S t → budget_kind typed = false → (∀ S', restores S' typed = false) →
  rows_of db3 = rows_of db ++ [typed; charge] ++ after → bs_events db3 = bs_events db ++ [event_row S charge] →
  Fresh db ([typed; charge] ++ after) → (∀ r, r ∈ after → budget_kind r = false ∧ ∀ S', restores S' r = false) →
  Booked db3 ∧ ∃ extra charge, rows_of db3 = rows_of db ++ extra ∧ beside extra id S t ∧ charge ∈ extra ∧ charge_row charge id S t
    ∧ bs_events db3 = bs_events db ++ [event_row S charge].
Proof.
  intros Hb Hcr Htk Htr Er Ev Hf Ha. split.
  - apply (booked_charge db db3 id S t [typed] charge after); [done..|].
    intros r [->%list_elem_of_singleton|Hr]%elem_of_app; [done|by apply Ha].
  - exists ([typed; charge] ++ after), charge. split_and!; [done| |apply elem_of_app; left; apply list_elem_of_further, list_elem_of_here|done..].
    intros r [Hr|Hr]%elem_of_app Hk; [|by rewrite (proj1 (Ha r Hr)) in Hk].
    rewrite !elem_of_cons, elem_of_nil in Hr. destruct Hr as [->|[->|[]]]; [congruence|done].
Qed.

Lemma charged_counts_filled c t : counts_document (sort_items (charged_counts c t)) ≠ [].
Proof.
  intros E%(f_equal length). unfold counts_document in E. rewrite length_fmap, (Permutation_length (sort_items_perm _)) in E. done.
Qed.

(** The charge is staged, the stop takes its row in and is published, the charge
    after it. *)
Lemma stop_publishes db role actor S t id ev counts m db1 :
  Booked db → id ∉ rq_id <$> rows_of db → t ≠ "" → charge_row (new_row id ev) id S t → counts ≠ [] →
  stop_sprint (push db (staged_row id ev)) role actor S (id +:+ TYPED_SUFFIX) counts m = Ok db1 →
  ∃ typed, rows_of db1 = rows_of db ++ [staged_row id ev; typed] ∧ rq_id typed = id +:+ TYPED_SUFFIX
    ∧ rq_id typed ∉ rq_id <$> rows_of db ∧ rq_status typed = Committed ∧ get (rq_intent typed) "kind" = VStr (enum_value SPRINT_STOPPED)
    ∧ bs_events db1 = bs_events db ++ [event_row S (new_row id ev)]
    ∧ ∃ row, dict_get (st_sprints (bs_db db1)) S = Some row ∧ sr_state row = SS_STOPPED.
Proof.
  intros Hb Hid Ht Hcr Hne Es. assert (id +:+ TYPED_SUFFIX ≠ id) as Hneq by (by apply append_neq).
  apply stop_sprint_ok in Es as [[-> (r & Hr & Hrid & Hrs)]|(row & e & db2 & Htc & Htd & Ea & -> & Hek)]; [..|done].
  - exfalso. rewrite rows_push in Hr. apply elem_of_app in Hr as [Hr| ->%list_elem_of_singleton]; [|by symmetry in Hrid].
    apply Hid. by eapply (bk_typed _ Hb r).
  - rewrite (apply_charge db id S t) in Ea by done. injection Ea as <-.
    apply push_record in Htc as [Htc _]. apply push_record in Htd as [Htd _].
    exists (new_row (id +:+ TYPED_SUFFIX) e). split_and!; [exact (eq_sym (assoc_L (++) (rows_of db) [staged_row id ev] [new_row (id +:+ TYPED_SUFFIX) e]))|done|by apply fresh_id|done..|].
    eexists. unfold push, set_state, update. cbn [bs_db st_sprints]. by rewrite dict_get_set_eq.
  - apply push_record. split; [by apply settled_not_staged|]. intros [E _]. by symmetry in E.
Qed.

(** The charge is known as staged until it is published. *)
Lemma staged_known db db1 id ev typed : id ∉ rq_id <$> rows_of db → rq_id typed ≠ id →
  rows_of db1 = rows_of db ++ [staged_row id ev; typed] →
  record_of (bs_db db1) id Committed = None ∧ record_of (bs_db db1) id Staged ≠ None.
Proof.
  intros Hid Hne Er1. split.
  - apply record_of_None. fold (rows_of db1). rewrite Er1. intros r Hr Hrid.
    rewrite elem_of_app, !elem_of_cons, elem_of_nil in Hr. destruct Hr as [Hr|[->|[->|[]]]]; [|done|congruence].
    destruct Hid. rewrite <-Hrid. by apply list_elem_of_fmap_2.
  - intros Hnone. apply (proj1 (record_of_None _ _ _) Hnone (staged_row id ev)); [|done..]. fold (rows_of db1). rewrite Er1.
    apply elem_of_app. right. left.
Qed.

Lemma finish_hard_fresh db role actor S t id src m c ev db' :
  Booked db → id ∉ rq_id <$> rows_of db → t ≠ "" → charge_row (new_row id ev) id S t → non_negative c →
  get (dict_or_empty (get (dict_or_empty (get ev "payload")) "budget")) "by_type" = VDict (counts_document (charged_counts c t)) →
  finish_hard_budget (push db (staged_row id ev)) role actor S t id src ev m = Ok db' →
  (Booked db' ∧ ∃ extra charge, rows_of db' = rows_of db ++ extra ∧ beside extra id S t ∧ charge ∈ extra ∧ charge_row charge id S t
    ∧ bs_events db' = bs_events db ++ [event_row S charge])
  ∧ ∃ row, dict_get (st_sprints (bs_db db')) S = Some row ∧ sr_state row = SS_STOPPED.
Proof.
  intros Hb Hid Ht Hcr Hc Hby E. unfold finish_hard_budget in E. destruct (_ && _); [|done]. cbn [require mbind res_bind] in E.
  rewrite (stored_counts_ok _ c t Hby Hc) in E. cbn [mbind res_bind] in E.
  destruct (stop_sprint _ _ _ _ _ _ _) as [db1|] eqn:Es; [|done]. cbn [mbind res_bind] in E.
  destruct (stop_publishes db _ _ S t _ _ _ _ _ Hb Hid Ht Hcr (charged_counts_filled c t) Es)
    as (typed & Er1 & Htid & Htf & Htst & Htk & Ev1 & Hrow).
  destruct (show_sprint _ _); [|done]. cbn [mbind res_bind] in E.
  assert (id +:+ TYPED_SUFFIX ≠ id) as Hne by (by apply append_neq).
  destruct (staged_known db db1 id ev typed) as [Hn Hs]; [done|by rewrite Htid|done|].
  rewrite Hn in E. destruct (record_of (bs_db db1) id Staged); [|done]. cbn [mbind res_bind] in E. set (db2 := settle_in _ _ _) in E.
  assert (rows_of db2 = rows_of db ++ [typed; new_row id ev]) as Er2
    by (apply (settle_rows db db1 id ev [typed]); [done|by intros r ->%list_elem_of_singleton; rewrite Htst|done]).
  assert (budget_kind typed = false ∧ ∀ S', restores S' typed = false) as [Hbk Hre].
  { unfold budget_kind. rewrite Htk. split; [done|]. intros S'. by eapply restores_kind. }
  apply record_hard_stop_ok in E as [->|(e' & -> & Hsc & Hsd & Hek')]; (split; [|exact Hrow]).
  - apply (booked_stop db db2 id S t typed (new_row id ev) []); [done..| |by intros r ?%not_elem_of_nil].
    apply (fresh_stop _ id S t); [done..| |by intros r ?%not_elem_of_nil]. apply NoDup_cons. split; [|apply NoDup_singleton].
    rewrite Htid. by intros ?%list_elem_of_singleton.
  - set (stop := new_row (id +:+ ":budget-hard-stop") e').
    assert (rq_id stop ∉ rq_id <$> rows_of db ++ [typed; new_row id ev]) as Hstop by (by apply (stop_id_fresh db db2)).
    assert (budget_kind stop = false ∧ is_stop stop = false) as [Hsk Hss]
      by (unfold budget_kind, is_stop, stop; cbn [new_row rq_intent]; by rewrite Hek').
    rewrite fmap_app, elem_of_app in Hstop.
    apply (booked_stop db _ id S t typed (new_row id ev) [stop]); [done|done|done|done|by rewrite rows_push, Er2, <-(assoc_L (++))|done|..].
    + apply (fresh_stop _ id S t); [done..| |].
      * rewrite fmap_app. apply NoDup_app. split_and!; [| |apply NoDup_singleton].
        -- apply NoDup_cons. split; [|apply NoDup_singleton]. rewrite Htid. by intros ?%list_elem_of_singleton.
        -- intros x Hx ->%list_elem_of_singleton. tauto.
      * intros r ->%list_elem_of_singleton. split_and!; [tauto|done..].
    + intros r ->%list_elem_of_singleton. split; [done|]. intros S'. by eapply restores_kind.
Qed.

(** A record that charges, restores and stops nothing. *)
Lemma booked_push db r : Booked db → rq_id r ∉ rq_id <$> rows_of db → rq_status r ≠ Staged →
  budget_kind r = false → (∀ S, restores S r = false) → is_stop r = false → Booked (push db r).
Proof.
  intros Hb Hn Hst Hk Hre Hs. apply (booked_plain db _ [r]); [done| |done|done|by intros x ->%list_elem_of_singleton].
  split; [apply NoDup_singleton|..]; intros x; [intros ->%list_elem_of_singleton; done..| | |].
  - intros ->%list_elem_of_singleton Hk'. congruence.
  - intros ->%list_elem_of_singleton (_ & Hk' & _). congruence.
  - intros y ->%list_elem_of_singleton Hs'. congruence.
Qed.

Lemma booked_push_kind db id e k : Booked db → id ∉ rq_id <$> rows_of db → get e "kind" = VStr k →
  k ∉ ["budget_recorded"; "restored"; enum_value SPRINT_STOPPED] → Booked (push db (new_row id e)).
Proof.
  intros Hb Hn Ek Hk. rewrite !elem_of_cons, elem_of_nil in Hk.
  apply booked_push; [done..|unfold budget_kind|intros S; eapply restores_kind; [exact Ek|tauto]|unfold is_stop];
    cbn [new_row rq_intent]; rewrite Ek; apply String.eqb_neq; tauto.
Qed.

Lemma finish_hard_known db role actor S t id src m ev db' :
  Booked db → record_of (bs_db db) id Committed = Some ev →
  equals (get ev "kind") "budget_recorded" = true →
  py_truthy (get (dict_or_empty (get ev "payload")) "hard_limit_stop") = true →
  finish_hard_budget db role actor S t id src ev m = Ok db' →
  Booked db' ∧ ∃ extra, rows_of db' = rows_of db ++ extra ∧ beside extra id S t.
Proof.
  intros Hb Hid Hk Hh E. unfold finish_hard_budget in E. destruct (_ && _); [|done]. cbn [require mbind res_bind] in E.
  destruct (stored_counts _) as [counts|] eqn:Ec; [|done]. cbn [mbind res_bind] in E.
  destruct (stop_sprint _ _ _ _ _ _ _) as [db1|] eqn:Es; [|done]. cbn [mbind res_bind] in E.
  destruct (show_sprint _ _); [|done]. cbn [mbind res_bind] in E.
  apply record_of_Some in Hid as Hr. destruct Hr as (r & Hr & Er & Est & <-).
  destruct (bk_stopped _ Hb r Hr (conj Est (conj Hk Hh))) as (r' & Hr' & Er' & Est').
  assert (db1 = db) as ->.
  { unfold stop_sprint in Es. destruct (show_sprint _ _); [|done]. cbn [mbind res_bind] in Es.
    pose proof (committed_found _ _ Hr' Est') as Hn. rewrite Er', Er in Hn. change TYPED_SUFFIX with ":typed-hard-stop" in Hn.
    destruct (record_of _ (id +:+ ":typed-hard-stop") Committed); [|done]. destruct (same_stop _ _ _ _ _); [|done]. by injection Es. }
  rewrite Hid in E. cbn [mbind res_bind] in E.
  apply record_hard_stop_ok in E as [->|(e' & -> & Hsc & Hsd & Hek)].
  - split; [done|]. exists []. rewrite app_nil_r. split; [done|]. by intros x ?%not_elem_of_nil.
  - split; [eapply booked_push_kind; [done|by apply fresh_id|exact Hek|by apply (bool_decide_unpack _); vm_compute]|].
    eexists. split; [apply rows_push|]. intros x ->%list_elem_of_singleton. unfold budget_kind. cbn [new_row rq_intent]. by rewrite Hek.
Qed.

(** A charge under an id no record has: its record, its row and, where it reaches
    the threshold of an open sprint, the stop. *)
Lemma record_budget_fresh db role actor S t id src m db' :
  Booked db → record_of (bs_db db) id Committed = None → record_budget th db role actor S t id src m = Ok db' →
  (Booked db' ∧ ∃ extra charge, rows_of db' = rows_of db ++ extra ∧ beside extra id S t ∧ charge ∈ extra ∧ charge_row charge id S t
    ∧ bs_events db' = bs_events db ++ [event_row S charge])
  ∧ t ∈ BUDGET_RECORDED_EVENT_TYPES
  ∧ ∃ row row', show_sprint (bs_db db) S = Ok row ∧ show_sprint (bs_db db') S = Ok row'
    ∧ sr_state row' = if bool_decide (t ∈ BUDGET_EVENT_TYPES) && bool_decide (sr_state row = SS_OPEN)
                         && (th_hard th <=? sum_counts (tally (grouped db S true) BUDGET_EVENT_TYPES) + 1)
                      then SS_STOPPED else sr_state row.
Proof.
  intros Hb Hid E. unfold record_budget in E. destruct (admit_role _ _ _); [|done]. cbn [mbind res_bind] in E.
  destruct (bool_decide_reflect (t ∈ BUDGET_RECORDED_EVENT_TYPES)) as [Ht|]; [|done]. cbn [require mbind res_bind] in E.
  rewrite Hid, (settled_not_staged db id Hb) in E.
  destruct (snapshot th db S) as [[st budget]|] eqn:Es; [|done]. cbn [mbind res_bind] in E.
  apply snapshot_ok in Es as (-> & row & Hrow & <-). cbn [budget_of bg_by_type bg_total] in E.
  pose proof (recorded_nonempty t Ht) as Hne. destruct (bool_decide (t ∈ BUDGET_EVENT_TYPES) && _ && _) eqn:Estop.
  - rewrite from_legacy_bump in E by apply grouped_non_negative. cbn [mbind res_bind] in E. set (ev := new_event _ _ _ _ _ _ _) in E.
    destruct (stage_in db id ev) as [db1|] eqn:Eg; [|done]. apply stage_in_ok in Eg as [Hd ->]. cbn [mbind res_bind] in E.
    apply (finish_hard_fresh _ _ _ _ _ _ _ _ (grouped db S true)) in E as (Hx & row' & Hget & Hst);
      [|done|by apply fresh_id|done|done|apply grouped_non_negative|done].
    split; [exact Hx|]. split; [done|]. exists row, row'. split_and!; [done|unfold show_sprint; by rewrite Hget|by rewrite Estop].
  - apply write_charge_ok in E as (Hb' & r & Er & Hcr & Hsp & Hev); [|done..]. split_and!; [done| |done|].
    + exists [r], r. split_and!; [done| |by apply list_elem_of_singleton|done..]. by intros x ->%list_elem_of_singleton.
    + exists row, row. split_and!; [done|unfold show_sprint; by rewrite Hsp|by rewrite Estop].
Qed.

(** Whatever comes of it, one call keeps the books, and the charge is on them. *)
Lemma record_budget_ok db role actor S t id src m db' :
  Booked db → record_budget th db role actor S t id src m = Ok db' →
  Booked db' ∧ record_of (bs_db db') id Committed ≠ None
  ∧ ∃ extra, rows_of db' = rows_of db ++ extra ∧ beside extra id S t.
Proof.
  intros Hb E. destruct (record_of (bs_db db) id Committed) as [ev|] eqn:Eid.
  - assert (∀ db0 extra, rows_of db0 = rows_of db ++ extra → record_of (bs_db db0) id Committed ≠ None) as Hmono.
    { intros db0 extra Er E0. apply record_of_Some in Eid as (r & Hr & Hrid & Hst & _).
      apply (proj1 (record_of_None _ _ _) E0 r); [|done..]. fold (rows_of db0). rewrite Er. apply elem_of_app. by left. }
    unfold record_budget in E. destruct (admit_role _ _ _); [|done]. cbn [mbind res_bind] in E.
    destruct (bool_decide (t ∈ BUDGET_RECORDED_EVENT_TYPES)); [|done]. cbn [require mbind res_bind] in E. rewrite Eid in E.
    destruct (is_typed ev); [done|]. destruct (equals (get ev "kind") "budget_recorded") eqn:Ek; [|done]. cbn [negb] in E.
    destruct (py_truthy _) eqn:Eh.
    + destruct (finish_hard_known _ _ _ _ _ _ _ _ _ _ Hb Eid Ek Eh E) as (Hb' & extra & Er & Hbe).
      split_and!; [done|by eapply Hmono|by eauto].
    + destruct (show_sprint _ _); [|done]. cbn [mbind res_bind] in E. injection E as <-.
      split_and!; [done|by rewrite Eid|]. exists []. rewrite app_nil_r. split; [done|]. by intros x ?%not_elem_of_nil.
  - apply record_budget_fresh in E as ((Hb' & extra & r & Er & Hbe & Hr & Hcr & _) & _); [|done..].
    split_and!; [done| |by eauto]. destruct Hcr as (Hrid & Hst & _). rewrite <-Hrid. apply committed_found; [|done].
    fold (rows_of db'). rewrite Er. apply elem_of_app. by right.
Qed.

(** ** The pass *)

Lemma append_marker_ok db id e db' :
  Booked db → (∃ k, get e "kind" = VStr k ∧ k ∉ ["budget_recorded"; "restored"; enum_value SPRINT_STOPPED]) →
  append_marker db id e = Ok db' →
  Booked db' ∧ record_of (bs_db db') id Committed ≠ None
  ∧ ∃ extra, rows_of db' = rows_of db ++ extra ∧ ∀ r, r ∈ extra → budget_kind r = false.
Proof.
  intros Hb (k & Ek & Hk) E. unfold append_marker in E. rewrite (settled_not_staged db id Hb) in E.
  destruct (record_of (bs_db db) id Committed) as [ev|] eqn:Eid.
  - destruct (py_eq _ _); [|done]. cbn in E. injection E as <-. split_and!; [done|by rewrite Eid|].
    exists []. rewrite app_nil_r. split; [done|]. by intros r ?%not_elem_of_nil.
  - apply commit_in_ok in E as [Hd ->]. split_and!.
    + eapply booked_push_kind; [done|by apply fresh_id|exact Ek|exact Hk].
    + intros E. apply push_record in E as [_ Hn]. by apply Hn.
    + eexists. split; [apply rows_push|]. intros r ->%list_elem_of_singleton. unfold budget_kind. cbn [new_row rq_intent].
      rewrite Ek. apply String.eqb_neq. rewrite elem_of_cons in Hk. tauto.
Qed.

(** What one turn adds: nothing charged, or one charge of this event, of the type
    the classifier gives it, under its identity. *)
Lemma charge_event_ok w db event cache db' cache' :
  Booked db → charge_event th w db event cache = Ok (db', cache') →
  Booked db' ∧ ∃ extra, rows_of db' = rows_of db ++ extra
    ∧ ∀ r, r ∈ extra → budget_kind r = true →
      ∃ S t, charge_row r (CHARGE_PREFIX +:+ event_identity event) S t ∧ classify event = Ok (Some t).
Proof.
  intros Hb E. unfold charge_event in E.
  assert (Booked db ∧ ∃ extra, rows_of db = rows_of db ++ extra
    ∧ ∀ r, r ∈ extra → budget_kind r = true →
      ∃ S t, charge_row r (CHARGE_PREFIX +:+ event_identity event) S t ∧ classify event = Ok (Some t)) as Hsame.
  { split; [done|]. exists []. rewrite app_nil_r. split; [done|]. by intros r ?%not_elem_of_nil. }
  assert (∀ db1 id e k, get e "kind" = VStr k → k ∉ ["budget_recorded"; "restored"; enum_value SPRINT_STOPPED] →
    append_marker db id e = Ok db1 → Booked db1 ∧ ∃ extra, rows_of db1 = rows_of db ++ extra
    ∧ ∀ r, r ∈ extra → budget_kind r = true →
      ∃ S t, charge_row r (CHARGE_PREFIX +:+ event_identity event) S t ∧ classify event = Ok (Some t)) as Hmark.
  { intros db1 id e k Ek Hk Ea. destruct (append_marker_ok _ _ _ _ Hb (ex_intro _ k (conj Ek Hk)) Ea) as (Hb1 & _ & extra & Er & Hx).
    split; [done|]. exists extra. split; [done|]. intros r Hr Hk'. by rewrite Hx in Hk'. }
  destruct (_ || _ || _); [injection E as <- <-; done|].
  destruct (classify event) as [[t|]|[cls message]] eqn:Ec.
  - destruct (event_sprint w event cache) as [[S|] cache1]; [|injection E as <- <-; done].
    destruct (nonempty S).
    + destruct (record_budget _ _ _ _ _ _ _ _ _) as [db1|] eqn:Er; [|done]. cbn in E. injection E as <- <-.
      apply record_budget_ok in Er as (Hb1 & _ & extra & Ex & Hbe); [|done]. split; [done|]. exists extra. split; [done|].
      intros r Hr Hk. exists S, t. split; [by apply Hbe|done].
    + unfold record_unlinked_budget_event in E. destruct (append_marker _ _ _) as [db1|] eqn:Ea; [|done].
      cbn in E. injection E as <- <-. eapply Hmark; [| |exact Ea]; [reflexivity|by apply (bool_decide_unpack _); vm_compute].
  - unfold record_unclassified_budget_event in E. destruct (append_marker _ _ _) as [db1|] eqn:Ea; [|done].
    cbn in E. injection E as <- <-. eapply Hmark; [| |exact Ea]; [reflexivity|by apply (bool_decide_unpack _); vm_compute].
  - destruct (String.eqb cls _); [|done]. unfold record_unclassified_budget_event in E.
    destruct (append_marker _ _ _) as [db1|] eqn:Ea; [|done]. cbn in E. injection E as <- <-. eapply Hmark; [| |exact Ea]; [reflexivity|by apply (bool_decide_unpack _); vm_compute].
Qed.

(** Every charge under a charge id is of an event on the books, of the type the
    classifier gives it. *)
Definition Sourced (rows : list Row) : Prop :=
  ∀ r, r ∈ rows → budget_kind r = true → String.prefix CHARGE_PREFIX (rq_id r) = true →
  ∃ r0 S t, r0 ∈ rows ∧ rq_status r0 = Committed ∧ charge_row r (CHARGE_PREFIX +:+ event_identity (rq_intent r0)) S t
    ∧ classify (rq_intent r0) = Ok (Some t).

Lemma Sourced_app rows extra : Sourced rows →
  (∀ r, r ∈ extra → budget_kind r = true → String.prefix CHARGE_PREFIX (rq_id r) = true →
   ∃ r0 S t, r0 ∈ rows ∧ rq_status r0 = Committed ∧ charge_row r (CHARGE_PREFIX +:+ event_identity (rq_intent r0)) S t
     ∧ classify (rq_intent r0) = Ok (Some t)) → Sourced (rows ++ extra).
Proof.
  intros Hs Hx r [Hr|Hr]%elem_of_app Hk Hp.
  - destruct (Hs r Hr Hk Hp) as (r0 & S & t & Hr0 & ?). exists r0, S, t. split; [|done]. apply elem_of_app. by left.
  - destruct (Hx r Hr Hk Hp) as (r0 & S & t & Hr0 & ?). exists r0, S, t. split; [|done]. apply elem_of_app. by left.
Qed.

Lemma charge_events_ok w page db cache :
  Booked db → Sourced (rows_of db) →
  (∀ e, e ∈ page → ∃ r, r ∈ rows_of db ∧ rq_status r = Committed ∧ rq_intent r = e) →
  let db' := (charge_events th w db page cache).1 in Booked db' ∧ Sourced (rows_of db').
Proof.
  revert db cache. induction page as [|event page IH]; intros db cache Hb Hs Hpage; [done|]. cbn [charge_events].
  destruct (charge_event th w db event cache) as [[db1 cache1]|] eqn:E; [|done].
  apply charge_event_ok in E as (Hb1 & extra & Er & Hx); [|done]. apply IH; [done| |].
  - rewrite Er. apply Sourced_app; [done|]. intros r Hr Hk _. destruct (Hx r Hr Hk) as (S & t & Hcr & Hc).
    destruct (Hpage event) as (r0 & Hr0 & Hst & E0); [left|]. exists r0, S, t. by rewrite E0.
  - intros e He. destruct (Hpage e) as (r0 & Hr0 & ?); [by right|]. exists r0. split; [|done]. rewrite Er. apply elem_of_app. by left.
Qed.

Lemma page_on_books db n e : e ∈ uncharged_budget_candidates db n → ∃ r, r ∈ st_requests db ∧ rq_status r = Committed ∧ rq_intent r = e.
Proof.
  unfold uncharged_budget_candidates. rewrite <-fmap_take. intros (r & -> & Hr)%list_elem_of_fmap.
  apply (sublist_subseteq _ _ (sublist_take _ n)) in Hr.
  apply list_elem_of_In, filter_In in Hr as [Hr Hu]. apply list_elem_of_In in Hr. exists r. split_and!; [done| |done].
  unfold is_uncharged in Hu. apply andb_true_iff in Hu as [[Hst _]%andb_true_iff _]. by apply bool_decide_eq_true in Hst.
Qed.
End facts.
