(* ===== verification/BudgetRuns.v ===== *)
(** * Runs of the budget pass

    The books are kept over any run of passes, charges, restores and other writes,
    and the charge that reaches the hard threshold stops its sprint. *)

From stdpp Require Import relations.
From S2P Require Import Prelude PyText JsonText Sha256 PyStrings Board TerminalTaxonomy WaitCard GateBackend E2eBudget E2eLedger.
From S2P Require Import BudgetCandidates BudgetCandidatesFacts BudgetLedger BudgetLedgerFacts.

Section runs.
Context `{PyRepr, SqlRepr, JsonText, !JsonStr}.

(** ** A restore *)

Lemma occurrences_of S id charged counts l : occurrences S id charged counts = Ok l →
  ∀ e, e ∈ l → be_sprint e = S ∧ be_request e = id.
Proof.
  revert l. induction counts as [|[t v] counts IH]; intros l E e He; cbn in E.
  - injection E as <-. by apply not_elem_of_nil in He.
  - inv_ok. apply elem_of_app in He as [(k & -> & _)%list_elem_of_fmap|He]; [done|by eapply IH].
Qed.

Lemma dict_has_keys {A} (d : list (string * A)) k : dict_has d k = bool_decide (k ∈ d.*1).
Proof.
  unfold dict_has. destruct (dict_get d k) eqn:E; symmetry.
  - apply bool_decide_eq_true, dec_stable. intros Hn%dict_get_None_keys. congruence.
  - by apply bool_decide_eq_false, dict_get_None_keys.
Qed.

Definition carries (values : Fields) : bool := dict_has values "sprint_budget" || dict_has values "sprint_budget_uncharged".

Lemma fields_carry (values : Fields) :
  existsb (λ v, equals v "sprint_budget" || equals v "sprint_budget_uncharged") (VStr <$> (sort_items values).*1) = carries values.
Proof.
  unfold carries. rewrite !dict_has_keys. apply eq_true_iff_eq. rewrite existsb_exists, orb_true_iff, !bool_decide_eq_true.
  assert (∀ k, k ∈ (sort_items values).*1 ↔ k ∈ values.*1) as Hk by (intros k; by rewrite (sort_items_perm values)).
  rewrite <-!Hk. split.
  - intros (v & (s & -> & Hs)%list_elem_of_In%list_elem_of_fmap & [<-%String.eqb_eq|<-%String.eqb_eq]%orb_true_iff); auto.
  - intros [Hs|Hs]; (eexists; split; [by apply list_elem_of_In, list_elem_of_fmap_2|done]).
Qed.

Lemma restores_event S S' id values m :
  restores S' (new_row id (new_event "restored" "steward" "restore" S id m [("fields", VList (VStr <$> (sort_items values).*1))]))
  = bool_decide (S' = S) && carries values.
Proof.
  rewrite <-fields_carry. unfold restores.
  change (String.eqb S S' && existsb (λ v, equals v "sprint_budget" || equals v "sprint_budget_uncharged") (VStr <$> (sort_items values).*1)
    = bool_decide (S' = S) && existsb (λ v, equals v "sprint_budget" || equals v "sprint_budget_uncharged") (VStr <$> (sort_items values).*1)).
  f_equal. destruct (String.eqb_spec S S'); symmetry; [by apply bool_decide_eq_true|apply bool_decide_eq_false; congruence].
Qed.

(** A restore puts the rows of its values in the place of the sprint's. *)
Lemma apply_restored db id S e values db' : Booked db →
  get e "ref" = VStr S → get e "kind" = VStr "restored" → apply_budget (push db (staged_row id e)) S values = Ok db' →
  if carries values then ∃ fresh, bs_events db' = filter (λ x, be_sprint x ≠ S) (bs_events db) ++ fresh
    ∧ ∀ x, x ∈ fresh → be_sprint x = S ∧ be_request x = id
  else db' = push db (staged_row id e).
Proof.
  intros Hb Hr Hk. unfold apply_budget. fold (carries values). destruct (carries values); [|by intros [= <-]].
  assert (insert_charged (push db (staged_row id e)) S = push db (staged_row id e)) as ->.
  { unfold insert_charged. by rewrite staged_request_push, Hr, Hk, andb_false_r. }
  rewrite staged_request_push, Hr, Hk by done. cbn [equals]. rewrite String.eqb_refl. cbn [String.eqb Ascii.eqb Bool.eqb andb].
  intros E. inv_ok. eexists. split; [reflexivity|].
  intros y [Hy|Hy]%elem_of_app; [exact (occurrences_of _ _ _ _ _ E2 y Hy)|exact (occurrences_of _ _ _ _ _ E4 y Hy)].
Qed.

Lemma booked_restored db db' S r fresh :
  Booked db → Fresh db [r] → rows_of db' = rows_of db ++ [r] → budget_kind r = false →
  (∀ S', restores S' r = bool_decide (S' = S)) → bs_events db' = filter (λ x, be_sprint x ≠ S) (bs_events db) ++ fresh →
  (∀ x, x ∈ fresh → be_sprint x = S ∧ be_request x = rq_id r) → Booked db'.
Proof.
  intros Hb Hf Er Hk Hres Ev Hx. apply (booked_rows db _ _ Hb Hf Er).
  - intros S'. destruct (decide (S' = S)) as [->|Hne].
    + exists fresh. split; [|intros e He; exists r; split_and!;
        [rewrite Er; apply elem_of_app; right; by apply list_elem_of_singleton|symmetry; by apply Hx|by rewrite Hres, bool_decide_eq_true_2]].
      unfold events_of. rewrite Ev, Er, since_snoc, Hres, bool_decide_eq_true_2, filter_app by done.
      cbn [List.filter fmap list_fmap]. rewrite app_nil_r.
      rewrite filter_nothing by (by intros x [? _]%list_elem_of_filter ?). cbn [app].
      apply filter_everything. intros x ?%Hx. tauto.
    + destruct (bk_events _ Hb S') as (base & Ee & Hbase). exists base. split.
      * unfold events_of in *. rewrite Ev, Er, since_app, List.filter_app, filter_app
          by (intros x ->%list_elem_of_singleton; by rewrite Hres, bool_decide_eq_false_2).
        rewrite (filter_nothing _ fresh) by (intros x [Hs _]%Hx; congruence).
        rewrite app_nil_r, (no_charges [r]), app_nil_r by (by intros x ->%list_elem_of_singleton).
        rewrite <-Ee. rewrite list_filter_filter_l; [done|]. intros x Hs. congruence.
      * intros e He. destruct (Hbase e He) as (r' & Hr' & ?). exists r'. split; [|done]. rewrite Er. apply elem_of_app. by left.
  - intros e He. rewrite Ev in He.
    apply elem_of_app in He as [[_ He]%list_elem_of_filter|He]; [by left|right]. apply list_elem_of_singleton. by apply Hx.
Qed.

Lemma restore_ok th db S id values m db' : Booked db → restore th db S id values m = Ok db' →
  Booked db' ∧ ∃ extra, rows_of db' = rows_of db ++ extra ∧ ∀ r, r ∈ extra → budget_kind r = false.
Proof.
  intros Hb E. unfold restore in E. rewrite (settled_not_staged db id Hb) in E.
  destruct (record_of (bs_db db) id Committed) as [known|] eqn:Hid.
  { inv_ok. split; [done|]. exists []. rewrite app_nil_r. split; [done|]. by intros r ?%not_elem_of_nil. }
  destruct (snapshot _ _ _); [|done]. cbn [mbind res_bind] in E.
  pose proof (λ S', restores_event S S' id values m) as Hres. set (ev := new_event _ _ _ _ _ _ _) in *.
  destruct (stage_in db id ev) as [db1|] eqn:Es; [|done]. apply stage_in_ok in Es as [Hd ->]. cbn [mbind res_bind] in E.
  destruct (apply_budget _ _ _) as [db2|] eqn:Ea; [|done]. cbn [mbind res_bind] in E. injection E as <-.
  assert (rows_of (settle_in db2 id ev) = rows_of db ++ [new_row id ev]) as Er.
  { apply (settle_rows db db2 id ev []); [done|by intros r ?%not_elem_of_nil|].
    unfold rows_of. by rewrite (apply_budget_db _ _ _ _ Ea). }
  split; [|exists [new_row id ev]; split; [done|by intros r ->%list_elem_of_singleton]].
  assert (Fresh db [new_row id ev]) as Hf.
  { pose proof (fresh_id db id Hb Hid Hd) as Hfresh. split; [apply NoDup_singleton|..]; intros r;
      [intros ->%list_elem_of_singleton..|by intros x ->%list_elem_of_singleton]; [done|done|done|by intros (_ & ? & _)]. }
  apply apply_restored in Ea; [|done..]. destruct (carries values).
  - destruct Ea as (fresh & Ev & Hx). apply (booked_restored db _ S (new_row id ev) fresh Hb Hf Er); [done| |done|done].
    intros S'. by rewrite Hres, andb_true_r.
  - subst db2. apply (booked_plain db _ _ Hb Hf Er); [done|]. intros r ->%list_elem_of_singleton. split; [done|].
    intros S'. by rewrite Hres, andb_false_r.
Qed.

(** *** A restored budget is the exported one *)

Lemma occurrences_counts S id charged c : dict_wf c → non_negative c →
  ∃ l, occurrences S id charged (counts_document c) = Ok l
    ∧ ∀ charged' t, counted charged' t l = if bool_decide (charged' = charged) then Z.to_nat (count_in c t) else 0%nat.
Proof.
  induction c as [|[t n] c IH]; intros Hwf Hc.
  { exists []. split; [done|]. intros charged' t. by destruct (bool_decide _). }
  apply NoDup_cons in Hwf as [Hn Hwf]. apply dict_get_None_keys in Hn. cbn [fst] in Hn.
  destruct IH as (l & El & Hl); [done| |].
  { intros t'. pose proof (Hc t') as Hct. unfold count_in in *. cbn [dict_get] in Hct.
    destruct (String.eqb_spec t t') as [Heq|]; [by rewrite <-Heq, Hn|done]. }
  cbn [counts_document fmap list_fmap occurrences py_int mbind res_bind fst snd]. fold (counts_document c). rewrite El. cbn [mbind res_bind].
  eexists. split; [reflexivity|]. intros charged' t'. rewrite counted_app, Hl. unfold counted.
  assert (count_in ((t, n) :: c) t' = if decide (t' = t) then n else count_in c t') as ->.
  { unfold count_in. cbn. destruct (String.eqb_spec t t'), (decide (t' = t)); congruence || done. }
  destruct (decide (charged' = charged ∧ t' = t)) as [[-> ->]|Hne].
  - rewrite filter_everything by (by intros e (k & -> & _)%list_elem_of_fmap). rewrite length_fmap, length_seq.
    rewrite decide_True, bool_decide_eq_true_2 by done. unfold count_in. rewrite Hn. cbn. lia.
  - rewrite filter_nothing by (intros e (k & -> & _)%list_elem_of_fmap [? ?]; naive_solver). cbn [length Nat.add].
    case_bool_decide; [|done]. rewrite decide_False by naive_solver. done.
Qed.

Lemma sorted_tally_wf c names : NoDup names → dict_wf (sort_items (tally c names)).
Proof.
  intros Hn. apply sort_items_wf. unfold dict_wf, tally. rewrite <-list_fmap_compose. unfold compose. cbn [fst]. by rewrite list_fmap_id.
Qed.

Lemma count_sorted_tally c names t : NoDup names → count_in (sort_items (tally c names)) t = count_in (tally c names) t.
Proof.
  intros Hn. unfold count_in. f_equal. symmetry. apply dict_get_perm; [|symmetry; apply sort_items_perm].
  unfold dict_wf. rewrite <-(sort_items_perm (tally c names)). by apply sorted_tally_wf.
Qed.

Lemma apply_exported th db id S e c u l k : Booked db → get e "ref" = VStr S → get e "kind" = VStr "restored" →
  occurrences S id true (counts_document (sort_items (tally c BUDGET_EVENT_TYPES))) = Ok l →
  occurrences S id false (counts_document (sort_items (tally u BUDGET_UNCHARGED_EVENT_TYPES))) = Ok k →
  apply_budget (push db (staged_row id e)) S (restored_values (budget_of th c u))
  = Ok (push db (staged_row id e) <| bs_events := filter (λ x, be_sprint x ≠ S) (bs_events db) ++ l ++ k |>).
Proof.
  intros Hb Hr Hk El Ek. unfold apply_budget.
  assert (dict_has (restored_values (budget_of th c u)) "sprint_budget" = true) as -> by done. cbn [orb].
  assert (insert_charged (push db (staged_row id e)) S = push db (staged_row id e)) as ->.
  { unfold insert_charged. by rewrite staged_request_push, Hr, Hk, andb_false_r. }
  rewrite staged_request_push, Hr, Hk by done. cbn [equals]. rewrite String.eqb_refl. cbn [String.eqb Ascii.eqb Bool.eqb andb].
  change (dict_get (restored_values (budget_of th c u)) "sprint_budget")
    with (Some (VDict [("by_type", VDict (counts_document (sort_items (tally c BUDGET_EVENT_TYPES))))])).
  change (dict_get (restored_values (budget_of th c u)) "sprint_budget_uncharged")
    with (Some (VDict (counts_document (sort_items (tally u BUDGET_UNCHARGED_EVENT_TYPES))))).
  cbn [from_option Datatypes.id items dict_get String.eqb Ascii.eqb Bool.eqb mbind res_bind]. rewrite El. cbn [mbind res_bind]. rewrite Ek. done.
Qed.

Lemma event_types_distinct : NoDup BUDGET_EVENT_TYPES.
Proof. apply (bool_decide_unpack _). by vm_compute. Qed.

Lemma tally_ext c c' names : (∀ t, t ∈ names → count_in c t = count_in c' t) → tally c names = tally c' names.
Proof. intros Heq. unfold tally. apply list_fmap_ext. intros i n Hn%list_elem_of_lookup_2. by rewrite Heq. Qed.

(** The counts a sprint was exported with are the counts its restore shows. *)
Lemma restored_budget_shows th db S id m b db0 S0 db' : Booked db → record_of (bs_db db) id Committed = None →
  shown_budget th db0 S0 = Ok b → restore th db S id (restored_values b) m = Ok db' → shown_budget th db' S = Ok b.
Proof.
  intros Hb Hid Hb0 E. rewrite shown_counts in Hb0. injection Hb0 as <-. rewrite shown_counts.
  unfold restore in E. rewrite Hid, (settled_not_staged db id Hb) in E.
  destruct (snapshot _ _ _); [|done]. cbn [mbind res_bind] in E. set (ev := new_event _ _ _ _ _ _ _) in *.
  destruct (stage_in db id ev) as [db1|] eqn:Es; [|done]. apply stage_in_ok in Es as [Hd ->]. cbn [mbind res_bind] in E.
  assert (∀ charged names, NoDup names → ∃ l,
    occurrences S id charged (counts_document (sort_items (tally (grouped db0 S0 charged) names))) = Ok l
    ∧ (∀ e, e ∈ l → be_sprint e = S)
    ∧ (∀ t, t ∈ names → Z.of_nat (counted charged t l) = count_in (grouped db0 S0 charged) t)
    ∧ ∀ t, counted (negb charged) t l = 0%nat) as Hocc.
  { intros charged names Hn. pose proof (grouped_non_negative db0 S0 charged) as Hg.
    destruct (occurrences_counts S id charged (sort_items (tally (grouped db0 S0 charged) names))) as (l & El & Hl);
      [by apply sorted_tally_wf|intros t; rewrite count_sorted_tally by done; by apply tally_non_negative|].
    exists l. split_and!; [done|intros e He; by eapply occurrences_of|intros t Ht|intros t]; rewrite Hl.
    - rewrite bool_decide_eq_true_2, count_sorted_tally, count_tally by done. apply Z2Nat.id, Hg.
    - by rewrite bool_decide_eq_false_2 by (by destruct charged). }
  destruct (Hocc true BUDGET_EVENT_TYPES event_types_distinct) as (l & El & Sl & Hl & Nl).
  destruct (Hocc false BUDGET_UNCHARGED_EVENT_TYPES (NoDup_singleton _)) as (k & Ek & Sk & Hk & Nk).
  rewrite (apply_exported th db id S ev _ _ l k Hb eq_refl eq_refl El Ek) in E. cbn [mbind res_bind] in E. injection E as <-.
  assert (∀ charged t, count_in (grouped (settle_in (push db (staged_row id ev)
    <| bs_events := filter (λ x, be_sprint x ≠ S) (bs_events db) ++ l ++ k |>) id ev) S charged) t
    = Z.of_nat (counted charged t l + counted charged t k)) as Hnew.
  { intros charged t. rewrite count_grouped, <-counted_app. do 2 f_equal. unfold events_of.
    change (filter (λ e, be_sprint e = S) (filter (λ x, be_sprint x ≠ S) (bs_events db) ++ l ++ k) = l ++ k).
    rewrite filter_app, filter_nothing by (by intros x [? _]%list_elem_of_filter ?). cbn [app].
    apply filter_everything. intros x [?|?]%elem_of_app; auto. }
  unfold budget_of. rewrite (tally_ext (grouped (settle_in _ _ _) S true) (grouped db0 S0 true)),
    (tally_ext (grouped (settle_in _ _ _) S false) (grouped db0 S0 false)); [done|..];
    intros t Ht; rewrite Hnew, Nat2Z.inj_add.
  - rewrite <-(Hk t Ht), (Nl t : counted false t l = 0%nat). lia.
  - rewrite <-(Hl t Ht), (Nk t : counted true t k = 0%nat). lia.
Qed.

(** ** Runs *)

(** What happens to the store: a pass, cut after any of its transactions; a
    charge another command makes under an id of its own; a restore of a sprint;
    any other record; any change of the sprints' states.  (The replay of an
    exported history into a new board, which writes charge records and no rows, is
    none of them.) *)
Inductive budget_step (db : BStore) : BStore → Prop :=
| step_pass th w k :
    budget_step db (charge_events th w db (take k (uncharged_budget_candidates (bs_db db) BUDGET_CANDIDATE_PAGE)) []).1
| step_charge th role actor S t id src m db' :
    String.prefix CHARGE_PREFIX id = false →
    record_budget th db role actor S t id src m = Ok db' → budget_step db db'
| step_restore th S id values m db' :
    restore th db S id values m = Ok db' → budget_step db db'
| step_record r :
    rq_id r ∉ rq_id <$> rows_of db → rq_status r ≠ Staged →
    budget_kind r = false → (∀ S, restores S r = false) → is_stop r = false → budget_step db (push db r)
| step_sprints sprints :
    budget_step db (db <| bs_db := bs_db db <| st_sprints := sprints |> |>).

Lemma step_booked db db' : budget_step db db' → Booked db ∧ Sourced (rows_of db) → Booked db' ∧ Sourced (rows_of db').
Proof.
  intros Hstep [Hb Hs].
  destruct Hstep as [th w k|th role actor S t id src m db' Hp E|th S id values m db' E|r Hn Hst Hk Hre Hr|sprints].
  - apply charge_events_ok; [done..|]. intros e He. apply (sublist_subseteq _ _ (sublist_take _ k)) in He.
    by apply page_on_books in He.
  - apply record_budget_ok in E as (Hb' & _ & extra & Er & Hbe); [|done]. split; [done|]. rewrite Er.
    apply Sourced_app; [done|]. intros r Hr Hk Hpr. destruct (Hbe r Hr Hk) as (Hid & _). congruence.
  - apply restore_ok in E as (Hb' & extra & Er & Hx); [|done]. split; [done|]. rewrite Er.
    apply Sourced_app; [done|]. intros r Hr Hk. by rewrite (Hx r Hr) in Hk.
  - split; [by apply booked_push|]. rewrite rows_push. apply Sourced_app; [done|].
    intros x ->%list_elem_of_singleton Hk'. congruence.
  - split; [|done]. destruct Hb. by split.
Qed.

Definition empty_books (db : BStore) : Prop := rows_of db = [] ∧ bs_events db = [].

Lemma empty_booked db : empty_books db → Booked db ∧ Sourced (rows_of db).
Proof.
  intros [Er Eb]. assert (∀ r, r ∉ rows_of db) as Hno by (intros r; rewrite Er; apply not_elem_of_nil).
  split; [|by intros r ?%Hno]. split; fold (rows_of db).
  - rewrite Er. constructor.
  - by intros r ?%Hno.
  - intros S. exists []. unfold Kept, events_of. rewrite Eb, Er. split; [done|]. by intros e ?%not_elem_of_nil.
  - rewrite Eb. by intros e ?%not_elem_of_nil.
  - by intros r ?%Hno.
  - by intros r ?%Hno.
  - by intros r x ?%Hno.
Qed.

Lemma run_booked db0 db : empty_books db0 → rtc budget_step db0 db → Booked db ∧ Sourced (rows_of db).
Proof.
  intros Hempty%empty_booked Hrun. induction Hrun as [|x y z Hxy Hyz IH]; [done|]. apply IH. by eapply step_booked.
Qed.

Lemma event_row_type S r t : get (dict_or_empty (get (rq_intent r) "payload")) "event_type" = VStr t →
  be_type (event_row S r) = t ∧ be_charged (event_row S r) = negb (String.eqb t "infrastructure_blocked").
Proof. intros E. unfold event_row, budget_event. cbn [be_type be_charged]. by rewrite E, py_str_or_str. Qed.

(** A type's rows are its charges. *)
Lemma counted_charges S t rows : (∀ r, r ∈ rows → typed_charge r) →
  counted (negb (String.eqb t "infrastructure_blocked")) t (event_row S <$> List.filter (charge_of S) rows)
  = length (List.filter (is_charge_of S t) rows).
Proof.
  induction rows as [|r rows IH]; intros Hty; [done|]. specialize (IH (λ x Hx, Hty x (list_elem_of_further _ _ _ Hx))).
  cbn [List.filter]. unfold is_charge_of at 1. destruct (charge_of S r) eqn:Ec; [|done]. cbn [andb fmap list_fmap].
  destruct (Hty r (list_elem_of_here _ _)) as (t' & Et).
  { unfold charge_of in Ec. apply andb_true_iff in Ec as [[_ ?]%andb_true_iff _]. done. }
  destruct (event_row_type S r t' Et) as [Hty' Hch]. rewrite Et. cbn [equals]. unfold counted in *. rewrite filter_cons.
  destruct (String.eqb_spec t' t) as [->|Hne]; case_decide as Hd;
    rewrite Hty', Hch in Hd; cbn [length]; naive_solver.
Qed.

Lemma since_subset S rows r : r ∈ since S rows → r ∈ rows.
Proof.
  induction rows as [|x rows IH] using rev_ind; [done|]. rewrite since_snoc, elem_of_app.
  destruct (restores S x); [by intros ?%not_elem_of_nil|]. intros [?|?]%elem_of_app; auto.
Qed.

(** C7. Each event is charged once, and a sprint's budget says so. Over any
    interleaving of budget passes (each cut by a death after any of its
    transactions, each with card lookups that fail at will and thresholds of its
    own), of charges other commands make, of restores, of other records and of
    sprints opened, closed and stopped: the rows of the table that a sprint's
    budget is counted from are those its last restore wrote, and then exactly one
    for each charge recorded since, in order; so what its budget shows of each type
    is the number of its charge records of that type since, on top of what the
    restore wrote, which is nothing where there was no restore. No two records
    share a request id, so an event has at most one charge or marker; and every
    charge the pass made is of a committed event, under that event's identity, of
    the type the classifier gives it. *)
Theorem each_event_charged_once db0 db :
  empty_books db0 → rtc budget_step db0 db →
  (∀ th S, ∃ base b, shown_budget th db S = Ok b
     ∧ events_of db S = base ++ (event_row S <$> List.filter (charge_of S) (since S (rows_of db)))
     ∧ (∀ e, e ∈ base → ∃ r, r ∈ rows_of db ∧ rq_id r = be_request e ∧ restores S r = true)
     ∧ (∀ t, t ∈ BUDGET_EVENT_TYPES →
          dict_get (bg_by_type b) t = Some (Z.of_nat (counted true t base + charges (bs_db db) S t)))
     ∧ (∀ t, t ∈ BUDGET_UNCHARGED_EVENT_TYPES →
          dict_get (bg_uncharged b) t = Some (Z.of_nat (counted false t base + charges (bs_db db) S t))))
  ∧ NoDup (rq_id <$> rows_of db)
  ∧ (∀ r, r ∈ rows_of db → budget_kind r = true → String.prefix CHARGE_PREFIX (rq_id r) = true →
     ∃ r0 S t, r0 ∈ rows_of db ∧ rq_status r0 = Committed
       ∧ charge_row r (CHARGE_PREFIX +:+ event_identity (rq_intent r0)) S t ∧ classify (rq_intent r0) = Ok (Some t)).
Proof.
  intros Hempty Hrun. destruct (run_booked db0 db Hempty Hrun) as [Hb Hs].
  split_and!; [|apply (bk_ids _ Hb)|exact Hs]. intros th S.
  destruct (bk_events _ Hb S) as (base & Ee & Hbase). do 2 eexists.
  split_and!; [apply shown_counts|exact Ee|exact Hbase|..]; intros t Ht; cbn [budget_of bg_by_type bg_uncharged];
    rewrite dict_get_tally, count_grouped, Ee, counted_app by done; do 3 f_equal; unfold charges; fold (rows_of db);
    rewrite <-counted_charges by (intros r Hr%since_subset; by apply (bk_types _ Hb)); f_equal.
  - destruct (String.eqb_spec t "infrastructure_blocked") as [->|]; [|done].
    exfalso. revert Ht. by apply (bool_decide_unpack _); vm_compute.
  - by apply list_elem_of_singleton in Ht as ->.
Qed.

(** ** The stop *)

(** The charged rows of a sprint. *)
Definition spent (db : BStore) (S : string) : list BudgetEvent :=
  filter (λ e, be_charged e = true ∧ be_type e ∈ BUDGET_EVENT_TYPES) (events_of db S).

Lemma sum_counted names l : NoDup names →
  sum_counts ((λ t, (t, Z.of_nat (counted true t l))) <$> names)
  = Z.of_nat (length (filter (λ e, be_charged e = true ∧ be_type e ∈ names) l)).
Proof.
  induction names as [|n names IH]; intros Hnd.
  { rewrite filter_nothing by (by intros e _ [_ ?%not_elem_of_nil]). done. }
  apply NoDup_cons in Hnd as [Hn Hnd]. specialize (IH Hnd).
  change (Z.of_nat (counted true n l) + sum_counts ((λ t, (t, Z.of_nat (counted true t l))) <$> names)
    = Z.of_nat (length (filter (λ e, be_charged e = true ∧ be_type e ∈ n :: names) l))).
  rewrite IH, <-Nat2Z.inj_add. f_equal. unfold counted. clear IH. induction l as [|e l IH]; [done|].
  rewrite !filter_cons. pose proof (elem_of_cons names (be_type e) n) as Hmem.
  destruct (decide (be_charged e = true ∧ be_type e = n)), (decide (be_charged e = true ∧ be_type e ∈ names)),
    (decide (be_charged e = true ∧ be_type e ∈ n :: names)); cbn [length]; naive_solver lia.
Qed.

Lemma total_spent db S : sum_counts (tally (grouped db S true) BUDGET_EVENT_TYPES) = Z.of_nat (length (spent db S)).
Proof.
  unfold spent. rewrite <-sum_counted by apply event_types_distinct. f_equal. unfold tally. apply list_fmap_ext.
  intros i t _. by rewrite count_grouped.
Qed.

Lemma shown_total th db S : bg_total <$> shown_budget th db S = Ok (Z.of_nat (length (spent db S))).
Proof. by rewrite <-total_spent, shown_counts. Qed.

(** C20. The charge that reaches the hard threshold stops the sprint, and no other
    does. On any store a run reaches, the total a sprint's budget shows is the
    number of its charged rows in the table; a charge made under an id no record
    has adds its one row, shows one more in the total when its type is a charged
    one, and leaves the sprint stopped exactly when it was open and that total is
    at the threshold or beyond; an infrastructure failure is recorded, adds nothing
    to the total and leaves the sprint as it was. *)
Theorem hard_threshold_stops th db0 db role actor S t id src m db' :
  empty_books db0 → rtc budget_step db0 db → record_of (bs_db db) id Committed = None →
  record_budget th db role actor S t id src m = Ok db' →
  ∃ row row' event, show_sprint (bs_db db) S = Ok row ∧ show_sprint (bs_db db') S = Ok row'
    ∧ bs_events db' = bs_events db ++ [event] ∧ be_sprint event = S ∧ be_type event = t ∧ be_request event = id
    ∧ let total := Z.of_nat (length (spent db S)) in
      let charged := bool_decide (t ∈ BUDGET_EVENT_TYPES) in
      sr_state row' = (if charged && bool_decide (sr_state row = SS_OPEN) && (th_hard th <=? total + 1)
                       then SS_STOPPED else sr_state row)
      ∧ bg_total <$> shown_budget th db S = Ok total
      ∧ bg_total <$> shown_budget th db' S = Ok (total + if charged then 1 else 0).
Proof.
  intros Hempty Hrun Hid E. destruct (run_booked db0 db Hempty Hrun) as [Hb _].
  apply record_budget_fresh in E as ((_ & extra & r & _ & _ & _ & Hcr & Ev) & Ht & row & row' & Hrow & Hrow' & Hst); [|done..].
  destruct Hcr as (Hrid & _ & _ & _ & Ety). exists row, row', (event_row S r).
  destruct (event_row_type S r t Ety) as [Hty Hch].
  cbn zeta. rewrite <-total_spent. split_and!; [done|done|done|done|done|done|exact Hst|by rewrite shown_total, total_spent|].
  rewrite shown_total, total_spent. f_equal. unfold spent, events_of. rewrite Ev, !filter_app, length_app, Nat2Z.inj_add. f_equal.
  rewrite (filter_cons_True _ (event_row S r) []) by done. rewrite filter_nil, filter_cons.
  destruct (decide (be_charged _ = true ∧ _)) as [Hd|Hd]; rewrite Hty, Hch in Hd; case_bool_decide as Hin; try done; [naive_solver|].
  destruct Hd. split; [|done]. destruct (String.eqb_spec t "infrastructure_blocked") as [->|]; [|done].
  exfalso. revert Hin. by apply (bool_decide_unpack _); vm_compute.
Qed.
End runs.
