(* ===== verification/BudgetDrain.v ===== *)
(** * The budget pass drains its candidates

    When the board answers, a pass settles every candidate of its page and a
    backlog is gone after as many passes as it has pages; and the two ways in
    which a candidate keeps every later one from being reached. *)

From Stdlib Require Import Ascii.
From S2P Require Import Prelude PyText JsonText Sha256 PyStrings Board TerminalTaxonomy WaitCard GateBackend E2eBudget E2eLedger.
From S2P Require Import BudgetCandidates BudgetCandidatesFacts BudgetLedger BudgetLedgerFacts.

(** ** The ids of one charge *)

Fixpoint before_colon (s : string) : string :=
  match s with
  | String c s' => if Ascii.eqb c ":"%char then "" else String c (before_colon s')
  | "" => ""
  end.

Lemma before_colon_app i s : before_colon i = i → before_colon (i +:+ s) = i +:+ before_colon s.
Proof.
  induction i as [|c i IH]; [done|]. change (String c i +:+ s) with (String c (i +:+ s)).
  change (String c i +:+ before_colon s) with (String c (i +:+ before_colon s)). cbn [before_colon].
  destruct (Ascii.eqb c ":"%char); [done|]. intros [= Hi]. by rewrite IH.
Qed.

(** A charge, and the two records of the stop it may force. *)
Definition own_ids (id : string) : list string := [id; id +:+ ":typed-hard-stop"; id +:+ ":budget-hard-stop"].

Lemma before_colon_own i x : before_colon i = i → x ∈ own_ids (CHARGE_PREFIX +:+ i) → before_colon x = CHARGE_PREFIX +:+ i.
Proof.
  intros Hi Hx. assert (before_colon (CHARGE_PREFIX +:+ i) = CHARGE_PREFIX +:+ i) as Hp
    by (rewrite before_colon_app by done; by rewrite Hi).
  unfold own_ids in Hx. rewrite !elem_of_cons, elem_of_nil in Hx.
  destruct Hx as [->|[->|[->|[]]]]; [done|rewrite before_colon_app by done; apply str_app_nil..].
Qed.

Lemma own_apart i j x : before_colon i = i → before_colon j = j →
  x ∈ own_ids (CHARGE_PREFIX +:+ i) → x ∈ own_ids (CHARGE_PREFIX +:+ j) → i = j.
Proof.
  intros Hi Hj Hx Hy. apply (before_colon_own i) in Hx; [|done]. apply (before_colon_own j) in Hy; [|done].
  rewrite Hx in Hy. by apply (inj (String.append CHARGE_PREFIX)) in Hy.
Qed.

Lemma own_id id : id ∈ own_ids id.
Proof. left. Qed.

Section drain.
Context `{PyRepr, SqlRepr, JsonText, !JsonStr}.

Definition Clear (db : BStore) (id : string) : Prop := ∀ r, r ∈ rows_of db → rq_id r ∉ own_ids id.

Lemma clear_record db id x st : Clear db id → x ∈ own_ids id → record_of (bs_db db) x st = None.
Proof. intros Hc Hx. apply record_of_None. intros r Hr <- _. by apply (Hc r). Qed.

Lemma commit_in_returns db id e : record_of (bs_db db) id Discarded = None → commit_in db id e = Ok (push db (new_row id e)).
Proof. intros Hd. unfold commit_in, commit_event. by rewrite Hd. Qed.

(** The record is no candidate. *)
Definition quiet (r : Row) : Prop := selected (CANDIDATE_PREDICATE (rq_intent r)) = false.

Lemma and_quiet a b x : selected x = false → selected (and3 a (and3 b x)) = false.
Proof. by destruct a as [[]|], b as [[]|], x as [[]|]. Qed.

(** What a turn leaves: records of its own under its ids, none a candidate, the
    charge id taken, and every sprint still on the board. *)
Record Settles (db db' : BStore) (id : string) (extra : list Row) : Prop := {
  se_rows : rows_of db' = rows_of db ++ extra;
  se_own : ∀ r, r ∈ extra → rq_id r ∈ own_ids id;
  se_quiet : ∀ r, r ∈ extra → quiet r;
  se_taken : ∃ r, r ∈ extra ∧ rq_id r = id ∧ rq_status r = Committed;
  se_sprints : ∀ S, is_ok (show_sprint (bs_db db) S) = true → is_ok (show_sprint (bs_db db') S) = true;
}.

Lemma settles_push db id e : quiet (new_row id e) → Settles db (push db (new_row id e)) id [new_row id e].
Proof.
  intros Hq. split; [done|..|done].
  - intros r ->%list_elem_of_singleton. apply own_id.
  - by intros r ->%list_elem_of_singleton.
  - exists (new_row id e). split; [by apply list_elem_of_singleton|done].
Qed.

Lemma show_sprint_set (db : BStore) S row S' st :
  is_ok (show_sprint (bs_db db) S') = true → is_ok (show_sprint (bs_db (set_state db S row st)) S') = true.
Proof.
  unfold show_sprint, set_state, update. cbn [bs_db st_sprints]. destruct (decide (S = S')) as [->|Hne].
  - by rewrite dict_get_set_eq.
  - by rewrite dict_get_set_ne.
Qed.

(** ** One charge returns *)

Lemma admit_dispatcher actor : admit_role "dispatcher" actor [PO; DISPATCHER; STEWARD] = Ok DISPATCHER.
Proof. reflexivity. Qed.

(** A record without an edge, of a kind that is none of the four. *)
Lemma quiet_kind id e k : get e "kind" = VStr k → k ∉ ["verdict"; "card.verdict"; "moved"; "created"] →
  dict_get e "transition" = None → quiet (new_row id e).
Proof.
  intros Hk Hnot Ht. unfold get in Hk. destruct (dict_get e "kind") as [v|] eqn:Ek; [|done]. cbn in Hk. subst v.
  rewrite !elem_of_cons, elem_of_nil in Hnot. unfold quiet, CANDIDATE_PREDICATE. cbn [new_row rq_intent]. apply and_quiet.
  assert (∀ s, k ≠ s → eq3 (arrow_text (Some (VDict e)) "kind") (Some s) = Some false) as Hne.
  { intros s Hs. unfold arrow_text, arrow. cbn. rewrite Ek. cbn. by destruct (String.eqb_spec k s). }
  assert (arrow (Some (VDict e)) "transition" = None) as -> by exact Ht.
  cbn [in3 foldr]. rewrite !Hne by tauto. cbn [or3 and3 arrow_text arrow eq3 mbind option_bind selected].
  by destruct (like_infix _ _) as [[]|].
Qed.

Lemma quiet_typed role actor S id st counts m : quiet (new_row id (typed_stop role actor S id st counts m)).
Proof. apply and_quiet. reflexivity. Qed.

Lemma quiet_marker owner at_ kind prefix id src event payload :
  kind ∈ ["budget_unlinked"; "budget_unclassified"] → quiet (new_row id (marker_event owner at_ kind prefix id src event payload)).
Proof. rewrite !elem_of_cons, elem_of_nil. intros [->|[->|[]]]; (eapply quiet_kind; [reflexivity|set_solver|reflexivity]). Qed.

Lemma clear_fresh db id x : Clear db id → x ∈ own_ids id → x ∉ rq_id <$> rows_of db.
Proof. intros Hc Hx (r & -> & Hr)%list_elem_of_fmap. by apply (Hc r Hr). Qed.

Lemma stage_in_returns db id e : record_of (bs_db db) id Discarded = None → stage_in db id e = Ok (push db (staged_row id e)).
Proof. intros Hd. unfold stage_in, commit_event. by rewrite Hd. Qed.

Lemma write_charge_returns th db role actor S t id src charged m :
  Booked db → Clear db id → t ∈ BUDGET_RECORDED_EVENT_TYPES →
  ∃ db' r, write_charge th db role actor S t id src charged (budget_of th (grouped db S true) (grouped db S false)) m = Ok db'
    ∧ Settles db db' id [r].
Proof.
  intros Hb Hc Ht. unfold write_charge. cbn [budget_of bg_by_type bg_uncharged].
  rewrite from_legacy_bump by apply grouped_non_negative. set (ev := new_event _ _ _ _ _ _ _).
  rewrite stage_in_returns by (apply (clear_record db id); [done|apply own_id]).
  assert (∀ values, dict_has values "sprint_budget" || dict_has values "sprint_budget_uncharged" = true →
    ∃ db' r, (db1 ← apply_budget (push db (staged_row id ev)) S values; Ok (settle_in db1 id ev)) = Ok db' ∧ Settles db db' id [r]) as Hcom.
  { intros values Hv. rewrite (apply_charge db id S t); [|done|by apply (clear_fresh db id), own_id|done|by apply recorded_nonempty|done].
    cbn [mbind res_bind]. exists (settle_in (push db (staged_row id ev) <| bs_events := bs_events db ++ [event_row S (new_row id ev)] |>) id ev), (new_row id ev).
    split; [done|]. split; [by apply (settle_rows db _ id ev []); [|intros r ?%not_elem_of_nil|]|..|done].
    - intros r ->%list_elem_of_singleton. apply own_id.
    - intros r ->%list_elem_of_singleton. eapply quiet_kind; [reflexivity|set_solver|reflexivity].
    - exists (new_row id ev). split; [by apply list_elem_of_singleton|done]. }
  destruct charged; cbn [mbind res_bind]; by apply Hcom.
Qed.

Lemma clear_push db r id x st : Clear db id → x ∈ own_ids id → rq_id r ≠ x → record_of (bs_db (push db r)) x st = None.
Proof. intros Hc Hx Hne. apply push_record. split; [by eapply clear_record|]. by intros []. Qed.

Lemma own_stops id : id +:+ ":typed-hard-stop" ∈ own_ids id ∧ id +:+ ":budget-hard-stop" ∈ own_ids id.
Proof. unfold own_ids. split; [apply list_elem_of_further, list_elem_of_here|do 2 apply list_elem_of_further; apply list_elem_of_here]. Qed.

(** The typed stop of an open sprint, with the charge staged. *)
Lemma stop_sprint_returns db role actor S t id ev counts m row :
  Booked db → Clear db id → charge_row (new_row id ev) id S t → t ≠ "" → counts ≠ [] →
  show_sprint (bs_db db) S = Ok row → sr_state row = SS_OPEN →
  ∃ db1 e, stop_sprint (push db (staged_row id ev)) role actor S (id +:+ ":typed-hard-stop") counts m = Ok db1
    ∧ rows_of db1 = rows_of db ++ [staged_row id ev; new_row (id +:+ ":typed-hard-stop") e]
    ∧ quiet (new_row (id +:+ ":typed-hard-stop") e)
    ∧ ∀ S', is_ok (show_sprint (bs_db db) S') = true → is_ok (show_sprint (bs_db db1) S') = true.
Proof.
  intros Hb Hc Hcr Ht Hne Hshow Hst. unfold stop_sprint.
  change (show_sprint (bs_db (push db (staged_row id ev))) S) with (show_sprint (bs_db db) S). rewrite Hshow. cbn [mbind res_bind].
  assert (∀ st, record_of (bs_db (push db (staged_row id ev))) (id +:+ ":typed-hard-stop") st = None) as Hn.
  { intros st. apply (clear_push db _ id); [done|apply own_stops|]. intros E. symmetry in E. by apply append_neq in E. }
  rewrite !Hn, Hst. assert (is_ok (transition_for K_SPRINT (L_SPRINT SS_OPEN) (L_SPRINT SS_STOPPED)) = true) as Htr by reflexivity.
  destruct (transition_for _ _ _); [|done]. cbn [mbind res_bind]. destruct counts as [|p counts]; [done|].
  rewrite (apply_charge db id S t); [|done|apply (clear_fresh db id); [done|apply own_id]|done..]. cbn [mbind res_bind].
  rewrite commit_in_returns by apply Hn. do 2 eexists. split_and!; [done|symmetry; exact (assoc_L (++) (rows_of db) [staged_row id ev] [_])|apply quiet_typed|].
  intros S' HS'. by apply (show_sprint_set (push db (staged_row id ev) <| bs_events := _ |>)).
Qed.

Lemma finish_hard_returns th db role actor S t id src m row :
  Booked db → Clear db id → t ∈ BUDGET_EVENT_TYPES → show_sprint (bs_db db) S = Ok row → sr_state row = SS_OPEN →
  let ev := new_event "budget_recorded" role actor S id (ss_charge m)
    [("event_type", VStr t); ("source_event_id", opt_text src); ("hard_limit_stop", VBool true);
     ("budget", VDict [("by_type", VDict (counts_document (bg_by_type (budget_of th (bump (tally (grouped db S true) BUDGET_EVENT_TYPES) t) []))))])] in
  ∃ db' extra, finish_hard_budget (push db (staged_row id ev)) role actor S t id src ev m = Ok db' ∧ Settles db db' id extra.
Proof.
  intros Hb Hc Ht Hshow Hst ev. unfold finish_hard_budget.
  assert (∀ a b, py_eq (VDict [("role", VStr a); ("id", VStr b)]) (VDict [("role", VStr a); ("id", VStr b)]) = true) as Hact.
  { intros a b. cbn. by rewrite !String.eqb_refl. }
  assert (py_eq (opt_text src) (opt_text src) = true) as Hsrc.
  { unfold opt_text. destruct (nonempty src); [apply String.eqb_refl|done]. }
  match goal with |- context [require ?b _] => assert (b = true) as -> end.
  { change (String.eqb S S && py_eq (VDict [("role", VStr role); ("id", VStr actor)]) (VDict [("role", VStr role); ("id", VStr actor)])
            && String.eqb t t && py_eq (opt_text src) (opt_text src) && true = true).
    by rewrite !String.eqb_refl, Hact, Hsrc. }
  cbn [require mbind res_bind]. rewrite (stored_counts_ok _ (grouped db S true) t) by (done || apply grouped_non_negative). cbn [mbind res_bind].
  assert (t ≠ "") as Hne by (apply recorded_nonempty, elem_of_app; by left).
  assert (charge_row (new_row id ev) id S t) as Hcr by done.
  destruct (stop_sprint_returns db role actor S t id ev _ m row Hb Hc Hcr Hne (charged_counts_filled (grouped db S true) t) Hshow Hst)
    as (db1 & e & -> & Er1 & Hq & Hsp). cbn [mbind res_bind].
  assert (is_ok (show_sprint (bs_db db1) S) = true) as Hs1 by (apply Hsp; by rewrite Hshow).
  destruct (show_sprint (bs_db db1) S) eqn:Es1; [|done]. cbn [mbind res_bind]. set (typed := new_row (id +:+ ":typed-hard-stop") e) in *.
  destruct (staged_known db db1 id ev typed) as [Hn1 Hs]; [by apply (clear_fresh db id), own_id|by apply append_neq|done|].
  rewrite Hn1. destruct (record_of (bs_db db1) id Staged); [|done]. cbn [mbind res_bind]. set (db2 := settle_in db1 id ev).
  assert (rows_of db2 = rows_of db ++ [typed; new_row id ev]) as Er2
    by (by apply (settle_rows db db1 id ev [typed]); [|intros r ->%list_elem_of_singleton|]).
  assert (∀ st, record_of (bs_db db2) (id +:+ ":budget-hard-stop") st = None) as Hnone.
  { intros st. apply record_of_None. fold (rows_of db2). rewrite Er2. intros r Hr Hrid.
    rewrite elem_of_app, !elem_of_cons, elem_of_nil in Hr. destruct Hr as [Hr|[->|[->|[]]]].
    - destruct (Hc r Hr). rewrite Hrid. apply own_stops.
    - by apply (inj (String.append id)) in Hrid.
    - symmetry in Hrid. by apply append_neq in Hrid. }
  unfold record_hard_stop. rewrite Hnone. change (show_sprint (bs_db db2) S) with (show_sprint (bs_db db1) S).
  rewrite Es1. cbn [mbind res_bind]. rewrite commit_in_returns by apply Hnone. do 2 eexists. split; [done|]. split.
  - rewrite rows_push, Er2, <-(assoc_L (++)). reflexivity.
  - intros r. cbn [app]. rewrite !elem_of_cons, elem_of_nil. intros [->|[->|[->|[]]]]; [apply own_stops|apply own_id|apply own_stops].
  - intros r. cbn [app]. rewrite !elem_of_cons, elem_of_nil.
    intros [->|[->|[->|[]]]]; [done|eapply quiet_kind; [reflexivity|set_solver|reflexivity]..].
  - exists (new_row id ev). cbn [app]. rewrite !elem_of_cons. tauto.
  - exact Hsp.
Qed.

(** A charge of the pass under ids no record has, on a sprint of the board. *)
Lemma record_budget_returns th db actor S t id src m :
  Booked db → Clear db id → is_ok (show_sprint (bs_db db) S) = true → t ∈ BUDGET_RECORDED_EVENT_TYPES →
  ∃ db' extra, record_budget th db "dispatcher" actor S t id src m = Ok db' ∧ Settles db db' id extra.
Proof.
  intros Hb Hc Hs Ht. unfold record_budget. rewrite admit_dispatcher. cbn [mbind res_bind].
  rewrite (bool_decide_eq_true_2 (t ∈ BUDGET_RECORDED_EVENT_TYPES)) by done. cbn [require mbind res_bind].
  rewrite !(clear_record db id) by (done || apply own_id).
  unfold snapshot. destruct (show_sprint (bs_db db) S) as [row|] eqn:Es; [|done]. cbn [mbind res_bind].
  rewrite shown_counts. cbn [mbind res_bind]. rewrite from_legacy_shown by apply grouped_non_negative. cbn [mbind res_bind].
  destruct (_ && _ && _) eqn:Estop.
  - apply andb_true_iff in Estop as [[Htc%bool_decide_eq_true Hopen%bool_decide_eq_true]%andb_true_iff _].
    cbn [budget_of bg_by_type]. rewrite from_legacy_bump by apply grouped_non_negative. cbn [mbind res_bind].
    rewrite stage_in_returns by (apply (clear_record db id); [done|apply own_id]). cbn [mbind res_bind]. by eapply finish_hard_returns.
  - destruct (write_charge_returns th db "dispatcher" actor S t id src (bool_decide (t ∈ BUDGET_EVENT_TYPES)) m Hb Hc Ht)
      as (db' & r & E & Hse). by exists db', [r].
Qed.

Lemma append_marker_returns db id e : Booked db → Clear db id → quiet (new_row id e) →
  ∃ db' extra, append_marker db id e = Ok db' ∧ Settles db db' id extra.
Proof.
  intros Hb Hc Hq. unfold append_marker. rewrite !(clear_record db id) by (done || apply own_id).
  rewrite commit_in_returns by (apply (clear_record db id); [done|apply own_id]).
  do 2 eexists. split; [done|]. by apply settles_push.
Qed.

(** The classifier names a type the budget knows. *)
Lemma taxonomy_type data expected tax t : read_terminal_taxonomy val_repr data expected = Ok tax →
  budget_event_type tax = Some t → t ∈ BUDGET_RECORDED_EVENT_TYPES.
Proof.
  unfold budget_event_type. intros [(d & r & Hn)|[_ Hn]]%read_normalized Hb.
  - destruct (normalize_inv _ _ _ _ Hn) as (_ & _ & _ & [(_ & _ & _ & _ & Hc)|(_ & ? & ? & _ & _ & _ & _ & _ & _ & Hc)]);
      rewrite Hc in Hb; destruct (String.eqb _ _); try done; injection Hb as <-;
      by apply (bool_decide_unpack _); vm_compute.
  - congruence.
Qed.

Lemma classify_type e t : classify e = Ok (Some t) → t ∈ BUDGET_RECORDED_EVENT_TYPES.
Proof.
  assert (∀ x, bool_decide (x ∈ BUDGET_RECORDED_EVENT_TYPES) = true → x ∈ BUDGET_RECORDED_EVENT_TYPES) as Hin
    by (intros x ?%bool_decide_eq_true; done).
  assert (∀ x p, created_event_type x p = Some t → t ∈ BUDGET_RECORDED_EVENT_TYPES) as Hcr.
  { intros x p. unfold created_event_type. destruct (equals _ _); [|done]. case_bool_decide as Hw; [|done]. intros [= <-].
    rewrite !elem_of_cons, elem_of_nil in Hw. destruct Hw as [->|[->|[]]]; by apply Hin. }
  unfold classify. destruct (negb _); [|done]. cbn [require mbind res_bind].
  destruct (_ && _); [intros [= <-]; by apply Hin|]. destruct (event_edge e) as [source target].
  destruct (_ && _); [done|]. destruct (nonempty target); [|by intros [= ?%Hcr]].
  unfold move_event_type. destruct (String.eqb target "blocked").
  - destruct (get (event_payload e) "terminal_taxonomy");
      [intros [= <-]; destruct (String.eqb _ _); by apply Hin|..];
      (destruct (read_terminal_taxonomy _ _ _) as [tax|] eqn:Et; [|done]; intros [= Hb]; by eapply taxonomy_type).
  - destruct (_ && _); [destruct (is_provider_unavailable_return _); [done|]; intros [= <-]; by apply Hin|].
    destruct (_ && _); [intros [= <-]; by apply Hin|by intros [= ?%Hcr]].
Qed.

(** ** A turn settles its event *)

(** What a lookup answered: no sprint, or one of the board. *)
Definition linked (db : BStore) (o : option string) : Prop :=
  ∃ S, o = Some S ∧ (nonempty S = true → is_ok (show_sprint (bs_db db) S) = true).

Definition cache_ok (db : BStore) (cache : Cache) : Prop := ∀ ref o, dict_get cache ref = Some o → linked db o.

(** An event the pass can settle: its reference and its id are texts, the id has
    no colon, the classifier refuses nothing but a taxonomy, the card's lookup is
    answered, and no record has the ids of its charge. *)
Record Ready (w : World) (db : BStore) (e : Fields) : Prop := {
  rd_ref : ∃ ref, get e "ref" = VStr ref;
  rd_id : ∃ i, get e "event_id" = VStr i ∧ i ≠ "" ∧ before_colon i = i;
  rd_class : ∀ cls m, classify e = Raise (Exn cls m) → cls = "TerminalTaxonomyValidationError";
  rd_sprint : linked db (event_sprint w e []).1;
  rd_clear : Clear db (CHARGE_PREFIX +:+ event_identity e);
}.

Lemma event_sprint_linked w db e cache : linked db (event_sprint w e []).1 → cache_ok db cache →
  linked db (event_sprint w e cache).1 ∧ cache_ok db (event_sprint w e cache).2.
Proof.
  intros Hl Hc. unfold event_sprint in *. cbn [dict_get fst] in Hl.
  destruct (dict_get cache _) as [o|] eqn:E; cbn [fst snd]; [split; [by eapply Hc|done]|].
  split; [done|]. intros ref o Hget. destruct (decide (py_str_or (get e "ref") = ref)) as [<-|Hne].
  - rewrite dict_get_set_eq in Hget. by injection Hget as <-.
  - rewrite dict_get_set_ne in Hget by done. by eapply Hc.
Qed.

Lemma linked_settles db db' id extra o : Settles db db' id extra → linked db o → linked db' o.
Proof. intros Hs (S & -> & HS). exists S. split; [done|]. intros Hn. by apply (se_sprints _ _ _ _ Hs), HS. Qed.

Lemma event_id_get e i : get e "event_id" = VStr i → i ≠ "" → IDENTITY e = Some i ∧ event_identity e = i.
Proof.
  intros E Hi. unfold event_identity, IDENTITY, arrow_text, arrow. cbn [mbind option_bind]. rewrite E.
  unfold get in E. destruct (dict_get e "event_id") as [v|]; [|done]. cbn in E. subst v. cbn. unfold nonempty.
  destruct (String.eqb_spec i "") as [|]; [done|]. cbn. destruct i; [done|]. done.
Qed.

Lemma candidate_ref e ref : get e "ref" = VStr ref → selected (CANDIDATE_PREDICATE e) = true →
  nonempty ref = true ∧ String.prefix "sprint:" ref = false.
Proof.
  intros E. unfold CANDIDATE_PREDICATE. cbn zeta.
  assert (arrow_text (Some (VDict e)) "ref" = Some ref) as ->.
  { unfold get in E. unfold arrow_text, arrow. cbn [mbind option_bind]. destruct (dict_get e "ref") as [v|]; [|done]. cbn in E. by subst v. }
  unfold nonempty. cbn [eq3 mbind option_bind not3 fmap option_fmap option_map like_prefix].
  generalize (or3 (and3 (in3 (arrow_text (Some (VDict e)) "kind") [Some "verdict"; Some "card.verdict"])
             (in3 (Some "review:red") [arrow_text (arrow (Some (VDict e)) "payload") "marker"; arrow_text (arrow (Some (VDict e)) "data") "marker"]))).
  intros f. destruct (String.eqb ref ""), (String.prefix "sprint:" ref); cbn; try done; by destruct (f _) as [[]|].
Qed.

Lemma charge_event_settles th w db e cache :
  Booked db → Ready w db e → selected (CANDIDATE_PREDICATE e) = true → cache_ok db cache →
  ∃ db' cache' extra, charge_event th w db e cache = Ok (db', cache')
    ∧ Settles db db' (CHARGE_PREFIX +:+ event_identity e) extra ∧ cache_ok db' cache'.
Proof.
  intros Hb [(ref & Er) (i & Ei & Hi & _) Hcl Hsp Hc] Hcand Hcache. destruct (candidate_ref _ _ Er Hcand) as [Hn Hp].
  destruct (event_id_get _ _ Ei Hi) as [_ Eid]. unfold charge_event. rewrite Eid in *.
  assert (py_str_or (get e "ref") = ref) as -> by (rewrite Er; unfold py_str_or; destruct ref; done).
  rewrite Hn, Hp. assert (nonempty i = true) as -> by (by destruct i). cbn [negb orb].
  assert (∀ db' extra c, Settles db db' (CHARGE_PREFIX +:+ i) extra → cache_ok db c → cache_ok db' c) as Hcok.
  { intros db' extra c Hse Hcc r o Hro. eapply linked_settles; [exact Hse|by eapply Hcc]. }
  assert (∀ m, quiet (new_row (CHARGE_PREFIX +:+ i) m) → ∀ c, cache_ok db c → ∃ db' cache' extra,
    (db' ← append_marker db (CHARGE_PREFIX +:+ i) m; Ok (db', c)) = Ok (db', cache')
    ∧ Settles db db' (CHARGE_PREFIX +:+ i) extra ∧ cache_ok db' cache') as Hmark.
  { intros m Hq c Hcc. destruct (append_marker_returns db _ m Hb Hc Hq) as (db' & extra & -> & Hse). cbn [mbind res_bind]. by eauto 10. }
  destruct (classify e) as [[t|]|[cls m]] eqn:Ec.
  - destruct (event_sprint_linked w db e cache Hsp Hcache) as [(S & HS & Hshow) Hcache'].
    destruct (event_sprint w e cache) as [o cache1]. cbn [fst snd] in HS, Hcache'. subst o.
    destruct (nonempty S); [|apply Hmark; [apply quiet_marker; set_solver|done]].
    destruct (record_budget_returns th db (wo_owner w) S t (CHARGE_PREFIX +:+ i) i (wo_stamps w (CHARGE_PREFIX +:+ i)) Hb Hc)
      as (db' & extra & -> & Hse); [by apply Hshow|by eapply classify_type|]. cbn [mbind res_bind]. by eauto 10.
  - apply Hmark; [apply quiet_marker; set_solver|done].
  - rewrite (Hcl cls m) by done. apply Hmark; [apply quiet_marker; set_solver|done].
Qed.

(** ** The pass *)

(** The rows the candidate query answers, in its order. *)
Definition waiting (db : BStore) : list Row := List.filter (is_uncharged (bs_db db)) (rows_of db).

Lemma page_waiting db n : uncharged_budget_candidates (bs_db db) n = rq_intent <$> take n (waiting db).
Proof. unfold uncharged_budget_candidates, waiting, rows_of. by rewrite fmap_take. Qed.

Record AllReady (w : World) (db : BStore) : Prop := {
  ar_ready : ∀ r, r ∈ waiting db → Ready w db (rq_intent r);
  ar_apart : NoDup ((λ r, event_identity (rq_intent r)) <$> waiting db);
}.

Lemma waiting_inv db r : r ∈ waiting db → r ∈ rows_of db ∧ is_uncharged (bs_db db) r = true.
Proof. unfold waiting. intros [Hr Hu]%list_elem_of_In%filter_In. split; [by apply list_elem_of_In|done]. Qed.

Lemma filter_and {A} (p q p' : A → bool) l :
  (∀ x, x ∈ l → p' x = p x && q x) → List.filter p' l = List.filter q (List.filter p l).
Proof.
  induction l as [|x l IH]; intros Hp; [done|]. cbn. rewrite Hp by left.
  assert (List.filter p' l = List.filter q (List.filter p l)) as E by (apply IH; intros y Hy; apply Hp; by right).
  destruct (p x); cbn; [destruct (q x); by rewrite E|done].
Qed.

Lemma filter_all {A} (q : A → bool) l : (∀ x, x ∈ l → q x = true) → List.filter q l = l.
Proof.
  induction l as [|x l IH]; intros Hq; [done|]. cbn. rewrite Hq by left. f_equal. apply IH. intros y Hy. apply Hq. by right.
Qed.

Lemma filter_none {A} (q : A → bool) l : (∀ x, x ∈ l → q x = false) → List.filter q l = [].
Proof.
  induction l as [|x l IH]; intros Hq; [done|]. cbn. rewrite Hq by left. apply IH. intros y Hy. apply Hq. by right.
Qed.

Lemma record_app db db' extra x st : rows_of db' = rows_of db ++ extra →
  record_of (bs_db db') x st = None ↔ record_of (bs_db db) x st = None ∧ ∀ r, r ∈ extra → rq_id r = x → rq_status r ≠ st.
Proof.
  intros E. rewrite !record_of_None. fold (rows_of db') (rows_of db). rewrite E. setoid_rewrite elem_of_app. naive_solver.
Qed.

(** Settling the first of the waiting events leaves the others waiting. *)
Lemma settled_waiting w db db' r rest extra :
  AllReady w db → waiting db = r :: rest → Settles db db' (CHARGE_PREFIX +:+ event_identity (rq_intent r)) extra →
  waiting db' = rest.
Proof.
  intros [Hr Hnd] Ew [Erows Hown Hq (rc & Hrc & Eid & Est) _]. unfold waiting at 1. rewrite Erows, List.filter_app.
  rewrite (filter_none _ extra), app_nil_r.
  2:{ intros x Hx. unfold is_uncharged. rewrite (Hq x Hx). by rewrite andb_false_r. }
  set (other := λ x : Row, negb (String.eqb (event_identity (rq_intent x)) (event_identity (rq_intent r)))).
  rewrite (filter_and (is_uncharged (bs_db db)) other).
  { fold (waiting db). rewrite Ew. rewrite Ew in Hnd. apply NoDup_cons in Hnd as [Hnot _]. cbn [List.filter].
    unfold other at 1. rewrite String.eqb_refl. cbn [negb]. apply filter_all. intros x Hx. unfold other.
    apply negb_true_iff, String.eqb_neq. intros E. apply Hnot, list_elem_of_fmap. eauto. }
  intros x Hx. assert (r ∈ waiting db) as Hin by (rewrite Ew; left).
  destruct (rd_id _ _ _ (Hr r Hin)) as (i & Ei & Hi & Hni). destruct (event_id_get _ _ Ei Hi) as [_ Eir].
  destruct (is_uncharged (bs_db db) x) eqn:Ex; cbn [andb].
  - assert (x ∈ waiting db) as Hxw by (unfold waiting; by apply list_elem_of_In, filter_In; split; [apply list_elem_of_In|]).
    destruct (rd_id _ _ _ (Hr x Hxw)) as (j & Ej & Hj & Hnj). destruct (event_id_get _ _ Ej Hj) as [Eq Eix].
    unfold other. rewrite Eir, Eix. rewrite Eir in Hown, Eid. unfold is_uncharged in Ex |- *. rewrite Eq in Ex |- *.
    apply andb_true_iff in Ex as [Ex Erec]. rewrite Ex. cbn [andb].
    destruct (record_of (bs_db db) (CHARGE_PREFIX +:+ j) Committed) eqn:E0; [done|].
    destruct (String.eqb_spec j i) as [->|Hne]; cbn [negb].
    + destruct (record_of (bs_db db') _ Committed) eqn:E1; [done|]. apply (record_app db db' extra) in E1 as [_ E1]; [|done].
      by destruct (E1 rc Hrc Eid).
    + assert (record_of (bs_db db') (CHARGE_PREFIX +:+ j) Committed = None) as ->; [|done].
      apply (record_app db db' extra); [done|]. split; [done|]. intros y Hy Ey. exfalso. apply Hne. symmetry.
      apply (own_apart i j (rq_id y)); [done|done|by apply Hown|rewrite Ey; apply own_id].
  - unfold is_uncharged in Ex |- *. destruct (_ && selected _); [|done]. cbn [andb] in Ex |- *.
    destruct (IDENTITY _) as [j|]; [|done]. destruct (record_of (bs_db db) _ _) eqn:E0; [|done].
    destruct (record_of (bs_db db') _ _) eqn:E1; [done|]. apply (record_app db db' extra) in E1 as [E1 _]; [congruence|done].
Qed.

Lemma settled_ready w db db' r rest extra :
  AllReady w db → waiting db = r :: rest → Settles db db' (CHARGE_PREFIX +:+ event_identity (rq_intent r)) extra →
  AllReady w db'.
Proof.
  intros Hall Ew Hse. pose proof (settled_waiting _ _ _ _ _ _ Hall Ew Hse) as Ew'. destruct Hall as [Hr Hnd].
  rewrite Ew in Hnd. apply NoDup_cons in Hnd as [Hnot Hnd]. split; rewrite Ew'; [|done]. intros x Hx.
  assert (x ∈ waiting db ∧ r ∈ waiting db) as [Hxw Hrw] by (rewrite Ew; split; [by right|left]).
  destruct (rd_id _ _ _ (Hr r Hrw)) as (i & Ei & Hi & Hni). destruct (event_id_get _ _ Ei Hi) as [_ Eir].
  destruct (Hr x Hxw) as [Href (j & Ej & Hj & Hnj) Hcl Hsp Hc]. destruct (event_id_get _ _ Ej Hj) as [_ Eix].
  split; [done|by eauto|done|by eapply linked_settles|]. intros y Hy Hyo. rewrite (se_rows _ _ _ _ Hse) in Hy.
  apply elem_of_app in Hy as [Hy|Hy]; [by apply (Hc y)|]. apply (se_own _ _ _ _ Hse) in Hy. rewrite Eir in Hy. rewrite Eix in Hyo.
  apply Hnot, list_elem_of_fmap. exists x. split; [|done]. rewrite Eir, Eix. by apply (own_apart i j (rq_id y)).
Qed.

(** A pass over the first [k] waiting events. *)
Lemma charge_events_settle th w k db cache :
  Booked db → AllReady w db → cache_ok db cache →
  ∃ db' extra, charge_events th w db (rq_intent <$> take k (waiting db)) cache = (db', Ok tt)
    ∧ Booked db' ∧ waiting db' = drop k (waiting db) ∧ rows_of db' = rows_of db ++ extra
    ∧ ∀ w', AllReady w' db → AllReady w' db'.
Proof.
  revert db cache. induction k as [|k IH]; intros db cache Hb Hall Hcache.
  { exists db, []. rewrite take_0, drop_0, app_nil_r. done. }
  destruct (waiting db) as [|r rest] eqn:Ew.
  { exists db, []. rewrite app_nil_r. done. }
  assert (r ∈ waiting db) as Hin by (rewrite Ew; left).
  assert (selected (CANDIDATE_PREDICATE (rq_intent r)) = true) as Hcand.
  { apply waiting_inv in Hin as [_ Hu]. unfold is_uncharged in Hu. by apply andb_true_iff in Hu as [[_ ?]%andb_true_iff _]. }
  destruct (charge_event_settles th w db (rq_intent r) cache Hb (ar_ready _ _ Hall r Hin) Hcand Hcache)
    as (db1 & cache1 & extra & E & Hse & Hcache1).
  destruct (charge_event_ok th w db _ cache db1 cache1 Hb E) as [Hb1 _].
  pose proof (settled_waiting _ _ _ _ _ _ Hall Ew Hse) as Ew1.
  destruct (IH db1 cache1 Hb1 (settled_ready _ _ _ _ _ _ Hall Ew Hse) Hcache1) as (db' & extra' & E' & Hb' & Ew' & Er' & Hall').
  exists db', (extra ++ extra'). rewrite Ew1 in *. cbn [take drop fmap list_fmap charge_events]. rewrite E.
  split_and!; [done|done|done| |].
  - by rewrite Er', (se_rows _ _ _ _ Hse), (assoc_L (++)).
  - intros w' Hw'. apply Hall'. by eapply settled_ready.
Qed.

(** One tick after another, each with a world of its own. *)
Definition passes (th : Thresholds) (db : BStore) (ws : list World) : BStore :=
  foldl (λ d w, (reconcile_sprint_budget th w d).1) db ws.

Lemma passes_settle th ws db : Booked db → (∀ w, w ∈ ws → AllReady w db) →
  Booked (passes th db ws) ∧ waiting (passes th db ws) = drop (length ws * BUDGET_CANDIDATE_PAGE) (waiting db)
  ∧ ∃ extra, rows_of (passes th db ws) = rows_of db ++ extra.
Proof.
  unfold passes. revert db. induction ws as [|w ws IH]; intros db Hb Hall.
  { split_and!; [done|done|]. exists []. by rewrite app_nil_r. }
  cbn [foldl]. unfold reconcile_sprint_budget at 2 4 6. rewrite page_waiting.
  destruct (charge_events_settle th w BUDGET_CANDIDATE_PAGE db [] Hb (Hall w ltac:(left)) ltac:(done))
    as (db' & extra & E & Hb' & Ew & Er & Hw). rewrite E. cbn [fst].
  destruct (IH db' Hb') as (Hb2 & Ew2 & extra2 & Er2); [intros w' Hw'; apply Hw, Hall; by right|].
  split_and!; [done| |].
  - rewrite Ew2, Ew, drop_drop. f_equal. 
  - exists (extra ++ extra2). by rewrite Er2, Er, (assoc_L (++)).
Qed.

(** C10. A backlog is gone after as many passes as it has pages. Every pass takes
    the oldest page of the uncharged events and settles all of it, by a charge or
    a marker under the event's charge id, so after enough passes no candidate is
    left and each event that waited has its one record; provided the cards'
    lookups are answered with sprints of the board, the events' ids are distinct
    texts, and the classifier refuses nothing but a taxonomy. *)
Theorem passes_drain_the_backlog th ws db :
  Booked db → (∀ w, w ∈ ws → AllReady w db) → (length (waiting db) ≤ length ws * BUDGET_CANDIDATE_PAGE)%nat →
  (∀ n, uncharged_budget_candidates (bs_db (passes th db ws)) n = [])
  ∧ ∀ r, r ∈ waiting db →
    record_of (bs_db (passes th db ws)) (CHARGE_PREFIX +:+ event_identity (rq_intent r)) Committed ≠ None.
Proof.
  intros Hb Hall Hn. destruct (passes_settle th ws db Hb Hall) as (_ & Ew & extra & Er). rewrite drop_ge in Ew by done.
  split; [intros n; rewrite page_waiting, Ew; by destruct n|]. intros r Hr Hnone.
  destruct ws as [|w ws]; [by destruct (waiting db); [apply not_elem_of_nil in Hr|cbn in Hn; lia]|].
  destruct (rd_id _ _ _ (ar_ready _ _ (Hall w ltac:(left)) r Hr)) as (i & Ei & Hi & _). destruct (event_id_get _ _ Ei Hi) as [Eq Eir].
  apply waiting_inv in Hr as [Hr Hu]. assert (r ∈ waiting (passes th db (w :: ws))) as Hin; [|by rewrite Ew in Hin; apply not_elem_of_nil in Hin].
  apply list_elem_of_In, filter_In. split; [apply list_elem_of_In; rewrite Er; apply elem_of_app; by left|].
  unfold is_uncharged in Hu |- *. rewrite Eq in Hu |- *. rewrite Eir in Hnone. rewrite Hnone.
  apply andb_true_iff in Hu as [-> _]. done.
Qed.

(** ** Candidates that keep their place *)

(** The event spends a budget, and its card's lookup fails. *)
Definition unanswered (w : World) (e : Fields) : Prop :=
  (∃ t, classify e = Ok (Some t)) ∧ equals (get e "kind") "created" = false
  ∧ ∃ x, wo_show w (py_str_or (get e "ref")) = Raise x.

Lemma unanswered_turn th w db e cache : unanswered w e → (∀ ref o, dict_get cache ref = Some o → o = None) →
  ∃ cache', charge_event th w db e cache = Ok (db, cache') ∧ ∀ ref o, dict_get cache' ref = Some o → o = None.
Proof.
  intros ((t & Ec) & Hk & x & Hx) Hcache. unfold charge_event. destruct (_ || _); [by eauto|]. rewrite Ec.
  assert ((event_sprint w e cache).1 = None ∧ ∀ ref o, dict_get (event_sprint w e cache).2 ref = Some o → o = None) as [Hs Hc].
  { unfold event_sprint. destruct (dict_get cache _) as [o|] eqn:E; cbn [fst snd]; [split; [by eapply Hcache|done]|].
    rewrite Hk, Hx. assert (∀ v : pyval, match v with VDict _ => None | _ => @None string end = None) as -> by (by intros []).
    split; [done|]. intros ref o Hget. destruct (decide (py_str_or (get e "ref") = ref)) as [<-|Hne].
    - rewrite dict_get_set_eq in Hget. by injection Hget as <-.
    - rewrite dict_get_set_ne in Hget by done. by eapply Hcache. }
  destruct (event_sprint w e cache) as [o cache']. cbn [fst snd] in Hs, Hc. subst o. eauto.
Qed.

Lemma unanswered_events th w db page cache : (∀ e, e ∈ page → unanswered w e) →
  (∀ ref o, dict_get cache ref = Some o → o = None) → charge_events th w db page cache = (db, Ok tt).
Proof.
  revert cache. induction page as [|e page IH]; intros cache Hp Hc; [done|]. cbn [charge_events].
  destruct (unanswered_turn th w db e cache (Hp e ltac:(left)) Hc) as (cache' & -> & Hc').
  apply IH; [|done]. intros e' He'. apply Hp. by right.
Qed.

(** C40. A page of unanswered cards starves the rest. When the lookups of a page's
    cards keep failing (cards that are gone, say), every tick reads that page
    again, the oldest two hundred, and charges nothing: an event behind it, with
    an answering card and a sprint to charge, waits for ever, and the hard limit
    is never seen. *)
Theorem unanswered_page_starves th db ws :
  (∀ w e, w ∈ ws → e ∈ uncharged_budget_candidates (bs_db db) BUDGET_CANDIDATE_PAGE → unanswered w e) →
  passes th db ws = db.
Proof.
  unfold passes. induction ws as [|w ws IH]; intros Hall; [done|]. cbn [foldl]. unfold reconcile_sprint_budget at 2.
  rewrite unanswered_events; [|intros e He; apply Hall; [left|done]|done]. apply IH. intros w' e Hw'. apply Hall. by right.
Qed.

(** A charge that raises ends the pass: the turn of an event whose card names a
    sprint that is not on the board leaves the store, and the rest of the page. *)
Lemma lost_sprint_ends_the_pass th w db e page ref i S t cache :
  get e "ref" = VStr ref → get e "event_id" = VStr i → i ≠ "" → Clear db (CHARGE_PREFIX +:+ i) → selected (CANDIDATE_PREDICATE e) = true → classify e = Ok (Some t) →
  event_sprint w e [] = (Some S, cache) → nonempty S = true → dict_get (st_sprints (bs_db db)) S = None →
  charge_events th w db (e :: page) [] = (db, Raise (TaskError "not_found" ("sprint " +:+ S +:+ " does not exist"))).
Proof.
  intros Er Ei Hi Hc Hcand Ec Es HS Hgone. destruct (candidate_ref _ _ Er Hcand) as [Hn Hp].
  destruct (event_id_get _ _ Ei Hi) as [_ Eid]. cbn [charge_events]. unfold charge_event. rewrite Eid.
  assert (py_str_or (get e "ref") = ref) as -> by (rewrite Er; unfold py_str_or; destruct ref; done).
  rewrite Hn, Hp. assert (nonempty i = true) as -> by (by destruct i). cbn [negb orb]. rewrite Ec, Es, HS.
  unfold record_budget. rewrite admit_dispatcher. cbn [mbind res_bind].
  rewrite (bool_decide_eq_true_2 (t ∈ BUDGET_RECORDED_EVENT_TYPES)) by (by eapply classify_type). cbn [require mbind res_bind].
  rewrite !(clear_record db (CHARGE_PREFIX +:+ i)) by (done || apply own_id). unfold snapshot, show_sprint. by rewrite Hgone.
Qed.
End drain.
