(* ===== verification/BudgetWitnesses.v ===== *)
(** * The budget pass at concrete inputs

    A sprint of one blocked card and one red review under a hard threshold of
    two, and a board whose oldest two hundred cards are gone. *)

From stdpp Require Import relations.
From S2P Require Import Prelude PyText JsonText Json JsonStandIn Sha256 PyStrings Board TerminalTaxonomy WaitCard GateBackend E2eBudget E2eLedger E2eWitnesses.
From S2P Require Import BudgetCandidates BudgetCandidatesFacts BudgetLedger BudgetLedgerFacts BudgetRuns BudgetDrain.

(** Any rendering of a compound value will do. *)
#[local] Instance value_text : SqlRepr := λ _, "<value>".

(** ** The candidate predicate *)

Definition blocked_move : Fields :=
  event_of "evt_1" "moved" "app-1" "d-1-blocked" [("from", VStr "in_progress"); ("to", VStr "blocked")].
Definition red_review : Fields := event_of "evt_2" "verdict" "app-1" "r-1" [("marker", VStr "review:red")].
Definition quiet_move : Fields :=
  event_of "evt_3" "moved" "app-1" "d-2" [("from", VStr "ready"); ("to", VStr "in_progress")].

Lemma candidate_predicates_agree_witness :
  selected (CANDIDATE_PREDICATE blocked_move) = is_candidate blocked_move ∧ is_candidate blocked_move = true
  ∧ selected (CANDIDATE_PREDICATE quiet_move) = is_candidate quiet_move ∧ is_candidate quiet_move = false.
Proof.
  split_and!; [apply (candidate_predicates_agree blocked_move)|..|apply (candidate_predicates_agree quiet_move)|]; vm_compute; reflexivity.
Defined.

Lemma candidates_miss_nothing_witness : classify red_review = Ok (Some "red_review") ∧ is_candidate red_review = true.
Proof.
  split; [vm_compute; reflexivity|]. apply (candidates_miss_nothing red_review); vm_compute; [discriminate|reflexivity|reflexivity|discriminate].
Defined.

(** ** A sprint of two charges *)

Definition two : Thresholds := {| th_signal := 1; th_hard := 2 |}.

Definition stamps (id : string) : Stamps :=
  {| ss_charge := a_stamp (id +:+ "-c"); ss_stop := a_stamp (id +:+ "-s"); ss_typed := a_stamp (id +:+ "-t"); ss_related := ["app-1"] |}.

(** A board that knows [app-1], of the sprint. *)
Definition answering : World := {|
  wo_show := λ ref, if String.eqb ref "app-1" then Ok (code_card "sprint:5") else Raise (TaskError "not_found" ref);
  wo_now := λ _, "2026-09-28T10:00:00Z"; wo_stamps := stamps; wo_owner := "ummanu" |}.

Definition no_books : BStore := {| bs_db := db0; bs_events := [] |}.
Definition opened : BStore := no_books <| bs_db := bs_db no_books <| st_sprints := st_sprints db1 |> |>.
Definition happened : BStore := push (push opened (row_of blocked_move)) (row_of red_review).
Definition passed : BStore := (reconcile_sprint_budget two answering happened).1.

Lemma happened_run : rtc budget_step no_books happened.
Proof.
  apply (rtc_l _ _ opened); [apply step_sprints|].
  apply (rtc_l _ _ (push opened (row_of blocked_move))); [|apply rtc_once]; apply step_record;
    try (intros S; vm_compute; reflexivity); try (vm_compute; reflexivity); try discriminate; apply (bool_decide_unpack _); vm_compute; exact I.
Qed.

Lemma passed_run : rtc budget_step no_books passed.
Proof.
  eapply rtc_r; [apply happened_run|]. pose proof (step_pass happened two answering 2) as Hs.
  rewrite take_ge in Hs; [exact Hs|]. apply Nat.leb_le. vm_compute. reflexivity.
Qed.

(** The second charge stops the sprint. *)
Example passed_stops :
  (sr_state <$> show_sprint (bs_db passed) "sprint:5") = Ok SS_STOPPED
  ∧ (bg_by_type <$> shown_budget two passed "sprint:5")
    = Ok [("red_review", 1); ("blocked", 1); ("red_ci", 0); ("preempt", 0); ("recreated_task", 0); ("hotfix", 0)]
  ∧ (rq_id <$> rows_of passed) = ["d-1-blocked"; "r-1"; "sprint-budget-evt_1"; "sprint-budget-evt_2:typed-hard-stop";
      "sprint-budget-evt_2"; "sprint-budget-evt_2:budget-hard-stop"]
  ∧ ((λ e, (be_type e, be_reason e, be_request e)) <$> bs_events passed)
    = [("blocked", "evt_1", "sprint-budget-evt_1"); ("red_review", "evt_2", "sprint-budget-evt_2")].
Proof. vm_compute. repeat split. Qed.

(** A restore of the sprint as it was exported writes two rows of its own, and a
    charge after it is counted on top. *)
Definition exported_budget : Fields :=
  restored_values (budget_of two [("blocked", 1); ("red_review", 1)] []).
Definition restored : res BStore := restore two passed "sprint:5" "restore-1" exported_budget (a_stamp "r").
Definition charged_again : res BStore :=
  db ← restored; record_budget two db "dispatcher" "ummanu" "sprint:5" "hotfix" "x-2" "" (stamps "x-2").

Example restored_then_charged :
  ((λ e, (be_type e, be_reason e, be_request e)) <$> bs_events (after_ charged_again passed))
    = [("blocked", "restored occurrence 1", "restore-1"); ("red_review", "restored occurrence 1", "restore-1"); ("hotfix", "", "x-2")]
  ∧ bg_total <$> shown_budget two (after_ charged_again passed) "sprint:5" = Ok 3.
Proof. vm_compute. split; reflexivity. Qed.

Lemma no_books_empty : empty_books no_books.
Proof. by split. Qed.

Lemma each_event_charged_once_witness :
  ∃ b, shown_budget two passed "sprint:5" = Ok b ∧ dict_get (bg_by_type b) "red_review" = Some 1
    ∧ charges (bs_db passed) "sprint:5" "red_review" = 1%nat.
Proof.
  destruct (each_event_charged_once no_books passed no_books_empty passed_run) as (Hall & _).
  destruct (Hall two "sprint:5") as (base & b & Hb & Ee & Hbase & Ht & _). exists b. split; [exact Hb|].
  assert (base = []) as ->.
  { destruct base as [|e base]; [reflexivity|]. destruct (Hbase e (list_elem_of_here _ _)) as (r & Hr & _ & Hres).
    assert (forallb (λ r, negb (restores "sprint:5" r)) (rows_of passed) = true) as Hf by (vm_compute; reflexivity).
    rewrite forallb_forall in Hf. apply list_elem_of_In, Hf in Hr. by rewrite Hres in Hr. }
  assert (charges (bs_db passed) "sprint:5" "red_review" = 1%nat) as Hc by (vm_compute; reflexivity).
  split; [|exact Hc]. rewrite (Ht "red_review"), Hc by apply list_elem_of_here. reflexivity.
Defined.

(** A first charge, of another command, on the open sprint. *)
Definition charge_1 : res BStore := record_budget two happened "dispatcher" "ummanu" "sprint:5" "hotfix" "x-1" "" (stamps "x-1").

Lemma hard_threshold_stops_witness :
  ∃ row row', show_sprint (bs_db happened) "sprint:5" = Ok row ∧ show_sprint (bs_db (after_ charge_1 happened)) "sprint:5" = Ok row'
    ∧ sr_state row = SS_OPEN ∧ sr_state row' = SS_OPEN
    ∧ bg_total <$> shown_budget two (after_ charge_1 happened) "sprint:5" = Ok 1.
Proof.
  destruct (hard_threshold_stops two no_books happened "dispatcher" "ummanu" "sprint:5" "hotfix" "x-1" "" (stamps "x-1")
    (after_ charge_1 happened) no_books_empty happened_run) as (row & row' & event & Hr & Hr' & _ & _ & _ & _ & Hst & _ & Ht);
    [vm_compute; reflexivity|vm_compute; reflexivity|].
  exists row, row'. split; [exact Hr|]. split; [exact Hr'|]. vm_compute in Hr. injection Hr as <-. split; [reflexivity|].
  split; [rewrite Hst; vm_compute; reflexivity|]. rewrite Ht. vm_compute. reflexivity.
Defined.

(** ** A backlog *)

Lemma happened_ready : AllReady answering happened.
Proof.
  assert (waiting happened = [row_of blocked_move; row_of red_review]) as E by (vm_compute; reflexivity).
  split; rewrite E; [|apply (bool_decide_unpack _); vm_compute; exact I].
  intros r Hr. rewrite !elem_of_cons, elem_of_nil in Hr.
  assert (∀ x, linked happened (Some x) ↔ (nonempty x = true → is_ok (show_sprint (bs_db happened) x) = true)) as Hl
    by (intros x; split; [by intros (S & [= <-] & ?)|by exists x]).
  assert (∀ id, forallb (λ r, negb (bool_decide (rq_id r ∈ own_ids id))) (rows_of happened) = true → Clear happened id) as Hc.
  { intros id Hf r0 Hr0 Hin. rewrite forallb_forall in Hf. apply list_elem_of_In, Hf, negb_true_iff in Hr0.
    by apply bool_decide_eq_false in Hr0. }
  destruct Hr as [->|[->|[]]]; (split;
    [by exists "app-1"|eexists; split_and!; [reflexivity|discriminate|reflexivity]|vm_compute; discriminate
    |apply Hl; intros _; vm_compute; reflexivity|apply Hc; vm_compute; reflexivity]).
Qed.

Lemma passes_drain_the_backlog_witness :
  (∀ n, uncharged_budget_candidates (bs_db (passes two happened [answering])) n = [])
  ∧ record_of (bs_db (passes two happened [answering])) "sprint-budget-evt_1" Committed ≠ None.
Proof.
  destruct (passes_drain_the_backlog two [answering] happened) as [Hn Hr].
  - apply (run_booked no_books happened no_books_empty happened_run).
  - intros w ->%list_elem_of_singleton. apply happened_ready.
  - apply Nat.leb_le. vm_compute. reflexivity.
  - split; [exact Hn|]. apply (Hr (row_of blocked_move)). vm_compute. apply list_elem_of_here.
Defined.

(** ** A page of cards that are gone *)

Definition gone_move (n : nat) : Fields :=
  event_of ("evt_gone_" +:+ pretty n) "moved" ("old-" +:+ pretty n) ("gone-" +:+ pretty n) [("from", VStr "in_progress"); ("to", VStr "blocked")].

Definition crowded : BStore := opened <| bs_db := bs_db opened
  <| st_requests := (row_of <$> (gone_move <$> seq 0 200)) ++ [row_of blocked_move; row_of red_review] |> |>.

Definition is_unanswered (w : World) (e : Fields) : bool :=
  match classify e with Ok (Some _) => true | _ => false end && negb (equals (get e "kind") "created")
  && negb (is_ok (wo_show w (py_str_or (get e "ref")))).

Lemma is_unanswered_sound w e : is_unanswered w e = true → unanswered w e.
Proof.
  unfold is_unanswered, unanswered. intros [[Hc Hk%negb_true_iff]%andb_true_iff Hw]%andb_true_iff.
  destruct (classify e) as [[t|]|]; [|done..]. destruct (wo_show _ _); [done|]. eauto.
Qed.

(** The two charges that would stop the sprint are behind them, and no number of
    ticks reaches them. *)
Lemma unanswered_page_starves_witness :
  length (waiting crowded) = 202%nat ∧ passes two crowded (replicate 1000 answering) = crowded.
Proof.
  split; [vm_compute; reflexivity|]. apply (unanswered_page_starves two crowded (replicate 1000 answering)).
  intros w e [-> _]%elem_of_replicate He. apply is_unanswered_sound.
  assert (forallb (is_unanswered answering) (uncharged_budget_candidates (bs_db crowded) BUDGET_CANDIDATE_PAGE) = true) as Hf
    by (vm_compute; reflexivity).
  rewrite forallb_forall in Hf. by apply Hf, list_elem_of_In.
Defined.

(** A card whose sprint is not on the board ends the pass before the next event. *)
Definition misled : World := {|
  wo_show := λ _, Ok (code_card "sprint:6"); wo_now := wo_now answering; wo_stamps := stamps; wo_owner := "ummanu" |}.

Example lost_sprint_holds_the_page : reconcile_sprint_budget two misled happened
  = (happened, Raise (TaskError "not_found" "sprint sprint:6 does not exist")).
Proof.
  apply (lost_sprint_ends_the_pass two misled happened blocked_move [red_review] "app-1" "evt_1" "sprint:6" "blocked"
    [("app-1", Some "sprint:6")]); try (vm_compute; reflexivity); [discriminate|].
  intros r Hr. unfold rows_of, happened in Hr. cbn in Hr. rewrite !elem_of_cons, elem_of_nil in Hr.
  destruct Hr as [->|[->|[]]]; apply (bool_decide_unpack _); vm_compute; exact I.
Qed.
