(* ===== verification/WorkerLifecycle.v ===== *)
(** * Durable state of a worker handed across validation
      (dispatch/worker_lifecycle.py, runtime/head_run_binding.py)

    Two records the dispatcher keeps for a worker whose card went to
    validation: the continuation, a staged transition that survives restarts,
    and its liveness episode, the provider evidence that decides whether the
    same run still works.  Both with every operation and both JSON codecs. *)

From S2P Require Import Prelude PyText HeadVitality.

Definition BUSY_RETRY_INITIAL_SECONDS : Z := 30.
Definition BUSY_RETRY_MAX_SECONDS : Z := 5 * 60.
Definition CONTINUATION_NO_PROGRESS_BUSY_ATTEMPTS : Z := 3.
Definition CONTINUATION_LIVENESS_VERSION : Z := 1.

(** ** Float arithmetic on readings of the clock *)

Definition fl_truthy (f : pyfloat) : bool := match f with FFin t => negb (t =? 0) | _ => true end.

Definition fl_lt (a b : pyfloat) : bool :=
  match a, b with
  | FNan, _ | _, FNan => false
  | FFin s, FFin t => s <? t
  | FNegInf, FNegInf => false
  | FNegInf, _ => true
  | _, FNegInf => false
  | FInf, _ => false
  | _, FInf => true
  end.

Definition fl_le (a b : pyfloat) : bool :=
  match a, b with
  | FNan, _ | _, FNan => false
  | _, _ => negb (fl_lt b a)
  end.

(** ** The vocabularies *)

Inductive LivenessState := LS_UNKNOWN | LS_UNAVAILABLE | LS_BASELINE_PENDING | LS_BASELINED | LS_STALLED | LS_PROGRESSED.

#[global] Instance LivenessState_eq_dec : EqDecision LivenessState.
Proof. solve_decision. Defined.

#[global, refine] Instance LivenessState_enum : StrEnum LivenessState := {|
  enum_value s := match s with
    | LS_UNKNOWN => "unknown" | LS_UNAVAILABLE => "unavailable" | LS_BASELINE_PENDING => "baseline_pending"
    | LS_BASELINED => "baselined" | LS_STALLED => "stalled" | LS_PROGRESSED => "progressed" end;
  enum_members := [LS_UNKNOWN; LS_UNAVAILABLE; LS_BASELINE_PENDING; LS_BASELINED; LS_STALLED; LS_PROGRESSED] |}.
Proof. all: solve_enum. Defined.

(** [ContinuationProviderCondition.LEGACY_UNBOUND_V1]. *)
Definition LEGACY_UNBOUND_V1 : string := "legacy_unbound_v1".

Inductive RecoveryRung :=
| RR_NONE | RR_PENDING | RR_RESPONSE_WINDOW | RR_RESUME_ONCE | RR_UNAVAILABLE | RR_TERMINAL.

#[global] Instance RecoveryRung_eq_dec : EqDecision RecoveryRung.
Proof. solve_decision. Defined.

#[global, refine] Instance RecoveryRung_enum : StrEnum RecoveryRung := {|
  enum_value s := match s with
    | RR_NONE => "none" | RR_PENDING => "safe_recovery_pending"
    | RR_RESPONSE_WINDOW => "safe_recovery_response_window" | RR_RESUME_ONCE => "safe_recovery_resume_once"
    | RR_UNAVAILABLE => "safe_recovery_unavailable" | RR_TERMINAL => "terminal" end;
  enum_members := [RR_NONE; RR_PENDING; RR_RESPONSE_WINDOW; RR_RESUME_ONCE; RR_UNAVAILABLE; RR_TERMINAL] |}.
Proof. all: solve_enum. Defined.

(** ** The liveness episode

    The record's [version] is always [CONTINUATION_LIVENESS_VERSION] and has no
    field of its own here. *)

Record Liveness := {
  lv_state : LivenessState;
  lv_reason : string;
  lv_run_id : string;
  lv_fingerprint : string;
  lv_first_observed_at : pyfloat;
  lv_first_busy_at : pyfloat;
  lv_last_progress_at : pyfloat;
  lv_last_observed_at : pyfloat;
  lv_cursor : string;
  lv_source : string;
  lv_source_fingerprint : string;
  lv_baseline : bool;
  lv_no_progress_evidence : string;
  lv_busy_attempts : Z;
  lv_rung : RecoveryRung;
  lv_attempted_at : pyfloat;
  lv_deadline : pyfloat;
  lv_attempts : Z;
  lv_resume_used : bool;
  lv_outcome : string;
  lv_source_rejected : bool;
  lv_legacy_busy_attempts : Z;
}.

#[global] Instance Liveness_eta : Settable Liveness := λ l,
  Build_Liveness (lv_state l) (lv_reason l) (lv_run_id l) (lv_fingerprint l) (lv_first_observed_at l)
    (lv_first_busy_at l) (lv_last_progress_at l) (lv_last_observed_at l) (lv_cursor l) (lv_source l)
    (lv_source_fingerprint l) (lv_baseline l) (lv_no_progress_evidence l) (lv_busy_attempts l) (lv_rung l)
    (lv_attempted_at l) (lv_deadline l) (lv_attempts l) (lv_resume_used l) (lv_outcome l)
    (lv_source_rejected l) (lv_legacy_busy_attempts l).

(** The dataclass defaults, with a state, a reason and a binding. *)
Definition fresh_liveness (state : LivenessState) (reason run_id fingerprint : string) : Liveness := {|
  lv_state := state; lv_reason := reason; lv_run_id := run_id; lv_fingerprint := fingerprint;
  lv_first_observed_at := FFin 0; lv_first_busy_at := FFin 0; lv_last_progress_at := FFin 0;
  lv_last_observed_at := FFin 0; lv_cursor := ""; lv_source := ""; lv_source_fingerprint := "";
  lv_baseline := false; lv_no_progress_evidence := ""; lv_busy_attempts := 0; lv_rung := RR_NONE;
  lv_attempted_at := FFin 0; lv_deadline := FFin 0; lv_attempts := 0; lv_resume_used := false;
  lv_outcome := ""; lv_source_rejected := false; lv_legacy_busy_attempts := 0 |}.

(** [WorkerContinuationLiveness.unknown]. *)
Definition liveness_unknown (reason : string) (legacy : Z) : Liveness :=
  fresh_liveness LS_UNKNOWN (str_take 240 reason) "" "" <| lv_legacy_busy_attempts := Z.max 0 legacy |>.

(** [_fingerprint]: 32 hexadecimal digits, in either case. *)
Definition is_hex_text (c : Ascii.ascii) : bool :=
  let n := Ascii.nat_of_ascii c in
  ((48 <=? n) && (n <=? 57) || (97 <=? n) && (n <=? 102) || (65 <=? n) && (n <=? 70))%nat.

Definition fingerprint_ok (s : string) : bool := (String.length s =? 32)%nat && str_all is_hex_text s.

Definition bound (l : Liveness) : bool := nonempty (lv_run_id l) && nonempty (lv_fingerprint l).

Definition admitted (l : Liveness) : bool :=
  bound l && lv_baseline l
  && negb (bool_decide (lv_state l ∈ [LS_UNKNOWN; LS_UNAVAILABLE])).

Definition terminal (l : Liveness) : bool :=
  nonempty (lv_outcome l) || bool_decide (lv_rung l = RR_TERMINAL).

Definition note_busy (l : Liveness) (now : Z) : Liveness :=
  if negb (admitted l) || negb (bool_decide (lv_state l = LS_STALLED)) then l
  else (if fl_truthy (lv_first_busy_at l) then l else l <| lv_first_busy_at := FFin now |>)
         <| lv_busy_attempts := lv_busy_attempts l + 1 |>.

Definition begin_safe_recovery (l : Liveness) (now : Z) : Liveness :=
  l <| lv_rung := RR_PENDING |> <| lv_attempted_at := FFin now |> <| lv_attempts := lv_attempts l + 1 |>.

Definition safe_recovery_response_window (l : Liveness) (now secs : Z) : Liveness :=
  l <| lv_rung := RR_RESPONSE_WINDOW |> <| lv_deadline := FFin (now + Z.max 0 secs) |>.

Definition allow_safe_recovery_resume_once (l : Liveness) : bool * Liveness :=
  if negb (bool_decide (lv_rung l = RR_RESUME_ONCE)) then (false, l)
  else if lv_resume_used l then (false, l)
  else (true, l <| lv_resume_used := true |>).

Definition terminalize (l : Liveness) (outcome reason : string) : Liveness :=
  l <| lv_rung := RR_TERMINAL |> <| lv_outcome := outcome |> <| lv_reason := str_take 240 reason |>.

(** [_reject_as_unknown]: seal the episode without clearing its ladder. *)
Definition reject_as_unknown (l : Liveness) (reason : string) : Liveness :=
  l <| lv_state := LS_UNKNOWN |> <| lv_reason := str_take 240 reason |> <| lv_source_rejected := true |>.

Definition liveness_fields (l : Liveness) : list (string * pyval) := [
  ("version", VInt CONTINUATION_LIVENESS_VERSION);
  ("state", VStr (enum_value (lv_state l)));
  ("reason", VStr (lv_reason l));
  ("head_run_id", VStr (lv_run_id l));
  ("head_run_fingerprint", VStr (lv_fingerprint l));
  ("first_observed_at", VFloat (lv_first_observed_at l));
  ("first_busy_at", VFloat (lv_first_busy_at l));
  ("last_provider_progress_at", VFloat (lv_last_progress_at l));
  ("last_provider_observed_at", VFloat (lv_last_observed_at l));
  ("provider_cursor", VStr (lv_cursor l));
  ("provider_source", VStr (lv_source l));
  ("provider_source_fingerprint", VStr (lv_source_fingerprint l));
  ("baseline_established", VBool (lv_baseline l));
  ("no_progress_evidence", VStr (lv_no_progress_evidence l));
  ("busy_attempts", VInt (lv_busy_attempts l));
  ("recovery_rung", VStr (enum_value (lv_rung l)));
  ("recovery_attempted_at", VFloat (lv_attempted_at l));
  ("recovery_response_deadline", VFloat (lv_deadline l));
  ("recovery_attempts", VInt (lv_attempts l));
  ("recovery_resume_used", VBool (lv_resume_used l));
  ("terminal_outcome", VStr (lv_outcome l));
  ("source_rejected", VBool (lv_source_rejected l));
  ("legacy_busy_attempts", VInt (lv_legacy_busy_attempts l))].

(** [WorkerContinuationLiveness.to_json]. *)
Definition liveness_to_json (l : Liveness) : pyval := VDict (liveness_fields l).

Section provider.
(** [sha256(json.dumps(stable, sort_keys=True, ...)).hexdigest()[:32]], a
    function of the stable projection, and [float(text)] of a string. *)
Context `{PyRepr} (digest : pyval → string) (float_of_text : string → option pyfloat).

(** [str(v or dflt)]. *)
Definition str_or (v : pyval) (dflt : string) : string := if py_truthy v then py_str v else dflt.

(** [head_run_binding]. *)
Definition head_run_binding (value : pyval) : string * string :=
  match value with
  | VDict d =>
      match get d "run_id", get d "workspace", get d "task_ref", get d "spec" with
      | VStr run_id, VStr workspace, VDict task_ref, VDict spec =>
          if negb (nonempty run_id) || negb (nonempty workspace) then ("", "")
          else
            let or_blank k := if py_truthy (get spec k) then get spec k else VStr "" in
            let spec' := match get spec "adapter" with
              | VStr "codex" => [
                  ("profile_id", get spec "profile_id"); ("adapter", VStr "codex"); ("model", or_blank "model");
                  ("effort", default (VStr "default") (dict_get spec "effort"));
                  ("resource", or_blank "resource"); ("codex_mode", or_blank "codex_mode");
                  ("fallback", default (VList []) (dict_get spec "fallback"))]
              | _ => spec
              end in
            (run_id, digest (VDict [("run_id", VStr run_id); ("workspace", VStr workspace);
               ("task_ref", VDict task_ref); ("role", VStr (py_str_or (get d "role"))); ("spec", VDict spec')]))
      | _, _, _, _ => ("", "")
      end
  | _ => ("", "")
  end.

(** [WorkerContinuationLiveness.begin]. *)
Definition liveness_begin (head_run : pyval) : Liveness :=
  let '(run_id, fingerprint) := head_run_binding head_run in
  if negb (nonempty run_id) then liveness_unknown "retained HeadRun is unavailable or malformed" 0
  else fresh_liveness LS_BASELINE_PENDING "awaiting exact run-bound provider source baseline" run_id fingerprint.

(** An unavailable answer of this already bound episode. *)
Definition unavailable_answer (l : Liveness) (now : Z) (reason : string) : Liveness :=
  l <| lv_state := LS_UNAVAILABLE |> <| lv_reason := reason |> <| lv_last_observed_at := FFin now |>.

(** The admission of one run-bound answer. *)
Definition admits (l : Liveness) (d : list (string * pyval)) : bool :=
  String.eqb (py_str_or (get d "state")) "observed" && String.eqb (py_str_or (get d "admission")) "accepted"
  && String.eqb (py_str_or (get d "head_run_id")) (lv_run_id l)
  && String.eqb (py_str_or (get d "head_run_fingerprint")) (lv_fingerprint l).

(** A new cursor of the admitted source: the no-progress ladder starts over,
    except that an open response window stays open. *)
Definition progressed (l : Liveness) (now : Z) (cur : string) : Liveness :=
  l <| lv_last_observed_at := FFin now |> <| lv_cursor := cur |> <| lv_state := LS_PROGRESSED |>
    <| lv_reason := "" |> <| lv_last_progress_at := FFin now |> <| lv_busy_attempts := 0 |>
    <| lv_rung := if bool_decide (lv_rung l = RR_RESPONSE_WINDOW) then RR_RESPONSE_WINDOW else RR_NONE |>
    <| lv_attempted_at := FFin 0 |> <| lv_deadline := FFin 0 |> <| lv_attempts := 0 |>
    <| lv_resume_used := false |> <| lv_outcome := "" |> <| lv_no_progress_evidence := "" |>.

(** An admitted answer with its source and cursor. *)
Definition observe_admitted (l : Liveness) (now : Z) (src fp cur : string) : string * Liveness :=
  if negb (nonempty src) || negb (fingerprint_ok fp) || negb (nonempty cur) then
    ("unavailable", unavailable_answer l now "provider source admission is incomplete")
  else if negb (lv_baseline l) then
    if negb (bool_decide (lv_state l = LS_BASELINE_PENDING))
    then ("unknown", reject_as_unknown l "continuation liveness baseline is incoherent")
    else ("baseline",
      l <| lv_source := src |> <| lv_source_fingerprint := fp |> <| lv_cursor := cur |> <| lv_baseline := true |>
        <| lv_state := LS_BASELINED |> <| lv_reason := "" |> <| lv_last_observed_at := FFin now |>)
  else if negb (String.eqb src (lv_source l)) || negb (String.eqb fp (lv_source_fingerprint l)) then
    ("unknown", reject_as_unknown l "provider source does not match the persisted v1 baseline")
  else if String.eqb cur (lv_cursor l) then
    ("stalled", l <| lv_last_observed_at := FFin now |> <| lv_state := LS_STALLED |>
                  <| lv_reason := "provider cursor has not advanced" |>)
  else ("progressed", progressed l now cur).

(** [observe_provider]. *)
Definition observe_provider (l : Liveness) (evidence : pyval) (now : Z) (head_run : pyval) : string * Liveness :=
  if lv_source_rejected l then ("unknown", l)
  else
    let '(run_id, fingerprint) := head_run_binding head_run in
    if negb (bound l) || negb (nonempty run_id) || negb (String.eqb (lv_run_id l) run_id)
       || negb (String.eqb (lv_fingerprint l) fingerprint) then
      ("unknown", reject_as_unknown l "continuation liveness episode is not bound to the retained HeadRun")
    else
      let l1 := if fl_truthy (lv_first_observed_at l) then l else l <| lv_first_observed_at := FFin now |> in
      match evidence with
      | VDict d =>
          let state := py_str_or (get d "state") in
          if String.eqb state "unavailable" && String.eqb (py_str_or (get d "source")) "codex-session"
             && String.eqb (py_str_or (get d "continuation_condition")) LEGACY_UNBOUND_V1 then
            (LEGACY_UNBOUND_V1,
             unavailable_answer l1 now "Codex provider source remains legacy-unbound for v1 progress")
          else if negb (admits l1 d) then
            if String.eqb state "identity_mismatch" then
              ("unknown",
               reject_as_unknown l1
                 (str_or (get d "reason") "provider progress names another HeadRun")
                 <| lv_last_observed_at := FFin now |>)
            else ("unavailable",
                  unavailable_answer l1 now
                    (str_take 240 (str_or (get d "reason") "provider source was not admitted")))
          else observe_admitted l1 now (str_take 80 (py_str_or (get d "source")))
                 (str_take 64 (py_str_or (get d "source_fingerprint"))) (str_take 240 (py_str_or (get d "cursor")))
      | _ => ("unavailable",
              unavailable_answer l1 now "provider-progress transport returned an invalid shape")
      end.

(** ** Reading an episode back *)

(** [float(v or 0.0)]. *)
Definition py_float_or (v : pyval) : res pyfloat :=
  if negb (py_truthy v) then Ok (FFin 0)
  else match v with
  | VBool _ => Ok (FFin (seconds 1))
  | VStr s => match float_of_text s with
              | Some f => Ok f
              | None => Raise (Exn "ValueError" "could not convert string to float")
              end
  | _ => py_float v
  end.

(** [E(text)] of a string enumeration. *)
Definition enum_call {A} `{StrEnum A} (text : string) : res A :=
  match enum_of_value text with
  | Some a => Ok a
  | None => Raise (Exn "ValueError" (text +:+ " is not a valid member"))
  end.

(** What the [try] block of [from_json] reads: enumerations, the binding, the
    six stamps and the counts. *)
Record ParsedLiveness := {
  pl_state : LivenessState; pl_rung : RecoveryRung; pl_run_id : string; pl_fingerprint : string;
  pl_first_observed : pyfloat; pl_first_busy : pyfloat; pl_last_progress : pyfloat; pl_last_observed : pyfloat;
  pl_attempted : pyfloat; pl_deadline : pyfloat;
  pl_busy : Z; pl_attempts : Z; pl_legacy : Z; pl_rejected : bool;
}.

Definition negative (f : pyfloat) : bool := fl_lt f (FFin 0).

(** The [try] block: a refusal, or what was read. *)
Definition parse_liveness (d : list (string * pyval)) : res (string + ParsedLiveness) :=
  version ← py_int (get d "version");
  if negb (version =? CONTINUATION_LIVENESS_VERSION) then Ok (inl "unsupported version")
  else
    state ← enum_call (py_str_or (get d "state"));
    rung ← enum_call (py_str_or (get d "recovery_rung"));
    match get d "head_run_id", get d "head_run_fingerprint" with
    | VStr run_id, VStr fingerprint =>
        t1 ← py_float_or (get d "first_observed_at");
        t2 ← py_float_or (get d "first_busy_at");
        t3 ← py_float_or (get d "last_provider_progress_at");
        t4 ← py_float_or (get d "last_provider_observed_at");
        t5 ← py_float_or (get d "recovery_attempted_at");
        t6 ← py_float_or (get d "recovery_response_deadline");
        if existsb negative [t1; t2; t3; t4; t5; t6] then Ok (inl "malformed liveness timestamp")
        else
          busy ← py_int_or (get d "busy_attempts");
          attempts ← py_int_or (get d "recovery_attempts");
          if (busy <? 0) || (attempts <? 0) then Ok (inl "malformed liveness attempts")
          else
            legacy ← py_int_or (get d "legacy_busy_attempts");
            if legacy <? 0 then Ok (inl "malformed legacy busy attempts")
            else match default (VBool false) (dict_get d "source_rejected") with
            | VBool rejected => Ok (inr {|
                pl_state := state; pl_rung := rung; pl_run_id := run_id; pl_fingerprint := fingerprint;
                pl_first_observed := t1; pl_first_busy := t2; pl_last_progress := t3; pl_last_observed := t4;
                pl_attempted := t5; pl_deadline := t6; pl_busy := busy; pl_attempts := attempts;
                pl_legacy := legacy; pl_rejected := rejected |})
            | _ => Ok (inl "malformed source-rejection fence")
            end
    | _, _ => Ok (inl "malformed HeadRun binding")
    end.

Definition stamps_of (p : ParsedLiveness) : list pyfloat :=
  [pl_first_observed p; pl_first_busy p; pl_last_progress p; pl_last_observed p; pl_attempted p; pl_deadline p].

(** The fields of an episode no source was ever admitted to. *)
Definition untouched (p : ParsedLiveness) (src fp cur : string) (resume_used : bool) : bool :=
  negb (nonempty src) && negb (nonempty fp) && negb (nonempty cur) && (pl_busy p =? 0)
  && negb (existsb fl_truthy [pl_first_busy p; pl_last_progress p; pl_attempted p; pl_deadline p])
  && (pl_attempts p =? 0) && negb resume_used.

(** A complete source baseline. *)
Definition based (src fp cur : string) : bool := nonempty src && nonempty cur && fingerprint_ok fp.

(** The coherence of the state with the rest of the record: a refusal's reason. *)
Definition state_refusal (p : ParsedLiveness) (src fp cur outcome : string) (baseline resume_used : bool) :
    option string :=
  match pl_state p with
  | LS_UNKNOWN =>
      if negb (pl_rejected p) then Some "unknown liveness episode lacks a source-rejection fence"
      else if baseline then
        if based src fp cur then None else Some "incoherent source-rejected liveness baseline"
      else if untouched p src fp cur resume_used && bool_decide (pl_rung p = RR_NONE) && negb (nonempty outcome)
      then None else Some "incoherent source-rejected pending baseline"
  | LS_BASELINE_PENDING =>
      if negb baseline && untouched p src fp cur resume_used && bool_decide (pl_rung p = RR_NONE)
         && negb (nonempty outcome) && negb (existsb fl_truthy (stamps_of p))
      then None else Some "incoherent pending liveness baseline"
  | LS_BASELINED | LS_STALLED | LS_PROGRESSED =>
      if baseline && based src fp cur then None else Some "incoherent bound liveness baseline"
  | LS_UNAVAILABLE =>
      if pl_rejected p then Some "unavailable liveness carries a source-rejection fence"
      else if baseline then
        if based src fp cur then None else Some "incoherent unavailable liveness baseline"
      else if untouched p src fp cur resume_used && bool_decide (pl_rung p ∈ [RR_NONE; RR_TERMINAL])
      then None else Some "incoherent unavailable pending baseline"
  end.

(** The coherence of the recovery ladder. *)
Definition rung_refusal (p : ParsedLiveness) (outcome : string) : option string :=
  if bool_decide (pl_rung p = RR_TERMINAL) && negb (nonempty outcome)
  then Some "terminal liveness outcome is missing"
  else if negb (bool_decide (pl_rung p = RR_TERMINAL)) && nonempty outcome
  then Some "non-terminal liveness carries a terminal outcome"
  else if negb (bool_decide (pl_rung p = RR_TERMINAL)) && negb (bool_decide (pl_rung p = RR_NONE))
          && negb (bool_decide (pl_state p ∈ [LS_STALLED; LS_PROGRESSED; LS_UNAVAILABLE]))
  then Some "recovery rung lacks verified no-progress episode"
  else if bool_decide (pl_rung p = RR_RESPONSE_WINDOW)
          && (negb (pl_attempts p =? 1) || fl_le (pl_deadline p) (pl_attempted p))
  then Some "safe recovery response window is incoherent"
  else if bool_decide (pl_rung p = RR_RESUME_ONCE) && negb (pl_attempts p =? 1)
  then Some "safe recovery resume is incoherent"
  else None.

(** [WorkerContinuationLiveness.from_json]. *)
Definition liveness_from_json (value : pyval) : res Liveness :=
  match value with
  | VNone => Ok (liveness_unknown "missing" 0)
  | VDict d =>
      match parse_liveness d with
      | Raise e => if caught ["TypeError"; "ValueError"] e then Ok (liveness_unknown "malformed" 0) else Raise e
      | Ok (inl reason) => Ok (liveness_unknown reason 0)
      | Ok (inr p) =>
          let src := str_take 80 (py_str_or (get d "provider_source")) in
          let fp := str_take 64 (py_str_or (get d "provider_source_fingerprint")) in
          let cur := str_take 240 (py_str_or (get d "provider_cursor")) in
          let outcome := str_take 80 (py_str_or (get d "terminal_outcome")) in
          let resume_used := py_truthy (default (VBool false) (dict_get d "recovery_resume_used")) in
          let refuse reason := Ok (liveness_unknown reason (pl_legacy p)) in
          let is_false := match get d "baseline_established" with VBool false => true | _ => false end in
          let explicit_unknown := bool_decide (pl_state p = LS_UNKNOWN) && negb (nonempty (pl_run_id p))
            && negb (nonempty (pl_fingerprint p)) && negb (nonempty src) && negb (nonempty fp)
            && negb (nonempty cur) && is_false && (pl_busy p =? 0) && bool_decide (pl_rung p = RR_NONE)
            && negb (nonempty outcome) && negb (existsb fl_truthy (stamps_of p)) in
          if explicit_unknown && negb (pl_rejected p) then refuse (str_or (get d "reason") "unknown")
          else if negb (nonempty (pl_run_id p)) || negb (fingerprint_ok (pl_fingerprint p))
          then refuse "malformed HeadRun binding"
          else match get d "baseline_established" with
          | VBool baseline =>
              match state_refusal p src fp cur outcome baseline resume_used with
              | Some reason => refuse reason
              | None =>
                  match (if bool_decide (pl_state p = LS_UNKNOWN) then None else rung_refusal p outcome) with
                  | Some reason => refuse reason
                  | None => Ok {|
                      lv_state := pl_state p; lv_reason := str_take 240 (py_str_or (get d "reason"));
                      lv_run_id := pl_run_id p; lv_fingerprint := pl_fingerprint p;
                      lv_first_observed_at := pl_first_observed p; lv_first_busy_at := pl_first_busy p;
                      lv_last_progress_at := pl_last_progress p; lv_last_observed_at := pl_last_observed p;
                      lv_cursor := cur; lv_source := src; lv_source_fingerprint := fp; lv_baseline := baseline;
                      lv_no_progress_evidence := str_take 80 (py_str_or (get d "no_progress_evidence"));
                      lv_busy_attempts := pl_busy p; lv_rung := pl_rung p; lv_attempted_at := pl_attempted p;
                      lv_deadline := pl_deadline p; lv_attempts := pl_attempts p; lv_resume_used := resume_used;
                      lv_outcome := outcome; lv_source_rejected := bool_decide (pl_state p = LS_UNKNOWN);
                      lv_legacy_busy_attempts := pl_legacy p |}
                  end
              end
          | _ => refuse "historical v1 liveness lacks a baseline"
          end
      end
  | _ => Ok (liveness_unknown "malformed" 0)
  end.

End provider.

(** ** The continuation *)

Inductive ContinuationStage :=
| CS_NONE | CS_VALIDATION_MOVE_PENDING | CS_RETAINED | CS_ASSESSMENT_PENDING | CS_ASSESSMENT_PARKED
| CS_RED_TRANSITION_PENDING | CS_DELIVERY_PENDING | CS_DELIVERY_CONFIRMED.

#[global] Instance ContinuationStage_eq_dec : EqDecision ContinuationStage.
Proof. solve_decision. Defined.

#[global, refine] Instance ContinuationStage_enum : StrEnum ContinuationStage := {|
  enum_value s := match s with
    | CS_NONE => "none" | CS_VALIDATION_MOVE_PENDING => "validation_move_pending" | CS_RETAINED => "retained"
    | CS_ASSESSMENT_PENDING => "assessment_pending" | CS_ASSESSMENT_PARKED => "assessment_parked"
    | CS_RED_TRANSITION_PENDING => "red_transition_pending" | CS_DELIVERY_PENDING => "delivery_pending"
    | CS_DELIVERY_CONFIRMED => "delivery_confirmed" end;
  enum_members := [CS_NONE; CS_VALIDATION_MOVE_PENDING; CS_RETAINED; CS_ASSESSMENT_PENDING; CS_ASSESSMENT_PARKED;
                   CS_RED_TRANSITION_PENDING; CS_DELIVERY_PENDING; CS_DELIVERY_CONFIRMED] |}.
Proof. all: solve_enum. Defined.

Record Continuation := {
  ct_stage : ContinuationStage;
  ct_phase : string;
  ct_retained_at : pyfloat;
  ct_sent_at : pyfloat;
  ct_report_baseline : Z;
  ct_reserved_generation : Z;
  ct_move_reason : string;
  ct_verdict_outcome : string;
  ct_decision : string;
  ct_decision_body : string;
  ct_prerequisites : list string;
  ct_session_held : bool;
  ct_busy_attempts : Z;
  ct_busy_next_at : pyfloat;
}.

#[global] Instance Continuation_eta : Settable Continuation := λ c,
  Build_Continuation (ct_stage c) (ct_phase c) (ct_retained_at c) (ct_sent_at c) (ct_report_baseline c)
    (ct_reserved_generation c) (ct_move_reason c) (ct_verdict_outcome c) (ct_decision c) (ct_decision_body c)
    (ct_prerequisites c) (ct_session_held c) (ct_busy_attempts c) (ct_busy_next_at c).

(** The dataclass defaults, which [clear] restores. *)
Definition cleared : Continuation := {|
  ct_stage := CS_NONE; ct_phase := ""; ct_retained_at := FFin 0; ct_sent_at := FFin 0; ct_report_baseline := 0;
  ct_reserved_generation := 0; ct_move_reason := ""; ct_verdict_outcome := ""; ct_decision := "";
  ct_decision_body := ""; ct_prerequisites := []; ct_session_held := false; ct_busy_attempts := 0;
  ct_busy_next_at := FFin 0 |}.

Definition ct_clear (c : Continuation) : Continuation := cleared.

Definition retained (c : Continuation) : bool :=
  ct_session_held c && negb (bool_decide (ct_stage c = CS_NONE)).

(** [parked]: held by a verdict nobody has acted on. *)
Definition parked_card (c : Continuation) : bool :=
  bool_decide (ct_stage c ∈ [CS_ASSESSMENT_PENDING; CS_ASSESSMENT_PARKED]).

Definition refuse_stage {A} (what : string) (c : Continuation) : res A :=
  Raise (Exn "ValueError" (what +:+ enum_value (ct_stage c))).

Definition begin_retention (c : Continuation) (now : Z) : Continuation :=
  c <| ct_stage := CS_VALIDATION_MOVE_PENDING |> <| ct_phase := "" |> <| ct_retained_at := FFin now |>
    <| ct_sent_at := FFin 0 |> <| ct_session_held := true |>.

Definition confirm_validation_move (c : Continuation) : res Continuation :=
  match ct_stage c with
  | CS_RETAINED => Ok c
  | CS_VALIDATION_MOVE_PENDING => Ok (c <| ct_stage := CS_RETAINED |>)
  | _ => refuse_stage "cannot confirm validation move from " c
  end.

Definition begin_park (c : Continuation) (phase : string) (report_baseline : Z) (move_reason verdict_outcome : string) :
    res Continuation :=
  match ct_stage c with
  | CS_NONE | CS_VALIDATION_MOVE_PENDING | CS_RETAINED | CS_ASSESSMENT_PENDING =>
      Ok (c <| ct_stage := CS_ASSESSMENT_PENDING |> <| ct_phase := phase |>
            <| ct_report_baseline := report_baseline |> <| ct_move_reason := move_reason |>
            <| ct_verdict_outcome := verdict_outcome |>)
  | _ => refuse_stage "cannot park from " c
  end.

Definition confirm_park (c : Continuation) : res Continuation :=
  match ct_stage c with
  | CS_ASSESSMENT_PARKED => Ok c
  | CS_ASSESSMENT_PENDING => Ok (c <| ct_stage := CS_ASSESSMENT_PARKED |>)
  | _ => refuse_stage "cannot confirm a park from " c
  end.

(** What a red transition freezes when it opens. *)
Record RedVerdict := {
  rv_phase : string; rv_report_baseline : Z; rv_move_reason : string; rv_verdict_outcome : string;
  rv_decision : string; rv_reserved_generation : Z; rv_decision_body : string; rv_prerequisites : list string;
}.

Definition begin_red_transition (c : Continuation) (v : RedVerdict) : res Continuation :=
  match ct_stage c with
  | CS_NONE | CS_VALIDATION_MOVE_PENDING | CS_RETAINED | CS_ASSESSMENT_PARKED =>
      Ok (c <| ct_stage := CS_RED_TRANSITION_PENDING |> <| ct_phase := rv_phase v |>
            <| ct_report_baseline := rv_report_baseline v |> <| ct_move_reason := rv_move_reason v |>
            <| ct_verdict_outcome := rv_verdict_outcome v |> <| ct_decision := rv_decision v |>
            <| ct_reserved_generation := rv_reserved_generation v |>
            <| ct_decision_body := rv_decision_body v |> <| ct_prerequisites := rv_prerequisites v |>)
  | _ => refuse_stage "cannot open a red transition from " c
  end.

Definition begin_delivery (c : Continuation) (phase : string) (now : Z) : res Continuation :=
  let open c := c <| ct_stage := CS_DELIVERY_PENDING |> <| ct_phase := phase |> in
  match ct_stage c with
  | CS_RETAINED | CS_RED_TRANSITION_PENDING => Ok (open (c <| ct_sent_at := FFin now |>))
  | CS_DELIVERY_PENDING => Ok (open c)
  | _ => refuse_stage "cannot resume worker from " c
  end.

Definition confirm_delivery (c : Continuation) : res Continuation :=
  match ct_stage c with
  | CS_DELIVERY_PENDING | CS_DELIVERY_CONFIRMED =>
      Ok (c <| ct_stage := CS_DELIVERY_CONFIRMED |> <| ct_busy_attempts := 0 |> <| ct_busy_next_at := FFin 0 |>)
  | _ => refuse_stage "cannot confirm worker delivery from " c
  end.

(** The delay before the [n]-th busy retry. *)
Definition busy_delay (n : Z) : Z :=
  Z.min (BUSY_RETRY_INITIAL_SECONDS * 2 ^ Z.min (n - 1) 4) BUSY_RETRY_MAX_SECONDS.

Definition defer_busy (c : Continuation) (now : Z) : Z * Continuation :=
  let n := ct_busy_attempts c + 1 in
  (busy_delay n, c <| ct_busy_attempts := n |> <| ct_busy_next_at := FFin (now + seconds (busy_delay n)) |>).

Definition busy_retry_due (c : Continuation) (now : Z) : bool :=
  negb (fl_truthy (ct_busy_next_at c)) || fl_le (ct_busy_next_at c) (FFin now).

Definition drop_session (c : Continuation) : Continuation :=
  let c' := c <| ct_session_held := false |> in
  match ct_stage c with
  | CS_VALIDATION_MOVE_PENDING | CS_RETAINED => ct_clear c'
  | _ => c'
  end.

Definition continuation_fields (c : Continuation) : list (string * pyval) := [
  ("stage", VStr (enum_value (ct_stage c)));
  ("phase", VStr (ct_phase c));
  ("retained_at", VFloat (ct_retained_at c));
  ("sent_at", VFloat (ct_sent_at c));
  ("report_baseline", VInt (ct_report_baseline c));
  ("reserved_generation", VInt (ct_reserved_generation c));
  ("move_reason", VStr (ct_move_reason c));
  ("verdict_outcome", VStr (ct_verdict_outcome c));
  ("decision", VStr (ct_decision c));
  ("decision_body", VStr (ct_decision_body c));
  ("decision_protocol_prerequisites", VList (VStr <$> ct_prerequisites c));
  ("session_held", VBool (ct_session_held c));
  ("busy_attempts", VInt (ct_busy_attempts c));
  ("busy_next_at", VFloat (ct_busy_next_at c))].

Definition continuation_to_json (c : Continuation) : pyval :=
  if bool_decide (ct_stage c = CS_NONE) then VDict [] else VDict (continuation_fields c).

Section continuation.
Context `{PyRepr} (float_of_text : string → option pyfloat).

Definition prerequisite (v : pyval) : option string :=
  match v with VStr s => if nonempty s then Some s else None | _ => None end.

Definition continuation_from_json (value : pyval) : res Continuation :=
  match value with
  | VDict ((_ :: _) as d) =>
      stage ← enum_call (str_or (get d "stage") "none");
      retained_at ← py_float_or float_of_text (get d "retained_at");
      sent_at ← py_float_or float_of_text (get d "sent_at");
      report_baseline ← py_int_or (get d "report_baseline");
      reserved_generation ← py_int_or (get d "reserved_generation");
      items ← py_iter (default (VList []) (dict_get d "decision_protocol_prerequisites"));
      busy_attempts ← py_int_or (get d "busy_attempts");
      busy_next_at ← py_float_or float_of_text (get d "busy_next_at");
      Ok {| ct_stage := stage; ct_phase := py_str_or (get d "phase"); ct_retained_at := retained_at;
            ct_sent_at := sent_at; ct_report_baseline := report_baseline;
            ct_reserved_generation := reserved_generation; ct_move_reason := py_str_or (get d "move_reason");
            ct_verdict_outcome := py_str_or (get d "verdict_outcome"); ct_decision := py_str_or (get d "decision");
            ct_decision_body := py_str_or (get d "decision_body"); ct_prerequisites := omap prerequisite items;
            ct_session_held := py_truthy (default (VBool (negb (bool_decide (stage = CS_NONE))))
                                            (dict_get d "session_held"));
            ct_busy_attempts := busy_attempts; ct_busy_next_at := busy_next_at |}
  | _ => Ok cleared
  end.

End continuation.
