(* ===== verification/WorkerLifecycleFacts.v ===== *)
(** * The continuation's records across restarts

    A liveness episode survives a dispatcher restart field by field along every
    path its callers take but one, a sealed episode stays sealed, and an open
    red transition keeps what it was opened on. *)

From stdpp Require Import relations.
From S2P Require Import Prelude PyText HeadVitality WorkerLifecycle.

(** ** Coherent episodes *)

Definition stamps_nonneg (l : Liveness) : Prop :=
  Forall (λ f, negative f = false)
    [lv_first_observed_at l; lv_first_busy_at l; lv_last_progress_at l; lv_last_observed_at l; lv_attempted_at l;
     lv_deadline l].

(** No source was ever admitted to this episode. *)
Record virgin (l : Liveness) : Prop := {
  vi_source : lv_source l = ""; vi_fp : lv_source_fingerprint l = ""; vi_cursor : lv_cursor l = "";
  vi_busy : lv_busy_attempts l = 0; vi_first_busy : lv_first_busy_at l = FFin 0;
  vi_progress : lv_last_progress_at l = FFin 0; vi_attempted : lv_attempted_at l = FFin 0;
  vi_deadline : lv_deadline l = FFin 0; vi_attempts : lv_attempts l = 0; vi_resume : lv_resume_used l = false;
}.

(** What every bound episode satisfies while its callers drive it. *)
Record sound (l : Liveness) : Prop := {
  co_run : nonempty (lv_run_id l) = true;
  co_fingerprint : fingerprint_ok (lv_fingerprint l) = true;
  co_reason : (String.length (lv_reason l) ≤ 240)%nat;
  co_cursor : (String.length (lv_cursor l) ≤ 240)%nat;
  co_source : (String.length (lv_source l) ≤ 80)%nat;
  co_source_fp : (String.length (lv_source_fingerprint l) ≤ 64)%nat;
  co_evidence : (String.length (lv_no_progress_evidence l) ≤ 80)%nat;
  co_outcome : (String.length (lv_outcome l) ≤ 80)%nat;
  co_stamps : stamps_nonneg l;
  co_busy : 0 ≤ lv_busy_attempts l;
  co_attempts : 0 ≤ lv_attempts l;
  co_legacy : 0 ≤ lv_legacy_busy_attempts l;
  co_fence : lv_source_rejected l = bool_decide (lv_state l = LS_UNKNOWN);
  co_based : lv_baseline l = true →
    based (lv_source l) (lv_source_fingerprint l) (lv_cursor l) = true ∧ lv_state l ≠ LS_BASELINE_PENDING;
  co_virgin : lv_baseline l = false →
    virgin l ∧ (lv_rung l = RR_NONE ∨ lv_rung l = RR_TERMINAL ∧ lv_state l = LS_UNAVAILABLE) ∧
    (lv_state l = LS_UNKNOWN ∨ lv_state l = LS_BASELINE_PENDING ∨ lv_state l = LS_UNAVAILABLE);
  co_terminal : lv_rung l = RR_TERMINAL ↔ lv_outcome l ≠ "";
  co_ladder : lv_rung l ≠ RR_NONE → lv_rung l ≠ RR_TERMINAL → lv_state l ≠ LS_BASELINED;
  co_idle : lv_rung l = RR_NONE → lv_attempts l = 0;
  co_intent : lv_rung l = RR_PENDING → lv_attempts l = 1;
  co_window : lv_rung l = RR_RESPONSE_WINDOW → lv_attempts l = 1 ∧ fl_le (lv_deadline l) (lv_attempted_at l) = false;
  co_resume : lv_rung l ≠ RR_RESUME_ONCE ∧ lv_rung l ≠ RR_UNAVAILABLE;
}.

(** A pending baseline was moreover never observed. *)
Definition coherent (l : Liveness) : Prop :=
  sound l ∧ (lv_state l = LS_BASELINE_PENDING → lv_first_observed_at l = FFin 0 ∧ lv_last_observed_at l = FFin 0).

(** ** A coherent episode is read back as it was *)

Section reload.
Context `{PyRepr} (digest : pyval → string) (float_of_text : string → option pyfloat).

Lemma py_float_or_val f : py_float_or float_of_text (VFloat f) = Ok f.
Proof.
  unfold py_float_or. destruct f as [t| | |]; try done. cbn. destruct (Z.eqb_spec t 0) as [->|]; done.
Qed.

Lemma py_int_or_val z : py_int_or (VInt z) = Ok z.
Proof. unfold py_int_or. cbn. destruct (Z.eqb_spec z 0) as [->|]; done. Qed.

Lemma enum_call_value {A} `{StrEnum A} (a : A) : enum_call (py_str_or (VStr (enum_value a))) = Ok a.
Proof. unfold enum_call. by rewrite py_str_or_str, enum_of_value_value. Qed.

(** The episode as its JSON parses. *)
Definition parsed (l : Liveness) : ParsedLiveness := {|
  pl_state := lv_state l; pl_rung := lv_rung l; pl_run_id := lv_run_id l; pl_fingerprint := lv_fingerprint l;
  pl_first_observed := lv_first_observed_at l; pl_first_busy := lv_first_busy_at l;
  pl_last_progress := lv_last_progress_at l; pl_last_observed := lv_last_observed_at l;
  pl_attempted := lv_attempted_at l; pl_deadline := lv_deadline l; pl_busy := lv_busy_attempts l;
  pl_attempts := lv_attempts l; pl_legacy := lv_legacy_busy_attempts l; pl_rejected := lv_source_rejected l |}.

(** The numbers an episode stores parse again. *)
Record storable (l : Liveness) : Prop := {
  st_stamps : stamps_nonneg l; st_busy : 0 ≤ lv_busy_attempts l; st_attempts : 0 ≤ lv_attempts l;
  st_legacy : 0 ≤ lv_legacy_busy_attempts l;
}.

Lemma parse_stored l :
  storable l → parse_liveness float_of_text (liveness_fields l) = Ok (inr (parsed l)).
Proof.
  intros [Hs Hb Ha Hl]. unfold parse_liveness.
  change (get (liveness_fields l) "version") with (VInt CONTINUATION_LIVENESS_VERSION).
  cbn [py_int mbind res_bind]. change (negb (CONTINUATION_LIVENESS_VERSION =? CONTINUATION_LIVENESS_VERSION)) with false.
  change (get (liveness_fields l) "state") with (VStr (enum_value (lv_state l))).
  change (get (liveness_fields l) "recovery_rung") with (VStr (enum_value (lv_rung l))).
  rewrite !enum_call_value. unfold get, liveness_fields.
  cbn [dict_get String.eqb Ascii.eqb Bool.eqb default from_option id mbind res_bind].
  rewrite !py_float_or_val. cbn [mbind res_bind].
  unfold stamps_nonneg in Hs. rewrite !Forall_cons in Hs. destruct_and! Hs. cbn [existsb].
  repeat match goal with H : negative _ = false |- _ => rewrite H end. cbn [orb].
  rewrite !py_int_or_val. cbn [mbind res_bind]. rewrite !(proj2 (Z.ltb_ge _ _)) by done. cbn [orb]. done.
Qed.

(** The whole reader on a stored episode. *)
Lemma from_stored l :
  storable l → nonempty (lv_run_id l) = true → fingerprint_ok (lv_fingerprint l) = true →
  (String.length (lv_reason l) ≤ 240)%nat → (String.length (lv_cursor l) ≤ 240)%nat →
  (String.length (lv_source l) ≤ 80)%nat → (String.length (lv_source_fingerprint l) ≤ 64)%nat →
  (String.length (lv_no_progress_evidence l) ≤ 80)%nat → (String.length (lv_outcome l) ≤ 80)%nat →
  lv_source_rejected l = bool_decide (lv_state l = LS_UNKNOWN) →
  liveness_from_json float_of_text (liveness_to_json l) =
  match state_refusal (parsed l) (lv_source l) (lv_source_fingerprint l) (lv_cursor l) (lv_outcome l)
          (lv_baseline l) (lv_resume_used l) with
  | Some reason => Ok (liveness_unknown reason (lv_legacy_busy_attempts l))
  | None =>
      match (if bool_decide (lv_state l = LS_UNKNOWN) then None else rung_refusal (parsed l) (lv_outcome l)) with
      | Some reason => Ok (liveness_unknown reason (lv_legacy_busy_attempts l))
      | None => Ok l
      end
  end.
Proof.
  intros Hst Hrun Hfp H1 H2 H3 H4 H5 H6 Hfence. unfold liveness_from_json, liveness_to_json.
  rewrite (parse_stored l Hst).
  change (get (liveness_fields l) "provider_source") with (VStr (lv_source l)).
  change (get (liveness_fields l) "provider_source_fingerprint") with (VStr (lv_source_fingerprint l)).
  change (get (liveness_fields l) "provider_cursor") with (VStr (lv_cursor l)).
  change (get (liveness_fields l) "terminal_outcome") with (VStr (lv_outcome l)).
  change (get (liveness_fields l) "baseline_established") with (VBool (lv_baseline l)).
  change (get (liveness_fields l) "reason") with (VStr (lv_reason l)).
  change (get (liveness_fields l) "no_progress_evidence") with (VStr (lv_no_progress_evidence l)).
  change (dict_get (liveness_fields l) "recovery_resume_used") with (Some (VBool (lv_resume_used l))).
  rewrite !py_str_or_str, !str_take_id by done. cbv zeta.
  change (pl_run_id (parsed l)) with (lv_run_id l). change (pl_fingerprint (parsed l)) with (lv_fingerprint l).
  rewrite Hrun, Hfp. cbn [negb orb andb]. rewrite !andb_false_r. cbn [andb].
  change (py_truthy (default (VBool false) (Some (VBool (lv_resume_used l))))) with (lv_resume_used l).
  destruct (state_refusal _ _ _ _ _ _ _); [done|].
  change (pl_state (parsed l)) with (lv_state l). rewrite <-Hfence.
  destruct (if lv_source_rejected l then None else _); [done|]. by destruct l.
Qed.

Lemma sound_storable l : sound l → storable l.
Proof. intros Hc. split; apply Hc. Qed.

Lemma virgin_untouched l :
  virgin l → untouched (parsed l) (lv_source l) (lv_source_fingerprint l) (lv_cursor l) (lv_resume_used l) = true.
Proof.
  intros [H1 H2 H3 H4 H5 H6 H7 H8 H9 H10]. unfold untouched, parsed. cbn.
  by rewrite H1, H2, H3, H4, H5, H6, H7, H8, H9, H10.
Qed.

Lemma outcome_terminal l : sound l → nonempty (lv_outcome l) = bool_decide (lv_rung l = RR_TERMINAL).
Proof.
  intros Hc. apply eq_true_iff_eq. unfold nonempty.
  rewrite negb_true_iff, String.eqb_neq, bool_decide_eq_true. by rewrite (co_terminal _ Hc).
Qed.

Lemma coherent_state l :
  coherent l →
  state_refusal (parsed l) (lv_source l) (lv_source_fingerprint l) (lv_cursor l) (lv_outcome l)
    (lv_baseline l) (lv_resume_used l) = None.
Proof.
  intros [Hc Hp]. pose proof (co_fence _ Hc) as Hf. unfold state_refusal.
  change (pl_state (parsed l)) with (lv_state l). change (pl_rejected (parsed l)) with (lv_source_rejected l).
  change (pl_rung (parsed l)) with (lv_rung l). rewrite Hf.
  destruct (lv_baseline l) eqn:Eb.
  - destruct (co_based _ Hc Eb) as [-> ?]. destruct (lv_state l); done.
  - destruct (co_virgin _ Hc Eb) as (Hv & Hr & Hs). rewrite (virgin_untouched _ Hv).
    assert (lv_state l ≠ LS_UNAVAILABLE → lv_rung l = RR_NONE ∧ nonempty (lv_outcome l) = false) as Hn.
    { intros Hu. destruct Hr as [Hr|[_ Hr]]; [|done]. split; [done|].
      rewrite (outcome_terminal _ Hc), Hr. by apply bool_decide_eq_false. }
    destruct Hs as [Es|[Es|Es]]; rewrite Es in *.
    + destruct Hn as [-> ->]; done.
    + destruct Hn as [-> ->]; [done|]. destruct (Hp eq_refl) as [H1 H2], Hv as [? ? ? ? H3 H4 H5 H6 ? ?].
      unfold stamps_of, parsed. cbn [pl_first_observed pl_first_busy pl_last_progress pl_last_observed pl_attempted pl_deadline].
      by rewrite H1, H2, H3, H4, H5, H6.
    + by destruct Hr as [->|[-> _]].
Qed.

Lemma sound_active l :
  sound l → lv_rung l ≠ RR_NONE → lv_rung l ≠ RR_TERMINAL → lv_state l ≠ LS_UNKNOWN →
  lv_state l ∈ [LS_STALLED; LS_PROGRESSED; LS_UNAVAILABLE].
Proof.
  intros Hc Hn Ht Hs. destruct (lv_baseline l) eqn:Eb.
  - pose proof (proj2 (co_based _ Hc Eb)). pose proof (co_ladder _ Hc Hn Ht). destruct (lv_state l); set_solver.
  - destruct (co_virgin _ Hc Eb) as (_ & [?|[? _]] & _); done.
Qed.

Lemma sound_rung l : sound l → lv_state l ≠ LS_UNKNOWN → rung_refusal (parsed l) (lv_outcome l) = None.
Proof.
  intros Hc Hs. unfold rung_refusal. change (pl_rung (parsed l)) with (lv_rung l).
  change (pl_state (parsed l)) with (lv_state l). change (pl_attempts (parsed l)) with (lv_attempts l).
  change (pl_deadline (parsed l)) with (lv_deadline l). change (pl_attempted (parsed l)) with (lv_attempted_at l).
  rewrite (outcome_terminal _ Hc). pose proof (sound_active _ Hc) as Ha.
  destruct (lv_rung l) eqn:Er; try done; rewrite (bool_decide_eq_true_2 (lv_state l ∈ _)) by (by apply Ha); cbn.
  - done.
  - destruct (co_window _ Hc Er) as [-> ->]. done.
  - by destruct (co_resume _ Hc).
  - by destruct (co_resume _ Hc).
Qed.

(** A coherent episode is read back field by field. *)
Lemma coherent_reload l : coherent l → liveness_from_json float_of_text (liveness_to_json l) = Ok l.
Proof.
  intros [Hs Hp]. pose proof (conj Hs Hp : coherent l) as Hc.
  rewrite from_stored by (try apply Hs; by apply sound_storable).
  rewrite (coherent_state _ Hc). destruct (bool_decide_reflect (lv_state l = LS_UNKNOWN)); [done|].
  by rewrite sound_rung.
Qed.

End reload.

(** ** Every operation keeps an episode coherent *)

Lemma nonneg_now now : 0 ≤ now → negative (FFin now) = false.
Proof. intros H. cbn. by apply Z.ltb_ge. Qed.

#[local] Hint Resolve nonneg_now : py.

(** The obligations of an update: the fields it leaves alone are closed by the
    invariant of the episode before it. *)
Ltac keep_sound Hs :=
  destruct Hs as [Hrun Hfp Hre Hcu Hso Hsf Hev Hou Hst Hbu Hat Hle Hfe Hba Hvi Hte Hla Hid Hin Hwi Hnr];
  unfold stamps_nonneg in Hst; rewrite !Forall_cons in Hst; destruct_and! Hst;
  split; cbn -[fl_le based]; try done; try lia; try (by auto with py).

Ltac stamps :=
  lazymatch goal with |- stamps_nonneg _ => idtac end;
  unfold stamps_nonneg; cbn -[negative]; rewrite !Forall_cons; split_and?; cbn -[negative]; auto with py.

Lemma bound_sound l : sound l → bound l = true.
Proof.
  intros Hs. unfold bound. rewrite (co_run _ Hs). pose proof (co_fingerprint _ Hs) as H.
  destruct (lv_fingerprint l); [done|]. done.
Qed.

Section operations.
Context `{PyRepr} (digest : pyval → string).

Lemma begin_coherent head_run :
  (∀ v, fingerprint_ok (digest v) = true) → nonempty (head_run_binding digest head_run).1 = true →
  coherent (liveness_begin digest head_run).
Proof.
  intros Hd. unfold liveness_begin. destruct (head_run_binding digest head_run) as [run fp] eqn:E. cbn. intros Hr.
  rewrite Hr. cbn. assert (fingerprint_ok fp = true) as Hfp.
  { unfold head_run_binding in E. repeat case_match; simplify_eq; try done. }
  split; [|done]. split; cbn; try done; try lia; try stamps.
  intros _. split_and!; auto. by split.
Qed.

(** Noting the first observation keeps all but the pending clause. *)
Definition first_seen (l : Liveness) (now : Z) : Liveness :=
  if fl_truthy (lv_first_observed_at l) then l else l <| lv_first_observed_at := FFin now |>.

Lemma first_seen_sound l now : sound l → 0 ≤ now → sound (first_seen l now).
Proof.
  intros Hs Hn. unfold first_seen. destruct (fl_truthy _); [done|]. keep_sound Hs.
  - stamps.
  - intros Hb. destruct (Hvi Hb) as ([] & ? & ?). split_and!; [by split|done..].
Qed.

Lemma unavailable_coherent l now reason :
  sound l → 0 ≤ now → lv_source_rejected l = false → (String.length reason ≤ 240)%nat →
  coherent (unavailable_answer l now reason).
Proof.
  intros Hs Hn Hr Hlen. unfold unavailable_answer. split; [|done]. keep_sound Hs.
  - stamps.
  - intros Hb. split; [by apply Hba|done].
  - intros Hb. destruct (Hvi Hb) as ([] & Hrung & ?). split_and!; [by split| |by auto].
    destruct Hrung as [?|[? ?]]; auto.
Qed.

Lemma reject_coherent l reason :
  sound l → lv_baseline l = true ∨ lv_rung l ≠ RR_TERMINAL → coherent (reject_as_unknown l reason).
Proof.
  intros Hs Hr. unfold reject_as_unknown. split; [|done]. keep_sound Hs.
  - stamps.
  - intros Hb. split; [by apply Hba|done].
  - intros Hb. destruct (Hvi Hb) as ([] & Hrung & ?). split_and!; [by split| |by auto].
    left. destruct Hrung as [?|[? ?]]; [done|]. destruct Hr; congruence.
Qed.

Lemma observe_admitted_coherent l now src fp cur :
  sound l → 0 ≤ now → lv_source_rejected l = false → lv_baseline l = true ∨ lv_rung l ≠ RR_TERMINAL →
  (String.length src ≤ 80)%nat → (String.length fp ≤ 64)%nat → (String.length cur ≤ 240)%nat →
  (observe_admitted l now src fp cur).1 = "progressed" ∧ lv_rung l = RR_RESPONSE_WINDOW ∨
  coherent (observe_admitted l now src fp cur).2.
Proof.
  intros Hs Hn Hr Hb H1 H2 H3. unfold observe_admitted. repeat case_match; cbn [fst snd].
  all: try (right; apply unavailable_coherent; [done..|cbn; lia]); try (right; by apply reject_coherent).
  all: pose proof (co_fence _ Hs) as Hf; rewrite Hr in Hf; symmetry in Hf; apply bool_decide_eq_false in Hf.
  - right. assert (based src fp cur = true) as Hbased.
    { unfold based. boolify. by rewrite !andb_true_iff. }
    split; [|done]. boolify. destruct (co_virgin _ Hs ltac:(done)) as (Hv & Hrung & _). keep_sound Hs.
    + stamps.
    + destruct Hrung as [?|[? ?]]; congruence.
  - right. split; [|done]. boolify. pose proof (co_based _ Hs ltac:(done)). keep_sound Hs; [stamps|..].
    + intros _. split; [naive_solver|done].
    + congruence.
  - destruct (decide (lv_rung l = RR_RESPONSE_WINDOW)) as [|Hw]; [by left|right]. split; [|done].
    unfold progressed. rewrite (bool_decide_eq_false_2 _ Hw). boolify.
    pose proof (co_based _ Hs ltac:(done)) as [Hbased _]. unfold based in Hbased. boolify.
    keep_sound Hs; [stamps|..].
    + intros _. unfold based. split; [|done]. by rewrite !andb_true_iff.
    + congruence.
Qed.

Lemma observe_coherent l evidence now head_run :
  coherent l → 0 ≤ now → lv_baseline l = true ∨ lv_rung l ≠ RR_TERMINAL →
  (observe_provider digest l evidence now head_run).1 = "progressed" ∧ lv_rung l = RR_RESPONSE_WINDOW ∨
  coherent (observe_provider digest l evidence now head_run).2.
Proof.
  intros Hc Hn Hb. pose proof Hc as [Hs _]. unfold observe_provider. change (if fl_truthy _ then l else _) with (first_seen l now).
  destruct (lv_source_rejected l) eqn:Er; [by right|].
  destruct (head_run_binding digest head_run) as [run fp]. case_match; [right; by apply reject_coherent|].
  pose proof (first_seen_sound l now Hs Hn) as Hf.
  assert (lv_source_rejected (first_seen l now) = false ∧ lv_baseline (first_seen l now) = lv_baseline l ∧
    lv_rung (first_seen l now) = lv_rung l) as (Er' & Eb & Erg) by (unfold first_seen; by case_match).
  rewrite <-Eb, <-Erg in Hb. rewrite <-Erg.
  destruct evidence as [| | | | | |d]; try (right; apply unavailable_coherent; [done..|cbn; lia]).
  case_match; [right; apply unavailable_coherent; [done..|cbn; lia]|].
  case_match; [|apply observe_admitted_coherent; auto using str_take_length].
  case_match; right; [|apply unavailable_coherent; auto using str_take_length].
  destruct (reject_coherent _ (str_or (get d "reason") "provider progress names another HeadRun") Hf Hb) as [Hj _].
  split; [|done]. keep_sound Hj; [stamps|..].
  intros Hb'. destruct (Hvi Hb') as ([] & ? & ?). split_and!; [by split|done..].
Qed.

(** An episode that never admitted a source and answered unavailable stays so,
    or is sealed. *)
Lemma observe_unavailable l evidence now head_run :
  sound l → 0 ≤ now → lv_source_rejected l = false → lv_baseline l = false → lv_state l = LS_UNAVAILABLE →
  coherent (observe_provider digest l evidence now head_run).2 ∨
  lv_source_rejected (observe_provider digest l evidence now head_run).2 = true.
Proof.
  intros Hs Hn Hr Hb Hu. unfold observe_provider. change (if fl_truthy _ then l else _) with (first_seen l now).
  rewrite Hr. destruct (head_run_binding digest head_run) as [run fp]. case_match; [by right|].
  pose proof (first_seen_sound l now Hs Hn) as Hf.
  assert (lv_source_rejected (first_seen l now) = false ∧ lv_baseline (first_seen l now) = false ∧
    lv_state (first_seen l now) = LS_UNAVAILABLE) as (Er & Eb & Es) by (unfold first_seen; by case_match).
  unfold observe_admitted. rewrite Eb, Es.
  repeat case_match; cbn [snd]; try done; try (by right); left; apply unavailable_coherent; try done;
    solve [cbn; lia | apply str_take_length].
Qed.

(** What an answer does to the ladder. *)
Record observed (l : Liveness) (obs : string) (l1 : Liveness) : Prop := {
  ob_bound : bound l1 = bound l;
  ob_fence : lv_source_rejected l = true → l1 = l;
  ob_fenced : lv_source_rejected l1 = true → lv_source_rejected l = true ∨ lv_state l1 = LS_UNKNOWN;
  ob_settled : lv_source_rejected l = false → lv_state l1 ≠ LS_BASELINE_PENDING;
  ob_same : obs ≠ "progressed" → lv_rung l1 = lv_rung l ∧ lv_busy_attempts l1 = lv_busy_attempts l;
  ob_progressed : obs = "progressed" →
    lv_busy_attempts l1 = 0 ∧ (lv_rung l1 = RR_RESPONSE_WINDOW → lv_rung l = RR_RESPONSE_WINDOW);
}.

Lemma observe_admitted_observed l now src fp cur :
  lv_source_rejected l = false → observed l (observe_admitted l now src fp cur).1 (observe_admitted l now src fp cur).2.
Proof.
  intros Hr. unfold observe_admitted. repeat case_match; split; cbn; try done; try congruence; auto.
  intros _. split; [done|]. by case_bool_decide.
Qed.

Lemma observe_observed l evidence now head_run :
  observed l (observe_provider digest l evidence now head_run).1 (observe_provider digest l evidence now head_run).2.
Proof.
  unfold observe_provider. change (if fl_truthy _ then l else _) with (first_seen l now).
  destruct (lv_source_rejected l) eqn:Er; [split; cbn; try done; auto; congruence|].
  destruct (head_run_binding digest head_run) as [run fp]. case_match; [split; cbn; auto; congruence|].
  assert (∀ obs l1, observed (first_seen l now) obs l1 → observed l obs l1) as Hf.
  { intros obs l1. unfold first_seen. case_match; [done|]. intros [? Hx ? ? ? ?]. cbn in *. split; try done.
    intros Hy. congruence. }
  assert (lv_source_rejected (first_seen l now) = false) as Er' by (unfold first_seen; by case_match).
  apply Hf. destruct evidence; try (by split; cbn; auto; congruence).
  unfold LEGACY_UNBOUND_V1. repeat case_match; try (by split; cbn; auto; congruence). by apply observe_admitted_observed.
Qed.

Lemma note_busy_coherent l now : coherent l → 0 ≤ now → coherent (note_busy l now).
Proof.
  intros Hc Hn. unfold note_busy. case_match eqn:Eg; [done|]. destruct Hc as [Hs Hp].
  unfold admitted in Eg. boolify. split; [|by destruct (fl_truthy _); cbn; congruence].
  destruct (fl_truthy _); keep_sound Hs; try stamps; intros Hv; congruence.
Qed.

Lemma evidence_coherent l text :
  coherent l → (String.length text ≤ 80)%nat → coherent (l <| lv_no_progress_evidence := text |>).
Proof.
  intros [Hs Hp] Hlen. split; [|done]. keep_sound Hs; [stamps|].
  intros Hb. destruct (Hvi Hb) as ([] & ? & ?). split_and!; [by split|done..].
Qed.

Lemma begin_safe_recovery_coherent l now :
  coherent l → 0 ≤ now → lv_state l = LS_STALLED → lv_rung l = RR_NONE → coherent (begin_safe_recovery l now).
Proof.
  intros [Hs Hp] Hn Hst' Hr. split; [|by cbn; congruence]. keep_sound Hs.
  - stamps.
  - intros Hb. destruct (Hvi Hb) as (_ & _ & ?). naive_solver congruence.
  - split; [done|]. intros Hne. exfalso. apply Hte in Hne. congruence.
  - congruence.
  - specialize (Hid Hr). lia.
Qed.

Lemma response_window_coherent l now secs :
  coherent l → 0 ≤ now → lv_state l = LS_STALLED → lv_rung l = RR_PENDING →
  fl_lt (lv_attempted_at l) (FFin (now + Z.max 0 secs)) = true → coherent (safe_recovery_response_window l now secs).
Proof.
  intros [Hs Hp] Hn Hst' Hr Hlt. split; [|by cbn; congruence]. keep_sound Hs.
  - stamps. apply nonneg_now. lia.
  - intros Hb. destruct (Hvi Hb) as (_ & _ & ?). naive_solver congruence.
  - split; [done|]. intros Hne. exfalso. apply Hte in Hne. congruence.
  - congruence.
  - intros _. split; [auto|]. unfold fl_le. destruct (lv_attempted_at l); try done. by rewrite Hlt.
Qed.

Lemma terminalize_coherent l outcome reason :
  coherent l → lv_baseline l = true ∨ lv_state l = LS_UNAVAILABLE → outcome ≠ "" → (String.length outcome ≤ 80)%nat →
  coherent (terminalize l outcome reason).
Proof.
  intros [Hs Hp] Hb Ho Hlen. split; [|done]. keep_sound Hs; [stamps|].
  intros Hv. destruct (Hvi Hv) as ([] & ? & ?). split_and!; [by split| |done].
  right. split; [done|]. destruct Hb; [congruence|done].
Qed.

End operations.

(** ** Sealed episodes *)

(** A rejection is final: an episode whose source was rejected answers unknown to
    every later observation, whatever the provider says and whichever run is
    presented, and nothing of it changes. *)
Theorem rejection_is_final `{PyRepr} digest l (observations : list (pyval * Z * pyval)) :
  lv_source_rejected l = true →
  foldl (λ '(answers, l) '(evidence, now, head_run),
           let '(a, l') := observe_provider digest l evidence now head_run in (answers ++ [a], l')) ([], l) observations
  = (replicate (length observations) "unknown", l).
Proof.
  intros Hr. induction observations as [|[[e now] hr] obs IH] using rev_ind; [done|].
  rewrite foldl_app, IH. cbn. unfold observe_provider. rewrite Hr, length_app, Nat.add_1_r. by rewrite replicate_S_end.
Qed.

(** The answers that admit the source. *)
Definition admitting (answer : string) : bool := bool_decide (answer ∈ ["baseline"; "stalled"; "progressed"]).

Lemma admitted_exact l now src fp cur :
  let '(answer, l') := observe_admitted l now src fp cur in
  admitting answer = true →
  lv_source l' = src ∧ lv_source_fingerprint l' = fp ∧ lv_cursor l' = cur ∧
  (answer = "baseline" ∧ lv_state l = LS_BASELINE_PENDING ∧ lv_baseline l = false ∨
   lv_baseline l = true ∧ lv_source l' = lv_source l ∧ lv_source_fingerprint l' = lv_source_fingerprint l ∧
   (answer = "stalled" ↔ lv_cursor l' = lv_cursor l)).
Proof.
  unfold observe_admitted. destruct (_ || _ || _); [done|]. destruct (lv_baseline l) eqn:Eb; cbn [negb].
  - destruct (String.eqb_spec src (lv_source l)) as [->|]; [|done].
    destruct (String.eqb_spec fp (lv_source_fingerprint l)) as [->|]; [|done]. cbn [negb orb].
    destruct (String.eqb_spec cur (lv_cursor l)) as [->|Hne]; cbn; intros _; (split_and!; [done..|right]); split_and!; done.
  - destruct (bool_decide_reflect (lv_state l = LS_BASELINE_PENDING)); [|done]. cbn. intros _. split_and!; [done..|]. by left.
Qed.

(** An observation admits a source only for evidence of this very run and
    fingerprint: a baseline is taken once, from a pending episode, and later
    answers count only from the source the baseline was taken of. *)
Theorem admission_is_exact `{PyRepr} digest l evidence now head_run :
  let '(answer, l') := observe_provider digest l evidence now head_run in
  admitting answer = true →
  ∃ d, evidence = VDict d ∧ head_run_binding digest head_run = (lv_run_id l, lv_fingerprint l) ∧
    py_str_or (get d "head_run_id") = lv_run_id l ∧ py_str_or (get d "head_run_fingerprint") = lv_fingerprint l ∧
    py_str_or (get d "state") = "observed" ∧ py_str_or (get d "admission") = "accepted" ∧
    lv_source l' = str_take 80 (py_str_or (get d "source")) ∧
    lv_source_fingerprint l' = str_take 64 (py_str_or (get d "source_fingerprint")) ∧
    lv_cursor l' = str_take 240 (py_str_or (get d "cursor")) ∧
    (answer = "baseline" ∧ lv_state l = LS_BASELINE_PENDING ∧ lv_baseline l = false ∨
     lv_baseline l = true ∧ lv_source l' = lv_source l ∧ lv_source_fingerprint l' = lv_source_fingerprint l ∧
     (answer = "stalled" ↔ lv_cursor l' = lv_cursor l)).
Proof.
  unfold observe_provider, LEGACY_UNBOUND_V1. change (if fl_truthy _ then l else _) with (first_seen l now).
  destruct (lv_source_rejected l); [done|].
  destruct (head_run_binding digest head_run) as [run fp] eqn:Eb.
  destruct (negb (bound l) || _ || _ || _) eqn:Em; [done|]. destruct evidence as [| | | | | |d]; try done.
  destruct (_ && _ && _); [done|].
  destruct (negb (admits _ _)) eqn:Ea; [by destruct (String.eqb (py_str_or (get d "state")) "identity_mismatch")|].
  unfold admits in Ea. boolify.
  assert (lv_run_id (first_seen l now) = lv_run_id l ∧ lv_fingerprint (first_seen l now) = lv_fingerprint l ∧
    lv_baseline (first_seen l now) = lv_baseline l ∧ lv_state (first_seen l now) = lv_state l ∧
    lv_source (first_seen l now) = lv_source l ∧ lv_source_fingerprint (first_seen l now) = lv_source_fingerprint l ∧
    lv_cursor (first_seen l now) = lv_cursor l) as (E1 & E2 & E3 & E4 & E5 & E6 & E7)
    by (unfold first_seen; by case_match).
  rewrite E1, E2 in *. repeat match goal with Hx : String.eqb _ _ = true |- _ => apply String.eqb_eq in Hx end.
  pose proof (admitted_exact (first_seen l now) now (str_take 80 (py_str_or (get d "source")))
    (str_take 64 (py_str_or (get d "source_fingerprint"))) (str_take 240 (py_str_or (get d "cursor")))) as Hx.
  destruct (observe_admitted _ _ _ _ _) as [answer l']. intros Ha. specialize (Hx Ha). rewrite E3, E4, E5, E6, E7 in Hx.
  exists d. destruct Hx as (? & ? & ? & ?). split_and!; try done. congruence.
Qed.

(** ** Progress inside an open response window *)

Lemma observe_progressed `{PyRepr} digest l evidence now head_run :
  (observe_provider digest l evidence now head_run).1 = "progressed" →
  ∃ cur, (observe_provider digest l evidence now head_run).2 = progressed (first_seen l now) now cur ∧
    lv_baseline l = true ∧ lv_source_rejected l = false ∧ nonempty cur = true ∧ (String.length cur ≤ 240)%nat.
Proof.
  unfold observe_provider, LEGACY_UNBOUND_V1. change (if fl_truthy _ then l else _) with (first_seen l now).
  destruct (lv_source_rejected l); [done|]. destruct (head_run_binding digest head_run) as [run fp].
  destruct (negb (bound l) || _ || _ || _); [done|]. destruct evidence as [| | | | | |d]; try done.
  destruct (_ && _ && _); [done|].
  destruct (negb (admits _ _)); [by destruct (String.eqb (py_str_or (get d "state")) "identity_mismatch")|].
  unfold observe_admitted. destruct (_ || _ || _) eqn:Ei; [done|].
  assert (lv_baseline (first_seen l now) = lv_baseline l) as -> by (unfold first_seen; by case_match).
  destruct (lv_baseline l); cbn [negb]; [|by case_match]. repeat case_match; try done. intros _. boolify.
  eexists. split_and!; try done. apply str_take_length.
Qed.

Lemma same_rung l rung : lv_rung l = rung → l <| lv_rung := rung |> = l.
Proof. by destruct l; cbn; intros ->. Qed.

Lemma window_refused p :
  pl_rung p = RR_RESPONSE_WINDOW → pl_state p = LS_PROGRESSED → pl_attempts p = 0 →
  rung_refusal p "" = Some "safe recovery response window is incoherent".
Proof. intros H1 H2 H3. unfold rung_refusal. by rewrite H1, H2, H3. Qed.

Lemma resume_refused p :
  pl_rung p = RR_RESUME_ONCE → pl_state p = LS_PROGRESSED → pl_attempts p = 0 →
  rung_refusal p "" = Some "safe recovery resume is incoherent".
Proof. intros H1 H2 H3. unfold rung_refusal. by rewrite H1, H2, H3. Qed.

Lemma progressed_state p src fp cur outcome :
  pl_state p = LS_PROGRESSED → based src fp cur = true → state_refusal p src fp cur outcome true false = None.
Proof. intros H1 H2. unfold state_refusal. by rewrite H1, H2. Qed.

(** Progress read while a safe recovery waits for its response keeps the rung
    but resets the attempt it belongs to; the record, and the one the recovery
    window makes of it, are then refused when they are read back, and the
    episode is lost. *)
Theorem window_progress_is_lost `{PyRepr} digest float_of_text l evidence now head_run :
  coherent l → lv_rung l = RR_RESPONSE_WINDOW → 0 ≤ now →
  (observe_provider digest l evidence now head_run).1 = "progressed" →
  let l' := (observe_provider digest l evidence now head_run).2 in
  admitted l' = true ∧
  liveness_from_json float_of_text (liveness_to_json l') =
    Ok (liveness_unknown "safe recovery response window is incoherent" (lv_legacy_busy_attempts l)) ∧
  liveness_from_json float_of_text (liveness_to_json (l' <| lv_rung := RR_RESUME_ONCE |>)) =
    Ok (liveness_unknown "safe recovery resume is incoherent" (lv_legacy_busy_attempts l)).
Proof.
  intros [Hs _] Hr Hn Hp. destruct (observe_progressed _ _ _ _ _ Hp) as (cur & -> & Hb & Hj & Hcur & Hlen). clear Hp.
  pose proof (first_seen_sound l now Hs Hn) as Hf.
  assert (lv_rung (first_seen l now) = RR_RESPONSE_WINDOW ∧ lv_baseline (first_seen l now) = true ∧
    lv_source_rejected (first_seen l now) = false ∧
    lv_legacy_busy_attempts (first_seen l now) = lv_legacy_busy_attempts l) as (Er & Eb & Ej & El)
    by (unfold first_seen; by case_match).
  set (f := first_seen l now) in *. clearbody f. rewrite <-El. clear El. cbv zeta.
  pose proof (bound_sound _ Hf) as Hbd. pose proof (co_based _ Hf Eb) as [Hbs _]. unfold based in Hbs. boolify.
  assert (admitted (progressed f now cur) = true) as Hadm.
  { unfold admitted. change (bound (progressed f now cur)) with (bound f). rewrite Hbd. cbn. by rewrite Eb. }
  assert (∀ rung, let p := progressed f now cur <| lv_rung := rung |> in
    liveness_from_json float_of_text (liveness_to_json p) =
    match rung_refusal (parsed p) "" with
    | Some reason => Ok (liveness_unknown reason (lv_legacy_busy_attempts f))
    | None => Ok p
    end) as Hread.
  { intros rung p. rewrite from_stored; try apply Hf; try done; try (cbn; lia).
    - change (lv_baseline p) with (lv_baseline f). rewrite Eb. rewrite progressed_state; [done|done|].
      unfold based. by rewrite !andb_true_iff.
    - destruct (sound_storable _ Hf) as [Hst ? ? ?]. split; try done.
      unfold stamps_nonneg in *. rewrite !Forall_cons in *. destruct_and! Hst. cbn -[negative].
      split_and!; auto using nonneg_now. }
  split_and!; [done| |].
  - specialize (Hread RR_RESPONSE_WINDOW). cbv zeta in Hread.
    assert (lv_rung (progressed f now cur) = RR_RESPONSE_WINDOW) as Ew by (cbn; by rewrite Er).
    rewrite (same_rung _ _ Ew) in Hread. by rewrite Hread, window_refused.
  - specialize (Hread RR_RESUME_ONCE). cbv zeta in Hread. by rewrite Hread, resume_refused.
Qed.

(** ** An open transition *)

(** What a red transition carries to its own completion. *)
Definition frozen (c : Continuation) :=
  (ct_report_baseline c, ct_reserved_generation c, ct_move_reason c, ct_verdict_outcome c, ct_decision c,
   ct_decision_body c, ct_prerequisites c).

Definition delivering (c : Continuation) : Prop := ct_stage c = CS_DELIVERY_PENDING ∨ ct_stage c = CS_DELIVERY_CONFIRMED.
Definition transition_open (c : Continuation) : Prop := ct_stage c = CS_RED_TRANSITION_PENDING ∨ delivering c.

(** The operations on a continuation, short of the two that end it. *)
Inductive ct_step (c : Continuation) : Continuation → Prop :=
| st_confirm_move c' : confirm_validation_move c = Ok c' → ct_step c c'
| st_begin_park phase n reason outcome c' : begin_park c phase n reason outcome = Ok c' → ct_step c c'
| st_confirm_park c' : confirm_park c = Ok c' → ct_step c c'
| st_begin_red v c' : begin_red_transition c v = Ok c' → ct_step c c'
| st_begin_delivery phase now c' : begin_delivery c phase now = Ok c' → ct_step c c'
| st_confirm_delivery c' : confirm_delivery c = Ok c' → ct_step c c'
| st_defer now : ct_step c (defer_busy c now).2
| st_drop : ct_step c (drop_session c).

Lemma open_step c c' :
  transition_open c → ct_step c c' →
  transition_open c' ∧ frozen c' = frozen c ∧ (delivering c → delivering c' ∧ ct_sent_at c' = ct_sent_at c).
Proof.
  unfold transition_open, delivering. intros Ho Hs. destruct Hs as [c' E|ph n re ou c' E|c' E|v c' E|ph now c' E|c' E|now|].
  all: try unfold confirm_validation_move in E; try unfold begin_park in E; try unfold confirm_park in E;
    try unfold begin_red_transition in E; try unfold begin_delivery in E; try unfold confirm_delivery in E.
  all: unfold drop_session, defer_busy; destruct c as [st ? ? ? ? ? ? ? ? ? ? ? ? ?]; cbn in *;
    destruct Ho as [->|[->| ->]]; try discriminate E; try (injection E as <-); cbn; split_and!; auto; try done.
  all: intros [?|?]; auto; done.
Qed.

(** An open red transition is immutable: whatever is done to the continuation
    until it is cleared, the transition stays open on the verdict, the reason,
    the decision and the generation it was opened with, and the time of the
    first send is never moved. *)
Theorem open_transition_is_immutable c c' :
  transition_open c → rtc ct_step c c' →
  transition_open c' ∧ frozen c' = frozen c ∧ (delivering c → delivering c' ∧ ct_sent_at c' = ct_sent_at c).
Proof.
  intros Ho Hs. induction Hs as [|c c1 c2 Hs _ IH]; [done|].
  destruct (open_step _ _ Ho Hs) as (Ho1 & <- & Hd). destruct (IH Ho1) as (Ho2 & Hf & Hd2). split_and!; [done..|].
  intros Hdel. destruct (Hd Hdel) as [Hd1 <-]. auto.
Qed.

(** ** The backoff of a busy delivery *)

(** The delay doubles from thirty seconds and is capped at five minutes. *)
Theorem busy_backoff_bounds c now :
  0 ≤ ct_busy_attempts c →
  let '(delay, c') := defer_busy c now in
  30 ≤ delay ≤ 300 ∧ delay = Z.min (30 * 2 ^ ct_busy_attempts c) 300 ∧
  ct_busy_attempts c' = ct_busy_attempts c + 1 ∧
  (∀ t, 0 ≤ now → busy_retry_due c' t = (now + delay * SECOND <=? t)).
Proof.
  intros Hn. unfold defer_busy, busy_delay, BUSY_RETRY_INITIAL_SECONDS, BUSY_RETRY_MAX_SECONDS. cbv zeta.
  rewrite Z.add_simpl_r. set (n := ct_busy_attempts c) in *.
  assert (Z.min (30 * 2 ^ Z.min n 4) (5 * 60) = Z.min (30 * 2 ^ n) 300) as E.
  { destruct (Z.le_gt_cases n 4); [by rewrite (Z.min_l n 4)|]. rewrite (Z.min_r n 4) by lia. change (30 * 2 ^ 4) with 480.
    assert (2 ^ 4 ≤ 2 ^ n) by (apply Z.pow_le_mono_r; lia). lia. }
  rewrite E. assert (1 ≤ 2 ^ n) by (pose proof (Z.pow_pos_nonneg 2 n); lia).
  set (delay := Z.min (30 * 2 ^ n) 300). assert (30 ≤ delay ≤ 300) by lia. clearbody delay.
  split_and!; try lia; [done|]. intros t Ht. unfold busy_retry_due, seconds. cbn.
  destruct (Z.eqb_spec (now + delay * SECOND) 0); cbn; [unfold SECOND in *; lia|].
  rewrite Z.leb_antisym. done.
Qed.
