(* ===== verification/ContinuationLadder.v ===== *)
(** * Handing a red verdict back to the retained worker
      (dispatch/worker_continuation.py)

    The dispatcher's step over one card whose worker was retained across
    validation: opening and completing a red transition, delivering the
    continuation, the bounded no-progress ladder, and the confirmed-stop
    replacement.  The host and the runtime's other services answer through a
    [World] indexed by the number of the call; the step reads and rewrites one
    record and leaves a log of everything observable, the durable saves
    included. *)

From S2P Require Import Prelude PyText Program RequestIds HeadVitality WorkerLifecycle.

(** ** What a red transition clears: the judged round's own bookkeeping *)

Record WaitBook := {
  wb_waiting_since : pyfloat; wb_respawns : Z; wb_progress_at : pyfloat; wb_idle_since : pyfloat;
  wb_idle_confirmations : Z;
}.

(** [watchdog.reset_idle] and [watchdog.reset_wait]. *)
Definition reset_idle (b : WaitBook) : WaitBook := {|
  wb_waiting_since := wb_waiting_since b; wb_respawns := wb_respawns b; wb_progress_at := wb_progress_at b;
  wb_idle_since := FFin 0; wb_idle_confirmations := 0 |}.

Definition reset_wait (b : WaitBook) : WaitBook :=
  reset_idle {| wb_waiting_since := FFin 0; wb_respawns := 0; wb_progress_at := FFin 0;
                wb_idle_since := wb_idle_since b; wb_idle_confirmations := wb_idle_confirmations b |}.

Record Reruns := {
  ir_sha : string; ir_count : Z; ir_run_id : string; ir_reason : string; ir_transport_failures : Z;
  ir_transport_error : string;
}.

(** [gate.reset_infrastructure_reruns]. *)
Definition reset_infrastructure_reruns (r : Reruns) : Reruns := {|
  ir_sha := ""; ir_count := 0; ir_run_id := ""; ir_reason := ""; ir_transport_failures := 0;
  ir_transport_error := "" |}.

Record Judged := {
  jd_gate_state : string; jd_gate_pending_since : pyfloat; jd_gate_attestation : pyval;
  jd_gate_transport_failures : Z; jd_gate_transport_error : string; jd_reruns : Reruns;
  jd_review_commit : string; jd_review_wait : WaitBook; jd_worker_wait : WaitBook;
}.

Definition reset_judged (j : Judged) : Judged := {|
  jd_gate_state := ""; jd_gate_pending_since := FFin 0; jd_gate_attestation := VDict [];
  jd_gate_transport_failures := 0; jd_gate_transport_error := "";
  jd_reruns := reset_infrastructure_reruns (jd_reruns j); jd_review_commit := "";
  jd_review_wait := reset_wait (jd_review_wait j); jd_worker_wait := reset_wait (jd_worker_wait j) |}.

(** ** The record *)

(** The launch intent's fields a relaunch decides. *)
Record LaunchIntent := {
  li_action : string; li_run_id : string; li_round : Z; li_opens_round : bool; li_at : pyfloat;
  li_head_run : option pyval;
}.

(** The fields of [DispatcherRecord] the continuation reads or writes. *)
Record CRecord := {
  cr_state : string;
  cr_continuation : Continuation;
  cr_liveness : Liveness;
  cr_head_run : pyval;
  cr_evidence : pyval;
  cr_generation : Z;
  cr_round : Z;
  cr_comment_baseline : Z;
  cr_review_baseline : Z;
  cr_decision : string;
  cr_prerequisites : list string;
  cr_snapshot : pyval;
  cr_settled : bool;
  cr_intent : option LaunchIntent;
  cr_judged : Judged;
}.

#[global] Instance CRecord_eta : Settable CRecord := λ r,
  Build_CRecord (cr_state r) (cr_continuation r) (cr_liveness r) (cr_head_run r) (cr_evidence r) (cr_generation r)
    (cr_round r) (cr_comment_baseline r) (cr_review_baseline r) (cr_decision r) (cr_prerequisites r) (cr_snapshot r)
    (cr_settled r) (cr_intent r) (cr_judged r).

(** ** What the step leaves behind *)

Inductive Event :=
| EvSaved (r : CRecord)                                   (** [runtime.save_records] *)
| EvBegun                                                 (** a new liveness episode *)
| EvObserved (before : Liveness) (head_run evidence : pyval) (answer : string)
                                                          (** provider progress read: the episode it found, the
                                                              record's head run, the evidence and the answer *)
| EvConfirm                                               (** [host.confirm_worker_retained] *)
| EvResume (head_run : pyval)                             (** [host.resume_worker]: the prompt, to this head run *)
| EvBusy                                                  (** a busy refusal counted against the episode *)
| EvSafeRecovery (liveness : pyval)                       (** [host.safe_recover_worker_continuation] *)
| EvStop                                                  (** the confirmed stop of the worker *)
| EvRestart (reason : string)                             (** a replacement is brought up *)
| EvVerdict (outcome : string)                            (** [_record_verdict_routing] *)
| EvMove (target reason decision verdict request_id : string)  (** the board move *)
| EvComment (mode reason : string).                       (** [_record_worker_continuation] *)

Record Answer := { an_status : string; an_step : string; an_action : string; an_attempts : option Z }.

Inductive ResumeAnswer := Resumed | Refused (error : string) (evidence : pyval).

(** What the host, the clock, the board and the storage answer to the [n]-th
    call of the step. *)
Record World := {
  w_clock : nat → Z;
  w_progress : nat → pyval + string;                  (** the evidence, or the probe's exception *)
  w_confirm : nat → option string;                    (** the refusal *)
  w_resume : nat → ResumeAnswer;
  w_safe_recover : nat → pyval + string;
  w_stop : nat → option string;                       (** the refusal *)
  w_uuid : nat → string;
  w_preflight : nat → option (pyval + string);        (** absent, the attested run or the refusal *)
  w_snapshot : nat → option (Z → pyval → pyval);      (** [local_run_snapshot_for_round] *)
  w_storage : nat → option string;                    (** a storage error of the intent's write *)
  w_bring_up : nat → pyval + Answer;                  (** the launched run, or the failed tick's answer *)
  w_comments : nat → Z;                               (** the comments on the moved card *)
  w_successor : nat → option (Z → Z → pyval → pyval); (** [retained_local_run_snapshot_successor] *)
}.

(** ** The step's monad: the record, the number of calls made, the log *)

Record CState := { cs_record : CRecord; cs_calls : nat }.

Notation LM := (Prog CState Event).

Definition recd : LM CRecord := λ s, (Ok (cs_record s), s, []).
Definition update_rec (f : CRecord → CRecord) : LM unit := λ s,
  (Ok tt, {| cs_record := f (cs_record s); cs_calls := cs_calls s |}, []).
Definition call {A} (f : nat → A) : LM A := λ s,
  (Ok (f (cs_calls s)), {| cs_record := cs_record s; cs_calls := S (cs_calls s) |}, []).

Definition save : LM unit := r ← recd; emit (EvSaved r).
Definition on_liveness (f : Liveness → Liveness) : LM unit :=
  update_rec (λ r, r <| cr_liveness := f (cr_liveness r) |>).
Definition on_continuation (f : Continuation → Continuation) : LM unit :=
  update_rec (λ r, r <| cr_continuation := f (cr_continuation r) |>).
Definition try_continuation (f : Continuation → res Continuation) : LM unit :=
  r ← recd; c ← lift (f (cr_continuation r)); update_rec (λ r, r <| cr_continuation := c |>).

(** ** Evidence of a refused delivery *)

(** [tui_delivery.delivery_readiness_state]. *)
Definition delivery_readiness_state `{PyRepr} (evidence : pyval) : string :=
  let state := match evidence with VDict d => py_str_or (get d "readiness_state") | _ => "" end in
  if bool_decide (state ∈ ["busy"; "blocked"; "unavailable"; "stale_handle"]) then state else "unknown".

Section ladder.
(** [scrub_host_output], the redaction of host text, and the digest of a head
    run (see [WorkerLifecycle]). *)
Context `{PyRepr} (scrub : string → string) (digest : pyval → string) (W : World) (ref attempt : string).

(** [host._delivery_evidence_json] of an exception carrying [evidence]. *)
Definition delivery_evidence (error : string) (evidence : pyval) : pyval :=
  match evidence with
  | VDict ((_ :: _) as d) => VDict (dict_set d "subject" (VStr "worker-prompt"))
  | _ => VDict [("subject", VStr "worker-prompt"); ("reason", VStr (str_take 400 (scrub error)))]
  end.

(** [_continuation_no_progress_evidence]. *)
Definition no_progress_evidence (evidence : pyval) (state : LivenessState) : string :=
  match state with
  | LS_UNAVAILABLE => "provider_unavailable"
  | LS_UNKNOWN => "provider_or_identity_unknown"
  | _ =>
      let d := match evidence with VDict d => d | _ => [] end in
      let composer_before := py_str_or (get d "composer_before") in
      let composer_after := py_str_or (get d "composer_after") in
      let cursor_before := py_str_or (get d "cursor_before") in
      let cursor_after := py_str_or (get d "cursor_after") in
      if nonempty composer_before && String.eqb composer_before composer_after
         && negb (bool_decide (composer_before ∈ ["empty"; "unknown"]))
         && nonempty cursor_before && String.eqb cursor_before cursor_after
      then "completed_turn_residual_composer" else "active_or_unknown_turn"
  end.

Definition step_of (phase : string) : string := if String.eqb phase "review" then "review" else "gate".

(** [_retained_worker_busy_deferred] and [_retained_worker_recovery_window]. *)
Definition busy_deferred (phase : string) : LM Answer :=
  r ← recd;
  mret {| an_status := "degraded"; an_step := step_of phase; an_action := phase +:+ "-red-worker-busy";
          an_attempts := Some (ct_busy_attempts (cr_continuation r)) |}.

Definition window_deferred (phase : string) : LM Answer :=
  r ← recd;
  mret {| an_status := "degraded"; an_step := step_of phase; an_action := phase +:+ "-red-worker-recovery-window";
          an_attempts := Some (lv_busy_attempts (cr_liveness r)) |}.

(** [_observe_retained_continuation_progress]. *)
Definition observe_progress (now : Z) : LM string :=
  probe ← call (w_progress W);
  let evidence := match probe with
    | inl v => v
    | inr error => VDict [("state", VStr "unavailable");
                          ("reason", VStr ("provider-progress probe failed: " +:+ scrub error))]
    end in
  r ← recd;
  let l := cr_liveness r in
  let c := cr_continuation r in
  let l0 := if negb (bound l) && negb (ct_busy_attempts c =? 0)
            then l <| lv_legacy_busy_attempts := Z.max (lv_legacy_busy_attempts l) (ct_busy_attempts c) |> else l in
  let '(observation, l1) := observe_provider digest l0 evidence now (cr_head_run r) in
  let c1 := if admitted l1 then c <| ct_busy_attempts := lv_busy_attempts l1 |> else c in
  let c2 := if String.eqb observation "progressed" then c1 <| ct_busy_next_at := FFin 0 |> else c1 in
  update_rec (λ r, r <| cr_liveness := l1 |> <| cr_continuation := c2 |>);;
  emit (EvObserved l (cr_head_run r) evidence observation);;
  mret observation.

(** [runtime._stop_worker_confirmed]: the refusal's answer, or the worker is gone. *)
Definition stop_worker_confirmed (step : string) : LM (option Answer) :=
  refusal ← call (w_stop W);
  emit EvStop;;
  match refusal with
  | Some _ => mret (Some {| an_status := "degraded"; an_step := step; an_action := "worker-stop-unconfirmed";
                            an_attempts := None |})
  | None => on_continuation (λ c, drop_session (drop_session c));; mret None
  end.

(** [launch.write_launch_intent] of the worker role: the failure, or the intent
    is on disk. *)
Definition write_relaunch_intent (action : string) (round : Z) : LM (option string) :=
  r ← recd;
  run_id ← call (w_uuid W);
  preflight ← call (w_preflight W);
  match preflight with
  | Some (inr error) => mret (Some ("codex-fanout-policy: " +:+ error))
  | _ =>
      let attested := match preflight with Some (inl run) => Some run | _ => None end in
      snapshot ← call (w_snapshot W);
      at_ ← call (w_clock W);
      update_rec (λ r, r
        <| cr_snapshot := match snapshot with Some f => f (cr_generation r) (cr_snapshot r) | None => cr_snapshot r end |>
        <| cr_settled := false |>
        <| cr_intent := Some {| li_action := action; li_run_id := run_id; li_round := round;
                                li_opens_round := negb (round =? 0) && negb (round =? cr_round r);
                                li_at := FFin at_; li_head_run := attested |} |>
        <| cr_head_run := default (cr_head_run r) attested |>);;
      failure ← call (w_storage W);
      match failure with
      | Some error =>
          update_rec (λ r', r' <| cr_intent := cr_intent r |> <| cr_settled := cr_settled r |>
                             <| cr_snapshot := cr_snapshot r |>);;
          mret (Some error)
      | None => save;; mret None
      end
  end.

(** [runtime.open_worker_round], of the fields modelled. *)
Definition open_worker_round (round : Z) (r : CRecord) : CRecord :=
  r <| cr_round := if round =? 0 then cr_round r + 1 else round |>.

(** [_restart_red_worker]. *)
Definition restart_red_worker (reason phase : string) (worker_stopped : bool) : LM Answer :=
  let step := step_of phase in
  let review := String.eqb phase "review" in
  on_liveness (λ l, if bound l && negb (terminal l) then terminalize l "replacement" reason else l);;
  unconfirmed ← (if worker_stopped then mret None else stop_worker_confirmed step);
  match unconfirmed with
  | Some answer => mret answer
  | None =>
      r ← recd;
      let round := cr_round r + 1 in
      on_continuation ct_clear;;
      failure ← write_relaunch_intent (phase +:+ "-red-rework") round;
      match failure with
      | Some _ =>
          on_continuation (λ _, cr_continuation r);;
          mret {| an_status := "degraded"; an_step := step; an_action := "worker-launch-intent-unwritable";
                  an_attempts := None |}
      | None =>
          emit (EvRestart reason);;
          launched ← call (w_bring_up W);
          match launched with
          | inr answer => mret answer
          | inl run =>
              update_rec (λ r, open_worker_round round (r <| cr_head_run := run |> <| cr_state := "claimed" |>)
                                 <| cr_intent := None |>);;
              emit (EvComment "replacement" reason);;
              save;;
              mret {| an_status := "ok"; an_step := step;
                      an_action := if review then "rework-started" else phase +:+ "-red-rework";
                      an_attempts := None |}
          end
      end
  end.

(** [_finish_retained_worker_resume]. *)
Definition finish_resume (phase : string) : LM Answer :=
  update_rec (λ r, open_worker_round (cr_round r + 1)
    (r <| cr_liveness := if bound (cr_liveness r)
            then terminalize (cr_liveness r) "reused" "retained continuation delivery was confirmed"
            else cr_liveness r |>
       <| cr_continuation := ct_clear (cr_continuation r) |> <| cr_state := "claimed" |>));;
  emit (EvComment "reused" "retained worker resumed");;
  save;;
  mret {| an_status := "ok"; an_step := step_of phase; an_action := phase +:+ "-red-reused-worker";
          an_attempts := None |}.

(** [_block_unadmitted_continuation_liveness]. *)
Definition block_unadmitted (phase observation : string) : LM (option Answer) :=
  r ← recd;
  if bool_decide (observation ∈ ["baseline"; "stalled"; "progressed"]) && admitted (cr_liveness r) then mret None
  else if String.eqb observation LEGACY_UNBOUND_V1 then
    Some <$> restart_red_worker "Codex provider source remained legacy-unbound for v1 progress" phase false
  else
    let reason := if nonempty (lv_reason (cr_liveness r)) then lv_reason (cr_liveness r)
                  else "provider source was not admitted" in
    emit (EvMove "blocked"
            ("retained continuation liveness is unprovable; preserving the exact HeadRun without recovery: " +:+ reason)
            "" "missing" (attempt_request_id attempt "continuation-liveness-unavailable" ref phase));;
    save;;
    mret (Some {| an_status := "blocked"; an_step := step_of phase;
                  an_action := phase +:+ "-red-continuation-liveness-unavailable"; an_attempts := None |}).

(** [_continuation_recovery_window]. *)
Definition recovery_window (phase : string) (fresh : bool) (now : Z) : LM (option Answer) :=
  r ← recd;
  let l := cr_liveness r in
  if String.eqb (lv_outcome l) "identity_fenced" then
    Some <$> restart_red_worker "continuation liveness HeadRun identity is fenced" phase false
  else if negb (bool_decide (lv_rung l = RR_RESPONSE_WINDOW)) then mret None
  else if fl_lt (FFin now) (lv_deadline l) then save;; Some <$> window_deferred phase
  else if fresh then
    on_liveness (λ l, l <| lv_rung := RR_RESUME_ONCE |>);; save;; mret None
  else
    on_liveness (λ l, terminalize l "replacement" "safe recovery response window showed no provider progress");;
    save;;
    Some <$> restart_red_worker "safe recovery response window showed no provider progress" phase false.

(** The host's answer to the safe recovery: the exact run, recovered safely. *)
Definition valid_recovery (result : pyval) (l : Liveness) : bool :=
  match result with
  | VDict d => String.eqb (py_str_or (get d "state")) "recovered" && py_truthy (get d "safe")
               && String.eqb (py_str_or (get d "head_run_id")) (lv_run_id l)
  | _ => false
  end.

Definition recovery_refusal (result : pyval) : string :=
  match result with
  | VDict d => str_or (get d "reason") "safe recovery capability is unavailable"
  | _ => "safe recovery capability returned an invalid shape"
  end.

(** The tail of [_advance_no_progress_continuation]: the replacement. *)
Definition replace_no_progress (phase : string) : LM (option Answer) :=
  r ← recd;
  Some <$> restart_red_worker
    ("provider progress remained absent after bounded continuation recovery: " +:+ lv_reason (cr_liveness r))
    phase false.

(** The safe-recovery rung: the intent is durable before the capability runs. *)
Definition spend_safe_recovery (phase : string) : LM (option Answer) :=
  now ← call (w_clock W);
  on_liveness (λ l, begin_safe_recovery l now);;
  save;;
  r ← recd;
  emit (EvSafeRecovery (liveness_to_json (cr_liveness r)));;
  answer ← call (w_safe_recover W);
  let result := match answer with
    | inl v => v
    | inr error => VDict [("state", VStr "unavailable"); ("reason", VStr (scrub error))]
    end in
  if valid_recovery result (cr_liveness r) then
    now ← call (w_clock W);
    on_liveness (λ l, safe_recovery_response_window l now (seconds 30));;
    save;;
    Some <$> window_deferred phase
  else
    on_liveness (λ l, terminalize (l <| lv_rung := RR_UNAVAILABLE |>) "replacement"
                        ("safe recovery unavailable: " +:+ recovery_refusal result));;
    save;;
    replace_no_progress phase.

(** [_advance_no_progress_continuation]. *)
Definition advance_no_progress (phase : string) : LM (option Answer) :=
  r ← recd;
  let l := cr_liveness r in
  if negb (admitted l) || negb (bool_decide (lv_state l = LS_STALLED))
  then block_unadmitted phase (enum_value (lv_state l))
  else if lv_busy_attempts l <? CONTINUATION_NO_PROGRESS_BUSY_ATTEMPTS then mret None
  else match lv_rung l with
  | RR_RESPONSE_WINDOW => mret None
  | RR_RESUME_ONCE =>
      if lv_resume_used l then
        on_liveness (λ l, terminalize l "replacement" "safe recovery resume was already spent");;
        replace_no_progress phase
      else mret None
  | RR_PENDING =>
      on_liveness (λ l, terminalize l "replacement" "safe recovery response was unconfirmed after dispatcher recovery");;
      save;;
      replace_no_progress phase
  | _ => if terminal l then replace_no_progress phase else spend_safe_recovery phase
  end.

(** The busy refusal of a delivery. *)
Definition busy_refusal (phase : string) (fresh : bool) : LM Answer :=
  r ← recd;
  let l := cr_liveness r in
  if fresh then
    now ← call (w_clock W);
    on_continuation (λ c, c <| ct_busy_attempts := lv_busy_attempts l |>
                            <| ct_busy_next_at := FFin (now + seconds BUSY_RETRY_INITIAL_SECONDS) |>);;
    save;;
    busy_deferred phase
  else if negb (bool_decide (lv_state l = LS_STALLED)) then
    now ← call (w_clock W);
    on_continuation (λ c, c <| ct_busy_next_at := FFin (now + seconds BUSY_RETRY_INITIAL_SECONDS) |>);;
    save;;
    busy_deferred phase
  else
    on_liveness (λ l, l <| lv_no_progress_evidence := no_progress_evidence (cr_evidence r) (lv_state l) |>);;
    now ← call (w_clock W);
    on_liveness (λ l, note_busy l now);;
    emit EvBusy;;
    r ← recd;
    let attempts := lv_busy_attempts (cr_liveness r) in
    on_continuation (λ c, c <| ct_busy_attempts := Z.max 0 (attempts - 1) |>);;
    now ← call (w_clock W);
    on_continuation (λ c, (defer_busy c now).2 <| ct_busy_attempts := attempts |>);;
    save;;
    bounded ← advance_no_progress phase;
    match bounded with Some answer => mret answer | None => busy_deferred phase end.

(** The delivery to the held session, its boundary already open.  The event
    stands for the whole [try]: a [bind_codex_provider_ingress] that raises in it
    before [host.resume_worker] is logged as a prompt too. *)
Definition send_continuation (phase : string) (fresh : bool) : LM Answer :=
  r ← recd;
  emit (EvResume (cr_head_run r));;
  resumed ← call (w_resume W);
  match resumed with
  | Resumed => try_continuation confirm_delivery;; save;; finish_resume phase
  | Refused error evidence =>
      update_rec (λ r, r <| cr_evidence := delivery_evidence error evidence |>);;
      if String.eqb (delivery_readiness_state evidence) "busy" then busy_refusal phase fresh
      else save;; restart_red_worker (scrub error) phase false
  end.

(** The held session: re-confirm it, open the boundary when this is the first
    delivery, then send. *)
Definition deliver_retained (phase : string) (opening fresh : bool) : LM Answer :=
  refusal ← call (w_confirm W);
  emit EvConfirm;;
  match refusal with
  | Some error =>
      unconfirmed ← stop_worker_confirmed (step_of phase);
      match unconfirmed with
      | Some answer => mret answer
      | None => restart_red_worker (scrub error) phase true
      end
  | None =>
      if opening then
        now ← call (w_clock W);
        try_continuation (λ c, begin_delivery c phase now);;
        update_rec (λ r, r <| cr_liveness := liveness_begin digest (cr_head_run r) |>);;
        emit EvBegun;;
        now ← call (w_clock W);
        observation ← observe_progress now;
        blocked ← block_unadmitted phase observation;
        match blocked with
        | Some answer => mret answer
        | None =>
            let fresh := String.eqb observation "progressed" in
            save;;
            now ← call (w_clock W);
            pending ← recovery_window phase fresh now;
            match pending with Some answer => mret answer | None => send_continuation phase fresh end
        end
      else save;; send_continuation phase fresh
  end.

(** What [_deliver_red_continuation] does with an already open boundary before
    it touches the session. *)
Definition reenter_delivery (phase : string) : LM (Answer + bool) :=
  now ← call (w_clock W);
  observation ← observe_progress now;
  blocked ← block_unadmitted phase observation;
  match blocked with
  | Some answer => mret (inl answer)
  | None =>
      let fresh := String.eqb observation "progressed" in
      pending ← recovery_window phase fresh now;
      match pending with
      | Some answer => mret (inl answer)
      | None =>
          r ← recd;
          if bool_decide (lv_rung (cr_liveness r) = RR_RESUME_ONCE) then
            let '(allowed, l) := allow_safe_recovery_resume_once (cr_liveness r) in
            if allowed then on_liveness (λ _, l);; save;; mret (inr fresh)
            else
              on_liveness (λ l, terminalize l "replacement" "safe recovery resume was already spent");;
              save;;
              inl <$> restart_red_worker "safe recovery resume was already spent" phase false
          else mret (inr fresh)
      end
  end.

(** [_deliver_red_continuation]. *)
Definition deliver_red (phase : string) : LM Answer :=
  r ← recd;
  let opening := negb (bool_decide (ct_stage (cr_continuation r) = CS_DELIVERY_PENDING)) in
  entered ← (if opening then mret (inr false) else reenter_delivery phase);
  match entered with
  | inl answer => mret answer
  | inr fresh =>
      r ← recd;
      if retained (cr_continuation r) then deliver_retained phase opening fresh
      else restart_red_worker "no retained worker session was available" phase false
  end.

Definition phase_of (c : Continuation) : string := if nonempty (ct_phase c) then ct_phase c else "gate".

(** [recover_worker_continuation]. *)
Definition recover_worker_continuation (marker : option string) : LM (option Answer) :=
  r ← recd;
  let phase := phase_of (cr_continuation r) in
  match ct_stage (cr_continuation r) with
  | CS_DELIVERY_PENDING =>
      if bool_decide (marker ∈ [Some "report:done"; Some "report:blocked"]) then
        try_continuation confirm_delivery;; save;; Some <$> finish_resume phase
      else
        now ← call (w_clock W);
        observation ← observe_progress now;
        blocked ← block_unadmitted phase observation;
        match blocked with
        | Some answer => mret (Some answer)
        | None =>
            let fresh := String.eqb observation "progressed" in
            pending ← recovery_window phase fresh now;
            match pending with
            | Some answer => mret (Some answer)
            | None =>
                save;;
                r ← recd;
                if fresh && negb (bool_decide (lv_rung (cr_liveness r) = RR_RESUME_ONCE)) then
                  on_continuation (λ c, c <| ct_busy_next_at := FFin (now + seconds BUSY_RETRY_INITIAL_SECONDS) |>);;
                  Some <$> busy_deferred phase
                else
                  due ← call (w_clock W);
                  if negb (busy_retry_due (cr_continuation r) due) then Some <$> busy_deferred phase
                  else Some <$> deliver_red phase
            end
        end
  | CS_DELIVERY_CONFIRMED => Some <$> finish_resume phase
  | _ => mret None
  end.

(** The verdict a red transition's move records. *)
Definition transition_verdict (outcome : string) : string :=
  if str_ends_with outcome "_red" then "red"
  else if bool_decide (outcome ∈ ["green"; "red"]) then outcome else "missing".

(** [complete_red_transition]. *)
Definition complete_red_transition : LM Answer :=
  r ← recd;
  let c := cr_continuation r in
  let phase := phase_of c in
  (if nonempty (ct_decision c) then mret tt else emit (EvVerdict (ct_verdict_outcome c)));;
  emit (EvMove "in_progress" (ct_move_reason c) (ct_decision c) (transition_verdict (ct_verdict_outcome c))
          (attempt_request_id attempt (phase +:+ "-red") ref (pretty (ct_report_baseline c))));;
  comments ← call (w_comments W);
  successor ← call (w_successor W);
  update_rec (λ r,
    let baseline := Z.max comments (ct_report_baseline c) in
    let generation := if ct_reserved_generation c =? 0 then cr_generation r + 1 else ct_reserved_generation c in
    r <| cr_comment_baseline := baseline |> <| cr_review_baseline := baseline |>
      <| cr_generation := generation |>
      <| cr_snapshot := match successor with
           | Some f => if retained c then f (cr_generation r) generation (cr_snapshot r) else cr_snapshot r
           | None => cr_snapshot r
           end |>
      <| cr_decision := ct_decision_body c |> <| cr_prerequisites := ct_prerequisites c |>
      <| cr_judged := reset_judged (cr_judged r) |>);;
  save;;
  deliver_red phase.

(** [begin_red_transition]: the intent is durable before the board moves. *)
Definition begin_red (comments : Z) (phase move_reason verdict_outcome decision decision_body : string)
    (prerequisites : list string) : LM Answer :=
  r ← recd;
  try_continuation (λ c, begin_red_transition c {|
    rv_phase := phase; rv_report_baseline := comments; rv_move_reason := move_reason;
    rv_verdict_outcome := verdict_outcome; rv_decision := decision;
    rv_reserved_generation := cr_generation r + 1; rv_decision_body := decision_body;
    rv_prerequisites := prerequisites |});;
  save;;
  complete_red_transition.

(** The continuation's part of [_advance_worker]; nothing is done for a card in
    none of its stages. *)
Definition continuation_tick (marker : option string) : LM (option Answer) :=
  r ← recd;
  if bool_decide (ct_stage (cr_continuation r) = CS_RED_TRANSITION_PENDING)
  then Some <$> complete_red_transition
  else recover_worker_continuation marker.

(** How a tick enters the continuation: the worker's own step, or a gate or
    review verdict that opens a red transition. *)
Inductive Entry :=
| Advance (marker : option string)
| OpenRed (comments : Z) (phase move_reason verdict_outcome decision decision_body : string)
    (prerequisites : list string).

Definition enter (e : Entry) : LM (option Answer) :=
  match e with
  | Advance marker => continuation_tick marker
  | OpenRed comments phase reason outcome decision body prerequisites =>
      Some <$> begin_red comments phase reason outcome decision body prerequisites
  end.

(** A whole production tick over the card: whatever the step answered or
    raised, the tick ends by writing every record. *)
Definition production_tick (e : Entry) (r : CRecord) : res (option Answer) * CRecord * list Event :=
  let '(a, s, log) := enter e {| cs_record := r; cs_calls := 0 |} in
  (a, cs_record s, log ++ [EvSaved (cs_record s)]).

End ladder.

(** Reading a record back: the two values with a codec of their own. *)
Definition reload_record `{PyRepr} (float_of_text : string → option pyfloat) (r : CRecord) : res CRecord :=
  c ← continuation_from_json float_of_text (continuation_to_json (cr_continuation r));
  l ← liveness_from_json float_of_text (liveness_to_json (cr_liveness r));
  Ok (r <| cr_continuation := c |> <| cr_liveness := l |>).
