(* ===== verification/ContinuationLadderFacts.v ===== *)
(** * Monitors over the continuation's log

    A monitor is an automaton that reads the log of a step; an operation keeps a
    monitor when, from a record the monitor agrees with, its whole log is
    accepted and the monitor agrees with the record it leaves.  The rule for
    sequencing makes this compositional, so each property of the ladder is a
    monitor and one lemma per operation that touches it. *)

From S2P Require Import Prelude PyText Program RequestIds HeadVitality WorkerLifecycle WorkerLifecycleFacts ContinuationLadder.

Create HintDb ladder.

Section step.
Context {K : Type} (next : K → Event → K) (ok : K → Event → Prop) (J : K → CState → Prop).
Notation accepted := (accepted next ok J).

Lemma accepted_recd {A} (f : CRecord → LM A) s k : accepted (f (cs_record s)) s k → accepted (recd ≫= f) s k.
Proof. unfold accepted, mbind, Prog_bind, recd. by destruct (f (cs_record s) s) as [[a s'] log]. Qed.

Lemma accepted_call {A B} (g : nat → B) (f : B → LM A) s k :
  accepted (f (g (cs_calls s))) {| cs_record := cs_record s; cs_calls := S (cs_calls s) |} k →
  accepted (call g ≫= f) s k.
Proof. unfold accepted, mbind, Prog_bind, call. by destruct (f (g (cs_calls s)) _) as [[a s'] log]. Qed.

Lemma accepted_update {A} g (f : unit → LM A) s k :
  accepted (f tt) {| cs_record := g (cs_record s); cs_calls := cs_calls s |} k → accepted (update_rec g ≫= f) s k.
Proof. unfold accepted, mbind, Prog_bind, update_rec. by destruct (f tt _) as [[a s'] log]. Qed.

Lemma accepted_save {A} (f : unit → LM A) s k :
  ok k (EvSaved (cs_record s)) → accepted (f tt) s (next k (EvSaved (cs_record s))) → accepted (save ≫= f) s k.
Proof.
  unfold accepted, save, emit, recd, mbind, Prog_bind. intros He. destruct (f tt s) as [[a s'] log]. cbn. tauto.
Qed.

End step.

(** ** The ledger of one episode *)

(** The safe-recovery rung is still to be spent. *)
Definition spendable (l : Liveness) : bool :=
  bound l && negb (lv_source_rejected l) && bool_decide (lv_rung l ∈ [RR_NONE; RR_UNAVAILABLE]).

(** A rejection is always the typed unknown. *)
Definition fenced (l : Liveness) : Prop := lv_source_rejected l = true → lv_state l = LS_UNKNOWN.

(** Never admitted again: unbound, or sealed by a rejection. *)
Definition shut (l : Liveness) : Prop := bound l = false ∨ lv_source_rejected l = true.

Definition stable (l : Liveness) : Prop := coherent l ∨ shut l.

Definition NO_PROGRESS : string := "provider progress remained absent after bounded continuation recovery: ".

Record Ledger := {
  k_may : bool;       (** a safe recovery is due to this episode *)
  k_disk : bool;      (** the record on disk can still spend one *)
  k_busy : Z;         (** busy refusals counted against an unchanged cursor *)
  k_clean : bool;     (** no progress was read inside an open response window *)
  k_admitted : option pyval;  (** the head run whose source the last observation admitted *)
}.

Definition next (k : Ledger) (e : Event) : Ledger :=
  match e with
  | EvSaved r => {| k_may := k_may k; k_disk := spendable (cr_liveness r); k_busy := k_busy k; k_clean := k_clean k;
                    k_admitted := k_admitted k |}
  | EvBegun => {| k_may := true; k_disk := k_disk k; k_busy := k_busy k; k_clean := k_clean k; k_admitted := None |}
  | EvObserved before head_run _ a =>
      if String.eqb a "progressed"
      then {| k_may := true; k_disk := k_disk k; k_busy := k_busy k;
              k_clean := k_clean k && negb (bool_decide (lv_rung before = RR_RESPONSE_WINDOW));
              k_admitted := Some head_run |}
      else {| k_may := k_may k; k_disk := k_disk k; k_busy := k_busy k; k_clean := k_clean k;
              k_admitted := if admitting a then Some head_run else None |}
  | EvBusy => {| k_may := k_may k; k_disk := k_disk k; k_busy := k_busy k + 1; k_clean := k_clean k;
                 k_admitted := k_admitted k |}
  | EvSafeRecovery _ => {| k_may := false; k_disk := k_disk k; k_busy := k_busy k; k_clean := k_clean k;
                           k_admitted := k_admitted k |}
  | _ => k
  end.

Section ledger.
Context `{PyRepr} (scrub : string → string) (digest : pyval → string) (W : World) (ref attempt : string).

(** Digests are fingerprints and the clock does not run backwards. *)
Definition faithful : Prop :=
  (∀ v, fingerprint_ok (digest v) = true) ∧ ∀ n, 0 ≤ w_clock W n ≤ w_clock W (S n).

(** The evidence behind an admitting answer: the provider observed and accepted,
    for the head run of the record and of the episode; a first baseline, or a
    word from the source the baseline was taken of, whose cursor stands exactly
    when the answer says so. *)
Definition admits_run (before : Liveness) (head_run evidence : pyval) (answer : string) : Prop :=
  ∃ d, evidence = VDict d ∧ py_str_or (get d "state") = "observed" ∧ py_str_or (get d "admission") = "accepted" ∧
    (py_str_or (get d "head_run_id"), py_str_or (get d "head_run_fingerprint")) = head_run_binding digest head_run ∧
    head_run_binding digest head_run = (lv_run_id before, lv_fingerprint before) ∧
    (answer = "baseline" ∧ lv_baseline before = false ∨
     lv_baseline before = true ∧ str_take 80 (py_str_or (get d "source")) = lv_source before ∧
     str_take 64 (py_str_or (get d "source_fingerprint")) = lv_source_fingerprint before ∧
     (answer = "stalled" ↔ str_take 240 (py_str_or (get d "cursor")) = lv_cursor before)).

Definition ok (k : Ledger) (e : Event) : Prop :=
  match e with
  | EvObserved before head_run evidence answer => admitting answer = true → admits_run before head_run evidence answer
  | EvSaved r => fenced (cr_liveness r) ∧ lv_state (cr_liveness r) ≠ LS_BASELINE_PENDING ∧
                 (spendable (cr_liveness r) = true → k_may k = true) ∧ lv_busy_attempts (cr_liveness r) ≤ k_busy k ∧
                 (k_clean k = true → faithful → stable (cr_liveness r))
  | EvSafeRecovery _ => k_may k = true ∧ k_disk k = false ∧ 3 ≤ k_busy k
  | EvResume head_run => k_admitted k = Some head_run
  | EvRestart reason => String.prefix NO_PROGRESS reason = true → 3 ≤ k_busy k ∨ ∃ error, reason = scrub error
  | _ => True
  end.

(** What the ledger says of the episode. *)
Record tracks (k : Ledger) (l : Liveness) : Prop := {
  tr_fenced : fenced l;
  tr_may : spendable l = true → k_may k = true;
  tr_disk : k_disk k = true → k_may k = true;
  tr_busy : lv_busy_attempts l ≤ k_busy k;
  tr_stable : k_clean k = true → faithful → stable l;
}.

(** The invariant between operations: with [adm] set, the last observation
    admitted the record's head run; at least [n] busy refusals were counted. *)
Definition J (adm : bool) (n : Z) (k : Ledger) (s : CState) : Prop :=
  tracks k (cr_liveness (cs_record s)) ∧ lv_state (cr_liveness (cs_record s)) ≠ LS_BASELINE_PENDING ∧
  (adm = true → k_admitted k = Some (cr_head_run (cs_record s))) ∧ 0 ≤ n ≤ k_busy k.

Notation acc adm n := (accepted next ok (J adm n)).

Lemma J_same adm n k s s' :
  J adm n k s → cr_liveness (cs_record s') = cr_liveness (cs_record s) →
  (adm = true → cr_head_run (cs_record s') = cr_head_run (cs_record s)) → J adm n k s'.
Proof. unfold J. intros (? & ? & Ha & ?) -> Hr. split_and!; try done; try lia. intros E. rewrite (Hr E). auto. Qed.

Lemma J_liveness adm n k s s' :
  J adm n k s → tracks k (cr_liveness (cs_record s')) →
  lv_state (cr_liveness (cs_record s')) = lv_state (cr_liveness (cs_record s)) →
  cr_head_run (cs_record s') = cr_head_run (cs_record s) → J adm n k s'.
Proof. unfold J. intros (_ & Hp & Ha & Hn) Ht -> ->. auto. Qed.

Lemma J_less adm n m k s : J adm n k s → 0 ≤ m ≤ n → J false m k s.
Proof. unfold J. intros (? & ? & ? & ?) ?. split_and!; try done; lia. Qed.

Lemma saved adm n k s :
  J adm n k s → ok k (EvSaved (cs_record s)) ∧ J adm n (next k (EvSaved (cs_record s))) s.
Proof.
  intros (Ht & Hp & Ha & Hn). destruct Ht as [H1 H2 H3 H4 H5]. split; [done|]. unfold J. cbn.
  split_and!; try done; lia.
Qed.

Lemma acc_save {A} adm n (f : unit → LM A) s k :
  J adm n k s → (∀ k', J adm n k' s → acc adm n (f tt) s k') → acc adm n (save ≫= f) s k.
Proof. intros HJ Hf. destruct (saved _ _ _ _ HJ). apply accepted_save; auto. Qed.

(** Events of no account to the ledger. *)
Definition quiet (e : Event) : Prop :=
  match e with EvConfirm | EvStop | EvVerdict _ | EvMove _ _ _ _ _ | EvComment _ _ => True | _ => False end.

Lemma acc_quiet {A} adm n e (f : unit → LM A) s k :
  quiet e → acc adm n (f tt) s k → acc adm n (emit e ≫= f) s k.
Proof. intros Hq Hf. apply accepted_emit; by destruct e. Qed.

(** A terminal outcome keeps a settled episode stable. *)
Lemma terminalize_stable l outcome reason :
  stable l → lv_state l ≠ LS_BASELINE_PENDING → outcome ≠ "" → (String.length outcome ≤ 80)%nat →
  stable (terminalize l outcome reason).
Proof.
  intros [Hc|Hs] Hp Ho Hl; [|by right].
  destruct (lv_source_rejected l) eqn:Er; [by right; right|]. left. apply terminalize_coherent; try done.
  destruct (lv_baseline l) eqn:Eb; [by left|right]. destruct Hc as [Hs _].
  destruct (co_virgin _ Hs Eb) as (_ & _ & [E|[E|E]]); [|done|done].
  pose proof (co_fence _ Hs) as Hf. rewrite Er, E in Hf. done.
Qed.

(** A rung that cannot be spent. *)
Lemma unspendable l : lv_rung l ∉ [RR_NONE; RR_UNAVAILABLE] → spendable l = false.
Proof. intros Hr. unfold spendable. rewrite (bool_decide_eq_false_2 _ Hr). apply andb_false_r. Qed.

Lemma terminalize_tracks k l outcome reason :
  tracks k l → lv_state l ≠ LS_BASELINE_PENDING → outcome ≠ "" → (String.length outcome ≤ 80)%nat →
  tracks k (terminalize l outcome reason).
Proof.
  intros [Hf Hm Hd Hb Hs] Hp Ho Hl. split; try done.
  - rewrite unspendable; [done|]. cbn. set_solver.
  - intros Hc Hw. by apply terminalize_stable; auto.
Qed.

Lemma acc_terminalize {A} adm n outcome reason (f : unit → LM A) s k :
  J adm n k s → outcome ≠ "" → (String.length outcome ≤ 80)%nat →
  (∀ s', J adm n k s' → acc adm n (f tt) s' k) →
  acc adm n (on_liveness (λ l, terminalize l outcome reason) ≫= f) s k.
Proof.
  intros HJ Ho Hl Hf. apply accepted_update, Hf. eapply J_liveness; [done| |done|done].
  apply terminalize_tracks; try done; apply HJ.
Qed.

(** One primitive of a sequence at a time, to the first that needs an argument. *)
Ltac walk_step :=
  lazymatch goal with
  | |- accepted _ _ _ (mret _) _ _ => apply accepted_ret
  | |- accepted _ _ _ (_ <$> _) _ _ => apply accepted_map
  | |- accepted _ _ _ (recd ≫= _) _ _ => apply accepted_recd
  | |- accepted _ _ _ (call _ ≫= _) _ _ => apply accepted_call
  | |- accepted _ _ _ ((_ ≫= _) ≫= _) _ _ => apply accepted_assoc
  | |- accepted _ _ _ (on_continuation _ ≫= _) _ _ => apply accepted_update
  | |- accepted _ _ _ (update_rec _ ≫= _) _ _ => apply accepted_update
  | |- accepted _ _ _ (emit _ ≫= _) _ _ => apply acc_quiet; [exact I|]
  end; cbn [cs_record cs_calls].
Ltac walk := repeat walk_step.
Ltac same := first [done | eapply J_same; [eassumption | done | done]].

Lemma keeps_stop n step : keeps next ok (J false n) (stop_worker_confirmed W step).
Proof. intros s k HJ. unfold stop_worker_confirmed. walk. case_match; walk; same. Qed.

Lemma keeps_intent n action round : keeps next ok (J false n) (write_relaunch_intent W action round).
Proof.
  intros s k HJ. unfold write_relaunch_intent. walk.
  destruct (w_preflight W _) as [[run|error]|]; walk; try same.
  all: case_match; walk; try same; apply acc_save; [same|]; intros; walk; same.
Qed.

Lemma acc_restart n reason phase stopped s k :
  J false n k s → (String.prefix NO_PROGRESS reason = true → 3 ≤ n ∨ ∃ error, reason = scrub error) →
  acc false n (restart_red_worker W reason phase stopped) s k.
Proof.
  intros HJ Hr. unfold restart_red_worker.
  assert (∀ s' k', J false n k' s' → ok k' (EvRestart reason) ∧ next k' (EvRestart reason) = k') as Hok.
  { intros s' k' (_ & _ & _ & Hn). split; [|done]. cbn. intros Hp. destruct (Hr Hp); [left; lia|by right]. }
  apply accepted_update. cbn [cs_record cs_calls].
  set (s1 := {| cs_record := _; cs_calls := _ |}). assert (J false n k s1) as HJ1.
  { eapply J_liveness; [done|..]; subst s1; cbn [cs_record]; cbn; try done; case_match; try done; try apply HJ.
    apply terminalize_tracks; try apply HJ; [done|cbn; lia]. }
  clearbody s1. apply accepted_bind; [destruct stopped; [walk; done|by apply keeps_stop]|].
  intros [a|] s2 k2 HJ2; walk; [done|]. apply accepted_bind; [apply keeps_intent; same|].
  intros [e|] s3 k3 HJ3; walk; [same|]. destruct (Hok s3 k3 HJ3) as [Ho Hn]. apply accepted_emit; [done|]. rewrite Hn.
  walk. case_match; walk; [|same]. apply acc_save; [same|]. intros k4 HJ4. walk. same.
Qed.

Lemma keeps_restart n reason phase stopped :
  String.prefix NO_PROGRESS reason = false → keeps next ok (J false n) (restart_red_worker W reason phase stopped).
Proof. intros Hp s k HJ. apply acc_restart; [done|congruence]. Qed.

Lemma keeps_restart_error n error phase stopped :
  keeps next ok (J false n) (restart_red_worker W (scrub error) phase stopped).
Proof. intros s k HJ. apply acc_restart; [done|]. eauto. Qed.

Lemma keeps_finish n phase : keeps next ok (J false n) (finish_resume phase).
Proof.
  intros s k HJ. unfold finish_resume. apply accepted_update. cbn [cs_record cs_calls].
  set (s1 := {| cs_record := _; cs_calls := _ |}). assert (J false n k s1) as HJ1.
  { eapply J_liveness; [done|..]; subst s1; cbn [cs_record]; cbn; try done; case_match; try done; try apply HJ.
    apply terminalize_tracks; try apply HJ; [done|cbn; lia]. }
  clearbody s1. walk. apply acc_save; [done|]. intros k1 ?. walk. done.
Qed.

Lemma keeps_block n phase observation :
  keeps next ok (J false n) (block_unadmitted W ref attempt phase observation).
Proof.
  intros s k HJ. unfold block_unadmitted. walk. case_match; [walk; done|]. case_match.
  - walk. by apply keeps_restart.
  - walk. apply acc_save; [done|]. intros. walk. done.
Qed.

Lemma keeps_busy_deferred adm n phase : keeps next ok (J adm n) (busy_deferred phase).
Proof. intros s k HJ. unfold busy_deferred. walk. done. Qed.

Lemma keeps_window_deferred adm n phase : keeps next ok (J adm n) (window_deferred phase).
Proof. intros s k HJ. unfold window_deferred. walk. done. Qed.

(** A save between two operations of different invariants. *)
Lemma acc_save_into {A} adm n (f : unit → LM A) s k :
  J adm n k s → (∀ k', J adm n k' s → k_clean k' = k_clean k → acc false 0 (f tt) s k') →
  acc false 0 (save ≫= f) s k.
Proof. intros HJ Hf. destruct (saved _ _ _ _ HJ). apply accepted_save; auto. Qed.

Lemma J_drop adm n k s : J adm n k s → J false 0 k s.
Proof. intros HJ. eapply J_less; [done|]. pose proof HJ as (_ & _ & _ & ?). lia. Qed.

(** The response window: the answer of the tick, or the delivery goes on. *)
Lemma acc_window {A} phase fresh now (f : option Answer → LM A) s k :
  J true 0 k s →
  (fresh = true → lv_rung (cr_liveness (cs_record s)) = RR_RESPONSE_WINDOW → k_clean k = false) →
  (∀ a s' k', J false 0 k' s' → acc false 0 (f (Some a)) s' k') →
  (∀ s' k', J true 0 k' s' → acc false 0 (f None) s' k') →
  acc false 0 (recovery_window W phase fresh now ≫= f) s k.
Proof.
  intros HJ Hf Hs Hn. unfold recovery_window. apply accepted_assoc, accepted_recd. cbv zeta.
  assert (∀ (m : LM Answer) s' k', acc false 0 m s' k' → acc false 0 ((Some <$> m) ≫= f) s' k') as Hend.
  { intros m s' k' Hm. unfold fmap, Prog_fmap. apply accepted_assoc. eapply accepted_into; [exact Hm|done|].
    intros a s1 k1 HJ1. by apply accepted_ret_bind, Hs. }
  case_match; [apply Hend, keeps_restart; [done|by eapply J_drop]|].
  case_match; [by apply accepted_ret_bind, Hn|]. boolify. case_match.
  { apply accepted_assoc, (acc_save_into true 0); [done|]. intros k1 HJ1 _. apply Hend, keeps_window_deferred. by eapply J_drop. }
  destruct fresh.
  - specialize (Hf eq_refl ltac:(done)). apply accepted_assoc, accepted_update. cbn [cs_record cs_calls].
    apply accepted_assoc, (acc_save_into true 0).
    + eapply J_liveness; [done| |done|done]. destruct HJ as ([] & _). split; try done.
      * cbn [cs_record]. rewrite unspendable; [done|]. cbn. set_solver.
      * rewrite Hf. done.
    + intros. by apply accepted_ret_bind, Hn.
  - apply J_drop in HJ. apply accepted_assoc, acc_terminalize; [done|done|cbn; lia|]. intros s1 HJ1.
    apply accepted_assoc, acc_save; [done|]. intros. by apply Hend, keeps_restart.
Qed.

Lemma keeps_replace n phase : 3 ≤ n → keeps next ok (J false n) (replace_no_progress W phase).
Proof. intros Hn s k HJ. unfold replace_no_progress. walk. apply acc_restart; auto. Qed.

(** The episode in which the safe-recovery rung may be spent. *)
Record ready (l : Liveness) : Prop := {
  rd_bound : bound l = true; rd_open : lv_source_rejected l = false; rd_state : lv_state l = LS_STALLED;
  rd_rung : lv_rung l ∈ [RR_NONE; RR_UNAVAILABLE];
}.

Lemma ready_spendable l : ready l → spendable l = true.
Proof. intros [Hb Hr _ Hg]. unfold spendable. by rewrite Hb, Hr, (bool_decide_eq_true_2 _ Hg). Qed.

Lemma ready_coherent l : ready l → stable l → coherent l ∧ lv_rung l = RR_NONE.
Proof.
  intros [Hb Hr _ Hg] [Hc|[?|?]]; [|congruence..]. split; [done|]. pose proof (co_resume _ (proj1 Hc)).
  set_unfold. naive_solver.
Qed.

Lemma intent_tracks k l now :
  tracks k l → ready l → (faithful → 0 ≤ now) → tracks k (begin_safe_recovery l now).
Proof.
  intros [Hf Hm Hd Hb Hs] Hr Hn. split; try done.
  - rewrite unspendable; [done|]. cbn. set_solver.
  - intros Hc Hw. destruct (ready_coherent l Hr (Hs Hc Hw)). left. apply begin_safe_recovery_coherent; auto. apply Hr.
Qed.

Lemma window_tracks k l now later :
  tracks k l → ready l → (faithful → 0 ≤ now ≤ later) →
  tracks k (safe_recovery_response_window (begin_safe_recovery l now) later (seconds 30)).
Proof.
  intros [Hf Hm Hd Hb Hs] Hr Hn. split; try done.
  - rewrite unspendable; [done|]. cbn. set_solver.
  - intros Hc Hw. specialize (Hn Hw). destruct (ready_coherent l Hr (Hs Hc Hw)). left.
    apply response_window_coherent; [|lia|apply Hr|done|].
    + apply begin_safe_recovery_coherent; auto; [lia|apply Hr].
    + cbn -[seconds]. apply Z.ltb_lt. change (seconds 30) with (30 * SECOND). unfold SECOND. lia.
Qed.

Lemma acc_spend n phase s k :
  J false n k s → 3 ≤ n → ready (cr_liveness (cs_record s)) →
  acc false n (spend_safe_recovery scrub W phase) s k.
Proof.
  intros HJ Hn Hr. unfold spend_safe_recovery. pose proof HJ as (Ht & Hp & _ & Hbusy). walk.
  apply accepted_update. cbn [cs_record cs_calls]. set (l := cr_liveness (cs_record s)) in *.
  set (now := w_clock W (cs_calls s)). assert (faithful → 0 ≤ now) as Hnow by (intros [_ Hc]; apply Hc).
  pose proof (intent_tracks k l now Ht Hr Hnow) as Ht1.
  set (s1 := {| cs_record := _; cs_calls := _ |}).
  assert (J false n k s1) as HJ1 by (by eapply J_liveness; [exact HJ|..]).
  apply accepted_save; [by apply (saved false n)|]. apply accepted_recd.
  apply accepted_emit.
  { cbn. split_and!; [by apply Ht, ready_spendable| |lia]. apply unspendable. cbn. set_solver. }
  set (k2 := next (next k _) _). walk.
  assert (∀ l2, tracks k l2 → spendable l2 = false → tracks k2 l2) as Hk2.
  { intros l2 [] Hu. subst k2. split; cbn; try done.
    - rewrite Hu. done.
    - rewrite unspendable; [done|]. cbn. set_solver. }
  assert (∀ l2 c, tracks k2 l2 → lv_state l2 = LS_STALLED →
    J false n k2 {| cs_record := (cs_record s1) <| cr_liveness := l2 |>; cs_calls := c |}) as HJ2.
  { intros l2 c Ht2 Hs2. unfold J. cbn. rewrite Hs2. split_and!; try done; subst k2; cbn; lia. }
  case_match.
  - walk. apply accepted_update. cbn [cs_record cs_calls]. apply acc_save.
    + apply (HJ2 (safe_recovery_response_window (begin_safe_recovery l now) _ _)); [|apply Hr].
      apply Hk2; [|apply unspendable; cbn; set_solver]. apply window_tracks; auto. intros [_ Hc].
      pose proof (Hc (cs_calls s)). pose proof (Hc (S (cs_calls s))). subst now s1. cbn. lia.
    + intros. walk. by apply keeps_window_deferred.
  - apply accepted_update. cbn [cs_record cs_calls]. apply acc_save.
    + apply (HJ2 (terminalize (begin_safe_recovery l now) "replacement" _)); [|apply Hr].
      apply Hk2; [|apply unspendable; cbn; set_solver]. apply terminalize_tracks; try done. cbn. lia.
    + intros. by apply keeps_replace.
Qed.

(** ** Observing *)

Lemma observe_stable l evidence now head_run :
  stable l → 0 ≤ now →
  (observe_provider digest l evidence now head_run).1 = "progressed" ∧ lv_rung l = RR_RESPONSE_WINDOW ∨
  stable (observe_provider digest l evidence now head_run).2.
Proof.
  intros Hs Hn. pose proof (observe_observed digest l evidence now head_run) as Ho.
  destruct Hs as [Hc|[Hb|Hr]].
  - destruct (decide (lv_baseline l = true ∨ lv_rung l ≠ RR_TERMINAL)) as [Hg|Hg].
    + destruct (observe_coherent digest l evidence now head_run Hc Hn Hg); [by left|right; by left].
    + right. destruct (lv_baseline l) eqn:Eb; [tauto|]. destruct (co_virgin _ (proj1 Hc) Eb) as (_ & Hv & _).
      assert (lv_state l = LS_UNAVAILABLE) as Hu by (destruct Hv as [?|[_ ?]]; [exfalso; apply Hg; right; congruence|done]).
      pose proof (co_fence _ (proj1 Hc)) as Hf. rewrite Hu in Hf.
      destruct (observe_unavailable digest l evidence now head_run (proj1 Hc) Hn Hf Eb Hu); [by left|by right; right].
  - right. right. left. by rewrite (ob_bound _ _ _ Ho).
  - right. right. right. by rewrite (ob_fence _ _ _ Ho Hr).
Qed.

(** The ledger before an observation: a pending baseline is allowed. *)
Definition J0 (k : Ledger) (s : CState) : Prop := tracks k (cr_liveness (cs_record s)) ∧ 0 ≤ k_busy k.

Lemma observe_tracks k l evidence now head_run :
  tracks k l → 0 ≤ k_busy k → (faithful → 0 ≤ now) →
  tracks (next k (EvObserved l head_run evidence (observe_provider digest l evidence now head_run).1))
    (observe_provider digest l evidence now head_run).2.
Proof.
  intros [Hf Hm Hd Hb Hs] Hz Hn. pose proof (observe_observed digest l evidence now head_run) as Ho.
  pose proof (λ Hst Hw, observe_stable l evidence now head_run Hst (Hn Hw)) as Hst.
  destruct (observe_provider digest l evidence now head_run) as [obs l1]. cbn [fst snd] in *.
  assert (fenced l1) as Hf1.
  { intros E. destruct (ob_fenced _ _ _ Ho E) as [E'|]; [|done]. rewrite (ob_fence _ _ _ Ho E'). auto. }
  cbn [next]. destruct (String.eqb_spec obs "progressed") as [->|Hne].
  - split; cbn; try done.
    + by rewrite (proj1 (ob_progressed _ _ _ Ho eq_refl)).
    + intros Hc Hw. boolify. destruct (Hst (Hs ltac:(done) Hw) Hw) as [[_ ?]|]; [congruence|done].
  - destruct (ob_same _ _ _ Ho Hne) as [Hrung Hbusy]. split; cbn; try done.
    + intros Hsp. apply Hm. unfold spendable in *. rewrite <-(ob_bound _ _ _ Ho), <-Hrung. boolify.
      destruct (lv_source_rejected l) eqn:Er.
      { rewrite (ob_fence _ _ _ Ho Er) in *. congruence. }
      cbn. rewrite !andb_true_r. apply andb_true_iff. split; [done|]. by apply bool_decide_eq_true.
    + by rewrite Hbusy.
    + intros Hc Hw. destruct (Hst (Hs Hc Hw) Hw) as [[? _]|]; done.
Qed.

Lemma legacy_tracks k l z :
  tracks k l → negb (bound l) = true → tracks k (l <| lv_legacy_busy_attempts := z |>).
Proof. intros [] Hb. split; try done. intros. right. left. by apply negb_true_iff in Hb. Qed.

(** What an admitting answer rests on, from an episode that differs from the one
    on the record at most in what it counts of the legacy form. *)
Lemma observe_admits l z evidence now head_run :
  let l0 := l <| lv_legacy_busy_attempts := z |> in
  let answer := (observe_provider digest l0 evidence now head_run).1 in
  admitting answer = true → admits_run l head_run evidence answer.
Proof.
  intros l0 answer Ha. pose proof (admission_is_exact digest l0 evidence now head_run) as Hx. subst answer.
  destruct (observe_provider digest l0 evidence now head_run) as [answer l1]. cbn [fst] in *.
  destruct (Hx Ha) as (d & -> & Eb & E1 & E2 & E3 & E4 & E5 & E6 & E7 & Hb). exists d. rewrite Eb.
  subst l0. cbn in *. split_and!; try done; [congruence|]. rewrite <-E5, <-E6, <-E7. naive_solver.
Qed.

Lemma legacy_same l : l <| lv_legacy_busy_attempts := lv_legacy_busy_attempts l |> = l.
Proof. by destruct l. Qed.

Lemma acc_observe {A} adm n now (f : string → LM A) s k :
  J0 k s → (faithful → 0 ≤ now) →
  (∀ obs s' k', J (admitting obs) 0 k' s' →
     (String.eqb obs "progressed" = true → lv_rung (cr_liveness (cs_record s')) = RR_RESPONSE_WINDOW →
      k_clean k' = false) → acc adm n (f obs) s' k') →
  acc adm n (observe_progress scrub digest W now ≫= f) s k.
Proof.
  intros [Ht Hz] Hn Hf. unfold observe_progress. repeat (walk_step; cbv zeta).
  set (l := cr_liveness (cs_record s)) in *. set (l0 := if _ && _ then _ else l).
  match goal with |- context [observe_provider _ _ ?e] => set (ev := e) end.
  assert (tracks k l0 ∧ ∃ z, l0 = l <| lv_legacy_busy_attempts := z |>) as [Ht0 [z Hz0]].
  { subst l0. case_match; boolify; (split; [try apply legacy_tracks; by try apply negb_true_iff|]); eexists; [done|].
    symmetry. apply legacy_same. }
  clearbody l0 ev. pose proof (observe_tracks k l0 ev now (cr_head_run (cs_record s)) Ht0 Hz Hn) as Ht1.
  pose proof (observe_observed digest l0 ev now (cr_head_run (cs_record s))) as Ho.
  pose proof (observe_admits l z ev now (cr_head_run (cs_record s))) as Had. cbv zeta in Had. rewrite <-Hz0 in Had.
  assert (∀ k e a, next k (EvObserved l0 (cr_head_run (cs_record s)) e a) = next k (EvObserved l (cr_head_run (cs_record s)) e a)) as Enext
    by (by rewrite Hz0).
  rewrite Enext in Ht1.
  destruct (observe_provider digest l0 ev now (cr_head_run (cs_record s))) as [obs l1]. cbn [fst snd] in *.
  repeat (first [walk_step | apply accepted_emit; [exact Had|] | apply accepted_ret_bind]); apply Hf.
  - unfold J. cbn -[next]. split_and!; [done| | |lia|].
    + destruct (lv_source_rejected l0) eqn:Er; [|by apply (ob_settled _ _ _ Ho)].
      rewrite (ob_fence _ _ _ Ho Er). pose proof (tr_fenced _ _ Ht0 Er). congruence.
    + intros Ha. cbn. case_match; [done|]. cbn. by rewrite Ha.
    + cbn. case_match; cbn; lia.
  - intros Hp Hw. apply String.eqb_eq in Hp. cbn [cs_record] in Hw. cbn in Hw.
    apply (ob_progressed _ _ _ Ho Hp) in Hw. subst obs. rewrite Hz0 in Hw. cbn in Hw |- *. rewrite Hw. apply andb_false_r.
Qed.

(** ** The rest of the step *)

Lemma acc_less {A} adm n (m : LM A) s k : 0 ≤ n → acc adm n m s k → acc false 0 m s k.
Proof. intros Hn. apply accepted_weaken. intros k' s' HJ. by eapply J_less. Qed.

Lemma terminal_rung l : terminal l = false → lv_rung l ≠ RR_TERMINAL.
Proof. unfold terminal. intros Ht E. rewrite E in Ht. apply orb_false_iff in Ht as [_ Ht]. done. Qed.

Lemma keeps_advance phase : keeps next ok (J false 0) (advance_no_progress scrub W ref attempt phase).
Proof.
  intros s k HJ. unfold advance_no_progress. walk. cbv zeta. set (l := cr_liveness (cs_record s)).
  destruct (negb (admitted l) || _) eqn:Ea; [by apply keeps_block|].
  destruct (lv_busy_attempts l <? _) eqn:Eb; [by apply accepted_ret|]. unfold admitted in Ea. boolify.
  assert (J false 3 k s) as HJ3.
  { destruct HJ as (Ht & Hp & Ha & Hn). unfold J. split_and!; try done; try lia. transitivity (lv_busy_attempts l); [done|]. apply Ht. }
  apply (acc_less false 3); [done|].
  assert (lv_rung l ∈ [RR_NONE; RR_UNAVAILABLE; RR_TERMINAL] →
    acc false 3 (if terminal l then replace_no_progress W phase else spend_safe_recovery scrub W phase) s k) as Hspend.
  { intros Hr. destruct (terminal l) eqn:Et; [by apply keeps_replace|]. apply acc_spend; [done|done|]. split; try done.
    - fold l. destruct (lv_source_rejected l) eqn:Er; [|done]. pose proof (tr_fenced _ _ (proj1 HJ) Er). subst l. congruence.
    - fold l. apply terminal_rung in Et. set_unfold. naive_solver. }
  destruct (lv_rung l) eqn:Er; try (apply Hspend; set_solver).
  - apply acc_terminalize; [done|done|cbn; lia|]. intros s1 HJ1. apply acc_save; [done|]. intros. by apply keeps_replace.
  - by apply accepted_ret.
  - destruct (lv_resume_used l); [|by apply accepted_ret]. apply acc_terminalize; [done|done|cbn; lia|].
    intros s1 HJ1. by apply keeps_replace.
Qed.

Lemma evidence_tracks k l text :
  tracks k l → (String.length text ≤ 80)%nat → tracks k (l <| lv_no_progress_evidence := text |>).
Proof.
  intros [Hf Hm Hd Hb Hs] Hlen. split; try done. intros Hc Hw. destruct (Hs Hc Hw) as [?|?]; [left|by right].
  by apply evidence_coherent.
Qed.

Lemma note_busy_tracks k l now :
  tracks k l → 0 ≤ k_busy k → (faithful → 0 ≤ now) → tracks (next k EvBusy) (note_busy l now).
Proof.
  intros [Hf Hm Hd Hb Hs] Hz Hn. split; cbn; try done.
  - unfold note_busy, fenced. repeat case_match; done.
  - intros Hsp. apply Hm. revert Hsp. unfold note_busy, spendable, bound. repeat case_match; done.
  - unfold note_busy. repeat case_match; cbn; lia.
  - intros Hc Hw. destruct (Hs Hc Hw) as [?|Hx]; [left; apply note_busy_coherent; auto|right].
    revert Hx. unfold note_busy, shut, bound. repeat case_match; done.
Qed.

Lemma keeps_busy_refusal phase fresh : keeps next ok (J false 0) (busy_refusal scrub W ref attempt phase fresh).
Proof.
  intros s k HJ. unfold busy_refusal. walk. cbv zeta. destruct fresh.
  { walk. apply acc_save; [same|]. intros. by apply keeps_busy_deferred. }
  case_match; [walk; apply acc_save; [same|]; intros; by apply keeps_busy_deferred|].
  apply accepted_update. walk. apply accepted_update. apply accepted_emit; [done|]. cbn [cs_record cs_calls].
  set (s1 := {| cs_record := _; cs_calls := _ |}).
  assert (J false 0 (next k EvBusy) s1) as HJ1.
  { destruct HJ as (Ht & Hp & _ & Hn). subst s1. unfold J. cbn [cs_record].
    split_and!; [|cbn; unfold note_busy; by repeat case_match|done|done|cbn; lia].
    apply (note_busy_tracks k (cr_liveness (cs_record s) <| lv_no_progress_evidence := _ |>)); [|lia|intros [_ Hc]; apply Hc].
    apply evidence_tracks; [done|]. unfold no_progress_evidence. repeat case_match; cbn; lia. }
  clearbody s1. walk. apply acc_save; [same|]. intros k1 HJ2. apply accepted_bind; [apply keeps_advance; same|].
  intros [a|] s2 k2 HJ3; [by apply accepted_ret|by apply keeps_busy_deferred].
Qed.

Lemma acc_into {A B} adm n (m : LM B) (f : B → LM A) s k :
  acc adm n m s k → (∀ b s k, J adm n k s → acc false 0 (f b) s k) → acc false 0 (m ≫= f) s k.
Proof.
  intros Hm Hf. eapply accepted_into; [done| |done]. intros k' s' HJ. eapply J_less; [done|]. pose proof HJ as (_ & _ & _ & ?). lia.
Qed.

Lemma acc_try {A} adm n g (f : unit → LM A) s k :
  J adm n k s → (∀ s', J adm n k s' → acc false 0 (f tt) s' k) → acc false 0 (try_continuation g ≫= f) s k.
Proof.
  intros HJ Hf. unfold try_continuation. walk. apply accepted_lift.
  - eapply J_less; [done|]. pose proof HJ as (_ & _ & _ & ?). lia.
  - intros c _. walk. apply Hf. same.
Qed.

Lemma acc_send phase fresh s k :
  J true 0 k s → acc false 0 (send_continuation scrub W ref attempt phase fresh) s k.
Proof.
  intros HJ. unfold send_continuation. apply accepted_recd, accepted_emit; [by apply HJ|].
  change (next k (EvResume _)) with k.
  apply J_drop in HJ. walk. destruct (w_resume W _) as [|error evidence].
  - eapply acc_try; [same|]. intros s1 HJ1. apply acc_save; [done|]. intros. by apply keeps_finish.
  - walk. case_match; [apply keeps_busy_refusal; same|]. apply acc_save; [same|]. intros. apply keeps_restart_error. same.
Qed.

(** The decision on an observation: what goes on, goes on admitted. *)
Lemma acc_block {A} phase obs (f : option Answer → LM A) s k :
  J (admitting obs) 0 k s →
  (∀ a s' k', J false 0 k' s' → acc false 0 (f (Some a)) s' k') →
  (J true 0 k s → acc false 0 (f None) s k) →
  acc false 0 (block_unadmitted W ref attempt phase obs ≫= f) s k.
Proof.
  intros HJ Hs Hn. unfold block_unadmitted. apply accepted_assoc. walk. case_match eqn:E.
  - apply accepted_ret_bind, Hn. apply andb_true_iff in E as [E _]. by rewrite <-E.
  - apply J_drop in HJ. case_match; walk.
    + unfold fmap, Prog_fmap. apply accepted_assoc. eapply (acc_into false 0); [by apply keeps_restart|].
      intros a s1 k1 HJ1. apply accepted_ret_bind. by apply Hs.
    + apply acc_save; [done|]. intros k1 HJ1. apply accepted_ret_bind. by apply Hs.
Qed.

Lemma begun_tracks k s c :
  J false 0 k s →
  J0 (next k EvBegun) {| cs_record := (cs_record s) <| cr_liveness := liveness_begin digest (cr_head_run (cs_record s)) |>;
                         cs_calls := c |}.
Proof.
  intros (_ & _ & _ & Hn). split; [|cbn; lia]. cbn [cs_record]. cbn. split; cbn; try done.
  - unfold fenced, liveness_begin. destruct (head_run_binding _ _). by case_match.
  - unfold liveness_begin. destruct (head_run_binding _ _). case_match; cbn; lia.
  - intros _ [Hd _]. destruct (nonempty (head_run_binding digest (cr_head_run (cs_record s))).1) eqn:E.
    + left. by apply begin_coherent.
    + right. left. unfold liveness_begin. destruct (head_run_binding _ _) as [run fp]. cbn in E. by rewrite E.
Qed.

Lemma acc_deliver_retained phase opening fresh s k :
  J false 0 k s → (opening = false → J true 0 k s) →
  acc false 0 (deliver_retained scrub digest W ref attempt phase opening fresh) s k.
Proof.
  intros HJ Ha. unfold deliver_retained. walk. case_match.
  { eapply (acc_into false 0); [apply keeps_stop; same|]. intros [a|] s1 k1 HJ1; [by apply accepted_ret|].
    by apply keeps_restart_error. }
  destruct opening; [|apply (acc_save_into true 0); [by eapply J_same; [apply Ha|..]|]; intros; by apply acc_send].
  walk. apply (acc_try false 0); [same|]. intros s1 HJ1. walk. apply accepted_emit; [done|]. walk.
  apply acc_observe; [by apply begun_tracks|intros [_ Hc]; apply Hc|].
  intros obs s2 k2 HJ2 Hw. apply acc_block; [done|intros; by apply accepted_ret|]. intros HJ3. cbv zeta.
  apply (acc_save_into true 0); [done|]. intros k3 HJ4 Hk3. walk.
  apply acc_window; [same|by rewrite Hk3|intros; by apply accepted_ret|intros; by apply acc_send].
Qed.

Lemma resume_tracks k l :
  tracks k l → lv_rung l = RR_RESUME_ONCE → tracks k (l <| lv_resume_used := true |>).
Proof.
  intros [Hf Hm Hd Hb Hs] Hr. split; try done. intros Hc Hw. destruct (Hs Hc Hw) as [[Hc' _]|?]; [|by right].
  by destruct (co_resume _ Hc').
Qed.

(** After the checks of an open boundary: the answer, or the session may be
    touched. *)
Lemma acc_reenter {A} phase (f : Answer + bool → LM A) s k :
  J false 0 k s → (∀ a s' k', J false 0 k' s' → acc false 0 (f (inl a)) s' k') →
  (∀ fresh s' k', J true 0 k' s' → acc false 0 (f (inr fresh)) s' k') →
  acc false 0 (reenter_delivery scrub digest W ref attempt phase ≫= f) s k.
Proof.
  intros HJ Hl Hr. unfold reenter_delivery. walk. apply acc_observe.
  { split; apply HJ. }
  { intros [_ Hc]; apply Hc. }
  intros obs s1 k1 HJ1 Hw. apply accepted_assoc, acc_block; [done|intros; apply accepted_ret_bind; auto|].
  intros HJ2. cbv zeta. apply accepted_assoc, acc_window; [done|done|intros; apply accepted_ret_bind; auto|].
  intros s2 k2 HJ3. walk. case_match.
  - unfold allow_safe_recovery_resume_once. rewrite bool_decide_eq_true in H0. rewrite H0.
    change (negb (bool_decide (RR_RESUME_ONCE = RR_RESUME_ONCE))) with false. cbv iota.
    destruct (lv_resume_used _); cbv iota beta.
    + apply J_drop in HJ3. walk. apply acc_terminalize; [done|done|cbn; lia|]. intros s3 HJ4. walk.
      apply acc_save; [done|]. intros k3 HJ5. unfold fmap, Prog_fmap. walk.
      eapply (acc_into false 0); [by apply keeps_restart|]. intros a s4 k4 HJ6. apply accepted_ret_bind; auto.
    + walk. apply accepted_update. walk. apply (acc_save_into true 0).
      * eapply J_liveness; [done| |done|done]. by apply resume_tracks; [apply HJ3|].
      * intros. apply accepted_ret_bind; auto.
  - apply accepted_ret_bind. by apply Hr.
Qed.

Lemma keeps_deliver_red phase : keeps next ok (J false 0) (deliver_red scrub digest W ref attempt phase).
Proof.
  intros s k HJ. unfold deliver_red. walk. cbv zeta. destruct (negb _).
  - apply accepted_ret_bind. walk. case_match; [by apply acc_deliver_retained|by apply keeps_restart].
  - apply acc_reenter; [done|intros; by apply accepted_ret|]. intros fresh s1 k1 HJ1. walk. case_match.
    + apply acc_deliver_retained; [by eapply J_drop|done].
    + apply keeps_restart; [done|by eapply J_drop].
Qed.

Lemma keeps_recover marker : keeps next ok (J false 0) (recover_worker_continuation scrub digest W ref attempt marker).
Proof.
  intros s k HJ. unfold recover_worker_continuation. walk. cbv zeta.
  destruct (ct_stage _); try (by apply accepted_ret); [|apply accepted_map; by apply keeps_finish].
  case_match.
  { apply (acc_try false 0); [done|]. intros s1 HJ1. apply acc_save; [done|]. intros. apply accepted_map. by apply keeps_finish. }
  walk. apply acc_observe; [split; apply HJ|intros [_ Hc]; apply Hc|]. intros obs s1 k1 HJ1 Hw.
  apply acc_block; [done|intros; by apply accepted_ret|]. intros HJ2. cbv zeta.
  apply acc_window; [done|done|intros; by apply accepted_ret|]. intros s2 k2 HJ3. apply J_drop in HJ3. apply acc_save; [done|]. intros k3 HJ4. walk.
  case_match; [walk; apply keeps_busy_deferred; same|]. walk.
  case_match; walk; [apply keeps_busy_deferred; same|apply keeps_deliver_red; same].
Qed.

Lemma keeps_complete : keeps next ok (J false 0) (complete_red_transition scrub digest W ref attempt).
Proof.
  intros s k HJ. unfold complete_red_transition. walk. cbv zeta.
  destruct (nonempty (ct_decision _)); [apply accepted_ret_bind|]; walk.
  all: apply acc_save; [same|]; intros; apply keeps_deliver_red; same.
Qed.

Lemma keeps_begin_red comments phase reason outcome decision body prerequisites :
  keeps next ok (J false 0)
    (begin_red scrub digest W ref attempt comments phase reason outcome decision body prerequisites).
Proof.
  intros s k HJ. unfold begin_red. walk. apply (acc_try false 0); [done|]. intros s1 HJ1. apply acc_save; [done|].
  intros. by apply keeps_complete.
Qed.

Lemma keeps_tick marker : keeps next ok (J false 0) (continuation_tick scrub digest W ref attempt marker).
Proof.
  intros s k HJ. unfold continuation_tick. walk. case_match; [walk; by apply keeps_complete|by apply keeps_recover].
Qed.

Lemma keeps_enter e : keeps next ok (J false 0) (enter scrub digest W ref attempt e).
Proof.
  destruct e; [apply keeps_tick|]. intros s k HJ. cbn [enter]. walk. by apply keeps_begin_red.
Qed.

End ledger.
