(* ===== verification/ContinuationRecord.v ===== *)
(** * The continuation on every record a tick writes

    A continuation whose stage carries its data is written and read back without
    loss.  The step keeps it so: every record it saves, and the one it leaves,
    has such a continuation when the one it found had. *)

From S2P Require Import Prelude PyText Program RequestIds HeadVitality WorkerLifecycle WorkerLifecycleFacts ContinuationLadder ContinuationLadderFacts.

(** An empty stage has no data of its own, and no prerequisite is blank. *)
Definition ct_wf (c : Continuation) : Prop :=
  (ct_stage c = CS_NONE → c = cleared) ∧ Forall (λ p, nonempty p = true) (ct_prerequisites c).

Definition entry_wf (e : Entry) : Prop :=
  match e with Advance _ => True | OpenRed _ _ _ _ _ _ prerequisites => Forall (λ p, nonempty p = true) prerequisites end.

(** Every saved record is well formed. *)
Definition saves_wf (_ : unit) (e : Event) : Prop := match e with EvSaved r => ct_wf (cr_continuation r) | _ => True end.

(** With [open] set, a stage is open. *)
Definition formed (open : bool) (_ : unit) (s : CState) : Prop :=
  let c := cr_continuation (cs_record s) in ct_wf c ∧ (open = true → ct_stage c ≠ CS_NONE).

Notation wf open := (accepted (λ _ _, tt) saves_wf (formed open)).
Notation keeps_wf m := (∀ s, formed false tt s → wf false m s tt).

(** ** The pieces *)

Lemma cleared_wf : ct_wf cleared.
Proof. by split; [|constructor]. Qed.

Lemma open_wf c : ct_stage c ≠ CS_NONE → Forall (λ p, nonempty p = true) (ct_prerequisites c) → ct_wf c.
Proof. by split. Qed.

Lemma drop_session_wf c : ct_wf c → ct_wf (drop_session c).
Proof.
  intros [Hc Hp]. unfold drop_session. destruct (ct_stage c) eqn:E; try apply cleared_wf.
  all: try (apply open_wf; cbn; [congruence|done]). rewrite (Hc eq_refl). apply cleared_wf.
Qed.

Lemma formed_drop open s : formed open tt s → formed false tt s.
Proof. by intros [? _]. Qed.

Lemma wf_save {A} open (f : unit → LM A) s :
  ct_wf (cr_continuation (cs_record s)) → wf open (f tt) s tt → wf open (save ≫= f) s tt.
Proof. intros Hs Hf. by apply accepted_save. Qed.

Lemma wf_into {A B} open (m : LM B) (f : B → LM A) s :
  wf open m s tt → (∀ b s, formed open tt s → wf false (f b) s tt) → wf false (m ≫= f) s tt.
Proof.
  intros Hm Hf. eapply accepted_into; [exact Hm|by intros [] ? ?%formed_drop|]. intros b s' [] Hs. by apply Hf.
Qed.

Lemma wf_try {A} g (f : unit → LM A) s :
  formed false tt s →
  (∀ c, g (cr_continuation (cs_record s)) = Ok c →
     wf false (f tt) {| cs_record := (cs_record s) <| cr_continuation := c |>; cs_calls := cs_calls s |} tt) →
  wf false (try_continuation g ≫= f) s tt.
Proof.
  intros Hs Hf. unfold try_continuation. apply accepted_assoc, accepted_recd, accepted_assoc, accepted_lift; [done|].
  intros c E. apply accepted_update. by apply Hf.
Qed.

(** One primitive at a time; what is left are the operations and the decisions. *)
Ltac wf_step :=
  lazymatch goal with
  | |- accepted _ _ _ (mret _) _ _ => apply accepted_ret
  | |- accepted _ _ _ (_ <$> _) _ _ => apply accepted_map
  | |- accepted _ _ _ (mret _ ≫= _) _ _ => apply accepted_ret_bind
  | |- accepted _ _ _ (recd ≫= _) _ _ => apply accepted_recd
  | |- accepted _ _ _ (call _ ≫= _) _ _ => apply accepted_call
  | |- accepted _ _ _ ((_ ≫= _) ≫= _) _ _ => apply accepted_assoc
  | |- accepted _ _ _ (on_continuation _ ≫= _) _ _ => apply accepted_update
  | |- accepted _ _ _ (on_liveness _ ≫= _) _ _ => apply accepted_update
  | |- accepted _ _ _ (update_rec _ ≫= _) _ _ => apply accepted_update
  | |- accepted _ _ _ (emit _ ≫= _) _ _ => apply accepted_emit; [exact I|]
  | |- accepted _ _ _ (save ≫= _) _ _ => apply wf_save; [first [done|assumption|apply cleared_wf|idtac]|]
  end; cbv zeta; cbn [cs_record cs_calls].
Ltac wf_walk := repeat wf_step.
Ltac formed := first [done|assumption|eapply formed_drop; eassumption
                     |split; cbn; first [done|apply cleared_wf|assumption|by intros ?]].

Section record.
Context `{PyRepr} (scrub : string → string) (digest : pyval → string) (W : World) (ref attempt : string).

Lemma wf_stop step : keeps_wf (stop_worker_confirmed W step).
Proof.
  intros s [Hs _]. unfold stop_worker_confirmed. wf_walk. case_match; wf_walk; split; cbn; try done.
  by do 2 apply drop_session_wf.
Qed.

Lemma wf_intent action round : keeps_wf (write_relaunch_intent W action round).
Proof.
  intros s [Hs _]. unfold write_relaunch_intent. wf_walk. destruct (w_preflight W _) as [[run|error]|]; wf_walk; try by split.
  all: case_match; wf_walk; by split.
Qed.

Lemma wf_restart reason phase stopped : keeps_wf (restart_red_worker W reason phase stopped).
Proof.
  intros s [Hs _]. unfold restart_red_worker. wf_walk. set (s1 := {| cs_record := _; cs_calls := _ |}).
  apply (wf_into false); [destruct stopped; [wf_walk; by split|apply wf_stop; by split]|]. clear s1.
  intros [a|] s1 [Hs1 _]; wf_walk; [by split|]. apply (wf_into false); [apply wf_intent; split; [apply cleared_wf|done]|].
  intros [e|] s2 [Hs2 _]; wf_walk; [by split|]. case_match; wf_walk; by split.
Qed.

Lemma wf_finish phase : keeps_wf (finish_resume phase).
Proof. intros s _. unfold finish_resume. wf_walk. split; [apply cleared_wf|done]. Qed.

(** A decision of the tick, or it goes on with the stage as open as it was. *)
Lemma wf_some {A} (m : LM Answer) (f : option Answer → LM A) s :
  wf false m s tt → (∀ a s', formed false tt s' → wf false (f (Some a)) s' tt) → wf false ((Some <$> m) ≫= f) s tt.
Proof.
  intros Hm Hf. unfold fmap, Prog_fmap. wf_walk. apply (wf_into false); [done|]. intros a s1 Hs1. wf_walk. by apply Hf.
Qed.

Lemma wf_block {A} open phase observation (f : option Answer → LM A) s :
  formed open tt s → (∀ a s', formed false tt s' → wf false (f (Some a)) s' tt) → wf false (f None) s tt →
  wf false (block_unadmitted W ref attempt phase observation ≫= f) s tt.
Proof.
  intros Hs Hsome Hnone. unfold block_unadmitted. wf_walk. case_match; [by wf_walk|]. apply formed_drop in Hs. case_match.
  - apply wf_some; [by apply wf_restart|done].
  - wf_walk; [apply Hs|]. by apply Hsome.
Qed.

Lemma wf_window {A} phase fresh now (f : option Answer → LM A) s :
  formed true tt s → (∀ a s', formed false tt s' → wf false (f (Some a)) s' tt) →
  (∀ s', formed true tt s' → wf false (f None) s' tt) →
  wf false (recovery_window W phase fresh now ≫= f) s tt.
Proof.
  intros Hs Hsome Hnone. unfold recovery_window. wf_walk. pose proof (formed_drop _ _ Hs) as Hd.
  case_match; [by apply wf_some; [apply wf_restart|]|]. case_match; [wf_walk; by apply Hnone|]. case_match.
  { wf_walk; [apply Hs|]. unfold window_deferred. apply wf_some; [by wf_walk|done]. }
  destruct fresh; wf_walk; try apply Hs; [by apply Hnone|]. by apply wf_some; [apply wf_restart|].
Qed.

Lemma wf_replace phase : keeps_wf (replace_no_progress W phase).
Proof. intros s Hs. unfold replace_no_progress. wf_walk. by apply wf_restart. Qed.

Lemma wf_advance phase : keeps_wf (advance_no_progress scrub W ref attempt phase).
Proof.
  intros s Hs. unfold advance_no_progress. wf_walk.
  assert (∀ s, formed false tt s → wf false (spend_safe_recovery scrub W phase) s tt) as Hspend.
  { intros s1 Hs1. unfold spend_safe_recovery. wf_walk; [apply Hs1|]. case_match; wf_walk; try apply Hs1.
    - unfold window_deferred. by wf_walk.
    - by apply wf_replace. }
  destruct (negb _ || _).
  { unfold block_unadmitted. wf_walk. case_match; [by wf_walk|]. case_match; wf_walk; [by apply wf_restart|apply Hs|done]. }
  destruct (_ <? _); [by wf_walk|].
  destruct (lv_rung _); try (by wf_walk); try (case_match; [by apply wf_replace|by apply Hspend]).
  - wf_walk; [apply Hs|]. by apply wf_replace.
  - case_match; wf_walk; [by apply wf_replace|done].
Qed.

Lemma wf_busy_deferred phase : keeps_wf (busy_deferred phase).
Proof. intros s Hs. unfold busy_deferred. by wf_walk. Qed.

Lemma wf_busy_refusal phase fresh s :
  formed true tt s → wf false (busy_refusal scrub W ref attempt phase fresh) s tt.
Proof.
  intros [[Hc Hp] Ho]. specialize (Ho eq_refl). unfold busy_refusal. wf_walk.
  destruct fresh; [wf_walk; apply wf_busy_deferred; split; [by apply open_wf|done]|].
  case_match; wf_walk.
  - apply wf_busy_deferred. split; [by apply open_wf|done].
  - apply (wf_into false); [apply wf_advance; split; [by apply open_wf|done]|].
    intros [a|] s1 Hs1; wf_walk; [done|by apply wf_busy_deferred].
Qed.

Lemma confirm_delivery_wf c c' : ct_wf c → confirm_delivery c = Ok c' → ct_wf c'.
Proof. intros [_ Hp]. unfold confirm_delivery. destruct (ct_stage c); intros [= <-]; by apply open_wf. Qed.

Lemma wf_send phase fresh s : formed true tt s → wf false (send_continuation scrub W ref attempt phase fresh) s tt.
Proof.
  intros Hs. pose proof (formed_drop _ _ Hs) as Hd. unfold send_continuation. wf_walk.
  destruct (w_resume W _) as [|error evidence]; [apply wf_try; [done|]; intros c Ec|]; cbn [cs_record cs_calls].
  - apply confirm_delivery_wf in Ec; [|apply Hs]. wf_walk. apply wf_finish. by split.
  - wf_walk. case_match; [by apply wf_busy_refusal|]. wf_walk; [apply Hs|]. by apply wf_restart.
Qed.

Lemma wf_observe {A} now (f : string → LM A) s :
  formed true tt s → (∀ obs s', formed true tt s' → wf false (f obs) s' tt) →
  wf false (observe_progress scrub digest W now ≫= f) s tt.
Proof.
  intros [[Hc Hp] Ho] Hf. specialize (Ho eq_refl). unfold observe_progress. wf_walk.
  destruct (observe_provider _ _ _ _ _) as [obs l1]. wf_walk. apply Hf. split; cbn [cs_record]; cbn.
  - by destruct (String.eqb obs "progressed"), (admitted l1); apply open_wf.
  - by destruct (String.eqb obs "progressed"), (admitted l1).
Qed.

Lemma begin_delivery_wf c phase now c' : ct_wf c → begin_delivery c phase now = Ok c' → ct_wf c' ∧ ct_stage c' ≠ CS_NONE.
Proof. intros [_ Hp]. unfold begin_delivery. destruct (ct_stage c); intros [= <-]; (split; [by apply open_wf|done]). Qed.

Lemma wf_deliver_retained phase opening fresh s :
  formed true tt s → wf false (deliver_retained scrub digest W ref attempt phase opening fresh) s tt.
Proof.
  intros Hs. pose proof (formed_drop _ _ Hs) as Hd. unfold deliver_retained. wf_walk. case_match.
  { apply (wf_into false); [by apply wf_stop|]. intros [a|] s1 Hs1; wf_walk; [done|by apply wf_restart]. }
  destruct opening; [|wf_walk; [apply Hs|]; by apply wf_send]. wf_walk. apply wf_try; [done|]. intros c Ec. cbn [cs_record cs_calls].
  apply begin_delivery_wf in Ec as [Hc Ho]; [|apply Hs]. wf_walk. apply wf_observe; [by split|]. intros obs s1 Hs1.
  apply (wf_block true); [done|intros; by wf_walk|]. wf_walk; [apply Hs1|].
  apply wf_window; [done|intros; by wf_walk|]. intros s2 Hs2. by apply wf_send.
Qed.

Lemma wf_deliver_red phase : keeps_wf (deliver_red scrub digest W ref attempt phase).
Proof.
  intros s Hs. unfold deliver_red. wf_walk. case_bool_decide as Est; cbn [negb].
  - assert (formed true tt s) as Ho by (split; [apply Hs|]; congruence). unfold reenter_delivery. wf_walk.
    apply wf_observe; [done|]. intros obs s1 Hs1. wf_walk. apply (wf_block true); [done|intros; by wf_walk|]. wf_walk.
    apply wf_window; [done|intros; by wf_walk|]. intros s2 Hs2. wf_walk.
    assert (∀ fresh s3, formed true tt s3 → wf false (if retained (cr_continuation (cs_record s3))
      then deliver_retained scrub digest W ref attempt phase false fresh
      else restart_red_worker W "no retained worker session was available" phase false) s3 tt) as Hgo.
    { intros fresh s3 Hs3. case_match; [by apply wf_deliver_retained|]. apply wf_restart. by eapply formed_drop. }
    case_match; [|wf_walk; by apply Hgo]. destruct (allow_safe_recovery_resume_once _) as [[] l]; wf_walk; try apply Hs2;
      [match goal with |- accepted _ _ _ _ ?s3 _ => by apply (Hgo _ s3) end|].
    unfold fmap, Prog_fmap. wf_walk. apply (wf_into false); [apply wf_restart; by eapply formed_drop|]. intros a s3 Hs3. by wf_walk.
  - wf_walk. case_match eqn:Er; [|by apply wf_restart]. apply wf_deliver_retained. split; [apply Hs|].
    unfold retained in Er. intros _. by boolify.
Qed.

Lemma wf_recover marker : keeps_wf (recover_worker_continuation scrub digest W ref attempt marker).
Proof.
  intros s Hs. unfold recover_worker_continuation. wf_walk. destruct (ct_stage _) eqn:Est; try (wf_walk; first [done|by apply wf_finish]).
  case_match.
  { apply wf_try; [done|]. intros c Ec. apply confirm_delivery_wf in Ec; [|apply Hs]. wf_walk. apply wf_finish. by split. }
  wf_walk. apply wf_observe; [split; [apply Hs|]; cbn; congruence|]. intros obs s1 Hs1.
  apply (wf_block true); [done|intros; by wf_walk|]. wf_walk. apply wf_window; [done|intros; by wf_walk|].
  intros s2 Hs2. pose proof (formed_drop _ _ Hs2) as Hd2. wf_walk; [apply Hs2|]. case_match; wf_walk.
  - apply wf_busy_deferred. destruct Hs2 as [[_ Hp2] Ho2]. split; [|done]. apply open_wf; [by apply Ho2|done].
  - case_match; wf_walk; [by apply wf_busy_deferred|by apply wf_deliver_red].
Qed.

Lemma wf_complete : keeps_wf (complete_red_transition scrub digest W ref attempt).
Proof.
  intros s Hs. unfold complete_red_transition. wf_walk. destruct (nonempty _); wf_walk; try apply Hs; by apply wf_deliver_red.
Qed.

Lemma begin_red_wf c v c' : Forall (λ p, nonempty p = true) (rv_prerequisites v) → begin_red_transition c v = Ok c' → ct_wf c'.
Proof. intros Hp. unfold begin_red_transition. destruct (ct_stage c); intros [= <-]; by apply open_wf. Qed.

Lemma wf_enter e : entry_wf e → keeps_wf (enter scrub digest W ref attempt e).
Proof.
  intros He s Hs. destruct e as [marker|comments phase reason outcome decision body prerequisites]; cbn [enter].
  - unfold continuation_tick. wf_walk. case_match; wf_walk; [by apply wf_complete|by apply wf_recover].
  - wf_walk. unfold begin_red. wf_walk. apply wf_try; [done|]. intros c Ec. apply begin_red_wf in Ec; [|done].
    cbn [cs_record cs_calls]. wf_walk. apply wf_complete. by split.
Qed.
End record.
