(* ===== verification/ContinuationRuns.v ===== *)
(** * The continuation over a card's life, restarts and deaths included

    Ticks run one after another over the record on disk; a tick may die after
    any of its observable actions, and the next one reads back the last record
    written.  The safe-recovery rung is spent once per episode, the exact record
    survives every restart on every path but one, and nothing is done to the
    worker before its run was admitted. *)

From S2P Require Import Prelude PyText Program RequestIds HeadVitality WorkerLifecycle WorkerLifecycleFacts ContinuationLadder ContinuationLadderFacts ContinuationRecord.

(** ** Reading back what no invariant is known of *)

Section readback.
Context `{PyRepr} (float_of_text : string → option pyfloat).

Lemma parse_any l :
  ∃ x, parse_liveness float_of_text (liveness_fields l) = Ok x ∧ ∀ p, x = inr p → p = parsed l.
Proof.
  unfold parse_liveness.
  change (get (liveness_fields l) "version") with (VInt CONTINUATION_LIVENESS_VERSION).
  cbn [py_int mbind res_bind]. change (negb (CONTINUATION_LIVENESS_VERSION =? CONTINUATION_LIVENESS_VERSION)) with false.
  change (get (liveness_fields l) "state") with (VStr (enum_value (lv_state l))).
  change (get (liveness_fields l) "recovery_rung") with (VStr (enum_value (lv_rung l))).
  rewrite !enum_call_value. unfold get, liveness_fields.
  cbn [dict_get String.eqb Ascii.eqb Bool.eqb default from_option id mbind res_bind].
  rewrite !py_float_or_val. cbn [mbind res_bind]. case_match; [eexists; by split|].
  rewrite !py_int_or_val. cbn [mbind res_bind]. case_match; [eexists; by split|].
  case_match; eexists; split; try done. intros p [= <-]. done.
Qed.

(** An episode read back is a fresh unknown one, or it agrees with the stored
    one on everything the ladder reads. *)
Inductive read_as (l l' : Liveness) : Prop :=
| read_unknown reason legacy : l' = liveness_unknown reason legacy → read_as l l'
| read_same :
    lv_run_id l' = lv_run_id l → lv_fingerprint l' = lv_fingerprint l → nonempty (lv_run_id l) = true →
    fingerprint_ok (lv_fingerprint l) = true → lv_rung l' = lv_rung l → lv_state l' = lv_state l →
    lv_busy_attempts l' = lv_busy_attempts l → lv_source_rejected l' = bool_decide (lv_state l = LS_UNKNOWN) →
    read_as l l'.

Lemma liveness_read l :
  ∃ l', liveness_from_json float_of_text (liveness_to_json l) = Ok l' ∧ read_as l l'.
Proof.
  destruct (parse_any l) as (x & E & Hx). unfold liveness_from_json, liveness_to_json. rewrite E.
  destruct x as [reason|p]; [eexists; split; [done|by eapply read_unknown]|]. rewrite (Hx p eq_refl). cbv zeta.
  change (get (liveness_fields l) "baseline_established") with (VBool (lv_baseline l)).
  repeat case_match; eexists; (split; [reflexivity|]); try (by eapply read_unknown).
  all: boolify; apply read_same; try done; symmetry; first [by apply bool_decide_eq_true | by apply bool_decide_eq_false].
Qed.

Lemma prerequisites_read ps :
  Forall (λ p, nonempty p = true) ps → omap prerequisite (VStr <$> ps) = ps.
Proof. induction 1 as [|p ps Hp _ IH]; [done|]. cbn in *. by rewrite Hp, IH. Qed.

Lemma continuation_read c :
  ∃ c', continuation_from_json float_of_text (continuation_to_json c) = Ok c' ∧ (ct_wf c → c' = c).
Proof.
  destruct (decide (ct_stage c = CS_NONE)) as [E|E].
  { unfold continuation_to_json. rewrite bool_decide_eq_true_2 by done. eexists. split; [done|]. intros [Hc _]. symmetry. auto. }
  assert (continuation_to_json c = VDict (continuation_fields c)) as -> by (unfold continuation_to_json; by rewrite bool_decide_eq_false_2).
  assert (∀ st : ContinuationStage, enum_call (str_or (VStr (enum_value st)) "none") = Ok st) as Hst
    by (by intros []).
  unfold continuation_from_json, continuation_fields, get.
  cbn [dict_get String.eqb Ascii.eqb Bool.eqb default from_option id mbind res_bind py_iter].
  rewrite Hst. cbn [mbind res_bind]. rewrite !py_float_or_val. cbn [mbind res_bind]. rewrite !py_int_or_val.
  cbn [mbind res_bind py_iter]. eexists. split; [reflexivity|]. intros [_ Hp].
  rewrite !py_str_or_str, prerequisites_read by done. by destruct c.
Qed.

Lemma reload_total r :
  ∃ c l, reload_record float_of_text r = Ok (r <| cr_continuation := c |> <| cr_liveness := l |>) ∧
    read_as (cr_liveness r) l ∧ liveness_from_json float_of_text (liveness_to_json (cr_liveness r)) = Ok l ∧
    (ct_wf (cr_continuation r) → c = cr_continuation r).
Proof.
  destruct (liveness_read (cr_liveness r)) as (l & El & Hl), (continuation_read (cr_continuation r)) as (c & Ec & Hc).
  exists c, l. unfold reload_record. rewrite Ec, El. done.
Qed.

(** What the ladder relies on survives reading back. *)
Lemma read_fenced l l' : read_as l l' → fenced l → fenced l'.
Proof.
  intros [reason legacy ->|_ _ _ _ _ Hs _ Hr] Hf; [done|]. intros E. rewrite Hr in E. rewrite Hs. by boolify.
Qed.

Lemma read_spendable l l' : read_as l l' → fenced l → spendable l' = true → spendable l = true.
Proof.
  intros [reason legacy ->|Hi Hp _ _ Hg Hs _ Hr] Hf; [done|]. unfold spendable, bound. rewrite Hi, Hp, Hg. intros E. boolify.
  rewrite !andb_true_iff. split_and!; try done; [|by apply bool_decide_eq_true].
  destruct (lv_source_rejected l) eqn:El; [|done]. rewrite (bool_decide_eq_true_2 _ (Hf El)) in Hr. congruence.
Qed.

Lemma read_busy l l' n : read_as l l' → lv_busy_attempts l ≤ n → 0 ≤ n → lv_busy_attempts l' ≤ n.
Proof. intros [reason legacy ->|_ _ _ _ _ _ -> _]; done. Qed.

Lemma read_settled l l' : read_as l l' → lv_state l ≠ LS_BASELINE_PENDING → lv_state l' ≠ LS_BASELINE_PENDING.
Proof. intros [reason legacy ->|_ _ _ _ _ -> _ _]; done. Qed.

Lemma read_shut l l' : read_as l l' → fenced l → shut l → shut l'.
Proof.
  intros [reason legacy ->|Hi Hp Hn Hk _ _ _ Hr] Hf [Hb|Hb]; try (by left).
  - unfold bound in Hb. rewrite Hn in Hb. cbn in Hb. destruct (lv_fingerprint l); done.
  - right. rewrite Hr. apply bool_decide_eq_true. auto.
Qed.

Lemma read_stable l l' :
  liveness_from_json float_of_text (liveness_to_json l) = Ok l' → read_as l l' → fenced l → stable l → stable l'.
Proof.
  intros E Hr Hf [Hc|Hs]; [left|right; by eapply read_shut]. rewrite coherent_reload in E by done. by injection E as <-.
Qed.

End readback.

(** ** Runs *)

(** One tick: the world it meets, how it enters the continuation, what the
    other parts of the dispatcher did to the record before, and after how many
    observable actions it dies, if it does. *)
Record Tick := {
  tk_world : World;
  tk_entry : Entry;
  tk_outside : CRecord → CRecord;
  tk_cut : option nat;
}.

(** The record on disk after a log. *)
Definition disk_after (d : CRecord) (log : list Event) : CRecord :=
  foldl (λ d e, match e with EvSaved r => r | _ => d end) d log.

Section runs.
Context `{PyRepr} (scrub : string → string) (digest : pyval → string) (float_of_text : string → option pyfloat)
  (ref attempt : string).

Definition tick_log (t : Tick) (d : CRecord) : list Event :=
  match reload_record float_of_text d with
  | Raise _ => []
  | Ok r =>
      let '(_, _, log) := production_tick scrub digest (tk_world t) ref attempt (tk_entry t) (tk_outside t r) in
      match tk_cut t with Some n => take n log | None => log end
  end.

Fixpoint run (ticks : list Tick) (d : CRecord) : list Event :=
  match ticks with
  | [] => []
  | t :: ticks' => let log := tick_log t d in log ++ run ticks' (disk_after d log)
  end.

(** Only the continuation writes its liveness episode. *)
Definition outside_ok (t : Tick) : Prop := ∀ r, cr_liveness (tk_outside t r) = cr_liveness r.

(** The events of a run, whatever world each tick met. *)
Definition good (k : Ledger) (e : Event) : Prop :=
  match e with
  | EvSaved r => fenced (cr_liveness r) ∧ lv_state (cr_liveness r) ≠ LS_BASELINE_PENDING ∧
                 (spendable (cr_liveness r) = true → k_may k = true) ∧ lv_busy_attempts (cr_liveness r) ≤ k_busy k ∧
                 (k_clean k = true → stable (cr_liveness r))
  | EvSafeRecovery _ => k_may k = true ∧ k_disk k = false ∧ 3 ≤ k_busy k
  | EvObserved before head_run evidence answer =>
      admitting answer = true → admits_run digest before head_run evidence answer
  | EvResume head_run => k_admitted k = Some head_run
  | EvRestart reason => String.prefix NO_PROGRESS reason = true → 3 ≤ k_busy k ∨ ∃ error, reason = scrub error
  | _ => True
  end.

(** What the ledger says of the record on disk. *)
Record on_disk (k : Ledger) (d : CRecord) : Prop := {
  od_fenced : fenced (cr_liveness d);
  od_settled : lv_state (cr_liveness d) ≠ LS_BASELINE_PENDING;
  od_disk : k_disk k = spendable (cr_liveness d);
  od_may : k_disk k = true → k_may k = true;
  od_busy : lv_busy_attempts (cr_liveness d) ≤ k_busy k;
  od_nonneg : 0 ≤ k_busy k;
  od_stable : k_clean k = true → stable (cr_liveness d);
}.

Lemma clean_next k e : k_clean (next k e) = true → k_clean k = true.
Proof. destruct e; cbn; try done. case_match; cbn; [|done]. intros E. by boolify. Qed.

Lemma clean_nexts k log : k_clean (nexts next k log) = true → k_clean k = true.
Proof. revert k. induction log as [|e log IH]; intros k; cbn; [done|]. intros Hk. by eapply clean_next, IH. Qed.

Lemma on_disk_next k d e :
  on_disk k d → good k e → on_disk (next k e) (disk_after d [e]).
Proof.
  intros [H1 H2 H3 H4 H5 H6 H7] Hg. destruct e; cbn in *; try by split.
  - split; cbn; naive_solver.
  - case_match; split; cbn; try done. intros E. boolify. auto.
  - split; cbn; try done; lia.
  - destruct Hg as (Hm & Hd & _). split; cbn; try done. congruence.
Qed.

Lemma on_disk_log k d log :
  on_disk k d → checks next good k log → on_disk (nexts next k log) (disk_after d log).
Proof.
  revert k d. induction log as [|e log IH]; intros k d Hd Hc; [done|]. cbn in Hc. destruct Hc as [Hg Hc].
  change (disk_after d (e :: log)) with (disk_after (disk_after d [e]) log). apply IH; [|done]. by apply on_disk_next.
Qed.

Lemma ok_good W k e :
  (k_clean k = true → faithful digest W) → ok scrub digest W k e → good k e.
Proof. intros Hf. destruct e; cbn; try done. naive_solver. Qed.

Lemma checks_good W k log :
  (k_clean k = true → faithful digest W) → checks next (ok scrub digest W) k log → checks next good k log.
Proof.
  revert k. induction log as [|e log IH]; intros k Hf; cbn; [done|]. intros [Ho Hc]. split; [by eapply ok_good|].
  apply IH; [|done]. intros Hk. by apply Hf, (clean_next k e).
Qed.

Lemma checks_take k n log : checks next good k log → checks next good k (take n log).
Proof. intros Hc. rewrite <-(take_drop n log) in Hc. by apply checks_app in Hc as [? _]. Qed.

(** A tick's log keeps the ledger of what is on disk. *)
Lemma tick_good t k d :
  on_disk k d → outside_ok t → (k_clean k = true → faithful digest (tk_world t)) →
  checks next good k (tick_log t d).
Proof.
  intros [H1 H2 H3 H4 H5 H6 H7] Ho Hf. unfold tick_log.
  destruct (reload_total float_of_text d) as (c & l & -> & Hl & El & _).
  set (r := tk_outside t _). assert (cr_liveness r = l) as Hr by (subst r; by rewrite Ho). clearbody r.
  assert (J digest (tk_world t) false 0 k {| cs_record := r; cs_calls := 0 |}) as HJ.
  { unfold J. cbn [cs_record]. rewrite Hr. split_and!; [|by eapply read_settled|done|done|done]. split.
    - by eapply read_fenced.
    - intros Hs. apply H4. rewrite H3. by eapply read_spendable.
    - done.
    - by eapply read_busy.
    - intros Hk _. eapply read_stable; eauto. }
  unfold production_tick. pose proof (keeps_enter scrub digest (tk_world t) ref attempt (tk_entry t) _ k HJ) as Hk.
  unfold accepted in Hk. destruct (enter _ _ _ _ _ _ _) as [[a s] log]. destruct Hk as [Hc HJ'].
  assert (checks next good k (log ++ [EvSaved (cs_record s)])) as Hall.
  { apply (checks_good (tk_world t)); [done|]. apply checks_app. split; [done|]. split; [|done].
    by apply (saved scrub digest (tk_world t) false 0). }
  destruct (tk_cut t); [by apply checks_take|done].
Qed.

Lemma run_good ticks k d :
  on_disk k d → Forall outside_ok ticks → (k_clean k = true → Forall (λ t, faithful digest (tk_world t)) ticks) →
  checks next good k (run ticks d).
Proof.
  revert k d. induction ticks as [|t ticks IH]; intros k d Hd Ho Hf; [done|]. cbn.
  inversion Ho as [|? ? Ho1 Ho2]; subst. assert (k_clean k = true → faithful digest (tk_world t)) as Hf1.
  { intros Hk. specialize (Hf Hk). by inversion Hf. }
  pose proof (tick_good t k d Hd Ho1 Hf1) as Ht. apply checks_app. split; [done|].
  apply IH; [by apply on_disk_log|done|]. intros Hk.
  assert (k_clean k = true) as Hk0. { revert Hk. apply clean_nexts. } specialize (Hf Hk0). by inversion Hf.
Qed.

(** ** What the runs show *)

(** The episode moved: a new one was begun, or its provider cursor advanced. *)
Definition renews (e : Event) : Prop :=
  match e with EvBegun => True | EvObserved _ _ _ a => a = "progressed" | _ => False end.

Definition is_busy (e : Event) : bool := match e with EvBusy => true | _ => false end.

(** The last observation of the provider: the episode it found, the head run,
    the evidence and the answer.  A new episode forgets it. *)
Definition Observation : Type := Liveness * pyval * pyval * string.

Definition observe_next (o : option Observation) (e : Event) : option Observation :=
  match e with
  | EvObserved before head_run evidence answer => Some (before, head_run, evidence, answer)
  | EvBegun => None
  | _ => o
  end.

Definition last_observed (log : list Event) : option Observation := foldl observe_next None log.

(** The ledger a run starts with. *)
Definition start (clean : bool) (d : CRecord) : Ledger := {|
  k_may := true; k_disk := spendable (cr_liveness d); k_busy := Z.max 0 (lv_busy_attempts (cr_liveness d));
  k_clean := clean; k_admitted := None |}.

Lemma start_on_disk clean d :
  fenced (cr_liveness d) → lv_state (cr_liveness d) ≠ LS_BASELINE_PENDING → (clean = true → stable (cr_liveness d)) →
  on_disk (start clean d) d.
Proof. intros Hf Hp Hs. split; cbn; try done; lia. Qed.

(** The middle of an accepted log. *)
Lemma checks_at k l1 e l2 : checks next good k (l1 ++ e :: l2) → good (nexts next k l1) e ∧ checks next good (next (nexts next k l1) e) l2.
Proof. intros Hc. by apply checks_app in Hc as [_ ?]. Qed.

Lemma may_renewed k log : k_may k = false → k_may (nexts next k log) = true → Exists renews log.
Proof.
  revert k. induction log as [|e log IH]; intros k; cbn; [congruence|]. intros Hk Hm.
  destruct (k_may (next k e)) eqn:E; [|right; by eapply IH]. left. destruct e; cbn in *; try congruence; try done.
  destruct (String.eqb_spec answer "progressed"); [done|]. cbn in E. congruence.
Qed.

Lemma busy_counted k log : k_busy (nexts next k log) = k_busy k + Z.of_nat (length (filter is_busy log)).
Proof.
  revert k. induction log as [|e log IH]; intros k; [cbn; lia|]. change (nexts next k (e :: log)) with (nexts next (next k e) log).
  rewrite IH, filter_cons. case_decide as Hb; destruct e; cbn in *; try done; try lia; case_match; cbn; lia.
Qed.

Lemma admitted_last log k o :
  checks next good k log →
  let backed k o := ∀ head_run, k_admitted k = Some head_run → ∃ before evidence answer,
    o = Some (before, head_run, evidence, answer) ∧ admitting answer = true ∧ admits_run digest before head_run evidence answer in
  backed k o → backed (nexts next k log) (foldl observe_next o log).
Proof.
  revert k o. induction log as [|e log IH]; intros k o Hc backed Hb; [done|]. destruct Hc as [Hg Hc].
  change (nexts next k (e :: log)) with (nexts next (next k e) log).
  change (foldl observe_next o (e :: log)) with (foldl observe_next (observe_next o e) log). apply IH; [done|].
  destruct e; cbn; try done. cbn in Hg. intros h Hh. destruct (String.eqb_spec answer "progressed") as [->|_]; cbn in Hh.
  - injection Hh as <-. do 3 eexists. split; [done|]. split; [done|by apply Hg].
  - destruct (admitting answer) eqn:Ea; [|done]. injection Hh as <-. eauto 10.
Qed.

(** C16. The safe recovery is asked for once per episode: between two of its calls,
    over any number of ticks, restarts and deaths, a new episode was begun or
    the provider was seen to progress. *)
Theorem safe_recovery_once ticks d pre j mid j' post :
  Forall outside_ok ticks → fenced (cr_liveness d) → lv_state (cr_liveness d) ≠ LS_BASELINE_PENDING →
  run ticks d = pre ++ EvSafeRecovery j :: mid ++ EvSafeRecovery j' :: post → Exists renews mid.
Proof.
  intros Ho Hf Hp E. pose proof (run_good ticks (start false d) d) as Hc. rewrite E in Hc.
  apply checks_at in Hc as [_ Hc]; [|by apply start_on_disk|done|done]. apply checks_at in Hc as [(Hm & _) _].
  eapply may_renewed; [|exact Hm]. done.
Qed.

(** No safe recovery, and no replacement for want of progress, before three busy
    refusals against an unchanged provider cursor were counted on this card. *)
Theorem three_refusals_first ticks d pre e post :
  Forall outside_ok ticks → fenced (cr_liveness d) → lv_state (cr_liveness d) ≠ LS_BASELINE_PENDING →
  run ticks d = pre ++ e :: post →
  match e with
  | EvSafeRecovery _ => True
  | EvRestart reason => String.prefix NO_PROGRESS reason = true ∧ ∀ error, reason ≠ scrub error
  | _ => False
  end →
  3 ≤ Z.max 0 (lv_busy_attempts (cr_liveness d)) + Z.of_nat (length (filter is_busy pre)).
Proof.
  intros Ho Hf Hp E He. pose proof (run_good ticks (start false d) d) as Hc. rewrite E in Hc.
  apply checks_at in Hc as [Hg _]; [|by apply start_on_disk|done|done].
  change (Z.max 0 (lv_busy_attempts (cr_liveness d))) with (k_busy (start false d)). rewrite <-busy_counted.
  destruct e; try done; cbn in Hg; [tauto|]. destruct He as [He1 He2]. destruct (Hg He1) as [?|[error ?]]; [done|].
  by destruct (He2 error).
Qed.

(** C17. The prompt reaches the worker's pane only in a tick whose last provider
    observation admitted that very run: the evidence of that observation was of
    a provider observed and accepted, carried the id and the fingerprint of the
    head run the prompt goes to, which are also the ones the episode is bound
    to, and was the episode's first baseline or came from the very source its
    baseline was taken of, the answer saying exactly whether its cursor
    stands. *)
Theorem prompt_needs_admission t d pre head_run post :
  outside_ok t → fenced (cr_liveness d) → lv_state (cr_liveness d) ≠ LS_BASELINE_PENDING →
  tick_log t d = pre ++ EvResume head_run :: post →
  ∃ before answer e, last_observed pre = Some (before, head_run, VDict e, answer) ∧
    py_str_or (get e "state") = "observed" ∧ py_str_or (get e "admission") = "accepted" ∧
    (py_str_or (get e "head_run_id"), py_str_or (get e "head_run_fingerprint")) = head_run_binding digest head_run ∧
    head_run_binding digest head_run = (lv_run_id before, lv_fingerprint before) ∧
    (answer = "baseline" ∧ lv_baseline before = false ∨
     lv_baseline before = true ∧ str_take 80 (py_str_or (get e "source")) = lv_source before ∧
     str_take 64 (py_str_or (get e "source_fingerprint")) = lv_source_fingerprint before ∧
     (answer = "stalled" ↔ str_take 240 (py_str_or (get e "cursor")) = lv_cursor before)).
Proof.
  intros Ho Hf Hp E. pose proof (tick_good t (start false d) d) as Hc. rewrite E in Hc.
  specialize (Hc ltac:(by apply start_on_disk) Ho ltac:(done)). pose proof Hc as [Hpre _]%checks_app.
  apply checks_at in Hc as [Hg _]. destruct (admitted_last pre (start false d) None Hpre ltac:(done) head_run Hg)
    as (before & evidence & answer & El & Ha & e & -> & E1 & E2 & E3 & E4 & Hb).
  by exists before, answer, e.
Qed.

(** Progress read while a safe recovery's response window is open. *)
Definition window_progress (e : Event) : Prop :=
  match e with EvObserved before _ _ answer => lv_rung before = RR_RESPONSE_WINDOW ∧ answer = "progressed" | _ => False end.

Lemma clean_run k log :
  k_clean k = true → Forall (λ e, ¬ window_progress e) log → k_clean (nexts next k log) = true.
Proof.
  intros Hk Hf. revert k Hk. induction Hf as [|e log He Hf IH]; intros k Hk; [done|]. apply IH.
  destruct e; cbn; try done. case_match eqn:E; cbn; [|done]. apply String.eqb_eq in E as ->. rewrite Hk.
  rewrite bool_decide_eq_false_2; [done|]. intros Hr. by apply He.
Qed.

(** The other parts of the dispatcher leave a continuation well formed, and a
    verdict names no blank prerequisite. *)
Definition tick_wf (t : Tick) : Prop :=
  entry_wf (tk_entry t) ∧ ∀ r, ct_wf (cr_continuation r) → ct_wf (cr_continuation (tk_outside t r)).

Definition written_wf (e : Event) : Prop := saves_wf tt e.

Lemma disk_after_wf log d : ct_wf (cr_continuation d) → Forall written_wf log → ct_wf (cr_continuation (disk_after d log)).
Proof.
  intros Hd Hl. revert d Hd. induction Hl as [|e log He Hl IH]; intros d Hd; [done|]. apply IH. by destruct e.
Qed.

Lemma run_wf ticks d : Forall tick_wf ticks → ct_wf (cr_continuation d) → Forall written_wf (run ticks d).
Proof.
  intros Ht. revert d. induction Ht as [|t ticks [He Ho] Ht IH]; intros d Hd; [constructor|]. cbn [run].
  assert (Forall written_wf (tick_log t d)) as Hl; [|by apply Forall_app; split; [|apply IH, disk_after_wf]].
  unfold tick_log. destruct (reload_total float_of_text d) as (c & l & -> & _ & _ & Hc). rewrite (Hc Hd).
  set (r := tk_outside t _). assert (ct_wf (cr_continuation r)) as Hr by (by apply Ho). clearbody r.
  unfold production_tick.
  pose proof (wf_enter scrub digest (tk_world t) ref attempt (tk_entry t) He {| cs_record := r; cs_calls := 0 |}) as Hk.
  specialize (Hk ltac:(by split)). unfold accepted in Hk. destruct (enter _ _ _ _ _ _ _) as [[a s'] log]. destruct Hk as [Hk [Hs' _]].
  assert (Forall written_wf (log ++ [EvSaved (cs_record s')])) as Hall.
  { apply Forall_app. split; [|by constructor]. clear -Hk. induction log as [|e log IH]; constructor; [apply Hk|by apply IH, Hk]. }
  destruct (tk_cut t); [by apply Forall_take|done].
Qed.


End runs.

(** ** Completing a red transition more than once *)

Section red.
Context `{PyRepr} (scrub : string → string) (digest : pyval → string) (ref attempt : string).

(** What completing an open transition shows the board, a function of what the
    transition was opened with. *)
Definition red_actions (c : Continuation) : list Event :=
  (if nonempty (ct_decision c) then [] else [EvVerdict (ct_verdict_outcome c)]) ++
  [EvMove "in_progress" (ct_move_reason c) (ct_decision c) (transition_verdict (ct_verdict_outcome c))
     (attempt_request_id attempt (phase_of c +:+ "-red") ref (pretty (ct_report_baseline c)))].

(** The log of a sequence, one operation at a time. *)
Lemma log_ret {A B} (b : B) (f : B → LM A) s : ((mret b ≫= f) s).2 = (f b s).2.
Proof. unfold mbind, Prog_bind, mret, Prog_ret. by destruct (f b s) as [[? ?] ?]. Qed.

Lemma log_recd {A} (f : CRecord → LM A) s : ((recd ≫= f) s).2 = (f (cs_record s) s).2.
Proof. unfold mbind, Prog_bind, recd. by destruct (f _ s) as [[? ?] ?]. Qed.

Lemma log_emit {A} e (f : unit → LM A) s : ((emit e ≫= f) s).2 = e :: (f tt s).2.
Proof. unfold mbind, Prog_bind, emit. by destruct (f tt s) as [[? ?] ?]. Qed.

Lemma log_call {A B} (g : nat → B) (f : B → LM A) s :
  ((call g ≫= f) s).2 = (f (g (cs_calls s)) {| cs_record := cs_record s; cs_calls := S (cs_calls s) |}).2.
Proof. unfold mbind, Prog_bind, call. by destruct (f _ _) as [[? ?] ?]. Qed.

Lemma log_update {A} g (f : unit → LM A) s :
  ((update_rec g ≫= f) s).2 = (f tt {| cs_record := g (cs_record s); cs_calls := cs_calls s |}).2.
Proof. unfold mbind, Prog_bind, update_rec. by destruct (f tt _) as [[? ?] ?]. Qed.

Lemma log_save {A} (f : unit → LM A) s : ((save ≫= f) s).2 = EvSaved (cs_record s) :: (f tt s).2.
Proof. unfold save, emit, recd, mbind, Prog_bind. by destruct (f tt s) as [[? ?] ?]. Qed.

Lemma complete_red_shape W r n :
  ∃ r1 rest, (complete_red_transition scrub digest W ref attempt {| cs_record := r; cs_calls := n |}).2
    = red_actions (cr_continuation r) ++ EvSaved r1 :: rest ∧
  cr_continuation r1 = cr_continuation r ∧ cr_liveness r1 = cr_liveness r ∧
  cr_generation r1 = (if ct_reserved_generation (cr_continuation r) =? 0 then cr_generation r + 1
                      else ct_reserved_generation (cr_continuation r)) ∧
  cr_decision r1 = ct_decision_body (cr_continuation r) ∧ cr_prerequisites r1 = ct_prerequisites (cr_continuation r) ∧
  ct_report_baseline (cr_continuation r) ≤ cr_comment_baseline r1 ∧ cr_judged r1 = reset_judged (cr_judged r).
Proof.
  unfold complete_red_transition, red_actions. rewrite log_recd. cbv zeta. cbn [cs_record].
  destruct (nonempty (ct_decision (cr_continuation r))); cbn [app].
  all: rewrite ?log_ret, !log_emit, !log_call, log_update, log_save; do 2 eexists; (split; [reflexivity|]).
  all: cbn [cs_record]; cbn; split_and!; try done; lia.
Qed.

(** A red transition is performed once however often its completion is entered:
    the completion that finds the transition as the last one saved it moves the
    card by the same request, reports the same verdict, and opens the same
    round on the same instruction. *)
Theorem red_transition_replays W W' r n n' :
  ct_stage (cr_continuation r) = CS_RED_TRANSITION_PENDING → ct_reserved_generation (cr_continuation r) ≠ 0 →
  ∃ r1 rest r2 rest',
    (complete_red_transition scrub digest W ref attempt {| cs_record := r; cs_calls := n |}).2
      = red_actions (cr_continuation r) ++ EvSaved r1 :: rest ∧
    (complete_red_transition scrub digest W' ref attempt {| cs_record := r1; cs_calls := n' |}).2
      = red_actions (cr_continuation r) ++ EvSaved r2 :: rest' ∧
    ct_stage (cr_continuation r1) = CS_RED_TRANSITION_PENDING ∧
    cr_generation r1 = ct_reserved_generation (cr_continuation r) ∧ cr_generation r2 = cr_generation r1 ∧
    cr_decision r2 = cr_decision r1 ∧ cr_prerequisites r2 = cr_prerequisites r1.
Proof.
  intros Hst Hg. destruct (complete_red_shape W r n) as (r1 & rest & E1 & Hc & _ & G1 & D1 & P1 & _).
  destruct (complete_red_shape W' r1 n') as (r2 & rest' & E2 & _ & _ & G2 & D2 & P2 & _).
  rewrite (proj2 (Z.eqb_neq _ _) Hg) in *. rewrite Hc in *. rewrite (proj2 (Z.eqb_neq _ _) Hg) in G2.
  exists r1, rest, r2, rest'. split_and!; congruence.
Qed.

(** A launch intent that could not be written is taken back, and the record is
    the one before it but for one field: the attested run stays in place of the
    worker's. *)
Theorem failed_intent_keeps_attested_run W action round s run error :
  w_preflight W (S (cs_calls s)) = Some (inl run) → w_storage W (4 + cs_calls s)%nat = Some error →
  write_relaunch_intent W action round s =
    (Ok (Some error), {| cs_record := (cs_record s) <| cr_head_run := run |>; cs_calls := (5 + cs_calls s)%nat |}, []).
Proof.
  intros Hp Hs. destruct s as [r n]. cbn [cs_calls cs_record] in *.
  unfold write_relaunch_intent, mbind, Prog_bind, recd, call. cbn [cs_record cs_calls]. rewrite Hp.
  unfold mbind, Prog_bind, update_rec. cbn [cs_record cs_calls]. change (S (S (S (S n)))) with (4 + n)%nat. rewrite Hs.
  unfold mret, Prog_ret. cbn. by destruct r.
Qed.

End red.
