(* ===== verification/Pause.v ===== *)
(** * The production pause (dispatch/pause.py)

    The two modes and their spellings, the flag file with its payload, the expiry
    of a freeze that automation set, and the legacy flag a pause mirrors itself
    into.  The flag file is the JSON value of its text.  The environment is a
    function, [home] the home directory; the calendar is [IsoTime], and the
    instant of a text it reads without a zone, or out of range in UTC, is a
    parameter. *)

From Stdlib Require Import Ascii.
From S2P Require Import Prelude PyText PyStrings IsoTime HeadVitality WaitCard.

Inductive PauseMode := DRAIN | FREEZE.
#[export] Instance PauseMode_eq : EqDecision PauseMode. Proof. solve_decision. Defined.
#[export, refine] Instance PauseMode_enum : StrEnum PauseMode := {|
  enum_value m := match m with DRAIN => "drain" | FREEZE => "freeze" end;
  enum_members := [DRAIN; FREEZE] |}.
Proof. - intros []; set_solver. - by intros [] []. Defined.

Definition AUTO_RESUME_TTL_DEFAULT : Z := 2700.
Definition AUTO_RESUME_ACTORS_DEFAULT : string := "pipeline,ummanu-backup,ummanu,steward,curator,retro".
Definition PAUSE_MODE_ALIASES : list (string * PauseMode) :=
  [("drain", DRAIN); ("soft", DRAIN); ("freeze", FREEZE); ("hard", FREEZE)].
Definition LEGACY_MODE (m : PauseMode) : string := match m with DRAIN => "soft" | FREEZE => "hard" end.

(** ** Path texts *)

(** [str(Path(s))] on a POSIX host. *)
Definition path_root (s : string) : string :=
  if String.prefix "//" s && negb (String.prefix "///" s) then "//" else if String.prefix "/" s then "/" else "".

Definition path_parts (s : string) : list string :=
  List.filter (λ p, nonempty p && negb (String.eqb p ".")) (str_split "/"%char s).

Definition path_text (s : string) : string :=
  let t := path_root s +:+ String.concat "/" (path_parts s) in if nonempty t then t else ".".

(** [str(Path(s) / t)], [t] a relative text. *)
Definition path_join (s t : string) : string := path_text (s +:+ "/" +:+ t).

(** ** Instants *)

(** [datetime.timestamp()], correctly rounded: half to even. *)
Definition round_half_even (n d : Z) : Z :=
  let q := n / d in
  let r := 2 * (n mod d) in
  if r <? d then q else if d <? r then q + 1 else if Z.even q then q else q + 1.

Definition timestamp (t : Z) : Z := round_half_even (t * SECOND) MICRO.

Section pause.
Context `{PyRepr, IsoTime} (env : string → option string) (home : string) (utc_instant : string → Z).

Definition normalize_pause_mode (mode : pyval) : option PauseMode :=
  dict_get PAUSE_MODE_ALIASES (str_lower (str_strip (py_str_or mode))).

Definition mode_text (m : option PauseMode) : string := match m with Some m => enum_value m | None => "" end.

Definition auto_resume_ttl_seconds : Z :=
  let ttl := match env "TA_HARD_PAUSE_AUTO_RESUME_TTL_S" with
             | Some s => match py_int (VStr s) with Ok n => n | Raise _ => AUTO_RESUME_TTL_DEFAULT end
             | None => AUTO_RESUME_TTL_DEFAULT
             end in
  Z.max 0 ttl.

Definition auto_resume_actors : list string :=
  comma_parts (default AUTO_RESUME_ACTORS_DEFAULT (env "TA_HARD_PAUSE_AUTO_RESUME_ACTORS")).

Definition parse_since (value : pyval) : option Z :=
  match value with
  | VStr s =>
      let text := str_strip s in
      if negb (nonempty text) then None
      else
        let text := if str_ends_with text "Z" then str_take (String.length text - 1) text +:+ "+00:00" else text in
        match fromisoformat text with
        | IsoBad => None
        | IsoAware t => Some (timestamp t)
        | IsoNaive | IsoFar => Some (timestamp (utc_instant text))
        end
  | _ => None
  end.

Record AutoResumeStatus := {
  ar_eligible : bool;
  ar_ttl_seconds : Z;
  ar_reason : string;
  ar_actor : option string;
  ar_age_seconds : option Z;
}.

Definition auto_resume_status (state : Fields) (now : Z) : AutoResumeStatus :=
  let ttl := auto_resume_ttl_seconds in
  let answer eligible reason actor age := {| ar_eligible := eligible; ar_ttl_seconds := ttl; ar_reason := reason;
                                             ar_actor := actor; ar_age_seconds := age |} in
  if negb (bool_decide (normalize_pause_mode (get state "mode") = Some FREEZE)) then answer false "not-freeze" None None
  else if ttl <=? 0 then answer false "disabled" None None
  else
    let actor := str_strip (py_str_or (get state "actor")) in
    if negb (bool_decide (actor ∈ auto_resume_actors)) then answer false "manual-or-unknown-actor" (Some actor) None
    else match parse_since (get state "since") with
         | None => answer true "missing-or-invalid-since" (Some actor) None
         | Some since =>
             let age := Z.max 0 (whole_seconds (now - since)) in
             if age <? ttl then answer false "fresh" (Some actor) (Some age)
             else answer true "stale-automation-freeze" (Some actor) (Some age)
         end.

(** ** The flag file *)

Inductive FlagFile := NoFlag | BadFlag | Flag (v : pyval).

Definition CORRUPT : Fields := [("corrupt", VBool true); ("mode", VStr (enum_value FREEZE))].

Definition load_pause (file : FlagFile) : Fields :=
  match file with
  | NoFlag => []
  | BadFlag => CORRUPT
  | Flag (VDict payload) => payload
  | Flag _ => CORRUPT
  end.

Definition pause_mode (file : FlagFile) : option PauseMode := normalize_pause_mode (get (load_pause file) "mode").

(** [list(value or [])]. *)
Definition list_or_empty (v : pyval) : res (list pyval) := if py_truthy v then py_iter v else Ok [].

Record PauseSummary := {
  sm_paused : bool; sm_mode : string; sm_warned : bool; sm_auto_resume : option AutoResumeStatus;
  sm_since : string; sm_actor : string; sm_reason : string;
  sm_stopped_worker : list pyval; sm_stopped_reviewer : list pyval; sm_stopped_observer : list pyval;
  sm_excluded_worker : list pyval;
}.

Definition pause_summary (file : FlagFile) (now : Z) : res PauseSummary :=
  let state := load_pause file in
  let mode := normalize_pause_mode (get state "mode") in
  let warned := py_truthy (get state "corrupt") in
  match mode with
  | None => Ok {| sm_paused := false; sm_mode := ""; sm_warned := warned; sm_auto_resume := None;
                  sm_since := ""; sm_actor := ""; sm_reason := ""; sm_stopped_worker := []; sm_stopped_reviewer := [];
                  sm_stopped_observer := []; sm_excluded_worker := [] |}
  | Some m =>
      workers ← list_or_empty (get state "stopped_worker");
      reviewers ← list_or_empty (get state "stopped_reviewer");
      observers ← list_or_empty (get state "stopped_observer");
      excluded ← list_or_empty (get state "excluded_worker");
      Ok {| sm_paused := true; sm_mode := enum_value m; sm_warned := warned;
            sm_auto_resume := Some (auto_resume_status state now); sm_since := py_str_or (get state "since");
            sm_actor := py_str_or (get state "actor"); sm_reason := py_str_or (get state "reason");
            sm_stopped_worker := workers; sm_stopped_reviewer := reviewers; sm_stopped_observer := observers;
            sm_excluded_worker := excluded |}
  end.

Definition str_list (l : list string) : pyval := VList (VStr <$> sort_strings l).

Definition pause_payload (mode : PauseMode) (actor reason since : string)
    (stopped_worker stopped_reviewer stopped_observer excluded_worker : list string) (legacy_mirror : Fields) : Fields := [
  ("version", VInt 1); ("mode", VStr (enum_value mode)); ("since", VStr since); ("actor", VStr actor); ("reason", VStr reason);
  ("stopped_worker", str_list stopped_worker); ("stopped_reviewer", str_list stopped_reviewer);
  ("stopped_observer", str_list stopped_observer); ("excluded_worker", str_list excluded_worker);
  ("legacy_mirror", VDict legacy_mirror)].

Definition on_resume_text (mode : option PauseMode) (stopped_worker stopped_reviewer : list pyval) : string :=
  match mode with
  | Some FREEZE =>
      "resume clears the freeze, relaunches " +:+ pretty (length stopped_worker) +:+ " stopped worker head(s) and "
      +:+ pretty (length stopped_reviewer) +:+ " stopped reviewer head(s) in their existing workspaces, gives "
      +:+ "every wait watchdog a fresh window, and lets the next tick bring the stopped sprint observers back"
  | Some DRAIN =>
      "resume clears the drain and lets the tick claim Ready cards again; cards already in flight kept running through the pause"
  | None => "not paused, resume is a no-op"
  end.

(** ** The legacy flag *)

Definition legacy_mirror_path : string :=
  match env "UMMANU_LEGACY_PAUSE_FILE" with
  | Some ((String _ _) as p) => path_text p
  | _ =>
      let dir name := match env name with Some ((String _ _) as p) => Some (path_join p "pause.json") | _ => None end in
      match dir "UMMANU_LEGACY_PIPELINE_STATE_DIR", dir "TA_PIPELINE_STATE_DIR" with
      | Some p, _ => p
      | None, Some p => p
      | None, None =>
          let root := match env "TA_WORKSPACES_ROOT" with
                      | Some ((String _ _) as p) => p
                      | _ => path_join home "orca/workspaces"
                      end in
          path_join root "ummanu/pipeline/state/pipeline/pause.json"
      end
  end.

(** The legacy flags on disk, by path. *)
Definition Mirrors : Type := list (string * Fields).

(** The receipt's fields; [refusal] is what the file system raised, if it did. *)
Definition write_legacy_mirror (files : Mirrors) (mode : PauseMode) (actor reason since : string) (refusal : option string)
    : Mirrors * Fields :=
  let path := legacy_mirror_path in
  let out := [("path", VStr path); ("written", VBool false)] in
  if dict_has files path then
    (files, dict_set out "reason" (VStr "a legacy pause file already exists and is left untouched"))
  else match refusal with
       | Some e => (files, dict_set out "reason" (VStr ("legacy mirror could not be written: " +:+ e)))
       | None =>
           (dict_set files path
              [("mode", VStr (LEGACY_MODE mode)); ("since", VStr since); ("reason", VStr reason); ("actor", VStr actor);
               ("stopped_worker", VList []); ("stopped_reviewer", VList []); ("excluded_worker", VList [])],
            dict_set out "written" (VBool true))
       end.

Definition clear_legacy_mirror (files : Mirrors) (state : Fields) (refusal : option string) : res (Mirrors * Fields) :=
  mirror ← (if py_truthy (get state "legacy_mirror") then
              match get state "legacy_mirror" with
              | VDict d => Ok d
              | _ => Raise (Exn "AttributeError" "object has no attribute 'get'")
              end
            else Ok []);
  let path := py_str_or (get mirror "path") in
  let kept reason := [("path", VStr path); ("cleared", VBool false); ("reason", VStr reason)] in
  Ok (if negb (py_truthy (get mirror "written")) || negb (nonempty path) then
        (files, kept "no legacy mirror was written by this pause")
      else
        match refusal with
        | Some e => (files, kept ("legacy mirror could not be removed: " +:+ e))
        | None =>
            if dict_has files (path_text path)
            then (dict_del files (path_text path), [("path", VStr path); ("cleared", VBool true)])
            else (files, kept "legacy mirror is already gone")
        end).
End pause.
