(* ===== verification/PauseOps.v ===== *)
(** * Pause and resume (dispatch/pause_ops.py)

    The operator's commands as programs over the dispatcher's records, with the
    log of what they did to the world: the saves, the flag, the heads stopped and
    brought up.  Each runs under the tick lock, so it is given the flag and the
    records as they are on disk.  Of dispatch/launch.py and dispatch/review.py:
    the functions on a record these commands call.

    The host, the clock, the board and the storage answer through a [World]
    indexed by the number of the call.  Not modelled: the bring-up of a reviewer,
    which a [World] answers by what it leaves of the reviewer's fields; head runs,
    policy and routing snapshots on a record, and the first round a routing opens;
    the observers' own records; the rendering of the state afterwards, but for
    whether it refuses.  A stop the host answers without a refusal is confirmed. *)

From S2P Require Import Prelude PyText Program PyStrings IsoTime HeadVitality WorkerLifecycle TerminalTaxonomy WaitCard Pause.

Definition WORKER_ROLE : string := "worker".
Definition REVIEW_ROLE : string := "review".

(** ** The record *)

(** The fields of [DispatcherRecord] these commands read or write. *)
Record PRecord := {
  pr_state : string;
  pr_workspace : string;
  pr_head : string;
  pr_attempt_id : string;
  pr_round : Z;
  pr_comment_baseline : Z;
  pr_review_baseline : Z;
  pr_respawns : Z;
  pr_handle : string;
  pr_leaf : string;
  pr_pid_file : string;
  pr_review_handle : string;
  pr_review_leaf : string;
  pr_review_pid_file : string;
  pr_review_commit : string;
  pr_intent : Fields;
  pr_settled : bool;
  pr_continuation : Continuation;
  pr_paused_worker_at : Z;
  pr_paused_reviewer_at : Z;
  pr_worker_started_at : Z;
  pr_worker_waiting_since : Z;
  pr_worker_progress_at : Z;
  pr_worker_idle_since : Z;
  pr_review_waiting_since : Z;
  pr_review_progress_at : Z;
  pr_review_idle_since : Z;
  pr_gate_pending_since : Z;
}.

#[global] Instance PRecord_eta : Settable PRecord := λ r,
  Build_PRecord (pr_state r) (pr_workspace r) (pr_head r) (pr_attempt_id r) (pr_round r) (pr_comment_baseline r)
    (pr_review_baseline r) (pr_respawns r) (pr_handle r) (pr_leaf r) (pr_pid_file r) (pr_review_handle r)
    (pr_review_leaf r) (pr_review_pid_file r) (pr_review_commit r) (pr_intent r) (pr_settled r) (pr_continuation r)
    (pr_paused_worker_at r) (pr_paused_reviewer_at r) (pr_worker_started_at r) (pr_worker_waiting_since r)
    (pr_worker_progress_at r) (pr_worker_idle_since r) (pr_review_waiting_since r) (pr_review_progress_at r)
    (pr_review_idle_since r) (pr_gate_pending_since r).

Definition Records : Type := list (string * PRecord).

(** ** Launch intents (dispatch/launch.py) *)

Definition launch_intent (r : PRecord) : Fields := if py_truthy (get (pr_intent r) "role") then pr_intent r else [].

Definition has_intent (r : PRecord) : bool := match launch_intent r with [] => false | _ => true end.

Definition forget_worker (r : PRecord) : PRecord :=
  r <| pr_handle := "" |> <| pr_leaf := "" |> <| pr_pid_file := "" |> <| pr_continuation := drop_session (pr_continuation r) |>.

Definition forget_review (r : PRecord) : PRecord :=
  r <| pr_review_handle := "" |> <| pr_review_leaf := "" |> <| pr_review_pid_file := "" |>.

Section role_pointers.
Context `{PyRepr}.

Definition clear_launch_intent (r : PRecord) : PRecord :=
  let role := py_str_or (get (launch_intent r) "role") in
  let pid_file := py_str_or (get (launch_intent r) "pid_file") in
  let r' := if nonempty role && nonempty pid_file
            then if String.eqb role REVIEW_ROLE then r <| pr_review_pid_file := pid_file |> else r <| pr_pid_file := pid_file |>
            else r in
  r' <| pr_intent := [] |>.

(** The launch's own identity, on the record. *)
Definition remember_launch_identity (intent : Fields) (role : string) (r : PRecord) : PRecord :=
  let pid_file := py_str_or (get intent "pid_file") in
  let handle := py_str_or (get intent "handle") in
  let leaf := py_str_or (get intent "leaf") in
  let or_ a b := if nonempty a then a else b in
  let r := r <| pr_workspace := or_ (pr_workspace r) (py_str_or (get intent "workspace")) |> in
  if String.eqb role REVIEW_ROLE then
    let r := if nonempty pid_file then r <| pr_review_pid_file := pid_file |> else r in
    r <| pr_review_handle := or_ (pr_review_handle r) handle |> <| pr_review_leaf := or_ (pr_review_leaf r) leaf |>
  else
    let r := if nonempty pid_file then r <| pr_pid_file := pid_file |> else r in
    r <| pr_handle := or_ (pr_handle r) handle |> <| pr_leaf := or_ (pr_leaf r) leaf |>.
End role_pointers.

(** ** What a command leaves behind *)

Inductive Event :=
| EvSaved (records : Records) (payload : Fields)     (** [production_state.save] *)
| EvFlag (file : FlagFile)                           (** the pause flag, written or removed *)
| EvMirrors (files : Mirrors)                        (** the legacy flag *)
| EvStopped (ref : string) (worker : bool)           (** a stop the host confirmed *)
| EvLaunched (ref : string) (runs : bool)            (** [host.restart_worker]; whether a head now runs *)
| EvReview (ref : string).                           (** [start_review] *)

Record Heartbeat := { hb_mismatch : bool; hb_known : bool }.

(** What the start of a reviewer leaves: its status and the reviewer's fields. *)
Record ReviewStart := {
  rv_raises : option exn; rv_status : string; rv_state : string; rv_handle : string; rv_leaf : string;
  rv_pid_file : string; rv_intent : option Fields; rv_saved : bool;
}.

Inductive Restart :=
| Launched (handle leaf : string)
| Aborted (handle leaf : string) (runs : bool)       (** [HeadLaunchAborted] *)
| Refused (heartbeat runs : bool).                   (** any other exception; [launch_left_a_head], and
                                                         whether a head runs, which the code cannot see *)

Record World := {
  w_clock : nat → Z;
  w_now : nat → string;
  w_storage : nat → option exn;                      (** a save that refuses *)
  w_flush : nat → bool;                              (** the host committed the records, before or after a stop *)
  w_stop : nat → option string;                      (** the refusal *)
  w_heartbeat : nat → Heartbeat;
  w_freeze_observers : nat → Fields → Fields * (list string * list string);
  w_resume_observers : nat → Fields → Fields * list string;
  w_show : nat → option Fields;                      (** the card, or a [TaskError] *)
  w_review : nat → ReviewStart;
  w_uuid : nat → string;
  w_preflight : nat → option string;                 (** the refusal *)
  w_restart : nat → Restart;
  w_persist : nat → bool;                            (** a quiet save took *)
  w_handoff : nat → option exn;                      (** [_canonical_launch_head_run] refuses *)
  w_routing : nat → option exn;
  w_mirror : nat → option string;
  w_render : nat → option exn;
}.

Record PState := { ps_records : Records; ps_payload : Fields; ps_calls : nat }.

#[global] Instance PState_eta : Settable PState := λ s, Build_PState (ps_records s) (ps_payload s) (ps_calls s).

Notation PM := (Prog PState Event).

Definition call {A} (f : nat → A) : PM A := λ s, (Ok (f (ps_calls s)), s <| ps_calls := S (ps_calls s) |>, []).
Definition the_state : PM PState := λ s, (Ok s, s, []).
Definition modify (f : PState → PState) : PM unit := λ s, (Ok tt, f s, []).

Definition on_record (ref : string) (f : PRecord → PRecord) : PM unit :=
  modify (λ s, match dict_get (ps_records s) ref with
               | Some r => s <| ps_records := dict_set (ps_records s) ref (f r) |>
               | None => s
               end).

(** The record of a reference the program iterates over. *)
Definition with_record {A} (ref : string) (absent : PM A) (f : PRecord → PM A) : PM A :=
  s ← the_state; match dict_get (ps_records s) ref with Some r => f r | None => absent end.

Section ops.
Context `{PyRepr, IsoTime} (env : string → option string) (home : string) (utc_instant : string → Z)
  (abspath expanduser : string → string) (pid_file_path : string → string → string) (W : World).

(** [production_state.put_records] and [save]. *)
Definition save : PM unit :=
  refusal ← call (w_storage W);
  match refusal with
  | Some e => lift (Raise e)
  | None => s ← the_state; emit (EvSaved (ps_records s) (ps_payload s))
  end.

Definition quiet_save : PM unit :=
  took ← call (w_persist W);
  if took : bool then s ← the_state; emit (EvSaved (ps_records s) (ps_payload s)) else mret tt.

(** ** Stopping *)

(** [host.stop_head] and [host.stop_review]: whether the stop is confirmed. *)
Definition stop_pane (ref : string) (worker : bool) : PM bool :=
  flush ← call (w_flush W);
  (if flush : bool then save else mret tt) ≫= λ _,
  refusal ← call (w_stop W);
  match refusal with
  | Some _ => mret false
  | None =>
      emit (EvStopped ref worker) ≫= λ _,
      settled ← call (w_flush W);
      (if settled : bool then save else mret tt) ≫= λ _, mret true
  end.

Definition end_review_pane (ref : string) : PM bool :=
  gone ← stop_pane ref false;
  if gone : bool then on_record ref (λ r, forget_review r <| pr_review_commit := "" |>) ≫= λ _, mret true else mret false.

Definition stop_worker (ref : string) : PM bool :=
  gone ← stop_pane ref true;
  if gone : bool then on_record ref forget_worker ≫= λ _, mret true else mret false.

(** [host.stop_workspace]: whoever runs there. *)
Definition stop_workspace (ref : string) : PM bool :=
  refusal ← call (w_stop W);
  match refusal with
  | Some _ => mret false
  | None =>
      emit (EvStopped ref true) ≫= λ _, emit (EvStopped ref false) ≫= λ _,
      on_record ref (λ r, forget_review (forget_worker r)) ≫= λ _, mret true
  end.

(** [launch.stop_launch_intent]: whether what the launch left is gone. *)
Definition stop_launch_intent (ref : string) (intent : Fields) (role : string) : PM bool :=
  on_record ref (remember_launch_identity intent role) ≫= λ _,
  with_record ref (mret false) (λ r,
  let reviewer := String.eqb role REVIEW_ROLE in
  heartbeat ← call (w_heartbeat W);
  if hb_mismatch heartbeat then mret false
  else
    let pane := if reviewer then nonempty (pr_review_handle r) || nonempty (pr_review_leaf r)
                else nonempty (pr_handle r) || nonempty (pr_leaf r) in
    let named := pane || hb_known heartbeat in
    gone ← (if named then if reviewer then end_review_pane ref else stop_worker ref else stop_workspace ref);
    if gone : bool then on_record ref (λ r, r <| pr_intent := [] |>) ≫= λ _, mret true else mret false).

(** [launch.keep_reserved_round], with [runtime.open_worker_round]. *)
Definition keep_reserved_round (ref : string) (intent : Fields) : PM unit :=
  if String.eqb (py_str_or (get intent "role")) REVIEW_ROLE then mret tt
  else
    reserved ← lift (py_int_or (get intent "round"));
    on_record ref (λ r,
      if negb (py_truthy (get intent "opens_round")) || (reserved =? 0) || (pr_round r =? reserved) then r
      else r <| pr_round := reserved |> <| pr_state := "claimed" |>).

(** What a turn of the freeze marks: workers, reviewers and excluded cards. *)
Definition Marks : Type := list string * list string * list string.

Definition stop_intent_of (ref : string) (now : Z) (intent : Fields) : PM (option Marks) :=
  match intent with
  | [] => mret (Some ([], [], []))
  | _ =>
      let role := if py_truthy (get intent "role") then py_str (get intent "role") else WORKER_ROLE in
      gone ← stop_launch_intent ref intent role;
      if gone : bool then
        keep_reserved_round ref intent ≫= λ _,
        if String.eqb role REVIEW_ROLE
        then on_record ref (λ r, r <| pr_paused_reviewer_at := now |>) ≫= λ _, mret (Some ([], [ref], []))
        else on_record ref (λ r, r <| pr_paused_worker_at := now |>) ≫= λ _, mret (Some ([ref], [], []))
      else mret None
  end.

(** A turn of the loop of [_freeze_heads]. *)
Definition freeze_head (excluded_paths : list string) (now : Z) (ref : string) : PM Marks :=
  with_record ref (mret ([], [], [])) (λ r,
  if nonempty (pr_workspace r) && bool_decide (abspath (pr_workspace r) ∈ excluded_paths) then mret ([], [], [ref])
  else
    first ← stop_intent_of ref now (launch_intent r);
    match first with
    | None => mret ([], [], [])
    | Some (workers, reviewers, _) =>
        with_record ref (mret (workers, reviewers, [])) (λ r,
        reviewed ← (if nonempty (pr_review_handle r) || nonempty (pr_review_leaf r) || nonempty (pr_review_pid_file r) then
                      gone ← end_review_pane ref;
                      if gone : bool
                      then on_record ref (λ r, r <| pr_paused_reviewer_at := now |>) ≫= λ _, mret (Some [ref])
                      else mret None
                    else mret (Some []));
        match reviewed with
        | None => mret (workers, reviewers, [])
        | Some more =>
            let reviewers := reviewers ++ more in
            if nonempty (pr_handle r) || nonempty (pr_leaf r) || nonempty (pr_pid_file r) then
              gone ← stop_worker ref;
              if gone : bool
              then on_record ref (λ r, r <| pr_paused_worker_at := now |>) ≫= λ _, mret (workers ++ [ref], reviewers, [])
              else mret (workers, reviewers, [])
            else mret (workers, reviewers, [])
        end)
    end).

Fixpoint freeze_loop (excluded_paths : list string) (now : Z) (refs : list string) : PM Marks :=
  match refs with
  | [] => mret ([], [], [])
  | ref :: refs' =>
      a ← freeze_head excluded_paths now ref;
      b ← freeze_loop excluded_paths now refs';
      mret (a.1.1 ++ b.1.1, a.1.2 ++ b.1.2, a.2 ++ b.2)
  end.

Definition freeze_heads (excluded_paths : list string) : PM Marks :=
  now ← call (w_clock W);
  s ← the_state;
  freeze_loop excluded_paths now (sort_strings (ps_records s).*1).

(** ** Pause *)

Inductive Action := APaused | ANoop | AResumed (mode : PauseMode).

(** The decision made under the lock; [cause] is the rendering's refusal, which
    it travels with. *)
Record CommandAnswer := { ca_action : Action; ca_warnings : list string; ca_cause : option exn }.

Definition with_status (action : Action) (warnings : list string) : PM CommandAnswer :=
  refusal ← call (w_render W); mret {| ca_action := action; ca_warnings := warnings; ca_cause := refusal |}.

Definition DispatcherError (code message : string) : exn := Exn "DispatcherError" (code +:+ ": " +:+ message).

Definition state_unreadable (payload : Fields) : bool := String.eqb (py_str_or (get payload "phase")) "unavailable".

Definition excluded_of (exclude : list string) : list string := abspath ∘ expanduser <$> List.filter nonempty exclude.

(** The part of a pause that stops the heads. *)
Definition freeze_all (actor reason : string) (exclude : list string) : PM (Marks * list string * list string) :=
  s ← the_state;
  if state_unreadable (ps_payload s) then
    mret (([], [], []), [], ["production state is unreadable: the flag is set but no head was stopped"])
  else
    marks ← freeze_heads (excluded_of exclude);
    stops ← call (w_freeze_observers W);
    let '(payload, (stopped, failed)) := stops (ps_payload s) in
    modify (λ s, s <| ps_payload := payload |>) ≫= λ _,
    save ≫= λ _,
    mret (marks, stopped, match failed with
                          | [] => []
                          | _ => ["observer heads could not be stopped and are retried by the next tick: "
                                  +:+ String.concat ", " failed]
                          end).

Definition pause (flag : FlagFile) (mirrors : Mirrors) (mode : pyval) (actor reason : string) (exclude : list string)
    : PM CommandAnswer :=
  match normalize_pause_mode mode with
  | None => lift (Raise (DispatcherError "validation" ("unknown pause mode " +:+ val_repr mode +:+ " (one of drain, freeze)")))
  | Some resolved =>
      let actor := str_strip actor in
      let reason := str_strip reason in
      if negb (nonempty actor) then lift (Raise (DispatcherError "validation" "pause requires a non-empty actor"))
      else if negb (nonempty reason) then lift (Raise (DispatcherError "validation" "pause requires a non-empty reason"))
      else
        match pause_mode flag with
        | Some current =>
            if bool_decide (current = resolved) then with_status ANoop []
            else lift (Raise (DispatcherError "pause_conflict" ("pipeline is already paused (" +:+ enum_value current
                         +:+ "), resume before pausing " +:+ enum_value resolved)))
        | None =>
            since ← call (w_now W);
            stops ← (if bool_decide (resolved = FREEZE) then freeze_all actor reason exclude
                     else mret (([], [], []), [], []));
            let '((workers, reviewers, excluded), observers, warnings) := stops in
            refusal ← call (w_mirror W);
            let '(mirrors', receipt) := write_legacy_mirror env home mirrors resolved actor reason since refusal in
            emit (EvMirrors mirrors') ≫= λ _,
            emit (EvFlag (Flag (VDict (pause_payload resolved actor reason since workers reviewers observers excluded receipt)))) ≫= λ _,
            with_status APaused warnings
        end
  end.

(** ** Resume *)

Inductive Bucket := Relaunched | Parked | Skipped.

(** [_last_marker]: the last comment from the baseline on with one of the markers. *)
Fixpoint last_marker_of (comments : list pyval) (markers : list string) (found : option string) : res (option string) :=
  match comments with
  | [] => Ok found
  | VDict d :: comments' =>
      _ ← require (negb (unhashable (get d "marker"))) (Exn "TypeError" "unhashable type");
      last_marker_of comments' markers
        (match get d "marker" with VStr m => if bool_decide (m ∈ markers) then Some m else found | _ => found end)
  | _ :: _ => Raise (Exn "AttributeError" "object has no attribute 'get'")
  end.

Definition last_marker (task : Fields) (baseline : Z) (markers : list string) : res (option string) :=
  comments ← list_or_empty (get task "comments");
  let n := Z.of_nat (length comments) in
  last_marker_of (drop (Z.to_nat (if baseline <? 0 then Z.max 0 (n + baseline) else baseline)) comments) markers None.

Definition WORKER_MARKERS : list string := ["report:done"; "report:blocked"].
Definition REVIEW_MARKERS : list string := ["review:green"; "review:red"].

Definition apply_review (a : ReviewStart) (r : PRecord) : PRecord :=
  r <| pr_state := rv_state a |> <| pr_review_handle := rv_handle a |> <| pr_review_leaf := rv_leaf a |>
    <| pr_review_pid_file := rv_pid_file a |>
    <| pr_intent := match rv_intent a with Some i => dict_set i "role" (VStr REVIEW_ROLE) | None => [] end |>.

Definition start_review (ref : string) : PM string :=
  a ← call (w_review W);
  emit (EvReview ref) ≫= λ _,
  on_record ref (apply_review a) ≫= λ _,
  (if rv_saved a then save else mret tt) ≫= λ _,
  match rv_raises a with Some e => lift (Raise e) | None => mret (rv_status a) end.

Definition resume_reviewer (ref : string) : PM Bucket :=
  with_record ref (mret Skipped) (λ r,
  if nonempty (pr_review_handle r) || nonempty (pr_review_leaf r) || has_intent r then mret Parked
  else
    on_record ref (λ r, r <| pr_paused_reviewer_at := 0 |>) ≫= λ _,
    task ← call (w_show W);
    match task with
    | None => mret Skipped
    | Some task =>
        if negb (equals (get task "state") "validate") then mret Skipped
        else
          marker ← lift (last_marker task (pr_review_baseline r) REVIEW_MARKERS);
          match marker with
          | Some _ => mret Parked
          | None => status ← start_review ref; mret (if String.eqb status "ok" then Relaunched else Skipped)
          end
    end).

(** [launch.write_launch_intent] of the resumed worker: whether it is on disk. *)
Definition write_worker_intent (ref : string) (r : PRecord) : PM bool :=
  run_id ← call (w_uuid W);
  refusal ← call (w_preflight W);
  match refusal with
  | Some _ => mret false
  | None =>
      at_ ← call (w_clock W);
      let intent : Fields := [
        ("role", VStr WORKER_ROLE); ("action", VStr "worker-resume"); ("head", VStr (pr_head r));
        ("workspace", VStr (pr_workspace r)); ("pid_file", VStr (pid_file_path WORKER_ROLE ref)); ("run_id", VStr run_id);
        ("task", VStr ("card:" +:+ ref)); ("attempt_id", VStr (pr_attempt_id r)); ("round", VInt (pr_round r));
        ("opens_round", VBool false); ("respawns", VInt (pr_respawns r)); ("at", VFloat (FFin at_))] in
      on_record ref (λ r, r <| pr_settled := false |> <| pr_intent := intent |>) ≫= λ _,
      failure ← call (w_storage W);
      match failure with
      | Some _ => on_record ref (λ r', r' <| pr_settled := pr_settled r |> <| pr_intent := pr_intent r |>) ≫= λ _, mret false
      | None => s ← the_state; emit (EvSaved (ps_records s) (ps_payload s)) ≫= λ _, mret true
      end
  end.

(** [launch.confirm_launch_intent] and [mark_launch_aborted], of the fields modelled. *)
Definition mark_fields (handle leaf key : string) (intent : Fields) : Fields :=
  let intent := if nonempty handle then dict_set intent "handle" (VStr handle) else intent in
  let intent := if nonempty leaf then dict_set intent "leaf" (VStr leaf) else intent in
  dict_set intent key (VBool true).

Definition mark_intent (handle leaf key : string) (r : PRecord) : PRecord :=
  if has_intent r then r <| pr_intent := mark_fields handle leaf key (launch_intent r) |> else r.

Definition finish_launch (ref handle leaf : string) : PM Bucket :=
  mismatch ← call (w_handoff W);
  match mismatch with
  | Some e => lift (Raise e)
  | None =>
      on_record ref (mark_intent handle leaf "launched") ≫= λ _,
      quiet_save ≫= λ _,
      on_record ref (λ r, clear_launch_intent (r <| pr_handle := handle |> <| pr_leaf := leaf |>) <| pr_state := "claimed" |>) ≫= λ _,
      refusal ← call (w_routing W);
      match refusal with
      | Some e => lift (Raise e)
      | None =>
          now ← call (w_clock W);
          on_record ref (λ r, r <| pr_worker_started_at := now |> <| pr_worker_progress_at := now |>) ≫= λ _,
          mret Relaunched
      end
  end.

Definition restart_worker (ref : string) : PM Bucket :=
  answer ← call (w_restart W);
  match answer with
  | Launched handle leaf => emit (EvLaunched ref true) ≫= λ _, finish_launch ref handle leaf
  | Aborted handle leaf runs =>
      emit (EvLaunched ref runs) ≫= λ _,
      on_record ref (mark_intent handle leaf "aborted") ≫= λ _, quiet_save ≫= λ _, mret Skipped
  | Refused true runs =>
      emit (EvLaunched ref runs) ≫= λ _,
      on_record ref (mark_intent "" "" "aborted") ≫= λ _, quiet_save ≫= λ _, mret Skipped
  | Refused false runs =>
      emit (EvLaunched ref runs) ≫= λ _,
      on_record ref (λ r, clear_launch_intent r <| pr_handle := "" |> <| pr_leaf := "" |>) ≫= λ _, mret Skipped
  end.

Definition resume_worker (ref : string) : PM Bucket :=
  with_record ref (mret Skipped) (λ r,
  if nonempty (pr_handle r) || nonempty (pr_leaf r) || has_intent r then mret Parked
  else
    on_record ref (λ r, r <| pr_paused_worker_at := 0 |>) ≫= λ _,
    task ← call (w_show W);
    match task with
    | None => mret Parked
    | Some task =>
        if negb (equals (get task "state") "in_progress") || negb (nonempty (pr_workspace r)) then mret Parked
        else
          marker ← lift (last_marker task (pr_comment_baseline r) WORKER_MARKERS);
          match marker with
          | Some _ => mret Parked
          | None =>
              written ← write_worker_intent ref r;
              if written : bool then restart_worker ref else mret Skipped
          end
    end).

(** [records.get(ref)] of an item of the flag's list. *)
Definition item_ref (v : pyval) : res (option string) :=
  match v with
  | VStr s => Ok (Some s)
  | _ => if unhashable v then Raise (Exn "TypeError" "unhashable type") else Ok None
  end.

Definition Outcome : Type := list (string * Bucket).

Fixpoint resume_loop (turn : string → PM Bucket) (suffix : string) (items : list pyval) : PM Outcome :=
  match items with
  | [] => mret []
  | v :: items' =>
      ref ← lift (item_ref v);
      bucket ← match ref with Some ref => turn ref | None => mret Skipped end;
      rest ← resume_loop turn suffix items';
      mret ((py_str v +:+ suffix, bucket) :: rest)
  end.

Definition resume_heads (state : Fields) : PM Outcome :=
  reviewers ← lift (list_or_empty (get state "stopped_reviewer"));
  a ← resume_loop resume_reviewer ":reviewer" reviewers;
  workers ← lift (list_or_empty (get state "stopped_worker"));
  b ← resume_loop resume_worker ":worker" workers;
  mret (a ++ b).

(** ** What a missing head means *)

Definition head_state (handle : string) (paused_at : Z) : string :=
  if nonempty handle then "running" else if paused_at =? 0 then "not-running" else "stopped-by-pause".

Record HeadLine := { hl_ref : string; hl_state : string; hl_worker : string; hl_reviewer : string; hl_workspace : string }.

Definition head_line (ref : string) (r : PRecord) : HeadLine :=
  let or_ a b := if nonempty a then a else b in
  {| hl_ref := ref; hl_state := pr_state r;
     hl_worker := head_state (or_ (pr_handle r) (pr_leaf r)) (pr_paused_worker_at r);
     hl_reviewer := head_state (or_ (pr_review_handle r) (pr_review_leaf r)) (pr_paused_reviewer_at r);
     hl_workspace := pr_workspace r |}.

(** In the order of the references. *)
Definition head_lines (records : Records) : list HeadLine :=
  omap (λ ref, head_line ref <$> dict_get records ref) (sort_strings records.*1).

(** ** The windows and the end of a resume *)

Definition refresh_record (now : Z) (r : PRecord) : PRecord :=
  let r := if pr_worker_waiting_since r =? 0 then r
           else r <| pr_worker_waiting_since := now |> <| pr_worker_progress_at := now |> <| pr_worker_idle_since := 0 |> in
  let r := if pr_review_waiting_since r =? 0 then r
           else r <| pr_review_waiting_since := now |> <| pr_review_progress_at := now |> <| pr_review_idle_since := 0 |> in
  if pr_gate_pending_since r =? 0 then r else r <| pr_gate_pending_since := now |>.

Definition refresh_watchdog_windows : PM unit :=
  now ← call (w_clock W);
  modify (λ s, s <| ps_records := prod_map id (refresh_record now) <$> ps_records s |>).

Definition thaw (state : Fields) (actor owner : string) : PM (Outcome * list string) :=
  s ← the_state;
  if state_unreadable (ps_payload s) then
    mret ([], ["production state is unreadable: the pause is lifted but no head was relaunched"])
  else
    outcome ← resume_heads state;
    observers ← call (w_resume_observers W);
    modify (λ s, s <| ps_payload := (observers (ps_payload s)).1 |>) ≫= λ _,
    refresh_watchdog_windows ≫= λ _,
    now ← call (w_now W);
    modify (λ s, s <| ps_payload := dict_set (dict_set (ps_payload s) "resumed_at" (VStr now)) "resumed_by"
                                      (VStr (if nonempty actor then actor else owner)) |>) ≫= λ _,
    save ≫= λ _,
    mret (outcome, []).

Definition resume_under_lock (flag : FlagFile) (mirrors : Mirrors) (actor owner : string) : PM (Action * Outcome * list string) :=
  let state := load_pause flag in
  match normalize_pause_mode (get state "mode") with
  | None => emit (EvFlag NoFlag) ≫= λ _, mret (ANoop, [], [])
  | Some mode =>
      a ← (if bool_decide (mode = FREEZE) then thaw state actor owner else mret ([], []));
      refusal ← call (w_mirror W);
      cleared ← lift (clear_legacy_mirror mirrors state refusal);
      emit (EvMirrors cleared.1) ≫= λ _,
      emit (EvFlag NoFlag) ≫= λ _,
      mret (AResumed mode, a.1, a.2)
  end.

Definition resume (flag : FlagFile) (mirrors : Mirrors) (actor owner : string) : PM (CommandAnswer * Outcome) :=
  a ← resume_under_lock flag mirrors actor owner;
  answer ← with_status a.1.1 a.2;
  mret (answer, a.1.2).

(** [except Exception]: what the resume raised, the rendering's cause unwrapped. *)
Definition surfaced (m : PM (CommandAnswer * Outcome)) : PM (res CommandAnswer) := λ s,
  match m s with
  | (Ok a, s', log) => (Ok (match ca_cause a.1 with Some e => Raise e | None => Ok a.1 end), s', log)
  | (Raise e, s', log) => (Ok (Raise e), s', log)
  end.

(** [auto_resume_expired_freeze]: nothing to lift, or the resume and what it raised. *)
Definition auto_resume (flag : FlagFile) (mirrors : Mirrors) (owner : string) : PM (option (res CommandAnswer)) :=
  now ← call (w_clock W);
  if ar_eligible (auto_resume_status env utc_instant (load_pause flag) now)
  then answer ← surfaced (resume flag mirrors "auto-resume" owner); mret (Some answer)
  else mret None.
End ops.
