(* ===== verification/PauseRuns.v ===== *)
(** * No second head

    Pauses, resumes and expired freezes one after another, each cut by a death
    after any of its actions and started again from what is on disk: every live
    worker head is named by its record on disk, and none is brought up beside
    another. *)

From stdpp Require Import relations.
From S2P Require Import Prelude PyText Program PyStrings IsoTime HeadVitality WorkerLifecycle TerminalTaxonomy WaitCard Pause PauseOps.

(** ** The disk and the heads *)

Record Disk := {
  dk_flag : FlagFile;
  dk_mirrors : Mirrors;
  dk_records : Records;
  dk_payload : Fields;
  dk_live : list string;      (** the cards whose worker head runs *)
}.

#[global] Instance Disk_eta : Settable Disk := λ d,
  Build_Disk (dk_flag d) (dk_mirrors d) (dk_records d) (dk_payload d) (dk_live d).

Definition apply_event (d : Disk) (e : Event) : Disk :=
  match e with
  | EvSaved records payload => d <| dk_records := records |> <| dk_payload := payload |>
  | EvFlag file => d <| dk_flag := file |>
  | EvMirrors files => d <| dk_mirrors := files |>
  | EvStopped ref true => d <| dk_live := List.filter (λ x, negb (String.eqb x ref)) (dk_live d) |>
  | EvLaunched ref true => d <| dk_live := ref :: dk_live d |>
  | _ => d
  end.

Section inv.
Context `{PyRepr}.

Definition worker_intent (r : PRecord) : bool :=
  has_intent r && negb (String.eqb (py_str_or (get (pr_intent r) "role")) REVIEW_ROLE).

(** The record names a worker head; it names it to a resume. *)
Definition named (r : PRecord) : bool :=
  nonempty (pr_handle r) || nonempty (pr_leaf r) || nonempty (pr_pid_file r) || worker_intent r.

Definition held (r : PRecord) : bool := nonempty (pr_handle r) || nonempty (pr_leaf r) || has_intent r.

Definition in_records (p : PRecord → bool) (records : Records) (ref : string) : Prop :=
  ∃ r, dict_get records ref = Some r ∧ p r = true.

(** The workers a freeze on disk says it stopped. *)
Definition listed (file : FlagFile) (ref : string) : Prop :=
  pause_mode file = Some FREEZE ∧ ∃ l, list_or_empty (get (load_pause file) "stopped_worker") = Ok l ∧ VStr ref ∈ l.

(** Records that name every live head, and to the next resume the ones it would
    bring back. *)
Definition Named (d : Disk) (records : Records) : Prop :=
  ∀ ref, ref ∈ dk_live d → in_records named records ref ∧ (listed (dk_flag d) ref → in_records held records ref).

Definition Kept (d : Disk) : Prop := Named d (dk_records d).

(** A bring-up is of a card without a head, its intent on disk; and a death right
    after any action leaves the heads named. *)
Definition action_ok (d : Disk) (e : Event) : Prop :=
  match e with
  | EvLaunched ref _ => ref ∉ dk_live d ∧ in_records worker_intent (dk_records d) ref
  | _ => True
  end ∧ Kept (apply_event d e).

Definition J (d : Disk) (s : PState) : Prop := Kept d ∧ Named d (ps_records s).

Notation sees := (sees apply_event action_ok).

(** ** The pieces *)

Lemma sees_asked {A} (f : nat → A) s d (Q : A → PState → Disk → Prop) :
  (∀ s', ps_records s' = ps_records s → ps_payload s' = ps_payload s → Q (f (ps_calls s)) s' d) → sees (call f) s d Q.
Proof. intros HQ. unfold sees, call. split; [done|]. by apply HQ. Qed.

Lemma sees_state s d (Q : PState → PState → Disk → Prop) : Q s s d → sees the_state s d Q.
Proof. intros HQ. by split. Qed.

Lemma sees_modify f s d (Q : unit → PState → Disk → Prop) : Q tt (f s) d → sees (modify f) s d Q.
Proof. intros HQ. by split. Qed.

Lemma J_records d s s' : ps_records s' = ps_records s → J d s → J d s'.
Proof. unfold J. by intros ->. Qed.

(** A change of one record that keeps what names a live head. *)
Definition keeps_names (f : PRecord → PRecord) (r : PRecord) : Prop :=
  (named r = true → named (f r) = true) ∧ (held r = true → held (f r) = true).

Definition put (ref : string) (f : PRecord → PRecord) (records : Records) : Records :=
  match dict_get records ref with Some r => dict_set records ref (f r) | None => records end.

Lemma Named_put d records ref f : Named d records →
  (∀ r, dict_get records ref = Some r → ref ∈ dk_live d → keeps_names f r) → Named d (put ref f records).
Proof.
  intros Hn Hf x Hx. unfold put. destruct (dict_get records ref) as [r|] eqn:Er; [|by apply Hn].
  destruct (Hn x Hx) as [(r1 & E1 & H1) Hl]. destruct (decide (ref = x)) as [->|Hne].
  - assert (r1 = r) as -> by congruence. destruct (Hf r eq_refl Hx) as [Hf1 Hf2]. split.
    + exists (f r). rewrite dict_get_set_eq. auto.
    + intros Hli. destruct (Hl Hli) as (r2 & E2 & H2). assert (r2 = r) as -> by congruence.
      exists (f r). rewrite dict_get_set_eq. auto.
  - split; [|intros Hli; destruct (Hl Hli) as (r2 & E2 & H2)]; eexists; (rewrite dict_get_set_ne by done); eauto.
Qed.

Lemma on_record_put ref f s : (on_record ref f s).1.2 = s <| ps_records := put ref f (ps_records s) |>.
Proof. unfold on_record, modify, put, update. cbn. destruct (dict_get _ _); [done|by destruct s]. Qed.

Lemma sees_on_record ref f s d (Q : unit → PState → Disk → Prop) :
  (∀ s', ps_records s' = put ref f (ps_records s) → Q tt s' d) → sees (on_record ref f) s d Q.
Proof.
  intros HQ. unfold sees, on_record, modify. split; [done|]. apply HQ. unfold put, update.
  by destruct (dict_get (ps_records s) ref).
Qed.

Lemma sees_save W s d (Q : unit → PState → Disk → Prop) : J d s →
  (∀ s', ps_records s' = ps_records s →
     let d' := apply_event d (EvSaved (ps_records s) (ps_payload s)) in J d' s' → Q tt s' d') →
  sees (save W) s d Q.
Proof.
  intros [Hk Hm] HQ. unfold save. apply sees_bind, sees_asked. intros s1 E1 P1. destruct (w_storage W _); [by split|].
  apply sees_bind, sees_state. rewrite E1, P1.
  assert (Kept (apply_event d (EvSaved (ps_records s) (ps_payload s)))) as Hk' by exact Hm.
  apply sees_emit; [by split|]. apply HQ; [done|]. split; [done|]. by rewrite E1.
Qed.

Lemma sees_quiet_save W s d (Q : unit → PState → Disk → Prop) : J d s →
  (∀ s' d', ps_records s' = ps_records s → J d' s' → dk_live d' = dk_live d → dk_flag d' = dk_flag d → Q tt s' d') →
  sees (quiet_save W) s d Q.
Proof.
  intros HJ HQ. unfold quiet_save. apply sees_bind, sees_asked. intros s1 E1 P1. destruct (w_persist W _).
  - apply sees_bind, sees_state. destruct HJ as [Hk Hm].
    assert (Kept (apply_event d (EvSaved (ps_records s1) (ps_payload s1)))) as Hk' by (unfold Kept; cbn; by rewrite E1).
    apply sees_emit; [by split|]. apply HQ; [done| |done|done]. split; [done|]. by rewrite E1.
  - apply sees_ret, HQ; [done| |done|done]. by eapply J_records.
Qed.

(** ** A freeze *)

(** No head came up, and the flag is the one it was. *)
Definition Quieter (d d' : Disk) : Prop := dk_flag d' = dk_flag d ∧ ∀ x, x ∈ dk_live d' → x ∈ dk_live d.

#[local] Instance Quieter_pre : PreOrder Quieter.
Proof. split; [by intros d|]. intros d1 d2 d3 [E1 H1] [E2 H2]. split; [congruence|auto]. Qed.

Lemma Named_quieter d d' records : Quieter d d' → Named d records → Named d' records.
Proof. intros [Ef Hl] Hn x Hx. rewrite Ef. by apply Hn, Hl. Qed.

Definition not_frozen (d : Disk) : Prop := pause_mode (dk_flag d) ≠ Some FREEZE.

Lemma quieter_not_frozen d d' : Quieter d d' → not_frozen d → not_frozen d'.
Proof. unfold not_frozen. by intros [-> _]. Qed.

(** Off a freeze a record only has to name its head. *)
Lemma Named_put_running d records ref f : not_frozen d → Named d records →
  (∀ r, dict_get records ref = Some r → ref ∈ dk_live d → named r = true → named (f r) = true) → Named d (put ref f records).
Proof.
  intros Hnf Hn Hf x Hx. assert (listed (dk_flag d) x → False) as Hno by (intros [Hm _]; by apply Hnf).
  split; [|by intros ?%Hno]. destruct (Hn x Hx) as [(r & Er & Hr) _]. unfold put.
  destruct (decide (ref = x)) as [->|Hne].
  - rewrite Er. exists (f r). rewrite dict_get_set_eq. eauto.
  - destruct (dict_get records ref); [|by eexists]. exists r. by rewrite dict_get_set_ne.
Qed.

Lemma put_get ref f records r : dict_get records ref = Some r → dict_get (put ref f records) ref = Some (f r).
Proof. intros E. unfold put. by rewrite E, dict_get_set_eq. Qed.

Lemma J_put d s s' ref f : ps_records s' = put ref f (ps_records s) → J d s →
  (∀ r, dict_get (ps_records s) ref = Some r → ref ∈ dk_live d → keeps_names f r) → J d s'.
Proof. intros E [Hk Hm] Hf. split; [done|]. rewrite E. by apply Named_put. Qed.

Lemma sees_with_record {A} ref (absent : PM A) f s d (Q : A → PState → Disk → Prop) :
  (dict_get (ps_records s) ref = None → sees absent s d Q) →
  (∀ r, dict_get (ps_records s) ref = Some r → sees (f r) s d Q) → sees (with_record ref absent f) s d Q.
Proof.
  intros Ha Hf. unfold with_record. apply sees_bind, sees_state. destruct (dict_get (ps_records s) ref) eqn:E; auto.
Qed.

(** What a stop leaves. *)
Record Stopped (s : PState) (d : Disk) (f : PRecord → PRecord) (ref : string) (worker gone : bool) (s' : PState) (d' : Disk) : Prop := {
  sp_records : ps_records s' = if gone then put ref f (ps_records s) else ps_records s;
  sp_J : J d' s';
  sp_quieter : Quieter d d';
  sp_gone : gone = true → worker = true → ref ∉ dk_live d';
}.

Lemma stopped_live d ref : ref ∉ dk_live (apply_event d (EvStopped ref true)).
Proof.
  cbn. intros [_ Hn]%list_elem_of_In%filter_In. by rewrite String.eqb_refl in Hn.
Qed.

Lemma stopped_quieter d ref worker : Quieter d (apply_event d (EvStopped ref worker)).
Proof. destruct worker; [|done]. split; [done|]. cbn. by intros x [?%list_elem_of_In _]%list_elem_of_In%filter_In. Qed.

Lemma sees_stopped ref worker s d (Q : unit → PState → Disk → Prop) : J d s →
  (let d' := apply_event d (EvStopped ref worker) in J d' s → Q tt s d') → sees (emit (EvStopped ref worker)) s d Q.
Proof.
  intros [Hk Hm] HQ. pose proof (stopped_quieter d ref worker) as Hq.
  assert (dk_records (apply_event d (EvStopped ref worker)) = dk_records d) as Er by (by destruct worker).
  assert (Kept (apply_event d (EvStopped ref worker))) as Hk' by (unfold Kept; rewrite Er; by eapply Named_quieter).
  apply sees_emit; [by split|]. apply HQ. split; [done|]. by eapply Named_quieter.
Qed.

Lemma sees_flush W (b : bool) s d (Q : unit → PState → Disk → Prop) : J d s →
  (∀ s' d', ps_records s' = ps_records s → J d' s' → dk_live d' = dk_live d → dk_flag d' = dk_flag d → Q tt s' d') →
  sees (if b then save W else mret tt) s d Q.
Proof. intros HJ HQ. destruct b; [apply sees_save; [done|]; intros; by apply HQ|by apply sees_ret, HQ]. Qed.

Lemma quieter_same d d1 d2 : Quieter d d1 → dk_live d2 = dk_live d1 → dk_flag d2 = dk_flag d1 → Quieter d d2.
Proof. intros [Ef Hl] El Ef2. split; [congruence|]. intros x. rewrite El. apply Hl. Qed.

Lemma stop_pane_ok W ref worker s d : J d s →
  sees (stop_pane W ref worker) s d (λ gone s' d',
    ps_records s' = ps_records s ∧ J d' s' ∧ Quieter d d' ∧ (gone = true → worker = true → ref ∉ dk_live d')).
Proof.
  intros HJ. unfold stop_pane. apply sees_bind, sees_asked. intros s1 E1 _. apply (J_records _ _ s1) in HJ; [|done].
  apply sees_bind, sees_flush; [done|]. intros s2 d2 E2 HJ2 El2 Ef2.
  assert (Quieter d d2) as Hq2 by (by apply (quieter_same d d)).
  apply sees_bind, sees_asked. intros s3 E3 _. apply (J_records _ _ s3) in HJ2; [|done].
  destruct (w_stop W _); [apply sees_ret; split_and!; [congruence|done|done|done]|].
  apply sees_bind, sees_stopped; [done|]. intros d3 HJ3.
  assert (Quieter d d3) as Hq3 by (etrans; [exact Hq2|apply stopped_quieter]).
  apply sees_bind, sees_asked. intros s4 E4 _. apply (J_records _ _ s4) in HJ3; [|done].
  apply sees_bind, sees_flush; [done|]. intros s5 d5 E5 HJ5 El5 Ef5. apply sees_ret.
  split_and!; [congruence|done|by apply (quieter_same d d3)|]. intros _ ->. rewrite El5. apply stopped_live.
Qed.

Lemma forget_review_names r : keeps_names (λ r, forget_review r <| pr_review_commit := "" |>) r.
Proof. by split. Qed.

Lemma end_review_pane_ok W ref s d : J d s →
  sees (end_review_pane W ref) s d (Stopped s d (λ r, forget_review r <| pr_review_commit := "" |>) ref false).
Proof.
  intros HJ. unfold end_review_pane. eapply sees_bind, sees_mono; [by apply (stop_pane_ok W ref false)|].
  cbn beta. intros gone s1 d1 (E1 & HJ1 & Hq & _). destruct gone; [|apply sees_ret; by split].
  apply sees_bind, sees_on_record. intros s2 E2. apply sees_ret. split; [by rewrite E2, E1| |done|done].
  eapply J_put; [exact E2|done|]. intros r _ _. apply forget_review_names.
Qed.

Lemma stop_worker_ok W ref s d : J d s → sees (stop_worker W ref) s d (Stopped s d forget_worker ref true).
Proof.
  intros HJ. unfold stop_worker. eapply sees_bind, sees_mono; [by apply (stop_pane_ok W ref true)|].
  cbn beta. intros gone s1 d1 (E1 & HJ1 & Hq & Hg). destruct gone; [|apply sees_ret; by split].
  apply sees_bind, sees_on_record. intros s2 E2. apply sees_ret. split; [by rewrite E2, E1| |done|by auto].
  eapply J_put; [exact E2|done|]. intros r _ Hin. by destruct (Hg eq_refl eq_refl).
Qed.

Lemma stop_workspace_ok W ref s d : J d s →
  sees (stop_workspace W ref) s d (Stopped s d (λ r, forget_review (forget_worker r)) ref true).
Proof.
  intros HJ. unfold stop_workspace. apply sees_bind, sees_asked. intros s1 E1 _. apply (J_records _ _ s1) in HJ; [|done].
  destruct (w_stop W _); [apply sees_ret; by split|].
  apply sees_bind, sees_stopped; [done|]. intros ? HJ1. apply sees_bind, sees_stopped; [done|]. intros ? HJ2.
  apply sees_bind, sees_on_record. intros s2 E2. apply sees_ret.
  assert (ref ∉ dk_live (apply_event (apply_event d (EvStopped ref true)) (EvStopped ref false))) as Hgone by apply stopped_live.
  split; [by rewrite E2, E1| |exact (stopped_quieter d ref true)|done].
  eapply J_put; [exact E2|done|]. intros r _ Hin. done.
Qed.

(** A change that leaves the worker's pointers and the intent. *)
Definition same_pointers (f : PRecord → PRecord) : Prop := ∀ r,
  pr_handle (f r) = pr_handle r ∧ pr_leaf (f r) = pr_leaf r ∧ pr_pid_file (f r) = pr_pid_file r ∧ pr_intent (f r) = pr_intent r.

Lemma same_pointers_names f r : same_pointers f → keeps_names f r.
Proof.
  intros Hf. destruct (Hf r) as (E1 & E2 & E3 & E4).
  unfold keeps_names, named, held, worker_intent, has_intent, launch_intent. by rewrite E1, E2, E3, E4.
Qed.

Lemma sees_touch ref f s d (Q : unit → PState → Disk → Prop) : J d s → same_pointers f →
  (∀ s', ps_records s' = put ref f (ps_records s) → J d s' → Q tt s' d) → sees (on_record ref f) s d Q.
Proof.
  intros HJ Hf HQ. apply sees_on_record. intros s' E. apply HQ; [done|]. eapply J_put; [exact E|done|].
  intros r _ _. by apply same_pointers_names.
Qed.

Lemma or_nonempty a b : nonempty a = true → nonempty (if nonempty a then a else b) = true.
Proof. intros E. by rewrite E. Qed.

Lemma remember_pointers intent role r : let r' := remember_launch_identity intent role r in
  (nonempty (pr_handle r) = true → nonempty (pr_handle r') = true)
  ∧ (nonempty (pr_leaf r) = true → nonempty (pr_leaf r') = true)
  ∧ (nonempty (pr_pid_file r) = true → nonempty (pr_pid_file r') = true) ∧ pr_intent r' = pr_intent r.
Proof.
  unfold remember_launch_identity. generalize (py_str_or (get intent "pid_file")), (py_str_or (get intent "handle")),
    (py_str_or (get intent "leaf")), (py_str_or (get intent "workspace")). intros pid handle leaf workspace.
  destruct (String.eqb role REVIEW_ROLE), (nonempty pid) eqn:Ep; cbn [update pr_handle pr_leaf pr_pid_file pr_intent];
    split_and!; first [reflexivity|exact (λ x, x)|apply or_nonempty|intros _; exact Ep].
Qed.

(** Pointers that survive keep the names. *)
Lemma pointers_names f r :
  (nonempty (pr_handle r) = true → nonempty (pr_handle (f r)) = true) →
  (nonempty (pr_leaf r) = true → nonempty (pr_leaf (f r)) = true) →
  (nonempty (pr_pid_file r) = true → nonempty (pr_pid_file (f r)) = true) →
  pr_intent (f r) = pr_intent r → keeps_names f r.
Proof.
  intros H1 H2 H3 E. unfold keeps_names, named, held, worker_intent, has_intent, launch_intent. rewrite E.
  rewrite !orb_true_iff. tauto.
Qed.

Lemma remember_names intent role r : keeps_names (remember_launch_identity intent role) r.
Proof. destruct (remember_pointers intent role r) as (? & ? & ? & ?). by apply pointers_names. Qed.

Lemma remember_intent intent role r : pr_intent (remember_launch_identity intent role r) = pr_intent r.
Proof. apply remember_pointers. Qed.

(** The role a turn of the freeze takes an intent to be of. *)
Definition intent_role (intent : Fields) : string :=
  if py_truthy (get intent "role") then py_str (get intent "role") else WORKER_ROLE.

Lemma review_role_names r intent : launch_intent r = intent → intent ≠ [] → String.eqb (intent_role intent) REVIEW_ROLE = true →
  worker_intent r = false.
Proof.
  unfold worker_intent, has_intent, launch_intent, intent_role, py_str_or. intros <- Hne.
  destruct (py_truthy (get (pr_intent r) "role")) eqn:E; [|done]. rewrite E. intros ->. by rewrite andb_false_r.
Qed.

Lemma stop_launch_intent_ok W ref s d r : J d s → not_frozen d → dict_get (ps_records s) ref = Some r →
  launch_intent r ≠ [] →
  let role := intent_role (launch_intent r) in
  sees (stop_launch_intent W ref (launch_intent r) role) s d (λ gone s' d',
    J d' s' ∧ Quieter d d' ∧ (gone = true → String.eqb role REVIEW_ROLE = false → ref ∉ dk_live d')).
Proof.
  intros HJ Hnf Er Hi role. unfold stop_launch_intent. apply sees_bind, sees_on_record. intros s1 E1.
  assert (J d s1) as HJ1 by (eapply J_put; [exact E1|done|]; intros; apply remember_names).
  set (r1 := remember_launch_identity (launch_intent r) role r).
  assert (dict_get (ps_records s1) ref = Some r1) as Er1 by (rewrite E1; by apply put_get).
  apply sees_with_record; [congruence|]. intros r2 Er2. assert (r2 = r1) as -> by congruence.
  apply sees_bind, sees_asked. intros s2 E2 _. apply (J_records _ _ s2) in HJ1; [|done]. rewrite <-E2 in Er1.
  destruct (hb_mismatch _); [by apply sees_ret|].
  (* whatever the stop was, the intent is taken back *)
  assert (∀ f worker gone s3 d3, (∀ x, pr_intent (f x) = pr_intent x) →
    (worker = false → String.eqb role REVIEW_ROLE = true ∧ ∀ x, named (f x) = named x) →
    Stopped s2 d f ref worker gone s3 d3 →
    sees (if gone then on_record ref (λ r, r <| pr_intent := [] |>) ≫= λ _, mret true else mret false) s3 d3 (λ gone s' d',
      J d' s' ∧ Quieter d d' ∧ (gone = true → String.eqb role REVIEW_ROLE = false → ref ∉ dk_live d'))) as Htake.
  { intros f worker gone s3 d3 Hfi Hw [Erec HJ3 Hq Hg]. destruct gone; [|by apply sees_ret].
    apply sees_bind, sees_on_record. intros s4 E4. apply sees_ret. split_and!; [|done|].
    - destruct HJ3 as [Hk3 Hm3]. split; [done|]. rewrite E4. apply Named_put_running; [by eapply quieter_not_frozen|done|].
      intros x Ex Hin Hn. destruct worker; [by destruct (Hg eq_refl eq_refl)|]. destruct (Hw eq_refl) as [Hrole Hfn].
      rewrite Erec, (put_get _ _ _ r1 Er1) in Ex. injection Ex as <-. rewrite Hfn in Hn.
      assert (worker_intent r1 = false) as Hwi.
      { eapply (review_role_names _ (launch_intent r)); [|done|done]. unfold launch_intent, r1. by rewrite remember_intent. }
      assert (named (f r1 <| pr_intent := [] |>) = nonempty (pr_handle (f r1)) || nonempty (pr_leaf (f r1)) || nonempty (pr_pid_file (f r1)) || false) as -> by done.
      pose proof (Hfn r1) as Hx. unfold named in Hx, Hn. rewrite Hwi in Hn, Hx.
      assert (worker_intent (f r1) = worker_intent r1) as Ewi by (unfold worker_intent, has_intent, launch_intent; by rewrite Hfi).
      rewrite Ewi, Hwi in Hx. by rewrite Hx.
    - intros _ Hr. destruct worker; [by apply Hg|]. destruct (Hw eq_refl) as [Hrole _]. congruence. }
  apply sees_bind. destruct (_ || hb_known _).
  - destruct (String.eqb role REVIEW_ROLE) eqn:Erole.
    + eapply sees_mono; [by apply end_review_pane_ok|]. intros gone s3 d3. by apply (Htake _ false).
    + eapply sees_mono; [by apply stop_worker_ok|]. intros gone s3 d3. by apply (Htake _ true).
  - eapply sees_mono; [by apply stop_workspace_ok|]. intros gone s3 d3. by apply (Htake _ true).
Qed.

(** What a turn of the freeze leaves: no worker it marked still runs. *)
Record Frozen (d : Disk) (marks : Marks) (s' : PState) (d' : Disk) : Prop := {
  fz_J : J d' s';
  fz_quieter : Quieter d d';
  fz_gone : ∀ ref, ref ∈ marks.1.1 → ref ∉ dk_live d';
}.

Lemma frozen_none d l2 l3 s' d' : J d' s' → Quieter d d' → Frozen d ([], l2, l3) s' d'.
Proof. intros HJ Hq. split; [done|done|]. by intros x ?%not_elem_of_nil. Qed.

Lemma keep_reserved_round_ok ref intent s d (Q : unit → PState → Disk → Prop) : J d s →
  (∀ s', J d s' → Q tt s' d) → sees (keep_reserved_round ref intent) s d Q.
Proof.
  intros HJ HQ. unfold keep_reserved_round. destruct (String.eqb _ _); [by apply sees_ret, HQ|].
  apply sees_bind, sees_lift. intros reserved _. apply sees_touch; [done| |by auto].
  intros r. by destruct (_ || _ || _).
Qed.

Lemma stop_intent_of_ok W ref now s d r : J d s → not_frozen d → dict_get (ps_records s) ref = Some r →
  sees (stop_intent_of W ref now (launch_intent r)) s d (λ marks s' d',
    Frozen d (default ([], [], []) marks) s' d' ∧ ∀ x, x ∈ (default ([], [], []) marks).1.1 → x = ref).
Proof.
  intros HJ Hnf Er. assert (∀ x, x ∉ ([] : list string)) as Hnil by apply not_elem_of_nil.
  pose proof (stop_launch_intent_ok W ref s d r HJ Hnf Er) as Hstop. unfold stop_intent_of.
  destruct (launch_intent r) as [|p intent] eqn:Ei.
  { apply sees_ret. split; [by apply frozen_none|by intros x ?%Hnil]. }
  rewrite <-Ei in *. fold (intent_role (launch_intent r)). apply sees_bind.
  eapply sees_mono; [apply Hstop; by rewrite Ei|]. cbn beta. intros gone s1 d1 (HJ1 & Hq & Hg).
  destruct gone; [|apply sees_ret; split; [by apply frozen_none|by intros x ?%Hnil]].
  apply sees_bind, keep_reserved_round_ok; [done|]. intros s2 HJ2.
  destruct (String.eqb (intent_role (launch_intent r)) REVIEW_ROLE);
    (apply sees_bind, sees_touch; [done|done|]; intros s3 _ HJ3; apply sees_ret); cbn [default].
  - split; [by apply frozen_none|by intros x ?%Hnil].
  - split; [|by intros x ->%list_elem_of_singleton]. split; [done|done|]. intros x ->%list_elem_of_singleton. by apply Hg.
Qed.

Lemma freeze_head_ok abspath W excluded now ref s d : J d s → not_frozen d →
  sees (freeze_head abspath W excluded now ref) s d (λ marks s' d', Frozen d marks s' d' ∧ ∀ x, x ∈ marks.1.1 → x = ref).
Proof.
  intros HJ Hnf. assert (∀ x, x ∉ ([] : list string)) as Hnil by apply not_elem_of_nil.
  assert (∀ (l2 l3 : list string) s' d', J d' s' → Quieter d d' → Frozen d ([], l2, l3) s' d' ∧ ∀ x, x ∈ ([], l2, l3).1.1 → x = ref) as Hnone.
  { intros. split; [by apply frozen_none|by intros x ?%Hnil]. }
  apply sees_with_record; [intros; by apply sees_ret, Hnone|]. intros r Er. destruct (_ && _); [by apply sees_ret, Hnone|].
  apply sees_bind. eapply sees_mono; [by apply stop_intent_of_ok|]. cbn beta.
  intros [[[workers reviewers] more]|] s1 d1 [[HJ1 Hq1 Hg1] Hx1]; [|by apply sees_ret, Hnone]. cbn [default fst] in *.
  pose proof (quieter_not_frozen _ _ Hq1 Hnf) as Hnf1.
  assert (∀ (l2 l3 : list string) s' d', J d' s' → Quieter d1 d' →
    Frozen d (workers, l2, l3) s' d' ∧ ∀ x, x ∈ (workers, l2, l3).1.1 → x = ref) as Hsome.
  { intros l2 l3 s' d' HJ' Hq'. split; [|done]. split; [done|by etrans|]. intros x Hx Hin. by apply (Hg1 x), Hq'. }
  apply sees_with_record; [intros; by apply sees_ret, Hsome|]. intros r1 Er1. apply sees_bind.
  assert (∀ reviewed s2 d2, J d2 s2 → Quieter d1 d2 →
    sees (match reviewed with
          | None => mret (workers, reviewers, [])
          | Some more =>
              if nonempty (pr_handle r1) || nonempty (pr_leaf r1) || nonempty (pr_pid_file r1) then
                gone ← stop_worker W ref;
                if gone : bool then on_record ref (λ r, r <| pr_paused_worker_at := now |>) ≫= λ _,
                  mret (workers ++ [ref], reviewers ++ more, [])
                else mret (workers, reviewers ++ more, [])
              else mret (workers, reviewers ++ more, [])
          end) s2 d2 (λ marks s' d', Frozen d marks s' d' ∧ ∀ x, x ∈ marks.1.1 → x = ref)) as Hworker.
  { intros [l|] s2 d2 HJ2 Hq2; [|by apply sees_ret, Hsome]. destruct (_ || _ || _); [|by apply sees_ret, Hsome].
    apply sees_bind. eapply sees_mono; [by apply stop_worker_ok|]. intros gone s3 d3 [_ HJ3 Hq3 Hg3].
    destruct gone; [|apply sees_ret, Hsome; [done|by etrans]].
    apply sees_bind, sees_touch; [done|done|]. intros s4 _ HJ4. apply sees_ret. cbn [fst].
    split; [split; [done|by etrans; [|etrans]|]|]; intros x [Hx|Hx%list_elem_of_singleton]%elem_of_app; [|subst x|by auto|done].
    - intros Hin. apply (Hg1 x Hx), Hq2, Hq3, Hin.
    - by apply Hg3. }
  destruct (nonempty (pr_review_handle r1) || _ || _); [|by apply sees_ret, (Hworker (Some []))].
  apply sees_bind. eapply sees_mono; [by apply end_review_pane_ok|]. intros gone s2 d2 [_ HJ2 Hq2 _].
  destruct gone; [|by apply sees_ret, (Hworker None)]. apply sees_bind, sees_touch; [done|done|]. intros s3 _ HJ3.
  by apply sees_ret, (Hworker (Some [ref])).
Qed.

Lemma freeze_loop_ok abspath W excluded now refs s d : J d s → not_frozen d →
  sees (freeze_loop abspath W excluded now refs) s d (Frozen d).
Proof.
  revert s d. induction refs as [|ref refs IH]; intros s d HJ Hnf; cbn [freeze_loop].
  { by apply sees_ret, frozen_none. }
  apply sees_bind. eapply sees_mono; [by apply freeze_head_ok|]. cbn beta. intros a s1 d1 [[HJ1 Hq1 Hg1] _].
  apply sees_bind. eapply sees_mono; [apply IH; [done|by eapply quieter_not_frozen]|]. cbn beta. intros b s2 d2 [HJ2 Hq2 Hg2].
  apply sees_ret. split; [done|by etrans|]. cbn [fst]. intros x [Hx|Hx]%elem_of_app; [|by apply Hg2].
  intros Hin. by apply (Hg1 x Hx), Hq2.
Qed.

Lemma freeze_all_ok abspath expanduser W actor reason exclude s d : J d s → not_frozen d →
  sees (freeze_all abspath expanduser W actor reason exclude) s d (λ stops s' d', Frozen d stops.1.1 s' d').
Proof.
  intros HJ Hnf. unfold freeze_all. apply sees_bind, sees_state. destruct (state_unreadable _).
  { by apply sees_ret, frozen_none. }
  apply sees_bind. unfold freeze_heads. apply sees_bind, sees_asked. intros s1 E1 _. apply (J_records _ _ s1) in HJ; [|done].
  apply sees_bind, sees_state. eapply sees_mono; [by apply freeze_loop_ok|]. cbn beta. intros marks s2 d2 [HJ2 Hq2 Hg2].
  apply sees_bind, sees_asked. intros s3 E3 _. destruct (w_freeze_observers W _ _) as [payload [stopped failed]].
  apply sees_bind, sees_modify. apply sees_bind, sees_save; [by apply (J_records _ s2)|].
  intros s4 E4 d4 HJ4. apply sees_ret. by split.
Qed.

(** ** A resume *)

(** A head that comes up has an address: the path of its socket. *)
Definition addressed (W : World) : Prop := ∀ n handle leaf, w_restart W n = Launched handle leaf → nonempty handle = true.

(** A launch that fails without [HeadLaunchAborted] and leaves no heartbeat of
    its own left no head: what [launch_left_a_head] takes the heartbeat for. *)
Definition heartbeat_tells (W : World) : Prop := ∀ n runs, w_restart W n = Refused false runs → runs = false.

Definition host (W : World) : Prop := addressed W ∧ heartbeat_tells W.

Definition I (flag : FlagFile) (d : Disk) (s : PState) : Prop := J d s ∧ dk_flag d = flag.

Lemma worker_intent_names r : worker_intent r = true → named r = true ∧ held r = true.
Proof.
  unfold worker_intent, named, held. intros Hw. pose proof Hw as [Hi _]%andb_true_iff. fold (worker_intent r) in Hw |- *.
  unfold worker_intent in *. by rewrite Hw, Hi, !orb_true_r.
Qed.

Lemma mark_fields_role handle leaf key intent : key ≠ "role" →
  get (mark_fields handle leaf key intent) "role" = get intent "role".
Proof.
  intros Hk. unfold mark_fields, get. rewrite dict_get_set_ne by done.
  destruct (nonempty leaf), (nonempty handle); by rewrite ?dict_get_set_ne.
Qed.

Lemma mark_fields_some handle leaf key intent : mark_fields handle leaf key intent ≠ [].
Proof.
  unfold mark_fields. set (i := if nonempty leaf then _ else _). intros E.
  assert (dict_get (dict_set i key (VBool true)) key = Some (VBool true)) as Hg by apply dict_get_set_eq. by rewrite E in Hg.
Qed.

Lemma has_intent_role r : has_intent r = true → py_truthy (get (pr_intent r) "role") = true ∧ launch_intent r = pr_intent r.
Proof. unfold has_intent, launch_intent. by destruct (py_truthy _). Qed.

Lemma mark_intent_names handle leaf key r : key ≠ "role" →
  keeps_names (mark_intent handle leaf key) r ∧ (worker_intent r = true → worker_intent (mark_intent handle leaf key r) = true).
Proof.
  intros Hk. unfold keeps_names, mark_intent. destruct (has_intent r) eqn:Hh; [|done]. destruct (has_intent_role r Hh) as [Hr ->].
  set (r' := r <| pr_intent := _ |>).
  assert (has_intent r' = true) as Hh'.
  { unfold has_intent, launch_intent. cbn [r' update pr_intent]. rewrite mark_fields_role, Hr by done.
    destruct (mark_fields _ _ _ _) eqn:E; [by apply mark_fields_some in E|done]. }
  assert (worker_intent r' = worker_intent r) as Hw.
  { unfold worker_intent. rewrite Hh, Hh'. cbn [r' update pr_intent]. by rewrite mark_fields_role. }
  split; [|by rewrite Hw]. unfold named, held. rewrite Hw, Hh, Hh'. by cbn [r' update pr_handle pr_leaf pr_pid_file].
Qed.

Lemma not_held_not_live d s ref r : J d s → listed (dk_flag d) ref → dict_get (ps_records s) ref = Some r → held r = false →
  ref ∉ dk_live d.
Proof.
  intros [_ Hm] Hl Er Hh Hin. destruct (Hm ref Hin) as [_ Hx]. destruct (Hx Hl) as (r' & Er' & Hr'). congruence.
Qed.

(** A change of the record of a card without a head. *)
Lemma sees_idle ref f s d (Q : unit → PState → Disk → Prop) : J d s → ref ∉ dk_live d →
  (∀ s', ps_records s' = put ref f (ps_records s) → J d s' → Q tt s' d) → sees (on_record ref f) s d Q.
Proof.
  intros HJ Hn HQ. apply sees_on_record. intros s' E. apply HQ; [done|]. eapply J_put; [exact E|done|]. by intros.
Qed.

Lemma mark_quietly W ref handle leaf key s d (bucket : Bucket) flag : I flag d s → key ≠ "role" →
  sees (on_record ref (mark_intent handle leaf key) ≫= λ _, quiet_save W ≫= λ _, mret bucket) s d (λ _ s' d', I flag d' s').
Proof.
  intros [HJ Ef] Hk. apply sees_bind, sees_on_record. intros s1 E1.
  assert (J d s1) as HJ1 by (eapply J_put; [exact E1|done|]; intros; by apply mark_intent_names).
  apply sees_bind, sees_quiet_save; [done|]. intros s2 d2 _ HJ2 _ Ef2. apply sees_ret. split; [done|congruence].
Qed.

Lemma finish_launch_ok W ref handle leaf s d flag : I flag d s → nonempty handle = true →
  sees (finish_launch W ref handle leaf) s d (λ _ s' d', I flag d' s').
Proof.
  intros [HJ Ef] Hh. unfold finish_launch. apply sees_bind, sees_asked. intros s1 E1 _. apply (J_records _ _ s1) in HJ; [|done].
  destruct (w_handoff W _); [by split|]. apply sees_bind, sees_on_record. intros s2 E2.
  assert (J d s2) as HJ2 by (eapply J_put; [exact E2|done|]; intros; by apply mark_intent_names).
  apply sees_bind, sees_quiet_save; [done|]. intros s3 d3 E3 HJ3 _ Ef3. apply sees_bind, sees_on_record. intros s4 E4.
  assert (J d3 s4) as HJ4.
  { eapply J_put; [exact E4|done|]. intros r _ _.
    assert (∀ x, pr_handle (clear_launch_intent x) = pr_handle x) as Hc.
    { intros x. unfold clear_launch_intent. destruct (_ && _); [|done]. by destruct (String.eqb _ _). }
    unfold keeps_names, named, held. cbn [update pr_handle]. rewrite Hc. cbn [update pr_handle]. by rewrite Hh. }
  apply sees_bind, sees_asked. intros s5 E5 _. apply (J_records _ _ s5) in HJ4; [|done]. destruct (w_routing W _); [by split|].
  apply sees_bind, sees_asked. intros s6 E6 _. apply (J_records _ _ s6) in HJ4; [|done].
  apply sees_bind, sees_touch; [done|done|]. intros s7 _ HJ7. apply sees_ret. split; [done|congruence].
Qed.

(** The bring-up: the intent is on disk and no head runs. *)
Lemma sees_launched ref runs s d (Q : unit → PState → Disk → Prop) : J d s → ref ∉ dk_live d →
  in_records worker_intent (dk_records d) ref → in_records worker_intent (ps_records s) ref →
  (let d' := apply_event d (EvLaunched ref runs) in J d' s → dk_flag d' = dk_flag d → Q tt s d') →
  sees (emit (EvLaunched ref runs)) s d Q.
Proof.
  intros [Hk Hm] Hn Hd Hs HQ. set (d' := apply_event d (EvLaunched ref runs)) in *.
  assert (dk_flag d' = dk_flag d ∧ dk_records d' = dk_records d) as [Ef Er] by (unfold d'; by destruct runs).
  assert (∀ records, in_records worker_intent records ref → Named d records → Named d' records) as Hnew.
  { intros records (r & Er' & Hr) Hnamed x Hx. rewrite Ef. assert (x = ref ∨ x ∈ dk_live d) as [->|Hold].
    { unfold d' in Hx. destruct runs; [by apply elem_of_cons in Hx|by right]. }
    - destruct (worker_intent_names r Hr) as [H1 H2]. split; [by exists r|]. intros _. by exists r.
    - by apply Hnamed. }
  assert (Kept d') as Hk' by (unfold Kept; rewrite Er; by apply Hnew).
  apply sees_emit; [by split|]. apply HQ; [|done]. split; [done|by apply Hnew].
Qed.

Lemma restart_worker_ok W ref s d flag : host W → I flag d s → ref ∉ dk_live d →
  in_records worker_intent (dk_records d) ref → in_records worker_intent (ps_records s) ref →
  sees (restart_worker W ref) s d (λ _ s' d', I flag d' s').
Proof.
  intros [Ha Ht] [HJ Ef] Hn Hd Hs. unfold restart_worker. apply sees_bind, sees_asked. intros s1 E1 _.
  apply (J_records _ _ s1) in HJ; [|done]. rewrite <-E1 in Hs. pose proof (Ha (ps_calls s)) as Hh.
  pose proof (Ht (ps_calls s)) as Hr.
  destruct (w_restart W (ps_calls s)) as [handle leaf|handle leaf runs|[] runs]; apply sees_bind, sees_launched; try done;
    intros d1 HJ1 Ef1.
  - apply finish_launch_ok; [by split; [|congruence]|by eapply Hh].
  - apply mark_quietly; [by split; [|congruence]|done].
  - apply mark_quietly; [by split; [|congruence]|done].
  - subst d1. rewrite (Hr runs eq_refl) in *.
    apply sees_bind, sees_idle; [done|done|]. intros s2 _ HJ2. apply sees_ret. by split.
Qed.

Lemma write_worker_intent_ok pid_file_path W ref r s d flag : I flag d s → ref ∉ dk_live d → dict_get (ps_records s) ref = Some r →
  sees (write_worker_intent pid_file_path W ref r) s d (λ written s' d', I flag d' s' ∧ ref ∉ dk_live d'
    ∧ (written = true → in_records worker_intent (dk_records d') ref ∧ in_records worker_intent (ps_records s') ref)).
Proof.
  intros [HJ Ef] Hn Er. unfold write_worker_intent. apply sees_bind, sees_asked. intros s1 E1 _. apply (J_records _ _ s1) in HJ; [|done].
  apply sees_bind, sees_asked. intros s2 E2 _. apply (J_records _ _ s2) in HJ; [|done].
  destruct (w_preflight W _); [by apply sees_ret|]. apply sees_bind, sees_asked. intros s3 E3 _. apply (J_records _ _ s3) in HJ; [|done].
  apply sees_bind, sees_idle; [done|done|]. intros s4 E4 HJ4. apply sees_bind, sees_asked. intros s5 E5 _.
  apply (J_records _ _ s5) in HJ4; [|done]. destruct (w_storage W _).
  { apply sees_bind, sees_idle; [done|done|]. intros s6 _ HJ6. by apply sees_ret. }
  apply sees_bind, sees_state. destruct HJ4 as [Hk4 Hm4].
  assert (Kept (apply_event d (EvSaved (ps_records s5) (ps_payload s5)))) as Hk5 by exact Hm4.
  apply sees_bind, sees_emit; [by split|]. apply sees_ret. split_and!; [by split|done|]. intros _.
  assert (in_records worker_intent (ps_records s5) ref) as Hw; [|by split].
  assert (ps_records s3 = ps_records s) as E by congruence. rewrite E5, E4, E. eexists. split; [by apply put_get|]. reflexivity.
Qed.

Lemma resume_worker_ok pid_file_path W ref s d flag : host W → I flag d s → listed flag ref →
  sees (resume_worker pid_file_path W ref) s d (λ _ s' d', I flag d' s').
Proof.
  intros Ha [HJ Ef] Hl. apply sees_with_record; [intros; by apply sees_ret|]. intros r Er. fold (held r).
  destruct (held r) eqn:Eh; [by apply sees_ret|].
  assert (ref ∉ dk_live d) as Hn by (eapply not_held_not_live; [exact HJ|by rewrite Ef|done|done]).
  apply sees_bind, sees_touch; [done|done|]. intros s1 E1 HJ1. apply sees_bind, sees_asked. intros s2 E2 _.
  apply (J_records _ _ s2) in HJ1; [|done]. destruct (w_show W _) as [task|]; [|by apply sees_ret].
  destruct (_ || _); [by apply sees_ret|]. apply sees_bind, sees_lift. intros [m|] _; [by apply sees_ret|].
  apply sees_bind. assert (dict_get (ps_records s2) ref = Some (r <| pr_paused_worker_at := 0 |>)) as Er2
    by (rewrite E2, E1; by apply put_get).
  assert (write_worker_intent pid_file_path W ref r = write_worker_intent pid_file_path W ref (r <| pr_paused_worker_at := 0 |>)) as -> by done.
  eapply sees_mono; [by apply (write_worker_intent_ok _ _ _ _ _ _ flag)|]. cbn beta.
  intros written s3 d3 (HI & Hn3 & Hw). destruct written; [|by apply sees_ret]. destruct (Hw eq_refl). by apply restart_worker_ok.
Qed.

Lemma resume_reviewer_ok W ref s d flag : I flag d s → sees (resume_reviewer W ref) s d (λ _ s' d', I flag d' s').
Proof.
  intros [HJ Ef]. apply sees_with_record; [intros; by apply sees_ret|]. intros r Er.
  destruct (_ || _ || has_intent r) eqn:Eh; [by apply sees_ret|]. apply orb_false_iff in Eh as [_ Hi].
  apply sees_bind, sees_touch; [done|done|]. intros s1 E1 HJ1. apply sees_bind, sees_asked. intros s2 E2 _.
  apply (J_records _ _ s2) in HJ1; [|done]. destruct (w_show W _) as [task|]; [|by apply sees_ret].
  destruct (negb _); [by apply sees_ret|]. apply sees_bind, sees_lift. intros [m|] _; [by apply sees_ret|].
  unfold start_review. apply sees_bind, sees_bind, sees_asked. intros s3 E3 _. apply (J_records _ _ s3) in HJ1; [|done].
  set (a := w_review W _). apply sees_bind, sees_emit; [split; [done|apply HJ1]|]. apply sees_bind, sees_on_record. intros s4 E4.
  assert (J d s4) as HJ4.
  { eapply J_put; [exact E4|exact HJ1|]. intros r' Er' _. rewrite E3, E2, E1, (put_get _ _ _ r Er) in Er'. injection Er' as <-.
    assert (worker_intent r = false) as Hw by (unfold worker_intent; by rewrite Hi).
    assert (∀ x, x = r <| pr_paused_reviewer_at := 0 |> → named x = named r ∧ held x = held r) as Hsame by (by intros x ->).
    destruct (Hsame _ eq_refl) as [Sn Sh]. unfold keeps_names. rewrite Sn, Sh. unfold named, held. rewrite Hw, Hi.
    cbn [apply_review update pr_handle pr_leaf pr_pid_file]. rewrite !orb_false_r. split; intros ->; done. }
  apply sees_bind. assert (∀ s5 d5, I flag d5 s5 → sees (match rv_raises a with Some e => lift (Raise e) | None => mret (rv_status a) end)
    s5 d5 (λ status s' d', sees (mret (if String.eqb status "ok" then Relaunched else Skipped)) s' d' (λ _ s' d', I flag d' s'))) as Hend.
  { intros s5 d5 HI. destruct (rv_raises a); [by split|]. by apply sees_ret, sees_ret. }
  destruct (rv_saved a); [|by apply sees_ret, Hend].
  apply sees_save; [done|]. intros s5 E5 d5 HJ5. by apply Hend.
Qed.

Lemma resume_loop_ok turn suffix items s d flag : I flag d s →
  (∀ ref s d, VStr ref ∈ items → I flag d s → sees (turn ref) s d (λ _ s' d', I flag d' s')) →
  sees (resume_loop turn suffix items) s d (λ _ s' d', I flag d' s').
Proof.
  revert s d. induction items as [|v items IH]; intros s d HI Hturn; cbn [resume_loop]; [by apply sees_ret|].
  apply sees_bind, sees_lift. intros ref Eref. apply sees_bind.
  assert (∀ b s1 d1, I flag d1 s1 → sees (rest ← resume_loop turn suffix items; mret ((py_str v +:+ suffix, b : Bucket) :: rest)) s1 d1
    (λ _ s' d', I flag d' s')) as Hrest.
  { intros b s1 d1 HI1. apply sees_bind. eapply sees_mono; [apply IH; [done|]|by intros; apply sees_ret].
    intros ref' s' d' Hin. apply Hturn. by right. }
  destruct ref as [ref|]; [|by apply sees_ret, Hrest].
  assert (v = VStr ref) as -> by (destruct v; cbn in Eref; congruence).
  eapply sees_mono; [apply Hturn; [left|done]|]. intros b s1 d1 HI1. by apply Hrest.
Qed.

Lemma in_records_map p f records ref : (∀ r, p (f r) = p r) → in_records p records ref →
  in_records p (prod_map id f <$> records) ref.
Proof.
  intros Hp (r & Er & Hr). exists (f r). split; [|by rewrite Hp]. clear -Er.
  induction records as [|[k x] records IH]; [done|]. cbn in *. destruct (String.eqb k ref); [by injection Er as ->|by apply IH].
Qed.

Lemma refresh_names now r : named (refresh_record now r) = named r ∧ held (refresh_record now r) = held r.
Proof. unfold refresh_record. by destruct (_ =? 0), (_ =? 0), (_ =? 0). Qed.

Lemma Named_refresh d now records : Named d records → Named d (prod_map id (refresh_record now) <$> records).
Proof.
  intros Hn ref Hin. destruct (Hn ref Hin) as [H1 H2].
  split; [|intros Hl]; (apply in_records_map; [intros; apply refresh_names|auto]).
Qed.

Lemma thaw_ok pid_file_path W flag actor owner s d : host W → I flag d s → pause_mode flag = Some FREEZE →
  sees (thaw pid_file_path W (load_pause flag) actor owner) s d (λ _ s' d', I flag d' s').
Proof.
  intros Ha HI Hm. unfold thaw. apply sees_bind, sees_state. destruct (state_unreadable _); [by apply sees_ret|].
  apply sees_bind. unfold resume_heads. apply sees_bind, sees_lift. intros reviewers _. apply sees_bind.
  eapply sees_mono; [apply resume_loop_ok; [exact HI|]; intros; by apply resume_reviewer_ok|]. intros a s1 d1 HI1.
  apply sees_bind, sees_lift. intros workers Ew. apply sees_bind.
  eapply sees_mono; [apply resume_loop_ok; [exact HI1|]|].
  { intros ref s2 d2 Hin HI2. apply resume_worker_ok; [done|done|]. split; [done|]. eauto. }
  intros b s2 d2 HI2. apply sees_ret, sees_bind, sees_asked. intros s3 E3 _. apply sees_bind, sees_modify. apply sees_bind.
  unfold refresh_watchdog_windows. apply sees_bind, sees_asked. intros s4 E4 _. apply sees_modify.
  set (s5 := s4 <| ps_records := _ |>). assert (I flag d2 s5) as [HJ5 Ef5].
  { destruct HI2 as [[Hk Hm2] Ef]. split; [|done]. split; [done|]. unfold s5. cbn [update ps_records].
    apply Named_refresh. rewrite E4. cbn [update ps_records]. by rewrite E3. }
  apply sees_bind, sees_asked. intros s6 E6 _. apply sees_bind, sees_modify.
  apply sees_bind, sees_save; [by apply (J_records _ s5)|]. intros s7 _ d7 HJ7. by apply sees_ret.
Qed.

(** ** The commands *)

Lemma running_not_listed ref : ¬ listed NoFlag ref.
Proof. by intros [Hm _]. Qed.

Lemma sees_flag_cleared s d (Q : unit → PState → Disk → Prop) : Kept d →
  Q tt s (apply_event d (EvFlag NoFlag)) → sees (emit (EvFlag NoFlag)) s d Q.
Proof.
  intros Hk HQ. apply sees_emit; [|done]. split; [done|]. intros ref Hin. split; [by apply Hk|].
  by intros ?%running_not_listed.
Qed.

Lemma sees_mirrors files s d (Q : unit → PState → Disk → Prop) : Kept d →
  Q tt s (apply_event d (EvMirrors files)) → sees (emit (EvMirrors files)) s d Q.
Proof. intros Hk HQ. by apply sees_emit. Qed.

Lemma resume_ok pid_file_path W flag mirrors actor owner s d : host W → I flag d s →
  sees (resume pid_file_path W flag mirrors actor owner) s d (λ _ _ _, True).
Proof.
  intros Ha HI. unfold resume. apply sees_bind. unfold resume_under_lock. fold (pause_mode flag).
  assert (∀ a : Action * Outcome * list string, ∀ s' d', sees (answer ← with_status W a.1.1 a.2; mret (answer, a.1.2)) s' d' (λ _ _ _, True)) as Hend.
  { intros a s' d'. apply sees_bind. unfold with_status. apply sees_bind, sees_asked. intros s1 _ _. by apply sees_ret, sees_ret. }
  destruct (pause_mode flag) as [mode|] eqn:Em.
  2:{ apply sees_bind, sees_flag_cleared; [apply HI|]. apply sees_ret, Hend. }
  assert (∀ (a : Outcome * list string) s1 d1, I flag d1 s1 →
    sees (refusal ← call (w_mirror W); cleared ← lift (clear_legacy_mirror mirrors (load_pause flag) refusal);
          emit (EvMirrors cleared.1) ≫= λ _, emit (EvFlag NoFlag) ≫= λ _, mret (AResumed mode, a.1, a.2)) s1 d1
      (λ a s' d', sees (answer ← with_status W a.1.1 a.2; mret (answer, a.1.2)) s' d' (λ _ _ _, True))) as Hlift.
  { intros a s1 d1 [[Hk _] _]. apply sees_bind, sees_asked. intros s2 _ _. apply sees_bind, sees_lift. intros cleared _.
    apply sees_bind, sees_mirrors; [done|]. apply sees_bind, sees_flag_cleared; [done|]. apply sees_ret, Hend. }
  apply sees_bind. case_bool_decide as Hf; [subst mode|by apply sees_ret, Hlift].
  eapply sees_mono; [by apply thaw_ok|]. intros a s1 d1 HI1. by apply Hlift.
Qed.

(** The workers a written freeze lists are the ones it marked. *)
Lemma listed_payload mode actor reason since workers reviewers observers excluded receipt ref :
  listed (Flag (VDict (pause_payload mode actor reason since workers reviewers observers excluded receipt))) ref → ref ∈ workers.
Proof.
  intros [_ (l & El & Hin)]. cbn [load_pause] in El.
  change (get (pause_payload mode actor reason since workers reviewers observers excluded receipt) "stopped_worker") with (str_list workers) in El.
  unfold list_or_empty, str_list in El. destruct (py_truthy _); [|injection El as <-; by apply not_elem_of_nil in Hin].
  cbn [py_iter] in El. injection El as <-. apply list_elem_of_fmap in Hin as (x & [= ->] & Hx).
  unfold sort_strings in Hx. by rewrite merge_sort_Permutation in Hx.
Qed.

Section commands.
Context `{IsoTime} (env : string → option string) (home : string) (utc_instant : string → Z)
  (abspath expanduser : string → string) (pid_file_path : string → string → string).

Lemma pause_ok W flag mirrors mode actor reason exclude s d : J d s → dk_flag d = flag →
  sees (pause env home abspath expanduser W flag mirrors mode actor reason exclude) s d (λ _ _ _, True).
Proof.
  intros HJ Ef. unfold pause. destruct (normalize_pause_mode mode) as [resolved|]; [|by split].
  destruct (negb _); [by split|]. destruct (negb _); [by split|].
  assert (∀ a l s' d', sees (with_status W a l) s' d' (λ _ _ _, True)) as Hend.
  { intros a l s' d'. unfold with_status. apply sees_bind, sees_asked. intros s1 _ _. by apply sees_ret. }
  destruct (pause_mode flag) as [current|] eqn:Em; [case_bool_decide; [apply Hend|by split]|].
  assert (not_frozen d) as Hnf by (unfold not_frozen; by rewrite Ef, Em).
  apply sees_bind, sees_asked. intros s1 E1 _. apply (J_records _ _ s1) in HJ; [|done]. set (since := w_now W _).
  apply sees_bind.
  match goal with |- Program.sees _ _ _ _ _ ?Q => assert (∀ stops s2 d2, Frozen d stops.1.1 s2 d2 → Q stops s2 d2) as Hrest end.
  { intros [[[[workers reviewers] excluded] observers] warnings] s2 d2 [[Hk2 Hm2] Hq Hg]. cbn [fst] in Hg.
    apply sees_bind, sees_asked. intros s3 _ _. destruct (write_legacy_mirror _ _ _ _ _ _ _ _) as [files receipt].
    apply sees_bind, sees_mirrors; [done|]. apply sees_bind, sees_emit; [|apply Hend]. split; [done|].
    intros ref Hin. split; [by apply Hk2|]. intros Hl%listed_payload. by destruct (Hg ref). }
  case_bool_decide; [|by apply sees_ret, (Hrest (([], [], []), [], [])), frozen_none].
  eapply sees_mono; [by apply freeze_all_ok|]. intros stops s2 d2 Hf. exact (Hrest stops s2 d2 Hf).
Qed.

Lemma auto_resume_ok W flag mirrors owner s d : host W → I flag d s →
  sees (auto_resume env utc_instant pid_file_path W flag mirrors owner) s d (λ _ _ _, True).
Proof.
  intros Ha [HJ Ef]. unfold auto_resume. apply sees_bind, sees_asked. intros s1 E1 _. apply (J_records _ _ s1) in HJ; [|done].
  destruct (ar_eligible _); [|by apply sees_ret]. apply sees_bind.
  pose proof (resume_ok pid_file_path W flag mirrors "auto-resume" owner s1 d Ha (conj HJ Ef)) as Hr.
  unfold sees, surfaced in *. destruct (resume _ _ _ _ _ _ s1) as [[[a|e] s2] log]; destruct Hr as [Hr _]; by split.
Qed.

(** ** Runs *)

Inductive Command :=
| CPause (mode : pyval) (actor reason : string) (exclude : list string)
| CResume (actor : string)
| CExpire.                                 (** the tick's [auto_resume_expired_freeze] *)

(** What a command does, from what is on disk. *)
Definition command_log (owner : string) (W : World) (d : Disk) (c : Command) : list Event :=
  let s := {| ps_records := dk_records d; ps_payload := dk_payload d; ps_calls := 0 |} in
  match c with
  | CPause mode actor reason exclude => (pause env home abspath expanduser W (dk_flag d) (dk_mirrors d) mode actor reason exclude s).2
  | CResume actor => (resume pid_file_path W (dk_flag d) (dk_mirrors d) actor owner s).2
  | CExpire => (auto_resume env utc_instant pid_file_path W (dk_flag d) (dk_mirrors d) owner s).2
  end.

Lemma command_checks owner W d c : Kept d → host W → checks apply_event action_ok d (command_log owner W d c).
Proof.
  intros Hk Ha. unfold command_log. set (s := {| ps_records := _; ps_payload := _; ps_calls := _ |}).
  assert (J d s) as HJ by (by split).
  destruct c as [mode actor reason exclude|actor|].
  - pose proof (pause_ok W (dk_flag d) (dk_mirrors d) mode actor reason exclude s d HJ eq_refl) as Hp.
    unfold sees in Hp. by destruct (pause _ _ _ _ _ _ _ _ _ _ _ s) as [[a s'] log]; destruct Hp.
  - pose proof (resume_ok pid_file_path W (dk_flag d) (dk_mirrors d) actor owner s d Ha (conj HJ eq_refl)) as Hp.
    unfold sees in Hp. by destruct (resume _ _ _ _ _ _ s) as [[a s'] log]; destruct Hp.
  - pose proof (auto_resume_ok W (dk_flag d) (dk_mirrors d) owner s d Ha (conj HJ eq_refl)) as Hp.
    unfold sees in Hp. by destruct (auto_resume _ _ _ _ _ _ _ s) as [[a s'] log]; destruct Hp.
Qed.

Lemma checks_kept d log k : Kept d → checks apply_event action_ok d log → Kept (nexts apply_event d (take k log)).
Proof.
  revert d k. induction log as [|e log IH]; intros d k Hk Hc; [by destruct k|]. destruct k as [|k]; [done|].
  destruct Hc as [[_ He] Hc]. cbn. by apply IH.
Qed.

(** A command, cut after any of its actions; or the rest of the dispatcher, which
    works on the records while no freeze holds and leaves each head named. *)
Inductive pause_step (owner : string) (d : Disk) : Disk → Prop :=
| step_command W c k : host W → pause_step owner d (nexts apply_event d (take k (command_log owner W d c)))
| step_tick records payload live :
    not_frozen d → NoDup live → (∀ ref, ref ∈ live → in_records named records ref) →
    pause_step owner d (d <| dk_records := records |> <| dk_payload := payload |> <| dk_live := live |>).

(** One head per card, as long as none is brought up beside another. *)
Lemma checks_single d log k : NoDup (dk_live d) → checks apply_event action_ok d log →
  NoDup (dk_live (nexts apply_event d (take k log))).
Proof.
  revert d k. induction log as [|e log IH]; intros d k Hd Hc; [by destruct k|]. destruct k as [|k]; [done|].
  destruct Hc as [[He _] Hc]. cbn. apply IH; [|done].
  destruct e as [| | |ref []|ref []|]; try done; cbn; [|by constructor; [apply He|]].
  by apply NoDup_ListNoDup, List.NoDup_filter, NoDup_ListNoDup.
Qed.

(** A disk that names its heads and counts each card once. *)
Definition sound (d : Disk) : Prop := Kept d ∧ NoDup (dk_live d).

Lemma step_sound owner d d' : pause_step owner d d' → sound d → sound d'.
Proof.
  intros [W c k Ha|records payload live Hnf Hnd Hnamed] [Hk Hd].
  { pose proof (command_checks owner W d c Hk Ha). split; [by apply checks_kept|by apply checks_single]. }
  split; [|done]. intros ref Hin. split; [by apply Hnamed|]. intros [Hm _]. by destruct Hnf.
Qed.

(** C9. No second head. Over any sequence of pauses, resumes and expired freezes,
    each cut by a death after any of its actions and begun again from what is on
    disk, with the dispatcher's own work in between while nothing is frozen
    (assumed to leave each head named and one per card), and a host whose
    launches carry an address and whose failed launches leave no head without a
    matching heartbeat ([host]; the code cannot tell such a head): after every
    action of a command at most one worker head runs for a card and every worker
    head that runs is named by its record on disk; and a worker head is only
    brought up for a card none runs for, with its launch intent already on
    disk. *)
Theorem no_second_head owner W c d0 d :
  sound d0 → rtc (pause_step owner) d0 d → host W →
  let log := command_log owner W d c in
  (∀ k, let now := nexts apply_event d (take k log) in
     NoDup (dk_live now) ∧ ∀ x, x ∈ dk_live now → in_records named (dk_records now) x)
  ∧ ∀ k ref runs, log !! k = Some (EvLaunched ref runs) →
     let now := nexts apply_event d (take k log) in
     ref ∉ dk_live now ∧ in_records worker_intent (dk_records now) ref.
Proof.
  intros Hs0 Hrun Hh log. assert (sound d) as [Hk Hd] by (induction Hrun; [done|]; eauto using step_sound).
  pose proof (command_checks owner W d c Hk Hh) as Hc. fold log in Hc. split.
  - intros k now. split; [by apply checks_single|]. intros x Hx. by apply (checks_kept d log k Hk Hc).
  - intros k ref runs Hl now. rewrite <-(take_drop_middle log k _ Hl) in Hc. by apply checks_app in Hc as [_ [[? _] _]].
Qed.
End commands.
End inv.
