(* ===== verification/PauseFacts.v ===== *)
(** * What a pause promises its operator

    When a freeze lifts itself, and what a freeze says of the heads it could not
    stop. *)

From Stdlib Require Import Ascii.
From S2P Require Import Prelude PyText Program PyStrings IsoTime HeadVitality WorkerLifecycle TerminalTaxonomy WaitCard JsonStandIn Pause PauseOps PauseRuns.

(** ** The text of a moment *)

Lemma iso_char_space c : iso_char c = true → negb (is_space c) = true.
Proof. by destruct c as [[] [] [] [] [] [] [] []]. Qed.

Lemma str_take_before s t : str_take (String.length s) (s +:+ t) = s.
Proof. rewrite str_take_app_le by done. by apply str_take_id. Qed.

Lemma str_app_before s t u : s +:+ u = t +:+ u → s = t.
Proof.
  intros E. assert (String.length s = String.length t) as El.
  { assert (String.length (s +:+ u) = String.length (t +:+ u)) as El by (by rewrite E). rewrite !str_length_app in El. lia. }
  by rewrite <-(str_take_before s u), E, El, str_take_before.
Qed.

Lemma str_ends_with_self s t : str_ends_with (s +:+ t) t = true.
Proof.
  induction s as [|c s IH].
  - destruct t as [|c t]; [done|]. change ((String.eqb (String c t) (String c t) || str_ends_with t (String c t)) = true). by rewrite String.eqb_refl.
  - change ((String.eqb (String c (s +:+ t)) t || str_ends_with (s +:+ t) t) = true). by rewrite IH, orb_true_r.
Qed.

Section parse.
Context `{IsoTime} (utc_instant : string → Z).

Lemma timestamp_seconds t : timestamp (t * MICRO) = seconds t.
Proof.
  unfold timestamp, round_half_even, seconds. replace (t * MICRO * SECOND) with (t * SECOND * MICRO) by lia.
  rewrite Z.mod_mul, Z.div_mul by done. done.
Qed.

(** [now_rfc3339] reads back as its second. *)
Lemma parse_since_written t d : MIN_SECOND ≤ t ≤ MAX_SECOND → isoformat t = d +:+ "+00:00" →
  parse_since utc_instant (VStr (d +:+ "Z")) = Some (seconds t).
Proof.
  intros Ht Ed. destruct (isoformat_shape t Ht) as (d' & Ed' & Hall & _). rewrite Ed in Ed'.
  apply str_app_before in Ed' as <-.
  assert (str_strip (d +:+ "Z") = d +:+ "Z") as Es.
  { apply str_strip_id. rewrite str_all_app, andb_true_iff. split; [|done]. by apply (str_all_impl iso_char); [apply iso_char_space|]. }
  unfold parse_since. rewrite Es. assert (nonempty (d +:+ "Z") = true) as -> by (by destruct d). cbn [negb].
  rewrite str_ends_with_self, str_length_app, Nat.add_sub, str_take_before.
  rewrite <-Ed, fromisoformat_isoformat by done. f_equal. apply timestamp_seconds.
Qed.
End parse.

(** ** Expiry *)

Section expiry.
Context `{PyRepr, IsoTime} (env : string → option string) (utc_instant : string → Z) (pid_file_path : string → string → string).

Lemma stripped_or_empty s : py_str_or (VStr s) = s.
Proof. by destruct s. Qed.

Lemma age_reached now since ttl : 0 < ttl →
  (Z.max 0 (whole_seconds (now - seconds since)) <? ttl) = false ↔ seconds (since + ttl) ≤ now.
Proof. unfold whole_seconds, seconds, SECOND. rewrite Z.ltb_ge. intros Ht. zdiv. Qed.

Lemma freeze_eligible actor reason t d workers reviewers observers excluded receipt now :
  MIN_SECOND ≤ t ≤ MAX_SECOND → isoformat t = d +:+ "+00:00" →
  ar_eligible (auto_resume_status env utc_instant
    (pause_payload FREEZE actor reason (d +:+ "Z") workers reviewers observers excluded receipt) now) = true
  ↔ 0 < auto_resume_ttl_seconds env ∧ str_strip actor ∈ auto_resume_actors env
    ∧ seconds (t + auto_resume_ttl_seconds env) ≤ now.
Proof.
  intros Ht Ed. unfold auto_resume_status. set (state := pause_payload _ _ _ _ _ _ _ _ _).
  change (get state "mode") with (VStr "freeze"). change (get state "actor") with (VStr actor).
  change (get state "since") with (VStr (d +:+ "Z")). rewrite stripped_or_empty, (parse_since_written _ t d Ht Ed).
  change (normalize_pause_mode (VStr "freeze")) with (Some FREEZE). rewrite bool_decide_true by done. cbn [negb].
  destruct (Z.leb_spec (auto_resume_ttl_seconds env) 0); [cbn; naive_solver lia|].
  case_bool_decide; [|cbn; naive_solver]. cbn [negb]. rewrite <-age_reached by done.
  destruct (_ <? _); cbn; naive_solver.
Qed.

Lemma call_bind {A B} (f : nat → A) (k : A → PM B) s :
  (call f ≫= k) s = k (f (ps_calls s)) (s <| ps_calls := S (ps_calls s) |>).
Proof. unfold mbind, Prog_bind, call. by destruct (k _ _) as [[[] ?] ?]. Qed.

(** ** A resume that returns lifts the flag *)

Notation sees := (Program.sees apply_event (λ _ _, True)).

Lemma sees_any {A} (m : PM A) s d : sees m s d (λ _ _ _, True).
Proof.
  unfold Program.sees. destruct (m s) as [[r s'] log]. split; [|by destruct r].
  revert d. induction log as [|e log IH]; intros d; [done|]. split; [done|apply IH].
Qed.

Lemma resume_lifts W flag mirrors actor owner s d :
  sees (resume pid_file_path W flag mirrors actor owner) s d (λ _ _ d', dk_flag d' = NoFlag).
Proof.
  assert (∀ (a : Action * Outcome * list string) s' d', dk_flag d' = NoFlag →
    sees (answer ← with_status W a.1.1 a.2; mret (answer, a.1.2)) s' d' (λ _ _ d', dk_flag d' = NoFlag)) as Hend.
  { intros a s' d' Hd. by split. }
  unfold resume, resume_under_lock. apply sees_bind. destruct (normalize_pause_mode _) as [mode|].
  - apply sees_bind. eapply sees_mono; [apply sees_any|]. intros a s1 d1 _. apply sees_bind.
    eapply sees_mono; [apply sees_any|]. intros refusal s2 d2 _. apply sees_bind, sees_lift. intros cleared _.
    apply sees_bind, sees_emit; [done|]. apply sees_bind, sees_emit; [done|]. by apply sees_ret, Hend.
  - apply sees_bind, sees_emit; [done|]. by apply sees_ret, Hend.
Qed.

(** ** When it returns *)

(** A card whose comments can be read. *)
Definition legible (task : Fields) : Prop :=
  ∃ l, list_or_empty (get task "comments") = Ok l ∧ Forall (λ c, ∃ d, c = VDict d ∧ unhashable (get d "marker") = false) l.

(** The services of a resume do their part: the storage takes the records, a
    launched head is the one asked for, its routing is recorded, the start of a
    reviewer answers, and the cards can be read. *)
Record serving (W : World) : Prop := {
  se_storage n : w_storage W n = None;
  se_handoff n : w_handoff W n = None;
  se_routing n : w_routing W n = None;
  se_review n : rv_raises (w_review W n) = None;
  se_show n task : w_show W n = Some task → legible task;
}.

Definition returns {A} (P : A → Prop) (m : PM A) : Prop := ∀ s, ∃ a, (m s).1.1 = Ok a ∧ P a.
Definition anything {A} (a : A) : Prop := True.

Lemma returns_ret {A} (P : A → Prop) a : P a → returns P (mret a).
Proof. intros Ha s. by exists a. Qed.

Lemma returns_bind {A B} (P : A → Prop) (Q : B → Prop) (m : PM A) (f : A → PM B) :
  returns P m → (∀ a, P a → returns Q (f a)) → returns Q (m ≫= f).
Proof.
  intros Hm Hf s. destruct (Hm s) as (a & E & Ha). unfold mbind, Prog_bind.
  destruct (m s) as [[r s1] l1]. cbn in E. subst r. destruct (Hf a Ha s1) as (b & E & Hb).
  destruct (f a s1) as [[r s2] l2]. by exists b.
Qed.

Lemma returns_call {A} (f : nat → A) : returns (λ a, ∃ n, a = f n) (call f).
Proof. intros s. cbn. eauto. Qed.

Lemma returns_step {A} (f : PState → A) (g : PState → PState) (l : PState → list Event) :
  returns anything (λ s, (Ok (f s), g s, l s)).
Proof. intros s. by exists (f s). Qed.

Lemma returns_with_record {A} (P : A → Prop) ref absent (f : PRecord → PM A) :
  returns P absent → (∀ r, returns P (f r)) → returns P (with_record ref absent f).
Proof.
  intros Ha Hf. eapply returns_bind; [apply (returns_step id id (λ _, []))|]. intros s _.
  destruct (dict_get _ _); [apply Hf|apply Ha].
Qed.

Lemma returns_lift {A} (x : res A) : (∃ a, x = Ok a) → returns anything (lift x).
Proof. intros [a ->] s. by exists a. Qed.

Section serving.
Context (W : World) (served : serving W).

(** The next operation, whatever it returns. *)
Ltac onward := eapply returns_bind; [first [apply returns_call|apply (returns_step (λ _, tt))|apply (returns_step id id (λ _, []))|eassumption]|].

Lemma returns_save : returns anything (save W).
Proof. unfold save. onward. intros r [n ->]. rewrite (se_storage W served). onward. intros s _. apply (returns_step (λ _, tt)). Qed.

Lemma returns_quiet_save : returns anything (quiet_save W).
Proof. unfold quiet_save. onward. intros [] _; [|by apply returns_ret]. onward. intros s _. apply (returns_step (λ _, tt)). Qed.

Lemma legible_marker task baseline markers : legible task → ∃ m, last_marker task baseline markers = Ok m.
Proof.
  intros (l & El & Hl). unfold last_marker. rewrite El. cbn [mbind res_bind]. set (k := Z.to_nat _).
  apply (Forall_drop _ k) in Hl. generalize (@None string). induction Hl as [|c l' (d & -> & Hd) _ IH]; intros found; [by eexists|].
  cbn [last_marker_of]. rewrite Hd. apply IH.
Qed.

Lemma returns_resume_reviewer ref : returns anything (resume_reviewer W ref).
Proof.
  apply returns_with_record; [by apply returns_ret|]. intros r. destruct (_ || _); [by apply returns_ret|].
  onward. intros _ _. onward. intros task [n ->]. destruct (w_show W n) as [task|] eqn:Et; [|by apply returns_ret].
  destruct (negb _); [by apply returns_ret|].
  eapply returns_bind; [apply returns_lift, legible_marker; by eapply se_show|]. intros [m|] _; [by apply returns_ret|].
  apply (returns_bind anything); [|intros; by apply returns_ret]. unfold start_review. onward. intros a [n' ->]. onward. intros _ _.
  onward. intros _ _. apply (returns_bind anything); [destruct (rv_saved _); [apply returns_save|by apply returns_ret]|].
  intros _ _. rewrite (se_review W served). by apply returns_ret.
Qed.

Lemma returns_restart_worker ref : returns anything (restart_worker W ref).
Proof.
  unfold restart_worker. onward. intros answer _. destruct answer as [handle leaf|handle leaf runs|[] runs];
    onward; intros _ _; [|onward; intros _ _..].
  - unfold finish_launch. onward. intros x [n ->]. rewrite (se_handoff W served). onward. intros _ _.
    eapply returns_bind; [apply returns_quiet_save|]. intros _ _. onward. intros _ _. onward. intros x [n' ->].
    rewrite (se_routing W served). onward. intros now _. onward. intros _ _. by apply returns_ret.
  - eapply returns_bind; [apply returns_quiet_save|]. intros _ _. by apply returns_ret.
  - eapply returns_bind; [apply returns_quiet_save|]. intros _ _. by apply returns_ret.
  - by apply returns_ret.
Qed.

Lemma returns_resume_worker ref : returns anything (resume_worker pid_file_path W ref).
Proof.
  apply returns_with_record; [by apply returns_ret|]. intros r. destruct (_ || _); [by apply returns_ret|].
  onward. intros _ _. onward. intros task [n ->]. destruct (w_show W n) as [task|] eqn:Et; [|by apply returns_ret].
  destruct (_ || _); [by apply returns_ret|].
  eapply returns_bind; [apply returns_lift, legible_marker; by eapply se_show|]. intros [m|] _; [by apply returns_ret|].
  apply (returns_bind anything); [|intros [] _; [apply returns_restart_worker|by apply returns_ret]].
  unfold write_worker_intent. onward. intros run_id _. onward. intros [] _; [by apply returns_ret|]. onward. intros at_ _.
  onward. intros _ _. onward. intros [] _; [onward; intros _ _; by apply returns_ret|]. onward. intros s _. onward. intros _ _.
  by apply returns_ret.
Qed.

Lemma returns_resume_loop turn suffix l : (∀ ref, returns anything (turn ref)) →
  returns anything (resume_loop turn suffix (VStr <$> l)).
Proof.
  intros Ht. induction l as [|ref l IH]; [by apply returns_ret|]. rewrite fmap_cons. cbn [resume_loop item_ref].
  apply (returns_bind (λ x, x = Some ref)); [intros s; by exists (Some ref)|]. intros ? ->.
  eapply returns_bind; [apply Ht|]. intros b _. eapply returns_bind; [exact IH|]. intros rest _. by apply returns_ret.
Qed.

Lemma str_list_items l : list_or_empty (str_list l) = Ok (VStr <$> sort_strings l).
Proof. unfold list_or_empty, str_list. by destruct (sort_strings l). Qed.

Lemma returns_resume actor reason since workers reviewers observers excluded receipt mirrors by_ owner :
  returns anything (resume pid_file_path W
    (Flag (VDict (pause_payload FREEZE actor reason since workers reviewers observers excluded receipt))) mirrors by_ owner).
Proof.
  set (state := pause_payload _ _ _ _ _ _ _ _ _). unfold resume, resume_under_lock. cbn [load_pause].
  change (normalize_pause_mode (get state "mode")) with (Some FREEZE). cbv iota beta.
  rewrite bool_decide_true by done.
  apply (returns_bind anything); [|intros a _; unfold with_status; apply (returns_bind anything); [onward; intros; by apply returns_ret|intros; by apply returns_ret]].
  apply (returns_bind anything).
  - unfold thaw. onward. intros s _. destruct (state_unreadable _); [by apply returns_ret|].
    apply (returns_bind anything).
    + unfold resume_heads. change (get state "stopped_reviewer") with (str_list reviewers).
      change (get state "stopped_worker") with (str_list workers). rewrite !str_list_items.
      apply (returns_bind (λ l, l = VStr <$> sort_strings reviewers)); [intros s0; by eexists|]. intros ? ->.
      eapply returns_bind; [apply returns_resume_loop, returns_resume_reviewer|]. intros a _.
      apply (returns_bind (λ l, l = VStr <$> sort_strings workers)); [intros s0; by eexists|]. intros ? ->.
      eapply returns_bind; [apply returns_resume_loop, returns_resume_worker|]. intros b _. by apply returns_ret.
    + intros outcome _. onward. intros obs _. onward. intros _ _. apply (returns_bind anything); [onward; intros now _; apply (returns_step (λ _, tt))|].
      intros _ _. onward. intros now _. onward. intros _ _. eapply returns_bind; [apply returns_save|]. intros _ _. by apply returns_ret.
  - intros a _. onward. intros refusal _. change (get state "legacy_mirror") with (VDict receipt).
    eapply returns_bind; [apply returns_lift|].
    { unfold clear_legacy_mirror. change (get state "legacy_mirror") with (VDict receipt).
      destruct (py_truthy (VDict receipt)); by eexists. }
    intros cleared _. onward. intros _ _. onward. intros _ _. by apply returns_ret.
Qed.
End serving.

(** What the tick makes of a resume: an answer, or what it raised; the flag is
    off the disk whenever the resume returned. *)
Lemma surfaced_outcome m s d :
  sees m s d (λ _ _ d', dk_flag d' = NoFlag) →
  let ran := (answer ← surfaced m; mret (Some answer)) s in
  let lifted := dk_flag (nexts apply_event d ran.2) = NoFlag in
  ∃ answer, ran.1.1 = Ok (Some answer) ∧ (∀ a, answer = Ok a → lifted) ∧ ((∃ a, (m s).1.1 = Ok a) → lifted).
Proof.
  unfold mbind, Prog_bind, surfaced, Program.sees. destruct (m s) as [[[a|e] s'] log]; intros [_ Hl]; cbn -[nexts] in *; rewrite app_nil_r.
  - eexists. split_and!; [done|done|done].
  - eexists. split_and!; [done|done|]. by intros [? ?].
Qed.

(** C19. A freeze lifts itself exactly when it must. The tick's look at a freeze
    that a pause wrote at the second [t] resumes it precisely when the TTL is not
    zero, the actor is one of the automation actors, and [t] plus the TTL has
    come.  When it is due, the resume runs: the flag is gone from the disk
    whenever it answers without an exception, and it is gone for certain when
    the services it calls do their part ([serving]).  When it is not due, the
    tick does nothing at all.  A freeze by a person is never lifted. *)
Theorem freeze_expires_exactly W mirrors owner actor reason t d workers reviewers observers excluded receipt s disk :
  MIN_SECOND ≤ t ≤ MAX_SECOND → isoformat t = d +:+ "+00:00" →
  let flag := Flag (VDict (pause_payload FREEZE actor reason (d +:+ "Z") workers reviewers observers excluded receipt)) in
  let due := 0 < auto_resume_ttl_seconds env ∧ str_strip actor ∈ auto_resume_actors env
             ∧ seconds (t + auto_resume_ttl_seconds env) ≤ w_clock W (ps_calls s) in
  let ran := auto_resume env utc_instant pid_file_path W flag mirrors owner s in
  let lifted := dk_flag (nexts apply_event disk ran.2) = NoFlag in
  (due → ∃ answer, ran.1.1 = Ok (Some answer) ∧ (∀ a, answer = Ok a → lifted) ∧ (serving W → lifted))
  ∧ (¬ due → ran.1.1 = Ok None ∧ ran.2 = [] ∧ ps_records ran.1.2 = ps_records s).
Proof.
  intros Ht Ed flag due ran lifted.
  pose proof (freeze_eligible actor reason t d workers reviewers observers excluded receipt (w_clock W (ps_calls s)) Ht Ed) as He.
  fold due in He. unfold lifted, ran, auto_resume. change (load_pause flag) with (pause_payload FREEZE actor reason (d +:+ "Z") workers reviewers observers excluded receipt).
  rewrite call_bind. destruct (ar_eligible _).
  - split; [intros _|intros Hn; by destruct Hn; apply He].
    set (s1 := s <| ps_calls := S (ps_calls s) |>).
    destruct (surfaced_outcome _ s1 disk (resume_lifts W flag mirrors "auto-resume" owner s1 disk)) as (answer & E & H1 & H2).
    exists answer. split; [exact E|]. split; [exact H1|]. intros Hs. apply H2.
    edestruct (returns_resume W Hs) as (a & Ea & _). exists a. exact Ea.
  - split; [|done]. intros Hd. by apply He in Hd.
Qed.
End expiry.

(** ** A freeze that stops nothing *)

Section refused.
Context `{PyRepr, IsoTime} (env : string → option string) (home : string) (abspath expanduser : string → string) (W : World).
Hypothesis refused : ∀ n, is_Some (w_stop W n).

Notation sees := (Program.sees apply_event (λ _ _, True)).

(** It ends with an answer in [P], the live heads untouched. *)
Definition spares {A} (P : A → Prop) (m : PM A) : Prop :=
  ∀ s d, sees m s d (λ a _ d', P a ∧ dk_live d' = dk_live d ∧ dk_flag d' = dk_flag d).

Lemma spares_ret {A} (P : A → Prop) a : P a → spares P (mret a).
Proof. intros Ha s d. by apply sees_ret. Qed.

Lemma spares_lift {A} (x : res A) : spares (λ _, True) (lift x).
Proof. intros s d. by apply sees_lift. Qed.

Lemma spares_call {A} (f : nat → A) : spares (λ a, ∃ n, a = f n) (call f).
Proof. intros s d. unfold Program.sees, call. split; [done|]. split_and!; eauto. Qed.

Lemma spares_bind {A B} (P : A → Prop) (Q : B → Prop) m (f : A → PM B) :
  spares P m → (∀ a, P a → spares Q (f a)) → spares Q (m ≫= f).
Proof.
  intros Hm Hf s d. apply sees_bind. eapply sees_mono; [apply Hm|]. intros a s1 d1 (Ha & El & Ef).
  eapply sees_mono; [apply Hf, Ha|]. intros b s2 d2 (Hb & El2 & Ef2). split_and!; [done|congruence..].
Qed.

Lemma spares_on_record ref f : spares (λ _, True) (on_record ref f).
Proof. intros s d. by split. Qed.

Lemma spares_with_record {A} (P : A → Prop) ref absent (f : PRecord → PM A) :
  spares P absent → (∀ r, spares P (f r)) → spares P (with_record ref absent f).
Proof.
  intros Ha Hf s d. unfold with_record. apply sees_bind. unfold Program.sees at 1, the_state. split; [done|].
  destruct (dict_get _ _); [apply Hf|apply Ha].
Qed.

Lemma spares_save : spares (λ _, True) (save W).
Proof.
  unfold save. eapply spares_bind; [apply spares_call|]. intros [e|] _; [apply spares_lift|].
  intros s d. apply sees_bind. unfold Program.sees at 1, the_state. split; [done|]. by apply sees_emit.
Qed.

Lemma spares_stop ref worker : spares (λ gone, gone = false) (stop_pane W ref worker).
Proof.
  unfold stop_pane. eapply spares_bind; [apply spares_call|]. intros flush _.
  eapply (spares_bind (λ _, True)); [destruct flush; [apply spares_save|by apply spares_ret]|]. intros _ _.
  eapply spares_bind; [apply spares_call|]. intros x [n ->]. destruct (refused n) as [e ->]. by apply spares_ret.
Qed.

Lemma spares_after_stop {A} (P : A → Prop) (m : PM bool) (k : bool → PM A) :
  spares (λ gone, gone = false) m → spares P (k false) → spares P (m ≫= k).
Proof. intros Hm Hk. eapply spares_bind; [exact Hm|]. by intros ? ->. Qed.

Lemma spares_end_review ref : spares (λ gone, gone = false) (end_review_pane W ref).
Proof. apply spares_after_stop; [apply spares_stop|by apply spares_ret]. Qed.

Lemma spares_stop_worker ref : spares (λ gone, gone = false) (stop_worker W ref).
Proof. apply spares_after_stop; [apply spares_stop|by apply spares_ret]. Qed.

Lemma spares_stop_workspace ref : spares (λ gone, gone = false) (stop_workspace W ref).
Proof.
  unfold stop_workspace. eapply spares_bind; [apply spares_call|]. intros x [n ->]. destruct (refused n) as [e ->].
  by apply spares_ret.
Qed.

Lemma spares_stop_intent ref intent role : spares (λ gone, gone = false) (stop_launch_intent W ref intent role).
Proof.
  unfold stop_launch_intent. eapply spares_bind; [apply spares_on_record|]. intros _ _.
  apply spares_with_record; [by apply spares_ret|]. intros r. eapply spares_bind; [apply spares_call|]. intros hb _.
  destruct (hb_mismatch hb); [by apply spares_ret|]. apply spares_after_stop; [|by apply spares_ret].
  destruct (_ || hb_known hb); [|apply spares_stop_workspace].
  destruct (String.eqb _ _); [apply spares_end_review|apply spares_stop_worker].
Qed.

Lemma spares_freeze_head excluded now ref :
  spares (λ marks, marks.1 = ([], [])) (freeze_head abspath W excluded now ref).
Proof.
  unfold freeze_head. apply spares_with_record; [by apply spares_ret|]. intros r. destruct (_ && _); [by apply spares_ret|].
  apply (spares_bind (λ first, first = None ∨ first = Some ([], [], []))).
  { unfold stop_intent_of. destruct (launch_intent r); [apply spares_ret; auto|].
    apply spares_after_stop; [apply spares_stop_intent|apply spares_ret; auto]. }
  intros first [-> | ->]; [by apply spares_ret|]. apply spares_with_record; [by apply spares_ret|]. intros r'.
  apply (spares_bind (λ reviewed, reviewed = None ∨ reviewed = Some [])).
  { destruct (_ || _); [|apply spares_ret; auto]. apply spares_after_stop; [apply spares_end_review|apply spares_ret; auto]. }
  intros reviewed [-> | ->]; [by apply spares_ret|]. destruct (_ || _); [|by apply spares_ret].
  apply spares_after_stop; [apply spares_stop_worker|by apply spares_ret].
Qed.

Lemma spares_freeze_loop excluded now refs :
  spares (λ marks, marks.1 = ([], [])) (freeze_loop abspath W excluded now refs).
Proof.
  induction refs as [|ref refs IH]; [by apply spares_ret|]. cbn [freeze_loop].
  eapply spares_bind; [apply spares_freeze_head|]. intros [a1 a2] Ea. eapply spares_bind; [exact IH|]. intros [b1 b2] Eb.
  apply spares_ret. cbn in *. by subst.
Qed.

Hypothesis observers_stop : ∀ n payload, (w_freeze_observers W n payload).2.2 = [].

Lemma freeze_all_spares actor reason exclude s d : state_unreadable (ps_payload s) = false →
  sees (freeze_all abspath expanduser W actor reason exclude) s d
    (λ stops _ d', stops.2 = [] ∧ dk_live d' = dk_live d ∧ dk_flag d' = dk_flag d).
Proof.
  intros Hs. unfold freeze_all. apply sees_bind. unfold Program.sees at 1, the_state. split; [done|]. rewrite Hs.
  cut (spares (λ stops, stops.2 = []) (marks ← freeze_heads abspath W (excluded_of abspath expanduser exclude);
    stops ← call (w_freeze_observers W);
    let '(payload, (stopped, failed)) := stops (ps_payload s) in
    modify (λ s, s <| ps_payload := payload |>) ≫= λ _, save W ≫= λ _,
    mret (marks, stopped, match failed with
                          | [] => []
                          | _ => ["observer heads could not be stopped and are retried by the next tick: "
                                  +:+ String.concat ", " failed]
                          end))); [intros Hsp; apply Hsp|].
  apply (spares_bind (λ _, True)).
  { unfold freeze_heads. eapply spares_bind; [apply spares_call|]. intros now _ s1 d1. apply sees_bind.
    unfold Program.sees at 1, the_state. split; [done|].
    eapply sees_mono; [apply spares_freeze_loop|]. by intros ? ? ? (_ & ? & ?). }
  intros marks _. eapply spares_bind; [apply spares_call|]. intros stops [n ->].
  pose proof (observers_stop n (ps_payload s)) as Ef. destruct (w_freeze_observers W n _) as [payload [stopped failed]].
  cbn in Ef. subst failed. apply (spares_bind (λ _, True)); [by intros s1 d1|]. intros _ _.
  eapply spares_bind; [apply spares_save|]. intros _ _. by apply spares_ret.
Qed.
End refused.

Section unsaid.
Context `{PyRepr, IsoTime} (env : string → option string) (home : string) (abspath expanduser : string → string).

(** C38. A freeze says nothing of the heads it could not stop. When the host
    refuses every stop of a worker, a reviewer or a launch while the observers
    stop, a freeze that takes leaves every worker head running under a freeze on
    disk, and its answer carries no warning. (The operations guide: a freeze
    stops the live worker, reviewer and observer heads, and warns of an observer
    it could not stop; a frozen tick retries no other.) *)
Theorem refused_stops_go_unsaid W flag mirrors mode actor reason exclude s answer s' log d :
  (∀ n, is_Some (w_stop W n)) → (∀ n payload, (w_freeze_observers W n payload).2.2 = []) →
  state_unreadable (ps_payload s) = false → normalize_pause_mode mode = Some FREEZE →
  pause env home abspath expanduser W flag mirrors mode actor reason exclude s = (Ok answer, s', log) →
  ca_action answer = APaused →
  let d' := nexts apply_event d log in
  pause_mode (dk_flag d') = Some FREEZE ∧ dk_live d' = dk_live d ∧ ca_warnings answer = [].
Proof.
  intros Hr Ho Hs Hm E Ha d'.
  cut (Program.sees apply_event (λ _ _, True) (pause env home abspath expanduser W flag mirrors mode actor reason exclude) s d
    (λ answer _ d', ca_action answer = APaused →
       pause_mode (dk_flag d') = Some FREEZE ∧ dk_live d' = dk_live d ∧ ca_warnings answer = [])).
  { unfold Program.sees. rewrite E. intros [_ Hq]. by apply Hq. }
  clear E Ha. unfold pause. rewrite Hm. destruct (negb _); [by split|]. destruct (negb _); [by split|].
  destruct (pause_mode flag) as [current|]; [case_bool_decide; by split|]. rewrite bool_decide_true by done.
  apply sees_bind. unfold Program.sees at 1, call. split; [done|]. apply sees_bind.
  eapply sees_mono; [by apply freeze_all_spares|]. cbn beta.
  intros [[[[workers reviewers] excluded] observers] warnings] s1 d1 (Ew & El & _). cbn in Ew. subst warnings.
  apply sees_bind. unfold Program.sees at 1, call. split; [done|].
  destruct (write_legacy_mirror _ _ _ _ _ _ _ _) as [files receipt]. apply sees_bind, sees_emit; [done|].
  apply sees_bind, sees_emit; [done|]. split; [done|]. intros _. by split_and!.
Qed.
End unsaid.
