(* ===== verification/PauseWitnesses.v ===== *)
(** * Witnesses of the pause's claims

    A card with a running worker, frozen by a backup and resumed. *)

From stdpp Require Import relations.
From S2P Require Import Prelude PyText Program PyStrings IsoTime HeadVitality WorkerLifecycle TerminalTaxonomy WaitCard JsonStandIn Pause PauseOps PauseRuns PauseFacts.

Module PauseExample.

(** A host that answers every call the same way. *)
Definition world (clock : Z) (now : string) (refusal : option string) : World := {|
  w_clock := λ _, clock; w_now := λ _, now; w_storage := λ _, None; w_flush := λ _, true; w_stop := λ _, refusal;
  w_heartbeat := λ _, {| hb_mismatch := false; hb_known := true |};
  w_freeze_observers := λ _ p, (p, ([], [])); w_resume_observers := λ _ p, (p, []);
  w_show := λ _, Some [("state", VStr "in_progress"); ("comments", VList [])];
  w_review := λ _, {| rv_raises := None; rv_status := "ok"; rv_state := "validate"; rv_handle := "r"; rv_leaf := "";
                      rv_pid_file := ""; rv_intent := None; rv_saved := true |};
  w_uuid := λ _, "run-1"; w_preflight := λ _, None; w_restart := λ _, Launched "sock" ""; w_persist := λ _, true;
  w_handoff := λ _, None; w_routing := λ _, None; w_mirror := λ _, None; w_render := λ _, None |}.

Definition worker : PRecord := {|
  pr_state := "claimed"; pr_workspace := "/ws/t1"; pr_head := "codex"; pr_attempt_id := "attempt-1"; pr_round := 1;
  pr_comment_baseline := 0; pr_review_baseline := 0; pr_respawns := 0; pr_handle := "pane"; pr_leaf := "";
  pr_pid_file := "/pids/t1"; pr_review_handle := ""; pr_review_leaf := ""; pr_review_pid_file := ""; pr_review_commit := "";
  pr_intent := []; pr_settled := false; pr_continuation := cleared; pr_paused_worker_at := 0;
  pr_paused_reviewer_at := 0; pr_worker_started_at := 1; pr_worker_waiting_since := 1; pr_worker_progress_at := 1;
  pr_worker_idle_since := 0; pr_review_waiting_since := 0; pr_review_progress_at := 0; pr_review_idle_since := 0;
  pr_gate_pending_since := 0 |}.

Definition running : Disk := {|
  dk_flag := NoFlag; dk_mirrors := []; dk_records := [("T-1", worker)]; dk_payload := [("phase", VStr "production")];
  dk_live := ["T-1"] |}.

Definition env : string → option string := λ _, None.
Definition pid_file (role ref : string) : string := "/pids/" +:+ ref.
Definition log_of (W : World) (d : Disk) (c : Command) : list Event :=
  command_log env "/home/op" (λ _, 0) id id pid_file "ummanu" W d c.

(** Frozen at the first second of 2025, its worker's head confirmed gone. *)
Definition since : Z := 1735689600.
Definition freezing : World := world (seconds since) "2025-01-01T00:00:00Z" None.
Definition freeze : Command := CPause (VStr "hard") " pipeline " "backup" [].
Definition frozen : Disk := nexts apply_event running (take 10 (log_of freezing running freeze)).

Definition resuming : World := world (seconds (since + 3000)) "2025-01-01T00:50:00Z" None.
Definition resumed_log : list Event := log_of resuming frozen (CResume "op").

End PauseExample.

Section witnesses.
Import PauseExample.

Lemma running_sound : sound running.
Proof. split; [|apply NoDup_singleton]. intros ref Hin. apply list_elem_of_singleton in Hin as ->. split; [by eexists|]. by intros [? _]. Qed.

Lemma frozen_reached : rtc (pause_step env "/home/op" (λ _, 0) id id pid_file "ummanu") running frozen.
Proof.
  apply rtc_once. unfold frozen, log_of. apply step_command. split; [intros n handle leaf [= <- <-]; done|intros n runs; done].
Qed.

(** The freeze stops the head, and the resume brings one back. *)
Lemma no_second_head_witness :
  let now k := nexts apply_event frozen (take k resumed_log) in
  resumed_log !! 1%nat = Some (EvLaunched "T-1" true)
  ∧ "T-1" ∉ dk_live (now 1%nat) ∧ in_records worker_intent (dk_records (now 1%nat)) "T-1"
  ∧ dk_live (now 2%nat) = ["T-1"] ∧ ∀ x, x ∈ dk_live (now 2%nat) → in_records named (dk_records (now 2%nat)) x.
Proof.
  destruct (no_second_head env "/home/op" (λ _, 0) id id pid_file "ummanu" resuming (CResume "op") running frozen) as [H1 H2].
  - exact running_sound.
  - exact frozen_reached.
  - split; [intros n handle leaf [= <- <-]; reflexivity|intros n runs; discriminate].
  - split; [vm_compute; reflexivity|]. destruct (H2 1%nat "T-1" true) as [H3 H4]; [vm_compute; reflexivity|].
    split; [exact H3|]. split; [exact H4|]. split; [vm_compute; reflexivity|]. apply (H1 2%nat).
Defined.

(** The receipt of the legacy flag the freeze wrote. *)
Definition receipt : Fields :=
  [("path", VStr "/home/op/orca/workspaces/ummanu/pipeline/state/pipeline/pause.json"); ("written", VBool true)].

Lemma resuming_serves : serving resuming.
Proof. split; try reflexivity. intros n task [= <-]. exists []. split; [reflexivity|constructor]. Qed.

(** The backup's freeze, fifty minutes old; and the same freeze by a person. *)
Lemma freeze_expires_exactly_witness :
  let state actor := pause_payload FREEZE actor "backup" ("2025-01-01T00:00:00" +:+ "Z") ["T-1"] [] [] [] receipt in
  let ran actor := auto_resume env (λ _, 0) pid_file resuming (Flag (VDict (state actor))) [] "ummanu"
                     {| ps_records := dk_records frozen; ps_payload := dk_payload frozen; ps_calls := 0 |} in
  dk_flag frozen = Flag (VDict (state "pipeline")) ∧ dk_flag (nexts apply_event frozen (ran "pipeline").2) = NoFlag
  ∧ (ran "anna").2 = [].
Proof.
  split; [vm_compute; reflexivity|]. split.
  - destruct (freeze_expires_exactly env (λ _, 0) pid_file resuming [] "ummanu" "pipeline" "backup" since "2025-01-01T00:00:00"
             ["T-1"] [] [] [] receipt {| ps_records := dk_records frozen; ps_payload := dk_payload frozen; ps_calls := 0 |} frozen)
      as [Hdue _]; [vm_compute; split; discriminate|vm_compute; reflexivity|].
    destruct Hdue as (answer & _ & _ & Hlift); [|exact (Hlift resuming_serves)].
    split; [vm_compute; reflexivity|]. split; [|vm_compute; discriminate].
    eapply bool_decide_eq_true_1. vm_compute. reflexivity.
  - apply (freeze_expires_exactly env (λ _, 0) pid_file resuming [] "ummanu" "anna" "backup" since "2025-01-01T00:00:00"
             ["T-1"] [] [] [] receipt _ frozen); [vm_compute; split; discriminate|vm_compute; reflexivity|].
    intros (_ & Hin & _). revert Hin. eapply bool_decide_eq_false_1. vm_compute. reflexivity.
Defined.

(** The same freeze, every stop refused. *)
Lemma refused_stops_go_unsaid_witness :
  let refusing := world (seconds since) "2025-01-01T00:00:00Z" (Some "stop is not confirmed") in
  let s := {| ps_records := dk_records running; ps_payload := dk_payload running; ps_calls := 0 |} in
  let ran := pause env "/home/op" id id refusing NoFlag [] (VStr "hard") "pipeline" "backup" [] s in
  let d' := nexts apply_event running ran.2 in
  pause_mode (dk_flag d') = Some FREEZE ∧ dk_live d' = ["T-1"]
  ∧ match ran.1.1 with Ok answer => ca_warnings answer = [] | Raise _ => False end.
Proof.
  intros refusing s ran d'. destruct ran as [[[answer|e] s'] log] eqn:E; [|vm_compute in E; discriminate].
  apply (refused_stops_go_unsaid env "/home/op" id id refusing NoFlag [] (VStr "hard") "pipeline" "backup" [] s answer s' log running).
  - intros n. by eexists.
  - reflexivity.
  - reflexivity.
  - reflexivity.
  - exact E.
  - vm_compute in E. injection E as <- _ _. reflexivity.
Defined.
End witnesses.
