(* ===== verification/Scenarios.v ===== *)
(** * Scenarios: concrete heads, ticks and records

    Executable checks of the well-formedness predicates, and the concrete data
    on which the theorems and the findings are evaluated. *)

From S2P Require Import Prelude PyText HeadVitality HeadVitalityEpisode HeadVitalityReduce HeadVitalityReduceFacts.
From S2P Require Import HeadVitalityRefine HeadVitalityTraces WaitVitality.

(** Any rendering of compound values will do; this one stands for Python's. *)
#[export] Instance plain_repr : PyRepr := λ _, "<value>".

(** ** Executable checks *)

Definition short (n : nat) (s : string) : bool := (String.length s <=? n)%nat.

Definition snapshot_check (s : VitalitySnapshot) : bool :=
  nonempty (str_strip (run_id s)) && (0 <=? observed_at s) && (0 <=? turn_since s)
  && from_option (short CURSOR_LIMIT) true (cursor s) && short REASON_LIMIT (reason s)
  && short CHILD_KEY_LIMIT (child_key s) && short COMMAND_LIMIT (command s)
  && short COMMAND_LIMIT (output_path s).

Lemma short_spec n s : short n s = true → (String.length s ≤ n)%nat.
Proof. unfold short. apply Nat.leb_le. Qed.

Lemma snapshot_checked s : snapshot_check s = true → snapshot_wf s.
Proof.
  unfold snapshot_check. intros H. boolify. split; try lia; try done; try by apply short_spec.
  destruct (cursor s); [|done]. by apply short_spec.
Qed.

Lemma snapshots_checked l : forallb snapshot_check l = true → Forall snapshot_wf l.
Proof.
  intros H. apply Forall_forall. intros s Hs. apply snapshot_checked. rewrite forallb_forall in H.
  by apply H, list_elem_of_In.
Qed.

Definition episode_check (e : VitalityEpisode) : bool :=
  nonempty (str_strip (e_run_id e)) && forallb (λ p, 0 <=? p.2) (stamps e)
  && (0 <=? recovery_rung e) && (0 <=? recovery_span_started_at e)
  && (0 <=? deterministic_refusals e) && (0 <=? activity_epoch e)
  && forallb (λ p, 0 <=? p.2) (unavailable_since e) && bool_decide (last_turn e ∈ [""; "active"; "idle"])
  && bool_decide (NoDup (evidence_cursors e).*1)
  && forallb (λ p, short NAME_LIMIT p.1 && short CURSOR_LIMIT p.2) (evidence_cursors e)
  && bool_decide (NoDup (unavailable_since e).*1) && forallb (λ p, short NAME_LIMIT p.1) (unavailable_since e)
  && (length (basis e) <=? BASIS_ENTRY_LIMIT)%nat && forallb (short BASIS_TOKEN_LIMIT) (basis e)
  && short REASON_LIMIT (e_reason e) && short CHILD_KEY_LIMIT (last_child_key e)
  && short COMMAND_LIMIT (last_child_command e) && short COMMAND_LIMIT (last_child_output e)
  && short NAME_LIMIT (last_progress_source e).

Lemma forallb_Forall {A} (f : A → bool) (P : A → Prop) l :
  (∀ x, f x = true → P x) → forallb f l = true → Forall P l.
Proof.
  intros HP H. apply Forall_forall. intros x Hx. rewrite forallb_forall in H. by apply HP, H, list_elem_of_In.
Qed.

Lemma episode_checked e : episode_check e = true → episode_wf e.
Proof.
  unfold episode_check. rewrite !andb_true_iff. intros H. destruct_and! H.
  repeat match goal with
  | H : bool_decide _ = true |- _ => apply bool_decide_eq_true in H
  | H : (_ <=? _) = true |- _ => apply Z.leb_le in H
  | H : (_ <=? _)%nat = true |- _ => apply Nat.leb_le in H
  | H : short _ _ = true |- _ => apply short_spec in H
  end.
  split; try done.
  - split; try done.
    + eapply forallb_Forall; [|eassumption]. intros ? ?. by apply Z.leb_le.
    + unfold dict_all. eapply (forallb_Forall (λ p, 0 <=? p.2)); [|eassumption]. intros ? ?. by apply Z.leb_le.
  - split; [done|]. eapply forallb_Forall; [|eassumption]. intros ? [? ?]%andb_true_iff. split; by apply short_spec.
  - split; [done|]. eapply forallb_Forall; [|eassumption]. intros. by apply short_spec.
  - split; [done|]. eapply forallb_Forall; [|eassumption]. intros. by apply short_spec.
Qed.

Lemma default_thresholds_wf : thresholds_wf DEFAULT_VITALITY_THRESHOLDS.
Proof. split; vm_compute; done. Qed.

Definition tick_check (previous : option VitalityEpisode) (snapshots : list VitalitySnapshot) (now owed : Z) : bool :=
  from_option episode_check true previous && negb (length snapshots =? 0)%nat
  && forallb snapshot_check snapshots && (0 <=? now) && (0 <=? owed).

Lemma tick_checked previous snapshots now owed :
  tick_check previous snapshots now owed = true →
  tick_input previous snapshots now DEFAULT_VITALITY_THRESHOLDS owed.
Proof.
  unfold tick_check. rewrite !andb_true_iff. intros H. destruct_and! H. split.
  - destruct previous; [|done]. by apply episode_checked.
  - intros ->. done.
  - by apply snapshots_checked.
  - by apply Z.leb_le.
  - apply default_thresholds_wf.
  - by apply Z.leb_le.
Qed.

Definition tick_ok_check (rid : string) (since : Z) (t : Tick) : bool :=
  bool_decide (rid ∈ run_id <$> tk_snapshots t) && forallb snapshot_check (tk_snapshots t)
  && (since <=? tk_now t) && (0 <=? tk_owed t).

Fixpoint ticks_ok_check (rid : string) (since : Z) (ticks : list Tick) : bool :=
  match ticks with
  | [] => true
  | t :: rest => tick_ok_check rid since t && ticks_ok_check rid (tk_now t) rest
  end.

Lemma ticks_ok_checked rid since ticks : ticks_ok_check rid since ticks = true → ticks_ok rid since ticks.
Proof.
  revert since. induction ticks as [|t ticks IH]; intros since; cbn [ticks_ok_check ticks_ok]; [done|].
  intros [Ht Hr]%andb_true_iff. split; [|by apply IH]. unfold tick_ok_check in Ht. rewrite !andb_true_iff in Ht.
  destruct_and! Ht. split; [by eapply bool_decide_eq_true|by apply snapshots_checked|by apply Z.leb_le|by apply Z.leb_le].
Qed.

(** ** One head and its readings *)

Definition reading (rid : string) (src : SnapshotSource) (at_ : Z) (a : SourceAvailability) (p : ProcessState)
    (g : ProgressState) (cur : option string) (why : string) : VitalitySnapshot :=
  {| run_id := rid; source := src; observed_at := at_; availability := a; process := p; turn := T_UNKNOWN;
     progress := g; cursor := cur; reason := why; child_key := ""; command := ""; output_path := "";
     turn_since := 0 |}.

(** The heartbeat of run [r1] at a second. *)
Definition pid_at (s : Z) (p : ProcessState) : VitalitySnapshot :=
  reading "r1" PID_HEARTBEAT (seconds s) AVAILABLE p G_UNKNOWN None "".

Definition provider_at (s : Z) (g : ProgressState) : VitalitySnapshot :=
  reading "r1" PROVIDER_CURSOR (seconds s) AVAILABLE P_UNKNOWN g (Some "c1") "".

Definition provider_dark_at (s : Z) (why : string) : VitalitySnapshot :=
  reading "r1" PROVIDER_CURSOR (seconds s) UNAVAILABLE P_UNKNOWN G_UNKNOWN None why.

Definition child_at (s : Z) : VitalitySnapshot :=
  reading "r1" EXECUTION_CHILD (seconds s) AVAILABLE P_UNKNOWN G_ADVANCING None "".

Definition pane_at (s : Z) : VitalitySnapshot :=
  reading "r1" PANE_ADVISORY (seconds s) AVAILABLE P_UNKNOWN G_UNKNOWN None "" .

Definition journal_idle_at (s since : Z) : VitalitySnapshot :=
  {| run_id := "r1"; source := SUPERVISOR_JOURNAL; observed_at := seconds s; availability := AVAILABLE;
     process := P_UNKNOWN; turn := T_IDLE; progress := G_QUIET; cursor := None; reason := ""; child_key := "";
     command := ""; output_path := ""; turn_since := seconds since |}.

Definition tick_at (s : Z) (l : list VitalitySnapshot) : Tick :=
  {| tk_now := seconds s; tk_snapshots := l; tk_retained := false; tk_owed := 0; tk_adapter := "" |}.

(** The episode of [r1], started at second 1000 and just seen to progress. *)
Definition started : VitalityEpisode := blank_episode "r1" (seconds 1000).

Definition progressed : VitalityEpisode :=
  started <| verdict := HEALTHY_ACTIVE |> <| last_progress_at := seconds 1000 |>
          <| last_progress_source := "provider_cursor" |>.
