(* ===== verification/Witnesses.v ===== *)
(** * Witnesses: each theorem at a concrete input

    For every property with hypotheses, a scenario in which they hold, and what
    the theorem says there. *)

From stdpp Require Import relations.
From S2P Require Import Prelude PyText HeadVitality HeadVitalityFacts HeadVitalityEpisode HeadVitalityReduce.
From S2P Require Import HeadVitalityReduceFacts HeadVitalityVerdicts HeadVitalitySpec HeadVitalityRefine.
From S2P Require Import HeadVitalityProperties HeadVitalityIndependence HeadVitalityTraces HeadVitalityPolicy.
From S2P Require Import HeadVitalityGuard WaitVitality WaitVitalityFacts WaitVitalitySafety RecoveryLadder Board.
From S2P Require Import BoardFacts TerminalTaxonomy Scenarios.

Notation TH := DEFAULT_VITALITY_THRESHOLDS.

(** Discharge a checked hypothesis by evaluation. *)
Ltac eval_check := first [ apply tick_checked | apply ticks_ok_checked | apply episode_checked
  | apply snapshot_checked | apply default_thresholds_wf ]; vm_compute; reflexivity.

Ltac eval_heard := first [ apply heard_false | apply heard_true | apply advanced_false | apply advanced_true ];
  vm_compute; reflexivity.

(** ** The reducer *)

Definition quiet_batch (s : Z) : list VitalitySnapshot := [pid_at s P_RUNNING; provider_at s G_QUIET].

Lemma reduce_total_witness :
  ∃ e', reduce_vitality (Some started) (quiet_batch 1010) (time_val (seconds 1010)) TH false (time_val 0) "" = Ok e' ∧
    episode_wf e' ∧ updated_at e' = seconds 1010 ∧ e_run_id e' ∈ run_id <$> quiet_batch 1010 ∧
    ∀ p, Some started = Some p → e_run_id p ∈ run_id <$> quiet_batch 1010 → ladder_state e' = ladder_state p.
Proof. apply (reduce_total (Some started) (quiet_batch 1010) (seconds 1010) TH false 0 ""). eval_check. Defined.

Lemma alone_checked owned :
  forallb (λ s, negb (bool_decide (source s ∈ [EXECUTION_CHILD; SUPERVISOR_JOURNAL]))) owned = true → alone owned.
Proof.
  rewrite forallb_forall. intros Ha s Hs%list_elem_of_In%Ha%negb_true_iff%bool_decide_eq_false _.
  rewrite !elem_of_cons in Hs. split; [tauto|]. intros Hj. tauto.
Qed.

Lemma still_checked owned : existsb (λ s, bool_decide (progress s = G_QUIET)) (strong_of owned) = true ↔ still owned.
Proof. rewrite existsb_elem. unfold still. by setoid_rewrite bool_decide_eq_true. Qed.

(** A confirmation earned by an idle turn, ten minutes after the head's last
    progress. *)
Definition confirmed_early : VitalityEpisode :=
  progressed <| verdict := CONFIRMED_STALL |> <| suspected_since := seconds 1500 |> <| confirmed_since := seconds 1700 |>.

(** It stays while the provider is dark, and is dropped when the provider answers
    that nothing moved. *)
Lemma confirmation_ends_exactly_witness :
  (∃ e', reduce_vitality (Some confirmed_early) [pid_at 1760 P_RUNNING] (time_val (seconds 1760)) TH false (time_val 0) "claude" = Ok e'
     ∧ verdict e' = CONFIRMED_STALL)
  ∧ ∃ e', reduce_vitality (Some confirmed_early) (quiet_batch 1760) (time_val (seconds 1760)) TH false (time_val 0) "claude" = Ok e'
     ∧ verdict e' ≠ CONFIRMED_STALL.
Proof.
  split.
  - destruct (confirmation_ends_exactly confirmed_early [pid_at 1760 P_RUNNING] (seconds 1760) TH false 0 "claude") as (e' & E & Hv);
      [eval_check|reflexivity|reflexivity|apply list_elem_of_here|apply alone_checked; vm_compute; reflexivity|].
    exists e'. split; [exact E|]. apply Hv. split; [eval_heard|]. split; [eval_heard|]. split; [eval_heard|].
    intros Hs%still_checked. vm_compute in Hs. discriminate Hs.
  - destruct (confirmation_ends_exactly confirmed_early (quiet_batch 1760) (seconds 1760) TH false 0 "claude") as (e' & E & Hv);
      [eval_check|reflexivity|reflexivity|apply list_elem_of_here|apply alone_checked; vm_compute; reflexivity|].
    exists e'. split; [exact E|]. intros Hc. apply Hv in Hc as (_ & _ & _ & Hq).
    assert (still (owned_of (Some confirmed_early) (quiet_batch 1760))) as Hs by (apply still_checked; vm_compute; reflexivity).
    apply Hq, Z.leb_le in Hs. vm_compute in Hs. discriminate Hs.
Defined.

Definition dead_batch : list VitalitySnapshot := [pid_at 1010 P_DEAD; provider_at 1010 G_ADVANCING].

Lemma process_verdicts_exact_witness :
  ∃ e', reduce_vitality (Some started) dead_batch (time_val (seconds 1010)) TH false (time_val 0) "" = Ok e' ∧
    verdict e' = DEAD.
Proof.
  destruct (reduce_vitality (Some started) dead_batch (time_val (seconds 1010)) TH false (time_val 0) "") as [e'|] eqn:E; [|vm_compute in E; discriminate E]. exists e'. split; [reflexivity|].
  assert (tick_input (Some started) dead_batch (seconds 1010) TH 0) as Hin by eval_check.
  destruct (process_verdicts_exact (Some started) dead_batch (seconds 1010) TH false 0 "" e' Hin E) as [[_ Hdead] _].
  apply Hdead. eval_heard.
Defined.

Definition suspected : VitalityEpisode :=
  started <| verdict := SUSPECTED_STALL |> <| suspected_since := seconds 1300 |>.

Definition advance_batch : list VitalitySnapshot := [pid_at 1400 P_RUNNING; provider_at 1400 G_ADVANCING].

Lemma advance_ends_stall_witness :
  ∃ e', reduce_vitality (Some suspected) advance_batch (time_val (seconds 1400)) TH false (time_val 0) "" = Ok e' ∧
    verdict e' = HEALTHY_ACTIVE ∧ suspected_since e' = 0.
Proof.
  destruct (reduce_vitality (Some suspected) advance_batch (time_val (seconds 1400)) TH false (time_val 0) "")
    as [e'|] eqn:E; [|vm_compute in E; discriminate E]. exists e'. split; [reflexivity|].
  destruct (advance_ends_stall (Some suspected) advance_batch (seconds 1400) TH false 0 "" suspected e'
    (provider_at 1400 G_ADVANCING)) as (H1 & H2 & _).
  - eval_check.
  - eval_heard.
  - eval_heard.
  - apply advancing_newest. vm_compute. reflexivity.
  - vm_compute. reflexivity.
  - exact E.
  - split; [exact H1|exact H2].
Defined.

Lemma silent_quiet e s : strong_of (owned_of (Some e) (quiet_batch s)) = quiet_batch s →
  silent e (owned_of (Some e) (quiet_batch s)) TH.
Proof.
  intros Hs. split; rewrite ?Hs.
  - done.
  - apply heard_false. by rewrite Hs.
  - apply heard_false. by rewrite Hs.
  - apply advanced_false. by rewrite Hs.
  - unfold child_holds. destruct (owned_get _ _) as [c|] eqn:Ec; [|done]. apply owned_get_elem in Ec as [Hc Hsrc].
    apply latest_elem, list_elem_of_In, filter_In, proj1 in Hc. cbn in Hc.
    destruct Hc as [<-|[<-|[]]]; discriminate Hsrc.
Qed.

Lemma silent_head_confirmed_witness :
  ∃ e', reduce_vitality (Some started) (quiet_batch 1900) (time_val (seconds 1900)) TH false (time_val 0) "" = Ok e' ∧
    verdict e' = CONFIRMED_STALL.
Proof.
  apply (silent_head_confirmed (Some started) (quiet_batch 1900) (seconds 1900) TH false "" started).
  - eval_check.
  - vm_compute. reflexivity.
  - apply silent_quiet. vm_compute. reflexivity.
  - vm_compute. discriminate.
  - intros t Ht. vm_compute in Ht. discriminate Ht.
Defined.

Definition blind_batch : list VitalitySnapshot := [provider_dark_at 1900 "timeout"].

Lemma blind_tick_concludes_nothing_witness :
  ∃ e', reduce_vitality (Some started) blind_batch (time_val (seconds 1900)) TH false (time_val 0) "" = Ok e' ∧
   (verdict e' = UNVERIFIABLE ∨
    (verdict e' = HEALTHY_ACTIVE ∧ ∃ c, owned_get (owned_of (Some started) blind_batch) EXECUTION_CHILD = Some c ∧ progress c = G_ADVANCING) ∨
    (verdict e' = CONFIRMED_STALL ∧ ∃ p, Some started = Some p ∧ verdict p = CONFIRMED_STALL)).
Proof.
  destruct (reduce_vitality (Some started) blind_batch (time_val (seconds 1900)) TH false (time_val 0) "")
    as [e'|] eqn:E; [|vm_compute in E; discriminate E]. exists e'. split; [reflexivity|].
  apply (blind_tick_concludes_nothing (Some started) blind_batch (seconds 1900) TH false 0 "" e').
  - eval_check.
  - vm_compute. reflexivity.
  - exact E.
Defined.

Definition quiet_head : VitalityEpisode := progressed <| verdict := HEALTHY_QUIET |>.

Lemma outlook_deadline_exact_witness :
  ∃ o d e', recovery_outlook (Some quiet_head) (time_val (seconds 1100)) (Some TH) = Ok o ∧
    ol_next_deadline o = Some d ∧ dl_at d = seconds 1300 ∧
    reduce_vitality (Some quiet_head) (quiet_batch 1300) (time_val (seconds 1300)) TH false (time_val 0) "" = Ok e' ∧
    ladder_index (dl_verdict d) ≤ ladder_index (verdict e').
Proof.
  destruct (recovery_outlook (Some quiet_head) (time_val (seconds 1100)) (Some TH)) as [o|] eqn:Eo;
    [|vm_compute in Eo; discriminate Eo].
  destruct (ol_next_deadline o) as [d|] eqn:Ed; [|vm_compute in Eo; injection Eo as <-; vm_compute in Ed; discriminate Ed].
  assert (dl_at d = seconds 1300) as Hat.
  { vm_compute in Eo. injection Eo as <-. vm_compute in Ed. injection Ed as <-. reflexivity. }
  destruct (reduce_vitality (Some quiet_head) (quiet_batch 1300) (time_val (seconds 1300)) TH false (time_val 0) "")
    as [e'|] eqn:E; [|vm_compute in E; discriminate E].
  exists o, d, e'. split; [reflexivity|]. split; [exact Ed|]. split; [exact Hat|]. split; [reflexivity|].
  apply (outlook_deadline_exact quiet_head (quiet_batch 1300) (seconds 1100) (seconds 1300) TH false "" o d e').
  - eval_check.
  - vm_compute. apply elem_of_cons. left. reflexivity.
  - reflexivity.
  - reflexivity.
  - reflexivity.
  - exact Eo.
  - exact Ed.
  - apply silent_quiet. vm_compute. reflexivity.
  - exists (provider_at 1300 G_QUIET). split; [|reflexivity].
    replace (strong_of _) with (quiet_batch 1300) by (vm_compute; reflexivity). unfold quiet_batch.
    apply elem_of_cons. right. apply elem_of_cons. left. reflexivity.
  - exact E.
  - rewrite Hat. apply Z.le_refl.
Defined.

(** ** Independence *)

Definition distinct_check (l : list VitalitySnapshot) : bool :=
  forallb (λ s, forallb (λ s', negb (bool_decide (source s = source s') && (observed_at s =? observed_at s'))
                               || bool_decide (s = s')) l) l.

Lemma distinct_checked l : distinct_check l = true → distinct_readings l.
Proof.
  unfold distinct_check. intros H s s' Hs Hs' Hsrc Hobs. rewrite forallb_forall in H.
  specialize (H s (proj1 (list_elem_of_In _ _) Hs)). rewrite forallb_forall in H.
  specialize (H s' (proj1 (list_elem_of_In _ _) Hs')). cbn in H.
  rewrite bool_decide_eq_true_2, Hobs, Z.eqb_refl in H by done. cbn in H. by apply bool_decide_eq_true in H.
Qed.

(** Two reductions by name, so that a witness can state both. *)
Definition reduced (p : VitalityEpisode) (l : list VitalitySnapshot) (s : Z) : res VitalityEpisode :=
  reduce_vitality (Some p) l (time_val (seconds s)) TH false (time_val 0) "".

Lemma verdict_order_independent_witness :
  ∃ e e', reduced started (quiet_batch 1400) 1400 = Ok e ∧
    reduced started [provider_at 1400 G_QUIET; pid_at 1400 P_RUNNING] 1400 = Ok e' ∧ verdict e' = verdict e.
Proof.
  unfold reduced.
  destruct (reduce_vitality (Some started) (quiet_batch 1400) (time_val (seconds 1400)) TH false (time_val 0) "")
    as [e|] eqn:E; [|vm_compute in E; discriminate E].
  destruct (reduce_vitality (Some started) [provider_at 1400 G_QUIET; pid_at 1400 P_RUNNING] (time_val (seconds 1400)) TH false (time_val 0) "")
    as [e'|] eqn:E'; [|vm_compute in E'; discriminate E'].
  exists e, e'. split; [reflexivity|]. split; [reflexivity|].
  apply (verdict_order_independent (Some started) (quiet_batch 1400) [provider_at 1400 G_QUIET; pid_at 1400 P_RUNNING]
    (seconds 1400) TH false 0 "" e e').
  - eval_check.
  - apply distinct_checked. vm_compute. reflexivity.
  - apply Permutation_swap.
  - exact E.
  - exact E'.
Defined.

Lemma pane_is_advisory_witness :
  ∃ e e', reduced started (pane_at 1400 :: quiet_batch 1400) 1400 = Ok e ∧
    reduced started (List.filter not_pane (pane_at 1400 :: quiet_batch 1400)) 1400 = Ok e' ∧ verdict e' = verdict e.
Proof.
  unfold reduced.
  destruct (reduce_vitality (Some started) (pane_at 1400 :: quiet_batch 1400) (time_val (seconds 1400)) TH false (time_val 0) "")
    as [e|] eqn:E; [|vm_compute in E; discriminate E].
  destruct (reduce_vitality (Some started) (List.filter not_pane (pane_at 1400 :: quiet_batch 1400)) (time_val (seconds 1400)) TH false (time_val 0) "")
    as [e'|] eqn:E'; [|vm_compute in E'; discriminate E'].
  exists e, e'. split; [reflexivity|]. split; [reflexivity|].
  apply (pane_is_advisory started (pane_at 1400 :: quiet_batch 1400) (seconds 1400) TH false "" e e').
  - eval_check.
  - apply (bool_decide_unpack _). vm_compute. exact I.
  - exact E.
  - exact E'.
Defined.

Definition foreign : VitalitySnapshot := reading "r0" PID_HEARTBEAT (seconds 1400) AVAILABLE P_DEAD G_UNKNOWN None "".

Lemma foreign_runs_weightless_witness :
  ∃ e e', reduced started (foreign :: quiet_batch 1400) 1400 = Ok e ∧
    reduced started (List.filter (λ s, String.eqb (run_id s) (e_run_id started)) (foreign :: quiet_batch 1400)) 1400 = Ok e' ∧
    sans_basis e' = sans_basis e.
Proof.
  unfold reduced.
  destruct (reduce_vitality (Some started) (foreign :: quiet_batch 1400) (time_val (seconds 1400)) TH false (time_val 0) "")
    as [e|] eqn:E; [|vm_compute in E; discriminate E].
  destruct (reduce_vitality (Some started) (List.filter (λ s, String.eqb (run_id s) (e_run_id started)) (foreign :: quiet_batch 1400))
    (time_val (seconds 1400)) TH false (time_val 0) "") as [e'|] eqn:E'; [|vm_compute in E'; discriminate E'].
  exists e, e'. split; [reflexivity|]. split; [reflexivity|].
  apply (foreign_runs_weightless started (foreign :: quiet_batch 1400) (seconds 1400) TH false 0 "" e e').
  - eval_check.
  - apply (bool_decide_unpack _). vm_compute. exact I.
  - exact E.
  - exact E'.
Defined.

(** ** Runs of ticks *)

Definition advance_tick : Tick := tick_at 1100 [pid_at 1100 P_RUNNING; provider_at 1100 G_ADVANCING].
Definition quiet_tick (s : Z) : Tick := tick_at s (quiet_batch s).
Definition parked_at (s : Z) : Tick := tick_at s [pid_at s P_SUSPENDED].

Lemma stall_is_earned_witness :
  ∃ e', run_ticks TH started ([quiet_tick 1050] ++ advance_tick :: [quiet_tick 1200; quiet_tick 2000]) = Ok e' ∧
    verdict e' = CONFIRMED_STALL ∧ seconds 1100 + suspect_after TH + confirm_after TH ≤ updated_at e'.
Proof.
  destruct (run_ticks TH started ([quiet_tick 1050] ++ advance_tick :: [quiet_tick 1200; quiet_tick 2000]))
    as [e'|] eqn:E; [|vm_compute in E; discriminate E].
  assert (verdict e' = CONFIRMED_STALL) as Hv.
  { pose proof E as E2. vm_compute in E2. injection E2 as <-. reflexivity. }
  exists e'. split; [reflexivity|]. split; [exact Hv|].
  apply (stall_is_earned TH started [quiet_tick 1050] advance_tick [quiet_tick 1200; quiet_tick 2000] e'
    (provider_at 1100 G_ADVANCING)).
  - eval_check.
  - eval_check.
  - eval_check.
  - repeat constructor.
  - eval_heard.
  - eval_heard.
  - apply (bool_decide_unpack _). vm_compute. exact I.
  - reflexivity.
  - vm_compute. discriminate.
  - exact E.
  - exact Hv.
Defined.

Lemma parked_at_suspended s : suspended_tick "r1" (parked_at s).
Proof. split; eval_heard. Qed.

Lemma suspended_time_is_free_witness :
  ∃ e', run_ticks TH quiet_head (parked_at 1100 :: [parked_at 9000] ++ [quiet_tick 99000]) = Ok e' ∧
    verdict e' = quiet_verdict TH (seconds 1100 - quiet_reference quiet_head) ∧ verdict e' = HEALTHY_QUIET.
Proof.
  destruct (run_ticks TH quiet_head (parked_at 1100 :: [parked_at 9000] ++ [quiet_tick 99000]))
    as [e'|] eqn:E; [|vm_compute in E; discriminate E].
  exists e'. split; [reflexivity|].
  assert (verdict e' = quiet_verdict TH (seconds 1100 - quiet_reference quiet_head)) as Hv.
  { apply (suspended_time_is_free TH quiet_head (parked_at 1100) [parked_at 9000] (quiet_tick 99000) e').
    - eval_check.
    - eval_check.
    - reflexivity.
    - vm_compute. reflexivity.
    - vm_compute. discriminate.
    - vm_compute. discriminate.
    - vm_compute. discriminate.
    - vm_compute. discriminate.
    - eval_check.
    - repeat constructor; apply parked_at_suspended.
    - reflexivity.
    - vm_compute. reflexivity.
    - eval_heard.
    - eval_heard.
    - exists (provider_at 99000 G_QUIET). split; [|reflexivity]. apply (bool_decide_unpack _). vm_compute. exact I.
    - vm_compute. reflexivity.
    - exact E. }
  split; [exact Hv|]. rewrite Hv. vm_compute. reflexivity.
Defined.

Definition child_tick (s : Z) : Tick := tick_at s [pid_at s P_RUNNING; child_at s].

Lemma child_tick_idle s : head_idle "r1" (child_tick s).
Proof. split; eval_heard. Qed.

Lemma child_hold_bounded_witness :
  ∃ e', run_ticks TH progressed ([child_tick 1500] ++ [child_tick 3000]) = Ok e' ∧ verdict e' = HEALTHY_ACTIVE ∧
    ∃ c, owned_get (owned_in (e_run_id progressed) (child_tick 3000)) EXECUTION_CHILD = Some c ∧
      observed_at c < child_since_of progressed + child_activity_ceiling TH.
Proof.
  destruct (run_ticks TH progressed ([child_tick 1500] ++ [child_tick 3000])) as [e'|] eqn:E; [|vm_compute in E; discriminate E].
  assert (verdict e' = HEALTHY_ACTIVE) as Hv.
  { pose proof E as E2. vm_compute in E2. injection E2 as <-. reflexivity. }
  exists e'. split; [reflexivity|]. split; [exact Hv|].
  apply (child_hold_bounded TH progressed [child_tick 1500] (child_tick 3000) e').
  - eval_check.
  - eval_check.
  - reflexivity.
  - vm_compute. reflexivity.
  - eval_check.
  - repeat constructor; apply child_tick_idle.
  - exact E.
  - exact Hv.
Defined.

(** ** The policy and its ladder *)

Definition parked_episode : VitalityEpisode :=
  started <| verdict := SUSPENDED |> <| stall_frozen_since := seconds 1100 |>
          <| e_reason := "process suspended on a stop signal" |>.

Lemma policy_never_destroys_witness :
  ∃ d, decide_recovery (Some parked_episode) None (time_val (seconds 1110)) (Some DEFAULT_RECOVERY_THRESHOLDS) = Ok d ∧
    intent d = SIGCONT ∧ verdict parked_episode = SUSPENDED.
Proof.
  destruct (decide_recovery (Some parked_episode) None (time_val (seconds 1110)) (Some DEFAULT_RECOVERY_THRESHOLDS))
    as [d|] eqn:E; [|vm_compute in E; discriminate E].
  assert (intent d = SIGCONT) as Hi. { pose proof E as E2. vm_compute in E2. injection E2 as <-. reflexivity. }
  exists d. split; [reflexivity|]. split; [exact Hi|].
  destruct (policy_never_destroys parked_episode None (seconds 1110) DEFAULT_RECOVERY_THRESHOLDS d E) as (_ & H & _).
  apply H, Hi.
Defined.

Definition refused_episode : VitalityEpisode :=
  started <| e_reason := "provider says authentication_rejected" |> <| deterministic_refusals := 2 |>.

Lemma deterministic_refusals_counted_witness :
  ∃ d, decide_recovery (Some refused_episode) (Some refused_episode) (time_val (seconds 1110)) (Some DEFAULT_RECOVERY_THRESHOLDS) = Ok d ∧
    refusals d = 3 ∧ intent d = ESCALATE_OPERATOR.
Proof.
  destruct (decide_recovery (Some refused_episode) (Some refused_episode) (time_val (seconds 1110)) (Some DEFAULT_RECOVERY_THRESHOLDS))
    as [d|] eqn:E; [|vm_compute in E; discriminate E].
  exists d. split; [reflexivity|].
  destruct (deterministic_refusals_counted refused_episode (seconds 1110) DEFAULT_RECOVERY_THRESHOLDS d
    AUTHENTICATION_REJECTED) as (H1 & [_ H2] & _).
  - discriminate.
  - vm_compute. reflexivity.
  - exact E.
  - split; [exact H1|]. apply H2. vm_compute. discriminate.
Defined.

(** A host that answers every call plainly. *)
Definition plain_host : Host := {|
  h_env := λ _, None; h_noop := false; h_clock := λ _, seconds 2000; h_addressable := true; h_prompt := Delivered;
  h_identity := LiveMatch; h_signal := Landed;
  h_respawn := λ why, Ok (outcome "ok" "worker-respawned" why); h_escalate := λ why, Ok (outcome "ok" "blocked" why) |}.

Lemma one_sigcont_per_span_witness :
  ladder_run plain_host TH quiet_head [parked_at 1100; parked_at 1200; parked_at 1500; parked_at 1600] =
  Ok [SIGCONT; OBSERVE; ESCALATE_OPERATOR; OBSERVE].
Proof.
  rewrite (one_sigcont_per_span plain_host TH default_thresholds_wf quiet_head (parked_at 1100)
    [parked_at 1200; parked_at 1500; parked_at 1600]).
  - vm_compute. reflexivity.
  - eval_check.
  - eval_check.
  - repeat (apply Forall_cons; split; [split; [apply parked_at_suspended|reflexivity]|]). apply Forall_nil. exact I.
  - vm_compute. reflexivity.
  - reflexivity.
  - vm_compute. discriminate.
Defined.

(** ** The guard and the wait tick *)

Definition confirmed : VitalityEpisode :=
  progressed <| verdict := CONFIRMED_STALL |> <| confirmed_since := seconds 1900 |>.

Lemma guard_exact_witness :
  ∃ d, assert_destructive_allowed (Some confirmed) "worker-respawn" (time_val (seconds 2000)) "r1" (seconds 600) = Ok d ∧
    allowed d = true.
Proof.
  destruct (assert_destructive_allowed (Some confirmed) "worker-respawn" (time_val (seconds 2000)) "r1" (seconds 600))
    as [d|] eqn:E; [|vm_compute in E; discriminate E]. exists d. split; [reflexivity|].
  destruct (guard_exact (Some confirmed) "worker-respawn" (seconds 2000) "r1" (seconds 600) d E) as ([_ H] & _).
  apply H. exists confirmed. split; [reflexivity|]. split.
  - right. reflexivity.
  - right. reflexivity.
  - intros _ _ _. vm_compute. discriminate.
Defined.

Definition idle_slot : RoleState := {|
  vitality_episode := None; head_run_id := "r1"; head_adapter := ""; waiting_since := 0;
  role_started_at := 0; progress_at := 0; respawns := 0; role_paused_at := 0; pid_file := "/tmp/r1.pid";
  idle_since := 0; idle_confirmations := 0 |}.

Definition card_record (e : VitalityEpisode) : WaitRecord := {|
  worker_slot := idle_slot <| vitality_episode := Some e |>; review_slot := idle_slot;
  worker_retained := false; worker_answer_owed_since := 0; report_generation := 1;
  worker_report_nudge := {| n_stage := N_DELIVERED; n_generation := 1; n_sent_at := 0 |}; comment_baseline := "7" |}.

(** A heartbeat that says the process is gone. *)
Definition dead_status : list (string * pyval) := [("pid_status", VDict [("state", VStr "dead")])].

Lemma destruction_is_authorised_witness :
  ∃ out r' l, wait_watchdog plain_host Worker (inl dead_status) None (seconds 2000) (card_record confirmed) = (out, r', l) ∧
    Exists (λ x, destructive x = true) l ∧
    ∃ e, vitality_episode (slot Worker r') = Some e ∧
      authorised e (head_run_id (slot Worker r')) (h_clock plain_host 4) (seconds (stall_seconds (h_env plain_host) Worker)).
Proof.
  destruct (wait_watchdog plain_host Worker (inl dead_status) None (seconds 2000) (card_record confirmed))
    as [[out r'] l] eqn:E.
  assert (Exists (λ x, destructive x = true) l) as Hx.
  { pose proof E as E2. vm_compute in E2. injection E2 as _ _ <-. apply (bool_decide_unpack _). vm_compute. exact I. }
  exists out, r', l. split; [reflexivity|]. split; [exact Hx|].
  apply (destruction_is_authorised plain_host Worker (inl dead_status) None (seconds 2000) (card_record confirmed) out r' l E Hx).
Defined.

Lemma wait_tick_confined_witness :
  ∃ out r' l, wait_watchdog plain_host Worker (inl dead_status) None (seconds 2000) (card_record confirmed) = (out, r', l) ∧
    keeps_other Worker (card_record confirmed) l r'.
Proof.
  destruct (wait_watchdog plain_host Worker (inl dead_status) None (seconds 2000) (card_record confirmed))
    as [[out r'] l] eqn:E.
  exists out, r', l. split; [reflexivity|].
  apply (wait_tick_confined plain_host Worker (inl dead_status) None (seconds 2000) (card_record confirmed) out r' l E).
Defined.

(** A head seen alive at its prompt, and nothing else. *)
Definition alive_status : list (string * pyval) := [("pid_status", VDict [("state", VStr "live-match")])].

Definition unspent (r : WaitRecord) : WaitRecord :=
  r <| worker_report_nudge := {| n_stage := N_NONE; n_generation := 0; n_sent_at := 0 |} |>.

Definition alive_tick (s : Z) (cut : option nat) : WaitTick := {|
  wt_host := plain_host; wt_kind := Worker; wt_reading := inl alive_status; wt_provider := None; wt_now := seconds s;
  wt_cut := cut |}.

(** A dispatcher that dies right after sending the prompt, restarts and finds
    the head as stalled as before: the prompt is not sent again. *)
Lemma one_prompt_per_round_witness :
  prompts (run_wait [alive_tick 2000 (Some 4%nat); alive_tick 2900 None] (unspent (card_record confirmed))
             (unspent (card_record confirmed))) = 1%nat ∧
  prompts (run_wait [alive_tick 2000 None] (card_record confirmed) (card_record confirmed)) = 0%nat.
Proof.
  split; [vm_compute; reflexivity|].
  apply (one_prompt_per_round [alive_tick 2000 None] (card_record confirmed)). vm_compute. reflexivity.
Defined.

(** ** Stored records *)

Lemma snapshot_json_roundtrip_witness :
  snapshot_wf (journal_idle_at 1400 1100) ∧
  snapshot_from_json (snapshot_to_json (journal_idle_at 1400 1100)) = Ok (journal_idle_at 1400 1100).
Proof.
  assert (snapshot_wf (journal_idle_at 1400 1100)) as Hwf by eval_check.
  split; [exact Hwf|]. apply (snapshot_json_roundtrip (journal_idle_at 1400 1100) Hwf).
Defined.

Lemma episode_json_roundtrip_witness :
  episode_wf suspected ∧ episode_from_json (episode_to_json suspected) = Ok suspected.
Proof.
  assert (episode_wf suspected) as Hwf by eval_check.
  split; [exact Hwf|]. apply (episode_json_roundtrip suspected Hwf).
Defined.

(** ** Readings *)

Definition descendants (cpu io : Z) : list (string * pyval) := [
  ("state", VStr "observed"); ("descendant_count", VInt 1); ("uptime_ticks", VInt 50);
  ("descendants", VList [VDict [("pid", VInt 7); ("start", VInt 3); ("cpu_ms", VInt cpu);
     ("io", VInt io); ("command", VStr "pytest")]])].

Definition full_status : pyval := VDict [
  ("pid_status", VDict [("state", VStr "dead")]);
  ("provider_progress", VDict [("state", VStr "observed"); ("admission", VStr "accepted");
     ("head_run_id", VStr "r1"); ("cursor", VStr "42")]);
  ("child_activity", VDict (descendants 900 0))].

Lemma status_snapshots_disciplined_witness :
  ∃ l, snapshots_from_status full_status "r1" "" "" "" "" (time_val (seconds 1000)) = Ok l ∧
    Forall (disciplined "r1") l ∧ NoDup (source <$> l).
Proof.
  destruct (snapshots_from_status full_status "r1" "" "" "" "" (time_val (seconds 1000))) as [l|] eqn:E;
    [|vm_compute in E; discriminate E].
  exists l. split; [reflexivity|].
  destruct (status_snapshots_disciplined full_status "r1" "" "" "" "" (time_val (seconds 1000)) l E) as (H1 & H2 & _).
  split; assumption.
Defined.

Definition pytest_child (cpu io : Z) : ChildItem :=
  {| c_pid := 7; c_start := 3; c_cpu_ms := cpu; c_io := io; c_command := "pytest"; c_output := "" |}.

Lemma child_activity_two_readings_witness :
  ∃ s1 s2 cur,
    from_child_activity (VDict (descendants 900 0)) "r1" "" "" (time_val (seconds 1000)) = Ok s1 ∧
    cursor s1 = Some cur ∧
    from_child_activity (VDict (descendants 1400 9)) "r1" cur "" (time_val (seconds 1060)) = Ok s2 ∧
    progress s2 = G_ADVANCING.
Proof.
  destruct (from_child_activity (VDict (descendants 900 0)) "r1" "" "" (time_val (seconds 1000)))
    as [s1|] eqn:E1; [|vm_compute in E1; discriminate E1].
  destruct (cursor s1) as [cur|] eqn:Ec; [|vm_compute in E1; injection E1 as <-; discriminate Ec].
  destruct (from_child_activity (VDict (descendants 1400 9)) "r1" cur "" (time_val (seconds 1060)))
    as [s2|] eqn:E2.
  2: { vm_compute in E1; injection E1 as <-; injection Ec as <-; vm_compute in E2; discriminate E2. }
  exists s1, s2, cur. split_and!; [reflexivity|exact Ec|exact E2|].
  apply (child_activity_two_readings (descendants 900 0) (descendants 1400 9) [pytest_child 900 0]
           [pytest_child 1400 9] 50 900 0 50 1400 9 "r1" "" "" "" (time_val (seconds 1000))
           (time_val (seconds 1060)) s1 s2 cur); [..|exact E1|exact Ec|exact E2].
  - split_and!; [reflexivity|vm_compute; reflexivity|right; reflexivity].
  - split_and!; [reflexivity|vm_compute; reflexivity|right; reflexivity].
  - vm_compute. lia.
Defined.

Definition journal_says (t : string) (since seq : Z) : pyval := VDict [
  ("state", VStr "observed"); ("run_id", VStr "r1"); ("turn", VStr t);
  ("turn_since", time_val (seconds since)); ("progress_seq", VInt seq)].

Lemma journal_two_readings_witness :
  ∃ s1 s2 cur,
    from_supervisor_journal (journal_says "active" 900 4) "r1" "" (time_val (seconds 1000)) = Ok s1 ∧
    cursor s1 = Some cur ∧
    from_supervisor_journal (journal_says "idle" 1050 4) "r1" cur (time_val (seconds 1060)) = Ok s2 ∧
    availability s2 = AVAILABLE ∧ progress s2 = G_QUIET ∧ turn s2 = T_IDLE ∧ turn_since s2 = seconds 1050.
Proof.
  destruct (from_supervisor_journal (journal_says "active" 900 4) "r1" "" (time_val (seconds 1000)))
    as [s1|] eqn:E1; [|vm_compute in E1; discriminate E1].
  destruct (cursor s1) as [cur|] eqn:Ec; [|vm_compute in E1; injection E1 as <-; discriminate Ec].
  destruct (from_supervisor_journal (journal_says "idle" 1050 4) "r1" cur (time_val (seconds 1060)))
    as [s2|] eqn:E2.
  2: { vm_compute in E1; injection E1 as <-; injection Ec as <-; vm_compute in E2; discriminate E2. }
  exists s1, s2, cur. split; [reflexivity|]. split; [exact Ec|]. split; [exact E2|].
  destruct (journal_two_readings (journal_says "active" 900 4) (journal_says "idle" 1050 4) "r1" ""
              (time_val (seconds 1000)) (time_val (seconds 1060)) s1 s2 cur T_ACTIVE (seconds 900) 4 T_IDLE
              (seconds 1050) 4) as (_ & H & _);
    [vm_compute; reflexivity|vm_compute; reflexivity|exact E1|exact Ec|exact E2|].
  apply H. reflexivity.
Defined.

(** ** The board *)

Lemma authority_boundaries_witness :
  ∃ t, card_transition "dispatcher" "assessment" "done" = Ok t ∧
    "dispatcher" ∉ ["worker"; "reviewer"; "retro"] ∧ "assessment" ∈ ["ready"; "in_progress"; "validate"; "assessment"].
Proof.
  destruct (card_transition "dispatcher" "assessment" "done") as [t|] eqn:E; [|vm_compute in E; discriminate E].
  exists t. split; [reflexivity|].
  destruct (authority_boundaries "dispatcher" "assessment" "done" t E) as (H1 & _ & H2 & _).
  split; [exact H1|exact (H2 eq_refl)].
Defined.

Lemma card_events_identify_moves_witness :
  ∃ t, transition_for K_CARD (L_CARD ASSESSMENT) (L_CARD DONE) = Ok t ∧
    ∀ a b t', transition_for K_CARD (L_CARD a) (L_CARD b) = Ok t' → t_event t' = t_event t → a = ASSESSMENT ∧ b = DONE.
Proof.
  destruct (transition_for K_CARD (L_CARD ASSESSMENT) (L_CARD DONE)) as [t|] eqn:E; [|vm_compute in E; discriminate E].
  exists t. split; [reflexivity|].
  destruct (card_events_identify_moves ASSESSMENT DONE t E) as [_ H]. apply H.
  vm_compute in E. injection E as <-. apply (bool_decide_unpack _). vm_compute. exact I.
Defined.

Definition card7 : BoardEntity := E_CARD {|
  ca_ref := "C7"; ca_title := "a card"; ca_state := VALIDATE; ca_sprint_ref := Some "S1"; ca_issue_refs := ["I1"];
  ca_product_ref := None; ca_description := "" |}.

Lemma transition_changes_only_state_witness :
  ∃ e' d, transition card7 (L_CARD ASSESSMENT) = Ok (e', d) ∧ entity_wf card7 ∧
    with_state card7 (L_CARD ASSESSMENT) = Some e' ∧ lifecycle_state e' = L_CARD ASSESSMENT.
Proof.
  assert (entity_wf card7) as Hwf by (split; vm_compute; reflexivity).
  pose proof (transition_changes_only_state card7 (L_CARD ASSESSMENT) Hwf) as H.
  destruct (transition card7 (L_CARD ASSESSMENT)) as [[e' d]|] eqn:E; [|vm_compute in E; discriminate E].
  exists e', d. destruct H as (H1 & _ & _ & H2 & _). split_and!; [reflexivity|exact Hwf|exact H1|exact H2].
Defined.

Definition stopped_sprint : Sprint := {|
  sp_ref := "S1"; sp_goal := "ship"; sp_state := SS_STOPPED; sp_product_ref := None; sp_issue_refs := []; sp_card_refs := [] |}.

Lemma terminal_states_witness :
  is_ok (transition (E_SPRINT stopped_sprint) (L_SPRINT SS_OPEN)) = true.
Proof.
  destruct (terminal_states (E_SPRINT stopped_sprint) (L_SPRINT SS_OPEN)) as [_ H].
  apply (H stopped_sprint); [reflexivity|discriminate|vm_compute; reflexivity].
Defined.

(** ** Terminal descriptions *)

Definition blocked_on_infra : TerminalTaxonomy := {|
  tt_disposition := "blocked"; tt_blocked_reason := Some "infrastructure"; tt_source_evidence := Some "infrastructure";
  tt_budget_class := Some "infrastructure_blocked"; tt_provenance := "forward" |}.

Lemma taxonomy_roundtrip_witness :
  normalize_terminal_taxonomy plain_repr (VStr "blocked") (VStr " infrastructure ") = Ok blocked_on_infra ∧
  read_terminal_taxonomy plain_repr (VDict [("terminal_taxonomy", VDict (to_record blocked_on_infra))]) (Some "blocked")
    = Ok blocked_on_infra.
Proof.
  assert (normalize_terminal_taxonomy plain_repr (VStr "blocked") (VStr " infrastructure ") = Ok blocked_on_infra) as E
    by (vm_compute; reflexivity).
  split; [exact E|].
  apply (taxonomy_roundtrip plain_repr (VStr "blocked") (VStr " infrastructure ") blocked_on_infra (Some "blocked") E).
  right. reflexivity.
Defined.

Lemma taxonomy_read_sound_witness :
  normalize_terminal_taxonomy plain_repr (get (to_record blocked_on_infra) "disposition")
    (get (to_record blocked_on_infra) "source_evidence") = Ok blocked_on_infra.
Proof.
  destruct (taxonomy_read_sound plain_repr (to_record blocked_on_infra) (Some "blocked") blocked_on_infra) as [H _];
    [vm_compute; reflexivity|reflexivity|exact H].
Defined.

Lemma budget_follows_reason_witness : budget_event_type blocked_on_infra = Some "infrastructure_blocked".
Proof.
  destruct (budget_follows_reason plain_repr (VDict [("terminal_taxonomy", VDict (to_record blocked_on_infra))]) None
              blocked_on_infra) as [H _]; [vm_compute; reflexivity|].
  apply H. split; reflexivity.
Defined.
