(* ===== verification/ContinuationWitnesses.v ===== *)
(** * Witnesses for the continuation

    A card's worker at work: a red transition completed, a busy pane, the
    no-progress ladder spent, the window expired, the provider moving again and
    the ladder climbed a second time; and the theorems at that run. *)

From stdpp Require Import relations.
From S2P Require Import Prelude PyText Program RequestIds HeadVitality WorkerLifecycle WorkerLifecycleFacts ContinuationLadder ContinuationLadderFacts ContinuationRecord ContinuationRuns Scenarios.

Definition run_digest : string := "0123456789abcdef0123456789abcdef".
Definition digest_of (_ : pyval) : string := run_digest.
Definition plain (s : string) : string := s.
Definition no_floats (_ : string) : option pyfloat := None.

Definition head_run : pyval := VDict [
  ("run_id", VStr "run-1"); ("workspace", VStr "/w"); ("task_ref", VDict []); ("spec", VDict [("adapter", VStr "claude")])].

Definition evidence_at (cursor : string) : pyval := VDict [
  ("state", VStr "observed"); ("admission", VStr "accepted"); ("head_run_id", VStr "run-1");
  ("head_run_fingerprint", VStr run_digest); ("source", VStr "journal"); ("source_fingerprint", VStr run_digest);
  ("cursor", VStr cursor)].

Definition busy_pane : ResumeAnswer := Refused "busy" (VDict [("readiness_state", VStr "busy")]).

(** A world at second [t] whose provider stands at [cursor] and whose pane
    answers [resume]; it can recover safely and refuses to confirm a stop. *)
Definition world_at (t : Z) (cursor : string) (resume : ResumeAnswer) : World := {|
  w_clock n := seconds t + Z.of_nat n;
  w_progress _ := inl (evidence_at cursor);
  w_confirm _ := None;
  w_resume _ := resume;
  w_safe_recover _ := inl (VDict [("state", VStr "recovered"); ("safe", VBool true); ("head_run_id", VStr "run-1")]);
  w_stop _ := Some "still there";
  w_uuid _ := "new-run";
  w_preflight _ := Some (inl (VStr "new-run"));
  w_snapshot _ := None;
  w_storage _ := Some "OSError: disk full";
  w_bring_up _ := inl (VStr "new-run");
  w_comments _ := 3;
  w_successor _ := None |}.

Definition empty_book : WaitBook := {| wb_waiting_since := FFin 0; wb_respawns := 0; wb_progress_at := FFin 0;
  wb_idle_since := FFin 0; wb_idle_confirmations := 0 |}.

Definition empty_judged : Judged := reset_judged {|
  jd_gate_state := "red"; jd_gate_pending_since := FFin 5; jd_gate_attestation := VDict []; jd_gate_transport_failures := 1;
  jd_gate_transport_error := ""; jd_reruns := {| ir_sha := "s"; ir_count := 1; ir_run_id := ""; ir_reason := "";
    ir_transport_failures := 0; ir_transport_error := "" |}; jd_review_commit := "c"; jd_review_wait := empty_book;
  jd_worker_wait := empty_book |}.

Definition red_transition : Continuation := cleared <| ct_stage := CS_RED_TRANSITION_PENDING |> <| ct_phase := "gate" |>
  <| ct_report_baseline := 2 |> <| ct_reserved_generation := 5 |> <| ct_move_reason := "the gate is red" |>
  <| ct_verdict_outcome := "gate_red" |> <| ct_session_held := true |>.

Definition red_record : CRecord := {|
  cr_state := "validating"; cr_continuation := red_transition; cr_liveness := liveness_unknown "missing" 0;
  cr_head_run := head_run; cr_evidence := VDict []; cr_generation := 4; cr_round := 1; cr_comment_baseline := 0;
  cr_review_baseline := 0; cr_decision := ""; cr_prerequisites := []; cr_snapshot := VDict []; cr_settled := true;
  cr_intent := None; cr_judged := empty_judged |}.

Definition tick_at (t : Z) (cursor : string) (cut : option nat) : Tick := {|
  tk_world := world_at t cursor busy_pane; tk_entry := Advance None; tk_outside := id; tk_cut := cut |}.

(** The last tick dies right after its safe recovery. *)
Definition card_life : list Tick := [
  tick_at 1000 "c1" None; tick_at 1100 "c1" None; tick_at 1200 "c1" None; tick_at 1300 "c1" None;
  tick_at 1400 "c1" None; tick_at 1500 "c2" None; tick_at 1700 "c2" None; tick_at 1800 "c2" None;
  tick_at 1900 "c2" (Some 10%nat)].

Definition card_log : list Event := run plain digest_of no_floats "card-1" "attempt-1" card_life red_record.

Definition recovery_at (n : nat) : pyval := match card_log !! n with Some (EvSafeRecovery j) => j | _ => VNone end.
Definition saved_at (n : nat) : CRecord := match card_log !! n with Some (EvSaved r) => r | _ => red_record end.

Lemma outside_same : Forall outside_ok card_life.
Proof. repeat constructor; intros r; reflexivity. Qed.

Lemma card_fenced : fenced (cr_liveness red_record).
Proof. discriminate. Qed.

Lemma card_settled : lv_state (cr_liveness red_record) ≠ LS_BASELINE_PENDING.
Proof. discriminate. Qed.

(** ** Runs *)

Lemma safe_recovery_once_witness : Exists renews (take 36 (drop 38 card_log)).
Proof.
  apply (safe_recovery_once plain digest_of no_floats "card-1" "attempt-1" card_life red_record (take 37 card_log)
    (recovery_at 37) (take 36 (drop 38 card_log)) (recovery_at 74) []).
  - apply outside_same.
  - apply card_fenced.
  - apply card_settled.
  - vm_compute. reflexivity.
Defined.

Lemma three_refusals_first_witness :
  3 ≤ Z.max 0 (lv_busy_attempts (cr_liveness red_record)) + Z.of_nat (length (filter is_busy (take 37 card_log))).
Proof.
  apply (three_refusals_first plain digest_of no_floats "card-1" "attempt-1" card_life red_record (take 37 card_log)
    (EvSafeRecovery (recovery_at 37)) (drop 38 card_log)).
  - apply outside_same.
  - apply card_fenced.
  - apply card_settled.
  - vm_compute. reflexivity.
  - exact I.
Defined.

Definition first_tick : list Event :=
  tick_log plain digest_of no_floats "card-1" "attempt-1" (tick_at 1000 "c1" None) red_record.

Lemma prompt_needs_admission_witness :
  ∃ before answer e, last_observed (take 7 first_tick) = Some (before, head_run, VDict e, answer) ∧
    py_str_or (get e "head_run_id") = "run-1" ∧ lv_run_id before = "run-1" ∧ answer = "baseline".
Proof.
  destruct (prompt_needs_admission plain digest_of no_floats "card-1" "attempt-1" (tick_at 1000 "c1" None) red_record
    (take 7 first_tick) head_run (drop 8 first_tick)) as (before & answer & e & El & _ & _ & E1 & E2 & Hb).
  - intros r. reflexivity.
  - apply card_fenced.
  - apply card_settled.
  - vm_compute. reflexivity.
  - exists before, answer, e. vm_compute in El. injection El as <- <- <-. vm_compute in E1, E2. vm_compute. repeat split.
Defined.

Lemma world_faithful t cursor cut : 0 ≤ t → faithful digest_of (tk_world (tick_at t cursor cut)).
Proof. intros Ht. split; [reflexivity|]. intros n. cbn. unfold seconds, SECOND. lia. Qed.

Lemma card_wf : Forall tick_wf card_life.
Proof. repeat (apply Forall_cons; split; [split; [exact I|intros r Hr; exact Hr]|]). apply Forall_nil_2. Qed.


(** ** Episodes *)

(** The episode with its response window open, as the fourth tick saved it. *)
Definition window_open : Liveness := cr_liveness (saved_at 38).

Lemma window_open_coherent : coherent window_open.
Proof.
  split; [|vm_compute; discriminate].
  split; vm_compute; try done; try lia; try (by repeat constructor); try (by intros; repeat split; congruence).
Qed.

Lemma window_progress_is_lost_witness :
  let l' := (observe_provider digest_of window_open (evidence_at "c2") (seconds 1310) head_run).2 in
  admitted l' = true ∧
  liveness_from_json no_floats (liveness_to_json l') =
    Ok (liveness_unknown "safe recovery response window is incoherent" 0) ∧
  liveness_from_json no_floats (liveness_to_json (l' <| lv_rung := RR_RESUME_ONCE |>)) =
    Ok (liveness_unknown "safe recovery resume is incoherent" 0).
Proof.
  apply (window_progress_is_lost digest_of no_floats window_open (evidence_at "c2") (seconds 1310) head_run).
  - apply window_open_coherent.
  - vm_compute. reflexivity.
  - vm_compute. discriminate.
  - vm_compute. reflexivity.
Defined.

Definition sealed : Liveness := reject_as_unknown window_open "another source".

Lemma rejection_is_final_witness :
  foldl (λ '(answers, l) '(evidence, now, head_run),
           let '(a, l') := observe_provider digest_of l evidence now head_run in (answers ++ [a], l'))
    ([], sealed) [(evidence_at "c1", 5, head_run); (evidence_at "c2", 6, head_run)] = (["unknown"; "unknown"], sealed).
Proof.
  apply (rejection_is_final digest_of sealed [(evidence_at "c1", 5, head_run); (evidence_at "c2", 6, head_run)]). reflexivity.
Defined.

Lemma admission_is_exact_witness :
  lv_cursor (observe_provider digest_of window_open (evidence_at "c2") 5 head_run).2 = "c2".
Proof.
  pose proof (admission_is_exact digest_of window_open (evidence_at "c2") 5 head_run) as Hx.
  destruct (observe_provider digest_of window_open (evidence_at "c2") 5 head_run) as [a l] eqn:E.
  assert (admitting a = true) as Ha by (vm_compute in E; injection E as <- _; reflexivity).
  destruct (Hx Ha) as (d & Hd & _ & _ & _ & _ & _ & _ & _ & Hc & _). injection Hd as <-. exact Hc.
Defined.

(** ** Transitions *)

Lemma red_transition_replays_witness :
  ∃ r1 rest r2 rest',
    (complete_red_transition plain digest_of (world_at 1000 "c1" busy_pane) "card-1" "attempt-1"
       {| cs_record := red_record; cs_calls := 0 |}).2
      = red_actions "card-1" "attempt-1" red_transition ++ EvSaved r1 :: rest ∧
    (complete_red_transition plain digest_of (world_at 2000 "c2" Resumed) "card-1" "attempt-1"
       {| cs_record := r1; cs_calls := 0 |}).2
      = red_actions "card-1" "attempt-1" red_transition ++ EvSaved r2 :: rest' ∧
    ct_stage (cr_continuation r1) = CS_RED_TRANSITION_PENDING ∧ cr_generation r1 = 5 ∧
    cr_generation r2 = cr_generation r1 ∧ cr_decision r2 = cr_decision r1 ∧ cr_prerequisites r2 = cr_prerequisites r1.
Proof.
  apply (red_transition_replays plain digest_of "card-1" "attempt-1" (world_at 1000 "c1" busy_pane)
    (world_at 2000 "c2" Resumed) red_record 0 0); [reflexivity|discriminate].
Defined.

Lemma failed_intent_keeps_attested_run_witness :
  write_relaunch_intent (world_at 1000 "c1" busy_pane) "gate-red-rework" 2 {| cs_record := red_record; cs_calls := 0 |} =
    (Ok (Some "OSError: disk full"),
     {| cs_record := red_record <| cr_head_run := VStr "new-run" |>; cs_calls := 5 |}, []).
Proof.
  apply (failed_intent_keeps_attested_run (world_at 1000 "c1" busy_pane) "gate-red-rework" 2
    {| cs_record := red_record; cs_calls := 0 |} (VStr "new-run") "OSError: disk full"); reflexivity.
Defined.

Lemma open_transition_is_immutable_witness : frozen (drop_session (defer_busy red_transition 7).2) = frozen red_transition.
Proof.
  apply (open_transition_is_immutable red_transition (drop_session (defer_busy red_transition 7).2)).
  - left. reflexivity.
  - eapply rtc_l; [apply st_defer|]. apply rtc_once, st_drop.
Defined.

Lemma busy_backoff_bounds_witness : (defer_busy red_transition 7).1 = 30.
Proof.
  pose proof (busy_backoff_bounds red_transition 7 ltac:(vm_compute; discriminate)) as Hb.
  destruct (defer_busy red_transition 7) as [delay c']. destruct Hb as (_ & -> & _). vm_compute. reflexivity.
Defined.
