(* ===== verification/Findings.v ===== *)
(** * Findings: what the code does where its documentation says otherwise

    Closed runs of the model that exhibit behaviour the source's own comments
    do not describe. *)

From S2P Require Import Prelude PyText HeadVitality HeadVitalityEpisode HeadVitalityReduce HeadVitalityTraces.
From S2P Require Import HeadVitalityPolicy HeadVitalityGuard WaitVitality WaitVitalityFacts Scenarios.

(** A host that answers every call plainly. *)
Definition calm_host : Host := {|
  h_env := λ _, None; h_noop := false; h_clock := λ _, seconds 2000; h_addressable := true; h_prompt := Delivered;
  h_identity := LiveMatch; h_signal := Landed;
  h_respawn := λ why, Ok (outcome "ok" "worker-respawned" why); h_escalate := λ why, Ok (outcome "ok" "blocked" why) |}.

(** ** One refusal, many sightings *)

Definition first_slot : RoleState := {|
  vitality_episode := None; head_run_id := "r1"; head_adapter := ""; waiting_since := 0;
  role_started_at := 0; progress_at := 0; respawns := 0; role_paused_at := 0; pid_file := "";
  idle_since := 0; idle_confirmations := 0 |}.

Definition first_record : WaitRecord := {|
  worker_slot := first_slot; review_slot := first_slot; worker_retained := false; worker_answer_owed_since := 0;
  report_generation := 1; worker_report_nudge := {| n_stage := N_NONE; n_generation := 0; n_sent_at := 0 |};
  comment_baseline := "" |}.

Definition worker_tick (s : Z) (status : list (string * pyval)) : WaitTick := {|
  wt_host := calm_host; wt_kind := Worker; wt_reading := inl status; wt_provider := None; wt_now := seconds s;
  wt_cut := None |}.

Definition alive : string * pyval := ("pid_status", VDict [("state", VStr "live-match")]).

Definition provider_says (state why cur : string) : string * pyval := ("provider_progress", VDict [
  ("state", VStr state); ("admission", VStr "accepted"); ("head_run_id", VStr "r1"); ("reason", VStr why);
  ("cursor", VStr cur)]).

(** One refusal, then two ticks in which the provider answers, then a tick in
    which it is silent for another reason. *)
Definition one_refusal : list WaitTick := [
  worker_tick 1000 [alive; provider_says "refused" "terminal_split_source_not_found" ""];
  worker_tick 1060 [alive; provider_says "observed" "" "42"];
  worker_tick 1120 [alive; provider_says "observed" "" "42"];
  worker_tick 1180 [provider_says "silent" "" ""]].

(** The text filed under a key, tick by tick. *)
Definition filed (key : string) (l : list Effect) : list string :=
  omap (λ x, match x with Commented k text => if String.eqb k key then Some text else None | _ => None end) l.

(** One refusal, read once, is counted on every later tick, also on those in
    which its source answers and nothing is refused, because the episode keeps
    the old diagnostic as its reason: the fourth tick tells the operator of
    four identical refusals. *)
Example one_refusal_counted_four_times :
  filed "worker-deterministic-refusal" (run_wait one_refusal first_record first_record) = ["4"].
Proof. vm_compute. reflexivity. Qed.

(** ** A confirmation that does not stick *)

(** A head of an adapter whose supervisor journal is read, which owes
    an answer since second 900. *)
Definition owing (t : Tick) : Tick := {|
  tk_now := tk_now t; tk_snapshots := tk_snapshots t; tk_retained := false; tk_owed := seconds 900;
  tk_adapter := "claude" |}.

Definition journal_dark_at (s : Z) : VitalitySnapshot :=
  reading "r1" SUPERVISOR_JOURNAL (seconds s) UNAVAILABLE P_UNKNOWN G_UNKNOWN None "journal is gone".

Definition idle_tick : Tick :=
  owing (tick_at 1700 [pid_at 1700 P_RUNNING; provider_at 1700 G_QUIET; journal_idle_at 1700 1050]).

Definition dark_tick : Tick :=
  owing (tick_at 1760 [pid_at 1760 P_RUNNING; provider_at 1760 G_QUIET; journal_dark_at 1760]).

(** Verdicts of a run of ticks. *)
Fixpoint verdicts (e : VitalityEpisode) (ticks : list Tick) : res (list VitalityVerdict) :=
  match ticks with
  | [] => Ok []
  | t :: rest =>
      e' ← tick_step DEFAULT_VITALITY_THRESHOLDS e t;
      l ← verdicts e' rest;
      Ok (verdict e' :: l)
  end.

(** A confirmation earned by an idle turn is dropped by the quiet arm when the
    journal goes dark: no progress, no suspension, no death, no new identity. *)
Example confirmation_is_not_sticky :
  verdicts progressed [idle_tick; dark_tick] = Ok [CONFIRMED_STALL; SUSPECTED_STALL].
Proof. vm_compute. reflexivity. Qed.

(** A clock too large for a float leaves both pure deciders as an exception. *)
Example huge_clock_raises :
  decide_recovery (Some progressed) None (VInt (10 ^ 400)) (Some DEFAULT_RECOVERY_THRESHOLDS)
    = Raise (Exn "OverflowError" "int too large to convert to float") ∧
  assert_destructive_allowed (Some progressed) "worker-respawn" (VInt (10 ^ 400)) "r1" 0
    = Raise (Exn "OverflowError" "int too large to convert to float").
Proof. vm_compute. split; reflexivity. Qed.
